(* ===== verification/_CoqProject ===== *)
-Q . S2P
Prelude.v
Spinlock.v
Allocator.v
Heap.v
CString.v
Blocks.v
PageTable.v
Task.v
Ring.v
Sync.v
MsgQueue.v
Vfs.v
TinyLex.v
TinyVm.v
TinyCc.v
Ramfs.v
Uart.v
User.v
Cpu.v
Mmio.v
Sd.v
Fb.v
Kb.v
Irq.v
Fat32.v
Shell.v
Vi.v
Elf.v
Commands.v
Programs.v
