(* ===== verification/Prelude.v ===== *)
(** * HudOS: a verification development

    HudOS is a bare-metal operating system for the Raspberry Pi 4 (src/*.c).
    It runs at EL2 on one core: a heap, round-robin tasks switched by the timer
    interrupt, semaphores and message queues, an in-memory file system tree, a
    FAT32 reader, a serial console with a shell and an editor, an ELF loader and
    a small C compiler with a byte-code machine.  This library translates those
    parts into executable definitions, function by function, and proves what
    makes each of them correct.

    ** How the code is embedded

    A C function is a Coq function with the state it touches passed in and out.
    [outcome] is the result of running it: [Ret] a value, [Undef] when the C
    code would read or write outside an object, follow a null pointer or read
    what nobody wrote, and [Hang] when it would spin for ever.  A theorem that
    ends in [= Ret _] is therefore also a memory-safety and termination result.
    Integers are [Z] with the wrap-around written where the code can reach it
    ([u32], [u64], [s32] ...); signed overflow wraps, the way the kernel is
    compiled.  [char] is unsigned, as on AArch64, and characters are 0..255.  A
    pointer to characters is the list of the bytes up to the end of its object
    (CString.v); heap blocks are the bytes [blocks] keeps by address (Blocks.v).
    Loops are recursion on what shrinks, or on fuel that a theorem shows to be
    enough; a loop that waits for a device or for another task is modelled round
    by round, or yields [None] for "still waiting".  What hardware delivers
    (keys, timer counters, the contents of fresh memory, sectors of the card) is
    an argument.

    ** The files

    - Prelude.v: integers, [outcome] and its notation, counted loops, list access.
    - Spinlock.v (spinlock.h): the lock as one core sees it, and the assembly
      of the lock for any number of cores as a step relation.
    - Allocator.v: the class that states what the heap promises to its clients;
      Heap.v (alloc.c): the free-list allocator, an instance of it.
    - CString.v (string.c), Blocks.v: strings, byte copies, numbers, blocks.
    - PageTable.v (proc.c, mmu.c): per-process translation tables, the AArch64
      table walk that reads them, and the kernel's own map.
    - Task.v (task.c, sched.c, switch.S, the IRQ tick): the task table, the
      scheduler, context switches, task creation and death.
    - User.v (user.c): isolated EL1 tasks; Cpu.v (cpu.c, syscall.c, vectors.S):
      system calls and exceptions on the kernel, its user tasks and the file
      system together ([machine]).
    - Ring.v, Sync.v (semaphore.c, mutex.h), MsgQueue.v (msgqueue.c).
    - Vfs.v (vfs.c), Ramfs.v (ramfs.c), Fat32.v (fat32.c): file systems.
    - TinyLex.v, TinyCc.v, TinyVm.v (tinycc.c): scanner, one-pass compiler and
      byte-code machine.
    - Uart.v (uart.c): the console, its interrupt ring, kprintf, line input.
    - Shell.v, Vi.v (kernel.c): paths, history, completion, line input; vi.
    - Elf.v (elf.c): the ELF64 loader.

    Clients of the heap (Task, PageTable, Vfs, Ramfs, TinyCc, Vi, Elf) are proved
    against the class [AllocatorLaws]; Heap.v proves the laws of alloc.c, and the
    witnesses run the clients on that heap.  In the same way FAT32 takes the card
    as a function, and the loader takes the creation of a task.

    ** The theorems

    - The lock excludes, in every interleaving of the instructions, and the
      one-core view refines the assembly (Spinlock).
    - The heap never hands out overlapping blocks, kfree takes away exactly one,
      and its counters are exact in every reachable heap (Heap).
    - Every sequence of task operations keeps the task table, the stacks and the
      tables sound; the scheduler is round robin, a ready task runs within a
      bounded number of ticks, and a task finds its registers as it left them
      (Task).  Page tables translate as they should, and unmapping removes
      exactly its range (PageTable).
    - User tasks stay out of each other's stacks (User).  System calls keep the
      whole machine sound and move the right bytes, and an exception kills the
      task that made it or stops the machine, and harms nothing else (Cpu).
    - Semaphores, mutexes and message queues refine a counter, exclusion and a
      bounded FIFO (Sync, MsgQueue).
    - The file systems: an invariant every call keeps, each call's effect on
      every branch, round trips of contents, names and tables (Vfs, Ramfs,
      Fat32).
    - The compiler and its machine are safe on any input (TinyCc, TinyVm), the
      console prints what a format means and edits a line like a reference
      editor (Uart), paths and editor keys do what they mean (Shell, Vi), and
      the loader stays inside the file and the window (Elf).

    ** Bounds and fuel

    Fuel is always a quantity of the input that the code's loop reduces: the
    characters left (scanner, compiler, shell, vi), the blocks of the heap, the
    inodes of the tree, the pages of a range.  Two loops have no bound in the
    code and keep explicit fuel: the byte-code machine, whose programs may run
    for ever, and a FAT cluster chain, which may be a cycle.

    ** Not modelled

    See the components marked so in the manifest.  The boot and vector assembly,
    device initialisation sequences and the programs of userspace/ are
    outside: their meaning is that of the hardware.  tiny_c_compiler/ and tcc/
    are compilers for the host with no part in the running kernel. *)
From Stdlib Require Export ZArith Lia.
From stdpp Require Export prelude list gmap numbers strings.

#[global] Open Scope Z_scope.
#[global] Set Default Goal Selector "!".

(** ** Machine integers

    An [unsigned] value of [w] bits is the [Z] in [0, 2^w); a signed one the
    [Z] in [-2^(w-1), 2^(w-1)).  The wrap-around is written out wherever the
    code's arithmetic can reach it. *)
Definition wrap (w z : Z) : Z := z mod 2 ^ w.
Definition swrap (w z : Z) : Z := (z + 2 ^ (w - 1)) mod 2 ^ w - 2 ^ (w - 1).

Abbreviation u8 := (wrap 8).
Abbreviation u16 := (wrap 16).
Abbreviation u32 := (wrap 32).
Abbreviation u64 := (wrap 64).
Abbreviation s32 := (swrap 32).
Abbreviation s64 := (swrap 64).

(** C truth values: comparisons and [!] yield the [int] 1 or 0. *)
Definition c_bool (b : bool) : Z := if b then 1 else 0.

(** Addresses and [unsigned long] bounds used by several components. *)
Abbreviation ULONG_MAX := 18446744073709551615 (only parsing).
Abbreviation INT_MIN := (-2147483648) (only parsing).
Abbreviation INT_MAX := 2147483647 (only parsing).

Lemma wrap_range (w z : Z) : 0 <= w -> 0 <= wrap w z < 2 ^ w.
Proof. intros Hw. apply Z.mod_pos_bound. by apply Z.pow_pos_nonneg. Qed.

Lemma wrap_small (w z : Z) : 0 <= z < 2 ^ w -> wrap w z = z.
Proof. apply Z.mod_small. Qed.

Lemma wrap_wrap (w z : Z) : wrap w (wrap w z) = wrap w z.
Proof. apply Zmod_mod. Qed.

Lemma swrap_range (w z : Z) : 0 < w -> - 2 ^ (w - 1) <= swrap w z < 2 ^ (w - 1).
Proof.
  intros Hw. unfold swrap.
  assert (2 ^ w = 2 * 2 ^ (w - 1)) as Hd.
  { rewrite <- Z.pow_succ_r by lia. f_equal. lia. }
  assert (0 < 2 ^ w) as Hp by (apply Z.pow_pos_nonneg; lia).
  pose proof (Z.mod_pos_bound (z + 2 ^ (w - 1)) (2 ^ w) Hp). lia.
Qed.

Lemma swrap_small (w z : Z) : 0 < w -> - 2 ^ (w - 1) <= z < 2 ^ (w - 1) -> swrap w z = z.
Proof.
  intros Hw Hz. unfold swrap.
  assert (2 ^ w = 2 * 2 ^ (w - 1)) as Hd.
  { rewrite <- Z.pow_succ_r by lia. f_equal. lia. }
  rewrite Z.mod_small; lia.
Qed.

Lemma s32_small (z : Z) : INT_MIN <= z <= INT_MAX -> s32 z = z.
Proof. intros H. apply swrap_small; [lia|]. change (2 ^ (32 - 1)) with 2147483648. lia. Qed.

Lemma u64_small (z : Z) : 0 <= z <= ULONG_MAX -> u64 z = z.
Proof. intros H. apply wrap_small. change (2 ^ 64) with (ULONG_MAX + 1). lia. Qed.

Lemma u32_small (z : Z) : 0 <= z < 4294967296 -> u32 z = z.
Proof. intros H. by apply wrap_small. Qed.

Lemma u8_small (z : Z) : 0 <= z < 256 -> u8 z = z.
Proof. intros H. by apply wrap_small. Qed.

Lemma u8_range (z : Z) : 0 <= u8 z < 256.
Proof. by apply (wrap_range 8). Qed.

Lemma u32_range (z : Z) : 0 <= u32 z < 4294967296.
Proof. by apply (wrap_range 32). Qed.

Lemma u64_range (z : Z) : 0 <= u64 z <= ULONG_MAX.
Proof. pose proof (wrap_range 64 z). change (2 ^ 64) with (ULONG_MAX + 1) in H. lia. Qed.

Lemma s32_range (z : Z) : INT_MIN <= s32 z <= INT_MAX.
Proof. pose proof (swrap_range 32 z). change (2 ^ (32 - 1)) with 2147483648 in H. lia. Qed.

Create HintDb cint.
#[export] Hint Resolve u8_range u32_range u64_range s32_range : cint.
#[export] Hint Rewrite s32_small u64_small u32_small u8_small using lia : cint.
(** [csimp] removes every wrap-around whose argument [lia] proves in range. *)
Ltac csimp := autorewrite with cint in *.

(** ** Outcomes of the C code

    [Ret a]: the code returns [a].  [Panic]: an [ASSERT] failed or [panic] was
    called.  [Undef]: an access outside an array or to a block that is not
    allocated.  [Hang]: the code never returns (a spin that nothing can end). *)
Inductive outcome (A : Type) : Type :=
| Ret (a : A)
| Panic
| Undef
| Hang.
Arguments Ret {A} a.
Arguments Panic {A}.
Arguments Undef {A}.
Arguments Hang {A}.

#[global] Instance outcome_ret : MRet outcome := @Ret.
#[global] Instance outcome_bind : MBind outcome := fun A B f m =>
  match m with
  | Ret a => f a
  | Panic => Panic
  | Undef => Undef
  | Hang => Hang
  end.

#[global] Instance outcome_eq_dec {A} `{EqDecision A} : EqDecision (outcome A).
Proof. solve_decision. Defined.

Lemma Ret_inj {A} (a b : A) : Ret a = Ret b -> a = b.
Proof. by intros [= ->]. Qed.

Lemma bind_Ret {A B} (a : A) (f : A -> outcome B) : Ret a ≫= f = f a.
Proof. reflexivity. Qed.

Lemma bind_Ret_inv {A B} (m : outcome A) (f : A -> outcome B) (b : B) :
  m ≫= f = Ret b -> exists a, m = Ret a /\ f a = Ret b.
Proof. destruct m; simpl; try discriminate. eauto. Qed.

Lemma bind_assoc {A B C} (m : outcome A) (f : A -> outcome B) (g : B -> outcome C) :
  (m ≫= f) ≫= g = m ≫= (fun a => f a ≫= g).
Proof. by destruct m. Qed.

(** [c_assert b] is [ASSERT(b)] of panic.h. *)
Definition c_assert (b : bool) : outcome unit := if b then Ret tt else Panic.

(** ** Arrays: [l[i]] and [l[i] = v], undefined outside the array *)
Definition aget {A} (l : list A) (i : Z) : outcome A :=
  if bool_decide (0 <= i) then
    match l !! Z.to_nat i with Some x => Ret x | None => Undef end
  else Undef.

Definition aset {A} (l : list A) (i : Z) (v : A) : outcome (list A) :=
  if bool_decide (0 <= i < Z.of_nat (length l)) then Ret (<[Z.to_nat i := v]> l) else Undef.

Abbreviation zlen l := (Z.of_nat (length l)).

Section Arrays.
Context {A : Type}.
Implicit Types (l : list A) (i j : Z) (x v : A).

Lemma aget_Ret l i x : aget l i = Ret x <-> 0 <= i /\ l !! Z.to_nat i = Some x.
Proof.
  unfold aget. case_bool_decide; [|split; [done|lia]].
  destruct (l !! Z.to_nat i) eqn:E; naive_solver.
Qed.

Lemma aget_ext l l' i : l !! Z.to_nat i = l' !! Z.to_nat i -> aget l i = aget l' i.
Proof. unfold aget. by intros ->. Qed.

Lemma aget_ok l i : 0 <= i < zlen l -> exists x, aget l i = Ret x.
Proof.
  intros Hi. destruct (lookup_lt_is_Some_2 l (Z.to_nat i)) as [x Hx]; [lia|].
  exists x. apply aget_Ret. split; [lia|done].
Qed.

Lemma aget_out l i : ~ 0 <= i < zlen l -> aget l i = Undef.
Proof.
  intros Hi. unfold aget. case_bool_decide; [|done].
  by rewrite (proj2 (lookup_ge_None l (Z.to_nat i))) by lia.
Qed.

Lemma aset_out l i v : ~ 0 <= i < zlen l -> aset l i v = Undef.
Proof. intros Hi. unfold aset. by rewrite bool_decide_false. Qed.

Lemma aget_lt l i x : aget l i = Ret x -> 0 <= i < zlen l.
Proof. rewrite aget_Ret. intros [Hi Hl]. apply lookup_lt_Some in Hl. lia. Qed.

Lemma aset_ok l i v : 0 <= i < zlen l -> aset l i v = Ret (<[Z.to_nat i := v]> l).
Proof. intros Hi. unfold aset. by rewrite bool_decide_true. Qed.

Lemma aset_Ret l i v l' :
  aset l i v = Ret l' <-> 0 <= i < zlen l /\ l' = <[Z.to_nat i := v]> l.
Proof. unfold aset. case_bool_decide; naive_solver. Qed.

Lemma aget_insert_eq l i v : 0 <= i < zlen l -> aget (<[Z.to_nat i := v]> l) i = Ret v.
Proof. intros Hi. apply aget_Ret. split; [lia|]. apply list_lookup_insert_eq. lia. Qed.

Lemma aget_insert_ne l i j v :
  i <> j -> 0 <= i -> aget (<[Z.to_nat i := v]> l) j = aget l j.
Proof.
  intros Hij Hi. unfold aget. case_bool_decide; [|done].
  rewrite list_lookup_insert_ne; [done|lia].
Qed.

Lemma aget_bind {B} l i x (f : A -> outcome B) : aget l i = Ret x -> aget l i ≫= f = f x.
Proof. by intros ->. Qed.
End Arrays.

Lemma aset_app {A} (pre : list A) x rest i v :
  i = zlen pre -> aset (pre ++ x :: rest) i v = Ret ((pre ++ [v]) ++ rest).
Proof.
  intros ->. rewrite aset_ok by (rewrite length_app; simpl; lia).
  rewrite Nat2Z.id, insert_app_r_alt by lia. rewrite Nat.sub_diag. simpl. by rewrite <- app_assoc.
Qed.

Lemma aget_app {A} (pre : list A) x rest i :
  i = zlen pre -> aget (pre ++ x :: rest) i = Ret x.
Proof. intros ->. apply aget_Ret. split; [lia|]. rewrite Nat2Z.id. by apply list_lookup_middle. Qed.

(** ** Bit fields *)

Lemma lor_low (a b k : Z) : 0 <= k -> a mod 2 ^ k = 0 -> 0 <= b < 2 ^ k -> Z.lor a b = a + b.
Proof.
  intros Hk Ha Hb. rewrite <- Z.lxor_lor, <- Z.add_nocarry_lxor; [done|..];
    (apply Z.bits_inj'; intros n Hn; rewrite Z.land_spec, Z.bits_0;
     destruct (Z.lt_ge_cases n k) as [Hlt|Hge];
     [rewrite <- (Z.mod_pow2_bits_low a k n), Ha, Z.bits_0 by lia; done|
      rewrite <- (Z.mod_small b (2 ^ k)), Z.mod_pow2_bits_high by lia; by rewrite andb_false_r]).
Qed.

Lemma land_low (a k : Z) : 0 <= k -> Z.land a (Z.ones k) = a mod 2 ^ k.
Proof. apply Z.land_ones. Qed.

(** The field of [n] bits from bit [k] on, left in place. *)
Lemma land_field (a k n : Z) : 0 <= k -> 0 <= n ->
  Z.land a (Z.shiftl (Z.ones n) k) = ((a / 2 ^ k) mod 2 ^ n) * 2 ^ k.
Proof.
  intros Hk Hn. rewrite <- Z.land_ones, <- Z.shiftr_div_pow2, <- Z.shiftl_mul_pow2 by lia.
  apply Z.bits_inj'. intros m Hm.
  rewrite Z.land_spec, !Z.shiftl_spec by lia. rewrite Z.land_spec.
  destruct (Z.lt_ge_cases m k) as [Hlt|Hge].
  - rewrite !(Z.testbit_neg_r _ (m - k)) by lia. by rewrite !andb_false_r.
  - rewrite Z.shiftr_spec by lia. by replace (m - k + k) with m by lia.
Qed.

(** Clearing the low [k] bits. *)
Lemma land_lnot_low (a k : Z) : 0 <= k -> Z.land a (Z.lnot (2 ^ k - 1)) = a / 2 ^ k * 2 ^ k.
Proof.
  intros Hk. replace (2 ^ k - 1) with (Z.ones k) by (rewrite Z.ones_equiv; lia).
  rewrite <- Z.ldiff_land, Z.ldiff_ones_r by lia.
  by rewrite Z.shiftl_mul_pow2, Z.shiftr_div_pow2 by lia.
Qed.

(** ** Counted loops *)

(** [for(i = lo; i < hi; i++) body] with no exit but the bound. *)
Fixpoint for_count {St} (n : nat) (i : Z) (body : Z -> St -> outcome St) (s : St) : outcome St :=
  match n with
  | O => Ret s
  | S n => s ← body i s; for_count n (i + 1) body s
  end.
Definition for_range {St} (lo hi : Z) (body : Z -> St -> outcome St) (s : St) : outcome St :=
  for_count (Z.to_nat (hi - lo)) lo body s.

(** A loop that stops at the first index the test accepts. *)
Fixpoint find_count (n : nat) (i : Z) (p : Z -> outcome bool) : outcome (option Z) :=
  match n with
  | O => Ret None
  | S n => b ← p i; if (b : bool) then Ret (Some i) else find_count n (i + 1) p
  end.
Definition find_range (lo hi : Z) (p : Z -> outcome bool) : outcome (option Z) :=
  find_count (Z.to_nat (hi - lo)) lo p.

(** The invariant rule of a counted loop: every round returns and keeps [I]. *)
Lemma for_range_ind {St} (I : Z -> St -> Prop) lo hi body s :
  lo <= hi -> I lo s ->
  (forall i s, lo <= i < hi -> I i s -> exists s', body i s = Ret s' /\ I (i + 1) s') ->
  exists s', for_range lo hi body s = Ret s' /\ I hi s'.
Proof.
  unfold for_range. intros Hle HI Hb.
  assert (forall n i s, i = hi - Z.of_nat n -> lo <= i -> I i s ->
    exists s', for_count n i body s = Ret s' /\ I hi s') as H.
  { induction n as [|n IH]; intros i s0 Ei Hi HI0; simpl.
    - exists s0. split; [done|]. by replace hi with i by lia.
    - destruct (Hb i s0) as (s1 & E & HI1); [lia|done|]. rewrite E, bind_Ret.
      apply IH; [lia|lia|done]. }
  apply H; [lia|lia|done].
Qed.

Lemma find_range_Some (f : Z -> bool) (p : Z -> outcome bool) lo hi :
  (forall i, lo <= i < hi -> p i = Ret (f i)) ->
  (exists i, find_range lo hi p = Ret (Some i) /\ lo <= i < hi /\ f i = true
     /\ forall j, lo <= j < i -> f j = false)
  \/ (find_range lo hi p = Ret None /\ forall j, lo <= j < hi -> f j = false).
Proof.
  unfold find_range. intros Hp.
  assert (forall n i, i + Z.of_nat n = hi -> lo <= i ->
    (exists j, find_count n i p = Ret (Some j) /\ i <= j < hi /\ f j = true
       /\ forall k, i <= k < j -> f k = false)
    \/ (find_count n i p = Ret None /\ forall k, i <= k < hi -> f k = false)) as H.
  { induction n as [|n IH]; intros i Ei Hi; simpl.
    - right. split; [done|]. intros k Hk. lia.
    - rewrite Hp, bind_Ret by lia. destruct (f i) eqn:Ef.
      + left. exists i. split_and!; [done|lia|lia|done|]. intros k Hk. lia.
      + destruct (IH (i + 1)) as [(j & E & ? & ? & Hk)|[E Hk]]; [lia|lia|left|right].
        * exists j. split_and!; [done|lia|lia|done|]. intros k ?.
          destruct (decide (k = i)) as [->|]; [done|]. apply Hk. lia.
        * split; [done|]. intros k ?. destruct (decide (k = i)) as [->|]; [done|]. apply Hk. lia. }
  destruct (decide (lo <= hi)) as [Hle|Hgt].
  - apply H; lia.
  - right. replace (Z.to_nat (hi - lo)) with 0%nat by lia. split; [done|]. intros j Hj. lia.
Qed.

#[global] Opaque aget aset.
Create HintDb arr.
#[export] Hint Resolve aget_ok aset_ok aget_lt aget_insert_eq : arr.
#[export] Hint Rewrite @length_insert : arr.

(** [obind] steps through a monadic computation whose next action is known. *)
Ltac obind := repeat first [rewrite bind_Ret | progress simpl].
(** [outcome_inv] turns [m >>= f = Ret b] hypotheses into the equations of each action. *)
Ltac outcome_inv :=
  repeat match goal with
  | H : Ret _ = Ret _ |- _ => injection H as H; subst
  | H : _ ≫= _ = Ret _ |- _ =>
      let a := fresh "a" in let E := fresh "E" in
      apply bind_Ret_inv in H as (a & E & H)
  | H : Undef = Ret _ |- _ => discriminate H
  | H : Panic = Ret _ |- _ => discriminate H
  | H : Hang = Ret _ |- _ => discriminate H
  end.
