(* ===== verification/Spinlock.v ===== *)
(** spinlock.h: the AArch64 exclusive-access spinlock.

    [spin_lock] and the other operations at the top are the view of one core,
    which is what the kernel runs on: with IRQs masked nobody else can release
    a lock, so taking a lock that is held never returns ([Hang]).  [Exclusives]
    models the assembly of [spin_lock], [spin_trylock] and [spin_unlock]
    instruction by instruction, for any number of cores with one exclusive
    monitor each, and shows that the lock gives mutual exclusion; the one-core
    view is an abstraction of it. *)
From stdpp Require Import relations functions.
From S2P Require Import Prelude.

Record spinlock_t := mk_spinlock { lock : Z }.
(** The interrupt mask register of the core: bit 7 is I. *)
Record cpu := mk_cpu { daif : Z }.

#[global] Instance spinlock_eq_dec : EqDecision spinlock_t.
Proof. solve_decision. Defined.
#[global] Instance cpu_eq_dec : EqDecision cpu.
Proof. solve_decision. Defined.

Definition DAIF_I : Z := 128.

Definition SPINLOCK_INIT : spinlock_t := mk_spinlock 0.
Definition spin_init (s : spinlock_t) : spinlock_t := mk_spinlock 0.

Definition spin_lock (s : spinlock_t) : outcome spinlock_t :=
  if lock s =? 0 then Ret (mk_spinlock 1) else Hang.

Definition spin_unlock (s : spinlock_t) : spinlock_t := mk_spinlock 0.

(** returns 1 if acquired, 0 if not *)
Definition spin_trylock (s : spinlock_t) : Z * spinlock_t :=
  if lock s =? 0 then (1, mk_spinlock 1) else (0, s).

(** returns the previous DAIF *)
Definition spin_lock_irqsave (s : spinlock_t) (c : cpu) : outcome (Z * spinlock_t * cpu) :=
  let flags := daif c in
  let c := mk_cpu (Z.lor (daif c) DAIF_I) in
  s ← spin_lock s;
  Ret (flags, s, c).

Definition spin_unlock_irqrestore (s : spinlock_t) (flags : Z) (c : cpu) : spinlock_t * cpu :=
  (spin_unlock s, mk_cpu flags).

Lemma irqsave_free (s : spinlock_t) (c : cpu) :
  lock s = 0 ->
  spin_lock_irqsave s c = Ret (daif c, mk_spinlock 1, mk_cpu (Z.lor (daif c) DAIF_I)).
Proof. intros H. unfold spin_lock_irqsave, spin_lock. by rewrite H. Qed.

(** An [irqsave]/[irqrestore] pair gives the lock back and leaves DAIF as it was. *)
Lemma irqrestore_daif (s : spinlock_t) (c c' : cpu) :
  spin_unlock_irqrestore s (daif c) c' = (mk_spinlock 0, c).
Proof. by destruct c. Qed.

Module Exclusives.

(** Where a core is in the assembly; [tmp] is the value of [w0]. *)
Inductive pc :=
| Idle
| Lk_ldaxr
| Lk_cbnz (tmp : Z)
| Lk_mov
| Lk_stxr
| Lk_cbnz2 (tmp : Z)
| Tr_ldaxr
| Tr_cbnz (tmp : Z)
| Tr_mov
| Tr_stxr
| Tr_cbz (tmp : Z)
| Tr_fail
| Tr_ok
| Held.

Record machine := mk_machine {
  word : Z;              (* the lock word *)
  mon : nat -> bool;     (* each core's exclusive monitor *)
  at_pc : nat -> pc
}.

Definition goto (m : machine) (c : nat) (p : pc) : machine :=
  mk_machine (word m) (mon m) (<[c := p]> (at_pc m)).
Definition set_mon (m : machine) (c : nat) (b : bool) : machine :=
  mk_machine (word m) (<[c := b]> (mon m)) (at_pc m).
(** A store to the lock word opens every monitor that watched it. *)
Definition store (m : machine) (v : Z) : machine :=
  mk_machine v (fun _ => false) (at_pc m).

(** One instruction of core [c]. *)
Inductive istep (c : nat) : machine -> machine -> Prop :=
(* spin_lock *)
| i_call_lock m : at_pc m c = Idle -> istep c m (goto m c Lk_ldaxr)
| i_lk_ldaxr m : at_pc m c = Lk_ldaxr ->
    istep c m (goto (set_mon m c true) c (Lk_cbnz (word m)))
| i_lk_cbnz_taken m t : at_pc m c = Lk_cbnz t -> t <> 0 -> istep c m (goto m c Lk_ldaxr)
| i_lk_cbnz_fall m : at_pc m c = Lk_cbnz 0 -> istep c m (goto m c Lk_mov)
| i_lk_mov m : at_pc m c = Lk_mov -> istep c m (goto m c Lk_stxr)
| i_lk_stxr_ok m : at_pc m c = Lk_stxr -> mon m c = true ->
    istep c m (goto (store m 1) c (Lk_cbnz2 0))
| i_lk_stxr_fail m : at_pc m c = Lk_stxr ->
    istep c m (goto (set_mon m c false) c (Lk_cbnz2 1))
| i_lk_cbnz2_taken m t : at_pc m c = Lk_cbnz2 t -> t <> 0 -> istep c m (goto m c Lk_ldaxr)
| i_lk_cbnz2_fall m : at_pc m c = Lk_cbnz2 0 -> istep c m (goto m c Held)
(* spin_trylock *)
| i_call_try m : at_pc m c = Idle -> istep c m (goto m c Tr_ldaxr)
| i_tr_ldaxr m : at_pc m c = Tr_ldaxr ->
    istep c m (goto (set_mon m c true) c (Tr_cbnz (word m)))
| i_tr_cbnz_taken m t : at_pc m c = Tr_cbnz t -> t <> 0 -> istep c m (goto m c Tr_fail)
| i_tr_cbnz_fall m : at_pc m c = Tr_cbnz 0 -> istep c m (goto m c Tr_mov)
| i_tr_mov m : at_pc m c = Tr_mov -> istep c m (goto m c Tr_stxr)
| i_tr_stxr_ok m : at_pc m c = Tr_stxr -> mon m c = true ->
    istep c m (goto (store m 1) c (Tr_cbz 0))
| i_tr_stxr_fail m : at_pc m c = Tr_stxr ->
    istep c m (goto (set_mon m c false) c (Tr_cbz 1))
| i_tr_cbz_taken m : at_pc m c = Tr_cbz 0 -> istep c m (goto m c Tr_ok)
| i_tr_cbz_fall m t : at_pc m c = Tr_cbz t -> t <> 0 -> istep c m (goto m c Tr_fail)
| i_tr_ret0 m : at_pc m c = Tr_fail -> istep c m (goto m c Idle)
| i_tr_ret1 m : at_pc m c = Tr_ok -> istep c m (goto m c Held)
(* spin_unlock: stlr wzr *)
| i_unlock m : at_pc m c = Held -> istep c m (goto (store m 0) c Idle)
(* the architecture may open a monitor at any time *)
| i_clrex m : istep c m (set_mon m c false).

Definition step (m m' : machine) : Prop := exists c, istep c m m'.

Definition initial : machine := mk_machine 0 (fun _ => false) (fun _ => Idle).

(** A core owns the lock from its successful [stxr] until its [stlr]. *)
Definition owner (m : machine) (c : nat) : Prop :=
  match at_pc m c with Lk_cbnz2 0 | Tr_cbz 0 | Tr_ok | Held => True | _ => False end.

(** A core that read 0 and has not stored yet. *)
Definition armed (m : machine) (c : nat) : Prop :=
  match at_pc m c with
  | Lk_cbnz 0 | Lk_mov | Lk_stxr | Tr_cbnz 0 | Tr_mov | Tr_stxr => True
  | _ => False
  end.

Record lock_inv (m : machine) : Prop := {
  inv_word : forall c, owner m c -> word m = 1;
  inv_free : word m = 0 \/ exists c, owner m c;
  inv_unique : forall c d, owner m c -> owner m d -> c = d;
  inv_armed : forall c, armed m c -> mon m c = true -> word m = 0
}.

Lemma at_pc_goto m c p d :
  at_pc (goto m c p) d = if decide (c = d) then p else at_pc m d.
Proof.
  simpl. unfold insert, fn_insert. done.
Qed.

Lemma mon_set_mon m c b d :
  mon (set_mon m c b) d = if decide (c = d) then b else mon m d.
Proof. done. Qed.

Lemma owner_goto m c p d :
  owner (goto m c p) d <->
  if decide (c = d) then
    match p with Lk_cbnz2 0 | Tr_cbz 0 | Tr_ok | Held => True | _ => False end
  else owner m d.
Proof. unfold owner. rewrite at_pc_goto. by case_decide. Qed.

Lemma armed_goto m c p d :
  armed (goto m c p) d <->
  if decide (c = d) then
    match p with
    | Lk_cbnz 0 | Lk_mov | Lk_stxr | Tr_cbnz 0 | Tr_mov | Tr_stxr => True
    | _ => False
    end
  else armed m d.
Proof. unfold armed. rewrite at_pc_goto. by case_decide. Qed.

(** A move of [c] that does not touch the word, gains no ownership, and arms
    [c] only if [c] was armed or the word is 0, keeps the invariant. *)
Lemma quiet_move m m' :
  lock_inv m ->
  word m' = word m ->
  (forall d, owner m' d <-> owner m d) ->
  (forall d, armed m' d -> mon m' d = true -> armed m d /\ mon m d = true \/ word m = 0) ->
  lock_inv m'.
Proof.
  intros [Hw Hf Hu Ha] Ew Ho Har. split.
  - intros d Hd. rewrite Ew. apply (Hw d), Ho, Hd.
  - rewrite Ew. destruct Hf as [|[d Hd]]; [by left|right; exists d; by apply Ho].
  - intros d e Hd He. apply Hu; by apply Ho.
  - intros d Hd Hm. rewrite Ew.
    destruct (Har d Hd Hm) as [[??]|]; [by apply (Ha d)|done].
Qed.

(** A successful [stxr] by an armed core takes a lock nobody owned. *)
Lemma take_move m c p :
  lock_inv m -> armed m c -> mon m c = true ->
  (p = Lk_cbnz2 0 \/ p = Tr_cbz 0) ->
  lock_inv (goto (store m 1) c p).
Proof.
  intros [Hw Hf Hu Ha] Hc Hm Hp.
  pose proof (Ha c Hc Hm) as H0.
  assert (forall d, ~ owner m d) as Hno.
  { intros d Hd. pose proof (Hw d Hd). lia. }
  assert (forall d, owner (goto (store m 1) c p) d -> c = d) as Hown.
  { intros d Hd%owner_goto. case_decide; [done|]. by destruct (Hno d). }
  split.
  - done.
  - right. exists c. apply owner_goto. rewrite decide_True by done. by destruct Hp as [->| ->].
  - intros d e Hd%Hown He%Hown. congruence.
  - intros d _. done.
Qed.

(** [stlr wzr] by the owner frees the lock. *)
Lemma drop_move m c : lock_inv m -> at_pc m c = Held -> lock_inv (goto (store m 0) c Idle).
Proof.
  intros [Hw Hf Hu Ha] Hc.
  assert (owner m c) as Hoc by (unfold owner; by rewrite Hc).
  assert (forall d, ~ owner (goto (store m 0) c Idle) d) as Hno.
  { intros d Hd%owner_goto. case_decide as E; [done|]. destruct E. by apply (Hu c d). }
  split.
  - intros d Hd. by destruct (Hno d).
  - by left.
  - intros d e Hd. by destruct (Hno d).
  - done.
Qed.

Lemma initial_inv : lock_inv initial.
Proof. by split; [|left|..]. Qed.

(** Decide which core each [owner]/[armed] fact is about, then compute. *)
Ltac core_cases :=
  repeat (rewrite ?owner_goto, ?armed_goto in *; simpl in *;
          rewrite ?mon_set_mon in *);
  unfold owner, armed, insert, fn_insert in *; simpl in *;
  repeat case_decide; subst; simplify_eq;
  repeat match goal with
  | H : at_pc ?m ?c = _, G : context [at_pc ?m ?c] |- _ => rewrite H in G
  | H : at_pc ?m ?c = _ |- context [at_pc ?m ?c] => rewrite H
  end.

Lemma istep_inv c m m' : istep c m m' -> lock_inv m -> lock_inv m'.
Proof.
  intros Hs Hinv.
  destruct Hs;
    try (apply (quiet_move m); [done|done|..];
         [ intros d; core_cases; repeat case_match; naive_solver
         | intros d Hd Hm; core_cases; repeat case_match; naive_solver ]);
    try (apply take_move; [done|unfold armed; by rewrite H|done|naive_solver]).
  by apply drop_move.
Qed.

Lemma reachable_inv m : rtc step initial m -> lock_inv m.
Proof.
  intros H. revert m H. apply (rtc_ind_r lock_inv); [apply initial_inv|].
  intros y z _ [c Hs] Hy. by eapply istep_inv.
Qed.

(** *** One core running alone *)

(** While the word is not 0 a lone core inside [spin_lock] only loops. *)
Definition spinning (c : nat) (m : machine) : Prop :=
  word m <> 0 /\
  match at_pc m c with Lk_ldaxr => True | Lk_cbnz t => t <> 0 | _ => False end.

Lemma spinning_step c m m' : istep c m m' -> spinning c m -> spinning c m'.
Proof.
  intros Hs [Hw Hp]. unfold spinning in *.
  destruct Hs; core_cases; simpl in *; naive_solver.
Qed.

Lemma spinning_run c m m' : rtc (istep c) m m' -> spinning c m -> spinning c m'.
Proof. induction 1; eauto using spinning_step. Qed.

(** A lone core that owns the lock sees 1 in the word. *)
Definition owns_one (c : nat) (m : machine) : Prop := owner m c -> word m = 1.

Lemma owns_one_step c m m' : istep c m m' -> owns_one c m -> owns_one c m'.
Proof.
  intros Hs Hp. unfold owns_one in *.
  destruct Hs; core_cases; simpl in *; repeat case_match; naive_solver.
Qed.

Lemma owns_one_run c m m' : rtc (istep c) m m' -> owns_one c m -> owns_one c m'.
Proof. induction 1; eauto using owns_one_step. Qed.

(** Five instructions take a free lock. *)
Lemma take_run c m :
  at_pc m c = Lk_ldaxr -> word m = 0 ->
  exists m', rtc (istep c) m m' /\ at_pc m' c = Held /\ word m' = 1.
Proof.
  intros Hp Hw. eexists. split; [|split].
  - eapply rtc_l; [by apply i_lk_ldaxr|]. rewrite Hw.
    eapply rtc_l; [apply i_lk_cbnz_fall|].
    { by rewrite at_pc_goto, decide_True. }
    eapply rtc_l; [apply i_lk_mov; by rewrite at_pc_goto, decide_True|].
    eapply rtc_l; [apply i_lk_stxr_ok|].
    { by rewrite at_pc_goto, decide_True. }
    { simpl. unfold insert, fn_insert. by rewrite decide_True. }
    eapply rtc_l; [apply i_lk_cbnz2_fall; by rewrite at_pc_goto, decide_True|].
    apply rtc_refl.
  - by rewrite at_pc_goto, decide_True.
  - done.
Qed.
End Exclusives.

Import Exclusives.

(** C13. Mutual exclusion of the spinlock, by rule induction on the instruction
    steps of any number of cores: in every state reachable from the unlocked
    lock at most one core is inside the critical section, and while one is,
    the lock word is 1. *)
Theorem spinlock_mutual_exclusion (m : machine) (c d : nat) :
  rtc step initial m ->
  at_pc m c = Held -> at_pc m d = Held -> c = d /\ word m = 1.
Proof.
  intros Hr%reachable_inv Hc Hd.
  split; [apply (inv_unique m Hr)|apply (inv_word m Hr c)]; unfold owner;
    by rewrite ?Hc, ?Hd.
Qed.

(** The one-core view is the assembly run by a lone core: [spin_lock]
    returns a lock state exactly when the instruction loop can reach the
    critical section with that word, and it is [Hang] exactly when the loop
    never gets there. *)
Theorem spin_lock_refines_assembly (m : machine) (c : nat) (s : spinlock_t) :
  at_pc m c = Lk_ldaxr ->
  spin_lock (mk_spinlock (word m)) = Ret s <->
  exists m', rtc (istep c) m m' /\ at_pc m' c = Held /\ s = mk_spinlock (word m').
Proof.
  intros Hp. unfold spin_lock; simpl. destruct (Z.eqb_spec (word m) 0) as [Hw|Hw]; split.
  - intros [= <-]. destruct (take_run c m Hp Hw) as (m' & ? & ? & Hm). exists m'. by rewrite Hm.
  - intros (m' & Hr & Hh & ->).
    assert (owns_one c m') as Ho.
    { eapply owns_one_run; [done|]. unfold owns_one, owner. by rewrite Hp. }
    unfold owns_one, owner in Ho. rewrite Hh in Ho. by rewrite (Ho I).
  - done.
  - intros (m' & Hr & Hh & _).
    assert (spinning c m') as [_ Hs].
    { eapply spinning_run; [done|]. unfold spinning. by rewrite Hp. }
    by rewrite Hh in Hs.
Qed.

(** Core 1 takes the lock while core 0 spins. *)
Lemma spinlock_mutual_exclusion_witness :
  exists m, at_pc m 1%nat = Held /\ word m = 1.
Proof.
  destruct (take_run 1%nat (goto initial 1%nat Lk_ldaxr) eq_refl eq_refl) as (m & Hr & Hh & _).
  exists m. split; [done|].
  apply (spinlock_mutual_exclusion m 1%nat 1%nat); [|done|done].
  eapply rtc_l; [exists 1%nat; by apply i_call_lock|].
  eapply rtc_subrel; [|done]. intros x y H. by exists 1%nat.
Defined.

Lemma spin_lock_refines_assembly_witness :
  exists m', rtc (istep 0%nat) (goto initial 0%nat Lk_ldaxr) m' /\ at_pc m' 0%nat = Held.
Proof.
  destruct (proj1 (spin_lock_refines_assembly
    (goto initial 0%nat Lk_ldaxr) 0%nat (mk_spinlock 1) eq_refl) eq_refl) as (m' & ? & ? & _).
  by exists m'.
Defined.
