(* ===== verification/Allocator.v ===== *)
(** What alloc.c promises to its clients (task.c, vfs.c, proc.c, tinycc.c ...).

    [Allocator] is the interface the clients call and [AllocatorLaws] its
    contract; the clients' theorems use only the contract, and Heap.v proves it
    of the free-list allocator.  [al_live h p n]: [p] was handed out, has not
    been freed, and [n] bytes are usable behind it. *)
From S2P Require Import Prelude.

(** A request the contract covers: a power-of-two alignment and a size for
    which the header and padding cannot wrap around 2^64. *)
Definition request_ok (size align : Z) : Prop :=
  0 < size <= 2 ^ 61 /\ 0 < align <= 2 ^ 61 /\ Z.land align (align - 1) = 0.

Class Allocator (H : Type) := {
  al_alloc : Z -> Z -> H -> outcome (Z * H);   (* kmalloc_aligned(size, align) *)
  al_free : Z -> H -> outcome H;               (* kfree(ptr) *)
  al_wf : H -> Prop;
  al_live : H -> Z -> Z -> Prop
}.

(** Two byte ranges do not meet. *)
Definition ranges_apart (p n q m : Z) : Prop := p + n <= q \/ q + m <= p.

(** Either null, with nothing changed for the clients, or a new aligned block. *)
Definition alloc_result {H} `{Allocator H} (size align : Z) (h : H) (p : Z) (h' : H) : Prop :=
  (p = 0 /\ forall q n, al_live h' q n <-> al_live h q n)
  \/ (p <> 0 /\ p mod align = 0 /\ (forall n, ~ al_live h p n)
      /\ exists cap, size <= cap /\ forall q n, al_live h' q n <-> (q = p /\ n = cap) \/ al_live h q n).

Class AllocatorLaws (H : Type) `{Allocator H} := {
  al_live_bound h p n : al_wf h -> al_live h p n -> 0 < p /\ p + n <= 2 ^ 48;
  al_live_fun h p n m : al_wf h -> al_live h p n -> al_live h p m -> n = m;
  al_live_apart h p n q m : al_wf h -> al_live h p n -> al_live h q m -> p <> q ->
    ranges_apart p n q m;
  al_alloc_ok size align h : al_wf h -> request_ok size align ->
    exists p h', al_alloc size align h = Ret (p, h') /\ al_wf h' /\ alloc_result size align h p h';
  al_free_ok h p n : al_wf h -> al_live h p n ->
    exists h', al_free p h = Ret h' /\ al_wf h'
      /\ forall q m, al_live h' q m <-> q <> p /\ al_live h q m;
  al_free_null h : al_free 0 h = Ret h
}.

Lemma request_ok_small (size : Z) : 0 < size <= 2 ^ 61 -> request_ok size 16.
Proof. intros H. unfold request_ok. split_and!; try lia. reflexivity. Qed.

Lemma request_ok_page (size : Z) : 0 < size <= 2 ^ 61 -> request_ok size 4096.
Proof. intros H. unfold request_ok. split_and!; try lia. reflexivity. Qed.

#[export] Hint Resolve request_ok_small request_ok_page : core.

(** ** Ownership

    [owns h l]: the pointers of [l] are distinct live blocks.  A component
    states its invariant as ownership of the list of every pointer it holds, so
    a free needs its pointer in the list and leaves the others live. *)
Section Ownership.
Context {H : Type} `{AllocatorLaws H}.
Implicit Types (h : H) (p q : Z) (l : list Z).

Definition owns h l : Prop :=
  al_wf h /\ NoDup l /\ Forall (fun p => exists n, al_live h p n) l.

Lemma owns_perm h l l' : l ≡ₚ l' -> owns h l -> owns h l'.
Proof. intros Hp. unfold owns. by rewrite Hp. Qed.

#[global] Instance owns_proper h : Proper (Permutation ==> iff) (owns h).
Proof. intros l l' Hp. by split; apply owns_perm. Qed.

Lemma owns_wf h l : owns h l -> al_wf h.
Proof. by intros [? _]. Qed.

Lemma owns_nonnull h l p : owns h l -> p ∈ l -> p <> 0.
Proof.
  intros (Hw & _ & Hl) Hp. rewrite Forall_forall in Hl. destruct (Hl p Hp) as [n Hn].
  destruct (al_live_bound h p n Hw Hn). lia.
Qed.

Lemma owns_live h l p : owns h l -> p ∈ l -> exists n, al_live h p n.
Proof. intros (_ & _ & Hl) Hp. rewrite Forall_forall in Hl. by apply Hl. Qed.

Lemma owns_app_l h l l' : owns h (l ++ l') -> owns h l.
Proof. intros (? & (? & _ & _)%NoDup_app & [? _]%Forall_app). by split. Qed.

Lemma owns_free h l1 p l2 :
  owns h (l1 ++ p :: l2) -> exists h', al_free p h = Ret h' /\ owns h' (l1 ++ l2)
    /\ forall q m, al_live h' q m <-> q <> p /\ al_live h q m.
Proof.
  intros Ho. apply (owns_perm _ _ (p :: l1 ++ l2)) in Ho; [|by rewrite Permutation_middle].
  destruct Ho as (Hw & Hn & Hl). apply NoDup_cons in Hn as [Hp Hn].
  apply Forall_cons in Hl as [[n Hpn] Hl].
  destruct (al_free_ok h p n Hw Hpn) as (h' & E & Hw' & Hlv).
  exists h'. split_and!; [done| |done]. split_and!; [done..|].
  rewrite Forall_forall in *. intros q Hq. destruct (Hl q Hq) as [m Hm]. exists m.
  apply Hlv. split; [|done]. by intros ->.
Qed.

Lemma owns_alloc h l size align :
  owns h l -> request_ok size align ->
  exists p h', al_alloc size align h = Ret (p, h')
    /\ (p = 0 /\ owns h' l
        \/ p <> 0 /\ p ∉ l /\ p mod align = 0 /\ owns h' (p :: l)
           /\ exists cap, size <= cap /\ al_live h' p cap)
    /\ forall q m, al_live h q m -> al_live h' q m.
Proof.
  intros (Hw & Hn & Hl) Hr. destruct (al_alloc_ok size align h Hw Hr) as (p & h' & E & Hw' & Hres).
  exists p, h'. split; [done|]. rewrite Forall_forall in Hl.
  destruct Hres as [[-> Hlv]|(Hp & Ha & Hnl & cap & Hc & Hlv)].
  - split; [|intros q m; apply Hlv]. left. split; [done|]. split_and!; [done..|].
    apply Forall_forall. intros q Hq. destruct (Hl q Hq) as [m Hm]. exists m. by apply Hlv.
  - assert (forall q m, al_live h q m -> al_live h' q m) as Hmono.
    { intros q m Hq. apply Hlv. by right. }
    assert (p ∉ l) as Hpl.
    { intros Hpl. destruct (Hl p Hpl) as [m Hm]. by apply (Hnl m). }
    split; [|done]. right. split_and!; [done..| |].
    + split_and!; [done|by apply NoDup_cons|]. apply Forall_cons. split.
      * exists cap. apply Hlv. by left.
      * apply Forall_forall. intros q Hq. destruct (Hl q Hq) as [m Hm]. eauto.
    + exists cap. split; [done|]. apply Hlv. by left.
Qed.
End Ownership.
