(* ===== verification/Heap.v ===== *)
(** alloc.c: the kernel heap.

    First-fit free list over block headers, with bump allocation from the
    virgin heap.  A header sits 16 bytes before the pointer handed out; headers
    are kept by address in [hmem], the free list is the linked list threaded
    through them, walked pointer by pointer as the code walks it.  Blocks are
    never split or merged, so every header ever carved stays in [hmem]. *)
From S2P Require Import Prelude Spinlock Allocator.

Record free_block := mk_fb { fb_size : Z; fb_next : Z }.
#[global] Instance free_block_eq_dec : EqDecision free_block.
Proof. solve_decision. Defined.

Definition HEADER_SIZE : Z := 16.
Definition MIN_BLOCK : Z := HEADER_SIZE + 16.

(** The static variables of alloc.c, the headers in memory and the core's DAIF. *)
Record heap := mk_heap {
  heap_ptr : Z;
  heap_end : Z;
  free_list : Z;
  total_allocated : Z;
  free_block_count : Z;
  heap_lock : spinlock_t;
  h_cpu : cpu;
  hmem : gmap Z free_block
}.
#[global] Instance heap_eq_dec : EqDecision heap.
Proof. solve_decision. Defined.

Definition set_lock (h : heap) (l : spinlock_t) (c : cpu) : heap :=
  mk_heap (heap_ptr h) (heap_end h) (free_list h) (total_allocated h)
    (free_block_count h) l c (hmem h).
Definition set_free_list (h : heap) (p : Z) : heap :=
  mk_heap (heap_ptr h) (heap_end h) p (total_allocated h)
    (free_block_count h) (heap_lock h) (h_cpu h) (hmem h).
Definition set_hmem (h : heap) (m : gmap Z free_block) : heap :=
  mk_heap (heap_ptr h) (heap_end h) (free_list h) (total_allocated h)
    (free_block_count h) (heap_lock h) (h_cpu h) m.
Definition set_counts (h : heap) (total count : Z) : heap :=
  mk_heap (heap_ptr h) (heap_end h) (free_list h) total count
    (heap_lock h) (h_cpu h) (hmem h).
Definition set_heap_ptr (h : heap) (p : Z) : heap :=
  mk_heap p (heap_end h) (free_list h) (total_allocated h)
    (free_block_count h) (heap_lock h) (h_cpu h) (hmem h).

(** [heap_start] and [heap_limit] are the linker symbols __heap_start and
    __heap_end; the lock is the statically initialised one. *)
Definition alloc_init (heap_start heap_limit : Z) (c : cpu) : heap :=
  mk_heap heap_start heap_limit 0 0 0 SPINLOCK_INIT c ∅.

Definition align_up (val align : Z) : Z :=
  Z.land (u64 (val + align - 1)) (Z.lnot (u64 (align - 1))).

(** Header loads and stores. *)
Definition load_block (h : heap) (blk : Z) : outcome free_block :=
  match hmem h !! blk with Some b => Ret b | None => Undef end.

Definition store_next (h : heap) (blk v : Z) : outcome heap :=
  b ← load_block h blk;
  Ret (set_hmem h (<[blk := mk_fb (fb_size b) v]> (hmem h))).

(** [*prev = v]: [prev] is [&free_list] ([None]) or [&b->next] ([Some b]). *)
Definition store_prev (h : heap) (prev : option Z) (v : Z) : outcome heap :=
  match prev with
  | None => Ret (set_free_list h v)
  | Some b => store_next h b v
  end.

(** The first-fit loop.  [Hang]: a cyclic free list would be walked forever;
    a walk longer than the number of headers has revisited one. *)
Fixpoint scan (fuel : nat) (h : heap) (total align : Z) (prev : option Z) (blk : Z) : outcome (option (Z * option Z)) :=
  match fuel with
  | O => Hang
  | S fuel =>
    if blk =? 0 then Ret None
    else
      b ← load_block h blk;
      let user_addr := u64 (blk + HEADER_SIZE) in
      if (total <=? fb_size b)
         && ((align =? 16) || (Z.land user_addr (align - 1) =? 0))
      then Ret (Some (blk, prev))
      else scan fuel h total align (Some blk) (fb_next b)
  end.

Definition kmalloc_aligned (size align : Z) (h : heap) : outcome (Z * heap) :=
  _ ← c_assert (0 <? size);
  _ ← c_assert (negb (align =? 0) && (Z.land align (align - 1) =? 0));
  let align := if align <? 16 then 16 else align in
  let total := align_up (u64 (HEADER_SIZE + size)) align in
  let total := if total <? MIN_BLOCK then MIN_BLOCK else total in
  '(flags, l, c) ← spin_lock_irqsave (heap_lock h) (h_cpu h);
  let h := set_lock h l c in
  fit ← scan (S (base.size (hmem h))) h total align None (free_list h);
  match fit with
  | Some (blk, prev) =>
      b ← load_block h blk;
      h ← store_prev h prev (fb_next b);
      let h := set_counts h (total_allocated h) (u64 (free_block_count h - 1)) in
      h ← store_next h blk 0;
      b ← load_block h blk;
      let h := set_counts h (u64 (total_allocated h + fb_size b)) (free_block_count h) in
      let '(l, c) := spin_unlock_irqrestore (heap_lock h) flags (h_cpu h) in
      Ret (u64 (blk + HEADER_SIZE), set_lock h l c)
  | None =>
      let addr := align_up (heap_ptr h) align in
      let block_start := u64 (addr - HEADER_SIZE) in
      let block_start := if block_start <? heap_ptr h then heap_ptr h else block_start in
      let addr := u64 (block_start + HEADER_SIZE) in
      let addr := align_up addr align in
      let block_start := u64 (addr - HEADER_SIZE) in
      if heap_end h <? u64 (addr + size) then
        let '(l, c) := spin_unlock_irqrestore (heap_lock h) flags (h_cpu h) in
        Ret (0, set_lock h l c)
      else
        let h := set_hmem h (<[block_start := mk_fb total 0]> (hmem h)) in
        let h := set_heap_ptr h (u64 (block_start + total)) in
        let h := set_counts h (u64 (total_allocated h + total)) (free_block_count h) in
        let '(l, c) := spin_unlock_irqrestore (heap_lock h) flags (h_cpu h) in
        Ret (addr, set_lock h l c)
  end.

Definition kmalloc (size : Z) (h : heap) : outcome (Z * heap) := kmalloc_aligned size 16 h.

Definition kfree (ptr : Z) (h : heap) : outcome heap :=
  if ptr =? 0 then Ret h
  else
    let blk := u64 (ptr - HEADER_SIZE) in
    '(flags, l, c) ← spin_lock_irqsave (heap_lock h) (h_cpu h);
    let h := set_lock h l c in
    b ← load_block h blk;
    let h := set_counts h (u64 (total_allocated h - fb_size b)) (free_block_count h) in
    h ← store_next h blk (free_list h);
    let h := set_free_list h blk in
    let h := set_counts h (total_allocated h) (u64 (free_block_count h + 1)) in
    let '(l, c) := spin_unlock_irqrestore (heap_lock h) flags (h_cpu h) in
    Ret (set_lock h l c).

Definition alloc_used (h : heap) : Z := total_allocated h.

Fixpoint sum_free (fuel : nat) (h : heap) (blk virgin : Z) : outcome Z :=
  match fuel with
  | O => Hang
  | S fuel =>
    if blk =? 0 then Ret virgin
    else
      b ← load_block h blk;
      sum_free fuel h (fb_next b) (u64 (virgin + fb_size b))
  end.

Definition alloc_free (h : heap) : outcome Z :=
  sum_free (S (base.size (hmem h))) h (free_list h) (u64 (heap_end h - heap_ptr h)).

Definition alloc_free_blocks (h : heap) : Z := free_block_count h.

(** ** The heap invariant *)

(** [chain m p fl]: following [next] from [p] visits exactly [fl], then null. *)
Fixpoint chain (m : gmap Z free_block) (p : Z) (fl : list Z) : Prop :=
  match fl with
  | [] => p = 0
  | b :: fl => p = b /\ b <> 0 /\ exists fb, m !! b = Some fb /\ chain m (fb_next fb) fl
  end.

Definition block_size (m : gmap Z free_block) (b : Z) : Z :=
  match m !! b with Some fb => fb_size fb | None => 0 end.

Definition sum_sizes (m : gmap Z free_block) (bs : list Z) : Z :=
  foldr (fun b acc => block_size m b + acc) 0 bs.

Definition block_ok (lo hi b : Z) (fb : free_block) : Prop :=
  lo <= b /\ b + fb_size fb <= hi /\ MIN_BLOCK <= fb_size fb /\ b mod 16 = 0.

(** Two blocks do not overlap. *)
Definition apart (b1 : Z) (fb1 : free_block) (b2 : Z) (fb2 : free_block) : Prop :=
  b1 + fb_size fb1 <= b2 \/ b2 + fb_size fb2 <= b1.

(** [heap_inv lo h fl lv]: [fl] is the free list, [lv] the blocks handed out. *)
Record heap_inv (lo : Z) (h : heap) (fl lv : list Z) : Prop := {
  hi_chain : chain (hmem h) (free_list h) fl;
  hi_nodup : NoDup (fl ++ lv);
  hi_dom : forall b, is_Some (hmem h !! b) <-> b ∈ fl ++ lv;
  hi_ok : forall b fb, hmem h !! b = Some fb -> block_ok lo (heap_ptr h) b fb;
  hi_apart : forall b1 b2 fb1 fb2, hmem h !! b1 = Some fb1 -> hmem h !! b2 = Some fb2 ->
    b1 <> b2 -> apart b1 fb1 b2 fb2;
  hi_count : free_block_count h = zlen fl;
  hi_total : total_allocated h = sum_sizes (hmem h) lv;
  hi_sum : sum_sizes (hmem h) (fl ++ lv) <= heap_ptr h - lo;
  hi_lo : 16 <= lo <= heap_ptr h;
  hi_lo16 : lo mod 16 = 0;
  hi_ptr : heap_ptr h <= 2 * heap_end h /\ heap_ptr h mod 16 = 0;
  hi_end : heap_end h <= 2 ^ 47;
  hi_unlocked : lock (heap_lock h) = 0
}.

Definition heap_wf (lo : Z) (h : heap) : Prop := exists fl lv, heap_inv lo h fl lv.

(** The blocks reached from the head, in order. *)
Fixpoint free_walk (fuel : nat) (m : gmap Z free_block) (p : Z) : list Z :=
  match fuel with
  | O => []
  | S fuel =>
    match m !! p with
    | Some b => p :: free_walk fuel m (fb_next b)
    | None => []
    end
  end.

(** A pointer handed out and not freed, with the bytes usable behind it. *)
Definition live (h : heap) (p n : Z) : Prop :=
  exists fb, hmem h !! (p - HEADER_SIZE) = Some fb /\ n = fb_size fb - HEADER_SIZE
    /\ (p - HEADER_SIZE) ∉ free_walk (base.size (hmem h)) (hmem h) (free_list h).

(** ** Alignment *)

Lemma pow2_of_land (a : Z) : 0 < a -> Z.land a (a - 1) = 0 -> exists k, 0 <= k /\ a = 2 ^ k.
Proof.
  intros Ha Hl. exists (Z.log2 a). split; [apply Z.log2_nonneg|].
  destruct (Z.log2_spec a Ha) as [Hlo Hhi].
  destruct (decide (a = 2 ^ Z.log2 a)) as [|Hne]; [done|exfalso].
  assert (Z.log2 (a - 1) = Z.log2 a) as Hlog.
  { apply Z.log2_unique; [apply Z.log2_nonneg|lia]. }
  assert (Z.testbit (Z.land a (a - 1)) (Z.log2 a) = true) as Hb.
  { rewrite Z.land_spec. rewrite Z.bit_log2 by done. rewrite <- Hlog, Z.bit_log2; [done|].
    assert (0 < 2 ^ Z.log2 a) by (apply Z.pow_pos_nonneg; [lia|apply Z.log2_nonneg]). lia. }
  rewrite Hl, Z.bits_0 in Hb. done.
Qed.

Lemma land_pow2_mask (a k : Z) : 0 <= k -> Z.land a (2 ^ k - 1) = a mod 2 ^ k.
Proof. intros Hk. rewrite <- Z.land_ones by done. by rewrite Z.ones_equiv, Z.sub_1_r. Qed.

Lemma align_up_spec (v k : Z) :
  0 <= k <= 62 -> 0 <= v <= 2 ^ 63 ->
  v <= align_up v (2 ^ k) < v + 2 ^ k /\ align_up v (2 ^ k) mod 2 ^ k = 0.
Proof.
  intros Hk Hv. unfold align_up.
  assert (0 < 2 ^ k) as Hp by (apply Z.pow_pos_nonneg; lia).
  assert (2 ^ k <= 2 ^ 62) as Hq by (apply Z.pow_le_mono_r; lia).
  change (2 ^ 63) with (2 * 2 ^ 62) in Hv.
  change (2 ^ 62) with 4611686018427387904 in *.
  rewrite !u64_small by lia.
  replace (2 ^ k - 1) with (Z.ones k) by (rewrite Z.ones_equiv; lia).
  rewrite <- Z.ldiff_land, Z.ldiff_ones_r by lia.
  rewrite Z.shiftl_mul_pow2, Z.shiftr_div_pow2 by lia.
  split; [|apply Z.mod_mul; lia].
  pose proof (Z.div_mod (v + 2 ^ k - 1) (2 ^ k) ltac:(lia)).
  pose proof (Z.mod_pos_bound (v + 2 ^ k - 1) (2 ^ k) Hp).
  lia.
Qed.

Lemma mod_pow2_16 (a k : Z) : 4 <= k -> a mod 2 ^ k = 0 -> a mod 16 = 0.
Proof.
  intros Hk Ha. apply Z.mod_divide; [lia|]. apply Z.mod_divide in Ha.
  - etransitivity; [|exact Ha]. change 16 with (2 ^ 4). exists (2 ^ (k - 4)).
    rewrite <- Z.pow_add_r by lia. f_equal. lia.
  - apply Z.pow_nonzero; lia.
Qed.

(** ** Free-list lemmas *)

Lemma chain_lookup m p fl b : chain m p fl -> b ∈ fl -> is_Some (m !! b).
Proof.
  revert p. induction fl as [|x fl IH]; intros p; simpl; [by intros _ ?%elem_of_nil|].
  intros (-> & _ & fb & Hx & Hc) [->|Hb]%elem_of_cons; eauto.
Qed.

Lemma chain_nonzero m p fl b : chain m p fl -> b ∈ fl -> b <> 0.
Proof.
  revert p. induction fl as [|x fl IH]; intros p; simpl; [by intros _ ?%elem_of_nil|].
  intros (-> & Hx & fb & _ & Hc) [->|Hb]%elem_of_cons; eauto.
Qed.

(** Stores outside a chain do not change it. *)
Lemma chain_insert m p fl b fb : chain m p fl -> b ∉ fl -> chain (<[b := fb]> m) p fl.
Proof.
  revert p. induction fl as [|x fl IH]; intros p; simpl; [done|].
  intros (-> & Hx & fb' & Hm & Hc) [Hne Hni]%not_elem_of_cons.
  split_and!; [done..|]. exists fb'. rewrite lookup_insert_ne by done. eauto.
Qed.

Lemma chain_set_last m p pre a b post fa fb :
  chain m p (pre ++ a :: b :: post) -> NoDup (pre ++ a :: b :: post) ->
  m !! a = Some fa -> m !! b = Some fb ->
  chain (<[a := mk_fb (fb_size fa) (fb_next fb)]> m) p (pre ++ a :: post).
Proof.
  intros Hc Hn Ha Hb. revert p Hc. induction pre as [|x pre IH]; intros p; simpl in *.
  - intros (-> & Hnz & fa' & Hm & _ & _ & fb' & Hm' & Hc).
    split_and!; [done..|]. eexists. rewrite lookup_insert_eq. split; [done|].
    simpl. assert (fb' = fb) as -> by congruence.
    apply chain_insert; [done|]. apply NoDup_cons in Hn as [Hn _]. set_solver.
  - apply NoDup_cons in Hn as [Hx Hn]. intros (-> & Hnz & fx & Hm & Hc).
    split_and!; [done..|]. exists fx. rewrite lookup_insert_ne by set_solver. eauto.
Qed.

(** Unlinking [b] by a store through [prev], then clearing its [next]. *)
Lemma chain_unlink m p l1 b l2 fb :
  chain m p (l1 ++ b :: l2) -> NoDup (l1 ++ b :: l2) -> m !! b = Some fb ->
  match last l1 with
  | None => chain (<[b := mk_fb (fb_size fb) 0]> m) (fb_next fb) l2
  | Some a => exists fa, m !! a = Some fa /\ a <> b /\
      chain (<[b := mk_fb (fb_size fb) 0]> (<[a := mk_fb (fb_size fa) (fb_next fb)]> m)) p (l1 ++ l2)
  end.
Proof.
  intros Hc Hn Hb. destruct (last l1) as [a|] eqn:El.
  - apply last_Some in El as [l ->]. rewrite <- app_assoc in *. simpl in *.
    destruct (chain_lookup _ _ _ a Hc) as [fa Ha]; [set_solver|].
    exists fa. split; [done|].
    assert (b ∉ l ++ a :: l2) as Hb'.
    { rewrite (Permutation_app_comm l (a :: b :: l2)) in Hn. simpl in Hn.
      rewrite !NoDup_cons in Hn. rewrite elem_of_app, elem_of_cons. set_solver. }
    split; [set_solver|].
    apply chain_insert; [by eapply chain_set_last|done].
  - apply last_None in El as ->. simpl in *. destruct Hc as (-> & _ & fb' & Hm & Hc).
    assert (fb' = fb) as -> by congruence.
    apply chain_insert; [done|]. by apply NoDup_cons in Hn as [? _].
Qed.

Lemma chain_length (m : gmap Z free_block) p fl : chain m p fl -> NoDup fl -> (length fl <= base.size m)%nat.
Proof.
  intros Hc Hn. rewrite <- (size_list_to_set (C := gset Z) fl Hn), <- (size_dom (D := gset Z) m).
  apply subseteq_size. intros b Hb%elem_of_list_to_set. apply elem_of_dom.
  by eapply chain_lookup.
Qed.

Lemma free_walk_chain m p fl fuel : m !! 0 = None ->
  chain m p fl -> (length fl <= fuel)%nat -> free_walk fuel m p = fl.
Proof.
  intros H0. revert p fuel. induction fl as [|x fl IH]; intros p fuel; simpl.
  - intros -> _. destruct fuel; simpl; [done|]. by rewrite H0.
  - intros (-> & Hx & fb & Hm & Hc) Hf. destruct fuel as [|fuel]; [lia|].
    simpl. rewrite Hm. f_equal. apply IH; [done|lia].
Qed.

(** *** First fit *)

Definition fits (m : gmap Z free_block) (total align b : Z) : bool :=
  (total <=? block_size m b)
  && ((align =? 16) || (Z.land (u64 (b + HEADER_SIZE)) (align - 1) =? 0)).

Fixpoint first_fit (fit : Z -> bool) (prev : option Z) (bs : list Z) : option (Z * option Z) :=
  match bs with
  | [] => None
  | b :: bs => if fit b then Some (b, prev) else first_fit fit (Some b) bs
  end.

(** The pointer-walking loop is the list function. *)
Lemma scan_first_fit h total align prev p fl fuel :
  chain (hmem h) p fl -> (length fl < fuel)%nat ->
  scan fuel h total align prev p = Ret (first_fit (fits (hmem h) total align) prev fl).
Proof.
  revert prev p fuel. induction fl as [|x fl IH]; intros prev p fuel Hc Hf;
    (destruct fuel as [|fuel]; [simpl in Hf; lia|]); simpl in *.
  - by rewrite Hc.
  - destruct Hc as (-> & Hx & fb & Hm & Hc).
    destruct (Z.eqb_spec x 0); [done|].
    unfold load_block, fits, block_size. rewrite Hm. simpl.
    case_match; [done|]. rewrite IH by (done || lia). done.
Qed.

Lemma first_fit_Some fit prev bs b pv :
  first_fit fit prev bs = Some (b, pv) ->
  exists l1 l2, bs = l1 ++ b :: l2 /\ Forall (fun x => fit x = false) l1 /\ fit b = true
    /\ pv = match last l1 with Some a => Some a | None => prev end.
Proof.
  revert prev. induction bs as [|x bs IH]; intros prev; simpl; [done|].
  destruct (fit x) eqn:Ex.
  - intros [= <- <-]. by exists [], bs.
  - intros (l1 & l2 & -> & Hl & Hb & ->)%IH. exists (x :: l1), l2.
    split_and!; [done|by constructor|done|].
    destruct l1 as [|y l1]; [done|]. rewrite last_cons_cons.
    destruct (last (y :: l1)) eqn:E; [done|]. by apply last_None in E.
Qed.

Lemma first_fit_None fit prev bs : first_fit fit prev bs = None -> Forall (fun x => fit x = false) bs.
Proof.
  revert prev. induction bs as [|x bs IH]; intros prev; simpl; [done|].
  destruct (fit x) eqn:Ex; [done|]. intros H. constructor; eauto.
Qed.

(** *** Sizes *)

Lemma block_size_insert m b x s n :
  block_size m b = s -> is_Some (m !! b) -> block_size (<[b := mk_fb s n]> m) x = block_size m x.
Proof.
  intros Hs Hb. unfold block_size in *. destruct (decide (b = x)) as [->|].
  - rewrite lookup_insert_eq. by destruct (m !! x); [|by destruct Hb].
  - by rewrite lookup_insert_ne.
Qed.

Lemma sum_sizes_ext m m' bs :
  (forall b, b ∈ bs -> block_size m' b = block_size m b) -> sum_sizes m' bs = sum_sizes m bs.
Proof.
  induction bs as [|x bs IH]; intros H; simpl; [done|].
  rewrite H by set_solver. rewrite IH; [done|]. intros; apply H; set_solver.
Qed.

Lemma sum_sizes_app m l1 l2 : sum_sizes m (l1 ++ l2) = sum_sizes m l1 + sum_sizes m l2.
Proof. induction l1 as [|x l1 IH]; simpl; [done|]. rewrite IH. lia. Qed.

Lemma sum_sizes_perm m l1 l2 : l1 ≡ₚ l2 -> sum_sizes m l1 = sum_sizes m l2.
Proof. induction 1; simpl; lia. Qed.

Lemma sum_sizes_nonneg m bs :
  (forall b fb, m !! b = Some fb -> 0 <= fb_size fb) -> 0 <= sum_sizes m bs.
Proof.
  intros H. induction bs as [|x bs IH]; simpl; [done|].
  unfold block_size at 1. destruct (m !! x) eqn:E; [|done]. pose proof (H x _ E). lia.
Qed.

(** ** Preservation *)

(** Same blocks, same sizes: what a store to [next] fields leaves alone. *)
Definition same_sizes (m m' : gmap Z free_block) : Prop :=
  forall b, fb_size <$> m' !! b = fb_size <$> m !! b.

Lemma same_sizes_insert m b fb n :
  m !! b = Some fb -> same_sizes m (<[b := mk_fb (fb_size fb) n]> m).
Proof.
  intros Hb x. destruct (decide (b = x)) as [->|]; [by rewrite lookup_insert_eq, Hb|].
  by rewrite lookup_insert_ne.
Qed.

Lemma same_sizes_refl m : same_sizes m m.
Proof. done. Qed.

Lemma same_sizes_trans m1 m2 m3 : same_sizes m1 m2 -> same_sizes m2 m3 -> same_sizes m1 m3.
Proof. intros H1 H2 b. by rewrite H2. Qed.

Lemma same_sizes_block_size m m' b : same_sizes m m' -> block_size m' b = block_size m b.
Proof.
  intros H. specialize (H b). unfold block_size.
  destruct (m !! b), (m' !! b); simpl in *; congruence.
Qed.

Lemma same_sizes_lookup m m' b fb' :
  same_sizes m m' -> m' !! b = Some fb' -> exists fb, m !! b = Some fb /\ fb_size fb = fb_size fb'.
Proof.
  intros H Hb. specialize (H b). rewrite Hb in H. destruct (m !! b) as [fb|]; [|done].
  simpl in H. exists fb. split; congruence.
Qed.

Lemma heap_inv_relink lo h fl lv m' p fl' lv' c :
  heap_inv lo h fl lv -> same_sizes (hmem h) m' -> chain m' p fl' ->
  fl' ++ lv' ≡ₚ fl ++ lv ->
  heap_inv lo (mk_heap (heap_ptr h) (heap_end h) p (sum_sizes (hmem h) lv')
                 (zlen fl') (mk_spinlock 0) c m') fl' lv'.
Proof.
  intros [] Hs Hc Hp. split; simpl; try done.
  - by rewrite Hp.
  - intros b. rewrite Hp, <- hi_dom0. specialize (Hs b).
    destruct (hmem h !! b), (m' !! b); simpl in *; try done; split; by eauto.
  - intros b fb Hb. destruct (same_sizes_lookup _ _ _ _ Hs Hb) as (fb0 & Hb0 & E).
    unfold block_ok. rewrite <- E. by apply hi_ok0.
  - intros b1 b2 fb1 fb2 H1 H2.
    destruct (same_sizes_lookup _ _ _ _ Hs H1) as (f1 & H1' & E1).
    destruct (same_sizes_lookup _ _ _ _ Hs H2) as (f2 & H2' & E2).
    unfold apart. rewrite <- E1, <- E2. by apply hi_apart0.
  - apply sum_sizes_ext. intros b _. symmetry. by apply same_sizes_block_size.
  - rewrite (sum_sizes_ext (hmem h)) by (intros; by apply same_sizes_block_size).
    by rewrite (sum_sizes_perm _ _ _ Hp).
Qed.

Lemma heap_inv_bound lo h fl lv :
  heap_inv lo h fl lv ->
  0 <= sum_sizes (hmem h) fl /\ 0 <= sum_sizes (hmem h) lv
  /\ sum_sizes (hmem h) fl + sum_sizes (hmem h) lv < 2 ^ 49
  /\ 0 <= heap_ptr h < 2 ^ 50 /\ 0 <= heap_end h <= 2 ^ 48.
Proof.
  intros []. rewrite sum_sizes_app in hi_sum0.
  assert (forall l, 0 <= sum_sizes (hmem h) l) as Hn.
  { intros l. apply sum_sizes_nonneg. intros b fb Hb. destruct (hi_ok0 b fb Hb) as (_&_&?&_).
    unfold MIN_BLOCK, HEADER_SIZE in *. lia. }
  pose proof (Hn fl). pose proof (Hn lv).
  change (2 ^ 49) with (2 * 2 ^ 48). change (2 ^ 50) with (4 * 2 ^ 48).
  assert (0 < 2 ^ 48) by done. assert (2 ^ 47 < 2 ^ 48) by done. lia.
Qed.

Lemma heap_inv_length lo h fl lv : heap_inv lo h fl lv -> (length fl <= base.size (hmem h))%nat.
Proof. intros []. eapply chain_length; [done|]. by apply NoDup_app in hi_nodup0 as [? _]. Qed.

(** Every field of a block fits below [heap_ptr]. *)
Lemma heap_inv_block lo h fl lv b fb :
  heap_inv lo h fl lv -> hmem h !! b = Some fb ->
  16 <= b < 2 ^ 50 /\ 32 <= fb_size fb < 2 ^ 50 /\ b mod 16 = 0.
Proof.
  intros Hi Hb. pose proof (heap_inv_bound _ _ _ _ Hi). destruct Hi.
  destruct (hi_ok0 b fb Hb) as (?&?&?&?). unfold MIN_BLOCK, HEADER_SIZE in *. lia.
Qed.

Lemma block_size_lookup m b fb : m !! b = Some fb -> block_size m b = fb_size fb.
Proof. unfold block_size. by intros ->. Qed.

Lemma heap_inv_fl_nodup lo h fl lv : heap_inv lo h fl lv -> NoDup fl.
Proof. intros []. by apply NoDup_app in hi_nodup0 as [? _]. Qed.

(** A block is at least 32 bytes, so the counters stay far from 2^64. *)
Lemma heap_inv_count lo h fl lv : heap_inv lo h fl lv -> zlen fl * 32 < 2 ^ 49.
Proof.
  intros Hi. pose proof (heap_inv_bound _ _ _ _ Hi).
  enough (zlen fl * 32 <= sum_sizes (hmem h) fl) by lia.
  pose proof (hi_chain _ _ _ _ Hi) as Hc. revert Hc. generalize (free_list h). clear -Hi.
  revert Hi. generalize fl at 1 as fl0. intros fl0 Hi.
  induction fl as [|x l IH]; intros p Hc; [done|].
  destruct Hc as (-> & _ & fx & Hx & Hc). specialize (IH _ Hc).
  destruct (heap_inv_block _ _ _ _ _ _ Hi Hx) as (?&?&?).
  simpl. rewrite (block_size_lookup _ _ _ Hx). lia.
Qed.

(** *** Reuse of a free block *)
Lemma kmalloc_reuse lo h fl lv l1 b l2 fb flags :
  heap_inv lo h fl lv -> fl = l1 ++ b :: l2 -> hmem h !! b = Some fb ->
  exists m',
    (h1 ← store_prev (set_lock h (mk_spinlock 1) (mk_cpu flags)) (last l1) (fb_next fb);
     let h1 := set_counts h1 (total_allocated h1) (u64 (free_block_count h1 - 1)) in
     h1 ← store_next h1 b 0;
     b1 ← load_block h1 b;
     Ret (set_counts h1 (u64 (total_allocated h1 + fb_size b1)) (free_block_count h1)))
    = Ret (mk_heap (heap_ptr h) (heap_end h)
             (match last l1 with None => fb_next fb | Some _ => free_list h end)
             (sum_sizes (hmem h) (b :: lv)) (zlen (l1 ++ l2)) (mk_spinlock 1) (mk_cpu flags) m')
    /\ same_sizes (hmem h) m'
    /\ chain m' (match last l1 with None => fb_next fb | Some _ => free_list h end) (l1 ++ l2).
Proof.
  intros Hi -> Hb. pose proof (heap_inv_bound _ _ _ _ Hi) as Hbd.
  destruct (heap_inv_block _ _ _ _ _ _ Hi Hb) as (?&?&?).
  assert (u64 (total_allocated h + fb_size fb) = sum_sizes (hmem h) (b :: lv)) as Htot.
  { simpl. rewrite (block_size_lookup _ _ _ Hb), (hi_total _ _ _ _ Hi).
    rewrite u64_small; lia. }
  assert (u64 (free_block_count h - 1) = zlen (l1 ++ l2)) as Hcnt.
  { rewrite (hi_count _ _ _ _ Hi), !length_app. simpl. rewrite u64_small; [lia|].
    pose proof (heap_inv_count _ _ _ _ Hi) as Hsz. rewrite length_app in Hsz. simpl in Hsz. lia. }
  pose proof (hi_chain _ _ _ _ Hi) as Hc.
  pose proof (heap_inv_fl_nodup _ _ _ _ Hi) as Hn.
  pose proof (chain_unlink _ _ _ _ _ _ Hc Hn Hb) as Hu.
  destruct (last l1) as [a|] eqn:El.
  - destruct Hu as (fa & Ha & Hne & Hu). eexists. split; [|split; [|exact Hu]].
    + unfold store_prev, store_next, load_block. simpl. rewrite Ha. simpl.
      rewrite lookup_insert_ne by done. rewrite Hb. simpl. rewrite lookup_insert_eq. simpl.
      by rewrite Htot, Hcnt.
    + eapply same_sizes_trans; [by apply same_sizes_insert|].
      apply same_sizes_insert. by rewrite lookup_insert_ne.
  - apply last_None in El as ->. eexists. split; [|split; [|exact Hu]].
    + unfold store_prev, store_next, load_block. simpl. rewrite Hb. simpl.
      rewrite lookup_insert_eq. simpl. by rewrite Htot, Hcnt.
    + by apply same_sizes_insert.
Qed.

(** *** Sizes asked for *)

(** The alignment and block size [kmalloc_aligned] works with. *)
Definition eff_align (align : Z) : Z := if align <? 16 then 16 else align.
Definition block_total (size align : Z) : Z :=
  let total := align_up (u64 (HEADER_SIZE + size)) (eff_align align) in
  if total <? MIN_BLOCK then MIN_BLOCK else total.

Lemma eff_align_pow2 size align :
  request_ok size align -> exists k, 4 <= k <= 61 /\ eff_align align = 2 ^ k.
Proof.
  intros (_ & Ha & Hl). unfold eff_align. destruct (Z.ltb_spec align 16); [by exists 4|].
  destruct (pow2_of_land align) as (k & Hk & ->); [lia|done|]. exists k. split; [|done]. split.
  - destruct (decide (4 <= k)) as [|Hlt]; [done|].
    assert (2 ^ k < 2 ^ 4) by (apply Z.pow_lt_mono_r; lia). lia.
  - apply (Z.pow_le_mono_r_iff 2); lia.
Qed.

Lemma block_total_spec size align :
  request_ok size align ->
  let total := block_total size align in
  HEADER_SIZE + size <= total < HEADER_SIZE + size + eff_align align
  /\ MIN_BLOCK <= total /\ total mod 16 = 0.
Proof.
  intros Hr. destruct (eff_align_pow2 _ _ Hr) as (k & Hk & Ek). destruct Hr as (Hs & _ & _).
  unfold block_total. rewrite Ek. unfold MIN_BLOCK, HEADER_SIZE.
  change (2 ^ 61) with 2305843009213693952 in Hs.
  rewrite u64_small by lia.
  assert (2 ^ 4 <= 2 ^ k) by (apply Z.pow_le_mono_r; lia). change (2 ^ 4) with 16 in *.
  destruct (align_up_spec (16 + size) k) as [Hb Hm]; [lia|change (2 ^ 63) with 9223372036854775808; lia|].
  apply mod_pow2_16 in Hm; [|lia].
  destruct (Z.ltb_spec (align_up (16 + size) (2 ^ k)) (16 + 16)); split_and!; (lia || done).
Qed.

(** The user address the bump path computes. *)
Definition bump_addr (h : heap) (align : Z) : Z :=
  let addr := align_up (heap_ptr h) align in
  let block_start := u64 (addr - HEADER_SIZE) in
  let block_start := if block_start <? heap_ptr h then heap_ptr h else block_start in
  align_up (u64 (block_start + HEADER_SIZE)) align.

Lemma bump_addr_spec h k :
  4 <= k <= 61 -> 16 <= heap_ptr h < 2 ^ 50 ->
  heap_ptr h + HEADER_SIZE <= bump_addr h (2 ^ k) < 2 ^ 62 + 2 ^ 51
  /\ bump_addr h (2 ^ k) mod 2 ^ k = 0.
Proof.
  intros Hk Hp. unfold bump_addr, HEADER_SIZE.
  assert (2 ^ k <= 2 ^ 61) as Hk61 by (apply Z.pow_le_mono_r; lia).
  change (2 ^ 61) with 2305843009213693952 in *. change (2 ^ 50) with 1125899906842624 in *.
  change (2 ^ 62 + 2 ^ 51) with 4613937818241073152.
  destruct (align_up_spec (heap_ptr h) k) as [H1 _]; [lia|change (2 ^ 63) with 9223372036854775808; lia|].
  set (a := align_up (heap_ptr h) (2 ^ k)) in *. rewrite (u64_small (a - 16)) by lia.
  destruct (Z.ltb_spec (a - 16) (heap_ptr h)).
  - rewrite u64_small by lia.
    destruct (align_up_spec (heap_ptr h + 16) k) as [H2 H3];
      [lia|change (2 ^ 63) with 9223372036854775808; lia|].
    split; [lia|done].
  - rewrite u64_small by lia. replace (a - 16 + 16) with a by lia.
    destruct (align_up_spec a k) as [H2 H3];
      [lia|change (2 ^ 63) with 9223372036854775808; lia|].
    split; [lia|done].
Qed.

(** A fresh block at the bump pointer. *)
Lemma heap_inv_carve lo h fl lv b total hp c :
  heap_inv lo h fl lv ->
  heap_ptr h <= b -> b mod 16 = 0 -> MIN_BLOCK <= total ->
  hp = b + total -> hp <= 2 * heap_end h -> hp mod 16 = 0 ->
  heap_inv lo (mk_heap hp (heap_end h) (free_list h)
                 (total_allocated h + total) (free_block_count h) (mk_spinlock 0) c
                 (<[b := mk_fb total 0]> (hmem h))) fl (b :: lv).
Proof.
  intros Hi Hb Hm Ht -> He Hm'.
  assert (hmem h !! b = None) as Hnew.
  { destruct (hmem h !! b) as [fb|] eqn:E; [|done].
    destruct (hi_ok _ _ _ _ Hi b fb E) as (_ & ? & ? & _). unfold MIN_BLOCK, HEADER_SIZE in *. lia. }
  assert (b ∉ fl ++ lv) as Hni.
  { rewrite <- (hi_dom _ _ _ _ Hi), Hnew. intros [? ?]. done. }
  assert (forall x, x ∈ fl ++ lv -> block_size (<[b := mk_fb total 0]> (hmem h)) x = block_size (hmem h) x) as Hbs.
  { intros x Hx. unfold block_size. rewrite lookup_insert_ne; [done|set_solver]. }
  destruct Hi. unfold MIN_BLOCK, HEADER_SIZE in *. split; simpl; try done.
  - apply chain_insert; [done|]. set_solver.
  - rewrite <- Permutation_middle. by apply NoDup_cons.
  - intros x. rewrite <- Permutation_middle, elem_of_cons, <- hi_dom0.
    destruct (decide (b = x)) as [->|]; [rewrite lookup_insert_eq; naive_solver|].
    rewrite lookup_insert_ne by done. naive_solver.
  - intros x fx. destruct (decide (b = x)) as [->|]; [rewrite lookup_insert_eq|rewrite lookup_insert_ne by done].
    + intros [= <-]. unfold block_ok, MIN_BLOCK, HEADER_SIZE; simpl. lia.
    + intros Hx. destruct (hi_ok0 x fx Hx) as (?&?&?&?). unfold block_ok. lia.
  - intros b1 b2 fb1 fb2 H1 H2 Hne. unfold apart.
    destruct (decide (b1 = b)) as [->|], (decide (b2 = b)) as [->|]; try done;
      rewrite ?lookup_insert_eq, ?lookup_insert_ne in * by done; simplify_eq; simpl.
    + destruct (hi_ok0 _ _ H2) as (?&?&?&?). lia.
    + destruct (hi_ok0 _ _ H1) as (?&?&?&?). lia.
    + by apply (hi_apart0 b1 b2).
  - rewrite (sum_sizes_ext (hmem h)) by (intros; apply Hbs; set_solver).
    unfold block_size. rewrite lookup_insert_eq. simpl. lia.
  - rewrite (sum_sizes_perm _ _ _ (Permutation_sym (Permutation_middle fl lv b))). simpl.
    rewrite (sum_sizes_ext (hmem h)) by (intros; by apply Hbs).
    unfold block_size. rewrite lookup_insert_eq. simpl. lia.
  - lia.
Qed.

(** ** What an allocation does *)

(** The three ways out of [kmalloc_aligned]: the first free block that fits, a
    fresh block at the bump pointer, or null when the heap limit is reached. *)
Inductive kmalloc_spec (lo : Z) (h : heap) (fl lv : list Z) (size align p : Z) (h' : heap) : Prop :=
| ks_reuse l1 b l2 :
    fl = l1 ++ b :: l2 ->
    Forall (fun x => fits (hmem h) (block_total size align) (eff_align align) x = false) l1 ->
    fits (hmem h) (block_total size align) (eff_align align) b = true ->
    p = b + HEADER_SIZE ->
    heap_inv lo h' (l1 ++ l2) (b :: lv) ->
    same_sizes (hmem h) (hmem h') -> heap_ptr h' = heap_ptr h ->
    kmalloc_spec lo h fl lv size align p h'
| ks_fresh :
    Forall (fun x => fits (hmem h) (block_total size align) (eff_align align) x = false) fl ->
    p = bump_addr h (eff_align align) ->
    p + size <= heap_end h ->
    heap_inv lo h' fl ((p - HEADER_SIZE) :: lv) ->
    hmem h' = <[p - HEADER_SIZE := mk_fb (block_total size align) 0]> (hmem h) ->
    heap_ptr h' = p - HEADER_SIZE + block_total size align ->
    kmalloc_spec lo h fl lv size align p h'
| ks_oom :
    Forall (fun x => fits (hmem h) (block_total size align) (eff_align align) x = false) fl ->
    heap_end h < bump_addr h (eff_align align) + size ->
    p = 0 -> h' = h ->
    kmalloc_spec lo h fl lv size align p h'.

Lemma heap_eta (h : heap) : lock (heap_lock h) = 0 ->
  set_lock h (mk_spinlock 0) (h_cpu h) = h.
Proof. destruct h as [? ? ? ? ? [l] ? ?]; simpl. by intros ->. Qed.

Lemma cpu_eta (c : cpu) : mk_cpu (daif c) = c.
Proof. by destruct c. Qed.

(** The guards of the code, and the scan as [first_fit]. *)
Lemma kmalloc_aligned_guards lo h fl lv size align :
  heap_inv lo h fl lv -> request_ok size align ->
  c_assert (0 <? size) = Ret tt /\
  c_assert (negb (align =? 0) && (Z.land align (align - 1) =? 0)) = Ret tt /\
  scan (S (base.size (hmem h))) (set_lock h (mk_spinlock 1) (mk_cpu (Z.lor (daif (h_cpu h)) DAIF_I)))
    (block_total size align) (eff_align align) None (free_list h)
  = Ret (first_fit (fits (hmem h) (block_total size align) (eff_align align)) None fl).
Proof.
  intros Hi (Hs & Ha & Hl). split_and!.
  - unfold c_assert. by destruct (Z.ltb_spec 0 size); [|lia].
  - unfold c_assert. rewrite Hl. destruct (Z.eqb_spec align 0); [lia|done].
  - rewrite (scan_first_fit _ _ _ _ _ fl); [done|apply Hi|].
    pose proof (heap_inv_length _ _ _ _ Hi). lia.
Qed.

Lemma kmalloc_aligned_fresh lo h fl lv size align p :
  heap_inv lo h fl lv -> request_ok size align ->
  p = bump_addr h (eff_align align) ->
  p + size <= heap_end h ->
  u64 (p + size) = p + size /\ u64 (p - HEADER_SIZE) = p - HEADER_SIZE
  /\ u64 (p - HEADER_SIZE + block_total size align) = p - HEADER_SIZE + block_total size align
  /\ u64 (total_allocated h + block_total size align) = total_allocated h + block_total size align
  /\ heap_ptr h <= p - HEADER_SIZE /\ (p - HEADER_SIZE) mod 16 = 0
  /\ p - HEADER_SIZE + block_total size align <= 2 * heap_end h
  /\ (p - HEADER_SIZE + block_total size align) mod 16 = 0.
Proof.
  intros Hi Hr Ep Hp. pose proof (heap_inv_bound _ _ _ _ Hi) as Hb.
  destruct (block_total_spec _ _ Hr) as (Ht1 & Ht2 & Ht3).
  destruct (eff_align_pow2 _ _ Hr) as (k & Hk & Ek).
  pose proof (hi_lo _ _ _ _ Hi). pose proof (hi_total _ _ _ _ Hi).
  destruct (bump_addr_spec h k Hk) as [Hp1 Hp2]; [lia|].
  rewrite Ek in *. rewrite <- Ep in Hp1, Hp2. clear Ep.
  assert (2 ^ k <= p) as Hal.
  { assert (0 < 2 ^ k) by (apply Z.pow_pos_nonneg; lia).
    apply Z.mod_divide in Hp2 as [q ->]; [|lia].
    enough (1 <= q) by nia. unfold HEADER_SIZE in *. nia. }
  apply mod_pow2_16 in Hp2; [|lia].
  destruct Hr as (Hs & _). unfold HEADER_SIZE in *.
  assert ((p - 16) mod 16 = 0) as Hm.
  { replace (p - 16) with (p + (-1) * 16) by lia. by rewrite Z.mod_add. }
  change (2 ^ 48) with 281474976710656 in *. change (2 ^ 50) with 1125899906842624 in *.
  change (2 ^ 49) with 562949953421312 in *.
  rewrite !u64_small by lia.
  split_and!; try lia; try done.
  by rewrite Z.add_mod, Hm, Ht3.
Qed.

Lemma fit_lookup lo h fl lv b : heap_inv lo h fl lv -> b ∈ fl -> exists fb, hmem h !! b = Some fb.
Proof. intros Hi Hb. apply (hi_dom _ _ _ _ Hi). set_solver. Qed.

Lemma load_block_ok h b fb : hmem h !! b = Some fb -> load_block h b = Ret fb.
Proof. unfold load_block. by intros ->. Qed.

(** The limit test of the bump path does not wrap. *)
Lemma bump_limit_small lo h fl lv size align :
  heap_inv lo h fl lv -> request_ok size align ->
  u64 (bump_addr h (eff_align align) + size) = bump_addr h (eff_align align) + size.
Proof.
  intros Hi Hr. destruct (eff_align_pow2 _ _ Hr) as (k & Hk & Ek).
  pose proof (heap_inv_bound _ _ _ _ Hi). pose proof (hi_lo _ _ _ _ Hi).
  destruct (bump_addr_spec h k Hk) as [Hp _]; [lia|]. rewrite <- Ek in Hp.
  destruct Hr as (Hs & _). unfold HEADER_SIZE in *.
  change (2 ^ 62 + 2 ^ 51) with 4613937818241073152 in *.
  change (2 ^ 61) with 2305843009213693952 in *. rewrite u64_small; lia.
Qed.

(** Under the invariant an allocation returns, and does one of the three
    things of [kmalloc_spec]; DAIF is restored and the lock released. *)
Lemma kmalloc_aligned_correct lo h fl lv size align :
  heap_inv lo h fl lv -> request_ok size align ->
  exists p h', kmalloc_aligned size align h = Ret (p, h')
    /\ kmalloc_spec lo h fl lv size align p h'
    /\ h_cpu h' = h_cpu h /\ heap_end h' = heap_end h.
Proof.
  intros Hi Hr. destruct (kmalloc_aligned_guards _ _ _ _ _ _ Hi Hr) as (G1 & G2 & G3).
  pose proof (hi_unlocked _ _ _ _ Hi) as Hul.
  unfold kmalloc_aligned. rewrite G1, bind_Ret, G2, bind_Ret.
  rewrite (irqsave_free _ _ Hul). fold (eff_align align) (block_total size align).
  rewrite bind_Ret. cbv iota beta. cbv zeta. fold (eff_align align) (block_total size align).
  change (free_list (set_lock h _ _)) with (free_list h).
  change (hmem (set_lock h _ _)) with (hmem h).
  rewrite G3, bind_Ret.
  destruct (first_fit _ None fl) as [[b pv]|] eqn:Ef.
  - apply first_fit_Some in Ef as (l1 & l2 & Efl & Hno & Hfit & ->).
    destruct (fit_lookup _ _ _ _ b Hi) as [fb Hb]; [set_solver|].
    destruct (kmalloc_reuse _ _ _ _ _ _ _ _ (Z.lor (daif (h_cpu h)) DAIF_I) Hi Efl Hb)
      as (m' & Hrun & Hss & Hch).
    replace (match last l1 with Some a => Some a | None => None end) with (last l1) by by destruct (last l1).
    set (P := match last l1 with Some _ => free_list h | None => fb_next fb end) in *.
    eexists _, _. split.
    { rewrite (load_block_ok _ b fb) by done. rewrite bind_Ret.
      apply bind_Ret_inv in Hrun as (h1 & E1 & Hrun). rewrite E1, bind_Ret. cbv zeta in *.
      apply bind_Ret_inv in Hrun as (h2 & E2 & Hrun). rewrite E2, bind_Ret.
      apply bind_Ret_inv in Hrun as (b1 & E3 & Hrun). rewrite E3, bind_Ret.
      match type of Hrun with Ret ?x = Ret ?y => assert (x = y) as -> by congruence end.
      reflexivity. }
    simpl. rewrite cpu_eta. split_and!; [|done..].
    destruct (heap_inv_block _ _ _ _ _ _ Hi Hb) as (?&?&?).
    eapply ks_reuse; [done..| | |done|done].
    + unfold HEADER_SIZE. change (2 ^ 50) with 1125899906842624 in *. by rewrite u64_small by lia.
    + apply (heap_inv_relink _ _ _ _ _ _ (l1 ++ l2) (b :: lv) _ Hi Hss Hch).
      subst fl. rewrite <- !app_assoc. solve_Permutation.
  - apply first_fit_None in Ef.
    change (heap_ptr (set_lock h _ _)) with (heap_ptr h).
    change (heap_end (set_lock h _ _)) with (heap_end h).
    fold (bump_addr h (eff_align align)).
    remember (bump_addr h (eff_align align)) as p eqn:Ep.
    pose proof (bump_limit_small _ _ _ _ _ _ Hi Hr) as Hlim. rewrite <- Ep in Hlim.
    destruct (Z.ltb_spec (heap_end h) (u64 (p + size))) as [Hoom|Hfit]; rewrite Hlim in *.
    + eexists 0, _. split; [reflexivity|]. simpl. rewrite cpu_eta.
      split_and!; [|done..]. apply ks_oom; [done|by rewrite <- Ep|done|exact (heap_eta h Hul)].
    + destruct (kmalloc_aligned_fresh _ _ _ _ _ _ _ Hi Hr Ep Hfit)
        as (E1 & E2 & E3 & E4 & Hp1 & Hp2 & Hp3 & Hp4).
      eexists _, _. split; [reflexivity|]. simpl. rewrite cpu_eta, E2, E3, E4.
      split_and!; [|done..].
      eapply ks_fresh; [done|done|lia| |done|done].
      apply (heap_inv_carve lo h fl lv (p - HEADER_SIZE) (block_total size align)
               (p - HEADER_SIZE + block_total size align) (h_cpu h)); try done.
      apply block_total_spec, Hr.
Qed.

Lemma kfree_correct lo h fl lv b fb :
  heap_inv lo h fl lv -> b ∈ lv -> hmem h !! b = Some fb ->
  exists h', kfree (b + HEADER_SIZE) h = Ret h'
    /\ (forall l1 l2, lv = l1 ++ b :: l2 -> heap_inv lo h' (b :: fl) (l1 ++ l2))
    /\ same_sizes (hmem h) (hmem h')
    /\ h_cpu h' = h_cpu h /\ heap_ptr h' = heap_ptr h /\ heap_end h' = heap_end h.
Proof.
  intros Hi Hlv Hb. pose proof (heap_inv_bound _ _ _ _ Hi) as Hbd.
  destruct (heap_inv_block _ _ _ _ _ _ Hi Hb) as (Hb1 & Hb2 & _).
  pose proof (hi_unlocked _ _ _ _ Hi) as Hul.
  unfold kfree, HEADER_SIZE. change (2 ^ 50) with 1125899906842624 in *.
  destruct (Z.eqb_spec (b + 16) 0) as [|_]; [lia|].
  replace (b + 16 - 16) with b by lia. rewrite (u64_small b) by lia.
  rewrite (irqsave_free _ _ Hul), bind_Ret.
  rewrite (load_block_ok _ b fb), bind_Ret by done.
  unfold store_next. rewrite (load_block_ok _ b fb), !bind_Ret by done. simpl. rewrite cpu_eta.
  eexists. split; [reflexivity|]. split_and!; simpl; [|by apply same_sizes_insert|done..].
  intros l1 l2 ->.
  pose proof (hi_nodup _ _ _ _ Hi) as Hn.
  assert (u64 (total_allocated h - fb_size fb) = sum_sizes (hmem h) (l1 ++ l2)) as ->.
  { rewrite (hi_total _ _ _ _ Hi) in *.
    rewrite (sum_sizes_perm _ (l1 ++ b :: l2) (b :: l1 ++ l2)) in * by solve_Permutation.
    simpl in *. rewrite (block_size_lookup _ _ _ Hb) in *.
    assert (0 <= sum_sizes (hmem h) (l1 ++ l2)) as Hnn.
    { apply sum_sizes_nonneg. intros x fx Hx.
      destruct (heap_inv_block _ _ _ _ _ _ Hi Hx) as (?&?&?). lia. }
    change (2 ^ 49) with 562949953421312 in *. rewrite u64_small; lia. }
  assert (u64 (free_block_count h + 1) = zlen (b :: fl)) as ->.
  { rewrite (hi_count _ _ _ _ Hi). pose proof (heap_inv_count _ _ _ _ Hi) as Hc.
    change (2 ^ 49) with 562949953421312 in *. simpl. rewrite u64_small; lia. }
  apply (heap_inv_relink _ _ _ _ _ _ (b :: fl) (l1 ++ l2) _ Hi);
    [by apply same_sizes_insert| |solve_Permutation].
  simpl. split_and!; [done|lia|]. eexists. rewrite lookup_insert_eq. split; [done|].
  simpl. apply chain_insert; [apply Hi|].
  apply NoDup_app in Hn as (_ & Hn & _). intros Hin. apply (Hn b Hin). set_solver.
Qed.

(** ** The allocator contract *)

Lemma hmem_null lo h fl lv : heap_inv lo h fl lv -> hmem h !! 0 = None.
Proof.
  intros Hi. destruct (hmem h !! 0) eqn:E; [|done].
  destruct (heap_inv_block _ _ _ _ _ _ Hi E). lia.
Qed.

Lemma live_iff lo h fl lv p n :
  heap_inv lo h fl lv ->
  live h p n <-> p - HEADER_SIZE ∈ lv /\ n = block_size (hmem h) (p - HEADER_SIZE) - HEADER_SIZE.
Proof.
  intros Hi. unfold live.
  rewrite (free_walk_chain _ _ fl); [|by eapply hmem_null|apply Hi|by eapply heap_inv_length].
  pose proof (hi_nodup _ _ _ _ Hi) as (_ & Hd & _)%NoDup_app. split.
  - intros (fb & Hb & -> & Hni). split; [|by rewrite (block_size_lookup _ _ _ Hb)].
    assert (p - HEADER_SIZE ∈ fl ++ lv) as Hin by (apply (hi_dom _ _ _ _ Hi); eauto).
    set_solver.
  - intros [Hin ->].
    destruct (proj2 (hi_dom _ _ _ _ Hi (p - HEADER_SIZE))) as [fb Hb]; [set_solver|].
    exists fb. rewrite (block_size_lookup _ _ _ Hb). split_and!; [done..|].
    intros Hf. by apply (Hd _ Hf).
Qed.

#[export] Instance heap_allocator : Allocator heap := {
  al_alloc := kmalloc_aligned;
  al_free := kfree;
  al_wf h := exists lo, heap_wf lo h;
  al_live := live
}.

(** A block that fits an alignment request is aligned. *)
Lemma fits_aligned lo h fl lv size align b fb :
  heap_inv lo h fl lv -> request_ok size align -> hmem h !! b = Some fb ->
  fits (hmem h) (block_total size align) (eff_align align) b = true ->
  (b + HEADER_SIZE) mod eff_align align = 0 /\ block_total size align <= fb_size fb.
Proof.
  intros Hi Hr Hb Hf. destruct (heap_inv_block _ _ _ _ _ _ Hi Hb) as (Hb1 & _ & Hb3).
  destruct (eff_align_pow2 _ _ Hr) as (k & Hk & Ek).
  unfold fits in Hf. rewrite (block_size_lookup _ _ _ Hb) in Hf.
  apply andb_true_iff in Hf as [Ht Ha]. apply Z.leb_le in Ht. split; [|done].
  unfold HEADER_SIZE in *. change (2 ^ 50) with 1125899906842624 in *.
  rewrite u64_small in Ha by lia. apply orb_true_iff in Ha as [Ha|Ha].
  - apply Z.eqb_eq in Ha as ->. rewrite <- Zplus_mod_idemp_r. simpl. by rewrite Z.add_0_r.
  - apply Z.eqb_eq in Ha. rewrite Ek in *. by rewrite land_pow2_mask in Ha by lia.
Qed.

Lemma eff_align_divide size align p :
  request_ok size align -> p mod eff_align align = 0 -> p mod align = 0.
Proof.
  intros (Hs & Ha & Hl) Hp. unfold eff_align in Hp. destruct (Z.ltb_spec align 16); [|done].
  destruct (pow2_of_land align) as (k & Hk & ->); [lia|done|].
  assert (k <= 4). { apply (Z.pow_le_mono_r_iff 2); lia. }
  apply Z.mod_divide; [apply Z.pow_nonzero; lia|]. apply Z.mod_divide in Hp; [|lia].
  etransitivity; [|exact Hp]. exists (2 ^ (4 - k)). rewrite <- Z.pow_add_r by lia.
  by replace (4 - k + k) with 4 by lia.
Qed.

Lemma kmalloc_result lo h fl lv size align p h' :
  heap_inv lo h fl lv -> request_ok size align ->
  kmalloc_spec lo h fl lv size align p h' -> alloc_result size align h p h'.
Proof.
  intros Hi Hr Hs. destruct (block_total_spec _ _ Hr) as (Ht & _ & _). unfold alloc_result.
  destruct Hs as [l1 b l2 Efl _ Hfit -> Hi' Hss _|_ Ep Hlim Hi' Hm Hhp|_ _ -> ->].
  - right. destruct (fit_lookup _ _ _ _ b Hi) as [fb Hb]; [set_solver|].
    destruct (heap_inv_block _ _ _ _ _ _ Hi Hb) as (Hb1 & _ & _).
    destruct (fits_aligned _ _ _ _ _ _ _ _ Hi Hr Hb Hfit) as [Hal Hsz].
    unfold HEADER_SIZE in *. split_and!.
    + lia.
    + by eapply eff_align_divide.
    + intros n [Hin _]%(live_iff _ _ _ _ _ _ Hi). unfold HEADER_SIZE in *.
      replace (b + 16 - 16) with b in Hin by lia.
      pose proof (hi_nodup _ _ _ _ Hi) as (_ & Hd & _)%NoDup_app. apply (Hd b); set_solver.
    + exists (fb_size fb - 16). split; [lia|]. intros q n. cbn.
      rewrite (live_iff _ _ _ _ _ _ Hi'), (live_iff _ _ _ _ _ _ Hi). unfold HEADER_SIZE.
      rewrite (same_sizes_block_size _ _ _ Hss), elem_of_cons.
      split; [intros [[E|?] ->]|intros [[-> ->]|[? ->]]]; [left|by right|split|by split; [right|]].
      * split; [lia|]. by rewrite E, (block_size_lookup _ _ _ Hb).
      * left. lia.
      * by replace (b + 16 - 16) with b by lia; rewrite (block_size_lookup _ _ _ Hb).
  - right. destruct (eff_align_pow2 _ _ Hr) as (k & Hk & Ek).
    pose proof (heap_inv_bound _ _ _ _ Hi). pose proof (hi_lo _ _ _ _ Hi).
    destruct (bump_addr_spec h k Hk) as [Hp1 Hp2]; [lia|]. rewrite <- Ek, <- Ep in Hp1, Hp2.
    assert (p - HEADER_SIZE ∉ fl ++ lv) as Hni.
    { pose proof (hi_nodup _ _ _ _ Hi') as Hn.
      rewrite <- Permutation_middle in Hn. by apply NoDup_cons in Hn as [? _]. }
    split_and!.
    + unfold HEADER_SIZE in *. lia.
    + by eapply eff_align_divide.
    + intros n [Hin _]%(live_iff _ _ _ _ _ _ Hi). set_solver.
    + exists (block_total size align - HEADER_SIZE). split; [lia|]. intros q n. cbn.
      rewrite (live_iff _ _ _ _ _ _ Hi'), (live_iff _ _ _ _ _ _ Hi), Hm, elem_of_cons.
      unfold block_size. destruct (decide (q = p)) as [->|Hne].
      * rewrite lookup_insert_eq. simpl. split; [intros [_ ->]; by left|].
        intros [[_ ->]|[Hin _]]; [split; [by left|done]|set_solver].
      * rewrite lookup_insert_ne by (unfold HEADER_SIZE; lia).
        split; [intros [[E|?] ->]; [unfold HEADER_SIZE in E; lia|by right]|].
        intros [[? _]|[? ->]]; [done|]. split; [by right|done].
  - by left.
Qed.

Lemma live_block lo h fl lv p n :
  heap_inv lo h fl lv -> live h p n ->
  exists fb, hmem h !! (p - HEADER_SIZE) = Some fb /\ (p - HEADER_SIZE) ∈ lv
    /\ n = fb_size fb - HEADER_SIZE.
Proof.
  intros Hi [Hin ->]%(live_iff _ _ _ _ _ _ Hi).
  destruct (proj2 (hi_dom _ _ _ _ Hi (p - HEADER_SIZE))) as [fb Hb]; [set_solver|].
  exists fb. by rewrite (block_size_lookup _ _ _ Hb).
Qed.

Lemma kfree_live lo h fl lv p n :
  heap_inv lo h fl lv -> live h p n ->
  exists h' l1 l2, kfree p h = Ret h' /\ lv = l1 ++ (p - HEADER_SIZE) :: l2
    /\ heap_inv lo h' ((p - HEADER_SIZE) :: fl) (l1 ++ l2)
    /\ same_sizes (hmem h) (hmem h') /\ h_cpu h' = h_cpu h
    /\ heap_ptr h' = heap_ptr h /\ heap_end h' = heap_end h.
Proof.
  intros Hi (fb & Hb & Hin & _)%(live_block _ _ _ _ _ _ Hi).
  destruct (kfree_correct _ _ _ _ _ _ Hi Hin Hb) as (h' & Hk & Hi' & Hss & ? & ? & ?).
  replace (p - HEADER_SIZE + HEADER_SIZE) with p in Hk by lia.
  apply list_elem_of_split in Hin as (l1 & l2 & E).
  exists h', l1, l2. split_and!; eauto.
Qed.

#[export] Instance heap_laws : AllocatorLaws heap.
Proof.
  split; cbn.
  - intros h p n (lo & fl & lv & Hi) (fb & Hb & _ & ->)%(live_block _ _ _ _ _ _ Hi).
    destruct (hi_ok _ _ _ _ Hi _ _ Hb) as (? & ? & _).
    pose proof (hi_ptr _ _ _ _ Hi). pose proof (hi_end _ _ _ _ Hi). pose proof (hi_lo _ _ _ _ Hi).
    change (2 ^ 48) with (2 * 2 ^ 47). unfold HEADER_SIZE in *. lia.
  - intros h p n m (lo & fl & lv & Hi) [_ ->]%(live_iff _ _ _ _ _ _ Hi)
      [_ ->]%(live_iff _ _ _ _ _ _ Hi). done.
  - intros h p n q m (lo & fl & lv & Hi) (fp & Hp & _ & ->)%(live_block _ _ _ _ _ _ Hi)
      (fq & Hq & _ & ->)%(live_block _ _ _ _ _ _ Hi) Hne.
    destruct (hi_apart _ _ _ _ Hi _ _ _ _ Hp Hq); unfold ranges_apart, HEADER_SIZE in *; lia.
  - intros size align h (lo & fl & lv & Hi) Hr.
    destruct (kmalloc_aligned_correct _ _ _ _ _ _ Hi Hr) as (p & h' & Hk & Hs & _).
    exists p, h'. split; [done|]. split; [|by eapply kmalloc_result].
    exists lo. destruct Hs as [????????| |??? ->]; unfold heap_wf; eauto.
  - intros h p n (lo & fl & lv & Hi) Hl.
    destruct (kfree_live _ _ _ _ _ _ Hi Hl) as (h' & l1 & l2 & Hk & -> & Hi' & Hss & _).
    exists h'. split; [done|]. split; [exists lo; unfold heap_wf; eauto|].
    intros q m. rewrite (live_iff _ _ _ _ _ _ Hi'), (live_iff _ _ _ _ _ _ Hi).
    rewrite (same_sizes_block_size _ _ _ Hss).
    pose proof (hi_nodup _ _ _ _ Hi) as Hn.
    rewrite (Permutation_app_comm fl), <- app_assoc in Hn. simpl in Hn.
    rewrite <- Permutation_middle in Hn. apply NoDup_cons in Hn as [Hn _].
    rewrite !elem_of_app, elem_of_cons in *. split.
    + intros [Hq ->]. split; [|naive_solver]. intros ->. naive_solver.
    + intros (Hne & Hq & ->). split; [|done].
      destruct Hq as [?|[?|?]]; [by left| |by right]. unfold HEADER_SIZE in *. lia.
  - done.
Qed.

(** A heap no block has been carved from. *)
Lemma alloc_init_inv lo hi c :
  16 <= lo <= hi -> lo mod 16 = 0 -> hi <= 2 ^ 47 -> heap_inv lo (alloc_init lo hi c) [] [].
Proof.
  intros Hlo Hm Hhi. split; simpl; try done; try lia.
  - constructor.
  - intros b. rewrite lookup_empty. split; [by intros []|by intros ?%elem_of_nil].
Qed.

Lemma sum_free_chain h p fl fuel v :
  chain (hmem h) p fl -> (length fl < fuel)%nat ->
  0 <= v -> (forall b, b ∈ fl -> 0 <= block_size (hmem h) b) ->
  v + sum_sizes (hmem h) fl <= ULONG_MAX ->
  sum_free fuel h p v = Ret (v + sum_sizes (hmem h) fl).
Proof.
  revert p fuel v. induction fl as [|x fl IH]; intros p fuel v Hc Hf Hv Hb Hs;
    (destruct fuel as [|fuel]; [simpl in Hf; lia|]); simpl in *.
  - rewrite Hc. simpl. f_equal. lia.
  - destruct Hc as (-> & Hx & fb & Hm & Hc).
    destruct (Z.eqb_spec x 0); [done|].
    unfold load_block. rewrite Hm. simpl. rewrite (block_size_lookup _ _ _ Hm) in *.
    assert (0 <= fb_size fb). { rewrite <- (block_size_lookup _ _ _ Hm). apply Hb. set_solver. }
    assert (0 <= sum_sizes (hmem h) fl).
    { clear -Hb. induction fl as [|y fl IH]; simpl; [done|].
      pose proof (Hb y ltac:(set_solver)). enough (0 <= sum_sizes (hmem h) fl) by lia.
      apply IH. set_solver. }
    rewrite u64_small by lia. rewrite IH; [f_equal; lia|done|lia|lia|set_solver|lia].
Qed.

(** ** Runs of the allocator *)

(** One call of a client: a covered request, or the release of a live block. *)
Inductive heap_step (h : heap) : heap -> Prop :=
| hs_alloc size align p h' :
    request_ok size align -> kmalloc_aligned size align h = Ret (p, h') -> heap_step h h'
| hs_free p n h' : live h p n -> kfree p h = Ret h' -> heap_step h h'
| hs_free_null h' : kfree 0 h = Ret h' -> heap_step h h'.

Lemma heap_step_wf lo h h' : heap_step h h' -> heap_wf lo h -> heap_wf lo h'.
Proof.
  intros Hs (fl & lv & Hi). destruct Hs as [size align p h' Hr Hk|p n h' Hl Hk|h' Hk].
  - destruct (kmalloc_aligned_correct _ _ _ _ _ _ Hi Hr) as (p' & h'' & Hk' & Hs & _).
    rewrite Hk in Hk'. simplify_eq. destruct Hs as [????????| |??? ->]; unfold heap_wf; eauto.
  - destruct (kfree_live _ _ _ _ _ _ Hi Hl) as (h'' & l1 & l2 & Hk' & -> & Hi' & _).
    rewrite Hk in Hk'. simplify_eq. unfold heap_wf; eauto.
  - injection Hk as <-. unfold heap_wf; eauto.
Qed.

Lemma heap_run_wf lo h h' : rtc heap_step h h' -> heap_wf lo h -> heap_wf lo h'.
Proof. induction 1; eauto using heap_step_wf. Qed.

(** A heap with one 32-byte block, handed out at 4096+16. *)
Definition heap_example : heap :=
  match kmalloc 10 (alloc_init 4096 65536 (mk_cpu 0)) with Ret (_, h) => h | _ => alloc_init 0 0 (mk_cpu 0) end.

Lemma heap_example_inv : heap_inv 4096 heap_example [] [4096].
Proof.
  assert (heap_inv 4096 (alloc_init 4096 65536 (mk_cpu 0)) [] []) as H0.
  { by apply alloc_init_inv. }
  destruct (kmalloc_aligned_correct _ _ _ _ 10 16 H0) as (p & h' & Hk & Hs & _).
  { by apply request_ok_small. }
  assert (kmalloc_aligned 10 16 (alloc_init 4096 65536 (mk_cpu 0)) = Ret (4112, heap_example)) as E
    by (vm_compute; reflexivity).
  rewrite E in Hk. injection Hk as <- <-.
  destruct Hs as [l1 b l2 Hl _ _ _ _ _ _| _ _ _ Hi _ _|_ _ Hp _]; [by destruct l1|exact Hi|done].
Qed.

Lemma heap_example_live : live heap_example 4112 16.
Proof. by apply (live_iff _ _ _ _ _ _ heap_example_inv); split; [left|]. Qed.

(** C5. Every covered [kmalloc_aligned] returns, with DAIF restored and the
    lock released.  It returns null only without changing the heap; otherwise
    the pointer is aligned, was not live, has at least [size] bytes behind it
    inside the carved part of the heap, and they overlap no block that is live. *)
Theorem kmalloc_aligned_safe (lo size align : Z) (h : heap) :
  heap_wf lo h -> request_ok size align ->
  exists p h', kmalloc_aligned size align h = Ret (p, h') /\ heap_wf lo h'
    /\ h_cpu h' = h_cpu h /\ lock (heap_lock h') = 0
    /\ (p = 0 /\ h' = h
        \/ p mod align = 0
           /\ exists n, size <= n /\ lo + HEADER_SIZE <= p /\ p + n <= heap_ptr h'
              /\ live h' p n /\ (forall k, ~ live h p k)
              /\ (forall q m, live h q m -> live h' q m /\ ranges_apart p n q m)).
Proof.
  intros (fl & lv & Hi) Hr.
  destruct (kmalloc_aligned_correct _ _ _ _ _ _ Hi Hr) as (p & h' & Hk & Hs & Hc & _).
  pose proof (kmalloc_result _ _ _ _ _ _ _ _ Hi Hr Hs) as Hres.
  assert (heap_wf lo h' /\ (p = 0 -> h' = h)) as [Hwf Hnull].
  { destruct (heap_inv_bound _ _ _ _ Hi). pose proof (hi_lo _ _ _ _ Hi).
    destruct Hs as [l1 b l2 -> _ Hf -> Hi' _ _|_ Ep _ Hi' _ _|??? ->]; split; unfold heap_wf; eauto.
    - destruct (fit_lookup _ _ _ _ b Hi) as [fb Hb]; [set_solver|].
      destruct (heap_inv_block _ _ _ _ _ _ Hi Hb). unfold HEADER_SIZE. lia.
    - intros E. destruct (eff_align_pow2 _ _ Hr) as (k & Hk' & Ek).
      destruct (bump_addr_spec h k Hk') as [Hp _]; [lia|].
      rewrite <- Ek, <- Ep in Hp. unfold HEADER_SIZE in Hp. lia. }
  exists p, h'. split_and!; [done..| |].
  { destruct Hwf as (? & ? & Hi'). apply Hi'. }
  destruct Hres as [[-> _]|(Hp & Hal & Hnl & n & Hn & Hlv)]; [left; eauto|right].
  split; [done|]. exists n. destruct Hwf as (fl' & lv' & Hi').
  assert (live h' p n) as Hl' by (apply Hlv; by left).
  destruct (live_block _ _ _ _ _ _ Hi' Hl') as (fb & Hb & _ & En).
  destruct (hi_ok _ _ _ _ Hi' _ _ Hb) as (? & ? & _).
  split_and!; [done|lia|lia|done|done|].
  intros q m Hq. assert (live h' q m) by (apply Hlv; by right). split; [done|].
  apply (al_live_apart h'); [exists lo; unfold heap_wf; eauto|done|done|].
  intros ->. by apply (Hnl m).
Qed.

Lemma kmalloc_aligned_safe_witness :
  exists p h', kmalloc_aligned 100 64 heap_example = Ret (p, h') /\ p mod 64 = 0.
Proof.
  destruct (kmalloc_aligned_safe 4096 100 64 heap_example) as (p & h' & Hk & _ & _ & _ & Hp).
  - exists [], [4096]. apply heap_example_inv.
  - unfold request_ok. split_and!; [lia..|reflexivity].
  - exists p, h'. split; [done|]. by destruct Hp as [[-> _]|[? _]].
Defined.

(** C6. [kfree] of a live block returns, keeps the invariant, and takes away
    exactly that block from the live set, with DAIF and the bump pointer as
    they were; allocating again with a request the block fits hands the same
    block back (the list is LIFO and the search first-fit), with the live set
    of before. *)
Theorem kfree_then_kmalloc (lo p n size align : Z) (h : heap) :
  heap_wf lo h -> live h p n -> request_ok size align ->
  block_total size align <= n + HEADER_SIZE -> p mod (eff_align align) = 0 ->
  exists h1 h2,
    kfree p h = Ret h1 /\ heap_wf lo h1 /\ h_cpu h1 = h_cpu h /\ heap_ptr h1 = heap_ptr h
    /\ (forall q m, live h1 q m <-> q <> p /\ live h q m)
    /\ kmalloc_aligned size align h1 = Ret (p, h2) /\ heap_wf lo h2
    /\ (forall q m, live h2 q m <-> live h q m).
Proof.
  intros Hwf Hl Hr Ht Ha. pose proof Hwf as (fl & lv & Hi).
  destruct (kfree_live _ _ _ _ _ _ Hi Hl) as (h1 & l1 & l2 & Hk & -> & Hi1 & Hss & Hc & Hp & _).
  destruct (al_free_ok h p n) as (h1' & Hk' & _ & Hlv); [by exists lo|done|].
  cbn in Hk', Hlv. rewrite Hk in Hk'. injection Hk' as <-.
  destruct (live_block _ _ _ _ _ _ Hi Hl) as (fb & Hb & _ & En).
  destruct (heap_inv_block _ _ _ _ _ _ Hi Hb) as (Hb1 & _ & _).
  set (b := p - HEADER_SIZE) in *.
  assert (fits (hmem h1) (block_total size align) (eff_align align) b = true) as Hfit.
  { destruct (eff_align_pow2 _ _ Hr) as (k & Hk2 & Ek).
    unfold fits. rewrite (same_sizes_block_size _ _ _ Hss), (block_size_lookup _ _ _ Hb).
    replace (b + HEADER_SIZE) with p by (unfold b; lia).
    change (2 ^ 50) with 1125899906842624 in *. unfold b, HEADER_SIZE in *.
    rewrite u64_small, Ek, land_pow2_mask, <- Ek, Ha by lia.
    rewrite orb_true_r, andb_true_r. apply Z.leb_le. lia. }
  destruct (kmalloc_aligned_correct _ _ _ _ _ _ Hi1 Hr) as (p2 & h2 & Hk2 & Hs & _).
  assert (p2 = p /\ heap_inv lo h2 fl (b :: l1 ++ l2) /\ same_sizes (hmem h1) (hmem h2))
    as (-> & Hi2 & Hss2).
  { destruct Hs as [m1 c m2 E Hno _ -> Hi2 Hss2 _|Hno|Hno].
    - destruct m1 as [|x m1]; simpl in E; [injection E as <- <-; unfold b; split; [lia|done]|].
      injection E as <- _. apply Forall_cons in Hno as [Hno _]. congruence.
    - apply Forall_cons in Hno as [Hno _]. congruence.
    - apply Forall_cons in Hno as [Hno _]. congruence. }
  exists h1, h2. split_and!; try done; [by exists (b :: fl), (l1 ++ l2)|by eexists _, _|].
  intros q m. rewrite (live_iff _ _ _ _ _ _ Hi2), (live_iff _ _ _ _ _ _ Hi).
  rewrite (same_sizes_block_size _ _ _ Hss2), (same_sizes_block_size _ _ _ Hss).
  by rewrite Permutation_middle.
Qed.

Lemma kfree_then_kmalloc_witness :
  exists h1 h2, kfree 4112 heap_example = Ret h1 /\ kmalloc_aligned 16 16 h1 = Ret (4112, h2).
Proof.
  destruct (kfree_then_kmalloc 4096 4112 16 16 16 heap_example) as (h1 & h2 & ? & _ & _ & _ & _ & ? & _).
  - exists [], [4096]. apply heap_example_inv.
  - apply heap_example_live.
  - by apply request_ok_small.
  - by vm_compute.
  - by vm_compute.
  - by exists h1, h2.
Defined.



(** *** Limits of the contract *)

(** A request within 32 bytes of 2^64 wraps around and is granted 32 bytes. *)
Lemma kmalloc_size_wrap :
  exists h, kmalloc (ULONG_MAX - 15) (alloc_init 4096 65536 (mk_cpu 0)) = Ret (4112, h)
    /\ live h 4112 16.
Proof.
  eexists. split; [vm_compute; reflexivity|].
  exists (mk_fb 32 0). split; [reflexivity|]. split; [reflexivity|].
  vm_compute. by intros ?%elem_of_nil.
Qed.

(** The limit test covers the payload, not the padded block: the bump pointer
    can pass the end of the heap, after which [alloc_free] wraps around. *)
Lemma heap_end_overrun :
  exists h, kmalloc_aligned 4096 4096 (alloc_init 4096 12288 (mk_cpu 0)) = Ret (8192, h)
    /\ heap_end h < heap_ptr h /\ alloc_free h = Ret (ULONG_MAX + 1 - 4080).
Proof. eexists. split; [vm_compute; reflexivity|]. by vm_compute. Qed.
