(* ===== verification/CString.v ===== *)
(** string.c: C strings, byte copies and number parsing.

    A [char *] or [unsigned char *] argument is the list of the bytes it points
    at, up to the end of its object; characters are bytes 0..255 (char is
    unsigned on AArch64).  A read or write past the list is [Undef], so a string
    needs its NUL.  [cstr] is the text before the NUL.  A pointer into the middle
    of an object is a suffix of its list, and [at_off] runs a routine there. *)
From S2P Require Import Prelude.

(** The text of a string and whether it ends. *)
Fixpoint cstr (s : list Z) : list Z :=
  match s with
  | [] => []
  | c :: s => if c =? 0 then [] else c :: cstr s
  end.
Definition terminated (s : list Z) : Prop := 0 ∈ s.

(** The bytes of a string literal, with its NUL. *)
Fixpoint bytes (s : string) : list Z :=
  match s with
  | String.EmptyString => []
  | String.String a s => Z.of_N (Ascii.N_of_ascii a) :: bytes s
  end.
Definition lit (s : string) : list Z := bytes s ++ [0].
(** The same with the newline most messages end in. *)
Definition line_of (s : string) : list Z := bytes s ++ [10; 0].

(** Run [f] on the object from offset [off] on. *)
Definition at_off (buf : list Z) (off : Z) (f : list Z -> outcome (list Z)) : outcome (list Z) :=
  if bool_decide (0 <= off <= zlen buf) then
    r ← f (drop (Z.to_nat off) buf);
    Ret (take (Z.to_nat off) buf ++ r)
  else Undef.

(** [s + off] *)
Definition ptr_add (s : list Z) (off : Z) : outcome (list Z) :=
  if bool_decide (0 <= off <= zlen s) then Ret (drop (Z.to_nat off) s) else Undef.

(** *** String helpers *)

Fixpoint k_strlen_loop (s : list Z) (len : Z) : outcome Z :=
  match s with
  | [] => Undef
  | c :: s => if c =? 0 then Ret len else k_strlen_loop s (s32 (len + 1))
  end.
Definition k_strlen (s : list Z) : outcome Z := k_strlen_loop s 0.

Fixpoint str_eq (a b : list Z) : outcome Z :=
  match a, b with
  | x :: a, y :: b =>
    if negb (x =? 0) && negb (y =? 0) then
      if negb (x =? y) then Ret 0 else str_eq a b
    else Ret (c_bool (x =? y))
  | _, _ => Undef
  end.

Fixpoint k_strncmp (a b : list Z) (n : Z) : outcome Z :=
  if 0 <? n then
    match a, b with
    | x :: a, y :: b =>
      if negb (x =? y) then Ret (x - y)
      else if x =? 0 then Ret 0
      else k_strncmp a b (n - 1)
    | _, _ => Undef
    end
  else Ret 0.

Fixpoint str_starts_with (s prefix : list Z) : outcome Z :=
  match prefix with
  | [] => Undef
  | p :: prefix =>
    if p =? 0 then Ret 1
    else
      match s with
      | [] => Undef
      | c :: s => if negb (c =? p) then Ret 0 else str_starts_with s prefix
      end
  end.

(** *** Memory helpers *)

(** [n] is an unsigned long, so it is not negative. *)
Fixpoint memset (p : list Z) (val n : Z) : outcome (list Z) :=
  if n =? 0 then Ret p
  else
    match p with
    | [] => Undef
    | _ :: p => r ← memset p val (n - 1); Ret (u8 val :: r)
    end.

Fixpoint memcpy (d s : list Z) (n : Z) : outcome (list Z) :=
  if n =? 0 then Ret d
  else
    match d, s with
    | _ :: d, c :: s => r ← memcpy d s (n - 1); Ret (c :: r)
    | _, _ => Undef
    end.

(** [while(src[i] && i < n - 1){ dst[i] = src[i]; i++; } dst[i] = 0], the loop
    the kernel copies names with. *)
Fixpoint copy_name_loop (src dst : list Z) (i n : Z) : outcome (list Z) :=
  match src with
  | [] => Undef
  | c :: src =>
    if negb (c =? 0) && (i <? n - 1) then
      dst ← aset dst i c;
      copy_name_loop src dst (i + 1) n
    else aset dst i 0
  end.
Definition copy_name (dst src : list Z) (n : Z) : outcome (list Z) := copy_name_loop src dst 0 n.

(** *** Number printing and parsing *)

(** do-while over the digits; [value] is at most 2^31, so 11 rounds are enough. *)
Fixpoint itoa_digits (fuel : nat) (value : Z) (buf : list Z) (i bufLen : Z) : outcome (list Z * Z) :=
  match fuel with
  | O => Hang
  | S fuel =>
    if bufLen - 1 <=? i then Ret (buf, i)
    else
      buf ← aset buf i (u8 (48 + Z.rem value 10));
      let i := i + 1 in
      let value := Z.quot value 10 in
      if 0 <? value then itoa_digits fuel value buf i bufLen else Ret (buf, i)
  end.

Fixpoint itoa_reverse (fuel : nat) (buf : list Z) (j k : Z) : outcome (list Z) :=
  match fuel with
  | O => Hang
  | S fuel =>
    if j <? k then
      tmp ← aget buf j;
      c ← aget buf k;
      buf ← aset buf j c;
      buf ← aset buf k tmp;
      itoa_reverse fuel buf (j + 1) (k - 1)
    else Ret buf
  end.

(** returns the length and the buffer *)
Definition itoa (value : Z) (buf : list Z) (bufLen : Z) : outcome (Z * list Z) :=
  if bufLen <=? 0 then Ret (0, buf)
  else
    let neg := value <? 0 in
    let value := if neg then s32 (- value) else value in
    '(buf, i) ← itoa_digits 11 value buf 0 bufLen;
    '(buf, i) ← (if neg && (i <? bufLen - 1)
                 then buf ← aset buf i 45; Ret (buf, i + 1)
                 else Ret (buf, i));
    buf ← aset buf i 0;
    buf ← itoa_reverse 12 buf 0 (i - 1);
    Ret (i, buf).

Fixpoint atoi_loop (s : list Z) (result : Z) : outcome Z :=
  match s with
  | [] => Undef
  | c :: s =>
    if (48 <=? c) && (c <=? 57) then atoi_loop s (s32 (result * 10 + (c - 48)))
    else Ret result
  end.

Definition k_atoi (s : list Z) : outcome Z :=
  c ← aget s 0;
  let neg := c =? 45 in
  s ← (if neg then ptr_add s 1 else Ret s);
  result ← atoi_loop s 0;
  Ret (if neg then s32 (- result) else result).

Fixpoint hextoul_loop (s : list Z) (result : Z) : outcome Z :=
  match s with
  | [] => Undef
  | c :: s =>
    if (48 <=? c) && (c <=? 57) then
      hextoul_loop s (Z.lor (u64 (Z.shiftl result 4)) (c - 48))
    else if (97 <=? c) && (c <=? 102) then
      hextoul_loop s (Z.lor (u64 (Z.shiftl result 4)) (c - 97 + 10))
    else if (65 <=? c) && (c <=? 70) then
      hextoul_loop s (Z.lor (u64 (Z.shiftl result 4)) (c - 65 + 10))
    else Ret result
  end.

Definition k_hextoul (s : list Z) : outcome Z :=
  c0 ← aget s 0;
  s ← (if c0 =? 48 then
         c1 ← aget s 1;
         if (c1 =? 120) || (c1 =? 88) then ptr_add s 2 else Ret s
       else Ret s);
  hextoul_loop s 0.

(** ** What they compute *)

Lemma terminated_split s : terminated s <-> exists rest, s = cstr s ++ 0 :: rest.
Proof.
  unfold terminated. split.
  - induction s as [|c s IH]; [by intros ?%elem_of_nil|]. simpl.
    destruct (Z.eqb_spec c 0) as [->|Hc]; [by exists s|].
    intros [?|Hs]%elem_of_cons; [done|]. destruct (IH Hs) as [r Hr]. exists r.
    simpl. by rewrite <- Hr.
  - intros [rest ->]. set_solver.
Qed.

Lemma cstr_nonzero s : Forall (fun c => c <> 0) (cstr s).
Proof.
  induction s as [|c s IH]; simpl; [constructor|].
  destruct (Z.eqb_spec c 0); [constructor|by constructor].
Qed.

Lemma cstr_app cs rest : Forall (fun c => c <> 0) cs -> cstr (cs ++ 0 :: rest) = cs.
Proof.
  induction 1 as [|c cs Hc _ IH]; simpl; [done|].
  destruct (Z.eqb_spec c 0); [done|]. by rewrite IH.
Qed.

Lemma terminated_app cs rest : terminated (cs ++ 0 :: rest).
Proof. unfold terminated. set_solver. Qed.
Lemma lit_terminated s : terminated (lit s).
Proof. apply terminated_app. Qed.
Lemma line_terminated s : terminated (line_of s).
Proof. unfold line_of. change (bytes s ++ [10; 0]) with (bytes s ++ [10] ++ [0]). rewrite app_assoc. apply terminated_app. Qed.
Lemma line_terminated_nl s : terminated (10 :: line_of s).
Proof. right. apply line_terminated. Qed.
Create HintDb cstr.
#[export] Hint Resolve lit_terminated line_terminated line_terminated_nl : cstr.

Lemma cstr_length_lt s : terminated s -> (length (cstr s) < length s)%nat.
Proof.
  intros [rest E]%terminated_split. rewrite E at 2. rewrite length_app. simpl. lia.
Qed.

(** Induction over a terminated string. *)
Lemma terminated_ind (P : list Z -> Prop) :
  (forall s, P (0 :: s)) ->
  (forall c s, c <> 0 -> terminated s -> P s -> P (c :: s)) ->
  forall s, terminated s -> P s.
Proof.
  intros H0 HS s. induction s as [|c s IH]; [by intros ?%elem_of_nil|].
  intros Ht. destruct (decide (c = 0)) as [->|]; [apply H0|].
  apply elem_of_cons in Ht as [?|Ht]; [done|]. by apply HS; [| |apply IH].
Qed.

Lemma k_strlen_loop_spec s n :
  terminated s -> 0 <= n -> n + zlen (cstr s) <= INT_MAX ->
  k_strlen_loop s n = Ret (n + zlen (cstr s)).
Proof.
  intros Ht. revert s Ht n. refine (terminated_ind _ _ _); [intros s|intros c s Hc Ht' IH];
    intros n Hn Hb; simpl in *.
  - f_equal. lia.
  - destruct (Z.eqb_spec c 0); [done|]. simpl in Hb. rewrite s32_small by lia.
    rewrite IH by lia. f_equal. simpl. lia.
Qed.

Lemma k_strlen_spec s :
  terminated s -> zlen (cstr s) <= INT_MAX -> k_strlen s = Ret (zlen (cstr s)).
Proof. intros Ht Hl. unfold k_strlen. by rewrite k_strlen_loop_spec. Qed.

Lemma str_eq_spec a b :
  terminated a -> terminated b -> str_eq a b = Ret (c_bool (bool_decide (cstr a = cstr b))).
Proof.
  intros Ha. revert a Ha b. refine (terminated_ind _ _ _); [intros a|intros c a Hc Ha' IH];
    intros b Hb; destruct b as [|y b]; try by apply elem_of_nil in Hb.
  - cbn [str_eq cstr]. destruct (Z.eqb_spec y 0) as [->|Hy]; [done|].
    rewrite bool_decide_false by done. by destruct y.
  - cbn [str_eq cstr]. destruct (Z.eqb_spec c 0); [done|].
    destruct (Z.eqb_spec y 0) as [->|Hy]; cbn [negb andb].
    + rewrite bool_decide_false by done. by rewrite (proj2 (Z.eqb_neq c 0)).
    + destruct (Z.eqb_spec c y) as [->|Hcy]; cbn [negb].
      * apply elem_of_cons in Hb as [?|Hb]; [done|]. rewrite IH by done. do 2 f_equal.
        apply bool_decide_ext. split; congruence.
      * rewrite bool_decide_false; [done|]. congruence.
Qed.

Lemma str_starts_with_cons x s c p :
  str_starts_with (x :: s) (c :: p)
  = if c =? 0 then Ret 1 else if negb (x =? c) then Ret 0 else str_starts_with s p.
Proof. reflexivity. Qed.

Lemma str_starts_with_spec s p :
  terminated s -> terminated p ->
  str_starts_with s p = Ret (c_bool (bool_decide (cstr p `prefix_of` cstr s))).
Proof.
  intros Hs Hp. revert p Hp s Hs. refine (terminated_ind _ _ _); [intros p|intros c p Hc Hp' IH];
    intros s Hs; cbn [cstr].
  - rewrite bool_decide_true by apply prefix_nil. by destruct s.
  - destruct s as [|x s]; [by apply elem_of_nil in Hs|]. cbn [cstr].
    rewrite str_starts_with_cons.
    destruct (Z.eqb_spec c 0); [done|]. destruct (Z.eqb_spec x c) as [->|Hx]; cbn [negb].
    + apply elem_of_cons in Hs as [?|Hs]; [done|].
      rewrite IH by done. do 2 f_equal.
      destruct (Z.eqb_spec c 0); [done|]. apply bool_decide_ext. split.
      * apply prefix_cons.
      * by intros ?%prefix_cons_inv_2.
    + rewrite bool_decide_false; [done|]. destruct (Z.eqb_spec x 0) as [->|].
      * by intros ?%prefix_nil_not.
      * by intros ?%prefix_cons_inv_1.
Qed.

Lemma memset_spec p val n :
  0 <= n <= zlen p -> memset p val n = Ret (replicate (Z.to_nat n) (u8 val) ++ drop (Z.to_nat n) p).
Proof.
  revert n. induction p as [|c p IH]; intros n Hn; simpl in *.
  - destruct (Z.eqb_spec n 0) as [->|]; [done|lia].
  - destruct (Z.eqb_spec n 0) as [->|]; [done|]. rewrite IH by lia.
    replace (Z.to_nat n) with (S (Z.to_nat (n - 1))) by lia. done.
Qed.

Lemma memcpy_spec d s n :
  0 <= n <= zlen d -> n <= zlen s ->
  memcpy d s n = Ret (take (Z.to_nat n) s ++ drop (Z.to_nat n) d).
Proof.
  revert s n. induction d as [|c d IH]; intros s n Hn Hs; simpl in *.
  - destruct (Z.eqb_spec n 0) as [->|]; [done|lia].
  - destruct (Z.eqb_spec n 0) as [->|]; [done|]. destruct s as [|x s]; simpl in *; [lia|].
    rewrite IH by lia. replace (Z.to_nat n) with (S (Z.to_nat (n - 1))) by lia. done.
Qed.

(** A length that does not fit the objects faults. *)
Lemma memcpy_undef d s n : (zlen d < n \/ zlen s < n \/ n < 0) -> memcpy d s n = Undef.
Proof.
  revert s n. induction d as [|c d IH]; intros s n Hn; simpl in *.
  - destruct (Z.eqb_spec n 0); [lia|done].
  - destruct (Z.eqb_spec n 0); [lia|]. destruct s as [|x s]; simpl in *; [done|].
    rewrite IH by lia. done.
Qed.

Lemma memcpy_Ret d s n d' :
  memcpy d s n = Ret d' ->
  0 <= n <= zlen d /\ n <= zlen s /\ d' = take (Z.to_nat n) s ++ drop (Z.to_nat n) d.
Proof.
  intros H. destruct (decide (0 <= n <= zlen d /\ n <= zlen s)) as [[? ?]|Hn].
  - rewrite memcpy_spec in H by done. by simplify_eq.
  - rewrite memcpy_undef in H by lia. done.
Qed.

Lemma at_off_spec buf off f r :
  0 <= off <= zlen buf -> f (drop (Z.to_nat off) buf) = Ret r ->
  at_off buf off f = Ret (take (Z.to_nat off) buf ++ r).
Proof. intros Ho Hf. unfold at_off. rewrite bool_decide_true by done. by rewrite Hf. Qed.

Lemma copy_name_loop_spec src pre rest n :
  terminated src -> zlen pre < n <= zlen pre + zlen rest ->
  exists k, k = Nat.min (length (cstr src)) (Z.to_nat (n - 1) - length pre)
    /\ copy_name_loop src (pre ++ rest) (zlen pre) n
       = Ret (pre ++ take k (cstr src) ++ 0 :: drop (S k) rest).
Proof.
  intros Ht. revert pre rest. revert src Ht. refine (terminated_ind _ _ _).
  - intros s pre rest Hn. destruct rest as [|x rest]; [simpl in Hn; lia|].
    exists 0%nat. split; [done|]. simpl. rewrite aset_app by done. by rewrite <- app_assoc.
  - intros c s Hc Ht IH pre rest Hn. destruct rest as [|x rest]; [simpl in Hn; lia|].
    simpl in Hn. eexists. split; [reflexivity|]. cbn [copy_name_loop cstr].
    destruct (Z.eqb_spec c 0); [done|]. cbn [negb andb].
    destruct (Z.ltb_spec (zlen pre) (n - 1)) as [Hlt|Hge].
    + rewrite aset_app, bind_Ret by done.
      destruct (IH (pre ++ [c]) rest) as (k & -> & E).
      { rewrite length_app. simpl. lia. }
      rewrite length_app in E. simpl in E.
      replace (zlen pre + 1) with (Z.of_nat (length pre + 1)) by lia. rewrite E, <- app_assoc. simpl.
      replace (Z.to_nat (n - 1) - length pre)%nat with (S (Z.to_nat (n - 1) - (length pre + 1))) by lia.
      done.
    + replace (Z.to_nat (n - 1) - length pre)%nat with 0%nat by lia. rewrite Nat.min_0_r. simpl.
      rewrite aset_app by done. by rewrite <- app_assoc.
Qed.

(** The copy keeps the first [n - 1] characters and ends the string. *)
Lemma copy_name_spec dst src n :
  terminated src -> 0 < n <= zlen dst ->
  exists dst', copy_name dst src n = Ret dst' /\ length dst' = length dst
    /\ terminated dst' /\ cstr dst' = take (Z.to_nat (n - 1)) (cstr src).
Proof.
  intros Ht Hn. destruct (copy_name_loop_spec src [] dst n Ht) as (k & Ek & E); [simpl; lia|].
  change (zlen (@nil Z)) with 0 in E. rewrite !app_nil_l in E.
  change (length (@nil Z)) with 0%nat in Ek. rewrite Nat.sub_0_r in Ek.
  eexists. split; [exact E|]. split_and!.
  - rewrite length_app, length_take. simpl. rewrite length_drop. lia.
  - apply terminated_app.
  - rewrite cstr_app by apply Forall_take, cstr_nonzero.
    rewrite Ek, <- take_take. by rewrite (take_ge (take _ (cstr src))) by (rewrite length_take; lia).
Qed.

(** *** Decimal text *)

(** The digits of [v], least significant first, as characters. *)
Fixpoint digits (n : nat) (v : Z) : list Z :=
  match n with
  | O => []
  | S n => (48 + v mod 10) :: if 0 <? v / 10 then digits n (v / 10) else []
  end.

(** A number below 2^31 has at most ten digits. *)
Definition dec (v : Z) : list Z := digits 10 v.
#[global] Arguments dec : simpl never.

Lemma itoa_digits_spec n fuel v pre rest bufLen :
  0 <= v < 10 ^ Z.of_nat n -> (0 < n)%nat -> (n < fuel)%nat -> bufLen <= zlen pre + zlen rest ->
  zlen pre < bufLen ->
  exists k, k = Nat.min (length (digits n v)) (Z.to_nat (bufLen - 1) - length pre) /\
  itoa_digits fuel v (pre ++ rest) (zlen pre) bufLen
  = Ret (pre ++ take k (digits n v) ++ drop k rest, zlen pre + Z.of_nat k).
Proof.
  revert fuel v pre rest. induction n as [|n IH]; intros fuel v pre rest Hv Hn Hf Hl Hp; [lia|].
  destruct fuel as [|fuel]; [lia|]. eexists. split; [reflexivity|]. cbn [itoa_digits].
  destruct (Z.leb_spec (bufLen - 1) (zlen pre)) as [Hb|Hb].
  { replace (Z.to_nat (bufLen - 1) - length pre)%nat with 0%nat by lia.
    rewrite Nat.min_0_r. simpl. do 2 f_equal. lia. }
  destruct rest as [|x rest]; [simpl in Hl; lia|].
  pose proof (Z.mod_pos_bound v 10 ltac:(lia)).
  rewrite Z.rem_mod_nonneg, Z.quot_div_nonneg, u8_small by lia.
  rewrite aset_app, bind_Ret by done. cbv zeta. cbn [digits].
  replace (zlen pre + 1) with (zlen (pre ++ [48 + v mod 10])) by (rewrite length_app; simpl; lia).
  assert (Z.to_nat (bufLen - 1) - length pre =
          S (Z.to_nat (bufLen - 1) - length (pre ++ [(48 + v mod 10)%Z])%list))%nat as Ek.
  { rewrite length_app. simpl. lia. }
  rewrite Ek. clear Ek.
  destruct (Z.ltb_spec 0 (v / 10)) as [Hd|Hd].
  - rewrite Nat2Z.inj_succ, Z.pow_succ_r in Hv by lia.
    destruct n as [|n]; [simpl in Hv; pose proof (Z.div_small v 10 ltac:(lia)); lia|].
    destruct (IH fuel (v / 10) (pre ++ [48 + v mod 10]) rest) as (k & -> & ->).
    + split; [lia|]. apply Z.div_lt_upper_bound; lia.
    + lia.
    + lia.
    + rewrite length_app. simpl in *. lia.
    + rewrite length_app. simpl. lia.
    + remember (digits (S n) (v / 10)) as ds. cbn [length Nat.min take drop].
      rewrite <- app_assoc. simpl. do 2 f_equal. rewrite length_app. simpl. lia.
  - cbn [length Nat.min take drop]. simpl.
    rewrite <- app_assoc. simpl. do 2 f_equal. rewrite length_app. simpl. lia.
Qed.

Lemma itoa_reverse_spec fuel mid pre post :
  (length mid < fuel + fuel)%nat ->
  itoa_reverse fuel (pre ++ mid ++ post) (zlen pre) (zlen pre + zlen mid - 1)
  = Ret (pre ++ rev mid ++ post).
Proof.
  revert mid pre post. induction fuel as [|fuel IH]; intros mid pre post Hf; [lia|].
  cbn [itoa_reverse]. destruct (Z.ltb_spec (zlen pre) (zlen pre + zlen mid - 1)) as [Hl|Hl].
  - destruct mid as [|x mid]; [simpl in Hl; lia|].
    destruct mid as [|y mid _] using rev_ind; [simpl in Hl; lia|].
    assert (pre ++ (x :: mid ++ [y]) ++ post = (pre ++ x :: mid) ++ y :: post) as E.
    { rewrite <- !app_assoc. simpl. by rewrite <- app_assoc. }
    assert (zlen pre + zlen (x :: mid ++ [y]) - 1 = zlen (pre ++ x :: mid)) as El.
    { rewrite !length_app. simpl. rewrite length_app. simpl. lia. }
    rewrite El.
    rewrite (aget_bind _ _ x) by (simpl; by rewrite aget_app).
    rewrite E, (aget_bind _ _ y) by by rewrite aget_app.
    rewrite <- app_assoc. simpl. rewrite aset_app, bind_Ret by done.
    rewrite <- app_assoc. simpl.
    replace (pre ++ y :: mid ++ y :: post) with ((pre ++ y :: mid) ++ y :: post)
      by (by rewrite <- app_assoc).
    rewrite aset_app, bind_Ret by (rewrite !length_app; done).
    specialize (IH mid (pre ++ [y]) (x :: post)). rewrite <- !app_assoc in *. simpl in *.
    rewrite length_app in IH, Hf. simpl in IH, Hf.
    rewrite rev_app_distr. simpl.
    rewrite <- IH by lia. f_equal; rewrite ?length_app; simpl; lia.
  - destruct mid as [|x [|y mid]]; [done..|simpl in Hl; lia].
Qed.

(** The text [itoa] keeps, least significant character first. *)
Definition itoa_text (value bufLen : Z) : list Z :=
  take (Z.to_nat (bufLen - 1)) (dec (Z.abs value) ++ if value <? 0 then [45] else []).

Lemma dec_length v : 0 <= v -> (1 <= length (dec v) <= 10)%nat.
Proof.
  intros _. unfold dec. enough (forall n w, (length (digits n w) <= n)%nat) as H.
  { split; [simpl; lia|apply H]. }
  induction n as [|n IH]; intros w; simpl; [done|]. case_match; simpl; [|lia].
  specialize (IH (w / 10)). lia.
Qed.

Lemma itoa_spec value buf bufLen :
  INT_MIN < value <= INT_MAX -> 0 < bufLen <= zlen buf ->
  itoa value buf bufLen
  = Ret (zlen (itoa_text value bufLen),
         rev (itoa_text value bufLen) ++ 0 :: drop (S (length (itoa_text value bufLen))) buf).
Proof.
  intros Hv Hb. unfold itoa. destruct (Z.leb_spec bufLen 0); [lia|]. cbv zeta.
  assert ((if value <? 0 then s32 (- value) else value) = Z.abs value) as ->.
  { destruct (Z.ltb_spec value 0); [rewrite s32_small by lia|]; lia. }
  destruct (itoa_digits_spec 10 11 (Z.abs value) [] buf bufLen) as (k & Ek & Hd);
    [change (10 ^ Z.of_nat 10) with 10000000000; lia|lia|lia|simpl; lia|simpl; lia|].
  fold (dec (Z.abs value)) in Hd, Ek.
  change (zlen (@nil Z)) with 0 in Hd. rewrite !app_nil_l in Hd.
  rewrite Hd, bind_Ret. clear Hd. cbv iota beta. change (length (@nil Z)) with 0%nat in Ek. rewrite Nat.sub_0_r in Ek.
  pose proof (dec_length (Z.abs value) ltac:(lia)) as Hlen.
  rewrite Z.add_0_l. unfold itoa_text.
  remember (dec (Z.abs value)) as ds eqn:Eds. clear Eds.
  set (t := take (Z.to_nat (bufLen - 1)) (ds ++ (if value <? 0 then [45] else []))).
  assert (exists sgn, t = take k ds ++ sgn /\ (length sgn <= 1)%nat /\
    (if (value <? 0) && (Z.of_nat k <? bufLen - 1)
     then buf0 ← aset (take k ds ++ drop k buf) (Z.of_nat k) 45; Ret (buf0, Z.of_nat k + 1)
     else Ret (take k ds ++ drop k buf, Z.of_nat k))
    = Ret (t ++ drop (length t) buf, zlen t)) as (sgn & Et & Hsgn & ->).
  { destruct (Z.ltb_spec value 0) as [Hneg|Hneg]; simpl.
    - destruct (Z.ltb_spec (Z.of_nat k) (bufLen - 1)) as [Hk|Hk].
      + assert (k = length ds) as -> by lia. exists [45].
        assert (t = ds ++ [45]) as -> by (unfold t; rewrite take_ge; [done|rewrite length_app; simpl; lia]).
        rewrite firstn_all. split_and!; [done|simpl; lia|].
        destruct (drop (length ds) buf) as [|x r] eqn:Er.
        { apply (f_equal length) in Er. rewrite length_drop in Er. simpl in Er. lia. }
        rewrite aset_app by done. simpl. f_equal. f_equal; [|rewrite length_app; simpl; lia].
        f_equal. rewrite length_app, <- drop_drop, Er. done.
      + exists []. assert (t = take k ds) as ->.
        { unfold t. rewrite take_app_le by lia. f_equal. lia. }
        rewrite length_take, app_nil_r. split_and!; [done|simpl; lia|].
        do 2 f_equal; [f_equal; f_equal|]; lia.
    - exists []. assert (t = take k ds) as ->.
      { unfold t. rewrite app_nil_r. rewrite Ek. rewrite <- take_take.
        by rewrite (take_ge (take _ ds)) by (rewrite length_take; lia). }
      rewrite length_take, app_nil_r. split_and!; [done|simpl; lia|].
      do 2 f_equal; [f_equal; f_equal|]; lia. }
  rewrite bind_Ret. cbv iota beta.
  assert (length t < length buf)%nat as Htl.
  { unfold t. rewrite length_take. lia. }
  destruct (drop (length t) buf) as [|x r] eqn:Er.
  { apply (f_equal length) in Er. rewrite length_drop in Er. simpl in Er. lia. }
  rewrite aset_app, bind_Ret by done. rewrite <- app_assoc. simpl ([0] ++ r).
  pose proof (itoa_reverse_spec 12 t [] (0 :: r)) as Hr. change (zlen (@nil Z)) with 0 in Hr. rewrite !app_nil_l in Hr.
  rewrite Z.add_0_l in Hr. rewrite Hr.
  2:{ rewrite Et, length_app, length_take. lia. }
  simpl. do 4 f_equal. replace (S (length t)) with (length t + 1)%nat by lia.
  rewrite <- drop_drop, Er. done.
Qed.

Lemma digits_char n v c : c ∈ digits n v -> 48 <= c <= 57.
Proof.
  revert v. induction n as [|n IH]; intros v; simpl; [by intros ?%elem_of_nil|].
  pose proof (Z.mod_pos_bound v 10 ltac:(lia)). case_match.
  - intros [->|Hc]%elem_of_cons; [lia|eauto].
  - intros ->%list_elem_of_singleton. lia.
Qed.

Lemma atoi_loop_digits n v t :
  0 <= v <= INT_MAX -> v < 10 ^ Z.of_nat n -> (0 < n)%nat ->
  atoi_loop (rev (digits n v) ++ t) 0 = atoi_loop t v.
Proof.
  revert v t. induction n as [|n IH]; intros v t Hv Hn Hp; [lia|].
  pose proof (Z.mod_pos_bound v 10 ltac:(lia)). pose proof (Z.div_mod v 10 ltac:(lia)).
  cbn [digits rev]. rewrite <- app_assoc. simpl ([_] ++ t).
  assert (forall r, atoi_loop (48 + v mod 10 :: t) r = atoi_loop t (s32 (r * 10 + v mod 10))) as Hstep.
  { intros r. simpl. replace (48 + v mod 10 - 48) with (v mod 10) by lia.
    destruct (Z.leb_spec 48 (48 + v mod 10)), (Z.leb_spec (48 + v mod 10) 57); try lia; done. }
  destruct (Z.ltb_spec 0 (v / 10)) as [Hd|Hd].
  - rewrite Nat2Z.inj_succ, Z.pow_succ_r in Hn by lia.
    destruct n as [|n]; [simpl in Hn; lia|].
    rewrite IH by (try apply Z.div_lt_upper_bound; lia).
    rewrite Hstep, s32_small by lia. f_equal. lia.
  - cbn [rev app]. rewrite Hstep, s32_small by lia. f_equal. lia.
Qed.

Lemma dec_text_nonzero value bufLen : Forall (fun c => c <> 0) (rev (itoa_text value bufLen)).
Proof.
  apply Forall_rev, Forall_take, Forall_app. split.
  - apply Forall_forall. intros c Hc%digits_char. lia.
  - destruct (value <? 0); by repeat constructor.
Qed.

(** [itoa] on a value above INT_MIN and a buffer at least [bufLen] long
    writes the decimal text with its NUL inside the first [bufLen] bytes and
    returns its length; a buffer too small loses the leading characters, never
    the bound. *)
Theorem itoa_correct (value : Z) (buf : list Z) (bufLen : Z) :
  INT_MIN < value <= INT_MAX -> 0 < bufLen <= zlen buf ->
  exists n buf', itoa value buf bufLen = Ret (n, buf')
    /\ length buf' = length buf /\ n < bufLen
    /\ k_strlen buf' = Ret n
    /\ rev (cstr buf') = take (Z.to_nat (bufLen - 1)) (dec (Z.abs value) ++ if value <? 0 then [45] else [])
    /\ (forall i, bufLen <= i -> aget buf' i = aget buf i).
Proof.
  intros Hv Hb. rewrite (itoa_spec _ _ _ Hv Hb).
  assert (length (itoa_text value bufLen) <= Z.to_nat (bufLen - 1))%nat as Hlen.
  { unfold itoa_text. rewrite length_take. lia. }
  pose proof (dec_length (Z.abs value) ltac:(lia)) as Hd.
  assert (length (itoa_text value bufLen) <= 11)%nat as Hlen2.
  { unfold itoa_text. rewrite length_take, length_app. destruct (value <? 0); cbn [length]; lia. }
  pose proof (dec_text_nonzero value bufLen) as Hnz.
  eexists _, _. split; [reflexivity|]. split_and!.
  - rewrite length_app, length_rev. simpl. rewrite length_drop. lia.
  - lia.
  - rewrite k_strlen_spec; [by rewrite cstr_app, length_rev|apply terminated_app|].
    rewrite cstr_app, length_rev by done. lia.
  - rewrite cstr_app, rev_involutive by done. done.
  - intros i Hi. apply aget_ext.
    rewrite lookup_app_r by (rewrite length_rev; lia). rewrite length_rev.
    rewrite (lookup_cons_ne_0 _ _ _) by lia. rewrite lookup_drop.
    by replace (S (length (itoa_text value bufLen)) + Init.Nat.pred (Z.to_nat i - length (itoa_text value bufLen)))%nat with (Z.to_nat i) by lia.
Qed.

Lemma itoa_correct_witness :
  exists n buf', itoa (-305) (replicate 8 7) 8 = Ret (n, buf') /\ n < 8.
Proof.
  destruct (itoa_correct (-305) (replicate 8 7) 8) as (n & b & ? & _ & ? & _); [lia|simpl; lia|].
  by exists n, b.
Defined.

(** Print then parse: [k_atoi] of what [itoa] writes into a buffer of 12
    bytes or more is the value, for every [int] but INT_MIN. *)
Theorem itoa_atoi_roundtrip (value : Z) (buf : list Z) (bufLen : Z) :
  INT_MIN < value <= INT_MAX -> 12 <= bufLen <= zlen buf ->
  exists n buf', itoa value buf bufLen = Ret (n, buf') /\ k_atoi buf' = Ret value.
Proof.
  intros Hv Hb. eexists _, _. split; [apply itoa_spec; lia|].
  pose proof (dec_length (Z.abs value) ltac:(lia)) as Hd.
  unfold itoa_text. rewrite take_ge by (rewrite length_app; destruct (value <? 0); cbn [length]; lia).
  set (post := 0 :: drop _ buf).
  assert (forall t, atoi_loop (rev (dec (Z.abs value)) ++ 0 :: t) 0 = Ret (Z.abs value)) as Hl.
  { intros t. unfold dec. rewrite atoi_loop_digits; [done|lia| |lia].
    change (10 ^ Z.of_nat 10) with 10000000000. lia. }
  unfold k_atoi. rewrite rev_app_distr. destruct (Z.ltb_spec value 0) as [Hn|Hn].
  - change ((rev [45] ++ rev (dec (Z.abs value))) ++ post) with (45 :: rev (dec (Z.abs value)) ++ post).
    rewrite (aget_bind _ _ 45) by by apply (aget_app []).
    change (45 =? 45) with true. cbv iota beta zeta.
    unfold ptr_add. rewrite bool_decide_true by (cbn [length]; lia). rewrite bind_Ret.
    change (drop (Z.to_nat 1) (45 :: ?l)) with l.
    unfold post. rewrite Hl, bind_Ret. rewrite s32_small by lia. f_equal. lia.
  - change (rev [] ++ rev (dec (Z.abs value))) with (rev (dec (Z.abs value))).
    destruct (rev (dec (Z.abs value))) as [|c r] eqn:Er.
    { apply (f_equal length) in Er. rewrite length_rev in Er. cbn [length] in Er. lia. }
    assert (48 <= c <= 57) as Hc.
    { apply (digits_char 10 (Z.abs value)). apply list_elem_of_In, in_rev, list_elem_of_In. fold (dec (Z.abs value)).
      rewrite Er. by left. }
    change ((c :: r) ++ post) with (c :: (r ++ post)).
    rewrite (aget_bind _ _ c) by by apply (aget_app []).
    destruct (Z.eqb_spec c 45) as [|_]; [lia|]. cbv iota beta zeta. rewrite bind_Ret.
    unfold post. change (c :: r ++ 0 :: ?t) with ((c :: r) ++ 0 :: t).
    rewrite Hl, bind_Ret. f_equal. lia.
Qed.

Lemma itoa_atoi_roundtrip_witness :
  exists n buf', itoa (-2147483647) (replicate 16 7) 16 = Ret (n, buf') /\ k_atoi buf' = Ret (-2147483647).
Proof. apply (itoa_atoi_roundtrip (-2147483647) (replicate 16 7) 16); [lia|simpl; lia]. Defined.

(** INT_MIN has no positive negation: the text is the character before '0', 8
    places down, and the sign. *)
Lemma itoa_INT_MIN : exists buf', itoa INT_MIN (replicate 12 7) 12 = Ret (2, buf') /\ cstr buf' = [45; 40].
Proof. eexists. split; vm_compute; reflexivity. Qed.
