(* ===== verification/Blocks.v ===== *)
(** Byte blocks of the heap, shared by the file systems and the compiler.

    [blocks] holds the bytes of every block these components allocated, by its
    address: what kmalloc of alloc.c hands out is a block, and kfree takes its
    bytes away, so a later access to it is undefined. *)
From S2P Require Import Prelude Allocator CString.

Record bheap (H : Type) := mk_bheap { bh_heap : H; blocks : gmap Z (list Z) }.
Arguments mk_bheap {H}.
Arguments bh_heap {H}.
Arguments blocks {H}.

Section Blocks.
Context {H : Type} `{Allocator H}.
Implicit Types (s : bheap H) (p : Z) (bs : list Z).

(** kmalloc(size); [junk] is what the memory happens to hold. *)
Definition blk_alloc (junk : list Z) (size : Z) s : outcome (Z * bheap H) :=
  '(p, h) ← al_alloc size 16 (bh_heap s);
  if p =? 0 then Ret (0, mk_bheap h (blocks s))
  else Ret (p, mk_bheap h (<[p := resize (Z.to_nat size) 0 junk]> (blocks s))).

(** kfree(p) *)
Definition blk_free p s : outcome (bheap H) :=
  h ← al_free p (bh_heap s);
  Ret (mk_bheap h (if p =? 0 then blocks s else delete p (blocks s))).

(** The object behind a pointer. *)
Definition blk_get p s : outcome (list Z) :=
  match blocks s !! p with Some bs => Ret bs | None => Undef end.

(** [f] rewrites the object behind [p]. *)
Definition blk_upd p (f : list Z -> outcome (list Z)) s : outcome (bheap H) :=
  bs ← blk_get p s;
  bs ← f bs;
  Ret (mk_bheap (bh_heap s) (<[p := bs]> (blocks s))).
End Blocks.

(** ** Ownership of blocks with their sizes

    An entry of negative size is a live block whose bytes are not kept here: a
    stack or a table of another component that shares the heap. *)
Section BlockOwnership.
Context {H : Type} `{AllocatorLaws H}.
Implicit Types (s : bheap H) (p n : Z) (bs : list Z) (l : list (Z * Z)).

Definition bowns s l : Prop :=
  owns (bh_heap s) l.*1 /\ Forall (fun b => 0 <= b.2 -> exists bs, blocks s !! b.1 = Some bs /\ zlen bs = b.2) l.

Lemma bowns_perm s l l' : l ≡ₚ l' -> bowns s l -> bowns s l'.
Proof. intros Hp. unfold bowns. by rewrite Hp. Qed.

#[global] Instance bowns_proper s : Proper (Permutation ==> iff) (bowns s).
Proof. intros l l' Hp. by split; apply bowns_perm. Qed.

Lemma bowns_get s l p n : bowns s l -> (p, n) ∈ l -> 0 <= n -> exists bs, blk_get p s = Ret bs /\ zlen bs = n.
Proof.
  intros [_ Hl] Hp H0n. rewrite Forall_forall in Hl. destruct (Hl _ Hp H0n) as (bs & E & Hn).
  exists bs. unfold blk_get. simpl in E. by rewrite E.
Qed.

Lemma bowns_nonnull s l p n : bowns s l -> (p, n) ∈ l -> p <> 0.
Proof. intros [Ho _] Hp. eapply owns_nonnull; [done|]. apply list_elem_of_fmap. by exists (p, n). Qed.

Lemma bowns_upd s l p n f :
  bowns s l -> (p, n) ∈ l -> 0 <= n -> (forall bs, zlen bs = n -> exists bs', f bs = Ret bs' /\ zlen bs' = n) ->
  exists bs bs' s', blk_get p s = Ret bs /\ zlen bs = n /\ f bs = Ret bs' /\ blk_upd p f s = Ret s'
    /\ blocks s' = <[p := bs']> (blocks s) /\ bowns s' l.
Proof.
  intros Ho Hp H0n Hf. destruct (bowns_get _ _ _ _ Ho Hp H0n) as (bs & E & Hn).
  destruct (Hf bs Hn) as (bs' & Ef & Hn'). exists bs, bs'. eexists. unfold blk_upd.
  rewrite E, bind_Ret, Ef, bind_Ret. split_and!; try reflexivity; try done.
  destruct Ho as [Ho Hl]. split; [done|]. apply Forall_forall. intros [q m] Hq Hm0.
  rewrite Forall_forall in Hl. destruct (Hl _ Hq Hm0) as (cs & Ecs & Hm). simpl in *.
  destruct (decide (q = p)) as [->|Hqp].
  - exists bs'. rewrite lookup_insert_eq. split; [done|].
    unfold blk_get in E. rewrite Ecs in E. simplify_eq. lia.
  - exists cs. by rewrite lookup_insert_ne.
Qed.

Lemma bowns_alloc s l junk size :
  bowns s l -> 0 < size <= 2 ^ 61 ->
  exists p s', blk_alloc junk size s = Ret (p, s')
    /\ (p = 0 /\ blocks s' = blocks s /\ bowns s' l
        \/ p <> 0 /\ p ∉ l.*1 /\ blocks s' = <[p := resize (Z.to_nat size) 0 junk]> (blocks s)
           /\ bowns s' ((p, size) :: l)).
Proof.
  intros [Ho Hl] Hs. destruct (owns_alloc _ _ size 16 Ho ltac:(auto)) as (p & h & E & Hr & _).
  unfold blk_alloc. rewrite E, bind_Ret. cbv iota beta. destruct (Z.eqb_spec p 0) as [->|Hp].
  - exists 0. eexists. split; [reflexivity|]. left. split_and!; try done. split; [|done].
    by destruct Hr as [[_ ?]|[? _]].
  - exists p. eexists. split; [reflexivity|]. right.
    destruct Hr as [[? _]|(_ & Hpl & _ & Ho' & _)]; [done|]. split_and!; try done. split; [done|].
    apply Forall_cons. split.
    + intros _. exists (resize (Z.to_nat size) 0 junk). cbn [fst snd blocks]. rewrite lookup_insert_eq. split; [done|].
      rewrite length_resize. lia.
    + apply Forall_forall. intros [q m] Hq Hm0. rewrite Forall_forall in Hl.
      destruct (Hl _ Hq Hm0) as (cs & Ecs & Hm). simpl in *. exists cs. rewrite lookup_insert_ne; [done|].
      intros ->. apply Hpl. apply list_elem_of_fmap. by exists (q, m).
Qed.

Lemma bowns_free s l p n :
  bowns s ((p, n) :: l) ->
  exists s', blk_free p s = Ret s' /\ blocks s' = delete p (blocks s) /\ bowns s' l.
Proof.
  intros Ho. assert (p <> 0) as Hp by (eapply bowns_nonnull; [done|by left]).
  destruct Ho as [Ho Hl]. pose proof Ho as (_ & Hnd & _). cbn [fmap list_fmap fst] in *.
  destruct (owns_free _ [] p l.*1 Ho) as (h & E & Ho' & _).
  unfold blk_free. rewrite E, bind_Ret. destruct (Z.eqb_spec p 0); [done|].
  eexists. split; [reflexivity|]. split; [done|]. split; [done|]. cbn [blocks].
  apply Forall_cons in Hl as [_ Hl]. apply Forall_forall. intros [q m] Hq Hm0. rewrite Forall_forall in Hl.
  destruct (Hl _ Hq Hm0) as (cs & Ecs & Hm). simpl in *. exists cs. rewrite lookup_delete_ne; [done|].
  intros <-. apply NoDup_cons in Hnd as [Hni _]. apply Hni. apply list_elem_of_fmap. by exists (p, m).
Qed.

Lemma blk_free_null s : blk_free 0 s = Ret s.
Proof. unfold blk_free. rewrite al_free_null, bind_Ret. by destruct s. Qed.
End BlockOwnership.
