(* ===== verification/PageTable.v ===== *)
(** proc.c and mmu.c: translation tables.

    [words] is the memory of 64-bit words the tables live in, by address; a word
    nobody wrote is not in the map and reading it is [Undef].  [procs] holds the
    proc_t objects by address.  [walk] is the AArch64 table walk for a 4 KB
    granule and a 32-bit address space (T0SZ = 32: three levels, four entries in
    the root).  Barriers and TLB maintenance have no effect on this memory and
    are left out. *)
From S2P Require Import Prelude Spinlock Allocator Heap.

Definition BLOCK_2MB : Z := 2 * 1024 * 1024.
Definition RAM_END : Z := 0x3C000000.
Definition PROC_MAX_L3 : Z := 16.
Definition SIZEOF_PROC : Z := 176.

Definition DESC_TABLE (pa : Z) : Z := Z.lor pa 3.
Definition DESC_BLOCK_NORMAL (pa : Z) : Z :=
  Z.lor (Z.lor (Z.lor (Z.lor (Z.lor pa 1) (Z.shiftl 0 2)) (Z.shiftl 0 6)) (Z.shiftl 3 8)) (Z.shiftl 1 10).
Definition DESC_BLOCK_DEVICE (pa : Z) : Z :=
  Z.lor (Z.lor (Z.lor (Z.lor (Z.lor pa 1) (Z.shiftl 1 2)) (Z.shiftl 0 6)) (Z.shiftl 2 8)) (Z.shiftl 1 10).
Definition DESC_PAGE_NORMAL (pa : Z) : Z :=
  Z.lor (Z.lor (Z.lor (Z.lor (Z.lor pa 3) (Z.shiftl 0 2)) (Z.shiftl 0 6)) (Z.shiftl 3 8)) (Z.shiftl 1 10).
Definition DESC_PAGE_DEVICE (pa : Z) : Z :=
  Z.lor (Z.lor (Z.lor (Z.lor (Z.lor pa 3) (Z.shiftl 1 2)) (Z.shiftl 0 6)) (Z.shiftl 2 8)) (Z.shiftl 1 10).

Record proc_t := mk_proc { l1 : Z; l2 : list Z; l3 : list Z; l3_count : Z }.

(** The heap, the proc_t objects and the words of memory. *)
Record vmem (H : Type) := mk_vm { vheap : H; procs : gmap Z proc_t; words : gmap Z Z }.
Arguments mk_vm {H} vheap procs words.
Arguments vheap {H} v.
Arguments procs {H} v.
Arguments words {H} v.

(** The index fields of a virtual address. *)
Definition l1_index (va : Z) : Z := Z.land (Z.shiftr va 30) 3.
Definition l2_index (va : Z) : Z := Z.land (Z.shiftr va 21) 0x1FF.
Definition l3_index (va : Z) : Z := Z.land (Z.shiftr va 12) 0x1FF.
Definition ADDR_MASK : Z := 0x0000FFFFFFFFF000.

Section Proc.
Context {H : Type} `{Allocator H}.
Implicit Types (s : vmem H).

Definition set_vheap s (h : H) : vmem H := mk_vm h (procs s) (words s).
Definition set_proc s (p : Z) (P : proc_t) : vmem H := mk_vm (vheap s) (<[p := P]> (procs s)) (words s).
Definition store_word s (a v : Z) : vmem H := mk_vm (vheap s) (procs s) (<[a := v]> (words s)).

Definition load_proc s (p : Z) : outcome proc_t :=
  match procs s !! p with Some P => Ret P | None => Undef end.
Definition load_word s (a : Z) : outcome Z :=
  match words s !! a with Some v => Ret v | None => Undef end.

Definition vm_alloc (size align : Z) s : outcome (Z * vmem H) :=
  '(p, h) ← al_alloc size align (vheap s); Ret (p, set_vheap s h).
Definition vm_free (p : Z) s : outcome (vmem H) :=
  h ← al_free p (vheap s); Ret (set_vheap s h).

(** [memset(p, 0, n * 8)] on a table. *)
Definition clear_words (p n : Z) s : outcome (vmem H) :=
  for_range 0 n (fun i s => Ret (store_word s (p + 8 * i) 0)) s.

(** The table descriptor of the 2 MB block of [va], or 0 when there is none to give. *)
Definition get_or_create_l3 (p va : Z) s : outcome (Z * vmem H) :=
  let l1i := l1_index va in
  let l2i := l2_index va in
  P ← load_proc s p;
  tbl ← aget (l2 P) l1i;
  entry ← load_word s (tbl + 8 * l2i);
  if Z.land entry 3 =? 3 then Ret (Z.land entry ADDR_MASK, s)
  else if PROC_MAX_L3 <=? l3_count P then Ret (0, s)
  else
    let block_pa := Z.land entry (Z.lnot (BLOCK_2MB - 1)) in
    let is_device := negb (Z.land (Z.shiftr entry 2) 7 =? 0) in
    '(l3p, s) ← vm_alloc 4096 4096 s;
    if l3p =? 0 then Ret (0, s)
    else
      slots ← aset (l3 P) (l3_count P) l3p;
      let s := set_proc s p (mk_proc (l1 P) (l2 P) slots (l3_count P + 1)) in
      s ← for_range 0 512 (fun i s =>
            let pa := u64 (block_pa + i * 4096) in
            Ret (store_word s (l3p + 8 * i) (if is_device then DESC_PAGE_DEVICE pa else DESC_PAGE_NORMAL pa))) s;
      let s := store_word s (tbl + 8 * l2i) (DESC_TABLE l3p) in
      Ret (l3p, s).

Definition proc_free (p : Z) s : outcome (vmem H) :=
  if p =? 0 then Ret s
  else
    P ← load_proc s p;
    s ← for_range 0 (l3_count P) (fun i s =>
          t ← aget (l3 P) i; if t =? 0 then Ret s else vm_free t s) s;
    s ← for_range 0 4 (fun i s =>
          t ← aget (l2 P) i; if t =? 0 then Ret s else vm_free t s) s;
    s ← (if l1 P =? 0 then Ret s else vm_free (l1 P) s);
    s ← vm_free p s;
    Ret (mk_vm (vheap s) (delete p (procs s)) (words s)).

(** One round of the loop over the four L2 tables; [false] is [goto fail]. *)
Definition create_l2 (p i : Z) s : outcome (bool * vmem H) :=
  '(t, s) ← vm_alloc 4096 4096 s;
  P ← load_proc s p;
  tables ← aset (l2 P) i t;
  let s := set_proc s p (mk_proc (l1 P) tables (l3 P) (l3_count P)) in
  if t =? 0 then Ret (false, s)
  else
    s ← for_range 0 512 (fun j s =>
          let phys := u64 (i * (512 * BLOCK_2MB) + j * BLOCK_2MB) in
          Ret (store_word s (t + 8 * j)
                 (if phys <? RAM_END then DESC_BLOCK_NORMAL phys else DESC_BLOCK_DEVICE phys))) s;
    let s := store_word s (l1 P + 8 * i) (DESC_TABLE t) in
    Ret (true, s).

Definition proc_create s : outcome (Z * vmem H) :=
  '(p, s) ← vm_alloc SIZEOF_PROC 16 s;
  if p =? 0 then Ret (0, s)
  else
    let s := set_proc s p (mk_proc 0 (replicate 4 0) (replicate 16 0) 0) in
    '(root, s) ← vm_alloc 4096 4096 s;
    let s := set_proc s p (mk_proc root (replicate 4 0) (replicate 16 0) 0) in
    if root =? 0 then s ← proc_free p s; Ret (0, s)
    else
      s ← clear_words root 512 s;
      '(ok, s) ← for_range 0 4 (fun i '(ok, s) =>
                   if (ok : bool) then create_l2 p i s else Ret (false, s)) (true, s);
      if (ok : bool) then Ret (p, s) else s ← proc_free p s; Ret (0, s).

(** The pages of a range: [fuel] counts them. *)
Fixpoint unmap_pages (fuel : nat) (p page last : Z) s : outcome (vmem H) :=
  match fuel with
  | O => Hang
  | S fuel =>
    if page <? last then
      '(t, s) ← get_or_create_l3 p page s;
      let s := if t =? 0 then s else store_word s (t + 8 * l3_index page) 0 in
      unmap_pages fuel p (u64 (page + 4096)) last s
    else Ret s
  end.

Definition proc_unmap_range (p va size : Z) s : outcome (vmem H) :=
  let page := Z.land va (Z.lnot 0xFFF) in
  let last := Z.land (u64 (u64 (va + size) + 0xFFF)) (Z.lnot 0xFFF) in
  unmap_pages (S (Z.to_nat ((last - page) / 4096))) p page last s.

Definition proc_ttbr0 (p : Z) s : outcome Z := P ← load_proc s p; Ret (l1 P).

(** *** mmu.c: the kernel's own EL2 table *)

Record el2_regs := mk_el2 { MAIR_EL2 : Z; TCR_EL2 : Z; TTBR0_EL2 : Z; SCTLR_EL2 : Z }.

Definition PT_VALID : Z := Z.shiftl 1 0.
Definition PT_BLOCK : Z := Z.shiftl 0 1.
Definition PT_AF : Z := Z.shiftl 1 10.
Definition PT_SH_INNER : Z := Z.shiftl 3 8.
Definition PT_SH_OUTER : Z := Z.shiftl 2 8.
Definition PT_AP_RW : Z := Z.shiftl 0 6.
Definition PT_ATTR_NORMAL : Z := Z.shiftl 0 2.
Definition PT_ATTR_DEVICE : Z := Z.shiftl 1 2.
Definition L1_ENTRIES : Z := 512.

Definition mmu_entry (phys : Z) : Z :=
  let entry := Z.lor (Z.lor (Z.lor (Z.lor phys PT_VALID) PT_BLOCK) PT_AF) PT_AP_RW in
  if phys <? RAM_END then Z.lor entry (Z.lor PT_ATTR_NORMAL PT_SH_INNER)
  else Z.lor entry (Z.lor PT_ATTR_DEVICE PT_SH_OUTER).

(** Both allocations are used unchecked: a null table is [Undef]. *)
Definition mmu_init (r : el2_regs) s : outcome (el2_regs * vmem H) :=
  '(l0_table, s) ← vm_alloc 4096 4096 s;
  '(l1_tables, s) ← vm_alloc (4 * 4096) 4096 s;
  if (l0_table =? 0) || (l1_tables =? 0) then Undef
  else
    s ← clear_words l0_table 512 s;
    s ← clear_words l1_tables 2048 s;
    s ← for_range 0 4 (fun i s =>
          let l1_addr := l1_tables + 8 * (i * L1_ENTRIES) in
          Ret (store_word s (l0_table + 8 * i) (Z.lor (Z.lor l1_addr PT_VALID) (Z.shiftl 1 1)))) s;
    s ← for_range 0 4 (fun i s =>
          for_range 0 L1_ENTRIES (fun j s =>
            let phys := u64 (i * (512 * BLOCK_2MB) + j * BLOCK_2MB) in
            Ret (store_word s (l1_tables + 8 * (i * L1_ENTRIES + j)) (mmu_entry phys))) s) s;
    let mair := Z.lor 0xFF (Z.shiftl 0 8) in
    let tcr := Z.lor (Z.lor (Z.lor (Z.lor (Z.lor 32 (Z.shiftl 1 8)) (Z.shiftl 1 10)) (Z.shiftl 3 12)) (Z.shiftl 0 14)) (Z.shiftl 0 16) in
    let sctlr := Z.lor (SCTLR_EL2 r) (Z.lor (Z.lor (Z.shiftl 1 0) (Z.shiftl 1 2)) (Z.shiftl 1 12)) in
    Ret (mk_el2 mair tcr l0_table sctlr, s).
End Proc.

(** ** The hardware walk

    For a valid descriptor the result is the output address and the AttrIndx
    field; [None] is a translation fault. *)
Definition walk (mem : gmap Z Z) (ttbr va : Z) : option (Z * Z) :=
  e1 ← mem !! (ttbr + 8 * l1_index va);
  if Z.land e1 3 =? 3 then
    e2 ← mem !! (Z.land e1 ADDR_MASK + 8 * l2_index va);
    if Z.land e2 3 =? 1 then
      Some (Z.land (Z.land e2 ADDR_MASK) (Z.lnot (2 ^ 21 - 1)) + va mod 2 ^ 21, Z.land (Z.shiftr e2 2) 7)
    else if Z.land e2 3 =? 3 then
      e3 ← mem !! (Z.land e2 ADDR_MASK + 8 * l3_index va);
      if Z.land e3 3 =? 3 then Some (Z.land e3 ADDR_MASK + va mod 2 ^ 12, Z.land (Z.shiftr e3 2) 7)
      else None
    else None
  else None.

(** What a page belongs to: RAM is attribute 0, the rest attribute 1 (device). *)
Definition attr_of (va : Z) : Z := if va <? RAM_END then 0 else 1.

(** ** Descriptors *)

(** Low bits [c] under an address aligned to [2^k]. *)
Definition tagged (pa c : Z) : Z := pa + c.

Lemma tagged_fields pa c :
  0 <= pa < 2 ^ 48 -> pa mod 2 ^ 12 = 0 -> 0 <= c < 2 ^ 12 ->
  Z.land (tagged pa c) 3 = c mod 4 /\ Z.land (Z.shiftr (tagged pa c) 2) 7 = (c / 4) mod 8
  /\ Z.land (tagged pa c) ADDR_MASK = pa.
Proof.
  intros Hpa Hal Hc. unfold tagged.
  change (2 ^ 12) with 4096 in *. change (2 ^ 48) with 281474976710656 in *.
  assert (exists q, pa = 4096 * q /\ 0 <= q < 68719476736) as (q & -> & Hq).
  { exists (pa / 4096). pose proof (Z.div_mod pa 4096 ltac:(lia)).
    split; [lia|]. split; [apply Z.div_pos; lia|apply Z.div_lt_upper_bound; lia]. }
  split_and!.
  - change 3 with (Z.ones 2). rewrite land_low by lia. change (2 ^ 2) with 4.
    replace (4096 * q + c) with (c + 1024 * q * 4) by lia. by rewrite Z.mod_add.
  - change 7 with (Z.ones 3). rewrite land_low, Z.shiftr_div_pow2 by lia.
    change (2 ^ 2) with 4. change (2 ^ 3) with 8.
    replace (4096 * q + c) with (c + 1024 * q * 4) by lia. rewrite Z.div_add by lia.
    replace (c / 4 + 1024 * q) with (c / 4 + 128 * q * 8) by lia. by rewrite Z.mod_add.
  - change ADDR_MASK with (Z.shiftl (Z.ones 36) 12). rewrite land_field by lia.
    change (2 ^ 12) with 4096. change (2 ^ 36) with 68719476736.
    replace (4096 * q + c) with (c + q * 4096) by lia.
    rewrite Z.div_add, (Z.div_small c), Z.add_0_l, Z.mod_small by lia. lia.
Qed.

Lemma lor_tag pa c d :
  pa mod 2 ^ 12 = 0 -> 0 <= c < 2 ^ 12 -> 0 <= d < 2 ^ 12 ->
  Z.lor (tagged pa c) d = tagged pa (Z.lor c d).
Proof.
  intros Hal Hc Hd. unfold tagged.
  rewrite <- (lor_low pa c 12), <- (lor_low pa (Z.lor c d) 12), Z.lor_assoc; try done; try lia.
  split; [apply Z.lor_nonneg; lia|].
  destruct (decide (Z.lor c d = 0)) as [->|]; [done|].
  apply Z.log2_lt_pow2; [assert (0 <= Z.lor c d) by (apply Z.lor_nonneg; lia); lia|].
  rewrite Z.log2_lor by lia. apply Z.max_lub_lt.
  - destruct (decide (c = 0)) as [->|]; [done|]. apply Z.log2_lt_pow2; lia.
  - destruct (decide (d = 0)) as [->|]; [done|]. apply Z.log2_lt_pow2; lia.
Qed.

Lemma desc_tags pa :
  pa mod 2 ^ 12 = 0 ->
  DESC_TABLE pa = tagged pa 3
  /\ DESC_BLOCK_NORMAL pa = tagged pa 1793 /\ DESC_BLOCK_DEVICE pa = tagged pa 1541
  /\ DESC_PAGE_NORMAL pa = tagged pa 1795 /\ DESC_PAGE_DEVICE pa = tagged pa 1543.
Proof.
  intros Ha. assert (pa = tagged pa 0) as E by (unfold tagged; lia).
  unfold DESC_TABLE, DESC_BLOCK_NORMAL, DESC_BLOCK_DEVICE, DESC_PAGE_NORMAL, DESC_PAGE_DEVICE.
  split_and!; rewrite E at 1; rewrite !lor_tag; done.
Qed.

Definition block_desc (pa : Z) : Z := if pa <? RAM_END then DESC_BLOCK_NORMAL pa else DESC_BLOCK_DEVICE pa.
Definition page_desc (attr pa : Z) : Z := if attr =? 0 then DESC_PAGE_NORMAL pa else DESC_PAGE_DEVICE pa.

Lemma table_fields t :
  0 <= t < 2 ^ 48 -> t mod 2 ^ 12 = 0 ->
  Z.land (DESC_TABLE t) 3 = 3 /\ Z.land (DESC_TABLE t) ADDR_MASK = t.
Proof.
  intros Ht Ha. destruct (desc_tags t Ha) as (-> & _).
  destruct (tagged_fields t 3 Ht Ha ltac:(lia)) as (-> & _ & ->). done.
Qed.

Lemma block_fields r :
  0 <= r < 2048 ->
  let e := block_desc (r * 2 ^ 21) in
  Z.land e 3 = 1 /\ Z.land (Z.shiftr e 2) 7 = attr_of (r * 2 ^ 21)
  /\ Z.land e ADDR_MASK = r * 2 ^ 21 /\ Z.land e (Z.lnot (BLOCK_2MB - 1)) = r * 2 ^ 21.
Proof.
  intros Hr. cbv zeta.
  assert (0 <= r * 2 ^ 21 < 2 ^ 48) as Hb.
  { change (2 ^ 21) with 2097152. change (2 ^ 48) with 281474976710656. lia. }
  assert ((r * 2 ^ 21) mod 2 ^ 12 = 0) as Ha.
  { replace (r * 2 ^ 21) with (r * 512 * 2 ^ 12) by (change (2 ^ 21) with (512 * 2 ^ 12); lia).
    by apply Z.mod_mul. }
  change BLOCK_2MB with (2 ^ 21). rewrite land_lnot_low by lia.
  destruct (desc_tags _ Ha) as (_ & En & Ed & _). unfold block_desc, attr_of.
  assert (forall c, 0 <= c < 2 ^ 12 -> tagged (r * 2 ^ 21) c / 2 ^ 21 * 2 ^ 21 = r * 2 ^ 21) as Hdiv.
  { intros c Hc. unfold tagged. rewrite Z.add_comm, Z.div_add, Z.div_small; [lia| |lia].
    change (2 ^ 21) with 2097152. change (2 ^ 12) with 4096 in Hc. lia. }
  case_match; rewrite ?En, ?Ed;
    match goal with |- Z.land (tagged _ ?c) _ = _ /\ _ =>
      destruct (tagged_fields _ c Hb Ha ltac:(lia)) as (-> & -> & ->); rewrite (Hdiv c) by lia end;
    done.
Qed.

Lemma page_fields attr n :
  0 <= n < 2 ^ 20 -> attr = 0 \/ attr = 1 ->
  let e := page_desc attr (n * 2 ^ 12) in
  Z.land e 3 = 3 /\ Z.land (Z.shiftr e 2) 7 = attr /\ Z.land e ADDR_MASK = n * 2 ^ 12.
Proof.
  intros Hn Hat. cbv zeta.
  assert (0 <= n * 2 ^ 12 < 2 ^ 48) as Hb.
  { change (2 ^ 12) with 4096. change (2 ^ 20) with 1048576 in Hn. change (2 ^ 48) with 281474976710656. lia. }
  assert ((n * 2 ^ 12) mod 2 ^ 12 = 0) as Ha by by apply Z.mod_mul.
  destruct (desc_tags _ Ha) as (_ & _ & _ & En & Ed). unfold page_desc.
  destruct Hat as [-> | ->]; simpl; rewrite ?En, ?Ed;
    match goal with |- Z.land (tagged _ ?c) _ = _ /\ _ =>
      destruct (tagged_fields _ c Hb Ha ltac:(lia)) as (-> & -> & ->) end; done.
Qed.

(** ** Indices *)

Lemma index_fields va :
  0 <= va < 2 ^ 32 ->
  l1_index va = va / 2 ^ 30 /\ l2_index va = (va / 2 ^ 21) mod 512 /\ l3_index va = (va / 2 ^ 12) mod 512
  /\ l1_index va = va / 2 ^ 21 / 512.
Proof.
  intros Hva. unfold l1_index, l2_index, l3_index.
  change 3 with (Z.ones 2). change 0x1FF with (Z.ones 9).
  rewrite !land_low, !Z.shiftr_div_pow2 by lia. change (2 ^ 9) with 512.
  assert (va / 2 ^ 30 < 4) by (apply Z.div_lt_upper_bound; [lia|]; change (2 ^ 32) with (2 ^ 30 * 4) in Hva; lia).
  assert (0 <= va / 2 ^ 30) by (apply Z.div_pos; lia).
  rewrite (Z.mod_small (va / 2 ^ 30)) by (change (2 ^ 2) with 4; lia).
  split_and!; try done. rewrite Z.div_div by lia. done.
Qed.

(** ** The invariant of a process's tables

    [rs] lists the 2 MB regions broken into pages, in the order of the L3
    tables; [unm] is the set of page numbers made absent. *)
Definition table_ok (t : Z) : Prop := 0 < t < 2 ^ 48 /\ t mod 2 ^ 12 = 0.

(** The tables of [P], in the order the code allocates them. *)
Definition tables (P : proc_t) (n : nat) : list Z := l1 P :: l2 P ++ take n (l3 P).

Record proc_inv (mem : gmap Z Z) (P : proc_t) (rs : list Z) (unm : gset Z) : Prop := {
  pi_l2 : length (l2 P) = 4%nat;
  pi_l3 : length (l3 P) = 16%nat;
  pi_count : l3_count P = zlen rs;
  pi_cap : (length rs <= 16)%nat;
  pi_nodup : NoDup (tables P (length rs));
  pi_ok : Forall table_ok (tables P (length rs));
  pi_rs : NoDup rs /\ Forall (fun r => 0 <= r < 2048) rs;
  pi_root : forall i t, l2 P !! i = Some t -> mem !! (l1 P + 8 * Z.of_nat i) = Some (DESC_TABLE t);
  pi_block : forall r t, 0 <= r < 2048 -> r ∉ rs -> l2 P !! Z.to_nat (r / 512) = Some t ->
    mem !! (t + 8 * (r mod 512)) = Some (block_desc (r * 2 ^ 21));
  pi_table : forall k r t t3, rs !! k = Some r -> l2 P !! Z.to_nat (r / 512) = Some t ->
    l3 P !! k = Some t3 -> mem !! (t + 8 * (r mod 512)) = Some (DESC_TABLE t3);
  pi_page : forall k r t3 m, rs !! k = Some r -> l3 P !! k = Some t3 -> 0 <= m < 512 ->
    mem !! (t3 + 8 * m) = Some (if bool_decide (r * 512 + m ∈ unm) then 0
                                else page_desc (attr_of (r * 2 ^ 21)) ((r * 512 + m) * 2 ^ 12));
  pi_unm : forall n, n ∈ unm -> n / 512 ∈ rs
}.

Lemma word_apart t t' i j :
  table_ok t -> table_ok t' -> t <> t' -> 0 <= i < 512 -> 0 <= j < 512 -> t + 8 * i <> t' + 8 * j.
Proof.
  unfold table_ok. change (2 ^ 12) with 4096. intros [_ Ht] [_ Ht'] Hne Hi Hj.
  apply Z.mod_divide in Ht as [a ->]; [|lia]. apply Z.mod_divide in Ht' as [b ->]; [|lia]. lia.
Qed.

Lemma attr_of_region va : 0 <= va -> attr_of (va / 2 ^ 21 * 2 ^ 21) = attr_of va.
Proof.
  intros Hva. unfold attr_of, RAM_END. change (2 ^ 21) with 2097152.
  pose proof (Z.div_mod va 2097152 ltac:(lia)). pose proof (Z.mod_pos_bound va 2097152 ltac:(lia)).
  destruct (Z.ltb_spec (va / 2097152 * 2097152) 1006632960), (Z.ltb_spec va 1006632960); lia.
Qed.

Lemma attr_of_cases va : attr_of va = 0 \/ attr_of va = 1.
Proof. unfold attr_of. case_match; auto. Qed.

(** Where a page sits: region and index within it. *)
Lemma page_split va :
  0 <= va < 2 ^ 32 ->
  0 <= va / 2 ^ 21 < 2048 /\ va / 2 ^ 12 = va / 2 ^ 21 * 512 + (va / 2 ^ 12) mod 512
  /\ 0 <= (va / 2 ^ 12) mod 512 < 512 /\ va / 2 ^ 12 / 512 = va / 2 ^ 21.
Proof.
  intros Hva. assert (va / 2 ^ 12 / 512 = va / 2 ^ 21) as E by (rewrite Z.div_div by lia; done).
  split_and!; try (apply Z.mod_pos_bound; lia).
  - apply Z.div_pos; lia.
  - apply Z.div_lt_upper_bound; [lia|]. change (2 ^ 21 * 2048) with (2 ^ 32). lia.
  - rewrite <- E. pose proof (Z.div_mod (va / 2 ^ 12) 512 ltac:(lia)). lia.
  - done.
Qed.

Section Inv.
Context (mem : gmap Z Z) (P : proc_t) (rs : list Z) (unm : gset Z) (Hinv : proc_inv mem P rs unm).

Lemma pi_l2_lookup r : 0 <= r < 2048 -> exists t, l2 P !! Z.to_nat (r / 512) = Some t /\ table_ok t.
Proof.
  intros Hr. assert (r / 512 < 4) by (apply Z.div_lt_upper_bound; lia).
  assert (0 <= r / 512) by (apply Z.div_pos; lia).
  destruct (lookup_lt_is_Some_2 (l2 P) (Z.to_nat (r / 512))) as [t Ht].
  { rewrite (pi_l2 _ _ _ _ Hinv). lia. }
  exists t. split; [done|]. pose proof (pi_ok _ _ _ _ Hinv) as Hok. rewrite Forall_forall in Hok.
  apply Hok. apply elem_of_cons. right. apply elem_of_app. left. by eapply list_elem_of_lookup_2.
Qed.

Lemma pi_l3_lookup k r : rs !! k = Some r -> exists t, l3 P !! k = Some t /\ table_ok t /\ 0 <= r < 2048.
Proof.
  intros Hk. pose proof (lookup_lt_Some _ _ _ Hk). pose proof (pi_cap _ _ _ _ Hinv).
  destruct (lookup_lt_is_Some_2 (l3 P) k) as [t Ht]; [rewrite (pi_l3 _ _ _ _ Hinv); lia|].
  exists t. split; [done|]. pose proof (pi_ok _ _ _ _ Hinv) as Hok. rewrite Forall_forall in Hok.
  destruct (pi_rs _ _ _ _ Hinv) as [_ Hrs]. split; [|exact (Forall_lookup_1 _ _ _ _ Hrs Hk)].
  apply Hok. apply elem_of_cons. right. apply elem_of_app. right.
  apply (list_elem_of_lookup_2 _ k). by rewrite lookup_take_lt by lia.
Qed.

(** The walk maps every page to itself but the absent ones. *)
Lemma walk_inv va :
  0 <= va < 2 ^ 32 ->
  walk mem (l1 P) va = if bool_decide (va / 2 ^ 12 ∈ unm) then None else Some (va, attr_of va).
Proof.
  intros Hva. destruct (index_fields va Hva) as (_ & E2 & E3 & E1).
  destruct (page_split va Hva) as (Hr & Hpage & Hm & Hreg).
  set (r := va / 2 ^ 21) in *.
  destruct (pi_l2_lookup r Hr) as (t & Ht & Htok).
  unfold walk. rewrite E1.
  pose proof (pi_root _ _ _ _ Hinv _ _ Ht) as Hroot. rewrite Z2Nat.id in Hroot by (apply Z.div_pos; lia).
  rewrite Hroot. cbn [mbind option_bind].
  destruct (table_fields t) as [-> ->]; [unfold table_ok in Htok; lia|apply Htok|].
  change (3 =? 3) with true. cbv iota. rewrite E2.
  pose proof (Z.div_mod va (2 ^ 21) ltac:(lia)) as Hd21. fold r in Hd21.
  pose proof (Z.div_mod va (2 ^ 12) ltac:(lia)) as Hd12.
  destruct (decide (r ∈ rs)) as [[k Hk]%list_elem_of_lookup_1|Hnr].
  - destruct (pi_l3_lookup k r Hk) as (t3 & Ht3 & Ht3ok & _).
    rewrite (pi_table _ _ _ _ Hinv _ _ _ _ Hk Ht Ht3). cbn [mbind option_bind].
    destruct (table_fields t3) as [-> ->]; [unfold table_ok in Ht3ok; lia|apply Ht3ok|].
    change (3 =? 1) with false. change (3 =? 3) with true. cbv iota. rewrite E3.
    rewrite (pi_page _ _ _ _ Hinv _ _ _ _ Hk Ht3 Hm), <- Hpage. cbn [mbind option_bind].
    case_bool_decide; [done|].
    assert (0 <= va / 2 ^ 12 < 2 ^ 20) as Hn.
    { split; [apply Z.div_pos; lia|]. apply Z.div_lt_upper_bound; [lia|].
      change (2 ^ 12 * 2 ^ 20) with (2 ^ 32). lia. }
    unfold r. rewrite attr_of_region by lia.
    destruct (page_fields (attr_of va) _ Hn (attr_of_cases va)) as (-> & -> & ->).
    change (3 =? 3) with true. cbv iota. do 2 f_equal. lia.
  - rewrite (pi_block _ _ _ _ Hinv _ _ Hr Hnr Ht). cbn [mbind option_bind].
    destruct (block_fields r Hr) as (-> & -> & -> & _). change (1 =? 1) with true. cbv iota.
    rewrite bool_decide_false; [|intros Hu%(pi_unm _ _ _ _ Hinv); apply Hnr; by rewrite <- Hreg].
    rewrite land_lnot_low, Z.div_mul by lia. unfold r at 2. rewrite attr_of_region by lia.
    do 2 f_equal. lia.
Qed.

Lemma tables_ne i j t t' :
  tables P (length rs) !! i = Some t -> tables P (length rs) !! j = Some t' -> i <> j -> t <> t'.
Proof.
  intros Hi Hj Hne ->. apply Hne.
  by eapply (NoDup_lookup _ _ _ _ (pi_nodup _ _ _ _ Hinv)).
Qed.

Lemma tables_l2 i t : l2 P !! i = Some t -> tables P (length rs) !! S i = Some t.
Proof. intros Ht. simpl. apply lookup_app_l_Some. done. Qed.

Lemma tables_l3 k r t : rs !! k = Some r -> l3 P !! k = Some t ->
  tables P (length rs) !! (5 + k)%nat = Some t.
Proof.
  intros Hk Ht. pose proof (lookup_lt_Some _ _ _ Hk). change (5 + k)%nat with (S (4 + k)).
  change (tables P (length rs) !! S (4 + k)) with ((l2 P ++ take (length rs) (l3 P)) !! (4 + k)%nat).
  rewrite lookup_app_r by (rewrite (pi_l2 _ _ _ _ Hinv); lia).
  rewrite (pi_l2 _ _ _ _ Hinv). replace (4 + k - 4)%nat with k by lia. by rewrite lookup_take_lt by lia.
Qed.
End Inv.

(** ** Preservation *)

(** A loop that stores a word per round fills its range and nothing else. *)
Definition filled (base n : Z) (f : Z -> Z) (mem mem' : gmap Z Z) : Prop :=
  (forall i, 0 <= i < n -> mem' !! (base + 8 * i) = Some (f i))
  /\ (forall a, (forall i, 0 <= i < n -> a <> base + 8 * i) -> mem' !! a = mem !! a).

Lemma fill_loop {H : Type} (s : vmem H) base n f :
  0 <= n ->
  exists mem', for_range 0 n (fun i s => Ret (store_word s (base + 8 * i) (f i))) s
    = Ret (mk_vm (vheap s) (procs s) mem') /\ filled base n f (words s) mem'.
Proof.
  intros Hn.
  destruct (for_range_ind (fun k s' => exists mem', s' = mk_vm (vheap s) (procs s) mem'
      /\ filled base k f (words s) mem') 0 n
      (fun i s => Ret (store_word s (base + 8 * i) (f i))) s) as (s' & E & mem' & -> & Hf).
  - done.
  - exists (words s). split; [by destruct s|]. split; [lia|done].
  - intros i s' Hi (mem' & -> & Hw & Ho). eexists. split; [reflexivity|].
    exists (<[base + 8 * i := f i]> mem'). split; [done|]. split.
    + intros j Hj. destruct (decide (j = i)) as [->|]; [by rewrite lookup_insert_eq|].
      rewrite lookup_insert_ne by lia. apply Hw. lia.
    + intros a Ha. rewrite lookup_insert_ne by (intros <-; apply (Ha i); lia).
      apply Ho. intros j Hj. apply Ha. lia.
  - exists mem'. by split.
Qed.

Section Preserve.
Context (mem : gmap Z Z) (P : proc_t) (rs : list Z) (unm : gset Z) (Hinv : proc_inv mem P rs unm).

Lemma pi_tables_ok t : t ∈ tables P (length rs) -> table_ok t.
Proof. pose proof (pi_ok _ _ _ _ Hinv) as Ho. rewrite Forall_forall in Ho. apply Ho. Qed.

Lemma pi_root_ok : table_ok (l1 P).
Proof. apply pi_tables_ok. by left. Qed.

Lemma mod_512 r : 0 <= r mod 512 < 512.
Proof. apply Z.mod_pos_bound. lia. Qed.

(** The word of another table of [P] than the one at index [j]. *)
Lemma other_word i j t t' a b :
  tables P (length rs) !! i = Some t -> tables P (length rs) !! j = Some t' -> i <> j ->
  0 <= a < 512 -> 0 <= b < 512 -> t + 8 * a <> t' + 8 * b.
Proof.
  intros Hi Hj Hne Ha Hb. apply word_apart; try done.
  - apply pi_tables_ok. by eapply list_elem_of_lookup_2.
  - apply pi_tables_ok. by eapply list_elem_of_lookup_2.
  - by eapply tables_ne.
Qed.

Lemma unmap_word k r t3 m :
  rs !! k = Some r -> l3 P !! k = Some t3 -> 0 <= m < 512 ->
  proc_inv (<[t3 + 8 * m := 0]> mem) P rs ({[r * 512 + m]} ∪ unm).
Proof.
  intros Hk Ht3 Hm. pose proof (tables_l3 _ _ _ _ Hinv _ _ _ Hk Ht3) as HT3.
  pose proof (pi_rs _ _ _ _ Hinv) as [Hnd Hrs].
  destruct Hinv. split; try done.
  - intros i t Ht. rewrite lookup_insert_ne; [by apply pi_root0|].
    apply (other_word (5 + k) 0 t3 (l1 P) m (Z.of_nat i)); [done|done|lia|done|].
    apply lookup_lt_Some in Ht. lia.
  - intros r' t Hr' Hni Ht. rewrite lookup_insert_ne; [by apply pi_block0|].
    pose proof (lookup_lt_Some _ _ _ Ht).
    eapply (other_word (5 + k) (S (Z.to_nat (r' / 512)))); [done|by apply tables_l2|lia|done|apply mod_512].
  - intros k' r' t t3' Hk' Ht Ht3'. rewrite lookup_insert_ne; [by eapply pi_table0|].
    pose proof (lookup_lt_Some _ _ _ Ht).
    eapply (other_word (5 + k) (S (Z.to_nat (r' / 512)))); [done|by apply tables_l2|lia|done|apply mod_512].
  - intros k' r' t3' m' Hk' Ht3' Hm'.
    destruct (decide (k' = k)) as [->|Hne].
    + assert (r' = r) as -> by congruence. assert (t3' = t3) as -> by congruence.
      destruct (decide (m' = m)) as [->|Hmm].
      * rewrite lookup_insert_eq, bool_decide_true by set_solver. done.
      * rewrite lookup_insert_ne by lia. rewrite (pi_page0 _ _ _ _ Hk Ht3 Hm'). f_equal.
        erewrite bool_decide_ext; [reflexivity|]. rewrite elem_of_union, elem_of_singleton. split; [by right|].
        intros [?|?]; [lia|done].
    + rewrite lookup_insert_ne.
      2:{ eapply (other_word (5 + k) (5 + k')); [done|by eapply tables_l3|lia|done|done]. }
      rewrite (pi_page0 _ _ _ _ Hk' Ht3' Hm'). f_equal.
      erewrite bool_decide_ext; [reflexivity|]. rewrite elem_of_union, elem_of_singleton. split; [by right|].
      intros [E|?]; [|done]. exfalso. apply Hne. apply (NoDup_lookup rs k' k r'); [done|done|].
      by replace r' with r by lia.
  - intros n Hn%elem_of_union. destruct Hn as [->%elem_of_singleton|Hn]; [|auto].
    replace ((r * 512 + m) / 512) with r; [by eapply list_elem_of_lookup_2|].
    apply (Z.div_unique _ _ _ m); lia.
Qed.

Lemma break_region r t t2 mem' :
  0 <= r < 2048 -> r ∉ rs -> (length rs < 16)%nat -> table_ok t -> t ∉ tables P (length rs) ->
  l2 P !! Z.to_nat (r / 512) = Some t2 ->
  filled t 512 (fun m => page_desc (attr_of (r * 2 ^ 21)) ((r * 512 + m) * 2 ^ 12)) mem mem' ->
  proc_inv (<[t2 + 8 * (r mod 512) := DESC_TABLE t]> mem')
    (mk_proc (l1 P) (l2 P) (<[length rs := t]> (l3 P)) (l3_count P + 1)) (rs ++ [r]) unm.
Proof.
  intros Hr Hni Hlen Htok Hnt Ht2 [Hnew Hold].
  assert (forall x, x ∈ tables P (length rs) -> x <> t) as Hxt by (intros x Hx ->; done).
  assert (forall j x a, tables P (length rs) !! j = Some x -> 0 <= a < 512 ->
    mem' !! (x + 8 * a) = mem !! (x + 8 * a)) as Hkeep.
  { intros j x a Hx Ha. apply Hold. intros i Hi. apply list_elem_of_lookup_2 in Hx.
    apply word_apart; auto using pi_tables_ok. }
  pose proof (pi_l3 _ _ _ _ Hinv) as Hl3. pose proof (pi_l2 _ _ _ _ Hinv) as Hl2.
  pose proof (tables_l2 P rs _ _ Ht2) as HT2.
  pose proof (lookup_lt_Some _ _ _ Ht2).
  assert (forall k, (k < length rs)%nat -> <[length rs := t]> (l3 P) !! k = l3 P !! k) as Hl3k.
  { intros k Hk. by rewrite list_lookup_insert_ne by lia. }
  assert (tables (mk_proc (l1 P) (l2 P) (<[length rs := t]> (l3 P)) (l3_count P + 1)) (length (rs ++ [r]))
    = tables P (length rs) ++ [t]) as Htabs.
  { unfold tables. cbn [l1 l2 l3]. rewrite length_app. simpl. f_equal.
    rewrite Nat.add_1_r, <- app_assoc. f_equal.
    rewrite (take_S_r _ _ t) by (apply list_lookup_insert_eq; lia). f_equal.
    apply take_insert_ge. lia. }
  pose proof (pi_rs _ _ _ _ Hinv) as [Hnd Hrs].
  split.
  - by apply Hinv.
  - simpl. by rewrite length_insert.
  - simpl. rewrite (pi_count _ _ _ _ Hinv), length_app. simpl. lia.
  - rewrite length_app. simpl. lia.
  - rewrite Htabs. apply NoDup_app. split_and!; [by apply Hinv| |by apply NoDup_singleton].
    intros x Hx ->%list_elem_of_singleton. done.
  - rewrite Htabs. apply Forall_app. split; [by apply Hinv|by constructor].
  - split; [apply NoDup_app; split_and!; [done| |by apply NoDup_singleton]|apply Forall_app; split; [done|by constructor]].
    intros x Hx ->%list_elem_of_singleton. done.
  - intros i x Hx. cbn [l1 l2] in *. pose proof (lookup_lt_Some _ _ _ Hx).
    pose proof (pi_l2 _ _ _ _ Hinv).
    rewrite lookup_insert_ne.
    2:{ eapply (other_word (S (Z.to_nat (r / 512))) 0); [done|done|lia|apply mod_512|lia]. }
    rewrite (Hkeep 0%nat) by (done || lia). by apply (pi_root _ _ _ _ Hinv).
  - intros r' x Hr' [Hni' Hne]%not_elem_of_app Hx. apply not_elem_of_cons in Hne as [Hne _].
    cbn [l2] in Hx. rewrite lookup_insert_ne.
    2:{ destruct (decide (Z.to_nat (r / 512) = Z.to_nat (r' / 512))) as [E|E].
        - rewrite E in Ht2. assert (x = t2) as -> by congruence.
          pose proof (Z.div_mod r 512 ltac:(lia)). pose proof (Z.div_mod r' 512 ltac:(lia)).
          assert (0 <= r / 512) by (apply Z.div_pos; lia). assert (0 <= r' / 512) by (apply Z.div_pos; lia).
          intros ?. apply Hne. lia.
        - eapply (other_word (S (Z.to_nat (r / 512))) (S (Z.to_nat (r' / 512))));
            [done|by apply tables_l2|lia|apply mod_512|apply mod_512]. }
    rewrite (Hkeep (S (Z.to_nat (r' / 512)))) by (try apply mod_512; by apply tables_l2).
    by apply (pi_block _ _ _ _ Hinv).
  - intros k r' x x3 Hk Hx Hx3. cbn [l2 l3] in *.
    apply lookup_app_Some in Hk as [Hk|[Hge Hk]].
    + pose proof (lookup_lt_Some _ _ _ Hk). rewrite Hl3k in Hx3 by done.
      assert (r' <> r) as Hne by (intros ->; apply Hni; by eapply list_elem_of_lookup_2).
      pose proof (Forall_lookup_1 _ _ _ _ Hrs Hk) as Hr'. simpl in Hr'.
      rewrite lookup_insert_ne.
      2:{ destruct (decide (Z.to_nat (r / 512) = Z.to_nat (r' / 512))) as [E|E].
          - rewrite E in Ht2. assert (x = t2) as -> by congruence.
            pose proof (Z.div_mod r 512 ltac:(lia)). pose proof (Z.div_mod r' 512 ltac:(lia)).
            assert (0 <= r / 512) by (apply Z.div_pos; lia). assert (0 <= r' / 512) by (apply Z.div_pos; lia).
            intros ?. apply Hne. lia.
          - eapply (other_word (S (Z.to_nat (r / 512))) (S (Z.to_nat (r' / 512))));
              [done|by apply tables_l2|lia|apply mod_512|apply mod_512]. }
      rewrite (Hkeep (S (Z.to_nat (r' / 512)))) by (try apply mod_512; by apply tables_l2).
      by eapply (pi_table _ _ _ _ Hinv).
    + apply list_lookup_singleton_Some in Hk as [Ek Er]; subst r'.
      assert (k = length rs) as -> by lia. rewrite list_lookup_insert_eq in Hx3 by lia.
      assert (x = t2) as -> by congruence. rewrite lookup_insert_eq. congruence.
  - intros k r' x3 m Hk Hx3 Hm. cbn [l3] in *.
    apply lookup_app_Some in Hk as [Hk|[Hge Hk]].
    + pose proof (lookup_lt_Some _ _ _ Hk). rewrite Hl3k in Hx3 by done.
      pose proof (tables_l3 _ _ _ _ Hinv _ _ _ Hk Hx3) as HT3.
      rewrite lookup_insert_ne.
      2:{ eapply (other_word (S (Z.to_nat (r / 512))) (5 + k)); [done|done|lia|apply mod_512|done]. }
      rewrite (Hkeep (5 + k)%nat) by done. by apply (pi_page _ _ _ _ Hinv k).
    + apply list_lookup_singleton_Some in Hk as [Ek Er]; subst r'.
      assert (k = length rs) as -> by lia. rewrite list_lookup_insert_eq in Hx3 by lia.
      assert (x3 = t) as -> by congruence.
      rewrite lookup_insert_ne.
      2:{ apply word_apart; [by apply pi_tables_ok; eapply list_elem_of_lookup_2|done| |apply mod_512|done].
          apply Hxt. by eapply list_elem_of_lookup_2. }
      rewrite Hnew by done. rewrite bool_decide_false; [done|].
      intros Hu%(pi_unm _ _ _ _ Hinv).
      replace ((r * 512 + m) / 512) with r in Hu; [done|]. apply (Z.div_unique _ _ _ m); lia.
  - intros n Hn. apply elem_of_app. left. by apply (pi_unm _ _ _ _ Hinv).
Qed.
End Preserve.

(** ** The operations *)

Section Ops.
Context {H : Type} `{AllocatorLaws H}.
Implicit Types (s : vmem H) (h : H) (P : proc_t).

(** [p] is a process with its tables, all its own; [rest] belongs to others. *)
Definition proc_ok s (p : Z) P (rs : list Z) (unm : gset Z) (rest : list Z) : Prop :=
  procs s !! p = Some P /\ proc_inv (words s) P rs unm
  /\ owns (vheap s) (p :: tables P (length rs) ++ rest).

Lemma vm_alloc_table s l :
  owns (vheap s) l ->
  exists t h, vm_alloc 4096 4096 s = Ret (t, set_vheap s h)
    /\ (t = 0 /\ owns h l /\ al_alloc 4096 4096 (vheap s) = Ret (0, h)
        \/ t <> 0 /\ table_ok t /\ t ∉ l /\ owns h (t :: l) /\ al_alloc 4096 4096 (vheap s) = Ret (t, h)).
Proof.
  intros Ho. destruct (owns_alloc _ _ 4096 4096 Ho) as (t & h & E & Hr & _); [by apply request_ok_page|].
  exists t, h. unfold vm_alloc. rewrite E. split; [done|].
  destruct Hr as [[-> Ho']|(Hn & Hni & Ha & Ho' & cap & Hc & Hl)]; [left; done|right].
  split_and!; try done.
  destruct (al_live_bound _ _ _ (owns_wf _ _ Ho') Hl).
  change (2 ^ 48) with 281474976710656 in *. split; [change (2 ^ 48) with 281474976710656; lia|].
  done.
Qed.

Lemma load_proc_ok s p P : procs s !! p = Some P -> load_proc s p = Ret P.
Proof. unfold load_proc. by intros ->. Qed.

Lemma load_word_ok s a v : words s !! a = Some v -> load_word s a = Ret v.
Proof. unfold load_word. by intros ->. Qed.

Lemma aget_lookup {A} (l : list A) i x : 0 <= i -> l !! Z.to_nat i = Some x -> aget l i = Ret x.
Proof. intros. by apply aget_Ret. Qed.

(** What the blocks of others hold is left alone: their pages and proc_t objects. *)
Definition keeps (rest : list Z) s s' : Prop :=
  (forall q a, q ∈ rest -> q mod 2 ^ 12 = 0 -> q <= a < q + 4096 -> words s' !! a = words s !! a)
  /\ forall q, q ∈ rest -> procs s' !! q = procs s !! q.

Lemma keeps_refl rest s : keeps rest s s.
Proof. done. Qed.
Lemma keeps_trans rest s1 s2 s3 : keeps rest s1 s2 -> keeps rest s2 s3 -> keeps rest s1 s3.
Proof. intros [Hw Hp] [Hw' Hp']. split; [intros q a Hq Hm Ha; by rewrite (Hw' q), (Hw q)|intros q Hq; by rewrite Hp', Hp]. Qed.
Lemma keeps_sub rest rest' s s' : rest ⊆ rest' -> keeps rest' s s' -> keeps rest s s'.
Proof. intros Hsub [Hw Hp]. split; [intros q a Hq; apply Hw; by apply Hsub|intros q Hq; apply Hp; by apply Hsub]. Qed.

Lemma keeps_proc rest s p P : p ∉ rest -> keeps rest s (set_proc s p P).
Proof. intros Hp. split; [done|]. intros q Hq. simpl. rewrite lookup_insert_ne; [done|]. by intros ->. Qed.

Lemma keeps_words rest s t mem : t ∉ rest -> t mod 2 ^ 12 = 0 ->
  (forall a, ~ (t <= a < t + 4096) -> mem !! a = words s !! a) -> keeps rest s (mk_vm (vheap s) (procs s) mem).
Proof.
  intros Ht Hm Hw. split; [|done]. intros q a Hq Hqm Ha. apply Hw. intros Hta. apply Ht.
  change (2 ^ 12) with 4096 in *. pose proof (Z.div_mod q 4096 ltac:(lia)). pose proof (Z.div_mod t 4096 ltac:(lia)).
  assert (q = t) as <-; [|done]. assert (q / 4096 = t / 4096) by lia. lia.
Qed.

Lemma keeps_store rest s t m v : t ∉ rest -> t mod 2 ^ 12 = 0 -> 0 <= m < 512 -> keeps rest s (store_word s (t + 8 * m) v).
Proof. intros Ht Hm Hr. apply (keeps_words rest s t); [done|done|]. intros a Ha. rewrite lookup_insert_ne; [done|lia]. Qed.

Lemma keeps_fill rest s t f mem : t ∉ rest -> t mod 2 ^ 12 = 0 -> filled t 512 f (words s) mem -> keeps rest s (mk_vm (vheap s) (procs s) mem).
Proof. intros Ht Hm [_ Hf]. apply (keeps_words rest s t); [done|done|]. intros a Ha. apply Hf. lia. Qed.

Lemma keeps_free rest s s' p : p ∉ rest -> procs s' = delete p (procs s) /\ words s' = words s -> keeps rest s s'.
Proof.
  intros Hp [Ep Ew]. split; [by intros; rewrite Ew|]. intros q Hq. rewrite Ep, lookup_delete_ne; [done|]. by intros ->.
Qed.

Lemma owned_rest_apart h p ts rest : owns h (p :: ts ++ rest) -> p ∉ rest /\ forall t, t ∈ ts -> t ∉ rest.
Proof.
  intros (_ & [Hp Hnd]%NoDup_cons & _). apply NoDup_app in Hnd as (_ & Hd & _). split; [set_solver|]. intros t Ht. by apply Hd.
Qed.

Lemma get_or_create_l3_spec s p P rs unm rest va :
  proc_ok s p P rs unm rest -> 0 <= va < 2 ^ 32 ->
  exists t s', get_or_create_l3 p va s = Ret (t, s') /\ keeps rest s s'
    /\ (t <> 0 /\ (exists k P' rs', proc_ok s' p P' rs' unm rest /\ l1 P' = l1 P
          /\ (rs' = rs /\ vheap s' = vheap s
              \/ rs' = rs ++ [va / 2 ^ 21] /\ va / 2 ^ 21 ∉ rs
                 /\ al_alloc 4096 4096 (vheap s) = Ret (t, vheap s'))
          /\ rs' !! k = Some (va / 2 ^ 21) /\ l3 P' !! k = Some t)
        \/ t = 0 /\ va / 2 ^ 21 ∉ rs /\ proc_ok s' p P rs unm rest
           /\ (length rs = 16%nat \/ al_alloc 4096 4096 (vheap s) = Ret (0, vheap s'))).
Proof.
  intros (HP & Hinv & Ho) Hva.
  destruct (index_fields va Hva) as (_ & E2 & _ & E1). destruct (page_split va Hva) as (Hr & _).
  set (r := va / 2 ^ 21) in *.
  destruct (pi_l2_lookup _ _ _ _ Hinv r Hr) as (t2 & Ht2 & Ht2ok).
  unfold get_or_create_l3. rewrite (load_proc_ok _ _ _ HP), bind_Ret, E1, E2.
  rewrite (aget_lookup _ _ t2), bind_Ret by (done || apply Z.div_pos; lia).
  destruct (decide (r ∈ rs)) as [[k Hk]%list_elem_of_lookup_1|Hni].
  - destruct (pi_l3_lookup _ _ _ _ Hinv _ _ Hk) as (t3 & Ht3 & Ht3ok & _).
    rewrite (load_word_ok _ _ _ (pi_table _ _ _ _ Hinv _ _ _ _ Hk Ht2 Ht3)), bind_Ret.
    destruct (table_fields t3) as [-> ->]; [unfold table_ok in Ht3ok; lia|apply Ht3ok|].
    change (3 =? 3) with true. cbv iota. exists t3, s. split; [done|]. split; [apply keeps_refl|]. left.
    split; [destruct Ht3ok; lia|]. exists k, P, rs. split_and!; try done. by left.
  - rewrite (load_word_ok _ _ _ (pi_block _ _ _ _ Hinv _ _ Hr Hni Ht2)), bind_Ret.
    destruct (block_fields r Hr) as (-> & Eat & _ & ->). rewrite Eat.
    change (1 =? 3) with false. cbv iota. rewrite (pi_count _ _ _ _ Hinv).
    pose proof (pi_cap _ _ _ _ Hinv). unfold PROC_MAX_L3.
    destruct (Z.leb_spec 16 (zlen rs)) as [Hfull|Hroom].
    { exists 0, s. split; [done|]. split; [apply keeps_refl|]. right. split_and!; try done. left. lia. }
    destruct (vm_alloc_table s _ Ho) as (t & h & Ea & Hres). rewrite Ea, bind_Ret. cbv iota beta zeta.
    destruct Hres as [(-> & Ho' & Eh)|(Hn & Htok & Hnt & Ho' & Eh)].
    { exists 0, (set_vheap s h). split; [done|]. split; [apply (keeps_refl rest s)|]. right. split_and!; try done. by right. }
    destruct (Z.eqb_spec t 0); [done|].
    rewrite aset_ok, bind_Ret by (rewrite (pi_l3 _ _ _ _ Hinv); lia). rewrite Nat2Z.id.
    set (P' := mk_proc (l1 P) (l2 P) (<[length rs := t]> (l3 P)) (zlen rs + 1)).
    destruct (fill_loop (set_proc (set_vheap s h) p P') t 512
      (fun i => if negb (attr_of (r * 2 ^ 21) =? 0)
                then DESC_PAGE_DEVICE (u64 (r * 2 ^ 21 + i * 4096))
                else DESC_PAGE_NORMAL (u64 (r * 2 ^ 21 + i * 4096)))) as (mem' & -> & Hfill); [lia|].
    rewrite bind_Ret. destruct (owned_rest_apart _ _ _ _ Ho) as [Hpr Htr].
    eexists t, _. split; [reflexivity|]. split.
    { eapply keeps_trans; [by apply (keeps_proc rest (set_vheap s h) p P')|]. eapply keeps_trans; [eapply (keeps_fill rest _ t); [set_solver|apply Htok|exact Hfill]|].
      apply keeps_store; [apply Htr; right; apply elem_of_app; left; by eapply list_elem_of_lookup_2|apply Ht2ok|apply Z.mod_pos_bound; lia]. }
    left. split; [done|].
    exists (length rs), P', (rs ++ [r]). split_and!.
    + split_and!; simpl.
      * by rewrite lookup_insert_eq.
      * unfold P'. rewrite <- (pi_count _ _ _ _ Hinv).
        apply (break_region (words s)); try done; [lia|by intros Hx; apply Hnt; right; apply elem_of_app; left|].
        destruct Hfill as [Hf1 Hf2]. split; [|done]. intros m Hm. rewrite Hf1 by done. f_equal.
        change (2 ^ 21) with (512 * 4096) in *. change (2 ^ 12) with 4096.
        rewrite u64_small by lia. unfold page_desc.
        replace (r * (512 * 4096) + m * 4096) with ((r * 512 + m) * 4096) by lia.
        by destruct (attr_of (r * (512 * 4096)) =? 0).
      * eapply owns_perm; [|exact Ho']. unfold tables. cbn [l1 l2 l3].
        rewrite length_app. simpl. rewrite Nat.add_1_r.
        rewrite (take_S_r _ _ t) by (apply list_lookup_insert_eq; rewrite (pi_l3 _ _ _ _ Hinv); lia).
        rewrite take_insert_ge by lia. solve_Permutation.
    + done.
    + right. done.
    + by apply list_lookup_middle.
    + apply list_lookup_insert_eq. rewrite (pi_l3 _ _ _ _ Hinv). lia.
Qed.

(** The next [n] page allocations from [h] all give a page. *)
Fixpoint pages_left (n : nat) h : Prop :=
  match n with
  | O => True
  | S n => forall p h', al_alloc 4096 4096 h = Ret (p, h') -> p <> 0 /\ pages_left n h'
  end.

(** *** Freeing *)

Definition nonnull (l : list Z) : list Z := filter (fun t => t <> 0) l.

Lemma nonnull_owned h l : owns h l -> nonnull l = l.
Proof.
  intros Ho. unfold nonnull. assert (Forall (fun t => t <> 0) l) as Hf.
  { apply Forall_forall. intros t Ht. by eapply owns_nonnull. }
  clear Ho. induction Hf as [|t l Ht _ IH]; [done|]. by rewrite filter_cons_True, IH.
Qed.

Lemma free_table_loop s (L : list Z) n rest :
  0 <= n <= zlen L -> owns (vheap s) (nonnull (take (Z.to_nat n) L) ++ rest) ->
  exists h, for_range 0 n (fun i s =>
      t ← aget L i; if t =? 0 then Ret s else vm_free t s) s = Ret (set_vheap s h)
    /\ owns h rest.
Proof.
  intros Hn Ho.
  destruct (for_range_ind (fun k s' => exists h, s' = set_vheap s h
      /\ owns h (nonnull (take (Z.to_nat (n - k)) (drop (Z.to_nat k) L)) ++ rest)) 0 n
      (fun i s => t ← aget L i; if t =? 0 then Ret s else vm_free t s) s) as (s' & E & h & -> & Hh).
  - lia.
  - exists (vheap s). split; [by destruct s|]. rewrite Z.sub_0_r. done.
  - intros i s' Hi (h & -> & Hh).
    destruct (lookup_lt_is_Some_2 L (Z.to_nat i)) as [t Ht]; [lia|].
    rewrite (aget_lookup _ _ t), bind_Ret by (done || lia).
    rewrite (drop_S _ _ _ Ht) in Hh.
    replace (Z.to_nat (n - i)) with (S (Z.to_nat (n - (i + 1)))) in Hh by lia.
    replace (S (Z.to_nat i)) with (Z.to_nat (i + 1)) in Hh by lia. cbn [take] in Hh.
    unfold nonnull in Hh. destruct (Z.eqb_spec t 0) as [->|Hne].
    + rewrite filter_cons_False in Hh by (intros Hx; by apply Hx). eexists. split; [reflexivity|].
      by exists h.
    + rewrite filter_cons_True in Hh by done.
      destruct (owns_free _ [] _ _ Hh) as (h' & Ef & Hh' & _).
      eexists. split; [unfold vm_free; cbn [vheap set_vheap]; rewrite Ef; reflexivity|].
      by exists h'.
  - exists h. split; [done|]. rewrite Z.sub_diag in Hh. done.
Qed.

Lemma proc_free_spec s p P rest :
  procs s !! p = Some P -> length (l2 P) = 4%nat -> 0 <= l3_count P <= zlen (l3 P) ->
  owns (vheap s) (p :: nonnull (l1 P :: l2 P ++ take (Z.to_nat (l3_count P)) (l3 P)) ++ rest) ->
  exists s', proc_free p s = Ret s' /\ owns (vheap s') rest
    /\ procs s' = delete p (procs s) /\ words s' = words s.
Proof.
  intros HP Hl2 Hc Ho. unfold proc_free.
  assert (p <> 0) as Hp by (eapply owns_nonnull; [exact Ho|by left]).
  destruct (Z.eqb_spec p 0); [done|]. rewrite (load_proc_ok _ _ _ HP), bind_Ret.
  destruct (free_table_loop s (l3 P) (l3_count P)
              (p :: nonnull (l1 P :: l2 P) ++ rest)) as (h1 & -> & Ho1); [done| |].
  { eapply owns_perm; [|exact Ho]. unfold nonnull.
    change (l1 P :: l2 P ++ ?x) with ((l1 P :: l2 P) ++ x). rewrite (filter_app _ (l1 P :: l2 P)).
    solve_Permutation. }
  rewrite bind_Ret.
  destruct (free_table_loop (set_vheap s h1) (l2 P) 4
              (p :: nonnull [l1 P] ++ rest)) as (h2 & -> & Ho2); [rewrite Hl2; lia| |].
  { eapply owns_perm; [|exact Ho1]. unfold nonnull. cbn [vheap set_vheap].
    rewrite (take_ge (l2 P)) by (rewrite Hl2; lia).
    change (l1 P :: l2 P) with ([l1 P] ++ l2 P). rewrite (filter_app _ [l1 P]). solve_Permutation. }
  rewrite bind_Ret.
  assert (exists h3, (if l1 P =? 0 then Ret (set_vheap (set_vheap s h1) h2)
      else vm_free (l1 P) (set_vheap (set_vheap s h1) h2)) = Ret (set_vheap s h3)
      /\ owns h3 (p :: rest)) as (h3 & -> & Ho3).
  { unfold nonnull in Ho2. destruct (Z.eqb_spec (l1 P) 0) as [E|Hne].
    - rewrite filter_cons_False in Ho2 by (intros Hx; by apply Hx). by exists h2.
    - rewrite filter_cons_True in Ho2 by done.
      destruct (owns_free h2 [p] (l1 P) rest Ho2) as (h3 & E & Ho3 & _).
      exists h3. unfold vm_free. cbn [vheap set_vheap]. rewrite E. done. }
  rewrite bind_Ret. destruct (owns_free h3 [] p rest Ho3) as (h4 & E & Ho4 & _).
  unfold vm_free. cbn [vheap set_vheap]. rewrite E, bind_Ret. eexists. split; [reflexivity|]. done.
Qed.

(** *** Creation *)

(** The tables after [i] rounds of [proc_create]. *)
Definition identity_tables (mem : gmap Z Z) (root : Z) (ts : list Z) : Prop :=
  forall i t, ts !! i = Some t ->
    mem !! (root + 8 * Z.of_nat i) = Some (DESC_TABLE t)
    /\ forall m, 0 <= m < 512 ->
       mem !! (t + 8 * m) = Some (block_desc ((Z.of_nat i * 512 + m) * 2 ^ 21)).

Lemma create_l2_spec s p root ts rest :
  (length ts < 4)%nat -> Forall table_ok (root :: ts) ->
  procs s !! p = Some (mk_proc root (ts ++ replicate (4 - length ts) 0) (replicate 16 0) 0) ->
  owns (vheap s) (p :: root :: ts ++ rest) -> identity_tables (words s) root ts ->
  exists b s', create_l2 p (zlen ts) s = Ret (b, s') /\ keeps rest s s'
    /\ (forall k, pages_left (S k) (vheap s) -> b = true /\ pages_left k (vheap s')) /\
    if (b : bool) then
      exists t, procs s' !! p = Some (mk_proc root ((ts ++ [t]) ++ replicate (4 - length (ts ++ [t])) 0) (replicate 16 0) 0)
        /\ Forall table_ok (root :: ts ++ [t])
        /\ owns (vheap s') (p :: root :: (ts ++ [t]) ++ rest) /\ identity_tables (words s') root (ts ++ [t])
    else procs s' !! p = Some (mk_proc root (ts ++ replicate (4 - length ts) 0) (replicate 16 0) 0)
         /\ owns (vheap s') (p :: root :: ts ++ rest).
Proof.
  intros Hlen Hok HP Ho Hid. unfold create_l2.
  destruct (vm_alloc_table s _ Ho) as (t & h & -> & Hres). rewrite bind_Ret. cbv iota beta zeta.
  rewrite (load_proc_ok (set_vheap s h) p _ HP), bind_Ret. cbn [l1 l2 l3 l3_count].
  replace (4 - length ts)%nat with (S (3 - length ts)) in * by lia. cbn [replicate].
  rewrite aset_app, bind_Ret by done.
  destruct Hres as [(-> & Ho' & Eh)|(Hn & Htok & Hnt & Ho' & Eh)].
  { destruct (owned_rest_apart _ _ (root :: ts) _ Ho) as [Hpr _].
    eexists false, _. split; [reflexivity|]. split; [by apply (keeps_proc rest (set_vheap s h))|].
    split; [intros k Hk; by destruct (Hk _ _ Eh)|]. cbn. split; [|done].
    by rewrite lookup_insert_eq, <- app_assoc. }
  destruct (Z.eqb_spec t 0); [done|].
  match goal with |- context [set_proc ?s0 p ?P0] =>
    destruct (fill_loop (set_proc s0 p P0) t 512
      (fun j => let phys := u64 (zlen ts * (512 * BLOCK_2MB) + j * BLOCK_2MB) in
                if phys <? RAM_END then DESC_BLOCK_NORMAL phys else DESC_BLOCK_DEVICE phys))
      as (mem' & E & Hf1 & Hf2); [lia|] end.
  cbv zeta in E. rewrite E, bind_Ret. eexists true, _. split; [reflexivity|]. split.
  { destruct (owned_rest_apart _ _ (root :: ts) _ Ho) as [Hpr Htr].
    assert (t ∉ rest) as Htr2.
    { intros Hin. apply Hnt. right. rewrite app_comm_cons. apply elem_of_app. by right. }
    pose proof (keeps_fill rest _ t _ mem' Htr2 (proj2 Htok) (conj Hf1 Hf2)) as Hkf.
    match type of Hkf with keeps _ (set_proc ?s0 _ ?P0) _ => pose proof (keeps_proc rest s0 p P0 Hpr : keeps rest s _) as Hkp end.
    eapply keeps_trans; [exact (keeps_trans _ _ _ _ Hkp Hkf)|].
    apply keeps_store; [apply Htr; by left|by apply Forall_inv in Hok as []|lia]. }
  split; [intros k Hk; destruct (Hk _ _ Eh); split; [reflexivity|assumption]|]. cbv iota beta.
  exists t. cbn [procs store_word set_proc words vheap].
  split_and!.
  - rewrite lookup_insert_eq.
    by replace (4 - length (ts ++ [t]))%nat with (3 - length ts)%nat by (rewrite length_app; simpl; lia).
  - rewrite app_comm_cons. apply Forall_app. split; [done|by constructor].
  - eapply owns_perm; [|exact Ho']. solve_Permutation.
  - assert (forall x a, x ∈ root :: ts -> 0 <= a < 512 ->
      x <> t /\ mem' !! (x + 8 * a) = words s !! (x + 8 * a)) as Hkeep.
    { intros x a Hx Ha. assert (x <> t) as Hxt.
      { intros ->. apply Hnt. apply elem_of_cons. right. rewrite app_comm_cons. apply elem_of_app. by left. }
      split; [done|]. rewrite Hf2; [done|]. intros j Hj. rewrite Forall_forall in Hok.
      by apply word_apart; auto. }
    pose proof (Forall_cons_1 _ _ _ Hok) as [Hroot Hts].
    intros i x Hx. apply lookup_app_Some in Hx as [Hx|[Hge Hx]].
    + pose proof (lookup_lt_Some _ _ _ Hx).
      assert (x ∈ root :: ts) as Hin by (right; by eapply list_elem_of_lookup_2).
      assert (root <> x) as Hrx.
      { intros ->. apply owns_app_l with (l' := rest) (l := p :: x :: ts) in Ho.
        destruct Ho as (_ & Hnd & _). apply NoDup_cons in Hnd as [_ Hnd].
        apply NoDup_cons in Hnd as [Hnd _]. apply Hnd. by eapply list_elem_of_lookup_2. }
      destruct (Hid i x Hx) as [Hi1 Hi2]. split.
      * rewrite lookup_insert_ne by lia. rewrite (proj2 (Hkeep root (Z.of_nat i) ltac:(by left) ltac:(lia))). done.
      * intros m Hm. rewrite lookup_insert_ne.
        -- rewrite (proj2 (Hkeep x m Hin Hm)). by apply Hi2.
        -- apply word_apart; [assumption| |assumption|lia|assumption].
           exact (Forall_lookup_1 _ _ _ _ Hts Hx).
    + apply list_lookup_singleton_Some in Hx as [Ei Et]. subst x.
      assert (i = length ts) as -> by lia. split; [by rewrite lookup_insert_eq|].
      intros m Hm. rewrite lookup_insert_ne.
      2:{ apply word_apart; [assumption..| |lia|assumption]. apply (Hkeep root 0); [by left|lia]. }
      rewrite Hf1 by done. unfold BLOCK_2MB, block_desc. change (2 ^ 21) with 2097152.
      rewrite u64_small by lia.
      replace (zlen ts * (512 * (2 * 1024 * 1024)) + m * (2 * 1024 * 1024))
        with ((zlen ts * 512 + m) * 2097152) by lia. done.
Qed.

Lemma nonnull_zeros n : nonnull (replicate n 0) = [].
Proof.
  induction n as [|n IH]; [done|]. unfold nonnull in *. simpl replicate.
  rewrite filter_cons_False; [done|intros Hx; by apply Hx].
Qed.

Lemma identity_proc_inv mem root ts :
  length ts = 4%nat -> Forall table_ok (root :: ts) -> NoDup (root :: ts) ->
  identity_tables mem root ts -> proc_inv mem (mk_proc root ts (replicate 16 0) 0) [] ∅.
Proof.
  intros Hlen Hok Hnd Hid.
  assert (tables (mk_proc root ts (replicate 16 0) 0) (length (@nil Z)) = root :: ts) as Ht.
  { unfold tables. simpl. by rewrite app_nil_r. }
  split; rewrite ?Ht; try done.
  - simpl. lia.
  - split; constructor.
  - intros i t Hi. by apply Hid.
  - intros r t Hr _ Hi. destruct (Hid _ _ Hi) as [_ Hb].
    rewrite (Hb (r mod 512)) by (apply Z.mod_pos_bound; lia).
    rewrite Z2Nat.id by (apply Z.div_pos; lia). do 3 f_equal.
    pose proof (Z.div_mod r 512 ltac:(lia)). lia.
Qed.

(** One loop round of [proc_create], as a relation on what it leaves. *)
Definition create_round (p root : Z) s0 h rest (i : Z) (bs : bool * vmem H) : Prop :=
  let '(b, s) := bs in keeps rest s0 s /\
  (forall k, pages_left (4 + k) h -> b = true /\ pages_left (Z.to_nat (4 - i) + k) (vheap s)) /\
  exists ts, procs s !! p = Some (mk_proc root (ts ++ replicate (4 - length ts) 0) (replicate 16 0) 0)
    /\ (length ts <= 4)%nat /\ owns (vheap s) (p :: root :: ts ++ rest)
    /\ (b = true -> zlen ts = i /\ Forall table_ok (root :: ts) /\ identity_tables (words s) root ts).

(** The heap has a process's first allocation and [n] pages after it. *)
Definition proc_room (n : nat) h : Prop :=
  forall q h', al_alloc SIZEOF_PROC 16 h = Ret (q, h') -> q <> 0 /\ pages_left n h'.

Lemma proc_create_spec s rest :
  owns (vheap s) rest ->
  exists p s', proc_create s = Ret (p, s') /\ keeps rest s s'
    /\ (forall k, proc_room (5 + k) (vheap s) -> p <> 0 /\ pages_left k (vheap s'))
    /\ (p = 0 /\ owns (vheap s') rest \/ exists P, proc_ok s' p P [] ∅ rest).
Proof.
  intros Ho. unfold proc_create, vm_alloc.
  destruct (owns_alloc _ _ SIZEOF_PROC 16 Ho) as (p & h & E0 & Hres & _); [by apply request_ok_small|].
  rewrite E0, !bind_Ret. cbv iota beta zeta.
  destruct Hres as [[-> Ho1]|(Hp & Hpn & _ & Ho1 & _)].
  { eexists 0, _. split; [reflexivity|]. split; [apply (keeps_refl rest s)|]. split; [intros k Hk; by destruct (Hk _ _ E0)|by left]. }
  destruct (Z.eqb_spec p 0); [done|].
  assert (p ∉ rest) as Hpr by by destruct (owned_rest_apart _ _ [] _ Ho1).
  fold (vm_alloc 4096 4096 (set_proc (set_vheap s h) p (mk_proc 0 (replicate 4 0) (replicate 16 0) 0))).
  destruct (vm_alloc_table (set_proc (set_vheap s h) p (mk_proc 0 (replicate 4 0) (replicate 16 0) 0)) _ Ho1)
    as (root & h2 & -> & Hres). rewrite bind_Ret. cbv iota beta zeta.
  match goal with |- context [set_proc (set_vheap _ h2) p ?P0] => set (s2 := set_proc (set_vheap _ h2) p P0) end.
  assert (procs s2 !! p = Some (mk_proc root (replicate 4 0) (replicate 16 0) 0)) as HP2
    by (cbn; by rewrite lookup_insert_eq).
  assert (keeps rest s s2) as Hkp2.
  { pose proof (keeps_proc rest s p (mk_proc 0 (replicate 4 0) (replicate 16 0) 0) Hpr) as Hk1.
    pose proof (keeps_proc rest (set_proc s p (mk_proc 0 (replicate 4 0) (replicate 16 0) 0)) p
                  (mk_proc root (replicate 4 0) (replicate 16 0) 0) Hpr) as Hk2.
    exact (keeps_trans _ _ _ _ Hk1 Hk2). }
  destruct Hres as [(-> & Ho2 & E1)|(Hn & Hrok & Hrn & Ho2 & E1)].
  { simpl Z.eqb. cbv iota.
    destruct (proc_free_spec s2 p _ rest HP2) as (s3 & -> & Ho3 & Hkf); [done|simpl; lia|done|].
    eexists 0, _. split; [reflexivity|]. split; [by eapply keeps_trans, keeps_free|].
    split; [intros k Hk; destruct (Hk _ _ E0) as [_ Hk']; by destruct (Hk' _ _ E1)|by left]. }
  destruct (Z.eqb_spec root 0); [done|]. unfold clear_words.
  destruct (fill_loop s2 root 512 (fun _ => 0)) as (mem3 & -> & Hf3); [lia|]. rewrite bind_Ret.
  assert (keeps rest s2 (mk_vm (vheap s2) (procs s2) mem3)) as Hkp3.
  { eapply (keeps_fill rest _ root); [|apply Hrok|exact Hf3]. set_solver. }
  destruct (for_range_ind (create_round p root s h2 rest) 0 4
    (fun i '(ok, s) => if (ok : bool) then create_l2 p i s else Ret (false, s))
    (true, mk_vm (vheap s2) (procs s2) mem3)) as ([b s4] & -> & Hkp4 & Hk4 & ts & HP4 & Hl4 & Ho4 & Hb4).
  - lia.
  - split; [by eapply keeps_trans|]. split; [intros k Hk; done|]. exists []. split_and!; try done.
    + simpl. lia.
    + eapply owns_perm; [|exact Ho2]. simpl. solve_Permutation.
    + intros _. split_and!; [done|by apply Forall_singleton|]. by intros ??.
  - intros i [b s5] Hi (Hkp5 & Hk5 & ts & HP & Hl & Ho5 & Hb). destruct b.
    + destruct Hb as (Ei & Hok & Hid); [done|]. rewrite <- Ei in *.
      destruct (create_l2_spec s5 p root ts rest) as (b & s6 & -> & Hkp6 & Hk6 & Hs6); try done; [lia|].
      eexists. split; [reflexivity|]. split; [by eapply keeps_trans|]. split.
      { intros k Hk. destruct (Hk5 k Hk) as [_ Hk']. apply Hk6.
        by replace (S (Z.to_nat (4 - (zlen ts + 1)) + k)) with (Z.to_nat (4 - zlen ts) + k)%nat by lia. }
      destruct b.
      * destruct Hs6 as (t & ? & ? & ? & ?). exists (ts ++ [t]). split_and!; try done.
        -- rewrite length_app. simpl. lia.
        -- intros _. split_and!; try done. rewrite length_app. simpl. lia.
      * destruct Hs6. by exists ts.
    + eexists. split; [reflexivity|]. split; [done|]. split; [intros k Hk; by destruct (Hk5 k Hk)|].
      exists ts. split_and!; done.
  - rewrite bind_Ret.
    assert (forall k, proc_room (5 + k) (vheap s) -> b = true /\ pages_left k (vheap s4)) as Hroom.
    { intros k Hk. destruct (Hk _ _ E0) as [_ Hk']. destruct (Hk' _ _ E1) as [_ Hk2]. apply (Hk4 k Hk2). }
    destruct b.
    + destruct Hb4 as (Ei & Hok & Hid); [done|]. assert (length ts = 4%nat) as Hts by lia.
      rewrite Hts in HP4. simpl replicate in HP4. rewrite app_nil_r in HP4.
      eexists p, s4. split; [reflexivity|]. split; [done|]. split; [intros k Hk; split; [done|by apply Hroom]|].
      right. eexists. split; [exact HP4|].
      assert (owns (vheap s4) (root :: ts)) as Hrt.
      { eapply (owns_app_l _ _ (p :: rest)), owns_perm; [|exact Ho4]. solve_Permutation. }
      split; [apply identity_proc_inv; try done; apply Hrt|].
      unfold tables. cbn [l1 l2 l3 length take]. rewrite app_nil_r. done.
    + destruct (proc_free_spec s4 p _ rest HP4) as (s7 & -> & Ho7 & Hkf).
      * cbn [l2]. rewrite length_app, length_replicate. lia.
      * simpl. lia.
      * cbn [l1 l2 l3 l3_count]. change (Z.to_nat 0) with 0%nat. cbn [take]. rewrite app_nil_r.
        eapply owns_perm; [|exact Ho4]. apply Permutation_skip.
        assert (nonnull (root :: ts ++ replicate (4 - length ts) 0) = root :: ts) as ->; [|done].
        assert (owns (vheap s4) (root :: ts)) as Hrt.
        { eapply (owns_app_l _ _ (p :: rest)), owns_perm; [|exact Ho4]. solve_Permutation. }
        rewrite <- (nonnull_owned _ _ Hrt). rewrite app_comm_cons. unfold nonnull.
        rewrite filter_app. rewrite <- (app_nil_r (filter _ (root :: ts))) at 2. f_equal.
        apply nonnull_zeros.
      * eexists 0, _. split; [reflexivity|]. split; [by eapply keeps_trans, keeps_free|].
        split; [intros k Hk; by destruct (Hroom k Hk)|by left].
Qed.

Lemma pages_left_le (n m : nat) h : (m <= n)%nat -> pages_left n h -> pages_left m h.
Proof.
  revert m h. induction n as [|n IH]; intros m h Hm Hn; [by replace m with 0%nat by lia|].
  destruct m as [|m]; [done|]. intros p h' E. destruct (Hn p h' E). split; [done|]. apply IH; [lia|done].
Qed.

(** *** Unmapping *)

(** The 2 MB regions the pages [n .. last) touch, an upper bound on the tables needed. *)
Definition regions (n last : Z) : Z := if n <? last then (last - 1) / 512 - n / 512 + 1 else 0.

(** [b] fresh tables are enough for the pages [n .. last). *)
Definition budget (b : nat) (rs : list Z) (n last : Z) h : Prop :=
  regions n last <= Z.of_nat b + (if bool_decide (n / 512 ∈ rs) then 1 else 0)
  /\ (length rs + b <= 16)%nat /\ pages_left b h.

Lemma regions_step n last : n < last ->
  regions (n + 1) last = regions n last \/
  regions (n + 1) last = regions n last - 1 /\ ((n + 1) / 512 <> n / 512 \/ last = n + 1).
Proof.
  intros Hn. unfold regions. destruct (Z.ltb_spec n last); [|lia].
  pose proof (Z.div_mod n 512 ltac:(lia)). pose proof (Z.mod_pos_bound n 512 ltac:(lia)).
  pose proof (Z.div_mod (n + 1) 512 ltac:(lia)). pose proof (Z.mod_pos_bound (n + 1) 512 ltac:(lia)).
  destruct (Z.ltb_spec (n + 1) last).
  - destruct (decide ((n + 1) / 512 = n / 512)); [left; lia|right; lia].
  - right. assert (last = n + 1) as -> by lia. replace (n + 1 - 1) with n by lia. lia.
Qed.

Lemma budget_step b rs n last h :
  n < last -> n / 512 ∈ rs -> budget b rs n last h -> budget b rs (n + 1) last h.
Proof.
  intros Hn Hin (Hr & Hc & Hp). split_and!; try done.
  rewrite bool_decide_true in Hr by done.
  pose proof (Z.div_mod n 512 ltac:(lia)). pose proof (Z.mod_pos_bound n 512 ltac:(lia)).
  pose proof (Z.div_mod (n + 1) 512 ltac:(lia)). pose proof (Z.mod_pos_bound (n + 1) 512 ltac:(lia)).
  destruct (decide ((n + 1) / 512 = n / 512)) as [E|E].
  - rewrite bool_decide_true by by rewrite E. unfold regions in *. rewrite E in *.
    destruct (Z.ltb_spec (n + 1) last), (Z.ltb_spec n last); lia.
  - assert ((n + 1) / 512 = n / 512 + 1) by lia.
    case_bool_decide; unfold regions in *;
      destruct (Z.ltb_spec (n + 1) last), (Z.ltb_spec n last); lia.
Qed.

Lemma regions_pos n last : n < last -> 0 < regions n last.
Proof.
  intros Hn. unfold regions. destruct (Z.ltb_spec n last); [|lia].
  assert (n / 512 <= (last - 1) / 512) by (apply Z.div_le_mono; lia). lia.
Qed.

Lemma unmap_pages_spec fuel s p P rs unm rest n last :
  proc_ok s p P rs unm rest -> 0 <= n -> 0 <= last <= 2 ^ 20 -> (Z.to_nat (last - n) < fuel)%nat ->
  exists s' P' rs' unm', unmap_pages fuel p (n * 4096) (last * 4096) s = Ret s' /\ keeps rest s s'
    /\ proc_ok s' p P' rs' unm' rest /\ l1 P' = l1 P
    /\ (forall m, m ∈ unm -> m ∈ unm') /\ (forall m, m ∈ unm' -> m ∈ unm \/ n <= m < last)
    /\ (forall b, budget b rs n last (vheap s) -> forall m, n <= m < last -> m ∈ unm').
Proof.
  revert s P rs unm n. induction fuel as [|fuel IH]; intros s P rs unm n Hok Hn Hl Hf; [lia|].
  cbn [unmap_pages]. destruct (Z.ltb_spec (n * 4096) (last * 4096)) as [Hlt|Hge].
  2:{ exists s, P, rs, unm. split; [done|]. split; [apply keeps_refl|]. split_and!; try done; [by left|lia]. }
  assert (n < last) as Hnl by lia. change (2 ^ 20) with 1048576 in *.
  destruct (get_or_create_l3_spec s p P rs unm rest (n * 4096) Hok) as (t & s1 & E & Hkp & Hres).
  { change (2 ^ 32) with 4294967296. lia. }
  rewrite E, bind_Ret. cbv iota beta zeta. clear E.
  assert (n * 4096 / 2 ^ 21 = n / 512) as Er.
  { change (2 ^ 21) with (4096 * 512). rewrite <- Z.div_div, Z.div_mul by lia. done. }
  rewrite Er in Hres.
  assert (u64 (n * 4096 + 4096) = (n + 1) * 4096) as -> by (rewrite u64_small; lia).
  destruct Hres as [(Ht & k & P1 & rs1 & Hok1 & El1 & Hrs & Hk & Ht3)|(-> & Hni & Hok1 & Hfail)].
  - destruct (Z.eqb_spec t 0); [done|].
    destruct (index_fields (n * 4096)) as (_ & _ & -> & _); [change (2 ^ 32) with 4294967296; lia|].
    change (2 ^ 12) with 4096. rewrite Z.div_mul by lia.
    assert (n / 512 * 512 + n mod 512 = n) as Hn512 by (pose proof (Z.div_mod n 512 ltac:(lia)); lia).
    assert (0 <= n mod 512 < 512) as Hm512 by (apply Z.mod_pos_bound; lia).
    assert (proc_ok (store_word s1 (t + 8 * (n mod 512)) 0) p P1 rs1 ({[n]} ∪ unm) rest) as Hok2.
    { destruct Hok1 as (HP1 & Hinv1 & Ho1). split_and!; [done| |done].
      pose proof (unmap_word _ _ _ _ Hinv1 _ _ _ _ Hk Ht3 Hm512) as Hw. rewrite Hn512 in Hw. done. }
    destruct (IH _ _ _ _ (n + 1) Hok2) as (s' & P' & rs' & unm' & E & Hkp' & Hok' & El' & Hsub & Hsup & Hall);
      [lia|lia|lia|].
    assert (keeps rest s s') as Hkk.
    { eapply keeps_trans; [exact Hkp|]. eapply keeps_trans; [|exact Hkp'].
      destruct Hok1 as (_ & Hinv1 & Ho1). assert (t ∈ tables P1 (length rs1)) as Ht1.
      { pose proof (lookup_lt_Some _ _ _ Hk). unfold tables. right. apply elem_of_app. right.
        eapply (list_elem_of_lookup_2 _ k). rewrite lookup_take_lt by done. done. }
      apply keeps_store; [apply (owned_rest_apart _ _ _ _ Ho1); exact Ht1| |done].
      pose proof (pi_ok _ _ _ _ Hinv1) as Hft. rewrite Forall_forall in Hft. apply (Hft t Ht1). }
    exists s', P', rs', unm'. split; [done|]. split; [exact Hkk|]. split_and!; [done|congruence|set_solver| |].
    + intros m [Hm|Hm]%Hsup; [|lia]. apply elem_of_union in Hm as [->%elem_of_singleton|Hm]; [right; lia|by left].
    + intros b Hb m Hm. destruct (decide (m = n)) as [->|]; [apply Hsub; set_solver|].
      assert (n / 512 ∈ rs1) as Hin by (by eapply list_elem_of_lookup_2).
      destruct Hrs as [[-> Eh]|(-> & Hni & Ea)].
      * apply (Hall b); [|lia]. simpl. rewrite Eh. by apply budget_step.
      * destruct Hb as (Hr & Hc & Hp). rewrite bool_decide_false in Hr by done.
        pose proof (regions_pos _ _ Hnl). destruct b as [|b]; [lia|].
        destruct (Hp _ _ Ea) as [_ Hp']. apply (Hall b); [|lia]. apply budget_step; [lia|done|].
        split_and!; [|rewrite length_app; simpl; lia|done].
        rewrite bool_decide_true by done. lia.
  - rewrite Z.eqb_refl.
    destruct (IH _ _ _ _ (n + 1) Hok1) as (s' & P' & rs' & unm' & E & Hkp' & Hok' & El' & Hsub & Hsup & Hall);
      [lia|lia|lia|].
    exists s', P', rs', unm'. split; [done|]. split; [by eapply keeps_trans|]. split_and!; [done|done|done| |].
    + intros m [Hm|Hm]%Hsup; [by left|right; lia].
    + intros b (Hr & Hc & Hp). exfalso. rewrite bool_decide_false in Hr by done.
      pose proof (regions_pos _ _ Hnl). destruct b as [|b]; [lia|].
      destruct Hfail as [?|Ea]; [lia|]. by destruct (Hp _ _ Ea).
Qed.

(** One page: at most one table is taken, and with a slot and a page for it
    the unmapping cannot fail. *)
Lemma unmap_one_spec s p P rs unm rest n :
  proc_ok s p P rs unm rest -> 0 <= n < 2 ^ 20 ->
  exists s' P' rs' unm', proc_unmap_range p (n * 4096) 4096 s = Ret s' /\ keeps rest s s'
    /\ proc_ok s' p P' rs' unm' rest /\ l1 P' = l1 P
    /\ (forall m, m ∈ unm -> m ∈ unm') /\ (forall m, m ∈ unm' -> m ∈ unm \/ m = n)
    /\ (length rs' <= S (length rs))%nat
    /\ (forall k, (length rs < 16)%nat -> pages_left (S k) (vheap s) -> n ∈ unm' /\ pages_left k (vheap s')).
Proof.
  intros Hok Hn. change (2 ^ 20) with 1048576 in Hn.
  destruct (get_or_create_l3_spec s p P rs unm rest (n * 4096) Hok) as (t & s1 & E & Hkp & Hres).
  { change (2 ^ 32) with 4294967296. lia. }
  assert (proc_unmap_range p (n * 4096) 4096 s
    = Ret (if t =? 0 then s1 else store_word s1 (t + 8 * (n mod 512)) 0)) as Eq.
  { unfold proc_unmap_range. change 0xFFF with (2 ^ 12 - 1). rewrite !land_lnot_low by lia.
    change (2 ^ 12) with 4096. rewrite (u64_small (n * 4096 + 4096)) by lia.
    rewrite (u64_small (n * 4096 + 4096 + (4096 - 1))) by lia.
    replace (n * 4096 + 4096 + (4096 - 1)) with (4095 + (n + 1) * 4096) by lia.
    rewrite Z.div_add, (Z.div_small 4095), Z.div_mul by lia. change (0 + (n + 1)) with (n + 1).
    replace ((n + 1) * 4096 - n * 4096) with (1 * 4096) by lia. rewrite Z.div_mul by lia.
    change (S (Z.to_nat 1)) with 2%nat. cbn [unmap_pages].
    destruct (Z.ltb_spec (n * 4096) ((n + 1) * 4096)); [|lia]. rewrite E, bind_Ret. cbv iota beta zeta.
    rewrite u64_small by lia. replace (n * 4096 + 4096) with ((n + 1) * 4096) by lia. rewrite Z.ltb_irrefl.
    destruct (index_fields (n * 4096)) as (_ & _ & -> & _); [change (2 ^ 32) with 4294967296; lia|].
    change (2 ^ 12) with 4096. by rewrite Z.div_mul by lia. }
  rewrite Eq. clear E Eq.
  assert (n * 4096 / 2 ^ 21 = n / 512) as Er.
  { change (2 ^ 21) with (4096 * 512). rewrite <- Z.div_div, Z.div_mul by lia. done. }
  rewrite Er in Hres. assert (0 <= n mod 512 < 512) as Hm512 by (apply Z.mod_pos_bound; lia).
  assert (n / 512 * 512 + n mod 512 = n) as Hn512 by (pose proof (Z.div_mod n 512 ltac:(lia)); lia).
  destruct Hres as [(Ht & k & P1 & rs1 & Hok1 & El1 & Hrs & Hk & Ht3)|(-> & Hni & Hok1 & Hfail)].
  - destruct (Z.eqb_spec t 0); [done|]. destruct Hok1 as (HP1 & Hinv1 & Ho1).
    assert (t ∈ tables P1 (length rs1)) as Ht1.
    { pose proof (lookup_lt_Some _ _ _ Hk). unfold tables. right. apply elem_of_app. right.
      eapply (list_elem_of_lookup_2 _ k). rewrite lookup_take_lt by done. done. }
    pose proof (unmap_word _ _ _ _ Hinv1 _ _ _ _ Hk Ht3 Hm512) as Hw. rewrite Hn512 in Hw.
    eexists _, P1, rs1, ({[n]} ∪ unm). split; [reflexivity|]. split.
    { eapply keeps_trans; [exact Hkp|]. apply keeps_store; [apply (owned_rest_apart _ _ _ _ Ho1); exact Ht1| |done].
      pose proof (pi_ok _ _ _ _ Hinv1) as Hft. rewrite Forall_forall in Hft. apply (Hft t Ht1). }
    split; [by split_and!|]. split; [done|]. split; [set_solver|]. split; [set_solver|]. split.
    + destruct Hrs as [[-> _]|(-> & _)]; [lia|]. rewrite length_app. simpl. lia.
    + intros j Hj Hp. split; [set_solver|]. cbn [store_word vheap].
      destruct Hrs as [[_ Eh]|(_ & _ & Ea)]; [rewrite Eh; apply (pages_left_le (S j)); [lia|done]|].
      by destruct (Hp _ _ Ea).
  - rewrite Z.eqb_refl. exists s1, P, rs, unm. split; [done|]. split; [done|]. split; [done|].
    split; [done|]. split; [done|]. split; [by left|]. split; [lia|].
    intros j Hj Hp. exfalso. destruct Hfail as [?|Ea]; [lia|]. by destruct (Hp _ _ Ea).
Qed.

(** The invariant reads no word outside the tables. *)
Lemma proc_inv_words mem mem' P rs unm :
  proc_inv mem P rs unm ->
  (forall t a, t ∈ tables P (length rs) -> t <= a < t + 4096 -> mem' !! a = mem !! a) ->
  proc_inv mem' P rs unm.
Proof.
  intros Hinv Hm. pose proof Hinv as [].
  assert (forall i t, l2 P !! i = Some t -> t ∈ tables P (length rs)) as H2.
  { intros i t Hi. right. apply elem_of_app. left. by eapply list_elem_of_lookup_2. }
  split; try done.
  - intros i t Hi. pose proof (lookup_lt_Some _ _ _ Hi).
    rewrite (Hm (l1 P)); [by apply pi_root0|by left|lia].
  - intros r t Hr Hni Hi. pose proof (Z.mod_pos_bound r 512 ltac:(lia)).
    rewrite (Hm t); [by apply pi_block0|by eapply H2|lia].
  - intros k r t t3 Hk Hi H3. pose proof (Z.mod_pos_bound r 512 ltac:(lia)).
    rewrite (Hm t); [by eapply pi_table0|by eapply H2|lia].
  - intros k r t3 m Hk H3 Hr. rewrite (Hm t3); [by eapply pi_page0| |lia].
    pose proof (tables_l3 _ _ _ _ Hinv _ _ _ Hk H3) as Hx. by eapply list_elem_of_lookup_2.
Qed.

(** Another process's tables, all owned by others, are kept. *)
Lemma keeps_proc_inv rest s s' P rs unm :
  keeps rest s s' -> proc_inv (words s) P rs unm -> (forall t, t ∈ tables P (length rs) -> t ∈ rest) ->
  proc_inv (words s') P rs unm.
Proof.
  intros [Hw _] Hinv Hin. eapply proc_inv_words; [exact Hinv|]. intros t a Ht Ha.
  apply (Hw t); [by apply Hin| |done]. pose proof (pi_ok _ _ _ _ Hinv) as Hok. rewrite Forall_forall in Hok. by apply Hok.
Qed.
End Ops.

(** ** Properties *)

(** The heap of the examples: 128 KB from address 64 KB on. *)
Definition vm_example : vmem heap := mk_vm (alloc_init 65536 262144 (mk_cpu 0)) ∅ ∅.

Lemma vm_example_owns : owns (vheap vm_example) [].
Proof.
  split_and!; [|constructor|constructor].
  exists 65536, [], []. by apply alloc_init_inv.
Qed.

(** [pages_left] decided on a concrete heap. *)
Fixpoint heap_pages (n : nat) (h : heap) : bool :=
  match n with
  | O => true
  | S n =>
    match kmalloc_aligned 4096 4096 h with
    | Ret (p, h) => negb (p =? 0) && heap_pages n h
    | _ => false
    end
  end.

Lemma heap_pages_left n h : heap_pages n h = true -> pages_left n h.
Proof.
  revert h. induction n as [|n IH]; intros h Hb; [exact I|]. intros p h' E.
  cbn [al_alloc heap_allocator] in E. cbn [heap_pages] in Hb. rewrite E in Hb.
  apply andb_true_iff in Hb as [Hp Hb]. split; [|by apply IH]. intros ->. discriminate Hp.
Qed.

Definition heap_room (n : nat) (h : heap) : bool :=
  match kmalloc_aligned SIZEOF_PROC 16 h with
  | Ret (p, h) => negb (p =? 0) && heap_pages n h
  | _ => false
  end.

Lemma heap_proc_room n h : heap_room n h = true -> proc_room n h.
Proof.
  intros Hb p h' E. cbn [al_alloc heap_allocator] in E. unfold heap_room in Hb. rewrite E in Hb.
  apply andb_true_iff in Hb as [Hp Hb]. split; [|by apply heap_pages_left]. intros ->. discriminate Hp.
Qed.

Lemma vm_example_room : proc_room 6 (vheap vm_example).
Proof. apply heap_proc_room. vm_compute. reflexivity. Qed.



(** C15. [proc_unmap_range] on a process returns, leaves every page outside the
    range mapped as it was, and, when the heap and the 16 slots of the process
    have a table for every 2 MB region touched, makes every page that meets the
    range fault. *)
Theorem proc_unmap_range_exact {H : Type} `{AllocatorLaws H}
  (s : vmem H) (p : Z) (P : proc_t) (rs : list Z) (unm : gset Z) (rest : list Z) (va size : Z) (b : nat) :
  proc_ok s p P rs unm rest -> 0 <= va -> 0 < size -> va + size <= 2 ^ 32 ->
  exists s' P' rs' unm', proc_unmap_range p va size s = Ret s'
    /\ proc_ok s' p P' rs' unm' rest /\ l1 P' = l1 P
    /\ (forall x, 0 <= x < 2 ^ 32 -> x / 4096 < va / 4096 \/ (va + size - 1) / 4096 < x / 4096 ->
          walk (words s') (l1 P') x = walk (words s) (l1 P) x)
    /\ (budget b rs (va / 4096) ((va + size - 1) / 4096 + 1) (vheap s) ->
        forall x, 0 <= x < 2 ^ 32 -> va / 4096 <= x / 4096 <= (va + size - 1) / 4096 ->
          walk (words s') (l1 P') x = None).
Proof.
  intros Hok Hva Hsz Hend. unfold proc_unmap_range.
  change (2 ^ 32) with 4294967296 in *.
  change 0xFFF with (2 ^ 12 - 1). rewrite !land_lnot_low by lia. change (2 ^ 12) with 4096.
  rewrite (u64_small (va + size)), u64_small by lia.
  assert ((va + size + (4096 - 1)) / 4096 = (va + size - 1) / 4096 + 1) as ->.
  { replace (va + size + (4096 - 1)) with (va + size - 1 + 1 * 4096) by lia. apply Z.div_add. lia. }
  set (n := va / 4096). set (last := (va + size - 1) / 4096 + 1).
  assert (0 <= n) by (apply Z.div_pos; lia).
  assert (0 <= (va + size - 1) / 4096 < 1048576).
  { split; [apply Z.div_pos; lia|apply Z.div_lt_upper_bound; lia]. }
  destruct (unmap_pages_spec (S (Z.to_nat ((last * 4096 - n * 4096) / 4096))) s p P rs unm rest n last Hok)
    as (s' & P' & rs' & unm' & E & _ & Hok' & El & Hsub & Hsup & Hall); [done|unfold last; change (2 ^ 20) with 1048576; lia| |].
  { rewrite <- Z.mul_sub_distr_r, Z.div_mul by lia. lia. }
  exists s', P', rs', unm'. split_and!; [done..| |].
  - intros x Hx Hout. destruct Hok as (_ & Hinv & _), Hok' as (_ & Hinv' & _).
    rewrite (walk_inv _ _ _ _ Hinv' x Hx), (walk_inv _ _ _ _ Hinv x Hx). change (2 ^ 12) with 4096.
    erewrite bool_decide_ext; [reflexivity|]. split; [|apply Hsub].
    intros [?|?]%Hsup; [done|]. unfold n, last in *. lia.
  - intros Hb x Hx Hin. destruct Hok' as (_ & Hinv' & _).
    rewrite (walk_inv _ _ _ _ Hinv' x Hx). change (2 ^ 12) with 4096.
    rewrite bool_decide_true; [done|]. apply (Hall b Hb). unfold last. lia.
Qed.

Lemma vm_created : exists s p P, proc_ok s p P [] ∅ [] /\ pages_left 1 (vheap (H := heap) s).
Proof.
  destruct (proc_create_spec vm_example [] vm_example_owns) as (p & s' & E & _ & Hroom & Hr).
  destruct (Hroom 1%nat vm_example_room) as [Hp Hl].
  destruct Hr as [[? _]|[P HP]]; [contradiction|]. exists s', p, P. split; assumption.
Qed.

Lemma proc_unmap_range_exact_witness :
  exists (s s' : vmem heap) p P', proc_unmap_range p 69632 4096 s = Ret s' /\ walk (words s') (l1 P') 70000 = None.
Proof.
  destruct vm_created as (s & p & P & HP & Hl).
  destruct (proc_unmap_range_exact s p P [] ∅ [] 69632 4096 1 HP)
    as (s' & P' & rs' & unm' & E & _ & _ & _ & Hb); [lia|lia|lia|].
  exists s, s', p, P'. split; [exact E|]. apply Hb; [|split; [lia|reflexivity]|split; [done|done]].
  split; [done|]. split; [simpl; lia|exact Hl].
Defined.
