(* ===== verification/Task.v ===== *)
(** task.c, sched.c, switch.S: tasks and the round-robin scheduler.

    One record holds the task table, the core's callee-saved registers and
    TTBR0_EL1, the compiled-program table of tinycc.c ([tinycc_tasks], which a
    dying task gives back) and the memory of PageTable.v.  A context switch is
    the register exchange of switch.S; where the new task goes on is its saved
    x30: [schedule_ret] when it was itself switched out inside [schedule],
    [task_trampoline] when it has never run.  The counter values read from the
    timer are arguments. *)
From S2P Require Import Prelude Spinlock Allocator Heap CString PageTable.

Definition MAX_TASKS : Z := 16.
Definition TASK_STACK_SIZE : Z := 4096.
Definition TASK_NAME_LEN : Z := 16.

Definition TASK_UNUSED : Z := 0.
Definition TASK_READY : Z := 1.
Definition TASK_RUNNING : Z := 2.
Definition TASK_DEAD : Z := 3.
Definition TASK_SLEEPING : Z := 4.
Definition TASK_BLOCKED : Z := 5.

Record cpu_context_t := mk_ctx {
  x19 : Z; x20 : Z; x21 : Z; x22 : Z; x23 : Z; x24 : Z; x25 : Z; x26 : Z;
  x27 : Z; x28 : Z; x29 : Z; x30 : Z; sp : Z
}.
#[global] Instance cpu_context_eq_dec : EqDecision cpu_context_t.
Proof. solve_decision. Defined.

Definition zero_context : cpu_context_t := mk_ctx 0 0 0 0 0 0 0 0 0 0 0 0 0.

(** [bl]: a call leaves its return address in x30. *)
Definition branch_link (r : cpu_context_t) (ret : Z) : cpu_context_t :=
  mk_ctx (x19 r) (x20 r) (x21 r) (x22 r) (x23 r) (x24 r) (x25 r) (x26 r) (x27 r) (x28 r) (x29 r) ret (sp r).

Record task_t := mk_task {
  t_id : Z; t_state : Z; t_name : list Z; t_wake_time : Z; t_context : cpu_context_t;
  t_stack : Z; t_ttbr0_el1 : Z; t_el1_stack : Z; t_proc : Z
}.
#[global] Instance task_eq_dec : EqDecision task_t.
Proof. solve_decision. Defined.

Definition set_state (v : Z) (t : task_t) : task_t :=
  mk_task (t_id t) v (t_name t) (t_wake_time t) (t_context t) (t_stack t) (t_ttbr0_el1 t) (t_el1_stack t) (t_proc t).
Definition set_wake (v : Z) (t : task_t) : task_t :=
  mk_task (t_id t) (t_state t) (t_name t) v (t_context t) (t_stack t) (t_ttbr0_el1 t) (t_el1_stack t) (t_proc t).
Definition set_name (v : list Z) (t : task_t) : task_t :=
  mk_task (t_id t) (t_state t) v (t_wake_time t) (t_context t) (t_stack t) (t_ttbr0_el1 t) (t_el1_stack t) (t_proc t).
Definition set_context (v : cpu_context_t) (t : task_t) : task_t :=
  mk_task (t_id t) (t_state t) (t_name t) (t_wake_time t) v (t_stack t) (t_ttbr0_el1 t) (t_el1_stack t) (t_proc t).
Definition set_stack (v : Z) (t : task_t) : task_t :=
  mk_task (t_id t) (t_state t) (t_name t) (t_wake_time t) (t_context t) v (t_ttbr0_el1 t) (t_el1_stack t) (t_proc t).
Definition set_ttbr (v : Z) (t : task_t) : task_t :=
  mk_task (t_id t) (t_state t) (t_name t) (t_wake_time t) (t_context t) (t_stack t) v (t_el1_stack t) (t_proc t).
Definition set_el1_stack (v : Z) (t : task_t) : task_t :=
  mk_task (t_id t) (t_state t) (t_name t) (t_wake_time t) (t_context t) (t_stack t) (t_ttbr0_el1 t) v (t_proc t).
Definition set_proc_ptr (v : Z) (t : task_t) : task_t :=
  mk_task (t_id t) (t_state t) (t_name t) (t_wake_time t) (t_context t) (t_stack t) (t_ttbr0_el1 t) (t_el1_stack t) v.

(** The fields [task_create_named] writes before the name. *)
Definition fresh_slot (id : Z) (t : task_t) : task_t :=
  mk_task id TASK_READY (t_name t) 0 (t_context t) (t_stack t) 0 0 0.

(** A compiled program of tinycc.c: its code and length. *)
Record tcc_slot := mk_slot { prog : Z; prog_size : Z }.
#[global] Instance tcc_slot_eq_dec : EqDecision tcc_slot.
Proof. solve_decision. Defined.

Record sys (H : Type) := mk_sys {
  tasks : list task_t;
  current_task : Z;
  num_tasks : Z;
  regs : cpu_context_t;
  TTBR0_EL1 : Z;
  tinycc_tasks : list tcc_slot;
  vm : vmem H
}.
Arguments mk_sys {H} tasks current_task num_tasks regs TTBR0_EL1 tinycc_tasks vm.
Arguments tasks {H} s.
Arguments current_task {H} s.
Arguments num_tasks {H} s.
Arguments regs {H} s.
Arguments TTBR0_EL1 {H} s.
Arguments tinycc_tasks {H} s.
Arguments vm {H} s.

(** The code addresses the model needs: the instruction after the call of
    [cpu_switch_to] in [schedule], and [task_trampoline]. *)
Class CodeAddrs := { schedule_ret : Z; task_trampoline : Z; addrs_differ : task_trampoline <> schedule_ret }.

Section Tasks.
Context {H : Type} `{Allocator H} `{CodeAddrs}.
Implicit Types (s : sys H) (t : task_t).

Definition set_tasks s (ts : list task_t) : sys H :=
  mk_sys ts (current_task s) (num_tasks s) (regs s) (TTBR0_EL1 s) (tinycc_tasks s) (vm s).
Definition set_current s (i : Z) : sys H :=
  mk_sys (tasks s) i (num_tasks s) (regs s) (TTBR0_EL1 s) (tinycc_tasks s) (vm s).
Definition set_num s (n : Z) : sys H :=
  mk_sys (tasks s) (current_task s) n (regs s) (TTBR0_EL1 s) (tinycc_tasks s) (vm s).
Definition set_regs s (r : cpu_context_t) : sys H :=
  mk_sys (tasks s) (current_task s) (num_tasks s) r (TTBR0_EL1 s) (tinycc_tasks s) (vm s).
Definition set_ttbr0_reg s (v : Z) : sys H :=
  mk_sys (tasks s) (current_task s) (num_tasks s) (regs s) v (tinycc_tasks s) (vm s).
Definition set_slots s (l : list tcc_slot) : sys H :=
  mk_sys (tasks s) (current_task s) (num_tasks s) (regs s) (TTBR0_EL1 s) l (vm s).
Definition set_vm s (m : vmem H) : sys H :=
  mk_sys (tasks s) (current_task s) (num_tasks s) (regs s) (TTBR0_EL1 s) (tinycc_tasks s) m.

(** [tasks[i]] changed in place. *)
Definition upd_task s (i : Z) (f : task_t -> task_t) : outcome (sys H) :=
  t ← aget (tasks s) i;
  ts ← aset (tasks s) i (f t);
  Ret (set_tasks s ts).

Definition sys_kmalloc (size align : Z) s : outcome (Z * sys H) :=
  '(p, m) ← vm_alloc size align (vm s); Ret (p, set_vm s m).
Definition sys_kfree (p : Z) s : outcome (sys H) :=
  m ← vm_free p (vm s); Ret (set_vm s m).

(** *** task.c *)

(** [s] is the zeroed .bss; [boot] are the registers of the boot code. *)
Definition task_init s : outcome (sys H) :=
  let s := set_tasks s (replicate 16 (mk_task 0 0 (replicate 16 0) 0 zero_context 0 0 0 0)) in
  s ← upd_task s 0 (fun t => set_stack 0 (set_state TASK_RUNNING t));
  t ← aget (tasks s) 0;
  name ← copy_name (t_name t) (lit "kernel") TASK_NAME_LEN;
  s ← upd_task s 0 (set_name name);
  Ret (set_num (set_current s 0) 1).

(** The first slot that can be reused. *)
Definition find_slot s : outcome (option Z) :=
  find_range 1 MAX_TASKS (fun i =>
    t ← aget (tasks s) i;
    Ret ((t_state t =? TASK_UNUSED) || (t_state t =? TASK_DEAD))).

(** [task_create_named] up to the stack allocation, [id] being the slot found:
    the stack of a dead slot is freed, the fields are reset, the name is copied.
    [name] is [None] for a null pointer. *)
Definition claim_slot (id : Z) (name : option (list Z)) s : outcome (sys H) :=
  t ← aget (tasks s) id;
  s ← (if (t_state t =? TASK_DEAD) && negb (t_stack t =? 0) then
         s ← sys_kfree (t_stack t) s;
         upd_task s id (set_stack 0)
       else Ret s);
  s ← upd_task s id (fresh_slot id);
  t ← aget (tasks s) id;
  nm ← (match name with
        | Some n => copy_name (t_name t) n TASK_NAME_LEN
        | None => aset (t_name t) 0 0
        end);
  upd_task s id (set_name nm).

Definition task_create_named (entry : Z) (name : option (list Z)) s : outcome (Z * sys H) :=
  slot ← find_slot s;
  match slot with
  | None => Ret (-1, s)
  | Some id =>
    s ← claim_slot id name s;
    '(stack, s) ← sys_kmalloc TASK_STACK_SIZE 16 s;
    s ← upd_task s id (set_stack stack);
    if stack =? 0 then Ret (-1, s)
    else
      let top := Z.land (u64 (stack + TASK_STACK_SIZE)) (Z.lnot 0xF) in
      s ← upd_task s id (set_context (mk_ctx entry 0 0 0 0 0 0 0 0 0 0 task_trampoline top));
      let s := if num_tasks s <=? id then set_num s (id + 1) else s in
      Ret (id, s)
  end.

Definition task_create (entry : Z) s : outcome (Z * sys H) :=
  task_create_named entry (Some (lit "task")) s.

(** tinycc.c: give back the compiled program of a task. *)
Definition tinycc_task_cleanup (task_id : Z) s : outcome (sys H) :=
  if (task_id <? 0) || (MAX_TASKS <=? task_id) then Ret s
  else
    c ← aget (tinycc_tasks s) task_id;
    s ← (if prog c =? 0 then Ret s else sys_kfree (prog c) s);
    slots ← aset (tinycc_tasks s) task_id (mk_slot 0 0);
    Ret (set_slots s slots).

Definition task_cleanup (i : Z) s : outcome (sys H) :=
  s ← upd_task s i (set_state TASK_DEAD);
  t ← aget (tasks s) i;
  s ← tinycc_task_cleanup (t_id t) s;
  s ← (if t_stack t =? 0 then Ret s
       else s ← sys_kfree (t_stack t) s; upd_task s i (set_stack 0));
  s ← (if t_el1_stack t =? 0 then Ret s
       else s ← sys_kfree (t_el1_stack t) s; upd_task s i (set_el1_stack 0));
  s ← (if t_proc t =? 0 then Ret s
       else m ← proc_free (t_proc t) (vm s); upd_task (set_vm s m) i (set_proc_ptr 0));
  upd_task s i (set_ttbr 0).

Definition task_wake_sleepers (now : Z) s : outcome (sys H) :=
  for_range 0 (num_tasks s) (fun i s =>
    t ← aget (tasks s) i;
    if (t_state t =? TASK_SLEEPING) && negb (t_wake_time t =? 0) && (t_wake_time t <=? now)
    then upd_task s i (fun t => set_wake 0 (set_state TASK_READY t))
    else Ret s) s.

(** *** switch.S and sched.c *)

(** The caller's registers go to [prev]'s context, [next]'s come from its own. *)
Definition cpu_switch_to (prev next : Z) s : outcome (sys H) :=
  s ← upd_task s prev (set_context (regs s));
  t ← aget (tasks s) next;
  Ret (set_regs s (t_context t)).

(** A task switched out inside [schedule] comes back here. *)
Definition schedule_resume s : outcome (sys H) :=
  t ← aget (tasks s) (current_task s);
  Ret (if t_ttbr0_el1 t =? 0 then s else set_ttbr0_reg s (t_ttbr0_el1 t)).

Definition runnable (t : task_t) : bool :=
  (t_state t =? TASK_READY) || (t_state t =? TASK_RUNNING).

(** The round-robin search: [n] rounds from [next]. *)
Fixpoint pick_next (n : nat) (ts : list task_t) (num next : Z) : outcome Z :=
  match n with
  | O => Ret next
  | S n =>
    let next := Z.rem (next + 1) num in
    t ← aget ts next;
    if runnable t then Ret next else pick_next n ts num next
  end.

Definition schedule (now : Z) s : outcome (sys H) :=
  s ← task_wake_sleepers now s;
  if num_tasks s <=? 1 then Ret s
  else
    let prev := current_task s in
    next ← pick_next (Z.to_nat (num_tasks s)) (tasks s) (num_tasks s) prev;
    if next =? prev then Ret s
    else
      tp ← aget (tasks s) prev;
      s ← (if t_state tp =? TASK_RUNNING then upd_task s prev (set_state TASK_READY) else Ret s);
      s ← upd_task s next (set_state TASK_RUNNING);
      let s := set_current s next in
      s ← cpu_switch_to prev next (set_regs s (branch_link (regs s) schedule_ret));
      if x30 (regs s) =? schedule_ret then schedule_resume s else Ret s.

Definition yield (now : Z) s : outcome (sys H) := schedule now s.

(** The timer interrupt. *)
Definition sched_tick (now : Z) s : outcome (sys H) := schedule now s.

(** When [schedule] finds nobody else the task idles in the loop after it. *)
Definition task_exit (now : Z) s : outcome (sys H) :=
  s ← task_cleanup (current_task s) s;
  schedule now s.

Definition task_kill (id now : Z) s : outcome (Z * sys H) :=
  if (id <=? 0) || (num_tasks s <=? id) then Ret (-1, s)
  else
    t ← aget (tasks s) id;
    if (t_state t =? TASK_UNUSED) || (t_state t =? TASK_DEAD) then Ret (-1, s)
    else
      s ← task_cleanup id s;
      s ← (if id =? current_task s then schedule now s else Ret s);
      Ret (0, s).

(** timer.c: [timer_ms_to_ticks] for a counter of [hz] ticks a second. *)
Definition timer_ms_to_ticks (hz ms : Z) : Z := u64 (hz * ms) / 1000.

(** [now] is the counter at the call, [later] when [schedule] reads it. *)
Definition task_sleep_ms (hz ms now later : Z) s : outcome (sys H) :=
  s ← upd_task s (current_task s) (set_state TASK_SLEEPING);
  s ← upd_task s (current_task s) (set_wake (u64 (now + timer_ms_to_ticks hz ms)));
  schedule later s.

Definition task_current s : Z := current_task s.
Definition task_count s : Z := num_tasks s.
End Tasks.

(** ** The scheduler's invariant *)

(** [tasks[i]] *)
Definition task_at {H} (s : sys H) (i : Z) : option task_t :=
  if bool_decide (0 <= i) then tasks s !! Z.to_nat i else None.

(** The name is a string in its array of 16. *)
Definition named (t : task_t) : Prop := length (t_name t) = 16%nat /\ terminated (t_name t).

Record sched_inv {H} (s : sys H) : Prop := {
  si_len : length (tasks s) = 16%nat;
  si_num : 1 <= num_tasks s <= 16;
  si_cur : 0 <= current_task s < num_tasks s;
  si_run : forall i t, task_at s i = Some t -> t_state t = TASK_RUNNING -> i = current_task s;
  si_name : Forall named (tasks s)
}.

(** What waking does to one task. *)
Definition wake (now : Z) (t : task_t) : task_t :=
  if (t_state t =? TASK_SLEEPING) && negb (t_wake_time t =? 0) && (t_wake_time t <=? now)
  then set_wake 0 (set_state TASK_READY t) else t.

Section SchedLemmas.
Context {H : Type} `{Allocator H} `{CodeAddrs}.
Implicit Types (s : sys H) (t : task_t).

Lemma task_at_Some s i t : task_at s i = Some t <-> 0 <= i /\ tasks s !! Z.to_nat i = Some t.
Proof. unfold task_at. case_bool_decide; naive_solver. Qed.

Lemma task_at_get s i t : task_at s i = Some t -> aget (tasks s) i = Ret t.
Proof. intros [? ?]%task_at_Some. by apply aget_Ret. Qed.

Lemma task_at_lt s i t : task_at s i = Some t -> 0 <= i < zlen (tasks s).
Proof. intros [? ?%lookup_lt_Some]%task_at_Some. lia. Qed.

Lemma task_at_ok s i : 0 <= i < zlen (tasks s) -> exists t, task_at s i = Some t.
Proof.
  intros Hi. destruct (lookup_lt_is_Some_2 (tasks s) (Z.to_nat i)) as [t Ht]; [lia|].
  exists t. apply task_at_Some. split; [lia|done].
Qed.

Definition put_task s (i : Z) t : sys H := set_tasks s (<[Z.to_nat i := t]> (tasks s)).

Lemma upd_task_ok s i t f : task_at s i = Some t -> upd_task s i f = Ret (put_task s i (f t)).
Proof.
  intros Ht. unfold upd_task. rewrite (task_at_get _ _ _ Ht), bind_Ret.
  by rewrite aset_ok by by eapply task_at_lt.
Qed.

Lemma task_at_put s i j t :
  0 <= i < zlen (tasks s) ->
  task_at (put_task s i t) j = if decide (i = j) then Some t else task_at s j.
Proof.
  intros Hi. unfold task_at, put_task. cbn [tasks set_tasks].
  case_decide as E; [subst j|].
  - rewrite bool_decide_true by lia. apply list_lookup_insert_eq. lia.
  - case_bool_decide; [|done]. rewrite list_lookup_insert_ne; [done|lia].
Qed.

(** The invariant sees only the table and the two counters. *)
Lemma sched_inv_put s i t t' :
  sched_inv s -> task_at s i = Some t -> named t' ->
  (t_state t' = TASK_RUNNING -> i = current_task s) -> sched_inv (put_task s i t').
Proof.
  intros [] Ht Hn Hr. pose proof (task_at_lt _ _ _ Ht). split; simpl; try done.
  - by rewrite length_insert.
  - intros j u. rewrite task_at_put by done. case_decide as E; [|apply si_run0].
    intros [= <-]. subst j. done.
  - apply Forall_insert; [done|done].
Qed.

Lemma sched_inv_name s i t : sched_inv s -> task_at s i = Some t -> named t.
Proof.
  intros Hi [_ Ht]%task_at_Some. exact (Forall_lookup_1 _ _ _ _ (si_name _ Hi) Ht).
Qed.

(** *** Waking *)

Definition woken (now : Z) s : sys H :=
  set_tasks s (map (wake now) (take (Z.to_nat (num_tasks s)) (tasks s)) ++ drop (Z.to_nat (num_tasks s)) (tasks s)).

Lemma wake_sleepers_spec now s :
  sched_inv s -> task_wake_sleepers now s = Ret (woken now s).
Proof.
  intros Hi. pose proof (si_num _ Hi) as Hn. pose proof (si_len _ Hi) as Hl. unfold task_wake_sleepers.
  destruct (for_range_ind (fun k s' => s' = set_tasks s
      (map (wake now) (take (Z.to_nat k) (tasks s)) ++ drop (Z.to_nat k) (tasks s)))
    0 (num_tasks s) (fun i s => t ← aget (tasks s) i;
      if (t_state t =? TASK_SLEEPING) && negb (t_wake_time t =? 0) && (t_wake_time t <=? now)
      then upd_task s i (fun t => set_wake 0 (set_state TASK_READY t)) else Ret s) s) as (s' & E & ->).
  - lia.
  - by destruct s.
  - intros i s' Hir ->.
    destruct (lookup_lt_is_Some_2 (tasks s) (Z.to_nat i)) as [t Ht]; [lia|].
    assert (length (map (wake now) (take (Z.to_nat i) (tasks s))) = Z.to_nat i) as Hml.
    { rewrite length_map, length_take. lia. }
    rewrite (drop_S _ _ _ Ht).
    set (l := map (wake now) (take (Z.to_nat i) (tasks s))) in *.
    set (r := drop (S (Z.to_nat i)) (tasks s)).
    assert (task_at (set_tasks s (l ++ t :: r)) i = Some t) as Hat.
    { apply task_at_Some. split; [lia|]. rewrite <- Hml. by apply list_lookup_middle. }
    rewrite (task_at_get _ _ _ Hat), bind_Ret.
    assert (map (wake now) (take (Z.to_nat (i + 1)) (tasks s)) ++ drop (Z.to_nat (i + 1)) (tasks s)
            = l ++ wake now t :: r) as ->.
    { replace (Z.to_nat (i + 1)) with (S (Z.to_nat i)) by lia.
      rewrite (take_S_r _ _ _ Ht), map_app, <- app_assoc. done. }
    unfold wake. case_match.
    + eexists. split; [by apply upd_task_ok|]. unfold put_task, set_tasks. cbn [tasks].
      rewrite insert_app_r_alt by lia. rewrite Hml, Nat.sub_diag. done.
    + by eexists.
  - exact E.
Qed.

Lemma woken_at now s i :
  task_at (woken now s) i = (if bool_decide (i < num_tasks s) then wake now <$> task_at s i else task_at s i).
Proof.
  unfold task_at. cbn [tasks woken set_tasks]. repeat case_bool_decide; try done.
  - destruct (decide (Z.to_nat i < length (tasks s))%nat).
    + rewrite lookup_app_l by (rewrite length_map, length_take; lia).
      rewrite list_lookup_fmap, lookup_take_lt by lia. done.
    + rewrite (lookup_ge_None_2 (tasks s)) by lia. rewrite lookup_ge_None_2; [done|].
      rewrite length_app, length_map, length_take, length_drop. lia.
  - destruct (decide (Z.to_nat i < length (tasks s))%nat).
    + rewrite lookup_app_r by (rewrite length_map, length_take; lia).
      rewrite length_map, length_take, lookup_drop. f_equal. lia.
    + rewrite (lookup_ge_None_2 (tasks s)) by lia. rewrite lookup_ge_None_2; [done|].
      rewrite length_app, length_map, length_take, length_drop. lia.
Qed.

Lemma wake_state_running now t : t_state (wake now t) = TASK_RUNNING <-> t_state t = TASK_RUNNING.
Proof. unfold wake. case_match eqn:E; [|done]. simpl. destruct (Z.eqb_spec (t_state t) TASK_SLEEPING) as [->|]; [done|done]. Qed.

Lemma woken_inv now s : sched_inv s -> sched_inv (woken now s).
Proof.
  intros Hi. pose proof Hi as []. split; simpl; try done.
  - rewrite length_app, length_map, length_take, length_drop. lia.
  - intros i t. rewrite woken_at. case_bool_decide.
    + destruct (task_at s i) as [u|] eqn:Hu; [|done]. intros [= <-] Hr%wake_state_running.
      by eapply si_run0.
    + apply si_run0.
  - apply Forall_app. split; [|by apply Forall_drop]. apply Forall_map, Forall_take.
    eapply Forall_impl; [done|]. intros t Ht. simpl. unfold wake. by case_match.
Qed.

(** *** The search *)

(** Going round from [cur], every other index comes before [cur] itself. *)
Lemma round_index (num cur i : Z) :
  0 <= cur < num -> 0 <= i < num ->
  exists j, 1 <= j <= num /\ (cur + j) mod num = i /\ (i <> cur -> j < num).
Proof.
  intros Hc Hi. destruct (decide (i <= cur)).
  - exists (i + num - cur). split_and!; [lia|lia| |lia].
    replace (cur + (i + num - cur)) with (i + 1 * num) by lia. by rewrite Z.mod_add, Z.mod_small by lia.
  - exists (i - cur). split_and!; [lia|lia| |lia].
    replace (cur + (i - cur)) with i by lia. by rewrite Z.mod_small by lia.
Qed.

(** [nxt] is the first runnable task after [cur], going round. *)
Definition next_runnable s (cur nxt : Z) : Prop :=
  exists k, 1 <= k <= num_tasks s /\ nxt = (cur + k) mod num_tasks s
    /\ (exists t, task_at s nxt = Some t /\ runnable t = true)
    /\ forall j t, 1 <= j < k -> task_at s ((cur + j) mod num_tasks s) = Some t -> runnable t = false.

Lemma pick_next_spec s n k :
  sched_inv s -> 0 <= k -> k + Z.of_nat n = num_tasks s ->
  (forall j t, 1 <= j <= k -> task_at s ((current_task s + j) mod num_tasks s) = Some t -> runnable t = false) ->
  exists nxt, pick_next n (tasks s) (num_tasks s) ((current_task s + k) mod num_tasks s) = Ret nxt
    /\ (next_runnable s (current_task s) nxt
        \/ nxt = current_task s
           /\ forall i t, 0 <= i < num_tasks s -> task_at s i = Some t -> runnable t = false).
Proof.
  intros Hi. pose proof (si_num _ Hi) as Hn. pose proof (si_cur _ Hi) as Hc. pose proof (si_len _ Hi) as Hl.
  revert k. induction n as [|n IH]; intros k Hk Hkn Hno.
  - exists ((current_task s + k) mod num_tasks s). split; [done|]. right.
    assert (k = num_tasks s) as -> by lia. split.
    + rewrite <- Zplus_mod_idemp_r, Z.mod_same, Z.add_0_r, Z.mod_small by lia. done.
    + intros i t Hir Ht. destruct (round_index (num_tasks s) (current_task s) i) as (j & Hj & Ej & _); [lia|lia|].
      apply (Hno j); [lia|by rewrite Ej].
  - cbn [pick_next].
    assert (0 <= (current_task s + k) mod num_tasks s < num_tasks s) by (apply Z.mod_pos_bound; lia).
    rewrite Z.rem_mod_nonneg by lia.
    rewrite Zplus_mod_idemp_l. replace (current_task s + k + 1) with (current_task s + (k + 1)) by lia.
    set (nx := (current_task s + (k + 1)) mod num_tasks s).
    assert (0 <= nx < num_tasks s) by (apply Z.mod_pos_bound; lia).
    destruct (task_at_ok s nx) as [t Ht]; [lia|].
    rewrite (task_at_get _ _ _ Ht), bind_Ret. destruct (runnable t) eqn:Er.
    + exists nx. split; [done|]. left. exists (k + 1). split_and!; [lia|lia|done|by exists t|].
      intros j u Hj. apply Hno. lia.
    + apply IH; [lia|lia|]. intros j u Hj Hu. destruct (decide (j = k + 1)) as [->|]; [|apply (Hno j); [lia|done]].
      fold nx in Hu. congruence.
Qed.

(** When the first runnable task is [cur] itself nobody else is runnable. *)
Lemma next_self s cur :
  0 <= cur < num_tasks s -> next_runnable s cur cur ->
  forall i t, 0 <= i < num_tasks s -> i <> cur -> task_at s i = Some t -> runnable t = false.
Proof.
  intros Hc (k & Hk & Ek & _ & Hno) i t Hi Hne Ht.
  destruct (round_index (num_tasks s) cur i) as (j & Hj & Ej & Hlt); [done..|].
  apply (Hno j); [|by rewrite Ej]. specialize (Hlt Hne).
  enough (k = num_tasks s) by lia. destruct (decide (k = num_tasks s)) as [|Hkn]; [done|exfalso].
  pose proof (Z.div_mod (cur + k) (num_tasks s) ltac:(lia)) as Hdm. rewrite <- Ek in Hdm.
  assert (0 <= (cur + k) / num_tasks s) by (apply Z.div_pos; lia).
  destruct (decide ((cur + k) / num_tasks s = 0)) as [Hq|Hq]; [rewrite Hq in Hdm; lia|nia].
Qed.

(** *** One call of schedule *)

Definition stopped t : task_t := if t_state t =? TASK_RUNNING then set_state TASK_READY t else t.

(** [s'] is [s] with [prev] switched out for [nxt]. *)
Record switched (now : Z) s (nxt : Z) s' : Prop := {
  sw_cur : current_task s' = nxt;
  sw_num : num_tasks s' = num_tasks s;
  sw_prev : exists t, task_at s (current_task s) = Some t
    /\ task_at s' (current_task s) = Some (set_context (branch_link (regs s) schedule_ret) (stopped (wake now t)));
  sw_next : exists t, task_at s nxt = Some t /\ runnable (wake now t) = true
    /\ task_at s' nxt = Some (set_state TASK_RUNNING (wake now t))
    /\ regs s' = t_context t
    /\ TTBR0_EL1 s' = if (x30 (t_context t) =? schedule_ret) && negb (t_ttbr0_el1 t =? 0)
                      then t_ttbr0_el1 t else TTBR0_EL1 s;
  sw_other : forall i, i <> current_task s -> i <> nxt -> task_at s' i = task_at (woken now s) i;
  sw_res : tinycc_tasks s' = tinycc_tasks s /\ vm s' = vm s
}.

Lemma wake_fields now t :
  t_context (wake now t) = t_context t /\ t_ttbr0_el1 (wake now t) = t_ttbr0_el1 t /\ t_name (wake now t) = t_name t.
Proof. unfold wake. by case_match. Qed.

(** The part of [schedule] after the choice of [nxt]. *)
Definition switch_out (nxt : Z) s : outcome (sys H) :=
  tp ← aget (tasks s) (current_task s);
  s' ← (if t_state tp =? TASK_RUNNING then upd_task s (current_task s) (set_state TASK_READY) else Ret s);
  s' ← upd_task s' nxt (set_state TASK_RUNNING);
  let s' := set_current s' nxt in
  s' ← cpu_switch_to (current_task s) nxt (set_regs s' (branch_link (regs s') schedule_ret));
  if x30 (regs s') =? schedule_ret then schedule_resume s' else Ret s'.

Lemma switch_out_spec now s nxt tn :
  sched_inv s -> nxt <> current_task s -> 0 <= nxt < num_tasks s ->
  task_at (woken now s) nxt = Some tn -> runnable tn = true ->
  exists s', switch_out nxt (woken now s) = Ret s' /\ sched_inv s' /\ switched now s nxt s'.
Proof.
  intros Hi Hne Hnxr Htn Hrn. pose proof (woken_inv now _ Hi) as Hw. unfold switch_out.
  pose proof (si_cur _ Hi) as Hc. pose proof (si_num _ Hi) as Hn.
  change (current_task (woken now s)) with (current_task s).
  pose proof (si_len _ Hw) as Hl.
  destruct (task_at_ok (woken now s) (current_task s)) as [tp Htp]; [lia|].
  rewrite (task_at_get _ _ _ Htp), bind_Ret.
  set (s1 := put_task (woken now s) (current_task s) (stopped tp)).
  assert ((if t_state tp =? TASK_RUNNING then upd_task (woken now s) (current_task s) (set_state TASK_READY)
           else Ret (woken now s)) = Ret s1) as ->.
  { unfold s1, stopped. case_match; [by apply upd_task_ok|]. f_equal. unfold put_task, set_tasks.
    apply task_at_Some in Htp as [_ Htp]. rewrite list_insert_id by done. by destruct s. }
  rewrite bind_Ret.
  assert (task_at s1 nxt = Some tn) as Htn1.
  { unfold s1. rewrite task_at_put by lia. by rewrite decide_False by done. }
  rewrite (upd_task_ok _ _ _ _ Htn1), bind_Ret. cbv zeta.
  set (s2 := put_task s1 nxt (set_state TASK_RUNNING tn)).
  assert (zlen (tasks s1) = 16) as Hl1 by (unfold s1, put_task; cbn [tasks set_tasks]; rewrite length_insert, Hl; done).
  assert (task_at (set_regs (set_current s2 nxt) (branch_link (regs (set_current s2 nxt)) schedule_ret)) (current_task s)
          = Some (stopped tp)) as Htp2.
  { change (task_at s2 (current_task s) = Some (stopped tp)). unfold s2.
    rewrite task_at_put, decide_False by (done || lia). unfold s1.
    by rewrite task_at_put, decide_True by (done || lia). }
  unfold cpu_switch_to. rewrite (upd_task_ok _ _ _ _ Htp2), bind_Ret.
  set (s3 := put_task _ _ _).
  assert (zlen (tasks s2) = 16) as Hl2 by (unfold s2, put_task; cbn [tasks set_tasks]; rewrite length_insert; lia).
  assert (forall j, task_at s3 j =
    if decide (current_task s = j) then Some (set_context (branch_link (regs s) schedule_ret) (stopped tp))
    else if decide (nxt = j) then Some (set_state TASK_RUNNING tn) else task_at (woken now s) j) as Hat3.
  { intros j. unfold s3. rewrite task_at_put by (simpl in *; lia). case_decide; [done|].
    change (task_at s2 j = if decide (nxt = j) then Some (set_state TASK_RUNNING tn) else task_at (woken now s) j).
    unfold s2. rewrite task_at_put by lia. case_decide; [done|].
    unfold s1. rewrite task_at_put by lia. by rewrite decide_False. }
  assert (task_at s3 nxt = Some (set_state TASK_RUNNING tn)) as Htn3.
  { rewrite Hat3. rewrite decide_False, decide_True by done. done. }
  rewrite (task_at_get _ _ _ Htn3), !bind_Ret. cbn [regs set_regs t_context set_state].
  assert (exists v, (if x30 (t_context tn) =? schedule_ret then schedule_resume (set_regs s3 (t_context tn))
                     else Ret (set_regs s3 (t_context tn))) = Ret (set_ttbr0_reg (set_regs s3 (t_context tn)) v)
          /\ v = if (x30 (t_context tn) =? schedule_ret) && negb (t_ttbr0_el1 tn =? 0)
                 then t_ttbr0_el1 tn else TTBR0_EL1 s) as (v & -> & Hv).
  { destruct (x30 (t_context tn) =? schedule_ret) eqn:Ex; simpl.
    - unfold schedule_resume. change (current_task (set_regs s3 _)) with nxt.
      change (tasks (set_regs s3 _)) with (tasks s3). rewrite (task_at_get _ _ _ Htn3), bind_Ret.
      cbn [t_ttbr0_el1 set_state]. destruct (t_ttbr0_el1 tn =? 0); eexists; (split; [|reflexivity]); done.
    - eexists. split; [|reflexivity]. done. }
  eexists. split; [reflexivity|].
  assert (exists t0, task_at s nxt = Some t0 /\ tn = wake now t0) as (tn0 & Htn0 & Etn).
  { rewrite woken_at, bool_decide_true in Htn by lia. destruct (task_at s nxt) as [u|]; [|done].
    exists u. split; [done|]. by injection Htn. }
  assert (exists t0, task_at s (current_task s) = Some t0 /\ tp = wake now t0) as (tp0 & Htp0 & Etp).
  { rewrite woken_at, bool_decide_true in Htp by lia. destruct (task_at s (current_task s)) as [u|]; [|done].
    exists u. split; [done|]. by injection Htp. }
  destruct (wake_fields now tn0) as (Ec & Et & _).
  split.
  - split; simpl.
    + rewrite !length_insert. exact Hl.
    + done.
    + lia.
    + intros i t. change (task_at s3 i = Some t -> t_state t = TASK_RUNNING -> i = nxt).
      rewrite Hat3. repeat case_decide; try done.
      * intros [= <-]. simpl. unfold stopped. destruct (t_state tp =? TASK_RUNNING) eqn:Es; cbn [t_state set_context set_state]; intros Hr; [discriminate Hr|].
        apply Z.eqb_neq in Es. contradiction.
      * intros Ht Hr. pose proof (si_run _ Hw _ _ Ht Hr). simpl in *. congruence.
    + assert (forall i t t', task_at (woken now s) i = Some t -> t_name t' = t_name t -> named t') as Hnm.
      { intros i t t' Ht E. unfold named. rewrite E. by apply (sched_inv_name _ _ _ Hw Ht). }
      repeat apply Forall_insert; try apply (si_name _ Hw).
      * apply (Hnm _ _ _ Htp). unfold stopped. by destruct (t_state tp =? TASK_RUNNING).
      * by apply (Hnm _ _ _ Htn).
      * apply (Hnm _ _ _ Htp). unfold stopped. by destruct (t_state tp =? TASK_RUNNING).
  - split; try done.
    + exists tp0. split; [done|]. rewrite <- Etp. change (task_at s3 (current_task s) = Some (set_context (branch_link (regs s) schedule_ret) (stopped tp))).
      rewrite Hat3, decide_True by done. done.
    + exists tn0. rewrite <- Etn. split_and!; [done|done|exact Htn3|rewrite Etn; exact Ec|].
      rewrite <- Ec, <- Et, <- Etn. exact Hv.
    + intros i Hi1 Hi2. change (task_at s3 i = task_at (woken now s) i).
      rewrite Hat3. by rewrite !decide_False by congruence.
Qed.

Lemma schedule_spec now s :
  sched_inv s ->
  exists s', schedule now s = Ret s' /\ sched_inv s' /\
    ((exists nxt, next_runnable (woken now s) (current_task s) nxt /\ nxt <> current_task s /\ switched now s nxt s')
     \/ s' = woken now s
        /\ forall i t, 0 <= i < num_tasks s -> i <> current_task s -> task_at (woken now s) i = Some t -> runnable t = false).
Proof.
  intros Hi. pose proof (woken_inv now _ Hi) as Hw. unfold schedule.
  rewrite (wake_sleepers_spec _ _ Hi), bind_Ret. cbn [num_tasks woken set_tasks].
  fold (woken now s). pose proof (si_cur _ Hi) as Hc. pose proof (si_num _ Hi) as Hn.
  destruct (Z.leb_spec (num_tasks s) 1) as [Hone|Hmany].
  { exists (woken now s). split_and!; [done..|]. right. split; [done|]. intros i t Hir Hne. lia. }
  destruct (pick_next_spec (woken now s) (Z.to_nat (num_tasks s)) 0 Hw) as (nxt & E & Hnx).
  { done. } { simpl. lia. } { intros j t Hj. lia. }
  cbn [num_tasks woken set_tasks current_task] in E.
  rewrite Z.add_0_r, Z.mod_small in E by lia. change (current_task (woken now s)) with (current_task s) in *.
  rewrite E, bind_Ret. clear E.
  destruct (Z.eqb_spec nxt (current_task s)) as [->|Hne].
  { exists (woken now s). split_and!; [done..|]. right. split; [done|].
    intros i t Hir Hne. destruct Hnx as [Hnx|[_ Hall]]; [by apply (next_self _ _ (si_cur _ Hw) Hnx)|].
    by apply Hall. }
  destruct Hnx as [Hnx|[? _]]; [|done]. pose proof Hnx as (k & Hk & Ek & (tn & Htn & Hrn) & _).
  destruct (switch_out_spec now s nxt tn) as (s' & E & Hi' & Hsw); try done.
  { rewrite Ek. apply Z.mod_pos_bound. simpl. lia. }
  exists s'. split; [exact E|]. split; [done|]. left. by exists nxt.
Qed.
End SchedLemmas.

(** ** What the tasks own *)

(** The blocks of one task: its stacks, and its process with every table. *)
Definition task_ptrs (m : gmap Z proc_t) (t : task_t) : list Z :=
  nonnull [t_stack t] ++ nonnull [t_el1_stack t] ++
  (if t_proc t =? 0 then []
   else match m !! t_proc t with
        | Some P => t_proc t :: nonnull (l1 P :: l2 P ++ take (Z.to_nat (l3_count P)) (l3 P))
        | None => []
        end).

Definition sys_owned {H} (s : sys H) (rest : list Z) : list Z :=
  concat (map (task_ptrs (procs (vm s))) (tasks s)) ++ nonnull (map prog (tinycc_tasks s)) ++ rest.

(** A proc_t the tables of which can be walked. *)
Definition proc_shape (P : proc_t) : Prop := length (l2 P) = 4%nat /\ 0 <= l3_count P <= zlen (l3 P).

Section Resources.
Context {H : Type} `{AllocatorLaws H} `{CodeAddrs}.
Implicit Types (s : sys H) (t : task_t) (rest : list Z).

Record res_inv s rest : Prop := {
  ri_owns : owns (vheap (vm s)) (sys_owned s rest);
  ri_slots : length (tinycc_tasks s) = 16%nat;
  ri_procs : Forall (fun t => t_proc t <> 0 -> exists P, procs (vm s) !! t_proc t = Some P /\ proc_shape P) (tasks s);
  ri_ids : forall i t, task_at s i = Some t -> t_state t <> TASK_UNUSED -> t_id t = i;
  ri_len : length (tasks s) = 16%nat
}.

(** Everything owned but the blocks of task [i]. *)
Definition others s (i : Z) rest : list Z :=
  concat (map (task_ptrs (procs (vm s))) (take (Z.to_nat i) (tasks s)))
  ++ concat (map (task_ptrs (procs (vm s))) (drop (S (Z.to_nat i)) (tasks s)))
  ++ nonnull (map prog (tinycc_tasks s)) ++ rest.

Lemma owned_split s i t rest :
  task_at s i = Some t -> sys_owned s rest ≡ₚ task_ptrs (procs (vm s)) t ++ others s i rest.
Proof.
  intros [_ Ht]%task_at_Some. unfold sys_owned, others.
  rewrite <- (take_drop_middle _ _ _ Ht) at 1. rewrite map_app, concat_app. simpl. solve_Permutation.
Qed.

Lemma owned_put s i t t' rest :
  task_at s i = Some t -> sys_owned (put_task s i t') rest ≡ₚ task_ptrs (procs (vm s)) t' ++ others s i rest.
Proof.
  intros Ht. pose proof (task_at_lt _ _ _ Ht). rewrite (owned_split _ i t').
  2:{ rewrite task_at_put by done. by rewrite decide_True. }
  unfold others, put_task. cbn [tasks set_tasks vm tinycc_tasks].
  by rewrite take_insert_ge, drop_insert_lt by lia.
Qed.

Lemma nonnull_cons p l : p <> 0 -> nonnull (p :: l) = p :: nonnull l.
Proof. intros Hp. unfold nonnull. by rewrite filter_cons_True. Qed.

(** Storing a task that owns the same blocks. *)
Lemma res_inv_put s i t t' h rest :
  res_inv s rest -> task_at s i = Some t -> t_proc t' = t_proc t \/ t_proc t' = 0 ->
  (t_state t' <> TASK_UNUSED -> t_id t' = i) ->
  owns h (task_ptrs (procs (vm s)) t' ++ others s i rest) ->
  res_inv (set_vm (put_task s i t') (set_vheap (vm s) h)) rest.
Proof.
  intros [] Ht Hp Hid Ho. pose proof (task_at_lt _ _ _ Ht). split; try done.
  - eapply owns_perm; [|exact Ho]. symmetry. by apply (owned_put s i t t' rest).
  - cbn [tasks set_vm put_task set_tasks vm procs set_vheap]. apply Forall_insert; [done|].
    intros Hn. destruct Hp as [Hp|Hp]; [|done]. rewrite Hp in *.
    apply task_at_Some in Ht as [_ Ht]. by apply (Forall_lookup_1 _ _ _ _ ri_procs0 Ht).
  - intros j u. change (task_at (put_task s i t') j = Some u -> t_state u <> TASK_UNUSED -> t_id u = j).
    rewrite task_at_put by done. case_decide as E; [|apply ri_ids0]. intros [= <-]. by subst.
  - cbn [tasks set_vm put_task set_tasks]. by rewrite length_insert.
Qed.

Lemma sys_kfree_owned s p l :
  owns (vheap (vm s)) (nonnull [p] ++ l) -> p <> 0 ->
  exists h, sys_kfree p s = Ret (set_vm s (set_vheap (vm s) h)) /\ owns h l.
Proof.
  intros Ho Hp. rewrite nonnull_cons in Ho by done.
  destruct (owns_free _ [] p l Ho) as (h & E & Ho' & _). exists h. split; [|done].
  unfold sys_kfree, vm_free. by rewrite E.
Qed.

(** Normal form of a chain of stores to one task. *)
Lemma put_put s i t t' : put_task (put_task s i t) i t' = put_task s i t'.
Proof. unfold put_task, set_tasks. cbn [tasks]. by rewrite list_insert_insert_eq. Qed.
Lemma put_set_vm s i t m : put_task (set_vm s m) i t = set_vm (put_task s i t) m.
Proof. done. Qed.
Lemma put_set_slots s i t l : put_task (set_slots s l) i t = set_slots (put_task s i t) l.
Proof. done. Qed.
Lemma set_vm_slots s l m : set_vm (set_slots s l) m = set_slots (set_vm s m) l.
Proof. done. Qed.
Lemma set_vm_vm s m m' : set_vm (set_vm s m) m' = set_vm s m'.
Proof. done. Qed.
Hint Rewrite put_put put_set_vm put_set_slots set_vm_slots set_vm_vm : sysput.

Lemma set_vm_same s : set_vm s (set_vheap (vm s) (vheap (vm s))) = s.
Proof. by destruct s as [? ? ? ? ? ? []]. Qed.

(** [if(t->f){ kfree(t->f); t->f = 0; }] for a pointer field of task [i]. *)
Lemma release_field s i t p f rest :
  res_inv s rest -> task_at s i = Some t ->
  task_ptrs (procs (vm s)) t ≡ₚ nonnull [p] ++ task_ptrs (procs (vm s)) (f t) ->
  (p = 0 -> f t = t) -> t_proc (f t) = t_proc t -> t_state (f t) = t_state t -> t_id (f t) = t_id t ->
  t_state t <> TASK_UNUSED ->
  exists h, (if p =? 0 then Ret s else s ← sys_kfree p s; upd_task s i f)
      = Ret (set_vm (put_task s i (f t)) (set_vheap (vm s) h))
    /\ res_inv (set_vm (put_task s i (f t)) (set_vheap (vm s) h)) rest.
Proof.
  intros Hr Ht Hptr Hz Hp Hs Hid Hu.
  pose proof (ri_owns _ _ Hr) as Ho. apply (owns_perm _ _ _ (owned_split s i t rest Ht)) in Ho.
  rewrite Hptr in Ho. rewrite <- app_assoc in Ho.
  assert (forall h, owns h (task_ptrs (procs (vm s)) (f t) ++ others s i rest) ->
    res_inv (set_vm (put_task s i (f t)) (set_vheap (vm s) h)) rest) as Hres.
  { intros h Hh. eapply res_inv_put; try done; [by left|].
    intros _. rewrite Hid. by apply (ri_ids _ _ Hr). }
  destruct (Z.eqb_spec p 0) as [E|Hne].
  - exists (vheap (vm s)). rewrite (Hz E). split.
    + change (put_task s i t) with (set_tasks s (<[Z.to_nat i:=t]> (tasks s))).
      apply task_at_Some in Ht as [_ Ht]. rewrite list_insert_id by done.
      f_equal. by destruct s as [? ? ? ? ? ? []].
    + rewrite <- (Hz E). apply Hres. subst p. done.
  - destruct (sys_kfree_owned _ _ _ Ho Hne) as (h & E & Hh). exists h. split; [|by apply Hres].
    rewrite E, bind_Ret. exact (upd_task_ok (set_vm s (set_vheap (vm s) h)) i t f Ht).
Qed.

(** The tasks other than [i]. *)
Lemma other_tasks s i u :
  u ∈ take (Z.to_nat i) (tasks s) ++ drop (S (Z.to_nat i)) (tasks s) ->
  exists j, task_at s j = Some u /\ j <> i.
Proof.
  intros [(k & Hk)%list_elem_of_lookup|(k & Hk)%list_elem_of_lookup]%elem_of_app.
  - apply lookup_take_Some in Hk as [Hk ?]. exists (Z.of_nat k).
    rewrite task_at_Some, Nat2Z.id. split; [by split; [lia|]|lia].
  - rewrite lookup_drop in Hk. exists (Z.of_nat (S (Z.to_nat i) + k)).
    rewrite task_at_Some, Nat2Z.id. split; [by split; [lia|]|lia].
Qed.

Lemma others_elem s i j u p rest :
  0 <= i -> task_at s j = Some u -> j <> i -> p ∈ task_ptrs (procs (vm s)) u -> p ∈ others s i rest.
Proof.
  intros Hi [Hj0 Hj]%task_at_Some Hji Hp. unfold others. rewrite !elem_of_app.
  assert (forall l, u ∈ l -> p ∈ concat (map (task_ptrs (procs (vm s))) l)) as Hc.
  { intros l Hl. apply list_elem_of_In, in_concat. exists (task_ptrs (procs (vm s)) u).
    split; [|by apply list_elem_of_In]. by apply in_map, list_elem_of_In. }
  destruct (decide (j < i)) as [Hlt|Hge]; [left|right; left]; apply Hc, list_elem_of_lookup.
  - exists (Z.to_nat j). by rewrite lookup_take_lt by lia.
  - exists (Z.to_nat j - S (Z.to_nat i))%nat. rewrite lookup_drop. rewrite <- Hj. f_equal. lia.
Qed.

(** A process belongs to one task. *)
Lemma proc_unique s i j t u rest :
  res_inv s rest -> task_at s i = Some t -> task_at s j = Some u -> j <> i ->
  t_proc t <> 0 -> t_proc u <> t_proc t.
Proof.
  intros Hr Ht Hu Hji Hne Heq.
  pose proof (proj2 (proj1 (task_at_Some s i t) Ht)) as Hlk.
  destruct (Forall_lookup_1 _ _ _ _ (ri_procs _ _ Hr) Hlk Hne) as (P & HP & _).
  pose proof (ri_owns _ _ Hr) as Ho. apply (owns_perm _ _ _ (owned_split s i t rest Ht)) in Ho.
  assert (forall v, t_proc v = t_proc t -> t_proc t ∈ task_ptrs (procs (vm s)) v) as Hin.
  { intros v Ev. unfold task_ptrs. rewrite Ev, HP. destruct (Z.eqb_spec (t_proc t) 0); [done|].
    rewrite !elem_of_app, elem_of_cons. auto. }
  destruct Ho as (_ & Hnd & _). apply NoDup_app in Hnd as (_ & Hnd & _).
  apply (Hnd (t_proc t)); [by apply Hin|].
  apply (others_elem _ _ j u); [by apply task_at_Some in Ht as [? _]|done..|by apply Hin].
Qed.

(** [if(t->proc){ proc_free(t->proc); t->proc = 0; }] *)
Lemma release_proc s i t rest :
  res_inv s rest -> task_at s i = Some t -> t_state t <> TASK_UNUSED ->
  exists m, (if t_proc t =? 0 then Ret s
      else m ← proc_free (t_proc t) (vm s); upd_task (set_vm s m) i (set_proc_ptr 0))
      = Ret (set_vm (put_task s i (set_proc_ptr 0 t)) m)
    /\ res_inv (set_vm (put_task s i (set_proc_ptr 0 t)) m) rest
    /\ words m = words (vm s)
    /\ forall j u, task_at s j = Some u -> j <> i -> procs m !! t_proc u = procs (vm s) !! t_proc u.
Proof.
  intros Hr Ht Hu. pose proof (task_at_lt _ _ _ Ht) as Hlt.
  pose proof (proj2 (proj1 (task_at_Some s i t) Ht)) as Hlk.
  destruct (Z.eqb_spec (t_proc t) 0) as [E|Hne].
  { exists (vm s). assert (set_vm (put_task s i (set_proc_ptr 0 t)) (vm s) = s) as ->; [|done].
    assert (set_proc_ptr 0 t = t) as -> by (destruct t; simpl in *; by subst).
    unfold put_task. rewrite list_insert_id by done. by destruct s. }
  destruct (Forall_lookup_1 _ _ _ _ (ri_procs _ _ Hr) Hlk Hne) as (P & HP & Hl2 & Hl3).
  pose proof (ri_owns _ _ Hr) as Ho. apply (owns_perm _ _ _ (owned_split s i t rest Ht)) in Ho.
  set (stacks := nonnull [t_stack t] ++ nonnull [t_el1_stack t]).
  assert (task_ptrs (procs (vm s)) t
    = stacks ++ t_proc t :: nonnull (l1 P :: l2 P ++ take (Z.to_nat (l3_count P)) (l3 P))) as Eptr.
  { unfold task_ptrs, stacks. rewrite HP, <- app_assoc. destruct (Z.eqb_spec (t_proc t) 0); done. }
  rewrite Eptr in Ho.
  destruct (proc_free_spec (vm s) (t_proc t) P (stacks ++ others s i rest) HP Hl2 Hl3) as (m & Em & Hom & Hpm & Hwm).
  { eapply owns_perm; [|exact Ho]. solve_Permutation. }
  rewrite Em, bind_Ret. exists m. split; [exact (upd_task_ok (set_vm s m) i t _ Ht)|].
  assert (forall j u, task_at s j = Some u -> j <> i -> procs m !! t_proc u = procs (vm s) !! t_proc u) as Hkeep.
  { intros j u Hj Hji. rewrite Hpm. apply lookup_delete_ne.
    by eapply not_eq_sym, (proc_unique s i j). }
  split; [|by split]. split.
  - eapply owns_perm; [|exact Hom]. symmetry. rewrite (owned_split _ i (set_proc_ptr 0 t)).
    2:{ change (task_at (put_task s i (set_proc_ptr 0 t)) i = Some (set_proc_ptr 0 t)).
        by rewrite task_at_put, decide_True by done. }
    unfold others. cbn [vm set_vm tasks put_task set_tasks tinycc_tasks].
    rewrite take_insert_ge, drop_insert_lt by lia.
    assert (task_ptrs (procs m) (set_proc_ptr 0 t) = stacks) as ->.
    { unfold task_ptrs, stacks. cbn [t_stack t_el1_stack t_proc set_proc_ptr]. by rewrite app_nil_r. }
    assert (forall u, u ∈ take (Z.to_nat i) (tasks s) ++ drop (S (Z.to_nat i)) (tasks s) ->
      task_ptrs (procs m) u = task_ptrs (procs (vm s)) u) as Hsame.
    { intros u (j & Hj & Hji)%other_tasks. unfold task_ptrs. by rewrite (Hkeep j u). }
    assert (forall l, (forall u, u ∈ l -> u ∈ take (Z.to_nat i) (tasks s) ++ drop (S (Z.to_nat i)) (tasks s)) ->
      map (task_ptrs (procs m)) l = map (task_ptrs (procs (vm s))) l) as Hmap.
    { intros l Hl. apply map_ext_in. intros u Hu'%list_elem_of_In. by apply Hsame, Hl. }
    rewrite (Hmap (take _ _)), (Hmap (drop _ _)) by set_solver. done.
  - apply Hr.
  - cbn [vm set_vm tasks put_task set_tasks]. rewrite Forall_forall.
    intros u (k & Hk)%list_elem_of_lookup Hpu.
    destruct (decide (k = Z.to_nat i)) as [->|Hne'].
    { rewrite list_lookup_insert_eq in Hk by lia. by injection Hk as <-. }
    rewrite list_lookup_insert_ne in Hk by done.
    destruct (Forall_lookup_1 _ _ _ _ (ri_procs _ _ Hr) Hk Hpu) as (Q & HQ & ?).
    exists Q. split; [|done]. rewrite (Hkeep (Z.of_nat k) u); [done| |lia].
    rewrite task_at_Some, Nat2Z.id. split; [lia|done].
  - intros j u. change (task_at (put_task s i (set_proc_ptr 0 t)) j = Some u -> t_state u <> TASK_UNUSED -> t_id u = j).
    rewrite task_at_put by done. case_decide as E; [|apply (ri_ids _ _ Hr)].
    intros [= <-]. subst j. exact (ri_ids _ _ Hr _ _ Ht).
  - cbn [vm set_vm tasks put_task set_tasks]. rewrite length_insert. apply Hr.
Qed.

(** The task after [task_cleanup]. *)
Definition dead t : task_t :=
  mk_task (t_id t) TASK_DEAD (t_name t) (t_wake_time t) (t_context t) 0 0 0 0.

Lemma tinycc_cleanup_spec s i rest :
  res_inv s rest -> 0 <= i < 16 ->
  exists h, tinycc_task_cleanup i s
      = Ret (set_slots (set_vm s (set_vheap (vm s) h)) (<[Z.to_nat i := mk_slot 0 0]> (tinycc_tasks s)))
    /\ res_inv (set_slots (set_vm s (set_vheap (vm s) h)) (<[Z.to_nat i := mk_slot 0 0]> (tinycc_tasks s))) rest.
Proof.
  intros Hr Hi. pose proof (ri_slots _ _ Hr) as Hl. unfold tinycc_task_cleanup, MAX_TASKS.
  destruct (Z.ltb_spec i 0), (Z.leb_spec 16 i); try lia. simpl orb. cbv iota.
  destruct (lookup_lt_is_Some_2 (tinycc_tasks s) (Z.to_nat i)) as [c Hc]; [lia|].
  rewrite (aget_lookup _ _ c), bind_Ret by (done || lia).
  set (slots := <[Z.to_nat i := mk_slot 0 0]> (tinycc_tasks s)).
  assert (nonnull (map prog (tinycc_tasks s)) ≡ₚ nonnull [prog c] ++ nonnull (map prog slots)) as Hp.
  { unfold slots, nonnull. rewrite <- (take_drop_middle _ _ _ Hc) at 1.
    rewrite insert_take_drop by lia. rewrite !map_app. simpl map. rewrite !filter_app.
    rewrite (filter_cons _ 0), decide_False by (intros Hx; by apply Hx).
    change (prog c :: ?l) with ([prog c] ++ l). rewrite filter_app. solve_Permutation. }
  assert (exists h, (if prog c =? 0 then Ret s else sys_kfree (prog c) s) = Ret (set_vm s (set_vheap (vm s) h))
          /\ owns h (sys_owned (set_slots s slots) rest)) as (h & -> & Hh).
  { pose proof (ri_owns _ _ Hr) as Ho.
    assert (owns (vheap (vm s)) (nonnull [prog c] ++ sys_owned (set_slots s slots) rest)) as Ho'.
    { eapply owns_perm; [|exact Ho]. unfold sys_owned. cbn [tinycc_tasks set_slots vm tasks].
      rewrite Hp. solve_Permutation. }
    destruct (Z.eqb_spec (prog c) 0) as [E|Hne].
    - rewrite E in Ho'. exists (vheap (vm s)). rewrite set_vm_same. done.
    - by apply sys_kfree_owned. }
  exists h. rewrite bind_Ret. cbn [tinycc_tasks set_vm]. rewrite aset_ok, bind_Ret by lia.
  split; [done|]. destruct Hr. split; try done.
  unfold slots. cbn [tinycc_tasks set_slots]. by rewrite length_insert.
Qed.

(** [task_cleanup] returns, gives back exactly the blocks of task [i] and its
    program, and leaves the other tasks as they are. *)
Lemma task_cleanup_spec s i t rest :
  res_inv s rest -> task_at s i = Some t -> t_state t <> TASK_UNUSED ->
  exists m, task_cleanup i s
      = Ret (set_slots (set_vm (put_task s i (dead t)) m) (<[Z.to_nat i := mk_slot 0 0]> (tinycc_tasks s)))
    /\ res_inv (set_slots (set_vm (put_task s i (dead t)) m) (<[Z.to_nat i := mk_slot 0 0]> (tinycc_tasks s))) rest
    /\ words m = words (vm s)
    /\ forall j u, task_at s j = Some u -> j <> i -> procs m !! t_proc u = procs (vm s) !! t_proc u.
Proof.
  intros Hr Ht Hu. pose proof (task_at_lt _ _ _ Ht) as Hlt. rewrite (ri_len _ _ Hr) in Hlt.
  pose proof (ri_ids _ _ Hr _ _ Ht Hu) as Hid. unfold task_cleanup.
  rewrite (upd_task_ok _ _ _ _ Ht), bind_Ret.
  set (t1 := set_state TASK_DEAD t). set (s1 := put_task s i t1).
  assert (forall s0 u, length (tasks s0) = 16%nat -> task_at (put_task s0 i u) i = Some u) as Hput.
  { intros s0 u Hl0. rewrite task_at_put by lia. by rewrite decide_True. }
  assert (task_at s1 i = Some t1) as Ht1 by (apply Hput, Hr).
  assert (res_inv s1 rest) as Hr1.
  { pose proof (res_inv_put s i t t1 (vheap (vm s)) rest Hr Ht) as Hx.
    replace (set_vm (put_task s i t1) (set_vheap (vm s) (vheap (vm s)))) with s1 in Hx.
    - apply Hx; [by left|by intros _|]. eapply owns_perm; [|apply Hr]. by rewrite (owned_split s i t rest Ht).
    - unfold s1. by destruct s as [? ? ? ? ? ? []]. }
  rewrite (task_at_get _ _ _ Ht1), bind_Ret. change (t_id t1) with (t_id t). rewrite Hid.
  destruct (tinycc_cleanup_spec s1 i rest Hr1) as (h2 & -> & Hr2); [lia|]. rewrite bind_Ret.
  set (s2 := set_slots _ _) in *.
  assert (task_at s2 i = Some t1) as Ht2 by exact Ht1.
  destruct (release_field s2 i t1 (t_stack t1) (set_stack 0) rest Hr2 Ht2) as (h3 & -> & Hr3); try done.
  { unfold t1. intros E. simpl in E. destruct t; simpl in *; by subst. }
  rewrite bind_Ret. set (t3 := set_stack 0 t1) in *. set (s3 := set_vm (put_task s2 i t3) _) in *.
  assert (task_at s3 i = Some t3) as Ht3 by (apply (Hput s2), Hr2).
  destruct (release_field s3 i t3 (t_el1_stack t3) (set_el1_stack 0) rest Hr3 Ht3) as (h4 & E4 & Hr4); try done.
  { unfold t3, t1. intros E. simpl in E. destruct t; simpl in *; by subst. }
  change (t_el1_stack t3) with (t_el1_stack t1) in E4. rewrite E4, bind_Ret. clear E4.
  set (t4 := set_el1_stack 0 t3) in *. set (s4 := set_vm (put_task s3 i t4) _) in *.
  assert (task_at s4 i = Some t4) as Ht4 by (apply (Hput s3), Hr3).
  destruct (release_proc s4 i t4 rest Hr4 Ht4) as (m5 & E5 & Hr5 & Hw5 & Hp5); try done.
  change (t_proc t4) with (t_proc t1) in E5. rewrite E5. clear E5.
  set (s5 := set_vm (put_task s4 i (set_proc_ptr 0 t4)) m5) in *.
  rewrite bind_Ret.
  assert (task_at s5 i = Some (set_proc_ptr 0 t4)) as Ht5 by (apply (Hput s4), Hr4).
  rewrite (upd_task_ok _ _ _ _ Ht5). exists m5.
  assert (put_task s5 i (set_ttbr 0 (set_proc_ptr 0 t4))
    = set_slots (set_vm (put_task s i (dead t)) m5) (<[Z.to_nat i:=mk_slot 0 0]> (tinycc_tasks s))) as Efin.
  { unfold s5, s4, s3, s2, s1. autorewrite with sysput. done. }
  rewrite Efin. split; [done|]. rewrite <- Efin. split; [|split; [exact Hw5|]].
  2:{ intros j u Hj Hji. apply (Hp5 j); [|done].
      change (task_at (put_task (put_task (put_task s i t1) i t3) i t4) j = Some u).
      rewrite !put_put, task_at_put by (rewrite (ri_len _ _ Hr); lia). by rewrite decide_False by congruence. }
  pose proof (res_inv_put s5 i _ (set_ttbr 0 (set_proc_ptr 0 t4)) (vheap (vm s5)) rest Hr5 Ht5) as Hx.
  rewrite <- (set_vm_same (put_task s5 i (set_ttbr 0 (set_proc_ptr 0 t4)))). apply Hx; [by left|by intros _|].
  eapply owns_perm; [|apply Hr5]. by rewrite (owned_split s5 i _ rest Ht5).
Qed.
End Resources.

(** ** Creating a task *)
Section Create.
Context {H : Type} `{AllocatorLaws H} `{CodeAddrs}.
Implicit Types (s : sys H) (t : task_t) (rest : list Z).

Definition slot_free t : bool := (t_state t =? TASK_UNUSED) || (t_state t =? TASK_DEAD).

(** A name argument: null, or a string with its NUL. *)
Definition name_ok (name : option (list Z)) : Prop :=
  match name with Some n => terminated n | None => True end.

Lemma find_slot_spec s :
  length (tasks s) = 16%nat ->
  (exists i t, find_slot s = Ret (Some i) /\ 1 <= i < 16 /\ task_at s i = Some t /\ slot_free t = true
     /\ forall j u, 1 <= j < i -> task_at s j = Some u -> slot_free u = false)
  \/ (find_slot s = Ret None /\ forall j u, 1 <= j < 16 -> task_at s j = Some u -> slot_free u = false).
Proof.
  intros Hl. unfold find_slot, MAX_TASKS.
  destruct (find_range_Some (fun i => match task_at s i with Some t => slot_free t | None => false end)
    (fun i => t ← aget (tasks s) i; Ret ((t_state t =? TASK_UNUSED) || (t_state t =? TASK_DEAD))) 1 16)
    as [(i & E & Hi & Hf & Hno)|[E Hno]].
  - intros i Hi. destruct (task_at_ok s i) as [t Ht]; [lia|].
    by rewrite (task_at_get _ _ _ Ht), bind_Ret, Ht.
  - left. destruct (task_at_ok s i) as [t Ht]; [lia|]. rewrite Ht in Hf. exists i, t.
    split_and!; [done|lia|lia|done|done|]. intros j u Hj Hu. pose proof (Hno j Hj) as Hx. by rewrite Hu in Hx.
  - right. split; [done|]. intros j u Hj Hu. pose proof (Hno j Hj) as Hx. by rewrite Hu in Hx.
Qed.

Lemma name_store t name :
  length (t_name t) = 16%nat -> name_ok name ->
  exists nm, (match name with
              | Some n => copy_name (t_name t) n TASK_NAME_LEN
              | None => aset (t_name t) 0 0
              end) = Ret nm
    /\ length nm = 16%nat /\ terminated nm
    /\ cstr nm = match name with Some n => take 15 (cstr n) | None => [] end.
Proof.
  intros Hl Hn. destruct name as [n|]; simpl in Hn.
  - destruct (copy_name_spec (t_name t) n TASK_NAME_LEN Hn) as (d & E & Hd & Ht & Hc).
    { rewrite Hl. unfold TASK_NAME_LEN. lia. }
    exists d. split_and!; [done|congruence|done|done].
  - rewrite aset_ok by (rewrite Hl; lia). eexists. split; [reflexivity|].
    destruct (t_name t) as [|c nm]; [done|]. split_and!; [done|by left|done].
Qed.

(** The task after a successful creation. *)
Definition created (id entry stack : Z) (nm : list Z) : task_t :=
  mk_task id TASK_READY nm 0
    (mk_ctx entry 0 0 0 0 0 0 0 0 0 0 task_trampoline (stack + TASK_STACK_SIZE)) stack 0 0 0.

(** The slot with its fields reset and its name set, its stack being [stack]. *)
Definition half_created (id stack : Z) (nm : list Z) t : task_t :=
  mk_task id TASK_READY nm 0 (t_context t) stack 0 0 0.

(** Freeing the stack of a dead slot, resetting it and naming it. *)
Lemma claim_slot_spec s i t name rest :
  res_inv s rest -> task_at s i = Some t -> length (t_name t) = 16%nat -> name_ok name ->
  exists h stk nm, claim_slot i name s
    = Ret (set_vm (put_task s i (half_created i stk nm t)) (set_vheap (vm s) h))
    /\ owns h (others s i rest)
    /\ length nm = 16%nat /\ terminated nm
    /\ cstr nm = match name with Some n => take 15 (cstr n) | None => [] end.
Proof.
  intros Hr Ht Hnm Hok. pose proof (task_at_lt _ _ _ Ht) as Hlt.
  pose proof (ri_owns _ _ Hr) as Ho. rewrite (owned_split s i t rest Ht) in Ho.
  unfold claim_slot. rewrite (task_at_get _ _ _ Ht), bind_Ret.
  assert (exists h stk, (if (t_state t =? TASK_DEAD) && negb (t_stack t =? 0) then
           s ← sys_kfree (t_stack t) s; upd_task s i (set_stack 0) else Ret s)
         = Ret (set_vm (put_task s i (set_stack stk t)) (set_vheap (vm s) h)) /\ owns h (others s i rest))
    as (h & stk & -> & Hh).
  { assert (exists h stk, Ret s = Ret (set_vm (put_task s i (set_stack stk t)) (set_vheap (vm s) h))
        /\ owns h (others s i rest)) as Hsame.
    { exists (vheap (vm s)), (t_stack t). split; [|rewrite Permutation_app_comm in Ho; by eapply owns_app_l].
      rewrite <- (set_vm_same s) at 1. f_equal. unfold put_task.
      assert (set_stack (t_stack t) t = t) as -> by (by destruct t).
      apply task_at_Some in Ht as [_ Ht]. rewrite list_insert_id by done. by destruct s. }
    destruct (Z.eqb_spec (t_state t) TASK_DEAD), (Z.eqb_spec (t_stack t) 0) as [E|Hne]; try exact Hsame.
    assert (owns (vheap (vm s)) (nonnull [t_stack t] ++ others s i rest)) as Ho2.
    { unfold task_ptrs in Ho. eapply (owns_app_l _ _ (nonnull [t_el1_stack t] ++ _)).
      eapply owns_perm; [|exact Ho]. rewrite <- !app_assoc. apply Permutation_app_head.
      rewrite (Permutation_app_comm (others s i rest)), <- app_assoc. done. }
    destruct (sys_kfree_owned _ _ _ Ho2 Hne) as (h & E & Hh). exists h, 0. split; [|done].
    cbn [negb andb]. rewrite E, bind_Ret. exact (upd_task_ok (set_vm s (set_vheap (vm s) h)) i t _ Ht). }
  rewrite bind_Ret. set (s1 := set_vm _ _).
  assert (forall u, task_at (set_vm (put_task s i u) (set_vheap (vm s) h)) i = Some u) as Hput.
  { intros u. change (task_at (put_task s i u) i = Some u). rewrite task_at_put by lia. by rewrite decide_True. }
  rewrite (upd_task_ok s1 i _ (fresh_slot i) (Hput _)), bind_Ret. unfold s1.
  rewrite put_set_vm, put_put. rewrite (task_at_get _ _ _ (Hput _)), bind_Ret.
  destruct (name_store (fresh_slot i (set_stack stk t)) name) as (nm & -> & Hl & Htm & Hc); [done..|].
  rewrite bind_Ret, (upd_task_ok _ i _ (set_name nm) (Hput _)), put_set_vm, put_put.
  exists h, stk, nm. split_and!; done.
Qed.

Lemma task_create_spec entry name s rest :
  sched_inv s -> res_inv s rest -> name_ok name ->
  exists r s', task_create_named entry name s = Ret (r, s') /\ sched_inv s' /\ res_inv s' rest /\
   ((r = -1 /\ s' = s /\ forall j u, 1 <= j < 16 -> task_at s j = Some u -> slot_free u = false)
    \/ exists i t nm stack h, 1 <= i < 16 /\ task_at s i = Some t /\ slot_free t = true
       /\ cstr nm = (match name with Some n => take 15 (cstr n) | None => [] end)
       /\ (r = i /\ stack <> 0 /\ stack mod 16 = 0
           /\ s' = set_num (set_vm (put_task s i (created i entry stack nm)) (set_vheap (vm s) h))
                     (Z.max (num_tasks s) (i + 1))
           \/ r = -1 /\ stack = 0
              /\ s' = set_vm (put_task s i (half_created i 0 nm t)) (set_vheap (vm s) h))).
Proof.
  intros Hi Hr Hok. unfold task_create_named.
  destruct (find_slot_spec s (si_len _ Hi)) as [(i & t & -> & Hir & Ht & Hf & _)|[-> Hno]]; rewrite bind_Ret.
  2:{ exists (-1), s. split_and!; try done. left. split_and!; done. }
  pose proof (sched_inv_name _ _ _ Hi Ht) as [Hnm _]. pose proof (task_at_lt _ _ _ Ht) as Hlt.
  destruct (claim_slot_spec s i t name rest Hr Ht Hnm Hok) as (h & stk & nm & -> & Hh & Hl & Htm & Hc).
  rewrite bind_Ret. unfold sys_kmalloc, vm_alloc. cbn [vm set_vm vheap set_vheap].
  destruct (owns_alloc h _ TASK_STACK_SIZE 16 Hh) as (stack & h2 & -> & Hal & _); [by apply request_ok_small|].
  rewrite !bind_Ret. cbv iota beta zeta.
  assert (forall m u, task_at (set_vm (put_task s i u) m) i = Some u) as Hput.
  { intros m u. change (task_at (put_task s i u) i = Some u). rewrite task_at_put by lia. by rewrite decide_True. }
  rewrite !set_vm_vm. rewrite (upd_task_ok _ i _ _ (Hput _ _)), bind_Ret, put_set_vm, put_put.
  change (set_vheap (set_vheap (vm s) h) h2) with (set_vheap (vm s) h2).
  assert (forall m u, named u -> t_state u <> TASK_RUNNING -> sched_inv (set_vm (put_task s i u) m)) as Hsi.
  { intros m u Hu Hst. destruct (sched_inv_put s i t u Hi Ht Hu) as []; [done|by split]. }
  destruct Hal as [[-> Ho2]|(Hne & _ & Hmod & Ho2 & cap & Hcap & Hlive)].
  - eexists (-1), _. split; [reflexivity|]. split_and!; [by apply Hsi| |].
    + apply (res_inv_put s i t); [done|done|by right|done|]. eapply owns_perm; [|exact Ho2].
      unfold task_ptrs. done.
    + right. exists i, t, nm, 0, h2. split_and!; try done; [lia|lia|]. by right.
  - destruct (Z.eqb_spec stack 0); [done|].
    destruct (al_live_bound _ _ _ (owns_wf _ _ Ho2) Hlive) as [Hp Hb].
    assert (Z.land (u64 (stack + TASK_STACK_SIZE)) (Z.lnot 15) = stack + TASK_STACK_SIZE) as ->.
    { unfold TASK_STACK_SIZE in *. change (2 ^ 48) with 281474976710656 in *. rewrite u64_small by lia.
      change 15 with (2 ^ 4 - 1). rewrite land_lnot_low by lia. change (2 ^ 4) with 16.
      pose proof (Z.div_mod (stack + 4096) 16 ltac:(lia)) as Hd.
      replace (stack + 4096) with (stack + 256 * 16) in * by lia. rewrite Z.mod_add, Hmod in Hd by lia. lia. }
    rewrite (upd_task_ok _ i _ _ (Hput _ _)), bind_Ret, put_set_vm, put_put.
    set (s3 := set_vm (put_task s i _) _).
    assert (num_tasks s3 = num_tasks s) as Hn3 by done.
    eexists i, (set_num s3 (Z.max (num_tasks s) (i + 1))). split.
    { destruct (Z.leb_spec (num_tasks s3) i); [by rewrite Z.max_r by lia|]. f_equal. f_equal.
      rewrite Z.max_l by lia. by destruct s. }
    split_and!.
    + pose proof (Hsi (set_vheap (vm s) h2) (created i entry stack nm) (conj Hl Htm) ltac:(done)) as [].
      split; try done; simpl in *; lia.
    + assert (res_inv s3 rest) as [].
      { apply (res_inv_put s i t); [done|done|by right|done|].
        eapply owns_perm; [|exact Ho2]. unfold task_ptrs. cbn -[nonnull].
        rewrite (nonnull_cons stack []) by done. done. }
      by split.
    + right. exists i, t, nm, stack, h2. split_and!; try done; [lia|lia|]. left. by split_and!.
Qed.
End Create.

(** ** The system as a state machine *)
Section Reachable.
Context {H : Type} `{AllocatorLaws H} `{CodeAddrs}.
Implicit Types (s : sys H) (t : task_t) (rest : list Z).

(** What [res_inv] sees of a task. *)
Definition same_blocks t t' : Prop :=
  t_stack t' = t_stack t /\ t_el1_stack t' = t_el1_stack t /\ t_proc t' = t_proc t /\ t_id t' = t_id t
  /\ (t_state t' <> TASK_UNUSED -> t_state t <> TASK_UNUSED).

Lemma res_inv_same s s' rest :
  res_inv s rest -> length (tasks s') = 16%nat -> vm s' = vm s -> tinycc_tasks s' = tinycc_tasks s ->
  (forall i t t', task_at s i = Some t -> task_at s' i = Some t' -> same_blocks t t') ->
  res_inv s' rest.
Proof.
  intros [] Hl Hv Ht Hsame.
  assert (Forall2 same_blocks (tasks s) (tasks s')) as Hf.
  { apply Forall2_same_length_lookup_2; [congruence|]. intros k t t' Hk Hk'.
    apply (Hsame (Z.of_nat k)); apply task_at_Some; rewrite Nat2Z.id; split; (lia || done). }
  assert (map (task_ptrs (procs (vm s))) (tasks s') = map (task_ptrs (procs (vm s))) (tasks s)) as Hmap.
  { clear -Hf. induction Hf as [|t t' l l' (E1 & E2 & E3 & _) _ IH]; [done|]. cbn [map].
    rewrite IH. f_equal. unfold task_ptrs. by rewrite E1, E2, E3. }
  split; try done.
  - unfold sys_owned. rewrite Hv, Ht, Hmap. done.
  - by rewrite Ht.
  - rewrite Hv. clear -Hf ri_procs0. induction Hf as [|t t' l l' (_ & _ & E3 & _) _ IH]; [constructor|].
    apply Forall_cons in ri_procs0 as [Hp Hl]. constructor; [rewrite E3; done|auto].
  - intros i t' Hi Hu. destruct (task_at_ok s i) as [t Hti].
    { apply task_at_lt in Hi. lia. }
    destruct (Hsame i t t' Hti Hi) as (_ & _ & _ & E & Hs). rewrite E. apply (ri_ids0 i t Hti). auto.
Qed.

Lemma same_blocks_refl t : same_blocks t t.
Proof. by split_and!. Qed.

Lemma wake_blocks now t : same_blocks t (wake now t).
Proof.
  unfold wake. case_match eqn:E; [|apply same_blocks_refl]. split_and!; try done.
  intros _ Hx. apply andb_true_iff in E as [E _]. apply andb_true_iff in E as [E _].
  rewrite Hx in E. discriminate E.
Qed.

Lemma woken_blocks now s i t t' :
  task_at s i = Some t -> task_at (woken now s) i = Some t' -> same_blocks t t'.
Proof.
  intros Ht. rewrite woken_at, Ht. case_bool_decide; simpl; intros [= <-];
    [apply wake_blocks|apply same_blocks_refl].
Qed.

Lemma runnable_used t : runnable t = true -> t_state t <> TASK_UNUSED.
Proof. unfold runnable. intros Hr Hx. rewrite Hx in Hr. discriminate Hr. Qed.

Lemma switched_blocks now s nxt s' i t t' :
  sched_inv s -> switched now s nxt s' -> task_at s i = Some t -> task_at s' i = Some t' -> same_blocks t t'.
Proof.
  intros Hi [] Ht Ht'. destruct (decide (i = current_task s)) as [->|].
  - destruct sw_prev0 as (u & Hu & Hu'). assert (u = t) as -> by congruence.
    assert (t' = set_context (branch_link (regs s) schedule_ret) (stopped (wake now t))) as -> by congruence.
    destruct (wake_blocks now t) as (? & ? & ? & ? & ?).
    unfold stopped. destruct (Z.eqb_spec (t_state (wake now t)) TASK_RUNNING) as [E|]; split_and!; try done.
    intros _ Hx. apply wake_state_running in E. rewrite Hx in E. discriminate E.
  - destruct (decide (i = nxt)) as [->|].
    + destruct sw_next0 as (u & Hu & Hr & Hu' & _). assert (u = t) as -> by congruence.
      assert (t' = set_state TASK_RUNNING (wake now t)) as -> by congruence.
      destruct (wake_blocks now t) as (? & ? & ? & ? & Hx). split_and!; try done.
      intros _. by apply Hx, runnable_used.
    + rewrite sw_other0 in Ht' by done. by eapply woken_blocks.
Qed.

(** A task is current only once it has been used. *)
Definition cur_used s : Prop := exists t, task_at s (current_task s) = Some t /\ t_state t <> TASK_UNUSED.

Lemma wake_used now t : t_state t <> TASK_UNUSED -> t_state (wake now t) <> TASK_UNUSED.
Proof. unfold wake. by case_match. Qed.

(** [s] is well formed: the scheduler's and the resources' invariants. *)
Definition sys_ok s rest : Prop := sched_inv s /\ res_inv s rest /\ cur_used s.

Lemma schedule_ok now s rest :
  sys_ok s rest -> exists s', schedule now s = Ret s' /\ sys_ok s' rest.
Proof.
  intros (Hi & Hr & tc & Htc & Hcu). destruct (schedule_spec now s Hi) as (s' & E & Hi' & Hs).
  exists s'. split; [done|]. split; [done|]. destruct Hs as [(nxt & _ & _ & Hsw)|[-> _]].
  - pose proof Hsw as []. destruct sw_res0. split.
    + apply (res_inv_same s); try done; [apply Hi'|]. intros i t t'. by eapply switched_blocks.
    + destruct sw_next0 as (t & _ & _ & Ht' & _). exists (set_state TASK_RUNNING (wake now t)).
      rewrite sw_cur0. by split.
  - split; [apply (res_inv_same s); try done; [apply Hi'|]; intros i t t'; apply woken_blocks|].
    exists (wake now tc). split; [|by apply wake_used].
    change (current_task (woken now s)) with (current_task s).
    rewrite woken_at, Htc, bool_decide_true by apply (si_cur _ Hi). done.
Qed.

Lemma cleanup_ok i t s rest :
  sys_ok s rest -> task_at s i = Some t -> t_state t <> TASK_UNUSED ->
  exists s', task_cleanup i s = Ret s' /\ sys_ok s' rest /\ tasks s' = <[Z.to_nat i := dead t]> (tasks s)
    /\ current_task s' = current_task s /\ num_tasks s' = num_tasks s /\ regs s' = regs s.
Proof.
  intros (Hi & Hr & tc & Htc & Hcu) Ht Hu.
  destruct (task_cleanup_spec s i t rest Hr Ht Hu) as (m & E & Hr' & _). eexists. split; [exact E|].
  pose proof (task_at_lt _ _ _ Ht).
  assert (sched_inv (put_task s i (dead t))) as Hi'.
  { apply (sched_inv_put s i t); [done|done| |done]. by apply (sched_inv_name s i t). }
  split_and!; try done. split; [by destruct Hi'|]. split; [exact Hr'|].
  unfold cur_used. change (exists u, task_at (put_task s i (dead t)) (current_task s) = Some u /\ t_state u <> TASK_UNUSED).
  rewrite task_at_put by done. case_decide; [by exists (dead t)|by exists tc].
Qed.

(** Any operation, or the current task running (its registers change). *)
Inductive sys_step s : sys H -> Prop :=
| st_create entry name r s' : name_ok name -> task_create_named entry name s = Ret (r, s') -> sys_step s s'
| st_kill id now r s' : task_kill id now s = Ret (r, s') -> sys_step s s'
| st_exit now s' : task_exit now s = Ret s' -> sys_step s s'
| st_sleep hz ms now later s' : task_sleep_ms hz ms now later s = Ret s' -> sys_step s s'
| st_tick now s' : sched_tick now s = Ret s' -> sys_step s s'
| st_run r : sys_step s (set_regs s r).

Lemma create_ok entry name s rest :
  sys_ok s rest -> name_ok name -> exists r s', task_create_named entry name s = Ret (r, s') /\ sys_ok s' rest.
Proof.
  intros (Hi & Hr & tc & Htc & Hcu) Hn.
  destruct (task_create_spec entry name s rest Hi Hr Hn) as (r & s' & E & Hi' & Hr' & Hc).
  exists r, s'. split; [done|]. split_and!; [done..|].
  destruct Hc as [(_ & -> & _)|(i & t & nm & stack & h & Hir & Ht & _ & _ & Hc)]; [by exists tc|].
  pose proof (task_at_lt _ _ _ Ht).
  assert (forall u, t_state u <> TASK_UNUSED -> cur_used (put_task s i u)) as Hput.
  { intros u Hu. unfold cur_used. change (current_task (put_task s i u)) with (current_task s).
    rewrite task_at_put by done. case_decide; [by exists u|by exists tc]. }
  destruct Hc as [(_ & _ & _ & ->)|(_ & _ & ->)].
  - by apply (Hput (created i entry stack nm)).
  - by apply (Hput (half_created i 0 nm t)).
Qed.

Lemma kill_ok id now s rest :
  sys_ok s rest -> exists r s', task_kill id now s = Ret (r, s') /\ sys_ok s' rest.
Proof.
  intros Hok. pose proof Hok as (Hi & _). unfold task_kill.
  destruct ((id <=? 0) || (num_tasks s <=? id)) eqn:Eb; [by exists (-1), s|].
  apply orb_false_iff in Eb as [E1 E2]. apply Z.leb_gt in E1, E2.
  destruct (task_at_ok s id) as [t Ht]. { rewrite (si_len _ Hi). pose proof (si_num _ Hi). lia. }
  rewrite (task_at_get _ _ _ Ht), bind_Ret.
  destruct ((t_state t =? TASK_UNUSED) || (t_state t =? TASK_DEAD)) eqn:Es; [by exists (-1), s|].
  apply orb_false_iff in Es as [Eu _]. apply Z.eqb_neq in Eu.
  destruct (cleanup_ok id t s rest Hok Ht Eu) as (s1 & -> & Hok1 & _). rewrite bind_Ret.
  destruct (id =? current_task s1); [|by exists 0, s1].
  destruct (schedule_ok now s1 rest Hok1) as (s2 & -> & Hok2). by exists 0, s2.
Qed.

Lemma exit_ok now s rest : sys_ok s rest -> exists s', task_exit now s = Ret s' /\ sys_ok s' rest.
Proof.
  intros Hok. pose proof Hok as (Hi & _ & t & Ht & Hu). unfold task_exit.
  destruct (cleanup_ok _ t s rest Hok Ht Hu) as (s1 & -> & Hok1 & _). rewrite bind_Ret.
  by apply schedule_ok.
Qed.

Lemma sleep_ok hz ms now later s rest :
  sys_ok s rest -> exists s', task_sleep_ms hz ms now later s = Ret s' /\ sys_ok s' rest.
Proof.
  intros (Hi & Hr & t & Ht & Hu). unfold task_sleep_ms.
  rewrite (upd_task_ok _ _ _ _ Ht), bind_Ret. pose proof (task_at_lt _ _ _ Ht).
  change (current_task (put_task s (current_task s) _)) with (current_task s).
  assert (task_at (put_task s (current_task s) (set_state TASK_SLEEPING t)) (current_task s) = Some (set_state TASK_SLEEPING t)) as Ht1.
  { rewrite task_at_put by done. by rewrite decide_True. }
  rewrite (upd_task_ok _ _ _ _ Ht1), bind_Ret, put_put. apply schedule_ok.
  set (w := u64 _). set (t2 := set_wake w _).
  split_and!.
  - apply (sched_inv_put s (current_task s) t); [done|done|exact (sched_inv_name s _ t Hi Ht)|done].
  - apply (res_inv_same s); try done; [cbn [tasks put_task set_tasks]; rewrite length_insert; apply Hi|].
    intros i u u' Hui. rewrite task_at_put by done. case_decide; [|intros Hu'; assert (u = u') as -> by congruence; apply same_blocks_refl].
    subst i. intros [= <-]. assert (u = t) as -> by congruence. by split_and!.
  - exists t2. change (current_task (put_task s (current_task s) t2)) with (current_task s).
    rewrite task_at_put by done. by rewrite decide_True.
Qed.

Lemma sys_step_ok s s' rest : sys_step s s' -> sys_ok s rest -> sys_ok s' rest.
Proof.
  intros Hs Hok. destruct Hs as [entry name r s' Hn E|id now r s' E|now s' E|hz ms now later s' E|now s' E|r].
  - destruct (create_ok entry name s rest Hok Hn) as (? & ? & E' & ?). rewrite E in E'. by simplify_eq.
  - destruct (kill_ok id now s rest Hok) as (? & ? & E' & ?). rewrite E in E'. by simplify_eq.
  - destruct (exit_ok now s rest Hok) as (? & E' & ?). rewrite E in E'. by simplify_eq.
  - destruct (sleep_ok hz ms now later s rest Hok) as (? & E' & ?). rewrite E in E'. by simplify_eq.
  - destruct (schedule_ok now s rest Hok) as (? & E' & ?). unfold sched_tick in E. rewrite E in E'. by simplify_eq.
  - destruct Hok as ([] & [] & Hc). split_and!; [by split|by split|exact Hc].
Qed.

Lemma sys_run_ok s s' rest : rtc sys_step s s' -> sys_ok s rest -> sys_ok s' rest.
Proof. induction 1; eauto using sys_step_ok. Qed.

(** *** The initial state *)

Lemma init_ok s rest :
  owns (vheap (vm s)) rest -> tinycc_tasks s = replicate 16 (mk_slot 0 0) ->
  exists s', task_init s = Ret s' /\ sys_ok s' rest /\ vm s' = vm s.
Proof.
  intros Ho Hs. unfold task_init.
  set (z := mk_task 0 0 (replicate 16 0) 0 zero_context 0 0 0 0).
  set (s0 := set_tasks s (replicate 16 z)).
  assert (task_at s0 0 = Some z) as H0' by done.
  rewrite (upd_task_ok _ _ _ _ H0'), bind_Ret. set (t1 := set_stack 0 _).
  assert (task_at (put_task s0 0 t1) 0 = Some t1) as H1' by done.
  rewrite (task_at_get _ _ _ H1'), bind_Ret.
  destruct (copy_name_spec (t_name t1) (lit "kernel") TASK_NAME_LEN) as (nm & -> & Hl & Htm & _);
    [apply lit_terminated|done|]. rewrite bind_Ret.
  rewrite (upd_task_ok _ _ _ _ H1'), bind_Ret, put_put. set (t2 := set_name nm t1).
  eexists. split; [reflexivity|]. split; [|done].
  assert (forall i t, task_at (put_task s0 0 t2) i = Some t -> t = t2 /\ i = 0 \/ t = z) as Hat.
  { intros i t. rewrite task_at_put by (simpl; lia). case_decide; [intros [= <-]; left; by subst|].
    intros [_ Hz]%task_at_Some. right. change (tasks s0) with (replicate 16 z) in Hz.
    apply lookup_replicate_1 in Hz as [-> _]. done. }
  split_and!.
  - split; simpl; try done; try lia.
    + intros i t Ht Hr. by destruct (Hat i t Ht) as [[_ ->]| ->].
    + constructor; [by split|]. apply (Forall_replicate _ 15). split; [done|by left].
  - split; simpl; try done.
    + change (owns (vheap (vm s)) (concat (map (task_ptrs (procs (vm s))) (t2 :: replicate 15 z))
        ++ nonnull (map prog (tinycc_tasks s)) ++ rest)). rewrite Hs. exact Ho.
    + by rewrite Hs.
    + constructor; [done|]. by apply (Forall_replicate _ 15).
    + intros i t Ht Hu. by destruct (Hat i t Ht) as [[-> ->]| ->].
  - by exists t2.
Qed.
End Reachable.

(** ** Fairness and context preservation *)
Section Fair.
Context {H : Type} `{Allocator H} `{CodeAddrs}.
Implicit Types (s : sys H) (t : task_t).

(** Timer interrupts one after the other, the counter reading given for each. *)
Fixpoint run_ticks (nows : list Z) s : outcome (sys H) :=
  match nows with
  | [] => Ret s
  | now :: nows => s ← sched_tick now s; run_ticks nows s
  end.

(** How many places after the current task [i] comes in the round. *)
Definition distance s (i : Z) : Z := (i - current_task s) mod num_tasks s.

Lemma wake_ready now t : t_state t = TASK_READY -> wake now t = t.
Proof. intros Ht. unfold wake. by rewrite Ht. Qed.

Lemma tick_progress now s i t :
  sched_inv s -> task_at s i = Some t -> t_state t = TASK_READY -> 0 <= i < num_tasks s -> i <> current_task s ->
  exists s', sched_tick now s = Ret s' /\ sched_inv s' /\ num_tasks s' = num_tasks s
    /\ distance s' i < distance s i
    /\ exists t', task_at s' i = Some t' /\
       (if decide (current_task s' = i) then t_state t' = TASK_RUNNING else t_state t' = TASK_READY).
Proof.
  intros Hi Ht Hst Hir Hne. pose proof (si_num _ Hi) as Hn. pose proof (si_cur _ Hi) as Hc.
  assert (task_at (woken now s) i = Some t) as Hw.
  { rewrite woken_at, bool_decide_true, Ht by lia. simpl. by rewrite wake_ready. }
  assert (runnable t = true) as Hrun by (unfold runnable; by rewrite Hst).
  destruct (schedule_spec now s Hi) as (s' & E & Hi' & [(nxt & Hnx & Hnc & Hsw)|[-> Hno]]).
  2:{ rewrite (Hno i t Hir Hne Hw) in Hrun. done. }
  exists s'. split; [done|]. split; [done|]. pose proof Hsw as [].
  split; [done|]. destruct Hnx as (k & Hk & Ek & _ & Hfirst). cbn [num_tasks woken set_tasks] in *.
  assert (distance s i = i - current_task s \/ distance s i = i - current_task s + num_tasks s) as Hd.
  { unfold distance. destruct (decide (0 <= i - current_task s)).
    - left. apply Z.mod_small. lia.
    - right. rewrite <- (Z.mod_small (i - current_task s + num_tasks s) (num_tasks s)) by lia.
      replace (i - current_task s + num_tasks s) with (i - current_task s + 1 * num_tasks s) by lia.
      by rewrite Z.mod_add by lia. }
  assert (0 <= distance s i < num_tasks s) as Hdr by (apply Z.mod_pos_bound; lia).
  assert (k <= distance s i) as Hkd.
  { destruct (decide (k <= distance s i)) as [|Hgt]; [done|exfalso].
    assert (runnable t = false); [|congruence].
    apply (Hfirst (distance s i)); [lia|]. rewrite <- Hw. f_equal.
    destruct Hd as [-> | ->].
    - replace (current_task s + (i - current_task s)) with i by lia. by apply Z.mod_small.
    - replace (current_task s + (i - current_task s + num_tasks s)) with (i + 1 * num_tasks s) by lia.
      rewrite Z.mod_add by lia. by apply Z.mod_small. }
  split.
  - assert (distance s' i = distance s i - k) as ->; [|lia].
    unfold distance at 1. rewrite sw_cur0, sw_num0, Ek, Zminus_mod_idemp_r.
    destruct Hd as [Hd|Hd].
    + replace (i - (current_task s + k)) with (distance s i - k) by lia. apply Z.mod_small. lia.
    + replace (i - (current_task s + k)) with (distance s i - k + (-1) * num_tasks s) by lia.
      rewrite Z.mod_add by lia. apply Z.mod_small. lia.
  - rewrite sw_cur0. case_decide as Eq; [subst i|].
    + destruct sw_next0 as (u & _ & _ & Hu & _). exists (set_state TASK_RUNNING (wake now u)). by split.
    + exists t. split; [|done]. rewrite sw_other0; [done|done|congruence].
Qed.

(** A task that still exists. *)
Definition alive s (i : Z) : Prop := exists t, task_at s i = Some t /\ slot_free t = false.

(** A step of the system while task [i] is not the one running and stays alive. *)
Definition away (i : Z) s s' : Prop := current_task s <> i /\ alive s' i /\ sys_step s s'.

(** [c] is what [i] will resume with: saved while away, loaded once back. *)
Definition keeps (i : Z) (c : cpu_context_t) s : Prop :=
  exists t, task_at s i = Some t /\ t_context t = c /\ (current_task s = i -> regs s = c).

Lemma schedule_keeps now s s' i c :
  sched_inv s -> current_task s <> i -> keeps i c s -> schedule now s = Ret s' -> keeps i c s'.
Proof.
  intros Hi Hne (t & Ht & Hc & _) E.
  destruct (wake_fields now t) as (Ec & _ & _).
  assert (exists t', task_at (woken now s) i = Some t' /\ t_context t' = c) as (tw & Htw & Hcw).
  { rewrite woken_at, Ht. case_bool_decide; [exists (wake now t); by rewrite Ec|by exists t]. }
  destruct (schedule_spec now s Hi) as (s1 & E1 & _ & Hs). assert (s1 = s') as -> by congruence.
  destruct Hs as [(nxt & _ & _ & [])|[-> _]].
  - destruct (decide (i = nxt)) as [->|].
    + destruct sw_next0 as (u & Hu & _ & Hu' & Hregs & _). assert (u = t) as -> by congruence.
      exists (set_state TASK_RUNNING (wake now t)). split_and!; [done|simpl; congruence|congruence].
    + exists tw. split_and!; [by rewrite sw_other0|done|congruence].
  - exists tw. split_and!; [done|done|]. intros Hx. by destruct Hne.
Qed.
End Fair.

Section Preserved.
Context {H : Type} `{AllocatorLaws H} `{CodeAddrs}.
Implicit Types (s : sys H) (t : task_t) (rest : list Z).

Lemma keeps_other s s' i c :
  (forall j, j <> current_task s -> task_at s' j = task_at s j) -> current_task s' = current_task s ->
  current_task s <> i -> keeps i c s -> keeps i c s'.
Proof.
  intros Hat Hcur Hne (t & Ht & Hc & _). exists t. rewrite Hat, Hcur by congruence. split_and!; [done..|]. by intros.
Qed.

Lemma put_other s i j t : task_at s i <> None -> j <> i -> task_at (put_task s i t) j = task_at s j.
Proof.
  intros Hi Hne. destruct (task_at s i) as [u|] eqn:Hu; [|done].
  rewrite task_at_put by by eapply task_at_lt. by rewrite decide_False.
Qed.

Lemma away_keeps i c s s' rest :
  sys_ok s rest -> alive s i -> away i s s' -> keeps i c s -> keeps i c s'.
Proof.
  intros Hok (ti & Hti & Hal) (Hne & Hal' & Hs) Hk. pose proof Hok as (Hi & Hr & tc & Htc & Hcu).
  destruct Hs as [entry name r s' Hn E|id now r s' E|now s' E|hz ms now later s' E|now s' E|r].
  - destruct (task_create_spec entry name s rest Hi Hr Hn) as (r' & s1 & E1 & _ & _ & Hc).
    rewrite E in E1. injection E1 as <- <-.
    destruct Hc as [(_ & -> & _)|(j & t & nm & stack & h & _ & Ht & Hf & _ & Hc)]; [done|].
    assert (j <> i) as Hji by congruence.
    destruct Hk as (u & Hu & Huc & _). exists u.
    assert (forall v, task_at (put_task s j v) i = Some u) as Hput.
    { intros v. rewrite put_other by congruence. done. }
    destruct Hc as [(_ & _ & _ & ->)|(_ & _ & ->)]; (split_and!; [apply Hput|done|intros Hx; by destruct Hne]).
  - unfold task_kill in E. destruct ((id <=? 0) || (num_tasks s <=? id)) eqn:Eb; [by injection E as _ <-|].
    apply bind_Ret_inv in E as (t & Et & E). apply aget_Ret in Et as Ht.
    destruct ((t_state t =? TASK_UNUSED) || (t_state t =? TASK_DEAD)) eqn:Es; [by injection E as _ <-|].
    apply orb_false_iff in Es as [Eu _]. apply Z.eqb_neq in Eu. apply task_at_Some in Ht.
    destruct (cleanup_ok id t s rest Hok Ht Eu) as (s1 & E1 & Hok1 & Htasks & Hcur & Hnum & Hregs).
    rewrite E1, bind_Ret in E.
    destruct (decide (id = i)) as [->|Hid].
    { exfalso. assert (task_at s1 i = Some (dead t)) as Hdead.
      { unfold task_at. rewrite Htasks. apply task_at_Some in Ht as [? Ht]. rewrite bool_decide_true by done.
        apply list_lookup_insert_eq. by apply lookup_lt_Some in Ht. }
      rewrite Hcur, (proj2 (Z.eqb_neq i (current_task s))) in E by congruence.
      injection E as _ <-. destruct Hal' as (u & Hu & Hf). rewrite Hdead in Hu. injection Hu as <-. done. }
    assert (keeps i c s1) as Hk1.
    { destruct Hk as (u & Hu & Huc & _). exists u. split_and!; [|done|intros Hx; congruence].
      unfold task_at. rewrite Htasks. apply task_at_Some in Hu as [? Hu], Ht as [? _].
      rewrite bool_decide_true by done. by rewrite list_lookup_insert_ne by lia. }
    destruct (id =? current_task s1).
    + apply bind_Ret_inv in E as (s2 & E2 & E). injection E as _ <-.
      eapply (schedule_keeps now s1); [apply Hok1|congruence|done|done].
    + by injection E as _ <-.
  - unfold task_exit in E.
    destruct (cleanup_ok _ tc s rest Hok Htc Hcu) as (s1 & E1 & Hok1 & Htasks & Hcur & _).
    rewrite E1, bind_Ret in E. eapply (schedule_keeps now s1); [apply Hok1|congruence| |done].
    apply (keeps_other s); try done. intros j Hj. unfold task_at. rewrite Htasks. case_bool_decide; [|done].
    apply task_at_Some in Htc as [? _]. by rewrite list_lookup_insert_ne by lia.
  - unfold task_sleep_ms in E. rewrite (upd_task_ok _ _ _ _ Htc), bind_Ret in E.
    pose proof (task_at_lt _ _ _ Htc).
    assert (task_at (put_task s (current_task s) (set_state TASK_SLEEPING tc)) (current_task s) = Some (set_state TASK_SLEEPING tc)) as Ht1.
    { rewrite task_at_put by done. by rewrite decide_True. }
    change (current_task (put_task s (current_task s) _)) with (current_task s) in E.
    rewrite (upd_task_ok _ _ _ _ Ht1), bind_Ret, put_put in E.
    match type of E with schedule _ ?s1 = _ => apply (schedule_keeps later s1 s' i c); [|exact Hne| |exact E] end.
    + apply (sched_inv_put s (current_task s) tc); [done|done|exact (sched_inv_name s _ tc Hi Htc)|done].
    + apply (keeps_other s); try done. intros j Hj. apply put_other; congruence.
  - by eapply (schedule_keeps now s).
  - destruct Hk as (t & Ht & Hc & _). exists t. split_and!; [done..|]. intros Hx. by destruct Hne.
Qed.

Lemma away_run i c s s' rest :
  rtc (away i) s s' -> sys_ok s rest -> alive s i -> keeps i c s -> keeps i c s'.
Proof.
  induction 1 as [|s s1 s' Hstep _ IH]; [done|]. intros Hok Hal Hk.
  pose proof Hstep as (_ & Hal1 & Hs). apply IH; [by eapply sys_step_ok|done|by eapply away_keeps].
Qed.
End Preserved.

(** ** Properties *)

(** C1. From boot on, whatever sequence of creations, kills, exits, sleeps, timer
    interrupts and execution runs, every operation returns, at most one task
    is RUNNING and it is the current one, and the stacks, programs and page
    tables the tasks hold are distinct live blocks of the heap. *)
Theorem task_system_safe {H : Type} `{AllocatorLaws H} `{CodeAddrs} (s0 s1 s : sys H) (rest : list Z) :
  owns (vheap (vm s0)) rest -> tinycc_tasks s0 = replicate 16 (mk_slot 0 0) ->
  task_init s0 = Ret s1 -> rtc sys_step s1 s ->
  (forall i t, task_at s i = Some t -> t_state t = TASK_RUNNING -> i = current_task s)
  /\ 0 <= current_task s < num_tasks s /\ num_tasks s <= MAX_TASKS
  /\ owns (vheap (vm s)) (sys_owned s rest)
  /\ (forall now, exists s', schedule now s = Ret s')
  /\ (forall entry name, name_ok name -> exists r s', task_create_named entry name s = Ret (r, s'))
  /\ (forall id now, exists r s', task_kill id now s = Ret (r, s'))
  /\ (forall now, exists s', task_exit now s = Ret s')
  /\ (forall hz ms now later, exists s', task_sleep_ms hz ms now later s = Ret s').
Proof.
  intros Ho Hsl E Hrun. destruct (init_ok s0 rest Ho Hsl) as (s1' & E' & Hok1 & _).
  assert (s1' = s1) as -> by congruence.
  assert (sys_ok s rest) as Hok by (by eapply sys_run_ok).
  pose proof Hok as ([] & [] & _). unfold MAX_TASKS. split_and!; try done; try lia.
  - intros now. destruct (schedule_ok now s rest Hok) as (s' & ? & _). by exists s'.
  - intros entry name Hn. destruct (create_ok entry name s rest Hok Hn) as (r & s' & ? & _). by exists r, s'.
  - intros id now. destruct (kill_ok id now s rest Hok) as (r & s' & ? & _). by exists r, s'.
  - intros now. destruct (exit_ok now s rest Hok) as (s' & ? & _). by exists s'.
  - intros hz ms now later. destruct (sleep_ok hz ms now later s rest Hok) as (s' & ? & _). by exists s'.
Qed.

(** C8. [schedule] is round robin: after waking the sleepers whose time has come
    it switches to the first runnable task after the current one, going round,
    saving the registers of one and loading those of the other, and changes no
    other task; with nobody else runnable it only wakes. *)
Theorem schedule_round_robin {H : Type} `{Allocator H} `{CodeAddrs} (now : Z) (s : sys H) :
  sched_inv s ->
  exists s', schedule now s = Ret s' /\ sched_inv s' /\
    ((exists nxt, next_runnable (woken now s) (current_task s) nxt /\ nxt <> current_task s /\ switched now s nxt s')
     \/ s' = woken now s
        /\ forall i t, 0 <= i < num_tasks s -> i <> current_task s -> task_at (woken now s) i = Some t -> runnable t = false).
Proof. apply schedule_spec. Qed.

(** C9. A READY task is never starved: it is RUNNING after at most as many timer
    interrupts as there are tasks between the current one and it in the round,
    so at most [num_tasks - 1]. *)
Theorem ready_task_runs {H : Type} `{Allocator H} `{CodeAddrs} (s : sys H) (i : Z) (t : task_t) (nows : list Z) :
  sched_inv s -> 0 <= i < num_tasks s -> i <> current_task s ->
  task_at s i = Some t -> t_state t = TASK_READY -> distance s i <= zlen nows ->
  exists k s' t', (k <= length nows)%nat /\ run_ticks (take k nows) s = Ret s'
    /\ current_task s' = i /\ task_at s' i = Some t' /\ t_state t' = TASK_RUNNING.
Proof.
  revert s t. induction nows as [|now nows IH]; intros s t Hi Hir Hne Ht Hst Hd.
  - exfalso. unfold distance in Hd. pose proof (si_num _ Hi). pose proof (si_cur _ Hi).
    pose proof (Z.mod_pos_bound (i - current_task s) (num_tasks s) ltac:(lia)).
    assert ((i - current_task s) mod num_tasks s = 0) as Hz by (simpl in Hd; lia).
    apply Z.mod_divide in Hz as [q Hq]; [|lia]. assert (q = 0) by nia. subst q. lia.
  - destruct (tick_progress now s i t Hi Ht Hst Hir Hne) as (s1 & E & Hi1 & Hn1 & Hd1 & t1 & Ht1 & Hst1).
    case_decide as Ec.
    + exists 1%nat, s1, t1. simpl. rewrite E, bind_Ret. split_and!; try done. lia.
    + destruct (IH s1 t1) as (k & s' & t' & Hk & Er & Hc & Ht' & Hs'); [done|lia|congruence|done|done|cbn [length] in Hd; lia|].
      exists (S k), s', t'. simpl. rewrite E, bind_Ret. split_and!; try done. lia.
Qed.

(** C10. A task that is switched out comes back with the registers it had, in the
    [schedule] call it left: whatever the other tasks do in between, when it is
    current again its callee-saved registers and stack pointer are the saved
    ones. *)
Theorem context_preserved {H : Type} `{AllocatorLaws H} `{CodeAddrs}
  (now : Z) (s s1 s2 : sys H) (rest : list Z) (i : Z) :
  sys_ok s rest -> i = current_task s -> alive s i ->
  schedule now s = Ret s1 -> current_task s1 <> i -> rtc (away i) s1 s2 -> current_task s2 = i ->
  regs s2 = branch_link (regs s) schedule_ret.
Proof.
  intros Hok -> (t & Ht & Hf) E Hne Hrun Hback.
  pose proof Hok as (Hi & _). destruct (schedule_spec now s Hi) as (s1' & E' & _ & Hs).
  assert (s1' = s1) as -> by congruence.
  destruct (schedule_ok now s rest Hok) as (s1' & E2 & Hok1). assert (s1' = s1) as -> by congruence.
  destruct Hs as [(nxt & _ & _ & [])|[-> _]]; [|done].
  destruct sw_prev0 as (u & Hu & Hu'). assert (u = t) as -> by congruence.
  destruct (away_run (current_task s) (branch_link (regs s) schedule_ret) s1 s2 rest) as (t2 & _ & _ & Hr); try done.
  - exists (set_context (branch_link (regs s) schedule_ret) (stopped (wake now t))). split; [done|].
    clear -Hf. unfold slot_free, stopped, wake in *. repeat (case_match; simpl in *; try done).
  - exists (set_context (branch_link (regs s) schedule_ret) (stopped (wake now t))). by split_and!.
  - by apply Hr.
Qed.

(** [task_create_named] returns and uses the first UNUSED or DEAD slot: on
    success the task is READY with a fresh stack, its context set to enter at
    [entry] through the trampoline with a 16-aligned stack pointer at the top of
    that stack, and its name the first 15 characters given; it returns -1
    without a change when all slots are taken.  When only the stack cannot be
    had it returns -1 too, but leaves the slot READY with no stack and the
    context of its previous user. *)
Theorem task_create_correct {H : Type} `{AllocatorLaws H} `{CodeAddrs}
  (entry : Z) (name : option (list Z)) (s : sys H) (rest : list Z) :
  sched_inv s -> res_inv s rest -> name_ok name ->
  exists r s', task_create_named entry name s = Ret (r, s') /\ sched_inv s' /\ res_inv s' rest /\
   ((r = -1 /\ s' = s /\ forall j u, 1 <= j < 16 -> task_at s j = Some u -> slot_free u = false)
    \/ exists i t nm stack h, 1 <= i < 16 /\ task_at s i = Some t /\ slot_free t = true
       /\ cstr nm = (match name with Some n => take 15 (cstr n) | None => [] end)
       /\ (r = i /\ stack <> 0 /\ stack mod 16 = 0
           /\ s' = set_num (set_vm (put_task s i (created i entry stack nm)) (set_vheap (vm s) h))
                     (Z.max (num_tasks s) (i + 1))
           \/ r = -1 /\ stack = 0
              /\ s' = set_vm (put_task s i (half_created i 0 nm t)) (set_vheap (vm s) h))).
Proof. apply task_create_spec. Qed.

(** [task_kill] refuses task 0, an index out of range and a slot that is
    UNUSED or DEAD; otherwise it returns 0 with the task DEAD and its blocks
    given back: what is owned afterwards is what was owned before without the
    task's stacks, page tables and compiled program.  The other tasks keep
    theirs. *)
Theorem task_kill_releases {H : Type} `{AllocatorLaws H} `{CodeAddrs}
  (id now : Z) (s : sys H) (rest : list Z) :
  sys_ok s rest -> id <> current_task s ->
  (exists s', task_kill id now s = Ret (-1, s') /\ s' = s
     /\ (id <= 0 \/ num_tasks s <= id \/ exists t, task_at s id = Some t /\ slot_free t = true))
  \/ exists t s', task_kill id now s = Ret (0, s') /\ sys_ok s' rest
     /\ task_at s id = Some t /\ slot_free t = false
     /\ tasks s' = <[Z.to_nat id := dead t]> (tasks s)
     /\ owns (vheap (vm s')) (sys_owned s' rest) /\ aget (tinycc_tasks s') id = Ret (mk_slot 0 0).
Proof.
  intros Hok Hne. pose proof Hok as (Hi & Hr & _). unfold task_kill.
  destruct (Z.leb_spec id 0); [left; exists s; auto|].
  destruct (Z.leb_spec (num_tasks s) id); [left; exists s; auto|]. simpl orb. cbv iota.
  pose proof (si_num _ Hi).
  destruct (task_at_ok s id) as [t Ht]; [rewrite (si_len _ Hi); lia|].
  rewrite (task_at_get _ _ _ Ht), bind_Ret. fold (slot_free t).
  destruct (slot_free t) eqn:Ef.
  { left. exists s. split_and!; [done..|]. right. right. by exists t. }
  assert (t_state t <> TASK_UNUSED) as Hu.
  { intros Hx. unfold slot_free in Ef. rewrite Hx in Ef. discriminate Ef. }
  right. destruct (cleanup_ok id t s rest Hok Ht Hu) as (s1 & E & Hok1 & Htasks & Hcur & _).
  destruct (task_cleanup_spec s id t rest Hr Ht Hu) as (m & E' & _).
  rewrite E, bind_Ret. rewrite Hcur, (proj2 (Z.eqb_neq _ _)) by done.
  exists t, s1. split_and!; try done; [apply Hok1|].
  rewrite E in E'. injection E' as ->. cbn [tinycc_tasks set_slots].
  apply aget_insert_eq. rewrite (ri_slots _ _ Hr). lia.
Qed.

(** *** Examples *)

#[export] Instance example_addrs : CodeAddrs.
Proof. refine {| schedule_ret := 0x80100; task_trampoline := 0x80200 |}. discriminate. Defined.

Definition boot_example : sys heap :=
  mk_sys [] 0 0 zero_context 0 (replicate 16 (mk_slot 0 0)) vm_example.

Definition run_example (ops : sys heap -> outcome (sys heap)) : sys heap :=
  match task_init boot_example ≫= ops with Ret s => s | _ => boot_example end.

(** The kernel, and a second task at 0x1234 that is READY. *)
Definition two_tasks : sys heap :=
  run_example (fun s => '(_, s) ← task_create 0x1234 s; Ret s).

Lemma two_tasks_ok : sys_ok two_tasks [].
Proof.
  destruct (init_ok boot_example [] vm_example_owns eq_refl) as (s1 & E1 & Hok1 & _).
  destruct (create_ok 0x1234 (Some (lit "task")) s1 [] Hok1) as (r & s2 & E2 & Hok2).
  { unfold name_ok, terminated, lit. set_solver. }
  unfold two_tasks, run_example. rewrite E1, bind_Ret. unfold task_create. rewrite E2, bind_Ret. exact Hok2.
Qed.

Lemma task_system_safe_witness : exists s s', task_init boot_example = Ret s /\ schedule 0 s = Ret s'.
Proof.
  destruct (init_ok boot_example [] vm_example_owns eq_refl) as (s1 & E1 & _).
  destruct (task_system_safe boot_example s1 s1 [] vm_example_owns eq_refl E1 (rtc_refl _ _))
    as (_ & _ & _ & _ & Hs & _).
  destruct (Hs 0) as [s' E]. exists s1, s'. split; assumption.
Defined.

Lemma schedule_round_robin_witness :
  exists s', schedule 0 two_tasks = Ret s' /\ current_task s' = 1.
Proof.
  destruct (schedule_round_robin 0 two_tasks) as (s' & E & _); [apply two_tasks_ok|].
  exists s'. split; [exact E|]. vm_compute in E. injection E as <-. reflexivity.
Defined.

Lemma ready_task_runs_witness :
  exists k s', run_ticks (take k [5; 6]) two_tasks = Ret s' /\ current_task s' = 1.
Proof.
  destruct (task_at two_tasks 1) as [t|] eqn:Ht; [|discriminate Ht].
  destruct (ready_task_runs two_tasks 1 t [5; 6]) as (k & s' & t' & _ & E & Hc & _).
  - apply two_tasks_ok.
  - vm_compute. split; [discriminate|reflexivity].
  - vm_compute. discriminate.
  - exact Ht.
  - vm_compute in Ht. injection Ht as <-. reflexivity.
  - vm_compute. discriminate.
  - exists k, s'. split; assumption.
Defined.

(** The kernel is switched out, the other task runs and is switched out in turn. *)
Lemma context_preserved_witness :
  exists s1 s2, schedule 0 two_tasks = Ret s1 /\ schedule 0 s1 = Ret s2
    /\ regs s2 = branch_link (regs two_tasks) schedule_ret.
Proof.
  destruct (schedule_ok 0 two_tasks [] two_tasks_ok) as (s1 & E1 & Hok1).
  destruct (schedule_ok 0 s1 [] Hok1) as (s2 & E2 & _).
  exists s1, s2. split; [exact E1|]. split; [exact E2|].
  assert (current_task two_tasks = 0 /\ current_task s1 = 1 /\ current_task s2 = 0
          /\ alive two_tasks 0 /\ alive s2 0) as (H0 & H1 & H2 & H3 & H4).
  { vm_compute in E1. injection E1 as <-. vm_compute in E2. injection E2 as <-.
    split_and!; try reflexivity; eexists; (split; [reflexivity|reflexivity]). }
  apply (context_preserved 0 two_tasks s1 s2 [] 0 two_tasks_ok); [congruence|done|done|lia| |done].
  apply rtc_once. split_and!; [lia|done|]. by apply (st_tick s1 0).
Defined.

Lemma task_create_correct_witness :
  exists s', task_create_named 0x1234 None two_tasks = Ret (2, s').
Proof.
  destruct (task_create_correct 0x1234 None two_tasks []) as (r & s' & E & _);
    [apply two_tasks_ok|apply two_tasks_ok|done|].
  exists s'. rewrite E. assert (match task_create_named 0x1234 None two_tasks with Ret (q, _) => q =? 2 | _ => false end = true) as Hq
    by (vm_compute; reflexivity).
  rewrite E in Hq. apply Z.eqb_eq in Hq as ->. reflexivity.
Defined.

Lemma task_kill_releases_witness : exists s', task_kill 1 0 two_tasks = Ret (0, s').
Proof.
  destruct (task_kill_releases 1 0 two_tasks [] two_tasks_ok) as [(s' & E & _)|(t & s' & E & _)].
  - vm_compute. discriminate.
  - exfalso. assert (match task_kill 1 0 two_tasks with Ret (q, _) => q =? 0 | _ => false end = true) as Hq
      by (vm_compute; reflexivity). rewrite E in Hq. discriminate Hq.
  - exists s'. exact E.
Defined.

(** A creation that runs out of memory leaves a READY slot with the context of
    its last user; once a later creation has raised [num_tasks] past it, the
    scheduler enters that context: here a zero stack pointer and return address. *)
Definition small_boot : sys heap :=
  mk_sys [] 0 0 zero_context 0 (replicate 16 (mk_slot 0 0))
    (mk_vm (alloc_init 65536 73728 (mk_cpu 0)) ∅ ∅).

Definition failed_creation : outcome (Z * Z * Z * Z * Z) :=
  s ← task_init small_boot;
  '(p, s) ← sys_kmalloc 4096 16 s;          (* another user of the heap *)
  '(r1, s) ← task_create 0x1234 s;
  s ← sys_kfree p s;
  '(r2, s) ← task_create 0x1234 s;
  s ← schedule 0 s;
  Ret (r1, r2, current_task s, x30 (regs s), sp (regs s)).

Lemma failed_creation_runs : failed_creation = Ret (-1, 2, 1, 0, 0).
Proof. vm_compute. reflexivity. Qed.
