(* ===== verification/Ring.v ===== *)
(** Circular buffers: the list a ring holds.

    The wait queues of semaphore.c and msgqueue.c and the message ring keep
    [buf], the index [tail] of the oldest element and the index where the next
    one goes.  [ring_read cap buf tail n] is the [n] elements from [tail] on. *)
From S2P Require Import Prelude.

Section Ring.
Context {A : Type} (cap : Z).
Implicit Types (buf : list A) (tail : Z).

Fixpoint ring_read buf tail (n : nat) : list A :=
  match n with
  | O => []
  | S n =>
    match buf !! Z.to_nat tail with
    | Some x => x :: ring_read buf ((tail + 1) mod cap) n
    | None => []
    end
  end.

(** [n] elements from [tail] to [head] in a buffer of [cap] cells. *)
Definition ring_ok buf tail head (n : nat) : Prop :=
  0 < cap /\ zlen buf = cap /\ 0 <= tail < cap /\ head = (tail + Z.of_nat n) mod cap
  /\ Z.of_nat n <= cap.

Lemma ring_read_length buf tail n :
  0 < cap -> zlen buf = cap -> 0 <= tail < cap -> length (ring_read buf tail n) = n.
Proof.
  intros Hc Hl. revert tail. induction n as [|n IH]; intros tail Ht; [done|]. cbn [ring_read].
  destruct (lookup_lt_is_Some_2 buf (Z.to_nat tail)) as [x ->]; [lia|]. simpl.
  rewrite IH; [done|]. apply Z.mod_pos_bound. lia.
Qed.

(** A write outside the cells read changes nothing. *)
Lemma ring_read_insert buf tail n i x :
  0 < cap -> 0 <= tail < cap ->
  (forall k, 0 <= k < Z.of_nat n -> i <> (tail + k) mod cap) -> 0 <= i < cap ->
  ring_read (<[Z.to_nat i := x]> buf) tail n = ring_read buf tail n.
Proof.
  intros Hc. revert tail. induction n as [|n IH]; intros tail Ht Hk Hi; [done|]. cbn [ring_read].
  rewrite list_lookup_insert_ne.
  2:{ specialize (Hk 0 ltac:(lia)). rewrite Z.add_0_r, Z.mod_small in Hk by lia. lia. }
  destruct (buf !! Z.to_nat tail); [|done]. f_equal. apply IH; [apply Z.mod_pos_bound; lia| |done].
  intros k Hkn. rewrite Zplus_mod_idemp_l. replace (tail + 1 + k) with (tail + (1 + k)) by lia.
  apply Hk. lia.
Qed.

Lemma ring_read_snoc buf tail n x :
  0 < cap -> zlen buf = cap -> 0 <= tail < cap ->
  buf !! Z.to_nat ((tail + Z.of_nat n) mod cap) = Some x ->
  ring_read buf tail (S n) = ring_read buf tail n ++ [x].
Proof.
  intros Hc Hl. revert tail. induction n as [|n IH]; intros tail Ht Hx.
  - cbn [ring_read app]. rewrite Z.add_0_r, Z.mod_small in Hx by lia. by rewrite Hx.
  - change (ring_read buf tail (S (S n))) with
      (match buf !! Z.to_nat tail with
       | Some y => y :: ring_read buf ((tail + 1) mod cap) (S n) | None => [] end).
    rewrite IH.
    + cbn [ring_read]. destruct (lookup_lt_is_Some_2 buf (Z.to_nat tail)) as [y ->]; [lia|]. done.
    + apply Z.mod_pos_bound. lia.
    + rewrite Zplus_mod_idemp_l. rewrite <- Hx. do 3 f_equal. lia.
Qed.

(** Writing at [head] and advancing it appends. *)
Lemma ring_push buf tail head n x :
  ring_ok buf tail head n -> Z.of_nat n < cap ->
  ring_ok (<[Z.to_nat head := x]> buf) tail ((head + 1) mod cap) (S n)
  /\ ring_read (<[Z.to_nat head := x]> buf) tail (S n) = ring_read buf tail n ++ [x].
Proof.
  intros (Hc & Hl & Ht & -> & Hn) Hlt.
  pose proof (Z.mod_pos_bound (tail + Z.of_nat n) cap ltac:(lia)) as Hh.
  assert (zlen (<[Z.to_nat ((tail + Z.of_nat n) mod cap) := x]> buf) = cap) as Hl'
    by by rewrite length_insert.
  split.
  - split_and!; try done; try lia. rewrite Zplus_mod_idemp_l. f_equal. lia.
  - rewrite (ring_read_snoc _ _ _ x); [|done..|apply list_lookup_insert_eq; lia].
    f_equal. apply ring_read_insert; [done..| |done].
    intros k Hk Heq. assert ((Z.of_nat n - k) mod cap = 0) as Hz.
    { replace (Z.of_nat n - k) with ((tail + Z.of_nat n) - (tail + k)) by lia.
      by rewrite Zminus_mod, Heq, Z.sub_diag, Z.mod_0_l by lia. }
    rewrite Z.mod_small in Hz by lia. lia.
Qed.

(** The element at [tail] is the oldest. *)
Lemma ring_pop buf tail head n :
  ring_ok buf tail head (S n) ->
  exists x, buf !! Z.to_nat tail = Some x
    /\ ring_ok buf ((tail + 1) mod cap) head n
    /\ ring_read buf tail (S n) = x :: ring_read buf ((tail + 1) mod cap) n.
Proof.
  intros (Hc & Hl & Ht & -> & Hn).
  destruct (lookup_lt_is_Some_2 buf (Z.to_nat tail)) as [x Hx]; [lia|].
  exists x. split; [done|]. split; [|cbn [ring_read]; by rewrite Hx].
  pose proof (Z.mod_pos_bound (tail + 1) cap ltac:(lia)).
  split_and!; try done; try lia. rewrite Zplus_mod_idemp_l. f_equal. lia.
Qed.

(** With at most [cap - 1] elements, [head = tail] says the ring is empty. *)
Lemma ring_empty buf tail head n :
  ring_ok buf tail head n -> Z.of_nat n < cap -> head = tail <-> n = 0%nat.
Proof.
  intros (Hc & Hl & Ht & -> & Hn) Hlt. split; [|intros ->; by rewrite Z.add_0_r, Z.mod_small].
  intros Heq. destruct (decide (tail + Z.of_nat n < cap)).
  - rewrite Z.mod_small in Heq by lia. lia.
  - replace (tail + Z.of_nat n) with (tail + Z.of_nat n - cap + 1 * cap) in Heq by lia.
    rewrite Z.mod_add, Z.mod_small in Heq by lia. lia.
Qed.

(** and [head + 1 = tail] that it holds [cap - 1]. *)
Lemma ring_full buf tail head n :
  ring_ok buf tail head n -> Z.of_nat n < cap ->
  (head + 1) mod cap = tail <-> Z.of_nat n = cap - 1.
Proof.
  intros (Hc & Hl & Ht & -> & Hn) Hlt. rewrite Zplus_mod_idemp_l. split.
  - intros Heq. destruct (decide (tail + Z.of_nat n + 1 < cap)).
    + rewrite Z.mod_small in Heq by lia. lia.
    + replace (tail + Z.of_nat n + 1) with (tail + Z.of_nat n + 1 - cap + 1 * cap) in Heq by lia.
      rewrite Z.mod_add, Z.mod_small in Heq by lia. lia.
  - intros ->. replace (tail + (cap - 1) + 1) with (tail + 1 * cap) by lia.
    by rewrite Z.mod_add, Z.mod_small by lia.
Qed.

Lemma ring_init buf : 0 < cap -> zlen buf = cap -> ring_ok buf 0 0 0.
Proof. intros Hc Hl. split_and!; try done; lia. Qed.
End Ring.
