(* ===== verification/Sync.v ===== *)
(** semaphore.c and mutex.h: counting semaphores and mutexes.

    [sem_wait] blocks by leaving its task BLOCKED in the wait queue and calling
    [schedule]; when the task runs again it goes round its loop.  The model of
    the loop is one round, [sem_wait_round], which says whether the permit was
    taken; the caller is in [sem_wait] until a round says so. *)
From S2P Require Import Prelude Spinlock Allocator Heap CString PageTable Task Ring.

Definition SEM_WAITQ_MAX : Z := 16.

Record semaphore_t := mk_sem {
  count : Z;
  s_lock : spinlock_t;
  waitq : list Z;
  wait_head : Z;
  wait_tail : Z
}.

(** [waitq] is whatever the memory held: [sem_init] does not write it. *)
Definition sem_init (s : semaphore_t) (c : Z) : semaphore_t := mk_sem c (spin_init (s_lock s)) (waitq s) 0 0.

(** The queue operations of semaphore.c, also those of msgqueue.c: -1 when full;
    -1 when empty. *)
Definition ring_waitq_push (wq : list Z) (head tail id : Z) : outcome (Z * list Z * Z) :=
  let next := Z.rem (head + 1) 16 in
  if next =? tail then Ret (-1, wq, head)
  else wq ← aset wq head id; Ret (0, wq, next).

Definition ring_waitq_pop (wq : list Z) (head tail : Z) : outcome (Z * Z) :=
  if tail =? head then Ret (-1, tail)
  else id ← aget wq tail; Ret (id, Z.rem (tail + 1) 16).

Definition waitq_push (s : semaphore_t) (id : Z) : outcome (Z * semaphore_t) :=
  '(r, wq, head) ← ring_waitq_push (waitq s) (wait_head s) (wait_tail s) id;
  Ret (r, mk_sem (count s) (s_lock s) wq head (wait_tail s)).

Definition waitq_pop (s : semaphore_t) : outcome (Z * semaphore_t) :=
  '(id, tail) ← ring_waitq_pop (waitq s) (wait_head s) (wait_tail s);
  Ret (id, mk_sem (count s) (s_lock s) (waitq s) (wait_head s) tail).

Definition set_count (s : semaphore_t) (c : Z) : semaphore_t :=
  mk_sem c (s_lock s) (waitq s) (wait_head s) (wait_tail s).
Definition set_slock (s : semaphore_t) (l : spinlock_t) : semaphore_t :=
  mk_sem (count s) l (waitq s) (wait_head s) (wait_tail s).

Section Sem.
Context {H : Type} `{Allocator H} `{CodeAddrs}.
Implicit Types (q : semaphore_t) (c : cpu) (s : sys H).

(** [tasks[me].state = TASK_BLOCKED; tasks[me].wake_time = 0;] *)
Definition block_task (me : Z) s : outcome (sys H) :=
  s ← upd_task s me (set_state TASK_BLOCKED);
  upd_task s me (set_wake 0).

(** One round of the loop of [sem_wait]; [true] is its [return]. *)
Definition sem_wait_round (now : Z) q c s : outcome (bool * semaphore_t * cpu * sys H) :=
  '(flags, l, c) ← spin_lock_irqsave (s_lock q) c;
  let q := set_slock q l in
  if 0 <? count q then
    let q := set_count q (s32 (count q - 1)) in
    let '(l, c) := spin_unlock_irqrestore (s_lock q) flags c in
    Ret (true, set_slock q l, c, s)
  else
    let me := current_task s in
    '(r, q) ← waitq_push q me;
    s ← (if r =? 0 then block_task me s else Ret s);
    let '(l, c) := spin_unlock_irqrestore (s_lock q) flags c in
    s ← schedule now s;
    Ret (false, set_slock q l, c, s).

Definition sem_signal q c s : outcome (semaphore_t * cpu * sys H) :=
  '(flags, l, c) ← spin_lock_irqsave (s_lock q) c;
  let q := set_slock q l in
  '(id, q) ← waitq_pop q;
  '(q, s) ← (if 0 <=? id then
               let q := set_count q (s32 (count q + 1)) in
               s ← upd_task s id (set_state TASK_READY);
               Ret (q, s)
             else Ret (set_count q (s32 (count q + 1)), s));
  let '(l, c) := spin_unlock_irqrestore (s_lock q) flags c in
  Ret (set_slock q l, c, s).

Definition sem_trywait q c : outcome (Z * semaphore_t * cpu) :=
  '(flags, l, c) ← spin_lock_irqsave (s_lock q) c;
  let q := set_slock q l in
  if 0 <? count q then
    let q := set_count q (s32 (count q - 1)) in
    let '(l, c) := spin_unlock_irqrestore (s_lock q) flags c in
    Ret (1, set_slock q l, c)
  else
    let '(l, c) := spin_unlock_irqrestore (s_lock q) flags c in
    Ret (0, set_slock q l, c).

(** mutex.h *)
Definition mutex_init q : semaphore_t := sem_init q 1.
Definition mutex_lock_round := sem_wait_round.
Definition mutex_unlock := sem_signal.
Definition mutex_trylock := sem_trywait.
End Sem.

(** ** The wait queue as a list *)

(** [ws] is the queue from the oldest waiter on. *)
Definition waitq_is (wq : list Z) (head tail : Z) (ws : list Z) : Prop :=
  ring_ok 16 wq tail head (length ws) /\ ring_read 16 wq tail (length ws) = ws /\ (length ws <= 15)%nat.

Lemma waitq_push_list wq head tail ws id :
  waitq_is wq head tail ws ->
  ((length ws < 15)%nat /\ exists wq' head', ring_waitq_push wq head tail id = Ret (0, wq', head')
     /\ waitq_is wq' head' tail (ws ++ [id]))
  \/ (length ws = 15%nat /\ ring_waitq_push wq head tail id = Ret (-1, wq, head)).
Proof.
  intros (Hr & Hread & Hl). pose proof Hr as (_ & Hlen & Ht & Eh & _).
  assert (0 <= head < 16) as Hh by (rewrite Eh; apply Z.mod_pos_bound; lia).
  unfold ring_waitq_push. rewrite Z.rem_mod_nonneg by lia.
  pose proof (ring_full 16 _ _ _ _ Hr ltac:(lia)) as Hf.
  destruct (Z.eqb_spec ((head + 1) mod 16) tail) as [E|E].
  - right. apply Hf in E. split; [lia|done].
  - left. destruct (ring_push 16 _ _ _ _ id Hr ltac:(lia)) as [Hr' Hread'].
    rewrite aset_ok, bind_Ret by lia. split; [|eexists _, _; split; [reflexivity|]].
    + destruct (decide (length ws = 15%nat)); [|lia]. exfalso. apply E, Hf. lia.
    + rewrite Hread in Hread'. split_and!; rewrite ?length_app, ?Nat.add_1_r; try done.
      destruct (decide (length ws = 15%nat)); [|simpl; lia]. exfalso. apply E, Hf. lia.
Qed.

Lemma waitq_pop_list wq head tail ws :
  waitq_is wq head tail ws ->
  match ws with
  | [] => ring_waitq_pop wq head tail = Ret (-1, tail)
  | id :: ws' => exists tail', ring_waitq_pop wq head tail = Ret (id, tail') /\ waitq_is wq head tail' ws'
  end.
Proof.
  intros (Hr & Hread & Hl). pose proof Hr as (_ & Hlen & Ht & _ & _).
  pose proof (ring_empty 16 _ _ _ _ Hr ltac:(lia)) as He. unfold ring_waitq_pop.
  destruct ws as [|id ws].
  - rewrite (proj2 He) by done. by rewrite Z.eqb_refl.
  - destruct (Z.eqb_spec tail head) as [E|_]; [symmetry in E; by apply He in E|].
    cbn [length] in *. destruct (ring_pop 16 _ _ _ _ Hr) as (x & Hx & Hr' & Hread').
    rewrite Hread' in Hread. injection Hread as -> Hread.
    rewrite (aget_lookup _ _ id), bind_Ret by (done || lia).
    rewrite Z.rem_mod_nonneg by lia. eexists. split; [done|]. split_and!; [done|done|lia].
Qed.

(** ** Specification

    The abstract semaphore: the permits free and the tasks queued, oldest first. *)
Record sem_spec := mk_spec { permits : Z; waiters : list Z }.

Definition sem_abs (q : semaphore_t) (a : sem_spec) : Prop :=
  count q = permits a /\ lock (s_lock q) = 0
  /\ waitq_is (waitq q) (wait_head q) (wait_tail q) (waiters a).

Lemma cpu_id c : mk_cpu (daif c) = c.
Proof. by destruct c. Qed.

Lemma set_slock_id q : lock (s_lock q) = 0 -> mk_sem (count q) (mk_spinlock 0) (waitq q) (wait_head q) (wait_tail q) = q.
Proof. destruct q as [? [l] ? ? ?]; simpl. by intros ->. Qed.

Lemma sem_init_abs q c : length (waitq q) = 16%nat -> sem_abs (sem_init q c) (mk_spec c []).
Proof.
  intros Hl. split_and!; try done. split_and!; simpl; try done; [|lia].
  apply ring_init; [lia|by rewrite Hl].
Qed.

Section SemSpec.
Context {H : Type} `{Allocator H} `{CodeAddrs}.
Implicit Types (q : semaphore_t) (c : cpu) (s : sys H) (a : sem_spec).

Lemma sem_trywait_abs q c a :
  sem_abs q a -> 0 <= permits a <= INT_MAX ->
  exists q', sem_trywait q c = Ret (if 0 <? permits a then 1 else 0, q', c)
    /\ sem_abs q' (mk_spec (if 0 <? permits a then permits a - 1 else permits a) (waiters a)).
Proof.
  intros (Hc & Hlk & Hw) Hp. unfold sem_trywait. rewrite (irqsave_free _ _ Hlk), bind_Ret.
  cbv iota beta zeta. cbn [count set_slock]. rewrite Hc.
  destruct (Z.ltb_spec 0 (permits a)); eexists; rewrite irqrestore_daif; (split; [reflexivity|]).
  - split_and!; try done. cbn. apply s32_small. lia.
  - split_and!; done.
Qed.

Lemma sem_signal_abs q c s a :
  sem_abs q a -> 0 <= permits a < INT_MAX ->
  Forall (fun id => 0 <= id < zlen (tasks s)) (waiters a) ->
  exists q' s', sem_signal q c s = Ret (q', c, s')
    /\ sem_abs q' (mk_spec (permits a + 1) (tail (waiters a)))
    /\ match waiters a with
       | [] => s' = s
       | id :: _ => exists t, task_at s id = Some t /\ s' = put_task s id (set_state TASK_READY t)
       end.
Proof.
  intros (Hc & Hlk & Hw) Hp Hids. unfold sem_signal. rewrite (irqsave_free _ _ Hlk), bind_Ret.
  cbv iota beta zeta. unfold waitq_pop. cbn [waitq wait_head wait_tail set_slock s_lock count].
  pose proof (waitq_pop_list _ _ _ _ Hw) as Hpop. destruct (waiters a) as [|id ws].
  - rewrite Hpop, !bind_Ret. cbv iota beta. destruct (Z.leb_spec 0 (-1)); [lia|].
    rewrite bind_Ret. eexists _, _. rewrite irqrestore_daif. split; [reflexivity|].
    split; [|done]. split_and!; try done. cbn. rewrite ?Hc. apply s32_small. lia.
  - destruct Hpop as (tail' & -> & Hw'). rewrite !bind_Ret. cbv iota beta zeta.
    apply Forall_cons in Hids as [Hid _]. destruct (Z.leb_spec 0 id); [|lia].
    destruct (task_at_ok s id Hid) as [t Ht]. rewrite (upd_task_ok _ _ _ _ Ht), !bind_Ret.
    eexists _, _. rewrite irqrestore_daif. split; [reflexivity|]. split; [|by exists t].
    split_and!; try done. cbn. rewrite ?Hc. apply s32_small. lia.
Qed.

(** The task table with [me] blocked. *)
Definition blocked s (me : Z) t : sys H := put_task s me (set_wake 0 (set_state TASK_BLOCKED t)).

Lemma block_task_spec s me t : task_at s me = Some t -> block_task me s = Ret (blocked s me t).
Proof.
  intros Ht. unfold block_task. rewrite (upd_task_ok _ _ _ _ Ht), bind_Ret.
  pose proof (task_at_lt _ _ _ Ht). rewrite (upd_task_ok _ _ (set_state TASK_BLOCKED t)).
  - by rewrite put_put.
  - rewrite task_at_put by done. by rewrite decide_True.
Qed.

Lemma blocked_inv s t :
  sched_inv s -> task_at s (current_task s) = Some t -> sched_inv (blocked s (current_task s) t).
Proof.
  intros Hi Ht. apply (sched_inv_put s (current_task s) t); [done|done|exact (sched_inv_name s _ t Hi Ht)|done].
Qed.

Lemma sem_wait_round_abs now q c s a :
  sem_abs q a -> 0 <= permits a <= INT_MAX -> sched_inv s ->
  (0 < permits a /\ exists q', sem_wait_round now q c s = Ret (true, q', c, s)
     /\ sem_abs q' (mk_spec (permits a - 1) (waiters a)))
  \/ (permits a = 0 /\ exists q' s' t, task_at s (current_task s) = Some t
      /\ sem_wait_round now q c s = Ret (false, q', c, s') /\ sched_inv s'
      /\ (((length (waiters a) < 15)%nat /\ sem_abs q' (mk_spec 0 (waiters a ++ [current_task s]))
            /\ schedule now (blocked s (current_task s) t) = Ret s')
          \/ length (waiters a) = 15%nat /\ sem_abs q' a /\ schedule now s = Ret s')).
Proof.
  intros Habs Hp Hi. pose proof Habs as (Hc & Hlk & Hw). unfold sem_wait_round.
  rewrite (irqsave_free _ _ Hlk), bind_Ret. cbv iota beta zeta. cbn [count set_slock]. rewrite Hc.
  destruct (Z.ltb_spec 0 (permits a)) as [Hpos|Hz].
  - left. split; [done|]. eexists. rewrite irqrestore_daif. split; [reflexivity|].
    split_and!; try done. cbn. apply s32_small. lia.
  - right. split; [lia|]. pose proof (si_cur _ Hi). pose proof (si_num _ Hi).
    destruct (task_at_ok s (current_task s)) as [t Ht]; [rewrite (si_len _ Hi); lia|].
    unfold waitq_push. cbn [waitq wait_head wait_tail set_slock s_lock].
    destruct (waitq_push_list _ _ _ _ (current_task s) Hw) as [(Hl & wq' & hd' & -> & Hw')|[Hl ->]];
      rewrite !bind_Ret; cbv iota beta zeta.
    + change (0 =? 0) with true. cbv iota. rewrite (block_task_spec _ _ _ Ht), bind_Ret.
      rewrite irqrestore_daif. destruct (schedule_spec now _ (blocked_inv _ _ Hi Ht)) as (s' & E & Hi' & _).
      rewrite E, bind_Ret. eexists _, s', t. split_and!; [done|reflexivity|done|]. left.
      split_and!; [done|split_and!; try done; cbn; rewrite ?Hc; lia|done].
    + change (-1 =? 0) with false. cbv iota. rewrite bind_Ret, irqrestore_daif.
      destruct (schedule_spec now s Hi) as (s' & E & Hi' & _).
      rewrite E, bind_Ret. eexists _, s', t. split_and!; [done|reflexivity|done|]. right.
      split_and!; try done.
Qed.
End SemSpec.

(** ** Properties *)

(** C16. The semaphore implements its specification, a permit count with a FIFO
    queue of tasks: [sem_init] starts it, [sem_trywait] takes a permit or says
    no, a [sem_wait] round takes one or, with none free, queues the current
    task behind the others, BLOCKED, and reschedules (past 15 waiters it only
    reschedules), and [sem_signal] adds a permit and makes the oldest waiter
    READY.  The lock is free and DAIF as before at every return. *)
Theorem semaphore_refines_spec {H : Type} `{Allocator H} `{CodeAddrs}
  (q : semaphore_t) (c : cpu) (s : sys H) (a : sem_spec) (n now : Z) :
  length (waitq q) = 16%nat -> sched_inv s -> sem_abs q a -> 0 <= permits a < INT_MAX ->
  Forall (fun id => 0 <= id < zlen (tasks s)) (waiters a) ->
  sem_abs (sem_init q n) (mk_spec n [])
  /\ (exists q', sem_trywait q c = Ret (if 0 <? permits a then 1 else 0, q', c)
        /\ sem_abs q' (mk_spec (if 0 <? permits a then permits a - 1 else permits a) (waiters a)))
  /\ (exists q' s', sem_signal q c s = Ret (q', c, s')
        /\ sem_abs q' (mk_spec (permits a + 1) (tail (waiters a)))
        /\ match waiters a with
           | [] => s' = s
           | id :: _ => exists t, task_at s id = Some t /\ s' = put_task s id (set_state TASK_READY t)
           end)
  /\ ((0 < permits a /\ exists q', sem_wait_round now q c s = Ret (true, q', c, s)
        /\ sem_abs q' (mk_spec (permits a - 1) (waiters a)))
      \/ (permits a = 0 /\ exists q' s' t, task_at s (current_task s) = Some t
        /\ sem_wait_round now q c s = Ret (false, q', c, s') /\ sched_inv s'
        /\ (((length (waiters a) < 15)%nat /\ sem_abs q' (mk_spec 0 (waiters a ++ [current_task s]))
              /\ schedule now (blocked s (current_task s) t) = Ret s')
            \/ length (waiters a) = 15%nat /\ sem_abs q' a /\ schedule now s = Ret s'))).
Proof.
  intros Hl Hi Ha Hp Hids. split_and!.
  - by apply sem_init_abs.
  - apply sem_trywait_abs; [done|lia].
  - by apply sem_signal_abs.
  - apply sem_wait_round_abs; [done|lia|done].
Qed.

(** A mutex with the tasks that hold it. *)
Record mutex_sys (H : Type) := mk_ms { ms_q : semaphore_t; ms_cpu : cpu; ms_sys : sys H; holders : list Z }.
Arguments mk_ms {H} ms_q ms_cpu ms_sys holders.
Arguments ms_q {H} m.
Arguments ms_cpu {H} m.
Arguments ms_sys {H} m.
Arguments holders {H} m.

Section Mutex.
Context {H : Type} `{Allocator H} `{CodeAddrs}.

(** What tasks do with a mutex: rounds of [mutex_lock], [mutex_trylock],
    [mutex_unlock] by a holder; between them the system moves on. *)
Inductive mutex_step (m : mutex_sys H) : mutex_sys H -> Prop :=
| mx_lock now q c s : mutex_lock_round now (ms_q m) (ms_cpu m) (ms_sys m) = Ret (true, q, c, s) ->
    mutex_step m (mk_ms q c s (current_task (ms_sys m) :: holders m))
| mx_wait now q c s : mutex_lock_round now (ms_q m) (ms_cpu m) (ms_sys m) = Ret (false, q, c, s) ->
    mutex_step m (mk_ms q c s (holders m))
| mx_try r q c : mutex_trylock (ms_q m) (ms_cpu m) = Ret (r, q, c) ->
    mutex_step m (mk_ms q c (ms_sys m) (if r =? 1 then current_task (ms_sys m) :: holders m else holders m))
| mx_unlock h1 h h2 q c s : holders m = h1 ++ h :: h2 ->
    mutex_unlock (ms_q m) (ms_cpu m) (ms_sys m) = Ret (q, c, s) ->
    mutex_step m (mk_ms q c s (h1 ++ h2))
| mx_sys s : sched_inv s -> mutex_step m (mk_ms (ms_q m) (ms_cpu m) s (holders m)).

(** The permit is free or somebody holds it. *)
Definition mutex_inv (m : mutex_sys H) : Prop :=
  sched_inv (ms_sys m) /\ exists a, sem_abs (ms_q m) a /\ 0 <= permits a
    /\ permits a + zlen (holders m) = 1 /\ Forall (fun id => 0 <= id < 16) (waiters a).

Lemma mutex_step_inv m m' : mutex_step m m' -> mutex_inv m -> mutex_inv m'.
Proof.
  intros Hs (Hi & a & Ha & Hp & Hsum & Hw). pose proof (si_len _ Hi) as Hl.
  pose proof (si_cur _ Hi). pose proof (si_num _ Hi).
  destruct Hs as [now q c s E|now q c s E|r q c E|h1 h h2 q c s Eh E|s Hs].
  - destruct (sem_wait_round_abs now _ (ms_cpu m) _ a Ha ltac:(lia) Hi)
      as [(Hpos & q' & E' & Ha')|(_ & q' & s' & t & _ & E' & _)];
      unfold mutex_lock_round in E; rewrite E in E'; [|discriminate E'].
    injection E' as -> -> ->. split; [done|]. eexists. split; [exact Ha'|]. cbn. split_and!; [lia|lia|done].
  - destruct (sem_wait_round_abs now _ (ms_cpu m) _ a Ha ltac:(lia) Hi)
      as [(Hpos & q' & E' & Ha')|(Hz & q' & s' & t & _ & E' & Hi' & Hcase)];
      unfold mutex_lock_round in E; rewrite E in E'; [discriminate E'|].
    injection E' as -> -> ->. split; [done|].
    destruct Hcase as [(_ & Ha' & _)|(_ & Ha' & _)]; eexists; (split; [exact Ha'|]); cbn; split_and!; try lia; try done.
    apply Forall_app. split; [done|]. constructor; [lia|done].
  - destruct (sem_trywait_abs _ (ms_cpu m) a Ha ltac:(lia)) as (q' & E' & Ha').
    unfold mutex_trylock in E. rewrite E in E'. injection E' as -> -> ->.
    split; [done|]. eexists. split; [exact Ha'|]. cbn. destruct (Z.ltb_spec 0 (permits a)); simpl; split_and!; (lia || done).
  - destruct (sem_signal_abs (ms_q m) (ms_cpu m) (ms_sys m) a Ha ltac:(rewrite Eh, length_app in Hsum; simpl in Hsum; lia)) as (q' & s' & E' & Ha' & Hs').
    { eapply Forall_impl; [exact Hw|]. simpl. intros id. lia. }
    unfold mutex_unlock in E. rewrite E in E'. injection E' as -> -> ->. split.
    + cbn. destruct (waiters a); [by subst|]. destruct Hs' as (t & Ht & ->).
      apply (sched_inv_put _ _ t); [done|done|exact (sched_inv_name _ _ _ Hi Ht)|done].
    + eexists. split; [exact Ha'|]. cbn. rewrite Eh, !length_app in *. simpl in Hsum.
      split_and!; [lia|lia|]. destruct (waiters a); [done|]. by apply Forall_cons in Hw as [_ ?].
  - split; [exact Hs|]. by exists a.
Qed.
End Mutex.

(** C17. A mutex is held by at most one task: from [mutex_init] on, whatever
    lock, trylock and unlock calls the tasks make (unlocking only what they
    hold) and however the scheduler interleaves them. *)
Theorem mutex_mutual_exclusion {H : Type} `{Allocator H} `{CodeAddrs}
  (q : semaphore_t) (c : cpu) (s : sys H) (m : mutex_sys H) :
  length (waitq q) = 16%nat -> sched_inv s ->
  rtc mutex_step (mk_ms (mutex_init q) c s []) m -> (length (holders m) <= 1)%nat.
Proof.
  intros Hl Hi Hrun.
  assert (mutex_inv m) as (_ & a & _ & Hp & Hsum & _); [|lia].
  assert (mutex_inv (mk_ms (mutex_init q) c s [])) as H0'.
  { split; [done|]. exists (mk_spec 1 []). split; [by apply sem_init_abs|]. by split_and!. }
  revert H0'. induction Hrun; [done|]. intros ?. eauto using mutex_step_inv.
Qed.

(** *** Examples *)

Definition sem_example : semaphore_t := mk_sem 0 SPINLOCK_INIT (replicate 16 0) 0 0.

Lemma semaphore_refines_spec_witness :
  exists q', sem_trywait sem_example (mk_cpu 0) = Ret (0, q', mk_cpu 0).
Proof.
  destruct (semaphore_refines_spec sem_example (mk_cpu 0) two_tasks (mk_spec 0 []) 0 0)
    as (_ & (q' & E & _) & _).
  - reflexivity.
  - apply two_tasks_ok.
  - apply (sem_init_abs sem_example 0). reflexivity.
  - simpl. lia.
  - constructor.
  - exists q'. exact E.
Defined.

Lemma mutex_mutual_exclusion_witness :
  exists m, rtc mutex_step (mk_ms (mutex_init sem_example) (mk_cpu 0) two_tasks []) m
    /\ holders m = [0] /\ (length (holders m) <= 1)%nat.
Proof.
  eexists. split; [|split].
  - apply rtc_once. apply (mx_try _ 1). vm_compute. reflexivity.
  - vm_compute. reflexivity.
  - apply (mutex_mutual_exclusion sem_example (mk_cpu 0) two_tasks); [reflexivity|apply two_tasks_ok|].
    apply rtc_once. apply (mx_try _ 1). vm_compute. reflexivity.
Defined.

(** A task killed while it waits stays in the queue: the next [sem_signal] makes
    the dead slot READY again, with no stack.  The state, stack and program
    address of task 1 at the end. *)
Definition dead_waiter : outcome (Z * Z) :=
  s ← schedule 0 two_tasks;                                   (* task 1 runs *)
  '(_, q, c, s) ← sem_wait_round 0 sem_example (mk_cpu 0) s;   (* and waits: the kernel runs *)
  '(_, s) ← task_kill 1 0 s;
  '(q, c, s) ← sem_signal q c s;
  t ← aget (tasks s) 1;
  Ret (t_state t, t_stack t).

Lemma dead_waiter_resurrected : dead_waiter = Ret (TASK_READY, 0).
Proof. vm_compute. reflexivity. Qed.
