(* ===== verification/MsgQueue.v ===== *)
(** msgqueue.c: bounded message queues.

    Sixteen messages of up to 64 bytes in a ring, with a queue of blocked
    senders and one of blocked receivers.  As for semaphores a blocking call is
    modelled by the round of its loop; [true] is its [return].  The code that
    stores a message, common to [mq_send] and [mq_trysend], is [mq_put], and
    the one that takes a message [mq_take]. *)
From S2P Require Import Prelude Spinlock Allocator Heap CString PageTable Task Ring Sync.

Definition MQ_MAX_MSGS : Z := 16.
Definition MQ_MSG_SIZE : Z := 64.

Record msg_t := mk_msg { sender : Z; m_type : Z; m_len : Z; m_data : list Z }.

Record msgqueue_t := mk_mq {
  msgs : list msg_t;
  mq_head : Z;
  mq_tail : Z;
  mq_cnt : Z;
  mq_lock : spinlock_t;
  recv_waitq : list Z;
  recv_head : Z;
  recv_tail : Z;
  send_waitq : list Z;
  send_head : Z;
  send_tail : Z
}.

Definition mq_init (q : msgqueue_t) : msgqueue_t :=
  mk_mq (msgs q) 0 0 0 (spin_init (mq_lock q)) (recv_waitq q) 0 0 (send_waitq q) 0 0.

Definition mq_set_lock (q : msgqueue_t) (l : spinlock_t) : msgqueue_t :=
  mk_mq (msgs q) (mq_head q) (mq_tail q) (mq_cnt q) l (recv_waitq q) (recv_head q) (recv_tail q)
    (send_waitq q) (send_head q) (send_tail q).
Definition mq_set_ring (q : msgqueue_t) (ms : list msg_t) (head tail cnt : Z) : msgqueue_t :=
  mk_mq ms head tail cnt (mq_lock q) (recv_waitq q) (recv_head q) (recv_tail q)
    (send_waitq q) (send_head q) (send_tail q).
Definition mq_set_recv (q : msgqueue_t) (wq : list Z) (head tail : Z) : msgqueue_t :=
  mk_mq (msgs q) (mq_head q) (mq_tail q) (mq_cnt q) (mq_lock q) wq head tail
    (send_waitq q) (send_head q) (send_tail q).
Definition mq_set_send (q : msgqueue_t) (wq : list Z) (head tail : Z) : msgqueue_t :=
  mk_mq (msgs q) (mq_head q) (mq_tail q) (mq_cnt q) (mq_lock q) (recv_waitq q) (recv_head q) (recv_tail q)
    wq head tail.

Section Mq.
Context {H : Type} `{Allocator H} `{CodeAddrs}.
Implicit Types (q : msgqueue_t) (c : cpu) (s : sys H).

(** [if(id >= 0) tasks[id].state = TASK_READY;] *)
Definition wake_task (id : Z) s : outcome (sys H) :=
  if 0 <=? id then upd_task s id (set_state TASK_READY) else Ret s.

Definition mq_put (type : Z) (data : list Z) (len : Z) q s : outcome (msgqueue_t * sys H) :=
  m ← aget (msgs q) (mq_head q);
  d ← (if 0 <? len then memcpy (m_data m) data len else Ret (m_data m));
  ms ← aset (msgs q) (mq_head q) (mk_msg (current_task s) type len d);
  let q := mq_set_ring q ms (Z.rem (mq_head q + 1) MQ_MAX_MSGS) (mq_tail q) (s32 (mq_cnt q + 1)) in
  '(id, tail) ← ring_waitq_pop (recv_waitq q) (recv_head q) (recv_tail q);
  let q := mq_set_recv q (recv_waitq q) (recv_head q) tail in
  s ← wake_task id s;
  Ret (q, s).

(** [msg] is the caller's buffer. *)
Definition mq_take (msg : msg_t) q s : outcome (msg_t * msgqueue_t * sys H) :=
  m ← aget (msgs q) (mq_tail q);
  d ← (if 0 <? m_len m then memcpy (m_data msg) (m_data m) (m_len m) else Ret (m_data msg));
  let msg := mk_msg (sender m) (m_type m) (m_len m) d in
  let q := mq_set_ring q (msgs q) (mq_head q) (Z.rem (mq_tail q + 1) MQ_MAX_MSGS) (s32 (mq_cnt q - 1)) in
  '(id, tail) ← ring_waitq_pop (send_waitq q) (send_head q) (send_tail q);
  let q := mq_set_send q (send_waitq q) (send_head q) tail in
  s ← wake_task id s;
  Ret (msg, q, s).

Definition mq_clip (len : Z) : Z := if MQ_MSG_SIZE <? len then MQ_MSG_SIZE else len.

Definition mq_send_round (now type : Z) (data : list Z) (len : Z) q c s
  : outcome (bool * msgqueue_t * cpu * sys H) :=
  let len := mq_clip len in
  '(flags, l, c) ← spin_lock_irqsave (mq_lock q) c;
  let q := mq_set_lock q l in
  if mq_cnt q <? MQ_MAX_MSGS then
    '(q, s) ← mq_put type data len q s;
    let '(l, c) := spin_unlock_irqrestore (mq_lock q) flags c in
    Ret (true, mq_set_lock q l, c, s)
  else
    let me := current_task s in
    '(r, wq, head) ← ring_waitq_push (send_waitq q) (send_head q) (send_tail q) me;
    let q := mq_set_send q wq head (send_tail q) in
    s ← (if r =? 0 then block_task me s else Ret s);
    let '(l, c) := spin_unlock_irqrestore (mq_lock q) flags c in
    s ← schedule now s;
    Ret (false, mq_set_lock q l, c, s).

Definition mq_trysend (type : Z) (data : list Z) (len : Z) q c s : outcome (Z * msgqueue_t * cpu * sys H) :=
  let len := mq_clip len in
  '(flags, l, c) ← spin_lock_irqsave (mq_lock q) c;
  let q := mq_set_lock q l in
  if MQ_MAX_MSGS <=? mq_cnt q then
    let '(l, c) := spin_unlock_irqrestore (mq_lock q) flags c in
    Ret (0, mq_set_lock q l, c, s)
  else
    '(q, s) ← mq_put type data len q s;
    let '(l, c) := spin_unlock_irqrestore (mq_lock q) flags c in
    Ret (1, mq_set_lock q l, c, s).

Definition mq_recv_round (now : Z) (msg : msg_t) q c s : outcome (bool * msg_t * msgqueue_t * cpu * sys H) :=
  '(flags, l, c) ← spin_lock_irqsave (mq_lock q) c;
  let q := mq_set_lock q l in
  if 0 <? mq_cnt q then
    '(msg, q, s) ← mq_take msg q s;
    let '(l, c) := spin_unlock_irqrestore (mq_lock q) flags c in
    Ret (true, msg, mq_set_lock q l, c, s)
  else
    let me := current_task s in
    '(r, wq, head) ← ring_waitq_push (recv_waitq q) (recv_head q) (recv_tail q) me;
    let q := mq_set_recv q wq head (recv_tail q) in
    s ← (if r =? 0 then block_task me s else Ret s);
    let '(l, c) := spin_unlock_irqrestore (mq_lock q) flags c in
    s ← schedule now s;
    Ret (false, msg, mq_set_lock q l, c, s).

Definition mq_tryrecv (msg : msg_t) q c s : outcome (Z * msg_t * msgqueue_t * cpu * sys H) :=
  '(flags, l, c) ← spin_lock_irqsave (mq_lock q) c;
  let q := mq_set_lock q l in
  if mq_cnt q =? 0 then
    let '(l, c) := spin_unlock_irqrestore (mq_lock q) flags c in
    Ret (0, msg, mq_set_lock q l, c, s)
  else
    '(msg, q, s) ← mq_take msg q s;
    let '(l, c) := spin_unlock_irqrestore (mq_lock q) flags c in
    Ret (1, msg, mq_set_lock q l, c, s).

Definition mq_count q c : outcome (Z * msgqueue_t * cpu) :=
  '(flags, l, c) ← spin_lock_irqsave (mq_lock q) c;
  let n := mq_cnt q in
  let '(l, c) := spin_unlock_irqrestore l flags c in
  Ret (n, mq_set_lock q l, c).
End Mq.

(** ** Specification

    The abstract queue: who sent what, oldest first, and the blocked tasks. *)
Record payload := mk_payload { p_sender : Z; p_type : Z; p_bytes : list Z }.
Record mq_spec := mk_mqspec { items : list payload; receivers : list Z; senders : list Z }.

(** The message a cell of the ring stands for. *)
Definition msg_of (m : msg_t) : payload := mk_payload (sender m) (m_type m) (take (Z.to_nat (m_len m)) (m_data m)).

Definition msg_ok (m : msg_t) : Prop := length (m_data m) = 64%nat.

Record mq_abs (q : msgqueue_t) (a : mq_spec) : Prop := {
  qa_ring : ring_ok 16 (msgs q) (mq_tail q) (mq_head q) (length (items a));
  qa_items : map msg_of (ring_read 16 (msgs q) (mq_tail q) (length (items a))) = items a;
  qa_lens : Forall (fun m => 0 <= m_len m <= 64) (ring_read 16 (msgs q) (mq_tail q) (length (items a)));
  qa_cnt : mq_cnt q = zlen (items a);
  qa_cells : Forall msg_ok (msgs q);
  qa_recv : waitq_is (recv_waitq q) (recv_head q) (recv_tail q) (receivers a);
  qa_send : waitq_is (send_waitq q) (send_head q) (send_tail q) (senders a);
  qa_lock : lock (mq_lock q) = 0
}.

Section MqSpec.
Context {H : Type} `{Allocator H} `{CodeAddrs}.
Implicit Types (q : msgqueue_t) (c : cpu) (s : sys H) (a : mq_spec).

(** Waking the first of a wait queue. *)
Definition woke (ws : list Z) s s' : Prop :=
  match ws with
  | [] => s' = s
  | id :: _ => exists t, task_at s id = Some t /\ s' = put_task s id (set_state TASK_READY t)
  end.

Lemma waitq_wake wq head tail ws s :
  waitq_is wq head tail ws -> Forall (fun id => 0 <= id < zlen (tasks s)) ws ->
  exists id tail' s', ring_waitq_pop wq head tail = Ret (id, tail') /\ wake_task id s = Ret s'
    /\ waitq_is wq head tail' (list.tail ws) /\ woke ws s s'.
Proof.
  intros Hw Hids. pose proof (waitq_pop_list _ _ _ _ Hw) as Hp. destruct ws as [|id ws].
  - exists (-1), tail, s. by split_and!.
  - destruct Hp as (tail' & E & Hw'). apply Forall_cons in Hids as [Hid _].
    destruct (task_at_ok s id Hid) as [t Ht]. exists id, tail'. eexists. split; [done|].
    unfold wake_task. destruct (Z.leb_spec 0 id); [|lia]. split; [by apply upd_task_ok|].
    split; [done|]. by exists t.
Qed.

Lemma ring_read_Forall {A} (P : A -> Prop) (cap : Z) buf tail n :
  Forall P buf -> Forall P (ring_read cap buf tail n).
Proof.
  intros Hf. revert tail. induction n as [|n IH]; intros tail; [constructor|]. simpl.
  destruct (buf !! Z.to_nat tail) eqn:E; [|constructor]. constructor; [by eapply Forall_lookup_1|apply IH].
Qed.

Lemma mq_put_spec type data len q a s :
  mq_abs (mq_set_lock q (mk_spinlock 0)) a -> (length (items a) < 16)%nat -> 0 <= len <= 64 -> len <= zlen data ->
  Forall (fun id => 0 <= id < zlen (tasks s)) (receivers a) ->
  exists q' s', mq_put type data len q s = Ret (q', s') /\ mq_lock q' = mq_lock q
    /\ mq_abs (mq_set_lock q' (mk_spinlock 0))
         (mk_mqspec (items a ++ [mk_payload (current_task s) type (take (Z.to_nat len) data)])
            (list.tail (receivers a)) (senders a))
    /\ woke (receivers a) s s'.
Proof.
  intros [] Hlt Hlen Hd Hids. cbn [msgs mq_head mq_tail mq_cnt recv_waitq recv_head recv_tail mq_set_lock] in *.
  pose proof qa_ring0 as (_ & Hml & Ht & Eh & _).
  assert (0 <= mq_head q < 16) as Hh by (rewrite Eh; apply Z.mod_pos_bound; lia).
  unfold mq_put. destruct (aget_ok (msgs q) (mq_head q)) as [m Hm]; [lia|]. rewrite Hm, bind_Ret.
  apply aget_Ret in Hm as [_ Hm].
  assert (msg_ok m) as Hmok by by eapply Forall_lookup_1. unfold msg_ok in Hmok.
  assert ((if 0 <? len then memcpy (m_data m) data len else Ret (m_data m))
    = Ret (take (Z.to_nat len) data ++ drop (Z.to_nat len) (m_data m))) as ->.
  { destruct (Z.ltb_spec 0 len); [apply memcpy_spec; lia|]. by replace len with 0 by lia. }
  rewrite bind_Ret, aset_ok, bind_Ret by lia. cbv zeta.
  set (nm := mk_msg _ _ _ _).
  destruct (waitq_wake _ _ _ _ s qa_recv0 Hids) as (id & tl & s' & E1 & E2 & Hw & Hwk).
  cbn [recv_waitq recv_head recv_tail mq_set_ring]. rewrite E1, bind_Ret, E2, bind_Ret.
  eexists _, s'. split; [reflexivity|]. split; [done|]. split; [|done].
  destruct (ring_push 16 _ _ _ _ nm qa_ring0 ltac:(lia)) as [Hr' Hread'].
  assert (length (items a ++ [mk_payload (current_task s) type (take (Z.to_nat len) data)]) = S (length (items a))) as El.
  { rewrite length_app. simpl. lia. }
  split; cbn [items receivers senders msgs mq_head mq_tail mq_cnt mq_lock recv_waitq recv_head recv_tail
              send_waitq send_head send_tail mq_set_lock mq_set_recv mq_set_ring];
    rewrite ?El; try done.
  - unfold MQ_MAX_MSGS. rewrite Z.rem_mod_nonneg by lia. exact Hr'.
  - rewrite Hread', map_app, qa_items0. simpl. do 3 f_equal.
    unfold msg_of, nm. cbn [sender m_type m_len m_data]. f_equal.
    rewrite take_app_le by (rewrite length_take; lia). rewrite take_take. f_equal. lia.
  - rewrite Hread'. apply Forall_app. split; [done|]. by constructor.
  - rewrite qa_cnt0, s32_small; lia.
  - apply Forall_insert; [done|]. unfold msg_ok, nm. cbn [m_data].
    rewrite length_app, length_take, length_drop. lia.
Qed.

Lemma mq_take_spec msg q p ps rs ss s :
  mq_abs (mq_set_lock q (mk_spinlock 0)) (mk_mqspec (p :: ps) rs ss) -> msg_ok msg ->
  Forall (fun id => 0 <= id < zlen (tasks s)) ss ->
  exists msg' q' s', mq_take msg q s = Ret (msg', q', s') /\ mq_lock q' = mq_lock q
    /\ msg_ok msg' /\ msg_of msg' = p /\ m_len msg' = zlen (p_bytes p)
    /\ mq_abs (mq_set_lock q' (mk_spinlock 0)) (mk_mqspec ps rs (list.tail ss)) /\ woke ss s s'.
Proof.
  intros [] Hmsg Hids.
  cbn [items receivers senders length msgs mq_head mq_tail mq_cnt send_waitq send_head send_tail mq_set_lock] in *.
  pose proof qa_ring0 as (_ & Hml & Ht & _ & Hn).
  destruct (ring_pop 16 _ _ _ _ qa_ring0) as (m & Hm & Hr' & Hread).
  rewrite Hread in qa_items0, qa_lens0. cbn [map] in qa_items0. injection qa_items0 as Hp Hps.
  apply Forall_cons in qa_lens0 as [Hlen Hlens].
  assert (msg_ok m) as Hmok by by eapply Forall_lookup_1. unfold msg_ok in *.
  unfold mq_take. rewrite (aget_lookup _ _ m), bind_Ret by (done || lia).
  assert ((if 0 <? m_len m then memcpy (m_data msg) (m_data m) (m_len m) else Ret (m_data msg))
    = Ret (take (Z.to_nat (m_len m)) (m_data m) ++ drop (Z.to_nat (m_len m)) (m_data msg))) as ->.
  { destruct (Z.ltb_spec 0 (m_len m)); [apply memcpy_spec; lia|]. by replace (m_len m) with 0 by lia. }
  rewrite bind_Ret. cbv zeta.
  destruct (waitq_wake _ _ _ _ s qa_send0 Hids) as (id & tl & s' & E1 & E2 & Hw & Hwk).
  cbn [send_waitq send_head send_tail mq_set_ring]. rewrite E1, bind_Ret, E2, bind_Ret.
  eexists _, _, s'. split; [reflexivity|]. split_and!; try done.
  - cbn. rewrite length_app, length_take, length_drop. lia.
  - rewrite <- Hp. unfold msg_of. cbn [sender m_type m_len m_data]. f_equal.
    rewrite take_app_le by (rewrite length_take; lia). rewrite take_take. f_equal. lia.
  - rewrite <- Hp. cbn. rewrite length_take. lia.
  - split; cbn [items receivers senders msgs mq_head mq_tail mq_cnt mq_lock recv_waitq recv_head recv_tail
              send_waitq send_head send_tail mq_set_lock mq_set_send mq_set_ring];
      unfold MQ_MAX_MSGS; rewrite ?(Z.rem_mod_nonneg (mq_tail q + 1)) by lia; try done.
    rewrite qa_cnt0, s32_small; lia.
Qed.
End MqSpec.

(** ** Properties *)

Lemma mq_unlock_abs q a : mq_abs (mq_set_lock q (mk_spinlock 0)) a <-> mq_abs (mq_set_lock (mq_set_lock q (mk_spinlock 1)) (mk_spinlock 0)) a.
Proof. done. Qed.

Lemma mq_abs_locked q a : mq_abs q a -> mq_abs (mq_set_lock (mq_set_lock q (mk_spinlock 1)) (mk_spinlock 0)) a.
Proof. intros Ha. pose proof (qa_lock _ _ Ha) as Hl. destruct q as [? ? ? ? [l] ? ? ? ? ? ?]. simpl in Hl. by subst l. Qed.

Lemma clip_range len : 0 <= len -> 0 <= mq_clip len <= 64 /\ mq_clip len = Z.min len 64.
Proof. intros Hl. unfold mq_clip, MQ_MSG_SIZE. destruct (Z.ltb_spec 64 len); lia. Qed.

(** Sending.  With room a message of the sender, the type and the first
    [min len 64] bytes goes to the end and the oldest blocked receiver becomes
    READY; with 16 messages queued [mq_trysend] says 0 and changes nothing, and a
    round of [mq_send] queues the sender BLOCKED (unless 15 wait already) and
    reschedules. *)
Definition send_post {H : Type} `{Allocator H} `{CodeAddrs}
  (now type len : Z) (data : list Z) (q : msgqueue_t) (c : cpu) (s : sys H) (a : mq_spec) : Prop :=
  ((length (items a) < 16)%nat /\ exists q' s',
     mq_trysend type data len q c s = Ret (1, q', c, s')
     /\ mq_send_round now type data len q c s = Ret (true, q', c, s')
     /\ mq_abs q' (mk_mqspec (items a ++ [mk_payload (current_task s) type (take (Z.to_nat (Z.min len 64)) data)])
                     (list.tail (receivers a)) (senders a))
     /\ woke (receivers a) s s')
  \/ (length (items a) = 16%nat /\ mq_trysend type data len q c s = Ret (0, q, c, s)
      /\ exists q' s' t, task_at s (current_task s) = Some t
         /\ mq_send_round now type data len q c s = Ret (false, q', c, s')
         /\ (((length (senders a) < 15)%nat
                /\ mq_abs q' (mk_mqspec (items a) (receivers a) (senders a ++ [current_task s]))
                /\ schedule now (blocked s (current_task s) t) = Ret s')
             \/ length (senders a) = 15%nat /\ mq_abs q' a /\ schedule now s = Ret s')).

Lemma mq_send_ok {H : Type} `{Allocator H} `{CodeAddrs}
  (now type len : Z) (data : list Z) (q : msgqueue_t) (c : cpu) (s : sys H) (a : mq_spec) :
  mq_abs q a -> sched_inv s -> 0 <= len -> Z.min len 64 <= zlen data ->
  Forall (fun id => 0 <= id < 16) (receivers a) -> send_post now type len data q c s a.
Proof.
  intros Ha Hi Hlen Hd Hids. unfold send_post. destruct (clip_range len Hlen) as [Hcr Hce].
  pose proof (qa_cnt _ _ Ha) as Hc. pose proof (qa_lock _ _ Ha) as Hlk.
  pose proof (qa_ring _ _ Ha) as (_ & _ & _ & _ & Hcap). pose proof (si_len _ Hi) as Htl.
  unfold mq_trysend, mq_send_round, MQ_MAX_MSGS. rewrite (irqsave_free _ _ Hlk), !bind_Ret.
  cbv iota beta zeta. cbn [mq_cnt mq_set_lock]. rewrite Hc.
  destruct (Z.ltb_spec (zlen (items a)) 16), (Z.leb_spec 16 (zlen (items a))); try lia.
  - left. split; [lia|].
    destruct (mq_put_spec type data (mq_clip len) (mq_set_lock q (mk_spinlock 1)) a s) as (q' & s' & E & Hl' & Ha' & Hw);
      [by apply mq_abs_locked|lia|lia|lia|by rewrite Htl|].
    rewrite E, !bind_Ret. cbv iota beta. rewrite irqrestore_daif. eexists _, s'. split_and!; try reflexivity.
    + rewrite Hce in Ha'. exact Ha'.
    + done.
  - right. split; [lia|]. rewrite irqrestore_daif. cbv iota beta.
    split. { destruct q as [? ? ? ? [l] ? ? ? ? ? ?]; simpl in *. by subst l. }
    pose proof (si_cur _ Hi). pose proof (si_num _ Hi).
    destruct (task_at_ok s (current_task s)) as [t Ht]; [lia|].
    cbn [send_waitq send_head send_tail mq_set_lock].
    destruct (waitq_push_list _ _ _ _ (current_task s) (qa_send _ _ Ha)) as [(Hl & wq' & hd' & -> & Hw')|[Hl ->]];
      rewrite bind_Ret; cbv iota beta zeta.
    + change (0 =? 0) with true. cbv iota. rewrite (block_task_spec _ _ _ Ht), bind_Ret, irqrestore_daif.
      destruct (schedule_spec now _ (blocked_inv _ _ Hi Ht)) as (s' & E & _). rewrite E, bind_Ret.
      eexists _, s', t. split_and!; [done|reflexivity|]. left. split_and!; [done| |done].
      destruct Ha. by split.
    + change (-1 =? 0) with false. cbv iota. rewrite bind_Ret, irqrestore_daif.
      destruct (schedule_spec now s Hi) as (s' & E & _). rewrite E, bind_Ret.
      eexists _, s', t. split_and!; [done|reflexivity|]. right. split_and!; [done| |done].
      destruct Ha. by split.
Qed.

(** Receiving.  The oldest message is delivered whole (sender, type, length and
    bytes) and leaves the queue, and the oldest blocked sender becomes READY;
    with none queued [mq_tryrecv] says 0 and changes nothing, and a round of
    [mq_recv] queues the receiver BLOCKED (unless 15 wait already) and
    reschedules.  [mq_count] is the number queued. *)
Definition recv_post {H : Type} `{Allocator H} `{CodeAddrs}
  (now : Z) (msg : msg_t) (q : msgqueue_t) (c : cpu) (s : sys H) (a : mq_spec) : Prop :=
  mq_count q c = Ret (zlen (items a), q, c) /\
  match items a with
  | p :: ps =>
      exists msg' q' s', mq_tryrecv msg q c s = Ret (1, msg', q', c, s')
        /\ mq_recv_round now msg q c s = Ret (true, msg', q', c, s')
        /\ msg_of msg' = p /\ m_len msg' = zlen (p_bytes p)
        /\ mq_abs q' (mk_mqspec ps (receivers a) (list.tail (senders a))) /\ woke (senders a) s s'
  | [] =>
      mq_tryrecv msg q c s = Ret (0, msg, q, c, s)
      /\ exists q' s' t, task_at s (current_task s) = Some t
         /\ mq_recv_round now msg q c s = Ret (false, msg, q', c, s')
         /\ (((length (receivers a) < 15)%nat
                /\ mq_abs q' (mk_mqspec [] (receivers a ++ [current_task s]) (senders a))
                /\ schedule now (blocked s (current_task s) t) = Ret s')
             \/ length (receivers a) = 15%nat /\ mq_abs q' a /\ schedule now s = Ret s')
  end.

Lemma mq_recv_ok {H : Type} `{Allocator H} `{CodeAddrs}
  (now : Z) (msg : msg_t) (q : msgqueue_t) (c : cpu) (s : sys H) (a : mq_spec) :
  mq_abs q a -> sched_inv s -> msg_ok msg -> Forall (fun id => 0 <= id < 16) (senders a) -> recv_post now msg q c s a.
Proof.
  intros Ha Hi Hmsg Hids. unfold recv_post. pose proof (qa_cnt _ _ Ha) as Hc. pose proof (qa_lock _ _ Ha) as Hlk.
  pose proof (si_len _ Hi) as Htl.
  assert (mq_set_lock (mq_set_lock q (mk_spinlock 1)) (mk_spinlock 0) = q) as Hq.
  { destruct q as [? ? ? ? [l] ? ? ? ? ? ?]; simpl in *. by subst l. }
  split.
  { unfold mq_count. rewrite (irqsave_free _ _ Hlk), bind_Ret. cbv iota beta zeta.
    cbn [mq_cnt mq_set_lock]. rewrite irqrestore_daif, Hc. do 3 f_equal. exact Hq. }
  unfold mq_tryrecv, mq_recv_round. rewrite (irqsave_free _ _ Hlk), !bind_Ret.
  cbv iota beta zeta. cbn [mq_cnt mq_set_lock]. rewrite Hc.
  destruct a as [its rs ss]. cbn [items receivers senders] in *. destruct its as [|p ps].
  - replace (zlen (@nil payload) =? 0) with true by done. replace (0 <? zlen (@nil payload)) with false by done.
    cbv iota. rewrite irqrestore_daif. cbv iota beta. rewrite Hq. split; [done|].
    pose proof (si_cur _ Hi). pose proof (si_num _ Hi).
    destruct (task_at_ok s (current_task s)) as [t Ht]; [lia|].
    cbn [recv_waitq recv_head recv_tail mq_set_lock].
    destruct (waitq_push_list _ _ _ _ (current_task s) (qa_recv _ _ Ha)) as [(Hl & wq' & hd' & -> & Hw')|[Hl ->]];
      rewrite bind_Ret; cbv iota beta zeta.
    + change (0 =? 0) with true. cbv iota. rewrite (block_task_spec _ _ _ Ht), bind_Ret, irqrestore_daif.
      destruct (schedule_spec now _ (blocked_inv _ _ Hi Ht)) as (s' & E & _). rewrite E, bind_Ret.
      eexists _, s', t. split_and!; [done|reflexivity|]. left. split_and!; [done| |done].
      destruct Ha. by split.
    + change (-1 =? 0) with false. cbv iota. rewrite bind_Ret, irqrestore_daif.
      destruct (schedule_spec now s Hi) as (s' & E & _). rewrite E, bind_Ret.
      eexists _, s', t. split_and!; [done|reflexivity|]. right. split_and!; [done| |done].
      destruct Ha. by split.
  - destruct (Z.eqb_spec (zlen (p :: ps)) 0) as [Hz|_]; [cbn in Hz; lia|].
    destruct (Z.ltb_spec 0 (zlen (p :: ps))) as [_|Hz]; [|cbn in Hz; lia].
    destruct (mq_take_spec msg (mq_set_lock q (mk_spinlock 1)) p ps rs ss s)
      as (msg' & q' & s' & E & Hl' & _ & Hof & Hln & Ha' & Hw); [by apply mq_abs_locked|done|by rewrite Htl|].
    rewrite E, !bind_Ret. cbv iota beta. rewrite irqrestore_daif. eexists msg', _, s'.
    split_and!; try reflexivity; done.
Qed.

(** C18. A message queue is a bounded FIFO: on any queue that stands for [a], in
    any sound kernel, sending and receiving, blocking or not, do what the
    specification says on every branch ([send_post], [recv_post]). *)
Theorem mq_refines_spec {H : Type} `{Allocator H} `{CodeAddrs}
  (now type len : Z) (data : list Z) (msg : msg_t) (q : msgqueue_t) (c : cpu) (s : sys H) (a : mq_spec) :
  mq_abs q a -> sched_inv s -> Forall (fun id => 0 <= id < 16) (receivers a) -> Forall (fun id => 0 <= id < 16) (senders a) ->
  (0 <= len -> Z.min len 64 <= zlen data -> send_post now type len data q c s a)
  /\ (msg_ok msg -> recv_post now msg q c s a).
Proof.
  intros Ha Hi Hr Hs. split; [intros Hl Hd; by apply mq_send_ok|intros Hm; by apply mq_recv_ok].
Qed.

(** *** Examples *)

Definition empty_msg : msg_t := mk_msg 0 0 0 (replicate 64 0).
Definition mq_example : msgqueue_t :=
  mq_init (mk_mq (replicate 16 empty_msg) 0 0 0 SPINLOCK_INIT (replicate 16 0) 0 0 (replicate 16 0) 0 0).

Lemma mq_init_abs q :
  length (msgs q) = 16%nat -> Forall msg_ok (msgs q) -> length (recv_waitq q) = 16%nat -> length (send_waitq q) = 16%nat ->
  mq_abs (mq_init q) (mk_mqspec [] [] []).
Proof.
  intros Hm Hc Hr Hs.
  assert (forall (l : list Z), length l = 16%nat -> waitq_is l 0 0 []) as Hw.
  { intros l Hl. split; [apply ring_init; [lia|by rewrite Hl]|by split; [|simpl; lia]]. }
  split; cbn [mq_init msgs mq_head mq_tail mq_cnt mq_lock recv_waitq recv_head recv_tail
              send_waitq send_head send_tail items receivers senders length]; auto.
  apply ring_init; [lia|by rewrite Hm].
Qed.

Lemma mq_example_abs : mq_abs mq_example (mk_mqspec [] [] []).
Proof. apply mq_init_abs; [done|by apply (Forall_replicate _ 16)|done|done]. Qed.

Lemma mq_refines_spec_witness :
  (exists q s, mq_trysend 7 [1; 2; 3] 3 mq_example (mk_cpu 0) two_tasks = Ret (1, q, mk_cpu 0, s)
    /\ mq_abs q (mk_mqspec [mk_payload 0 7 [1; 2; 3]] [] []))
  /\ mq_tryrecv empty_msg mq_example (mk_cpu 0) two_tasks = Ret (0, empty_msg, mq_example, mk_cpu 0, two_tasks).
Proof.
  destruct (mq_refines_spec 0 7 3 [1; 2; 3] empty_msg mq_example (mk_cpu 0) two_tasks (mk_mqspec [] [] [])) as [Hs Hr].
  - exact mq_example_abs.
  - apply two_tasks_ok.
  - constructor.
  - constructor.
  - split.
    + destruct (Hs ltac:(lia) ltac:(simpl; lia)) as [(_ & q & s & E & _ & Ha & _)|(Hf & _)]; [|discriminate Hf].
      exists q, s. split; [exact E|exact Ha].
    + destruct (Hr eq_refl) as (_ & E & _). exact E.
Defined.
