(* ===== verification/Vfs.v ===== *)
(** vfs.c: the in-memory file system tree.

    64 inodes and 16 descriptors; a file's bytes are a 16 KB heap block.  Paths
    and buffers are byte lists (CString), so the null test of [vfs_resolve] has
    no counterpart.  [junk] is what a freshly allocated block holds, and the
    local name buffers start as [local_name]; both are overwritten before they
    are read. *)
From S2P Require Import Prelude Spinlock Allocator Heap CString Blocks.

Definition VFS_FILE : Z := 0.
Definition VFS_DIR : Z := 1.
Definition O_RDONLY : Z := 0.
Definition O_WRONLY : Z := 1.
Definition O_RDWR : Z := 2.
Definition O_CREAT : Z := 4.
Definition O_APPEND : Z := 8.
Definition O_TRUNC : Z := 16.
Definition SEEK_SET : Z := 0.
Definition SEEK_CUR : Z := 1.
Definition SEEK_END : Z := 2.
Definition VFS_MAX_INODES : Z := 64.
Definition VFS_MAX_NAME : Z := 32.
Definition VFS_MAX_FDS : Z := 16.
Definition VFS_MAX_FSIZE : Z := 16384.

Record vfs_inode_t := mk_inode {
  i_name : list Z;
  i_type : Z;
  i_parent : Z;
  i_size : Z;
  i_data : Z;
  i_used : Z
}.
Record vfs_fd_t := mk_fd { f_inode : Z; f_pos : Z; f_flags : Z }.

Record vfs (H : Type) := mk_vfs { inodes : list vfs_inode_t; fds : list vfs_fd_t; vblocks : bheap H }.
Arguments mk_vfs {H}.
Arguments inodes {H}.
Arguments fds {H}.
Arguments vblocks {H}.

(** An inode after memset. *)
Definition inode_zero : vfs_inode_t := mk_inode (replicate 32 0) 0 0 0 0 0.
Definition local_name : list Z := replicate 32 0.

Definition set_size (n : Z) (i : vfs_inode_t) : vfs_inode_t :=
  mk_inode (i_name i) (i_type i) (i_parent i) n (i_data i) (i_used i).
Definition set_data (p : Z) (i : vfs_inode_t) : vfs_inode_t :=
  mk_inode (i_name i) (i_type i) (i_parent i) (i_size i) p (i_used i).
Definition set_used (u : Z) (i : vfs_inode_t) : vfs_inode_t :=
  mk_inode (i_name i) (i_type i) (i_parent i) (i_size i) (i_data i) u.
Definition set_finode (n : Z) (f : vfs_fd_t) : vfs_fd_t := mk_fd n (f_pos f) (f_flags f).
Definition set_pos (n : Z) (f : vfs_fd_t) : vfs_fd_t := mk_fd (f_inode f) n (f_flags f).

(** [flags & f] *)
Definition has_flag (flags f : Z) : bool := negb (Z.land flags f =? 0).

(** ** Paths *)

(** The last slash of the [len] characters at [path]. *)
Definition last_slash (path : list Z) (len : Z) : outcome Z :=
  for_range 0 len (fun i slash => c ← aget path i; Ret (if c =? 47 then i else slash)) (-1).

(** [for(; i < slash && i < VFS_MAX_NAME - 1; i++) parent[i] = path[i]; parent[i] = 0] *)
Definition copy_parent (path parent : list Z) (slash : Z) : outcome (list Z) :=
  let n := Z.min slash (VFS_MAX_NAME - 1) in
  parent ← for_range 0 n (fun i parent => c ← aget path i; aset parent i c) parent;
  aset parent n 0.

Definition split_path (path parent name : list Z) : outcome (Z * list Z * list Z) :=
  len ← k_strlen path;
  if len =? 0 then Ret (0, parent, name)
  else
    slash ← last_slash path len;
    '(parent, name) ←
      (if slash <? 0 then
         parent ← aset parent 0 47; parent ← aset parent 1 0;
         name ← copy_name name path VFS_MAX_NAME; Ret (parent, name)
       else if slash =? 0 then
         parent ← aset parent 0 47; parent ← aset parent 1 0;
         p ← ptr_add path 1; name ← copy_name name p VFS_MAX_NAME; Ret (parent, name)
       else
         parent ← copy_parent path parent slash;
         p ← ptr_add path (slash + 1); name ← copy_name name p VFS_MAX_NAME; Ret (parent, name));
    c ← aget name 0;
    Ret (c_bool (negb (c =? 0)), parent, name).

(** The next component: the characters stored, and what is left of the path. *)
Fixpoint take_comp (p comp : list Z) (i : Z) : outcome (list Z * list Z) :=
  match p with
  | [] => Undef
  | c :: p' =>
    if negb (c =? 0) && negb (c =? 47) && (i <? VFS_MAX_NAME - 1) then
      comp ← aset comp i c; take_comp p' comp (i + 1)
    else comp ← aset comp i 0; Ret (comp, p)
  end.

(** The first child of [cur] that is called [comp]. *)
Definition find_child (ins : list vfs_inode_t) (cur : Z) (comp : list Z) : outcome (option Z) :=
  find_range 1 VFS_MAX_INODES (fun j =>
    i ← aget ins j;
    if negb (i_used i =? 0) && (i_parent i =? cur) then r ← str_eq (i_name i) comp; Ret (negb (r =? 0))
    else Ret false).

(** Every round consumes a character, so the length of the path is enough. *)
Fixpoint resolve_loop (fuel : nat) (ins : list vfs_inode_t) (p : list Z) (cur : Z) : outcome Z :=
  match fuel with
  | O => Hang
  | S fuel =>
    c ← aget p 0;
    if c =? 0 then Ret cur
    else
      '(comp, p) ← take_comp p local_name 0;
      c ← aget p 0;
      p ← (if c =? 47 then ptr_add p 1 else Ret p);
      c0 ← aget comp 0;
      if c0 =? 0 then resolve_loop fuel ins p cur
      else
        found ← find_child ins cur comp;
        match found with
        | None => Ret (-1)
        | Some j => resolve_loop fuel ins p j
        end
  end.

Section Vfs.
Context {H : Type} `{Allocator H}.
Implicit Types (v : vfs H) (path buf junk : list Z).

Definition set_inodes v (ins : list vfs_inode_t) : vfs H := mk_vfs ins (fds v) (vblocks v).
Definition set_fds v (fs : list vfs_fd_t) : vfs H := mk_vfs (inodes v) fs (vblocks v).
Definition set_vblocks v (b : bheap H) : vfs H := mk_vfs (inodes v) (fds v) b.

(** [inodes[i]], [fds[i]] updated in place. *)
Definition upd_inode v (i : Z) (f : vfs_inode_t -> vfs_inode_t) : outcome (vfs H) :=
  x ← aget (inodes v) i; l ← aset (inodes v) i (f x); Ret (set_inodes v l).
Definition upd_fd v (i : Z) (f : vfs_fd_t -> vfs_fd_t) : outcome (vfs H) :=
  x ← aget (fds v) i; l ← aset (fds v) i (f x); Ret (set_fds v l).

Definition alloc_inode v : outcome (option Z) :=
  find_range 1 VFS_MAX_INODES (fun i => x ← aget (inodes v) i; Ret (i_used x =? 0)).

Definition alloc_fd v : outcome (option Z) :=
  find_range 0 VFS_MAX_FDS (fun i => x ← aget (fds v) i; Ret (f_inode x =? -1)).

Definition vfs_init v : outcome (vfs H) :=
  let v := set_inodes v (replicate (Z.to_nat VFS_MAX_INODES) inode_zero) in
  v ← for_range 0 VFS_MAX_FDS (fun i v => upd_fd v i (set_finode (-1))) v;
  x ← aget (inodes v) 0;
  name ← aset (i_name x) 0 47;
  name ← aset name 1 0;
  l ← aset (inodes v) 0 (mk_inode name VFS_DIR (-1) 0 0 1);
  Ret (set_inodes v l).

Definition vfs_resolve path v : outcome Z :=
  c ← aget path 0;
  if c =? 0 then Ret (-1)
  else
    root ← (if c =? 47 then c1 ← aget path 1; Ret (c1 =? 0) else Ret false);
    if (root : bool) then Ret 0
    else
      p ← (if c =? 47 then ptr_add path 1 else Ret path);
      resolve_loop (S (length p)) (inodes v) p 0.

(** [vfs_resolve] of the parent, and the test that it is a directory. *)
Definition resolve_dir path v : outcome (option Z) :=
  par ← vfs_resolve path v;
  if par <? 0 then Ret None
  else x ← aget (inodes v) par; Ret (if negb (i_type x =? VFS_DIR) then None else Some par).

Definition vfs_mkdir path v : outcome (Z * vfs H) :=
  '(ok, ppath, name) ← split_path path local_name local_name;
  if ok =? 0 then Ret (-1, v)
  else
    par ← resolve_dir ppath v;
    match par with
    | None => Ret (-1, v)
    | Some par =>
      found ← find_child (inodes v) par name;
      match found with
      | Some _ => Ret (-1, v)
      | None =>
        idx ← alloc_inode v;
        match idx with
        | None => Ret (-1, v)
        | Some idx =>
          x ← aget (inodes v) idx;
          nm ← copy_name (i_name x) name VFS_MAX_NAME;
          l ← aset (inodes v) idx (mk_inode nm VFS_DIR par 0 0 1);
          Ret (idx, set_inodes v l)
        end
      end
    end.

(** The O_CREAT branch of [vfs_open]. *)
Definition open_create junk path v : outcome (Z * vfs H) :=
  '(ok, ppath, name) ← split_path path local_name local_name;
  if ok =? 0 then Ret (-1, v)
  else
    par ← resolve_dir ppath v;
    match par with
    | None => Ret (-1, v)
    | Some par =>
      idx ← alloc_inode v;
      match idx with
      | None => Ret (-1, v)
      | Some idx =>
        '(p, b) ← blk_alloc junk VFS_MAX_FSIZE (vblocks v);
        v ← upd_inode (set_vblocks v b) idx (set_data p);
        if p =? 0 then
          v ← upd_inode v idx (set_used 0); Ret (-1, v)
        else
          b ← blk_upd p (fun d => memset d 0 VFS_MAX_FSIZE) (vblocks v);
          x ← aget (inodes v) idx;
          nm ← copy_name (i_name x) name VFS_MAX_NAME;
          l ← aset (inodes v) idx (mk_inode nm VFS_FILE par 0 p 1);
          Ret (idx, set_inodes (set_vblocks v b) l)
      end
    end.

(** Opening an inode that exists; [false] is [return -1]. *)
Definition open_existing (idx flags : Z) v : outcome (bool * vfs H) :=
  x ← aget (inodes v) idx;
  if negb (i_type x =? VFS_FILE) then Ret (false, v)
  else if has_flag flags O_TRUNC then
    b ← (if i_data x =? 0 then Ret (vblocks v)
         else blk_upd (i_data x) (fun d => memset d 0 VFS_MAX_FSIZE) (vblocks v));
    v ← upd_inode (set_vblocks v b) idx (set_size 0);
    Ret (true, v)
  else Ret (true, v).

(** The descriptor for an opened inode. *)
Definition open_fd (idx flags : Z) v : outcome (Z * vfs H) :=
  fd ← alloc_fd v;
  match fd with
  | None => Ret (-1, v)
  | Some fd =>
    x ← aget (inodes v) idx;
    v ← upd_fd v fd (fun _ => mk_fd idx (if has_flag flags O_APPEND then i_size x else 0) flags);
    Ret (fd, v)
  end.

Definition vfs_open junk path (flags : Z) v : outcome (Z * vfs H) :=
  idx ← vfs_resolve path v;
  if idx <? 0 then
    if negb (has_flag flags O_CREAT) then Ret (-1, v)
    else
      '(idx, v) ← open_create junk path v;
      if idx <? 0 then Ret (-1, v) else open_fd idx flags v
  else
    '(ok, v) ← open_existing idx flags v;
    if (ok : bool) then open_fd idx flags v else Ret (-1, v).

Definition vfs_close (fd : Z) v : outcome (vfs H) :=
  if (0 <=? fd) && (fd <? VFS_MAX_FDS) then upd_fd v fd (set_finode (-1)) else Ret v.

(** ** Reading, writing, seeking *)

(** The descriptor [fd], open on some inode. *)
Definition open_desc (fd : Z) v : outcome (option vfs_fd_t) :=
  if (fd <? 0) || (VFS_MAX_FDS <=? fd) then Ret None
  else f ← aget (fds v) fd; Ret (if f_inode f <? 0 then None else Some f).

Definition vfs_read (fd : Z) buf (len : Z) v : outcome (Z * list Z * vfs H) :=
  d ← open_desc fd v;
  match d with
  | None => Ret (-1, buf, v)
  | Some f =>
    x ← aget (inodes v) (f_inode f);
    if negb (i_type x =? VFS_FILE) || (i_data x =? 0) then Ret (-1, buf, v)
    else
      let avail := s32 (i_size x - f_pos f) in
      if avail <=? 0 then Ret (0, buf, v)
      else
        let len := if avail <? len then avail else len in
        bs ← blk_get (i_data x) (vblocks v);
        src ← ptr_add bs (f_pos f);
        buf ← memcpy buf src (u64 len);
        v ← upd_fd v fd (set_pos (s32 (f_pos f + len)));
        Ret (len, buf, v)
  end.

Definition vfs_write (fd : Z) buf (len : Z) v : outcome (Z * vfs H) :=
  d ← open_desc fd v;
  match d with
  | None => Ret (-1, v)
  | Some f =>
    x ← aget (inodes v) (f_inode f);
    if negb (i_type x =? VFS_FILE) || (i_data x =? 0) then Ret (-1, v)
    else
      let pos := if has_flag (f_flags f) O_APPEND then i_size x else f_pos f in
      v ← upd_fd v fd (set_pos pos);
      let space := s32 (VFS_MAX_FSIZE - pos) in
      if space <=? 0 then Ret (-1, v)
      else
        let len := if space <? len then space else len in
        b ← blk_upd (i_data x) (fun d => at_off d pos (fun d => memcpy d buf (u64 len))) (vblocks v);
        let pos := s32 (pos + len) in
        v ← upd_fd (set_vblocks v b) fd (set_pos pos);
        v ← (if i_size x <? pos then upd_inode v (f_inode f) (set_size pos) else Ret v);
        Ret (len, v)
  end.

Definition vfs_seek (fd offset whence : Z) v : outcome (Z * vfs H) :=
  d ← open_desc fd v;
  match d with
  | None => Ret (-1, v)
  | Some f =>
    x ← aget (inodes v) (f_inode f);
    let np := if whence =? SEEK_SET then Some offset
              else if whence =? SEEK_CUR then Some (s32 (f_pos f + offset))
              else if whence =? SEEK_END then Some (s32 (i_size x + offset))
              else None in
    match np with
    | None => Ret (-1, v)
    | Some np =>
      if (np <? 0) || (i_size x <? np) then Ret (-1, v)
      else v ← upd_fd v fd (set_pos np); Ret (np, v)
    end
  end.

(** ** Unlinking and inspection *)

Definition has_child (idx : Z) v : outcome bool :=
  r ← find_range 1 VFS_MAX_INODES (fun i =>
        x ← aget (inodes v) i; Ret (negb (i_used x =? 0) && (i_parent x =? idx)));
  Ret (bool_decide (is_Some r)).

Definition close_all (idx : Z) v : outcome (vfs H) :=
  for_range 0 VFS_MAX_FDS (fun i v =>
    f ← aget (fds v) i; if f_inode f =? idx then upd_fd v i (set_finode (-1)) else Ret v) v.

Definition vfs_unlink path v : outcome (Z * vfs H) :=
  idx ← vfs_resolve path v;
  if idx <=? 0 then Ret (-1, v)
  else
    x ← aget (inodes v) idx;
    full ← (if i_type x =? VFS_DIR then has_child idx v else Ret false);
    if (full : bool) then Ret (-1, v)
    else
      v ← close_all idx v;
      b ← (if i_data x =? 0 then Ret (vblocks v) else blk_free (i_data x) (vblocks v));
      v ← upd_inode (set_vblocks v b) idx (fun _ => inode_zero);
      Ret (0, v).

Definition vfs_inode_used (i : Z) v : outcome bool :=
  if (0 <=? i) && (i <? VFS_MAX_INODES) then x ← aget (inodes v) i; Ret (negb (i_used x =? 0)) else Ret false.

Definition inode_field (f : vfs_inode_t -> Z) (i : Z) v : outcome Z :=
  u ← vfs_inode_used i v;
  if negb u then Ret (-1) else x ← aget (inodes v) i; Ret (f x).
Definition vfs_inode_type := inode_field i_type.
Definition vfs_inode_size := inode_field i_size.
Definition vfs_inode_parent := inode_field i_parent.

Definition vfs_inode_name (i : Z) v : outcome (list Z) :=
  u ← vfs_inode_used i v;
  if negb u then Ret (lit "") else x ← aget (inodes v) i; Ret (i_name x).
End Vfs.

(** ** Specification of paths

    The components of a path are what stands between its slashes; [reach]
    follows them from an inode. *)
Fixpoint split_slash (t : list Z) : list (list Z) :=
  match t with
  | [] => [[]]
  | c :: t =>
    if c =? 47 then [] :: split_slash t
    else match split_slash t with [] => [[c]] | w :: ws => (c :: w) :: ws end
  end.
Definition comps (t : list Z) : list (list Z) := filter (fun w => w <> []) (split_slash t).

Definition noslash (w : list Z) : Prop := 47 ∉ w.

Definition is_child (ins : list vfs_inode_t) (p : Z) (c : list Z) (j : Z) : Prop :=
  1 <= j < 64 /\ exists i, ins !! Z.to_nat j = Some i /\ i_used i <> 0 /\ i_parent i = p /\ cstr (i_name i) = c.

Inductive reach (ins : list vfs_inode_t) : Z -> list (list Z) -> Z -> Prop :=
| reach_nil p : reach ins p [] p
| reach_cons p c j cs k : is_child ins p c j -> reach ins j cs k -> reach ins p (c :: cs) k.

(** At most one child of a directory has a given name. *)
Definition unique_names (ins : list vfs_inode_t) : Prop :=
  forall p c j k, is_child ins p c j -> is_child ins p c k -> j = k.

Lemma split_slash_word w : noslash w -> split_slash w = [w].
Proof.
  unfold noslash. induction w as [|c w IH]; [done|]. intros [Hc Hw]%not_elem_of_cons. simpl.
  destruct (Z.eqb_spec c 47); [lia|]. by rewrite IH.
Qed.

Lemma split_slash_app w t : noslash w -> split_slash (w ++ 47 :: t) = w :: split_slash t.
Proof.
  unfold noslash. induction w as [|c w IH]; [done|]. intros [Hc Hw]%not_elem_of_cons. simpl.
  destruct (Z.eqb_spec c 47); [lia|]. by rewrite IH.
Qed.

Lemma comps_word w : noslash w -> w <> [] -> comps w = [w].
Proof. intros Hn Hw. unfold comps. rewrite split_slash_word by done. by rewrite filter_cons_True. Qed.

Lemma comps_app w t : noslash w -> comps (w ++ 47 :: t) = (if decide (w = []) then [] else [w]) ++ comps t.
Proof.
  intros Hn. unfold comps. rewrite split_slash_app by done. case_decide as Hw.
  - by rewrite filter_cons_False by naive_solver.
  - by rewrite filter_cons_True.
Qed.

Lemma slash_cases t :
  exists w, noslash w /\ (t = w \/ exists t', t = w ++ 47 :: t').
Proof.
  unfold noslash. induction t as [|c t (w & Hw & E)].
  - exists []. split; [by apply not_elem_of_nil|by left].
  - destruct (decide (c = 47)) as [->|Hc].
    + exists []. split; [by apply not_elem_of_nil|]. right. by exists t.
    + exists (c :: w). split; [by apply not_elem_of_cons|].
      destruct E as [->|(t' & ->)]; [by left|right; by exists t'].
Qed.

Lemma comps_snoc t w : noslash w -> w <> [] -> comps (t ++ 47 :: w) = comps t ++ [w].
Proof.
  intros Hn Hw. assert (forall n u, (length u <= n)%nat -> comps (u ++ 47 :: w) = comps u ++ [w]) as Hk.
  { induction n as [|n IH]; intros u Hu.
    - destruct u; [|simpl in Hu; lia]. rewrite comps_app by apply not_elem_of_nil. simpl. by rewrite comps_word.
    - destruct (slash_cases u) as (x & Hx & [->|(u' & ->)]).
      + rewrite comps_app by done. case_decide as Hx0; [subst x; by rewrite (comps_word w)|].
        by rewrite (comps_word w), (comps_word x).
      + rewrite <- app_assoc. simpl. rewrite (comps_app x u'), (comps_app x (u' ++ 47 :: w)) by exact Hx. rewrite IH, app_assoc; [reflexivity|].
        rewrite length_app in Hu. simpl in Hu. lia. }
  by eapply Hk.
Qed.

(** A name holds 31 characters, and the code cuts a longer component into
    pieces of 31 which it follows one by one. *)
Fixpoint chunks (k : nat) (w : list Z) : list (list Z) :=
  match k with
  | O => []
  | S k => if bool_decide (length w <= 31)%nat then [w] else take 31 w :: chunks k (drop 31 w)
  end.
Definition pieces (t : list Z) : list (list Z) := flat_map (fun w => chunks (length w) w) (comps t).

Lemma chunks_enough k w : (length w <= k)%nat -> w <> [] -> chunks k w = chunks (length w) w.
Proof.
  assert (forall n k w, (length w <= n)%nat -> (length w <= k)%nat -> w <> [] -> chunks k w = chunks (length w) w) as Hn.
  { induction n as [|n IH]; intros m u Hu Hm Hne; [destruct u; [done|simpl in Hu; lia]|].
    destruct m as [|m]; [destruct u; [done|simpl in Hm; lia]|].
    destruct (length u) as [|l] eqn:El; [by destruct u|]. cbn [chunks]. rewrite El.
    case_bool_decide; [done|]. f_equal.
    assert (drop 31 u <> []) as Hd.
    { intros E. apply (f_equal length) in E. rewrite length_drop in E. simpl in E. lia. }
    rewrite (IH m), (IH l); try done; rewrite length_drop; lia. }
  intros Hk Hne. by apply (Hn (length w)).
Qed.

Lemma chunks_short w : w <> [] -> zlen w <= 31 -> chunks (length w) w = [w].
Proof. intros Hw Hl. destruct w; [done|]. cbn [length chunks]. rewrite bool_decide_true; [done|]. simpl in *. lia. Qed.

Lemma chunks_S k w :
  chunks (S k) w = if bool_decide (length w <= 31)%nat then [w] else take 31 w :: chunks k (drop 31 w).
Proof. done. Qed.

Lemma chunks_long w1 w2 :
  length w1 = 31%nat -> w2 <> [] -> chunks (length (w1 ++ w2)) (w1 ++ w2) = w1 :: chunks (length w2) w2.
Proof.
  intros H1 H2. assert (length (w1 ++ w2) = S (30 + length w2)) as El by (rewrite length_app; lia).
  rewrite El, chunks_S, El, bool_decide_false.
  - assert (take 31 (w1 ++ w2) = w1) as -> by by rewrite take_app_le, take_ge by lia.
    assert (drop 31 (w1 ++ w2) = w2) as -> by by rewrite drop_app_ge, H1, Nat.sub_diag by lia.
    f_equal. apply chunks_enough; [lia|done].
  - destruct w2; [done|]. simpl. lia.
Qed.

Lemma pieces_short t : Forall (fun w => zlen w <= 31) (comps t) -> pieces t = comps t.
Proof.
  unfold pieces. assert (Forall (fun w => w <> []) (comps t)) as Hne.
  { apply Forall_forall. intros w [? _]%list_elem_of_filter. done. }
  induction (comps t) as [|w ws IH]; [done|]. intros [Hw Hws]%Forall_cons.
  apply Forall_cons in Hne as [Hne Hnes]. cbn [flat_map]. rewrite IH, chunks_short by done. done.
Qed.

Lemma pieces_app w t :
  noslash w -> pieces (w ++ 47 :: t) = (if decide (w = []) then [] else chunks (length w) w) ++ pieces t.
Proof. intros Hw. unfold pieces. rewrite comps_app, flat_map_app by done. case_decide; [done|]. simpl. by rewrite app_nil_r. Qed.

Lemma pieces_word w : noslash w -> w <> [] -> pieces w = chunks (length w) w.
Proof. intros Hw Hn. unfold pieces. rewrite comps_word by done. simpl. by rewrite app_nil_r. Qed.

(** *** The code's walk *)

Lemma take_comp_spec w c rest pre room :
  Forall (fun x => x <> 0) w -> noslash w -> c = 0 \/ c = 47 \/ zlen pre + zlen w = 31 ->
  zlen pre + zlen w <= 31 -> length (pre ++ room) = 32%nat ->
  take_comp (w ++ c :: rest) (pre ++ room) (zlen pre)
  = Ret (pre ++ w ++ 0 :: drop (S (length w)) room, c :: rest).
Proof.
  unfold noslash. revert pre room. induction w as [|x w IH]; intros pre room Hz Hn Hc Hl Hr.
  - rewrite length_app in Hr. destruct room as [|y room]; [simpl in *; lia|]. cbn [app take_comp].
    assert (negb (c =? 0) && negb (c =? 47) && (zlen pre <? VFS_MAX_NAME - 1) = false) as ->.
    { destruct Hc as [->|[->|Hp]]; [done..|]. simpl in Hp. unfold VFS_MAX_NAME.
      destruct (Z.ltb_spec (zlen pre) (32 - 1)); [lia|]. by rewrite andb_false_r. }
    rewrite aset_app, bind_Ret by done. by rewrite <- app_assoc.
  - rewrite length_app in Hr. simpl in Hl. destruct room as [|y room]; [simpl in *; lia|].
    apply Forall_cons in Hz as [Hx Hz]. apply not_elem_of_cons in Hn as [Hx' Hn].
    cbn [app take_comp]. unfold VFS_MAX_NAME.
    destruct (Z.eqb_spec x 0); [done|]. destruct (Z.eqb_spec x 47); [lia|].
    destruct (Z.ltb_spec (zlen pre) (32 - 1)); [|lia]. cbn [negb andb].
    rewrite aset_app, bind_Ret by done.
    replace (zlen pre + 1) with (zlen (pre ++ [x])) by (rewrite length_app; simpl; lia).
    rewrite IH; [|done|done|simpl in Hc; rewrite length_app; simpl; lia|rewrite length_app; simpl; lia|rewrite !length_app; simpl in *; lia].
    by rewrite <- app_assoc.
Qed.

Lemma take_comp_local w c rest :
  Forall (fun x => x <> 0) w -> noslash w -> c = 0 \/ c = 47 \/ zlen w = 31 -> zlen w <= 31 ->
  exists comp, take_comp (w ++ c :: rest) local_name 0 = Ret (comp, c :: rest)
    /\ terminated comp /\ cstr comp = w.
Proof.
  intros Hz Hn Hc Hl. eexists. split.
  - apply (take_comp_spec w c rest [] local_name); [done|done|simpl; lia|simpl; lia|done].
  - simpl. split; [apply terminated_app|by apply cstr_app].
Qed.

(** Names of used inodes end. *)
Definition names_ok (ins : list vfs_inode_t) : Prop :=
  length ins = 64%nat /\ forall n i, ins !! n = Some i -> i_used i <> 0 -> terminated (i_name i).

Lemma find_child_spec ins p comp :
  names_ok ins -> terminated comp ->
  (exists j, find_child ins p comp = Ret (Some j) /\ is_child ins p (cstr comp) j)
  \/ (find_child ins p comp = Ret None /\ forall j, ~ is_child ins p (cstr comp) j).
Proof.
  intros [Hl Hn] Hc. unfold find_child, VFS_MAX_INODES.
  set (f := fun j => match ins !! Z.to_nat j with
    | Some i => negb (i_used i =? 0) && (i_parent i =? p) && bool_decide (cstr (i_name i) = cstr comp)
    | None => false end).
  destruct (find_range_Some f (fun j => i ← aget ins j;
      if negb (i_used i =? 0) && (i_parent i =? p) then r ← str_eq (i_name i) comp; Ret (negb (r =? 0))
      else Ret false) 1 64) as [(j & E & Hj & Ht & _)|[E Hf]].
  - intros j Hj. destruct (aget_ok ins j) as [i Hi]; [lia|]. rewrite Hi, bind_Ret.
    apply aget_Ret in Hi as [_ Hi]. unfold f. rewrite Hi.
    destruct (Z.eqb_spec (i_used i) 0) as [|Hu]; [done|]. destruct (Z.eqb_spec (i_parent i) p); [|done].
    cbn [negb andb]. rewrite str_eq_spec by eauto. rewrite bind_Ret. by case_bool_decide.
  - left. exists j. split; [done|]. split; [done|]. unfold f in Ht.
    destruct (ins !! Z.to_nat j) as [i|]; [|done]. exists i.
    apply andb_true_iff in Ht as [[Hu Hp]%andb_true_iff Ht]. apply bool_decide_eq_true in Ht.
    split_and!; [done| |lia|done]. destruct (Z.eqb_spec (i_used i) 0); [done|lia].
  - right. split; [done|]. intros j (Hj & i & Hi & Hu & Hp & Ht). specialize (Hf j Hj).
    unfold f in Hf. rewrite Hi, Hp, Ht, Z.eqb_refl, bool_decide_true in Hf by done.
    destruct (Z.eqb_spec (i_used i) 0); done.
Qed.

(** The result of walking components. *)
Definition walk_is (ins : list vfs_inode_t) (cur : Z) (cs : list (list Z)) (r : Z) : Prop :=
  (0 <= r /\ reach ins cur cs r) \/ (r = -1 /\ (unique_names ins -> forall k, ~ reach ins cur cs k)).

Lemma walk_is_cons ins cur w j cs r :
  is_child ins cur w j -> walk_is ins j cs r -> walk_is ins cur (w :: cs) r.
Proof.
  intros Hj [[Hr Hw]|[-> Hw]]; [left|right].
  - split; [done|]. by econstructor.
  - split; [done|]. intros Hu k Hk. inversion Hk; subst. apply (Hw Hu k).
    by rewrite (Hu _ _ _ _ Hj ltac:(eassumption)).
Qed.

Lemma walk_is_none ins cur w cs : (forall j, ~ is_child ins cur w j) -> walk_is ins cur (w :: cs) (-1).
Proof. intros Hj. right. split; [done|]. intros _ k Hk. inversion Hk; subst. by eapply Hj. Qed.

(** One round: the first piece [w], and the text [t1] that is left. *)
Lemma next_piece t :
  t <> [] -> Forall (fun c => c <> 0) t ->
  exists w d t1, t = w ++ d /\ Forall (fun x => x <> 0) w /\ noslash w /\ zlen w <= 31
    /\ (length t1 < length t)%nat /\ Forall (fun x => x <> 0) t1
    /\ pieces t = (if decide (w = []) then [] else [w]) ++ pieces t1
    /\ (d = [] /\ t1 = [] \/ d = 47 :: t1 \/ zlen w = 31 /\ d = t1 /\ exists c t2, d = c :: t2 /\ c <> 47).
Proof.
  intros Hne Hz. destruct (slash_cases t) as (w & Hw & E).
  destruct (decide (length w <= 31)%nat) as [Hl|Hl].
  - destruct E as [->|(t' & ->)].
    + exists w, [], []. rewrite app_nil_r, pieces_word, chunks_short by (done || lia).
      rewrite decide_False by done. split_and!; auto; [lia|]. destruct w; [done|]. simpl. lia.
    + apply Forall_app in Hz as [Hz [_ Hz']%Forall_cons]. exists w, (47 :: t'), t'.
      rewrite pieces_app, length_app by done. split_and!; auto; [lia|simpl; lia|].
      case_decide; [done|]. rewrite chunks_short by (done || lia). done.
  - rewrite <- (take_drop 31 w) in E, Hw. unfold noslash in Hw.
    apply not_elem_of_app in Hw as [Hw1 Hw2].
    assert (length (take 31 w) = 31%nat) as H1 by (rewrite length_take; lia).
    assert (length (drop 31 w) = length w - 31)%nat as H2 by apply length_drop.
    revert H1 H2 Hw1 Hw2 E. generalize (take 31 w), (drop 31 w). intros w1 w2 H1 H2 Hw1 Hw2 E.
    destruct w2 as [|c w2]; [simpl in H2; lia|]. assert (c <> 47) as Hc by set_solver.
    assert (noslash (w1 ++ c :: w2)) as Hw by (unfold noslash; set_solver).
    assert (forall d, (t = w1 ++ d) -> Forall (fun x => x <> 0) w1 /\ Forall (fun x => x <> 0) d /\ length t = (31 + length d)%nat) as Hd.
    { intros d ->. apply Forall_app in Hz as [? ?]. rewrite length_app. by rewrite H1. }
    assert (w1 <> []) as Hn1 by by destruct w1.
    destruct E as [E|(t' & E)].
    + destruct (Hd (c :: w2)) as (? & ? & Hlt); [done|]. exists w1, (c :: w2), (c :: w2).
      rewrite decide_False by done. split_and!; auto; [lia|lia| |right; right; split_and!; eauto; lia].
      rewrite E, !pieces_word by (done || unfold noslash; set_solver). by rewrite chunks_long.
    + rewrite <- app_assoc in E. simpl in E.
      destruct (Hd (c :: w2 ++ 47 :: t')) as (? & ? & Hlt); [done|]. exists w1, (c :: w2 ++ 47 :: t'), (c :: w2 ++ 47 :: t').
      rewrite decide_False by done. split_and!; auto; [lia|lia| |right; right; split_and!; eauto; lia].
      rewrite E. change (w1 ++ c :: w2 ++ 47 :: t') with (w1 ++ (c :: w2) ++ 47 :: t').
      rewrite app_assoc, pieces_app by done. rewrite decide_False by by destruct w1.
      rewrite chunks_long by done. change (c :: w2 ++ 47 :: t') with ((c :: w2) ++ 47 :: t').
      rewrite pieces_app by (unfold noslash; set_solver). by rewrite decide_False.
Qed.

Lemma resolve_loop_spec ins fuel t rest cur :
  names_ok ins -> (length t < fuel)%nat -> Forall (fun c => c <> 0) t -> 0 <= cur ->
  exists r, resolve_loop fuel ins (t ++ 0 :: rest) cur = Ret r /\ walk_is ins cur (pieces t) r.
Proof.
  intros Hins. revert t cur. induction fuel as [|fuel IH]; intros t cur Hf Hz Hcur; [lia|].
  cbn [resolve_loop]. destruct t as [|c t].
  { exists cur. split; [done|]. left. split; [done|constructor]. }
  assert (aget ((c :: t) ++ 0 :: rest) 0 = Ret c) as -> by done. rewrite bind_Ret.
  pose proof Hz as [Hc _]%Forall_cons. destruct (Z.eqb_spec c 0); [done|].
  destruct (next_piece (c :: t)) as (w & d & t1 & E & Hwz & Hw & Hwl & Hlt & Hz1 & Ec & Hd); [done|done|].
  assert (exists x rest', d ++ 0 :: rest = x :: rest' /\ (x = 0 \/ x = 47 \/ zlen w = 31)
    /\ (if x =? 47 then ptr_add (x :: rest') 1 else Ret (x :: rest')) = Ret (t1 ++ 0 :: rest)) as (x & rest' & Ex & Hx & Ep).
  { destruct Hd as [[-> ->]|[->|(Hl & -> & c' & t2 & -> & Hc')]].
    - exists 0, rest. split_and!; auto.
    - exists 47, (t1 ++ 0 :: rest). split_and!; auto. change (47 =? 47) with true. cbv iota.
      unfold ptr_add. rewrite bool_decide_true by (simpl; lia). done.
    - exists c', (t2 ++ 0 :: rest). split_and!; auto. destruct (Z.eqb_spec c' 47); done. }
  rewrite E, <- app_assoc, Ex. destruct (take_comp_local w x rest' Hwz Hw Hx Hwl) as (comp & -> & Ht & Hcs).
  rewrite bind_Ret. assert (aget (x :: rest') 0 = Ret x) as -> by done. rewrite bind_Ret, Ep.
  rewrite bind_Ret. destruct comp as [|c0 comp]; [by apply elem_of_nil in Ht|].
  assert (aget (c0 :: comp) 0 = Ret c0) as -> by done. rewrite bind_Ret.
  rewrite E in Ec. rewrite Ec. clear Ec E. destruct (IH t1 cur) as (r0 & Er0 & Hr0); [lia|done|done|].
  cbn [cstr] in Hcs. destruct (Z.eqb_spec c0 0) as [->|Hc0].
  - subst w. exists r0. by rewrite decide_True.
  - rewrite decide_False by (by subst w). simpl app.
    destruct (find_child_spec ins cur (c0 :: comp) Hins Ht) as [(j & -> & Hj)|[-> Hj]]; rewrite bind_Ret; cbv iota beta;
      cbn [cstr] in Hj; rewrite (proj2 (Z.eqb_neq c0 0)), Hcs in Hj by done.
    + pose proof Hj as [Hjr _]. destruct (IH t1 j) as (r & Er & Hr); [lia|done|lia|].
      exists r. split; [done|]. by eapply walk_is_cons.
    + exists (-1). split; [done|]. by apply walk_is_none.
Qed.

(** *** vfs_resolve and split_path *)

(** A C string whose length is an int. *)
Definition path_ok (path : list Z) : Prop := terminated path /\ zlen (cstr path) <= INT_MAX.

Lemma pieces_slash t : pieces (47 :: t) = pieces t.
Proof. unfold pieces. change (47 :: t) with ([] ++ 47 :: t). by rewrite comps_app by apply not_elem_of_nil. Qed.

Lemma vfs_resolve_spec {H} (v : vfs H) path :
  names_ok (inodes v) -> path_ok path -> cstr path <> [] ->
  exists r, vfs_resolve path v = Ret r /\ walk_is (inodes v) 0 (pieces (cstr path)) r.
Proof.
  intros Hv (Ht & _) Hne. pose proof (cstr_nonzero path) as Hz.
  apply terminated_split in Ht as (rest & E). remember (cstr path) as t. rewrite E.
  destruct t as [|c t]; [done|]. apply Forall_cons in Hz as [Hc Hz]. unfold vfs_resolve.
  assert (aget ((c :: t) ++ 0 :: rest) 0 = Ret c) as -> by done. rewrite bind_Ret.
  destruct (Z.eqb_spec c 0); [done|]. destruct (Z.eqb_spec c 47) as [->|Hs].
  - assert (aget ((47 :: t) ++ 0 :: rest) 1 = Ret (hd 0 (t ++ 0 :: rest))) as -> by by destruct t.
    rewrite !bind_Ret. rewrite pieces_slash. destruct t as [|c1 t].
    + exists 0. split; [done|]. left. split; [done|constructor].
    + pose proof Hz as [Hc1 _]%Forall_cons. cbn [hd app].
      destruct (Z.eqb_spec c1 0); [done|]. cbv iota.
      assert (ptr_add (47 :: c1 :: t ++ 0 :: rest) 1 = Ret ((c1 :: t) ++ 0 :: rest)) as ->.
      { unfold ptr_add. rewrite bool_decide_true; [done|]. simpl. lia. }
      rewrite bind_Ret. apply resolve_loop_spec; try done. rewrite length_app. simpl. lia.
  - rewrite !bind_Ret. cbv iota. rewrite ?bind_Ret. apply resolve_loop_spec; try done.
    + rewrite length_app. simpl. lia.
    + by constructor.
Qed.

Lemma last_slash_spec path t rest :
  path = t ++ 0 :: rest ->
  exists s, last_slash path (zlen t) = Ret s
    /\ ((s = -1 /\ noslash t) \/ (exists u w, t = u ++ 47 :: w /\ noslash w /\ s = zlen u)).
Proof.
  intros ->. unfold last_slash.
  destruct (for_range_ind (fun i s => (s = -1 /\ noslash (take (Z.to_nat i) t))
      \/ exists u w, take (Z.to_nat i) t = u ++ 47 :: w /\ noslash w /\ s = zlen u)
      0 (zlen t) (fun i slash => c ← aget (t ++ 0 :: rest) i; Ret (if c =? 47 then i else slash)) (-1))
    as (s & E & Hs); [lia|..].
  - left. split; [done|]. apply not_elem_of_nil.
  - intros i s Hi Hs. destruct (lookup_lt_is_Some_2 t (Z.to_nat i)) as [c Hc]; [lia|].
    assert (aget (t ++ 0 :: rest) i = Ret c) as ->.
    { apply aget_Ret. split; [lia|]. by apply lookup_app_l_Some. }
    rewrite bind_Ret. eexists. split; [reflexivity|].
    replace (Z.to_nat (i + 1)) with (S (Z.to_nat i)) by lia. rewrite (take_S_r _ _ c) by done.
    destruct (Z.eqb_spec c 47) as [->|Hc47].
    + right. exists (take (Z.to_nat i) t), []. split_and!; [done|apply not_elem_of_nil|].
      rewrite length_take. lia.
    + destruct Hs as [[-> Hn]|(u & w & Eu & Hw & ->)]; [left|right].
      * split; [done|]. unfold noslash in *. set_solver.
      * exists u, (w ++ [c]). rewrite Eu, <- app_assoc. split_and!; [done| |done]. unfold noslash in *. set_solver.
  - exists s. split; [exact E|]. by rewrite Nat2Z.id, firstn_all in Hs.
Qed.

Lemma copy_parent_spec path parent n :
  length parent = 32%nat -> 0 <= n -> (Z.to_nat n <= length path)%nat -> Forall (fun c => c <> 0) (take (Z.to_nat n) path) ->
  exists parent', copy_parent path parent n = Ret parent' /\ terminated parent'
    /\ cstr parent' = take 31 (take (Z.to_nat n) path).
Proof.
  intros Hp Hn Hl Hz. unfold copy_parent, VFS_MAX_NAME. set (m := Z.min n (32 - 1)).
  destruct (for_range_ind (fun i p => length p = 32%nat /\ take (Z.to_nat i) p = take (Z.to_nat i) path)
      0 m (fun i parent => c ← aget path i; aset parent i c) parent) as (p & E & Hlp & Htk); [lia|done|..].
  - intros i p Hi [Hlp Htk]. destruct (lookup_lt_is_Some_2 path (Z.to_nat i)) as [c Hc]; [lia|].
    assert (aget path i = Ret c) as -> by (apply aget_Ret; split; [lia|done]).
    rewrite bind_Ret, aset_ok by lia. eexists. split; [reflexivity|]. rewrite length_insert. split; [done|].
    replace (Z.to_nat (i + 1)) with (S (Z.to_nat i)) by lia.
    rewrite (take_S_r path _ c) by done. rewrite (take_S_r _ _ c) by (apply list_lookup_insert_eq; lia).
    by rewrite take_insert_ge, Htk by lia.
  - rewrite E, bind_Ret, aset_ok by lia. eexists. split; [reflexivity|].
    rewrite insert_take_drop by lia. rewrite Htk.
    assert (take (Z.to_nat m) path = take 31 (take (Z.to_nat n) path)) as ->.
    { rewrite take_take. f_equal. lia. }
    split; [apply terminated_app|]. apply cstr_app. by apply Forall_take.
Qed.

(** The parent of a path and its last component, and when there is one. *)
Definition split_of (t u w : list Z) : Prop :=
  noslash w /\ (t = w /\ u = [] \/ t = u ++ 47 :: w).

Lemma split_path_spec path t u w :
  terminated path -> zlen (cstr path) <= INT_MAX -> cstr path = t -> split_of t u w -> t <> [] ->
  exists ppath name, split_path path local_name local_name = Ret (c_bool (bool_decide (w <> [])), ppath, name)
    /\ terminated ppath /\ terminated name /\ cstr name = take 31 w
    /\ cstr ppath = if decide (u = []) then [47] else take 31 u.
Proof.
  intros Ht Hlen <- [Hw Hs] Hne. pose proof (cstr_nonzero path) as Hz.
  unfold split_path. rewrite k_strlen_spec, bind_Ret by done.
  destruct (Z.eqb_spec (zlen (cstr path)) 0) as [E0|_]; [destruct (cstr path); [done|simpl in E0; lia]|].
  apply terminated_split in Ht as (rest & E).
  destruct (last_slash_spec path (cstr path) rest E) as (s & -> & Hls). rewrite bind_Ret.
  assert (forall p : list Z, terminated p -> cstr p = w ->
    exists name, copy_name local_name p VFS_MAX_NAME = Ret name /\ terminated name /\ cstr name = take 31 w
      /\ aget name 0 = Ret (hd 0 name) /\ negb (hd 0 name =? 0) = bool_decide (w <> [])) as Hcp.
  { intros p Hp Ep. destruct (copy_name_spec local_name p VFS_MAX_NAME Hp) as (name & En & Hln & Htn & Hcn); [done|].
    exists name. rewrite Ep in Hcn. split_and!; try done.
    - destruct name; [done|]. done.
    - destruct name as [|x name]; [done|]. cbn [hd]. cbn [cstr] in Hcn. destruct w as [|y w].
      + destruct (Z.eqb_spec x 0); [done|]. done.
      + destruct (Z.eqb_spec x 0); [done|]. by rewrite bool_decide_true. }
  assert (forall k : nat, (k <= length path)%nat -> ptr_add path (Z.of_nat k) = Ret (drop k path)) as Hpa.
  { intros k Hk. unfold ptr_add. rewrite bool_decide_true by lia. by rewrite Nat2Z.id. }
  assert (forall B (f : list Z -> outcome B),
    (parent ← aset local_name 0 47; parent ← aset parent 1 0; f parent) = f (47 :: 0 :: replicate 30 0)) as Hroot.
  { intros B f. by rewrite aset_ok, bind_Ret, aset_ok, bind_Ret. }
  destruct Hls as [[-> Hns]|(u' & w' & Et & Hw' & ->)].
  - destruct Hs as [[Et ->]|Et]; [|exfalso; rewrite Et in Hns; unfold noslash in Hns; set_solver].
    change (-1 <? 0) with true. cbv iota.
    destruct (Hcp path) as (name & -> & ? & ? & E1 & E2); [rewrite E; apply terminated_app|done|].
    rewrite Hroot, !bind_Ret. cbv iota beta. rewrite E1, bind_Ret, E2. eexists _, name. split_and!; try done. right. left.
  - assert (u' = u /\ w' = w) as [-> ->].
    { destruct Hs as [[Et' _]|Et']; [exfalso; rewrite Et in Et'; unfold noslash in Hw; rewrite <- Et' in Hw; set_solver|].
      rewrite Et in Et'. clear - Et' Hw Hw'. unfold noslash in *.
      revert u' Et'. induction u as [|x u IH]; intros [|y u'] Et'; simpl in Et'; simplify_eq.
      - done.
      - exfalso. set_solver.
      - exfalso. set_solver.
      - destruct (IH u') as [-> ->]; [done|done]. }
    destruct (Z.ltb_spec (zlen u) 0); [lia|].
    assert (drop (S (length u)) path = w ++ 0 :: rest) as Ed.
    { rewrite E, Et, <- app_assoc. simpl. by rewrite drop_app_ge, Nat.sub_succ_l, Nat.sub_diag by lia. }
    destruct (Hcp (w ++ 0 :: rest)) as (name & En & ? & ? & E1 & E2).
    { apply terminated_app. }
    { apply cstr_app. rewrite Et in Hz. by apply Forall_app in Hz as [_ [_ ?]%Forall_cons]. }
    assert (length path = length u + S (length w) + S (length rest))%nat as Hpl.
    { rewrite E, Et, !length_app. simpl. lia. }
    destruct (Z.eqb_spec (zlen u) 0) as [Hu0|Hu0].
    + destruct u; [|simpl in Hu0; lia]. assert (ptr_add path 1 = Ret (drop 1 path)) as Hp1 by (apply (Hpa 1%nat); lia). cbn [length] in Ed.
      rewrite Hroot, Hp1, bind_Ret, Ed, En, ?bind_Ret. cbv iota beta. rewrite E1, bind_Ret, E2. eexists _, name. split_and!; try done. right. left.
    + replace (zlen u + 1) with (Z.of_nat (S (length u))) by lia. rewrite Hpa by lia. rewrite Ed.
      destruct (copy_parent_spec path local_name (zlen u)) as (pp & -> & ? & Ep); [done|lia|lia| |].
      { rewrite E, Et, Nat2Z.id, <- app_assoc, take_app_length. rewrite Et in Hz. by apply Forall_app in Hz as [? _]. }
      rewrite !bind_Ret, En, !bind_Ret, E1, bind_Ret, E2. eexists _, name. split_and!; try done.
      rewrite decide_False by (by intros ->). rewrite Ep. f_equal.
      by rewrite E, Et, Nat2Z.id, <- app_assoc, take_app_length.
Qed.

(** ** The invariant

    Used inodes form a tree of directories from inode 0, names are proper, each
    file owns one live 16 KB block, and descriptors are closed or on a file. *)
Record node_ok (i : vfs_inode_t) : Prop := {
  no_name : length (i_name i) = 32%nat;
  no_size : 0 <= i_size i <= 16384;
  no_free : i_used i = 0 -> i_data i = 0;
  no_term : i_used i <> 0 -> terminated (i_name i);
  no_kind : i_used i <> 0 -> (i_type i = VFS_FILE /\ i_data i <> 0) \/ (i_type i = VFS_DIR /\ i_data i = 0)
}.

Definition dir_at (ins : list vfs_inode_t) (p : Z) : Prop :=
  0 <= p < 64 /\ exists i, ins !! Z.to_nat p = Some i /\ i_used i <> 0 /\ i_type i = VFS_DIR.
Definition file_at (ins : list vfs_inode_t) (p : Z) : Prop :=
  0 <= p < 64 /\ exists i, ins !! Z.to_nat p = Some i /\ i_used i <> 0 /\ i_type i = VFS_FILE.

Record tree_ok (ins : list vfs_inode_t) : Prop := {
  t_len : length ins = 64%nat;
  t_nodes : Forall node_ok ins;
  t_root : dir_at ins 0;
  t_links p c j : is_child ins p c j -> dir_at ins p /\ c <> [] /\ noslash c;
  t_rank : exists rank : Z -> nat, forall p c j, is_child ins p c j -> (rank p < rank j)%nat
}.

Definition file_block (i : vfs_inode_t) : list (Z * Z) :=
  if i_data i =? 0 then [] else [(i_data i, VFS_MAX_FSIZE)].
Definition file_blocks (ins : list vfs_inode_t) : list (Z * Z) := flat_map file_block ins.

Definition fd_ok (ins : list vfs_inode_t) (f : vfs_fd_t) : Prop :=
  f_inode f = -1 \/ (file_at ins (f_inode f) /\ 0 <= f_pos f <= VFS_MAX_FSIZE).

Record vfs_inv {H} `{Allocator H} (v : vfs H) (rest : list (Z * Z)) : Prop := {
  vi_tree : tree_ok (inodes v);
  vi_nfds : length (fds v) = 16%nat;
  vi_fds : Forall (fd_ok (inodes v)) (fds v);
  vi_blocks : bowns (vblocks v) (file_blocks (inodes v) ++ rest)
}.

Lemma tree_names_ok ins : tree_ok ins -> names_ok ins.
Proof.
  intros Ht. split; [apply Ht|]. intros n i Hn Hu. apply no_term; [|done].
  eapply Forall_lookup_1; [apply Ht|done].
Qed.

Lemma tree_node ins n i : tree_ok ins -> ins !! n = Some i -> node_ok i.
Proof. intros Ht. apply Forall_lookup_1, Ht. Qed.

Lemma tree_lookup ins j : tree_ok ins -> 0 <= j < 64 -> exists i, ins !! Z.to_nat j = Some i /\ aget ins j = Ret i.
Proof.
  intros Ht Hj. destruct (aget_ok ins j) as [i Hi]; [rewrite (t_len _ Ht); lia|].
  exists i. by pose proof Hi as [? ?]%aget_Ret.
Qed.

Lemma child_used ins p c j : is_child ins p c j -> exists i, ins !! Z.to_nat j = Some i /\ i_used i <> 0.
Proof. intros (_ & i & ? & ? & _). eauto. Qed.

(** *** Updating one inode *)

Lemma is_child_insert ins idx i' p c j :
  1 <= idx < 64 -> length ins = 64%nat ->
  is_child (<[Z.to_nat idx := i']> ins) p c j
  <-> (j = idx /\ i_used i' <> 0 /\ i_parent i' = p /\ cstr (i_name i') = c) \/ (j <> idx /\ is_child ins p c j).
Proof.
  intros Hi Hl. unfold is_child. destruct (decide (j = idx)) as [->|Hj].
  - rewrite list_lookup_insert_eq by lia. naive_solver.
  - split.
    + intros (? & i & E & ?). rewrite list_lookup_insert_ne in E by lia. eauto 10.
    + intros [[? _]|(_ & ? & i & E & ?)]; [done|]. split; [done|]. exists i. by rewrite list_lookup_insert_ne by lia.
Qed.

Lemma lookup_insert_node (ins : list vfs_inode_t) idx i' j i :
  0 <= idx < 64 -> length ins = 64%nat -> 0 <= j ->
  <[Z.to_nat idx := i']> ins !! Z.to_nat j = Some i <-> (j = idx /\ i = i') \/ (j <> idx /\ ins !! Z.to_nat j = Some i).
Proof.
  intros Hi Hl Hj. destruct (decide (j = idx)) as [->|Hne].
  - rewrite list_lookup_insert_eq by lia. naive_solver.
  - rewrite list_lookup_insert_ne by lia. naive_solver.
Qed.

(** The fields of an inode the tree depends on. *)
Definition same_node (i i' : vfs_inode_t) : Prop :=
  i_used i' = i_used i /\ i_type i' = i_type i /\ i_parent i' = i_parent i /\ i_name i' = i_name i.

Lemma same_child (ins : list vfs_inode_t) idx i i' p c j :
  0 <= idx < 64 -> length ins = 64%nat -> ins !! Z.to_nat idx = Some i -> same_node i i' ->
  is_child (<[Z.to_nat idx := i']> ins) p c j <-> is_child ins p c j.
Proof.
  intros Hi Hl E (Eu & _ & Ep & En). unfold is_child.
  split; intros (Hj & x & Hx & Hrest); (split; [done|]).
  - apply lookup_insert_node in Hx as [[-> ->]|[? Hx]]; try lia; [|eauto].
    exists i. rewrite <- Eu, <- Ep, <- En. auto.
  - destruct (decide (j = idx)) as [->|Hne].
    + exists i'. rewrite list_lookup_insert_eq by lia. rewrite E in Hx. injection Hx as <-.
      rewrite Eu, Ep, En. auto.
    + exists x. by rewrite list_lookup_insert_ne by lia.
Qed.

Lemma same_file_at ins idx i i' j :
  0 <= idx < 64 -> length ins = 64%nat -> ins !! Z.to_nat idx = Some i -> same_node i i' ->
  file_at ins j -> file_at (<[Z.to_nat idx := i']> ins) j.
Proof.
  intros Hi Hl E (Eu & Et & _) (Hj & x & Hx & ?). split; [done|]. destruct (decide (j = idx)) as [->|Hne].
  - exists i'. rewrite list_lookup_insert_eq by lia. rewrite E in Hx. injection Hx as <-. by rewrite Eu, Et.
  - exists x. by rewrite list_lookup_insert_ne by lia.
Qed.

Lemma same_dir_at ins idx i i' j :
  0 <= idx < 64 -> length ins = 64%nat -> ins !! Z.to_nat idx = Some i -> same_node i i' ->
  dir_at ins j -> dir_at (<[Z.to_nat idx := i']> ins) j.
Proof.
  intros Hi Hl E (Eu & Et & _) (Hj & x & Hx & ?). split; [done|]. destruct (decide (j = idx)) as [->|Hne].
  - exists i'. rewrite list_lookup_insert_eq by lia. rewrite E in Hx. injection Hx as <-. by rewrite Eu, Et.
  - exists x. by rewrite list_lookup_insert_ne by lia.
Qed.

Lemma tree_same ins idx i i' :
  tree_ok ins -> 0 <= idx < 64 -> ins !! Z.to_nat idx = Some i -> same_node i i' -> node_ok i' ->
  tree_ok (<[Z.to_nat idx := i']> ins).
Proof.
  intros Ht Hi E Hs Hok. pose proof (t_len _ Ht) as Hl. split.
  - by rewrite length_insert.
  - apply Forall_insert; [apply Ht|done].
  - apply (same_dir_at _ _ i); [done..|apply Ht].
  - intros p c j. rewrite (same_child _ _ i) by done. intros Hc.
    destruct (t_links _ Ht _ _ _ Hc) as (? & ?). split; [by apply (same_dir_at _ _ i)|done].
  - destruct (t_rank _ Ht) as [rank Hr]. exists rank. intros p c j. rewrite (same_child _ _ i) by done. apply Hr.
Qed.

Lemma tree_add ins idx i i' :
  tree_ok ins -> 1 <= idx < 64 -> ins !! Z.to_nat idx = Some i -> i_used i = 0 ->
  node_ok i' -> i_used i' <> 0 -> dir_at ins (i_parent i') -> cstr (i_name i') <> [] -> noslash (cstr (i_name i')) ->
  tree_ok (<[Z.to_nat idx := i']> ins).
Proof.
  intros Ht Hi E Hu Hok Hu' Hd Hn Hs. pose proof (t_len _ Ht) as Hl.
  assert (forall p, dir_at ins p -> dir_at (<[Z.to_nat idx := i']> ins) p) as Hdir.
  { intros p (Hp & x & Hx & ? & ?). split; [done|]. exists x. rewrite list_lookup_insert_ne; [done|].
    intros Heq. assert (p = idx) as -> by lia. rewrite E in Hx. by simplify_eq. }
  split.
  - by rewrite length_insert.
  - apply Forall_insert; [apply Ht|done].
  - apply Hdir, Ht.
  - intros p c j [(-> & _ & <- & <-)|(_ & Hc)]%is_child_insert; [split; [by apply Hdir|done]| |done|done].
    destruct (t_links _ Ht _ _ _ Hc) as (? & ?). split; [by apply Hdir|done].
  - destruct (t_rank _ Ht) as [rank Hr].
    exists (fun j => if decide (j = idx) then S (rank (i_parent i')) else rank j).
    assert (forall p, dir_at ins p -> p <> idx) as Hne.
    { intros p (_ & x & Hx & ? & _) ->. rewrite E in Hx. by simplify_eq. }
    intros p c j [(-> & _ & <- & <-)|(Hj & Hc)]%is_child_insert; [| |done|done].
    + rewrite (decide_True (P := idx = idx)) by done. rewrite decide_False by by apply Hne. lia.
    + rewrite (decide_False (P := j = idx)) by done.
      rewrite decide_False by (apply Hne; eapply t_links; done). by eapply Hr.
Qed.

Lemma inode_zero_ok : node_ok inode_zero.
Proof. by split; simpl; try lia. Qed.

Lemma tree_del ins idx :
  tree_ok ins -> 1 <= idx < 64 -> (forall c j, ~ is_child ins idx c j) ->
  tree_ok (<[Z.to_nat idx := inode_zero]> ins).
Proof.
  intros Ht Hi Hc. pose proof (t_len _ Ht) as Hl.
  assert (forall p, p <> idx -> dir_at ins p -> dir_at (<[Z.to_nat idx := inode_zero]> ins) p) as Hdir.
  { intros p Hne (Hp & x & Hx & ?). split; [done|]. exists x. by rewrite list_lookup_insert_ne by lia. }
  split.
  - by rewrite length_insert.
  - apply Forall_insert; [apply Ht|apply inode_zero_ok].
  - apply Hdir; [lia|apply Ht].
  - intros p c j [(_ & Hu & _)|(Hj & Hp)]%is_child_insert; [done| |done|done].
    destruct (t_links _ Ht _ _ _ Hp) as (? & ?). split; [|done]. apply Hdir; [|done]. intros ->. by eapply Hc.
  - destruct (t_rank _ Ht) as [rank Hr]. exists rank.
    intros p c j [(_ & Hu & _)|(Hj & Hp)]%is_child_insert; [done|by eapply Hr|done|done].
Qed.

(** *** The blocks of the files *)

Lemma file_blocks_lookup ins n i :
  ins !! n = Some i -> file_blocks ins ≡ₚ file_block i ++ file_blocks (take n ins ++ drop (S n) ins).
Proof.
  intros E. unfold file_blocks. rewrite <- (take_drop_middle ins n i) at 1 by done.
  rewrite !flat_map_app. cbn [flat_map]. rewrite !app_assoc. by rewrite (Permutation_app_comm _ (file_block i)).
Qed.

Lemma file_blocks_insert ins n i i' :
  ins !! n = Some i -> file_blocks (<[n := i']> ins) ≡ₚ file_block i' ++ file_blocks (take n ins ++ drop (S n) ins).
Proof.
  intros E. pose proof (lookup_lt_Some _ _ _ E) as Hlt.
  rewrite (file_blocks_lookup _ n i') by (apply list_lookup_insert_eq; done).
  by rewrite take_insert_ge, drop_insert_lt by lia.
Qed.

Lemma file_blocks_same ins n i i' :
  ins !! n = Some i -> i_data i' = i_data i -> file_blocks (<[n := i']> ins) ≡ₚ file_blocks ins.
Proof.
  intros E Ed. rewrite (file_blocks_insert _ _ i) by done. rewrite (file_blocks_lookup ins n i) by done.
  unfold file_block. by rewrite Ed.
Qed.

(** ** Operations under the invariant *)
Section VfsOps.
Context {H : Type} `{AllocatorLaws H}.
Implicit Types (v : vfs H) (path buf junk : list Z) (rest : list (Z * Z)).

Lemma upd_inode_ok v i x f :
  0 <= i -> inodes v !! Z.to_nat i = Some x ->
  upd_inode v i f = Ret (set_inodes v (<[Z.to_nat i := f x]> (inodes v))).
Proof.
  intros Hi E. pose proof (lookup_lt_Some _ _ _ E). unfold upd_inode.
  rewrite (proj2 (aget_Ret _ _ x)), bind_Ret by done. by rewrite aset_ok, bind_Ret by lia.
Qed.

Lemma upd_fd_ok v i x f :
  0 <= i -> fds v !! Z.to_nat i = Some x ->
  upd_fd v i f = Ret (set_fds v (<[Z.to_nat i := f x]> (fds v))).
Proof.
  intros Hi E. pose proof (lookup_lt_Some _ _ _ E). unfold upd_fd.
  rewrite (proj2 (aget_Ret _ _ x)), bind_Ret by done. by rewrite aset_ok, bind_Ret by lia.
Qed.

(** The first unused inode, when there is one. *)
Lemma alloc_inode_spec v :
  tree_ok (inodes v) ->
  (exists i x, alloc_inode v = Ret (Some i) /\ 1 <= i < 64 /\ inodes v !! Z.to_nat i = Some x /\ i_used x = 0)
  \/ (alloc_inode v = Ret None /\ forall i x, 1 <= i < 64 -> inodes v !! Z.to_nat i = Some x -> i_used x <> 0).
Proof.
  intros Ht. set (f := fun i => match inodes v !! Z.to_nat i with Some x => i_used x =? 0 | None => false end).
  unfold alloc_inode, VFS_MAX_INODES.
  destruct (find_range_Some f (fun i => x ← aget (inodes v) i; Ret (i_used x =? 0)) 1 64)
    as [(i & E & Hi & Hf & _)|[E Hf]].
  - intros i Hi. destruct (tree_lookup (inodes v) i Ht) as (x & Hx & Ex); [lia|].
    unfold f. by rewrite Ex, Hx.
  - left. unfold f in Hf. destruct (inodes v !! Z.to_nat i) as [x|] eqn:Ex; [|done]. exists i, x. split_and!; try done; lia.
  - right. split; [done|]. intros i x Hi Hx. specialize (Hf i Hi). unfold f in Hf. rewrite Hx in Hf. lia.
Qed.

Lemma alloc_fd_spec v :
  length (fds v) = 16%nat ->
  (exists i x, alloc_fd v = Ret (Some i) /\ 0 <= i < 16 /\ fds v !! Z.to_nat i = Some x /\ f_inode x = -1)
  \/ (alloc_fd v = Ret None /\ Forall (fun x => f_inode x <> -1) (fds v)).
Proof.
  intros Hl. set (f := fun i => match fds v !! Z.to_nat i with Some x => f_inode x =? -1 | None => false end).
  unfold alloc_fd, VFS_MAX_FDS.
  destruct (find_range_Some f (fun i => x ← aget (fds v) i; Ret (f_inode x =? -1)) 0 16)
    as [(i & E & Hi & Hf & _)|[E Hf]].
  - intros i Hi. destruct (aget_ok (fds v) i) as [x Hx]; [lia|]. unfold f.
    pose proof Hx as [_ Ex]%aget_Ret. by rewrite Ex, Hx.
  - left. unfold f in Hf. destruct (fds v !! Z.to_nat i) as [x|] eqn:Ex; [|done]. exists i, x. split_and!; try done; lia.
  - right. split; [done|]. apply Forall_lookup. intros n x Hx. pose proof (lookup_lt_Some _ _ _ Hx).
    specialize (Hf (Z.of_nat n) ltac:(lia)). unfold f in Hf. rewrite Nat2Z.id, Hx in Hf. lia.
Qed.

(** *** Descriptors *)

Lemma set_fds_inv v rest fs :
  vfs_inv v rest -> length fs = 16%nat -> Forall (fd_ok (inodes v)) fs -> vfs_inv (set_fds v fs) rest.
Proof. intros [] Hl Hf. by split. Qed.

Lemma upd_fd_inv v rest i x f :
  vfs_inv v rest -> 0 <= i -> fds v !! Z.to_nat i = Some x -> (fd_ok (inodes v) x -> fd_ok (inodes v) (f x)) ->
  exists v', upd_fd v i f = Ret v' /\ v' = set_fds v (<[Z.to_nat i := f x]> (fds v)) /\ vfs_inv v' rest.
Proof.
  intros Hv Hi Ex Hf. eexists. split; [by apply upd_fd_ok|]. split; [done|]. pose proof (vi_fds _ _ Hv) as Hfd.
  apply set_fds_inv; [done|by rewrite length_insert, (vi_nfds _ _ Hv)|].
  apply Forall_insert; [done|]. apply Hf. by eapply Forall_lookup_1.
Qed.

Lemma fd_lookup v rest i : vfs_inv v rest -> 0 <= i < 16 -> exists x, fds v !! Z.to_nat i = Some x /\ fd_ok (inodes v) x.
Proof.
  intros Hv Hi. destruct (lookup_lt_is_Some_2 (fds v) (Z.to_nat i)) as [x Hx]; [rewrite (vi_nfds _ _ Hv); lia|].
  exists x. split; [done|]. eapply Forall_lookup_1; [apply Hv|done].
Qed.

Lemma vfs_close_spec v rest fd :
  vfs_inv v rest -> exists v', vfs_close fd v = Ret v' /\ vfs_inv v' rest
    /\ inodes v' = inodes v /\ vblocks v' = vblocks v.
Proof.
  intros Hv. unfold vfs_close, VFS_MAX_FDS.
  destruct (Z.leb_spec 0 fd), (Z.ltb_spec fd 16); cbn [andb]; try (exists v; by split_and!).
  destruct (fd_lookup v rest fd Hv ltac:(lia)) as (x & Hx & _).
  destruct (upd_fd_inv v rest fd x (set_finode (-1)) Hv ltac:(lia) Hx) as (v' & E & -> & Hv').
  - intros _. by left.
  - eexists. split_and!; [exact E|exact Hv'|done|done].
Qed.

(** [fd] is open as [f] on the file [x]. *)
Definition opened v (fd : Z) (f : vfs_fd_t) (x : vfs_inode_t) : Prop :=
  0 <= fd < 16 /\ fds v !! Z.to_nat fd = Some f /\ 0 <= f_inode f < 64
  /\ inodes v !! Z.to_nat (f_inode f) = Some x /\ i_used x <> 0.

Lemma open_desc_spec v rest fd :
  vfs_inv v rest ->
  (open_desc fd v = Ret None /\ forall f x, ~ opened v fd f x)
  \/ (exists f x, open_desc fd v = Ret (Some f) /\ opened v fd f x /\ aget (inodes v) (f_inode f) = Ret x
       /\ i_type x = VFS_FILE /\ i_data x <> 0 /\ node_ok x /\ 0 <= f_pos f <= VFS_MAX_FSIZE
       /\ (i_data x, VFS_MAX_FSIZE) ∈ file_blocks (inodes v)).
Proof.
  intros Hv. unfold open_desc, VFS_MAX_FDS. destruct (Z.ltb_spec fd 0), (Z.leb_spec 16 fd); cbn [orb];
    try (left; split; [done|]; intros f x (? & _); lia).
  destruct (fd_lookup v rest fd Hv ltac:(lia)) as (f & Hf & Hok).
  rewrite (proj2 (aget_Ret _ _ f)), bind_Ret by (split; [lia|done]).
  destruct (Z.ltb_spec (f_inode f) 0) as [Hn|Hn].
  - left. split; [done|]. intros g x (_ & Hg & ? & _). rewrite Hf in Hg. injection Hg as <-. lia.
  - right. destruct Hok as [?|[(Hr & x & Hx & Hu & Hty) Hp]]; [lia|].
    pose proof (tree_node _ _ _ (vi_tree _ _ Hv) Hx) as Hnx. exists f, x.
    destruct (no_kind _ Hnx Hu) as [[_ Hd]|[? _]]; [|unfold VFS_DIR, VFS_FILE in *; lia].
    split_and!; try done; try lia; [by apply aget_Ret|].
    rewrite file_blocks_lookup by done. unfold file_block. destruct (Z.eqb_spec (i_data x) 0); [done|]. by left.
Qed.

Lemma vfs_seek_spec v rest fd offset whence :
  vfs_inv v rest -> INT_MIN + 16384 <= offset <= INT_MAX - 16384 ->
  exists r v', vfs_seek fd offset whence v = Ret (r, v') /\ vfs_inv v' rest
    /\ inodes v' = inodes v /\ vblocks v' = vblocks v
    /\ forall f x, opened v fd f x -> whence = SEEK_SET ->
         if bool_decide (0 <= offset <= i_size x)
         then r = offset /\ opened v' fd (set_pos offset f) x else r = -1 /\ v' = v.
Proof.
  intros Hv Ho. unfold vfs_seek. destruct (open_desc_spec v rest fd Hv) as [[E Hno]|(f & x & E & Hop & Ex & Hty & Hd & Hnx & Hp & _)].
  - rewrite E. exists (-1), v. split_and!; try done. intros f x Hf. by destruct (Hno f x).
  - rewrite E, bind_Ret, Ex, bind_Ret. pose proof (no_size _ Hnx). unfold VFS_MAX_FSIZE in *.
    rewrite !s32_small by lia. cbv zeta. set (np := if whence =? SEEK_SET then _ else _).
    assert (whence = SEEK_SET -> np = Some offset) as Hset by (intros ->; done).
    assert (forall g y, opened v fd g y -> g = f /\ y = x) as Huniq.
    { intros g y (_ & Hg & _ & Hy & _). destruct Hop as (_ & Hf & _ & Hx & _). rewrite Hf in Hg. injection Hg as <-. rewrite Hx in Hy. by injection Hy as <-. }
    destruct np as [np|]; [|exists (-1), v; split_and!; try done; intros g y _ Hs; by specialize (Hset Hs)].
    destruct (Z.ltb_spec np 0), (Z.ltb_spec (i_size x) np); cbn [orb];
      try (exists (-1), v; split_and!; try done; intros g y Hg Hs; specialize (Hset Hs); injection Hset as ->;
           destruct (Huniq _ _ Hg) as [-> ->]; rewrite bool_decide_false by lia; done).
    destruct Hop as (Hfd & Hf & Hfi & Hx & Hu).
    destruct (upd_fd_inv v rest fd f (set_pos np) Hv ltac:(lia) Hf) as (v' & E' & -> & Hv').
    { intros [?|[? _]]; [by left|right]. split; [done|]. unfold VFS_MAX_FSIZE. simpl. lia. }
    rewrite E', bind_Ret. eexists _, _. split_and!; [reflexivity|done|done|done|].
    intros g y Hg Hs. destruct (Huniq _ _ Hg) as [-> ->]. specialize (Hset Hs). injection Hset as ->.
    rewrite bool_decide_true by lia. split; [done|]. unfold opened. split_and!; try done; try lia; try apply Hfi.
    cbn [fds set_fds]. apply list_lookup_insert_eq. rewrite (vi_nfds _ _ Hv). lia.
Qed.

(** *** Contents *)

(** The bytes of a file. *)
Definition file_bytes v (idx : Z) : option (list Z) :=
  x ← inodes v !! Z.to_nat idx;
  if bool_decide (i_used x <> 0 /\ i_type x = VFS_FILE) then
    b ← blocks (vblocks v) !! i_data x; Some (take (Z.to_nat (i_size x)) b)
  else None.

Lemma file_bytes_ext v v' idx :
  inodes v' = inodes v -> vblocks v' = vblocks v -> file_bytes v' idx = file_bytes v idx.
Proof. intros E1 E2. unfold file_bytes. by rewrite E1, E2. Qed.

Lemma opened_bytes v rest fd f x :
  vfs_inv v rest -> opened v fd f x -> i_type x = VFS_FILE -> i_data x <> 0 ->
  exists bs, blk_get (i_data x) (vblocks v) = Ret bs /\ zlen bs = 16384
    /\ file_bytes v (f_inode f) = Some (take (Z.to_nat (i_size x)) bs).
Proof.
  intros Hv (_ & _ & _ & Hx & Hu) Hty Hd.
  destruct (bowns_get (vblocks v) _ (i_data x) VFS_MAX_FSIZE (vi_blocks _ _ Hv)) as (bs & E & Hl); [|done|].
  { apply elem_of_app. left. rewrite file_blocks_lookup by done. unfold file_block.
    destruct (Z.eqb_spec (i_data x) 0); [done|]. by left. }
  exists bs. split_and!; try done. unfold file_bytes. rewrite Hx. cbn [mbind option_bind].
  rewrite bool_decide_true by done. unfold blk_get in E. destruct (blocks (vblocks v) !! i_data x); [|done]. by injection E as ->.
Qed.

Lemma file_data_ne v rest n m x y :
  vfs_inv v rest -> n <> m -> inodes v !! n = Some x -> inodes v !! m = Some y ->
  i_data x <> 0 -> i_data y <> i_data x.
Proof.
  intros Hv Hnm Hx Hy Hd Heq. pose proof (vi_blocks _ _ Hv) as [(_ & Hnd & _) _].
  rewrite fmap_app in Hnd. apply NoDup_app in Hnd as [Hnd _].
  assert (file_blocks (inodes v) ≡ₚ file_block x ++ file_blocks (<[n := inode_zero]> (inodes v))) as Hp.
  { rewrite (file_blocks_insert _ _ x) by done. by rewrite (file_blocks_lookup _ n x) by done. }
  rewrite Hp in Hnd. unfold file_block at 1 in Hnd. destruct (Z.eqb_spec (i_data x) 0); [done|].
  cbn [app fmap list_fmap fst] in Hnd. apply NoDup_cons in Hnd as [Hni _]. apply Hni.
  apply list_elem_of_fmap. exists (i_data y, VFS_MAX_FSIZE). split; [done|].
  rewrite (file_blocks_lookup _ m y) by by rewrite list_lookup_insert_ne.
  unfold file_block. destruct (Z.eqb_spec (i_data y) 0); [lia|]. by left.
Qed.

Lemma vfs_read_spec v rest fd buf len :
  vfs_inv v rest -> 0 <= len <= INT_MAX -> len <= zlen buf ->
  exists r buf' v', vfs_read fd buf len v = Ret (r, buf', v') /\ vfs_inv v' rest
    /\ inodes v' = inodes v /\ vblocks v' = vblocks v
    /\ ((forall f x, ~ opened v fd f x) -> r = -1 /\ buf' = buf)
    /\ forall f x, opened v fd f x -> exists c, file_bytes v (f_inode f) = Some c
         /\ r = Z.max 0 (Z.min len (zlen c - f_pos f))
         /\ buf' = take (Z.to_nat r) (drop (Z.to_nat (f_pos f)) c) ++ drop (Z.to_nat r) buf
         /\ opened v' fd (set_pos (f_pos f + r) f) x.
Proof.
  intros Hv Hlen Hbuf. unfold vfs_read.
  destruct (open_desc_spec v rest fd Hv) as [[E Hno]|(f & x & E & Hop & Ex & Hty & Hd & Hnx & Hp & _)].
  { rewrite E. exists (-1), buf, v. split_and!; try done. intros f x Hf. by destruct (Hno f x). }
  rewrite E, bind_Ret, Ex, bind_Ret, Hty. destruct (Z.eqb_spec (i_data x) 0); [done|]. cbn [negb orb Z.eqb VFS_FILE].
  destruct (opened_bytes _ _ _ _ _ Hv Hop Hty Hd) as (bs & Eb & Hbl & Hc).
  pose proof (no_size _ Hnx) as Hsz. unfold VFS_MAX_FSIZE in Hp. rewrite !s32_small by lia. cbv zeta.
  assert (forall g y, opened v fd g y -> g = f /\ y = x) as Huniq.
  { intros g y (_ & Hg & _ & Hy & _). destruct Hop as (_ & Hf & _ & Hx & _). rewrite Hf in Hg. injection Hg as <-.
    rewrite Hx in Hy. by injection Hy as <-. }
  set (r := Z.max 0 (Z.min len (i_size x - f_pos f))).
  assert (zlen (take (Z.to_nat (i_size x)) bs) = i_size x) as Hcl by (rewrite length_take; lia).
  assert (take (Z.to_nat r) (drop (Z.to_nat (f_pos f)) bs)
    = take (Z.to_nat r) (drop (Z.to_nat (f_pos f)) (take (Z.to_nat (i_size x)) bs))) as Htk.
  { rewrite skipn_firstn_comm, take_take. f_equal. lia. }
  destruct (Z.leb_spec (i_size x - f_pos f) 0) as [Ha|Ha].
  - exists 0, buf, v. split_and!; try done; [by intros Hno; destruct (Hno f x)|].
    intros g y Hg. destruct (Huniq _ _ Hg) as [-> ->]. exists (take (Z.to_nat (i_size x)) bs).
    rewrite Hcl. split_and!; try done; [lia|]. rewrite Z.add_0_r. by destruct f.
  - replace (if _ <? _ then _ else len) with r
      by (unfold r; destruct (Z.ltb_spec (i_size x - f_pos f) len); lia).
    rewrite Eb, bind_Ret. unfold ptr_add. rewrite bool_decide_true, bind_Ret by lia.
    rewrite u64_small by lia. rewrite memcpy_spec, bind_Ret by (rewrite ?length_drop; lia).
    rewrite s32_small by lia. destruct Hop as (Hfd & Hf & Hfi & Hx & Hu).
    destruct (upd_fd_inv v rest fd f (set_pos (f_pos f + r)) Hv ltac:(lia) Hf) as (v' & E' & -> & Hv').
    { intros [?|[? _]]; [by left|right]. split; [done|]. unfold VFS_MAX_FSIZE. simpl. lia. }
    rewrite E', bind_Ret. eexists _, _, _. split_and!; [reflexivity|done|done|done|..].
    + intros Hno. destruct (Hno f x). unfold opened. tauto.
    + intros g y Hg. destruct (Huniq _ _ Hg) as [-> ->]. exists (take (Z.to_nat (i_size x)) bs).
      rewrite Hcl, <- Htk. split; [done|]. split; [done|]. split; [done|].
      unfold opened. split_and!; try done; try lia; try apply Hfi.
      cbn [fds set_fds]. apply list_lookup_insert_eq. rewrite (vi_nfds _ _ Hv). lia.
Qed.

Lemma fds_same ins idx i i' fs :
  0 <= idx < 64 -> length ins = 64%nat -> ins !! Z.to_nat idx = Some i -> same_node i i' ->
  Forall (fd_ok ins) fs -> Forall (fd_ok (<[Z.to_nat idx := i']> ins)) fs.
Proof.
  intros Hi Hl E Hs Hf. eapply Forall_impl; [exact Hf|]. intros f [?|[? ?]]; [by left|right].
  split; [|done]. by apply (same_file_at _ _ i).
Qed.

(** Writing [bs'] in the block of file [idx] and giving it size [sz]. *)
Lemma set_contents_inv v rest idx x bs' b sz :
  vfs_inv v rest -> 0 <= idx < 64 -> inodes v !! Z.to_nat idx = Some x -> i_used x <> 0 -> i_type x = VFS_FILE ->
  0 <= sz <= 16384 -> blocks b = <[i_data x := bs']> (blocks (vblocks v)) ->
  bowns b (file_blocks (inodes v) ++ rest) ->
  let v' := set_inodes (set_vblocks v b) (<[Z.to_nat idx := set_size sz x]> (inodes v)) in
  vfs_inv v' rest /\ file_bytes v' idx = Some (take (Z.to_nat sz) bs')
  /\ (forall j, 0 <= j -> j <> idx -> file_bytes v' j = file_bytes v j)
  /\ (forall p c j, is_child (inodes v') p c j <-> is_child (inodes v) p c j).
Proof.
  intros Hv Hi Hx Hu Hty Hsz Hb Ho v'. pose proof (vi_tree _ _ Hv) as Ht. pose proof (t_len _ Ht) as Hl.
  assert (same_node x (set_size sz x)) as Hs by done. pose proof (tree_node _ _ _ Ht Hx) as Hn.
  split_and!.
  - split.
    + apply (tree_same _ _ x); try done. destruct Hn. by split.
    + apply Hv.
    + cbn. apply (fds_same _ _ x); try done. apply Hv.
    + cbn. by rewrite (file_blocks_same _ _ x).
  - unfold file_bytes. cbn. rewrite list_lookup_insert_eq by lia. cbn [mbind option_bind i_used i_type i_data i_size set_size].
    rewrite bool_decide_true by done. by rewrite Hb, lookup_insert_eq.
  - intros j Hj Hne. unfold file_bytes. cbn. rewrite list_lookup_insert_ne by lia.
    destruct (inodes v !! Z.to_nat j) as [y|] eqn:Hy; [|done]. cbn [mbind option_bind].
    case_bool_decide as Hf; [|done]. rewrite Hb, lookup_insert_ne; [done|].
    assert (i_data x <> 0) as Hdx.
    { destruct (no_kind _ Hn Hu) as [[_ ?]|[? _]]; [done|]. unfold VFS_DIR, VFS_FILE in *. lia. }
    intros Heq. symmetry in Heq. revert Heq. apply (file_data_ne v rest (Z.to_nat idx) (Z.to_nat j)); try done. lia.
  - intros p c j. by apply (same_child _ _ x).
Qed.

(** [d] with the bytes [src] at [pos]. *)
Definition splice (pos : Z) (src d : list Z) : list Z :=
  take (Z.to_nat pos) d ++ src ++ drop (Z.to_nat pos + length src) d.

Lemma splice_length pos src d : 0 <= pos -> pos + zlen src <= zlen d -> zlen (splice pos src d) = zlen d.
Proof. intros Hp Hl. unfold splice. rewrite !length_app, length_take, length_drop. lia. Qed.

Lemma write_at pos n buf d :
  0 <= pos -> 0 <= n <= zlen buf -> pos + n <= zlen d ->
  at_off d pos (fun d => memcpy d buf n) = Ret (splice pos (take (Z.to_nat n) buf) d).
Proof.
  intros Hp Hn Hd. erewrite at_off_spec; [reflexivity|lia|].
  rewrite memcpy_spec by (rewrite ?length_drop; lia). rewrite drop_drop, length_take.
  do 3 f_equal. lia.
Qed.

(** Growing the file to the end of what was written. *)
Lemma take_splice pos src d (sz : nat) :
  0 <= pos <= Z.of_nat sz -> (sz <= length d)%nat -> pos + zlen src <= zlen d ->
  take (Nat.max sz (Z.to_nat pos + length src)) (splice pos src d) = splice pos src (take sz d).
Proof.
  intros Hp Hs Hd. unfold splice. rewrite take_take, (Nat.min_l (Z.to_nat pos)) by lia.
  rewrite take_app_ge by (rewrite length_take; lia). f_equal. rewrite length_take, Nat.min_l by lia.
  rewrite take_app_ge by lia. f_equal. rewrite skipn_firstn_comm. f_equal. lia.
Qed.

Definition write_pos (f : vfs_fd_t) (x : vfs_inode_t) : Z :=
  if has_flag (f_flags f) O_APPEND then i_size x else f_pos f.

(** The run of [vfs_write] on a file with room. *)
Lemma vfs_write_run v rest fd buf len f x :
  vfs_inv v rest -> opened v fd f x -> i_type x = VFS_FILE -> i_data x <> 0 ->
  0 <= i_size x <= 16384 -> 0 <= write_pos f x < 16384 -> open_desc fd v = Ret (Some f) ->
  aget (inodes v) (f_inode f) = Ret x -> 0 <= len <= zlen buf -> len <= INT_MAX ->
  let pos := write_pos f x in
  let r := Z.min len (16384 - pos) in
  exists bs b, blk_get (i_data x) (vblocks v) = Ret bs /\ zlen bs = 16384
    /\ blocks b = <[i_data x := splice pos (take (Z.to_nat r) buf) bs]> (blocks (vblocks v))
    /\ bowns b (file_blocks (inodes v) ++ rest)
    /\ vfs_write fd buf len v
       = Ret (r, set_fds (set_inodes (set_vblocks v b)
                            (<[Z.to_nat (f_inode f) := set_size (Z.max (i_size x) (pos + r)) x]> (inodes v)))
                   (<[Z.to_nat fd := set_pos (pos + r) f]> (fds v))).
Proof.
  intros Hv Hop Hty Hd Hsz Hp E Ex Hlen Hlm pos r. fold pos in Hp.
  pose proof Hop as (Hfd & Hf & Hfi & Hx & Hu).
  pose proof (vi_nfds _ _ Hv) as Hnf. pose proof (t_len _ (vi_tree _ _ Hv)) as Hni.
  destruct (bowns_upd (vblocks v) _ (i_data x) 16384 (fun d => at_off d pos (fun d => memcpy d buf r)) (vi_blocks _ _ Hv))
    as (bs & bs' & b & Eb & Hbl & Ew & E2 & Hb & Hob).
  { apply elem_of_app. left. rewrite file_blocks_lookup by done. unfold file_block.
    destruct (Z.eqb_spec (i_data x) 0); [done|]. by left. }
  { done. }
  { intros d Hdl. rewrite write_at by lia. eexists. split; [reflexivity|].
    rewrite splice_length; [done|lia|]. rewrite length_take. lia. }
  rewrite write_at in Ew by lia. injection Ew as <-.
  exists bs, b. split_and!; [done|done|done|done|].
  unfold vfs_write. rewrite E, bind_Ret, Ex, bind_Ret, Hty. destruct (Z.eqb_spec (i_data x) 0); [done|].
  cbn [negb orb Z.eqb VFS_FILE]. fold (write_pos f x) pos. cbv zeta. unfold VFS_MAX_FSIZE.
  rewrite (upd_fd_ok v fd f), bind_Ret, !s32_small by (done || lia).
  destruct (Z.leb_spec (16384 - pos) 0); [lia|].
  replace (if 16384 - pos <? len then 16384 - pos else len) with r
    by (unfold r; destruct (Z.ltb_spec (16384 - pos) len); lia).
  rewrite u64_small, s32_small by lia. cbn [vblocks set_fds]. rewrite E2, bind_Ret.
  rewrite (upd_fd_ok _ fd (set_pos pos f)) by (lia || (cbn; apply list_lookup_insert_eq; lia)).
  rewrite bind_Ret. cbn [fds set_vblocks set_fds set_pos f_inode f_flags]. rewrite list_insert_insert_eq.
  destruct (Z.ltb_spec (i_size x) (pos + r)) as [Hs|Hs].
  - rewrite (upd_inode_ok _ _ x) by (done || lia). rewrite bind_Ret, Z.max_r by lia. done.
  - rewrite bind_Ret, Z.max_l by lia. rewrite (list_insert_id (inodes v)) by (rewrite Hx; by destruct x). by destruct v.
Qed.

Lemma vfs_write_spec v rest fd buf len :
  vfs_inv v rest -> 0 <= len <= zlen buf -> len <= INT_MAX ->
  exists r v', vfs_write fd buf len v = Ret (r, v') /\ vfs_inv v' rest
    /\ ((forall f x, ~ opened v fd f x) -> r = -1 /\ v' = v)
    /\ (forall p c j, is_child (inodes v') p c j <-> is_child (inodes v) p c j)
    /\ forall f x, opened v fd f x ->
         exists c c', file_bytes v (f_inode f) = Some c /\ file_bytes v' (f_inode f) = Some c'
         /\ (forall j, 0 <= j -> j <> f_inode f -> file_bytes v' j = file_bytes v j)
         /\ zlen c = i_size x
         /\ (write_pos f x = 16384 /\ r = -1 /\ c' = c
             \/ write_pos f x < 16384 /\ r = Z.min len (16384 - write_pos f x)
                /\ (write_pos f x <= zlen c -> c' = splice (write_pos f x) (take (Z.to_nat r) buf) c)
                /\ opened v' fd (set_pos (write_pos f x + r) f) (set_size (Z.max (i_size x) (write_pos f x + r)) x)).
Proof.
  intros Hv Hlen Hlm.
  destruct (open_desc_spec v rest fd Hv) as [[E Hno]|(f & x & E & Hop & Ex & Hty & Hd & Hnx & Hp & _)].
  { unfold vfs_write. rewrite E. exists (-1), v. split_and!; try done. intros f x Hf. by destruct (Hno f x). }
  destruct (opened_bytes _ _ _ _ _ Hv Hop Hty Hd) as (bs & Eb & Hbl & Hc).
  pose proof (no_size _ Hnx) as Hsz. unfold VFS_MAX_FSIZE in *.
  assert (forall g y, opened v fd g y -> g = f /\ y = x) as Huniq.
  { intros g y (_ & Hg & _ & Hy & _). destruct Hop as (_ & Hf & _ & Hx & _). rewrite Hf in Hg. injection Hg as <-.
    rewrite Hx in Hy. by injection Hy as <-. }
  assert (0 <= write_pos f x <= 16384) as Hpos by (unfold write_pos; destruct (has_flag _ _); lia).
  pose proof Hop as (Hfd & Hf & Hfi & Hx & Hu). pose proof (vi_nfds _ _ Hv) as Hnf.
  assert (zlen (take (Z.to_nat (i_size x)) bs) = i_size x) as Hcl by (rewrite length_take; lia).
  destruct (decide (write_pos f x = 16384)) as [Hfull|Hroom].
  - destruct (upd_fd_inv v rest fd f (set_pos (write_pos f x)) Hv ltac:(lia) Hf) as (v1 & E1 & Ev1 & Hv1).
    { intros [?|[? _]]; [by left|right]. done. }
    exists (-1), v1. split_and!; [|done|by intros Hno; destruct (Hno f x)|by rewrite Ev1|].
    + unfold vfs_write. rewrite E, bind_Ret, Ex, bind_Ret, Hty. destruct (Z.eqb_spec (i_data x) 0); [done|].
      cbn [negb orb Z.eqb VFS_FILE]. fold (write_pos f x). by rewrite E1, bind_Ret, Hfull.
    + intros g y [-> ->]%Huniq. exists (take (Z.to_nat (i_size x)) bs), (take (Z.to_nat (i_size x)) bs).
      assert (forall j, file_bytes v1 j = file_bytes v j) as Hsame by (intros j; apply file_bytes_ext; by rewrite Ev1).
      rewrite !Hsame. split_and!; auto.
  - destruct (vfs_write_run v rest fd buf len f x) as (bs' & b & Eb' & _ & Hb & Hob & ->); try done; [lia|].
    rewrite Eb in Eb'. injection Eb' as <-. set (pos := write_pos f x) in *. set (r := Z.min len (16384 - pos)) in *.
    destruct (set_contents_inv v rest (f_inode f) x (splice pos (take (Z.to_nat r) buf) bs) b (Z.max (i_size x) (pos + r)) Hv Hfi Hx Hu Hty)
      as (Hv3 & Hcf & Hco & Hch); [lia|exact Hb|done|].
    eexists _, _. split; [reflexivity|]. split; [|split_and!; [by intros Hno; destruct (Hno f x)|exact Hch|]].
    + apply set_fds_inv; [done|by rewrite length_insert|]. apply Forall_insert; [apply Hv3|]. right.
      cbn. split; [|unfold VFS_MAX_FSIZE; lia]. apply (same_file_at _ _ x); try done; [apply Hv|]. split; [done|]. eauto.
    + intros g y [-> ->]%Huniq. fold pos. exists (take (Z.to_nat (i_size x)) bs). eexists. split_and!; [done|exact Hcf|exact Hco|done|].
      right. split_and!; [lia|done| |].
      * intros Hle. rewrite Hcl in Hle. assert (length (take (Z.to_nat r) buf) = Z.to_nat r) as Hlr by (rewrite length_take; lia).
        rewrite <- take_splice by lia. f_equal. lia.
      * unfold opened. cbn. split_and!; try lia; try done.
        -- apply list_lookup_insert_eq. lia.
        -- apply list_lookup_insert_eq. rewrite (t_len _ (vi_tree _ _ Hv)). lia.
Qed.

(** *** Paths under the invariant *)

Lemma reach_end ins p cs k :
  reach ins p cs k -> k = p \/ (1 <= k < 64 /\ exists i, ins !! Z.to_nat k = Some i /\ i_used i <> 0).
Proof.
  induction 1 as [|p c j cs k (Hj & i & Ei & Hu & _) _ IH]; [by left|].
  destruct IH as [->|?]; right; [|done]. split; [done|]. by exists i.
Qed.

Lemma reach_used ins cs k :
  tree_ok ins -> reach ins 0 cs k -> 0 <= k < 64 /\ exists i, ins !! Z.to_nat k = Some i /\ i_used i <> 0.
Proof.
  intros Ht [->|[Hk He]]%reach_end; [|split; [lia|done]].
  destruct (t_root _ Ht) as (_ & i & Ei & Hu & _). split; [lia|]. by exists i.
Qed.

Lemma resolve_dir_spec v path :
  tree_ok (inodes v) -> path_ok path -> cstr path <> [] ->
  (exists par, resolve_dir path v = Ret (Some par) /\ dir_at (inodes v) par
     /\ reach (inodes v) 0 (pieces (cstr path)) par)
  \/ (resolve_dir path v = Ret None
      /\ (unique_names (inodes v) -> forall k, reach (inodes v) 0 (pieces (cstr path)) k -> ~ dir_at (inodes v) k)).
Proof.
  intros Ht Hp Hne. unfold resolve_dir.
  destruct (vfs_resolve_spec v path (tree_names_ok _ Ht) Hp Hne) as (r & -> & Hw). rewrite bind_Ret.
  destruct Hw as [[Hr Hw]|[-> Hw]].
  - destruct (reach_used _ _ _ Ht Hw) as (Hrr & x & Ex & Hu). destruct (Z.ltb_spec r 0); [lia|].
    rewrite (proj2 (aget_Ret _ _ x)), bind_Ret by (split; [lia|done]).
    destruct (Z.eqb_spec (i_type x) VFS_DIR) as [Hd|Hd]; cbn [negb].
    + left. exists r. split; [done|]. split; [|done]. split; [done|]. by exists x.
    + right. split; [done|]. intros Hun k Hk. assert (k = r) as ->.
      { clear - Hun Hk Hw. revert k Hk. induction Hw as [|p c j cs k Hj _ IH]; intros k' Hk'; inversion Hk'; subst; [done|].
        apply IH. by rewrite (Hun _ _ _ _ Hj ltac:(eassumption)). }
      intros (_ & y & Ey & _ & Hty). rewrite Ex in Ey. by injection Ey as <-.
  - right. split; [done|]. intros Hun k Hk. by destruct (Hw Hun k).
Qed.

Lemma split_path_empty path : terminated path -> cstr path = [] ->
  split_path path local_name local_name = Ret (0, local_name, local_name).
Proof. intros Ht E. unfold split_path. by rewrite k_strlen_spec, E by (by rewrite ?E). Qed.

Lemma pieces_parent u : pieces (if decide (u = []) then [47] else take 31 u) = pieces (take 31 u).
Proof. case_decide as Hu; [|done]. by rewrite Hu. Qed.

Lemma noslash_take n w : noslash w -> noslash (take n w).
Proof. unfold noslash. intros Hw Ht. apply Hw. rewrite <- (take_drop n w). apply elem_of_app. by left. Qed.

(** Where [vfs_mkdir] and the O_CREAT branch of [vfs_open] put a new node. *)
Definition place v (u w : list Z) (par idx : Z) : Prop :=
  reach (inodes v) 0 (pieces (take 31 u)) par /\ dir_at (inodes v) par /\ w <> []
  /\ 1 <= idx < 64 /\ exists x, inodes v !! Z.to_nat idx = Some x /\ i_used x = 0.

(** Why they find no place. *)
Definition no_place v (u w : list Z) : Prop :=
  w = []
  \/ (unique_names (inodes v) -> forall k, reach (inodes v) 0 (pieces (take 31 u)) k -> ~ dir_at (inodes v) k)
  \/ (forall i x, 1 <= i < 64 -> inodes v !! Z.to_nat i = Some x -> i_used x <> 0).

Lemma parent_ok (ppath u : list Z) :
  terminated ppath -> cstr ppath = (if decide (u = []) then [47] else take 31 u) -> path_ok ppath /\ cstr ppath <> [].
Proof.
  intros Ht E. split; [split; [done|]|]; rewrite E; case_decide; simpl; try lia.
  - rewrite length_take. lia.
  - done.
  - by destruct u.
Qed.

Lemma new_inode_inv v rest par idx x nm ty p b :
  vfs_inv v rest -> dir_at (inodes v) par -> 1 <= idx < 64 -> inodes v !! Z.to_nat idx = Some x -> i_used x = 0 ->
  terminated nm -> length nm = 32%nat -> cstr nm <> [] -> noslash (cstr nm) ->
  (ty = VFS_FILE /\ p <> 0 \/ ty = VFS_DIR /\ p = 0) ->
  bowns b (file_block (mk_inode nm ty par 0 p 1) ++ file_blocks (inodes v) ++ rest) ->
  vfs_inv (set_inodes (set_vblocks v b) (<[Z.to_nat idx := mk_inode nm ty par 0 p 1]> (inodes v))) rest.
Proof.
  intros Hv Hd Hi Ex Hu Hnt Hnl Hne Hns Hk Ho. pose proof (vi_tree _ _ Hv) as Ht. pose proof (t_len _ Ht) as Hl.
  pose proof (tree_node _ _ _ Ht Ex) as Hnx. split.
  - apply (tree_add _ _ x); done.
  - apply Hv.
  - eapply Forall_impl; [apply (vi_fds _ _ Hv)|]. intros f [?|[(Hf & y & Ey & Hyu & Hyt) ?]]; [by left|right].
    split; [|done]. split; [done|]. exists y. cbn. rewrite list_lookup_insert_ne; [done|].
    intros Heq. rewrite <- Heq, Ex in Ey. by simplify_eq.
  - cbn [inodes vblocks set_inodes set_vblocks]. rewrite (file_blocks_insert _ _ x) by done.
    rewrite (file_blocks_lookup _ _ x) in Ho by done. unfold file_block at 2 in Ho.
    rewrite (no_free _ Hnx Hu) in Ho. simpl in Ho. by rewrite <- app_assoc.
Qed.

Lemma vfs_mkdir_spec v rest path u w :
  vfs_inv v rest -> path_ok path -> split_of (cstr path) u w ->
  exists r v', vfs_mkdir path v = Ret (r, v') /\ vfs_inv v' rest
    /\ ((r = -1 /\ v' = v /\ (no_place v u w \/ exists par j, reach (inodes v) 0 (pieces (take 31 u)) par
             /\ is_child (inodes v) par (take 31 w) j))
        \/ exists par nm, place v u w par r /\ (forall j, ~ is_child (inodes v) par (take 31 w) j)
             /\ cstr nm = take 31 w
             /\ v' = set_inodes v (<[Z.to_nat r := mk_inode nm VFS_DIR par 0 0 1]> (inodes v))).
Proof.
  intros Hv Hp Hs. pose proof (vi_tree _ _ Hv) as Ht. unfold vfs_mkdir.
  destruct (decide (cstr path = [])) as [E0|Hne].
  { rewrite split_path_empty by (apply Hp || done). exists (-1), v. split_and!; try done. left. split_and!; try done.
    left. left. destruct Hs as [_ [[E _]|E]]; [congruence|]. rewrite E0 in E. by destruct u. }
  destruct (split_path_spec path _ u w (proj1 Hp) (proj2 Hp) eq_refl Hs Hne) as (pp & nm & -> & Hpt & Hnt & Hnc & Hpc).
  rewrite bind_Ret. cbv iota beta. case_bool_decide as Hw; cbn [c_bool Z.eqb].
  2: { exists (-1), v. split_and!; try done. left. split_and!; try done. left. left. exact Hw. }
  destruct (parent_ok pp u Hpt Hpc) as [Hpo Hpn].
  destruct (resolve_dir_spec v pp Ht Hpo Hpn) as [(par & -> & Hd & Hr)|[-> Hno]]; rewrite Hpc, pieces_parent in *;
    rewrite bind_Ret; cbv iota beta.
  2: { exists (-1), v. split_and!; try done. left. split_and!; try done. left. right. by left. }
  destruct (find_child_spec (inodes v) par nm (tree_names_ok _ Ht) Hnt) as [(j & -> & Hj)|[-> Hj]];
    rewrite bind_Ret; cbv iota beta; rewrite Hnc in Hj.
  { exists (-1), v. split_and!; try done. left. split_and!; try done. right. by exists par, j. }
  destruct (alloc_inode_spec v Ht) as [(idx & x & -> & Hi & Ex & Hu)|[-> Hno]]; rewrite bind_Ret; cbv iota beta.
  2: { exists (-1), v. split_and!; try done. left. split_and!; try done. left. right. by right. }
  rewrite (proj2 (aget_Ret _ _ x)), bind_Ret by (split; [lia|done]).
  pose proof (no_name _ (tree_node _ _ _ Ht Ex)) as Hxl.
  destruct (copy_name_spec (i_name x) nm VFS_MAX_NAME Hnt) as (nm' & -> & Hl' & Ht' & Hc'); [unfold VFS_MAX_NAME; lia|].
  rewrite bind_Ret, aset_ok, bind_Ret by (rewrite (t_len _ Ht); lia). rewrite Hnc, take_take in Hc'. cbn in Hc'.
  eexists idx, _. split; [reflexivity|].
  assert (noslash (take 31 w)) as Hns by (apply noslash_take, Hs). assert (take 31 w <> []) as Hwn by by destruct w.
  split.
  - apply (new_inode_inv v rest par idx x nm' VFS_DIR 0 (vblocks v)); rewrite ?Hc'; try done; [by rewrite Hl'|by right|].
    cbn. apply Hv.
  - right. exists par, nm'. split_and!; try done. split_and!; try done; [lia..|]. by exists x.
Qed.

(** *** vfs_open *)

(** The bytes of the other files when inode [idx] and its block change. *)
Lemma file_bytes_other v v' idx i' b j :
  v' = set_inodes (set_vblocks v b) (<[Z.to_nat idx := i']> (inodes v)) ->
  0 <= idx -> 0 <= j -> j <> idx ->
  (forall y, inodes v !! Z.to_nat j = Some y -> i_used y <> 0 -> i_type y = VFS_FILE ->
     blocks b !! i_data y = blocks (vblocks v) !! i_data y) ->
  file_bytes v' j = file_bytes v j.
Proof.
  intros -> Hi Hj Hne Hb. unfold file_bytes. cbn [inodes vblocks set_inodes set_vblocks].
  rewrite list_lookup_insert_ne by lia. destruct (inodes v !! Z.to_nat j) as [y|] eqn:Ey; [|done].
  cbn [mbind option_bind]. case_bool_decide as Hu; [|done]. destruct Hu. by rewrite Hb.
Qed.

Lemma open_fd_spec v rest idx flags x :
  vfs_inv v rest -> 0 <= idx < 64 -> inodes v !! Z.to_nat idx = Some x -> i_used x <> 0 -> i_type x = VFS_FILE ->
  exists r v', open_fd idx flags v = Ret (r, v') /\ vfs_inv v' rest
    /\ inodes v' = inodes v /\ vblocks v' = vblocks v
    /\ (r = -1 /\ v' = v /\ Forall (fun f => f_inode f <> -1) (fds v)
        \/ (forall f y, ~ opened v r f y)
           /\ opened v' r (mk_fd idx (if has_flag flags O_APPEND then i_size x else 0) flags) x).
Proof.
  intros Hv Hi Ex Hu Hty. pose proof (vi_nfds _ _ Hv) as Hnf. unfold open_fd.
  destruct (alloc_fd_spec v Hnf) as [(fd & f & -> & Hfd & Ef & Hc)|[-> Hno]]; rewrite bind_Ret; cbv iota beta.
  2: { exists (-1), v. split_and!; try done. by left. }
  rewrite (proj2 (aget_Ret _ _ x)), bind_Ret by (split; [lia|done]).
  pose proof (tree_node _ _ _ (vi_tree _ _ Hv) Ex) as Hnx. pose proof (no_size _ Hnx) as Hsz.
  destruct (upd_fd_inv v rest fd f (fun _ => mk_fd idx (if has_flag flags O_APPEND then i_size x else 0) flags) Hv ltac:(lia) Ef)
    as (v' & -> & -> & Hv').
  { intros _. right. cbn. split; [|unfold VFS_MAX_FSIZE; destruct (has_flag _ _); lia]. split; [done|]. by exists x. }
  rewrite bind_Ret. eexists _, _. split_and!; try reflexivity; [done|]. right. split.
  - intros g y (_ & Eg & Hg & _). rewrite Ef in Eg. injection Eg as <-. lia.
  - unfold opened. cbn. split_and!; try lia; try done. apply list_lookup_insert_eq. lia.
Qed.

(** Opening an existing file for O_TRUNC empties it. *)
Lemma open_existing_spec v rest idx flags x :
  vfs_inv v rest -> 0 <= idx < 64 -> inodes v !! Z.to_nat idx = Some x -> i_used x <> 0 ->
  exists ok v', open_existing idx flags v = Ret (ok, v') /\ vfs_inv v' rest /\ fds v' = fds v
    /\ ok = bool_decide (i_type x = VFS_FILE)
    /\ (forall p c j, is_child (inodes v') p c j <-> is_child (inodes v) p c j)
    /\ (forall j, 0 <= j -> j <> idx -> file_bytes v' j = file_bytes v j)
    /\ (ok = false -> v' = v)
    /\ (ok = true -> exists x', inodes v' !! Z.to_nat idx = Some x' /\ i_used x' <> 0 /\ i_type x' = VFS_FILE
          /\ i_size x' = (if has_flag flags O_TRUNC then 0 else i_size x)
          /\ file_bytes v' idx = if has_flag flags O_TRUNC then Some [] else file_bytes v idx).
Proof.
  intros Hv Hi Ex Hu. unfold open_existing. rewrite (proj2 (aget_Ret _ _ x)), bind_Ret by (split; [lia|done]).
  destruct (Z.eqb_spec (i_type x) VFS_FILE) as [Hty|Hty]; cbn [negb].
  2: { exists false, v. rewrite bool_decide_false by done. split_and!; done. }
  destruct (has_flag flags O_TRUNC).
  2: { exists true, v. rewrite bool_decide_true by done. split_and!; try done. intros _. by exists x. }
  pose proof (tree_node _ _ _ (vi_tree _ _ Hv) Ex) as Hnx.
  destruct (no_kind _ Hnx Hu) as [[_ Hd]|[? _]]; [|unfold VFS_DIR, VFS_FILE in *; lia].
  destruct (Z.eqb_spec (i_data x) 0); [done|].
  destruct (bowns_upd (vblocks v) _ (i_data x) VFS_MAX_FSIZE (fun d => memset d 0 VFS_MAX_FSIZE) (vi_blocks _ _ Hv))
    as (bs & bs' & b & _ & Hbl & Ebs & E2 & Hb & Hob).
  { apply elem_of_app. left. rewrite file_blocks_lookup by done. unfold file_block.
    destruct (Z.eqb_spec (i_data x) 0); [done|]. by left. }
  { done. }
  { intros d Hdl. unfold VFS_MAX_FSIZE in *. rewrite memset_spec by lia. eexists. split; [reflexivity|].
    rewrite length_app, length_replicate, length_drop. lia. }
  rewrite E2, bind_Ret. rewrite (upd_inode_ok _ _ x), bind_Ret by (done || lia).
  destruct (set_contents_inv v rest idx x bs' b 0 Hv Hi Ex Hu Hty ltac:(lia) Hb Hob) as (Hv' & Hc & Ho & Hch).
  exists true. eexists. split; [reflexivity|]. rewrite bool_decide_true by done.
  split_and!; try done. intros _. exists (set_size 0 x). cbn.
  rewrite list_lookup_insert_eq by (rewrite (t_len _ (vi_tree _ _ Hv)); lia). split_and!; done.
Qed.

Lemma open_create_spec v rest junk path u w :
  vfs_inv v rest -> path_ok path -> split_of (cstr path) u w ->
  exists r v', open_create junk path v = Ret (r, v') /\ vfs_inv v' rest /\ fds v' = fds v
    /\ ((r = -1 /\ inodes v' = inodes v /\ blocks (vblocks v') = blocks (vblocks v)
           /\ (no_place v u w \/ exists h, al_alloc VFS_MAX_FSIZE 16 (bh_heap (vblocks v)) = Ret (0, h)))
        \/ exists par nm p b, place v u w par r /\ cstr nm = take 31 w /\ p <> 0
             /\ v' = set_inodes (set_vblocks v b) (<[Z.to_nat r := mk_inode nm VFS_FILE par 0 p 1]> (inodes v))
             /\ blocks b = <[p := replicate (Z.to_nat VFS_MAX_FSIZE) 0]> (blocks (vblocks v))
             /\ p ∉ (file_blocks (inodes v)).*1).
Proof.
  intros Hv Hp Hs. pose proof (vi_tree _ _ Hv) as Ht. unfold open_create.
  destruct (decide (cstr path = [])) as [E0|Hne].
  { rewrite split_path_empty by (apply Hp || done). exists (-1), v. split_and!; try done. left. split_and!; try done.
    left. left. destruct Hs as [_ [[E _]|E]]; [congruence|]. rewrite E0 in E. by destruct u. }
  destruct (split_path_spec path _ u w (proj1 Hp) (proj2 Hp) eq_refl Hs Hne) as (pp & nm & -> & Hpt & Hnt & Hnc & Hpc).
  rewrite bind_Ret. cbv iota beta. case_bool_decide as Hw; cbn [c_bool Z.eqb].
  2: { exists (-1), v. split_and!; try done. left. split_and!; try done. left. left. exact Hw. }
  destruct (parent_ok pp u Hpt Hpc) as [Hpo Hpn].
  destruct (resolve_dir_spec v pp Ht Hpo Hpn) as [(par & -> & Hd & Hr)|[-> Hno]]; rewrite Hpc, pieces_parent in *;
    rewrite bind_Ret; cbv iota beta.
  2: { exists (-1), v. split_and!; try done. left. split_and!; try done. left. right. by left. }
  destruct (alloc_inode_spec v Ht) as [(idx & x & -> & Hi & Ex & Hu)|[-> Hno]]; rewrite bind_Ret; cbv iota beta.
  2: { exists (-1), v. split_and!; try done. left. split_and!; try done. left. right. by right. }
  destruct (bowns_alloc (vblocks v) _ junk VFS_MAX_FSIZE (vi_blocks _ _ Hv)) as (p & b & E & Hb); [done|].
  rewrite E, bind_Ret. cbv iota beta. rewrite (upd_inode_ok _ _ x), bind_Ret by (done || lia).
  pose proof (tree_node _ _ _ Ht Ex) as Hnx. pose proof (t_len _ Ht) as Hl.
  destruct Hb as [(-> & Hbb & Hbo)|(Hpn0 & Hpf & Hbb & Hbo)].
  - assert (set_data 0 x = x /\ set_used 0 x = x) as [Es Es'].
    { pose proof (no_free _ Hnx Hu). destruct x. unfold set_used, set_data. simpl in *. split; congruence. }
    rewrite Es, (list_insert_id (inodes v)) by done. change (0 =? 0) with true. cbv iota.
    rewrite (upd_inode_ok _ _ x), bind_Ret by (done || lia).
    cbn [inodes set_inodes set_vblocks]. rewrite Es', (list_insert_id (inodes v)) by done.
    eexists _, _. split; [reflexivity|]. split; [|split; [done|]].
    + split; [exact Ht|apply Hv|apply Hv|exact Hbo].
    + left. split_and!; try done. right. unfold blk_alloc in E.
      destruct (al_alloc VFS_MAX_FSIZE 16 (bh_heap (vblocks v))) as [[q h]| | |]; try discriminate E.
      rewrite bind_Ret in E. destruct (Z.eqb_spec q 0) as [->|]; [by exists h|]. injection E as ? ?. congruence.
  - destruct (Z.eqb_spec p 0); [done|]. cbn [vblocks set_inodes set_vblocks].
    destruct (bowns_upd b _ p VFS_MAX_FSIZE (fun d => memset d 0 VFS_MAX_FSIZE) Hbo)
      as (bs & bs' & b' & _ & Hbl & Ebs & E2 & Hb' & Hob); [by left|done| |].
    { intros d Hdl. unfold VFS_MAX_FSIZE in *. rewrite memset_spec by lia. eexists. split; [reflexivity|].
      rewrite length_app, length_replicate, length_drop. lia. }
    rewrite E2, bind_Ret. cbn [inodes set_inodes set_vblocks].
    rewrite aget_insert_eq, bind_Ret by lia.
    destruct (copy_name_spec (i_name (set_data p x)) nm VFS_MAX_NAME Hnt) as (nm' & -> & Hl' & Ht' & Hc').
    { pose proof (no_name _ Hnx). simpl. unfold VFS_MAX_NAME. lia. }
    rewrite bind_Ret, aset_ok, bind_Ret, list_insert_insert_eq by (rewrite length_insert; lia).
    rewrite Hnc, take_take in Hc'. cbn in Hc'. eexists idx, _. split; [reflexivity|].
    assert (noslash (take 31 w)) as Hns by (apply noslash_take, Hs). assert (take 31 w <> []) as Hwn by by destruct w.
    split; [|split; [done|]].
    + apply (new_inode_inv v rest par idx x nm' VFS_FILE p b'); rewrite ?Hc'; try done.
      * rewrite Hl'. apply Hnx.
      * by left.
      * unfold file_block at 1. cbn [i_data]. destruct (Z.eqb_spec p 0); [done|]. exact Hob.
    + right. exists par, nm', p, b'. split; [|split_and!; try done].
      * split_and!; try done; [lia..|]. by exists x.
      * rewrite Hb', Hbb, insert_insert_eq. do 2 f_equal.
        rewrite memset_spec in Ebs by (rewrite Hbl; done). apply Ret_inj in Ebs as <-.
        rewrite drop_ge by (rewrite <- Hbl, Nat2Z.id; done). by rewrite app_nil_r.
      * intros Hin. apply Hpf. rewrite fmap_app. apply elem_of_app. by left.
Qed.

Lemma slash_last t : exists u w, split_of t u w.
Proof.
  induction t as [|c t (u & w & Hw & IH)].
  - exists [], []. split; [apply not_elem_of_nil|by left].
  - destruct IH as [[-> ->]| ->].
    + destruct (decide (c = 47)) as [->|Hc]; [exists [], w; split; [done|by right]|].
      exists [], (c :: w). split; [|by left]. unfold noslash in *. by apply not_elem_of_cons.
    + exists (c :: u), w. split; [done|by right].
Qed.

Lemma vfs_open_inv v rest junk path flags :
  vfs_inv v rest -> path_ok path ->
  exists r v', vfs_open junk path flags v = Ret (r, v') /\ vfs_inv v' rest.
Proof.
  intros Hv Hp. unfold vfs_open. pose proof (vi_tree _ _ Hv) as Ht.
  assert (exists r, vfs_resolve path v = Ret r /\ (r = -1 \/ exists cs, reach (inodes v) 0 cs r)) as (r & -> & Hr).
  { destruct (decide (cstr path = [])) as [E|Hne].
    - exists (-1). split; [|by left]. unfold vfs_resolve. destruct Hp as [Htm _].
      destruct path as [|c path]; [by apply elem_of_nil in Htm|]. cbn [cstr] in E.
      assert (aget (c :: path) 0 = Ret c) as -> by done. rewrite bind_Ret. by destruct (Z.eqb_spec c 0).
    - destruct (vfs_resolve_spec v path (tree_names_ok _ Ht) Hp Hne) as (r & E & [[_ Hw]|[-> _]]).
      + exists r. split; [done|right]. by eexists.
      + exists (-1). split; [done|by left]. }
  rewrite bind_Ret. destruct Hr as [->|[cs Hr]].
  - change (-1 <? 0) with true. cbv iota. destruct (has_flag flags O_CREAT); cbn [negb].
    2: { exists (-1), v. by split. }
    destruct (slash_last (cstr path)) as (u & w & Hs).
    destruct (open_create_spec v rest junk path u w Hv Hp Hs) as (r & v' & -> & Hv' & _ & Hr).
    rewrite bind_Ret. cbv iota beta. destruct (Z.ltb_spec r 0); [exists (-1), v'; by split|].
    destruct Hr as [[-> _]|(par & nm & p & b & (_ & _ & _ & Hi & x & Ex & Hu) & _ & _ & Ev & _)]; [lia|].
    assert (inodes v' !! Z.to_nat r = Some (mk_inode nm VFS_FILE par 0 p 1)) as Ex'.
    { rewrite Ev. cbn. apply list_lookup_insert_eq. rewrite (t_len _ Ht). lia. }
    destruct (open_fd_spec v' rest r flags _ Hv' ltac:(lia) Ex') as (fd & v2 & E & Hv2 & _); [done|done|].
    exists fd, v2. by split.
  - destruct (reach_used _ _ _ Ht Hr) as (Hi & x & Ex & Hu). destruct (Z.ltb_spec r 0); [lia|].
    destruct (open_existing_spec v rest r flags x Hv Hi Ex Hu) as (ok & v' & -> & Hv' & _ & _ & _ & _ & _ & Hok).
    rewrite bind_Ret. cbv iota beta. destruct ok; [|exists (-1), v'; by split].
    destruct (Hok eq_refl) as (x' & Ex' & Hu' & Hty' & _).
    destruct (open_fd_spec v' rest r flags x' Hv' Hi Ex' Hu' Hty') as (fd & v2 & E & Hv2 & _).
    exists fd, v2. by split.
Qed.

(** *** vfs_unlink *)

Lemma has_child_spec v idx :
  tree_ok (inodes v) ->
  exists b, has_child idx v = Ret b /\ (b = true -> exists c j, is_child (inodes v) idx c j)
    /\ (b = false -> forall c j, ~ is_child (inodes v) idx c j).
Proof.
  intros Ht. unfold has_child, VFS_MAX_INODES.
  set (f := fun i => match inodes v !! Z.to_nat i with Some x => negb (i_used x =? 0) && (i_parent x =? idx) | None => false end).
  destruct (find_range_Some f (fun i => x ← aget (inodes v) i; Ret (negb (i_used x =? 0) && (i_parent x =? idx))) 1 64)
    as [(i & E & Hi & Hf & _)|[E Hf]].
  - intros i Hi. destruct (tree_lookup (inodes v) i Ht) as (x & Hx & Ex); [lia|]. unfold f. by rewrite Ex, Hx.
  - rewrite E. exists true. split; [done|]. split; [|done]. intros _. unfold f in Hf.
    destruct (inodes v !! Z.to_nat i) as [x|] eqn:Ex; [|done]. exists (cstr (i_name x)), i. split; [done|].
    exists x. destruct (Z.eqb_spec (i_used x) 0), (Z.eqb_spec (i_parent x) idx); done.
  - rewrite E. exists false. split; [done|]. split; [done|]. intros _ c j (Hj & x & Ex & Hu & Hp & _).
    specialize (Hf j Hj). unfold f in Hf. rewrite Ex in Hf.
    destruct (Z.eqb_spec (i_used x) 0), (Z.eqb_spec (i_parent x) idx); done.
Qed.

Lemma close_all_spec v idx :
  length (fds v) = 16%nat ->
  close_all idx v = Ret (set_fds v (map (fun f => if f_inode f =? idx then set_finode (-1) f else f) (fds v))).
Proof.
  intros Hl. set (g := fun f => if f_inode f =? idx then set_finode (-1) f else f). unfold close_all, VFS_MAX_FDS.
  destruct (for_range_ind (fun i w => w = set_fds v (map g (take (Z.to_nat i) (fds v)) ++ drop (Z.to_nat i) (fds v)))
    0 16 (fun i v => f ← aget (fds v) i; if f_inode f =? idx then upd_fd v i (set_finode (-1)) else Ret v) v)
    as (w & E & Ew); [lia|by destruct v| |].
  - intros i w Hi ->. destruct (lookup_lt_is_Some_2 (fds v) (Z.to_nat i)) as [f Hf]; [lia|].
    set (w := set_fds v _). assert (fds w !! Z.to_nat i = Some f) as Ef.
    { cbn. rewrite lookup_app_r; rewrite length_map, length_take; [|lia].
      rewrite Nat.min_l, Nat.sub_diag by lia. rewrite lookup_drop, Nat.add_0_r. done. }
    assert (fds w = map g (take (Z.to_nat i) (fds v)) ++ f :: drop (S (Z.to_nat i)) (fds v)) as Efw.
    { cbn. f_equal. by apply drop_S. }
    rewrite (proj2 (aget_Ret _ _ f)), bind_Ret by (split; [lia|done]).
    replace (Z.to_nat (i + 1)) with (S (Z.to_nat i)) by lia.
    rewrite (take_S_r _ _ f), map_app by done. rewrite <- app_assoc. cbn [map app].
    destruct (f_inode f =? idx) eqn:Eb.
    + assert (g f = set_finode (-1) f) as -> by (unfold g; by rewrite Eb). rewrite (upd_fd_ok _ _ f) by (done || lia). eexists. split; [reflexivity|]. rewrite Efw. unfold set_fds, w. cbn.
      rewrite insert_app_r_alt by (rewrite length_map, length_take; lia).
      rewrite length_map, length_take, Nat.min_l, Nat.sub_diag by lia. done.
    + assert (g f = f) as -> by (unfold g; by rewrite Eb). eexists. split; [reflexivity|]. unfold w.
      by rewrite (drop_S _ f) by done.
  - rewrite E, Ew. rewrite take_ge, drop_ge, app_nil_r by lia. done.
Qed.

Lemma vfs_unlink_spec v rest path :
  vfs_inv v rest -> path_ok path ->
  exists r v', vfs_unlink path v = Ret (r, v') /\ vfs_inv v' rest
    /\ (r = -1 /\ v' = v
          /\ (cstr path = [] \/ exists k, walk_is (inodes v) 0 (pieces (cstr path)) k
               /\ (k <= 0 \/ exists c j, is_child (inodes v) k c j))
        \/ r = 0 /\ exists k, reach (inodes v) 0 (pieces (cstr path)) k /\ 1 <= k < 64
             /\ (forall c j, ~ is_child (inodes v) k c j)
             /\ inodes v' = <[Z.to_nat k := inode_zero]> (inodes v)
             /\ (forall j, 0 <= j -> j <> k -> file_bytes v' j = file_bytes v j)
             /\ fds v' = map (fun f => if f_inode f =? k then set_finode (-1) f else f) (fds v)).
Proof.
  intros Hv Hp. pose proof (vi_tree _ _ Hv) as Ht. unfold vfs_unlink.
  destruct (decide (cstr path = [])) as [E|Hne].
  { assert (vfs_resolve path v = Ret (-1)) as ->.
    { unfold vfs_resolve. destruct Hp as [Htm _]. destruct path as [|c path]; [by apply elem_of_nil in Htm|].
      cbn [cstr] in E. assert (aget (c :: path) 0 = Ret c) as -> by done. rewrite bind_Ret. by destruct (Z.eqb_spec c 0). }
    exists (-1), v. split; [done|]. split; [done|]. left. auto. }
  destruct (vfs_resolve_spec v path (tree_names_ok _ Ht) Hp Hne) as (k & -> & Hw). rewrite bind_Ret.
  destruct (Z.leb_spec k 0) as [Hk|Hk].
  { exists (-1), v. split; [done|]. split; [done|]. left. split_and!; try done. right. exists k. auto. }
  pose proof Hw as [[_ Hr]|[-> _]]; [|lia]. destruct (reach_used _ _ _ Ht Hr) as (Hi & x & Ex & Hu).
  rewrite (proj2 (aget_Ret _ _ x)), bind_Ret by (split; [lia|done]).
  assert (exists full, (if i_type x =? VFS_DIR then has_child k v else Ret false) = Ret full
    /\ (full = true -> exists c j, is_child (inodes v) k c j) /\ (full = false -> forall c j, ~ is_child (inodes v) k c j))
    as (full & -> & Hf1 & Hf2).
  { destruct (Z.eqb_spec (i_type x) VFS_DIR); [by apply has_child_spec|]. exists false. split_and!; try done.
    intros _ c j Hc. destruct (t_links _ Ht _ _ _ Hc) as [(_ & y & Ey & _ & Hty) _]. rewrite Ex in Ey. by injection Ey as <-. }
  rewrite bind_Ret. destruct full.
  { exists (-1), v. split; [done|]. split; [done|]. left. split_and!; try done. right. exists k. auto. }
  rewrite (close_all_spec v k (vi_nfds _ _ Hv)), bind_Ret. cbn [vblocks set_fds].
  assert (exists b, (if i_data x =? 0 then Ret (vblocks v) else blk_free (i_data x) (vblocks v)) = Ret b
    /\ bowns b (file_blocks (<[Z.to_nat k := inode_zero]> (inodes v)) ++ rest)
    /\ forall q, q <> i_data x -> blocks b !! q = blocks (vblocks v) !! q) as (b & -> & Hb & Hbo).
  { pose proof (vi_blocks _ _ Hv) as Hvb. rewrite (file_blocks_lookup _ _ x) in Hvb by done.
    pose proof (file_blocks_insert _ _ x inode_zero Ex) as Hperm. unfold file_block at 1 in Hvb.
    change (file_block inode_zero) with (@nil (Z * Z)) in Hperm. rewrite app_nil_l in Hperm.
    destruct (Z.eqb_spec (i_data x) 0).
    - exists (vblocks v). by rewrite Hperm.
    - destruct (bowns_free (vblocks v) _ (i_data x) VFS_MAX_FSIZE Hvb) as (b & E & Hbb & Hb). exists b.
      rewrite Hperm. split_and!; try done. intros q Hq. rewrite Hbb. by rewrite lookup_delete_ne. }
  rewrite bind_Ret, (upd_inode_ok _ _ x), bind_Ret by (done || lia).
  eexists 0, _. split; [reflexivity|]. split.
  - split; cbn [inodes fds vblocks set_inodes set_vblocks set_fds].
    + apply tree_del; [done|lia|auto].
    + by rewrite length_map, (vi_nfds _ _ Hv).
    + apply Forall_map. eapply Forall_impl; [apply (vi_fds _ _ Hv)|]. intros f Hf. simpl.
      destruct (Z.eqb_spec (f_inode f) k) as [|Hne']; [by left|]. destruct Hf as [?|[(? & y & Ey & ?) ?]]; [by left|right].
      split; [|done]. split; [done|]. exists y. rewrite list_lookup_insert_ne by lia. done.
    + exact Hb.
  - right. split; [done|]. exists k. split_and!; try done; try lia; [by apply Hf2|].
    intros j Hj Hne'. eapply (file_bytes_other (set_fds v _)); [reflexivity|lia|lia|done|].
    intros y Ey Huy Hty. cbn [vblocks set_fds]. apply Hbo. apply not_eq_sym. intros Heq.
    destruct (no_kind _ (tree_node _ _ _ Ht Ey) Huy) as [[_ Hdy]|[? _]]; [|unfold VFS_DIR, VFS_FILE in *; lia].
    revert Heq. apply (file_data_ne v rest (Z.to_nat j) (Z.to_nat k)); try done. lia.
Qed.
End VfsOps.

(** *** Blocks other clients keep on the file system's heap *)
Section Clients.
Context {H : Type} `{AllocatorLaws H}.
Implicit Types (v : vfs H).

Lemma set_vblocks_inv v rest rest' b : vfs_inv v rest -> bowns b (file_blocks (inodes v) ++ rest') -> vfs_inv (set_vblocks v b) rest'.
Proof. intros [] Hb. by split. Qed.

Lemma vfs_inv_perm v rest rest' : rest ≡ₚ rest' -> vfs_inv v rest -> vfs_inv v rest'.
Proof. intros Hp [? ? ? Hb]. split; [done|done|done|]. by rewrite <- Hp. Qed.

Lemma client_block v p n rest j y : vfs_inv v ((p, n) :: rest) -> inodes v !! j = Some y -> i_data y <> 0 -> i_data y <> p.
Proof.
  intros Hv Hy Hd Heq. subst p. pose proof (vi_blocks _ _ Hv) as [(_ & Hnd & _) _]. rewrite fmap_app in Hnd. apply NoDup_app in Hnd as (_ & Hni & _).
  apply (Hni (i_data y)); [|by left]. apply list_elem_of_fmap. exists (i_data y, VFS_MAX_FSIZE). split; [done|].
  rewrite (file_blocks_lookup _ j y) by done. unfold file_block. destruct (Z.eqb_spec (i_data y) 0); [done|]. by left.
Qed.

(** The files do not see what happens in a client's block. *)
Lemma client_bytes v p n rest b : vfs_inv v ((p, n) :: rest) -> (forall q, q <> p -> blocks b !! q = blocks (vblocks v) !! q) ->
  forall j, file_bytes (set_vblocks v b) j = file_bytes v j.
Proof.
  intros Hv Hb j. unfold file_bytes. cbn [inodes vblocks set_vblocks]. destruct (inodes v !! Z.to_nat j) as [y|] eqn:Ey; [|done].
  cbn [mbind option_bind]. case_bool_decide as Hu; [|done]. rewrite Hb; [done|]. eapply client_block; [done|done|].
  destruct Hu as [Hu Ht]. destruct (no_kind _ (tree_node _ _ _ (vi_tree _ _ Hv) Ey) Hu) as [[_ ?]|[? _]]; [done|]. unfold VFS_DIR, VFS_FILE in *. lia.
Qed.

Lemma client_alloc v rest junk size : vfs_inv v rest -> 0 < size <= 2 ^ 61 ->
  exists p b, blk_alloc junk size (vblocks v) = Ret (p, b) /\ (forall j, file_bytes (set_vblocks v b) j = file_bytes v j)
    /\ (p = 0 /\ vfs_inv (set_vblocks v b) rest \/ p <> 0 /\ vfs_inv (set_vblocks v b) ((p, size) :: rest)).
Proof.
  intros Hv Hs. destruct (bowns_alloc (vblocks v) (file_blocks (inodes v) ++ rest) junk size (vi_blocks _ _ Hv) Hs) as (p & b & E & Hb). exists p, b. split; [done|].
  destruct Hb as [(-> & Eb & Hb)|(Hp & Hpn & Eb & Hb)].
  - split; [|left; split; [done|by apply (set_vblocks_inv v rest)]]. intros j. unfold file_bytes. cbn [inodes vblocks set_vblocks]. by rewrite Eb.
  - assert (vfs_inv (set_vblocks v b) ((p, size) :: rest)) as Hv'. { apply (set_vblocks_inv v rest); [done|]. by rewrite <- Permutation_middle. }
    split; [|by right]. intros j. symmetry. rewrite <- (client_bytes (set_vblocks v b) p size rest (vblocks v) Hv'); [by destruct v|].
    intros q Hq. cbn [vblocks set_vblocks]. by rewrite Eb, lookup_insert_ne.
Qed.

Lemma client_free v p n rest : vfs_inv v ((p, n) :: rest) ->
  exists b, blk_free p (vblocks v) = Ret b /\ vfs_inv (set_vblocks v b) rest /\ (forall j, file_bytes (set_vblocks v b) j = file_bytes v j)
    /\ forall q, q <> p -> blk_get q b = blk_get q (vblocks v).
Proof.
  intros Hv. destruct (bowns_free (vblocks v) (file_blocks (inodes v) ++ rest) p n) as (b & E & Eb & Hb).
  { rewrite Permutation_middle. apply Hv. }
  exists b. split; [done|]. split; [by apply (set_vblocks_inv v ((p, n) :: rest))|].
  assert (forall q, q <> p -> blocks b !! q = blocks (vblocks v) !! q) as Hq by (intros q Hq; by rewrite Eb, lookup_delete_ne).
  split; [by apply (client_bytes v p n rest)|]. intros q Hne. unfold blk_get. by rewrite Hq.
Qed.

Lemma client_upd v p n rest f : vfs_inv v ((p, n) :: rest) -> 0 <= n -> (forall bs, zlen bs = n -> exists bs', f bs = Ret bs' /\ zlen bs' = n) ->
  exists bs bs' b, blk_get p (vblocks v) = Ret bs /\ zlen bs = n /\ f bs = Ret bs' /\ blk_upd p f (vblocks v) = Ret b /\ blk_get p b = Ret bs'
    /\ vfs_inv (set_vblocks v b) ((p, n) :: rest) /\ forall j, file_bytes (set_vblocks v b) j = file_bytes v j.
Proof.
  intros Hv Hn Hf. destruct (bowns_upd (vblocks v) (file_blocks (inodes v) ++ (p, n) :: rest) p n f (vi_blocks _ _ Hv)) as (bs & bs' & b & Eg & Hl & Ef & E & Eb & Hb); [|done|done|].
  { apply elem_of_app. right. by left. }
  exists bs, bs', b. do 4 (split; [done|]). split; [unfold blk_get; by rewrite Eb, lookup_insert_eq|]. split; [by apply (set_vblocks_inv v ((p, n) :: rest))|].
  apply (client_bytes v p n rest); [done|]. intros q Hq. by rewrite Eb, lookup_insert_ne.
Qed.

Lemma client_distinct v p n q m rest : vfs_inv v ((p, n) :: (q, m) :: rest) -> p <> q.
Proof.
  intros Hv ->. pose proof (vi_blocks _ _ Hv) as [(_ & Hnd & _) _]. rewrite fmap_app in Hnd. apply NoDup_app in Hnd as (_ & _ & Hnd).
  apply NoDup_cons in Hnd as [Hni _]. apply Hni. by left.
Qed.

Lemma client_get v p n rest : vfs_inv v ((p, n) :: rest) -> 0 <= n -> exists bs, blk_get p (vblocks v) = Ret bs /\ zlen bs = n.
Proof. intros Hv Hn. apply (bowns_get (vblocks v) (file_blocks (inodes v) ++ (p, n) :: rest)); [apply Hv| |done]. apply elem_of_app. right. by left. Qed.
End Clients.

(** ** Properties *)

Lemma reach_fun ins :
  unique_names ins -> forall p cs j k, reach ins p cs j -> reach ins p cs k -> j = k.
Proof.
  intros Hu p cs j k Hj. revert k. induction Hj as [|p c i cs j Hi _ IH]; intros k Hk; inversion Hk; subst; [done|].
  apply IH. by rewrite (Hu _ _ _ _ Hi ltac:(eassumption)).
Qed.

Lemma reach_snoc ins p cs c k :
  reach ins p (cs ++ [c]) k <-> exists j, reach ins p cs j /\ is_child ins j c k.
Proof.
  revert p. induction cs as [|d cs IH]; intros p; simpl.
  - split.
    + intros Hr. inversion Hr as [|? ? j ? ? Hc Hn]; subst. inversion Hn; subst. exists p. split; [constructor|done].
    + intros (j & Hr & Hc). inversion Hr; subst. econstructor; [done|constructor].
  - split.
    + intros Hr. inversion Hr as [|? ? j ? ? Hc Hn]; subst. apply IH in Hn as (j' & ? & ?). exists j'. split; [by econstructor|done].
    + intros (j & Hr & Hc). inversion Hr as [|? ? i ? ? Hd Hn]; subst. econstructor; [done|]. apply IH. eauto.
Qed.

(** A new child [idx] of [par] called [cstr (i_name x')] adds the paths through it. *)
Lemma reach_add ins idx x x' cs k :
  tree_ok ins -> 1 <= idx < 64 -> ins !! Z.to_nat idx = Some x -> i_used x = 0 -> i_used x' <> 0 ->
  dir_at ins (i_parent x') ->
  reach (<[Z.to_nat idx := x']> ins) 0 cs k <->
  reach ins 0 cs k \/ (k = idx /\ exists cs0, cs = cs0 ++ [cstr (i_name x')] /\ reach ins 0 cs0 (i_parent x')).
Proof.
  intros Ht Hi Ex Hu Hu' Hd. pose proof (t_len _ Ht) as Hl.
  assert (forall p, dir_at ins p -> p <> idx) as Hne.
  { intros p (_ & y & Ey & Hy & _) ->. rewrite Ex in Ey. by injection Ey as <-. }
  assert (forall p c j, is_child ins p c j -> j <> idx) as Hcn.
  { intros p c j (_ & y & Ey & Hy & _) ->. rewrite Ex in Ey. by injection Ey as <-. }
  revert k. induction cs as [|c cs IH] using rev_ind; intros k.
  - split.
    + intros Hr. inversion Hr; subst. left. constructor.
    + intros [Hr|(_ & cs0 & E & _)]; [inversion Hr; subst; constructor|by destruct cs0].
  - rewrite !reach_snoc. split.
    + intros (j & Hj & [(-> & _ & <- & <-)|(Hk & Hc)]%is_child_insert); [| |done|done].
      * apply IH in Hj as [Hj|(Hj & _)]; [|by destruct (Hne _ Hd)]. right. split; [done|]. eauto.
      * apply IH in Hj as [Hj|(-> & _)]; [left; eauto|]. destruct (t_links _ Ht _ _ _ Hc) as [Hd' _]. by destruct (Hne _ Hd').
    + intros [(j & Hj & Hc)|(-> & cs0 & E & Hr)].
      * exists j. split; [apply IH; by left|]. apply is_child_insert; [done|done|]. right. split; [by eapply Hcn|done].
      * apply app_inj_tail in E as [-> ->]. exists (i_parent x'). split; [apply IH; by left|].
        apply is_child_insert; [done|done|]. by left.
Qed.

Lemma reach_del ins idx cs k :
  tree_ok ins -> 1 <= idx < 64 -> (forall c j, ~ is_child ins idx c j) ->
  reach (<[Z.to_nat idx := inode_zero]> ins) 0 cs k <-> reach ins 0 cs k /\ k <> idx.
Proof.
  intros Ht Hi Hno. pose proof (t_len _ Ht) as Hl. revert k. induction cs as [|c cs IH] using rev_ind; intros k.
  - split.
    + intros Hr. inversion Hr; subst. split; [constructor|lia].
    + intros [Hr _]. inversion Hr; subst. constructor.
  - rewrite !reach_snoc. split.
    + intros (j & Hj & [(_ & Hu & _)|(Hk & Hc)]%is_child_insert); [done| |done|done].
      apply IH in Hj as [Hj _]. split; [|done]. eauto.
    + intros [(j & Hj & Hc) Hk]. exists j. split; [apply IH; split; [done|]; intros ->; by eapply Hno|].
      apply is_child_insert; [done|done|]. by right.
Qed.

Lemma unique_add ins idx x' :
  1 <= idx < 64 -> length ins = 64%nat -> unique_names ins ->
  (forall j, ~ is_child ins (i_parent x') (cstr (i_name x')) j) -> unique_names (<[Z.to_nat idx := x']> ins).
Proof.
  intros Hi Hl Hu Hno p c j k [(-> & _ & <- & <-)|(? & Hj)]%is_child_insert [(-> & _ & Hp & Hn)|(? & Hk)]%is_child_insert; try done.
  - by destruct (Hno k).
  - subst. by destruct (Hno j).
  - by eapply Hu.
Qed.

Lemma unique_del ins idx : 1 <= idx < 64 -> length ins = 64%nat -> unique_names ins -> unique_names (<[Z.to_nat idx := inode_zero]> ins).
Proof.
  intros Hi Hl Hu p c j k [(_ & ? & _)|(? & Hj)]%is_child_insert [(_ & ? & _)|(? & Hk)]%is_child_insert; try done.
  by eapply Hu.
Qed.

(** A path whose parent part and name both fit the 32-byte buffers. *)
Definition short_split (path u w : list Z) : Prop :=
  path_ok path /\ cstr path <> [] /\ split_of (cstr path) u w /\ zlen u <= 31 /\ zlen w <= 31.

Lemma short_words (t : list Z) : zlen t <= 31 -> Forall (fun w => zlen w <= 31) (comps t).
Proof.
  intros Ht. apply Forall_forall. intros w [_ Hw]%list_elem_of_filter. revert w Hw.
  assert (forall w, w ∈ split_slash t -> (length w <= length t)%nat) as Hk; [|intros w Hw; specialize (Hk w Hw); lia].
  clear Ht. induction t as [|c t IH]; intros w Hw; simpl in *; [apply list_elem_of_singleton in Hw as ->; simpl; lia|].
  destruct (c =? 47).
  - apply elem_of_cons in Hw as [->|Hw]; [simpl; lia|]. specialize (IH w Hw). lia.
  - destruct (split_slash t) as [|x xs] eqn:E; [apply list_elem_of_singleton in Hw as ->; simpl; lia|].
    apply elem_of_cons in Hw as [->|Hw]; [simpl; specialize (IH x ltac:(by left)); lia|].
    specialize (IH w ltac:(by right)). lia.
Qed.

Lemma pieces_fit t : zlen t <= 31 -> pieces t = comps t.
Proof. intros Ht. by apply pieces_short, short_words. Qed.

Lemma short_pieces path u w :
  short_split path u w -> w <> [] -> pieces (cstr path) = comps u ++ [w] /\ take 31 u = u /\ take 31 w = w /\ pieces u = comps u.
Proof.
  intros (_ & _ & (Hn & Hs) & Hu & Hw) Hne. split_and!; [|by rewrite take_ge by lia|by rewrite take_ge by lia|by apply pieces_fit].
  rewrite pieces_short.
  - destruct Hs as [[-> ->]| ->]; [by apply comps_word|by apply comps_snoc].
  - destruct Hs as [[-> ->]| ->].
    + rewrite comps_word by done. by constructor.
    + rewrite comps_snoc by done. apply Forall_app. split; [by apply short_words|by constructor].
Qed.

(** [vfs_resolve] walks the tree.  Its answer is an inode the components of
    the path lead to from the root, or -1; when names are unique in each
    directory and components fit in 31 characters it is -1 exactly if no inode
    has that path. *)
Theorem vfs_resolve_walk {H : Type} `{Allocator H} (v : vfs H) (rest : list (Z * Z)) (path : list Z) :
  vfs_inv v rest -> path_ok path -> cstr path <> [] -> Forall (fun w => zlen w <= 31) (comps (cstr path)) ->
  exists r, vfs_resolve path v = Ret r
    /\ (r = -1 \/ 0 <= r < 64 /\ reach (inodes v) 0 (comps (cstr path)) r)
    /\ (unique_names (inodes v) -> forall k, reach (inodes v) 0 (comps (cstr path)) k <-> r = k /\ r <> -1).
Proof.
  intros Hv Hp Hne Hl. pose proof (vi_tree _ _ Hv) as Ht.
  destruct (vfs_resolve_spec v path (tree_names_ok _ Ht) Hp Hne) as (r & E & Hw). rewrite pieces_short in Hw by done.
  exists r. split; [done|]. destruct Hw as [[Hr Hw]|[-> Hw]].
  - destruct (reach_used _ _ _ Ht Hw) as [Hb _]. split; [by right|]. intros Hu k. split; [|by intros [<- _]].
    intros Hk. split; [|lia]. by apply (reach_fun (inodes v) Hu 0 (comps (cstr path))).
  - split; [by left|]. intros Hu k. split; [intros Hk; by destruct (Hw Hu k)|by intros [_ ?]].
Qed.

(** [vfs_mkdir] on a path that fits the buffers: it refuses, changing
    nothing, an empty name, a missing parent, a name that exists and a full
    table; otherwise the tree gains exactly one empty directory at that path,
    every other path and every file keeping its meaning. *)
Theorem vfs_mkdir_correct {H : Type} `{AllocatorLaws H} (v : vfs H) (rest : list (Z * Z)) (path u w : list Z) :
  vfs_inv v rest -> unique_names (inodes v) -> short_split path u w ->
  exists r v', vfs_mkdir path v = Ret (r, v') /\ vfs_inv v' rest /\ unique_names (inodes v')
    /\ fds v' = fds v
    /\ ((r = -1 /\ v' = v
           /\ (w = [] \/ (forall par, reach (inodes v) 0 (comps u) par -> ~ dir_at (inodes v) par)
               \/ (exists k, reach (inodes v) 0 (comps u ++ [w]) k)
               \/ forall i x, 1 <= i < 64 -> inodes v !! Z.to_nat i = Some x -> i_used x <> 0))
        \/ (1 <= r < 64 /\ dir_at (inodes v') r /\ (forall c j, ~ is_child (inodes v') r c j)
            /\ reach (inodes v') 0 (comps u ++ [w]) r
            /\ (forall cs k, k <> r -> reach (inodes v') 0 cs k <-> reach (inodes v) 0 cs k)
            /\ (forall j, 0 <= j -> j <> r -> file_bytes v' j = file_bytes v j))).
Proof.
  intros Hv Hun Hsh. pose proof Hsh as (Hp & Hne & Hs & _). pose proof (vi_tree _ _ Hv) as Ht. pose proof (t_len _ Ht) as Hl.
  destruct (vfs_mkdir_spec v rest path u w Hv Hp Hs) as (r & v' & E & Hv' & Hr). exists r, v'.
  split; [done|]. split; [done|]. destruct Hr as [(-> & -> & Hwhy)|(par & nm & Hpl & Hnc & Hnm & ->)].
  - split; [done|]. split; [done|]. left. split; [done|]. split; [done|].
    destruct (decide (w = [])) as [|Hw]; [by left|]. destruct (short_pieces _ _ _ Hsh Hw) as (_ & E1 & E2 & E3).
    rewrite E1, E2, E3 in Hwhy. unfold no_place in Hwhy. rewrite E1, E3 in Hwhy. right.
    destruct Hwhy as [[?|[Hd|Hf]]|(par & j & Hr & Hc)]; [done|left; auto|right; by right|].
    right. left. exists j. apply reach_snoc. eauto.
  - destruct Hpl as (Hr & Hd & Hw & Hi & x & Ex & Hu). destruct (short_pieces _ _ _ Hsh Hw) as (_ & E1 & E2 & E3).
    rewrite E1, E3 in Hr. rewrite E2 in Hnc, Hnm. set (x' := mk_inode nm VFS_DIR par 0 0 1) in *.
    pose proof (fun cs k => reach_add (inodes v) r x x' cs k Ht Hi Ex Hu ltac:(done) Hd) as Hadd. cbn in Hadd. rewrite Hnm in Hadd.
    split; [apply unique_add; [done|done|done|by cbn; rewrite Hnm]|]. split; [done|]. right.
    split_and!; try lia.
    + split; [lia|]. exists x'. cbn [inodes set_inodes]. by rewrite list_lookup_insert_eq by lia.
    + intros c j [(-> & _ & Hp' & _)|(_ & Hc)]%is_child_insert; [| |done|done].
      * cbn in Hp'. destruct Hd as (_ & y & Ey & Hy & _). rewrite Hp', Ex in Ey. by injection Ey as <-.
      * destruct (t_links _ Ht _ _ _ Hc) as [(_ & y & Ey & Hy & _) _]. rewrite Ex in Ey. by injection Ey as <-.
    + apply Hadd. right. split; [done|]. eauto.
    + intros cs k Hk. rewrite Hadd. split; [by intros [?|[? _]]|by left].
    + intros j Hj Hne'. apply (file_bytes_other v _ r x' (vblocks v)); [done|lia|lia|done|done].
Qed.

Lemma comps_trail u : comps (u ++ [47]) = comps u.
Proof.
  assert (forall n u, (length u <= n)%nat -> comps (u ++ [47]) = comps u) as Hk; [|by eapply Hk].
  induction n as [|n IH]; intros t Ht; [by destruct t; [|simpl in Ht; lia]|].
  destruct (slash_cases t) as (x & Hx & [->|(t' & ->)]).
  - change (x ++ [47]) with (x ++ 47 :: []). rewrite comps_app by done. change (comps []) with (@nil (list Z)). rewrite app_nil_r.
    case_decide as Hx0; [by subst x|]. by rewrite (comps_word x).
  - rewrite <- app_assoc. cbn [app]. rewrite (comps_app x t'), (comps_app x (t' ++ [47])) by done. rewrite IH; [done|].
    rewrite length_app in Ht. simpl in Ht. lia.
Qed.

Lemma reach_iff ins ins' p cs k :
  (forall p c j, is_child ins' p c j <-> is_child ins p c j) -> reach ins' p cs k <-> reach ins p cs k.
Proof.
  intros Hc. split; induction 1; [constructor| |constructor|].
  - econstructor; [by apply Hc|done].
  - econstructor; [by apply Hc|done].
Qed.

(** What opening file [k] does once it is found or made: a closed descriptor
    is taken, at the end for O_APPEND and at 0 otherwise, unless all are open. *)
Definition opens {H} `{Allocator H} (v : vfs H) (r : Z) (v' : vfs H) (k flags : Z) : Prop :=
  (r = -1 /\ fds v' = fds v /\ Forall (fun f => f_inode f <> -1) (fds v))
  \/ ((forall f x, ~ opened v r f x)
      /\ exists x, opened v' r (mk_fd k (if has_flag flags O_APPEND then i_size x else 0) flags) x).

Lemma open_fd_opens {H : Type} `{AllocatorLaws H} (v v1 : vfs H) rest k flags x :
  vfs_inv v1 rest -> fds v1 = fds v -> 0 <= k < 64 -> inodes v1 !! Z.to_nat k = Some x -> i_used x <> 0 -> i_type x = VFS_FILE ->
  exists r v', open_fd k flags v1 = Ret (r, v') /\ vfs_inv v' rest /\ inodes v' = inodes v1 /\ vblocks v' = vblocks v1
    /\ opens v r v' k flags.
Proof.
  intros Hv1 Hf1 Hi Ex Hu Hty.
  destruct (open_fd_spec v1 rest k flags x Hv1 Hi Ex Hu Hty) as (r & v' & E & Hv' & Ei & Eb & Hr).
  exists r, v'. split_and!; try done. destruct Hr as [(-> & -> & Hfull)|[Hcl Hop]]; [left; by rewrite <- Hf1|right].
  split; [|by exists x]. intros f y (A & B & C & D & F).
  pose proof (vi_fds _ _ Hv1) as Hfd. rewrite Hf1 in Hfd.
  pose proof (Forall_lookup_1 _ _ _ _ Hfd B) as [?|[(? & z & Hz & ? & _) _]]; [lia|].
  apply (Hcl f z). split_and!; try done; try lia. by rewrite Hf1.
Qed.

Lemma short_split_pieces path u w : short_split path u w -> pieces (cstr path) = comps (cstr path).
Proof.
  intros (_ & _ & (Hn & Hs') & Hu & Hw). apply pieces_short. destruct Hs' as [[-> ->]| ->]; [by apply short_words|].
  destruct (decide (w = [])) as [->|Hw0].
  - rewrite comps_trail. by apply short_words.
  - rewrite comps_snoc by done. apply Forall_app. split; [by apply short_words|by constructor].
Qed.

Lemma vfs_open_effect {H : Type} `{AllocatorLaws H} (v : vfs H) (rest : list (Z * Z))
  (junk path u w : list Z) (flags : Z) :
  vfs_inv v rest -> unique_names (inodes v) -> short_split path u w ->
  exists r v', vfs_open junk path flags v = Ret (r, v') /\ vfs_inv v' rest /\ unique_names (inodes v')
    /\ ((exists k, reach (inodes v) 0 (comps (cstr path)) k
           /\ (dir_at (inodes v) k /\ r = -1 /\ v' = v
               \/ file_at (inodes v) k /\ opens v r v' k flags
                  /\ file_bytes v' k = (if has_flag flags O_TRUNC then Some [] else file_bytes v k)
                  /\ (forall j, 0 <= j -> j <> k -> file_bytes v' j = file_bytes v j)
                  /\ forall cs j, reach (inodes v') 0 cs j <-> reach (inodes v) 0 cs j))
        \/ (forall k, ~ reach (inodes v) 0 (comps (cstr path)) k)
           /\ (has_flag flags O_CREAT = false /\ r = -1 /\ v' = v
               \/ has_flag flags O_CREAT = true
                  /\ (r = -1 /\ inodes v' = inodes v /\ fds v' = fds v /\ (forall j, file_bytes v' j = file_bytes v j)
                        /\ (no_place v u w \/ exists h, al_alloc VFS_MAX_FSIZE 16 (bh_heap (vblocks v)) = Ret (0, h))
                      \/ exists k, 1 <= k < 64 /\ opens v r v' k flags /\ file_bytes v' k = Some []
                         /\ (forall j, 0 <= j -> j <> k -> file_bytes v' j = file_bytes v j)
                         /\ reach (inodes v') 0 (comps u ++ [w]) k
                         /\ forall cs j, j <> k -> reach (inodes v') 0 cs j <-> reach (inodes v) 0 cs j))).
Proof.
  intros Hv Hun Hsh. pose proof Hsh as (Hp & Hne & Hs & _). pose proof (vi_tree _ _ Hv) as Ht. pose proof (t_len _ Ht) as Hl.
  pose proof (short_split_pieces _ _ _ Hsh) as Epc.
  destruct (vfs_resolve_spec v path (tree_names_ok _ Ht) Hp Hne) as (k & E & Hw). rewrite Epc in Hw.
  unfold vfs_open. rewrite E, bind_Ret. destruct Hw as [[Hk Hw]|[-> Hno]].
  - destruct (Z.ltb_spec k 0); [lia|]. destruct (reach_used _ _ _ Ht Hw) as (Hi & x & Ex & Hu).
    destruct (open_existing_spec v rest k flags x Hv Hi Ex Hu) as (ok & v1 & -> & Hv1 & Hf1 & Hok & Hch & Hob & Hfa & Htr).
    rewrite bind_Ret. cbv iota beta. destruct ok; symmetry in Hok.
    + apply bool_decide_eq_true in Hok. destruct (Htr eq_refl) as (x' & Ex' & Hu' & Hty' & Hsz' & Hc').
      destruct (open_fd_opens v v1 rest k flags x' Hv1 Hf1 Hi Ex' Hu' Hty') as (r & v' & E' & Hv' & Ei & Eb & Hr).
      exists r, v'. split; [done|]. split; [done|]. split; [rewrite Ei; intros q c i j ?%Hch ?%Hch; by eapply Hun|]. left. exists k. split; [done|]. right. split; [split; [done|]; by exists x|].
      assert (forall j, file_bytes v' j = file_bytes v1 j) as Hsame by (intros j; by apply file_bytes_ext).
      split_and!.
      * done.
      * by rewrite Hsame.
      * intros j Hj Hne'. rewrite Hsame. by apply Hob.
      * intros cs j. rewrite Ei. by apply reach_iff.
    + apply bool_decide_eq_false in Hok. rewrite (Hfa eq_refl). exists (-1), v. split; [done|]. split; [done|]. split; [done|].
      left. exists k. split; [done|]. left. split; [|done].
      destruct (no_kind _ (tree_node _ _ _ Ht Ex) Hu) as [[? _]|[? _]]; [done|]. split; [done|]. by exists x.
  - change (-1 <? 0) with true. cbv iota. destruct (has_flag flags O_CREAT) eqn:Ecr; cbn [negb].
    2: { exists (-1), v. split; [done|]. split; [done|]. split; [done|]. right. split; [auto|]. by left. }
    destruct (open_create_spec v rest junk path u w Hv Hp Hs) as (k & v1 & -> & Hv1 & Hf1 & Hr).
    rewrite bind_Ret. cbv iota beta. destruct Hr as [(-> & Ei & Eb & Hwhy)|(par & nm & p & b & Hpl & Hnm & Hpn & Ev1 & Hb & Hpf)].
    + exists (-1), v1. split; [done|]. split; [done|]. split; [by rewrite Ei|]. right. split; [auto|]. right. split; [done|]. left. split_and!; try done.
      intros j. unfold file_bytes. by rewrite Ei, Eb.
    + destruct Hpl as (Hr & Hd & Hw & Hi & x & Ex & Hu). destruct (short_pieces _ _ _ Hsh Hw) as (Et & E1 & E2 & E3).
      rewrite E1, E3 in Hr. rewrite E2 in Hnm. set (x' := mk_inode nm VFS_FILE par 0 p 1) in *.
      destruct (Z.ltb_spec k 0); [lia|].
      assert (inodes v1 !! Z.to_nat k = Some x') as Ex1 by (rewrite Ev1; apply list_lookup_insert_eq; lia).
      destruct (open_fd_opens v v1 rest k flags x' Hv1 Hf1 ltac:(lia) Ex1) as (r & v' & E' & Hv' & Ei & Evb & Hrr); [done|done|].
      pose proof (fun cs k' => reach_add (inodes v) k x x' cs k' Ht Hi Ex Hu ltac:(done) Hd) as Hadd.
      cbn [i_parent i_name x'] in Hadd. rewrite Hnm in Hadd.
      assert (inodes v' = <[Z.to_nat k := x']> (inodes v)) as Ei' by by rewrite Ei, Ev1. 
      exists r, v'. split; [done|]. split; [done|]. split.
      { rewrite Ei'. apply unique_add; [done|done|done|]. cbn [i_parent i_name x']. rewrite Hnm. intros j Hj.
        apply (Hno Hun j). rewrite <- Epc, Et. apply reach_snoc. eauto. }
      right. split; [auto|]. right. split; [done|]. right. exists k. rewrite Ei'.
      split; [lia|]. split; [|split; [|split; [|split]]].
      * done.
      * rewrite (file_bytes_ext v1) by done. unfold file_bytes. rewrite Ex1. cbn. by rewrite Ev1; cbn; rewrite Hb, lookup_insert_eq.
      * intros j Hj Hne'. rewrite (file_bytes_ext v1) by done. apply (file_bytes_other v v1 k x' b j Ev1); [lia|done|done|].
        intros y Ey Huy Hty. rewrite Hb, lookup_insert_ne; [done|]. intros Heq. apply Hpf. rewrite Heq.
        apply list_elem_of_fmap. exists (i_data y, VFS_MAX_FSIZE). split; [done|]. rewrite file_blocks_lookup by done.
        unfold file_block. destruct (Z.eqb_spec (i_data y) 0); [congruence|]. by left.
      * apply Hadd. right. split; [done|]. eauto.
      * intros cs j Hj. rewrite Hadd. split; [by intros [?|[? _]]|by left].
Qed.

(** C31. [vfs_open] on a path that fits the buffers.  A directory is refused.  A
    file is opened with its bytes, or emptied by O_TRUNC, and nothing else
    changes.  A missing path is refused without O_CREAT; with it the tree gains
    one empty file there, unless the name is empty, the parent missing, the
    table full or the heap exhausted, and then tree and files stay as they were. *)
Theorem vfs_open_correct {H : Type} `{AllocatorLaws H} (v : vfs H) (rest : list (Z * Z))
  (junk path u w : list Z) (flags : Z) :
  vfs_inv v rest -> unique_names (inodes v) -> short_split path u w ->
  exists r v', vfs_open junk path flags v = Ret (r, v') /\ vfs_inv v' rest
    /\ ((exists k, reach (inodes v) 0 (comps (cstr path)) k
           /\ (dir_at (inodes v) k /\ r = -1 /\ v' = v
               \/ file_at (inodes v) k /\ opens v r v' k flags
                  /\ file_bytes v' k = (if has_flag flags O_TRUNC then Some [] else file_bytes v k)
                  /\ (forall j, 0 <= j -> j <> k -> file_bytes v' j = file_bytes v j)
                  /\ forall cs j, reach (inodes v') 0 cs j <-> reach (inodes v) 0 cs j))
        \/ (forall k, ~ reach (inodes v) 0 (comps (cstr path)) k)
           /\ (has_flag flags O_CREAT = false /\ r = -1 /\ v' = v
               \/ has_flag flags O_CREAT = true
                  /\ (r = -1 /\ inodes v' = inodes v /\ fds v' = fds v /\ (forall j, file_bytes v' j = file_bytes v j)
                        /\ (no_place v u w \/ exists h, al_alloc VFS_MAX_FSIZE 16 (bh_heap (vblocks v)) = Ret (0, h))
                      \/ exists k, 1 <= k < 64 /\ opens v r v' k flags /\ file_bytes v' k = Some []
                         /\ (forall j, 0 <= j -> j <> k -> file_bytes v' j = file_bytes v j)
                         /\ reach (inodes v') 0 (comps u ++ [w]) k /\ unique_names (inodes v')
                         /\ forall cs j, j <> k -> reach (inodes v') 0 cs j <-> reach (inodes v) 0 cs j))).
Proof.
  intros Hv Hun Hsh. destruct (vfs_open_effect v rest junk path u w flags Hv Hun Hsh) as (r & v' & E & Hv' & Hun' & Hr).
  exists r, v'. split; [done|]. split; [done|]. destruct Hr as [?|[Hno [?|[Hc [?|(k & Hk & Ho & Hb & Hob & Hr & Hcs)]]]]]; [by left|by right; split; [|left]|by right; split; [|right; split; [|left]]|].
  right. split; [done|]. right. split; [done|]. right. by exists k.
Qed.

(** C12. What is written is read back.  A write at position [p] of a file (its
    end for O_APPEND, and no gap before it) stores the first bytes that fit in
    16 KB in place there and touches no other file; seeking to [p] and reading
    as many bytes gives them back.  Only a write at 16 KB fails. *)
Theorem vfs_write_read {H : Type} `{AllocatorLaws H} (v : vfs H) (rest : list (Z * Z)) (fd len : Z)
  (buf out : list Z) (f : vfs_fd_t) (x : vfs_inode_t) :
  vfs_inv v rest -> opened v fd f x -> 0 <= len <= zlen buf -> len <= zlen out -> len <= INT_MAX ->
  let p := write_pos f x in p <= i_size x ->
  exists c c' r v1, file_bytes v (f_inode f) = Some c /\ vfs_write fd buf len v = Ret (r, v1) /\ vfs_inv v1 rest
    /\ file_bytes v1 (f_inode f) = Some c' /\ (forall j, 0 <= j -> j <> f_inode f -> file_bytes v1 j = file_bytes v j)
    /\ (p = 16384 /\ r = -1 /\ c' = c
        \/ p < 16384 /\ r = Z.min len (16384 - p) /\ c' = splice p (take (Z.to_nat r) buf) c
           /\ exists v2 v3, vfs_seek fd p SEEK_SET v1 = Ret (p, v2)
                /\ vfs_read fd out r v2 = Ret (r, take (Z.to_nat r) buf ++ drop (Z.to_nat r) out, v3)).
Proof.
  intros Hv Hop Hlen Hout Hmax p Hp.
  destruct (vfs_write_spec v rest fd buf len Hv Hlen Hmax) as (r & v1 & E & Hv1 & _ & _ & Hw).
  destruct (Hw f x Hop) as (c & c' & Hc & Hc' & Ho & Hcl & Hr). clear Hw. fold p in Hr.
  exists c, c', r, v1. do 5 (split; [done|]). destruct Hr as [?|(Hp16 & Er & Hs & Hop1)]; [by left|right].
  rewrite Hcl in Hs. specialize (Hs Hp). do 3 (split; [done|]).
  assert (0 <= p) as Hp0.
  { unfold p, write_pos. destruct (open_desc_spec v rest fd Hv) as [[_ Hno]|(g & y & _ & Hg & _ & _ & _ & Hn & Hpos & _)].
    - by destruct (Hno f x).
    - destruct Hop as (_ & Ef & _ & Ex & _), Hg as (_ & Eg & _ & Ey & _). rewrite Ef in Eg. injection Eg as <-.
      rewrite Ex in Ey. injection Ey as <-. pose proof (no_size _ Hn). destruct (has_flag _ _); lia. }
  destruct (vfs_seek_spec v1 rest fd p SEEK_SET Hv1 ltac:(lia)) as (r2 & v2 & E2 & Hv2 & Ei2 & Eb2 & Hsk).
  specialize (Hsk _ _ Hop1 eq_refl). rewrite bool_decide_true in Hsk by (simpl; lia). destruct Hsk as [-> Hop2].
  assert (0 <= r) as Hr0 by lia.
  destruct (vfs_read_spec v2 rest fd out r Hv2 ltac:(lia) ltac:(lia)) as (r3 & out' & v3 & E3 & _ & _ & _ & _ & Hrd).
  destruct (Hrd _ _ Hop2) as (c2 & Hc2 & Er3 & Eo & _). cbn [f_inode f_pos set_pos] in *.
  rewrite (file_bytes_ext v1), Hc' in Hc2 by done. injection Hc2 as <-.
  assert (length (take (Z.to_nat r) buf) = Z.to_nat r) as Htl by (rewrite length_take; lia).
  assert (Z.to_nat p + Z.to_nat r <= length c')%nat as Hcl'.
  { rewrite Hs. unfold splice. rewrite !length_app, length_take, Htl. lia. }
  assert (r3 = r) as -> by lia. exists v2, v3. split; [done|]. rewrite E3, Eo. do 3 f_equal.
  rewrite Hs. unfold splice. rewrite drop_app_ge by (rewrite length_take; lia).
  replace (Z.to_nat p - length (take (Z.to_nat p) c))%nat with 0%nat by (rewrite length_take; lia).
  rewrite drop_0. rewrite take_app_le by lia. by rewrite take_ge by lia.
Qed.


(** *** Histories of calls *)

Inductive vfs_op :=
| OpMkdir (path : list Z)
| OpOpen (junk path : list Z) (flags : Z)
| OpClose (fd : Z)
| OpRead (fd : Z) (buf : list Z) (len : Z)
| OpWrite (fd : Z) (buf : list Z) (len : Z)
| OpSeek (fd offset whence : Z)
| OpUnlink (path : list Z).

(** What the callers guarantee: C strings, and lengths within their buffers. *)
Definition op_ok (op : vfs_op) : Prop :=
  match op with
  | OpMkdir path | OpOpen _ path _ | OpUnlink path => path_ok path
  | OpClose _ => True
  | OpRead _ buf len | OpWrite _ buf len => 0 <= len <= zlen buf /\ len <= INT_MAX
  | OpSeek _ offset _ => INT_MIN + 16384 <= offset <= INT_MAX - 16384
  end.

Definition run_op {H} `{Allocator H} (op : vfs_op) (v : vfs H) : outcome (vfs H) :=
  match op with
  | OpMkdir path => '(_, v) ← vfs_mkdir path v; Ret v
  | OpOpen junk path flags => '(_, v) ← vfs_open junk path flags v; Ret v
  | OpClose fd => vfs_close fd v
  | OpRead fd buf len => '(_, _, v) ← vfs_read fd buf len v; Ret v
  | OpWrite fd buf len => '(_, v) ← vfs_write fd buf len v; Ret v
  | OpSeek fd offset whence => '(_, v) ← vfs_seek fd offset whence v; Ret v
  | OpUnlink path => '(_, v) ← vfs_unlink path v; Ret v
  end.

Fixpoint run_ops {H} `{Allocator H} (ops : list vfs_op) (v : vfs H) : outcome (vfs H) :=
  match ops with
  | [] => Ret v
  | op :: ops => v ← run_op op v; run_ops ops v
  end.

Lemma run_op_inv {H} `{AllocatorLaws H} op (v : vfs H) rest :
  vfs_inv v rest -> op_ok op -> exists v', run_op op v = Ret v' /\ vfs_inv v' rest.
Proof.
  intros Hv Hok. destruct op as [path|junk path flags|fd|fd buf len|fd buf len|fd off wh|path]; simpl in *.
  - destruct (slash_last (cstr path)) as (u & w & Hs).
    destruct (vfs_mkdir_spec v rest path u w Hv Hok Hs) as (r & v' & -> & Hv' & _). by exists v'.
  - destruct (vfs_open_inv v rest junk path flags Hv Hok) as (r & v' & -> & Hv'). by exists v'.
  - destruct (vfs_close_spec v rest fd Hv) as (v' & -> & Hv' & _). by exists v'.
  - destruct (vfs_read_spec v rest fd buf len Hv) as (r & b & v' & -> & Hv' & _); [lia|lia|]. by exists v'.
  - destruct (vfs_write_spec v rest fd buf len Hv) as (r & v' & -> & Hv' & _); [lia|lia|]. by exists v'.
  - destruct (vfs_seek_spec v rest fd off wh Hv Hok) as (r & v' & -> & Hv' & _). by exists v'.
  - destruct (vfs_unlink_spec v rest path Hv Hok) as (r & v' & -> & Hv' & _). by exists v'.
Qed.

Lemma run_ops_inv {H} `{AllocatorLaws H} ops (v : vfs H) rest :
  vfs_inv v rest -> Forall op_ok ops -> exists v', run_ops ops v = Ret v' /\ vfs_inv v' rest.
Proof.
  intros Hv Hok. revert v Hv. induction Hok as [|op ops Hop _ IH]; intros v Hv; simpl; [by exists v|].
  destruct (run_op_inv op v rest Hv Hop) as (v1 & -> & Hv1). rewrite bind_Ret. by apply IH.
Qed.

Lemma vfs_init_inv {H} `{AllocatorLaws H} (v : vfs H) rest :
  length (fds v) = 16%nat -> bowns (vblocks v) rest ->
  exists v', vfs_init v = Ret v' /\ vfs_inv v' rest /\ forall p c j, ~ is_child (inodes v') p c j.
Proof.
  intros Hl Hb. unfold vfs_init, VFS_MAX_INODES, VFS_MAX_FDS. cbv zeta.
  set (v0 := set_inodes v _).
  destruct (for_range_ind (fun i w => inodes w = inodes v0 /\ vblocks w = vblocks v /\ length (fds w) = 16%nat
      /\ forall n f, Z.of_nat n < i -> fds w !! n = Some f -> f_inode f = -1)
    0 16 (fun i w => upd_fd w i (set_finode (-1))) v0) as (w & E & Ei & Eb & El & Hf); [lia| | |].
  - split_and!; try done. intros n f Hn. lia.
  - intros i w Hi (Ei & Eb & El & Hf). destruct (lookup_lt_is_Some_2 (fds w) (Z.to_nat i)) as [f Ef]; [lia|].
    rewrite (upd_fd_ok w i f) by (done || lia). eexists. split; [reflexivity|]. cbn.
    rewrite length_insert. split_and!; try done. intros n g Hn Hg. destruct (decide (n = Z.to_nat i)) as [->|Hne].
    + rewrite list_lookup_insert_eq in Hg by lia. injection Hg as <-. done.
    + rewrite list_lookup_insert_ne in Hg by done. apply (Hf n); [lia|done].
  - rewrite E, bind_Ret. assert (inodes w = replicate 64 inode_zero) as Ew by by rewrite Ei. rewrite Ew.
    assert (aget (replicate 64 inode_zero) 0 = Ret inode_zero) as -> by done. rewrite bind_Ret.
    rewrite aset_ok, bind_Ret, aset_ok, bind_Ret, aset_ok, bind_Ret by (rewrite ?length_insert; done).
    set (root := mk_inode _ _ _ _ _ _). eexists. split; [reflexivity|].
    assert (forall p c j, ~ is_child (<[Z.to_nat 0 := root]> (replicate 64 inode_zero)) p c j) as Hnc.
    { intros p c j (Hj & x & Ex & Hu & _). rewrite list_lookup_insert_ne in Ex by lia.
      apply lookup_replicate in Ex as [-> _]. done. }
    split; [|exact Hnc]. split; cbn [inodes fds vblocks set_inodes].
    + split; [done| | | |].
      * apply Forall_insert; [apply Forall_replicate, inode_zero_ok|]. split; [done|done|done| |intros _; by right]. intros _.
        unfold terminated. right. left.
      * split; [lia|]. by exists root.
      * intros p c j Hc. by destruct (Hnc p c j).
      * exists (fun _ => 0%nat). intros p c j Hc. by destruct (Hnc p c j).
    + done.
    + apply Forall_lookup. intros n f Ef. left. apply (Hf n); [|done]. apply lookup_lt_Some in Ef. lia.
    + by rewrite Eb.
Qed.


(** *** Examples *)

(** A machine with 192 KB of heap and an empty file system. *)
Definition vfs_raw : vfs heap :=
  mk_vfs [] (replicate 16 (mk_fd 0 0 0)) (mk_bheap (alloc_init 65536 262144 (mk_cpu 0)) ∅).
Definition vfs_after (ops : list vfs_op) : vfs heap :=
  match v ← vfs_init vfs_raw; run_ops ops v with Ret v => v | _ => vfs_raw end.
Definition file_example : vfs heap := vfs_after [OpOpen [] (lit "/a") O_CREAT].

Lemma vfs_raw_owns : bowns (vblocks vfs_raw) [].
Proof.
  split; [|constructor]. split_and!; [|constructor|constructor].
  exists 65536, [], []. by apply alloc_init_inv.
Qed.

Lemma vfs_after_inv ops : Forall op_ok ops -> vfs_inv (vfs_after ops) [].
Proof.
  intros Hok. destruct (vfs_init_inv vfs_raw [] eq_refl vfs_raw_owns) as (v0 & E & Hv0 & _).
  destruct (run_ops_inv ops v0 [] Hv0 Hok) as (v1 & E1 & Hv1).
  unfold vfs_after. by rewrite E, bind_Ret, E1.
Qed.

Lemma vfs_empty_unique : unique_names (inodes (vfs_after [])).
Proof.
  destruct (vfs_init_inv vfs_raw [] eq_refl vfs_raw_owns) as (v0 & E & _ & Hno).
  unfold vfs_after. rewrite E, bind_Ret. cbn [run_ops]. intros p c j k Hj. by destruct (Hno p c j).
Qed.

Lemma example_path : short_split (lit "/a") [] [97].
Proof. split; [split; [right; right; by left|vm_compute; discriminate]|]. split_and!; try done.
  split; [unfold noslash; set_solver|by right]. Qed.

Lemma vfs_resolve_walk_witness : exists r, vfs_resolve (lit "/") (vfs_after []) = Ret r.
Proof.
  destruct (vfs_resolve_walk (vfs_after []) [] (lit "/")) as (r & E & _).
  - apply vfs_after_inv. constructor.
  - split; [right; by left|vm_compute; discriminate].
  - discriminate.
  - constructor.
  - exists r. exact E.
Defined.

Lemma vfs_mkdir_correct_witness :
  exists r v', vfs_mkdir (lit "/a") (vfs_after []) = Ret (r, v') /\ vfs_inv v' [].
Proof.
  destruct (vfs_mkdir_correct (vfs_after []) [] (lit "/a") [] [97]) as (r & v' & E & Hv & _).
  - apply vfs_after_inv. constructor.
  - exact vfs_empty_unique.
  - exact example_path.
  - exists r, v'. split; [exact E|exact Hv].
Defined.

Lemma vfs_open_correct_witness :
  exists r v', vfs_open [] (lit "/a") O_CREAT (vfs_after []) = Ret (r, v') /\ vfs_inv v' [].
Proof.
  destruct (vfs_open_correct (vfs_after []) [] [] (lit "/a") [] [97] O_CREAT) as (r & v' & E & Hv & _).
  - apply vfs_after_inv. constructor.
  - exact vfs_empty_unique.
  - exact example_path.
  - exists r, v'. split; [exact E|exact Hv].
Defined.

Lemma file_example_inv : vfs_inv file_example [].
Proof. apply vfs_after_inv. constructor; [apply example_path|constructor]. Qed.

Lemma file_example_opened :
  exists x, opened file_example 0 (mk_fd 1 0 4) x /\ i_size x = 0.
Proof.
  exists (nth 1 (inodes file_example) inode_zero). split_and!; try (vm_compute; done).
Qed.

Lemma vfs_write_read_witness :
  exists v1 v2 v3, vfs_write 0 [1; 2; 3] 3 file_example = Ret (3, v1)
    /\ vfs_seek 0 0 SEEK_SET v1 = Ret (0, v2) /\ vfs_read 0 [0; 0; 0] 3 v2 = Ret (3, [1; 2; 3], v3).
Proof.
  destruct file_example_opened as (x & Hx & Hs).
  destruct (vfs_write_read file_example [] 0 3 [1; 2; 3] [0; 0; 0] (mk_fd 1 0 4) x file_example_inv Hx)
    as (c & c' & r & v1 & _ & E & _ & _ & _ & Hr).
  - split; [lia|reflexivity].
  - reflexivity.
  - lia.
  - rewrite Hs. reflexivity.
  - destruct Hr as [(Hp & _)|(_ & Hr & _ & v2 & v3 & E2 & E3)]; [discriminate Hp|].
    change (write_pos (mk_fd 1 0 4) x) with 0 in Hr, E2. change (r = 3) in Hr. rewrite Hr in E, E3. exists v1, v2, v3.
    split; [exact E|]. split; [exact E2|exact E3].
Defined.



(** Names of more than 31 characters: O_CREAT makes a second file of the same
    name, because the walk looks for the first 31 characters as a directory. *)
Definition long_path : list Z := 47 :: replicate 32 97 ++ [0].
Definition twice_created : outcome (Z * Z) :=
  v ← vfs_init vfs_raw;
  '(f, v) ← vfs_open [] long_path O_CREAT v;
  '(g, v) ← vfs_open [] long_path O_CREAT v;
  a ← aget (fds v) f; b ← aget (fds v) g;
  Ret (f_inode a, f_inode b).
Lemma long_name_duplicates : twice_created = Ret (1, 2).
Proof. by vm_compute. Qed.

(** A negative length reaches memcpy as a huge one. *)
Lemma negative_write_undef :
  match vfs_write 0 [1; 2; 3] (-1) file_example with Undef => true | _ => false end = true.
Proof. by vm_compute. Qed.
