(* ===== verification/TinyLex.v ===== *)
(** tinycc.c, the scanner: character classes, blanks and comments, keywords,
    numbers, strings and identifiers (lines 77-343).

    A [const char *] into the source is the suffix of the source it points at
    (CString); [end] is the number of bytes from it to the end of the object,
    so [s < end] is "more bytes are left than that".  A scanner takes the
    position and returns it moved, as the code does through [ps]; where the
    code returns 0 or 1 and stores a result, the result is an option. *)
From S2P Require Import Prelude CString.

(** A character constant. *)
Definition ch (a : Ascii.ascii) : Z := Z.of_N (Ascii.N_of_ascii a).
Definition between (lo c hi : Z) : bool := (lo <=? c) && (c <=? hi).

Definition is_space (c : Z) : bool := (c =? 32) || (c =? 9) || (c =? 10) || (c =? 13).
Definition is_digit (c : Z) : bool := between 48 c 57.
Definition is_ident_start (c : Z) : bool := between 97 c 122 || between 65 c 90 || (c =? 95).
Definition is_ident_char (c : Z) : bool := is_ident_start c || is_digit c.

(** [*s] and [s[1]] *)
Definition peek (s : list Z) : outcome Z := aget s 0.

(** [s < end] *)
Definition before (s : list Z) (e : Z) : bool := e <? zlen s.

(** ** Blanks and comments *)

Fixpoint skip_spaces (s : list Z) : outcome (list Z) :=
  match s with
  | [] => Undef
  | c :: s' => if is_space c then skip_spaces s' else Ret s
  end.

Fixpoint skip_line (s : list Z) : outcome (list Z) :=
  match s with
  | [] => Undef
  | c :: s' => if negb (c =? 0) && negb (c =? 10) then skip_line s' else Ret s
  end.

(** [while(s[0] && !(s[0] == '*' && s[1] == '/')) s++; if(s[0]) s += 2;] *)
Fixpoint skip_block (s : list Z) : outcome (list Z) :=
  match s with
  | [] => Undef
  | c :: s' =>
    if c =? 0 then Ret s
    else if c =? 42 then
      match s' with
      | [] => Undef
      | d :: s'' => if d =? 47 then Ret s'' else skip_block s'
      end
    else skip_block s'
  end.

(** Every round but the last consumes the two characters of a comment. *)
Fixpoint skip_loop (fuel : nat) (s : list Z) : outcome (list Z) :=
  match fuel with
  | O => Hang
  | S fuel =>
    s ← skip_spaces s;
    c ← peek s;
    if c =? 47 then
      d ← aget s 1;
      if d =? 47 then s ← ptr_add s 2; s ← skip_line s; skip_loop fuel s
      else if d =? 42 then s ← ptr_add s 2; s ← skip_block s; skip_loop fuel s
      else Ret s
    else Ret s
  end.
Definition skip_ws_and_comments (s : list Z) : outcome (list Z) := skip_loop (S (length s)) s.

Fixpoint skip_pp (s : list Z) (e : Z) : outcome (list Z) :=
  if before s e then
    match s with
    | [] => Undef
    | c :: s' => if negb (c =? 0) && negb (c =? 10) then skip_pp s' e else Ret s
    end
  else Ret s.

Definition skip_preprocessor_line (s : list Z) (e : Z) : outcome (bool * list Z) :=
  if negb (before s e) then Ret (false, s)
  else
    c ← peek s;
    if negb (c =? 35) then Ret (false, s)
    else s ← skip_pp s e; Ret (true, s).

(** ** Keywords and tokens *)

(** No identifier goes on at [c]; the test uses no [is_ident_char]. *)
Definition word_end (c : Z) : bool :=
  negb (between 97 c 122 || between 65 c 90 || between 48 c 57 || (c =? 95)).

Definition match_kw (s kw : list Z) : outcome (bool * list Z) :=
  n ← k_strlen kw;
  r ← k_strncmp s kw n;
  if negb (r =? 0) then Ret (false, s)
  else
    c ← aget s n;
    if word_end c then s ← ptr_add s n; Ret (true, s) else Ret (false, s).

Definition expect_char (s : list Z) (want : Z) : outcome (bool * list Z) :=
  s ← skip_ws_and_comments s;
  c ← peek s;
  if c =? want then s ← ptr_add s 1; Ret (true, s) else Ret (false, s).

Definition match_str (s tok : list Z) : outcome (bool * list Z) :=
  s ← skip_ws_and_comments s;
  n ← k_strlen tok;
  r ← k_strncmp s tok n;
  if r =? 0 then s ← ptr_add s n; Ret (true, s) else Ret (false, s).

Definition match_word_prefix (s kw : list Z) : outcome bool :=
  n ← k_strlen kw;
  r ← k_strncmp s kw n;
  if negb (r =? 0) then Ret false else c ← aget s n; Ret (word_end c).

Fixpoint any_prefix (s : list Z) (kws : list (list Z)) : outcome bool :=
  match kws with
  | [] => Ret false
  | kw :: kws => b ← match_word_prefix s kw; if (b : bool) then Ret true else any_prefix s kws
  end.
Definition starts_decl_like (s : list Z) : outcome bool :=
  any_prefix s (map lit ["int"; "void"; "long"; "char"; "short"; "unsigned"; "signed"; "const"; "static"; "extern"]%string).

(** ** Numbers, strings, characters, names *)

Fixpoint number_loop (s : list Z) (value : Z) : outcome (Z * list Z) :=
  match s with
  | [] => Undef
  | c :: s' => if is_digit c then number_loop s' (s32 (s32 (value * 10) + (c - 48))) else Ret (value, s)
  end.

Definition parse_number (s : list Z) : outcome (option Z * list Z) :=
  s ← skip_ws_and_comments s;
  c ← peek s;
  let neg := c =? 45 in
  t ← (if neg then ptr_add s 1 else Ret s);
  c ← peek t;
  if negb (is_digit c) then Ret (None, s)
  else
    '(value, t) ← number_loop t 0;
    Ret (Some (if neg then s32 (- value) else value), t).

(** The character an escape stands for. *)
Definition escape (quote esc : Z) : option Z :=
  if esc =? 110 then Some 10
  else if esc =? 114 then Some 13
  else if esc =? 116 then Some 9
  else if esc =? 92 then Some 92
  else if esc =? quote then Some quote
  else None.

Fixpoint string_loop (s out : list Z) (cap len : Z) : outcome (option (list Z * Z * list Z)) :=
  match s with
  | [] => Undef
  | c :: s' =>
    if negb (c =? 0) && negb (c =? 34) then
      if c =? 92 then
        match s' with
        | [] => Undef
        | esc :: s'' =>
          match escape 34 esc with
          | None => Ret None
          | Some c => if cap - 1 <=? len then Ret None else out ← aset out len c; string_loop s'' out cap (len + 1)
          end
        end
      else if cap - 1 <=? len then Ret None
      else out ← aset out len c; string_loop s' out cap (len + 1)
    else Ret (Some (out, len, s))
  end.

(** The text with its NUL in [out], and its length. *)
Definition parse_c_string (s out : list Z) (cap : Z) : outcome (option (list Z * Z) * list Z) :=
  s ← skip_ws_and_comments s;
  c ← peek s;
  if negb (c =? 34) then Ret (None, s)
  else
    t ← ptr_add s 1;
    r ← string_loop t out cap 0;
    match r with
    | None => Ret (None, s)
    | Some (out, len, t) =>
      c ← peek t;
      if negb (c =? 34) then Ret (None, s)
      else t ← ptr_add t 1; out ← aset out len 0; Ret (Some (out, len), t)
    end.

Definition parse_c_char (s : list Z) : outcome (option Z * list Z) :=
  s ← skip_ws_and_comments s;
  q ← peek s;
  if negb (q =? 39) then Ret (None, s)
  else
    t ← ptr_add s 1;
    c0 ← peek t;
    r ← (if c0 =? 92 then
           t ← ptr_add t 1;
           e ← peek t;
           match escape 39 e with
           | None => Ret None
           | Some c => t ← ptr_add t 1; Ret (Some (c, t))
           end
         else if (c0 =? 0) || (c0 =? 39) then Ret None
         else t ← ptr_add t 1; Ret (Some (c0, t)));
    match r with
    | None => Ret (None, s)
    | Some (c, t) =>
      q ← peek t;
      if negb (q =? 39) then Ret (None, s) else t ← ptr_add t 1; Ret (Some c, t)
    end.

Fixpoint ident_loop (s out : list Z) (cap i : Z) : outcome (list Z * Z * list Z) :=
  match s with
  | [] => Undef
  | c :: s' =>
    if is_ident_char c && (i <? cap - 1) then out ← aset out i c; ident_loop s' out cap (i + 1)
    else Ret (out, i, s)
  end.

Definition parse_identifier (s out : list Z) (cap : Z) : outcome (option (list Z) * list Z) :=
  s ← skip_ws_and_comments s;
  c ← peek s;
  if negb (is_ident_start c) then Ret (None, s)
  else
    '(out, i, t) ← ident_loop s out cap 0;
    out ← aset out i 0;
    c ← peek t;
    if is_ident_char c then Ret (None, s) else Ret (Some out, t).

(** ** Declarations and headers outside a body *)

(** The rest of a string or character literal that [quote] ends. *)
Fixpoint skip_quoted (s : list Z) (e quote : Z) : outcome (list Z) :=
  if before s e then
    match s with
    | [] => Undef
    | q :: s' =>
      if q =? 0 then Ret s
      else if q =? 92 then
        (if before s' e then
           match s' with
           | [] => Undef
           | d :: s'' => if d =? 0 then Ret s' else skip_quoted s'' e quote
           end
         else Ret s')
      else if q =? quote then Ret s'
      else skip_quoted s' e quote
    end
  else Ret s.

(** [Some (opens, s)]: past the ';' or '{' that ends the header.  Every round
    consumes a character. *)
Fixpoint header_loop (fuel : nat) (s : list Z) (e depth : Z) : outcome (option (bool * list Z)) :=
  match fuel with
  | O => Hang
  | S fuel =>
    if before s e then
      c ← peek s;
      if c =? 0 then Ret None
      else
        s ← ptr_add s 1;
        if (c =? 34) || (c =? 39) then s ← skip_quoted s e c; header_loop fuel s e depth
        else if c =? 40 then header_loop fuel s e (s32 (depth + 1))
        else if c =? 41 then
          if depth =? 0 then Ret None else header_loop fuel s e (depth - 1)
        else if (depth =? 0) && ((c =? 59) || (c =? 123)) then Ret (Some (c =? 123, s))
        else header_loop fuel s e depth
    else Ret None
  end.
Definition skip_decl_or_header (s : list Z) (e : Z) : outcome (option (bool * list Z)) :=
  header_loop (S (length s)) s e 0.

(** ** Scanners stay inside the source

    [adv s t]: [t] is a position at or after [s] and before the end of the
    string. *)
Definition adv (s t : list Z) : Prop := terminated t /\ t `suffix_of` s.

Lemma adv_refl s : terminated s -> adv s s.
Proof. by split. Qed.

Lemma adv_trans s t u : adv s t -> adv t u -> adv s u.
Proof. intros [_ H1] [Hu H2]. split; [done|]. by etrans. Qed.

Lemma adv_length s t : adv s t -> (length t <= length s)%nat.
Proof. intros [_ H]. by apply suffix_length. Qed.

Lemma adv_cons c s t : adv s t -> adv (c :: s) t.
Proof. intros [Ht Hs]. split; [done|]. by apply suffix_cons_r. Qed.

Lemma adv_tail c s : terminated (c :: s) -> c <> 0 -> adv (c :: s) s.
Proof.
  intros Ht Hc. split; [|by exists [c]].
  by apply elem_of_cons in Ht as [?|].
Qed.

#[export] Hint Resolve adv_refl adv_trans adv_cons : core.

Lemma peek_cons c s : peek (c :: s) = Ret c.
Proof. done. Qed.

Lemma terminated_cons_inv c s : terminated (c :: s) -> c <> 0 -> terminated s.
Proof. intros [?|?]%elem_of_cons Hc; [congruence|done]. Qed.

(** Skipping over the text [w] at [s]. *)
Lemma ptr_add_prefix (w s : list Z) : ptr_add (w ++ s) (zlen w) = Ret s.
Proof. unfold ptr_add. rewrite bool_decide_true by (rewrite length_app; lia). by rewrite Nat2Z.id, drop_app_length. Qed.

Lemma ptr_add_1 c s : ptr_add (c :: s) 1 = Ret s.
Proof. exact (ptr_add_prefix [c] s). Qed.

Lemma ptr_add_2 c d s : ptr_add (c :: d :: s) 2 = Ret s.
Proof. exact (ptr_add_prefix [c; d] s). Qed.

Lemma skip_spaces_ok s : terminated s -> exists t, skip_spaces s = Ret t /\ adv s t.
Proof.
  induction s as [|c s IH]; intros Ht; [by apply elem_of_nil in Ht|]. simpl.
  destruct (is_space c) eqn:Es; [|exists (c :: s); auto].
  destruct IH as (t & E & Ha); [|exists t; auto]. apply (terminated_cons_inv c); [done|]. by intros ->.
Qed.

Lemma skip_line_ok s : terminated s -> exists t, skip_line s = Ret t /\ adv s t.
Proof.
  induction s as [|c s IH]; intros Ht; [by apply elem_of_nil in Ht|]. simpl.
  destruct (Z.eqb_spec c 0) as [->|Hc]; [exists (0 :: s); auto|]. destruct (Z.eqb_spec c 10); cbn [negb andb]; [exists (c :: s); auto|].
  destruct IH as (t & E & Ha); [|exists t; auto]. by apply (terminated_cons_inv c).
Qed.

Lemma skip_block_ok s : terminated s -> exists t, skip_block s = Ret t /\ adv s t.
Proof.
  induction s as [|c s IH]; intros Ht; [by apply elem_of_nil in Ht|]. cbn [skip_block].
  destruct (Z.eqb_spec c 0) as [->|Hc]; [exists (0 :: s); auto|].
  pose proof (terminated_cons_inv _ _ Ht Hc) as Ht'. destruct (IH Ht') as (t & E & Ha).
  destruct (Z.eqb_spec c 42) as [->|_]; [|exists t; auto]. destruct s as [|d s]; [by apply elem_of_nil in Ht'|].
  destruct (Z.eqb_spec d 47) as [->|_]; [|exists t; auto]. exists s. split; [done|].
  apply adv_cons, adv_tail; [done|lia].
Qed.

Lemma skip_loop_ok fuel s : terminated s -> (length s < fuel)%nat -> exists t, skip_loop fuel s = Ret t /\ adv s t.
Proof.
  revert s. induction fuel as [|fuel IH]; intros s Ht Hf; [lia|]. cbn [skip_loop].
  destruct (skip_spaces_ok s Ht) as (t & -> & Ha). rewrite bind_Ret. pose proof Ha as [Htt _].
  destruct t as [|c t]; [by apply elem_of_nil in Htt|]. rewrite peek_cons, bind_Ret.
  destruct (Z.eqb_spec c 47) as [->|_]; [|exists (c :: t); auto].
  pose proof (terminated_cons_inv _ _ Htt ltac:(lia)) as Ht2. destruct t as [|d t]; [by apply elem_of_nil in Ht2|].
  assert (aget (47 :: d :: t) 1 = Ret d) as -> by done. rewrite bind_Ret.
  pose proof (adv_length _ _ Ha) as Hl. simpl in Hl.
  assert (forall f, (f t = skip_line t \/ f t = skip_block t) -> d <> 0 ->
    exists u, (s0 ← ptr_add (47 :: d :: t) 2; s1 ← f s0; skip_loop fuel s1) = Ret u /\ adv s u) as Hk.
  { intros f Hf' Hd. pose proof (terminated_cons_inv _ _ Ht2 Hd) as Ht3. rewrite ptr_add_2, bind_Ret.
    assert (exists v, f t = Ret v /\ adv t v) as (v & -> & Hv).
    { destruct Hf' as [-> | ->]; [by apply skip_line_ok|by apply skip_block_ok]. }
    rewrite bind_Ret. pose proof (adv_length _ _ Hv). destruct (IH v) as (u & -> & Hu); [apply Hv|lia|].
    exists u. split; [done|]. eapply adv_trans; [done|]. do 2 apply adv_cons. eauto. }
  destruct (Z.eqb_spec d 47) as [->|_]; [by apply (Hk skip_line); auto|].
  destruct (Z.eqb_spec d 42) as [->|_]; [by apply (Hk skip_block); auto|]. eexists. split; [reflexivity|]. eauto.
Qed.

Lemma skip_ws_ok s : terminated s -> exists t, skip_ws_and_comments s = Ret t /\ adv s t.
Proof. intros Ht. apply skip_loop_ok; [done|lia]. Qed.

(** What every scanner starts with: blanks skipped, then the character there. *)
Lemma skip_peek s : terminated s -> exists c t, skip_ws_and_comments s = Ret (c :: t) /\ adv s (c :: t).
Proof.
  intros Ht. destruct (skip_ws_ok s Ht) as ([|c t] & E & Ha); [by destruct Ha as [?%elem_of_nil _]|]. eauto.
Qed.

Lemma k_strncmp_spec a kw rest :
  terminated a -> Forall (fun c => c <> 0) kw ->
  exists r, k_strncmp a (kw ++ rest) (zlen kw) = Ret r /\ (r = 0 <-> kw `prefix_of` a).
Proof.
  intros Ha Hkw. revert a Ha. induction Hkw as [|c kw Hc _ IH]; intros a Ha.
  - exists 0. split; [by destruct a|]. split; [intros _; apply prefix_nil|done].
  - destruct a as [|x a]; [by apply elem_of_nil in Ha|]. cbn [app length k_strncmp].
    destruct (Z.ltb_spec 0 (Z.of_nat (S (length kw)))); [|lia].
    destruct (Z.eqb_spec x c) as [->|Hx]; cbn [negb].
    + destruct (Z.eqb_spec c 0); [done|]. replace (Z.of_nat (S (length kw)) - 1) with (zlen kw) by lia.
      destruct (IH a) as (r & E & Hr); [by apply (terminated_cons_inv c)|]. exists r. split; [done|]. rewrite Hr.
      split; [apply prefix_cons|apply prefix_cons_inv_2].
    + exists (x - c). split; [done|]. split; [lia|]. intros ?%prefix_cons_inv_1. congruence.
Qed.

Lemma terminated_prefix (w s : list Z) : Forall (fun c => c <> 0) w -> terminated (w ++ s) -> adv (w ++ s) s.
Proof.
  intros Hw Ht. split; [|by exists w]. apply elem_of_app in Ht as [Hin|?]; [|done].
  rewrite Forall_forall in Hw. by destruct (Hw _ Hin).
Qed.

(** A keyword or token: text without NUL, and its literal. *)
Definition token (kw : list Z) : Prop := terminated kw /\ cstr kw <> [] /\ zlen (cstr kw) <= INT_MAX.

Lemma token_split kw : token kw -> exists w rest, kw = w ++ 0 :: rest /\ cstr kw = w /\ Forall (fun c => c <> 0) w /\ w <> []
  /\ k_strlen kw = Ret (zlen w).
Proof.
  intros (Ht & Hn & Hl). pose proof Ht as (rest & E)%terminated_split. exists (cstr kw), rest. split_and!; try done.
  - apply cstr_nonzero.
  - by apply k_strlen_spec.
Qed.

Lemma match_at s kw : terminated s -> token kw ->
  exists n r, k_strlen kw = Ret n /\ k_strncmp s kw n = Ret r
    /\ (r = 0 -> exists t, adv s t /\ s = cstr kw ++ t /\ (length t < length s)%nat /\ ptr_add s n = Ret t /\ aget s n = Ret (hd 0 t))
    /\ (r <> 0 -> ~ cstr kw `prefix_of` s).
Proof.
  intros Hs (w & rest & Ek & Ec & Hw & Hne & Hl)%token_split. destruct (k_strncmp_spec s w (0 :: rest) Hs Hw) as (r & E & Hr).
  exists (zlen w), r. rewrite Ec. split; [done|]. split; [by rewrite Ek|]. split; [|by rewrite Hr].
  intros [t ->]%Hr. pose proof (terminated_prefix _ _ Hw Hs) as Ha. exists t. split; [done|]. split; [done|].
  split; [rewrite length_app; destruct w; [done|simpl; lia]|]. split; [apply ptr_add_prefix|].
  destruct t as [|c t]; [by destruct Ha as [?%elem_of_nil _]|]. by apply aget_app.
Qed.

Lemma match_kw_ok s kw : terminated s -> token kw ->
  exists b t, match_kw s kw = Ret (b, t) /\ adv s t /\ (b = true -> (length t < length s)%nat) /\ (b = false -> t = s).
Proof.
  intros Hs Hk. destruct (match_at s kw Hs Hk) as (n & r & E1 & E2 & Hyes & _). unfold match_kw.
  rewrite E1, bind_Ret, E2, bind_Ret. destruct (Z.eqb_spec r 0) as [Hr|Hr]; cbn [negb].
  - destruct (Hyes Hr) as (t & Ha & _ & Hlt & Ep & Eg). rewrite Eg, bind_Ret. destruct (word_end _).
    + rewrite Ep, bind_Ret. exists true, t. by split_and!.
    + exists false, s. by split_and!.
  - exists false, s. by split_and!.
Qed.

Lemma match_str_ok s tok : terminated s -> token tok ->
  exists b t, match_str s tok = Ret (b, t) /\ adv s t /\ (b = true -> (length t < length s)%nat).
Proof.
  intros Hs Hk. unfold match_str. destruct (skip_ws_ok s Hs) as (t & -> & Ha). rewrite bind_Ret.
  destruct (match_at t tok (proj1 Ha) Hk) as (n & r & E1 & E2 & Hyes & _). rewrite E1, bind_Ret, E2, bind_Ret.
  destruct (Z.eqb_spec r 0) as [Hr|Hr].
  - destruct (Hyes Hr) as (u & Hu & _ & Hlt & Ep & _). rewrite Ep, bind_Ret. exists true, u.
    pose proof (adv_length _ _ Ha). split_and!; [done|eauto|lia].
  - exists false, t. by split_and!.
Qed.

Lemma expect_char_ok s want : terminated s -> want <> 0 ->
  exists b t, expect_char s want = Ret (b, t) /\ adv s t /\ (b = true -> (length t < length s)%nat).
Proof.
  intros Hs Hw. unfold expect_char. destruct (skip_peek s Hs) as (c & t & -> & Ha). rewrite bind_Ret, peek_cons, bind_Ret.
  pose proof (adv_length _ _ Ha) as Hl. simpl in Hl. destruct (Z.eqb_spec c want) as [->|_].
  - rewrite ptr_add_1, bind_Ret. exists true, t. split_and!; [done| |lia]. eapply adv_trans; [done|]. by apply adv_tail; [apply Ha|].
  - exists false, (c :: t). by split_and!.
Qed.

(** *** Numbers, strings, characters, names *)

Lemma digit_nonzero c : is_digit c = true -> c <> 0.
Proof. by intros H ->. Qed.

Lemma ident_char_nonzero c : is_ident_char c = true -> c <> 0.
Proof. by intros H ->. Qed.

Lemma number_loop_ok s v : terminated s -> exists r t, number_loop s v = Ret (r, t) /\ adv s t.
Proof.
  revert v. induction s as [|c s IH]; intros v Ht; [by apply elem_of_nil in Ht|]. cbn [number_loop].
  destruct (is_digit c) eqn:Ed; [|eexists _, _; auto].
  destruct (IH (s32 (s32 (v * 10) + (c - 48)))) as (r & t & E & Ha); [|eexists _, _; eauto].
  by apply (terminated_cons_inv c), digit_nonzero.
Qed.

Lemma parse_number_ok s : terminated s ->
  exists r t, parse_number s = Ret (r, t) /\ adv s t /\ (r <> None -> (length t < length s)%nat).
Proof.
  intros Hs. unfold parse_number. destruct (skip_peek s Hs) as (c & t & -> & Ha). rewrite bind_Ret, peek_cons, bind_Ret.
  cbv zeta. pose proof (adv_length _ _ Ha) as Hl. simpl in Hl.
  assert (exists u, (if c =? 45 then ptr_add (c :: t) 1 else Ret (c :: t)) = Ret u /\ adv (c :: t) u) as (u & -> & Hu).
  { destruct (Z.eqb_spec c 45) as [->|_]; [|exists (c :: t); split; [done|apply adv_refl, Ha]].
    rewrite ptr_add_1. exists t. split; [done|]. by apply adv_tail; [apply Ha|]. }
  rewrite bind_Ret. destruct u as [|d u]; [by destruct Hu as [?%elem_of_nil _]|]. rewrite peek_cons, bind_Ret.
  pose proof (adv_length _ _ Hu) as Hlu. simpl in Hlu.
  destruct (is_digit d) eqn:Ed; cbn [negb]; [|exists None, (c :: t); by split_and!].
  cbn [number_loop]. rewrite Ed.
  destruct (number_loop_ok u (s32 (s32 (0 * 10) + (d - 48)))) as (r & w & -> & Hw).
  { apply (terminated_cons_inv d); [apply Hu|by apply digit_nonzero]. }
  rewrite bind_Ret. eexists _, w. split; [reflexivity|]. pose proof (adv_length _ _ Hw). split; [|intros _; lia].
  eapply adv_trans; [done|]. eapply adv_trans; [done|]. by apply adv_cons.
Qed.

Lemma string_loop_ok s out cap len :
  terminated s -> cap <= zlen out -> 0 <= len < cap ->
  exists r, string_loop s out cap len = Ret r /\
    match r with
    | None => True
    | Some (out', len', t) => adv s t /\ length out' = length out /\ len <= len' < cap
    end.
Proof.
  revert s out len. induction s as [s IH] using (induction_ltof1 _ length). intros out len Ht Hc Hl.
  unfold ltof in IH. destruct s as [|c s]; [by apply elem_of_nil in Ht|]. cbn [string_loop].
  destruct (Z.eqb_spec c 0) as [->|Hc0]; [eexists; split; [reflexivity|]; split_and!; [by apply adv_refl|done|lia|lia]|].
  destruct (Z.eqb_spec c 34) as [->|Hc34]; cbn [negb andb];
    [eexists; split; [reflexivity|]; split_and!; [by apply adv_refl|done|lia|lia]|].
  pose proof (terminated_cons_inv _ _ Ht Hc0) as Ht1.
  assert (forall d u, (length u < length (c :: s))%nat -> terminated u -> adv (c :: s) u ->
    exists r, (if cap - 1 <=? len then Ret None else out0 ← aset out len d; string_loop u out0 cap (len + 1)) = Ret r /\
    match r with
    | None => True
    | Some (out', len', t) => adv (c :: s) t /\ length out' = length out /\ len <= len' < cap
    end) as Hk.
  { intros d u Hlu Hu Hau. destruct (Z.leb_spec (cap - 1) len); [by eexists|]. rewrite aset_ok, bind_Ret by lia.
    destruct (IH u Hlu (<[Z.to_nat len := d]> out) (len + 1)) as (r & -> & Hr); [done|rewrite length_insert; lia|lia|].
    eexists. split; [reflexivity|]. destruct r as [[[o l] t]|]; [|done]. destruct Hr as (? & Ho & ?).
    rewrite length_insert in Ho. split_and!; [eauto|done|lia|lia]. }
  destruct (Z.eqb_spec c 92) as [->|_]; [|apply Hk; [simpl; lia|done|by apply adv_tail]].
  destruct s as [|esc s]; [by apply elem_of_nil in Ht1|]. destruct (escape 34 esc) as [d|] eqn:Ee; [|by eexists].
  assert (esc <> 0) as He by (by intros ->). apply Hk; [simpl; lia|by apply (terminated_cons_inv esc)|].
  apply adv_cons. by apply adv_tail.
Qed.

Lemma parse_c_string_ok s out cap : terminated s -> 0 < cap <= zlen out ->
  exists r t, parse_c_string s out cap = Ret (r, t) /\ adv s t
    /\ match r with None => True | Some (out', len) => length out' = length out /\ 0 <= len < cap end.
Proof.
  intros Hs Hc. unfold parse_c_string. destruct (skip_peek s Hs) as (c & t & -> & Ha). rewrite bind_Ret, peek_cons, bind_Ret.
  destruct (Z.eqb_spec c 34) as [->|_]; cbn [negb]; [|exists None, (c :: t); by split_and!].
  rewrite ptr_add_1, bind_Ret. pose proof (terminated_cons_inv _ _ (proj1 Ha) ltac:(lia)) as Ht.
  destruct (string_loop_ok t out cap 0 Ht) as ([[[o l] u]|] & -> & Hr); [lia|lia| |]; rewrite bind_Ret; cbv iota beta.
  2: { exists None, (34 :: t). by split_and!. }
  destruct Hr as (Hu & Hol & Hlr). destruct u as [|d u]; [by destruct Hu as [?%elem_of_nil _]|]. rewrite peek_cons, bind_Ret.
  destruct (Z.eqb_spec d 34) as [->|_]; cbn [negb]; [|exists None, (34 :: t); by split_and!].
  rewrite ptr_add_1, bind_Ret, aset_ok, bind_Ret by lia. eexists _, _. split; [reflexivity|].
  cbv iota beta. rewrite length_insert. split_and!; try lia; try done. eapply adv_trans; [done|]. apply adv_cons.
  eapply adv_trans; [done|]. apply adv_tail; [apply Hu|lia].
Qed.

Lemma parse_c_char_ok s : terminated s ->
  exists r t, parse_c_char s = Ret (r, t) /\ adv s t /\ (r <> None -> (length t < length s)%nat).
Proof.
  intros Hs. unfold parse_c_char. destruct (skip_peek s Hs) as (c & t & -> & Ha). rewrite bind_Ret, peek_cons, bind_Ret.
  destruct (Z.eqb_spec c 39) as [->|_]; cbn [negb]; [|exists None, (c :: t); by split_and!].
  rewrite ptr_add_1, bind_Ret. pose proof (terminated_cons_inv _ _ (proj1 Ha) ltac:(lia)) as Ht.
  destruct t as [|c0 t]; [by apply elem_of_nil in Ht|]. rewrite peek_cons, bind_Ret.
  pose proof (adv_length _ _ Ha) as Hl. simpl in Hl.
  set (X := if c0 =? 92 then _ else _).
  assert (exists r, X = Ret r /\ match r with None => True | Some (_, u) => adv (c0 :: t) u end) as (r & -> & Hr).
  { unfold X. clear X. destruct (Z.eqb_spec c0 92) as [->|_].
    - rewrite ptr_add_1, bind_Ret. pose proof (terminated_cons_inv _ _ Ht ltac:(lia)) as Ht2.
      destruct t as [|e t]; [by apply elem_of_nil in Ht2|]. rewrite peek_cons, bind_Ret.
      destruct (escape 39 e) eqn:Ee; [|by eexists]. rewrite ptr_add_1, bind_Ret. eexists. split; [reflexivity|].
      apply adv_cons, adv_tail; [done|]. by intros ->.
    - destruct (Z.eqb_spec c0 0) as [|H0], (Z.eqb_spec c0 39); cbn [orb]; try by eexists.
      rewrite ptr_add_1, bind_Ret. eexists. split; [reflexivity|]. by apply adv_tail. }
  rewrite bind_Ret. destruct r as [[d u]|]; [|exists None, (39 :: c0 :: t); by split_and!].
  destruct u as [|q u]; [by destruct Hr as [?%elem_of_nil _]|]. rewrite peek_cons, bind_Ret.
  destruct (Z.eqb_spec q 39) as [->|_]; cbn [negb]; [|exists None, (39 :: c0 :: t); by split_and!].
  rewrite ptr_add_1, bind_Ret. exists (Some d), u. split; [done|]. pose proof (adv_length _ _ Hr) as Hlr. simpl in Hlr.
  split; [|intros _; lia]. eapply adv_trans; [done|]. apply adv_cons. eapply adv_trans; [done|].
  apply adv_tail; [apply Hr|lia].
Qed.

Lemma ident_loop_ok s out cap i :
  terminated s -> cap <= zlen out -> 0 <= i < cap -> Forall (fun c => c <> 0) (take (Z.to_nat i) out) ->
  exists out' j t, ident_loop s out cap i = Ret (out', j, t) /\ adv s t /\ length out' = length out
    /\ i <= j < cap /\ Forall (fun c => c <> 0) (take (Z.to_nat j) out')
    /\ (0 < i \/ is_ident_char (hd 0 s) = true /\ 1 < cap -> 0 < j)
    /\ (is_ident_char (hd 0 s) = true /\ i < cap - 1 -> (length t < length s)%nat).
Proof.
  revert out i. induction s as [|c s IH]; intros out i Ht Hc Hi Hz; [by apply elem_of_nil in Ht|]. cbn [ident_loop hd].
  destruct (is_ident_char c) eqn:Ec, (Z.ltb_spec i (cap - 1)); cbn [andb];
    try (exists out, i, (c :: s); split_and!; auto; try lia; naive_solver lia).
  rewrite aset_ok, bind_Ret by lia. pose proof (ident_char_nonzero _ Ec) as Hnz.
  destruct (IH (<[Z.to_nat i := c]> out) (i + 1)) as (o & j & t & E & Ha & Hl & Hj & Hzj & Hpos & _).
  - by apply (terminated_cons_inv c).
  - rewrite length_insert. lia.
  - lia.
  - replace (Z.to_nat (i + 1)) with (S (Z.to_nat i)) by lia.
    rewrite (take_S_r _ _ c) by (apply list_lookup_insert_eq; lia). rewrite take_insert_ge by lia.
    apply Forall_app. split; [done|]. by constructor.
  - exists o, j, t. rewrite length_insert in Hl. split_and!; auto; try lia.
    intros _. pose proof (adv_length _ _ Ha). simpl. lia.
Qed.

(** A name that was parsed fits its buffer and ends. *)
Lemma parse_identifier_ok s out cap : terminated s -> 1 < cap <= zlen out ->
  exists r t, parse_identifier s out cap = Ret (r, t) /\ adv s t
    /\ match r with
       | None => True
       | Some out' => length out' = length out /\ terminated out' /\ (length t < length s)%nat
       end.
Proof.
  intros Hs Hc. unfold parse_identifier. destruct (skip_peek s Hs) as (c & t & -> & Ha). rewrite bind_Ret, peek_cons, bind_Ret.
  destruct (is_ident_start c) eqn:Ec; cbn [negb]; [|exists None, (c :: t); by split_and!].
  destruct (ident_loop_ok (c :: t) out cap 0 (proj1 Ha)) as (o & j & u & -> & Hu & Hl & Hj & Hz & _ & Hlt); [lia|lia|constructor|].
  rewrite bind_Ret, aset_ok, bind_Ret by lia. destruct u as [|d u]; [by destruct Hu as [?%elem_of_nil _]|].
  rewrite peek_cons, bind_Ret. destruct (is_ident_char d); [exists None, (c :: t); by split_and!|].
  eexists _, _. split; [reflexivity|].
  cbv iota beta. rewrite length_insert. pose proof (adv_length _ _ Ha). split; [eauto|]. split; [done|].
  split; [|specialize (Hlt ltac:(split; [cbn [hd]; unfold is_ident_char; by rewrite Ec|lia])); lia].
  rewrite insert_take_drop by lia. apply terminated_app.
Qed.

(** *** Outside a body *)

Lemma skip_pp_ok s e : terminated s -> exists t, skip_pp s e = Ret t /\ adv s t.
Proof.
  induction s as [|c s IH]; intros Ht; [by apply elem_of_nil in Ht|]. cbn [skip_pp].
  destruct (before _ e); [|exists (c :: s); auto].
  destruct (Z.eqb_spec c 0) as [->|Hc]; [exists (0 :: s); auto|]. destruct (Z.eqb_spec c 10); cbn [negb andb]; [exists (c :: s); auto|].
  destruct IH as (t & E & Ha); [|exists t; auto]. by apply (terminated_cons_inv c).
Qed.

Lemma skip_preprocessor_line_ok s e : terminated s ->
  exists b t, skip_preprocessor_line s e = Ret (b, t) /\ adv s t /\ (b = true -> (length t < length s)%nat) /\ (b = false -> t = s).
Proof.
  intros Ht. unfold skip_preprocessor_line. destruct (before s e) eqn:Eb; cbn [negb]; [|exists false, s; by split_and!].
  destruct s as [|c s]; [by apply elem_of_nil in Ht|]. rewrite peek_cons, bind_Ret.
  destruct (Z.eqb_spec c 35) as [->|_]; cbn [negb]; [|exists false, (c :: s); by split_and!].
  cbn [skip_pp]. rewrite Eb. cbn [Z.eqb negb andb Pos.eqb]. pose proof (terminated_cons_inv _ _ Ht ltac:(lia)) as Ht1.
  destruct (skip_pp_ok s e Ht1) as (t & -> & Ha). rewrite bind_Ret. exists true, t. pose proof (adv_length _ _ Ha).
  split_and!; [done|auto|intros _; simpl; lia|done].
Qed.

Lemma match_word_prefix_ok s kw : terminated s -> token kw -> exists b, match_word_prefix s kw = Ret b.
Proof.
  intros Hs Hk. destruct (match_at s kw Hs Hk) as (n & r & E1 & E2 & Hyes & _). unfold match_word_prefix.
  rewrite E1, bind_Ret, E2, bind_Ret. destruct (Z.eqb_spec r 0) as [Hr|Hr]; cbn [negb]; [|by eexists].
  destruct (Hyes Hr) as (t & _ & _ & _ & _ & Eg). rewrite Eg, bind_Ret. by eexists.
Qed.

Lemma any_prefix_ok s kws : terminated s -> Forall token kws -> exists b, any_prefix s kws = Ret b.
Proof.
  intros Hs. induction 1 as [|kw kws Hk _ (b & IH)]; [by exists false|]. cbn [any_prefix].
  destruct (match_word_prefix_ok s kw Hs Hk) as ([] & ->); rewrite bind_Ret; [by exists true|]. by exists b.
Qed.

(** Literals are tokens. *)
Definition is_token (kw : list Z) : bool :=
  bool_decide (0 ∈ kw) && bool_decide (cstr kw <> []) && (zlen (cstr kw) <=? INT_MAX).
Lemma token_dec kw : is_token kw = true -> token kw.
Proof.
  intros [[H1 H2]%andb_true_iff H3]%andb_true_iff. apply bool_decide_eq_true in H1, H2. apply Z.leb_le in H3. by split_and!.
Qed.
#[export] Hint Extern 1 (token _) => (apply token_dec; reflexivity) : core.

Lemma starts_decl_like_ok s : terminated s -> exists b, starts_decl_like s = Ret b.
Proof. intros Hs. apply any_prefix_ok; [done|]. cbn [map].
  repeat (apply Forall_cons_2; [by apply token_dec|]). constructor. Qed.

Lemma skip_quoted_ok s e q : terminated s -> exists t, skip_quoted s e q = Ret t /\ adv s t.
Proof.
  revert s. induction s as [s IH] using (induction_ltof1 _ length). unfold ltof in IH. intros Ht.
  destruct s as [|c s]; [by apply elem_of_nil in Ht|]. cbn [skip_quoted].
  destruct (before _ e); [|exists (c :: s); auto].
  destruct (Z.eqb_spec c 0) as [->|Hc]; [exists (0 :: s); auto|]. pose proof (terminated_cons_inv _ _ Ht Hc) as Ht1.
  assert (adv (c :: s) s) as Ha by by apply adv_tail. destruct (c =? 92).
  - destruct (before s e); [|exists s; auto]. destruct s as [|d s]; [by apply elem_of_nil in Ht1|].
    destruct (Z.eqb_spec d 0) as [->|Hd]; [exists (0 :: s); auto|]. pose proof (terminated_cons_inv _ _ Ht1 Hd) as Ht2.
    destruct (IH s) as (t & E & Hat); [simpl; lia|done|]. exists t. split; [done|]. by do 2 apply adv_cons.
  - destruct (c =? q); [exists s; auto|]. destruct (IH s) as (t & E & Hat); [simpl; lia|done|]. exists t. split; [done|]. by apply adv_cons.
Qed.

Lemma header_loop_ok fuel s e depth : terminated s -> (length s < fuel)%nat ->
  exists r, header_loop fuel s e depth = Ret r
    /\ match r with None => True | Some (_, t) => adv s t /\ (length t < length s)%nat end.
Proof.
  revert s depth. induction fuel as [|fuel IH]; intros s depth Ht Hf; [lia|]. cbn [header_loop].
  destruct (before s e); [|by eexists]. destruct s as [|c s]; [by apply elem_of_nil in Ht|]. rewrite peek_cons, bind_Ret.
  destruct (Z.eqb_spec c 0) as [|Hc]; [by eexists|]. rewrite ptr_add_1, bind_Ret. simpl in Hf.
  pose proof (terminated_cons_inv _ _ Ht Hc) as Ht1.
  assert (forall t d, adv s t -> exists r, header_loop fuel t e d = Ret r
    /\ match r with None => True | Some (_, u) => adv (c :: s) u /\ (length u < length (c :: s))%nat end) as Hk.
  { intros t d Ha. pose proof (adv_length _ _ Ha). destruct (IH t d (proj1 Ha)) as (r & E & Hr); [lia|]. exists r.
    split; [done|]. destruct r as [[b u]|]; [|done]. destruct Hr as [Hu Hlu]. split; [|simpl; lia]. apply adv_cons. eauto. }
  destruct ((c =? 34) || (c =? 39)).
  - destruct (skip_quoted_ok s e c Ht1) as (t & -> & Ha). rewrite bind_Ret. by apply Hk.
  - destruct (c =? 40); [by apply Hk, adv_refl|]. destruct (c =? 41).
    + destruct (depth =? 0); [by eexists|by apply Hk, adv_refl].
    + destruct (_ && _); [|by apply Hk, adv_refl]. eexists. split; [reflexivity|]. split; [by apply adv_tail|simpl; lia].
Qed.

Lemma skip_decl_or_header_ok s e : terminated s ->
  exists r, skip_decl_or_header s e = Ret r
    /\ match r with None => True | Some (_, t) => adv s t /\ (length t < length s)%nat end.
Proof. intros Ht. apply header_loop_ok; [done|lia]. Qed.
