(* ===== verification/TinyVm.v ===== *)
(** tinycc.c, the byte-code machine that runs a compiled program
    (tinycc_task_entry, lines 1122-1269).

    [prog] is the program's heap block, 8 bytes of header and the code; [p] is
    the offset of the next byte in it.  The operand stack is the list of its
    live entries, top first, and holds at most 64.  Output and sleeping are
    events; [vm_step] is one round of the loop and [vm_run] rounds with fuel,
    since a program may never stop. *)
From S2P Require Import Prelude CString.

Definition TCC_OP_PUTS := 1.
Definition TCC_OP_SLEEP := 2.
Definition TCC_OP_EXIT := 3.
Definition TCC_OP_PUTC := 4.
Definition TCC_OP_PUSH_CONST := 5.
Definition TCC_OP_PUSH_VAR := 6.
Definition TCC_OP_STORE_VAR := 7.
Definition TCC_OP_ADD := 8.
Definition TCC_OP_SUB := 9.
Definition TCC_OP_LT := 10.
Definition TCC_OP_LE := 11.
Definition TCC_OP_GT := 12.
Definition TCC_OP_GE := 13.
Definition TCC_OP_EQ := 14.
Definition TCC_OP_NE := 15.
Definition TCC_OP_NEG := 16.
Definition TCC_OP_JMP := 17.
Definition TCC_OP_JZ := 18.
Definition TCC_OP_RET := 19.
Definition TCC_OP_MUL := 20.
Definition TCC_OP_DIV := 21.
Definition TCC_OP_MOD := 22.
Definition TCC_OP_NOT := 23.
Definition TCC_OP_LAND := 24.
Definition TCC_OP_LOR := 25.
Definition TCC_OP_DUP := 26.
Definition TCC_OP_POP := 27.
Definition TCC_MAX_VARS : Z := 32.
Definition TCC_STACK_MAX : Z := 64.

(** ['T' 'C' 'C' '0'] *)
Definition TCC_MAGIC : list Z := [84; 67; 67; 48].

(** The four bytes at [p], least significant first. *)
Definition read_u32 (prog : list Z) (p : Z) : outcome Z :=
  b0 ← aget prog p;
  b1 ← aget prog (p + 1);
  b2 ← aget prog (p + 2);
  b3 ← aget prog (p + 3);
  Ret (Z.lor (Z.lor (Z.lor b0 (u32 (Z.shiftl b1 8))) (u32 (Z.shiftl b2 16))) (u32 (Z.shiftl b3 24))).

Inductive vm_event :=
| EvPuts (text : list Z)
| EvPutc (c : Z)
| EvSleep (ms : Z).

Record vm_state := mk_vms { vm_p : Z; vm_stack : list Z; vm_vars : list Z }.

(** The loop goes on in a state, or stops ([break] and [goto done]). *)
Inductive vm_next := Go (s : vm_state) | Stop.

Definition set_p (p : Z) (s : vm_state) : vm_state := mk_vms p (vm_stack s) (vm_vars s).

(** TCC_PUSH and TCC_POP *)
Definition vm_push (v : Z) (s : vm_state) : vm_next :=
  if TCC_STACK_MAX <=? zlen (vm_stack s) then Stop else Go (mk_vms (vm_p s) (v :: vm_stack s) (vm_vars s)).
Definition vm_pop (s : vm_state) : Z * vm_state :=
  match vm_stack s with
  | [] => (0, s)
  | v :: st => (v, mk_vms (vm_p s) st (vm_vars s))
  end.

(** The value a binary operation leaves. *)
Definition vm_binop (op lhs rhs : Z) : option Z :=
  if op =? TCC_OP_ADD then Some (s32 (lhs + rhs))
  else if op =? TCC_OP_SUB then Some (s32 (lhs - rhs))
  else if op =? TCC_OP_MUL then Some (s32 (lhs * rhs))
  else if op =? TCC_OP_DIV then Some (if rhs =? 0 then 0 else s32 (Z.quot lhs rhs))
  else if op =? TCC_OP_MOD then Some (if rhs =? 0 then 0 else s32 (Z.rem lhs rhs))
  else if op =? TCC_OP_LAND then Some (c_bool (negb (lhs =? 0) && negb (rhs =? 0)))
  else if op =? TCC_OP_LOR then Some (c_bool (negb (lhs =? 0) || negb (rhs =? 0)))
  else if op =? TCC_OP_LT then Some (c_bool (lhs <? rhs))
  else if op =? TCC_OP_LE then Some (c_bool (lhs <=? rhs))
  else if op =? TCC_OP_GT then Some (c_bool (rhs <? lhs))
  else if op =? TCC_OP_GE then Some (c_bool (rhs <=? lhs))
  else if op =? TCC_OP_EQ then Some (c_bool (lhs =? rhs))
  else if op =? TCC_OP_NE then Some (c_bool (negb (lhs =? rhs)))
  else None.

(** One round of the loop, after the test [p < end] and the fetch of [op];
    [s] is past the opcode and [size] is [end]. *)
Definition vm_exec (prog : list Z) (op : Z) (s : vm_state) : outcome (vm_next * list vm_event) :=
  let p := vm_p s in
  let size := zlen prog in
  let quiet (n : vm_next) := Ret (n, @nil vm_event) in
  if op =? TCC_OP_PUTS then
    if size <? p + 2 then quiet Stop
    else
      b0 ← aget prog p;
      b1 ← aget prog (p + 1);
      let len := Z.lor b0 (Z.shiftl b1 8) in
      let p := p + 2 in
      if size <? p + len + 1 then quiet Stop
      else
        text ← ptr_add prog p;
        if bool_decide (0 ∈ text) then Ret (Go (set_p (p + len + 1) s), [EvPuts (cstr text)]) else Undef
  else if op =? TCC_OP_SLEEP then
    let '(v, s) := vm_pop s in Ret (Go s, [EvSleep (u64 v)])
  else if op =? TCC_OP_PUTC then
    let '(v, s) := vm_pop s in Ret (Go s, [EvPutc (u8 v)])
  else if op =? TCC_OP_PUSH_CONST then
    if size <? p + 4 then quiet Stop
    else v ← read_u32 prog p; quiet (vm_push (s32 v) (set_p (p + 4) s))
  else if op =? TCC_OP_PUSH_VAR then
    if size <=? p then quiet Stop
    else
      i ← aget prog p;
      if TCC_STACK_MAX <=? zlen (vm_stack s) then quiet Stop
      else v ← aget (vm_vars s) i; quiet (vm_push v (set_p (p + 1) s))
  else if op =? TCC_OP_STORE_VAR then
    if size <=? p then quiet Stop
    else
      i ← aget prog p;
      let '(v, s) := vm_pop s in
      vars ← aset (vm_vars s) i v;
      quiet (Go (mk_vms (p + 1) (vm_stack s) vars))
  else if op =? TCC_OP_NOT then
    let '(v, s) := vm_pop s in quiet (vm_push (c_bool (v =? 0)) s)
  else if op =? TCC_OP_DUP then
    let '(v, s) := vm_pop s in
    match vm_push v s with Go s => quiet (vm_push v s) | Stop => quiet Stop end
  else if op =? TCC_OP_POP then
    let '(_, s) := vm_pop s in quiet (Go s)
  else if op =? TCC_OP_NEG then
    let '(v, s) := vm_pop s in quiet (vm_push (s32 (- v)) s)
  else if op =? TCC_OP_JMP then
    if size <? p + 4 then quiet Stop
    else
      target ← read_u32 prog p;
      if size - 8 <=? target then quiet Stop else quiet (Go (set_p (8 + target) s))
  else if op =? TCC_OP_JZ then
    if size <? p + 4 then quiet Stop
    else
      target ← read_u32 prog p;
      if size - 8 <=? target then quiet Stop
      else
        let '(v, s) := vm_pop (set_p (p + 4) s) in
        quiet (Go (if v =? 0 then set_p (8 + target) s else s))
  else if op =? TCC_OP_RET then quiet Stop
  else if op =? TCC_OP_EXIT then quiet Stop
  else
    let '(rhs, s) := vm_pop s in
    let '(lhs, s) := vm_pop s in
    match vm_binop op lhs rhs with
    | Some v => quiet (vm_push v s)
    | None => quiet Stop
    end.

Definition vm_step (prog : list Z) (s : vm_state) : outcome (vm_next * list vm_event) :=
  if vm_p s <? zlen prog then
    op ← aget prog (vm_p s);
    vm_exec prog op (set_p (vm_p s + 1) s)
  else Ret (Stop, []).

(** The start of [tinycc_task_entry]: [None] when it goes straight to
    [task_exit]. *)
Definition vm_boot (prog : list Z) : outcome (option vm_state) :=
  if zlen prog <? 8 then Ret None
  else
    m0 ← aget prog 0;
    m1 ← aget prog 1;
    m2 ← aget prog 2;
    m3 ← aget prog 3;
    if bool_decide ([m0; m1; m2; m3] = TCC_MAGIC)
    then Ret (Some (mk_vms 8 [] (replicate (Z.to_nat TCC_MAX_VARS) 0)))
    else Ret None.

(** [None]: still running after that many rounds. *)
Fixpoint vm_run (fuel : nat) (prog : list Z) (s : vm_state) : outcome (option (list vm_event)) :=
  match fuel with
  | O => Ret None
  | S fuel =>
    '(n, evs) ← vm_step prog s;
    match n with
    | Stop => Ret (Some evs)
    | Go s => r ← vm_run fuel prog s; Ret (option_map (app evs) r)
    end
  end.

(** ** The machine is safe *)

Lemma lor_bound (n a b : Z) : 0 <= n -> 0 <= a < 2 ^ n -> 0 <= b < 2 ^ n -> 0 <= Z.lor a b < 2 ^ n.
Proof.
  intros Hn Ha Hb. assert (Z.lor a b = Z.lor a b mod 2 ^ n) as ->.
  { rewrite <- !Z.land_ones, Z.land_lor_distr_l, !Z.land_ones by done. by rewrite !Z.mod_small. }
  apply Z.mod_pos_bound. by apply Z.pow_pos_nonneg.
Qed.

Definition is_byte (b : Z) : Prop := 0 <= b < 256.
Definition is_int (v : Z) : Prop := INT_MIN <= v <= INT_MAX.

Lemma is_int_s32 v : is_int (s32 v).
Proof. apply s32_range. Qed.
Lemma is_int_bool b : is_int (c_bool b).
Proof. destruct b; split; simpl; lia. Qed.
#[local] Hint Resolve is_int_s32 is_int_bool : core.

Lemma read_u32_ok prog p : Forall is_byte prog -> 0 <= p -> p + 4 <= zlen prog ->
  exists v, read_u32 prog p = Ret v /\ 0 <= v < 4294967296.
Proof.
  intros Hb Hp Hl. unfold read_u32.
  assert (forall i, 0 <= i < zlen prog -> exists b, aget prog i = Ret b /\ 0 <= b < 2 ^ 32) as Hget.
  { intros i Hi. destruct (aget_ok prog i Hi) as [b E]. exists b. split; [done|]. apply aget_Ret in E as [_ E].
    pose proof (Forall_lookup_1 _ _ _ _ Hb E) as Hr. unfold is_byte in Hr. lia. }
  destruct (Hget p) as (b0 & -> & ?); [lia|]. rewrite bind_Ret. destruct (Hget (p + 1)) as (b1 & -> & ?); [lia|]. rewrite bind_Ret.
  destruct (Hget (p + 2)) as (b2 & -> & ?); [lia|]. rewrite bind_Ret. destruct (Hget (p + 3)) as (b3 & -> & ?); [lia|]. rewrite bind_Ret.
  eexists. split; [done|]. change 4294967296 with (2 ^ 32).
  repeat (apply lor_bound; [lia| |]); try done; by apply wrap_range.
Qed.

Lemma vm_binop_int op l r v : vm_binop op l r = Some v -> is_int v.
Proof.
  unfold vm_binop. repeat (case_match; [intros [= <-]; try (by apply is_int_s32); try (by apply is_int_bool); case_match; (by apply is_int_s32) || (split; lia)|]).
  done.
Qed.

(** The state stays inside the program, the stack and the variables. *)
Record vm_ok (prog : list Z) (s : vm_state) : Prop := {
  vo_p : 8 <= vm_p s <= zlen prog;
  vo_stack : zlen (vm_stack s) <= TCC_STACK_MAX;
  vo_ints : Forall is_int (vm_stack s);
  vo_vars : length (vm_vars s) = 32%nat;
  vo_vints : Forall is_int (vm_vars s)
}.
Definition next_ok (prog : list Z) (n : vm_next) : Prop := match n with Go s => vm_ok prog s | Stop => True end.

(** What the byte code alone can make the machine do wrong at its next
    instruction: a variable slot past the 32, or a text with no NUL up to the
    end of the block. *)
Definition vm_bad (prog : list Z) (s : vm_state) : Prop :=
  exists op, aget prog (vm_p s) = Ret op
  /\ (((op = TCC_OP_PUSH_VAR \/ op = TCC_OP_STORE_VAR) /\ exists i, aget prog (vm_p s + 1) = Ret i /\ TCC_MAX_VARS <= i)
      \/ (op = TCC_OP_PUTS /\ ~ terminated (drop (Z.to_nat (vm_p s + 3)) prog))).

Section VmSafe.
Variable prog : list Z.
Hypothesis prog_bytes : Forall is_byte prog.
Implicit Types (s : vm_state) (m : outcome (vm_next * list vm_event)).

Definition step_ok (bad : Prop) m : Prop := (exists n evs, m = Ret (n, evs) /\ next_ok prog n) \/ (m = Undef /\ bad).

Lemma step_stop bad : step_ok bad (Ret (Stop, [])).
Proof. left. by exists Stop, []. Qed.
Lemma step_go bad n evs : next_ok prog n -> step_ok bad (Ret (n, evs)).
Proof. left. by exists n, evs. Qed.

Lemma vm_push_ok v s : vm_ok prog s -> is_int v -> next_ok prog (vm_push v s).
Proof.
  intros [] Hv. unfold vm_push. destruct (Z.leb_spec TCC_STACK_MAX (zlen (vm_stack s))); [done|].
  split; cbn [vm_p vm_stack vm_vars length]; [done|lia|by constructor|done|done].
Qed.

Lemma vm_pop_ok s : vm_ok prog s -> exists v s', vm_pop s = (v, s') /\ is_int v /\ vm_ok prog s' /\ vm_p s' = vm_p s.
Proof.
  intros Hs. unfold vm_pop. destruct (vm_stack s) as [|v st] eqn:E; [exists 0, s; split; [done|]; split; [split; lia|by split]|].
  exists v, (mk_vms (vm_p s) st (vm_vars s)). destruct Hs. rewrite E in *. apply Forall_cons in vo_ints0 as [Hv Hst].
  split; [done|]; split; [apply Hv|]; split; [|done]. split; cbn [vm_p vm_stack vm_vars length] in *; [done|lia|done|done|done].
Qed.

Lemma vm_set_p_ok p s : vm_ok prog s -> 8 <= p <= zlen prog -> vm_ok prog (set_p p s).
Proof. intros [] Hp. by split. Qed.

Lemma step_pop bad s (f : Z * vm_state -> outcome (vm_next * list vm_event)) : vm_ok prog s ->
  (forall v s', is_int v -> vm_ok prog s' -> vm_p s' = vm_p s -> step_ok bad (f (v, s'))) -> step_ok bad (f (vm_pop s)).
Proof. intros Hs Hf. destruct (vm_pop_ok s Hs) as (v & s' & -> & ? & ? & ?). by apply Hf. Qed.

Lemma step_jump bad s (f : Z -> outcome (vm_next * list vm_event)) : vm_ok prog s ->
  (vm_p s + 4 <= zlen prog -> forall target, 0 <= target < zlen prog - 8 -> step_ok bad (f target)) ->
  step_ok bad (if zlen prog <? vm_p s + 4 then Ret (Stop, [])
    else target ← read_u32 prog (vm_p s); if zlen prog - 8 <=? target then Ret (Stop, []) else f target).
Proof.
  intros Hs Hf. destruct (Z.ltb_spec (zlen prog) (vm_p s + 4)); [apply step_stop|]. destruct Hs.
  destruct (read_u32_ok prog (vm_p s) prog_bytes) as (v & -> & Hv); [lia|lia|]. rewrite bind_Ret.
  destruct (Z.leb_spec (zlen prog - 8) v); [apply step_stop|]. apply Hf; lia.
Qed.

Lemma aget_byte i b : aget prog i = Ret b -> is_byte b.
Proof. intros [_ E]%aget_Ret. by eapply Forall_lookup_1. Qed.

(** One case per instruction: [t] is the state past the opcode. *)
Lemma vm_exec_ok op s t : t = set_p (vm_p s + 1) s -> aget prog (vm_p s) = Ret op -> vm_ok prog t ->
  step_ok (vm_bad prog s) (vm_exec prog op t).
Proof.
  intros Et Hop Ht. pose proof Ht as [Hp _ _ Hv Hvi]. assert (vm_p t = vm_p s + 1) as Ep by by subst.
  unfold vm_exec. cbv zeta. set (bad := vm_bad _ _).
  destruct (Z.eqb_spec op TCC_OP_PUTS) as [->|_].
  { destruct (Z.ltb_spec (zlen prog) (vm_p t + 2)); [apply step_stop|].
    destruct (aget_ok prog (vm_p t)) as [b0 E0]; [lia|]. destruct (aget_ok prog (vm_p t + 1)) as [b1 E1]; [lia|].
    rewrite E0, E1, !bind_Ret. apply aget_byte in E0, E1. unfold is_byte in *.
    assert (0 <= Z.lor b0 (Z.shiftl b1 8)) as Hl by (apply Z.lor_nonneg; split; [lia|apply Z.shiftl_nonneg; lia]).
    destruct (Z.ltb_spec (zlen prog) (vm_p t + 2 + Z.lor b0 (Z.shiftl b1 8) + 1)); [apply step_stop|].
    unfold ptr_add. rewrite bool_decide_true, bind_Ret by lia. case_bool_decide as Hz.
    - apply step_go, vm_set_p_ok; [done|lia].
    - right. split; [done|]. exists TCC_OP_PUTS. split; [done|]. right. split; [done|]. by replace (vm_p s + 3) with (vm_p t + 2) by lia. }
  destruct (vm_pop_ok t Ht) as (v1 & t1 & Hpop & Hi1 & Ht1 & Ep1).
  destruct (op =? TCC_OP_SLEEP); [rewrite Hpop; by apply step_go|].
  destruct (op =? TCC_OP_PUTC); [rewrite Hpop; by apply step_go|].
  destruct (Z.eqb_spec op TCC_OP_PUSH_CONST) as [_|_].
  { destruct (Z.ltb_spec (zlen prog) (vm_p t + 4)); [apply step_stop|].
    destruct (read_u32_ok prog (vm_p t) prog_bytes) as (v & -> & _); [lia|lia|]. rewrite bind_Ret.
    apply step_go, vm_push_ok; [apply vm_set_p_ok; [done|lia]|apply is_int_s32]. }
  assert (forall i, aget prog (vm_p t) = Ret i -> op = TCC_OP_PUSH_VAR \/ op = TCC_OP_STORE_VAR -> TCC_MAX_VARS <= i -> bad) as Hbad.
  { intros i Ei Ho Hi. exists op. split; [done|]. left. split; [done|]. exists i. by rewrite <- Ep. }
  destruct (Z.eqb_spec op TCC_OP_PUSH_VAR) as [->|_].
  { destruct (Z.leb_spec (zlen prog) (vm_p t)); [apply step_stop|]. destruct (aget_ok prog (vm_p t)) as [i Ei]; [lia|].
    pose proof (aget_byte _ _ Ei) as Hib. rewrite Ei, bind_Ret. destruct (_ <=? zlen (vm_stack t)); [apply step_stop|].
    destruct (decide (i < 32)) as [Hi|Hi].
    - destruct (aget_ok (vm_vars t) i) as [v Ev]; [unfold is_byte in Hib; lia|]. rewrite Ev, bind_Ret. apply step_go, vm_push_ok; [apply vm_set_p_ok; [done|lia]|].
      apply aget_Ret in Ev as [_ Ev]. by eapply Forall_lookup_1.
    - right. split; [by rewrite aget_out by lia|eapply Hbad; [done|by left|unfold TCC_MAX_VARS; lia]]. }
  destruct (Z.eqb_spec op TCC_OP_STORE_VAR) as [->|_].
  { destruct (Z.leb_spec (zlen prog) (vm_p t)); [apply step_stop|]. destruct (aget_ok prog (vm_p t)) as [i Ei]; [lia|].
    pose proof (aget_byte _ _ Ei) as Hib. rewrite Ei, bind_Ret, Hpop. pose proof Ht1 as [_ Hst1 Hin1 Hv1 Hvi1].
    destruct (decide (i < 32)) as [Hi|Hi].
    - rewrite aset_ok, bind_Ret by (unfold is_byte in Hib; lia). apply step_go.
      split; cbn [vm_p vm_stack vm_vars]; [lia|done|done|by rewrite length_insert|by apply Forall_insert].
    - right. split; [by rewrite aset_out by lia|eapply Hbad; [done|by right|unfold TCC_MAX_VARS; lia]]. }
  destruct (op =? TCC_OP_NOT); [rewrite Hpop; by apply step_go, vm_push_ok|].
  destruct (op =? TCC_OP_DUP).
  { rewrite Hpop. pose proof (vm_push_ok v1 t1 Ht1 Hi1) as Hn. destruct (vm_push v1 t1) as [t2|]; [|apply step_stop]. by apply step_go, vm_push_ok. }
  destruct (op =? TCC_OP_POP); [rewrite Hpop; by apply step_go|].
  destruct (op =? TCC_OP_NEG); [rewrite Hpop; by apply step_go, vm_push_ok|].
  destruct (op =? TCC_OP_JMP).
  { apply (step_jump bad t (fun target => Ret (Go (set_p (8 + target) t), []))); [done|]. intros _ target Htg.
    apply step_go, vm_set_p_ok; [done|lia]. }
  destruct (op =? TCC_OP_JZ).
  { apply (step_jump bad t (fun target => let '(v, s) := vm_pop (set_p (vm_p t + 4) t) in
      Ret (Go (if v =? 0 then set_p (8 + target) s else s), []))); [done|]. intros H4 target Htg.
    destruct (vm_pop_ok (set_p (vm_p t + 4) t)) as (v & t2 & -> & _ & Ht2 & _); [apply vm_set_p_ok; [done|lia]|].
    apply step_go. destruct (v =? 0); [apply vm_set_p_ok; [done|lia]|done]. }
  destruct (op =? TCC_OP_RET); [apply step_stop|]. destruct (op =? TCC_OP_EXIT); [apply step_stop|].
  rewrite Hpop. destruct (vm_pop_ok t1 Ht1) as (v2 & t2 & -> & Hi2 & Ht2 & _).
  destruct (vm_binop op v2 v1) eqn:Eb; [|apply step_stop]. apply step_go, vm_push_ok; [done|by eapply vm_binop_int].
Qed.

Lemma vm_step_ok s : vm_ok prog s -> step_ok (vm_bad prog s) (vm_step prog s).
Proof.
  intros Hs. unfold vm_step. destruct (Z.ltb_spec (vm_p s) (zlen prog)); [|apply step_stop]. pose proof (vo_p _ _ Hs).
  destruct (aget_ok prog (vm_p s)) as [op Eop]; [lia|]. rewrite Eop, bind_Ret.
  apply vm_exec_ok; [done|done|]. apply vm_set_p_ok; [done|lia].
Qed.
End VmSafe.

Lemma vm_boot_ok prog s : vm_boot prog = Ret (Some s) -> vm_ok prog s.
Proof.
  unfold vm_boot. destruct (Z.ltb_spec (zlen prog) 8); [done|]. intros E. outcome_inv. case_bool_decide; [|done].
  injection E as <-. split; cbn [vm_p vm_stack vm_vars]; [lia|done|by constructor|done|].
  by repeat (apply Forall_cons_2; [split; lia|]).
Qed.

(** The states of a run of [prog] from its start. *)
Inductive vm_reach (prog : list Z) : vm_state -> Prop :=
| reach_boot s : vm_boot prog = Ret (Some s) -> vm_reach prog s
| reach_step s s' evs : vm_reach prog s -> vm_step prog s = Ret (Go s', evs) -> vm_reach prog s'.

Lemma vm_reach_ok prog s : Forall is_byte prog -> vm_reach prog s -> vm_ok prog s.
Proof.
  intros Hb. induction 1 as [s Hs|s s' evs _ IH E]; [by apply vm_boot_ok|].
  destruct (vm_step_ok prog Hb s IH) as [(n & evs' & E' & Hn)|[E' _]]; [|congruence].
  rewrite E in E'. apply Ret_inj in E'. by injection E' as <- <-.
Qed.

(** C22. The byte-code machine runs any block of bytes safely: in every state it
    can reach, the program counter is inside the block, the operand stack holds
    at most 64 ints and the 32 variables are ints, whatever the code does; its
    next step returns unless the instruction is a variable access with a slot of
    32 or more or a text without a NUL, the two things the code does not check. *)
Theorem vm_safe (prog : list Z) (s : vm_state) :
  Forall is_byte prog -> vm_reach prog s ->
  8 <= vm_p s <= zlen prog /\ zlen (vm_stack s) <= TCC_STACK_MAX /\ Forall is_int (vm_stack s)
  /\ length (vm_vars s) = 32%nat /\ Forall is_int (vm_vars s)
  /\ ((exists n evs, vm_step prog s = Ret (n, evs)) \/ (vm_step prog s = Undef /\ vm_bad prog s)).
Proof.
  intros Hb Hr. pose proof (vm_reach_ok prog s Hb Hr) as Hs. pose proof Hs as [].
  split; [done|]. split; [done|]. split; [done|]. split; [done|]. split; [done|].
  destruct (vm_step_ok prog Hb s Hs) as [(n & evs & E & _)|E]; [left; by exists n, evs|by right].
Qed.

Definition small_prog : list Z := TCC_MAGIC ++ [0; 0; 0; 0; TCC_OP_PUSH_CONST; 5; 0; 0; 0; TCC_OP_STORE_VAR; 40].
Definition small_state : vm_state := mk_vms 13 [5] (replicate (Z.to_nat TCC_MAX_VARS) 0).

Lemma vm_safe_witness : vm_reach small_prog small_state /\ zlen (vm_stack small_state) <= TCC_STACK_MAX.
Proof.
  assert (Forall is_byte small_prog) as Hb by (repeat constructor; vm_compute; discriminate).
  assert (vm_reach small_prog small_state) as Hr.
  { eapply reach_step; [apply reach_boot; vm_compute; reflexivity|]. vm_compute. reflexivity. }
  split; [exact Hr|]. apply (vm_safe small_prog small_state Hb Hr).
Defined.

(** A slot that is not checked: the store lands outside the variables. *)
Lemma unchecked_slot : vm_step small_prog small_state = Undef.
Proof. vm_compute. reflexivity. Qed.
