(* ===== verification/TinyCc.v ===== *)
(** tinycc.c, the one-pass compiler: emission, expressions, statements and
    compile_buffer (lines 97-131 and 345-1061).

    [cctx] is tinycc_compile_t; [loops] is the array [loop] points at, and a
    [tinycc_loop_t *] is an index into it.  A parser takes the context and the
    position and yields both, or [None] for [return -1], after which the code
    drops the context.  [e] is [end] (TinyLex).  A routine that recurses through
    expressions or statements is written over the one it calls back and closed
    by the recursion at the end of its section; loops and recursions run on the
    number of characters left, which each round reduces. *)
From S2P Require Import Prelude Spinlock Allocator Heap CString TinyLex TinyVm.

Definition TCC_VAR_NAME_MAX : Z := 32.
Definition TCC_TEMP_MAX : Z := 512.
Definition TCC_LOOP_MAX : Z := 8.
Definition TCC_LOOP_PATCH_MAX : Z := 32.

(** [if(f() < 0) return -1;] *)
Abbreviation P A := (outcome (option A)).
Definition pbind {A B} (m : P A) (f : A -> P B) : P B :=
  r ← m; match r with None => Ret None | Some a => f a end.
Notation "x ←? m ; k" := (pbind m (fun x => k)) (at level 20, m at level 100, k at level 200, right associativity, only parsing).
Notation "' p ←? m ; k" := (pbind m (fun x => let p := x in k))
  (at level 20, p pattern, m at level 100, k at level 200, right associativity, only parsing).
Definition ok {A} (a : A) : P A := Ret (Some a).
Definition fail {A} : P A := Ret None.
(** [if(!b) return -1;] *)
Definition need (r : outcome (bool * list Z)) : P (list Z) :=
  '(b, s) ← r; if (b : bool) then ok s else fail.

Record tinycc_loop_t := mk_loop {
  break_patch : list Z;
  break_count : Z;
  continue_patch : list Z;
  continue_count : Z
}.
Definition loop_zero : tinycc_loop_t := mk_loop (replicate 32 0) 0 (replicate 32 0) 0.

Record tinycc_compile_t := mk_cctx {
  out : list Z;
  cap : Z;
  pos : Z;
  count : Z;
  vars : Z;
  var : list (list Z);
  loop_depth : Z;
  loops : list tinycc_loop_t
}.
Abbreviation cctx := tinycc_compile_t.

Definition set_out (c : cctx) (o : list Z) (p : Z) : cctx :=
  mk_cctx o (cap c) p (count c) (vars c) (var c) (loop_depth c) (loops c).
Definition set_ccount (c : cctx) (n : Z) : cctx :=
  mk_cctx (out c) (cap c) (pos c) n (vars c) (var c) (loop_depth c) (loops c).
Definition set_vars (c : cctx) (n : Z) (l : list (list Z)) : cctx :=
  mk_cctx (out c) (cap c) (pos c) (count c) n l (loop_depth c) (loops c).
Definition set_loops (c : cctx) (d : Z) (l : list tinycc_loop_t) : cctx :=
  mk_cctx (out c) (cap c) (pos c) (count c) (vars c) (var c) d l.

(** ** Emission *)

Definition byte_of (v k : Z) : Z := Z.land (Z.shiftr v k) 255.

Definition write_u16 (o : list Z) (p v : Z) : outcome (list Z) :=
  o ← aset o p (byte_of v 0);
  aset o (p + 1) (byte_of v 8).

Definition write_u32 (o : list Z) (p v : Z) : outcome (list Z) :=
  o ← aset o p (byte_of v 0);
  o ← aset o (p + 1) (byte_of v 8);
  o ← aset o (p + 2) (byte_of v 16);
  aset o (p + 3) (byte_of v 24).

Definition emit_u8 (c : cctx) (v : Z) : P cctx :=
  if cap c <? pos c + 1 then fail
  else o ← aset (out c) (pos c) (u8 v); ok (set_out c o (pos c + 1)).

Definition emit_u32 (c : cctx) (v : Z) : P cctx :=
  if cap c <? pos c + 4 then fail
  else o ← write_u32 (out c) (pos c) v; ok (set_out c o (pos c + 4)).

Definition emit_bytes (c : cctx) (data : list Z) (len : Z) : P cctx :=
  if cap c <? pos c + len then fail
  else o ← at_off (out c) (pos c) (fun d => memcpy d data (u64 len)); ok (set_out c o (pos c + len)).

Definition patch_u32 (c : cctx) (p v : Z) : outcome cctx :=
  o ← write_u32 (out c) p v; Ret (set_out c o (pos c)).

Definition code_pos (c : cctx) : Z := pos c - 8.

(** [patch_u32(ctx, p, (unsigned)code_pos(ctx))] *)
Definition patch_here (c : cctx) (p : Z) : outcome cctx := patch_u32 c p (u32 (code_pos c)).

Definition find_var (c : cctx) (name : list Z) : outcome (option Z) :=
  find_range 0 (vars c) (fun i => v ← aget (var c) i; r ← str_eq v name; Ret (negb (r =? 0))).

Definition declare_var (c : cctx) (name : list Z) : P (Z * cctx) :=
  if TCC_MAX_VARS <=? vars c then fail
  else
    found ← find_var c name;
    match found with
    | Some _ => fail
    | None =>
      v ← aget (var c) (vars c);
      v ← copy_name v name TCC_VAR_NAME_MAX;
      l ← aset (var c) (vars c) v;
      ok (vars c, set_vars c (vars c + 1) l)
    end.

Definition emit_op (c : cctx) (op : Z) : P cctx := emit_u8 (set_ccount c (u32 (count c + 1))) op.

Definition emit_puts (c : cctx) (text : list Z) (len : Z) : P cctx :=
  c ←? emit_op c TCC_OP_PUTS;
  if cap c <? pos c + 2 + len + 1 then fail
  else
    o ← write_u16 (out c) (pos c) len;
    o ← at_off o (pos c + 2) (fun d => memcpy d text (u64 len));
    o ← aset o (pos c + 2 + len) 0;
    ok (set_out c o (pos c + 2 + len + 1)).

Definition emit_push_const (c : cctx) (v : Z) : P cctx := c ←? emit_op c TCC_OP_PUSH_CONST; emit_u32 c (u32 v).
Definition emit_push_var (c : cctx) (slot : Z) : P cctx := c ←? emit_op c TCC_OP_PUSH_VAR; emit_u8 c slot.
Definition emit_store_var (c : cctx) (slot : Z) : P cctx := c ←? emit_op c TCC_OP_STORE_VAR; emit_u8 c slot.

(** yields the position to patch *)
Definition emit_jump (c : cctx) (op : Z) : P (Z * cctx) :=
  c ←? emit_op c op;
  let p := pos c in
  c ←? emit_u32 c 0;
  ok (p, c).

(** ** Loops *)

Definition current_loop (c : cctx) : option Z := if loop_depth c <=? 0 then None else Some (loop_depth c - 1).

Definition push_loop (c : cctx) : P (Z * cctx) :=
  if TCC_LOOP_MAX <=? loop_depth c then fail
  else l ← aset (loops c) (loop_depth c) loop_zero; ok (loop_depth c, set_loops c (loop_depth c + 1) l).

Definition pop_loop (c : cctx) : cctx :=
  if 0 <? loop_depth c then set_loops c (loop_depth c - 1) (loops c) else c.

(** The list and its count. *)
Definition add_loop_patch (l : list Z) (n p : Z) : P (list Z * Z) :=
  if TCC_LOOP_PATCH_MAX <=? n then fail else l ← aset l n p; ok (l, n + 1).

Definition patch_loop_list (c : cctx) (l : list Z) (n target : Z) : outcome cctx :=
  for_range 0 n (fun i c => p ← aget l i; patch_u32 c p target) c.

Definition add_break (c : cctx) (k p : Z) : P cctx :=
  lp ← aget (loops c) k;
  '(l, n) ←? add_loop_patch (break_patch lp) (break_count lp) p;
  ls ← aset (loops c) k (mk_loop l n (continue_patch lp) (continue_count lp));
  ok (set_loops c (loop_depth c) ls).
Definition add_continue (c : cctx) (k p : Z) : P cctx :=
  lp ← aget (loops c) k;
  '(l, n) ←? add_loop_patch (continue_patch lp) (continue_count lp) p;
  ls ← aset (loops c) k (mk_loop (break_patch lp) (break_count lp) l n);
  ok (set_loops c (loop_depth c) ls).

(** ** Expressions *)

Definition parser : Type := cctx -> list Z -> P (cctx * list Z).
Definition name_buf : list Z := replicate 32 0.

(** The first token that matches, of a chain of [if(match_str(..)) .. else if]. *)
Fixpoint match_ops (ops : list (string * Z)) (ps : list Z) : outcome (option Z * list Z) :=
  match ops with
  | [] => Ret (None, ps)
  | (tok, op) :: ops =>
    '(b, ps) ← match_str ps (lit tok);
    if (b : bool) then Ret (Some op, ps) else match_ops ops ps
  end.

Section Expr.
Variable parse_expr : parser.
Implicit Types (c : cctx) (ps : list Z).

Definition parse_primary : parser := fun c ps =>
  ps ← skip_ws_and_comments ps;
  '(b, ps) ← expect_char ps 40;
  if (b : bool) then
    '(c, ps) ←? parse_expr c ps;
    ps ←? need (expect_char ps 41);
    ok (c, ps)
  else
    '(v, ps) ← parse_c_char ps;
    '(v, ps) ← (match v with Some _ => Ret (v, ps) | None => parse_number ps end);
    match v with
    | Some v => c ←? emit_push_const c v; ok (c, ps)
    | None => fail
    end.

(** [x++] and [x--]: the old value stays on the stack. *)
Definition emit_post (c : cctx) (slot op : Z) : P cctx :=
  c ←? emit_push_var c slot;
  c ←? emit_op c TCC_OP_DUP;
  c ←? emit_push_const c 1;
  c ←? emit_op c op;
  emit_store_var c slot.

Definition parse_postfix : parser := fun c save =>
  '(name, ps) ← parse_identifier save name_buf TCC_VAR_NAME_MAX;
  match name with
  | None => parse_primary c save
  | Some name =>
    slot ← find_var c name;
    match slot with
    | None => fail
    | Some slot =>
      '(op, ps) ← match_ops [("++"%string, TCC_OP_ADD); ("--"%string, TCC_OP_SUB)] ps;
      match op with
      | Some op => c ←? emit_post c slot op; ok (c, ps)
      | None => c ←? emit_push_var c slot; ok (c, ps)
      end
    end
  end.

(** [++x] and [--x] *)
Definition parse_pre (c : cctx) (ps : list Z) (op : Z) : P (cctx * list Z) :=
  '(name, ps) ← parse_identifier ps name_buf TCC_VAR_NAME_MAX;
  match name with
  | None => fail
  | Some name =>
    slot ← find_var c name;
    match slot with
    | None => fail
    | Some slot =>
      c ←? emit_push_var c slot;
      c ←? emit_push_const c 1;
      c ←? emit_op c op;
      c ←? emit_op c TCC_OP_DUP;
      c ←? emit_store_var c slot;
      ok (c, ps)
    end
  end.

Fixpoint unary_rec (fuel : nat) : parser := fun c ps =>
  match fuel with
  | O => Hang
  | S fuel =>
    '(op, ps) ← match_ops [("++"%string, TCC_OP_ADD); ("--"%string, TCC_OP_SUB);
                           ("!"%string, TCC_OP_NOT); ("-"%string, TCC_OP_NEG)] ps;
    match op with
    | None => parse_postfix c ps
    | Some op =>
      if (op =? TCC_OP_ADD) || (op =? TCC_OP_SUB) then parse_pre c ps op
      else
        '(c, ps) ←? unary_rec fuel c ps;
        c ←? emit_op c op;
        ok (c, ps)
    end
  end.
Definition parse_unary : parser := fun c ps => unary_rec (S (length ps)) c ps.

(** The loop of a level of left-associative operators over [sub]. *)
Fixpoint binary_loop (sub : parser) (ops : list (string * Z)) (fuel : nat) : parser := fun c ps =>
  match fuel with
  | O => Hang
  | S fuel =>
    '(op, ps) ← match_ops ops ps;
    match op with
    | None => ok (c, ps)
    | Some op =>
      '(c, ps) ←? sub c ps;
      c ←? emit_op c op;
      binary_loop sub ops fuel c ps
    end
  end.
Definition binary_level (sub : parser) (ops : list (string * Z)) : parser := fun c ps =>
  '(c, ps) ←? sub c ps;
  binary_loop sub ops (S (length ps)) c ps.

Definition parse_multiplicative : parser :=
  binary_level parse_unary [("*"%string, TCC_OP_MUL); ("/"%string, TCC_OP_DIV); ("%"%string, TCC_OP_MOD)].
Definition parse_additive : parser :=
  binary_level parse_multiplicative [("+"%string, TCC_OP_ADD); ("-"%string, TCC_OP_SUB)].
Definition parse_relational : parser :=
  binary_level parse_additive
    [("<="%string, TCC_OP_LE); (">="%string, TCC_OP_GE); ("<"%string, TCC_OP_LT); (">"%string, TCC_OP_GT)].
Definition parse_equality : parser :=
  binary_level parse_relational [("=="%string, TCC_OP_EQ); ("!="%string, TCC_OP_NE)].

Fixpoint and_loop (fuel : nat) : parser := fun c ps =>
  match fuel with
  | O => Hang
  | S fuel =>
    '(b, ps) ← match_str ps (lit "&&");
    if negb b then ok (c, ps)
    else
      '(rhs_patch, c) ←? emit_jump c TCC_OP_JZ;
      '(c, ps) ←? parse_equality c ps;
      '(false_patch, c) ←? emit_jump c TCC_OP_JZ;
      c ←? emit_push_const c 1;
      '(end_patch, c) ←? emit_jump c TCC_OP_JMP;
      c ← patch_here c rhs_patch;
      c ← patch_here c false_patch;
      c ←? emit_push_const c 0;
      c ← patch_here c end_patch;
      and_loop fuel c ps
  end.
Definition parse_logical_and : parser := fun c ps =>
  '(c, ps) ←? parse_equality c ps; and_loop (S (length ps)) c ps.

Fixpoint or_loop (fuel : nat) : parser := fun c ps =>
  match fuel with
  | O => Hang
  | S fuel =>
    '(b, ps) ← match_str ps (lit "||");
    if negb b then ok (c, ps)
    else
      '(eval_rhs_patch, c) ←? emit_jump c TCC_OP_JZ;
      c ←? emit_push_const c 1;
      '(lhs_true_patch, c) ←? emit_jump c TCC_OP_JMP;
      c ← patch_here c eval_rhs_patch;
      '(c, ps) ←? parse_logical_and c ps;
      '(false_patch, c) ←? emit_jump c TCC_OP_JZ;
      c ←? emit_push_const c 1;
      '(rhs_true_patch, c) ←? emit_jump c TCC_OP_JMP;
      c ← patch_here c false_patch;
      c ←? emit_push_const c 0;
      c ← patch_here c lhs_true_patch;
      c ← patch_here c rhs_true_patch;
      or_loop fuel c ps
  end.
Definition parse_logical_or : parser := fun c ps =>
  '(c, ps) ←? parse_logical_and c ps; or_loop (S (length ps)) c ps.

Definition assign_ops : list (string * Z) :=
  [("+="%string, TCC_OP_ADD); ("-="%string, TCC_OP_SUB); ("*="%string, TCC_OP_MUL); ("/="%string, TCC_OP_DIV);
   ("%="%string, TCC_OP_MOD); ("="%string, TCC_OP_STORE_VAR)].

(** [parse_assign_expr], whose own recursion is [parse_expr] too. *)
Definition assign_body : parser := fun c save =>
  '(name, ps) ← parse_identifier save name_buf TCC_VAR_NAME_MAX;
  match name with
  | None => parse_logical_or c save
  | Some name =>
    slot ← find_var c name;
    match slot with
    | None => fail
    | Some slot =>
      '(op, ps) ← match_ops assign_ops ps;
      match op with
      | None => parse_logical_or c save
      | Some op =>
        let compound := negb (op =? TCC_OP_STORE_VAR) in
        c ←? (if compound then emit_push_var c slot else ok c);
        '(c, ps) ←? parse_expr c ps;
        c ←? (if compound then emit_op c op else ok c);
        c ←? emit_op c TCC_OP_DUP;
        c ←? emit_store_var c slot;
        ok (c, ps)
      end
    end
  end.
End Expr.

Fixpoint parse_assign_expr (fuel : nat) : parser := fun c ps =>
  match fuel with
  | O => Hang
  | S fuel => assign_body (parse_assign_expr fuel) c ps
  end.
Definition parse_expr : parser := fun c ps => parse_assign_expr (S (length ps)) c ps.

(** ** Statements *)

(** A statement parser also threads [*saw_return]. *)
Definition sparser : Type := cctx -> list Z -> Z -> P (cctx * list Z * Z).

Fixpoint declaration_loop (fuel : nat) : parser := fun c ps =>
  match fuel with
  | O => Hang
  | S fuel =>
    '(name, ps) ← parse_identifier ps name_buf TCC_VAR_NAME_MAX;
    match name with
    | None => fail
    | Some name =>
      '(slot, c) ←? declare_var c name;
      '(b, ps) ← match_str ps (lit "=");
      '(c, ps) ←? (if (b : bool) then
                     '(c, ps) ←? parse_expr c ps;
                     c ←? emit_store_var c slot;
                     ok (c, ps)
                   else ok (c, ps));
      '(b, ps) ← match_str ps (lit ",");
      if (b : bool) then declaration_loop fuel c ps else ok (c, ps)
    end
  end.
Definition parse_declaration (terminator : Z) : parser := fun c ps =>
  '(c, ps) ←? declaration_loop (S (length ps)) c ps;
  ps ←? need (expect_char ps terminator);
  ok (c, ps).

Definition parse_expr_until (terminator : Z) : parser := fun c ps =>
  '(c, ps) ←? parse_expr c ps;
  ps ←? need (expect_char ps terminator);
  c ←? emit_op c TCC_OP_POP;
  ok (c, ps).

Definition parse_for_clause (terminator : Z) (allow_decl : bool) : parser := fun c ps =>
  ps ← skip_ws_and_comments ps;
  ch0 ← peek ps;
  if ch0 =? terminator then ps ← ptr_add ps 1; ok (c, ps)
  else
    '(b, ps) ← (if allow_decl then match_kw ps (lit "int") else Ret (false, ps));
    if (b : bool) then parse_declaration terminator c ps else parse_expr_until terminator c ps.

Section Stmt.
Variable parse_statement : sparser.
Variable e : Z.

Fixpoint block_loop (fuel : nat) : sparser := fun c ps saw =>
  match fuel with
  | O => Hang
  | S fuel =>
    ps ← skip_ws_and_comments ps;
    if negb (before ps e) then fail
    else
      c0 ← peek ps;
      if c0 =? 125 then ps ← ptr_add ps 1; ok (c, ps, saw)
      else
        '(c, ps, saw) ←? parse_statement c ps saw;
        block_loop fuel c ps saw
  end.
Definition parse_block : sparser := fun c ps saw =>
  ps ←? need (expect_char ps 123);
  block_loop (S (length ps)) c ps saw.

(** The code of the step expression, compiled into a buffer of its own by a
    copy of the context made before the init clause is parsed. *)
Definition step_context (c : cctx) (step_buf : list Z) : cctx :=
  mk_cctx step_buf TCC_TEMP_MAX 0 0 (vars c) (var c) 0 [].

(** A condition that may be missing: -1 when it is. *)
Definition for_condition : cctx -> list Z -> P (Z * cctx * list Z) := fun c ps =>
  ps ← skip_ws_and_comments ps;
  c0 ← peek ps;
  if negb (c0 =? 59) then
    '(c, ps) ←? parse_expr c ps;
    '(jz, c) ←? emit_jump c TCC_OP_JZ;
    ok (jz, c, ps)
  else ok (-1, c, ps).

Definition for_step (step : cctx) (ps : list Z) : P (cctx * list Z) :=
  ps ← skip_ws_and_comments ps;
  c0 ← peek ps;
  if negb (c0 =? 41) then parse_expr_until 41 step ps
  else ps ← ptr_add ps 1; ok (step, ps).

Definition patch_continues (c : cctx) (k target : Z) : outcome cctx :=
  lp ← aget (loops c) k; patch_loop_list c (continue_patch lp) (continue_count lp) target.
Definition patch_breaks (c : cctx) (k target : Z) : outcome cctx :=
  lp ← aget (loops c) k; patch_loop_list c (break_patch lp) (break_count lp) target.

Definition step_buf : list Z := replicate 512 0.

Definition parse_for : sparser := fun c ps saw =>
  let step := step_context c step_buf in
  ps ←? need (expect_char ps 40);
  '(c, ps) ←? parse_for_clause 59 true c ps;
  let loop_top := code_pos c in
  '(jz_patch, c, ps) ←? for_condition c ps;
  ps ←? need (expect_char ps 59);
  '(step, ps) ←? for_step step ps;
  '(k, c) ←? push_loop c;
  '(c, ps, saw) ←? parse_statement c ps saw;
  let step_target := code_pos c in
  c ← patch_continues c k (u32 step_target);
  c ←? emit_bytes c (out step) (pos step);
  let c := set_ccount c (u32 (count c + count step)) in
  c ←? emit_op c TCC_OP_JMP;
  c ←? emit_u32 c (u32 loop_top);
  let end_target := code_pos c in
  c ← (if 0 <=? jz_patch then patch_u32 c jz_patch (u32 end_target) else Ret c);
  c ← patch_breaks c k (u32 end_target);
  ok (pop_loop c, ps, saw).

Definition parse_while : sparser := fun c ps saw =>
  ps ←? need (expect_char ps 40);
  let loop_top := code_pos c in
  '(k, c) ←? push_loop c;
  '(c, ps) ←? parse_expr c ps;
  ps ←? need (expect_char ps 41);
  '(jz_patch, c) ←? emit_jump c TCC_OP_JZ;
  '(c, ps, saw) ←? parse_statement c ps saw;
  c ←? emit_op c TCC_OP_JMP;
  c ←? emit_u32 c (u32 loop_top);
  c ← patch_continues c k (u32 loop_top);
  let end_target := code_pos c in
  c ← patch_u32 c jz_patch (u32 end_target);
  c ← patch_breaks c k (u32 end_target);
  ok (pop_loop c, ps, saw).

Definition parse_do_while : sparser := fun c ps saw =>
  let loop_top := code_pos c in
  '(k, c) ←? push_loop c;
  '(c, ps, saw) ←? parse_statement c ps saw;
  let cond_target := code_pos c in
  c ← patch_continues c k (u32 cond_target);
  ps ←? need (match_kw ps (lit "while"));
  ps ←? need (expect_char ps 40);
  '(c, ps) ←? parse_expr c ps;
  ps ←? need (expect_char ps 41);
  ps ←? need (expect_char ps 59);
  '(jz_patch, c) ←? emit_jump c TCC_OP_JZ;
  c ←? emit_op c TCC_OP_JMP;
  c ←? emit_u32 c (u32 loop_top);
  let end_target := code_pos c in
  c ← patch_u32 c jz_patch (u32 end_target);
  c ← patch_breaks c k (u32 end_target);
  ok (pop_loop c, ps, saw).

Definition parse_if : sparser := fun c ps saw =>
  ps ←? need (expect_char ps 40);
  '(c, ps) ←? parse_expr c ps;
  ps ←? need (expect_char ps 41);
  '(else_patch, c) ←? emit_jump c TCC_OP_JZ;
  '(c, ps, saw) ←? parse_statement c ps saw;
  ps ← skip_ws_and_comments ps;
  '(b, ps) ← match_kw ps (lit "else");
  if (b : bool) then
    '(end_patch, c) ←? emit_jump c TCC_OP_JMP;
    c ← patch_here c else_patch;
    '(c, ps, saw) ←? parse_statement c ps saw;
    c ← patch_here c end_patch;
    ok (c, ps, saw)
  else c ← patch_here c else_patch; ok (c, ps, saw).

Definition parse_puts : sparser := fun c ps saw =>
  ps ←? need (expect_char ps 40);
  '(r, ps) ← parse_c_string ps (replicate 256 0) 256;
  '(text, len) ←? Ret r;
  ps ←? need (expect_char ps 41);
  ps ←? need (expect_char ps 59);
  c ←? emit_puts c text len;
  ok (c, ps, saw).

(** [u_putc(expr);] and [u_sleep(expr);] *)
Definition parse_call (op : Z) : sparser := fun c ps saw =>
  ps ←? need (expect_char ps 40);
  '(c, ps) ←? parse_expr c ps;
  ps ←? need (expect_char ps 41);
  ps ←? need (expect_char ps 59);
  c ←? emit_op c op;
  ok (c, ps, saw).

Definition parse_leave (add : cctx -> Z -> Z -> P cctx) : sparser := fun c ps saw =>
  match current_loop c with
  | None => fail
  | Some k =>
    ps ←? need (expect_char ps 59);
    '(p, c) ←? emit_jump c TCC_OP_JMP;
    c ←? add c k p;
    ok (c, ps, saw)
  end.

Definition parse_return : sparser := fun c ps saw =>
  '(c, ps) ←? parse_expr c ps;
  ps ←? need (expect_char ps 59);
  c ←? emit_op c TCC_OP_RET;
  ok (c, ps, 1).

(** The parsers of [parse_statement]'s chain of keywords, in its order. *)
Definition keywords : list (string * sparser) :=
  [("int"%string, fun c ps saw => '(c, ps) ←? parse_declaration 59 c ps; ok (c, ps, saw));
   ("if"%string, parse_if);
   ("do"%string, parse_do_while);
   ("while"%string, parse_while);
   ("for"%string, parse_for);
   ("u_puts"%string, parse_puts);
   ("u_putc"%string, parse_call TCC_OP_PUTC);
   ("uput_c"%string, parse_call TCC_OP_PUTC);
   ("u_sleep"%string, parse_call TCC_OP_SLEEP);
   ("break"%string, parse_leave add_break);
   ("continue"%string, parse_leave add_continue);
   ("return"%string, parse_return)].

Fixpoint dispatch (kws : list (string * sparser)) : sparser := fun c ps saw =>
  match kws with
  | [] => '(c, ps) ←? parse_expr_until 59 c ps; ok (c, ps, saw)
  | (kw, f) :: kws =>
    '(b, ps) ← match_kw ps (lit kw);
    if (b : bool) then f c ps saw else dispatch kws c ps saw
  end.

Definition statement_body : sparser := fun c ps saw =>
  ps ← skip_ws_and_comments ps;
  if negb (before ps e) then fail
  else
    c0 ← peek ps;
    if c0 =? 59 then ps ← ptr_add ps 1; ok (c, ps, saw)
    else if c0 =? 123 then parse_block c ps saw
    else dispatch keywords c ps saw.
End Stmt.

Fixpoint statement_rec (e : Z) (fuel : nat) : sparser := fun c ps saw =>
  match fuel with
  | O => Hang
  | S fuel => statement_body (statement_rec e fuel) e c ps saw
  end.
Definition parse_statement (e : Z) : sparser := fun c ps saw => statement_rec e (S (length ps)) c ps saw.

(** ** compile_buffer *)

Definition SIZEOF_CTX : Z := 1064.
Definition SIZEOF_LOOPS : Z := 2112.

(** How the loop over the source ends: at its end, by [goto out], or by the
    [return -1] that skips [out]. *)
Inductive compile_end :=
| CEnd (c : cctx) (saw_any saw_return : Z) (in_body : bool)
| CFail
| CLeak.

Fixpoint source_loop (fuel : nat) (e : Z) (c : cctx) (p : list Z) (saw_any saw_return : Z) (in_body : bool)
  : outcome compile_end :=
  match fuel with
  | O => Hang
  | S fuel =>
    let done := Ret (CEnd c saw_any saw_return in_body) in
    if negb (before p e) then done
    else
      c0 ← peek p;
      if c0 =? 0 then done
      else
        p ← skip_ws_and_comments p;
        '(b, p) ← skip_preprocessor_line p e;
        if (b : bool) then source_loop fuel e c p saw_any saw_return in_body
        else if negb (before p e) then done
        else
          c0 ← peek p;
          if c0 =? 0 then done
          else if negb in_body then
            b ← starts_decl_like p;
            h ← (if (b : bool) then skip_decl_or_header p e else Ret None);
            match h with
            | Some (opens, p) => source_loop fuel e c p saw_any saw_return (opens || in_body)
            | None =>
              if c0 =? 123 then p ← ptr_add p 1; source_loop fuel e c p saw_any saw_return true
              else Ret CLeak
            end
          else if c0 =? 125 then p ← ptr_add p 1; source_loop fuel e c p saw_any saw_return false
          else
            r ← parse_statement e c p saw_return;
            match r with
            | None => Ret CFail
            | Some (c, p, saw_return) => source_loop fuel e c p 1 saw_return in_body
            end
  end.

(** The code, and the header's count, once the source has been read. *)
Definition finish (c : cctx) (saw_return : Z) : P cctx :=
  c ←? (if saw_return =? 0 then c ←? emit_push_const c 0; emit_op c TCC_OP_RET else ok c);
  o ← write_u32 (out c) 4 (count c);
  ok (set_out c o (pos c)).

Definition initial_context (o : list Z) (out_cap : Z) : cctx :=
  mk_cctx o out_cap 8 0 0 (replicate 32 (replicate 32 0)) 0 (replicate 8 loop_zero).

Definition write_header (o : list Z) : outcome (list Z) :=
  o ← aset o 0 84;
  o ← aset o 1 67;
  o ← aset o 2 67;
  o ← aset o 3 48;
  write_u32 o 4 0.

(** What is compiled: the buffer and the length of the program in it. *)
Definition compile_source (src : list Z) (src_len : Z) (o : list Z) (out_cap : Z) : outcome (compile_end * option (list Z * Z)) :=
  o ← write_header o;
  let e := zlen src - src_len in
  r ← source_loop (S (length src)) e (initial_context o out_cap) src 0 0 false;
  match r with
  | CEnd c saw_any saw_return in_body =>
    if in_body || (saw_any =? 0) then Ret (r, None)
    else
      c ← finish c saw_return;
      Ret (r, option_map (fun c : cctx => (out c, pos c)) c)
  | _ => Ret (r, None)
  end.

Section Compile.
Context {H : Type} `{Allocator H}.

Definition compile_buffer (src : list Z) (src_len : Z) (o : list Z) (out_cap : Z) (h : H)
  : outcome (option (list Z * Z) * H) :=
  if out_cap <? 8 then Ret (None, h)
  else
    '(ctx, h) ← al_alloc SIZEOF_CTX 16 h;
    if ctx =? 0 then Ret (None, h)
    else
      '(loop, h) ← al_alloc SIZEOF_LOOPS 16 h;
      if loop =? 0 then h ← al_free ctx h; Ret (None, h)
      else
        '(r, res) ← compile_source src src_len o out_cap;
        match r with
        | CLeak => Ret (None, h)
        | _ =>
          h ← al_free loop h;
          h ← al_free ctx h;
          Ret (res, h)
        end.
End Compile.

(** ** The compiler is safe

    [ret m Q] and [sat m Q]: the run returns, and what it yields (when it does
    not fail) satisfies [Q]. *)
Definition ret {A} (m : outcome A) (Q : A -> Prop) : Prop := exists a, m = Ret a /\ Q a.
Definition sat {A} (m : P A) (Q : A -> Prop) : Prop :=
  exists r, m = Ret r /\ match r with None => True | Some a => Q a end.

Lemma sat_ok {A} (a : A) (Q : A -> Prop) : Q a -> sat (ok a) Q.
Proof. intros HQ. by exists (Some a). Qed.
Lemma sat_fail {A} (Q : A -> Prop) : sat fail Q.
Proof. by exists None. Qed.
Lemma sat_bind {A B} (m : P A) (f : A -> P B) Q R : sat m Q -> (forall a, Q a -> sat (f a) R) -> sat (pbind m f) R.
Proof.
  intros (r & -> & Hr) Hf. unfold pbind. rewrite bind_Ret. destruct r as [a|]; [by apply Hf|apply sat_fail].
Qed.
Lemma sat_ret {A B} (m : outcome A) (f : A -> P B) Q R : ret m Q -> (forall a, Q a -> sat (f a) R) -> sat (m ≫= f) R.
Proof. intros (a & -> & Ha) Hf. rewrite bind_Ret. by apply Hf. Qed.
Lemma sat_mono {A} (m : P A) (Q R : A -> Prop) : sat m Q -> (forall a, Q a -> R a) -> sat m R.
Proof. intros (r & -> & Hr) Hm. exists r. split; [done|]. destruct r; auto. Qed.
Lemma ret_Ret {A} (a : A) (Q : A -> Prop) : Q a -> ret (Ret a) Q.
Proof. intros HQ. by exists a. Qed.
Lemma ret_bind {A B} (m : outcome A) (f : A -> outcome B) Q R : ret m Q -> (forall a, Q a -> ret (f a) R) -> ret (m ≫= f) R.
Proof. intros (a & -> & Ha) Hf. rewrite bind_Ret. by apply Hf. Qed.

(** The context of a run that has written from [b] on. *)
Record ec_ok (b : Z) (c : cctx) : Prop := {
  ec_base : 0 <= b <= pos c;
  ec_pos : pos c <= cap c;
  ec_cap : cap c <= zlen (out c) <= 1048576;
  ec_vars : 0 <= vars c <= 32;
  ec_nvar : length (var c) = 32%nat;
  ec_var i v : var c !! i = Some v -> length v = 32%nat /\ (Z.of_nat i < vars c -> terminated v)
}.

(** What running on keeps. *)
Record grow (b : Z) (c c' : cctx) : Prop := {
  gr_cap : cap c' = cap c;
  gr_len : length (out c') = length (out c);
  gr_pos : pos c <= pos c';
  gr_head : take (Z.to_nat b) (out c') = take (Z.to_nat b) (out c);
  gr_depth : loop_depth c' = loop_depth c;
  gr_loops : loops c' = loops c
}.
Definition same_vars (c c' : cctx) : Prop := vars c' = vars c /\ var c' = var c.

Lemma grow_refl b c : grow b c c.
Proof. by split. Qed.
Lemma grow_trans b c1 c2 c3 : grow b c1 c2 -> grow b c2 c3 -> grow b c1 c3.
Proof. intros [] []. split; try congruence. lia. Qed.
Lemma same_vars_refl c : same_vars c c.
Proof. done. Qed.
Lemma same_vars_trans c1 c2 c3 : same_vars c1 c2 -> same_vars c2 c3 -> same_vars c1 c3.
Proof. intros [] []. split; congruence. Qed.

(** An emission that succeeds. *)
Definition emitted (b : Z) (c c' : cctx) : Prop := ec_ok b c' /\ grow b c c' /\ same_vars c c'.
Lemma emitted_refl b c : ec_ok b c -> emitted b c c.
Proof. intros H. split_and!; [done|apply grow_refl|done]. Qed.
Lemma emitted_trans b c1 c2 c3 : emitted b c1 c2 -> emitted b c2 c3 -> emitted b c1 c3.
Proof. intros (_ & ? & ?) (? & ? & ?). split_and!; [done|by eapply grow_trans|by eapply same_vars_trans]. Qed.
#[local] Hint Resolve emitted_refl emitted_trans grow_refl grow_trans : core.

(** Writing into the buffer between [b] and its end. *)
Lemma emitted_set_out b c (o : list Z) p :
  ec_ok b c -> length o = length (out c) -> pos c <= p <= cap c ->
  take (Z.to_nat b) o = take (Z.to_nat b) (out c) -> emitted b c (set_out c o p).
Proof.
  intros [] Hl Hp Ht. split_and!; [split|split|split]; cbn; try done; lia.
Qed.

Lemma take_insert_above {A} (b i : Z) (v : A) (l : list A) : 0 <= b <= i -> take (Z.to_nat b) (<[Z.to_nat i := v]> l) = take (Z.to_nat b) l.
Proof. intros Hb. apply take_insert_ge. lia. Qed.

Lemma aset_above b (o : list Z) i v : 0 <= b <= i -> i < zlen o ->
  ret (aset o i v) (fun o' => length o' = length o /\ take (Z.to_nat b) o' = take (Z.to_nat b) o).
Proof. intros Hb Hi. rewrite aset_ok by lia. apply ret_Ret. split; [by rewrite length_insert|by apply take_insert_above]. Qed.

Lemma write_u32_above b (o : list Z) p v : 0 <= b <= p -> p + 4 <= zlen o ->
  ret (write_u32 o p v) (fun o' => length o' = length o /\ take (Z.to_nat b) o' = take (Z.to_nat b) o).
Proof.
  intros Hb Hp. unfold write_u32. rewrite !aset_ok by (rewrite ?length_insert; lia). rewrite !bind_Ret.
  rewrite !aset_ok by (rewrite ?length_insert; lia). rewrite !bind_Ret.
  rewrite !aset_ok by (rewrite ?length_insert; lia). rewrite !bind_Ret.
  rewrite !aset_ok by (rewrite ?length_insert; lia). apply ret_Ret.
  rewrite !length_insert, !take_insert_above by lia. by split.
Qed.

Lemma memcpy_above b (o : list Z) p data n : 0 <= b <= p -> 0 <= n <= zlen data -> p + n <= zlen o ->
  ret (at_off o p (fun d => memcpy d data n)) (fun o' => length o' = length o /\ take (Z.to_nat b) o' = take (Z.to_nat b) o).
Proof.
  intros Hb Hn Hp. erewrite at_off_spec; [|lia|apply memcpy_spec; rewrite ?length_drop; lia]. apply ret_Ret.
  rewrite !length_app, !length_take, !length_drop. split; [lia|].
  rewrite take_app_le by (rewrite length_take; lia). rewrite take_take. f_equal. lia.
Qed.

Section Emit.
Variable b : Z.
Implicit Types (c : cctx).

Lemma emit_u8_ok c v : ec_ok b c -> sat (emit_u8 c v) (emitted b c).
Proof.
  intros Hc. pose proof Hc as []. unfold emit_u8. destruct (Z.ltb_spec (cap c) (pos c + 1)); [apply sat_fail|].
  eapply sat_ret; [apply (aset_above b); lia|]. intros o [Hl Ht]. apply sat_ok. apply emitted_set_out; try done; lia.
Qed.

Lemma emit_u32_ok c v : ec_ok b c -> sat (emit_u32 c v) (fun c' => emitted b c c' /\ pos c' = pos c + 4).
Proof.
  intros Hc. pose proof Hc as []. unfold emit_u32. destruct (Z.ltb_spec (cap c) (pos c + 4)); [apply sat_fail|].
  eapply sat_ret; [apply (write_u32_above b); lia|]. intros o [Hl Ht]. apply sat_ok.
  split; [|done]. apply emitted_set_out; try done; lia.
Qed.

Lemma emit_bytes_ok c data n : ec_ok b c -> 0 <= n <= zlen data -> n <= 1048576 -> sat (emit_bytes c data n) (emitted b c).
Proof.
  intros Hc Hn Hm. pose proof Hc as []. unfold emit_bytes. destruct (Z.ltb_spec (cap c) (pos c + n)); [apply sat_fail|].
  rewrite u64_small by lia. eapply sat_ret; [apply (memcpy_above b); lia|]. intros o [Hl Ht]. apply sat_ok.
  apply emitted_set_out; try done; lia.
Qed.

Lemma patch_u32_ok c p v : ec_ok b c -> b <= p -> p + 4 <= pos c ->
  ret (patch_u32 c p v) (fun c' => emitted b c c' /\ pos c' = pos c).
Proof.
  intros Hc Hb Hp. pose proof Hc as []. unfold patch_u32.
  eapply ret_bind; [apply (write_u32_above b); lia|]. intros o [Hl Ht]. apply ret_Ret. split; [|done].
  apply emitted_set_out; try done; lia.
Qed.

Lemma emitted_count c n : ec_ok b c -> emitted b c (set_ccount c n).
Proof. intros Hc. split; [destruct Hc; by split|split; [by split|done]]. Qed.

Lemma emit_op_ok c op : ec_ok b c -> sat (emit_op c op) (emitted b c).
Proof.
  intros Hc. unfold emit_op. pose proof (emitted_count c (u32 (count c + 1)) Hc) as He.
  eapply sat_mono; [apply emit_u8_ok, He|]. intros c' Hc'. eauto.
Qed.

Lemma emit_op_then {A} c op (f : cctx -> P A) R :
  ec_ok b c -> (forall c', emitted b c c' -> sat (f c') R) -> sat (pbind (emit_op c op) f) R.
Proof. intros Hc Hf. eapply sat_bind; [by apply emit_op_ok|done]. Qed.

Lemma emit_push_const_ok c v : ec_ok b c -> sat (emit_push_const c v) (emitted b c).
Proof.
  intros Hc. apply emit_op_then; [done|]. intros c' He. eapply sat_mono; [apply emit_u32_ok, He|].
  intros c2 [He2 _]. eauto.
Qed.

Lemma emit_push_var_ok c v : ec_ok b c -> sat (emit_push_var c v) (emitted b c).
Proof. intros Hc. apply emit_op_then; [done|]. intros c' He. eapply sat_mono; [apply emit_u8_ok, He|]. eauto. Qed.

Lemma emit_store_var_ok c v : ec_ok b c -> sat (emit_store_var c v) (emitted b c).
Proof. intros Hc. apply emit_op_then; [done|]. intros c' He. eapply sat_mono; [apply emit_u8_ok, He|]. eauto. Qed.

(** The place an emitted jump leaves to patch. *)
Definition hole c p : Prop := b <= p /\ p + 4 <= pos c.
Lemma hole_mono c c' p : hole c p -> grow b c c' -> hole c' p.
Proof. intros [] []. split; lia. Qed.
Lemma hole_emitted c c' p : hole c p -> emitted b c c' -> hole c' p.
Proof. intros Hh (_ & Hg & _). by eapply hole_mono. Qed.

Lemma emit_jump_ok c op : ec_ok b c -> sat (emit_jump c op) (fun '(p, c') => emitted b c c' /\ hole c' p).
Proof.
  intros Hc. apply emit_op_then; [done|]. intros c' He. cbv zeta. eapply sat_bind; [apply emit_u32_ok, He|].
  intros c2 [He2 Hp]. apply sat_ok. split; [eauto|]. destruct He as ([] & [] & _). split; lia.
Qed.

Lemma patch_here_ok c p : ec_ok b c -> hole c p -> ret (patch_here c p) (fun c' => emitted b c c' /\ pos c' = pos c).
Proof. intros Hc []. by apply patch_u32_ok. Qed.

Lemma emit_puts_ok c text len : ec_ok b c -> 0 <= len <= zlen text -> len <= 65535 -> sat (emit_puts c text len) (emitted b c).
Proof.
  intros Hc Hl Hm. apply emit_op_then; [done|]. intros c' He. pose proof He as ([] & _).
  destruct (Z.ltb_spec (cap c') (pos c' + 2 + len + 1)); [apply sat_fail|].
  unfold write_u16. rewrite aset_ok, bind_Ret by lia. eapply sat_ret; [apply (aset_above b); rewrite ?length_insert; lia|].
  intros o [Hlo Hto]. rewrite length_insert in Hlo. rewrite take_insert_above in Hto by lia. rewrite u64_small by lia.
  eapply sat_ret; [apply (memcpy_above b); lia|]. intros o2 [Hl2 Ht2].
  eapply sat_ret; [apply (aset_above b); lia|]. intros o3 [Hl3 Ht3]. apply sat_ok.
  eapply emitted_trans; [exact He|]. apply emitted_set_out; [by split|congruence|lia|congruence].
Qed.

(** *** Variables *)

Lemma find_var_ok c name : ec_ok b c -> terminated name ->
  ret (find_var c name) (fun r => match r with None => True | Some i => 0 <= i < vars c end).
Proof.
  intros [] Hn. unfold find_var.
  set (f := fun i => match var c !! Z.to_nat i with Some v => bool_decide (cstr v = cstr name) | None => false end).
  destruct (find_range_Some f (fun i => v ← aget (var c) i; r ← str_eq v name; Ret (negb (r =? 0))) 0 (vars c))
    as [(i & -> & Hi & _)|[-> _]]; [|by apply ret_Ret|by apply ret_Ret].
  intros i Hi. destruct (aget_ok (var c) i) as [v Hv]; [lia|]. rewrite Hv, bind_Ret. apply aget_Ret in Hv as [_ Hv].
  destruct (ec_var0 _ _ Hv) as [_ Ht]. rewrite str_eq_spec by (done || apply Ht; lia). rewrite bind_Ret. unfold f. rewrite Hv.
  by case_bool_decide.
Qed.

Lemma declare_var_ok c name : ec_ok b c -> terminated name ->
  sat (declare_var c name) (fun '(_, c') => ec_ok b c' /\ grow b c c').
Proof.
  intros Hc Hn. pose proof Hc as []. unfold declare_var, TCC_MAX_VARS. destruct (Z.leb_spec 32 (vars c)); [apply sat_fail|].
  eapply sat_ret; [by apply find_var_ok|]. intros [i|] _; [apply sat_fail|].
  destruct (aget_ok (var c) (vars c)) as [v Hv]; [lia|]. rewrite Hv, bind_Ret. apply aget_Ret in Hv as [_ Hv].
  destruct (ec_var0 _ _ Hv) as [Hlv _].
  destruct (copy_name_spec v name TCC_VAR_NAME_MAX Hn) as (v' & -> & Hl' & Ht' & _); [unfold TCC_VAR_NAME_MAX; lia|].
  rewrite bind_Ret, aset_ok, bind_Ret by lia. apply sat_ok. split; [|by split].
  split; cbn; try done; try lia; [by rewrite length_insert|]. intros i w Hw.
  destruct (decide (i = Z.to_nat (vars c))) as [->|Hne].
  - rewrite list_lookup_insert_eq in Hw by lia. injection Hw as <-. split; [lia|done].
  - rewrite list_lookup_insert_ne in Hw by done. destruct (ec_var0 _ _ Hw) as [? Ht]. split; [done|]. intros Hi'. apply Ht. lia.
Qed.
End Emit.

(** *** Expressions *)

#[local] Hint Resolve emitted_refl emitted_trans grow_refl grow_trans : core.

Definition moved (ps ps' : list Z) : Prop := adv ps ps' /\ (length ps' < length ps)%nat.
Definition expr_post (b : Z) (c : cctx) (ps : list Z) : cctx * list Z -> Prop :=
  fun '(c', ps') => emitted b c c' /\ moved ps ps'.

(** A parser that is safe on positions with at most [k] bytes left. *)
Definition good (k : nat) (f : parser) : Prop :=
  forall b c ps, ec_ok b c -> terminated ps -> (length ps <= k)%nat -> sat (f c ps) (expr_post b c ps).

Lemma moved_adv ps ps' ps'' : moved ps ps' -> adv ps' ps'' -> moved ps ps''.
Proof. intros [Ha Hl] Hb. split; [eauto|]. pose proof (adv_length _ _ Hb). lia. Qed.
Lemma adv_moved ps ps' ps'' : adv ps ps' -> moved ps' ps'' -> moved ps ps''.
Proof. intros Ha [Hb Hl]. split; [eauto|]. pose proof (adv_length _ _ Ha). lia. Qed.
Lemma moved_terminated ps ps' : moved ps ps' -> terminated ps'.
Proof. by intros [[? _] _]. Qed.
Lemma emitted_ok b c c' : emitted b c c' -> ec_ok b c'.
Proof. by intros [? _]. Qed.
#[local] Hint Resolve moved_adv adv_moved moved_terminated emitted_ok : core.

Lemma need_ok m ps : (exists b t, m = Ret (b, t) /\ adv ps t /\ (b = true -> (length t < length ps)%nat)) ->
  sat (need m) (moved ps).
Proof.
  intros (b & t & -> & Ha & Hl). unfold need. rewrite bind_Ret. destruct b; [apply sat_ok; split; auto|apply sat_fail].
Qed.

Lemma expect_ok ps want : terminated ps -> want <> 0 -> sat (need (expect_char ps want)) (moved ps).
Proof. intros Ht Hw. apply need_ok. by apply expect_char_ok. Qed.

Lemma need_kw_ok ps kw : terminated ps -> token kw -> sat (need (match_kw ps kw)) (moved ps).
Proof.
  intros Ht Hk. apply need_ok. destruct (match_kw_ok ps kw Ht Hk) as (b & t & E & Ha & Hl & _). eauto.
Qed.

Lemma match_ops_ok ops ps : terminated ps -> Forall (fun x => token (lit x.1)) ops ->
  ret (match_ops ops ps) (fun '(r, ps') => adv ps ps' /\ (r <> None -> (length ps' < length ps)%nat)
    /\ match r with None => True | Some op => op ∈ ops.*2 end).
Proof.
  intros Ht Hops. revert ps Ht. induction Hops as [|[tok op] ops Hk _ IH]; intros ps Ht; cbn [match_ops].
  - apply ret_Ret. split_and!; [by apply adv_refl|done|done].
  - destruct (match_str_ok ps (lit tok) Ht Hk) as (b & t & -> & Ha & Hl). rewrite bind_Ret. destruct b.
    + apply ret_Ret. split_and!; [done|auto|by left].
    + destruct (IH t (proj1 Ha)) as ([r u] & E & Hu & Hlu & Hin). exists (r, u). split; [done|].
      pose proof (adv_length _ _ Ha). split_and!; [eauto|intros Hr; specialize (Hlu Hr); lia|].
      destruct r; [by right|done].
Qed.

Lemma ident_buf_ok ps : terminated ps ->
  ret (parse_identifier ps name_buf TCC_VAR_NAME_MAX) (fun '(r, ps') => adv ps ps'
    /\ match r with None => True | Some name => terminated name /\ moved ps ps' end).
Proof.
  intros Ht. destruct (parse_identifier_ok ps name_buf TCC_VAR_NAME_MAX Ht) as (r & t & E & Ha & Hr).
  { unfold TCC_VAR_NAME_MAX, name_buf. rewrite length_replicate. lia. }
  exists (r, t). split; [done|]. split; [done|]. destruct r as [name|]; [|done]. destruct Hr as (_ & Hn & Hl). by split.
Qed.

(** Emission after which parsing goes on. *)
Lemma then_emit {A} b c (m : P cctx) (f : cctx -> P A) R :
  sat m (emitted b c) -> (forall c', emitted b c c' -> sat (f c') R) -> sat (pbind m f) R.
Proof. intros Hm Hf. by eapply sat_bind. Qed.

Lemma done_ok b c0 c ps0 ps : emitted b c0 c -> moved ps0 ps -> sat (ok (c, ps)) (expr_post b c0 ps0).
Proof. intros. by apply sat_ok. Qed.

Section ExprOk.
Variable parse_expr : parser.
Variable k : nat.
Hypothesis parse_expr_good : good k parse_expr.

Lemma parse_primary_ok : good (S k) (parse_primary parse_expr).
Proof.
  intros b c ps Hc Ht Hk. unfold parse_primary. destruct (skip_ws_ok ps Ht) as (t & -> & Ha). rewrite bind_Ret.
  pose proof (adv_length _ _ Ha). destruct (expect_char_ok t 40 (proj1 Ha) ltac:(lia)) as (b0 & t1 & -> & Ha1 & Hl1). rewrite bind_Ret.
  cbv iota beta. destruct b0.
  - specialize (Hl1 eq_refl). eapply sat_bind; [apply parse_expr_good; [done|apply Ha1|lia]|]. intros [c1 ps1] [He1 Hm1].
    eapply sat_bind; [apply expect_ok; [by eapply moved_terminated|lia]|]. intros ps2 Hm2.
    apply (done_ok b c c1 ps ps2); [done|]. split; [eapply adv_trans; [exact Ha|]; eapply adv_trans; [exact Ha1|]; eapply adv_trans; [apply Hm1|apply Hm2]|].
    destruct Hm1 as [_ ?], Hm2 as [_ ?]. lia.
  - destruct (parse_c_char_ok t1 (proj1 Ha1)) as (v & t2 & -> & Ha2 & Hl2). rewrite bind_Ret. cbv iota beta.
    pose proof (adv_length _ _ Ha1). eapply (sat_ret _ _ (fun '(v, u) => adv t1 u /\ (v <> None -> (length u < length t1)%nat))).
    + destruct v as [v|].
      * apply ret_Ret. by split.
      * destruct (parse_number_ok t2 (proj1 Ha2)) as (w & u & -> & Hu & Hlu). apply ret_Ret.
        pose proof (adv_length _ _ Ha2). split; [eauto|]. intros Hw. specialize (Hlu Hw). lia.
    + intros [w u] [Hu Hlu]. destruct w as [w|]; [|apply sat_fail]. eapply then_emit; [by apply emit_push_const_ok|]. intros c1 He.
      apply (done_ok b c c1 ps u); [done|]. split; [eauto|]. specialize (Hlu ltac:(done)). lia.
Qed.

Lemma emit_post_ok b c slot op : ec_ok b c -> sat (emit_post c slot op) (emitted b c).
Proof.
  intros Hc. unfold emit_post.
  eapply then_emit; [by apply emit_push_var_ok|]. intros c1 H1.
  eapply then_emit; [by eapply emit_op_ok, emitted_ok|]. intros c2 H2.
  eapply then_emit; [by eapply emit_push_const_ok, emitted_ok|]. intros c3 H3.
  eapply then_emit; [by eapply emit_op_ok, emitted_ok|]. intros c4 H4.
  eapply sat_mono; [by eapply emit_store_var_ok, emitted_ok|]. intros c5 H5.
  eapply emitted_trans; [done|]. eapply emitted_trans; [done|]. eapply emitted_trans; [done|]. eauto.
Qed.

Lemma parse_postfix_ok : good (S k) (parse_postfix parse_expr).
Proof.
  intros b c ps Hc Ht Hk. unfold parse_postfix. eapply sat_ret; [by apply ident_buf_ok|]. intros [name t] [Ha Hn].
  destruct name as [name|]; [|by apply parse_primary_ok]. destruct Hn as [Hnt Hm].
  eapply sat_ret; [by apply (find_var_ok b)|]. intros [slot|] _; [|apply sat_fail].
  eapply sat_ret; [apply match_ops_ok; [apply Ha|repeat (apply Forall_cons_2; [by apply token_dec|]); constructor]|].
  intros [op u] (Hu & _ & _). destruct op as [op|].
  - eapply then_emit; [by apply emit_post_ok|]. intros c1 He. apply (done_ok b c c1); eauto.
  - eapply then_emit; [by apply emit_push_var_ok|]. intros c1 He. apply (done_ok b c c1); eauto.
Qed.

Lemma parse_pre_ok b c ps op : ec_ok b c -> terminated ps -> sat (parse_pre c ps op) (expr_post b c ps).
Proof.
  intros Hc Ht. unfold parse_pre. eapply sat_ret; [by apply ident_buf_ok|]. intros [name t] [Ha Hn].
  destruct name as [name|]; [|apply sat_fail]. destruct Hn as [Hnt Hm].
  eapply sat_ret; [by apply (find_var_ok b)|]. intros [slot|] _; [|apply sat_fail].
  eapply then_emit; [by apply emit_push_var_ok|]. intros c1 H1.
  eapply then_emit; [by eapply emit_push_const_ok, emitted_ok|]. intros c2 H2.
  eapply then_emit; [by eapply emit_op_ok, emitted_ok|]. intros c3 H3.
  eapply then_emit; [by eapply emit_op_ok, emitted_ok|]. intros c4 H4.
  eapply then_emit; [by eapply emit_store_var_ok, emitted_ok|]. intros c5 H5.
  apply (done_ok b c c5); [|done].
  eapply emitted_trans; [done|]. eapply emitted_trans; [done|]. eapply emitted_trans; [done|]. eauto.
Qed.

Lemma unary_rec_ok fuel b c ps : ec_ok b c -> terminated ps -> (length ps < fuel)%nat -> (length ps <= S k)%nat ->
  sat (unary_rec parse_expr fuel c ps) (expr_post b c ps).
Proof.
  revert c ps. induction fuel as [|fuel IH]; intros c ps Hc Ht Hf Hk; [lia|]. cbn [unary_rec].
  eapply sat_ret; [apply match_ops_ok; [done|repeat (apply Forall_cons_2; [by apply token_dec|]); constructor]|].
  intros [op u] (Hu & Hl & _). pose proof (adv_length _ _ Hu). destruct op as [op|].
  - specialize (Hl ltac:(done)). assert (moved ps u) as Hm by by split. destruct (_ || _).
    + eapply sat_mono; [apply (parse_pre_ok b); [done|apply Hu]|]. intros [c1 ps1] [He Hm1]. split; [done|].
      eapply moved_adv; [done|apply Hm1].
    + eapply sat_bind; [apply IH; [done|apply Hu|lia|lia]|]. intros [c1 ps1] [He Hm1].
      eapply then_emit; [by eapply emit_op_ok, emitted_ok|]. intros c2 H2. apply (done_ok b c c2); [eauto|].
      eapply moved_adv; [done|apply Hm1].
  - eapply sat_mono; [apply parse_postfix_ok; [done|apply Hu|lia]|]. intros [c1 ps1] [He Hm1]. split; eauto.
Qed.

Lemma parse_unary_ok : good (S k) (parse_unary parse_expr).
Proof. intros b c ps Hc Ht Hk. apply unary_rec_ok; auto; lia. Qed.

Lemma binary_loop_ok sub ops j b fuel c ps :
  good j sub -> Forall (fun x => token (lit x.1)) ops -> ec_ok b c -> terminated ps ->
  (length ps < fuel)%nat -> (length ps <= S j)%nat ->
  sat (binary_loop sub ops fuel c ps) (fun '(c', ps') => emitted b c c' /\ adv ps ps').
Proof.
  intros Hs Hops. revert c ps. induction fuel as [|fuel IH]; intros c ps Hc Ht Hf Hk; [lia|]. cbn [binary_loop].
  eapply sat_ret; [by apply match_ops_ok|]. intros [op u] (Hu & Hl & _). destruct op as [op|]; [|by apply sat_ok; auto].
  specialize (Hl ltac:(done)). eapply sat_bind; [apply Hs; [done|apply Hu|lia]|]. intros [c1 ps1] [He Hm1].
  eapply then_emit; [by eapply emit_op_ok, emitted_ok|]. intros c2 H2. pose proof Hm1 as [Ha1 Hl1].
  eapply sat_mono; [apply IH; [eauto|apply Ha1|lia|lia]|]. intros [c3 ps3] [H3 Ha3]. split; [|eauto].
  eapply emitted_trans; [exact He|]. eauto.
Qed.

Lemma binary_level_ok sub ops j : good (S j) sub -> Forall (fun x => token (lit x.1)) ops -> good (S j) (binary_level sub ops).
Proof.
  intros Hs Hops b c ps Hc Ht Hk. unfold binary_level. eapply sat_bind; [by apply Hs|]. intros [c1 ps1] [He Hm].
  eapply sat_mono; [apply (binary_loop_ok sub ops (S j)); [done|done|by eapply emitted_ok|by eapply moved_terminated|lia|destruct Hm; lia]|].
  intros [c2 ps2] [H2 Ha2]. split; eauto.
Qed.

Ltac tokens := repeat (apply Forall_cons_2; [by apply token_dec|]); constructor.

Lemma parse_equality_ok : good (S k) (parse_equality parse_expr).
Proof.
  unfold parse_equality, parse_relational, parse_additive, parse_multiplicative.
  repeat (apply binary_level_ok; [|tokens]). apply parse_unary_ok.
Qed.

Lemma patch_then {A} b c0 c p (f : cctx -> P A) R :
  emitted b c0 c -> hole b c p -> (forall c', emitted b c0 c' -> pos c' = pos c -> sat (f c') R) -> sat (patch_here c p ≫= f) R.
Proof.
  intros He Hh Hf. eapply sat_ret; [by eapply (patch_here_ok b); [eapply emitted_ok|]|]. intros c' [H1 Hp]. apply Hf; [eauto|done].
Qed.

Lemma jump_then {A} b c0 c op (f : Z * cctx -> P A) R :
  emitted b c0 c -> (forall p c', emitted b c0 c' -> grow b c c' -> hole b c' p -> sat (f (p, c')) R) ->
  sat (pbind (emit_jump c op) f) R.
Proof.
  intros He Hf. eapply sat_bind; [by eapply (emit_jump_ok b), emitted_ok|]. intros [p c'] [H1 Hh]. apply Hf; [eauto|apply H1|done].
Qed.

Lemma push_then {A} b c0 c v (f : cctx -> P A) R :
  emitted b c0 c -> (forall c', emitted b c0 c' -> grow b c c' -> sat (f c') R) -> sat (pbind (emit_push_const c v) f) R.
Proof.
  intros He Hf. eapply sat_bind; [by eapply (emit_push_const_ok b), emitted_ok|]. intros c' H1. apply Hf; [eauto|apply H1].
Qed.

Lemma sub_then {A} b c0 c ps j (sub : parser) (f : cctx * list Z -> P A) R :
  good j sub -> emitted b c0 c -> terminated ps -> (length ps <= j)%nat ->
  (forall c' ps', emitted b c0 c' -> grow b c c' -> moved ps ps' -> sat (f (c', ps')) R) -> sat (pbind (sub c ps) f) R.
Proof.
  intros Hs He Ht Hl Hf. eapply sat_bind; [by eapply Hs; [eapply emitted_ok| |]|]. intros [c' ps'] [H1 Hm].
  apply Hf; [eauto|apply H1|done].
Qed.

Lemma hole_same b c c' p : hole b c p -> pos c' = pos c -> hole b c' p.
Proof. intros [] Hp. split; lia. Qed.

(** A place to patch stays one while code is appended and patched. *)
Ltac keep :=
  match goal with
  | |- hole _ _ _ => assumption
  | G : grow ?b ?c ?c' |- hole ?b ?c' ?p => apply (hole_mono b c c' p); [keep|exact G]
  | E : pos ?c' = pos ?c |- hole ?b ?c' ?p => apply (hole_same b c c' p); [keep|exact E]
  end.

Lemma and_loop_ok b fuel c ps : ec_ok b c -> terminated ps -> (length ps < fuel)%nat -> (length ps <= S k)%nat ->
  sat (and_loop parse_expr fuel c ps) (fun '(c', ps') => emitted b c c' /\ adv ps ps').
Proof.
  revert c ps. induction fuel as [|fuel IH]; intros c ps Hc Ht Hf Hk; [lia|]. cbn [and_loop].
  destruct (match_str_ok ps (lit "&&") Ht) as (m & u & -> & Hu & Hl); [by apply token_dec|]. rewrite bind_Ret.
  destruct m; cbn [negb]; [|by apply sat_ok; auto]. specialize (Hl eq_refl).
  apply (jump_then b c); [auto|]. intros p1 c1 H1 _ Hh1.
  apply (sub_then b c _ _ (S k)); [apply parse_equality_ok|done|apply Hu|lia|]. intros c2 ps2 H2 G2 [Ha2 Hl2].
  apply (jump_then b c); [done|]. intros p3 c3 H3 G3 Hh3.
  apply (push_then b c); [done|]. intros c4 H4 G4.
  apply (jump_then b c); [done|]. intros p5 c5 H5 G5 Hh5.
  apply (patch_then b c); [done|keep|]. intros c6 H6 E6.
  apply (patch_then b c); [done|keep|]. intros c7 H7 E7.
  apply (push_then b c); [done|]. intros c8 H8 G8.
  apply (patch_then b c); [done|keep|]. intros c9 H9 E9.
  eapply sat_mono; [apply IH; [by eapply emitted_ok|apply Ha2|lia|lia]|]. intros [c10 ps10] [H10 Ha10].
  split; [eauto|]. eapply adv_trans; [exact Hu|]. eauto.
Qed.

Lemma parse_logical_and_ok : good (S k) (parse_logical_and parse_expr).
Proof.
  intros b c ps Hc Ht Hk. unfold parse_logical_and.
  apply (sub_then b c _ _ (S k)); [apply parse_equality_ok|auto|done|done|]. intros c1 ps1 H1 _ Hm.
  eapply sat_mono; [apply (and_loop_ok b); [by eapply emitted_ok|by eapply moved_terminated|lia|destruct Hm; lia]|].
  intros [c2 ps2] [H2 Ha2]. split; eauto.
Qed.

Lemma or_loop_ok b fuel c ps : ec_ok b c -> terminated ps -> (length ps < fuel)%nat -> (length ps <= S k)%nat ->
  sat (or_loop parse_expr fuel c ps) (fun '(c', ps') => emitted b c c' /\ adv ps ps').
Proof.
  revert c ps. induction fuel as [|fuel IH]; intros c ps Hc Ht Hf Hk; [lia|]. cbn [or_loop].
  destruct (match_str_ok ps (lit "||") Ht) as (m & u & -> & Hu & Hl); [by apply token_dec|]. rewrite bind_Ret.
  destruct m; cbn [negb]; [|by apply sat_ok; auto]. specialize (Hl eq_refl).
  apply (jump_then b c); [auto|]. intros p1 c1 H1 _ Hh1.
  apply (push_then b c); [done|]. intros c2 H2 G2.
  apply (jump_then b c); [done|]. intros p3 c3 H3 G3 Hh3.
  apply (patch_then b c); [done|keep|]. intros c4 H4 E4.
  apply (sub_then b c _ _ (S k)); [apply parse_logical_and_ok|done|apply Hu|lia|]. intros c5 ps5 H5 G5 [Ha5 Hl5].
  apply (jump_then b c); [done|]. intros p6 c6 H6 G6 Hh6.
  apply (push_then b c); [done|]. intros c7 H7 G7.
  apply (jump_then b c); [done|]. intros p8 c8 H8 G8 Hh8.
  apply (patch_then b c); [done|keep|]. intros c9 H9 E9.
  apply (push_then b c); [done|]. intros c10 H10 G10.
  apply (patch_then b c); [done|keep|]. intros c11 H11 E11.
  apply (patch_then b c); [done|keep|]. intros c12 H12 E12.
  eapply sat_mono; [apply IH; [by eapply emitted_ok|apply Ha5|lia|lia]|]. intros [c13 ps13] [H13 Ha13].
  split; [eauto|]. eapply adv_trans; [exact Hu|]. eauto.
Qed.

Lemma parse_logical_or_ok : good (S k) (parse_logical_or parse_expr).
Proof.
  intros b c ps Hc Ht Hk. unfold parse_logical_or.
  apply (sub_then b c _ _ (S k)); [apply parse_logical_and_ok|auto|done|done|]. intros c1 ps1 H1 _ Hm.
  eapply sat_mono; [apply (or_loop_ok b); [by eapply emitted_ok|by eapply moved_terminated|lia|destruct Hm; lia]|].
  intros [c2 ps2] [H2 Ha2]. split; eauto.
Qed.

Lemma assign_body_ok : good (S k) (assign_body parse_expr).
Proof.
  intros b c ps Hc Ht Hk. unfold assign_body. eapply sat_ret; [by apply ident_buf_ok|]. intros [name t] [Ha Hn].
  destruct name as [name|]; [|by apply parse_logical_or_ok]. destruct Hn as [Hnt Hm].
  eapply sat_ret; [by apply (find_var_ok b)|]. intros [slot|] _; [|apply sat_fail].
  eapply sat_ret; [apply match_ops_ok; [apply Ha|unfold assign_ops; tokens]|].
  intros [op u] (Hu & Hl & _). destruct op as [op|]; [|by apply parse_logical_or_ok].
  assert (moved ps u) as Hmu by eauto. pose proof Hmu as [_ Hlu]. cbv zeta.
  assert (forall c m, emitted b c m -> forall x, sat (if negb (op =? TCC_OP_STORE_VAR) then emit_op m x else ok m) (emitted b c)) as Hop.
  { intros c0 m H0 x. destruct (negb _); [|by apply sat_ok]. eapply sat_mono; [by eapply (emit_op_ok b), emitted_ok|]. eauto. }
  eapply sat_bind; [|intros c1 H1; apply (sub_then b c _ _ k); [done|exact H1|apply Hu|lia|]].
  - destruct (negb _); [by apply emit_push_var_ok|by apply sat_ok; auto].
  - intros c2 ps2 H2 _ Hm2. eapply sat_bind; [by apply Hop|]. intros c3 H3.
    eapply sat_bind; [by eapply (emit_op_ok b), emitted_ok|]. intros c4 H4.
    eapply sat_bind; [by eapply (emit_store_var_ok b), emitted_ok|]. intros c5 H5.
    apply (done_ok b c c5); [eauto|]. eapply moved_adv; [exact Hmu|apply Hm2].
Qed.
End ExprOk.

Lemma parse_assign_ok fuel k : (k < fuel)%nat -> good k (parse_assign_expr fuel).
Proof.
  revert k. induction fuel as [|fuel IH]; intros k Hk; [lia|]. intros b c ps Hc Ht Hl. cbn [parse_assign_expr].
  destruct k as [|k]; [destruct ps; [by apply elem_of_nil in Ht|simpl in Hl; lia]|].
  apply (assign_body_ok _ k); auto. apply IH. lia.
Qed.

Lemma parse_expr_ok k : good k parse_expr.
Proof. intros b c ps Hc Ht Hl. apply (parse_assign_ok _ (length ps)); auto. Qed.

(** *** Statements *)

Definition patches_ok (b p : Z) (l : list Z) (n : Z) : Prop :=
  length l = 32%nat /\ 0 <= n <= 32
  /\ forall i q, l !! i = Some q -> Z.of_nat i < n -> b <= q /\ q + 4 <= p.
Definition loop_ok (b p : Z) (lp : tinycc_loop_t) : Prop :=
  patches_ok b p (break_patch lp) (break_count lp) /\ patches_ok b p (continue_patch lp) (continue_count lp).

(** A context with its table of loops, whose recorded jumps are all emitted. *)
Record st_ok (b : Z) (c : cctx) : Prop := {
  st_ec : ec_ok b c;
  st_nloops : length (loops c) = 8%nat;
  st_depth : 0 <= loop_depth c <= 8;
  st_loops : Forall (loop_ok b (pos c)) (loops c)
}.

(** What running statements keeps. *)
Record srun (b : Z) (c c' : cctx) : Prop := {
  sr_ok : st_ok b c';
  sr_cap : cap c' = cap c;
  sr_len : length (out c') = length (out c);
  sr_pos : pos c <= pos c';
  sr_head : take (Z.to_nat b) (out c') = take (Z.to_nat b) (out c)
}.

Lemma srun_refl b c : st_ok b c -> srun b c c.
Proof. by split. Qed.
Lemma srun_trans b c1 c2 c3 : srun b c1 c2 -> srun b c2 c3 -> srun b c1 c3.
Proof. intros [] []. split; try congruence. lia. Qed.

Lemma patches_mono b p p' l n : p <= p' -> patches_ok b p l n -> patches_ok b p' l n.
Proof. intros Hp (? & ? & Hq). split_and!; try done; try lia. intros i q Hi Hn. destruct (Hq i q Hi Hn). lia. Qed.
Lemma loop_mono b p p' lp : p <= p' -> loop_ok b p lp -> loop_ok b p' lp.
Proof. intros Hp []. split; by eapply patches_mono. Qed.

Lemma st_grow b c c' : st_ok b c -> ec_ok b c' -> grow b c c' -> srun b c c' /\ loop_depth c' = loop_depth c.
Proof.
  intros [] Hc' []. split; [|done]. split; try done. split; [done|congruence|lia|].
  rewrite gr_loops0. eapply Forall_impl; [done|]. intros lp. by apply loop_mono.
Qed.

Lemma st_emitted b c c' : st_ok b c -> emitted b c c' -> srun b c c' /\ loop_depth c' = loop_depth c.
Proof. intros Hs (Hc & Hg & _). by apply st_grow. Qed.

(** Goes on from [c0] through [c], with [d] loops open. *)
Definition at_depth (b : Z) (c0 c : cctx) (d : Z) : Prop := srun b c0 c /\ loop_depth c = d.

Lemma at_start b c : st_ok b c -> at_depth b c c (loop_depth c).
Proof. intros Hs. split; [by apply srun_refl|done]. Qed.

Lemma at_ec b c0 c d : at_depth b c0 c d -> ec_ok b c.
Proof. intros [Hr _]. apply Hr. Qed.

Lemma at_emitted b c0 c c' d : at_depth b c0 c d -> emitted b c c' -> at_depth b c0 c' d.
Proof.
  intros [Hr Hd] He. destruct (st_emitted b c c' (sr_ok _ _ _ Hr) He) as [H1 H2].
  split; [by eapply srun_trans|congruence].
Qed.

Lemma at_grow b c0 c c' d : at_depth b c0 c d -> ec_ok b c' -> grow b c c' -> at_depth b c0 c' d.
Proof.
  intros [Hr Hd] He Hg. destruct (st_grow b c c' (sr_ok _ _ _ Hr) He Hg) as [H1 H2].
  split; [by eapply srun_trans|congruence].
Qed.

Lemma hole_le b c c' p : hole b c p -> pos c <= pos c' -> hole b c' p.
Proof. intros [] Hp. split; lia. Qed.

Section StmtSteps.
Variables (b : Z) (c0 : cctx).
Context {A : Type}.
Implicit Types (c : cctx) (R : A -> Prop).

(** One step of a statement, for each kind of step. *)
Lemma s_emit c d (m : P cctx) (f : cctx -> P A) R :
  at_depth b c0 c d -> (ec_ok b c -> sat m (emitted b c)) ->
  (forall c', at_depth b c0 c' d -> pos c <= pos c' -> sat (f c') R) -> sat (pbind m f) R.
Proof.
  intros Ha Hm Hf. eapply sat_bind; [by eapply Hm, at_ec|]. intros c' He.
  apply Hf; [by eapply at_emitted|]. destruct He as (_ & [] & _). lia.
Qed.

Lemma s_jump c d op (f : Z * cctx -> P A) R :
  at_depth b c0 c d ->
  (forall p c', at_depth b c0 c' d -> pos c <= pos c' -> hole b c' p -> sat (f (p, c')) R) -> sat (pbind (emit_jump c op) f) R.
Proof.
  intros Ha Hf. eapply sat_bind; [by eapply (emit_jump_ok b), at_ec|]. intros [p c'] [He Hh].
  apply Hf; [by eapply at_emitted| |done]. destruct He as (_ & [] & _). lia.
Qed.

Lemma s_patch c d p v (f : cctx -> P A) R :
  at_depth b c0 c d -> hole b c p ->
  (forall c', at_depth b c0 c' d -> pos c <= pos c' -> sat (f c') R) -> sat (patch_u32 c p v ≫= f) R.
Proof.
  intros Ha [Hb Hp] Hf. eapply sat_ret; [by eapply (patch_u32_ok b); [eapply at_ec| |]|]. intros c' [He Hpos].
  apply Hf; [by eapply at_emitted|lia].
Qed.

Lemma s_expr c d ps (f : cctx * list Z -> P A) R :
  at_depth b c0 c d -> terminated ps ->
  (forall c' ps', at_depth b c0 c' d -> pos c <= pos c' -> moved ps ps' -> sat (f (c', ps')) R) -> sat (pbind (parse_expr c ps) f) R.
Proof.
  intros Ha Ht Hf. eapply sat_bind; [by eapply (parse_expr_ok (length ps)); [eapply at_ec| |]|]. intros [c' ps'] [He Hm].
  apply Hf; [by eapply at_emitted| |done]. destruct He as (_ & [] & _). lia.
Qed.

Lemma s_expect ps want (f : list Z -> P A) R :
  terminated ps -> want <> 0 -> (forall ps', moved ps ps' -> sat (f ps') R) -> sat (pbind (need (expect_char ps want)) f) R.
Proof. intros Ht Hw Hf. eapply sat_bind; [by apply expect_ok|done]. Qed.

Lemma s_kw ps kw (f : list Z -> P A) R :
  terminated ps -> token kw -> (forall ps', moved ps ps' -> sat (f ps') R) -> sat (pbind (need (match_kw ps kw)) f) R.
Proof. intros Ht Hw Hf. eapply sat_bind; [by apply need_kw_ok|done]. Qed.

Lemma s_skip ps (f : list Z -> P A) R :
  terminated ps -> (forall ch0 t, adv ps (ch0 :: t) -> sat (f (ch0 :: t)) R) -> sat (skip_ws_and_comments ps ≫= f) R.
Proof. intros Ht Hf. destruct (skip_peek ps Ht) as (ch0 & t & -> & Ha). rewrite bind_Ret. by apply Hf. Qed.

(** *** The loop table *)

Lemma loop_zero_ok p : loop_ok b p loop_zero.
Proof. split; (split_and!; [done|done|done|]; intros i q _ Hi; simpl in Hi; lia). Qed.

Lemma s_push c d (f : Z * cctx -> P A) R :
  at_depth b c0 c d -> (forall c', 0 <= d < 8 -> at_depth b c0 c' (d + 1) -> pos c' = pos c -> sat (f (d, c')) R) -> sat (pbind (push_loop c) f) R.
Proof.
  intros [Hr Hd] Hf. pose proof (sr_ok _ _ _ Hr) as [Hec Hn Hdp Hl]. unfold push_loop, TCC_LOOP_MAX.
  destruct (Z.leb_spec 8 (loop_depth c)); [apply sat_fail|]. rewrite aset_ok, bind_Ret by lia.
  unfold pbind, ok. rewrite bind_Ret, Hd. apply Hf; [lia| |done].
  split; [|done]. destruct Hr. split; cbn; try done; try lia. split; cbn; [by destruct Hec|by rewrite length_insert|lia|].
  apply Forall_insert; [done|apply loop_zero_ok].
Qed.

Lemma pop_ok c d : at_depth b c0 c (d + 1) -> 0 <= d -> at_depth b c0 (pop_loop c) d.
Proof.
  intros [Hr Hd] H0. unfold pop_loop. destruct (Z.ltb_spec 0 (loop_depth c)); [|lia].
  pose proof (sr_ok _ _ _ Hr) as [Hec Hn Hdp Hl]. split; [|cbn; lia]. destruct Hr. split; cbn; try done; try lia.
  split; cbn; [by destruct Hec|done|lia|done].
Qed.

Lemma patch_list_ok c l n v : ec_ok b c -> patches_ok b (pos c) l n ->
  ret (patch_loop_list c l n v) (fun c' => emitted b c c' /\ pos c' = pos c).
Proof.
  intros Hc (Hl & Hn & Hq). unfold patch_loop_list.
  destruct (for_range_ind (fun _ c' => emitted b c c' /\ pos c' = pos c) 0 n (fun i c => p ← aget l i; patch_u32 c p v) c)
    as (c' & E & Hc'); [lia|split; [by apply emitted_refl|done]| |by exists c'].
  intros i c1 Hi [He Hp]. destruct (aget_ok l i) as [q Eq]; [lia|]. rewrite Eq, bind_Ret. apply aget_Ret in Eq as [_ Eq].
  destruct (Hq _ _ Eq) as [Hbq Hqp]; [lia|].
  destruct (patch_u32_ok b c1 q v (proj1 He)) as (c2 & E2 & He2 & Hp2); [lia|lia|].
  exists c2. split; [done|]. split; [by eapply emitted_trans|congruence].
Qed.

Lemma s_patches c d k v (sel : tinycc_loop_t -> list Z * Z) (f : cctx -> P A) R :
  at_depth b c0 c d -> 0 <= k < 8 -> (forall lp, loop_ok b (pos c) lp -> patches_ok b (pos c) (sel lp).1 (sel lp).2) ->
  (forall c', at_depth b c0 c' d -> pos c' = pos c -> sat (f c') R) ->
  sat ((lp ← aget (loops c) k; patch_loop_list c (sel lp).1 (sel lp).2 v) ≫= f) R.
Proof.
  intros Ha Hk Hsel Hf. pose proof Ha as [Hr _]. pose proof (sr_ok _ _ _ Hr) as [Hec Hn _ Hl].
  destruct (aget_ok (loops c) k) as [lp Hlp]; [lia|]. rewrite Hlp, bind_Ret. apply aget_Ret in Hlp as [_ Hlp].
  eapply sat_ret; [apply patch_list_ok; [done|apply Hsel; by eapply Forall_lookup_1]|]. intros c' [He Hp].
  apply Hf; [by eapply at_emitted|done].
Qed.

Lemma s_continues c d k v (f : cctx -> P A) R :
  at_depth b c0 c d -> 0 <= k < 8 -> (forall c', at_depth b c0 c' d -> pos c' = pos c -> sat (f c') R) ->
  sat (patch_continues c k v ≫= f) R.
Proof. intros Ha Hk. apply (s_patches c d k v (fun lp => (continue_patch lp, continue_count lp))); [done|done|]. by intros lp []. Qed.

Lemma s_breaks c d k v (f : cctx -> P A) R :
  at_depth b c0 c d -> 0 <= k < 8 -> (forall c', at_depth b c0 c' d -> pos c' = pos c -> sat (f c') R) ->
  sat (patch_breaks c k v ≫= f) R.
Proof. intros Ha Hk. apply (s_patches c d k v (fun lp => (break_patch lp, break_count lp))); [done|done|]. by intros lp []. Qed.

Lemma add_patch_ok p l n q : patches_ok b p l n -> b <= q -> q + 4 <= p ->
  sat (add_loop_patch l n q) (fun '(l', n') => patches_ok b p l' n').
Proof.
  intros (Hl & Hn & Hq) Hb Hp. unfold add_loop_patch, TCC_LOOP_PATCH_MAX. destruct (Z.leb_spec 32 n); [apply sat_fail|].
  rewrite aset_ok, bind_Ret by lia. apply sat_ok. split_and!; [by rewrite length_insert|lia|lia|].
  intros i r Hi Hin. destruct (decide (i = Z.to_nat n)) as [->|Hne].
  - rewrite list_lookup_insert_eq in Hi by lia. injection Hi as <-. lia.
  - rewrite list_lookup_insert_ne in Hi by done. apply (Hq i r Hi). lia.
Qed.

(** Recording a jump in loop [k]. *)
Definition adds (add : cctx -> Z -> Z -> P cctx) : Prop :=
  forall c d k p, at_depth b c0 c d -> 0 <= k < 8 -> hole b c p -> sat (add c k p) (fun c' => at_depth b c0 c' d).

Lemma store_loop_ok c d k lp : at_depth b c0 c d -> 0 <= k < 8 -> loop_ok b (pos c) lp ->
  ret (aset (loops c) k lp) (fun ls => at_depth b c0 (set_loops c (loop_depth c) ls) d).
Proof.
  intros [Hr Hd] Hk Hlp. pose proof (sr_ok _ _ _ Hr) as [Hec Hn Hdp Hl]. rewrite aset_ok by lia. apply ret_Ret.
  split; [|done]. destruct Hr. split; cbn; try done; try lia. split; cbn; [by destruct Hec|by rewrite length_insert|done|].
  by apply Forall_insert.
Qed.

Lemma get_loop_ok c d k : at_depth b c0 c d -> 0 <= k < 8 -> ret (aget (loops c) k) (loop_ok b (pos c)).
Proof.
  intros [Hr Hd] Hk. pose proof (sr_ok _ _ _ Hr) as [Hec Hn Hdp Hl]. destruct (aget_ok (loops c) k) as [lp Hlp]; [lia|].
  rewrite Hlp. apply ret_Ret. apply aget_Ret in Hlp as [_ Hlp]. by eapply Forall_lookup_1.
Qed.

Lemma add_break_ok : adds add_break.
Proof.
  intros c d k p Ha Hk [Hb Hp]. unfold add_break. eapply sat_ret; [by eapply get_loop_ok|]. intros lp [H1 H2].
  eapply sat_bind; [by apply (add_patch_ok (pos c))|]. intros [l n] Hln.
  eapply sat_ret; [eapply (store_loop_ok c d k); [done|done|by split]|]. intros ls Hls. by apply sat_ok.
Qed.

Lemma add_continue_ok : adds add_continue.
Proof.
  intros c d k p Ha Hk [Hb Hp]. unfold add_continue. eapply sat_ret; [by eapply get_loop_ok|]. intros lp [H1 H2].
  eapply sat_bind; [by apply (add_patch_ok (pos c))|]. intros [l n] Hln.
  eapply sat_ret; [eapply (store_loop_ok c d k); [done|done|by split]|]. intros ls Hls. by apply sat_ok.
Qed.
End StmtSteps.

(** *** Declarations and clauses *)

Definition decl_post (b : Z) (c : cctx) (ps : list Z) : cctx * list Z -> Prop :=
  fun '(c', ps') => ec_ok b c' /\ grow b c c' /\ moved ps ps'.

Lemma expr_decl b c ps r : expr_post b c ps r -> decl_post b c ps r.
Proof. destruct r as [c' ps']. intros [(? & ? & _) ?]. by split_and!. Qed.

Lemma declaration_loop_ok b fuel c ps : ec_ok b c -> terminated ps -> (length ps < fuel)%nat ->
  sat (declaration_loop fuel c ps) (decl_post b c ps).
Proof.
  revert c ps. induction fuel as [|fuel IH]; intros c ps Hc Ht Hf; [lia|]. cbn [declaration_loop].
  eapply sat_ret; [by apply ident_buf_ok|]. intros [name t] [Ha Hn]. destruct name as [name|]; [|apply sat_fail]. destruct Hn as [Hnt Hm].
  eapply sat_bind; [by apply (declare_var_ok b)|]. intros [slot c1] [Hc1 G1].
  destruct (match_str_ok t (lit "=") (proj1 Ha)) as (m & u & -> & Hu & _); [by apply token_dec|]. rewrite bind_Ret.
  eapply (sat_bind _ _ (fun '(c2, ps2) => ec_ok b c2 /\ grow b c c2 /\ adv u ps2)).
  - destruct m; [|apply sat_ok; split_and!; [done|done|by apply adv_refl, Hu]].
    eapply sat_bind; [by apply (parse_expr_ok (length u)); [exact Hc1|apply Hu|]|]. intros [c2 ps2] [He [Ha2 _]].
    eapply sat_bind; [by eapply (emit_store_var_ok b), emitted_ok|]. intros c3 H3. apply sat_ok.
    assert (emitted b c1 c3) as (? & ? & _) by by eapply emitted_trans. split_and!; [done|by eapply grow_trans|done].
  - intros [c2 ps2] (Hc2 & G2 & Ha2).
    destruct (match_str_ok ps2 (lit ",") (proj1 Ha2)) as (m2 & v & -> & Hv & _); [by apply token_dec|]. rewrite bind_Ret.
    assert (moved ps v) as Hmv. { eapply moved_adv; [exact Hm|]. eapply adv_trans; [exact Hu|]. by eapply adv_trans. }
    destruct m2; [|by apply sat_ok; split_and!]. destruct Hmv as [Hav Hlv].
    eapply sat_mono; [apply IH; [done|apply Hv|lia]|]. intros [c3 ps3] (Hc3 & G3 & Hm3).
    split_and!; [done|by eapply grow_trans|by eapply adv_moved].
Qed.

Lemma parse_declaration_ok b tm c ps : ec_ok b c -> terminated ps -> tm <> 0 -> sat (parse_declaration tm c ps) (decl_post b c ps).
Proof.
  intros Hc Ht Htm. unfold parse_declaration. eapply sat_bind; [apply (declaration_loop_ok b); [done|done|lia]|].
  intros [c1 ps1] (Hc1 & G1 & Hm1). apply s_expect; [by eapply moved_terminated|done|]. intros ps2 Hm2. apply sat_ok.
  split_and!; [done|done|]. eapply moved_adv; [done|apply Hm2].
Qed.

Lemma parse_expr_until_ok b tm c ps : ec_ok b c -> terminated ps -> tm <> 0 -> sat (parse_expr_until tm c ps) (expr_post b c ps).
Proof.
  intros Hc Ht Htm. unfold parse_expr_until. eapply sat_bind; [by apply (parse_expr_ok (length ps))|].
  intros [c1 ps1] [H1 Hm1]. apply s_expect; [by eapply moved_terminated|done|]. intros ps2 Hm2.
  eapply sat_bind; [by eapply (emit_op_ok b), emitted_ok|]. intros c2 H2. apply sat_ok.
  split; [by eapply emitted_trans|]. eapply moved_adv; [done|apply Hm2].
Qed.

Lemma parse_for_clause_ok b tm allow c ps : ec_ok b c -> terminated ps -> tm <> 0 ->
  sat (parse_for_clause tm allow c ps) (decl_post b c ps).
Proof.
  intros Hc Ht Htm. unfold parse_for_clause. apply s_skip; [done|]. intros c0 t Ha. rewrite peek_cons, bind_Ret.
  destruct (Z.eqb_spec c0 tm) as [->|_].
  - rewrite ptr_add_1, bind_Ret. apply sat_ok. split_and!; [done|apply grow_refl|]. pose proof (adv_length _ _ Ha). simpl in *.
    split; [|lia]. eapply adv_trans; [done|]. by apply adv_tail; [apply Ha|].
  - eapply (sat_ret _ _ (fun '(b, u) => adv (c0 :: t) u)).
    + destruct allow; [|apply ret_Ret; by apply adv_refl, Ha].
      destruct (match_kw_ok (c0 :: t) (lit "int") (proj1 Ha)) as (m & u & E & Hu & _); [by apply token_dec|]. by exists (m, u).
    + intros [m u] Hu. destruct m.
      * eapply sat_mono; [apply (parse_declaration_ok b); [done|apply Hu|done]|]. intros [c1 ps1] (? & ? & Hm).
        split_and!; [done|done|]. eapply adv_moved; [|done]. by eapply adv_trans.
      * eapply sat_mono; [apply (parse_expr_until_ok b); [done|apply Hu|done]|]. intros [c1 ps1] Hp.
        apply expr_decl in Hp as (? & ? & Hm). split_and!; [done|done|]. eapply adv_moved; [|done]. by eapply adv_trans.
Qed.

Definition stmt_post (b : Z) (c : cctx) (ps : list Z) : cctx * list Z * Z -> Prop :=
  fun '(c', ps', _) => at_depth b c c' (loop_depth c) /\ moved ps ps'.
Definition sgood (k : nat) (f : sparser) : Prop :=
  forall b c ps saw, st_ok b c -> terminated ps -> (length ps <= k)%nat -> sat (f c ps saw) (stmt_post b c ps).

(** Positions only move on. *)
Ltac mv :=
  match goal with
  | |- moved _ _ => assumption
  | |- adv _ _ => assumption
  | M : moved ?p ?q |- adv ?p ?q => exact (proj1 M)
  | |- terminated ?t => first [assumption | match goal with M : moved _ t |- _ => exact (moved_terminated _ _ M) | M : adv _ t |- _ => exact (proj1 M) end]
  | M : moved ?p ?q |- moved ?s ?q => apply (adv_moved s p q); [mv|exact M]
  | M : adv ?p ?q |- moved ?s ?q => apply (moved_adv s p q); [mv|exact M]
  | M : moved ?p ?q |- adv ?s ?q => apply (adv_trans s p q); [mv|exact (proj1 M)]
  | M : adv ?p ?q |- adv ?s ?q => apply (adv_trans s p q); [mv|exact M]
  end.
Ltac mvlen :=
  repeat match goal with
  | M : moved _ _ |- _ => let L := fresh "L" in pose proof (proj2 M) as L; apply proj1 in M; revert M
  | M : adv _ _ |- _ => let L := fresh "L" in pose proof (adv_length _ _ M) as L; revert M
  end; intros; simpl in *; lia.
Ltac holds :=
  match goal with
  | |- hole _ _ _ => assumption
  | G : pos ?c <= pos ?c' |- hole ?b ?c' ?p => apply (hole_le b c c' p); [holds|exact G]
  | E : pos ?c' = pos ?c |- hole ?b ?c' ?p => apply (hole_same b c c' p); [holds|exact E]
  end.

Section StmtOk.
Variable parse_statement : sparser.
Variable e : Z.
Variable k : nat.
Hypothesis parse_statement_good : sgood k parse_statement.

Lemma s_stmt {A} b c0 c d ps saw (f : cctx * list Z * Z -> P A) R :
  at_depth b c0 c d -> terminated ps -> (length ps <= k)%nat ->
  (forall c' ps' saw', at_depth b c0 c' d -> pos c <= pos c' -> moved ps ps' -> sat (f (c', ps', saw')) R) ->
  sat (pbind (parse_statement c ps saw) f) R.
Proof.
  intros [Hr Hd] Ht Hl Hf. eapply sat_bind; [apply parse_statement_good; [apply Hr|done|done]|].
  intros [[c' ps'] saw'] [[Hr' Hd'] Hm]. apply Hf; [|apply Hr'|done]. split; [by eapply srun_trans|congruence].
Qed.

Lemma stmt_done b c0 c ps0 ps saw : at_depth b c0 c (loop_depth c0) -> moved ps0 ps -> sat (ok (c, ps, saw)) (stmt_post b c0 ps0).
Proof. intros. by apply sat_ok. Qed.

Lemma block_loop_ok fuel b c0 c ps saw : at_depth b c0 c (loop_depth c0) -> terminated ps ->
  (length ps < fuel)%nat -> (length ps <= k)%nat ->
  sat (block_loop parse_statement e fuel c ps saw) (fun '(c', ps', _) => at_depth b c0 c' (loop_depth c0) /\ adv ps ps').
Proof.
  revert c ps saw. induction fuel as [|fuel IH]; intros c ps saw Hc Ht Hf Hk; [lia|]. cbn [block_loop].
  apply s_skip; [done|]. intros h t Ha. destruct (before _ e); cbn [negb]; [|apply sat_fail]. rewrite peek_cons, bind_Ret.
  pose proof (adv_length _ _ Ha). destruct (Z.eqb_spec h 125) as [->|_].
  - rewrite ptr_add_1, bind_Ret. apply sat_ok. split; [done|]. eapply adv_trans; [done|]. apply adv_tail; [apply Ha|lia].
  - apply (s_stmt b c0 _ (loop_depth c0)); [done|apply Ha|simpl in *; lia|]. intros c1 ps1 saw1 H1 _ Hm1.
    eapply sat_mono; [apply IH; [done|mv|mvlen|mvlen]|]. intros [[c2 ps2] saw2] [H2 Ha2]. split; [done|]. mv.
Qed.

Lemma parse_block_ok : sgood (S k) (parse_block parse_statement e).
Proof.
  intros b c ps saw Hc Ht Hk. unfold parse_block. apply s_expect; [done|lia|]. intros ps1 Hm1.
  eapply sat_mono; [apply (block_loop_ok _ b c); [by apply at_start|mv|lia|mvlen]|]. intros [[c2 ps2] saw2] [H2 Ha2].
  split; [done|]. mv.
Qed.

Lemma for_condition_ok b c0 c d ps : at_depth b c0 c d -> terminated ps ->
  sat (for_condition c ps) (fun '(jz, c', ps') => at_depth b c0 c' d /\ pos c <= pos c' /\ (jz = -1 \/ hole b c' jz) /\ adv ps ps').
Proof.
  intros Hc Ht. unfold for_condition. apply s_skip; [done|]. intros h t Ha. rewrite peek_cons, bind_Ret.
  destruct (h =? 59); cbn [negb].
  - apply sat_ok. split_and!; [done|lia|by left|done].
  - apply (s_expr b c0 _ d); [done|apply Ha|]. intros c1 ps1 H1 G1 Hm1. apply (s_jump b c0 _ d); [done|].
    intros p c2 H2 G2 Hh. apply sat_ok. split_and!; [done|lia|by right|mv].
Qed.

Lemma step_context_ok b c : ec_ok b c -> ec_ok 0 (step_context c step_buf).
Proof.
  intros []. split; cbn [out cap pos vars var step_context]; unfold TCC_TEMP_MAX, step_buf; rewrite ?length_replicate; try lia; try done; exact ec_var0.
Qed.

Lemma for_step_ok step ps : ec_ok 0 step -> terminated ps ->
  sat (for_step step ps) (fun '(step', ps') => ec_ok 0 step' /\ grow 0 step step' /\ adv ps ps').
Proof.
  intros Hc Ht. unfold for_step. apply s_skip; [done|]. intros h t Ha. rewrite peek_cons, bind_Ret.
  destruct (Z.eqb_spec h 41) as [->|_]; cbn [negb].
  - rewrite ptr_add_1, bind_Ret. apply sat_ok. split_and!; [done|apply grow_refl|]. eapply adv_trans; [done|].
    apply adv_tail; [apply Ha|lia].
  - eapply sat_mono; [apply (parse_expr_until_ok 0); [done|apply Ha|lia]|]. intros [c1 ps1] [(? & ? & _) Hm]. split_and!; [done|done|mv].
Qed.

Lemma parse_for_ok : sgood (S k) (parse_for parse_statement).
Proof.
  intros b c ps saw Hc Ht Hk. unfold parse_for. pose proof (st_ec _ _ Hc) as Hec. cbv zeta.
  apply s_expect; [done|lia|]. intros ps1 M1.
  eapply sat_bind; [apply (parse_for_clause_ok b); [done|mv|lia]|]. intros [c2 ps2] (Hc2 & G2 & M2).
  pose proof (at_grow b c c c2 _ (at_start b c Hc) Hc2 G2) as H2.
  eapply sat_bind; [by apply (for_condition_ok b c _ (loop_depth c)); [|mv]|]. intros [[jz c3] ps3] (H3 & G3 & Hjz & A3).
  apply s_expect; [mv|lia|]. intros ps4 M4.
  eapply sat_bind; [by apply for_step_ok; [eapply (step_context_ok b)|mv]|]. intros [step ps5] (Hs & Gs & A5).
  apply (s_push b c _ (loop_depth c)); [done|]. intros c6 Hk6 H6 E6.
  apply (s_stmt b c _ (loop_depth c + 1)); [done|mv|mvlen|]. intros c7 ps7 saw7 H7 G7 M7.
  apply (s_continues b c _ (loop_depth c + 1)); [done|done|]. intros c8 H8 E8.
  apply (s_emit b c c8 (loop_depth c + 1)); [done| |].
  { intros He. destruct Hs, Gs. cbn [out cap step_context] in *. unfold TCC_TEMP_MAX in *. apply emit_bytes_ok; [done|lia|lia]. }
  intros c9 H9 G9. set (c10 := set_ccount c9 _).
  assert (at_depth b c c10 (loop_depth c + 1)) as H10 by (eapply at_emitted; [exact H9|by eapply emitted_count, at_ec]).
  apply (s_emit b c c10 (loop_depth c + 1)); [done|intros He; by apply emit_op_ok|]. intros c11 H11 G11.
  change (pos c10) with (pos c9) in G11.
  apply (s_emit b c c11 (loop_depth c + 1)); [done|intros He; eapply sat_mono; [by apply (emit_u32_ok b)|by intros c' [? _]]|].
  intros c12 H12 G12.
  eapply (sat_ret _ _ (fun c13 => at_depth b c c13 (loop_depth c + 1))).
  { destruct (Z.leb_spec 0 jz); [|by apply ret_Ret]. destruct Hjz as [?|Hh]; [lia|].
    assert (hole b c12 jz) as [Hh1 Hh2] by holds. destruct (patch_u32_ok b c12 jz (u32 (code_pos c12)) (at_ec _ _ _ _ H12) Hh1 Hh2) as (c13 & E13 & He13 & _).
    exists c13. split; [done|]. by eapply at_emitted. }
  intros c13 H13. apply (s_breaks b c _ (loop_depth c + 1)); [done|done|]. intros c14 H14 E14.
  apply stmt_done; [by apply pop_ok; [|lia]|mv].
Qed.

Lemma parse_while_ok : sgood (S k) (parse_while parse_statement).
Proof.
  intros b c ps saw Hc Ht Hk. unfold parse_while. cbv zeta. set (d := loop_depth c).
  apply s_expect; [done|lia|]. intros ps1 M1.
  apply (s_push b c _ d); [by apply at_start|]. intros c2 Hk2 H2 E2.
  apply (s_expr b c _ (d + 1)); [done|mv|]. intros c3 ps3 H3 G3 M3.
  apply s_expect; [mv|lia|]. intros ps4 M4.
  apply (s_jump b c _ (d + 1)); [done|]. intros jz c5 H5 G5 Hh.
  apply (s_stmt b c _ (d + 1)); [done|mv|mvlen|]. intros c6 ps6 saw6 H6 G6 M6.
  apply (s_emit b c c6 (d + 1)); [done|intros He; by apply emit_op_ok|]. intros c7 H7 G7.
  apply (s_emit b c c7 (d + 1)); [done|intros He; eapply sat_mono; [by apply (emit_u32_ok b)|by intros c' [? _]]|]. intros c8 H8 G8.
  apply (s_continues b c _ (d + 1)); [done|done|]. intros c9 H9 E9.
  apply (s_patch b c _ (d + 1)); [done|holds|]. intros c10 H10 G10.
  apply (s_breaks b c _ (d + 1)); [done|done|]. intros c11 H11 E11.
  apply stmt_done; [by apply pop_ok; [|lia]|mv].
Qed.

Lemma parse_do_while_ok : sgood k (parse_do_while parse_statement).
Proof.
  intros b c ps saw Hc Ht Hk. unfold parse_do_while. cbv zeta. set (d := loop_depth c).
  apply (s_push b c _ d); [by apply at_start|]. intros c2 Hk2 H2 E2.
  apply (s_stmt b c _ (d + 1)); [done|done|done|]. intros c3 ps3 saw3 H3 G3 M3.
  apply (s_continues b c _ (d + 1)); [done|done|]. intros c4 H4 E4.
  apply s_kw; [mv|by apply token_dec|]. intros ps5 M5. apply s_expect; [mv|lia|]. intros ps6 M6.
  apply (s_expr b c _ (d + 1)); [done|mv|]. intros c7 ps7 H7 G7 M7.
  apply s_expect; [mv|lia|]. intros ps8 M8. apply s_expect; [mv|lia|]. intros ps9 M9.
  apply (s_jump b c _ (d + 1)); [done|]. intros jz c10 H10 G10 Hh.
  apply (s_emit b c c10 (d + 1)); [done|intros He; by apply emit_op_ok|]. intros c11 H11 G11.
  apply (s_emit b c c11 (d + 1)); [done|intros He; eapply sat_mono; [by apply (emit_u32_ok b)|by intros c' [? _]]|]. intros c12 H12 G12.
  apply (s_patch b c _ (d + 1)); [done|holds|]. intros c13 H13 G13.
  apply (s_breaks b c _ (d + 1)); [done|done|]. intros c14 H14 E14.
  apply stmt_done; [by apply pop_ok; [|lia]|mv].
Qed.

Lemma parse_if_ok : sgood (S k) (parse_if parse_statement).
Proof.
  intros b c ps saw Hc Ht Hk. unfold parse_if, patch_here. set (d := loop_depth c).
  apply s_expect; [done|lia|]. intros ps1 M1.
  apply (s_expr b c _ d); [by apply at_start|mv|]. intros c2 ps2 H2 G2 M2.
  apply s_expect; [mv|lia|]. intros ps3 M3. apply (s_jump b c _ d); [done|]. intros ep c4 H4 G4 Hh.
  apply (s_stmt b c _ d); [done|mv|mvlen|]. intros c5 ps5 saw5 H5 G5 M5.
  apply s_skip; [mv|]. intros h t A6. destruct (match_kw_ok (h :: t) (lit "else") (proj1 A6)) as (m & u & -> & A7 & _); [by apply token_dec|].
  rewrite bind_Ret. destruct m.
  - apply (s_jump b c _ d); [done|]. intros p8 c8 H8 G8 Hh8.
    apply (s_patch b c _ d); [done|holds|]. intros c9 H9 G9.
    apply (s_stmt b c _ d); [done|mv|mvlen|]. intros c10 ps10 saw10 H10 G10 M10.
    apply (s_patch b c _ d); [done|holds|]. intros c11 H11 G11. apply stmt_done; [done|mv].
  - apply (s_patch b c _ d); [done|holds|]. intros c11 H11 G11. apply stmt_done; [done|mv].
Qed.
End StmtOk.

Lemma parse_puts_ok k : sgood k parse_puts.
Proof.
  intros b c ps saw Hc Ht Hk. unfold parse_puts. apply s_expect; [done|lia|]. intros ps1 M1.
  destruct (parse_c_string_ok ps1 (replicate 256 0) 256) as (r & ps2 & -> & A2 & Hr); [mv|done|]. rewrite bind_Ret.
  destruct r as [[text len]|]; [|apply sat_fail]. destruct Hr as [Hlt Hlen]. rewrite length_replicate in Hlt.
  unfold pbind at 1. rewrite bind_Ret. apply s_expect; [mv|lia|]. intros ps3 M3. apply s_expect; [mv|lia|]. intros ps4 M4.
  apply (s_emit b c c (loop_depth c)); [by apply at_start|intros He; apply emit_puts_ok; [done|lia|lia]|]. intros c5 H5 G5.
  apply stmt_done; [done|mv].
Qed.

Lemma parse_call_ok op k : sgood k (parse_call op).
Proof.
  intros b c ps saw Hc Ht Hk. unfold parse_call. apply s_expect; [done|lia|]. intros ps1 M1.
  apply (s_expr b c _ (loop_depth c)); [by apply at_start|mv|]. intros c2 ps2 H2 G2 M2.
  apply s_expect; [mv|lia|]. intros ps3 M3. apply s_expect; [mv|lia|]. intros ps4 M4.
  apply (s_emit b c c2 (loop_depth c)); [done|intros He; by apply emit_op_ok|]. intros c5 H5 G5. apply stmt_done; [done|mv].
Qed.

Lemma parse_leave_ok add k : (forall b c0, adds b c0 add) -> sgood k (parse_leave add).
Proof.
  intros Hadd b c ps saw Hc Ht Hk. unfold parse_leave, current_loop. pose proof (st_depth _ _ Hc).
  destruct (Z.leb_spec (loop_depth c) 0); [apply sat_fail|]. apply s_expect; [done|lia|]. intros ps1 M1.
  apply (s_jump b c _ (loop_depth c)); [by apply at_start|]. intros p c2 H2 G2 Hh.
  eapply sat_bind; [by apply (Hadd b c _ (loop_depth c)); [|lia|]|]. intros c3 H3. apply stmt_done; [done|mv].
Qed.

Lemma parse_return_ok k : sgood k parse_return.
Proof.
  intros b c ps saw Hc Ht Hk. unfold parse_return. apply (s_expr b c _ (loop_depth c)); [by apply at_start|done|]. intros c2 ps2 H2 G2 M2.
  apply s_expect; [mv|lia|]. intros ps3 M3.
  apply (s_emit b c c2 (loop_depth c)); [done|intros He; by apply emit_op_ok|]. intros c5 H5 G5. apply stmt_done; [done|mv].
Qed.

Lemma decl_stmt b c ps saw r : st_ok b c -> sat r (decl_post b c ps) ->
  sat ('(c, ps) ←? r; ok (c, ps, saw)) (stmt_post b c ps).
Proof.
  intros Hc Hr. eapply sat_bind; [exact Hr|]. intros [c1 ps1] (H1 & G1 & M1). apply stmt_done; [|done].
  eapply at_grow; [by apply at_start|done|done].
Qed.

Lemma sgood_le k k' f : (k <= k')%nat -> sgood k' f -> sgood k f.
Proof. intros Hk Hf b c ps saw Hc Ht Hl. apply Hf; [done|done|lia]. Qed.

Lemma dispatch_ok k kws : Forall (fun '(kw, f) => token (lit kw) /\ sgood k f) kws -> sgood (S k) (dispatch kws).
Proof.
  induction 1 as [|[kw f] kws [Hkw Hf] _ IH]; intros b c ps saw Hc Ht Hk; cbn [dispatch].
  - apply decl_stmt; [done|]. eapply sat_mono; [apply (parse_expr_until_ok b); [apply Hc|done|lia]|]. intros r. apply expr_decl.
  - destruct (match_kw_ok ps (lit kw) Ht Hkw) as (m & u & -> & Hu & Hlt & Heq). rewrite bind_Ret. destruct m.
    + eapply sat_mono; [apply (Hf b); [done|apply Hu|specialize (Hlt eq_refl); lia]|]. intros [[c' ps'] saw'] [H' M']. split; [done|mv].
    + rewrite (Heq eq_refl). by apply IH.
Qed.

Lemma keywords_ok sub k : sgood k sub -> Forall (fun '(kw, f) => token (lit kw) /\ sgood k f) (keywords sub).
Proof.
  intros Hs. assert (forall f : sparser, sgood (S k) f -> sgood k f) as Hle by (intros f; by apply sgood_le; lia).
  unfold keywords.
  repeat (apply Forall_cons_2; [split; [by apply token_dec|]|]); [..|by constructor].
  - intros b c ps saw Hc Ht Hk. apply decl_stmt; [done|]. apply parse_declaration_ok; [apply Hc|done|lia].
  - by apply Hle, parse_if_ok.
  - by apply parse_do_while_ok.
  - by apply Hle, parse_while_ok.
  - by apply Hle, parse_for_ok.
  - apply parse_puts_ok.
  - apply parse_call_ok.
  - apply parse_call_ok.
  - apply parse_call_ok.
  - apply parse_leave_ok, add_break_ok.
  - apply parse_leave_ok, add_continue_ok.
  - apply parse_return_ok.
Qed.

Lemma statement_body_ok sub e k : sgood k sub -> sgood (S k) (statement_body sub e).
Proof.
  intros Hs b c ps saw Hc Ht Hk. unfold statement_body. apply s_skip; [done|]. intros h t A1.
  destruct (before _ e); cbn [negb]; [|apply sat_fail]. rewrite peek_cons, bind_Ret. pose proof (adv_length _ _ A1) as Hl.
  destruct (Z.eqb_spec h 59) as [->|_].
  - rewrite ptr_add_1, bind_Ret. apply stmt_done; [by apply at_start|]. simpl in Hl. split; [|lia]. eapply adv_trans; [done|].
    apply adv_tail; [apply A1|lia].
  - assert (forall f, sgood (S k) f -> sat (f c (h :: t) saw) (stmt_post b c ps)) as Hgo.
    { intros f Hf. eapply sat_mono; [apply (Hf b); [done|apply A1|lia]|]. intros [[c' ps'] saw'] [H' M']. split; [done|mv]. }
    destruct (h =? 123); apply Hgo; [by apply parse_block_ok|by apply dispatch_ok, keywords_ok].
Qed.

Lemma statement_rec_ok e fuel k : (k < fuel)%nat -> sgood k (statement_rec e fuel).
Proof.
  revert k. induction fuel as [|fuel IH]; intros k Hk; [lia|]. intros b c ps saw Hc Ht Hl. cbn [statement_rec].
  destruct k as [|k]; [destruct ps; [by apply elem_of_nil in Ht|simpl in Hl; lia]|].
  apply (statement_body_ok _ e k); [|done|done|done]. apply IH. lia.
Qed.

Lemma parse_statement_ok e k : sgood k (parse_statement e).
Proof. intros b c ps saw Hc Ht Hl. apply (statement_rec_ok e _ (length ps)); [lia|done|done|done]. Qed.

(** *** The whole source *)

Definition end_post (c0 : cctx) (r : compile_end) : Prop :=
  match r with CEnd c _ _ _ => srun 8 c0 c | _ => True end.

Lemma source_loop_ok fuel e c p sa sr ib : st_ok 8 c -> terminated p -> (length p < fuel)%nat ->
  ret (source_loop fuel e c p sa sr ib) (end_post c).
Proof.
  revert c p sa sr ib. induction fuel as [|fuel IH]; intros c p sa sr ib Hc Ht Hf; [lia|]. cbn [source_loop]. cbv zeta.
  assert (forall sa sr ib, ret (Ret (CEnd c sa sr ib)) (end_post c)) as Hdone.
  { intros. eexists. split; [done|]. by apply srun_refl. }
  destruct (before p e); cbn [negb]; [|done].
  destruct p as [|h0 p0]; [by apply elem_of_nil in Ht|]. rewrite peek_cons, bind_Ret. destruct (h0 =? 0); [done|].
  destruct (skip_peek _ Ht) as (h & t & -> & A1). rewrite bind_Ret. pose proof (adv_length _ _ A1) as L1.
  destruct (skip_preprocessor_line_ok (h :: t) e (proj1 A1)) as (m & u & -> & A2 & Hlt & Heq). rewrite bind_Ret.
  destruct m; [apply IH; [done|apply A2|specialize (Hlt eq_refl); lia]|]. rewrite (Heq eq_refl). clear Hlt Heq A2 u.
  destruct (before _ e); cbn [negb]; [|done]. rewrite peek_cons, bind_Ret.
  destruct (Z.eqb_spec h 0) as [|Hh]; [done|].
  assert (forall sa sr ib, ret (p ← ptr_add (h :: t) 1; source_loop fuel e c p sa sr ib) (end_post c)) as Hskip.
  { intros. rewrite ptr_add_1, bind_Ret. apply IH; [done|by apply (terminated_cons_inv h), Hh; apply A1|simpl in *; lia]. }
  destruct ib; cbn [negb].
  - destruct (h =? 125); [apply Hskip|].
    destruct (parse_statement_ok e (length (h :: t)) 8 c (h :: t) sr Hc (proj1 A1) (Nat.le_refl _)) as ([[[c' p'] sr']|] & -> & HQ);
      rewrite bind_Ret; [|by exists CFail]. destruct HQ as [[Hr _] [A3 L3]].
    destruct (IH c' p' 1 sr' true) as (r & E & Hp); [apply Hr|apply A3|lia|]. exists r. split; [done|].
    destruct r; [|done|done]. by eapply srun_trans.
  - destruct (starts_decl_like_ok (h :: t) (proj1 A1)) as [b ->]. rewrite bind_Ret.
    assert (ret (if b : bool then skip_decl_or_header (h :: t) e else Ret None)
      (fun r => match r with None => True | Some (_, u) => adv (h :: t) u /\ (length u < length (h :: t))%nat end)) as (r & -> & Hr).
    { destruct b; [apply (skip_decl_or_header_ok _ e (proj1 A1))|by exists None]. }
    rewrite bind_Ret. destruct r as [[o u]|].
    + destruct Hr as [A3 L3]. apply IH; [done|apply A3|lia].
    + destruct (h =? 123); [apply Hskip|by exists CLeak].
Qed.

Lemma write_u32_head o p v k : 0 <= p -> p + 4 <= zlen o -> Z.of_nat k <= p ->
  exists o', write_u32 o p v = Ret o' /\ length o' = length o /\ take k o' = take k o.
Proof.
  intros Hp Hl Hk. unfold write_u32.
  rewrite aset_ok, bind_Ret by lia. rewrite aset_ok, bind_Ret by (rewrite length_insert; lia).
  rewrite aset_ok, bind_Ret by (rewrite !length_insert; lia). rewrite aset_ok by (rewrite !length_insert; lia).
  eexists. split; [done|]. split; [by rewrite !length_insert|]. by rewrite !take_insert_ge by lia.
Qed.

Lemma take_four (a b : list Z) : take 8 a = take 8 b -> take 4 a = take 4 b.
Proof. intros E. change 4%nat with (4 `min` 8)%nat. by rewrite <- !take_take, E. Qed.

Lemma finish_ok c sr : st_ok 8 c -> sat (finish c sr) (fun c' => length (out c') = length (out c) /\ cap c' = cap c
  /\ 8 <= pos c' <= cap c /\ take 4 (out c') = take 4 (out c)).
Proof.
  intros Hc. unfold finish.
  eapply (sat_bind _ _ (fun c' => srun 8 c c')).
  - destruct (sr =? 0); [|by apply sat_ok, srun_refl].
    eapply sat_bind; [by apply (emit_push_const_ok 8), Hc|]. intros c1 H1.
    eapply sat_mono; [by eapply (emit_op_ok 8), emitted_ok|]. intros c2 H2.
    apply st_emitted; [done|]. by eapply emitted_trans.
  - intros c1 [[[]] Hcap Hlen Hpos Hhead].
    cbn [out cap pos vars var] in *. destruct (write_u32_head (out c1) 4 (count c1) 4) as (o' & -> & Hl & Ht); [lia|lia|lia|]. rewrite bind_Ret. apply sat_ok.
    cbn [out cap pos set_out]. split_and!; [congruence|done|lia|lia|].
    rewrite Ht. by apply take_four.
Qed.

Lemma write_header_ok o : 8 <= zlen o ->
  exists o', write_header o = Ret o' /\ length o' = length o /\ take 4 o' = TCC_MAGIC.
Proof.
  intros Hl. unfold write_header. destruct o as [|a [|b [|c [|d o]]]]; simpl in Hl; try lia.
  destruct (write_u32_head (84 :: 67 :: 67 :: 48 :: o) 4 0 4) as (o' & E & Hlen & Ht); [lia|simpl; lia|lia|].
  exists o'. split; [|by rewrite Ht].
  rewrite !aset_ok, bind_Ret by (simpl; lia). rewrite aset_ok, bind_Ret by (simpl; lia).
  rewrite aset_ok, bind_Ret by (simpl; lia). rewrite aset_ok, bind_Ret by (simpl; lia). exact E.
Qed.

Lemma initial_ok o out_cap : 8 <= out_cap <= zlen o -> zlen o <= 1048576 -> st_ok 8 (initial_context o out_cap).
Proof.
  intros Hc Ho. split; cbn [out cap pos vars var loops loop_depth initial_context]; [|done|lia|].
  - split; cbn [out cap pos vars var loops loop_depth initial_context]; try lia; [done|].
    intros i v Hv. apply list_elem_of_lookup_2, elem_of_replicate in Hv as [-> _]. split; [done|lia].
  - apply Forall_replicate, loop_zero_ok.
Qed.

Lemma compile_source_ok src n o out_cap : terminated src -> 8 <= out_cap <= zlen o -> zlen o <= 1048576 ->
  ret (compile_source src n o out_cap) (fun '(r, res) => match res with
    | None => True
    | Some (o', len) => r <> CLeak /\ length o' = length o /\ 8 <= len <= out_cap /\ take 4 o' = TCC_MAGIC end).
Proof.
  intros Ht Hc Ho. unfold compile_source. destruct (write_header_ok o) as (o1 & -> & L1 & T1); [lia|]. rewrite bind_Ret.
  assert (st_ok 8 (initial_context o1 out_cap)) as Hst by (apply initial_ok; lia).
  destruct (source_loop_ok (S (length src)) (zlen src - n) _ src 0 0 false Hst Ht ltac:(lia)) as (r & -> & Hr). rewrite bind_Ret.
  destruct r as [c sa sr ib| |]; [|by eexists|by eexists]. destruct (ib || _); [by eexists|].
  destruct Hr as [Hs Hcap Hlen Hpos Hhead]. destruct (finish_ok c sr Hs) as (f & -> & Hf). rewrite bind_Ret.
  eexists. split; [done|]. destruct f as [f|]; [|done]. destruct Hf as (Hf1 & Hf2 & Hf3 & Hf4).
  cbn [initial_context out cap pos] in *. cbn [option_map]. rewrite Hcap in Hf3. split_and!; [done|congruence|lia|lia|].
  rewrite Hf4, <- T1. by apply take_four.
Qed.

Section CompileSafe.
Context {H : Type} `{AllocatorLaws H}.
Implicit Types (h : H).

Definition same_live h h' : Prop := forall q m, al_live h' q m <-> al_live h q m.
Definition keeps_live h h' : Prop := forall q m, al_live h q m -> al_live h' q m.

(** A block allocated for the run and given back after it. *)
Lemma alloc_free_same h p cap h1 h2 h3 :
  (forall n, ~ al_live h p n) -> (forall q n, al_live h1 q n <-> (q = p /\ n = cap) \/ al_live h q n) ->
  same_live h1 h2 -> (forall q m, al_live h3 q m <-> q <> p /\ al_live h2 q m) -> same_live h h3.
Proof.
  intros Hn L1 L2 L3 q m. rewrite L3, (L2 q m), L1. split; [naive_solver|]. intros Hq. split; [|by right].
  intros ->. by apply (Hn m).
Qed.

Lemma compile_buffer_run (src : list Z) (n : Z) (o : list Z) (out_cap : Z) h :
  al_wf h -> terminated src -> out_cap <= zlen o -> zlen o <= 1048576 ->
  exists res h', compile_buffer src n o out_cap h = Ret (res, h') /\ al_wf h' /\ keeps_live h h'
    /\ match res with
       | None => True
       | Some (o', len) => length o' = length o /\ 8 <= len <= out_cap /\ take 4 o' = TCC_MAGIC /\ same_live h h'
       end.
Proof.
  intros Hw Ht Hc Ho. unfold compile_buffer.
  destruct (Z.ltb_spec out_cap 8); [exists None, h; split; [done|]; split; [done|]; split; [by intros ? ?|done]|].
  destruct (al_alloc_ok SIZEOF_CTX 16 h Hw) as (p & h1 & E1 & W1 & R1); [by apply request_ok_small|].
  rewrite E1, bind_Ret. cbv iota beta.
  destruct R1 as [[-> L1]|(Hp & _ & N1 & cap1 & _ & L1)].
  { exists None, h1. split; [done|]. split; [done|]. split; [|done]. intros q m. apply L1. }
  destruct (Z.eqb_spec p 0); [done|].
  destruct (al_alloc_ok SIZEOF_LOOPS 16 h1 W1) as (q & h2 & E2 & W2 & R2); [by apply request_ok_small|].
  rewrite E2, bind_Ret. cbv iota beta.
  destruct R2 as [[-> L2]|(Hq & _ & N2 & cap2 & _ & L2)].
  { destruct (al_free_ok h2 p cap1 W2) as (h3 & E3 & W3 & L3); [apply L2, L1; by left|]. cbn [Z.eqb]. rewrite E3, bind_Ret.
    exists None, h3. split; [done|]. split; [done|]. split; [|done]. intros r m. apply (alloc_free_same h p cap1 h1 h2 h3 N1 L1 L2 L3). }
  destruct (Z.eqb_spec q 0); [done|].
  destruct (al_free_ok h2 q cap2 W2) as (h3 & E3 & W3 & L3); [apply L2; by left|].
  pose proof (alloc_free_same h1 q cap2 h2 h2 h3 N2 L2 (fun _ _ => iff_refl _) L3) as S3.
  destruct (al_free_ok h3 p cap1 W3) as (h4 & E4 & W4 & L4); [apply S3, L1; by left|].
  pose proof (alloc_free_same h p cap1 h1 h3 h4 N1 L1 S3 L4) as S4.
  destruct (compile_source_ok src n o out_cap Ht) as ([r res] & -> & Hr); [lia|done|]. rewrite bind_Ret. cbv iota beta.
  destruct r; rewrite ?E3, ?bind_Ret, ?E4, ?bind_Ret.
  1, 2: exists res, h4; split; [done|]; split; [done|]; split; [intros r m; apply S4|];
    by destruct res as [[o' len]|]; [destruct Hr as (_ & ? & ? & ?)|].
  exists None, h2. split; [done|]. split; [done|]. split; [|done]. intros r m Hl. apply L2. right. apply L1. by right.
Qed.

(** C21. compile_buffer returns on every NUL-terminated source, with the output
    buffer's bounds respected whatever the source holds: no access goes outside
    the source, the buffer, the variable, loop or patch tables, and no loop runs
    on for ever.  A program it yields starts with "TCC0", is at least a header
    long and fits the capacity given, and then both work areas are freed; on
    failure the client's blocks are kept. *)
Theorem compile_buffer_safe (src : list Z) (n : Z) (o : list Z) (out_cap : Z) h :
  al_wf h -> terminated src -> out_cap <= zlen o -> zlen o <= 1048576 ->
  exists res h', compile_buffer src n o out_cap h = Ret (res, h') /\ al_wf h' /\ keeps_live h h'
    /\ match res with
       | None => True
       | Some (o', len) => length o' = length o /\ 8 <= len <= out_cap /\ take 4 o' = TCC_MAGIC /\ same_live h h'
       end.
Proof. apply compile_buffer_run. Qed.
End CompileSafe.

(** *** Examples *)

Definition tcc_heap : heap := alloc_init 65536 262144 (mk_cpu 0).
Lemma tcc_heap_wf : al_wf tcc_heap.
Proof. exists 65536, [], []. by apply alloc_init_inv. Qed.

Definition loop_program : list Z := lit "int main(){ int x = 3; int i; for(i = 0; i < 5; i++){ x += i*2; } while(x > 20) x--; if((x) == 20) u_putc('o'); return x; }".

Lemma compile_buffer_safe_witness :
  exists res h', compile_buffer loop_program (zlen loop_program - 1) (replicate 400 0) 400 tcc_heap = Ret (res, h').
Proof.
  destruct (compile_buffer_safe loop_program (zlen loop_program - 1) (replicate 400 0) 400 tcc_heap) as (res & h' & E & _).
  - apply tcc_heap_wf.
  - unfold terminated, loop_program, lit. apply elem_of_app. right. by left.
  - vm_compute. discriminate.
  - vm_compute. discriminate.
  - exists res, h'. exact E.
Defined.

(** Compiles [src] into 400 bytes and runs at most 1000 rounds of it. *)
Definition run_source (src : list Z) : outcome (option (list vm_event)) :=
  '(_, res) ← compile_source src (zlen src - 1) (replicate 400 0) 400;
  match res with
  | None => Ret None
  | Some (o, n) =>
    let prog := take (Z.to_nat n) o in
    s ← vm_boot prog;
    match s with Some s => vm_run 1000 prog s | None => Ret None end
  end.

Lemma loop_program_runs : run_source loop_program = Ret (Some [EvPutc 111]).
Proof. vm_compute. reflexivity. Qed.

(** A comparison whose left side is a bare name does not compile: [parse_assign_expr]
    takes the first character of [==] for an assignment. *)
Definition equality_program : list Z := lit "int main(){ int x = 3; if(x == 3) return 1; return x; }".
Lemma equality_of_name_rejected :
  compile_source equality_program (zlen equality_program - 1) (replicate 100 0) 100 = Ret (CFail, None).
Proof. vm_compute. reflexivity. Qed.

(** A name declared in the init clause of a for is unknown in its step
    expression: the step's context is copied before the clause is parsed. *)
Definition for_declared_program : list Z := lit "int main(){ for(int i = 0; i < 5; i++) u_putc('a'); return 0; }".
Lemma for_declared_name_rejected :
  compile_source for_declared_program (zlen for_declared_program - 1) (replicate 100 0) 100 = Ret (CFail, None).
Proof. vm_compute. reflexivity. Qed.

(** Text outside a body leaves the two work areas allocated. *)
Lemma stray_text_leaks :
  exists h', compile_buffer (lit "x") 1 (replicate 100 0) 100 tcc_heap = Ret (None, h')
    /\ alloc_used h' = 3216.
Proof. eexists. split; [vm_compute; reflexivity|]. vm_compute. reflexivity. Qed.

(** The [while] of a do-while must follow its body without a blank. *)
Definition do_program (blank : string) : list Z :=
  lit ("int main(){ int i = 0; do { i++; }" ++ blank ++ "while(i < 3); return 0; }").
Lemma spaced_do_while_rejected :
  compile_source (do_program " ") (zlen (do_program " ") - 1) (replicate 100 0) 100 = Ret (CFail, None)
  /\ run_source (do_program "") = Ret (Some []).
Proof. split; vm_compute; reflexivity. Qed.
