(* ===== verification/Ramfs.v ===== *)
(** ramfs.c: the flat table of 32 files.

    A file's bytes are a 4 KB heap block.  [junk] is what a freshly allocated
    block holds, all of which is cleared at once.  [abs] is the table a client
    sees: for each slot in use its name and contents. *)
From S2P Require Import Prelude Spinlock Allocator Heap CString Blocks.

Definition RAMFS_MAX_FILES : Z := 32.
Definition RAMFS_MAX_NAME : Z := 32.
Definition RAMFS_MAX_SIZE : Z := 4096.

Record ramfs_file_t := mk_rfile { r_name : list Z; r_data : Z; r_size : Z; r_used : Z }.
Record ramfs (H : Type) := mk_ramfs { files : list ramfs_file_t; rblocks : bheap H }.
Arguments mk_ramfs {H}.
Arguments files {H}.
Arguments rblocks {H}.

Definition rfile_zero : ramfs_file_t := mk_rfile (replicate 32 0) 0 0 0.

Section Ramfs.
Context {H : Type} `{Allocator H}.
Implicit Types (r : ramfs H) (name buf junk : list Z).

Definition ramfs_init r : ramfs H := mk_ramfs (replicate 32 rfile_zero) (rblocks r).

Definition ramfs_find name r : outcome (option Z) :=
  find_range 0 RAMFS_MAX_FILES (fun i =>
    f ← aget (files r) i;
    if negb (r_used f =? 0) then e ← str_eq (r_name f) name; Ret (negb (e =? 0)) else Ret false).

(** The first slot that is not used. *)
Definition free_slot r : outcome (option Z) :=
  find_range 0 RAMFS_MAX_FILES (fun i => f ← aget (files r) i; Ret (r_used f =? 0)).

(** The body of the loop at the free slot [i]. *)
Definition fill_slot junk name (i : Z) r : outcome (Z * ramfs H) :=
  f ← aget (files r) i;
  nm ← copy_name (r_name f) name RAMFS_MAX_NAME;
  '(p, b) ← blk_alloc junk RAMFS_MAX_SIZE (rblocks r);
  if p =? 0 then
    l ← aset (files r) i (mk_rfile nm p 0 0);
    Ret (-1, mk_ramfs l b)
  else
    b ← blk_upd p (fun d => memset d 0 RAMFS_MAX_SIZE) b;
    l ← aset (files r) i (mk_rfile nm p 0 1);
    Ret (i, mk_ramfs l b).

Definition ramfs_create junk name r : outcome (Z * ramfs H) :=
  existing ← ramfs_find name r;
  match existing with
  | Some i => Ret (i, r)
  | None =>
    slot ← free_slot r;
    match slot with
    | None => Ret (-1, r)
    | Some i => fill_slot junk name i r
    end
  end.

(** [fd < 0 || fd >= RAMFS_MAX_FILES || !files[fd].used] *)
Definition open_file (fd : Z) r : outcome (option ramfs_file_t) :=
  if (fd <? 0) || (RAMFS_MAX_FILES <=? fd) then Ret None
  else f ← aget (files r) fd; Ret (if r_used f =? 0 then None else Some f).

Definition ramfs_write (fd : Z) buf (len : Z) r : outcome (Z * ramfs H) :=
  f ← open_file fd r;
  match f with
  | None => Ret (-1, r)
  | Some f =>
    let len := if RAMFS_MAX_SIZE <? len then RAMFS_MAX_SIZE else len in
    b ← blk_upd (r_data f) (fun d => memcpy d buf (u64 len)) (rblocks r);
    l ← aset (files r) fd (mk_rfile (r_name f) (r_data f) len (r_used f));
    Ret (len, mk_ramfs l b)
  end.

Definition ramfs_read (fd : Z) buf (len : Z) r : outcome (Z * list Z) :=
  f ← open_file fd r;
  match f with
  | None => Ret (-1, buf)
  | Some f =>
    let len := if r_size f <? len then r_size f else len in
    bs ← blk_get (r_data f) (rblocks r);
    buf ← memcpy buf bs (u64 len);
    Ret (len, buf)
  end.

Definition ramfs_size (fd : Z) r : outcome Z :=
  f ← open_file fd r; Ret (match f with None => -1 | Some f => r_size f end).
Definition ramfs_name (fd : Z) r : outcome (list Z) :=
  f ← open_file fd r; Ret (match f with None => [0] | Some f => r_name f end).
Definition ramfs_count r : outcome Z :=
  for_range 0 RAMFS_MAX_FILES (fun i count => f ← aget (files r) i; Ret (if r_used f =? 0 then count else count + 1)) 0.
End Ramfs.

(** ** The table a client sees *)

Section RamfsSpec.
Context {H : Type} `{AllocatorLaws H}.
Implicit Types (r : ramfs H) (name buf junk : list Z) (rest : list (Z * Z)).

Definition contents (b : bheap H) (f : ramfs_file_t) : list Z :=
  take (Z.to_nat (r_size f)) (default [] (blocks b !! r_data f)).
Definition view (b : bheap H) (f : ramfs_file_t) : option (list Z * list Z) :=
  if r_used f =? 0 then None else Some (cstr (r_name f), contents b f).
Definition abs r : list (option (list Z * list Z)) := view (rblocks r) <$> files r.

Definition is_used (f : ramfs_file_t) : Prop := r_used f <> 0.
#[global] Instance is_used_dec f : Decision (is_used f).
Proof. unfold is_used. apply _. Defined.
Definition used_blocks (fs : list ramfs_file_t) : list (Z * Z) :=
  (fun f => (r_data f, RAMFS_MAX_SIZE)) <$> filter is_used fs.

Definition file_ok (f : ramfs_file_t) : Prop :=
  length (r_name f) = 32%nat /\ (is_used f -> terminated (r_name f) /\ 0 <= r_size f <= RAMFS_MAX_SIZE).
Record ramfs_inv r rest : Prop := {
  ri_len : length (files r) = 32%nat;
  ri_files : Forall file_ok (files r);
  ri_owns : bowns (rblocks r) (used_blocks (files r) ++ rest)
}.

(** The slot that holds [name], and the first free one. *)
Definition holds_name (n : list Z) (o : option (list Z * list Z)) : Prop := exists c, o = Some (n, c).
#[global] Instance holds_name_dec n o : Decision (holds_name n o).
Proof.
  destruct o as [[m c]|]; [destruct (decide (m = n)) as [->|Hn]|]; [left; by exists c|right..]; by intros [? [=]].
Defined.
Definition first_such (P : option (list Z * list Z) -> Prop) `{!forall o, Decision (P o)} (a : list (option (list Z * list Z))) : option Z :=
  Z.of_nat ∘ fst <$> list_find P a.
Definition spec_find (n : list Z) a : option Z := first_such (holds_name n) a.

Lemma abs_lookup r i f : files r !! i = Some f -> abs r !! i = Some (view (rblocks r) f).
Proof. intros Hf. unfold abs. by rewrite list_lookup_fmap, Hf. Qed.

(** A counted search that agrees with a test on the entries is [list_find]. *)
Lemma find_range_first r (p : Z -> outcome bool) (P : option (list Z * list Z) -> Prop) `{!forall o, Decision (P o)} :
  length (files r) = 32%nat ->
  (forall i f, files r !! i = Some f -> p (Z.of_nat i) = Ret (bool_decide (P (view (rblocks r) f)))) ->
  find_range 0 RAMFS_MAX_FILES p = Ret (first_such P (abs r)).
Proof.
  intros Hl Hp. set (g := fun i => match abs r !! Z.to_nat i with Some o => bool_decide (P o) | None => false end).
  assert (forall i, 0 <= i < RAMFS_MAX_FILES -> p i = Ret (g i)) as Hpg.
  { intros i Hi. unfold RAMFS_MAX_FILES in Hi. destruct (lookup_lt_is_Some_2 (files r) (Z.to_nat i)) as [f Hf]; [lia|].
    unfold g. rewrite (abs_lookup _ _ _ Hf), <- (Hp _ _ Hf). f_equal. lia. }
  destruct (find_range_Some g p 0 RAMFS_MAX_FILES Hpg) as [(i & -> & Hi & Hg & Hb)|[-> Hb]]; unfold first_such; f_equal.
  - unfold g in Hg. destruct (abs r !! Z.to_nat i) as [o|] eqn:Eo; [|done]. apply bool_decide_eq_true in Hg.
    assert (list_find P (abs r) = Some (Z.to_nat i, o)) as ->; [|simpl; f_equal; lia].
    apply list_find_Some. split; [done|]. split; [done|]. intros j y Hj Hlt.
    specialize (Hb (Z.of_nat j) ltac:(lia)). unfold g in Hb. rewrite Nat2Z.id, Hj in Hb. by apply bool_decide_eq_false in Hb.
  - assert (list_find P (abs r) = None) as ->; [|done]. apply list_find_None, Forall_lookup. intros j o Hj.
    assert (j < 32)%nat. { apply lookup_lt_Some in Hj. unfold abs in Hj. rewrite length_fmap in Hj. lia. }
    specialize (Hb (Z.of_nat j) ltac:(unfold RAMFS_MAX_FILES; lia)). unfold g in Hb. rewrite Nat2Z.id, Hj in Hb. by apply bool_decide_eq_false in Hb.
Qed.

Lemma aget_file r (i : nat) f : files r !! i = Some f -> aget (files r) (Z.of_nat i) = Ret f.
Proof. intros Hf. apply aget_Ret. split; [lia|]. by rewrite Nat2Z.id. Qed.

Lemma ramfs_find_spec r rest name : ramfs_inv r rest -> terminated name ->
  ramfs_find name r = Ret (spec_find (cstr name) (abs r)).
Proof.
  intros [Hl Hf _] Hn. apply find_range_first; [done|]. intros i f Hi. rewrite (aget_file _ _ _ Hi), bind_Ret. unfold view.
  rewrite Forall_lookup in Hf. destruct (Hf _ _ Hi) as [_ Hok].
  destruct (Z.eqb_spec (r_used f) 0) as [|Hu]; cbn [negb].
  - done.
  - destruct (Hok Hu) as [Ht _]. rewrite str_eq_spec, bind_Ret by done. f_equal. unfold holds_name.
    destruct (bool_decide_reflect (cstr (r_name f) = cstr name)) as [->|Hne]; simpl; symmetry.
    + apply bool_decide_true. eauto.
    + apply bool_decide_false. by intros [? [= ?]].
Qed.

Lemma free_slot_spec r rest : ramfs_inv r rest -> free_slot r = Ret (first_such (eq None) (abs r)).
Proof.
  intros [Hl Hf _]. apply find_range_first; [done|]. intros i f Hi. rewrite (aget_file _ _ _ Hi), bind_Ret. f_equal. unfold view.
  by destruct (Z.eqb_spec (r_used f) 0).
Qed.

(** *** Updating one slot *)

Lemma used_insert fs i g : (i < length fs)%nat ->
  used_blocks (<[i := g]> fs) ≡ₚ (if decide (is_used g) then [(r_data g, RAMFS_MAX_SIZE)] else []) ++ used_blocks (take i fs ++ drop (S i) fs).
Proof.
  intros Hi. rewrite insert_take_drop by done. unfold used_blocks. rewrite !filter_app, !fmap_app, filter_cons.
  destruct (decide (is_used g)); simpl; [|done]. symmetry. apply Permutation_middle.
Qed.

(** The blocks besides that of the slot [i]. *)
Definition other_blocks (fs : list ramfs_file_t) (i : nat) : list (Z * Z) := used_blocks (take i fs ++ drop (S i) fs).

Lemma used_at fs i f : fs !! i = Some f ->
  used_blocks fs ≡ₚ (if decide (is_used f) then [(r_data f, RAMFS_MAX_SIZE)] else []) ++ other_blocks fs i.
Proof.
  intros Hf. rewrite <- (list_insert_id fs i f Hf) at 1. apply used_insert. by eapply lookup_lt_Some.
Qed.

Lemma other_in fs i j g : fs !! j = Some g -> is_used g -> i <> j -> (r_data g, RAMFS_MAX_SIZE) ∈ other_blocks fs i.
Proof.
  intros Hg Hu Hij. apply list_elem_of_fmap. exists g. split; [done|]. apply list_elem_of_filter. split; [done|].
  apply elem_of_app. destruct (decide (j < i)%nat).
  - left. apply list_elem_of_lookup. exists j. rewrite lookup_take_lt; [done|lia].
  - right. apply list_elem_of_lookup. exists (j - S i)%nat. rewrite lookup_drop. rewrite <- Hg. f_equal. lia.
Qed.

Lemma owned_apart b p n l q m : bowns b ((p, n) :: l) -> (q, m) ∈ l -> q <> p.
Proof.
  intros [(_ & Hnd & _) _] Hq. cbn [fmap list_fmap fst] in Hnd. apply NoDup_cons in Hnd as [Hp _]. intros ->. apply Hp.
  apply list_elem_of_fmap. by exists (p, m).
Qed.

(** Files whose block did not change look the same. *)
Lemma abs_insert b b' fs i g p :
  (i < length fs)%nat ->
  (forall q bs, q <> p -> blocks b' !! q = bs <-> blocks b !! q = bs) ->
  (forall j f, fs !! j = Some f -> is_used f -> i <> j -> r_data f <> p) ->
  view b' <$> <[i := g]> fs = <[i := view b' g]> (view b <$> fs).
Proof.
  intros Hi Hb Hd. rewrite list_fmap_insert. apply list_eq. intros j. destruct (decide (i = j)) as [->|Hij].
  - rewrite !list_lookup_insert_eq; [done|by rewrite length_fmap..].
  - rewrite !list_lookup_insert_ne, !list_lookup_fmap by done. destruct (fs !! j) as [f|] eqn:Ef; [|done]. simpl. f_equal.
    unfold view. destruct (Z.eqb_spec (r_used f) 0) as [|Hu]; [done|]. f_equal. f_equal. unfold contents. f_equal. f_equal.
    apply Hb; [|done]. by eapply Hd.
Qed.

Lemma open_file_spec fd r rest : ramfs_inv r rest ->
  (exists f, open_file fd r = Ret (Some f) /\ 0 <= fd < 32 /\ files r !! Z.to_nat fd = Some f /\ is_used f)
  \/ (open_file fd r = Ret None /\ (abs r !! Z.to_nat fd = Some None \/ ~ 0 <= fd < 32)).
Proof.
  intros [Hl _ _]. unfold open_file, RAMFS_MAX_FILES. destruct (Z.ltb_spec fd 0); [right; split; [done|right; lia]|].
  destruct (Z.leb_spec 32 fd); [right; split; [done|right; lia]|]. cbn [orb].
  destruct (lookup_lt_is_Some_2 (files r) (Z.to_nat fd)) as [f Hf]; [lia|].
  assert (aget (files r) fd = Ret f) as -> by (by apply aget_Ret). rewrite bind_Ret. destruct (Z.eqb_spec (r_used f) 0) as [Hu|Hu].
  - right. split; [done|]. left. rewrite (abs_lookup _ _ _ Hf). unfold view. by rewrite Hu.
  - left. exists f. split_and!; [done|lia|lia|done|done].
Qed.

(** [fd] names the file called [n] that holds [c]. *)
Definition holds_file r (fd : Z) (n c : list Z) : Prop := 0 <= fd /\ abs r !! Z.to_nat fd = Some (Some (n, c)).

Lemma holds_open r rest fd n c : ramfs_inv r rest -> holds_file r fd n c ->
  exists f, open_file fd r = Ret (Some f) /\ 0 <= fd < 32 /\ files r !! Z.to_nat fd = Some f /\ is_used f
    /\ n = cstr (r_name f) /\ c = contents (rblocks r) f.
Proof.
  intros Hr [Hfd Ha]. destruct (open_file_spec fd r rest Hr) as [(f & E & Hlt & Hf & Hu)|[_ [Hn|Hn]]].
  - exists f. split_and!; [done|lia|lia|done|done| |]; rewrite (abs_lookup _ _ _ Hf) in Ha; unfold view in Ha;
      (destruct (Z.eqb_spec (r_used f) 0); [done|by injection Ha as <- <-]).
  - congruence.
  - exfalso. apply Hn. split; [done|]. apply lookup_lt_Some in Ha. unfold abs in Ha. rewrite length_fmap in Ha. destruct Hr. lia.
Qed.

Lemma ramfs_write_spec r rest fd n c buf len : ramfs_inv r rest -> holds_file r fd n c ->
  0 <= len -> Z.min len RAMFS_MAX_SIZE <= zlen buf ->
  exists r', ramfs_write fd buf len r = Ret (Z.min len RAMFS_MAX_SIZE, r') /\ ramfs_inv r' rest
    /\ abs r' = <[Z.to_nat fd := Some (n, take (Z.to_nat (Z.min len RAMFS_MAX_SIZE)) buf)]> (abs r).
Proof.
  intros Hr Hh Hl Hb. destruct (holds_open r rest fd n c Hr Hh) as (f & E & Hfd & Hf & Hu & -> & _). destruct Hr as [Hlen Hok Hown].
  unfold ramfs_write. rewrite E, bind_Ret. cbv iota beta. set (l := Z.min len RAMFS_MAX_SIZE) in *.
  replace (if RAMFS_MAX_SIZE <? len then RAMFS_MAX_SIZE else len) with l by (unfold l; destruct (Z.ltb_spec RAMFS_MAX_SIZE len); lia).
  assert (0 <= l <= 4096) as Hl4 by (unfold l, RAMFS_MAX_SIZE; lia). rewrite (u64_small l) by lia.
  pose proof (used_at _ _ _ Hf) as Hp. rewrite decide_True in Hp by done. cbn [app] in Hp.
  rewrite Hp in Hown. cbn [app] in Hown.
  destruct (bowns_upd (rblocks r) _ (r_data f) RAMFS_MAX_SIZE (fun d => memcpy d buf l) Hown) as (bs & bs' & b' & Eg & Hbs & Em & -> & Hblk & Hown').
  { by left. }
  { done. }
  { intros bs Hbs. unfold RAMFS_MAX_SIZE in Hbs. rewrite memcpy_spec by lia. eexists. split; [done|]. rewrite length_app, length_take, length_drop. unfold RAMFS_MAX_SIZE. lia. }
  rewrite bind_Ret, aset_ok, bind_Ret by lia. eexists. split; [done|]. set (f' := mk_rfile (r_name f) (r_data f) l (r_used f)).
  assert (is_used f') as Hu' by done.
  split; [split; cbn [files rblocks]|].
  - by rewrite length_insert.
  - apply Forall_insert; [done|]. rewrite Forall_lookup in Hok. destruct (Hok _ _ Hf) as [? Ho]. split; [done|]. intros _.
    split; [by apply Ho|]. unfold RAMFS_MAX_SIZE. cbn [r_size f']. lia.
  - rewrite used_insert, decide_True by (done || lia). cbn [app]. exact Hown'.
  - unfold abs. cbn [files rblocks]. rewrite (abs_insert (rblocks r) b' _ _ _ (r_data f)); [|lia| |].
    + f_equal. unfold view. destruct (Z.eqb_spec (r_used f') 0); [done|]. f_equal. f_equal. unfold contents. rewrite Hblk. cbn [r_data r_size f'].
      rewrite lookup_insert_eq. cbn [default from_option id]. unfold RAMFS_MAX_SIZE in Hbs. rewrite memcpy_spec in Em by lia. apply Ret_inj in Em as <-.
      apply take_app_length'. rewrite length_take. lia.
    + intros q x Hq. rewrite Hblk. by rewrite lookup_insert_ne.
    + intros j g Hg Hug Hij. eapply owned_apart; [exact Hown|]. apply elem_of_app. left. by eapply other_in.
Qed.

Lemma ramfs_read_spec r rest fd n c buf len : ramfs_inv r rest -> holds_file r fd n c -> 0 <= len -> Z.min len (zlen c) <= zlen buf ->
  let k := Z.min len (zlen c) in
  ramfs_read fd buf len r = Ret (k, take (Z.to_nat k) c ++ drop (Z.to_nat k) buf).
Proof.
  intros Hr Hh Hl Hb. cbv zeta. destruct (holds_open r rest fd n c Hr Hh) as (f & E & Hfd & Hf & Hu & -> & ->). destruct Hr as [Hlen Hok Hown].
  unfold ramfs_read. rewrite E, bind_Ret. cbv iota beta. pose proof (used_at _ _ _ Hf) as Hp. rewrite decide_True in Hp by done. cbn [app] in Hp.
  rewrite Hp in Hown. cbn [app] in Hown. destruct (bowns_get _ _ (r_data f) RAMFS_MAX_SIZE Hown) as (bs & Eb & Hbs); [by left|done|].
  rewrite Forall_lookup in Hok. destruct (Hok _ _ Hf) as [_ [_ Hs]]; [done|]. unfold RAMFS_MAX_SIZE in *.
  assert (contents (rblocks r) f = take (Z.to_nat (r_size f)) bs) as Hc.
  { unfold contents. unfold blk_get in Eb. destruct (blocks (rblocks r) !! r_data f); [|done]. by apply Ret_inj in Eb as ->. }
  rewrite Hc in *. assert (zlen (take (Z.to_nat (r_size f)) bs) = r_size f) as Hz by (rewrite length_take; lia).
  rewrite Hz in *. set (k := Z.min len (r_size f)) in *.
  replace (if r_size f <? len then r_size f else len) with k by (subst k; destruct (Z.ltb_spec (r_size f) len); lia).
  assert (0 <= k <= 4096 /\ k <= r_size f) as Hk by lia. rewrite Eb, bind_Ret, (u64_small k), memcpy_spec, bind_Ret by lia.
  do 3 f_equal. rewrite take_take. f_equal. lia.
Qed.

Lemma ramfs_create_spec junk name r rest : ramfs_inv r rest -> terminated name ->
  match spec_find (cstr name) (abs r), first_such (eq None) (abs r) with
  | Some i, _ => ramfs_create junk name r = Ret (i, r)
  | None, None => ramfs_create junk name r = Ret (-1, r)
  | None, Some i => exists p r', ramfs_create junk name r = Ret (p, r') /\ ramfs_inv r' rest
      /\ ((p = -1 /\ abs r' = abs r) \/ (p = i /\ abs r' = <[Z.to_nat i := Some (take 31 (cstr name), [])]> (abs r)))
  end.
Proof.
  intros Hr Hn. unfold ramfs_create. rewrite (ramfs_find_spec r rest name Hr Hn), bind_Ret.
  destruct (spec_find _ _) as [i|]; [done|]. rewrite (free_slot_spec r rest Hr), bind_Ret.
  destruct (first_such _ _) as [i|] eqn:Es; [|done].
  unfold first_such in Es. destruct (list_find _ _) as [[k o]|] eqn:Ef in Es; [|done]. injection Es as <-. cbn [compose fst]. rewrite Nat2Z.id.
  apply list_find_Some in Ef as (Ek & <- & _). unfold abs in Ek. rewrite list_lookup_fmap in Ek.
  destruct (files r !! k) as [f|] eqn:Hf; [|done]. injection Ek as Ev.
  assert (~ is_used f) as Hu by (intros Hx; unfold view in Ev; by rewrite (proj2 (Z.eqb_neq _ _) Hx) in Ev).
  pose proof (lookup_lt_Some _ _ _ Hf) as Hk. destruct Hr as [Hlen Hok Hown].
  unfold fill_slot. rewrite (aget_file _ _ _ Hf), bind_Ret. pose proof (Forall_lookup_1 _ _ _ _ Hok Hf) as [Hnl _].
  destruct (copy_name_spec (r_name f) name RAMFS_MAX_NAME Hn) as (nm & -> & Hnml & Hnt & Hnc); [unfold RAMFS_MAX_NAME; lia|]. rewrite bind_Ret.
  destruct (bowns_alloc (rblocks r) _ junk RAMFS_MAX_SIZE Hown) as (p & b & -> & Hp); [unfold RAMFS_MAX_SIZE; lia|].
  rewrite bind_Ret. cbv iota beta. pose proof (used_at _ _ _ Hf) as Hperm. rewrite decide_False in Hperm by done. cbn [app] in Hperm.
  destruct Hp as [(-> & Hb & Ho)|(Hp & Hpl & Hb & Ho)].
  - cbn [Z.eqb]. rewrite aset_ok, bind_Ret by lia. rewrite Nat2Z.id. eexists _, _. split; [done|]. set (f' := mk_rfile nm 0 0 0).
    assert (~ is_used f') as Hu' by (intros Hx; by apply Hx). split; [split; cbn [files rblocks]|left; split; [done|]].
    + by rewrite length_insert.
    + apply Forall_insert; [done|]. split; [cbn; lia|done].
    + rewrite used_insert, decide_False, <- Hperm by done. exact Ho.
    + unfold abs. cbn [files rblocks]. rewrite (abs_insert (rblocks r) b _ _ _ 0); [|done|by rewrite Hb|].
      * apply list_insert_id. rewrite list_lookup_fmap, Hf. simpl. by rewrite Ev.
      * intros j g Hg Hug Hij. intros E0. eapply (bowns_nonnull b _ (r_data g) RAMFS_MAX_SIZE Ho); [|done].
        apply elem_of_app. left. rewrite Hperm. by eapply other_in.
  - destruct (Z.eqb_spec p 0); [done|].
    destruct (bowns_upd b _ p RAMFS_MAX_SIZE (fun d => memset d 0 RAMFS_MAX_SIZE) Ho) as (bs & bs' & b' & Eg & Hbs & Em & -> & Hblk & Ho').
    { by left. }
    { done. }
    { intros bs Hbs. rewrite memset_spec by (unfold RAMFS_MAX_SIZE in *; lia). eexists. split; [done|].
      rewrite length_app, length_replicate, length_drop. unfold RAMFS_MAX_SIZE in *. lia. }
    rewrite bind_Ret, aset_ok, bind_Ret by lia. rewrite Nat2Z.id. eexists _, _. split; [done|]. set (f' := mk_rfile nm p 0 1).
    assert (is_used f') as Hu' by done. split; [split; cbn [files rblocks]|right; split; [done|]].
    + by rewrite length_insert.
    + apply Forall_insert; [done|]. split; [cbn; lia|]. intros _. split; [done|cbn; unfold RAMFS_MAX_SIZE; lia].
    + rewrite used_insert, decide_True, <- Hperm by done. exact Ho'.
    + unfold abs. cbn [files rblocks]. rewrite (abs_insert (rblocks r) b' _ _ _ p); [|done| |].
      * f_equal. unfold view. destruct (Z.eqb_spec (r_used f') 0); [done|]. change 31%nat with (Z.to_nat (RAMFS_MAX_NAME - 1)). by rewrite <- Hnc.
      * intros q x Hq. by rewrite Hblk, Hb, !lookup_insert_ne.
      * intros j g Hg Hug Hij Hgp. apply Hpl. apply list_elem_of_fmap. exists (r_data g, RAMFS_MAX_SIZE). split; [done|].
        apply elem_of_app. left. rewrite Hperm. by eapply other_in.
Qed.

Lemma ramfs_count_spec r rest : ramfs_inv r rest -> ramfs_count r = Ret (zlen (omap id (abs r))).
Proof.
  intros [Hl Hf _]. unfold ramfs_count.
  destruct (for_range_ind (fun i count => count = zlen (omap id (take (Z.to_nat i) (abs r)))) 0 RAMFS_MAX_FILES
    (fun i count => f ← aget (files r) i; Ret (if r_used f =? 0 then count else count + 1)) 0) as (s & -> & ->); [done|done| |].
  - intros i c Hi ->. unfold RAMFS_MAX_FILES in Hi. destruct (lookup_lt_is_Some_2 (files r) (Z.to_nat i)) as [f Ef]; [lia|].
    assert (aget (files r) i = Ret f) as -> by (apply aget_Ret; split; [lia|done]). rewrite bind_Ret. eexists. split; [done|].
    replace (Z.to_nat (i + 1)) with (S (Z.to_nat i)) by lia. rewrite (take_S_r _ _ _ (abs_lookup _ _ _ Ef)), omap_app.
    unfold view. destruct (r_used f =? 0); cbn [omap list_omap id]; rewrite length_app; simpl; lia.
  - rewrite take_ge; [done|]. unfold abs. rewrite length_fmap. unfold RAMFS_MAX_FILES. lia.
Qed.

End RamfsSpec.

(** *** Examples *)

Definition ramfs_start : ramfs heap := ramfs_init (mk_ramfs [] (mk_bheap (alloc_init 65536 262144 (mk_cpu 0)) ∅)).

Lemma ramfs_start_inv : ramfs_inv ramfs_start [].
Proof.
  split; [done|by repeat (apply Forall_cons_2; [split; [done|intros Hu; by destruct Hu]|])|].
  split; [|constructor]. split; [|by split; constructor]. exists 65536, [], []. by apply alloc_init_inv.
Qed.


(** Two creations under one name of more than 31 characters make two files: the
    search compares the whole name with the stored, shortened one. *)
Lemma long_name_created_twice :
  ('(i, r) ← ramfs_create [] (replicate 40 97 ++ [0]) ramfs_start; '(j, _) ← ramfs_create [] (replicate 40 97 ++ [0]) r; Ret (i, j)) = Ret (0, 1).
Proof. vm_compute. reflexivity. Qed.

(** A negative length passes the limit test and reaches memcpy as a huge one. *)
Lemma negative_length_undef :
  ('(i, r) ← ramfs_create [] (lit "a") ramfs_start; ramfs_write i [1; 2] (-1) r) = Undef.
Proof. vm_compute. reflexivity. Qed.
