(* ===== verification/Uart.v ===== *)
(** uart.c: the serial console.

    [tx] is what has been written to the data register and [hooked] what the
    output hook has been called with, oldest first; [fifo] is what waits in the
    device's receive FIFO and [regs] the other registers by their name.  The
    wait for room in the transmit FIFO ends by itself and is not modelled.
    [uart_gets] reads from [ins], the characters that will arrive: [None] says
    that it is still waiting after the last of them. *)
From S2P Require Import Prelude CString Ring.

Definition UART_BUF_SIZE : Z := 64.

Record uart := mk_uart {
  tx : list Z;
  hook : Z;                     (* uart_output_hook: 0 or the function's address *)
  hooked : list Z;
  fifo : list Z;
  regs : gmap string Z;
  uart_rx_buf : list Z;
  uart_rx_head : Z;
  uart_rx_tail : Z
}.

Definition set_regs (m : gmap string Z) (u : uart) : uart :=
  mk_uart (tx u) (hook u) (hooked u) (fifo u) m (uart_rx_buf u) (uart_rx_head u) (uart_rx_tail u).
Definition set_rx (f : list Z) (b : list Z) (h t : Z) (u : uart) : uart :=
  mk_uart (tx u) (hook u) (hooked u) f (regs u) b h t.
Definition write_reg (r : string) (v : Z) (u : uart) : uart := set_regs (<[r := v]> (regs u)) u.
Definition read_reg (r : string) (u : uart) : Z := default 0 (regs u !! r).

Definition uart_set_output_hook (fn : Z) (u : uart) : uart :=
  mk_uart (tx u) fn (hooked u) (fifo u) (regs u) (uart_rx_buf u) (uart_rx_head u) (uart_rx_tail u).
Definition uart_get_output_hook (u : uart) : Z := hook u.

(** [virt] is PLATFORM_VIRT; IBRD and FBRD are the board's divisors. *)
Definition uart_init (virt : bool) (ibrd fbrd : Z) (u : uart) : uart :=
  if virt then write_reg "CR" 769 (write_reg "ICR" 2047 u)
  else
    let u := write_reg "CR" 0 u in
    let u := write_reg "ICR" 2047 u in
    let u := write_reg "IBRD" ibrd u in
    let u := write_reg "FBRD" fbrd u in
    let u := write_reg "LCRH" 112 u in
    write_reg "CR" 769 u.

Definition uart_putc (c : Z) (u : uart) : uart :=
  mk_uart (tx u ++ [c]) (hook u) (if hook u =? 0 then hooked u else hooked u ++ [c]) (fifo u) (regs u)
    (uart_rx_buf u) (uart_rx_head u) (uart_rx_tail u).

Fixpoint uart_puts (s : list Z) (u : uart) : outcome uart :=
  match s with
  | [] => Undef
  | c :: s =>
    if c =? 0 then Ret u
    else
      let u := if c =? 10 then uart_putc 13 u else u in
      uart_puts s (uart_putc c u)
  end.

(** [i] characters are kept so far; every round takes one that arrives. *)
Fixpoint gets_loop (ins buf : list Z) (i bufL : Z) (u : uart) : outcome (option (list Z * Z * list Z * uart)) :=
  if i <? bufL - 1 then
    match ins with
    | [] => Ret None
    | c :: ins =>
      let c := Z.land c 255 in
      buf ← aset buf i c;
      if (c =? 8) || (c =? 127) then
        if 0 <? i then gets_loop ins buf (i - 1) bufL (uart_putc 8 (uart_putc 32 (uart_putc 8 u)))
        else gets_loop ins buf i bufL u
      else if (c =? 10) || (c =? 13) then Ret (Some (buf, i, ins, u))
      else if (c <? 32) || (127 <? c) then gets_loop ins buf i bufL u
      else gets_loop ins buf (i + 1) bufL (uart_putc c u)
    end
  else Ret (Some (buf, i, ins, u)).

Definition uart_gets (ins buf : list Z) (bufL : Z) (u : uart) : outcome (option (list Z * list Z * uart)) :=
  r ← gets_loop ins buf 0 bufL u;
  match r with
  | None => Ret None
  | Some (buf, i, ins, u) => buf ← aset buf i 0; Ret (Some (buf, ins, u))
  end.

(** ** Numbers *)

(** The rounds of [for(shift = 60; shift >= 0; shift -= 4)], [n] of them left. *)
Fixpoint hex_loop (n : nat) (val : Z) (started : bool) (u : uart) : uart :=
  match n with
  | O => u
  | S n =>
    let shift := 4 * Z.of_nat n in
    let nibble := Z.land (Z.shiftr val shift) 15 in
    if negb (nibble =? 0) || started || (shift =? 0) then
      hex_loop n val true (uart_putc (if nibble <? 10 then 48 + nibble else 65 + nibble - 10) u)
    else hex_loop n val started u
  end.
Definition uart_puthex (val : Z) (u : uart) : uart := hex_loop 16 val false (uart_putc 120 (uart_putc 48 u)).
Definition print_hex (val : Z) (u : uart) : uart := hex_loop 16 val false (uart_putc 120 (uart_putc 48 u)).

(** [buf] holds 20 digits; a 64-bit value has no more, so 21 rounds are enough. *)
Fixpoint digits_loop (fuel : nat) (val : Z) (buf : list Z) (i : Z) : outcome (list Z * Z) :=
  match fuel with
  | O => Hang
  | S fuel =>
    if 0 <? val then buf ← aset buf i (48 + val mod 10); digits_loop fuel (val / 10) buf (i + 1)
    else Ret (buf, i)
  end.
Fixpoint emit_digits (fuel : nat) (buf : list Z) (i : Z) (u : uart) : outcome uart :=
  match fuel with
  | O => Hang
  | S fuel =>
    if 0 <? i then c ← aget buf (i - 1); emit_digits fuel buf (i - 1) (uart_putc c u)
    else Ret u
  end.
Definition print_unsigned (val : Z) (u : uart) : outcome uart :=
  if val =? 0 then Ret (uart_putc 48 u)
  else
    '(buf, i) ← digits_loop 21 val (replicate 20 0) 0;
    emit_digits 21 buf i u.

Definition print_signed (val : Z) (u : uart) : outcome uart :=
  let '(val, u) := if val <? 0 then (s64 (- val), uart_putc 45 u) else (val, u) in
  print_unsigned (u64 val) u.

(** ** kprintf *)

(** An argument: a 64-bit word (long, unsigned long or pointer), a string or
    null, or an int. *)
Inductive varg :=
| AWord (v : Z)
| AStr (s : option (list Z))
| AInt (v : Z).

(** A missing argument, or one of another kind, is undefined. *)
Definition word_arg (args : list varg) : outcome (Z * list varg) :=
  match args with AWord v :: args => Ret (v, args) | _ => Undef end.

Fixpoint kprintf (fmt : list Z) (args : list varg) (u : uart) : outcome uart :=
  match fmt with
  | [] => Undef
  | c :: fmt =>
    if c =? 0 then Ret u
    else if negb (c =? 37) then kprintf fmt args (uart_putc c (if c =? 10 then uart_putc 13 u else u))
    else
      match fmt with
      | [] => Undef
      | d :: fmt =>
        if d =? 100 then '(v, args) ← word_arg args; u ← print_signed (s64 v) u; kprintf fmt args u
        else if d =? 117 then '(v, args) ← word_arg args; u ← print_unsigned (u64 v) u; kprintf fmt args u
        else if d =? 120 then '(v, args) ← word_arg args; kprintf fmt args (print_hex (u64 v) u)
        else if d =? 112 then '(v, args) ← word_arg args; kprintf fmt args (print_hex (u64 v) u)
        else if d =? 115 then
          match args with
          | AStr s :: args => u ← uart_puts (match s with None => lit "(null)" | Some s => s end) u; kprintf fmt args u
          | _ => Undef
          end
        else if d =? 99 then
          match args with
          | AInt v :: args => kprintf fmt args (uart_putc (u8 v) u)
          | _ => Undef
          end
        else if d =? 37 then kprintf fmt args (uart_putc 37 u)
        else kprintf fmt args (uart_putc d (uart_putc 37 u))
      end
  end.

(** ** Receiving *)

Definition uart_irq_enable (u : uart) : uart := write_reg "IMSC" (Z.lor (read_reg "IMSC" u) 16) u.

(** The drained characters go into the ring, or are lost when it is full. *)
Fixpoint drain (f : list Z) (buf : list Z) (head tail : Z) : outcome (list Z * Z) :=
  match f with
  | [] => Ret (buf, head)
  | c :: f =>
    let next := (head + 1) mod UART_BUF_SIZE in
    if negb (next =? tail) then buf ← aset buf head (Z.land c 255); drain f buf next tail
    else drain f buf head tail
  end.
Definition uart_irq_handler (u : uart) : outcome uart :=
  '(buf, head) ← drain (fifo u) (uart_rx_buf u) (uart_rx_head u) (uart_rx_tail u);
  Ret (write_reg "ICR" 16 (set_rx [] buf head (uart_rx_tail u) u)).

Definition uart_irq_getc (u : uart) : outcome (Z * uart) :=
  if uart_rx_head u =? uart_rx_tail u then Ret (-1, u)
  else
    c ← aget (uart_rx_buf u) (uart_rx_tail u);
    Ret (c, set_rx (fifo u) (uart_rx_buf u) (uart_rx_head u) ((uart_rx_tail u + 1) mod UART_BUF_SIZE) u).

Definition uart_poll_getc (u : uart) : Z * uart :=
  match fifo u with
  | [] => (-1, u)
  | c :: f => (Z.land c 255, set_rx f (uart_rx_buf u) (uart_rx_head u) (uart_rx_tail u) u)
  end.

(** ** What is printed *)

(** [emit s u]: [s] sent character by character. *)
Definition emit (s : list Z) (u : uart) : uart := foldl (fun u c => uart_putc c u) u s.

Lemma emit_app s t u : emit (s ++ t) u = emit t (emit s u).
Proof. apply foldl_app. Qed.
Lemma emit_one c u : uart_putc c u = emit [c] u.
Proof. done. Qed.
Lemma emit_tx s u : tx (emit s u) = tx u ++ s.
Proof.
  revert u. induction s as [|c s IH]; intros u; [by rewrite app_nil_r|]. simpl. rewrite IH. simpl. by rewrite <- app_assoc.
Qed.

(** The text of a string as the console gets it: CR before each LF. *)
Definition crlf (s : list Z) : list Z := s ≫= (fun c => if c =? 10 then [13; 10] else [c]).

Lemma uart_puts_spec s u : terminated s -> uart_puts s u = Ret (emit (crlf (cstr s)) u).
Proof.
  intros Ht. revert s Ht u. refine (terminated_ind _ _ _); [done|]. intros c s Hc _ IH u. simpl.
  destruct (Z.eqb_spec c 0); [done|]. unfold crlf. cbn [mbind list_bind]. rewrite IH. rewrite emit_app.
  by destruct (Z.eqb_spec c 10) as [->|].
Qed.
Lemma puts_ok s u : terminated s -> exists u', uart_puts s u = Ret u'.
Proof. intros Hs. rewrite uart_puts_spec by done. by eexists. Qed.

(** *** Decimal *)

Definition dec64 (v : Z) : list Z := rev (digits 20 v).

Lemma digits_loop_spec n v pre rest fuel : 0 < v < 10 ^ Z.of_nat n -> (n < fuel)%nat -> (n <= length rest)%nat ->
  exists buf, digits_loop fuel v (pre ++ rest) (zlen pre) = Ret (buf, zlen pre + zlen (digits n v))
    /\ buf = pre ++ digits n v ++ drop (length (digits n v)) rest.
Proof.
  revert v pre rest fuel. induction n as [|n IH]; intros v pre rest fuel Hv Hf Hr; [simpl in Hv; lia|].
  destruct fuel as [|fuel]; [lia|]. cbn [digits_loop]. destruct (Z.ltb_spec 0 v); [|lia].
  destruct rest as [|x rest]; [simpl in Hr; lia|]. rewrite aset_app, bind_Ret by done. cbn [digits].
  replace (zlen pre + 1) with (zlen (pre ++ [48 + v mod 10])) by (rewrite length_app; simpl; lia).
  destruct (Z.ltb_spec 0 (v / 10)) as [Hd|Hd].
  - rewrite Nat2Z.inj_succ, Z.pow_succ_r in Hv by lia.
    destruct (IH (v / 10) (pre ++ [48 + v mod 10]) rest fuel) as (buf & -> & ->); [split; [lia|apply Z.div_lt_upper_bound; lia]|lia|simpl in Hr; lia|].
    eexists. rewrite length_app. cbn [length drop]. split; [do 2 f_equal; simpl; lia|]. by rewrite <- app_assoc.
  - assert (v / 10 = 0) as -> by (pose proof (Z.div_pos v 10); lia). destruct fuel as [|fuel].
    + assert (n = 0%nat) as -> by lia. lia.
    + cbn [digits_loop Z.ltb]. eexists. rewrite length_app. cbn [length drop]. split; [do 2 f_equal; simpl; lia|]. by rewrite <- app_assoc.
Qed.

Lemma emit_digits_spec s rest u fuel : (length s < fuel)%nat -> emit_digits fuel (s ++ rest) (zlen s) u = Ret (emit (rev s) u).
Proof.
  revert rest u fuel. induction s as [|c s IH] using rev_ind; intros rest u fuel Hf; (destruct fuel as [|fuel]; [lia|]).
  - done.
  - cbn [emit_digits]. rewrite length_app in *. simpl in *. destruct (Z.ltb_spec 0 (Z.of_nat (length s + 1))); [|lia].
    replace (Z.of_nat (length s + 1) - 1) with (zlen s) by lia. rewrite <- app_assoc. simpl. rewrite aget_app, bind_Ret by done.
    rewrite IH by lia. by rewrite rev_unit.
Qed.

Lemma digits_zero n : (0 < n)%nat -> digits n 0 = [48].
Proof. by destruct n; [lia|]. Qed.

Lemma print_unsigned_spec v u : 0 <= v <= ULONG_MAX -> print_unsigned v u = Ret (emit (dec64 v) u).
Proof.
  intros Hv. unfold print_unsigned, dec64. destruct (Z.eqb_spec v 0) as [->|Hz]; [done|].
  destruct (digits_loop_spec 20 v [] (replicate 20 0) 21) as (buf & E & ->); [change (10 ^ Z.of_nat 20) with 100000000000000000000; lia|lia|by rewrite length_replicate|].
  change ([] ++ replicate 20 0) with (replicate 20 0) in E. change (zlen []) with 0 in E. rewrite E, bind_Ret. cbv iota beta. rewrite Z.add_0_l.
  rewrite app_nil_l. apply emit_digits_spec. enough (forall n w, (length (digits n w) <= n)%nat) as Hn by (specialize (Hn 20%nat v); lia).
  induction n as [|n IH]; intros w; simpl; [done|]. case_match; simpl; [|lia]. specialize (IH (w / 10)). lia.
Qed.

(** The sign and the magnitude; the smallest value too, although its negation
    overflows. *)
Lemma print_signed_spec v u : - 2 ^ 63 <= v < 2 ^ 63 ->
  print_signed v u = Ret (emit ((if v <? 0 then [45] else []) ++ dec64 (Z.abs v)) u).
Proof.
  intros Hv. unfold print_signed. rewrite emit_app. destruct (Z.ltb_spec v 0).
  - assert (u64 (s64 (- v)) = Z.abs v) as ->; [|apply print_unsigned_spec; lia].
    destruct (decide (v = - 2 ^ 63)) as [->|Hne]; [done|]. rewrite (swrap_small 64), u64_small by (change (2 ^ (64 - 1)) with (2 ^ 63); lia). lia.
  - rewrite u64_small, Z.abs_eq by lia. apply print_unsigned_spec. lia.
Qed.

(** *** Hexadecimal *)

Definition hexdigit (d : Z) : Z := if d <? 10 then 48 + d else 65 + d - 10.
(** The digits of [v], at most [n], least significant first. *)
Fixpoint hexdigits (n : nat) (v : Z) : list Z :=
  match n with
  | O => []
  | S n => hexdigit (v mod 16) :: if 0 <? v / 16 then hexdigits n (v / 16) else []
  end.
Definition hex64 (v : Z) : list Z := [48; 120] ++ rev (hexdigits 16 v).

(** Exactly [n] digits, most significant first. *)
Fixpoint hex_fixed (n : nat) (v : Z) : list Z :=
  match n with O => [] | S n => hexdigit ((v / 16 ^ Z.of_nat n) mod 16) :: hex_fixed n v end.

Lemma nibble_mod v n : 0 <= v -> Z.land (Z.shiftr v (4 * Z.of_nat n)) 15 = (v / 16 ^ Z.of_nat n) mod 16.
Proof.
  intros Hv. change 15 with (Z.ones 4). rewrite Z.land_ones, Z.shiftr_div_pow2 by lia.
  rewrite Z.pow_mul_r by lia. done.
Qed.

Lemma hex_loop_started n v u : 0 <= v -> hex_loop n v true u = emit (hex_fixed n v) u.
Proof.
  intros Hv. revert u. induction n as [|n IH]; intros u; [done|]. cbn [hex_loop hex_fixed]. cbv zeta.
  rewrite orb_true_r, orb_true_l, nibble_mod by done. by rewrite IH.
Qed.

Lemma hex_fixed_snoc n v : hex_fixed (S n) v = hex_fixed n (v / 16) ++ [hexdigit (v mod 16)].
Proof.
  induction n as [|n IH]; [cbn; by rewrite Z.div_1_r|].
  change (hex_fixed (S (S n)) v) with (hexdigit ((v / 16 ^ Z.of_nat (S n)) mod 16) :: hex_fixed (S n) v).
  rewrite IH. cbn [hex_fixed app]. do 3 f_equal. rewrite Zdiv.Zdiv_Zdiv by lia. f_equal. rewrite Nat2Z.inj_succ, Z.pow_succ_r by lia. lia.
Qed.

Lemma hexdigits_fixed n v : 16 ^ Z.of_nat n <= v < 16 ^ Z.of_nat (S n) -> rev (hexdigits (S n) v) = hex_fixed (S n) v.
Proof.
  revert v. induction n as [|n IH]; intros v Hv.
  - cbn in *. rewrite (Z.div_small v 16) by lia. cbn. by rewrite Z.div_1_r.
  - rewrite hex_fixed_snoc. change (hexdigits (S (S n)) v) with (hexdigit (v mod 16) :: if 0 <? v / 16 then hexdigits (S n) (v / 16) else []).
    rewrite !Nat2Z.inj_succ in *. rewrite !Z.pow_succ_r in * by lia.
    assert (0 < 16 ^ Z.of_nat n) by (apply Z.pow_pos_nonneg; lia).
    assert (16 ^ Z.of_nat n <= v / 16 < 16 * 16 ^ Z.of_nat n) as Hd.
    { split; [apply Z.div_le_lower_bound; lia|apply Z.div_lt_upper_bound; lia]. }
    destruct (Z.ltb_spec 0 (v / 16)); [|lia]. cbn [rev]. by rewrite IH by exact Hd.
Qed.

Lemma hexdigits_more n v : 0 <= v < 16 ^ Z.of_nat n -> (0 < n)%nat -> hexdigits (S n) v = hexdigits n v.
Proof.
  revert v. induction n as [|n IH]; intros v Hv Hn; [lia|].
  change (hexdigits (S (S n)) v) with (hexdigit (v mod 16) :: if 0 <? v / 16 then hexdigits (S n) (v / 16) else []). cbn [hexdigits].
  destruct (Z.ltb_spec 0 (v / 16)); [|done]. f_equal. rewrite Nat2Z.inj_succ, Z.pow_succ_r in Hv by lia. destruct n as [|n].
  - cbn in Hv. rewrite (Z.div_small v 16) in H by lia. lia.
  - apply IH; [|lia]. split; [lia|]. apply Z.div_lt_upper_bound; lia.
Qed.

Lemma hex_loop_spec n v u : 0 <= v < 16 ^ Z.of_nat n -> (0 < n)%nat -> hex_loop n v false u = emit (rev (hexdigits n v)) u.
Proof.
  revert u. induction n as [|n IH]; intros u Hv Hn; [lia|]. cbn [hex_loop]. cbv zeta. rewrite nibble_mod by lia.
  rewrite Nat2Z.inj_succ, Z.pow_succ_r in Hv by lia. assert (0 < 16 ^ Z.of_nat n) as Hp by (apply Z.pow_pos_nonneg; lia).
  rewrite (Z.mod_small (v / _)) by (split; [apply Z.div_pos; lia|apply Z.div_lt_upper_bound; lia]). rewrite orb_false_r.
  destruct (decide (v < 16 ^ Z.of_nat n)) as [Hs|Hs].
  - rewrite (Z.div_small v) by lia. cbn [negb Z.eqb orb]. destruct (Z.eqb_spec (4 * Z.of_nat n) 0) as [H0|H0].
    + assert (n = 0%nat) as -> by lia. cbn in Hs. assert (v = 0) as -> by lia. done.
    + rewrite IH by lia. by rewrite hexdigits_more by lia.
  - destruct (Z.eqb_spec (v / 16 ^ Z.of_nat n) 0) as [H0|H0].
    { apply Z.div_small_iff in H0; lia. }
    cbn [negb orb]. rewrite hex_loop_started by lia. rewrite hexdigits_fixed; [|rewrite Nat2Z.inj_succ, Z.pow_succ_r; lia].
    cbn [hex_fixed]. rewrite (Z.mod_small (v / _)); [done|]. split; [apply Z.div_pos; lia|apply Z.div_lt_upper_bound; lia].
Qed.

Lemma uart_puthex_spec v u : 0 <= v <= ULONG_MAX -> uart_puthex v u = emit (hex64 v) u.
Proof.
  intros Hv. unfold uart_puthex, hex64. rewrite hex_loop_spec, emit_app; [done| |lia]. change (16 ^ Z.of_nat 16) with (ULONG_MAX + 1). lia.
Qed.

Lemma print_hex_eq v u : print_hex v u = uart_puthex v u.
Proof. unfold print_hex, uart_puthex. reflexivity. Qed.

Lemma hexdigit_step d t r : 0 <= d < 16 -> 0 <= r -> r * 16 + d <= ULONG_MAX ->
  hextoul_loop (hexdigit d :: t) r = hextoul_loop t (r * 16 + d).
Proof.
  intros Hd Hr Hb.
  assert (forall x, x = d -> Z.lor (u64 (Z.shiftl r 4)) x = r * 16 + d) as Hlor.
  { intros x ->. rewrite Z.shiftl_mul_pow2, u64_small by lia. apply (lor_low _ _ 4); [lia| |lia]. change (2 ^ 4) with 16. apply Z_mod_mult. }
  unfold hexdigit. destruct (Z.ltb_spec d 10); cbn [hextoul_loop].
  - destruct (Z.leb_spec 48 (48 + d)), (Z.leb_spec (48 + d) 57); try lia. cbn [andb]. rewrite Hlor by lia. done.
  - destruct (Z.leb_spec (65 + d - 10) 57); [lia|]. rewrite andb_false_r. destruct (Z.leb_spec 97 (65 + d - 10)); [lia|]. cbn [andb].
    destruct (Z.leb_spec 65 (65 + d - 10)), (Z.leb_spec (65 + d - 10) 70); try lia. cbn [andb]. rewrite Hlor by lia. done.
Qed.

Lemma hextoul_digits n v t : 0 <= v <= ULONG_MAX -> v < 16 ^ Z.of_nat n -> (0 < n)%nat ->
  hextoul_loop (rev (hexdigits n v) ++ t) 0 = hextoul_loop t v.
Proof.
  revert v t. induction n as [|n IH]; intros v t Hv Hn Hp; [lia|]. cbn [hexdigits rev]. rewrite <- app_assoc. simpl ([_] ++ t).
  pose proof (Z.mod_pos_bound v 16 ltac:(lia)). pose proof (Z.div_mod v 16 ltac:(lia)).
  destruct (Z.ltb_spec 0 (v / 16)) as [Hd|Hd].
  - rewrite Nat2Z.inj_succ, Z.pow_succ_r in Hn by lia. destruct n as [|n]; [cbn in Hn; lia|].
    rewrite IH by (try apply Z.div_lt_upper_bound; lia). rewrite hexdigit_step by lia. f_equal. lia.
  - cbn [rev app]. rewrite hexdigit_step by lia. f_equal. lia.
Qed.

(** *** Format strings *)

(** What a format string is made of. *)
Inductive piece :=
| PChar (c : Z)                    (* a character other than '%' and NUL *)
| PDec (v : Z)                     (* %d *)
| PUns (v : Z)                     (* %u *)
| PHex (v : Z)                     (* %x *)
| PPtr (v : Z)                     (* %p *)
| PStr (s : option (list Z))       (* %s *)
| PC (v : Z)                       (* %c *)
| PPercent.                        (* %% *)

Definition piece_fmt (p : piece) : list Z :=
  match p with
  | PChar c => [c]
  | PDec _ => [37; 100] | PUns _ => [37; 117] | PHex _ => [37; 120] | PPtr _ => [37; 112]
  | PStr _ => [37; 115] | PC _ => [37; 99] | PPercent => [37; 37]
  end.
Definition piece_arg (p : piece) : list varg :=
  match p with
  | PChar _ | PPercent => []
  | PDec v | PUns v | PHex v | PPtr v => [AWord v]
  | PStr s => [AStr s]
  | PC v => [AInt v]
  end.
Definition piece_ok (p : piece) : Prop :=
  match p with
  | PChar c => c <> 0 /\ c <> 37
  | PDec v => - 2 ^ 63 <= v < 2 ^ 63
  | PUns v | PHex v | PPtr v => 0 <= v <= ULONG_MAX
  | PStr (Some s) => terminated s
  | _ => True
  end.
(** What the console gets for it. *)
Definition piece_out (p : piece) : list Z :=
  match p with
  | PChar c => if c =? 10 then [13; 10] else [c]
  | PDec v => (if v <? 0 then [45] else []) ++ dec64 (Z.abs v)
  | PUns v => dec64 v
  | PHex v | PPtr v => hex64 v
  | PStr (Some s) => crlf (cstr s)
  | PStr None => bytes "(null)"
  | PC v => [u8 v]
  | PPercent => [37]
  end.

Lemma kprintf_percent d fmt args u :
  kprintf (37 :: d :: fmt) args u =
  (if d =? 100 then '(v, args) ← word_arg args; u ← print_signed (s64 v) u; kprintf fmt args u
   else if d =? 117 then '(v, args) ← word_arg args; u ← print_unsigned (u64 v) u; kprintf fmt args u
   else if d =? 120 then '(v, args) ← word_arg args; kprintf fmt args (print_hex (u64 v) u)
   else if d =? 112 then '(v, args) ← word_arg args; kprintf fmt args (print_hex (u64 v) u)
   else if d =? 115 then
     match args with
     | AStr s :: args => u ← uart_puts (match s with None => lit "(null)" | Some s => s end) u; kprintf fmt args u
     | _ => Undef
     end
   else if d =? 99 then match args with AInt v :: args => kprintf fmt args (uart_putc (u8 v) u) | _ => Undef end
   else if d =? 37 then kprintf fmt args (uart_putc 37 u)
   else kprintf fmt args (uart_putc d (uart_putc 37 u))).
Proof. reflexivity. Qed.

Lemma kprintf_piece p fmt args u : piece_ok p ->
  kprintf (piece_fmt p ++ fmt) (piece_arg p ++ args) u = kprintf fmt args (emit (piece_out p) u).
Proof.
  destruct p as [c|v|v|v|v|[s|]|v|]; cbn [piece_fmt piece_arg piece_ok piece_out app]; intros Hp; rewrite ?kprintf_percent; cbn [Z.eqb Pos.eqb word_arg].
  - cbn [kprintf]. destruct (Z.eqb_spec c 0), (Z.eqb_spec c 37); try lia. cbn [negb]. by destruct (Z.eqb_spec c 10) as [->|].
  - rewrite bind_Ret. rewrite (swrap_small 64) by (change (2 ^ (64 - 1)) with (2 ^ 63); lia). by rewrite print_signed_spec, bind_Ret.
  - rewrite bind_Ret, u64_small, print_unsigned_spec by lia. done.
  - rewrite bind_Ret, u64_small by lia. by rewrite print_hex_eq, uart_puthex_spec.
  - rewrite bind_Ret, u64_small by lia. by rewrite print_hex_eq, uart_puthex_spec.
  - by rewrite uart_puts_spec, bind_Ret.
  - rewrite uart_puts_spec by apply lit_terminated. done.
  - done.
  - done.
Qed.

Lemma kprintf_run ps rest more u : Forall piece_ok ps ->
  kprintf ((ps ≫= piece_fmt) ++ 0 :: rest) ((ps ≫= piece_arg) ++ more) u = Ret (emit (ps ≫= piece_out) u).
Proof.
  intros Hps. revert u. induction Hps as [|p ps Hp _ IH]; intros u; [done|].
  cbn [mbind list_bind]. rewrite <- !app_assoc, kprintf_piece by done. rewrite emit_app. apply IH.
Qed.

(** The arguments fit the format: every conversion finds its own kind, a string
    of [%s] ends. *)
Fixpoint fits (fmt : list Z) (args : list varg) : Prop :=
  match fmt with
  | [] => False
  | c :: fmt =>
    if c =? 0 then True
    else if negb (c =? 37) then fits fmt args
    else
      match fmt with
      | [] => False
      | d :: fmt =>
        if (d =? 100) || (d =? 117) || (d =? 120) || (d =? 112) then
          match args with AWord _ :: args => fits fmt args | _ => False end
        else if d =? 115 then
          match args with
          | AStr s :: args => match s with Some s => terminated s | None => True end /\ fits fmt args
          | _ => False
          end
        else if d =? 99 then match args with AInt _ :: args => fits fmt args | _ => False end
        else fits fmt args
      end
  end.

Lemma kprintf_fits fmt args u : fits fmt args -> exists u', kprintf fmt args u = Ret u'.
Proof.
  assert (forall n fmt args u, (length fmt <= n)%nat -> fits fmt args -> exists u', kprintf fmt args u = Ret u') as Hn; [|by eapply Hn].
  clear fmt args u. intros n. induction n as [|n IH]; intros [|c fmt] args u Hl Hf; try done; [simpl in Hl; lia|].
  cbn [length] in Hl. cbn [fits] in Hf. destruct (Z.eqb_spec c 37) as [->|Hc].
  2: { cbn [kprintf]. destruct (c =? 0); [by eexists|]. destruct (Z.eqb_spec c 37); [done|]. cbn [negb] in *. apply IH; [lia|done]. }
  cbn [negb Z.eqb Pos.eqb] in Hf. destruct fmt as [|d fmt]; [done|]. cbn [length] in Hl. rewrite kprintf_percent.
  assert (forall args u, fits fmt args -> exists u', kprintf fmt args u = Ret u') as IH' by (intros; apply IH; [lia|done]).
  destruct (Z.eqb_spec d 100); [|destruct (Z.eqb_spec d 117); [|destruct (Z.eqb_spec d 120); [|destruct (Z.eqb_spec d 112)]]]; cbn [orb] in Hf;
    try (destruct args as [|[v|s|v] args]; try done; cbn [word_arg]; rewrite bind_Ret; cbv iota beta;
         rewrite ?print_signed_spec, ?print_unsigned_spec, ?bind_Ret by (first [apply (swrap_range 64); lia|apply u64_range]); by apply IH').
  destruct (d =? 115).
  { destruct args as [|[v|s|v] args]; try done. destruct Hf as [Hs Hf]. destruct s as [s|]; rewrite uart_puts_spec.
    - rewrite bind_Ret. by apply IH'.
    - done.
    - rewrite bind_Ret. by apply IH'.
    - apply lit_terminated. }
  destruct (d =? 99). { destruct args as [|[v|s|v] args]; try done. by apply IH'. }
  destruct (d =? 37); by apply IH'.
Qed.

(** C34. kprintf expands a format string into exactly its pieces, in order and
    whatever follows the terminator: every conversion takes its own argument,
    %d prints sign and magnitude for every long (LONG_MIN too), %u and %d print
    without leading zeros, %x and %p print 0x and upper-case digits, %s prints
    the string or "(null)", a newline is sent as CR LF; what is sent is appended
    to the output and to what the hook has seen. *)
Theorem kprintf_expands (ps : list piece) (rest : list Z) (more : list varg) (u : uart) :
  Forall piece_ok ps ->
  kprintf ((ps ≫= piece_fmt) ++ 0 :: rest) ((ps ≫= piece_arg) ++ more) u = Ret (emit (ps ≫= piece_out) u)
  /\ tx (emit (ps ≫= piece_out) u) = tx u ++ (ps ≫= piece_out).
Proof.
  intros Hps. split; [by apply kprintf_run|apply emit_tx].
Qed.

(** What uart_puthex sends is read back by k_hextoul as the same value, for
    every 64-bit value. *)
Theorem puthex_hextoul (v : Z) (u : uart) : 0 <= v <= ULONG_MAX ->
  exists s, tx (uart_puthex v u) = tx u ++ s /\ k_hextoul (s ++ [0]) = Ret v.
Proof.
  intros Hv. exists (hex64 v). rewrite uart_puthex_spec, emit_tx by done. split; [done|].
  unfold k_hextoul, hex64.
  change (([48; 120] ++ rev (hexdigits 16 v)) ++ [0]) with (48 :: 120 :: (rev (hexdigits 16 v) ++ [0])).
  assert (forall s, aget (48 :: 120 :: s) 0 = Ret 48 /\ aget (48 :: 120 :: s) 1 = Ret 120) as Hg by done.
  rewrite (proj1 (Hg _)), bind_Ret. cbn [Z.eqb Pos.eqb]. rewrite (proj2 (Hg _)), bind_Ret. cbn [Z.eqb Pos.eqb orb].
  assert (forall s, ptr_add (48 :: 120 :: s) 2 = Ret s) as ->.
  { intros s. unfold ptr_add. rewrite bool_decide_true by (simpl; lia). done. }
  rewrite bind_Ret, hextoul_digits; [done|done| |lia]. change (16 ^ Z.of_nat 16) with (ULONG_MAX + 1). lia.
Qed.

(** *** Line editing *)

(** The line that arriving characters make, of at most [max]: its text, its
    echo and what is left of the input. *)
Fixpoint line_edit (max : nat) (ins text echo : list Z) : option (list Z * list Z * list Z) :=
  if bool_decide (max <= length text)%nat then Some (text, echo, ins)
  else
    match ins with
    | [] => None
    | c :: ins =>
      let c := Z.land c 255 in
      if (c =? 8) || (c =? 127) then
        line_edit max ins (take (length text - 1) text) (echo ++ if bool_decide (text = []) then [] else [8; 32; 8])
      else if (c =? 10) || (c =? 13) then Some (text, echo, ins)
      else if bool_decide (32 <= c <= 126) then line_edit max ins (text ++ [c]) (echo ++ [c])
      else line_edit max ins text echo
    end.

Lemma gets_loop_spec ins text rest bufL echo u0 : zlen text <= bufL - 1 -> bufL <= zlen text + zlen rest ->
  match line_edit (Z.to_nat (bufL - 1)) ins text echo with
  | None => gets_loop ins (text ++ rest) (zlen text) bufL (emit echo u0) = Ret None
  | Some (t, e, ins') => exists r, gets_loop ins (text ++ rest) (zlen text) bufL (emit echo u0) = Ret (Some (t ++ r, zlen t, ins', emit e u0))
      /\ zlen t + zlen r = zlen text + zlen rest /\ zlen t <= bufL - 1
  end.
Proof.
  revert text rest echo. induction ins as [|c ins IH]; intros text rest echo Ht Hb; cbn [line_edit gets_loop].
  - case_bool_decide; destruct (Z.ltb_spec (zlen text) (bufL - 1)); try lia; [|done]. exists rest. split; [done|lia].
  - case_bool_decide; destruct (Z.ltb_spec (zlen text) (bufL - 1)); try lia; [exists rest; split; [done|lia]|]. cbv zeta.
    destruct rest as [|x rest]; [simpl in Hb; lia|]. rewrite aset_app, bind_Ret by done. set (d := Z.land c 255).
    assert (zlen (text ++ [d]) = zlen text + 1) as Hz by (rewrite length_app; simpl; lia). cbn [length] in Hb.
    destruct ((d =? 8) || (d =? 127)) eqn:Ed; [|destruct ((d =? 10) || (d =? 13)) eqn:En].
    + destruct text as [|y text _] using rev_ind.
      * cbn [length Z.of_nat Z.ltb Z.compare take Nat.sub]. rewrite bool_decide_true, app_nil_r by done. cbn [app].
        specialize (IH [] (d :: rest) echo). cbn [app length] in *. apply IH; lia.
      * rewrite bool_decide_false by (by destruct text). rewrite length_app. cbn [length].
        destruct (Z.ltb_spec 0 (Z.of_nat (length text + 1))); [|lia].
        replace (length text + 1 - 1)%nat with (length text) by lia. rewrite take_app_length.
        specialize (IH text (y :: d :: rest) (echo ++ [8; 32; 8])). rewrite emit_app in IH. rewrite length_app in *. cbn [length] in *.
        rewrite <- !app_assoc. simpl app at 1 2. simpl app in IH.
        replace (Z.of_nat (length text + 1) - 1) with (zlen text) by lia.
        destruct (line_edit _ _ _ _) as [[[t e] i']|]; [destruct IH as (r & E & Hl & Hm); [lia|lia|]; exists r|apply IH; lia].
        split; [exact E|cbn [length]; lia].
    + exists (d :: rest). rewrite <- app_assoc. split; [done|simpl; lia].
    + case_bool_decide as Hp.
      * destruct (Z.ltb_spec d 32); [lia|]. destruct (Z.ltb_spec 127 d); [lia|]. cbn [orb]. rewrite <- Hz.
        specialize (IH (text ++ [d]) rest (echo ++ [d])). rewrite emit_app in IH.
        destruct (line_edit _ _ _ _) as [[[t e] i']|]; [destruct IH as (r & E & Hl & Hm); [lia|lia|]; exists r|apply IH; lia].
        split; [exact E|cbn [length]; lia].
      * assert (((d <? 32) || (127 <? d)) = true) as ->.
        { apply orb_true_iff. rewrite !Z.ltb_lt. apply orb_false_iff in Ed as [_ Ed%Z.eqb_neq]. lia. }
        specialize (IH text (d :: rest) echo). rewrite <- app_assoc. simpl app at 2 4. cbn [length] in IH.
        destruct (line_edit _ _ _ _) as [[[t e] i']|]; [destruct IH as (r & E & Hl & Hm); [lia|lia|]; exists r|apply IH; lia].
        split; [exact E|cbn [length]; lia].
Qed.

Lemma line_edit_chars max ins text echo t e i : Forall (fun c => 32 <= c <= 126) text ->
  line_edit max ins text echo = Some (t, e, i) -> Forall (fun c => 32 <= c <= 126) t.
Proof.
  revert text echo. induction ins as [|c ins IH]; intros text echo Ht; cbn [line_edit]; (case_bool_decide; [by intros [= <- _ _]|]); [done|].
  cbv zeta. destruct (_ || _); [by apply IH, Forall_take|]. destruct (_ || _); [by intros [= <- _ _]|].
  case_bool_decide; [|by apply IH]. apply IH, Forall_app. split; [done|by constructor].
Qed.

(** C35. uart_gets reads one line: what it leaves in the buffer, with its NUL and
    inside the size given, is the text that editing the arriving characters
    with backspace and delete makes, ended by CR, LF or a full buffer; only
    printable characters are kept; the echo is what was kept and, for each
    deletion, backspace blank backspace; it waits for more exactly when the
    line is not finished. *)
Theorem uart_gets_edits (ins buf : list Z) (bufL : Z) (u : uart) :
  0 < bufL <= zlen buf ->
  match line_edit (Z.to_nat (bufL - 1)) ins [] [] with
  | None => uart_gets ins buf bufL u = Ret None
  | Some (text, echo, rest) =>
      exists buf', uart_gets ins buf bufL u = Ret (Some (buf', rest, emit echo u))
      /\ length buf' = length buf /\ cstr buf' = text /\ zlen text < bufL /\ Forall (fun c => 32 <= c <= 126) text
  end.
Proof.
  intros Hb. unfold uart_gets. pose proof (gets_loop_spec ins [] buf bufL [] u) as Hg. specialize (Hg ltac:(simpl; lia) ltac:(simpl; lia)). change (zlen (@nil Z)) with 0 in Hg. rewrite app_nil_l in Hg.
  change (emit [] u) with u in Hg.
  destruct (line_edit _ _ _ _) as [[[t e] i']|] eqn:El; [|by rewrite Hg].
  destruct Hg as (r & -> & Hl & Hm). rewrite bind_Ret. cbv iota beta. destruct r as [|x r]; [simpl in Hl; lia|].
  rewrite aset_app, bind_Ret by done. eexists. split; [done|]. apply line_edit_chars in El; [|done].
  split; [rewrite !length_app in *; simpl in *; lia|]. split; [|split; [lia|done]].
  rewrite <- app_assoc. apply cstr_app. eapply Forall_impl; [done|]. simpl. lia.
Qed.

Definition uart_zero : uart := mk_uart [] 0 [] [] ∅ (replicate 64 0) 0 0.

Lemma kprintf_expands_witness :
  kprintf (lit "x=%d %s%%") [AWord (-5); AStr (Some (lit "ab"))] uart_zero
  = Ret (emit (bytes "x=-5 ab%") uart_zero).
Proof.
  pose (ps := [PChar 120; PChar 61; PDec (-5); PChar 32; PStr (Some (lit "ab")); PPercent]).
  assert (Forall piece_ok ps) as Hps.
  { subst ps. unfold piece_ok, terminated. repeat constructor; try lia. }
  exact (proj1 (kprintf_expands ps [] [] uart_zero Hps)).
Defined.

Lemma puthex_hextoul_witness : exists s, tx (uart_puthex 48879 uart_zero) = s /\ k_hextoul (s ++ [0]) = Ret 48879.
Proof. apply (puthex_hextoul 48879 uart_zero). lia. Defined.

Lemma uart_gets_edits_witness :
  exists buf', uart_gets (bytes "ab" ++ [127; 99; 13; 100]) (replicate 8 1) 8 uart_zero
    = Ret (Some (buf', [100], emit [97; 98; 8; 32; 8; 99] uart_zero)) /\ cstr buf' = bytes "ac".
Proof.
  destruct (uart_gets_edits (bytes "ab" ++ [127; 99; 13; 100]) (replicate 8 1) 8 uart_zero) as (buf' & E & _ & Ec & _); [simpl; lia|].
  exists buf'. split; [exact E|exact Ec].
Defined.

(** A lone '%' at the end: the terminator is printed and skipped, and kprintf
    reads on behind the string. *)
Lemma trailing_percent_overrun : kprintf (lit "50%") [] uart_zero = Undef.
Proof. reflexivity. Qed.

(** *** The receive ring *)

(** The characters waiting in the ring, oldest first. *)
Definition rx_queue (u : uart) (l : list Z) : Prop :=
  ring_ok UART_BUF_SIZE (uart_rx_buf u) (uart_rx_tail u) (uart_rx_head u) (length l)
  /\ (length l < 64)%nat /\ l = ring_read UART_BUF_SIZE (uart_rx_buf u) (uart_rx_tail u) (length l).

Lemma drain_spec f buf head tail l : ring_ok UART_BUF_SIZE buf tail head (length l) -> (length l < 64)%nat ->
  l = ring_read UART_BUF_SIZE buf tail (length l) ->
  exists buf' head', drain f buf head tail = Ret (buf', head')
    /\ let l' := take 63 (l ++ ((fun c => Z.land c 255) <$> f)) in
       ring_ok UART_BUF_SIZE buf' tail head' (length l') /\ l' = ring_read UART_BUF_SIZE buf' tail (length l').
Proof.
  revert buf head l. induction f as [|c f IH]; intros buf head l Hr Hl El; cbn [drain].
  - exists buf, head. split; [done|]. cbv zeta. cbn [fmap list_fmap]. rewrite app_nil_r, take_ge by lia. done.
  - cbv zeta. destruct (Z.eqb_spec ((head + 1) mod UART_BUF_SIZE) tail) as [Hf|Hf]; cbn [negb].
    + pose proof (proj1 (ring_full UART_BUF_SIZE _ _ _ _ Hr ltac:(unfold UART_BUF_SIZE; lia)) Hf) as H63. unfold UART_BUF_SIZE in H63.
      destruct (IH buf head l Hr Hl El) as (buf' & head' & E & Hq). exists buf', head'. split; [done|].
      cbv zeta in Hq. rewrite !take_app_le in * by lia. exact Hq.
    + assert (Z.of_nat (length l) <> 63) as Hne.
      { intros H63. apply Hf. apply (ring_full UART_BUF_SIZE _ _ _ _ Hr); unfold UART_BUF_SIZE; lia. }
      pose proof Hr as (_ & Hbl & Ht & Hh & _). unfold UART_BUF_SIZE in Hbl, Hh.
      rewrite aset_ok, bind_Ret by (rewrite Hh, Hbl; apply Z.mod_pos_bound; lia).
      destruct (ring_push UART_BUF_SIZE buf tail head (length l) (Z.land c 255) Hr ltac:(unfold UART_BUF_SIZE; lia)) as [Hr' Er'].
      rewrite <- El in Er'. destruct (IH (<[Z.to_nat head:=Z.land c 255]> buf) ((head + 1) mod UART_BUF_SIZE) (l ++ [Z.land c 255])) as (buf' & head' & E & Hq); rewrite ?length_app; cbn [length]; try lia.
      * by rewrite Nat.add_1_r.
      * rewrite Nat.add_1_r. by symmetry.
      * exists buf', head'. split; [exact E|]. cbv zeta in *. rewrite <- app_assoc in Hq. exact Hq.
Qed.

(** The receive ring is a queue of at most 63 characters: the interrupt
    handler empties the device's FIFO into it in order and drops only what does
    not fit, and uart_irq_getc takes the oldest character, or reports -1 when
    there is none. *)
Theorem uart_rx_refines_queue (u : uart) (l : list Z) : rx_queue u l ->
  (exists u', uart_irq_handler u = Ret u' /\ fifo u' = [] /\ rx_queue u' (take 63 (l ++ ((fun c => Z.land c 255) <$> fifo u))))
  /\ match l with
     | [] => uart_irq_getc u = Ret (-1, u)
     | c :: l' => exists u', uart_irq_getc u = Ret (c, u') /\ rx_queue u' l' /\ fifo u' = fifo u
     end.
Proof.
  intros (Hr & Hl & El). split.
  - unfold uart_irq_handler. destruct (drain_spec (fifo u) _ _ _ l Hr Hl El) as (buf & head & -> & Hr' & El'). rewrite bind_Ret.
    eexists. split; [done|]. split; [done|]. split; [exact Hr'|]. split; [rewrite length_take; lia|exact El'].
  - unfold uart_irq_getc. destruct l as [|c l].
    + rewrite (proj2 (ring_empty UART_BUF_SIZE _ _ _ _ Hr ltac:(done)) eq_refl), Z.eqb_refl. done.
    + cbn [length] in *. destruct (ring_pop UART_BUF_SIZE _ _ _ _ Hr) as (x & Ex & Hr' & Er). rewrite Er in El. injection El as -> El.
      destruct (Z.eqb_spec (uart_rx_head u) (uart_rx_tail u)) as [He|_].
      { apply (ring_empty UART_BUF_SIZE _ _ _ _ Hr) in He; [done|unfold UART_BUF_SIZE; lia]. }
      pose proof Hr as (_ & _ & Ht & _).
      assert (aget (uart_rx_buf u) (uart_rx_tail u) = Ret x) as -> by (apply aget_Ret; split; [lia|done]). rewrite bind_Ret.
      eexists. split; [done|]. split; [|done]. split; [exact Hr'|]. split; [lia|exact El].
Qed.

Lemma uart_rx_refines_queue_witness : uart_irq_getc uart_zero = Ret (-1, uart_zero).
Proof.
  refine (proj2 (uart_rx_refines_queue uart_zero [] _)). split; [by apply ring_init|]. split; [simpl; lia|done].
Defined.
