(* ===== verification/User.v ===== *)
(** user.c, and the death of a user task in cpu.c: EL1 tasks with their own
    translation tables.

    [usys] is the kernel of Task.v with the entry contexts of user.c
    ([user_ctxs]), the EL1 system registers and the console.  [mmu] is
    PLATFORM_INIT_MMU; [wrapper] the address of user_task_wrapper.  [eret] is
    the state in which it leaves the kernel. *)
From S2P Require Import Prelude Spinlock Allocator Heap CString Uart PageTable Task.

(** user_ctxs[]: where a task enters EL1. *)
Record user_ctx := mk_uctx { u_fn : Z; u_sp : Z }.

(** The registers user_enter_el1 writes; TTBR0_EL1 is in [sys], with the
    context switch. *)
Record el1_regs := mk_el1 {
  HCR_EL2 : Z; SPSR_EL2 : Z; ELR_EL2 : Z; SP_EL1 : Z; VBAR_EL1 : Z;
  MAIR_EL1 : Z; TCR_EL1 : Z; SCTLR_EL1 : Z
}.

Record usys (H : Type) := mk_usys {
  kern : sys H;
  user_ctxs : list user_ctx;
  el1 : el1_regs;
  con : uart
}.
Arguments mk_usys {H} kern user_ctxs el1 con.
Arguments kern {H} u.
Arguments user_ctxs {H} u.
Arguments el1 {H} u.
Arguments con {H} u.

Section User.
Context {H : Type} `{Allocator H} `{CodeAddrs}.
Implicit Types (s : sys H) (u : usys H).

Definition set_kern u s : usys H := mk_usys s (user_ctxs u) (el1 u) (con u).

(** One round of the isolation loop of [user_task_create]: the other task's
    stack leaves table [pt], the new stack leaves the other task's table. *)
Definition isolate (pt el1_stack id i : Z) s : outcome (sys H) :=
  t ← aget (tasks s) i;
  if negb (t_el1_stack t =? 0) && negb (i =? id) then
    m ← proc_unmap_range pt (t_el1_stack t) 4096 (vm s);
    let s := set_vm s m in
    if t_proc t =? 0 then Ret s
    else m ← proc_unmap_range (t_proc t) el1_stack 4096 (vm s); Ret (set_vm s m)
  else Ret s.

Definition user_task_create (mmu : bool) (wrapper fn : Z) (name : option (list Z)) (now : Z) u : outcome (Z * usys H) :=
  '(el1_stack, s) ← sys_kmalloc 4096 4096 (kern u);
  if el1_stack =? 0 then Ret (-1, set_kern u s)
  else
    let el1_sp := u64 (el1_stack + 4096) in
    '(id, s) ← task_create_named wrapper name s;
    if id <? 0 then s ← sys_kfree el1_stack s; Ret (-1, set_kern u s)
    else if negb mmu then
      ctxs ← aset (user_ctxs u) id (mk_uctx fn el1_sp);
      s ← upd_task s id (set_el1_stack el1_stack);
      s ← upd_task s id (set_proc_ptr 0);
      s ← upd_task s id (set_ttbr 0);
      Ret (id, mk_usys s ctxs (el1 u) (con u))
    else
      '(pt, m) ← proc_create (vm s);
      let s := set_vm s m in
      if pt =? 0 then
        s ← sys_kfree el1_stack s;
        '(_, s) ← task_kill id now s;
        Ret (-1, set_kern u s)
      else
        s ← for_range 0 (num_tasks s) (isolate pt el1_stack id) s;
        ctxs ← aset (user_ctxs u) id (mk_uctx fn el1_sp);
        s ← upd_task s id (set_el1_stack el1_stack);
        s ← upd_task s id (set_proc_ptr pt);
        root ← proc_ttbr0 pt (vm s);
        s ← upd_task s id (set_ttbr root);
        Ret (id, mk_usys s ctxs (el1 u) (con u)).

(** [vectors] is the address of exception_vector_table. *)
Definition user_enter_el1 (vectors fn user_sp : Z) u : outcome (usys H) :=
  let r := el1 u in
  let hcr := Z.lor (HCR_EL2 r) (Z.shiftl 1 31) in
  let spsr := Z.lor (Z.lor (Z.lor 5 (Z.shiftl 1 6)) (Z.shiftl 1 8)) (Z.shiftl 1 9) in
  t ← aget (tasks (kern u)) (task_current (kern u));
  if negb (t_ttbr0_el1 t =? 0) then
    let mair := Z.lor 0xFF (Z.shiftl 0 8) in
    let tcr := Z.lor (Z.lor (Z.lor (Z.lor (Z.lor (Z.lor 32 (Z.shiftl 1 8)) (Z.shiftl 1 10)) (Z.shiftl 3 12))
                 (Z.shiftl 0 14)) (Z.shiftl 32 16)) (Z.shiftl 1 23) in
    let sctlr := Z.lor (Z.lor (Z.shiftl 1 0) (Z.shiftl 1 2)) (Z.shiftl 1 12) in
    Ret (mk_usys (set_ttbr0_reg (kern u) (t_ttbr0_el1 t)) (user_ctxs u)
           (mk_el1 hcr spsr fn user_sp vectors mair tcr sctlr) (con u))
  else
    Ret (mk_usys (kern u) (user_ctxs u)
           (mk_el1 hcr spsr fn user_sp vectors (MAIR_EL1 r) (TCR_EL1 r) 0) (con u)).

Definition user_task_wrapper (mmu : bool) (vectors : Z) u : outcome (usys H) :=
  t ← aget (tasks (kern u)) (task_current (kern u));
  c ← aget (user_ctxs u) (t_id t);
  w ← (if mmu then Ret (con u) else uart_puts (line_of "[user] entering EL1 task") (con u));
  user_enter_el1 vectors (u_fn c) (u_sp c) (mk_usys (kern u) (user_ctxs u) (el1 u) w).

(** cpu.c: a user task that faulted is taken off the machine.  Its kernel stack
    stays allocated, the handler is still running on it. *)
Definition segv_kill (now : Z) s : outcome (sys H) :=
  let i := current_task s in
  s ← upd_task s i (set_state TASK_DEAD);
  t ← aget (tasks s) i;
  s ← (if t_el1_stack t =? 0 then Ret s
       else s ← sys_kfree (t_el1_stack t) s; upd_task s i (set_el1_stack 0));
  s ← (if t_proc t =? 0 then Ret s
       else m ← proc_free (t_proc t) (vm s); upd_task (set_vm s m) i (set_proc_ptr 0));
  s ← upd_task s i (set_ttbr 0);
  schedule now s.
End User.

(** ** Isolation *)

Definition page_of (t : task_t) : Z := t_el1_stack t / 4096.

(** The tables of task [i] map its own stack and no other task's. *)
Definition table_isolates {H} (s : sys H) (i : Z) (t : task_t) (P : proc_t) (rs : list Z) (unm : gset Z) : Prop :=
  procs (vm s) !! t_proc t = Some P /\ proc_inv (words (vm s)) P rs unm
  /\ t_ttbr0_el1 t = l1 P /\ t_el1_stack t <> 0 /\ page_of t ∉ unm
  /\ forall j v, task_at s j = Some v -> j <> i -> t_el1_stack v <> 0 -> page_of v ∈ unm.

Record isolated {H} (s : sys H) : Prop := {
  iso_stack : forall i t, task_at s i = Some t -> t_el1_stack t <> 0 ->
    i < num_tasks s /\ t_el1_stack t mod 4096 = 0 /\ 0 < t_el1_stack t /\ t_el1_stack t + 4096 <= 2 ^ 32;
  iso_table : forall i t, task_at s i = Some t -> t_proc t <> 0 ->
    exists P rs unm, table_isolates s i t P rs unm
}.

(** What isolation sees of a task. *)
Definition same_user (t t' : task_t) : Prop :=
  t_el1_stack t' = t_el1_stack t /\ t_proc t' = t_proc t /\ t_ttbr0_el1 t' = t_ttbr0_el1 t.
Definition no_user (t : task_t) : Prop := t_el1_stack t = 0 /\ t_proc t = 0.

Section Frame.
Context {H : Type} `{AllocatorLaws H} `{CodeAddrs}.
Implicit Types (s : sys H) (t : task_t) (rest : list Z).

(** Tasks may lose their user part, and the tables that are left must be as they were. *)
Lemma iso_frame s s' :
  isolated s -> num_tasks s <= num_tasks s' ->
  (forall i t', task_at s' i = Some t' -> no_user t' \/ exists t, task_at s i = Some t /\ same_user t t') ->
  (forall i t t' P rs unm, task_at s i = Some t -> task_at s' i = Some t' -> t_proc t' <> 0 -> same_user t t' ->
     procs (vm s) !! t_proc t = Some P -> proc_inv (words (vm s)) P rs unm ->
     procs (vm s') !! t_proc t = Some P /\ proc_inv (words (vm s')) P rs unm) ->
  isolated s'.
Proof.
  intros [Hst Htb] Hn Ht Hp. split.
  - intros i t' Ht' Hne. destruct (Ht i t' Ht') as [[? _]|(t & Hti & E1 & _)]; [done|].
    rewrite E1 in *. destruct (Hst i t Hti Hne) as (? & ? & ? & ?). split_and!; (done || lia).
  - intros i t' Ht' Hne. destruct (Ht i t' Ht') as [[_ ?]|(t & Hti & Hsu)]; [done|].
    pose proof Hsu as (E1 & E2 & E3). rewrite E2 in Hne.
    destruct (Htb i t Hti Hne) as (P & rs & unm & HP & Hinv & Htt & Hs & Hown & Hoth).
    destruct (Hp i t t' P rs unm) as [HP' Hinv']; try done; [by rewrite E2|].
    exists P, rs, unm. unfold table_isolates, page_of in *. rewrite E1, E2, E3. split_and!; try done.
    intros j v' Hv' Hji Hne'. destruct (Ht j v' Hv') as [[? _]|(v & Hv & F1 & _)]; [done|].
    rewrite F1 in *. by apply (Hoth j).
Qed.

(** A step that moves only scheduling state. *)
Lemma iso_same s s' :
  isolated s -> num_tasks s' = num_tasks s -> vm s' = vm s ->
  (forall i t', task_at s' i = Some t' -> exists t, task_at s i = Some t /\ same_user t t') -> isolated s'.
Proof.
  intros Hi Hn Hv Ht. eapply iso_frame; [exact Hi|lia| |].
  - intros i t' Ht'. right. by apply Ht.
  - intros i t t' P rs unm _ _ _ _ HP Hinv. by rewrite Hv.
Qed.

Lemma same_user_refl t : same_user t t.
Proof. done. Qed.
Lemma wake_user now t : same_user t (wake now t).
Proof. unfold wake. by case_match. Qed.

Lemma woken_user now s i t' :
  task_at (woken now s) i = Some t' -> exists t, task_at s i = Some t /\ same_user t t'.
Proof.
  rewrite woken_at. case_bool_decide; [|by exists t']. destruct (task_at s i) as [t|]; simpl; intros [= <-].
  exists t. split; [done|apply wake_user].
Qed.

Lemma switched_user now s nxt s' i t' :
  sched_inv s -> switched now s nxt s' -> task_at s' i = Some t' ->
  exists t, task_at s i = Some t /\ same_user t t'.
Proof.
  intros Hi Hsw Ht'. destruct (decide (i = current_task s)) as [->|].
  - destruct (sw_prev _ _ _ _ Hsw) as (u & Hu & Hu'). exists u. split; [done|].
    assert (t' = set_context (branch_link (regs s) schedule_ret) (stopped (wake now u))) as -> by congruence.
    destruct (wake_user now u) as (? & ? & ?). unfold stopped. case_match; by split_and!.
  - destruct (decide (i = nxt)) as [->|].
    + destruct (sw_next _ _ _ _ Hsw) as (u & Hu & _ & Hu' & _). exists u. split; [done|].
      assert (t' = set_state TASK_RUNNING (wake now u)) as -> by congruence. apply wake_user.
    + rewrite (sw_other _ _ _ _ Hsw) in Ht' by done. by eapply woken_user.
Qed.

Lemma schedule_iso now s s' : sched_inv s -> schedule now s = Ret s' -> isolated s -> isolated s'.
Proof.
  intros Hi E Hs. destruct (schedule_spec now s Hi) as (s2 & E2 & _ & Hr). rewrite E in E2. injection E2 as <-.
  destruct Hr as [(nxt & _ & _ & Hsw)|[-> _]].
  - destruct (sw_res _ _ _ _ Hsw). eapply iso_same; [exact Hs|by eapply sw_num|done|]. intros i t'. by eapply switched_user.
  - eapply iso_same; [exact Hs|done|done|]. intros i t'. apply woken_user.
Qed.

Lemma cleanup_iso i t s s' rest :
  res_inv s rest -> task_at s i = Some t -> t_state t <> TASK_UNUSED -> task_cleanup i s = Ret s' ->
  isolated s -> isolated s'.
Proof.
  intros Hr Ht Hu E Hs. destruct (task_cleanup_spec s i t rest Hr Ht Hu) as (m & E2 & _ & Hw & Hp).
  rewrite E in E2. injection E2 as ->. pose proof (task_at_lt _ _ _ Ht).
  assert (forall j, task_at (set_slots (set_vm (put_task s i (dead t)) m) (<[Z.to_nat i:=mk_slot 0 0]> (tinycc_tasks s))) j
    = if decide (i = j) then Some (dead t) else task_at s j) as Hat.
  { intros j. rewrite <- (task_at_put s i j) by done. done. }
  eapply iso_frame; [exact Hs|simpl; lia| |].
  - intros j t' Hj. rewrite Hat in Hj. case_decide; [left; by injection Hj as <-|right; by exists t'].
  - intros j v v' P rs unm Hv Hv' Hpv _ HP Hinv. rewrite Hat in Hv'. case_decide as Ed.
    { by injection Hv' as <-. }
    cbn [vm set_slots set_vm]. rewrite Hw. rewrite (Hp j v Hv) by congruence. done.
Qed.

Lemma create_iso entry name s r s' rest :
  sched_inv s -> res_inv s rest -> name_ok name -> task_create_named entry name s = Ret (r, s') ->
  isolated s -> isolated s'.
Proof.
  intros Hi Hr Hn E Hs. destruct (task_create_spec entry name s rest Hi Hr Hn) as (r2 & s2 & E2 & _ & _ & Hc).
  rewrite E in E2. injection E2 as <- <-.
  destruct Hc as [(_ & -> & _)|(i & t & nm & stack & h & Hir & Ht & _ & _ & Hc)]; [done|].
  pose proof (task_at_lt _ _ _ Ht).
  assert (forall u n h', no_user u -> num_tasks s <= n ->
    isolated (set_num (set_vm (put_task s i u) (set_vheap (vm s) h')) n)) as Hput.
  { intros u n h' Hu Hle.
    assert (forall j, task_at (set_num (set_vm (put_task s i u) (set_vheap (vm s) h')) n) j
      = if decide (i = j) then Some u else task_at s j) as Hat.
    { intros j. rewrite <- (task_at_put s i j) by done. done. }
    eapply iso_frame; [exact Hs|exact Hle| |].
    - intros j t' Hj. rewrite Hat in Hj. case_decide; [left; by injection Hj as <-|right; by exists t'].
    - intros j v v' P rs unm _ _ _ _ HP Hinv. by split. }
  destruct Hc as [(_ & _ & _ & ->)|(_ & _ & ->)].
  - apply (Hput (created i entry stack nm)); [done|lia].
  - replace (set_vm _ _) with (set_num (set_vm (put_task s i (half_created i 0 nm t)) (set_vheap (vm s) h)) (num_tasks s)) by by destruct s.
    apply Hput; [done|lia].
Qed.
End Frame.

(** ** The isolation loop *)
Section Loop.
Context {H : Type} `{AllocatorLaws H} `{CodeAddrs}.
Implicit Types (s : sys H) (t : task_t) (rest : list Z).

Lemma tables_nonnull h mem P rs unm l1' l2' :
  proc_inv mem P rs unm -> owns h (l1' ++ tables P (length rs) ++ l2') ->
  nonnull (l1 P :: l2 P ++ take (Z.to_nat (l3_count P)) (l3 P)) = tables P (length rs).
Proof.
  intros Hinv Ho. rewrite (pi_count _ _ _ _ Hinv), Nat2Z.id. apply (nonnull_owned h).
  rewrite (Permutation_app_comm l1'), <- app_assoc in Ho. by eapply owns_app_l.
Qed.

Lemma tables_nonzero mem P rs unm : proc_inv mem P rs unm ->
  nonnull (l1 P :: l2 P ++ take (Z.to_nat (l3_count P)) (l3 P)) = tables P (length rs).
Proof.
  intros Hinv. rewrite (pi_count _ _ _ _ Hinv), Nat2Z.id. fold (tables P (length rs)).
  pose proof (pi_ok _ _ _ _ Hinv) as Hok. unfold nonnull. induction Hok as [|t l [Ht _] _ IH]; [done|].
  rewrite filter_cons_True by lia. by rewrite IH.
Qed.

(** The stacks of a task, as owned blocks. *)
Definition stacks t : list Z := nonnull [t_stack t] ++ nonnull [t_el1_stack t].

Lemma task_ptrs_proc m mem t P rs unm :
  t_proc t <> 0 -> m !! t_proc t = Some P -> proc_inv mem P rs unm ->
  task_ptrs m t = stacks t ++ t_proc t :: tables P (length rs).
Proof.
  intros Hne HP Hinv. unfold task_ptrs, stacks. rewrite HP, <- app_assoc, (tables_nonzero _ _ _ _ Hinv).
  destruct (Z.eqb_spec (t_proc t) 0); done.
Qed.

(** The process of a task, the rest of the kernel being somebody else's. *)
Lemma task_proc_ok s j t P rs unm rest :
  res_inv s rest -> task_at s j = Some t -> t_proc t <> 0 ->
  procs (vm s) !! t_proc t = Some P -> proc_inv (words (vm s)) P rs unm ->
  proc_ok (vm s) (t_proc t) P rs unm (stacks t ++ others s j rest).
Proof.
  intros Hr Ht Hne HP Hinv. split_and!; [done..|].
  pose proof (ri_owns _ _ Hr) as Ho. rewrite (owned_split s j t rest Ht), (task_ptrs_proc _ _ _ _ _ _ Hne HP Hinv) in Ho.
  eapply owns_perm; [|exact Ho]. solve_Permutation.
Qed.

(** A step of the page tables alone. *)
Lemma res_inv_vm s m rest rest' :
  res_inv s rest ->
  (forall j t, task_at s j = Some t -> t_proc t <> 0 -> exists P, procs m !! t_proc t = Some P /\ proc_shape P) ->
  owns (vheap m) (sys_owned (set_vm s m) rest') -> res_inv (set_vm s m) rest'.
Proof.
  intros [] Hp Ho. split; try done. cbn [tasks set_vm vm]. apply Forall_forall.
  intros t [k Hk]%list_elem_of_lookup_1 Hne. apply (Hp (Z.of_nat k)); [|done].
  apply task_at_Some. rewrite Nat2Z.id. split; [lia|done].
Qed.

Lemma proc_inv_shape mem P rs unm : proc_inv mem P rs unm -> proc_shape P.
Proof.
  intros Hinv. split; [apply Hinv|]. rewrite (pi_count _ _ _ _ Hinv), (pi_l3 _ _ _ _ Hinv).
  pose proof (pi_cap _ _ _ _ Hinv). lia.
Qed.

Lemma task_owned s j t rest p :
  task_at s j = Some t -> p ∈ task_ptrs (procs (vm s)) t -> p ∈ sys_owned s rest.
Proof. intros Ht Hp. rewrite (owned_split s j t rest Ht). apply elem_of_app. by left. Qed.

Lemma proc_elem m t P : t_proc t <> 0 -> m !! t_proc t = Some P -> t_proc t ∈ task_ptrs m t.
Proof.
  intros Hne HP. unfold task_ptrs. rewrite HP. destruct (Z.eqb_spec (t_proc t) 0); [done|].
  rewrite !elem_of_app, elem_of_cons. auto.
Qed.

(** The blocks of tasks whose proc_t objects are kept are the same. *)
Lemma sys_owned_keeps s m rest :
  (forall j t, task_at s j = Some t -> t_proc t <> 0 -> procs m !! t_proc t = procs (vm s) !! t_proc t) ->
  sys_owned (set_vm s m) rest = sys_owned s rest.
Proof.
  intros Hk. unfold sys_owned. cbn [tasks set_vm vm tinycc_tasks]. do 2 f_equal. apply map_ext_in.
  intros t [k Hkt]%list_elem_of_In%list_elem_of_lookup_1. unfold task_ptrs.
  destruct (Z.eqb_spec (t_proc t) 0); [done|]. rewrite (Hk (Z.of_nat k)); [done| |done].
  apply task_at_Some. rewrite Nat2Z.id. split; [lia|done].
Qed.

(** Unmapping in a process that no task has yet. *)
Lemma res_inv_new s m p P rs unm ext rest :
  res_inv s rest -> proc_ok m p P rs unm (sys_owned s ext) -> PageTable.keeps (sys_owned s ext) (vm s) m ->
  res_inv (set_vm s m) (p :: tables P (length rs) ++ ext).
Proof.
  intros Hr (HP & Hinv & Ho) [_ Hk].
  assert (forall j t, task_at s j = Some t -> t_proc t <> 0 -> procs m !! t_proc t = procs (vm s) !! t_proc t) as Hsame.
  { intros j t Ht Hne. apply Hk. pose proof (proj2 (proj1 (task_at_Some s j t) Ht)) as Hlk.
    destruct (Forall_lookup_1 _ _ _ _ (ri_procs _ _ Hr) Hlk Hne) as (Q & HQ & _).
    eapply task_owned; [exact Ht|]. by eapply proc_elem. }
  apply (res_inv_vm _ _ _ _ Hr).
  - intros j t Ht Hne. rewrite (Hsame j t Ht Hne). pose proof (proj2 (proj1 (task_at_Some s j t) Ht)) as Hlk.
    apply (Forall_lookup_1 _ _ _ _ (ri_procs _ _ Hr) Hlk Hne).
  - rewrite (sys_owned_keeps _ _ _ Hsame). eapply owns_perm; [|exact Ho]. unfold sys_owned. solve_Permutation.
Qed.

(** Unmapping in the process of task [j]. *)
Lemma res_inv_task s m j t P rs unm rest :
  res_inv s rest -> task_at s j = Some t -> t_proc t <> 0 ->
  proc_ok m (t_proc t) P rs unm (stacks t ++ others s j rest) -> PageTable.keeps (stacks t ++ others s j rest) (vm s) m ->
  res_inv (set_vm s m) rest
  /\ forall i u, task_at s i = Some u -> i <> j -> t_proc u <> 0 -> t_proc u ∈ stacks t ++ others s j rest.
Proof.
  intros Hr Ht Hne (HP & Hinv & Ho) [_ Hk].
  assert (forall i u, task_at s i = Some u -> i <> j -> t_proc u <> 0 -> t_proc u ∈ stacks t ++ others s j rest) as Hel.
  { intros i u Hu Hij Hnu. pose proof (proj2 (proj1 (task_at_Some s i u) Hu)) as Hlk.
    destruct (Forall_lookup_1 _ _ _ _ (ri_procs _ _ Hr) Hlk Hnu) as (Q & HQ & _).
    apply elem_of_app. right. apply (others_elem s j i u); try done; [by apply task_at_Some in Ht as [? _]|by eapply proc_elem]. }
  split; [|done]. apply (res_inv_vm _ _ _ _ Hr).
  - intros i u Hu Hnu. destruct (decide (i = j)) as [->|Hij].
    + assert (u = t) as -> by congruence. exists P. split; [done|]. by eapply proc_inv_shape.
    + rewrite (Hk _ (Hel i u Hu Hij Hnu)). pose proof (proj2 (proj1 (task_at_Some s i u) Hu)) as Hlk.
      apply (Forall_lookup_1 _ _ _ _ (ri_procs _ _ Hr) Hlk Hnu).
  - rewrite (owned_split (set_vm s m) j t rest Ht). cbn [vm set_vm]. rewrite (task_ptrs_proc _ _ _ _ _ _ Hne HP Hinv).
    assert (others (set_vm s m) j rest = others s j rest) as ->.
    { unfold others. cbn [tasks set_vm vm tinycc_tasks].
      assert (forall l, (forall u, u ∈ l -> u ∈ take (Z.to_nat j) (tasks s) ++ drop (S (Z.to_nat j)) (tasks s)) ->
        map (task_ptrs (procs m)) l = map (task_ptrs (procs (vm s))) l) as Hmap.
      { intros l Hl. apply map_ext_in. intros u Hu%list_elem_of_In. apply Hl, other_tasks in Hu as (i & Hi & Hij).
        unfold task_ptrs. destruct (Z.eqb_spec (t_proc u) 0); [done|]. by rewrite (Hk _ (Hel i u Hi Hij ltac:(done))). }
      rewrite (Hmap (take _ _)), (Hmap (drop _ _)) by set_solver. done. }
    eapply owns_perm; [|exact Ho]. solve_Permutation.
Qed.

Lemma pages_ne a b : a mod 4096 = 0 -> b mod 4096 = 0 -> a <> b -> a / 4096 <> b / 4096.
Proof. intros Ha Hb Hne E. pose proof (Z.div_mod a 4096 ltac:(lia)). pose proof (Z.div_mod b 4096 ltac:(lia)). lia. Qed.

Lemma stack_elem m t : t_el1_stack t <> 0 -> t_el1_stack t ∈ task_ptrs m t.
Proof. intros Hne. unfold task_ptrs. rewrite (nonnull_cons (t_el1_stack t)) by done. rewrite !elem_of_app, elem_of_cons. auto. Qed.

Lemma stack_ne s j t rest p :
  res_inv s rest -> task_at s j = Some t -> t_el1_stack t <> 0 -> p ∈ rest -> t_el1_stack t <> p.
Proof.
  intros Hr Ht Hne Hp Ep. pose proof (ri_owns _ _ Hr) as Ho. rewrite (owned_split s j t rest Ht) in Ho.
  destruct Ho as (_ & Hnd & _). apply NoDup_app in Hnd as (_ & Hd & _).
  apply (Hd (t_el1_stack t)); [by apply stack_elem|]. unfold others. rewrite Ep, !elem_of_app. auto.
Qed.

Lemma table_isolates_keep s m j t P rs unm L :
  table_isolates s j t P rs unm -> PageTable.keeps L (vm s) m ->
  t_proc t ∈ L -> (forall q, q ∈ tables P (length rs) -> q ∈ L) -> table_isolates (set_vm s m) j t P rs unm.
Proof.
  intros (HP & Hinv & Hrest) Hk Hp Hq. split; [|split; [|exact Hrest]].
  - cbn [vm set_vm]. by rewrite (proj2 Hk _ Hp).
  - by eapply keeps_proc_inv.
Qed.

Lemma proc_tables_elem s j t P rs unm q :
  table_isolates s j t P rs unm -> t_proc t <> 0 -> q = t_proc t \/ q ∈ tables P (length rs) ->
  q ∈ task_ptrs (procs (vm s)) t.
Proof.
  intros (HP & Hinv & _) Hne Hq. rewrite (task_ptrs_proc _ _ _ _ _ _ Hne HP Hinv), elem_of_app, elem_of_cons. auto.
Qed.

(** [k] tasks are done: their stacks are out of the new table [pt], and the new
    stack [e] is out of theirs. *)
Record isolating s1 (e id pt root : Z) rest (k : Z) s : Prop := {
  il_vm : s = set_vm s1 (vm s);
  il_new : exists P rs unm, procs (vm s) !! pt = Some P /\ proc_inv (words (vm s)) P rs unm /\ l1 P = root
    /\ zlen rs <= k /\ e / 4096 ∉ unm
    /\ (forall j v, task_at s1 j = Some v -> j < k -> j <> id -> t_el1_stack v <> 0 -> page_of v ∈ unm)
    /\ res_inv s (pt :: tables P (length rs) ++ e :: rest);
  il_tasks : forall j t, task_at s1 j = Some t -> t_proc t <> 0 ->
    exists P rs unm, table_isolates s j t P rs unm /\ (j < k -> e / 4096 ∈ unm) /\ (k <= j -> (length rs < 16)%nat);
  il_pages : pages_left (2 * Z.to_nat (num_tasks s1 - k)) (vheap (vm s))
}.

Lemma isolate_round s1 e id pt root rest k s :
  isolated s1 -> (forall t, task_at s1 id = Some t -> no_user t) -> num_tasks s1 <= 16 ->
  e mod 4096 = 0 -> 0 < e -> e + 4096 <= 2 ^ 32 ->
  length (tasks s1) = 16%nat -> 0 <= k < num_tasks s1 -> isolating s1 e id pt root rest k s ->
  exists s', isolate pt e id k s = Ret s' /\ isolating s1 e id pt root rest (k + 1) s'.
Proof.
  intros Hiso Hid Hn16 Hem He He32 Hlen Hk [Hvm (P & rs & unm & HP & Hinv & Hroot & Hrs & Hen & Hdone & Hres) Htasks Hpages].
  destruct (task_at_ok s1 k) as [t Ht]; [lia|].
  assert (forall j v, task_at s1 j = Some v -> task_at s j = Some v) as Hat by (rewrite Hvm; by intros).
  unfold isolate. rewrite (task_at_get _ _ _ (Hat _ _ Ht)), bind_Ret.
  replace (2 * Z.to_nat (num_tasks s1 - k))%nat with (S (S (2 * Z.to_nat (num_tasks s1 - (k + 1))))) in Hpages by lia.
  destruct (Z.eqb_spec (t_el1_stack t) 0) as [E0|Hne].
  { exists s. split; [done|]. split; [done| | |eapply pages_left_le, Hpages; lia].
    - exists P, rs, unm. split_and!; try done; [lia|]. intros j v Hj Hlt Hji Hv. apply (Hdone j); try done.
      enough (j <> k) by lia. intros ->. assert (v = t) as -> by congruence. done.
    - intros j v Hj Hv. destruct (Htasks j v Hj Hv) as (Q & qs & un & Hq & Hlt & Hge). exists Q, qs, un.
      split; [done|]. split; [|intros; apply Hge; lia]. intros Hjk. destruct (decide (j = k)) as [->|]; [|apply Hlt; lia].
      assert (v = t) as -> by congruence. by destruct Hq as (_ & _ & _ & ? & _). }
  destruct (Z.eqb_spec k id) as [->|Hki].
  { exfalso. destruct (Hid t Ht) as [? _]. done. }
  cbn [negb andb].
  destruct (iso_stack _ Hiso k t Ht Hne) as (_ & Htm & Htp & Ht32).
  assert (t_el1_stack t = page_of t * 4096) as Epg.
  { unfold page_of. pose proof (Z.div_mod (t_el1_stack t) 4096 ltac:(lia)). lia. }
  assert (0 <= page_of t < 2 ^ 20) as Hpg.
  { change (2 ^ 32) with 4294967296 in Ht32. change (2 ^ 20) with 1048576. lia. }
  assert (t_el1_stack t <> e) as Hte.
  { apply (stack_ne s k t (pt :: tables P (length rs) ++ e :: rest)); [done|by apply Hat|done|set_solver]. }
  assert (page_of t <> e / 4096) as Hpe by by apply pages_ne.
  assert (proc_ok (vm s) pt P rs unm (sys_owned s (e :: rest))) as Hpok.
  { split_and!; try done. eapply owns_perm; [|apply (ri_owns _ _ Hres)]. unfold sys_owned. solve_Permutation. }
  destruct (unmap_one_spec (vm s) pt P rs unm _ (page_of t) Hpok Hpg) as (m1 & P1 & rs1 & unm1 & E1 & Hkp1 & Hpok1 & El1 & Hsub1 & Hsup1 & Hlen1 & Hroom1).
  destruct (Hroom1 _ ltac:(lia) Hpages) as [Hin1 Hpages1].
  rewrite <- Epg in E1. rewrite E1, bind_Ret. cbv zeta.
  pose proof (res_inv_new s m1 pt P1 rs1 unm1 (e :: rest) _ Hres Hpok1 Hkp1) as Hres1.
  assert (e / 4096 ∉ unm1) as Hen1 by (intros [?|?]%Hsup1; [done|by apply Hpe]).
  assert (forall j v Q qs un, task_at s1 j = Some v -> t_proc v <> 0 -> table_isolates s j v Q qs un ->
    table_isolates (set_vm s m1) j v Q qs un) as Hkeep1.
  { intros j v Q qs un Hj Hv Hq. eapply table_isolates_keep; [exact Hq|exact Hkp1| |].
    - eapply task_owned; [by apply Hat|]. eapply proc_tables_elem; [exact Hq|done|by left].
    - intros q Hqt. eapply task_owned; [by apply Hat|]. eapply proc_tables_elem; [exact Hq|done|by right]. }
  assert (forall j v, task_at s1 j = Some v -> j < k + 1 -> j <> id -> t_el1_stack v <> 0 -> page_of v ∈ unm1) as Hdone1.
  { intros j v Hj Hlt Hji Hv. destruct (decide (j = k)) as [->|]; [assert (v = t) as -> by congruence; done|].
    apply Hsub1, (Hdone j); (done || lia). }
  destruct Hpok1 as (HP1 & Hinv1 & Ho1).
  destruct (Z.eqb_spec (t_proc t) 0) as [Ep|Hnp].
  { exists (set_vm s m1). split; [done|]. split.
    - rewrite Hvm. done.
    - exists P1, rs1, unm1. split_and!; try done; [congruence|lia].
    - intros j v Hj Hv. destruct (Htasks j v Hj Hv) as (Q & qs & un & Hq & Hlt & Hge). exists Q, qs, un.
      split; [by apply Hkeep1|]. split; [|intros; apply Hge; lia]. intros Hjk.
      destruct (decide (j = k)) as [->|]; [|apply Hlt; lia]. assert (v = t) as -> by congruence. done.
    - eapply pages_left_le, Hpages1. lia. }
  destruct (Htasks k t Ht Hnp) as (Q & qs & un & Hq & _ & Hqcap). pose proof (Hkeep1 _ _ _ _ _ Ht Hnp Hq) as Hq1.
  pose proof Hq1 as (HQ & Hqinv & Hqtt & Hqst & Hqown & Hqoth).
  pose proof (task_proc_ok (set_vm s m1) k t Q qs un _ Hres1 (Hat _ _ Ht) Hnp HQ Hqinv) as Hqok.
  assert (e = e / 4096 * 4096) as Ee by (pose proof (Z.div_mod e 4096 ltac:(lia)); lia).
  assert (0 <= e / 4096 < 2 ^ 20) as Hepg.
  { change (2 ^ 32) with 4294967296 in He32. change (2 ^ 20) with 1048576. lia. }
  destruct (unmap_one_spec _ (t_proc t) Q qs un _ (e / 4096) Hqok Hepg) as (m2 & P2 & rs2 & unm2 & E2 & Hkp2 & Hpok2 & El2 & Hsub2 & Hsup2 & Hlen2 & Hroom2).
  destruct (Hroom2 _ (Hqcap ltac:(lia)) Hpages1) as [Hin2 Hpages2].
  rewrite <- Ee in E2. cbn [vm set_vm]. cbn [vm set_vm] in E2. rewrite E2, bind_Ret. exists (set_vm s m2). split; [done|].
  destruct (res_inv_task (set_vm s m1) m2 k t P2 rs2 unm2 _ Hres1 (Hat _ _ Ht) Hnp Hpok2 Hkp2) as [Hres2 Hel2].
  assert (forall q, q ∈ pt :: tables P1 (length rs1) -> q ∈ stacks t ++ others (set_vm s m1) k (pt :: tables P1 (length rs1) ++ e :: rest)) as Hpt.
  { intros q Hqq. apply elem_of_app. right. unfold others. rewrite !elem_of_app. right. right. right.
    rewrite app_comm_cons. apply elem_of_app. by left. }
  destruct Hpok2 as (HP2 & Hinv2 & _). split.
  - rewrite Hvm. done.
  - exists P1, rs1, unm1. split_and!; try done.
    + cbn [vm set_vm]. rewrite (proj2 Hkp2); [done|]. apply Hpt. by left.
    + eapply keeps_proc_inv; [exact Hkp2|done|]. intros q Hqq. apply Hpt. by right.
    + congruence.
    + lia.
  - intros j v Hj Hv. destruct (decide (j = k)) as [->|Hjk].
    + assert (v = t) as -> by congruence. exists P2, rs2, unm2. split; [|split; [done|lia]].
      split_and!; try done; [congruence| |].
      * intros [?|?]%Hsup2; [done|by apply Hpe].
      * intros i w Hi Hik Hw. apply Hsub2. by apply (Hqoth i).
    + destruct (Htasks j v Hj Hv) as (R & ks & um & Hr & Hlt & Hge). exists R, ks, um. split; [|split; [intros; apply Hlt; lia|intros; apply Hge; lia]].
      pose proof (Hkeep1 _ _ _ _ _ Hj Hv Hr) as Hr1.
      refine (table_isolates_keep (set_vm s m1) m2 j v R ks um _ Hr1 Hkp2 _ _).
      * apply (Hel2 j); [by apply Hat|done|done].
      * intros q Hqq. apply elem_of_app. right. apply (others_elem _ k j v); [lia|by apply Hat|done|].
        eapply proc_tables_elem; [exact Hr1|done|by right].
  - exact Hpages2.
Qed.
End Loop.

(** ** Creating a user task *)
Section CreateUser.
Context {H : Type} `{AllocatorLaws H} `{CodeAddrs}.
Implicit Types (s : sys H) (t : task_t) (rest : list Z) (u : usys H).

Definition kernel_ok s rest : Prop := sys_ok s rest /\ isolated s.

Lemma task_lookup s i t : task_at s i = Some t -> tasks s !! Z.to_nat i = Some t.
Proof. by intros [_ ?]%task_at_Some. Qed.

(** A step of the memory that keeps what the kernel owns. *)
Lemma kernel_ok_vm s m rest rest' :
  kernel_ok s rest ->
  (forall j t, task_at s j = Some t -> t_proc t <> 0 -> procs m !! t_proc t = procs (vm s) !! t_proc t) ->
  (forall j t P rs unm, task_at s j = Some t -> t_proc t <> 0 -> procs (vm s) !! t_proc t = Some P ->
     proc_inv (words (vm s)) P rs unm -> proc_inv (words m) P rs unm) ->
  owns (vheap m) (sys_owned s rest') -> kernel_ok (set_vm s m) rest'.
Proof.
  intros [(Hi & Hr & Hcu) Hs] Hp Hw Ho. split; [split; [by destruct Hi|split; [|exact Hcu]]|].
  - apply (res_inv_vm _ _ _ _ Hr).
    + intros j t Ht Hne. rewrite (Hp j t Ht Hne). apply (Forall_lookup_1 _ _ _ _ (ri_procs _ _ Hr) (task_lookup _ _ _ Ht) Hne).
    + by rewrite (sys_owned_keeps _ _ _ Hp).
  - eapply iso_frame; [exact Hs|done| |].
    + intros i t' Ht'. right. exists t'. by split.
    + intros i t t' P rs unm Ht Ht' Hne _ HP Hinv. assert (t' = t) as -> by (change (task_at s i = Some t') in Ht'; congruence).
      split; [cbn [vm set_vm]; by rewrite (Hp i t)|by eapply Hw].
Qed.

Lemma kernel_ok_heap s h rest rest' :
  kernel_ok s rest -> owns h (sys_owned s rest') -> kernel_ok (set_vm s (set_vheap (vm s) h)) rest'.
Proof. intros Hk Ho. by eapply kernel_ok_vm. Qed.

Lemma kernel_ok_keeps s m ext rest :
  kernel_ok s rest -> PageTable.keeps (sys_owned s ext) (vm s) m -> owns (vheap m) (sys_owned s ext) ->
  kernel_ok (set_vm s m) ext.
Proof.
  intros Hk Hkp Ho. pose proof Hk as [(_ & Hr & _) _]. eapply kernel_ok_vm; [exact Hk| | |exact Ho].
  - intros j t Ht Hne. apply Hkp. destruct (Forall_lookup_1 _ _ _ _ (ri_procs _ _ Hr) (task_lookup _ _ _ Ht) Hne) as (Q & HQ & _).
    eapply task_owned; [exact Ht|]. by eapply proc_elem.
  - intros j t P rs unm Ht Hne HP Hinv. eapply keeps_proc_inv; [exact Hkp|exact Hinv|]. intros q Hq.
    eapply task_owned; [exact Ht|]. rewrite (task_ptrs_proc _ _ _ _ _ _ Hne HP Hinv), elem_of_app, elem_of_cons. auto.
Qed.

Lemma kmalloc_ok s rest :
  kernel_ok s rest ->
  exists e s', sys_kmalloc 4096 4096 s = Ret (e, s')
    /\ (exists h, s' = set_vm s (set_vheap (vm s) h))
    /\ (e = 0 /\ kernel_ok s' rest \/ e <> 0 /\ 0 < e < 2 ^ 48 /\ e mod 4096 = 0 /\ kernel_ok s' (e :: rest)).
Proof.
  intros Hk. pose proof Hk as [(_ & Hr & _) _]. unfold sys_kmalloc.
  destruct (vm_alloc_table (vm s) _ (ri_owns _ _ Hr)) as (e & h & -> & Hres). rewrite bind_Ret. cbv iota beta.
  eexists e, _. split; [reflexivity|]. split; [by eexists|].
  destruct Hres as [(-> & Ho & _)|(Hne & [Hb Hm] & _ & Ho & _)]; [left|right].
  - split; [done|]. by eapply kernel_ok_heap.
  - split_and!; try done; try lia. eapply kernel_ok_heap; [exact Hk|]. eapply owns_perm; [|exact Ho].
    unfold sys_owned. solve_Permutation.
Qed.

Lemma kfree_ok s e rest :
  kernel_ok s (e :: rest) -> e <> 0 ->
  exists s', sys_kfree e s = Ret s' /\ kernel_ok s' rest.
Proof.
  intros Hk Hne. pose proof Hk as [(_ & Hr & _) _].
  destruct (sys_kfree_owned s e (sys_owned s rest)) as (h & E & Ho); [|done|].
  - eapply owns_perm; [|apply (ri_owns _ _ Hr)]. rewrite nonnull_cons by done. unfold sys_owned.
    change (nonnull []) with (@nil Z). solve_Permutation.
  - eexists. split; [exact E|]. by eapply kernel_ok_heap.
Qed.

Lemma kernel_kill id now s rest :
  kernel_ok s rest -> exists r s', task_kill id now s = Ret (r, s') /\ kernel_ok s' rest.
Proof.
  intros [Hok Hs]. destruct (kill_ok id now s rest Hok) as (r & s' & E & Hok'). exists r, s'. split; [done|]. split; [done|].
  clear Hok'. revert E. unfold task_kill. case_match; [by intros [= _ <-]|].
  intros (t & Ht & E)%bind_Ret_inv. destruct ((t_state t =? TASK_UNUSED) || (t_state t =? TASK_DEAD)) eqn:Es; [by injection E as _ <-|].
  apply orb_false_iff in Es as [Eu _]. apply Z.eqb_neq in Eu.
  apply bind_Ret_inv in E as (s1 & E1 & E). apply bind_Ret_inv in E as (s2 & E2 & E). injection E as _ <-.
  assert (task_at s id = Some t) as Hat by by apply task_at_Some, aget_Ret.
  destruct (cleanup_ok id t s rest Hok Hat Eu) as (s1' & E1' & Hok1 & _). rewrite E1 in E1'. injection E1' as <-.
  pose proof (cleanup_iso _ _ _ _ _ (proj1 (proj2 Hok)) Hat Eu E1 Hs) as Hs1.
  case_match; [|by injection E2 as <-]. eapply schedule_iso; [apply Hok1|exact E2|done].
Qed.

(** The task [user_task_create] commits. *)
Definition user_task (e pt root : Z) t : task_t := set_ttbr root (set_proc_ptr pt (set_el1_stack e t)).

Lemma commit_ok s1 s e id pt root rest t :
  kernel_ok s1 (e :: rest) -> task_at s1 id = Some t -> no_user t -> t_state t = TASK_READY -> id < num_tasks s1 ->
  e <> 0 -> 0 < e -> e mod 4096 = 0 -> e + 4096 <= 2 ^ 32 -> pt <> 0 ->
  isolating s1 e id pt root rest (num_tasks s1) s ->
  kernel_ok (put_task s id (user_task e pt root t)) rest.
Proof.
  intros [(Hi & Hr & tc & Htc & Hcu) Hs] Ht Hnu Hst Hidn Hne He Hem He32 Hpt [Hvm (P & rs & unm & HP & Hinv & Hroot & Hrs & Hen & Hdone & Hres) Htasks _].
  pose proof (task_at_lt _ _ _ Ht) as Hlt.
  assert (forall j v, task_at s1 j = Some v -> task_at s j = Some v) as Hat by (rewrite Hvm; by intros).
  assert (tasks s = tasks s1 /\ num_tasks s = num_tasks s1 /\ current_task s = current_task s1) as (Ets & En & Ec) by by rewrite Hvm.
  pose proof Hnu as [Hn1 Hn2].
  assert (t_id t = id) as Htid by (apply (ri_ids _ _ Hr id t Ht); rewrite Hst; done).
  set (t' := user_task e pt root t).
  assert (forall j, task_at (put_task s id t') j = if decide (id = j) then Some t' else task_at s1 j) as Hput.
  { intros j. rewrite task_at_put by (rewrite Ets; done). case_decide; [done|]. unfold task_at. by rewrite Ets. }
  assert (task_ptrs (procs (vm s)) t' = nonnull [t_stack t] ++ e :: pt :: tables P (length rs)) as Eptr.
  { rewrite (task_ptrs_proc _ (words (vm s)) t' P rs unm); [|done|exact HP|exact Hinv].
    unfold stacks. cbn [t' user_task t_stack t_el1_stack t_proc set_ttbr set_proc_ptr set_el1_stack].
    rewrite (nonnull_cons e []) by done. by rewrite <- app_assoc. }
  assert (task_ptrs (procs (vm s)) t = nonnull [t_stack t]) as Eptr0.
  { unfold task_ptrs. rewrite Hn1, Hn2. by rewrite app_nil_r. }
  assert (res_inv (put_task s id t') rest) as Hr'.
  { split.
    - change (vm (put_task s id t')) with (vm s). eapply owns_perm; [|apply (ri_owns _ _ Hres)].
      rewrite (owned_split s id t _ (Hat _ _ Ht)), (owned_put s id t t' _ (Hat _ _ Ht)), Eptr, Eptr0.
      unfold others. solve_Permutation.
    - apply Hres.
    - change (tasks (put_task s id t')) with (<[Z.to_nat id:=t']> (tasks s)). apply Forall_insert; [apply (ri_procs _ _ Hres)|].
      intros _. exists P. split; [exact HP|by eapply proc_inv_shape].
    - intros j v Hj Hv. rewrite Hput in Hj. case_decide as Ed; [|by apply (ri_ids _ _ Hr j v)].
      injection Hj as <-. by subst j.
    - cbn [tasks put_task set_tasks]. rewrite length_insert, Ets. apply Hr. }
  split; [split; [|split; [exact Hr'|]]|split].
  - assert (sched_inv s) as Hi' by (rewrite Hvm; by destruct Hi).
    apply (sched_inv_put s id t); [done|by apply Hat| |].
    + exact (sched_inv_name s1 _ _ Hi Ht).
    + change (t_state t') with (t_state t). rewrite Hst. done.
  - unfold cur_used. change (current_task (put_task s id t')) with (current_task s). rewrite Hput, Ec.
    case_decide; [exists t'; split; [done|change (t_state t') with (t_state t); by rewrite Hst]|by exists tc].
  - intros j v Hj Hv. change (num_tasks (put_task s id t')) with (num_tasks s). rewrite Hput in Hj. rewrite En.
    case_decide as Ed; [injection Hj as <-; subst j; by split_and!|]. by apply (iso_stack _ Hs).
  - intros j v Hj Hv. rewrite Hput in Hj. case_decide as Ed.
    + injection Hj as <-. subst j. exists P, rs, unm. split_and!; try done.
      intros i w Hw Hne'. rewrite Hput, decide_False in Hw by done. intros Hwe.
      apply (Hdone i w Hw); try done. by apply (iso_stack _ Hs i w).
    + destruct (Htasks j v Hj Hv) as (Q & qs & un & Hq & Hin & _). exists Q, qs, un.
      pose proof Hq as (HQ & Hqinv & Hqtt & Hqst & Hqown & Hqoth). split_and!; try done.
      intros i w Hw Hij Hwe. rewrite Hput in Hw. case_decide as Ed2; [|by apply (Hqoth i); [apply Hat|..]].
      injection Hw as <-. apply Hin. by apply (iso_stack _ Hs j v Hj).
Qed.

Lemma kernel_create entry name s rest :
  kernel_ok s rest -> name_ok name ->
  exists r s', task_create_named entry name s = Ret (r, s') /\ kernel_ok s' rest
    /\ (r = -1 \/ 1 <= r < num_tasks s' /\ num_tasks s' <= 16 /\ procs (vm s') = procs (vm s)
        /\ (exists t, task_at s' r = Some t /\ no_user t /\ t_state t = TASK_READY)
        /\ forall j, j <> r -> task_at s' j = task_at s j).
Proof.
  intros [Hok Hs] Hn. pose proof Hok as (Hi & Hr & _).
  destruct (create_ok entry name s rest Hok Hn) as (r & s' & E & Hok').
  exists r, s'. split; [done|]. split; [split; [done|by eapply create_iso]|].
  destruct (task_create_spec entry name s rest Hi Hr Hn) as (r2 & s2 & E2 & Hi2 & _ & Hc).
  rewrite E in E2. injection E2 as <- <-.
  destruct Hc as [(-> & _)|(i & t & nm & stack & h & Hir & Ht & _ & _ & [(-> & _ & _ & ->)|(-> & _)])]; [by left|right|by left].
  pose proof (task_at_lt _ _ _ Ht). cbn [num_tasks set_num]. split; [lia|].
  split; [apply (si_num _ Hi2)|]. split; [done|].
  assert (forall j, task_at (set_num (set_vm (put_task s i (created i entry stack nm)) (set_vheap (vm s) h)) (num_tasks s `max` (i + 1))) j
    = if decide (i = j) then Some (created i entry stack nm) else task_at s j) as Hat.
  { intros j. rewrite <- (task_at_put s i j) by done. done. }
  split.
  - exists (created i entry stack nm). rewrite Hat, decide_True by done. done.
  - intros j Hj. rewrite Hat. by rewrite decide_False.
Qed.

(** What [user_task_create] needs not to run out: a stack below 4 GB, pages for
    the new tables and one more for every table it breaks up, and a free slot
    in every process. *)
Definition create_room (wrapper : Z) (name : option (list Z)) s : Prop :=
  (forall e s1 id s2, sys_kmalloc 4096 4096 s = Ret (e, s1) -> task_create_named wrapper name s1 = Ret (id, s2) ->
     e + 4096 <= 2 ^ 32 /\ proc_room 37 (vheap (vm s2)))
  /\ forall j t P, task_at s j = Some t -> t_proc t <> 0 -> procs (vm s) !! t_proc t = Some P -> l3_count P < 16.

Lemma isolating_start s e id pt P m rest t :
  kernel_ok s (e :: rest) -> task_at s id = Some t -> no_user t ->
  (forall j v Q, task_at s j = Some v -> t_proc v <> 0 -> procs (vm s) !! t_proc v = Some Q -> l3_count Q < 16) ->
  proc_ok m pt P [] ∅ (sys_owned s (e :: rest)) -> PageTable.keeps (sys_owned s (e :: rest)) (vm s) m ->
  pages_left 32 (vheap m) -> num_tasks s <= 16 ->
  isolating (set_vm s m) e id pt (l1 P) rest 0 (set_vm s m).
Proof.
  intros Hk Ht Hnu Hcap Hpok Hkp Hpages Hn. pose proof Hk as [(Hi & Hr & _) Hs].
  pose proof Hpok as (HP & Hinv & Ho). split.
  - done.
  - exists P, [], ∅. split; [done|]. split; [done|]. split; [done|]. split; [done|]. split; [apply not_elem_of_empty|]. split.
    + intros j v [Hj _]%task_at_Some Hlt. lia.
    + by eapply res_inv_new.
  - intros j v Hj Hv. change (task_at s j = Some v) in Hj.
    destruct (iso_table _ Hs j v Hj Hv) as (Q & qs & un & Hq). exists Q, qs, un.
    pose proof Hq as (HQ & Hqinv & _). split; [|split; [intros Hjl; by apply task_at_Some in Hj as [? _]; lia|]].
    + refine (table_isolates_keep s m j v Q qs un _ Hq Hkp _ _).
      * eapply task_owned; [exact Hj|]. eapply proc_tables_elem; [exact Hq|done|by left].
      * intros q Hqq. eapply task_owned; [exact Hj|]. eapply proc_tables_elem; [exact Hq|done|by right].
    + intros _. pose proof (Hcap j v Q Hj Hv HQ) as Hc. rewrite (pi_count _ _ _ _ Hqinv) in Hc. lia.
  - cbn [vm set_vm num_tasks]. eapply pages_left_le, Hpages. lia.
Qed.

Definition user_ok u rest : Prop := kernel_ok (kern u) rest /\ length (user_ctxs u) = 16%nat.

Lemma user_create_ok wrapper fn name now u rest :
  user_ok u rest -> name_ok name -> create_room wrapper name (kern u) ->
  exists r u', user_task_create true wrapper fn name now u = Ret (r, u') /\ user_ok u' rest
    /\ (r = -1 \/ exists t, task_at (kern u') r = Some t /\ t_state t = TASK_READY /\ t_proc t <> 0 /\ t_el1_stack t <> 0
          /\ user_ctxs u' !! Z.to_nat r = Some (mk_uctx fn (t_el1_stack t + 4096))).
Proof.
  intros [Hk Hul] Hn [Hroom Hcap]. unfold user_task_create.
  destruct (kmalloc_ok (kern u) rest Hk) as (e & s1 & E1 & (h1 & Es1) & Hres). rewrite E1, bind_Ret. cbv iota beta.
  destruct Hres as [[-> Hk1]|(Hne & Heb & Hem & Hk1)].
  { exists (-1), (set_kern u s1). split; [done|]. split; [by split|by left]. }
  destruct (Z.eqb_spec e 0); [done|]. cbv zeta.
  destruct (kernel_create wrapper name s1 (e :: rest) Hk1 Hn) as (id & s2 & E2 & Hk2 & Hid). rewrite E2, bind_Ret. cbv iota beta.
  destruct Hid as [->|(Hidr & Hn16 & Hprocs & (t & Ht & Hnu & Hst) & Hother)].
  { destruct (kfree_ok s2 e rest Hk2 Hne) as (s3 & E3 & Hk3). cbn [Z.ltb Z.compare]. rewrite E3, bind_Ret.
    exists (-1), (set_kern u s3). split; [done|]. split; [by split|by left]. }
  destruct (Z.ltb_spec id 0); [lia|]. cbn [negb].
  destruct (Hroom e s1 id s2 E1 E2) as [He32 Hpr].
  destruct (proc_create_spec (vm s2) _ (ri_owns _ _ (proj1 (proj2 (proj1 Hk2))))) as (pt & m & E3 & Hkp & Hroom3 & Hres).
  rewrite E3, bind_Ret. cbv iota beta zeta. destruct (Hroom3 32%nat Hpr) as [Hptn Hpages].
  destruct (Z.eqb_spec pt 0); [done|]. destruct Hres as [[? _]|[P Hpok]]; [done|].
  assert (kernel_ok (set_vm s2 m) (e :: rest)) as Hk3.
  { eapply kernel_ok_keeps; [exact Hk2|exact Hkp|]. destruct Hpok as (_ & _ & Ho).
    apply (owns_app_l _ _ (pt :: tables P 0)). eapply owns_perm; [|exact Ho]. simpl length. solve_Permutation. }
  pose proof Hk3 as [(Hi3 & _) Hs3].
  assert (isolating (set_vm s2 m) e id pt (l1 P) rest 0 (set_vm s2 m)) as Hstart.
  { eapply isolating_start; try done. intros j v Q Hj Hv HQ. destruct (decide (j = id)) as [->|Hji].
    - assert (v = t) as -> by congruence. by destruct Hnu.
    - rewrite Hother in Hj by done. rewrite Hprocs in HQ. apply (Hcap j v); [|done|].
      + rewrite Es1 in Hj. exact Hj.
      + rewrite Es1 in HQ. exact HQ. }
  destruct (for_range_ind (isolating (set_vm s2 m) e id pt (l1 P) rest) 0 (num_tasks (set_vm s2 m)) (isolate pt e id) (set_vm s2 m))
    as (s4 & E4 & Hend); [cbn [num_tasks set_vm]; lia|done| |].
  { intros k s' Hkr Hil. apply (isolate_round (set_vm s2 m)); try done; [|lia|apply Hi3].
    intros t' Ht'. change (task_at s2 id = Some t') in Ht'. assert (t' = t) as -> by congruence. done. }
  rewrite E4, bind_Ret. rewrite aset_ok, bind_Ret by (rewrite Hul; lia).
  assert (task_at s4 id = Some t) as Ht4 by (rewrite (il_vm _ _ _ _ _ _ _ _ Hend); exact Ht).
  pose proof (task_at_lt _ _ _ Ht4) as Hlt4.
  assert (forall v, task_at (put_task s4 id v) id = Some v) as Hput.
  { intros v. rewrite task_at_put by done. by rewrite decide_True. }
  rewrite (upd_task_ok _ _ _ _ Ht4), bind_Ret, (upd_task_ok _ _ _ _ (Hput _)), bind_Ret, put_put.
  pose proof (il_new _ _ _ _ _ _ _ _ Hend) as (P4 & rs4 & unm4 & HP4 & _ & Hroot & _).
  unfold proc_ttbr0. cbn [vm put_task set_tasks]. rewrite (load_proc_ok _ _ _ HP4), !bind_Ret, Hroot.
  rewrite (upd_task_ok _ _ _ _ (Hput _)), bind_Ret, put_put.
  exists id. eexists. split; [reflexivity|]. split; [split|].
  - cbn [kern]. refine (commit_ok (set_vm s2 m) s4 e id pt (l1 P) rest t Hk3 _ Hnu Hst _ Hne _ Hem He32 Hptn Hend);
      [exact Ht|cbn [num_tasks set_vm]; lia|lia].
  - cbn [user_ctxs]. by rewrite length_insert.
  - right. cbn [kern user_ctxs]. eexists. split; [apply Hput|]. split_and!; try done.
    rewrite list_lookup_insert_eq by lia. cbn [t_el1_stack set_ttbr set_proc_ptr set_el1_stack]. f_equal. f_equal.
    change (2 ^ 48) with 281474976710656 in Heb. rewrite u64_small; [done|lia].
Qed.

(** *** A fault kills the task that made it *)

(** The task after its fault. *)
Definition faulted t : task_t := set_ttbr 0 (set_proc_ptr 0 (set_el1_stack 0 (set_state TASK_DEAD t))).

Lemma segv_ok now s rest :
  kernel_ok s rest ->
  exists s', segv_kill now s = Ret s' /\ kernel_ok s' rest
    /\ exists t s4, task_at s (current_task s) = Some t /\ sched_inv s4 /\ schedule now s4 = Ret s'
       /\ current_task s4 = current_task s /\ num_tasks s4 = num_tasks s
       /\ forall j, task_at s4 j = if decide (current_task s = j) then Some (faulted t) else task_at s j.
Proof.
  intros [(Hi & Hr & t & Ht & Hu) Hs]. pose proof (task_at_lt _ _ _ Ht) as Hlt. unfold segv_kill. set (i := current_task s) in *.
  rewrite (upd_task_ok _ _ _ _ Ht), bind_Ret. set (t1 := set_state TASK_DEAD t). set (s1 := put_task s i t1).
  assert (forall s0 v, length (tasks s0) = 16%nat -> task_at (put_task s0 i v) i = Some v) as Hput.
  { intros s0 v Hl0. rewrite (ri_len _ _ Hr) in Hlt. rewrite task_at_put by lia. by rewrite decide_True. }
  assert (task_at s1 i = Some t1) as Ht1 by (apply Hput, Hr).
  assert (res_inv s1 rest) as Hr1.
  { apply (res_inv_same s); try done; [cbn [s1 tasks put_task set_tasks]; rewrite length_insert; apply Hr|].
    intros j v v' Hv Hv'. unfold s1 in Hv'. rewrite task_at_put in Hv' by done. case_decide as Ed.
    - injection Hv' as <-. subst j. assert (v = t) as -> by congruence. by split_and!.
    - assert (v' = v) as -> by congruence. apply same_blocks_refl. }
  rewrite (task_at_get _ _ _ Ht1), bind_Ret.
  destruct (release_field s1 i t1 (t_el1_stack t1) (set_el1_stack 0) rest Hr1 Ht1) as (h2 & E2 & Hr2); try done.
  { unfold task_ptrs. cbn [t_stack t_el1_stack t_proc set_el1_stack]. change (nonnull [0]) with (@nil Z). solve_Permutation. }
  { unfold t1. intros E. simpl in E. destruct t; simpl in *; by subst. }
  rewrite E2, bind_Ret. set (t2 := set_el1_stack 0 t1) in *. set (s2 := set_vm (put_task s1 i t2) _) in *.
  assert (task_at s2 i = Some t2) as Ht2 by (apply (Hput s1), Hr1).
  destruct (release_proc s2 i t2 rest Hr2 Ht2) as (m & E3 & Hr3 & Hw3 & Hp3); [done|].
  change (t_proc t2) with (t_proc t1) in E3. rewrite E3, bind_Ret.
  set (s3 := set_vm (put_task s2 i (set_proc_ptr 0 t2)) m) in *.
  assert (task_at s3 i = Some (set_proc_ptr 0 t2)) as Ht3 by (apply (Hput s2), Hr2).
  rewrite (upd_task_ok _ _ _ _ Ht3), bind_Ret. set (t4 := set_ttbr 0 (set_proc_ptr 0 t2)). set (s4 := put_task s3 i t4).
  assert (s4 = set_vm (put_task s i t4) m) as E4.
  { unfold s4, s3, s2, s1. by rewrite !put_set_vm, !put_put. }
  assert (forall j, task_at s4 j = if decide (i = j) then Some t4 else task_at s j) as Hat.
  { intros j. rewrite E4. rewrite <- (task_at_put s i j) by done. done. }
  assert (sys_ok s4 rest) as Hok4.
  { split; [|split].
    - assert (sched_inv (put_task s i t4)) as Hi4.
      { apply (sched_inv_put s i t); [done|done| |done]. by apply (sched_inv_name s i t). }
      rewrite E4. by destruct Hi4.
    - apply (res_inv_same s3); try done; [unfold s4; cbn [tasks put_task set_tasks]; rewrite length_insert; apply Hr3|].
      intros j v v' Hv Hv'. unfold s4 in Hv'. rewrite task_at_put in Hv' by (apply task_at_lt in Ht3; done). case_decide as Ed.
      + injection Hv' as <-. subst j. assert (v = set_proc_ptr 0 t2) as -> by congruence. by split_and!.
      + assert (v' = v) as -> by congruence. apply same_blocks_refl.
    - unfold cur_used. assert (current_task s4 = i) as -> by by rewrite E4. exists t4. split; [|done]. by rewrite Hat, decide_True. }
  assert (isolated s4) as Hs4.
  { eapply iso_frame; [exact Hs|rewrite E4; done| |].
    - intros j v' Hj. rewrite Hat in Hj. case_decide; [left; by injection Hj as <-|right; by exists v'].
    - intros j v v' P rs unm Hv Hv' Hpv _ HP Hinv. rewrite Hat in Hv'. case_decide as Ed; [by injection Hv' as <-|].
      assert (vm s4 = m) as -> by by rewrite E4. rewrite Hw3. split; [|done].
      rewrite (Hp3 j v); [done| |congruence].
      change (task_at (put_task (put_task s i t1) i t2) j = Some v). rewrite put_put, task_at_put by done. by rewrite decide_False. }
  destruct (schedule_ok now s4 rest Hok4) as (s5 & E5 & Hok5). exists s5. split; [done|]. split.
  { split; [done|]. eapply schedule_iso; [apply Hok4|exact E5|done]. }
  exists t, s4. split; [done|]. split; [apply Hok4|]. split; [done|]. split; [by rewrite E4|]. split; [by rewrite E4|exact Hat].
Qed.

(** *** Entering EL1 *)

Lemma wrapper_ok vectors u rest :
  user_ok u rest ->
  exists u' t, user_task_wrapper true vectors u = Ret u' /\ user_ok u' rest
    /\ task_at (kern u) (current_task (kern u)) = Some t /\ tasks (kern u') = tasks (kern u)
    /\ vm (kern u') = vm (kern u)
    /\ (t_ttbr0_el1 t <> 0 -> TTBR0_EL1 (kern u') = t_ttbr0_el1 t /\ SCTLR_EL1 (el1 u') = 0x1005)
    /\ (t_ttbr0_el1 t = 0 -> SCTLR_EL1 (el1 u') = 0)
    /\ exists c, user_ctxs u !! Z.to_nat (current_task (kern u)) = Some c /\ ELR_EL2 (el1 u') = u_fn c /\ SP_EL1 (el1 u') = u_sp c.
Proof.
  intros [Hk Hul]. pose proof Hk as [(Hi & Hr & t & Ht & Hu) Hs]. unfold user_task_wrapper, task_current.
  rewrite (task_at_get _ _ _ Ht), bind_Ret, (ri_ids _ _ Hr _ _ Ht Hu).
  pose proof (si_cur _ Hi) as Hc. pose proof (si_num _ Hi) as Hn.
  destruct (lookup_lt_is_Some_2 (user_ctxs u) (Z.to_nat (current_task (kern u)))) as [c Hlk]; [lia|].
  rewrite (aget_lookup _ _ c), bind_Ret by (done || lia). rewrite bind_Ret. unfold user_enter_el1, task_current. cbn [kern].
  rewrite (task_at_get _ _ _ Ht), bind_Ret.
  destruct (Z.eqb_spec (t_ttbr0_el1 t) 0) as [E0|Hne]; cbn [negb].
  - eexists _, t. split; [reflexivity|]. split; [by split|]. cbn [kern el1 SCTLR_EL1 ELR_EL2 SP_EL1].
    split_and!; try done. by exists c.
  - eexists _, t. split; [reflexivity|]. split.
    { split; [|done]. destruct Hk as [(Hi' & Hr' & Hcu) [Hs1 Hs2]]. cbn [kern]. split; [split; [by destruct Hi'|split; [by destruct Hr'|exact Hcu]]|by split]. }
    cbn [kern el1 SCTLR_EL1 ELR_EL2 SP_EL1 set_ttbr0_reg TTBR0_EL1]. split_and!; try done. by exists c.
Qed.
End CreateUser.

(** ** The system with user tasks *)
Section UserSystem.
Context {H : Type} `{AllocatorLaws H} `{CodeAddrs}.
Implicit Types (s : sys H) (u : usys H) (rest : list Z).

(** Any operation of the kernel, the creation of a user task with room for it,
    its entry into EL1, or its death by a fault. *)
Inductive user_step (wrapper vectors : Z) u : usys H -> Prop :=
| us_kernel s' : sys_step (kern u) s' -> user_step wrapper vectors u (set_kern u s')
| us_create fn name now r u' : name_ok name -> create_room wrapper name (kern u) ->
    user_task_create true wrapper fn name now u = Ret (r, u') -> user_step wrapper vectors u u'
| us_enter u' : user_task_wrapper true vectors u = Ret u' -> user_step wrapper vectors u u'
| us_segv now s' : segv_kill now (kern u) = Ret s' -> user_step wrapper vectors u (set_kern u s').

Lemma iso_put_sched s i t t' :
  task_at s i = Some t -> same_user t t' -> isolated s -> isolated (put_task s i t').
Proof.
  intros Ht Hsu Hs. pose proof (task_at_lt _ _ _ Ht). eapply iso_same; [exact Hs|done|done|].
  intros j v Hj. rewrite task_at_put in Hj by done. case_decide as Ed; [|by exists v].
  injection Hj as <-. subst j. by exists t.
Qed.

Lemma sys_step_iso s s' rest : sys_step s s' -> kernel_ok s rest -> kernel_ok s' rest.
Proof.
  intros Hstep [Hok Hs]. split; [by eapply sys_step_ok|].
  destruct Hstep as [entry name r s' Hn E|id now r s' E|now s' E|hz ms now later s' E|now s' E|r].
  - eapply create_iso; [apply Hok|apply Hok|exact Hn|exact E|done].
  - destruct (kernel_kill id now s rest (conj Hok Hs)) as (r2 & s2 & E2 & _ & Hs2). rewrite E in E2. by injection E2 as _ <-.
  - unfold task_exit in E. apply bind_Ret_inv in E as (s1 & E1 & E). pose proof Hok as (Hi & Hr & t & Ht & Hu).
    destruct (cleanup_ok _ t s rest Hok Ht Hu) as (s1' & E1' & Hok1 & _). rewrite E1 in E1'. injection E1' as <-.
    eapply schedule_iso; [apply Hok1|exact E|]. by eapply cleanup_iso.
  - unfold task_sleep_ms in E. pose proof Hok as (Hi & Hr & t & Ht & Hu). pose proof (task_at_lt _ _ _ Ht).
    rewrite (upd_task_ok _ _ _ _ Ht), bind_Ret in E. set (t1 := set_state TASK_SLEEPING t) in *.
    assert (task_at (put_task s (current_task s) t1) (current_task s) = Some t1) as Ht1.
    { rewrite task_at_put by done. by rewrite decide_True. }
    change (current_task (put_task s (current_task s) t1)) with (current_task s) in E.
    rewrite (upd_task_ok _ _ _ _ Ht1), bind_Ret, put_put in E.
    eapply schedule_iso; [|exact E|by eapply iso_put_sched].
    apply (sched_inv_put s (current_task s) t); [done|done|exact (sched_inv_name s _ t Hi Ht)|done].
  - eapply schedule_iso; [apply Hok|exact E|done].
  - eapply iso_same; [exact Hs|done|done|]. intros i t' Ht'. exists t'. by split.
Qed.

Lemma user_step_ok wrapper vectors u u' rest :
  user_step wrapper vectors u u' -> user_ok u rest -> user_ok u' rest.
Proof.
  intros Hstep Hok. destruct Hstep as [s' Hs|fn name now r u' Hn Hroom E|u' E|now s' E].
  - destruct Hok as [Hk Hl]. split; [by eapply sys_step_iso|done].
  - destruct (user_create_ok wrapper fn name now u rest Hok Hn Hroom) as (r2 & u2 & E2 & Hok2 & _).
    rewrite E in E2. by injection E2 as _ <-.
  - destruct (wrapper_ok vectors u rest Hok) as (u2 & t & E2 & Hok2 & _). rewrite E in E2. by injection E2 as <-.
  - destruct Hok as [Hk Hl]. destruct (segv_ok now (kern u) rest Hk) as (s2 & E2 & Hk2 & _). rewrite E in E2.
    injection E2 as <-. by split.
Qed.

Lemma user_run_ok wrapper vectors u u' rest :
  rtc (user_step wrapper vectors) u u' -> user_ok u rest -> user_ok u' rest.
Proof. induction 1; eauto using user_step_ok. Qed.

Lemma init_user_ok u s rest :
  owns (vheap (vm (kern u))) rest -> tinycc_tasks (kern u) = replicate 16 (mk_slot 0 0) ->
  length (user_ctxs u) = 16%nat -> task_init (kern u) = Ret s -> user_ok (set_kern u s) rest.
Proof.
  intros Ho Ht Hl E. destruct (init_ok (kern u) rest Ho Ht) as (s' & E' & Hok & _). rewrite E in E'. injection E' as <-.
  split; [|done]. split; [exact Hok|]. cbn [kern set_kern].
  assert (Forall no_user (tasks s)) as Hno.
  { destruct (kern u) as [ts c n r tt sl m]. vm_compute in E. injection E as <-. cbn [tasks]. by repeat constructor. }
  assert (forall i t, task_at s i = Some t -> no_user t) as Hat.
  { intros i t Hi%task_lookup. exact (Forall_lookup_1 _ _ _ _ Hno Hi). }
  split; intros i t Hi; by destruct (Hat i t Hi).
Qed.

(** What the tables of a task do to an address of a stack. *)
Lemma isolated_walk s i t x :
  isolated s -> task_at s i = Some t -> t_proc t <> 0 ->
  (t_el1_stack t <= x < t_el1_stack t + 4096 ->
     walk (words (vm s)) (t_ttbr0_el1 t) x = Some (x, attr_of x))
  /\ forall j v, task_at s j = Some v -> j <> i -> t_el1_stack v <> 0 ->
       t_el1_stack v <= x < t_el1_stack v + 4096 -> walk (words (vm s)) (t_ttbr0_el1 t) x = None.
Proof.
  intros Hs Ht Hp. destruct (iso_table _ Hs i t Ht Hp) as (P & rs & unm & HP & Hinv & -> & Hne & Hown & Hoth).
  assert (forall v j, task_at s j = Some v -> t_el1_stack v <> 0 -> t_el1_stack v <= x < t_el1_stack v + 4096 ->
    0 <= x < 2 ^ 32 /\ x / 2 ^ 12 = page_of v) as Hpg.
  { intros v j Hv Hvn Hx. destruct (iso_stack _ Hs j v Hv Hvn) as (_ & Hm & Hpos & H32).
    split; [lia|]. change (2 ^ 12) with 4096. unfold page_of. pose proof (Z.div_mod (t_el1_stack v) 4096 ltac:(lia)).
    symmetry. apply (Z.div_unique _ _ _ (x - t_el1_stack v)); lia. }
  split.
  - intros Hx. destruct (Hpg t i Ht Hne Hx) as [H32 E]. rewrite (walk_inv _ _ _ _ Hinv x H32), E. by rewrite bool_decide_false.
  - intros j v Hv Hji Hvn Hx. destruct (Hpg v j Hv Hvn Hx) as [H32 E]. rewrite (walk_inv _ _ _ _ Hinv x H32), E.
    rewrite bool_decide_true; [done|]. by apply (Hoth j).
Qed.
End UserSystem.

(** ** Properties *)


(** *** Examples *)

(** [create_room] decided on a concrete kernel. *)
Definition has_room `{CodeAddrs} (wrapper : Z) (name : option (list Z)) (s : sys heap) : bool :=
  match sys_kmalloc 4096 4096 s with
  | Ret (e, s1) =>
    match task_create_named wrapper name s1 with
    | Ret (_, s2) => (e + 4096 <=? 2 ^ 32) && heap_room 37 (vheap (vm s2))
    | _ => false
    end
  | _ => false
  end
  && forallb (fun t => match procs (vm s) !! t_proc t with Some P => l3_count P <? 16 | None => true end) (tasks s).

Lemma has_room_ok `{CodeAddrs} wrapper name (s : sys heap) : has_room wrapper name s = true -> create_room wrapper name s.
Proof.
  unfold has_room. intros [Ha Hb]%andb_true_iff. split.
  - intros e s1 id s2 E1 E2. rewrite E1, E2 in Ha. apply andb_true_iff in Ha as [He Hr].
    split; [by apply Z.leb_le|by apply heap_proc_room].
  - intros j t P [Hj Ht]%task_at_Some _ HP. rewrite forallb_forall in Hb.
    assert (In t (tasks s)) as Hin by (by eapply list_elem_of_In, list_elem_of_lookup_2).
    specialize (Hb t Hin). rewrite HP in Hb. by apply Z.ltb_lt.
Qed.

(** A kernel with 1 MB of heap. *)
Definition user_boot : usys heap :=
  mk_usys (mk_sys [] 0 0 zero_context 0 (replicate 16 (mk_slot 0 0)) (mk_vm (alloc_init 65536 1114112 (mk_cpu 0)) ∅ ∅))
    (replicate 16 (mk_uctx 0 0)) (mk_el1 0 0 0 0 0 0 0 0) (mk_uart [] 0 [] [] ∅ [] 0 0).

Definition booted : usys heap :=
  match task_init (kern user_boot) with Ret s => set_kern user_boot s | _ => user_boot end.
Definition spawn_user (fn : Z) (u : usys heap) : usys heap :=
  match user_task_create true 0x80300 fn (Some (lit "user")) 0 u with Ret (_, u) => u | _ => u end.
Definition one_user : usys heap := spawn_user 0x5000 booted.
Definition two_users : usys heap := spawn_user 0x6000 one_user.

Lemma user_boot_owns : owns (vheap (vm (kern user_boot))) [].
Proof.
  split_and!; [|constructor|constructor]. exists 65536, [], []. by apply alloc_init_inv.
Qed.

Lemma user_rooms : has_room 0x80300 (Some (lit "user")) (kern booted) && has_room 0x80300 (Some (lit "user")) (kern one_user)
  && match task_at (kern two_users) 1, task_at (kern two_users) 2 with
     | Some t, Some v => negb (t_proc t =? 0) && negb (t_el1_stack v =? 0) | _, _ => false end = true.
Proof. vm_compute. reflexivity. Qed.

Lemma user_name_ok : name_ok (Some (lit "user")).
Proof. unfold name_ok, terminated, lit. set_solver. Qed.

Lemma spawn_step fn (u : usys heap) :
  user_ok u [] -> create_room 0x80300 (Some (lit "user")) (kern u) ->
  user_step 0x80300 0x80400 u (spawn_user fn u) /\ user_ok (spawn_user fn u) [].
Proof.
  intros Hok Hr. destruct (user_create_ok 0x80300 fn _ 0 u [] Hok user_name_ok Hr) as (r & u' & E & Hok' & _).
  unfold spawn_user. rewrite E. split; [|done]. eapply us_create; [apply user_name_ok|exact Hr|exact E].
Qed.

Lemma two_users_run : exists s, task_init (kern user_boot) = Ret s
  /\ rtc (user_step 0x80300 0x80400) (set_kern user_boot s) two_users.
Proof.
  destruct (init_ok (kern user_boot) [] user_boot_owns eq_refl) as (s & E & _).
  exists s. split; [exact E|]. pose proof (init_user_ok user_boot s [] user_boot_owns eq_refl eq_refl E) as H0.
  assert (set_kern user_boot s = booted) as Eb by (unfold booted; by rewrite E). rewrite Eb in *.
  pose proof user_rooms as Hr. apply andb_true_iff in Hr as [Hr _]. apply andb_true_iff in Hr as [H1 H2].
  destruct (spawn_step 0x5000 booted H0 (has_room_ok _ _ _ H1)) as [S1 Ok1].
  destruct (spawn_step 0x6000 one_user Ok1 (has_room_ok _ _ _ H2)) as [S2 _].
  eapply rtc_l; [exact S1|]. eapply rtc_l; [exact S2|]. apply rtc_refl.
Qed.

