(* ===== verification/Cpu.v ===== *)
(** cpu.c, syscall.c and the exception vectors: what happens on an exception.

    [machine] is the kernel with its user tasks (User.v), the file system on the
    same heap, the tick counter, the bytes EL1 pointers and frame pointers refer
    to ([umem]) and the interrupt masks.  [bytes_at] is the object a pointer from
    a register leads to: the bytes from there to the next hole.

    The exception frame is the list of 34 words SAVE_CONTEXT stores: x0-x30,
    ELR, ESR and FAR.  A handler that reschedules goes on when its task runs
    again; what it still writes then goes to its own frame, so the model writes
    it at once.  [Leaves] says the handler's task is gone. *)
From S2P Require Import Prelude Spinlock Allocator Heap CString Blocks Uart PageTable Task Vfs User.

Definition SYS_PUTC : Z := 0.
Definition SYS_PUTS : Z := 1.
Definition SYS_TICKS : Z := 2.
Definition SYS_YIELD : Z := 3.
Definition SYS_EXIT : Z := 4.
Definition SYS_SLEEP : Z := 5.
Definition SYS_OPEN : Z := 6.
Definition SYS_CLOSE : Z := 7.
Definition SYS_READ : Z := 8.
Definition SYS_WRITE : Z := 9.
Definition SYS_SEEK : Z := 10.

Record machine (H : Type) := mk_mach {
  mu : usys H;
  mv : vfs unit;
  irq_count : Z;
  umem : gmap Z Z;
  daif : Z
}.
Arguments mk_mach {H} mu mv irq_count umem daif.
Arguments mu {H} m.
Arguments mv {H} m.
Arguments irq_count {H} m.
Arguments umem {H} m.
Arguments daif {H} m.

(** ** Memory *)

(** At most [n] bytes from [a] on. *)
Fixpoint run_at (n : nat) (mem : gmap Z Z) (a : Z) : list Z :=
  match n with
  | O => []
  | S n => match mem !! a with Some b => b :: run_at n mem (a + 1) | None => [] end
  end.
Definition bytes_at (mem : gmap Z Z) (a : Z) : list Z := run_at (size mem) mem a.

Fixpoint put_bytes (mem : gmap Z Z) (a : Z) (bs : list Z) : gmap Z Z :=
  match bs with [] => mem | b :: bs => put_bytes (<[a := b]> mem) (a + 1) bs end.

(** An unsigned long at [a]. *)
Fixpoint load_le (n : nat) (mem : gmap Z Z) (a : Z) : outcome Z :=
  match n with
  | O => Ret 0
  | S n => match mem !! a with Some b => v ← load_le n mem (a + 1); Ret (b + 256 * v) | None => Undef end
  end.
Definition load64 (mem : gmap Z Z) (a : Z) : outcome Z := load_le 8 mem a.

Section Machine.
Context {H : Type} `{Allocator H} `{CodeAddrs}.
Implicit Types (m : machine H).

Definition with_kern m (s : sys H) : machine H := mk_mach (set_kern (mu m) s) (mv m) (irq_count m) (umem m) (daif m).
Definition with_con m (w : uart) : machine H :=
  mk_mach (mk_usys (kern (mu m)) (user_ctxs (mu m)) (el1 (mu m)) w) (mv m) (irq_count m) (umem m) (daif m).
Definition with_umem m (mem : gmap Z Z) : machine H := mk_mach (mu m) (mv m) (irq_count m) mem (daif m).

Definition say (fmt : list Z) (args : list varg) m : outcome (machine H) :=
  w ← kprintf fmt args (con (mu m)); Ret (with_con m w).
Definition puts (s : list Z) m : outcome (machine H) :=
  w ← uart_puts s (con (mu m)); Ret (with_con m w).

(** The file system's view of the one heap. *)
Definition mounted m : vfs H :=
  mk_vfs (inodes (mv m)) (fds (mv m)) (mk_bheap (vheap (vm (kern (mu m)))) (blocks (vblocks (mv m)))).
Definition unmount m (v : vfs H) : machine H :=
  let s := kern (mu m) in
  mk_mach (set_kern (mu m) (set_vm s (set_vheap (vm s) (bh_heap (vblocks v)))))
    (mk_vfs (inodes v) (fds v) (mk_bheap tt (blocks (vblocks v)))) (irq_count m) (umem m) (daif m).

(** *** syscall.c *)

(** [hz] and the readings [now] and [later] are the timer's, [junk] is what a
    fresh file block holds.  No result: the task is gone. *)
Definition syscall_handler (mmu : bool) (hz now later : Z) (junk : list Z) (num arg0 arg1 arg2 : Z) m
  : outcome (option Z * machine H) :=
  m ← (if negb mmu && ((num =? SYS_PUTS) || (num =? SYS_PUTC)) then puts (line_of "[syscall]") m else Ret m);
  if num =? SYS_PUTC then Ret (Some 0, with_con m (uart_putc (u8 arg0) (con (mu m))))
  else if num =? SYS_PUTS then m ← puts (bytes_at (umem m) arg0) m; Ret (Some 0, m)
  else if num =? SYS_TICKS then Ret (Some (irq_count m), m)
  else if num =? SYS_YIELD then s ← yield now (kern (mu m)); Ret (Some 0, with_kern m s)
  else if num =? SYS_EXIT then s ← task_exit now (kern (mu m)); Ret (None, with_kern m s)
  else if num =? SYS_SLEEP then s ← task_sleep_ms hz arg0 now later (kern (mu m)); Ret (Some 0, with_kern m s)
  else if num =? SYS_OPEN then
    '(r, v) ← vfs_open junk (bytes_at (umem m) arg0) (s32 arg1) (mounted m); Ret (Some (u64 r), unmount m v)
  else if num =? SYS_CLOSE then v ← vfs_close (s32 arg0) (mounted m); Ret (Some 0, unmount m v)
  else if num =? SYS_READ then
    '(r, buf, v) ← vfs_read (s32 arg0) (bytes_at (umem m) arg1) (s32 arg2) (mounted m);
    Ret (Some (u64 r), with_umem (unmount m v) (put_bytes (umem m) arg1 buf))
  else if num =? SYS_WRITE then
    '(r, v) ← vfs_write (s32 arg0) (bytes_at (umem m) arg1) (s32 arg2) (mounted m); Ret (Some (u64 r), unmount m v)
  else if num =? SYS_SEEK then
    '(r, v) ← vfs_seek (s32 arg0) (s32 arg1) (s32 arg2) (mounted m); Ret (Some (u64 r), unmount m v)
  else
    m ← puts (lit "[syscall] unknown: ") m;
    let m := with_con m (uart_puthex num (con (mu m))) in
    m ← puts (line_of "") m;
    Ret (Some ULONG_MAX, m).

(** *** cpu.c *)

Definition cpu_disable_irqs m : machine H := mk_mach (mu m) (mv m) (irq_count m) (umem m) (Z.lor (daif m) 0xC0).
Definition cpu_enable_irqs m : machine H := mk_mach (mu m) (mv m) (irq_count m) (umem m) (Z.land (daif m) (Z.lnot 0xC0)).

(** CurrentEL *)
Definition cpu_get_el (currentel : Z) : Z := Z.land (Z.shiftr currentel 2) 3.

Definition decode_data_abort (esr : Z) m : outcome (machine H) :=
  let wnr := Z.land (Z.shiftr esr 6) 1 in
  let dfsc := Z.land esr 0x3F in
  m ← say (line_of "  access: %s") [AStr (Some (lit (if wnr =? 0 then "READ" else "WRITE")))] m;
  m ← say (lit "  DFSC: %x -> ") [AWord dfsc] m;
  let c := Z.land dfsc 0x3C in
  let level := AWord (Z.land dfsc 3) in
  m ← (if c =? 0x00 then
         let l := Z.land dfsc 3 in
         say (line_of (if l =? 0 then "address size fault L0" else if l =? 1 then "address size fault L1"
                       else if l =? 2 then "address size fault L2" else "address size fault L3")) [] m
       else if c =? 0x04 then say (line_of "translation fault L%d") [level] m
       else if c =? 0x08 then say (line_of "access flag fault L%d") [level] m
       else if c =? 0x0C then say (line_of "permission fault L%d") [level] m
       else if c =? 0x10 then say (line_of "synchronous external abort") [] m
       else if c =? 0x14 then say (line_of "synchronous parity/ECC error") [] m
       else if c =? 0x18 then say (line_of "synchronous external abort (on walk)") [] m
       else if c =? 0x20 then say (line_of "TLB conflict abort") [] m
       else if c =? 0x30 then say (line_of "section domain fault") [] m
       else if c =? 0x34 then say (line_of "page domain fault") [] m
       else say (line_of "unknown (0x%x)") [AWord dfsc] m);
  if negb (Z.land esr (Z.shiftl 1 24) =? 0) then
    say (line_of "  ISV: syndrome valid, SAS=%d") [AWord (Z.land (Z.shiftr esr 22) 3)] m
  else Ret m.

Definition dump_registers (regs : list Z) m : outcome (machine H) :=
  m ← say (10 :: line_of "  --- Register Dump ---") [] m;
  for_range 0 16 (fun k m =>
    let i := 2 * k in
    r ← aget regs i;
    m ← say (lit "  x%-2d: %x") [AWord i; AWord r] m;
    m ← (if i + 1 <? 31 then r ← aget regs (i + 1); say (lit "    x%-2d: %x") [AWord (i + 1); AWord r] m else Ret m);
    say (line_of "") [] m) m.

(** The frame pointer chain, at most 16 frames. *)
Fixpoint walk_frames (n : nat) (fp depth : Z) m : outcome (Z * machine H) :=
  match n with
  | O => Ret (depth, m)
  | S n =>
    if fp =? 0 then Ret (depth, m)
    else
      lr ← load64 (umem m) (u64 (fp + 8));
      if lr =? 0 then Ret (depth, m)
      else
        m ← say (line_of "  #%d  %x") [AWord depth; AWord lr] m;
        fp ← load64 (umem m) fp;
        walk_frames n fp (depth + 1) m
  end.

Definition dump_stack (fp sp : Z) m : outcome (machine H) :=
  m ← say (10 :: line_of "  --- Stack Trace ---") [] m;
  m ← say (line_of "  SP: %x") [AWord sp] m;
  '(depth, m) ← walk_frames 16 fp 0 m;
  m ← (if depth =? 0 then say (line_of "  (no frame pointer chain available)") [] m else Ret m);
  m ← say (10 :: line_of "  --- Stack Dump (16 words from SP) ---") [] m;
  for_range 0 8 (fun k m =>
    let i := 2 * k in
    a ← load64 (umem m) (u64 (sp + 8 * i));
    b ← load64 (umem m) (u64 (sp + 8 * (i + 1)));
    say (line_of "  [SP+%x]: %x  %x") [AWord (i * 8); AWord a; AWord b] m) m.

Definition type_names : list string := ["SYNC"; "IRQ"; "FIQ"; "SError"]%string.

(** The exception classes that have a name. *)
Definition ec_names : list (Z * string) :=
  [(0x00, "Unknown reason"); (0x01, "WFI/WFE trapped"); (0x0E, "Illegal execution state"); (0x15, "SVC (AArch64)");
   (0x16, "HVC (AArch64)"); (0x17, "SMC (AArch64)"); (0x18, "MSR/MRS/System trap"); (0x20, "Instruction abort (lower EL)");
   (0x21, "Instruction abort (same EL)"); (0x22, "PC alignment fault"); (0x24, "Data abort (lower EL)");
   (0x25, "Data abort (same EL)"); (0x26, "SP alignment fault"); (0x28, "FP exception (AArch32)");
   (0x2C, "FP exception (AArch64)"); (0x2F, "SError interrupt"); (0x30, "Breakpoint (lower EL)");
   (0x31, "Breakpoint (same EL)"); (0x32, "Software step (lower EL)"); (0x33, "Software step (same EL)");
   (0x34, "Watchpoint (lower EL)"); (0x35, "Watchpoint (same EL)"); (0x38, "BKPT (AArch32)"); (0x3C, "BRK (AArch64)")]%string.

Definition say_ec (ec : Z) m : outcome (machine H) :=
  match find (fun p => p.1 =? ec) ec_names with
  | Some p => say (line_of p.2) [] m
  | None => say (line_of "Other (0x%x)") [AWord ec] m
  end.

(** How a handler ends: it returns 1, it returns 0, or its task is gone. *)
Inductive exit := Resumes | Halts | Leaves.

(** The end of a fatal exception, [sp] being the address of the frame. *)
Definition report_and_halt (currentel ec esr sp : Z) (regs : list Z) m : outcome (machine H) :=
  m ← (if (ec =? 0x24) || (ec =? 0x25) then decode_data_abort esr m else Ret m);
  m ← (if (ec =? 0x20) || (ec =? 0x21) then
         let ifsc := Z.land esr 0x3F in
         m ← say (lit "  IFSC: %x -> ") [AWord ifsc] m;
         let c := Z.land ifsc 0x3C in
         let level := AWord (Z.land ifsc 3) in
         if c =? 0x04 then say (line_of "translation fault L%d") [level] m
         else if c =? 0x08 then say (line_of "access flag fault L%d") [level] m
         else if c =? 0x0C then say (line_of "permission fault L%d") [level] m
         else say (line_of "other (0x%x)") [AWord ifsc] m
       else Ret m);
  t ← aget (tasks (kern (mu m))) (current_task (kern (mu m)));
  m ← say (10 :: line_of "  task: %d (%s)") [AWord (current_task (kern (mu m))); AStr (Some (t_name t))] m;
  m ← say (line_of "  EL:   %d") [AWord (cpu_get_el currentel)] m;
  m ← dump_registers regs m;
  fp ← aget regs 29;
  m ← dump_stack fp (u64 (sp + 272)) m;
  m ← say (10 :: line_of "============================================") [] m;
  m ← say (line_of "SYSTEM HALTED") [] m;
  say (line_of "============================================") [] m.

(** A fault of an isolated user task on an address it does not have. *)
Definition is_segv (ec esr : Z) (cur : Z) (t : task_t) : bool :=
  ((ec =? 0x20) || (ec =? 0x24)) && (0 <? cur) && negb (t_proc t =? 0)
  && (Z.land (Z.land esr 0x3F) 0x3C =? 0x04).

Definition exception_handler (mmu : bool) (hz now later currentel : Z) (junk : list Z) (type : Z) (regs : list Z) (sp : Z) m
  : outcome (exit * list Z * machine H) :=
  let m := cpu_disable_irqs m in
  tn ← aget type_names (Z.land type 3);
  m ← say (10 :: line_of "============================================") [] m;
  m ← say (line_of "*** EXCEPTION: %s ***") [AStr (Some (lit tn))] m;
  m ← say (line_of "============================================") [] m;
  elr ← aget regs 31;
  esr ← aget regs 32;
  far ← aget regs 33;
  let ec := Z.land (Z.shiftr esr 26) 0x3F in
  let cur := current_task (kern (mu m)) in
  t ← aget (tasks (kern (mu m))) cur;
  if (ec =? 0x16) && (0 <? cur) && negb (t_el1_stack t =? 0) then
    num ← aget regs 8; r0 ← aget regs 0; r1 ← aget regs 1; r2 ← aget regs 2;
    '(ret, m) ← syscall_handler mmu hz now later junk num r0 r1 r2 m;
    match ret with
    | None => Ret (Leaves, regs, m)
    | Some ret =>
      regs ← aset regs 0 ret;
      regs ← aset regs 31 (u64 (elr + 4));
      Ret (Resumes, regs, m)
    end
  else
    m ← say (line_of "  ELR: %x  (faulting instruction)") [AWord elr] m;
    m ← say (line_of "  ESR: %x") [AWord esr] m;
    m ← say (line_of "  FAR: %x  (fault address)") [AWord far] m;
    m ← say (lit "  EC:  %x -> ") [AWord ec] m;
    m ← say_ec ec m;
    if is_segv ec esr cur t then
      m ← say (10 :: line_of "[SIGSEGV] task %d (%s): %s fault at 0x%x  pc=0x%x")
            [AWord cur; AStr (Some (t_name t)); AStr (Some (lit (if ec =? 0x24 then "data" else "insn"))); AWord far; AWord elr] m;
      m ← say (line_of "[SIGSEGV] killing task and rescheduling") [] m;
      s ← segv_kill now (kern (mu m));
      let m := with_kern m s in
      if current_task s =? cur then m ← report_and_halt currentel ec esr sp regs m; Ret (Halts, regs, m)
      else Ret (Leaves, regs, m)
    else m ← report_and_halt currentel ec esr sp regs m; Ret (Halts, regs, m).

(** vectors.S: a synchronous exception from EL1.  System calls are taken here,
    before exception_handler. *)
Definition lower_el_a64_sync (mmu : bool) (hz now later currentel : Z) (junk : list Z) (regs : list Z) (sp : Z) m
  : outcome (exit * list Z * machine H) :=
  esr ← aget regs 32;
  if (Z.shiftr esr 26 =? 0x15) || (Z.shiftr esr 26 =? 0x16) then
    r0 ← aget regs 0; r1 ← aget regs 1; r2 ← aget regs 2; num ← aget regs 8;
    '(ret, m) ← syscall_handler mmu hz now later junk num r0 r1 r2 m;
    match ret with
    | None => Ret (Leaves, regs, m)
    | Some ret => regs ← aset regs 0 ret; Ret (Resumes, regs, m)
    end
  else exception_handler mmu hz now later currentel junk 0 regs sp m.
End Machine.

(** ** The machine is safe *)

Section MachineSafe.
Context {H : Type} `{AllocatorLaws H} `{CodeAddrs}.
Implicit Types (m : machine H) (s : sys H) (v : vfs H).

(** The blocks of the files belong to nobody in the kernel, and the blocks of
    the kernel to no file. *)
Definition file_ptrs m : list Z := (file_blocks (inodes (mv m))).*1.
Definition live_ptrs (l : list Z) : list (Z * Z) := map (fun p => (p, -1)) l.
Definition machine_ok m : Prop :=
  user_ok (mu m) (file_ptrs m) /\ vfs_inv (mounted m) (live_ptrs (sys_owned (kern (mu m)) [])).

Lemma live_ptrs_fst l : (live_ptrs l).*1 = l.
Proof. unfold live_ptrs. rewrite <- list_fmap_compose. apply list_fmap_id. Qed.

Lemma sys_owned_rest s rest : sys_owned s rest ≡ₚ rest ++ sys_owned s [].
Proof. unfold sys_owned. rewrite app_nil_r. solve_Permutation. Qed.

(** A step of the kernel. *)
Lemma machine_kern m s : machine_ok m -> kernel_ok s (file_ptrs m) -> machine_ok (with_kern m s).
Proof.
  intros [[_ Hl] [Ht Hn Hf Hb]] Hk. split; [by split|]. split; [done|done|done|].
  destruct Hb as [_ Hbl]. apply Forall_app in Hbl as [Hbl _]. split.
  - cbn [mounted vblocks bh_heap kern mu with_kern set_kern]. rewrite fmap_app, live_ptrs_fst.
    destruct Hk as [(_ & Hr & _) _]. eapply owns_perm; [|apply (ri_owns _ _ Hr)]. apply sys_owned_rest.
  - apply Forall_app. split; [exact Hbl|]. apply Forall_map, Forall_forall. intros p _ Hp. simpl in Hp. lia.
Qed.

(** A step of the file system. *)
Lemma machine_files m v :
  machine_ok m -> vfs_inv v (live_ptrs (sys_owned (kern (mu m)) [])) -> machine_ok (unmount m v).
Proof.
  intros [[Hk Hl] _] Hv. assert (kernel_ok (set_vm (kern (mu m)) (set_vheap (vm (kern (mu m))) (bh_heap (vblocks v)))) (file_blocks (inodes v)).*1) as Hk'.
  { eapply kernel_ok_heap; [exact Hk|]. destruct (vi_blocks _ _ Hv) as [Ho _]. rewrite fmap_app, live_ptrs_fst in Ho.
    eapply owns_perm; [|exact Ho]. symmetry. apply sys_owned_rest. }
  split; [by split|]. destruct Hv as [Ht Hn Hf Hb]. split; [done|done|done|exact Hb].
Qed.

(** What printing changes. *)
Definition talks m m' : Prop := exists w, m' = with_con m w.
Lemma talks_refl m : talks m m.
Proof. exists (con (mu m)). by destruct m as [[]]. Qed.
Lemma talks_trans m1 m2 m3 : talks m1 m2 -> talks m2 m3 -> talks m1 m3.
Proof. intros [w1 ->] [w2 ->]. by exists w2. Qed.
Lemma talks_ok m m' : talks m m' -> machine_ok m -> machine_ok m'.
Proof. by intros [w ->] [[Hk Hl] Hv]. Qed.

Lemma say_ok fmt args m : fits fmt args -> exists m', say fmt args m = Ret m' /\ talks m m'.
Proof. intros [w E]%(kprintf_fits _ _ (con (mu m))). unfold say. rewrite E, bind_Ret. eexists. split; [done|by exists w]. Qed.
Lemma puts_says (t : list Z) m : terminated t -> exists m', puts t m = Ret m' /\ talks m m'.
Proof. intros [w E]%(puts_ok _ (con (mu m))). unfold puts. rewrite E, bind_Ret. eexists. split; [done|by exists w]. Qed.

(** *** Bytes of the user *)

Lemma put_bytes_lookup mem a bs i :
  put_bytes mem a bs !! i = if bool_decide (a <= i < a + zlen bs) then bs !! Z.to_nat (i - a) else mem !! i.
Proof.
  revert mem a. induction bs as [|b bs IH]; intros mem a; cbn [put_bytes length].
  - rewrite bool_decide_false by lia. done.
  - rewrite IH. destruct (decide (i = a)) as [->|].
    + rewrite bool_decide_false, bool_decide_true by lia. rewrite lookup_insert_eq. by rewrite Z.sub_diag.
    + rewrite lookup_insert_ne by done. destruct (decide (a + 1 <= i < a + 1 + zlen bs)).
      * rewrite !bool_decide_true by lia. replace (Z.to_nat (i - a)) with (S (Z.to_nat (i - (a + 1)))) by lia. done.
      * rewrite !bool_decide_false by lia. done.
Qed.

Lemma run_at_lookup n mem a i b : run_at n mem a !! i = Some b -> mem !! (a + Z.of_nat i) = Some b.
Proof.
  revert a i. induction n as [|n IH]; intros a i; cbn [run_at]; [done|]. destruct (mem !! a) as [c|] eqn:E; [|done].
  destruct i as [|i]; cbn; [intros [= <-]; by rewrite Z.add_0_r|]. intros Hi%IH. by replace (a + Z.of_nat (S i)) with (a + 1 + Z.of_nat i) by lia.
Qed.

(** Bytes that are written back as they were read change nothing. *)
Lemma put_bytes_back mem a bs : bytes_at mem a = bs -> forall n, (n <= length bs)%nat -> forall new, length new = n ->
  put_bytes mem a (new ++ drop n bs) = put_bytes mem a new.
Proof.
  intros Hbs n Hn new Hl. apply map_eq. intros i. rewrite !put_bytes_lookup. rewrite length_app, length_drop.
  destruct (decide (a <= i < a + Z.of_nat n)).
  - rewrite !bool_decide_true by lia. rewrite lookup_app_l by lia. done.
  - destruct (decide (a <= i < a + zlen bs)).
    + rewrite bool_decide_true, bool_decide_false by lia. rewrite lookup_app_r, lookup_drop by lia.
      destruct (bs !! (n + (Z.to_nat (i - a) - length new))%nat) as [b|] eqn:E.
      * rewrite <- Hbs in E. apply run_at_lookup in E. rewrite <- E. f_equal. lia.
      * apply lookup_ge_None in E. lia.
    + rewrite !bool_decide_false by lia. done.
Qed.

(** *** System calls *)

Lemma mounted_unmount m v : mounted (unmount m v) = v.
Proof. by destruct v as [ins fs [h b]]. Qed.

(** The pointers and lengths the calls need: nothing checks them. *)
Record args_ok m (num arg0 arg1 arg2 : Z) : Prop := {
  ao_puts : num = SYS_PUTS -> terminated (bytes_at (umem m) arg0);
  ao_open : num = SYS_OPEN -> path_ok (bytes_at (umem m) arg0);
  ao_buf : num = SYS_READ \/ num = SYS_WRITE -> 0 <= s32 arg2 <= zlen (bytes_at (umem m) arg1);
  ao_seek : num = SYS_SEEK -> INT_MIN + 16384 <= s32 arg1 <= INT_MAX - 16384
}.

(** SYS_READ on an open file: the bytes at its position arrive at [arg1], and
    nothing else of the memory changes. *)
Definition read_effect m (arg0 arg1 arg2 : Z) (r : option Z) m' : Prop :=
  forall f x, opened (mounted m) (s32 arg0) f x -> exists c n, file_bytes (mounted m) (f_inode f) = Some c
    /\ n = Z.max 0 (Z.min (s32 arg2) (zlen c - f_pos f)) /\ r = Some n
    /\ umem m' = put_bytes (umem m) arg1 (take (Z.to_nat n) (drop (Z.to_nat (f_pos f)) c))
    /\ opened (mounted m') (s32 arg0) (set_pos (f_pos f + n) f) x.

(** SYS_WRITE on an open file without a gap: the bytes at [arg1] that fit go to
    its position, and no other file changes. *)
Definition write_effect m (arg0 arg1 arg2 : Z) (r : option Z) m' : Prop :=
  forall f x, opened (mounted m) (s32 arg0) f x -> write_pos f x < 16384 -> write_pos f x <= i_size x ->
    exists c n, file_bytes (mounted m) (f_inode f) = Some c
      /\ n = Z.min (s32 arg2) (16384 - write_pos f x) /\ r = Some n
      /\ file_bytes (mounted m') (f_inode f) = Some (splice (write_pos f x) (take (Z.to_nat n) (bytes_at (umem m) arg1)) c)
      /\ forall j, 0 <= j -> j <> f_inode f -> file_bytes (mounted m') j = file_bytes (mounted m) j.

Lemma sys_read_ok m arg0 arg1 arg2 :
  machine_ok m -> 0 <= s32 arg2 <= zlen (bytes_at (umem m) arg1) ->
  exists r buf v, vfs_read (s32 arg0) (bytes_at (umem m) arg1) (s32 arg2) (mounted m) = Ret (r, buf, v)
    /\ machine_ok (with_umem (unmount m v) (put_bytes (umem m) arg1 buf))
    /\ read_effect m arg0 arg1 arg2 (Some (u64 r)) (with_umem (unmount m v) (put_bytes (umem m) arg1 buf)).
Proof.
  intros Hm Hl. pose proof (s32_range arg2) as Hr. destruct Hm as [Hu Hv].
  destruct (vfs_read_spec (mounted m) _ (s32 arg0) (bytes_at (umem m) arg1) (s32 arg2) Hv) as (r & buf & v & E & Hv' & Ei & Eb & _ & Hrd); [lia..|].
  exists r, buf, v. split; [done|]. split.
  - assert (machine_ok (unmount m v)) as [Hu' Hv2] by by apply machine_files. by split.
  - intros f x Hop. destruct (Hrd f x Hop) as (c & Hc & -> & -> & Hop').
    assert (0 <= Z.max 0 (Z.min (s32 arg2) (zlen c - f_pos f)) <= INT_MAX) as Hb by lia.
    exists c, (Z.max 0 (Z.min (s32 arg2) (zlen c - f_pos f))). split; [done|]. split; [done|].
    rewrite u64_small by lia. split; [done|]. split; [|by rewrite <- (mounted_unmount m v) in Hop'].
    cbn [umem with_umem]. destruct (open_desc_spec (mounted m) _ (s32 arg0) Hv) as [[_ Hno]|(g & y & _ & Hg & _ & _ & _ & _ & Hpos & _)]; [by destruct (Hno f x)|].
    assert (g = f) as ->. { destruct Hop as (_ & Ef & _), Hg as (_ & Eg & _). rewrite Ef in Eg. by injection Eg as ->. }
    apply put_bytes_back; [done|lia|]. rewrite length_take, length_drop. lia.
Qed.

Lemma sys_write_ok m arg0 arg1 arg2 :
  machine_ok m -> 0 <= s32 arg2 <= zlen (bytes_at (umem m) arg1) ->
  exists r v, vfs_write (s32 arg0) (bytes_at (umem m) arg1) (s32 arg2) (mounted m) = Ret (r, v)
    /\ machine_ok (unmount m v) /\ write_effect m arg0 arg1 arg2 (Some (u64 r)) (unmount m v).
Proof.
  intros Hm Hl. pose proof (s32_range arg2) as Hr. pose proof Hm as [Hu Hv].
  destruct (vfs_write_spec (mounted m) _ (s32 arg0) (bytes_at (umem m) arg1) (s32 arg2) Hv) as (r & v & E & Hv' & _ & _ & Hwr); [lia..|].
  exists r, v. split; [done|]. split; [by apply machine_files|].
  intros f x Hop Hp Hgap. destruct (Hwr f x Hop) as (c & c' & Hc & Hc' & Ho & Hcl & [[Hp' _]|(_ & -> & Hs & _)]); [lia|].
  rewrite Hcl in Hs. specialize (Hs Hgap). exists c, (Z.min (s32 arg2) (16384 - write_pos f x)).
  rewrite mounted_unmount. split; [done|]. split; [done|]. rewrite u64_small by lia. split; [done|]. subst c'. by split.
Qed.

(** What any call comes down to, but for what it returns. *)
Lemma kernel_schedule now s rest : kernel_ok s rest -> exists s', yield now s = Ret s' /\ kernel_ok s' rest.
Proof.
  intros Hk. pose proof Hk as [Hok _]. destruct (schedule_ok now s rest Hok) as (s' & E & _). exists s'. split; [done|].
  eapply sys_step_iso; [by apply (st_tick s now s')|done].
Qed.
Lemma kernel_exit now s rest : kernel_ok s rest -> exists s', task_exit now s = Ret s' /\ kernel_ok s' rest.
Proof.
  intros Hk. pose proof Hk as [Hok _]. destruct (exit_ok now s rest Hok) as (s' & E & _). exists s'. split; [done|].
  eapply sys_step_iso; [by apply (st_exit s now s')|done].
Qed.
Lemma kernel_sleep hz ms now later s rest :
  kernel_ok s rest -> exists s', task_sleep_ms hz ms now later s = Ret s' /\ kernel_ok s' rest.
Proof.
  intros Hk. pose proof Hk as [Hok _]. destruct (sleep_ok hz ms now later s rest Hok) as (s' & E & _). exists s'. split; [done|].
  eapply sys_step_iso; [by apply (st_sleep s hz ms now later s')|done].
Qed.

(** What a call leaves behind: the machine, the user's memory but for SYS_READ,
    and whether there is a task to go back to. *)
Definition syscall_post m (num arg0 arg1 arg2 : Z) (res : option Z * machine H) : Prop :=
  let '(r, m') := res in
  machine_ok m' /\ (r = None <-> num = SYS_EXIT)
  /\ (num <> SYS_READ -> umem m' = umem m)
  /\ (num = SYS_TICKS -> r = Some (irq_count m) /\ m' = m)
  /\ (num = SYS_READ -> read_effect m arg0 arg1 arg2 r m')
  /\ (num = SYS_WRITE -> write_effect m arg0 arg1 arg2 r m')
  /\ (SYS_SEEK < num -> r = Some ULONG_MAX /\ talks m m').

Lemma syscall_run mmu hz now later junk num arg0 arg1 arg2 m :
  0 <= num -> machine_ok m -> args_ok m num arg0 arg1 arg2 ->
  exists res, syscall_handler mmu hz now later junk num arg0 arg1 arg2 m = Ret res /\ syscall_post m num arg0 arg1 arg2 res.
Proof.
  intros Hn Hm [Hp Ho Hb Hs]. unfold syscall_handler.
  unfold SYS_PUTC, SYS_PUTS, SYS_TICKS, SYS_YIELD, SYS_EXIT, SYS_SLEEP, SYS_OPEN, SYS_CLOSE, SYS_READ, SYS_WRITE, SYS_SEEK in *.
  unfold syscall_post, SYS_EXIT, SYS_READ, SYS_WRITE, SYS_TICKS, SYS_SEEK.
  assert (exists m1, (if negb mmu && ((num =? 1) || (num =? 0)) then puts (line_of "[syscall]") m else Ret m) = Ret m1
    /\ talks m m1 /\ (num <> 0 -> num <> 1 -> m1 = m)) as (m1 & -> & Ht0 & Hsame).
  { destruct (puts_says (line_of "[syscall]") m) as (m1 & -> & Ht); [apply line_terminated|].
    pose proof (talks_refl m).
    destruct mmu; cbn [negb andb]; [by exists m|]. destruct (Z.eqb_spec num 1), (Z.eqb_spec num 0); cbn [orb]; eexists; (split; [done|]); by split. }
  rewrite bind_Ret. pose proof (talks_ok _ _ Ht0 Hm) as Hm1. assert (umem m1 = umem m) as Hum by by destruct Ht0 as [w ->].
  assert (forall r m', machine_ok m' -> umem m' = umem m -> num = 0 \/ num = 1 \/ num = 3 \/ num = 5 \/ num = 6 \/ num = 7 \/ num = 10 ->
    exists res, Ret (Some r, m') = Ret res /\ let '(r, m') := res in machine_ok m' /\ (r = None <-> num = 4)
      /\ (num <> 8 -> umem m' = umem m) /\ (num = 2 -> r = Some (irq_count m) /\ m' = m)
      /\ (num = 8 -> read_effect m arg0 arg1 arg2 r m') /\ (num = 9 -> write_effect m arg0 arg1 arg2 r m')
      /\ (10 < num -> r = Some ULONG_MAX /\ talks m m')) as Hdone.
  { intros r m' Hm' Hu Hc. eexists. split; [done|]. cbv beta iota. split; [done|]. split; [split; [done|lia]|]. split; [done|]. split; [lia|]. split; [lia|]. split; lia. }
  destruct (Z.eqb_spec num 0). { apply Hdone; [|done|lia]. eapply talks_ok; [by eexists|exact Hm1]. }
  destruct (Z.eqb_spec num 1). { rewrite Hum. destruct (puts_says _ m1 (Hp ltac:(done))) as (m2 & -> & Ht). rewrite bind_Ret. apply Hdone; [by eapply talks_ok|by destruct Ht as [w ->]|lia]. }
  rewrite Hsame by done. clear dependent m1. pose proof Hm as [[Hk Hl] Hv].
  destruct (Z.eqb_spec num 2). { eexists. split; [done|]. cbv beta iota. split; [done|]. split; [split; [done|lia]|]. split; [done|]. split; [done|]. split; [lia|]. split; lia. }
  destruct (Z.eqb_spec num 3). { destruct (kernel_schedule now _ _ Hk) as (s' & -> & Hk'). rewrite bind_Ret. apply Hdone; [by apply machine_kern|done|lia]. }
  destruct (Z.eqb_spec num 4).
  { destruct (kernel_exit now _ _ Hk) as (s' & -> & Hk'). rewrite bind_Ret. eexists. split; [done|]. cbv beta iota.
    split; [by apply machine_kern|]. split; [done|]. split; [done|]. split; [lia|]. split; [lia|]. split; lia. }
  destruct (Z.eqb_spec num 5). { destruct (kernel_sleep hz arg0 now later _ _ Hk) as (s' & -> & Hk'). rewrite bind_Ret. apply Hdone; [by apply machine_kern|done|lia]. }
  destruct (Z.eqb_spec num 6).
  { destruct (vfs_open_inv (mounted m) _ junk _ (s32 arg1) Hv (Ho ltac:(done))) as (r & v & -> & Hv'). rewrite bind_Ret. apply Hdone; [by apply machine_files|done|lia]. }
  destruct (Z.eqb_spec num 7).
  { destruct (vfs_close_spec (mounted m) _ (s32 arg0) Hv) as (v & -> & Hv' & _). rewrite bind_Ret. apply Hdone; [by apply machine_files|done|lia]. }
  destruct (Z.eqb_spec num 8).
  { destruct (sys_read_ok m arg0 arg1 arg2 Hm) as (r & buf & v & -> & Hm' & He); [apply Hb; by left|]. rewrite bind_Ret. cbv beta iota.
    eexists. split; [done|]. cbv beta iota. split; [done|]. split; [split; [done|lia]|]. split; [done|]. split; [lia|]. split; [done|]. split; lia. }
  destruct (Z.eqb_spec num 9).
  { destruct (sys_write_ok m arg0 arg1 arg2 Hm) as (r & v & -> & Hm' & He); [apply Hb; by right|]. rewrite bind_Ret. cbv beta iota.
    eexists. split; [done|]. cbv beta iota. split; [done|]. split; [split; [done|lia]|]. split; [done|]. split; [lia|]. split; [lia|]. split; [done|lia]. }
  destruct (Z.eqb_spec num 10).
  { destruct (vfs_seek_spec (mounted m) _ (s32 arg0) (s32 arg1) (s32 arg2) Hv (Hs ltac:(done))) as (r & v & -> & Hv' & _). rewrite bind_Ret. apply Hdone; [by apply machine_files|done|lia]. }
  destruct (puts_says (lit "[syscall] unknown: ") m) as (m1 & -> & Ht1); [apply lit_terminated|]. rewrite bind_Ret.
  assert (talks m1 (with_con m1 (uart_puthex num (con (mu m1))))) as Ht2 by by eexists.
  match goal with |- context [puts (line_of "") ?m2] => destruct (puts_says (line_of "") m2) as (m3 & -> & Ht3); [apply line_terminated|] end. rewrite bind_Ret.
  assert (talks m m3) as Ht by (eapply talks_trans; [exact Ht1|]; eapply talks_trans; [exact Ht2|exact Ht3]).
  eexists. split; [done|]. cbv beta iota. split; [by eapply talks_ok|]. split; [split; [done|lia]|].
  split; [by destruct Ht as [w ->]|]. split; [lia|]. split; [lia|]. split; [lia|done].
Qed.

(** *** Exceptions *)

(** A computation that only prints, and returns. *)
Definition prints m (x : outcome (machine H)) : Prop := exists m', x = Ret m' /\ talks m m'.
Lemma prints_ret m : prints m (Ret m).
Proof. exists m. split; [done|apply talks_refl]. Qed.
Lemma prints_then m (x : outcome (machine H)) k :
  prints m x -> (forall m1, talks m m1 -> prints m1 (k m1)) -> prints m (m1 ← x; k m1).
Proof.
  intros (m1 & -> & Ht) Hk. rewrite bind_Ret. destruct (Hk m1 Ht) as (m2 & E & Ht2). exists m2. split; [done|by eapply talks_trans].
Qed.
Lemma prints_say fmt args m : fits fmt args -> prints m (say fmt args m).
Proof. apply say_ok. Qed.

Ltac speak := apply prints_say; first [exact I|repeat (split; [solve [auto with cstr]|]); exact I].

Lemma decode_data_abort_ok esr m : prints m (decode_data_abort esr m).
Proof.
  unfold decode_data_abort. apply prints_then; [speak|]. intros m1 _. apply prints_then; [speak|]. intros m2 _.
  apply prints_then; [|intros m3 _; destruct (negb _); [speak|apply prints_ret]].
  destruct (_ =? 0).
  { apply prints_say. repeat match goal with |- context [if ?b then _ else _] => destruct b end; exact I. }
  repeat (match goal with |- prints _ (if ?b then _ else _) => destruct b end; [apply prints_say; exact I|]). apply prints_say; exact I.
Qed.

Lemma say_ec_ok ec m : prints m (say_ec ec m).
Proof.
  assert (Forall (fun p => fits (line_of p.2) []) ec_names) as Hf by (unfold ec_names; repeat (constructor; [exact I|]); constructor).
  unfold say_ec. destruct (find _ _) as [p|] eqn:E; [|speak]. apply find_some in E as [E _].
  apply prints_say. rewrite List.Forall_forall in Hf. by apply Hf.
Qed.

Lemma dump_registers_ok (regs : list Z) m : (31 <= length regs)%nat -> prints m (dump_registers regs m).
Proof.
  intros Hl. unfold dump_registers. apply prints_then; [speak|]. intros m1 _.
  destruct (for_range_ind (fun _ => talks m1) 0 16 (fun k m =>
    let i := 2 * k in
    r ← aget regs i;
    m ← say (lit "  x%-2d: %x") [AWord i; AWord r] m;
    m ← (if i + 1 <? 31 then r ← aget regs (i + 1); say (lit "    x%-2d: %x") [AWord (i + 1); AWord r] m else Ret m);
    say (line_of "") [] m) m1) as (m2 & E & Ht); [lia|apply talks_refl| |by exists m2].
  intros i m2 Hi Ht. destruct (aget_ok regs (2 * i)) as [r Er]; [lia|]. cbv zeta. rewrite Er, bind_Ret.
  assert (prints m2 (m ← say (lit "  x%-2d: %x") [AWord (2 * i); AWord r] m2;
    m ← (if 2 * i + 1 <? 31 then r ← aget regs (2 * i + 1); say (lit "    x%-2d: %x") [AWord (2 * i + 1); AWord r] m else Ret m);
    say (line_of "") [] m)) as (m3 & E & Ht3); [|exists m3; split; [done|by eapply talks_trans]].
  apply prints_then; [speak|]. intros m3 _. apply prints_then; [|intros m4 _; speak].
  destruct (Z.ltb_spec (2 * i + 1) 31); [|apply prints_ret]. destruct (aget_ok regs (2 * i + 1)) as [r2 ->]; [lia|]. rewrite bind_Ret. speak.
Qed.

(** The words a dump follows can be read. *)
Fixpoint chain_ok (n : nat) (mem : gmap Z Z) (fp : Z) : Prop :=
  match n with
  | O => True
  | S n => fp = 0 \/ exists lr, load64 mem (u64 (fp + 8)) = Ret lr /\ (lr = 0 \/ exists up, load64 mem fp = Ret up /\ chain_ok n mem up)
  end.
Definition dump_ok (mem : gmap Z Z) (fp sp : Z) : Prop :=
  chain_ok 16 mem fp /\ forall i, 0 <= i < 16 -> exists w, load64 mem (u64 (sp + 8 * i)) = Ret w.

Lemma walk_frames_ok n fp depth m : chain_ok n (umem m) fp ->
  exists d m', walk_frames n fp depth m = Ret (d, m') /\ talks m m'.
Proof.
  revert fp depth m. induction n as [|n IH]; intros fp depth m Hc; cbn [walk_frames]; [exists depth, m; split; [done|apply talks_refl]|].
  destruct (Z.eqb_spec fp 0); [exists depth, m; split; [done|apply talks_refl]|]. cbn [chain_ok] in Hc.
  destruct Hc as [|(lr & -> & Hc)]; [done|]. rewrite bind_Ret. destruct (Z.eqb_spec lr 0); [exists depth, m; split; [done|apply talks_refl]|].
  destruct Hc as [|(up & Eu & Hc)]; [done|].
  destruct (say_ok (line_of "  #%d  %x") [AWord depth; AWord lr] m) as (m1 & -> & Ht); [done|]. rewrite bind_Ret.
  assert (umem m1 = umem m) as Eum by by destruct Ht as [w ->]. rewrite Eum, Eu, bind_Ret. rewrite <- Eum in Hc.
  destruct (IH up (depth + 1) m1 Hc) as (d & m2 & -> & Ht2). exists d, m2. split; [done|by eapply talks_trans].
Qed.

Lemma dump_stack_ok fp sp m : dump_ok (umem m) fp sp -> prints m (dump_stack fp sp m).
Proof.
  intros [Hc Hw]. unfold dump_stack. apply prints_then; [speak|]. intros m1 [w1 ->]. apply prints_then; [speak|]. intros m2 [w2 ->].
  match goal with |- context [walk_frames _ _ _ ?mm] => destruct (walk_frames_ok 16 fp 0 mm) as (d & m3 & -> & Ht3); [done|] end.
  rewrite bind_Ret. cbv beta iota. destruct Ht3 as [w3 ->].
  match goal with |- prints ?m1 ?x => assert (prints (with_con m w3) x) as (m4 & -> & [w4 ->]) end.
  2: { eexists. split; [done|]. by exists w4. }
  apply prints_then; [case_match; [speak|apply prints_ret]|]. intros m4 [w4 ->]. apply prints_then; [speak|]. intros m5 [w5 ->].
  match goal with |- prints ?m1 (for_range _ _ ?f _) => destruct (for_range_ind (fun _ => talks m1) 0 8 f m1) as (m6 & -> & Ht6); [lia|apply talks_refl| |by exists m6] end.
  intros i m6 Hi Ht6. cbv zeta. assert (umem m6 = umem m) as -> by by destruct Ht6 as [w6 ->].
  destruct (Hw (2 * i)) as [a ->]; [lia|]. rewrite bind_Ret. destruct (Hw (2 * i + 1)) as [b ->]; [lia|]. rewrite bind_Ret.
  match goal with |- context [say ?f ?a ?mm] => destruct (say_ok f a mm) as (m7 & -> & Ht7); [done|] end. exists m7. split; [done|by eapply talks_trans].
Qed.

Lemma current_task_ok m : machine_ok m ->
  exists t, aget (tasks (kern (mu m))) (current_task (kern (mu m))) = Ret t
    /\ task_at (kern (mu m)) (current_task (kern (mu m))) = Some t /\ terminated (t_name t).
Proof.
  intros [[[(Hi & _ & t & Ht & _) _] _] _]. exists t. split; [by apply task_at_get|]. split; [done|]. by apply (sched_inv_name _ _ _ Hi Ht).
Qed.

Lemma report_ok currentel ec esr sp (regs : list Z) m :
  machine_ok m -> length regs = 34%nat -> (forall fp, aget regs 29 = Ret fp -> dump_ok (umem m) fp (u64 (sp + 272))) ->
  prints m (report_and_halt currentel ec esr sp regs m).
Proof.
  intros Hm Hl Hd. unfold report_and_halt. apply prints_then.
  { destruct (_ || _); [apply decode_data_abort_ok|apply prints_ret]. }
  intros m1 Ht1. apply prints_then.
  { destruct (_ || _); [|apply prints_ret]. cbv zeta. apply prints_then; [speak|]. intros m2 _.
    repeat (match goal with |- prints _ (if ?b then _ else _) => destruct b end; [speak|]). speak. }
  intros m2 Ht2. assert (talks m m2) as Ht by (eapply talks_trans; [exact Ht1|exact Ht2]).
  destruct (current_task_ok m2) as (t & -> & _ & Htm); [by eapply talks_ok|]. rewrite bind_Ret.
  apply prints_then; [speak|]. intros m3 Ht3. apply prints_then; [speak|]. intros m4 Ht4.
  apply prints_then; [apply dump_registers_ok; lia|]. intros m5 Ht5.
  destruct (aget_ok regs 29) as [fp Ef]; [lia|]. rewrite Ef, bind_Ret.
  apply prints_then.
  { apply dump_stack_ok. assert (umem m5 = umem m) as -> by (destruct Ht as [? ->], Ht3 as [? ->], Ht4 as [? ->], Ht5 as [? ->]; done). by apply Hd. }
  intros m6 _. apply prints_then; [speak|]. intros m7 _. apply prints_then; [speak|]. intros m8 _. speak.
Qed.

(** What a fault leaves of the kernel [s]: the faulting task is dead and holds
    nothing of its user part, and the others are as they were, but that some
    are awake and one may have got the processor. *)
Definition fault_kills (now : Z) s s' : Prop :=
  (exists t', task_at s' (current_task s) = Some t' /\ t_state t' = TASK_DEAD /\ no_user t' /\ t_ttbr0_el1 t' = 0)
  /\ forall i t, i <> current_task s -> task_at s i = Some t -> exists t', task_at s' i = Some t' /\ same_user t t'
       /\ (t' = t \/ t' = wake now t \/ i = current_task s' /\ t' = set_state TASK_RUNNING (wake now t)).
(** Some other task can go on. *)
Definition other_ready (now : Z) s : Prop :=
  exists i t, 0 <= i < num_tasks s /\ i <> current_task s /\ task_at s i = Some t /\ runnable (wake now t) = true.

Lemma segv_effect now s s' rest :
  kernel_ok s rest -> segv_kill now s = Ret s' ->
  fault_kills now s s' /\ (current_task s' <> current_task s /\ other_ready now s \/ current_task s' = current_task s /\ ~ other_ready now s).
Proof.
  intros Hk E. destruct (segv_ok now s rest Hk) as (s2 & E2 & _ & t & s4 & Ht & Hi4 & Es & Ec & En & Hat).
  rewrite E in E2. injection E2 as <-. pose proof (task_at_lt _ _ _ Ht) as Hlt.
  assert (wake now (faulted t) = faulted t) as Hwf by done.
  assert (task_at s4 (current_task s) = Some (faulted t)) as Hcur by (rewrite Hat; by rewrite decide_True).
  assert (forall i u, i <> current_task s -> task_at s i = Some u -> exists u', task_at (woken now s4) i = Some u' /\ (u' = u \/ u' = wake now u)) as Hwo.
  { intros i u Hne Hu. rewrite woken_at, Hat, decide_False, Hu by done. case_bool_decide; eexists; (split; [done|]); auto. }
  destruct (schedule_spec now s4 Hi4) as (s3 & E3 & _ & Hs). rewrite Es in E3. injection E3 as <-.
  destruct Hs as [(nxt & Hnx & Hne & [Hc Hn Hp (tn & Htn & Hrn & Htn' & _) Ho _])|[-> Hno]].
  - rewrite Ec in *. rewrite Hat, decide_False in Htn by done. split; [split|left].
    + destruct Hp as (t0 & Ht0 & Hp'). rewrite Hcur in Ht0. injection Ht0 as <-. rewrite Hwf in Hp'.
      eexists. split; [exact Hp'|]. done.
    + intros i u Hi Hu. destruct (decide (i = nxt)) as [->|Hin].
      * assert (u = tn) as -> by congruence. eexists. split; [exact Htn'|]. split; [apply wake_user|]. right. right. by rewrite Hc.
      * destruct (Hwo i u Hi Hu) as (u' & Hu' & Hw). exists u'. rewrite Ho by done. split; [done|].
        destruct Hw as [->| ->]; (split; [first [apply same_user_refl|apply wake_user]|auto]).
    + rewrite Hc. split; [done|]. exists nxt, tn. destruct Hnx as (k & _ & Enx & _). pose proof (si_num _ Hi4).
      split; [rewrite <- En, Enx; apply Z.mod_pos_bound; lia|]. by split.
  - split; [split|right].
    + exists (faulted t). split; [|done]. change (task_at (woken now s4) (current_task s) = Some (faulted t)).
      rewrite woken_at, Hcur. by case_bool_decide.
    + intros i u Hi Hu. destruct (Hwo i u Hi Hu) as (u' & Hu' & Hw). exists u'. split; [done|].
      destruct Hw as [->| ->]; (split; [first [apply same_user_refl|apply wake_user]|auto]).
    + split; [done|]. intros (i & u & Hir & Hiu & Hu & Hrun).
      enough (runnable (wake now u) = false) by congruence. apply (Hno i); [by rewrite En|by rewrite Ec|].
      rewrite woken_at, bool_decide_true by lia. rewrite Hat, decide_False, Hu by done. done.
Qed.

(** What an exception that is no system call does. *)
Definition fault_post (now : Z) m (regs : list Z) (segv : bool) (res : exit * list Z * machine H) : Prop :=
  let '(e, regs', m') := res in
  machine_ok m' /\ regs' = regs /\ mv m' = mv m /\ umem m' = umem m
  /\ if segv then
       fault_kills now (kern (mu m)) (kern (mu m'))
       /\ (e = Leaves /\ current_task (kern (mu m')) <> current_task (kern (mu m))
           \/ e = Halts /\ ~ other_ready now (kern (mu m)))
     else e = Halts /\ kern (mu m') = kern (mu m).

Definition esr_ec (esr : Z) : Z := Z.land (Z.shiftr esr 26) 63.

Lemma type_name_ok type : exists tn, aget type_names (Z.land type 3) = Ret tn.
Proof.
  apply aget_ok. change 3 with (Z.ones 2). rewrite Z.land_ones by lia. change (zlen type_names) with (2 ^ 2).
  apply Z.mod_pos_bound. lia.
Qed.

Lemma disable_ok m : machine_ok m -> machine_ok (cpu_disable_irqs m).
Proof. by intros [[Hk Hl] Hv]. Qed.

Lemma prints_run {A} m (x : outcome (machine H)) (k : machine H -> outcome A) (P : A -> Prop) :
  prints m x -> (forall m1, talks m m1 -> exists r, k m1 = Ret r /\ P r) -> exists r, (m1 ← x; k m1) = Ret r /\ P r.
Proof. intros (m1 & -> & Ht) Hk. rewrite bind_Ret. by apply Hk. Qed.

Lemma con_con m w w' : with_con (with_con m w) w' = with_con m w'.
Proof. done. Qed.
Lemma kern_con m w : kern (mu (with_con m w)) = kern (mu m).
Proof. done. Qed.
Lemma kern_disabled m : kern (mu (cpu_disable_irqs m)) = kern (mu m).
Proof. done. Qed.

Lemma con_ok m w : machine_ok m -> machine_ok (with_con m w).
Proof. apply talks_ok. by exists w. Qed.
Lemma sigsegv_says m (cur : Z) (name : list Z) (data : bool) (far elr : Z) : terminated name ->
  prints m (say (10 :: line_of "[SIGSEGV] task %d (%s): %s fault at 0x%x  pc=0x%x")
              [AWord cur; AStr (Some name); AStr (Some (lit (if data then "data" else "insn"))); AWord far; AWord elr] m).
Proof. intros Hn. apply prints_say. pose proof (lit_terminated (if data then "data" else "insn")) as Hd. exact (conj Hn (conj Hd I)). Qed.

Lemma exception_run mmu hz now later currentel junk type (regs : list Z) sp m esr t :
  machine_ok m -> length regs = 34%nat -> aget regs 32 = Ret esr ->
  task_at (kern (mu m)) (current_task (kern (mu m))) = Some t ->
  (esr_ec esr =? 0x16) && (0 <? current_task (kern (mu m))) && negb (t_el1_stack t =? 0) = false ->
  let segv := is_segv (esr_ec esr) esr (current_task (kern (mu m))) t in
  (segv = false \/ ~ other_ready now (kern (mu m)) -> forall fp, aget regs 29 = Ret fp -> dump_ok (umem m) fp (u64 (sp + 272))) ->
  exists res, exception_handler mmu hz now later currentel junk type regs sp m = Ret res /\ fault_post now m regs segv res.
Proof.
  intros Hm Hl Eesr Ht Hsys segv Hd. unfold exception_handler. set (m0 := cpu_disable_irqs m).
  assert (machine_ok m0) as Hm0 by by apply disable_ok.
  assert (kern (mu m0) = kern (mu m)) as Ek0 by apply kern_disabled.
  destruct (type_name_ok type) as [tn ->]. rewrite bind_Ret.
  eapply prints_run; [speak|]. intros m1 [w1 ->]. eapply prints_run; [speak|]. intros m2 [w2 ->]. eapply prints_run; [speak|]. intros m3 [w3 ->]. rewrite !con_con.
  destruct (aget_ok regs 31) as [elr ->]; [lia|]. rewrite bind_Ret, Eesr, bind_Ret.
  destruct (aget_ok regs 33) as [far ->]; [lia|]. rewrite bind_Ret. cbv zeta.
  rewrite !kern_con, !Ek0, (task_at_get _ _ _ Ht), bind_Ret.
  fold (esr_ec esr). rewrite Hsys.
  eapply prints_run; [speak|]. intros m4 [w4 ->]. eapply prints_run; [speak|]. intros m5 [w5 ->]. eapply prints_run; [speak|]. intros m6 [w6 ->].
  eapply prints_run; [speak|]. intros m7 [w7 ->]. eapply prints_run; [apply say_ec_ok|]. intros m8 [w8 ->].
  rewrite !con_con.
  assert (terminated (t_name t)) as Hname by (destruct Hm as [[[(Hi & _) _] _] _]; by apply (sched_inv_name _ _ _ Hi Ht)).
  fold segv. destruct segv eqn:Esegv.
  - eapply prints_run; [by apply sigsegv_says|]. intros m9 [w9 ->]. eapply prints_run; [speak|]. intros m10 [w10 ->].
    rewrite !con_con, kern_con, Ek0.
    destruct Hm as [[Hk Hul] Hv]. destruct (segv_ok now _ _ Hk) as (s' & Es & Hk' & _). rewrite Es, bind_Ret. cbv zeta.
    destruct (segv_effect now _ s' _ Hk Es) as [Hkill Hcase].
    assert (machine_ok (with_kern (with_con m0 w10) s')) as Hm' by (apply machine_kern; [by apply con_ok|done]).
    destruct Hcase as [[Hne _]|[Heq Hno]].
    + destruct (Z.eqb_spec (current_task s') (current_task (kern (mu m)))); [done|]. eexists. split; [done|].
      do 4 (split; [done|]). split; [done|by left].
    + destruct (Z.eqb_spec (current_task s') (current_task (kern (mu m)))); [|done].
      eapply prints_run; [apply report_ok; [done|done|by apply Hd; right]|]. intros m11 [w11 ->]. eexists. split; [done|].
      do 4 (split; [done|]). split; [done|by right].
  - eapply prints_run; [apply report_ok; [by apply con_ok|done|by apply Hd; left]|]. intros m9 [w9 ->]. eexists. split; [done|].
    split; [by apply con_ok|]. do 3 (split; [done|]). done.
Qed.

(** The machine with a file system that has just been made. *)
Lemma machine_boot m :
  user_ok (mu m) [] -> length (fds (mv m)) = 16%nat ->
  exists v, vfs_init (mounted m) = Ret v /\ machine_ok (unmount m v).
Proof.
  intros [Hk Hl] Hf. pose proof Hk as [(_ & Hr & _) _].
  destruct (vfs_init_inv (mounted m) (live_ptrs (sys_owned (kern (mu m)) []))) as (v & E & Hv & _).
  - done.
  - split; [|apply Forall_map, Forall_forall; intros p _ Hp; simpl in Hp; lia]. rewrite live_ptrs_fst. apply Hr.
  - exists v. split; [done|]. destruct (vi_blocks _ _ Hv) as [Ho _]. rewrite fmap_app, live_ptrs_fst in Ho.
    split; [split; [|exact Hl]|].
    + eapply kernel_ok_heap; [exact Hk|]. eapply owns_perm; [|exact Ho]. symmetry. apply sys_owned_rest.
    + destruct Hv as [Ht Hn Hfd Hb]. by split.
Qed.
End MachineSafe.



(** kprintf does not know "%-2d": what a register dump prints does not depend on
    the registers. *)
Lemma register_dump_ignores_registers {H : Type} (regs regs' : list Z) (m : machine H) :
  length regs = length regs' -> dump_registers regs m = dump_registers regs' m.
Proof.
  intros Hl. unfold dump_registers. destruct (say _ _ m) as [m1| | |]; [|reflexivity..]. rewrite !bind_Ret.
  assert (forall i r r' (m1 : machine H), say (lit "  x%-2d: %x") [AWord i; AWord r] m1 = say (lit "  x%-2d: %x") [AWord i; AWord r'] m1) as E1 by reflexivity.
  assert (forall i r r' (m1 : machine H), say (lit "    x%-2d: %x") [AWord i; AWord r] m1 = say (lit "    x%-2d: %x") [AWord i; AWord r'] m1) as E2 by reflexivity.
  assert (forall i, (exists r r', aget regs i = Ret r /\ aget regs' i = Ret r') \/ aget regs i = Undef /\ aget regs' i = Undef) as Hg.
  { intros i. destruct (decide (0 <= i < zlen regs)).
    - left. destruct (aget_ok regs i) as [r Hr]; [lia|]. destruct (aget_ok regs' i) as [r' Hr']; [lia|]. by exists r, r'.
    - right. rewrite !aget_out by lia. done. }
  unfold for_range. generalize 0 at 2 4 as k. generalize (Z.to_nat (16 - 0)) as n. intros n. revert m1. induction n as [|n IH]; intros m1 k; cbn [for_count]; [reflexivity|].
  cbv zeta. destruct (Hg (2 * k)) as [(r & r' & -> & ->)|[-> ->]]; [|reflexivity]. rewrite !bind_Ret, (E1 _ r r').
  destruct (say _ _ m1) as [m2| | |]; [|reflexivity..]. rewrite !bind_Ret. destruct (2 * k + 1 <? 31).
  - destruct (Hg (2 * k + 1)) as [(q & q' & -> & ->)|[-> ->]]; [|reflexivity]. rewrite !bind_Ret, (E2 _ q q').
    destruct (say _ _ m2) as [m3| | |]; [|reflexivity..]. rewrite !bind_Ret. destruct (say _ _ m3) as [m4| | |]; [|reflexivity..]. apply IH.
  - rewrite !bind_Ret. destruct (say _ _ m2) as [m4| | |]; [|reflexivity..]. apply IH.
Qed.

(** *** Examples *)

(** One user task that the timer has just given the processor. *)
Definition ticked_user : usys heap :=
  match sched_tick 0 (kern one_user) with Ret s => set_kern one_user s | _ => one_user end.
Definition user_machine : machine heap :=
  let m := mk_mach ticked_user (mk_vfs [] (replicate 16 (mk_fd 0 0 0)) (mk_bheap tt ∅)) 7 ∅ 0 in
  match vfs_init (mounted m) with Ret v => unmount m v | _ => m end.
Lemma user_machine_ok : machine_ok user_machine.
Proof.
  destruct (init_ok (kern user_boot) [] user_boot_owns eq_refl) as (s & E & _).
  pose proof (init_user_ok user_boot s [] user_boot_owns eq_refl eq_refl E) as H0.
  assert (set_kern user_boot s = booted) as Eb by (unfold booted; by rewrite E). rewrite Eb in *.
  pose proof user_rooms as Hr. apply andb_true_iff in Hr as [Hr _]. apply andb_true_iff in Hr as [H1 _].
  destruct (spawn_step 0x5000 booted H0 (has_room_ok _ _ _ H1)) as [_ Ok1].
  assert (user_ok ticked_user []) as Hok.
  { destruct Ok1 as [Hk Hl]. destruct (kernel_schedule 0 (kern one_user) [] Hk) as (s' & E' & Hk').
    unfold ticked_user. change (sched_tick 0 (kern one_user)) with (yield 0 (kern one_user)). rewrite E'. by split. }
  unfold user_machine. cbv zeta.
  match goal with |- context [vfs_init (mounted ?m)] => destruct (machine_boot m Hok eq_refl) as (v & -> & Hm) end. exact Hm.
Qed.

(** A frame whose ESR is [esr] and whose x8 is [num]. *)
Definition frame_of (esr num : Z) : list Z := <[32%nat := esr]> (<[8%nat := num]> (replicate 34 0)).


