(* ===== verification/Mmio.v ===== *)
(** Device registers.

    What a device answers is not the program's to say: the [k]-th read of any
    register returns [inp k], an arbitrary function, so a theorem for every
    [inp] holds for every behaviour of the device, however it reacts to what is
    written.  [log] records reads, writes and delays in order. *)
From S2P Require Import Prelude.

Inductive event :=
| Rd (reg v : Z)
| Wr (reg v : Z)
| Delay (us : Z).
#[global] Instance event_eq_dec : EqDecision event.
Proof. solve_decision. Defined.

Record mmio := mk_mmio { inp : nat -> Z; nread : nat; log : list event }.

Definition put_log (e : event) (d : mmio) : mmio := mk_mmio (inp d) (nread d) (log d ++ [e]).

(** A 32-bit register. *)
Definition rd (reg : Z) (d : mmio) : Z * mmio :=
  let v := u32 (inp d (nread d)) in
  (v, mk_mmio (inp d) (S (nread d)) (log d ++ [Rd reg v])).
Definition wr (reg v : Z) (d : mmio) : mmio := put_log (Wr reg (u32 v)) d.
(** reg = f(reg) *)
Definition rmw (reg : Z) (f : Z -> Z) (d : mmio) : mmio := let '(v, d) := rd reg d in wr reg (f v) d.
(** delay_us of timer.c *)
Definition delay_us (us : Z) (d : mmio) : mmio := put_log (Delay us) d.

(** At most [n] rounds of reading [reg], with a delay after each read that
    [test] does not accept. *)
Fixpoint poll {A} (n : nat) (reg : Z) (test : Z -> option A) (us : Z) (d : mmio) : option A * mmio :=
  match n with
  | O => (None, d)
  | S n =>
    let '(v, d) := rd reg d in
    match test v with
    | Some a => (Some a, d)
    | None => poll n reg test us (delay_us us d)
    end
  end.

Create HintDb mmio.

(** ** What a run adds to the log *)

(** From [d] to [d'] with the events [es] and at most [n] reads. *)
Definition ran (d d' : mmio) (es : list event) (n : Z) : Prop :=
  log d' = log d ++ es /\ inp d' = inp d /\ Z.of_nat (nread d') <= Z.of_nat (nread d) + n.

Lemma ran_nil d : ran d d [] 0.
Proof. split; [by rewrite app_nil_r|]. split; [done|lia]. Qed.
Lemma ran_trans d1 d2 d3 e1 e2 n1 n2 : ran d1 d2 e1 n1 -> ran d2 d3 e2 n2 -> ran d1 d3 (e1 ++ e2) (n1 + n2).
Proof. intros (E1 & I1 & N1) (E2 & I2 & N2). split; [by rewrite E2, E1, app_assoc|]. split; [congruence|lia]. Qed.
Lemma ran_le d d' es n n' : ran d d' es n -> n <= n' -> ran d d' es n'.
Proof. intros (E & I & N) Hn. split; [done|]. split; [done|lia]. Qed.
Lemma ran_wr reg v d : ran d (wr reg v d) [Wr reg (u32 v)] 0.
Proof. split; [done|]. split; [done|simpl; lia]. Qed.
Lemma ran_delay us d : ran d (delay_us us d) [Delay us] 0.
Proof. split; [done|]. split; [done|simpl; lia]. Qed.
Lemma ran_rd reg d : ran d (rd reg d).2 [Rd reg (rd reg d).1] 1.
Proof. split; [done|]. split; [done|simpl; lia]. Qed.
Lemma rd_ran reg d v d' : rd reg d = (v, d') -> ran d d' [Rd reg v] 1 /\ 0 <= v < 2 ^ 32.
Proof.
  intros E. pose proof (ran_rd reg d) as Hr. rewrite E in Hr. split; [done|].
  unfold rd in E. injection E as <- _. pose proof (u32_range (inp d (nread d))). change (2 ^ 32) with 4294967296. lia.
Qed.

(** The values read from, and written to, one register. *)
Definition reads_of (reg : Z) (es : list event) : list Z :=
  omap (fun e => match e with Rd r v => if decide (r = reg) then Some v else None | _ => None end) es.
Definition writes_of (reg : Z) (es : list event) : list Z :=
  omap (fun e => match e with Wr r v => if decide (r = reg) then Some v else None | _ => None end) es.

Lemma reads_of_app reg e1 e2 : reads_of reg (e1 ++ e2) = reads_of reg e1 ++ reads_of reg e2.
Proof. apply omap_app. Qed.
Lemma writes_of_app reg e1 e2 : writes_of reg (e1 ++ e2) = writes_of reg e1 ++ writes_of reg e2.
Proof. apply omap_app. Qed.

(** Polling one register touches no other, and takes at most [n] reads. *)
Lemma poll_ran {A} n reg (test : Z -> option A) us d :
  exists es, ran d (poll n reg test us d).2 es (Z.of_nat n)
    /\ (forall r, r <> reg -> reads_of r es = []) /\ (forall r, writes_of r es = []).
Proof.
  revert d. induction n as [|n IH]; intros d; cbn [poll].
  - exists []. split; [apply ran_nil|done].
  - destruct (rd reg d) as [v d1] eqn:E. apply rd_ran in E as [H1 _]. destruct (test v).
    + exists [Rd reg v]. split; [eapply ran_le; [exact H1|lia]|]. split; [|done]. intros r Hr. cbn. by rewrite decide_False.
    + destruct (IH (delay_us us d1)) as (es & Hes & Hr & Hw). exists ([Rd reg v] ++ [Delay us] ++ es). split; [|split].
      * eapply ran_le; [eapply ran_trans; [exact H1|eapply ran_trans; [apply ran_delay|exact Hes]]|lia].
      * intros r Hne. cbn. rewrite decide_False by done. by apply Hr.
      * intros r. apply Hw.
Qed.

(** ** How many reads a run takes *)

Definition within (d d' : mmio) (n : Z) : Prop := inp d' = inp d /\ Z.of_nat (nread d') <= Z.of_nat (nread d) + n.
Lemma within_refl d n : 0 <= n -> within d d n.
Proof. intros Hn. split; [done|lia]. Qed.
Lemma within_trans d1 d2 d3 n1 n2 n : within d1 d2 n1 -> within d2 d3 n2 -> n1 + n2 <= n -> within d1 d3 n.
Proof. intros (E1 & N1) (E2 & N2) Hn. split; [congruence|lia]. Qed.
Lemma within_le d d' n n' : within d d' n -> n <= n' -> within d d' n'.
Proof. intros (E & N) Hn. split; [done|lia]. Qed.
Lemma ran_within d d' es n : ran d d' es n -> within d d' n.
Proof. by intros (_ & I & N). Qed.
Lemma within_wr d d' n reg v : within d d' n -> within d (wr reg v d') n.
Proof. done. Qed.
Lemma within_delay d d' n us : within d d' n -> within d (delay_us us d') n.
Proof. done. Qed.
Lemma within_rd d d' n reg : within d d' n -> within d (rd reg d').2 (n + 1).
Proof. intros (I & N). split; [done|simpl; lia]. Qed.
Lemma within_rmw d d' n reg f : within d d' n -> within d (rmw reg f d') (n + 1).
Proof. intros (I & N). split; [done|simpl; lia]. Qed.
Lemma within_poll {A} d d' n k reg (test : Z -> option A) us : within d d' n -> within d (poll k reg test us d').2 (n + Z.of_nat k).
Proof. intros H. destruct (poll_ran k reg test us d') as (es & Hr & _). eapply within_trans; [exact H|by eapply ran_within|lia]. Qed.
#[export] Hint Resolve within_refl within_wr within_delay within_rd within_rmw within_poll : mmio.
