(* ===== verification/Sd.v ===== *)
(** sd.c: the Arasan SD host controller, on any device behaviour (Mmio.v).

    Every loop of the driver is bounded by a time-out, so its functions are
    total; only the caller's buffer can be missed.  [sd_init] is translated with
    its conversions as they are: a response with bit 31 set is a negative [int]. *)
From S2P Require Import Prelude CString Uart Mmio.

Definition EMMC_BASE : Z := 0xFE300000.
Definition EMMC_ARG2 : Z := EMMC_BASE + 0x00.
Definition EMMC_BLKSIZECNT : Z := EMMC_BASE + 0x04.
Definition EMMC_ARG1 : Z := EMMC_BASE + 0x08.
Definition EMMC_CMDTM : Z := EMMC_BASE + 0x0C.
Definition EMMC_RESP0 : Z := EMMC_BASE + 0x10.
Definition EMMC_DATA : Z := EMMC_BASE + 0x20.
Definition EMMC_STATUS : Z := EMMC_BASE + 0x24.
Definition EMMC_CONTROL0 : Z := EMMC_BASE + 0x28.
Definition EMMC_CONTROL1 : Z := EMMC_BASE + 0x2C.
Definition EMMC_INTERRUPT : Z := EMMC_BASE + 0x30.
Definition EMMC_IRPT_MASK : Z := EMMC_BASE + 0x34.
Definition EMMC_IRPT_EN : Z := EMMC_BASE + 0x38.

Definition CMD (n : Z) : Z := Z.shiftl n 24.
Definition RSPNS_NONE : Z := 0.
Definition RSPNS_136 : Z := Z.shiftl 1 16.
Definition RSPNS_48 : Z := Z.shiftl 2 16.
Definition RSPNS_48B : Z := Z.shiftl 3 16.
Definition CMD_IXCHK : Z := Z.shiftl 1 20.
Definition CMD_CRCCHK : Z := Z.shiftl 1 19.
Definition CMD_ISDATA : Z := Z.shiftl 1 21.
Definition TM_DAT_READ : Z := Z.shiftl 1 4.
Definition TM_BLKCNT_EN : Z := Z.shiftl 1 1.
Definition TM_MULTI : Z := Z.shiftl 1 0.
Definition TM_AUTOCMD12 : Z := Z.shiftl 1 2.
Definition R1 : Z := Z.lor (Z.lor RSPNS_48 CMD_IXCHK) CMD_CRCCHK.
Definition SR_CMD_INHIBIT : Z := Z.shiftl 1 0.
Definition SR_DAT_INHIBIT : Z := Z.shiftl 1 1.
Definition INT_CMD_DONE : Z := Z.shiftl 1 0.
Definition INT_DATA_DONE : Z := Z.shiftl 1 1.
Definition INT_WRITE_RDY : Z := Z.shiftl 1 4.
Definition INT_READ_RDY : Z := Z.shiftl 1 5.
Definition INT_ERROR : Z := Z.shiftl 1 15.
Definition C1_CLK_INTLEN : Z := Z.shiftl 1 0.
Definition C1_CLK_STABLE : Z := Z.shiftl 1 1.
Definition C1_CLK_EN : Z := Z.shiftl 1 2.
Definition C1_TOUNIT_MAX : Z := Z.shiftl 0xE 16.
Definition C1_SRST_HC : Z := Z.shiftl 1 24.
Definition SD_BLOCK_SIZE : Z := 512.

Record sd := mk_sd { sd_type : Z; sd_rca : Z; dev : mmio; sd_con : uart }.
Definition set_dev (s : sd) (d : mmio) : sd := mk_sd (sd_type s) (sd_rca s) d (sd_con s).
Definition set_type (s : sd) (v : Z) : sd := mk_sd v (sd_rca s) (dev s) (sd_con s).
Definition set_rca (s : sd) (v : Z) : sd := mk_sd (sd_type s) v (dev s) (sd_con s).
Definition on_dev (f : mmio -> mmio) (s : sd) : sd := set_dev s (f (dev s)).
Definition sd_puts (t : list Z) (s : sd) : outcome sd := u ← uart_puts t (sd_con s); Ret (mk_sd (sd_type s) (sd_rca s) (dev s) u).

(** The rounds of [for(t = 0; t < us; t += 10)]. *)
Definition rounds (timeout_ms : Z) : nat := Z.to_nat ((u32 (timeout_ms * 1000) + 9) / 10).

Definition wait_int (mask timeout_ms : Z) (d : mmio) : bool * mmio :=
  let '(r, d) := poll (rounds timeout_ms) EMMC_INTERRUPT (fun irq =>
      if negb (Z.land irq INT_ERROR =? 0) then Some false
      else if Z.land irq mask =? mask then Some true else None) 10 d in
  match r with
  | Some false => (false, wr EMMC_INTERRUPT 0xFFFFFFFF d)
  | Some true => (true, wr EMMC_INTERRUPT mask d)
  | None => (false, d)
  end.

Definition wait_clear (reg mask timeout_ms : Z) (d : mmio) : bool * mmio :=
  let '(r, d) := poll (rounds timeout_ms) reg (fun v => if Z.land v mask =? 0 then Some tt else None) 10 d in
  (match r with Some _ => true | None => false end, d).
Definition wait_status (mask timeout_ms : Z) (d : mmio) : bool * mmio := wait_clear EMMC_STATUS mask timeout_ms d.
Definition wait_control1_clear (mask timeout_ms : Z) (d : mmio) : bool * mmio := wait_clear EMMC_CONTROL1 mask timeout_ms d.

Definition send_cmd (cmd arg : Z) (d : mmio) : Z * mmio :=
  let inhibit := if negb (Z.land cmd CMD_ISDATA =? 0) || (Z.land (Z.shiftr cmd 16) 3 =? 3)
                 then Z.lor SR_CMD_INHIBIT SR_DAT_INHIBIT else SR_CMD_INHIBIT in
  let '(ok, d) := wait_status inhibit 100 d in
  if negb ok then (-1, d)
  else
    let d := wr EMMC_INTERRUPT 0xFFFFFFFF d in
    let d := wr EMMC_ARG1 arg d in
    let d := wr EMMC_CMDTM cmd d in
    let '(ok, d) := wait_int INT_CMD_DONE 500 d in
    if negb ok then (-1, d)
    else let '(v, d) := rd EMMC_RESP0 d in (s32 v, d).

Definition send_acmd (rca cmd arg : Z) (d : mmio) : Z * mmio :=
  let '(r, d) := send_cmd (Z.lor (CMD 55) R1) (u32 (Z.shiftl rca 16)) d in
  if r <? 0 then (-1, d) else send_cmd cmd arg d.

Definition sd_ready (s : sd) : bool := negb (sd_type s =? 0).

(** The ACMD41 loop, [n] rounds left: the operating conditions register. *)
Fixpoint acmd41_loop (n : nat) (rca arg ocr : Z) (d : mmio) : Z * mmio :=
  match n with
  | O => (ocr, d)
  | S n =>
    let '(r, d) := send_acmd rca (Z.lor (CMD 41) RSPNS_48) arg d in
    if r <? 0 then (ocr, d)
    else
      let ocr := u32 r in
      if negb (Z.shiftr ocr 31 =? 0) then (ocr, d)
      else acmd41_loop n rca arg ocr (delay_us 10000 d)
  end.

Definition sd_fail (msg : string) (s : sd) : outcome (Z * sd) := s ← sd_puts (line_of msg) s; Ret (-1, s).

(** From the reset of the controller to the clock: [false] when it timed out. *)
Definition start_clock (d : mmio) : bool * mmio :=
  let d := wr EMMC_CONTROL1 (Z.lor (Z.lor C1_CLK_INTLEN C1_TOUNIT_MAX) (Z.shiftl 0x80 8)) d in
  let d := delay_us 1000 d in
  let '(_, d) := wait_status 0 10 d in
  let '(_, d) := poll (Z.to_nat 10000) EMMC_CONTROL1 (fun v => if negb (Z.land v C1_CLK_STABLE =? 0) then Some tt else None) 10 d in
  let '(v, d) := rd EMMC_CONTROL1 d in
  if Z.land v C1_CLK_STABLE =? 0 then (false, d)
  else
    let d := rmw EMMC_CONTROL1 (fun v => Z.lor v C1_CLK_EN) d in
    let d := delay_us 2000 d in
    let d := wr EMMC_IRPT_EN 0 d in
    (true, wr EMMC_IRPT_MASK 0xFFFFFFFF d).

Definition sd_init (s : sd) : outcome (Z * sd) :=
  let s := set_rca (set_type s 0) 0 in
  let s := on_dev (fun d => wr EMMC_CONTROL1 C1_SRST_HC (wr EMMC_CONTROL0 0 d)) s in
  let '(ok, d) := wait_control1_clear C1_SRST_HC 100 (dev s) in
  let s := set_dev s d in
  if negb ok then sd_fail "[sd] controller reset timeout" s
  else
    let '(ok, d) := start_clock (dev s) in
    let s := set_dev s d in
    if negb ok then sd_fail "[sd] clock stable timeout" s
    else
      let '(_, d) := send_cmd (Z.lor (CMD 0) RSPNS_NONE) 0 (dev s) in
      let d := delay_us 2000 d in
      let '(r, d) := send_cmd (Z.lor (Z.lor (Z.lor (CMD 8) RSPNS_48) CMD_CRCCHK) CMD_IXCHK) 0x1AA d in
      let v2 := (0 <? r) && (Z.land r 0xFF =? 0xAA) in
      let arg := if v2 then 0x50FF8000 else 0x00FF8000 in
      let '(ocr, d) := acmd41_loop 150 (sd_rca s) arg 0 d in
      let s := set_dev s d in
      if Z.shiftr ocr 31 =? 0 then sd_fail "[sd] ACMD41 timeout (card not ready)" s
      else
        let s := set_type s (if v2 then if negb (Z.land (Z.shiftr ocr 30) 1 =? 0) then 3 else 2 else 1) in
        let '(_, d) := send_cmd (Z.lor (CMD 2) RSPNS_136) 0 (dev s) in
        let '(r, d) := send_cmd (Z.lor (CMD 3) R1) 0 d in
        let s := set_dev s d in
        if r <? 0 then sd_fail "[sd] CMD3 failed" s
        else
          let s := set_rca s (Z.shiftr (u32 r) 16) in
          let d := rmw EMMC_CONTROL1 (fun v => Z.lor (Z.land v (Z.lnot (Z.shiftl 0x3FF 6))) (Z.shiftl 2 8)) (dev s) in
          let d := delay_us 1000 d in
          let '(r, d) := send_cmd (Z.lor (Z.lor (Z.lor (CMD 7) RSPNS_48B) CMD_CRCCHK) CMD_IXCHK) (u32 (Z.shiftl (sd_rca s) 16)) d in
          let s := set_dev s d in
          if r <? 0 then sd_fail "[sd] CMD7 failed" s
          else
            let '(r, d) := send_cmd (Z.lor (CMD 16) R1) SD_BLOCK_SIZE (dev s) in
            let s := set_dev s d in
            if r <? 0 then sd_fail "[sd] CMD16 failed" s
            else
              s ← sd_puts (lit "[sd] ready (type=SD") s;
              c ← aget (lit "?v1SC") (sd_type s);
              s ← sd_puts [c; 0] s;
              s ← sd_puts (line_of ")") s;
              Ret (0, s).

(** *** Transfers *)

(** The unsigned int at byte [i] of the buffer. *)
Definition store32 (buf : list Z) (i v : Z) : outcome (list Z) :=
  buf ← aset buf i (u8 v);
  buf ← aset buf (i + 1) (u8 (Z.shiftr v 8));
  buf ← aset buf (i + 2) (u8 (Z.shiftr v 16));
  aset buf (i + 3) (u8 (Z.shiftr v 24)).
Definition load32 (buf : list Z) (i : Z) : outcome Z :=
  b0 ← aget buf i; b1 ← aget buf (i + 1); b2 ← aget buf (i + 2); b3 ← aget buf (i + 3);
  Ret (Z.lor (Z.lor (Z.lor b0 (Z.shiftl b1 8)) (Z.shiftl b2 16)) (Z.shiftl b3 24)).

(** A block of 128 words from the data port to [buf + p], or back. *)
Definition read_block (p : Z) (buf : list Z) (d : mmio) : outcome (list Z * mmio) :=
  for_range 0 (SD_BLOCK_SIZE / 4) (fun i '(buf, d) =>
    let '(v, d) := rd EMMC_DATA d in buf ← store32 buf (p + 4 * i) v; Ret (buf, d)) (buf, d).
Definition write_block (p : Z) (buf : list Z) (d : mmio) : outcome mmio :=
  for_range 0 (SD_BLOCK_SIZE / 4) (fun i d => v ← load32 buf (p + 4 * i); Ret (wr EMMC_DATA v d)) d.

(** [n] blocks left, the next one at [p]. *)
Fixpoint read_blocks (n : nat) (p : Z) (buf : list Z) (d : mmio) : outcome (bool * list Z * mmio) :=
  match n with
  | O => Ret (true, buf, d)
  | S n =>
    let '(ok, d) := wait_int INT_READ_RDY 1000 d in
    if negb ok then Ret (false, buf, d)
    else '(buf, d) ← read_block p buf d; read_blocks n (p + SD_BLOCK_SIZE) buf d
  end.
Fixpoint write_blocks (n : nat) (p : Z) (buf : list Z) (d : mmio) : outcome (bool * mmio) :=
  match n with
  | O => Ret (true, d)
  | S n =>
    let '(ok, d) := wait_int INT_WRITE_RDY 1000 d in
    if negb ok then Ret (false, d)
    else d ← write_block p buf d; write_blocks n (p + SD_BLOCK_SIZE) buf d
  end.

(** Where the card finds block [lba]. *)
Definition sd_addr (s : sd) (lba : Z) : Z := if sd_type s =? 3 then lba else u32 (lba * SD_BLOCK_SIZE).

Definition sd_read (lba : Z) (buf : list Z) (count : Z) (s : sd) : outcome (Z * list Z * sd) :=
  if (sd_type s =? 0) || (count =? 0) then Ret (-1, buf, s)
  else
    let d := wr EMMC_BLKSIZECNT (Z.lor (u32 (Z.shiftl count 16)) SD_BLOCK_SIZE) (dev s) in
    let base := Z.lor (Z.lor R1 CMD_ISDATA) TM_DAT_READ in
    let cmd := if count =? 1 then Z.lor (CMD 17) base
               else Z.lor (Z.lor (Z.lor (Z.lor (CMD 18) base) TM_MULTI) TM_BLKCNT_EN) TM_AUTOCMD12 in
    let '(r, d) := send_cmd cmd (sd_addr s lba) d in
    if r <? 0 then Ret (-1, buf, set_dev s d)
    else
      '(ok, buf, d) ← read_blocks (Z.to_nat count) 0 buf d;
      if negb ok then Ret (-1, buf, set_dev s d)
      else if 1 <? count then
        let '(ok, d) := wait_int INT_DATA_DONE 2000 d in
        Ret (if ok then 0 else -1, buf, set_dev s d)
      else Ret (0, buf, set_dev s d).

Definition sd_write (lba : Z) (buf : list Z) (count : Z) (s : sd) : outcome (Z * sd) :=
  if (sd_type s =? 0) || (count =? 0) then Ret (-1, s)
  else
    let d := wr EMMC_BLKSIZECNT (Z.lor (u32 (Z.shiftl count 16)) SD_BLOCK_SIZE) (dev s) in
    let base := Z.lor R1 CMD_ISDATA in
    let cmd := if count =? 1 then Z.lor (CMD 24) base
               else Z.lor (Z.lor (Z.lor (Z.lor (CMD 25) base) TM_MULTI) TM_BLKCNT_EN) TM_AUTOCMD12 in
    let '(r, d) := send_cmd cmd (sd_addr s lba) d in
    if r <? 0 then Ret (-1, set_dev s d)
    else
      '(ok, d) ← write_blocks (Z.to_nat count) 0 buf d;
      if negb ok then Ret (-1, set_dev s d)
      else
        let '(ok, d) := wait_int INT_DATA_DONE 2000 d in
        Ret (if ok then 0 else -1, set_dev s d).

(** ** Bytes and words *)

Definition word_bytes (v : Z) : list Z := [u8 v; u8 (Z.shiftr v 8); u8 (Z.shiftr v 16); u8 (Z.shiftr v 24)].
Definition bytes_word (b0 b1 b2 b3 : Z) : Z := Z.lor (Z.lor (Z.lor b0 (Z.shiftl b1 8)) (Z.shiftl b2 16)) (Z.shiftl b3 24).
Fixpoint words_of (bs : list Z) : list Z :=
  match bs with b0 :: b1 :: b2 :: b3 :: bs => u32 (bytes_word b0 b1 b2 b3) :: words_of bs | _ => [] end.
Definition byte (b : Z) : Prop := 0 <= b < 256.

Lemma bytes_word_eq b0 b1 b2 b3 : byte b0 -> byte b1 -> byte b2 -> byte b3 ->
  bytes_word b0 b1 b2 b3 = b0 + 256 * b1 + 65536 * b2 + 16777216 * b3.
Proof.
  unfold byte. intros H0 H1 H2 H3. unfold bytes_word. rewrite !Z.shiftl_mul_pow2 by lia.
  assert (forall x y k, 0 <= k -> 0 <= x < 2 ^ k -> Z.lor x (y * 2 ^ k) = y * 2 ^ k + x) as Hor.
  { intros x y k Hk Hx. rewrite Z.lor_comm. apply (lor_low _ _ k); [done|apply Z_mod_mult|done]. }
  rewrite (Hor b0 b1 8) by lia. rewrite (Hor _ b2 16) by (change (2 ^ 16) with 65536; lia).
  rewrite (Hor _ b3 24) by (change (2 ^ 24) with 16777216; change (2 ^ 16) with 65536; lia).
  change (2 ^ 8) with 256. change (2 ^ 16) with 65536. change (2 ^ 24) with 16777216. lia.
Qed.

Lemma word_bytes_word b0 b1 b2 b3 : byte b0 -> byte b1 -> byte b2 -> byte b3 ->
  word_bytes (u32 (bytes_word b0 b1 b2 b3)) = [b0; b1; b2; b3].
Proof.
  unfold byte. intros H0 H1 H2 H3. rewrite bytes_word_eq by done. rewrite u32_small by lia.
  set (w := b0 + _ + _ + _). unfold word_bytes, wrap. rewrite !Z.shiftr_div_pow2 by lia.
  change (2 ^ 8) with 256. change (2 ^ 16) with 65536. change (2 ^ 24) with 16777216.
  assert (w / 256 = b1 + 256 * b2 + 65536 * b3) as -> by (symmetry; apply (Z.div_unique_pos _ _ _ b0); unfold w; lia).
  assert (w / 65536 = b2 + 256 * b3) as -> by (symmetry; apply (Z.div_unique_pos _ _ _ (b0 + 256 * b1)); unfold w; lia).
  assert (w / 16777216 = b3) as -> by (symmetry; apply (Z.div_unique_pos _ _ _ (b0 + 256 * b1 + 65536 * b2)); unfold w; lia).
  f_equal; [symmetry; apply (Z.mod_unique_pos _ _ (b1 + 256 * b2 + 65536 * b3)); unfold w; lia|].
  f_equal; [symmetry; apply (Z.mod_unique_pos _ _ (b2 + 256 * b3)); lia|].
  f_equal; [symmetry; apply (Z.mod_unique_pos _ _ b3); lia|]. f_equal. apply Z.mod_small. lia.
Qed.

(** Bytes that come in fours are what their words unpack to. *)
Lemma words_bytes n bs : length bs = (4 * n)%nat -> Forall byte bs -> words_of bs ≫= word_bytes = bs /\ length (words_of bs) = n.
Proof.
  revert bs. induction n as [|n IH]; intros bs Hl Hb; [by destruct bs|].
  destruct bs as [|b0 [|b1 [|b2 [|b3 bs]]]]; simpl in Hl; try lia.
  apply Forall_cons in Hb as [H0 Hb]. apply Forall_cons in Hb as [H1 Hb]. apply Forall_cons in Hb as [H2 Hb]. apply Forall_cons in Hb as [H3 Hb].
  destruct (IH bs) as [E1 E2]; [lia|done|]. cbn [words_of mbind list_bind length]. rewrite word_bytes_word by done.
  split; [|by rewrite E2]. cbn [app]. do 4 f_equal. exact E1.
Qed.

Lemma words_of_app n bs l : length bs = (4 * n)%nat -> words_of (bs ++ l) = words_of bs ++ words_of l.
Proof.
  revert bs. induction n as [|n IH]; intros bs Hl; [by destruct bs|].
  destruct bs as [|b0 [|b1 [|b2 [|b3 bs]]]]; simpl in Hl; try lia. cbn [words_of app]. rewrite (IH bs) by lia. done.
Qed.

Lemma bind_bytes_length ws : length (ws ≫= word_bytes) = (4 * length ws)%nat.
Proof. induction ws as [|w ws IH]; [done|]. change ((w :: ws) ≫= word_bytes) with (word_bytes w ++ (ws ≫= word_bytes)). rewrite length_app, IH. simpl. lia. Qed.

Lemma store32_app (pre post : list Z) a0 a1 a2 a3 i v : i = zlen pre ->
  store32 (pre ++ a0 :: a1 :: a2 :: a3 :: post) i v = Ret (pre ++ word_bytes v ++ post).
Proof.
  intros ->. unfold store32. rewrite aset_app, bind_Ret by done.
  rewrite aset_app, bind_Ret by (rewrite length_app; simpl; lia).
  rewrite aset_app, bind_Ret by (rewrite !length_app; simpl; lia).
  rewrite aset_app by (rewrite !length_app; simpl; lia). by rewrite <- !app_assoc.
Qed.
Lemma load32_app (pre post : list Z) a0 a1 a2 a3 i : i = zlen pre ->
  load32 (pre ++ a0 :: a1 :: a2 :: a3 :: post) i = Ret (bytes_word a0 a1 a2 a3).
Proof.
  intros ->. unfold load32.
  assert (forall j x, 0 <= j -> (pre ++ [a0; a1; a2; a3] ++ post) !! (length pre + Z.to_nat j)%nat = Some x ->
    aget (pre ++ a0 :: a1 :: a2 :: a3 :: post) (zlen pre + j) = Ret x) as Hg.
  { intros j x Hj Hx. apply aget_Ret. split; [lia|]. by replace (Z.to_nat (zlen pre + j)) with (length pre + Z.to_nat j)%nat by lia. }
  assert (forall k, (pre ++ [a0; a1; a2; a3] ++ post) !! (length pre + k)%nat = ([a0; a1; a2; a3] ++ post) !! k) as Hk by (intros k; by rewrite lookup_app_r, Nat.add_comm, Nat.add_sub by lia).
  assert (aget (pre ++ a0 :: a1 :: a2 :: a3 :: post) (zlen pre) = Ret a0) as -> by by apply aget_app.
  rewrite bind_Ret, (Hg 1 a1), bind_Ret, (Hg 2 a2), bind_Ret, (Hg 3 a3) by (done || by rewrite Hk). done.
Qed.

(** Four bytes at the front of what is left. *)
Lemma drop_four (l : list Z) k : (k + 4 <= length l)%nat -> exists a0 a1 a2 a3, drop k l = a0 :: a1 :: a2 :: a3 :: drop (k + 4) l
  /\ take (k + 4) l = take k l ++ [a0; a1; a2; a3].
Proof.
  intros Hk. pose proof (length_drop l k) as Hd. destruct (drop k l) as [|a0 [|a1 [|a2 [|a3 r]]]] eqn:E; simpl in Hd; try lia.
  exists a0, a1, a2, a3. assert (l = take k l ++ a0 :: a1 :: a2 :: a3 :: r) as El by (rewrite <- E; symmetry; apply take_drop).
  assert (length (take k l) = k) as Hk' by (rewrite length_take; lia). split.
  - do 4 f_equal. rewrite El, drop_app_ge by lia. by replace (k + 4 - length (take k l))%nat with 4%nat by lia.
  - rewrite El at 1. rewrite take_app_ge by lia. by replace (k + 4 - length (take k l))%nat with 4%nat by lia.
Qed.

(** ** What the driver does to the device *)

(** No word moves on the data port. *)
Definition quiet (es : list event) : Prop := reads_of EMMC_DATA es = [] /\ writes_of EMMC_DATA es = [].
Lemma quiet_app e1 e2 : quiet e1 -> quiet e2 -> quiet (e1 ++ e2).
Proof. intros [R1 W1] [R2 W2]. split; [by rewrite reads_of_app, R1, R2|by rewrite writes_of_app, W1, W2]. Qed.

Lemma rounds_bound ms : 0 <= ms <= 2000 -> Z.of_nat (rounds ms) = 100 * ms.
Proof.
  intros Hm. unfold rounds. rewrite u32_small by lia. assert ((ms * 1000 + 9) / 10 = 100 * ms) as ->; [|lia].
  symmetry. apply (Z.div_unique_pos _ _ _ 9); lia.
Qed.

(** Waiting is quiet, writes no register but INTERRUPT, and is over after 100
    reads a millisecond. *)
Definition waits (d d' : mmio) (n : Z) : Prop :=
  exists es, ran d d' es n /\ quiet es /\ forall r, r <> EMMC_INTERRUPT -> writes_of r es = [].

Lemma waits_app d1 d2 d3 n1 n2 : waits d1 d2 n1 -> waits d2 d3 n2 -> waits d1 d3 (n1 + n2).
Proof.
  intros (e1 & R1 & Q1 & W1) (e2 & R2 & Q2 & W2). exists (e1 ++ e2). split; [by eapply ran_trans|]. split; [by apply quiet_app|].
  intros r Hr. by rewrite writes_of_app, W1, W2.
Qed.
Lemma poll_waits {A} n reg (test : Z -> option A) us d : reg <> EMMC_DATA -> waits d (poll n reg test us d).2 (Z.of_nat n).
Proof.
  intros Hr. destruct (poll_ran n reg test us d) as (es & Hes & Hq & Hw). exists es. split; [done|]. split; [|by intros r _].
  split; [by apply Hq|by apply Hw].
Qed.
Lemma waits_interrupt v d : waits d (wr EMMC_INTERRUPT v d) 0.
Proof.
  exists [Wr EMMC_INTERRUPT (u32 v)]. split; [apply ran_wr|]. split; [done|]. intros r Hr. cbn. by rewrite decide_False.
Qed.

Lemma wait_int_waits mask ms d ok d' : 0 <= ms <= 2000 -> wait_int mask ms d = (ok, d') -> waits d d' (100 * ms).
Proof.
  intros Hm. unfold wait_int. match goal with |- context [poll ?n ?r ?t ?us d] => pose proof (poll_waits n r t us d ltac:(done)) as Hw; destruct (poll n r t us d) as [a d1] end.
  cbn [snd] in Hw. rewrite rounds_bound in Hw by done.
  destruct a as [[|]|]; intros [= _ <-]; [|  |exact Hw]; rewrite <- (Z.add_0_r (100 * ms)); eapply waits_app; [exact Hw|apply waits_interrupt|exact Hw|apply waits_interrupt].
Qed.
Lemma wait_clear_waits reg mask ms d ok d' : reg <> EMMC_DATA -> 0 <= ms <= 2000 -> wait_clear reg mask ms d = (ok, d') -> waits d d' (100 * ms).
Proof.
  intros Hr Hm. unfold wait_clear. match goal with |- context [poll ?n ?r ?t ?us d] => pose proof (poll_waits n r t us d Hr) as Hw; destruct (poll n r t us d) as [a d1] end.
  cbn [snd] in Hw. rewrite rounds_bound in Hw by done. by intros [= _ <-].
Qed.

(** A command moves no data.  It is sent, with its argument, when it has an
    answer; the answer is an [int]. *)
Definition commands (cmd arg : Z) (d d' : mmio) (n : Z) : Prop :=
  exists es, ran d d' es n /\ quiet es /\ writes_of EMMC_BLKSIZECNT es = []
    /\ writes_of EMMC_ARG1 es = [u32 arg] /\ writes_of EMMC_CMDTM es = [u32 cmd].
Definition silent (d d' : mmio) (n : Z) : Prop :=
  exists es, ran d d' es n /\ quiet es.

Lemma send_cmd_spec cmd arg d r d' : send_cmd cmd arg d = (r, d') ->
  silent d d' 60001 /\ INT_MIN <= r <= INT_MAX /\ (0 <= r -> commands cmd arg d d' 60001).
Proof.
  unfold send_cmd. set (inh := if _ || _ then _ else _). destruct (wait_status inh 100 d) as [ok d1] eqn:E1.
  pose proof (wait_clear_waits EMMC_STATUS inh 100 d ok d1 ltac:(done) ltac:(lia) E1) as (es1 & R1 & Q1 & W1).
  destruct ok; cbn [negb].
  2:{ intros [= <- <-]. split; [exists es1; split; [eapply ran_le; [exact R1|lia]|done]|]. split; [lia|lia]. }
  destruct (wait_int _ _ _) as [ok2 d2] eqn:E2. pose proof (wait_int_waits INT_CMD_DONE 500 _ ok2 d2 ltac:(lia) E2) as (es2 & R2 & Q2 & W2).
  set (ws := [Wr EMMC_INTERRUPT (u32 0xFFFFFFFF)] ++ [Wr EMMC_ARG1 (u32 arg)] ++ [Wr EMMC_CMDTM (u32 cmd)]).
  assert (ran d d2 (es1 ++ ws ++ es2) 60000) as R.
  { eapply ran_le; [eapply ran_trans; [exact R1|eapply ran_trans; [|exact R2]]|].
    - eapply ran_trans; [apply ran_wr|]. eapply ran_trans; apply ran_wr.
    - lia. }
  assert (quiet (es1 ++ ws ++ es2)) as Q by (apply quiet_app; [done|by apply quiet_app]).
  assert (forall r, r <> EMMC_INTERRUPT -> writes_of r (es1 ++ ws ++ es2) = writes_of r ws) as W.
  { intros r0 Hr. rewrite !writes_of_app, W1, W2, app_nil_r by done. done. }
  destruct ok2; cbn [negb].
  2:{ intros [= <- <-]. split; [exists (es1 ++ ws ++ es2); split; [eapply ran_le; [exact R|lia]|done]|]. split; [lia|lia]. }
  destruct (rd EMMC_RESP0 d2) as [v d3] eqn:E3. apply rd_ran in E3 as [R3 _]. intros [= <- <-].
  assert (ran d d3 ((es1 ++ ws ++ es2) ++ [Rd EMMC_RESP0 v]) 60001) as R' by (eapply ran_le; [eapply ran_trans; [exact R|exact R3]|lia]).
  assert (quiet ((es1 ++ ws ++ es2) ++ [Rd EMMC_RESP0 v])) as Q' by by apply quiet_app.
  split; [by eexists|]. split; [apply s32_range|]. intros _. eexists. split; [exact R'|]. split; [exact Q'|].
  rewrite !(writes_of_app _ (es1 ++ ws ++ es2)). rewrite !W by done. done.
Qed.

(** ** Initialisation *)

Lemma silent_app d1 d2 d3 n1 n2 : silent d1 d2 n1 -> silent d2 d3 n2 -> silent d1 d3 (n1 + n2).
Proof. intros (e1 & R1 & Q1) (e2 & R2 & Q2). exists (e1 ++ e2). split; [by eapply ran_trans|by apply quiet_app]. Qed.
Lemma silent_after d1 d2 d3 n1 n2 : silent d2 d3 n2 -> silent d1 d2 n1 -> silent d1 d3 (n1 + n2).
Proof. intros H2 H1. by eapply silent_app. Qed.
Lemma silent_le d d' n n' : silent d d' n -> n <= n' -> silent d d' n'.
Proof. intros (es & R & Q) Hn. exists es. split; [by eapply ran_le|done]. Qed.
Lemma silent_waits d d' n : waits d d' n -> silent d d' n.
Proof. intros (es & R & Q & _). by exists es. Qed.
Lemma silent_wr reg v d : reg <> EMMC_DATA -> silent d (wr reg v d) 0.
Proof. intros Hr. exists [Wr reg (u32 v)]. split; [apply ran_wr|]. split; [done|]. cbn. by rewrite decide_False. Qed.
Lemma silent_delay us d : silent d (delay_us us d) 0.
Proof. exists [Delay us]. split; [apply ran_delay|done]. Qed.
Lemma silent_rd reg v d d' : reg <> EMMC_DATA -> rd reg d = (v, d') -> silent d d' 1.
Proof. intros Hr [R _]%rd_ran. exists [Rd reg v]. split; [done|]. split; [|done]. cbn. by rewrite decide_False. Qed.
Lemma silent_rmw reg f d : reg <> EMMC_DATA -> silent d (rmw reg f d) 1.
Proof. intros Hr. unfold rmw. destruct (rd reg d) as [v d1] eqn:E. apply (silent_app _ d1 _ 1 0); [by eapply silent_rd|by apply silent_wr]. Qed.

Lemma send_acmd_spec rca cmd arg d r d' : send_acmd rca cmd arg d = (r, d') -> silent d d' 120002 /\ INT_MIN <= r <= INT_MAX.
Proof.
  unfold send_acmd. destruct (send_cmd _ _ d) as [r1 d1] eqn:E1. apply send_cmd_spec in E1 as (S1 & B1 & _).
  destruct (r1 <? 0); [intros [= <- <-]; split; [by eapply silent_le|lia]|]. intros (S2 & B2 & _)%send_cmd_spec.
  split; [|done]. apply (silent_app _ d1 _ 60001 60001); done.
Qed.

(** The busy bit never gets into [ocr]: a response that has it is a negative
    [int], and the loop gives up before it is stored. *)
Lemma acmd41_never n rca arg ocr d ocr' d' : Z.shiftr ocr 31 = 0 -> acmd41_loop n rca arg ocr d = (ocr', d') ->
  Z.shiftr ocr' 31 = 0 /\ silent d d' (120002 * Z.of_nat n).
Proof.
  revert ocr d. induction n as [|n IH]; intros ocr d H0; cbn [acmd41_loop].
  { intros [= <- <-]. split; [done|]. exists []. split; [apply ran_nil|done]. }
  destruct (send_acmd _ _ _ d) as [r d1] eqn:E1. apply send_acmd_spec in E1 as (S1 & B1). destruct (Z.ltb_spec r 0).
  { intros [= <- <-]. split; [done|]. eapply silent_le; [exact S1|lia]. }
  cbv zeta. assert (Z.shiftr (u32 r) 31 = 0) as Hr.
  { rewrite u32_small by lia. rewrite Z.shiftr_div_pow2 by lia. apply Z.div_small. change (2 ^ 31) with 2147483648. lia. }
  rewrite Hr. cbn [negb Z.eqb]. intros [Ho S2]%IH; [|done]. split; [done|].
  eapply silent_le; [eapply silent_app; [exact S1|eapply silent_app; [apply silent_delay|exact S2]]|lia].
Qed.

Lemma start_clock_silent d ok d' : start_clock d = (ok, d') -> silent d d' 12000.
Proof.
  unfold start_clock. set (d0 := delay_us 1000 _). destruct (wait_status 0 10 d0) as [ok1 d1] eqn:E1.
  match goal with |- context [poll ?n ?r ?t ?us d1] => pose proof (poll_waits n r t us d1 ltac:(done)) as Hw; destruct (poll n r t us d1) as [a d2] end.
  cbn [snd] in Hw. destruct (rd EMMC_CONTROL1 d2) as [v d3] eqn:E3.
  assert (silent d d0 0) as S0 by (eapply (silent_after _ _ _ 0 0); [apply silent_delay|by apply silent_wr]).
  apply (wait_clear_waits EMMC_STATUS 0 10 d0 ok1 d1 ltac:(done) ltac:(lia)), silent_waits in E1. apply silent_waits in Hw.
  apply silent_rd in E3; [|done]. assert (silent d d3 11001) as S3.
  { eapply silent_le; [eapply silent_app; [exact S0|eapply silent_app; [exact E1|eapply silent_app; [exact Hw|exact E3]]]|lia]. }
  destruct (_ =? 0); intros [= _ <-]; [eapply silent_le; [exact S3|lia]|].
  eapply silent_le.
  - eapply silent_after; [by apply silent_wr|]. eapply silent_after; [by apply silent_wr|]. eapply silent_after; [apply silent_delay|].
    eapply silent_after; [by apply silent_rmw|exact S3].
  - lia.
Qed.

Lemma sd_fail_ok msg s : exists u, sd_fail msg s = Ret (-1, mk_sd (sd_type s) (sd_rca s) (dev s) u).
Proof. unfold sd_fail, sd_puts. destruct (puts_ok (line_of msg) (sd_con s)) as [u ->]; [apply line_terminated|]. rewrite !bind_Ret. by exists u. Qed.

(** C23. sd_init fails whatever the card does.  The ready bit of the operating
    conditions is bit 31 of the answer to ACMD41, which is an [int]: an answer
    with the bit set is negative, counts as an error, and ends the loop before
    it is stored.  So sd_init always ends, after at most 18.2 million reads of
    the controller, with -1 and the card not ready, and every later sd_read and
    sd_write gives -1 without touching the device. *)
Theorem sd_init_fails (s : sd) : exists s',
  sd_init s = Ret (-1, s') /\ sd_ready s' = false
  /\ Z.of_nat (nread (dev s')) <= Z.of_nat (nread (dev s)) + 18200000
  /\ forall lba buf count, sd_read lba buf count s' = Ret (-1, buf, s') /\ sd_write lba buf count s' = Ret (-1, s').
Proof.
  assert (forall s', sd_type s' = 0 -> silent (dev s) (dev s') 18200000 ->
    exists s2, Ret (-1, s') = Ret (-1, s2) /\ sd_ready s2 = false /\ Z.of_nat (nread (dev s2)) <= Z.of_nat (nread (dev s)) + 18200000
      /\ forall lba buf count, sd_read lba buf count s2 = Ret (-1, buf, s2) /\ sd_write lba buf count s2 = Ret (-1, s2)) as Hend.
  { intros s' Ht (es & (_ & _ & Hn) & _). exists s'. split; [done|]. split; [by unfold sd_ready; rewrite Ht|]. split; [done|].
    intros lba buf count. unfold sd_read, sd_write. by rewrite Ht. }
  unfold sd_init. cbv zeta. destruct (wait_control1_clear _ _ _) as [ok d1] eqn:E1. cbn [dev on_dev set_dev set_rca set_type] in E1.
  apply (wait_clear_waits EMMC_CONTROL1 _ 100 _ ok d1 ltac:(done) ltac:(lia)), silent_waits in E1.
  assert (silent (dev s) d1 10000) as S1.
  { eapply silent_le; [eapply silent_after; [exact E1|]; eapply silent_after; by apply silent_wr|lia]. }
  destruct ok; cbn [negb].
  2:{ match goal with |- context [sd_fail ?m ?t] => destruct (sd_fail_ok m t) as [u ->] end. apply Hend; [done|]. eapply silent_le; [exact S1|lia]. }
  destruct (start_clock _) as [ok2 d2] eqn:E2. cbn [dev set_dev] in E2. apply start_clock_silent in E2.
  destruct ok2; cbn [negb].
  2:{ match goal with |- context [sd_fail ?m ?t] => destruct (sd_fail_ok m t) as [u ->] end. apply Hend; [done|].
      eapply silent_le; [eapply silent_app; [exact S1|exact E2]|lia]. }
  destruct (send_cmd _ _ _) as [r3 d3] eqn:E3. cbn [dev set_dev] in E3. apply send_cmd_spec in E3 as (S3 & _).
  destruct (send_cmd _ _ _) as [r4 d4] eqn:E4. apply send_cmd_spec in E4 as (S4 & _).
  destruct (acmd41_loop _ _ _ _ _) as [ocr d5] eqn:E5. apply acmd41_never in E5 as [-> S5]; [|done]. cbn [Z.eqb].
  match goal with |- context [sd_fail ?m ?t] => destruct (sd_fail_ok m t) as [u ->] end. apply Hend; [done|].
  eapply silent_le.
  - eapply silent_after; [exact S5|]. eapply silent_after; [exact S4|]. eapply silent_after; [apply silent_delay|].
    eapply silent_after; [exact S3|]. eapply silent_after; [exact E2|exact S1].
  - lia.
Qed.

(** ** Transfers *)

(** [es] reads the words [ws] from the data port and writes nothing but INTERRUPT. *)
Definition delivers (es : list event) (ws : list Z) : Prop :=
  reads_of EMMC_DATA es = ws /\ forall r, r <> EMMC_INTERRUPT -> writes_of r es = [].
Definition accepts (es : list event) (ws : list Z) : Prop :=
  writes_of EMMC_DATA es = ws /\ forall r, r <> EMMC_INTERRUPT -> r <> EMMC_DATA -> writes_of r es = [].

Lemma delivers_app e1 e2 w1 w2 : delivers e1 w1 -> delivers e2 w2 -> delivers (e1 ++ e2) (w1 ++ w2).
Proof. intros [R1 W1] [R2 W2]. split; [by rewrite reads_of_app, R1, R2|]. intros r Hr. by rewrite writes_of_app, W1, W2. Qed.
Lemma accepts_app e1 e2 w1 w2 : accepts e1 w1 -> accepts e2 w2 -> accepts (e1 ++ e2) (w1 ++ w2).
Proof. intros [R1 W1] [R2 W2]. split; [by rewrite writes_of_app, R1, R2|]. intros r Hr Hd. by rewrite writes_of_app, W1, W2. Qed.
Lemma waits_delivers d d' n : waits d d' n -> exists es, ran d d' es n /\ delivers es [] /\ accepts es [].
Proof. intros (es & R & [Qr Qw] & W). exists es. split; [done|]. split; (split; [done|]); [done|]. intros r Hr _. by apply W. Qed.

Lemma read_block_spec p (buf : list Z) d : 0 <= p -> p + 512 <= zlen buf ->
  exists ws d' es, read_block p buf d = Ret (take (Z.to_nat p) buf ++ (ws ≫= word_bytes) ++ drop (Z.to_nat (p + 512)) buf, d')
    /\ length ws = 128%nat /\ ran d d' es 128 /\ delivers es ws.
Proof.
  intros Hp Hl. unfold read_block. change (SD_BLOCK_SIZE / 4) with 128.
  destruct (for_range_ind (fun i '(b, dd) => exists ws es, zlen ws = i
      /\ b = take (Z.to_nat p) buf ++ (ws ≫= word_bytes) ++ drop (Z.to_nat (p + 4 * i)) buf /\ ran d dd es i /\ delivers es ws)
    0 128 (fun i '(buf, d) => let '(v, d) := rd EMMC_DATA d in buf ← store32 buf (p + 4 * i) v; Ret (buf, d)) (buf, d))
    as ([b dd] & E & ws & es & Hn & Eb & R & Hd); [lia| | |].
  - exists [], []. split; [done|]. split; [|split; [apply ran_nil|done]]. cbn. rewrite Z.add_0_r. by rewrite take_drop.
  - intros i [b dd] Hi (ws & es & Hn & -> & R & Hd). destruct (rd EMMC_DATA dd) as [v d1] eqn:E1. apply rd_ran in E1 as [R1 _].
    destruct (drop_four buf (Z.to_nat (p + 4 * i))) as (a0 & a1 & a2 & a3 & E & _); [lia|].
    rewrite E, app_assoc, store32_app, bind_Ret.
    2:{ rewrite length_app, length_take, bind_bytes_length. lia. }
    eexists. split; [done|]. exists (ws ++ [v]), (es ++ [Rd EMMC_DATA v]). split; [rewrite length_app; simpl; lia|].
    split; [|split; [by eapply ran_trans|by apply delivers_app]].
    rewrite bind_app. rewrite <- !app_assoc. do 2 f_equal. cbn [mbind list_bind]. rewrite app_nil_r. do 2 f_equal. lia.
  - exists ws, dd, es. split; [rewrite E; by subst b|]. split; [lia|]. by split.
Qed.

Lemma write_block_spec p (buf : list Z) d : 0 <= p -> p + 512 <= zlen buf ->
  exists d' es, write_block p buf d = Ret d' /\ ran d d' es 0
    /\ accepts es (words_of (take 512 (drop (Z.to_nat p) buf))).
Proof.
  intros Hp Hl. unfold write_block. change (SD_BLOCK_SIZE / 4) with 128.
  destruct (for_range_ind (fun i dd => exists es, ran d dd es 0 /\ accepts es (words_of (take (Z.to_nat (4 * i)) (drop (Z.to_nat p) buf))))
    0 128 (fun i d => v ← load32 buf (p + 4 * i); Ret (wr EMMC_DATA v d)) d) as (dd & E & es & R & Ha); [lia| | |].
  - exists []. split; [apply ran_nil|done].
  - intros i dd Hi (es & R & Ha). set (l := drop (Z.to_nat p) buf) in *.
    destruct (drop_four l (Z.to_nat (4 * i))) as (a0 & a1 & a2 & a3 & E & Et); [unfold l; rewrite length_drop; lia|].
    assert (buf = (take (Z.to_nat p) buf ++ take (Z.to_nat (4 * i)) l) ++ a0 :: a1 :: a2 :: a3 :: drop (Z.to_nat (4 * i) + 4) l) as Eb.
    { rewrite <- E, <- app_assoc, take_drop. symmetry. apply take_drop. }
    assert (load32 buf (p + 4 * i) = Ret (bytes_word a0 a1 a2 a3)) as ->.
    { rewrite Eb. apply load32_app. rewrite length_app, !length_take. unfold l. rewrite length_drop. lia. }
    rewrite bind_Ret. eexists. split; [done|]. eexists (es ++ [Wr EMMC_DATA _]). split; [eapply ran_le; [eapply ran_trans; [exact R|apply ran_wr]|lia]|].
    replace (Z.to_nat (4 * (i + 1))) with (Z.to_nat (4 * i) + 4)%nat by lia. rewrite Et.
    rewrite (words_of_app (Z.to_nat i)) by (rewrite length_take; unfold l; rewrite length_drop; lia).
    apply accepts_app; [done|]. split; [done|]. intros r Hr Hd. cbn. by rewrite decide_False.
  - exists dd, es. split; [exact E|]. split; [exact R|]. exact Ha.
Qed.

(** [k] blocks of words have arrived in the buffer at [p]. *)
Definition filled (p : Z) (buf buf' ws : list Z) (k : nat) : Prop :=
  length ws = (128 * k)%nat
  /\ buf' = take (Z.to_nat p) buf ++ (ws ≫= word_bytes) ++ drop (Z.to_nat (p + 512 * Z.of_nat k)) buf.

Lemma filled_nil p buf : 0 <= p -> filled p buf buf [] 0.
Proof. intros Hp. split; [done|]. cbn. replace (p + 512 * Z.of_nat 0) with p by lia. by rewrite take_drop. Qed.

Lemma filled_cons p buf b1 buf' w1 ws k : 0 <= p -> p + 512 * (Z.of_nat k + 1) <= zlen buf ->
  filled p buf b1 w1 1 -> filled (p + 512) b1 buf' ws k -> filled p buf buf' (w1 ++ ws) (S k).
Proof.
  intros Hp Hl [L1 E1] [L2 ->]. split; [rewrite length_app; lia|].
  assert (length (w1 ≫= word_bytes) = 512%nat) as Hb by (rewrite bind_bytes_length; lia).
  assert (length (take (Z.to_nat p) buf) = Z.to_nat p) as Ht by (rewrite length_take; lia).
  assert (take (Z.to_nat (p + 512)) b1 = take (Z.to_nat p) buf ++ (w1 ≫= word_bytes)) as ->.
  { rewrite E1, app_assoc. apply take_app_length'. rewrite length_app. lia. }
  assert (drop (Z.to_nat (p + 512 + 512 * Z.of_nat k)) b1 = drop (Z.to_nat (p + 512 * Z.of_nat (S k))) buf) as ->.
  { rewrite E1, app_assoc, drop_app_ge by (rewrite length_app; lia). rewrite drop_drop. f_equal. rewrite length_app. lia. }
  by rewrite bind_app, <- !app_assoc.
Qed.

Lemma read_blocks_spec n p (buf : list Z) d : 0 <= p -> p + 512 * Z.of_nat n <= zlen buf ->
  exists ok buf' d' ws es k, read_blocks n p buf d = Ret (ok, buf', d') /\ (k <= n)%nat /\ (ok = true -> k = n)
    /\ filled p buf buf' ws k /\ ran d d' es (100128 * Z.of_nat n) /\ delivers es ws.
Proof.
  revert p buf d. induction n as [|n IH]; intros p buf d Hp Hl; cbn [read_blocks].
  { exists true, buf, d, [], [], 0%nat. split; [done|]. split; [done|]. split; [done|]. split; [by apply filled_nil|]. split; [apply ran_nil|done]. }
  destruct (wait_int INT_READ_RDY 1000 d) as [ok d1] eqn:E1. apply wait_int_waits in E1 as (es1 & R1 & D1 & _)%waits_delivers; [|lia].
  destruct ok; cbn [negb].
  2:{ exists false, buf, d1, [], es1, 0%nat. split; [done|]. split; [lia|]. split; [done|]. split; [by apply filled_nil|]. split; [eapply ran_le; [exact R1|lia]|done]. }
  destruct (read_block_spec p buf d1) as (w1 & d2 & es2 & -> & L1 & R2 & D2); [lia|lia|]. rewrite bind_Ret. cbv beta iota.
  set (b1 := take _ buf ++ _). assert (filled p buf b1 w1 1) as F1 by (split; [done|by unfold b1; rewrite Z.mul_1_r]).
  assert (length b1 = length buf) as Lb.
  { unfold b1. rewrite !length_app, length_take, bind_bytes_length, length_drop. lia. }
  destruct (IH (p + 512) b1 d2) as (ok & buf' & d' & ws & es & k & E & Hk & Hok & F & R & D); [lia|lia|].
  exists ok, buf', d', (w1 ++ ws), (es1 ++ es2 ++ es), (S k). split; [exact E|]. split; [lia|]. split; [intros Ho; by rewrite Hok|].
  split; [eapply filled_cons; [done| |exact F1|exact F]; lia|]. split.
  - eapply ran_le; [eapply ran_trans; [exact R1|eapply ran_trans; [exact R2|exact R]]|lia].
  - rewrite <- (app_nil_l (w1 ++ ws)). apply delivers_app; [done|by apply delivers_app].
Qed.

Lemma write_blocks_spec n p (buf : list Z) d : 0 <= p -> p + 512 * Z.of_nat n <= zlen buf ->
  exists ok d' es k, write_blocks n p buf d = Ret (ok, d') /\ (k <= n)%nat /\ (ok = true -> k = n)
    /\ ran d d' es (100000 * Z.of_nat n) /\ accepts es (words_of (take (512 * k) (drop (Z.to_nat p) buf))).
Proof.
  revert p d. induction n as [|n IH]; intros p d Hp Hl; cbn [write_blocks].
  { exists true, d, [], 0%nat. split; [done|]. split; [done|]. split; [done|]. split; [apply ran_nil|done]. }
  destruct (wait_int INT_WRITE_RDY 1000 d) as [ok d1] eqn:E1. apply wait_int_waits in E1 as (es1 & R1 & _ & D1)%waits_delivers; [|lia].
  destruct ok; cbn [negb].
  2:{ exists false, d1, es1, 0%nat. split; [done|]. split; [lia|]. split; [done|]. split; [eapply ran_le; [exact R1|lia]|done]. }
  destruct (write_block_spec p buf d1) as (d2 & es2 & -> & R2 & D2); [lia|lia|]. rewrite bind_Ret.
  destruct (IH (p + 512) d2) as (ok & d' & es & k & E & Hk & Hok & R & D); [lia|lia|].
  exists ok, d', (es1 ++ es2 ++ es), (S k). split; [exact E|]. split; [lia|]. split; [intros Ho; by rewrite Hok|]. split.
  - eapply ran_le; [eapply ran_trans; [exact R1|eapply ran_trans; [exact R2|exact R]]|lia].
  - replace (512 * S k)%nat with (512 + 512 * k)%nat by lia. set (l := drop (Z.to_nat p) buf) in *.
    replace (drop (Z.to_nat (p + 512)) buf) with (drop 512 l) in D by (unfold l; rewrite drop_drop; f_equal; lia).
    assert (take (512 + 512 * k) l = take 512 l ++ take (512 * k) (drop 512 l)) as -> by (rewrite <- (take_drop 512 l) at 1; rewrite take_app_ge by (rewrite length_take; unfold l; rewrite length_drop; lia); do 2 f_equal; rewrite length_take; unfold l; rewrite length_drop; lia).
    rewrite (words_of_app 128) by (rewrite length_take; unfold l; rewrite length_drop; lia).
    rewrite <- (app_nil_l (words_of (take 512 l) ++ _)). apply accepts_app; [done|by apply accepts_app].
Qed.

Definition read_cmd (count : Z) : Z :=
  let base := Z.lor (Z.lor R1 CMD_ISDATA) TM_DAT_READ in
  if count =? 1 then Z.lor (CMD 17) base
  else Z.lor (Z.lor (Z.lor (Z.lor (CMD 18) base) TM_MULTI) TM_BLKCNT_EN) TM_AUTOCMD12.
Definition write_cmd (count : Z) : Z :=
  let base := Z.lor R1 CMD_ISDATA in
  if count =? 1 then Z.lor (CMD 24) base
  else Z.lor (Z.lor (Z.lor (Z.lor (CMD 25) base) TM_MULTI) TM_BLKCNT_EN) TM_AUTOCMD12.
Definition size_word (count : Z) : Z := u32 (Z.lor (u32 (Z.shiftl count 16)) SD_BLOCK_SIZE).

(** The command of a transfer, as the controller sees it. *)
Definition asks (es : list event) (count addr cmd : Z) : Prop :=
  writes_of EMMC_BLKSIZECNT es = [size_word count] /\ writes_of EMMC_ARG1 es = [u32 addr] /\ writes_of EMMC_CMDTM es = [u32 cmd].

Lemma send_transfer count addr cmd d r d2 :
  send_cmd cmd addr (wr EMMC_BLKSIZECNT (Z.lor (u32 (Z.shiftl count 16)) SD_BLOCK_SIZE) d) = (r, d2) ->
  exists es, ran d d2 es 60001 /\ quiet es /\ (0 <= r -> asks es count addr cmd).
Proof.
  intros (S & _ & Hok)%send_cmd_spec. set (d1 := wr _ _ d) in *. pose proof (ran_wr EMMC_BLKSIZECNT (Z.lor (u32 (Z.shiftl count 16)) SD_BLOCK_SIZE) d) as R0.
  fold d1 in R0. destruct (Z.ltb_spec r 0).
  - destruct S as (es & R & Q). eexists. split; [eapply ran_le; [eapply ran_trans; [exact R0|exact R]|lia]|]. split; [by apply quiet_app|lia].
  - destruct (Hok ltac:(lia)) as (es & R & Q & Wb & Wa & Wc). eexists. split; [eapply ran_le; [eapply ran_trans; [exact R0|exact R]|lia]|].
    split; [by apply quiet_app|]. intros _. unfold asks. rewrite !writes_of_app, Wb, Wa, Wc. done.
Qed.

Lemma asks_app es e1 count addr cmd : asks es count addr cmd -> (forall r, r <> EMMC_INTERRUPT -> r <> EMMC_DATA -> writes_of r e1 = []) ->
  asks (es ++ e1) count addr cmd.
Proof. intros (A & B & C) W. unfold asks. rewrite !writes_of_app, !W, !app_nil_r by done. done. Qed.

Lemma sd_read_spec lba (buf : list Z) count s :
  sd_type s <> 0 -> 1 <= count -> 512 * count <= zlen buf ->
  exists r buf' s' ws es k, sd_read lba buf count s = Ret (r, buf', s') /\ (r = 0 \/ r = -1) /\ sd_type s' = sd_type s
    /\ ran (dev s) (dev s') es (260001 + 100128 * count) /\ Z.of_nat k <= count /\ filled 0 buf buf' ws k /\ reads_of EMMC_DATA es = ws
    /\ (r = 0 -> Z.of_nat k = count /\ asks es count (sd_addr s lba) (read_cmd count)).
Proof.
  intros Ht Hc Hl. unfold sd_read. destruct (Z.eqb_spec (sd_type s) 0); [done|]. destruct (Z.eqb_spec count 0); [lia|]. cbn [orb]. cbv zeta.
  fold (read_cmd count). destruct (send_cmd _ _ _) as [r d1] eqn:E1. apply send_transfer in E1 as (e1 & R1 & [Qr1 Qw1] & A1).
  destruct (Z.ltb_spec r 0).
  { exists (-1), buf, (set_dev s d1), [], e1, 0%nat. split; [done|]. split; [by right|]. split; [done|]. split; [eapply ran_le; [exact R1|lia]|].
    split; [lia|]. split; [by apply filled_nil|]. split; [exact Qr1|done]. }
  destruct (read_blocks_spec (Z.to_nat count) 0 buf d1) as (ok & buf' & d2 & ws & e2 & k & -> & Hk & Hok & F & R2 & [D2 W2]); [lia|lia|].
  rewrite bind_Ret. cbv beta iota. specialize (A1 ltac:(lia)).
  assert (ran (dev s) d2 (e1 ++ e2) (60001 + 100128 * count)) as R12 by (eapply ran_le; [eapply ran_trans; [exact R1|exact R2]|lia]).
  assert (reads_of EMMC_DATA (e1 ++ e2) = ws) as D12 by by rewrite reads_of_app, Qr1.
  assert (asks (e1 ++ e2) count (sd_addr s lba) (read_cmd count)) as A12 by (apply asks_app; [done|]; intros r0 Hr0 _; by apply W2).
  destruct ok; cbn [negb].
  2:{ exists (-1), buf', (set_dev s d2), ws, (e1 ++ e2), k. split; [done|]. split; [by right|]. split; [done|]. split; [eapply ran_le; [exact R12|lia]|].
      split; [lia|]. split; [done|]. split; [done|done]. }
  specialize (Hok eq_refl). destruct (Z.ltb_spec 1 count).
  - destruct (wait_int INT_DATA_DONE 2000 d2) as [ok3 d3] eqn:E3. apply wait_int_waits in E3 as (e3 & R3 & [Qr3 Qw3] & W3); [|lia].
    exists (if ok3 then 0 else -1), buf', (set_dev s d3), ws, ((e1 ++ e2) ++ e3), k. split; [done|]. split; [destruct ok3; [by left|by right]|].
    split; [done|]. split; [eapply ran_le; [eapply ran_trans; [exact R12|exact R3]|lia]|]. split; [lia|]. split; [done|].
    split; [by rewrite reads_of_app, D12, Qr3, app_nil_r|]. intros _. split; [lia|]. apply asks_app; [done|]. intros r0 Hr0 _. by apply W3.
  - exists 0, buf', (set_dev s d2), ws, (e1 ++ e2), k. split; [done|]. split; [by left|]. split; [done|]. split; [eapply ran_le; [exact R12|lia]|].
    split; [lia|]. split; [done|]. split; [done|]. intros _. split; [lia|done].
Qed.

Lemma sd_write_spec lba (buf : list Z) count s :
  sd_type s <> 0 -> 1 <= count -> 512 * count <= zlen buf ->
  exists r s' es k, sd_write lba buf count s = Ret (r, s') /\ (r = 0 \/ r = -1) /\ sd_type s' = sd_type s
    /\ ran (dev s) (dev s') es (260001 + 100000 * count) /\ Z.of_nat k <= count
    /\ writes_of EMMC_DATA es = words_of (take (512 * k) buf)
    /\ (r = 0 -> Z.of_nat k = count /\ asks es count (sd_addr s lba) (write_cmd count)).
Proof.
  intros Ht Hc Hl. unfold sd_write. destruct (Z.eqb_spec (sd_type s) 0); [done|]. destruct (Z.eqb_spec count 0); [lia|]. cbn [orb]. cbv zeta.
  fold (write_cmd count). destruct (send_cmd _ _ _) as [r d1] eqn:E1. apply send_transfer in E1 as (e1 & R1 & [Qr1 Qw1] & A1).
  destruct (Z.ltb_spec r 0).
  { exists (-1), (set_dev s d1), e1, 0%nat. split; [done|]. split; [by right|]. split; [done|]. split; [eapply ran_le; [exact R1|lia]|].
    split; [lia|]. split; [exact Qw1|done]. }
  destruct (write_blocks_spec (Z.to_nat count) 0 buf d1) as (ok & d2 & e2 & k & -> & Hk & Hok & R2 & [D2 W2]); [lia|lia|].
  rewrite bind_Ret. cbv beta iota. specialize (A1 ltac:(lia)). cbn [drop Z.to_nat] in D2.
  assert (ran (dev s) d2 (e1 ++ e2) (60001 + 100000 * count)) as R12 by (eapply ran_le; [eapply ran_trans; [exact R1|exact R2]|lia]).
  assert (writes_of EMMC_DATA (e1 ++ e2) = words_of (take (512 * k) buf)) as D12 by by rewrite writes_of_app, Qw1, D2.
  assert (asks (e1 ++ e2) count (sd_addr s lba) (write_cmd count)) as A12 by by apply asks_app.
  destruct ok; cbn [negb].
  2:{ exists (-1), (set_dev s d2), (e1 ++ e2), k. split; [done|]. split; [by right|]. split; [done|]. split; [eapply ran_le; [exact R12|lia]|].
      split; [lia|]. split; [done|done]. }
  specialize (Hok eq_refl). destruct (wait_int INT_DATA_DONE 2000 d2) as [ok3 d3] eqn:E3. apply wait_int_waits in E3 as (e3 & R3 & [Qr3 Qw3] & W3); [|lia].
  exists (if ok3 then 0 else -1), (set_dev s d3), ((e1 ++ e2) ++ e3), k. split; [done|]. split; [destruct ok3; [by left|by right]|].
  split; [done|]. split; [eapply ran_le; [eapply ran_trans; [exact R12|exact R3]|lia]|]. split; [lia|].
  split; [by rewrite writes_of_app, D12, Qw3, app_nil_r|]. intros _. split; [lia|]. apply asks_app; [done|]. intros r0 Hr0 _. by apply W3.
Qed.

(** C24. A transfer ends and moves the right bytes, whatever the controller does.
    sd_read and sd_write of [count] blocks return 0 or -1 after at most
    260001 + 100128 * count reads of registers (every wait has a time-out).
    The buffer then holds the words the data port delivered, in order and
    little endian, whole blocks only and at most [count] of them, and is
    otherwise as it was; sd_write has sent the words of the buffer's first
    blocks.  On 0 all [count] blocks went over, under one command with the
    block count and the address (by block on a high-capacity card, by byte on
    others). *)
Theorem sd_transfers_end (lba : Z) (buf : list Z) (count : Z) (s : sd) :
  sd_type s <> 0 -> 1 <= count -> 512 * count <= zlen buf ->
  (exists r buf' s' es k, sd_read lba buf count s = Ret (r, buf', s') /\ (r = 0 \/ r = -1)
    /\ ran (dev s) (dev s') es (260001 + 100128 * count) /\ Z.of_nat k <= count
    /\ length (reads_of EMMC_DATA es) = (128 * k)%nat
    /\ buf' = (reads_of EMMC_DATA es ≫= word_bytes) ++ drop (512 * k) buf
    /\ (r = 0 -> Z.of_nat k = count /\ asks es count (sd_addr s lba) (read_cmd count)))
  /\ exists r s' es k, sd_write lba buf count s = Ret (r, s') /\ (r = 0 \/ r = -1)
    /\ ran (dev s) (dev s') es (260001 + 100000 * count) /\ Z.of_nat k <= count
    /\ writes_of EMMC_DATA es = words_of (take (512 * k) buf)
    /\ (r = 0 -> Z.of_nat k = count /\ asks es count (sd_addr s lba) (write_cmd count)).
Proof.
  intros Ht Hc Hl. split.
  - destruct (sd_read_spec lba buf count s Ht Hc Hl) as (r & buf' & s' & ws & es & k & E & Hr & _ & R & Hk & [Hw Eb] & <- & H0).
    exists r, buf', s', es, k. do 5 (split; [done|]). split; [|done]. rewrite Eb. change (take (Z.to_nat 0) buf) with (@nil Z). rewrite app_nil_l. do 2 f_equal. lia.
  - destruct (sd_write_spec lba buf count s Ht Hc Hl) as (r & s' & es & k & E & Hr & _ & R & Hk & Hw & H0). by exists r, s', es, k.
Qed.

(** C39. What is written comes back.  When the words a successful sd_read gets
    from the data port are those a successful sd_write of as many blocks sent
    to it, the blocks read are the blocks written, byte for byte. *)
Theorem sd_write_then_read (lba : Z) (buf out : list Z) (count : Z) (s1 s2 s1' s2' : sd) (out' : list Z) (e1 e2 : list event) :
  sd_type s1 <> 0 -> sd_type s2 <> 0 -> 1 <= count -> 512 * count <= zlen buf -> 512 * count <= zlen out -> Forall byte buf ->
  sd_write lba buf count s1 = Ret (0, s1') -> log (dev s1') = log (dev s1) ++ e1 ->
  sd_read lba out count s2 = Ret (0, out', s2') -> log (dev s2') = log (dev s2) ++ e2 ->
  reads_of EMMC_DATA e2 = writes_of EMMC_DATA e1 ->
  out' = take (Z.to_nat (512 * count)) buf ++ drop (Z.to_nat (512 * count)) out.
Proof.
  intros H1 H2 Hc Hb Ho Hby E1 L1 E2 L2 Hsame.
  destruct (sd_write_spec lba buf count s1 H1 Hc Hb) as (r & s & es & k & E & _ & _ & (Le & _) & _ & Hw & H0). rewrite E1 in E. injection E as <- <-.
  rewrite L1 in Le. apply app_inv_head in Le as ->. destruct (H0 eq_refl) as [Hk _].
  destruct (sd_read_spec lba out count s2 H2 Hc Ho) as (r & b & s & ws & es' & k' & E & _ & _ & (Le & _) & _ & [_ Eb] & Er & H0'). rewrite E2 in E. injection E as <- <- <-.
  rewrite L2 in Le. apply app_inv_head in Le as ->. destruct (H0' eq_refl) as [Hk' _].
  rewrite Eb, <- Er, Hsame, Hw. change (take (Z.to_nat 0) out) with (@nil Z). rewrite app_nil_l.
  destruct (words_bytes (128 * k) (take (512 * k) buf)) as [-> _]; [rewrite length_take; lia|by apply Forall_take|].
  f_equal; f_equal; lia.
Qed.

(** *** Examples *)

(** A controller whose [k]-th read gives [f k]. *)
Definition sd_on (f : nat -> Z) (type : Z) : sd := mk_sd type 0 (mk_mmio f 0 []) (mk_uart [] 0 [] [] ∅ [] 0 0).

(** STATUS clear, CMD_DONE, an answer, READ_RDY or WRITE_RDY, and data. *)
Definition quick (k : nat) : Z :=
  match k with O => 0 | 1%nat => 1 | 2%nat => 0x900 | 3%nat => 0x30 | _ => 0x32 end.

Lemma sd_transfers_end_witness : exists r s', sd_write 7 (replicate 512 65) 1 (sd_on quick 3) = Ret (r, s') /\ (r = 0 \/ r = -1).
Proof.
  destruct (sd_transfers_end 7 (replicate 512 65) 1 (sd_on quick 3)) as [_ (r & s' & es & k & E & Hr & _)].
  - discriminate.
  - apply Z.le_refl.
  - discriminate.
  - exists r, s'. split; [exact E|exact Hr].
Defined.

Definition result_or {A} (a : A) (x : outcome A) : A := match x with Ret p => p | _ => a end.
Definition sent : Z * sd := result_or (-1, sd_on quick 3) (sd_write 7 (replicate 512 65) 1 (sd_on quick 3)).
(** The same words from the port. *)
Definition echo (k : nat) : Z := match k with O | 1%nat | 2%nat | 3%nat => quick k | _ => 0x41414141 end.
Definition received : Z * list Z * sd := result_or (-1, [], sd_on echo 3) (sd_read 7 (replicate 512 0) 1 (sd_on echo 3)).

Lemma sd_write_then_read_witness : received.1.2 = replicate 512 65.
Proof.
  refine (sd_write_then_read 7 (replicate 512 65) (replicate 512 0) 1 (sd_on quick 3) (sd_on echo 3) sent.2 received.2 received.1.2
    (log (dev sent.2)) (log (dev received.2)) _ _ _ _ _ _ _ _ _ _ _).
  - discriminate.
  - discriminate.
  - discriminate.
  - discriminate.
  - discriminate.
  - apply Forall_replicate. split; [discriminate|reflexivity].
  - vm_compute. reflexivity.
  - vm_compute. reflexivity.
  - vm_compute. reflexivity.
  - vm_compute. reflexivity.
  - vm_compute. reflexivity.
Defined.
