(* ===== verification/Fb.v ===== *)
(** fb.c and mailbox.c: the framebuffer, its text and the scrolling console.

    [fb_ptr] is the object the GPU granted, as 32-bit words; a pixel outside it
    is undefined.  Coordinates are unsigned int with their wrap-around.  A loop
    that tests its bound every round is recursion with the most rounds it can
    take as fuel. *)
From S2P Require Import Prelude CString Mmio.

(** ** mailbox.c *)

Definition MBOX_READ : Z := 0xFE00B880.
Definition MBOX_STATUS : Z := 0xFE00B880 + 0x18.
Definition MBOX_WRITE : Z := 0xFE00B880 + 0x20.
Definition MBOX_FULL : Z := 0x80000000.
Definition MBOX_EMPTY : Z := 0x40000000.
Definition MBOX_CH_PROP : Z := 8.

(** while(STATUS & flag); [None]: the flag is still set after [n] reads. *)
Fixpoint mbox_wait (n : nat) (flag : Z) (d : mmio) : option mmio :=
  match n with
  | O => None
  | S n => let '(v, d) := rd MBOX_STATUS d in if Z.land v flag =? 0 then Some d else mbox_wait n flag d
  end.
(** The replies up to the first one on the channel. *)
Fixpoint mbox_reply (n : nat) (channel : Z) (d : mmio) : option mmio :=
  match n with
  | O => None
  | S m =>
    match mbox_wait n MBOX_EMPTY d with
    | None => None
    | Some d => let '(v, d) := rd MBOX_READ d in if Z.land v 0xF =? channel then Some d else mbox_reply m channel d
    end
  end.
(** [gpu] is what the GPU makes of the buffer at [addr]. *)
Definition mbox_call (n : nat) (gpu : list Z -> list Z) (channel addr : Z) (buf : list Z) (d : mmio)
  : outcome (option (bool * list Z * mmio)) :=
  let msg := Z.lor (u32 (Z.land addr 0xFFFFFFF0)) (Z.land channel 0xF) in
  match mbox_wait n MBOX_FULL d with
  | None => Ret None
  | Some d =>
    match mbox_reply n channel (wr MBOX_WRITE msg d) with
    | None => Ret None
    | Some d => let buf := gpu buf in code ← aget buf 1; Ret (Some (code =? 0x80000000, buf, d))
    end
  end.

(** ** The state of fb.c *)

Record fb := mk_fb {
  fb_ptr : option (list Z); fb_w : Z; fb_h : Z; fb_p : Z; fb_size : Z; fb_mirror : bool;
  con_cx : Z; con_cy : Z; con_cols : Z; con_rows : Z; con_x0 : Z; con_y0 : Z; con_fg : Z; con_bg : Z;
  con_enabled : bool
}.
Definition set_mem (f : fb) (mem : list Z) : fb :=
  mk_fb (Some mem) (fb_w f) (fb_h f) (fb_p f) (fb_size f) (fb_mirror f) (con_cx f) (con_cy f) (con_cols f) (con_rows f)
    (con_x0 f) (con_y0 f) (con_fg f) (con_bg f) (con_enabled f).
Definition set_cursor (f : fb) (cx cy : Z) : fb :=
  mk_fb (fb_ptr f) (fb_w f) (fb_h f) (fb_p f) (fb_size f) (fb_mirror f) cx cy (con_cols f) (con_rows f)
    (con_x0 f) (con_y0 f) (con_fg f) (con_bg f) (con_enabled f).
Definition set_enabled (f : fb) (b : bool) : fb :=
  mk_fb (fb_ptr f) (fb_w f) (fb_h f) (fb_p f) (fb_size f) (fb_mirror f) (con_cx f) (con_cy f) (con_cols f) (con_rows f)
    (con_x0 f) (con_y0 f) (con_fg f) (con_bg f) b.
Definition fb_set_mirror (b : bool) (f : fb) : fb :=
  mk_fb (fb_ptr f) (fb_w f) (fb_h f) (fb_p f) (fb_size f) b (con_cx f) (con_cy f) (con_cols f) (con_rows f)
    (con_x0 f) (con_y0 f) (con_fg f) (con_bg f) (con_enabled f).
Definition fb_get_mirror (f : fb) : bool := fb_mirror f.
Definition fb_width (f : fb) : Z := fb_w f.
Definition fb_height (f : fb) : Z := fb_h f.
Definition fb_pitch (f : fb) : Z := fb_p f.

(** One row of 8 pixels a byte, bit 0 the leftmost. *)
Definition font8x8 : list (list Z) :=
  [[0x00; 0x00; 0x00; 0x00; 0x00; 0x00; 0x00; 0x00]; [0x18; 0x3C; 0x3C; 0x18; 0x18; 0x00; 0x18; 0x00];
   [0x36; 0x36; 0x14; 0x00; 0x00; 0x00; 0x00; 0x00]; [0x36; 0x36; 0x7F; 0x36; 0x7F; 0x36; 0x36; 0x00];
   [0x0C; 0x3E; 0x03; 0x1E; 0x30; 0x1F; 0x0C; 0x00]; [0x00; 0x63; 0x33; 0x18; 0x0C; 0x66; 0x63; 0x00];
   [0x1C; 0x36; 0x1C; 0x6E; 0x3B; 0x33; 0x6E; 0x00]; [0x06; 0x06; 0x03; 0x00; 0x00; 0x00; 0x00; 0x00];
   [0x18; 0x0C; 0x06; 0x06; 0x06; 0x0C; 0x18; 0x00]; [0x06; 0x0C; 0x18; 0x18; 0x18; 0x0C; 0x06; 0x00];
   [0x00; 0x66; 0x3C; 0xFF; 0x3C; 0x66; 0x00; 0x00]; [0x00; 0x0C; 0x0C; 0x3F; 0x0C; 0x0C; 0x00; 0x00];
   [0x00; 0x00; 0x00; 0x00; 0x00; 0x0C; 0x0C; 0x06]; [0x00; 0x00; 0x00; 0x3F; 0x00; 0x00; 0x00; 0x00];
   [0x00; 0x00; 0x00; 0x00; 0x00; 0x0C; 0x0C; 0x00]; [0x60; 0x30; 0x18; 0x0C; 0x06; 0x03; 0x01; 0x00];
   [0x3E; 0x63; 0x73; 0x7B; 0x6F; 0x67; 0x3E; 0x00]; [0x0C; 0x0E; 0x0C; 0x0C; 0x0C; 0x0C; 0x3F; 0x00];
   [0x1E; 0x33; 0x30; 0x1C; 0x06; 0x33; 0x3F; 0x00]; [0x1E; 0x33; 0x30; 0x1C; 0x30; 0x33; 0x1E; 0x00];
   [0x38; 0x3C; 0x36; 0x33; 0x7F; 0x30; 0x78; 0x00]; [0x3F; 0x03; 0x1F; 0x30; 0x30; 0x33; 0x1E; 0x00];
   [0x1C; 0x06; 0x03; 0x1F; 0x33; 0x33; 0x1E; 0x00]; [0x3F; 0x33; 0x30; 0x18; 0x0C; 0x0C; 0x0C; 0x00];
   [0x1E; 0x33; 0x33; 0x1E; 0x33; 0x33; 0x1E; 0x00]; [0x1E; 0x33; 0x33; 0x3E; 0x30; 0x18; 0x0E; 0x00];
   [0x00; 0x0C; 0x0C; 0x00; 0x00; 0x0C; 0x0C; 0x00]; [0x00; 0x0C; 0x0C; 0x00; 0x00; 0x0C; 0x0C; 0x06];
   [0x18; 0x0C; 0x06; 0x03; 0x06; 0x0C; 0x18; 0x00]; [0x00; 0x00; 0x3F; 0x00; 0x00; 0x3F; 0x00; 0x00];
   [0x06; 0x0C; 0x18; 0x30; 0x18; 0x0C; 0x06; 0x00]; [0x1E; 0x33; 0x30; 0x18; 0x0C; 0x00; 0x0C; 0x00];
   [0x3E; 0x63; 0x7B; 0x7B; 0x7B; 0x03; 0x1E; 0x00]; [0x0C; 0x1E; 0x33; 0x33; 0x3F; 0x33; 0x33; 0x00];
   [0x3F; 0x66; 0x66; 0x3E; 0x66; 0x66; 0x3F; 0x00]; [0x3C; 0x66; 0x03; 0x03; 0x03; 0x66; 0x3C; 0x00];
   [0x1F; 0x36; 0x66; 0x66; 0x66; 0x36; 0x1F; 0x00]; [0x7F; 0x46; 0x16; 0x1E; 0x16; 0x46; 0x7F; 0x00];
   [0x7F; 0x46; 0x16; 0x1E; 0x16; 0x06; 0x0F; 0x00]; [0x3C; 0x66; 0x03; 0x03; 0x73; 0x66; 0x7C; 0x00];
   [0x33; 0x33; 0x33; 0x3F; 0x33; 0x33; 0x33; 0x00]; [0x1E; 0x0C; 0x0C; 0x0C; 0x0C; 0x0C; 0x1E; 0x00];
   [0x78; 0x30; 0x30; 0x30; 0x33; 0x33; 0x1E; 0x00]; [0x67; 0x66; 0x36; 0x1E; 0x36; 0x66; 0x67; 0x00];
   [0x0F; 0x06; 0x06; 0x06; 0x46; 0x66; 0x7F; 0x00]; [0x63; 0x77; 0x7F; 0x7F; 0x6B; 0x63; 0x63; 0x00];
   [0x63; 0x67; 0x6F; 0x7B; 0x73; 0x63; 0x63; 0x00]; [0x1C; 0x36; 0x63; 0x63; 0x63; 0x36; 0x1C; 0x00];
   [0x3F; 0x66; 0x66; 0x3E; 0x06; 0x06; 0x0F; 0x00]; [0x1E; 0x33; 0x33; 0x33; 0x3B; 0x1E; 0x38; 0x00];
   [0x3F; 0x66; 0x66; 0x3E; 0x36; 0x66; 0x67; 0x00]; [0x1E; 0x33; 0x07; 0x0E; 0x38; 0x33; 0x1E; 0x00];
   [0x3F; 0x2D; 0x0C; 0x0C; 0x0C; 0x0C; 0x1E; 0x00]; [0x33; 0x33; 0x33; 0x33; 0x33; 0x33; 0x3F; 0x00];
   [0x33; 0x33; 0x33; 0x33; 0x33; 0x1E; 0x0C; 0x00]; [0x63; 0x63; 0x63; 0x6B; 0x7F; 0x77; 0x63; 0x00];
   [0x63; 0x63; 0x36; 0x1C; 0x1C; 0x36; 0x63; 0x00]; [0x33; 0x33; 0x33; 0x1E; 0x0C; 0x0C; 0x1E; 0x00];
   [0x7F; 0x63; 0x31; 0x18; 0x4C; 0x66; 0x7F; 0x00]; [0x1E; 0x06; 0x06; 0x06; 0x06; 0x06; 0x1E; 0x00];
   [0x03; 0x06; 0x0C; 0x18; 0x30; 0x60; 0x40; 0x00]; [0x1E; 0x18; 0x18; 0x18; 0x18; 0x18; 0x1E; 0x00];
   [0x08; 0x1C; 0x36; 0x63; 0x00; 0x00; 0x00; 0x00]; [0x00; 0x00; 0x00; 0x00; 0x00; 0x00; 0x00; 0xFF];
   [0x0C; 0x0C; 0x18; 0x00; 0x00; 0x00; 0x00; 0x00]; [0x00; 0x00; 0x1E; 0x30; 0x3E; 0x33; 0x6E; 0x00];
   [0x07; 0x06; 0x06; 0x3E; 0x66; 0x66; 0x3B; 0x00]; [0x00; 0x00; 0x1E; 0x33; 0x03; 0x33; 0x1E; 0x00];
   [0x38; 0x30; 0x30; 0x3E; 0x33; 0x33; 0x6E; 0x00]; [0x00; 0x00; 0x1E; 0x33; 0x3F; 0x03; 0x1E; 0x00];
   [0x1C; 0x36; 0x06; 0x0F; 0x06; 0x06; 0x0F; 0x00]; [0x00; 0x00; 0x6E; 0x33; 0x33; 0x3E; 0x30; 0x1F];
   [0x07; 0x06; 0x36; 0x6E; 0x66; 0x66; 0x67; 0x00]; [0x0C; 0x00; 0x0E; 0x0C; 0x0C; 0x0C; 0x1E; 0x00];
   [0x30; 0x00; 0x30; 0x30; 0x30; 0x33; 0x33; 0x1E]; [0x07; 0x06; 0x66; 0x36; 0x1E; 0x36; 0x67; 0x00];
   [0x0E; 0x0C; 0x0C; 0x0C; 0x0C; 0x0C; 0x1E; 0x00]; [0x00; 0x00; 0x33; 0x7F; 0x7F; 0x6B; 0x63; 0x00];
   [0x00; 0x00; 0x1F; 0x33; 0x33; 0x33; 0x33; 0x00]; [0x00; 0x00; 0x1E; 0x33; 0x33; 0x33; 0x1E; 0x00];
   [0x00; 0x00; 0x3B; 0x66; 0x66; 0x3E; 0x06; 0x0F]; [0x00; 0x00; 0x6E; 0x33; 0x33; 0x3E; 0x30; 0x78];
   [0x00; 0x00; 0x3B; 0x6E; 0x66; 0x06; 0x0F; 0x00]; [0x00; 0x00; 0x3E; 0x03; 0x1E; 0x30; 0x1F; 0x00];
   [0x08; 0x0C; 0x3E; 0x0C; 0x0C; 0x2C; 0x18; 0x00]; [0x00; 0x00; 0x33; 0x33; 0x33; 0x33; 0x6E; 0x00];
   [0x00; 0x00; 0x33; 0x33; 0x33; 0x1E; 0x0C; 0x00]; [0x00; 0x00; 0x63; 0x6B; 0x7F; 0x7F; 0x36; 0x00];
   [0x00; 0x00; 0x63; 0x36; 0x1C; 0x36; 0x63; 0x00]; [0x00; 0x00; 0x33; 0x33; 0x33; 0x3E; 0x30; 0x1F];
   [0x00; 0x00; 0x3F; 0x19; 0x0C; 0x26; 0x3F; 0x00]; [0x38; 0x0C; 0x0C; 0x07; 0x0C; 0x0C; 0x38; 0x00];
   [0x18; 0x18; 0x18; 0x00; 0x18; 0x18; 0x18; 0x00]; [0x07; 0x0C; 0x0C; 0x38; 0x0C; 0x0C; 0x07; 0x00];
   [0x6E; 0x3B; 0x00; 0x00; 0x00; 0x00; 0x00; 0x00]].

(** The property buffer fb_init sends. *)
Definition fb_request (width height : Z) : list Z :=
  [140; 0;
   0x00048003; 8; 0; width; height;
   0x00048004; 8; 0; width; height;
   0x00048009; 8; 0; 0; 0;
   0x00048005; 4; 0; 32;
   0x00048006; 4; 0; 1;
   0x00040001; 8; 0; 4096; 0;
   0x00040008; 4; 0; 0;
   0].

(** [junk] is what the granted memory holds. *)
Definition fb_init (n : nat) (gpu : list Z -> list Z) (addr width height : Z) (junk : list Z) (d : mmio) (f : fb)
  : outcome (option (Z * mmio * fb)) :=
  r ← mbox_call n gpu MBOX_CH_PROP addr (fb_request width height) d;
  match r with
  | None => Ret None
  | Some (ok, resp, d) =>
    if negb ok then Ret (Some (-1, d, f))
    else
      base ← aget resp 28;
      if base =? 0 then Ret (Some (-1, d, f))
      else
        size ← aget resp 29;
        pitch ← aget resp 33;
        let ptr := if Z.land base 0x3FFFFFFF =? 0 then None else Some (resize (Z.to_nat (size / 4)) 0 junk) in
        Ret (Some (0, d, mk_fb ptr width height pitch size false
               (con_cx f) (con_cy f) (con_cols f) (con_rows f) (con_x0 f) (con_y0 f) (con_fg f) (con_bg f) (con_enabled f)))
  end.

(** ** Drawing *)

(** fb_ptr[i] = color *)
Definition poke (i color : Z) (f : fb) : outcome fb :=
  match fb_ptr f with
  | None => Undef
  | Some mem => mem ← aset mem i color; Ret (set_mem f mem)
  end.

Definition fb_put_pixel (x y color : Z) (f : fb) : outcome fb :=
  if (fb_w f <=? x) || (fb_h f <=? y) then Ret f
  else
    let x := if fb_mirror f then u32 (fb_w f - 1 - x) else x in
    poke (u32 (u32 (y * fb_p f) / 4 + x)) color f.

Definition fb_clear (color : Z) (f : fb) : outcome fb :=
  for_range 0 (u32 (fb_p f / 4 * fb_h f)) (fun i f => poke i color f) f.

(** for(col = 0; col < w && px + col < fb_w; col++) *)
Fixpoint fill_cols (n : nat) (off px w col color : Z) (f : fb) : outcome fb :=
  if (col <? w) && (u32 (px + col) <? fb_w f) then
    match n with
    | O => Hang
    | S n => f ← poke (u32 (off + col)) color f; fill_cols n off px w (u32 (col + 1)) color f
    end
  else Ret f.
Fixpoint fill_rows (n : nat) (px w row last color : Z) (f : fb) : outcome fb :=
  if (row <? last) && (row <? fb_h f) then
    match n with
    | O => Hang
    | S n =>
      f ← fill_cols (Z.to_nat (fb_w f)) (u32 (u32 (row * fb_p f) / 4 + px)) px w 0 color f;
      fill_rows n px w (u32 (row + 1)) last color f
    end
  else Ret f.
Definition fb_fill_rect (x y w h color : Z) (f : fb) : outcome fb :=
  let px := if fb_mirror f && (u32 (x + w) <=? fb_w f) then u32 (fb_w f - x - w) else x in
  fill_rows (Z.to_nat (fb_h f)) px w y (u32 (y + h)) color f.

(** The glyph of a character: anything else is a blank. *)
Definition glyph_of (c : Z) : outcome (list Z) :=
  let idx := c - 32 in
  aget font8x8 (if (idx <? 0) || (94 <? idx) then 0 else idx).

Definition fb_put_char (x y c fg bg : Z) (f : fb) : outcome fb :=
  glyph ← glyph_of c;
  for_range 0 8 (fun row f =>
    bits ← aget glyph row;
    for_range 0 8 (fun col f =>
      fb_put_pixel (u32 (x + col)) (u32 (y + row)) (if Z.testbit bits col then fg else bg) f) f) f.

Definition fb_put_char_scaled (x y c scale fg bg : Z) (f : fb) : outcome fb :=
  glyph ← glyph_of c;
  for_range 0 8 (fun row f =>
    bits ← aget glyph row;
    for_range 0 8 (fun col f =>
      for_range 0 scale (fun dy f =>
        for_range 0 scale (fun dx f =>
          fb_put_pixel (u32 (x + col * scale + dx)) (u32 (y + row * scale + dy)) (if Z.testbit bits col then fg else bg) f) f) f) f) f.

Fixpoint fb_put_string_scaled (x y : Z) (s : list Z) (scale fg bg : Z) (f : fb) : outcome fb :=
  match s with
  | [] => Undef
  | c :: s => if c =? 0 then Ret f else f ← fb_put_char_scaled x y c scale fg bg f; fb_put_string_scaled (u32 (x + 8 * scale)) y s scale fg bg f
  end.

Fixpoint fb_put_string (x y : Z) (s : list Z) (fg bg : Z) (f : fb) : outcome fb :=
  match s with
  | [] => Undef
  | c :: s =>
    if c =? 0 then Ret f
    else
      let '(x, y) := if fb_w f <? u32 (x + 8) then (0, u32 (y + 8)) else (x, y) in
      if fb_h f <? u32 (y + 8) then Ret f
      else f ← fb_put_char x y c fg bg f; fb_put_string (u32 (x + 8)) y s fg bg f
  end.

(** ** The console *)

Definition fb_console_init_region (x y cols rows fg bg : Z) (f : fb) : outcome fb :=
  let f := mk_fb (fb_ptr f) (fb_w f) (fb_h f) (fb_p f) (fb_size f) (fb_mirror f) 0 0 cols rows x y fg bg true in
  fb_fill_rect x y (u32 (cols * 8)) (u32 (rows * 8)) bg f.
Definition fb_console_init (fg bg : Z) (f : fb) : outcome fb :=
  fb_console_init_region 0 0 (fb_w f / 8) (fb_h f / 8) fg bg f.
Definition fb_console_enable (f : fb) : fb := set_enabled f true.
Definition fb_console_disable (f : fb) : fb := set_enabled f false.

(** *dst = *src, both as word indices. *)
Definition move_word (dst src : Z) (f : fb) : outcome fb :=
  match fb_ptr f with
  | None => Undef
  | Some mem => v ← aget mem src; poke dst v f
  end.
Definition console_scroll (f : fb) : outcome fb :=
  let pw := u32 (con_cols f * 8) in
  let last := u32 (u32 (con_rows f - 1) * 8) in
  f ← for_range 0 last (fun r f =>
    let dst := u32 (u32 (con_y0 f + r) * fb_p f) / 4 + con_x0 f in
    let src := u32 (u32 (con_y0 f + r + 8) * fb_p f) / 4 + con_x0 f in
    for_range 0 pw (fun c f => move_word (dst + c) (src + c) f) f) f;
  fb_fill_rect (con_x0 f) (u32 (con_y0 f + last)) pw 8 (con_bg f) f.

Definition con_cursor_block (color : Z) (f : fb) : outcome fb :=
  fb_fill_rect (u32 (con_x0 f + con_cx f * 8)) (u32 (con_y0 f + con_cy f * 8)) 2 8 color f.
Definition con_erase_cursor (f : fb) : outcome fb := con_cursor_block (con_bg f) f.
Definition con_draw_cursor (f : fb) : outcome fb := con_cursor_block (con_fg f) f.

Definition con_newline (f : fb) : outcome fb :=
  let f := set_cursor f 0 (u32 (con_cy f + 1)) in
  if con_rows f <=? con_cy f then f ← console_scroll f; Ret (set_cursor f (con_cx f) (u32 (con_rows f - 1)))
  else Ret f.

(** [c] at the cursor's cell. *)
Definition con_char (c : Z) (f : fb) : outcome fb :=
  fb_put_char (u32 (con_x0 f + con_cx f * 8)) (u32 (con_y0 f + con_cy f * 8)) c (con_fg f) (con_bg f) f.

(** What the character does, between erasing the cursor and drawing it. *)
Definition con_key (c : Z) (f : fb) : outcome fb :=
  if c =? 10 then con_newline f
  else if c =? 13 then Ret (set_cursor f 0 (con_cy f))
  else if (c =? 8) || (c =? 127) then
    if 0 <? con_cx f then con_char 32 (set_cursor f (con_cx f - 1) (con_cy f)) else Ret f
  else if c =? 9 then
    let f := set_cursor f (Z.land (u32 (con_cx f + 4)) (Z.lnot 3)) (con_cy f) in
    if con_cols f <=? con_cx f then con_newline f else Ret f
  else if (32 <=? c) && (c <? 127) then
    f ← con_char c f;
    let f := set_cursor f (u32 (con_cx f + 1)) (con_cy f) in
    if con_cols f <=? con_cx f then con_newline f else Ret f
  else Ret f.
Definition fb_console_putc (c : Z) (f : fb) : outcome fb :=
  match fb_ptr f with
  | None => Ret f
  | Some _ => if negb (con_enabled f) then Ret f else f ← con_erase_cursor f; f ← con_key c f; con_draw_cursor f
  end.

Fixpoint fb_console_puts (s : list Z) (f : fb) : outcome fb :=
  match s with
  | [] => Undef
  | c :: s => if c =? 0 then Ret f else f ← fb_console_putc c f; fb_console_puts s f
  end.
Definition fb_console_clear (f : fb) : outcome fb :=
  f ← fb_fill_rect (con_x0 f) (con_y0 f) (u32 (con_cols f * 8)) (u32 (con_rows f * 8)) (con_bg f) f;
  Ret (set_cursor f 0 0).

(** ** Pixels *)

Definition stride (f : fb) : Z := fb_p f / 4.
Definition mem_of (f : fb) : list Z := default [] (fb_ptr f).
Definition pixel (f : fb) (x y : Z) : Z := mem_of f !!! Z.to_nat (y * stride f + x).

(** What the GPU grants: the pitch covers a row, the buffer covers the screen. *)
Record fb_ok (f : fb) : Prop := {
  fo_ptr : is_Some (fb_ptr f);
  fo_pitch : fb_p f = 4 * stride f;
  fo_w : 0 <= fb_w f <= stride f;
  fo_h : 0 <= fb_h f;
  fo_size : fb_p f * fb_h f < 2 ^ 32;
  fo_mem : stride f * fb_h f <= zlen (mem_of f);
  fo_mirror : fb_mirror f = false
}.

Definition on_screen (f : fb) (x y : Z) : Prop := 0 <= x < fb_w f /\ 0 <= y < fb_h f.

(** [f'] is [f] with other pixels: [g] gives the new one. *)
Record drawn (f f' : fb) (g : Z -> Z -> Z -> Z) : Prop := {
  dr_same : exists mem, f' = set_mem f mem /\ length mem = length (mem_of f);
  dr_pix : forall x y, on_screen f x y -> pixel f' x y = g x y (pixel f x y)
}.

Lemma set_mem_mem f mem mem' : set_mem (set_mem f mem) mem' = set_mem f mem'.
Proof. done. Qed.

Lemma drawn_ok f f' g : drawn f f' g -> fb_ok f -> fb_ok f'.
Proof. intros [(mem & -> & Hl) _] []. split; try done. unfold mem_of. simpl. by rewrite Hl. Qed.
Lemma drawn_refl f : fb_ok f -> drawn f f (fun _ _ v => v).
Proof.
  intros Hok. split; [|done]. destruct (fo_ptr _ Hok) as [mem E]. exists mem. unfold mem_of. rewrite E. split; [|done].
  destruct f; simpl in *; by subst.
Qed.
Lemma drawn_trans f f1 f2 g1 g2 : drawn f f1 g1 -> drawn f1 f2 g2 -> drawn f f2 (fun x y v => g2 x y (g1 x y v)).
Proof.
  intros [(m1 & -> & L1) P1] [(m2 & -> & L2) P2]. split; [exists m2; split; [done|]; change (mem_of (set_mem f m1)) with m1 in L2; congruence|].
  intros x y Hxy. rewrite P2 by done. by rewrite P1.
Qed.
Lemma drawn_ext f f' g g' : (forall x y v, on_screen f x y -> g x y v = g' x y v) -> drawn f f' g -> drawn f f' g'.
Proof. intros Hg [Hs Hp]. split; [done|]. intros x y Hxy. by rewrite Hp, Hg. Qed.

(** A pixel's place in memory. *)
Lemma place_ok f x y : fb_ok f -> on_screen f x y ->
  0 <= y * stride f + x < zlen (mem_of f) /\ u32 (y * fb_p f) / 4 = y * stride f /\ y * stride f + x < 2 ^ 30.
Proof.
  intros [] [Hx Hy]. assert (y * fb_p f <= fb_p f * fb_h f) as Hle by nia.
  assert ((y + 1) * stride f <= stride f * fb_h f) as Hle2 by nia.
  split; [nia|]. rewrite u32_small by (change (2 ^ 32) with 4294967296 in *; nia). split.
  - rewrite fo_pitch0. replace (y * (4 * stride f)) with (y * stride f * 4) by lia. by apply Z.div_mul.
  - change (2 ^ 30) with 1073741824. change (2 ^ 32) with 4294967296 in *. nia.
Qed.

Lemma place_inj f x y x' y' : fb_ok f -> on_screen f x y -> on_screen f x' y' ->
  y * stride f + x = y' * stride f + x' -> x = x' /\ y = y'.
Proof. intros [] [Hx Hy] [Hx' Hy'] E. assert (y = y') as -> by nia. split; [lia|done]. Qed.

Lemma poke_drawn f x y color : fb_ok f -> on_screen f x y ->
  exists f', poke (y * stride f + x) color f = Ret f' /\ drawn f f' (fun X Y v => if decide (X = x /\ Y = y) then color else v).
Proof.
  intros Hok Hs. destruct (place_ok f x y Hok Hs) as (Hp & _). unfold poke. destruct (fo_ptr _ Hok) as [mem E].
  unfold mem_of in Hp. rewrite E in *. simpl in Hp. rewrite aset_ok, bind_Ret by lia. eexists. split; [done|]. split.
  - eexists. split; [done|]. rewrite length_insert. unfold mem_of. by rewrite E.
  - intros X Y HXY. unfold pixel. assert (mem_of f = mem) as -> by (unfold mem_of; by rewrite E).
    match goal with |- context [set_mem f ?m] => change (stride (set_mem f m)) with (stride f); change (mem_of (set_mem f m)) with m end.
    destruct (decide (X = x /\ Y = y)) as [[-> ->]|Hne].
    + apply list_lookup_total_insert_eq. lia.
    + rewrite list_lookup_total_insert_ne; [done|]. destruct (place_ok f X Y Hok HXY) as (HP & _). intros E2. apply Hne.
      apply (place_inj f); [done|done|done|lia].
Qed.

Lemma put_pixel_drawn f x y color : fb_ok f -> 0 <= x -> 0 <= y ->
  exists f', fb_put_pixel x y color f = Ret f' /\ drawn f f' (fun X Y v => if decide (X = x /\ Y = y) then color else v).
Proof.
  intros Hok Hx Hy. unfold fb_put_pixel. destruct (Z.leb_spec (fb_w f) x), (Z.leb_spec (fb_h f) y); cbn [orb];
    try (exists f; split; [done|]; eapply drawn_ext; [|by apply drawn_refl]; intros X Y v [HX HY]; cbv beta; rewrite decide_False by lia; done).
  rewrite (fo_mirror _ Hok). assert (on_screen f x y) as Hs by (unfold on_screen; lia).
  destruct (place_ok f x y Hok Hs) as (Hp & -> & Hb). rewrite u32_small by (change (2 ^ 30) with 1073741824 in Hb; lia). by apply poke_drawn.
Qed.

(** ** Rectangles *)

Lemma small_w f : fb_ok f -> 0 < fb_h f -> fb_w f < 2 ^ 30.
Proof. intros [] Hh. change (2 ^ 30) with 1073741824. change (2 ^ 32) with 4294967296 in *. nia. Qed.

Lemma fill_cols_drawn n px w y col color f : fb_ok f -> 0 <= y < fb_h f -> 0 <= px < 2 ^ 32 -> 0 <= col ->
  px + col <= Z.max px (fb_w f) -> fb_w f - (px + col) <= Z.of_nat n ->
  exists f', fill_cols n (u32 (y * stride f + px)) px w col color f = Ret f'
    /\ drawn f f' (fun X Y v => if decide (px + col <= X < px + w /\ Y = y) then color else v).
Proof.
  revert col f. induction n as [|n IH]; intros col f Hok Hy Hpx Hc Hle Hn; cbn [fill_cols];
    pose proof (small_w f Hok ltac:(lia)) as Hw30; change (2 ^ 30) with 1073741824 in Hw30; change (2 ^ 32) with 4294967296 in Hpx.
  - assert (u32 (px + col) <? fb_w f = false) as ->.
    { rewrite u32_small by lia. apply Z.ltb_ge. lia. }
    rewrite andb_false_r. exists f. split; [done|]. eapply drawn_ext; [|by apply drawn_refl]. intros X Y v [HX _]. cbv beta. by rewrite decide_False by lia.
  - destruct (Z.ltb_spec col w), (Z.ltb_spec (u32 (px + col)) (fb_w f)) as [Hlt|Hge]; cbn [andb];
      try (exists f; split; [done|]; eapply drawn_ext; [|by apply drawn_refl]; intros X Y v [HX _]; cbv beta; rewrite u32_small in * by lia; by rewrite decide_False by lia).
    rewrite u32_small in Hlt by lia. assert (on_screen f (px + col) y) as Hs by (unfold on_screen; lia).
    destruct (place_ok f (px + col) y Hok Hs) as (Hp & _ & Hb). change (2 ^ 30) with 1073741824 in Hb.
    assert (0 <= y * stride f) as Hy0 by (destruct Hok; nia).
    assert (u32 (u32 (y * stride f + px) + col) = y * stride f + (px + col)) as ->.
    { rewrite (u32_small (y * stride f + px)) by lia. rewrite u32_small by lia. lia. }
    destruct (poke_drawn f (px + col) y color Hok Hs) as (f1 & -> & D1). rewrite bind_Ret. rewrite (u32_small (col + 1)) by lia.
    assert (stride f1 = stride f /\ fb_w f1 = fb_w f /\ fb_h f1 = fb_h f) as (E1 & E2 & E3) by (by destruct D1 as [(mem & -> & _) _]).
    destruct (IH (col + 1) f1) as (f2 & E & D2); [by eapply drawn_ok|by rewrite E3|change (2 ^ 32) with 4294967296; lia|lia|rewrite E2; lia|rewrite E2; lia|].
    rewrite E1 in E. exists f2. split; [exact E|]. eapply drawn_ext; [|eapply drawn_trans; [exact D1|exact D2]].
    intros X Y v _. cbv beta. repeat case_decide; (reflexivity || lia).
Qed.

(** The rectangle from [x], [y] with width [w], to the row before [last]. *)
Definition in_rect (x y w last X Y : Z) : Prop := x <= X < x + w /\ y <= Y < last.
#[global] Instance in_rect_dec x y w last X Y : Decision (in_rect x y w last X Y).
Proof. unfold in_rect. apply _. Defined.

Lemma fill_rows_drawn n px w row last color f : fb_ok f -> 0 <= row -> 0 <= px < 2 ^ 32 -> last < 2 ^ 32 ->
  fb_h f - row <= Z.of_nat n ->
  exists f', fill_rows n px w row last color f = Ret f'
    /\ drawn f f' (fun X Y v => if decide (in_rect px row w last X Y) then color else v).
Proof.
  revert row f. induction n as [|n IH]; intros row f Hok Hr Hpx Hr32 Hn; cbn [fill_rows].
  - assert (row <? fb_h f = false) as -> by (apply Z.ltb_ge; lia). rewrite andb_false_r. exists f. split; [done|].
    eapply drawn_ext; [|by apply drawn_refl]. intros X Y v [_ HY]. cbv beta. rewrite decide_False; [done|unfold in_rect; lia].
  - destruct (Z.ltb_spec row last), (Z.ltb_spec row (fb_h f)); cbn [andb];
      try (exists f; split; [done|]; eapply drawn_ext; [|by apply drawn_refl]; intros X Y v [_ HY]; cbv beta; rewrite decide_False; [done|unfold in_rect; lia]).
    assert (u32 (row * fb_p f) / 4 = row * stride f) as ->.
    { destruct Hok. rewrite u32_small by (change (2 ^ 32) with 4294967296 in *; nia). rewrite fo_pitch0.
      replace (row * (4 * stride f)) with (row * stride f * 4) by lia. by apply Z.div_mul. }
    pose proof (fo_w _ Hok). destruct (fill_cols_drawn (Z.to_nat (fb_w f)) px w row 0 color f) as (f1 & -> & D1); [done|lia|done|lia|lia|lia|].
    rewrite bind_Ret. assert (fb_h f1 = fb_h f) as E3 by (by destruct D1 as [(mem & -> & _) _]).
    rewrite (u32_small (row + 1)) by (change (2 ^ 32) with 4294967296 in *; lia).
    destruct (IH (row + 1) f1) as (f2 & E & D2); [by eapply drawn_ok|lia|done|done|lia|].
    exists f2. split; [exact E|]. eapply drawn_ext; [|eapply drawn_trans; [exact D1|exact D2]].
    intros X Y v _. cbv beta. unfold in_rect. repeat case_decide; (reflexivity || lia).
Qed.

Lemma fill_rect_drawn x y w h color f : fb_ok f -> 0 <= x < 2 ^ 32 -> 0 <= y ->
  exists f', fb_fill_rect x y w h color f = Ret f'
    /\ drawn f f' (fun X Y v => if decide (in_rect x y w (u32 (y + h)) X Y) then color else v).
Proof.
  intros Hok Hx Hy. unfold fb_fill_rect. rewrite (fo_mirror _ Hok). cbn [andb]. pose proof (fo_h _ Hok).
  apply fill_rows_drawn; [done|done|done| |lia]. pose proof (u32_range (y + h)). change (2 ^ 32) with 4294967296. lia.
Qed.

(** ** Characters *)

Definition font_row (c row : Z) : Z :=
  let idx := c - 32 in
  (font8x8 !!! Z.to_nat (if (idx <? 0) || (94 <? idx) then 0 else idx)) !!! Z.to_nat row.

(** The glyph of [c] in the 8 by 8 pixels at [x], [y]. *)
Definition glyph_at (x y c fg bg : Z) (X Y v : Z) : Z :=
  if decide (in_rect x y 8 (y + 8) X Y) then if Z.testbit (font_row c (Y - y)) (X - x) then fg else bg else v.

Lemma font_rows : Forall (fun g => length g = 8%nat) font8x8.
Proof. unfold font8x8. repeat (constructor; [reflexivity|]). constructor. Qed.

Lemma glyph_of_ok c : exists g, glyph_of c = Ret g /\ length g = 8%nat /\ forall row, 0 <= row < 8 -> aget g row = Ret (font_row c row).
Proof.
  unfold glyph_of, font_row. cbv zeta. set (k := if _ || _ then 0 else _).
  assert (0 <= k < 95) as Hk. { unfold k. destruct (Z.ltb_spec (c - 32) 0), (Z.ltb_spec 94 (c - 32)); simpl; lia. }
  destruct (aget_ok font8x8 k) as [g E]; [change (zlen font8x8) with 95; lia|]. exists g. split; [done|].
  apply aget_Ret in E as [_ E]. pose proof (Forall_lookup_1 _ _ _ _ font_rows E) as Hl. cbv beta in Hl. split; [done|].
  intros row Hr. destruct (aget_ok g row) as [r Er]; [lia|]. rewrite Er. apply aget_Ret in Er as [_ Er].
  rewrite (list_lookup_total_correct _ _ _ E). by rewrite (list_lookup_total_correct _ _ _ Er).
Qed.

Lemma put_char_drawn x y c fg bg f : fb_ok f -> 0 <= x -> 0 <= y -> x + 8 <= 2 ^ 32 -> y + 8 <= 2 ^ 32 ->
  exists f', fb_put_char x y c fg bg f = Ret f' /\ drawn f f' (glyph_at x y c fg bg).
Proof.
  intros Hok Hx Hy Hx32 Hy32. change (2 ^ 32) with 4294967296 in *. unfold fb_put_char. destruct (glyph_of_ok c) as (g & -> & Hl & Hg). rewrite bind_Ret.
  destruct (for_range_ind (fun r f1 => drawn f f1 (fun X Y v => if decide (in_rect x y 8 (y + r) X Y) then if Z.testbit (font_row c (Y - y)) (X - x) then fg else bg else v))
    0 8 (fun row f => bits ← aget g row;
      for_range 0 8 (fun col f => fb_put_pixel (u32 (x + col)) (u32 (y + row)) (if Z.testbit bits col then fg else bg) f) f) f) as (f2 & -> & D); [lia| | |by exists f2].
  { eapply drawn_ext; [|by apply drawn_refl]. intros X Y v _. cbv beta. rewrite decide_False; [done|unfold in_rect; lia]. }
  intros row f1 Hrow D1. rewrite Hg, bind_Ret by done. set (bits := font_row c row).
  destruct (for_range_ind (fun k f2 => drawn f1 f2 (fun X Y v => if decide (x <= X < x + k /\ Y = y + row) then if Z.testbit bits (X - x) then fg else bg else v))
    0 8 (fun col f => fb_put_pixel (u32 (x + col)) (u32 (y + row)) (if Z.testbit bits col then fg else bg) f) f1) as (f2 & -> & D2); [lia| | |].
  - eapply drawn_ext; [|by apply drawn_refl; eapply drawn_ok]. intros X Y v _. cbv beta. rewrite decide_False; [done|lia].
  - intros col f2 Hcol D2. rewrite !u32_small by lia.
    destruct (put_pixel_drawn f2 (x + col) (y + row) (if Z.testbit bits col then fg else bg)) as (f3 & -> & D3); [eapply drawn_ok; [exact D2|by eapply drawn_ok]|lia|lia|].
    exists f3. split; [done|]. eapply drawn_ext; [|eapply drawn_trans; [exact D2|exact D3]]. intros X Y v _. cbv beta.
    destruct (decide (X = x + col /\ Y = y + row)) as [[-> ->]|]; [rewrite decide_True by lia; by replace (x + col - x) with col by lia|].
    repeat case_decide; (reflexivity || lia).
  - exists f2. split; [done|]. eapply drawn_ext; [|eapply drawn_trans; [exact D1|exact D2]]. intros X Y v _. cbv beta. unfold in_rect.
    destruct (decide (x <= X < x + 8 /\ Y = y + row)) as [[? ->]|].
    + rewrite decide_True by lia. unfold bits. by replace (y + row - y) with row by lia.
    + repeat case_decide; (reflexivity || lia).
Qed.

(** ** A terminal of pixels

    What the console means: a picture and a cursor cell. *)

(** The region, its colours and the screen. *)
Record geo := mk_geo { g_w : Z; g_h : Z; g_x0 : Z; g_y0 : Z; g_cols : Z; g_rows : Z; g_fg : Z; g_bg : Z }.
Definition geo_of (f : fb) : geo :=
  mk_geo (fb_w f) (fb_h f) (con_x0 f) (con_y0 f) (con_cols f) (con_rows f) (con_fg f) (con_bg f).
Definition picture : Type := Z -> Z -> Z.
Record term := mk_term { t_pic : picture; t_cx : Z; t_cy : Z }.

Section Terminal.
Context (G : geo).

Definition cell_x (cx : Z) : Z := g_x0 G + cx * 8.
Definition cell_y (cy : Z) : Z := g_y0 G + cy * 8.
(** The cursor: two columns of a cell. *)
Definition cursor_block (color : Z) (t : term) : term :=
  mk_term (fun X Y => if decide (in_rect (cell_x (t_cx t)) (cell_y (t_cy t)) 2 (cell_y (t_cy t) + 8) X Y) then color else t_pic t X Y)
    (t_cx t) (t_cy t).
Definition draw_char (c : Z) (t : term) : term :=
  mk_term (fun X Y => glyph_at (cell_x (t_cx t)) (cell_y (t_cy t)) c (g_fg G) (g_bg G) X Y (t_pic t X Y)) (t_cx t) (t_cy t).
Definition move_to (cx cy : Z) (t : term) : term := mk_term (t_pic t) cx cy.
(** The rows of cells move up by one, the last is cleared. *)
Definition scrolled (t : term) : term :=
  mk_term (fun X Y =>
    if decide (in_rect (g_x0 G) (g_y0 G) (8 * g_cols G) (cell_y (g_rows G - 1)) X Y) then t_pic t X (Y + 8)
    else if decide (in_rect (g_x0 G) (cell_y (g_rows G - 1)) (8 * g_cols G) (cell_y (g_rows G)) X Y) then g_bg G
    else t_pic t X Y) (t_cx t) (t_cy t).
Definition newline (t : term) : term :=
  if decide (t_cy t + 1 < g_rows G) then move_to 0 (t_cy t + 1) t else move_to 0 (g_rows G - 1) (scrolled t).
(** On to column [cx], or to the next row. *)
Definition advance (cx : Z) (t : term) : term := if decide (cx < g_cols G) then move_to cx (t_cy t) t else newline t.

Definition term_key (c : Z) (t : term) : term :=
  if c =? 10 then newline t
  else if c =? 13 then move_to 0 (t_cy t) t
  else if (c =? 8) || (c =? 127) then if 0 <? t_cx t then draw_char 32 (move_to (t_cx t - 1) (t_cy t) t) else t
  else if c =? 9 then advance (4 * (t_cx t / 4 + 1)) t
  else if (32 <=? c) && (c <? 127) then advance (t_cx t + 1) (draw_char c t)
  else t.
Definition term_putc (c : Z) (t : term) : term := cursor_block (g_fg G) (term_key c (cursor_block (g_bg G) t)).
Definition term_puts (s : list Z) (t : term) : term := foldl (fun t c => term_putc c t) t s.

(** *** The picture outside the region *)

Definition in_region (X Y : Z) : Prop := in_rect (g_x0 G) (g_y0 G) (8 * g_cols G) (cell_y (g_rows G)) X Y.
Definition in_grid (t : term) : Prop := 0 <= t_cx t < g_cols G /\ 0 <= t_cy t < g_rows G.

(** Same outside, and the cursor inside. *)
Definition stays (t t' : term) : Prop := in_grid t' /\ forall X Y, ~ in_region X Y -> t_pic t' X Y = t_pic t X Y.
Lemma stays_trans t1 t2 t3 : stays t1 t2 -> stays t2 t3 -> stays t1 t3.
Proof. intros [_ P1] [I2 P2]. split; [done|]. intros X Y H. by rewrite P2, P1. Qed.
Lemma stays_refl t : in_grid t -> stays t t.
Proof. by split. Qed.

Hypothesis HG : 1 <= g_cols G /\ 1 <= g_rows G.

Lemma cursor_stays color t : in_grid t -> stays t (cursor_block color t).
Proof.
  intros Hi. split; [exact Hi|]. intros X Y Hn. simpl. rewrite decide_False; [done|]. intros [HX HY]. apply Hn. unfold in_region, in_grid, in_rect, cell_x, cell_y in *. lia.
Qed.
Lemma draw_char_stays c t : in_grid t -> stays t (draw_char c t).
Proof.
  intros Hi. split; [exact Hi|]. intros X Y Hn. simpl. unfold glyph_at. rewrite decide_False; [done|]. intros [HX HY]. apply Hn. unfold in_region, in_grid, in_rect, cell_x, cell_y in *. lia.
Qed.
Lemma move_stays cx cy t : 0 <= cx < g_cols G -> 0 <= cy < g_rows G -> stays t (move_to cx cy t).
Proof. by intros Hx Hy. Qed.
Lemma newline_stays t : in_grid t -> stays t (newline t).
Proof.
  intros [Hx Hy]. unfold newline. case_decide; [apply move_stays; lia|]. split; [split; simpl; lia|].
  intros X Y Hn. simpl. rewrite !decide_False; [done| |]; intros [HX HY]; apply Hn; unfold in_region, in_rect, cell_y in *; lia.
Qed.
Lemma advance_stays cx t : in_grid t -> 0 <= cx -> stays t (advance cx t).
Proof. intros Hi Hc. unfold advance. case_decide; [apply move_stays; [lia|apply Hi]|by apply newline_stays]. Qed.
Lemma term_putc_stays c t : in_grid t -> stays t (term_putc c t).
Proof.
  intros Hi. unfold term_putc. pose proof (cursor_stays (g_bg G) t Hi) as H1. set (t1 := cursor_block _ t) in *.
  assert (stays t1 (term_key c t1)) as H2; [|eapply stays_trans; [eapply stays_trans; [exact H1|exact H2]|apply cursor_stays, H2]].
  destruct H1 as [Hi1 _]. pose proof Hi1 as [Hx Hy]. unfold term_key.
  destruct (c =? 10); [by apply newline_stays|]. destruct (c =? 13); [apply move_stays; lia|].
  destruct ((c =? 8) || (c =? 127)).
  { destruct (Z.ltb_spec 0 (t_cx t1)); [|by apply stays_refl]. assert (stays t1 (move_to (t_cx t1 - 1) (t_cy t1) t1)) as Hm by (apply move_stays; lia).
    eapply stays_trans; [exact Hm|apply draw_char_stays, Hm]. }
  destruct (c =? 9). { apply advance_stays; [done|]. pose proof (Z.div_pos (t_cx t1) 4). lia. }
  destruct ((32 <=? c) && (c <? 127)); [|by apply stays_refl]. pose proof (draw_char_stays c t1 Hi1) as Hd.
  eapply stays_trans; [exact Hd|]. apply advance_stays; [apply Hd|lia].
Qed.
Lemma term_puts_stays s t : in_grid t -> stays t (term_puts s t).
Proof.
  revert t. induction s as [|c s IH]; intros t Hi; [by apply stays_refl|]. simpl. pose proof (term_putc_stays c t Hi) as Hp.
  eapply stays_trans; [exact Hp|apply IH, Hp].
Qed.
End Terminal.

(** ** The console is that terminal *)

(** The region lies on the screen. *)
Record con_ok (f : fb) : Prop := {
  co_fb : fb_ok f;
  co_x0 : 0 <= con_x0 f; co_y0 : 0 <= con_y0 f;
  co_cols : 1 <= con_cols f; co_rows : 1 <= con_rows f;
  co_w : con_x0 f + 8 * con_cols f <= fb_w f;
  co_h : con_y0 f + 8 * con_rows f <= fb_h f
}.

(** [f] shows the terminal [t]. *)
Record shows (f : fb) (t : term) : Prop := {
  sh_ok : con_ok f;
  sh_grid : in_grid (geo_of f) t;
  sh_cx : con_cx f = t_cx t; sh_cy : con_cy f = t_cy t;
  sh_pic : forall X Y, on_screen f X Y -> pixel f X Y = t_pic t X Y
}.

(** [f'] is [f] with another picture and cursor. *)
Definition redrawn (f f' : fb) : Prop := exists mem cx cy, f' = set_cursor (set_mem f mem) cx cy /\ length mem = length (mem_of f).

Lemma con_small f : con_ok f -> fb_w f < 2 ^ 30 /\ fb_h f < 2 ^ 30.
Proof.
  intros [[] ]. change (2 ^ 30) with 1073741824. change (2 ^ 32) with 4294967296 in *. split; nia.
Qed.

Lemma redrawn_refl f : con_ok f -> redrawn f f.
Proof.
  intros [[[mem E] ]]. exists mem, (con_cx f), (con_cy f). unfold mem_of. rewrite E. split; [|done]. destruct f; simpl in *; by subst.
Qed.
Lemma redrawn_trans f1 f2 f3 : redrawn f1 f2 -> redrawn f2 f3 -> redrawn f1 f3.
Proof.
  intros (m1 & x1 & y1 & -> & L1) (m2 & x2 & y2 & -> & L2). exists m2, x2, y2. split; [done|].
  change (mem_of (set_cursor (set_mem f1 m1) x1 y1)) with m1 in L2. congruence.
Qed.
Lemma redrawn_geo f f' : redrawn f f' -> geo_of f' = geo_of f.
Proof. by intros (m & x & y & -> & _). Qed.
Lemma redrawn_ok f f' : redrawn f f' -> con_ok f -> con_ok f'.
Proof.
  intros (m & x & y & -> & L) [[] ]. split; try done. split; try done. change (mem_of (set_cursor (set_mem f m) x y)) with m. by rewrite L.
Qed.

(** A step of the console that draws, and then moves the cursor. *)
Lemma shows_step f f1 g t t' : shows f t -> drawn f f1 g -> in_grid (geo_of f) t' ->
  (forall X Y, on_screen f X Y -> g X Y (t_pic t X Y) = t_pic t' X Y) ->
  shows (set_cursor f1 (t_cx t') (t_cy t')) t' /\ redrawn f (set_cursor f1 (t_cx t') (t_cy t')).
Proof.
  intros [Hok Hg Hx Hy Hp] [(mem & -> & L) D] Hi' Ht.
  assert (redrawn f (set_cursor (set_mem f mem) (t_cx t') (t_cy t'))) as Hr by by exists mem, (t_cx t'), (t_cy t').
  split; [|done]. split; [by eapply redrawn_ok|by rewrite (redrawn_geo _ _ Hr)|done|done|].
  intros X Y HXY. change (pixel (set_cursor (set_mem f mem) (t_cx t') (t_cy t')) X Y) with (pixel (set_mem f mem) X Y).
  rewrite D by done. by rewrite Hp, Ht.
Qed.
Lemma set_cursor_same f f1 g : drawn f f1 g -> set_cursor f1 (con_cx f) (con_cy f) = f1.
Proof. by intros [(mem & -> & _) _]. Qed.

(** The step keeps the cursor. *)
Lemma shows_draw f f1 g t t' : shows f t -> drawn f f1 g -> t_cx t' = t_cx t -> t_cy t' = t_cy t ->
  (forall X Y, on_screen f X Y -> g X Y (t_pic t X Y) = t_pic t' X Y) -> shows f1 t' /\ redrawn f f1.
Proof.
  intros Hs D Ex Ey Hg. destruct (shows_step f f1 g t t' Hs D) as [H1 H2]; [|done|].
  - unfold in_grid. rewrite Ex, Ey. apply Hs.
  - rewrite Ex, Ey, <- (sh_cx _ _ Hs), <- (sh_cy _ _ Hs), (set_cursor_same _ _ _ D) in H1, H2. done.
Qed.
Lemma shows_move f t cx cy : shows f t -> in_grid (geo_of f) (mk_term (t_pic t) cx cy) ->
  shows (set_cursor f cx cy) (move_to cx cy t) /\ redrawn f (set_cursor f cx cy).
Proof.
  intros Hs Hi. apply (shows_step f f (fun _ _ v => v) t (move_to cx cy t)); [done|apply drawn_refl, Hs|done|done].
Qed.

Lemma cell_small f t : shows f t ->
  0 <= cell_x (geo_of f) (t_cx t) /\ cell_x (geo_of f) (t_cx t) + 8 <= con_x0 f + 8 * con_cols f < 2 ^ 31
  /\ 0 <= cell_y (geo_of f) (t_cy t) /\ cell_y (geo_of f) (t_cy t) + 8 <= con_y0 f + 8 * con_rows f < 2 ^ 31
  /\ u32 (con_x0 f + con_cx f * 8) = cell_x (geo_of f) (t_cx t) /\ u32 (con_y0 f + con_cy f * 8) = cell_y (geo_of f) (t_cy t).
Proof.
  intros [Hok [Hx Hy] Ex Ey _]. destruct (con_small f Hok) as [Hw Hh]. destruct Hok. change (2 ^ 30) with 1073741824 in *. change (2 ^ 31) with 2147483648.
  rewrite Ex, Ey. unfold cell_x, cell_y. simpl in *. rewrite !u32_small by lia. lia.
Qed.

Lemma cursor_block_ok color f t : shows f t ->
  exists f', con_cursor_block color f = Ret f' /\ shows f' (cursor_block (geo_of f) color t) /\ redrawn f f'.
Proof.
  intros Hs. destruct (cell_small f t Hs) as (Hx0 & Hx & Hy0 & Hy & Ex & Ey). change (2 ^ 31) with 2147483648 in *. unfold con_cursor_block. rewrite Ex, Ey.
  destruct (fill_rect_drawn (cell_x (geo_of f) (t_cx t)) (cell_y (geo_of f) (t_cy t)) 2 8 color f) as (f1 & -> & D); [apply Hs|change (2 ^ 32) with 4294967296; lia|lia|].
  rewrite u32_small in D by lia. exists f1. split; [done|]. eapply shows_draw; [done|exact D|done|done|done].
Qed.

Lemma con_char_ok c f t : shows f t ->
  exists f', con_char c f = Ret f' /\ shows f' (draw_char (geo_of f) c t) /\ redrawn f f'.
Proof.
  intros Hs. destruct (cell_small f t Hs) as (Hx0 & Hx & Hy0 & Hy & Ex & Ey). change (2 ^ 31) with 2147483648 in *. unfold con_char. rewrite Ex, Ey.
  destruct (put_char_drawn (cell_x (geo_of f) (t_cx t)) (cell_y (geo_of f) (t_cy t)) c (con_fg f) (con_bg f) f) as (f1 & -> & D);
    [apply Hs|lia|lia|change (2 ^ 32) with 4294967296; lia|change (2 ^ 32) with 4294967296; lia|].
  exists f1. split; [done|]. eapply shows_draw; [done|exact D|done|done|done].
Qed.

(** *** Scrolling *)

Lemma move_word_drawn f x y sx sy : fb_ok f -> on_screen f x y -> on_screen f sx sy ->
  exists f', move_word (y * stride f + x) (sy * stride f + sx) f = Ret f'
    /\ drawn f f' (fun X Y v => if decide (X = x /\ Y = y) then pixel f sx sy else v).
Proof.
  intros Hok Hd Hs. unfold move_word. destruct (place_ok f sx sy Hok Hs) as (Hp & _).
  destruct (poke_drawn f x y (pixel f sx sy) Hok Hd) as (f' & E & D). exists f'. split; [|done]. rewrite <- E.
  unfold poke at 1. unfold pixel, mem_of in *. destruct (fo_ptr _ Hok) as [mem Em]. rewrite Em in *. cbn [default] in *.
  destruct (aget_ok mem (sy * stride f + sx)) as [v Ev]; [exact Hp|]. rewrite Ev, bind_Ret.
  apply aget_Ret in Ev as [_ Ev]. rewrite (list_lookup_total_correct _ _ _ Ev). unfold poke. by rewrite Em.
Qed.

Lemma word_place f y : fb_ok f -> 0 <= y < fb_h f -> u32 (y * fb_p f) / 4 = y * stride f.
Proof.
  intros [] Hy. rewrite u32_small by (change (2 ^ 32) with 4294967296 in *; nia). rewrite fo_pitch0.
  replace (y * (4 * stride f)) with (y * stride f * 4) by lia. by apply Z.div_mul.
Qed.

Lemma drawn_geo f f' g : drawn f f' g -> fb_w f' = fb_w f /\ fb_h f' = fb_h f /\ fb_p f' = fb_p f /\ con_x0 f' = con_x0 f
  /\ con_y0 f' = con_y0 f /\ con_cols f' = con_cols f /\ con_rows f' = con_rows f /\ con_bg f' = con_bg f /\ con_fg f' = con_fg f.
Proof. by intros [(mem & -> & _) _]. Qed.
Lemma drawn_screen f f' g x y : drawn f f' g -> on_screen f' x y <-> on_screen f x y.
Proof. by intros [(mem & -> & _) _]. Qed.

(** One row of pixels, from the row 8 below. *)
Lemma scroll_row_ok f y n : fb_ok f -> 0 <= con_x0 f -> 0 <= n -> con_x0 f + n <= fb_w f -> 0 <= y -> y + 8 < fb_h f ->
  exists f', for_range 0 n (fun c => move_word (y * stride f + con_x0 f + c) ((y + 8) * stride f + con_x0 f + c)) f = Ret f'
    /\ drawn f f' (fun X Y v => if decide (in_rect (con_x0 f) y n (y + 1) X Y) then pixel f X (y + 8) else v).
Proof.
  intros Hok Hx0 Hn Hw Hy Hh.
  pose (I := fun c f1 => drawn f f1 (fun X Y v => if decide (in_rect (con_x0 f) y c (y + 1) X Y) then pixel f X (y + 8) else v)).
  apply (for_range_ind I); unfold I; clear I.
  - lia.
  - eapply drawn_ext; [|by apply drawn_refl]. intros X Y v _. cbv beta. rewrite decide_False; [done|unfold in_rect; lia].
  - intros c f1 Hc D1. destruct (drawn_geo _ _ _ D1) as (Ew & Eh & Ep & Ex & _).
    assert (stride f = stride f1) as Es by (unfold stride; by rewrite Ep). rewrite <- !Z.add_assoc, Es.
    assert (on_screen f (con_x0 f + c) (y + 8)) as Hs by (unfold on_screen; lia).
    destruct (move_word_drawn f1 (con_x0 f + c) y (con_x0 f + c) (y + 8)) as (f2 & E & D2);
      [by eapply drawn_ok|apply (drawn_screen _ _ _ _ _ D1); unfold on_screen; lia|by apply (drawn_screen _ _ _ _ _ D1)|].
    exists f2. split; [exact E|]. eapply drawn_ext; [|eapply drawn_trans; [exact D1|exact D2]].
    intros X Y v _. cbv beta. unfold in_rect. destruct (decide (X = con_x0 f + c /\ Y = y)) as [[-> ->]|].
    + rewrite decide_True by lia. rewrite (dr_pix _ _ _ D1) by done. rewrite decide_False; [done|unfold in_rect; lia].
    + repeat case_decide; (reflexivity || lia).
Qed.

Lemma scroll_rows_ok f : con_ok f -> let last := 8 * (con_rows f - 1) in
  exists f', for_range 0 last (fun r g =>
    let dst := u32 (u32 (con_y0 g + r) * fb_p g) / 4 + con_x0 g in
    let src := u32 (u32 (con_y0 g + r + 8) * fb_p g) / 4 + con_x0 g in
    for_range 0 (8 * con_cols f) (fun c h => move_word (dst + c) (src + c) h) g) f = Ret f'
  /\ drawn f f' (fun X Y v => if decide (in_rect (con_x0 f) (con_y0 f) (8 * con_cols f) (con_y0 f + last) X Y) then pixel f X (Y + 8) else v).
Proof.
  intros Hok last. destruct (con_small f Hok) as [Hw30 Hh30]. change (2 ^ 30) with 1073741824 in *. pose proof Hok as [Hfb].
  pose (I := fun r f1 => drawn f f1 (fun X Y v => if decide (in_rect (con_x0 f) (con_y0 f) (8 * con_cols f) (con_y0 f + r) X Y) then pixel f X (Y + 8) else v)).
  apply (for_range_ind I); unfold I; clear I.
  - lia.
  - eapply drawn_ext; [|by apply drawn_refl]. intros X Y v _. cbv beta. rewrite decide_False; [done|unfold in_rect; lia].
  - intros r f1 Hr D1. unfold last in Hr. destruct (drawn_geo _ _ _ D1) as (Ew & Eh & Ep & Ex & Ey & Ec & _).
    assert (fb_ok f1) as Hok1 by by eapply drawn_ok.
    cbv zeta. rewrite (u32_small (con_y0 f1 + r)), (u32_small (con_y0 f1 + r + 8)), !word_place by (try done; lia).
    destruct (scroll_row_ok f1 (con_y0 f1 + r) (8 * con_cols f)) as (f2 & E & D2); [done|lia|lia|lia|lia|lia|].
    exists f2. split; [exact E|]. eapply drawn_ext; [|eapply drawn_trans; [exact D1|exact D2]].
    intros X Y v HXY. cbv beta. rewrite Ex, Ey. unfold in_rect. case_decide as H1; [|repeat case_decide; (reflexivity || lia)].
    rewrite decide_True by lia. rewrite (dr_pix _ _ _ D1) by (unfold on_screen; lia).
    rewrite decide_False by (unfold in_rect; lia). f_equal. lia.
Qed.

Lemma console_scroll_drawn f : con_ok f -> let last := con_y0 f + 8 * (con_rows f - 1) in
  exists f', console_scroll f = Ret f' /\ drawn f f' (fun X Y v =>
    if decide (in_rect (con_x0 f) (con_y0 f) (8 * con_cols f) last X Y) then pixel f X (Y + 8)
    else if decide (in_rect (con_x0 f) last (8 * con_cols f) (last + 8) X Y) then con_bg f else v).
Proof.
  intros Hok last. destruct (con_small f Hok) as [Hw30 Hh30]. change (2 ^ 30) with 1073741824 in *. pose proof Hok as [Hfb].
  unfold console_scroll. cbv zeta.
  assert (u32 (con_cols f * 8) = 8 * con_cols f) as -> by (rewrite u32_small; lia).
  assert (u32 (u32 (con_rows f - 1) * 8) = 8 * (con_rows f - 1)) as -> by (rewrite (u32_small (con_rows f - 1)), u32_small; lia).
  destruct (scroll_rows_ok f Hok) as (f1 & E1 & D1). cbv zeta in E1, D1. rewrite E1, bind_Ret.
  destruct (drawn_geo _ _ _ D1) as (Ew & Eh & Ep & Ex & Ey & Ec & Er & Eb & _). rewrite Ex, Ey, Eb.
  rewrite u32_small by lia. fold last. fold last in D1.
  destruct (fill_rect_drawn (con_x0 f) last (8 * con_cols f) 8 (con_bg f) f1) as (f2 & E2 & D2);
    [by eapply drawn_ok|change (2 ^ 32) with 4294967296; lia|lia|]. rewrite u32_small in D2 by lia.
  exists f2. split; [exact E2|]. eapply drawn_ext; [|eapply drawn_trans; [exact D1|exact D2]].
  intros X Y v _. cbv beta. unfold in_rect. repeat case_decide; (reflexivity || lia).
Qed.

(** Where the cursor was does not matter to what is drawn. *)
Lemma drawn_cursor f f1 g cx cy : drawn (set_cursor f cx cy) f1 g -> drawn f (set_cursor f1 (con_cx f) (con_cy f)) g.
Proof. intros [(mem & -> & L) D]. split; [by exists mem|exact D]. Qed.

Lemma con_newline_ok f t : shows f t ->
  exists f', con_newline f = Ret f' /\ shows f' (newline (geo_of f) t) /\ redrawn f f'.
Proof.
  intros Hs. pose proof (sh_ok _ _ Hs) as Hok. destruct (con_small f Hok) as [Hw30 Hh30]. change (2 ^ 30) with 1073741824 in *. pose proof Hok as [Hfb].
  pose proof (sh_grid _ _ Hs) as [Hcx Hcy]. pose proof (sh_cy _ _ Hs) as Ecy. unfold con_newline, newline. cbv zeta. simpl in Hcx, Hcy.
  change (con_rows (set_cursor f _ _)) with (con_rows f). rewrite (u32_small (con_cy f + 1)) by lia.
  change (con_cy (set_cursor f 0 ?y)) with y. rewrite Ecy. simpl. case_decide; destruct (Z.leb_spec (con_rows f) (t_cy t + 1)); try lia.
  - eexists. split; [done|]. apply shows_move; [done|]. unfold in_grid. simpl. lia.
  - destruct (console_scroll_drawn (set_cursor f 0 (t_cy t + 1))) as (f1 & E & D).
    { eapply redrawn_ok; [|exact Hok]. destruct (redrawn_refl f Hok) as (m & ? & ? & -> & L). by exists m, 0, (t_cy t + 1). }
    rewrite E, bind_Ret. destruct (drawn_geo _ _ _ D) as (_ & _ & _ & _ & _ & _ & Er & _).
    assert (con_cx f1 = 0) as -> by by destruct D as [(mem & -> & _) _].
    rewrite Er. change (con_rows (set_cursor f 0 (t_cy t + 1))) with (con_rows f). rewrite u32_small by lia.
    eexists. split; [done|]. apply drawn_cursor in D.
    apply (shows_step _ _ _ _ (move_to 0 (con_rows f - 1) (scrolled (geo_of f) t)) Hs D); [unfold in_grid; simpl; lia|].
    intros X Y [HX HY]. simpl. unfold in_rect, cell_y. simpl.
    repeat case_decide; try (reflexivity || lia). apply (sh_pic _ _ Hs). unfold on_screen. lia.
Qed.

Lemma advance_ok f t cx : shows f t -> 0 <= cx -> let f1 := set_cursor f cx (con_cy f) in
  exists f', (if con_cols f1 <=? con_cx f1 then con_newline f1 else Ret f1) = Ret f'
    /\ shows f' (advance (geo_of f) cx t) /\ redrawn f f'.
Proof.
  intros Hs Hc f1. unfold advance. pose proof (sh_grid _ _ Hs) as [Hcx Hcy]. change (con_cols f1) with (con_cols f). change (con_cx f1) with cx.
  simpl. case_decide; destruct (Z.leb_spec (con_cols f) cx); try lia.
  - eexists. split; [done|]. unfold f1. rewrite (sh_cy _ _ Hs). apply shows_move; [done|]. unfold in_grid. simpl in *. lia.
  - destruct (con_newline_ok f t Hs) as (f' & E & Hs'). exists f'. split; [exact E|exact Hs'].
Qed.

Lemma tab_stop cx : 0 <= cx < 2 ^ 31 -> Z.land (u32 (cx + 4)) (Z.lnot 3) = 4 * (cx / 4 + 1).
Proof.
  intros Hc. change (2 ^ 31) with 2147483648 in Hc. rewrite u32_small by lia. change 3 with (2 ^ 2 - 1). rewrite land_lnot_low by done.
  change (2 ^ 2) with 4. replace (cx + 4) with (cx + 1 * 4) by lia. rewrite Z.div_add by done. lia.
Qed.

Lemma con_key_ok c f t : shows f t ->
  exists f', con_key c f = Ret f' /\ shows f' (term_key (geo_of f) c t) /\ redrawn f f'.
Proof.
  intros Hs. pose proof (sh_ok _ _ Hs) as Hok. destruct (con_small f Hok) as [Hw30 _]. change (2 ^ 30) with 1073741824 in *.
  pose proof (sh_grid _ _ Hs) as [Hcx Hcy]. simpl in Hcx, Hcy. pose proof Hok as [_ Hx0 _ _ _ Hw _].
  unfold con_key, term_key. destruct (c =? 10); [by apply con_newline_ok|].
  destruct (c =? 13).
  { eexists. split; [done|]. rewrite (sh_cy _ _ Hs). apply shows_move; [done|]. unfold in_grid. simpl. lia. }
  destruct ((c =? 8) || (c =? 127)).
  { rewrite (sh_cx _ _ Hs), (sh_cy _ _ Hs). destruct (Z.ltb_spec 0 (t_cx t)); [|by exists f; split; [done|split; [done|apply redrawn_refl]]].
    destruct (shows_move f t (t_cx t - 1) (t_cy t)) as [Hm Hr]; [done|unfold in_grid; simpl; lia|].
    destruct (con_char_ok 32 _ _ Hm) as (f' & E & H1 & H2). exists f'. split; [exact E|]. split; [exact H1|exact (redrawn_trans _ _ _ Hr H2)]. }
  destruct (c =? 9).
  { rewrite (sh_cx _ _ Hs), tab_stop by (change (2 ^ 31) with 2147483648; lia). apply advance_ok; [done|].
    pose proof (Z.div_pos (t_cx t) 4). lia. }
  destruct ((32 <=? c) && (c <? 127)); [|by exists f; split; [done|split; [done|apply redrawn_refl]]].
  destruct (con_char_ok c f t Hs) as (f1 & -> & H1 & H2). rewrite bind_Ret. cbv zeta.
  rewrite (sh_cx _ _ H1). simpl t_cx. rewrite u32_small by lia.
  destruct (advance_ok f1 _ (t_cx t + 1) H1) as (f2 & E & H3 & H4); [lia|]. exists f2.
  rewrite (redrawn_geo _ _ H2) in H3. split; [exact E|]. split; [exact H3|exact (redrawn_trans _ _ _ H2 H4)].
Qed.

Lemma redrawn_enabled f f' : redrawn f f' -> con_enabled f' = con_enabled f.
Proof. by intros (m & x & y & -> & _). Qed.

(** A character goes to the screen the way the terminal takes it. *)
Lemma console_putc_ok c f t : shows f t -> con_enabled f = true ->
  exists f', fb_console_putc c f = Ret f' /\ shows f' (term_putc (geo_of f) c t) /\ redrawn f f'.
Proof.
  intros Hs He. unfold fb_console_putc. destruct (fo_ptr _ (co_fb _ (sh_ok _ _ Hs))) as [mem ->]. rewrite He. cbn [negb].
  destruct (cursor_block_ok (con_bg f) f t Hs) as (f1 & E1 & H1 & R1). unfold con_erase_cursor. rewrite E1, bind_Ret.
  destruct (con_key_ok c f1 _ H1) as (f2 & E2 & H2 & R2). rewrite E2, bind_Ret.
  destruct (cursor_block_ok (con_fg f2) f2 _ H2) as (f3 & E3 & H3 & R3). exists f3. split; [exact E3|].
  rewrite (redrawn_geo _ _ R2) in H3. rewrite (redrawn_geo _ _ R1) in H3.
  assert (con_fg f2 = con_fg f) as Ef. { change (g_fg (geo_of f2) = g_fg (geo_of f)). by rewrite (redrawn_geo _ _ (redrawn_trans _ _ _ R1 R2)). }
  rewrite Ef in H3. split; [exact H3|]. exact (redrawn_trans _ _ _ R1 (redrawn_trans _ _ _ R2 R3)).
Qed.

Lemma console_puts_ok s rest f t : shows f t -> con_enabled f = true -> Forall (fun c => c <> 0) s ->
  exists f', fb_console_puts (s ++ 0 :: rest) f = Ret f' /\ shows f' (term_puts (geo_of f) s t) /\ redrawn f f'.
Proof.
  revert f t. induction s as [|c s IH]; intros f t Hs He Hn.
  - exists f. split; [done|]. split; [done|apply redrawn_refl, Hs].
  - inversion_clear Hn as [|? ? Hc Hs0]. cbn [app fb_console_puts]. rewrite (proj2 (Z.eqb_neq c 0)) by done.
    destruct (console_putc_ok c f t Hs He) as (f1 & -> & H1 & R1). rewrite bind_Ret.
    destruct (IH f1 _ H1) as (f2 & E & H2 & R2); [by rewrite (redrawn_enabled _ _ R1)|done|].
    exists f2. split; [exact E|]. rewrite (redrawn_geo _ _ R1) in H2. split; [exact H2|exact (redrawn_trans _ _ _ R1 R2)].
Qed.

(** Any console shows the terminal with its pixels and its cursor. *)
Definition term_of (f : fb) : term := mk_term (pixel f) (con_cx f) (con_cy f).
Lemma shows_term_of f : con_ok f -> 0 <= con_cx f < con_cols f -> 0 <= con_cy f < con_rows f -> shows f (term_of f).
Proof. intros Hok Hx Hy. by split. Qed.

(** Setting the console up clears its region and puts the cursor in its first cell. *)
Lemma console_init_ok x y cols rows fg bg f : fb_ok f -> 0 <= x -> 0 <= y -> 1 <= cols -> 1 <= rows ->
  x + 8 * cols <= fb_w f -> y + 8 * rows <= fb_h f ->
  exists f', fb_console_init_region x y cols rows fg bg f = Ret f' /\ con_enabled f' = true
    /\ geo_of f' = mk_geo (fb_w f) (fb_h f) x y cols rows fg bg
    /\ shows f' (mk_term (fun X Y => if decide (in_rect x y (8 * cols) (y + 8 * rows) X Y) then bg else pixel f X Y) 0 0).
Proof.
  intros Hok Hx Hy Hc Hr Hw Hh. unfold fb_console_init_region. cbv zeta. set (f1 := mk_fb _ _ _ _ _ _ _ _ _ _ _ _ _ _ _).
  assert (con_ok f1) as Hok1. { split; [|done|done|done|done|done|done]. by destruct Hok. }
  destruct (con_small f1 Hok1) as [Hw30 Hh30]. change (2 ^ 30) with 1073741824 in *. change (fb_w f1) with (fb_w f) in *. change (fb_h f1) with (fb_h f) in *.
  destruct (fill_rect_drawn x y (u32 (cols * 8)) (u32 (rows * 8)) bg f1) as (f2 & E & D); [by apply Hok1|change (2 ^ 32) with 4294967296; lia|lia|].
  exists f2. split; [exact E|]. rewrite !u32_small in D by (rewrite ?u32_small; lia).
  assert (geo_of f2 = mk_geo (fb_w f) (fb_h f) x y cols rows fg bg /\ con_enabled f2 = true /\ con_cx f2 = 0 /\ con_cy f2 = 0) as (Eg & He & Ex & Ey)
    by by destruct D as [(mem & -> & _) _].
  split; [done|]. split; [done|]. split; [|unfold in_grid; rewrite Eg; simpl; lia|done|done|].
  - destruct D as [(mem & -> & L) _]. eapply (redrawn_ok f1); [by exists mem, 0, 0|done].
  - intros X Y HXY. apply (drawn_screen _ _ _ _ _ D) in HXY. rewrite (dr_pix _ _ _ D) by done. simpl.
    rewrite (Z.mul_comm cols), (Z.mul_comm rows). done.
Qed.

(** ** From the mailbox to the screen *)

(** What the property interface documents of a grant: an address, a pitch of
    whole words that covers a row, and a buffer that covers the screen. *)
Definition grants (gpu : list Z -> list Z) (width height : Z) : Prop :=
  exists base pitch size, gpu (fb_request width height) !! 28%nat = Some base
    /\ gpu (fb_request width height) !! 33%nat = Some pitch /\ gpu (fb_request width height) !! 29%nat = Some size
    /\ Z.land base 0x3FFFFFFF <> 0
    /\ pitch mod 4 = 0 /\ size mod 4 = 0 /\ 4 * width <= pitch /\ pitch * height <= size < 2 ^ 32.

Lemma fb_init_ok n gpu addr width height junk d f d' f' : grants gpu width height -> 0 <= width -> 0 <= height ->
  fb_init n gpu addr width height junk d f = Ret (Some (0, d', f')) ->
  fb_ok f' /\ fb_w f' = width /\ fb_h f' = height.
Proof.
  intros (base & pitch & size & Eb & Ep & Es & Hbase & Hpm & Hsm & Hw4 & Hsz) Hw Hh. unfold fb_init, mbox_call.
  destruct (mbox_wait n MBOX_FULL d) as [d1|]; [|done]. destruct (mbox_reply n _ _) as [d2|]; [|done].
  intros E. apply bind_Ret_inv in E as (r & E0 & E). apply bind_Ret_inv in E0 as (code & Ec & E0). apply Ret_inj in E0 as <-.
  destruct (negb _); [done|]. apply bind_Ret_inv in E as (base' & E2 & E). apply aget_Ret in E2 as [_ E2].
  change (Z.to_nat 28) with 28%nat in E2. rewrite Eb in E2. injection E2 as <-. destruct (base =? 0); [done|]. outcome_inv.
  apply aget_Ret in E0 as [_ E0], E1 as [_ E1]. change (Z.to_nat 29) with 29%nat in E0. change (Z.to_nat 33) with 33%nat in E1.
  rewrite Es in E0. rewrite Ep in E1. injection E0 as <-. injection E1 as <-.
  apply Z.eqb_neq in Hbase as ->. split; [|done]. pose proof (Z.div_mod pitch 4 ltac:(done)). pose proof (Z.div_mod size 4 ltac:(done)).
  split; unfold stride; simpl; [done|lia|lia|lia|lia| |done].
  assert (0 <= pitch * height) by nia. unfold mem_of. simpl. rewrite length_resize, Z2Nat.id by (apply Z.div_pos; lia). nia.
Qed.

(** C25. The console is a terminal: after fb_init on a grant the GPU documents,
    the console set up in a region of the screen takes any string the way the
    terminal does (glyphs, line breaks, tabs, backspace, scrolling, the cursor
    block), with every write inside the granted memory, and the pixels outside
    the region stay as they were. *)
Theorem console_refines_terminal n gpu addr width height junk d f d0 f0 x y cols rows fg bg s rest
    (Hgpu : grants gpu width height) (Hw : 0 <= width) (Hh : 0 <= height)
    (Hinit : fb_init n gpu addr width height junk d f = Ret (Some (0, d0, f0)))
    (Hx : 0 <= x) (Hy : 0 <= y) (Hc : 1 <= cols) (Hr : 1 <= rows)
    (Hfitw : x + 8 * cols <= width) (Hfith : y + 8 * rows <= height)
    (Hs : Forall (fun c => c <> 0) s) :
  let G := mk_geo width height x y cols rows fg bg in
  let t0 := mk_term (fun X Y => if decide (in_rect x y (8 * cols) (y + 8 * rows) X Y) then bg else pixel f0 X Y) 0 0 in
  exists f1 f2, fb_console_init_region x y cols rows fg bg f0 = Ret f1 /\ fb_console_puts (s ++ 0 :: rest) f1 = Ret f2
    /\ shows f2 (term_puts G s t0)
    /\ forall X Y, on_screen f0 X Y -> ~ in_rect x y (8 * cols) (y + 8 * rows) X Y -> pixel f2 X Y = pixel f0 X Y.
Proof.
  intros G t0. destruct (fb_init_ok _ _ _ _ _ _ _ _ _ _ Hgpu Hw Hh Hinit) as (Hok & <- & <-).
  destruct (console_init_ok x y cols rows fg bg f0 Hok Hx Hy Hc Hr Hfitw Hfith) as (f1 & E1 & He & EG & H1).
  destruct (console_puts_ok s rest f1 t0 H1 He Hs) as (f2 & E2 & H2 & R2). exists f1, f2. rewrite EG in H2.
  split; [exact E1|]. split; [exact E2|]. split; [exact H2|]. intros X Y HXY Hout.
  assert (in_region G X Y <-> in_rect x y (8 * cols) (y + 8 * rows) X Y) as Hreg by (unfold in_region, in_rect, cell_y; simpl; lia).
  rewrite (sh_pic _ _ H2).
  - destruct (term_puts_stays G (conj Hc Hr) s t0) as [_ Hp]; [split; simpl; lia|]. rewrite Hp by (by rewrite Hreg). simpl. by rewrite decide_False.
  - pose proof (redrawn_geo _ _ R2) as E. rewrite EG in E. unfold on_screen in *.
    change (fb_w f2) with (g_w (geo_of f2)). change (fb_h f2) with (g_h (geo_of f2)). by rewrite E.
Qed.

(** A 20 by 18 screen, a console of 2 by 2 cells and text that scrolls. *)
Definition small_gpu (b : list Z) : list Z := <[33%nat := 96]> (<[29%nat := 1728]> (<[28%nat := 0xC1000000]> (<[1%nat := 0x80000000]> b))).
Definition small_fb : fb := mk_fb None 0 0 0 0 false 0 0 0 0 0 0 0 0 false.
Definition small_mail : mmio := mk_mmio (fun n => if Nat.eqb n 0 then 0 else if Nat.eqb n 1 then 0 else 8) 0 [].
Definition small_init : outcome (option (Z * mmio * fb)) := fb_init 3 small_gpu 0x4000 20 18 [7; 7; 7] small_mail small_fb.
Definition small_f0 : fb := match small_init with Ret (Some (_, _, f)) => f | _ => small_fb end.
Definition small_d0 : mmio := match small_init with Ret (Some (_, d, _)) => d | _ => small_mail end.
Lemma console_refines_terminal_witness :
  exists f1 f2, fb_console_init_region 2 1 2 2 0xFF 0 small_f0 = Ret f1
    /\ fb_console_puts ([65; 66; 9; 67; 10; 68; 8] ++ 0 :: []) f1 = Ret f2 /\ con_cy f2 = 1.
Proof.
  destruct (console_refines_terminal 3 small_gpu 0x4000 20 18 [7; 7; 7] small_mail small_fb small_d0 small_f0 2 1 2 2 0xFF 0
    [65; 66; 9; 67; 10; 68; 8] []) as (f1 & f2 & E1 & E2 & H & _).
  - exists 0xC1000000, 96, 1728. vm_compute. repeat split; try reflexivity; discriminate.
  - done.
  - done.
  - vm_compute. reflexivity.
  - lia.
  - lia.
  - lia.
  - lia.
  - lia.
  - lia.
  - repeat (constructor; [lia|]). constructor.
  - exists f1, f2. split; [exact E1|]. split; [exact E2|]. rewrite (sh_cy _ _ H). vm_compute. reflexivity.
Defined.
