(* ===== verification/Kb.v ===== *)
(** kb.c: the USB keyboard (DWC2 host controller), on any device behaviour.

    [kb] is the driver's state with the transfer registers' last values in
    [usb].  Buffers are byte lists; what is on the stack before a transfer fills
    it ([junk]) is an argument.  Every polling loop is bounded by its count. *)
From S2P Require Import Prelude CString Ring Uart Mmio Fb.

(** ** Registers *)

Definition DWC2_BASE : Z := 0xFE980000.
Definition GAHBCFG : Z := DWC2_BASE + 0x008.
Definition GUSBCFG : Z := DWC2_BASE + 0x00C.
Definition GRSTCTL : Z := DWC2_BASE + 0x010.
Definition GINTSTS : Z := DWC2_BASE + 0x014.
Definition GINTMSK : Z := DWC2_BASE + 0x018.
Definition GRXSTSP : Z := DWC2_BASE + 0x020.
Definition GRXFSIZ : Z := DWC2_BASE + 0x024.
Definition GNPTXFSIZ : Z := DWC2_BASE + 0x028.
Definition GNPTXSTS : Z := DWC2_BASE + 0x02C.
Definition HCFG : Z := DWC2_BASE + 0x400.
Definition HFNUM : Z := DWC2_BASE + 0x408.
Definition HPRT : Z := DWC2_BASE + 0x440.
Definition HCCHAR (n : Z) : Z := DWC2_BASE + 0x500 + n * 0x20.
Definition HCSPLT (n : Z) : Z := DWC2_BASE + 0x504 + n * 0x20.
Definition HCINT (n : Z) : Z := DWC2_BASE + 0x508 + n * 0x20.
Definition HCINTMSK (n : Z) : Z := DWC2_BASE + 0x50C + n * 0x20.
Definition HCTSIZ (n : Z) : Z := DWC2_BASE + 0x510 + n * 0x20.
Definition DFIFO (n : Z) : Z := DWC2_BASE + 0x1000 + n * 0x1000.

Definition HPRT_CONNSTS : Z := Z.shiftl 1 0.
Definition HPRT_CONNDET : Z := Z.shiftl 1 1.
Definition HPRT_ENA : Z := Z.shiftl 1 2.
Definition HPRT_ENCHNG : Z := Z.shiftl 1 3.
Definition HPRT_OVRCURRCHNG : Z := Z.shiftl 1 5.
Definition HPRT_RST : Z := Z.shiftl 1 8.
Definition HPRT_PWR : Z := Z.shiftl 1 12.
Definition HPRT_W1C_MASK : Z := Z.lor (Z.lor (Z.lor HPRT_CONNDET HPRT_ENCHNG) HPRT_OVRCURRCHNG) (Z.shiftl 1 6).
Definition HCCHAR_IN : Z := Z.shiftl 1 15.
Definition HCCHAR_LSDEV : Z := Z.shiftl 1 17.
Definition HCCHAR_CTL : Z := Z.shiftl 0 18.
Definition HCCHAR_INTR : Z := Z.shiftl 3 18.
Definition HCCHAR_ODDFRM : Z := Z.shiftl 1 29.
Definition HCCHAR_CHENA : Z := Z.shiftl 1 31.
Definition PID_DATA0 : Z := Z.shiftl 0 29.
Definition PID_DATA1 : Z := Z.shiftl 2 29.
Definition PID_SETUP : Z := Z.shiftl 3 29.
Definition HCINT_XFERCOMPL : Z := Z.shiftl 1 0.
Definition HCINT_CHHLTD : Z := Z.shiftl 1 1.
Definition HCINT_NAK : Z := Z.shiftl 1 4.
(** XFERCOMPL, CHHLTD, STALL, NAK, XACTERR, BBLERR, ACK *)
Definition HCINT_COMMON_MASK : Z := 0x1BB.
Definition GINTSTS_RXFLVL : Z := Z.shiftl 1 4.

(** Is a bit of [mask] set? *)
Definition has (v mask : Z) : bool := negb (Z.land v mask =? 0).
Definition clear (v mask : Z) : Z := Z.land v (Z.lnot mask).

(** ** The transfers' state *)

Record usb := mk_usb {
  u_dev : mmio; u_con : uart; kb_low_speed : bool;
  kb_last_out_intr : Z; kb_last_in_intr : Z; kb_last_in_ci : Z; kb_last_grx : Z; kb_last_in_received : Z
}.
Definition set_udev (d : mmio) (u : usb) : usb :=
  mk_usb d (u_con u) (kb_low_speed u) (kb_last_out_intr u) (kb_last_in_intr u) (kb_last_in_ci u) (kb_last_grx u) (kb_last_in_received u).
Definition set_ucon (c : uart) (u : usb) : usb :=
  mk_usb (u_dev u) c (kb_low_speed u) (kb_last_out_intr u) (kb_last_in_intr u) (kb_last_in_ci u) (kb_last_grx u) (kb_last_in_received u).
Definition set_low_speed (b : bool) (u : usb) : usb :=
  mk_usb (u_dev u) (u_con u) b (kb_last_out_intr u) (kb_last_in_intr u) (kb_last_in_ci u) (kb_last_grx u) (kb_last_in_received u).
Definition set_out_intr (v : Z) (u : usb) : usb :=
  mk_usb (u_dev u) (u_con u) (kb_low_speed u) v (kb_last_in_intr u) (kb_last_in_ci u) (kb_last_grx u) (kb_last_in_received u).
Definition set_last_in (intr ci grx received : Z) (u : usb) : usb :=
  mk_usb (u_dev u) (u_con u) (kb_low_speed u) (kb_last_out_intr u) intr ci grx received.

Definition on_udev (f : mmio -> mmio) (u : usb) : usb := set_udev (f (u_dev u)) u.
Definition read_udev (reg : Z) (u : usb) : Z * usb := let '(v, d) := rd reg (u_dev u) in (v, set_udev d u).
Definition usb_puts (t : list Z) (u : usb) : outcome usb := c ← uart_puts t (u_con u); Ret (set_ucon c u).
Definition usb_puthex (v : Z) (u : usb) : usb := set_ucon (uart_puthex v (u_con u)) u.
(** The hexadecimal value of a register. *)
Definition show_reg (reg : Z) (u : usb) : usb := let '(v, u) := read_udev reg u in usb_puthex v u.

Definition usb_dump_status (tag : string) (u : usb) : outcome usb :=
  u ← usb_puts (lit "[kb] ") u;
  u ← usb_puts (lit tag) u;
  u ← usb_puts (lit ": out_intr=") u;
  let u := usb_puthex (kb_last_out_intr u) u in
  u ← usb_puts (lit " in_intr=") u;
  let u := usb_puthex (kb_last_in_intr u) u in
  u ← usb_puts (lit " in_ci=") u;
  let u := usb_puthex (kb_last_in_ci u) u in
  u ← usb_puts (lit " grx=") u;
  let u := usb_puthex (kb_last_grx u) u in
  u ← usb_puts (lit " recv=") u;
  let u := usb_puthex (u64 (kb_last_in_received u)) u in
  u ← usb_puts (lit " hprt=") u;
  let u := show_reg HPRT u in
  u ← usb_puts (lit " hcchar0=") u;
  let u := show_reg (HCCHAR 0) u in
  u ← usb_puts (lit " hctsiz0=") u;
  let u := show_reg (HCTSIZ 0) u in
  usb_puts (line_of "") u.

Definition port_speed_name (spd : Z) : list Z :=
  lit (if spd =? 0 then "high" else if spd =? 1 then "full" else if spd =? 2 then "low" else "unknown").

(** ** FIFOs *)

Definition words (len : Z) : Z := Z.shiftr (len + 3) 2.

(** Bytes [b] to 3 of the word at byte [i] of the data, as far as it goes. *)
Fixpoint tx_word (n : nat) (data : list Z) (len i b : Z) (w : Z) : outcome Z :=
  match n with
  | O => Ret w
  | S n => if i + b <? len then c ← aget data (i + b); tx_word n data len i (b + 1) (Z.lor w (u32 (Z.shiftl c (b * 8)))) else Ret w
  end.
Definition fifo_tx (ch : Z) (data : list Z) (len : Z) (d : mmio) : outcome mmio :=
  let '(_, d) := poll (Z.to_nat 200000) GNPTXSTS
    (fun v => if words len <=? Z.land (Z.shiftr v 16) 0xFFFF then Some tt else None) 1 d in
  for_range 0 (words len) (fun i d => w ← tx_word 4 data len (i * 4) 0 0; Ret (wr (DFIFO ch) w d)) d.

(** Bytes [b] to 3 of a word into [buf + off], as far as [len] goes. *)
Fixpoint rx_word (n : nat) (buf : list Z) (off len i b w : Z) : outcome (list Z) :=
  match n with
  | O => Ret buf
  | S n => if i + b <? len then buf ← aset buf (off + (i + b)) (u8 (Z.shiftr w (b * 8))); rx_word n buf off len i (b + 1) w else Ret buf
  end.
Definition fifo_rx (buf : list Z) (off len : Z) (d : mmio) : outcome (list Z * mmio) :=
  for_range 0 (words len) (fun i '(buf, d) =>
    let '(w, d) := rd (DFIFO 0) d in buf ← rx_word 4 buf off len (i * 4) 0 w; Ret (buf, d)) (buf, d).
Fixpoint drain_words (n : nat) (d : mmio) : mmio :=
  match n with O => d | S n => drain_words n (rd (DFIFO 0) d).2 end.
Definition fifo_drain (len : Z) (d : mmio) : mmio := drain_words (Z.to_nat (words len)) d.

(** Any channel interrupt, or 0 after the time-out. *)
Definition ch_wait (ch : Z) (d : mmio) : Z * mmio :=
  let '(r, d) := poll (Z.to_nat 500000) (HCINT ch) (fun v => if v =? 0 then None else Some v) 1 d in
  (default 0 r, d).

(** ** Transfers *)

(** len ? (len + mps - 1) / mps : 1 *)
Definition packets (len mps : Z) : outcome Z :=
  if len =? 0 then Ret 1 else if mps =? 0 then Undef else Ret (Z.quot (len + mps - 1) mps).
Definition channel_char (addr ep mps dir ep_type : Z) (low : bool) : Z :=
  let v := Z.lor (Z.lor (Z.lor (Z.lor (Z.land mps 0x7FF) (Z.shiftl (Z.land ep 0xF) 11)) dir) ep_type) (u32 (Z.shiftl (Z.land addr 0x7F) 22)) in
  if low then Z.lor v HCCHAR_LSDEV else v.
Definition transfer_size (bytes pkts pid : Z) : Z :=
  Z.lor (Z.lor (Z.land bytes 0x7FFFF) (Z.shiftl (Z.land pkts 0x3FF) 19)) pid.
(** Interrupts cleared and unmasked, no split transfer. *)
Definition open_channel (ch : Z) (d : mmio) : mmio :=
  wr (HCSPLT ch) 0 (wr (HCINTMSK ch) HCINT_COMMON_MASK (wr (HCINT ch) 0xFFFFFFFF d)).

Definition usb_out (ch addr ep ep_type mps pid : Z) (data : list Z) (len : Z) (u : usb) : outcome (Z * usb) :=
  let u := set_out_intr 0 (on_udev (open_channel ch) u) in
  pkts ← packets len mps;
  let u := on_udev (wr (HCTSIZ ch) (transfer_size len pkts pid)) u in
  let hcchar := channel_char addr ep mps 0 ep_type (kb_low_speed u) in
  d ← (if 0 <? len then fifo_tx ch data len (u_dev u) else Ret (u_dev u));
  let d := wr (HCCHAR ch) (Z.lor hcchar HCCHAR_CHENA) d in
  let '(intr, d) := ch_wait ch d in
  let u := set_out_intr intr (set_udev (wr (HCINT ch) 0xFFFFFFFF d) u) in
  Ret (if has intr HCINT_XFERCOMPL then 0 else -1, u).

(** A packet of [cnt] bytes for this channel: into the buffer as far as it goes. *)
Definition take_packet (cnt received len : Z) (buf : list Z) (u : usb) : outcome (Z * list Z * usb) :=
  let want := len - received in
  '(received, buf, d) ←
    (if cnt <=? want then '(buf, d) ← fifo_rx buf received cnt (u_dev u); Ret (received + cnt, buf, d)
     else '(buf, d) ← fifo_rx buf received want (u_dev u); Ret (received + want, buf, fifo_drain (cnt - want) d));
  Ret (received, buf, set_last_in (kb_last_in_intr u) (kb_last_in_ci u) (kb_last_grx u) received (set_udev d u)).

(** What one round of the loop of usb_in decides. *)
Inductive round := Again (received : Z) | Return (r : Z) | Leave (received : Z).
Definition in_round (ch len received : Z) (buf : list Z) (u : usb) : outcome (round * list Z * usb) :=
  let '(v, u) := read_udev GINTSTS u in
  if has v GINTSTS_RXFLVL then
    let '(grx, u) := read_udev GRXSTSP u in
    let u := set_last_in (kb_last_in_intr u) (kb_last_in_ci u) grx (kb_last_in_received u) u in
    let grx_ch := Z.land grx 0xF in
    let grx_cnt := Z.land (Z.shiftr grx 4) 0x7FF in
    let grx_sts := Z.land (Z.shiftr grx 17) 0xF in
    if negb (grx_ch =? ch) then
      Ret (Again received, buf, if 0 <? grx_cnt then on_udev (fifo_drain grx_cnt) u else u)
    else if (grx_sts =? 2) && (0 <? grx_cnt) then
      '(received, buf, u) ← take_packet grx_cnt received len buf u; Ret (Again received, buf, u)
    else if grx_sts =? 3 then Ret (Leave received, buf, u)
    else Ret (Again received, buf, if 0 <? grx_cnt then on_udev (fifo_drain grx_cnt) u else u)
  else
    let '(ci, u) := read_udev (HCINT ch) u in
    if ci =? 0 then Ret (Again received, buf, on_udev (delay_us 1) u)
    else
      let u := set_last_in (kb_last_in_intr u) ci (kb_last_grx u) (kb_last_in_received u) u in
      let u := on_udev (wr (HCINT ch) 0xFFFFFFFF) u in
      Ret (Return (if has ci HCINT_NAK then -2
                   else if has ci HCINT_XFERCOMPL then received
                   else if has ci HCINT_CHHLTD then if 0 <? received then received else -1
                   else -1), buf, u).
(** [n] rounds left: the result, or how much was received when the loop ended. *)
Fixpoint in_loop (n : nat) (ch len received : Z) (buf : list Z) (u : usb) : outcome (option Z * Z * list Z * usb) :=
  match n with
  | O => Ret (None, received, buf, u)
  | S n =>
    '(r, buf, u) ← in_round ch len received buf u;
    match r with
    | Again received => in_loop n ch len received buf u
    | Return r => Ret (Some r, received, buf, u)
    | Leave received => Ret (None, received, buf, u)
    end
  end.

Definition usb_in (ch addr ep ep_type mps pid : Z) (buf : list Z) (len : Z) (u : usb) : outcome (Z * list Z * usb) :=
  let u := set_last_in 0 0 0 0 (on_udev (open_channel ch) u) in
  pkts ← packets len mps;
  let hcchar := channel_char addr ep mps HCCHAR_IN ep_type (kb_low_speed u) in
  let '(hcchar, u) :=
    if ep_type =? HCCHAR_INTR then
      let '(v, u) := read_udev HFNUM u in (if has v 1 then Z.lor hcchar HCCHAR_ODDFRM else hcchar, u)
    else (hcchar, u) in
  let u := on_udev (fun d => wr (HCCHAR ch) (Z.lor hcchar HCCHAR_CHENA) (wr (HCTSIZ ch) (transfer_size (pkts * mps) pkts pid) d)) u in
  '(r, received, buf, u) ← in_loop (Z.to_nat 500000) ch len 0 buf u;
  match r with
  | Some r => Ret (r, buf, u)
  | None =>
    let '(intr, d) := ch_wait ch (u_dev u) in
    let u := set_last_in intr (kb_last_in_ci u) (kb_last_grx u) (kb_last_in_received u) (set_udev (wr (HCINT ch) 0xFFFFFFFF d) u) in
    Ret (if has intr (Z.lor HCINT_XFERCOMPL HCINT_CHHLTD) then received else -1, buf, u)
  end.

(** ** Control transfers *)

Definition ctrl_in (addr : Z) (setup buf : list Z) (len : Z) (u : usb) : outcome (Z * list Z * usb) :=
  let mps := if addr =? 0 then 8 else 64 in
  '(r, u) ← usb_out 0 addr 0 HCCHAR_CTL mps PID_SETUP setup 8 u;
  if r <? 0 then u ← usb_dump_status "ctrl_in setup failed" u; Ret (-1, buf, u)
  else
    '(n, buf, u) ← (if 0 <? len then usb_in 0 addr 0 HCCHAR_CTL mps PID_DATA1 buf len u else Ret (0, buf, u));
    if n <? 0 then u ← usb_dump_status "ctrl_in data failed" u; Ret (-1, buf, u)
    else
      '(r, u) ← usb_out 0 addr 0 HCCHAR_CTL mps PID_DATA1 [] 0 u;
      u ← (if r <? 0 then usb_dump_status "ctrl_in status failed" u else Ret u);
      Ret (n, buf, u).

(** [dummy] is the buffer of the empty status packet. *)
Definition ctrl_out (addr : Z) (setup dummy : list Z) (u : usb) : outcome (Z * usb) :=
  let mps := if addr =? 0 then 8 else 64 in
  '(r, u) ← usb_out 0 addr 0 HCCHAR_CTL mps PID_SETUP setup 8 u;
  if r <? 0 then u ← usb_dump_status "ctrl_out setup failed" u; Ret (-1, u)
  else
    '(r, _, u) ← usb_in 0 addr 0 HCCHAR_CTL mps PID_DATA1 dummy 0 u;
    u ← (if r <? 0 then usb_dump_status "ctrl_out status failed" u else Ret u);
    Ret (0, u).

(** ** Keys *)

Definition KB_BUF : Z := 32.
Record kb := mk_kb {
  kb_usb : usb; kb_addr : Z; kb_ep : Z; kb_mps : Z; kb_toggle : Z;
  kb_ring : list Z; kb_head : Z; kb_tail : Z; prev_rep : list Z
}.
Definition set_usb (u : usb) (k : kb) : kb :=
  mk_kb u (kb_addr k) (kb_ep k) (kb_mps k) (kb_toggle k) (kb_ring k) (kb_head k) (kb_tail k) (prev_rep k).
Definition set_target (addr ep mps toggle : Z) (k : kb) : kb :=
  mk_kb (kb_usb k) addr ep mps toggle (kb_ring k) (kb_head k) (kb_tail k) (prev_rep k).
Definition set_keys (ring : list Z) (head tail : Z) (prev : list Z) (k : kb) : kb :=
  mk_kb (kb_usb k) (kb_addr k) (kb_ep k) (kb_mps k) (kb_toggle k) ring head tail prev.

Definition kb_push (c : Z) (k : kb) : outcome kb :=
  let next := Z.rem (kb_head k + 1) KB_BUF in
  if negb (next =? kb_tail k) then
    ring ← aset (kb_ring k) (kb_head k) c; Ret (set_keys ring next (kb_tail k) (prev_rep k) k)
  else Ret k.
Definition kb_ready (k : kb) : bool := negb (kb_head k =? kb_tail k).
Definition kb_getc (k : kb) : outcome (Z * kb) :=
  if kb_head k =? kb_tail k then Ret (0, k)
  else c ← aget (kb_ring k) (kb_tail k); Ret (c, set_keys (kb_ring k) (kb_head k) (Z.rem (kb_tail k + 1) KB_BUF) (prev_rep k) k).

Definition hid_lo : list Z :=
  [0; 0; 0; 0; 97; 98; 99; 100; 101; 102; 103; 104; 105; 106; 107; 108; 109; 110; 111; 112; 113; 114; 115; 116; 117; 118; 119;
   120; 121; 122; 49; 50; 51; 52; 53; 54; 55; 56; 57; 48; 13; 27; 127; 9; 32; 45; 61; 91; 93; 92; 0; 59; 39; 96; 44; 46; 47;
   0; 0; 0; 0; 0; 0; 0].
Definition hid_hi : list Z :=
  [0; 0; 0; 0; 65; 66; 67; 68; 69; 70; 71; 72; 73; 74; 75; 76; 77; 78; 79; 80; 81; 82; 83; 84; 85; 86; 87;
   88; 89; 90; 33; 64; 35; 36; 37; 94; 38; 42; 40; 41; 13; 27; 127; 9; 32; 95; 43; 123; 125; 124; 0; 58; 34; 126; 60; 62; 63;
   0; 0; 0; 0; 0; 0; 0].

(** The key in byte [i] of a report. *)
Definition hid_key (shift : bool) (rep : list Z) (i : Z) (k : kb) : outcome kb :=
  code ← aget rep i;
  if code =? 0 then Ret k
  else
    held ← find_range 2 8 (fun j => c ← aget (prev_rep k) j; Ret (c =? code));
    match held with
    | Some _ => Ret k
    | None =>
      if code <? 0x40 then
        c ← aget (if shift then hid_hi else hid_lo) code;
        if c =? 0 then Ret k else kb_push c k
      else Ret k
    end.

Definition hid_decode (rep : list Z) (k : kb) : outcome kb :=
  m ← aget rep 0;
  k ← for_range 2 8 (hid_key (has m 0x22) rep) k;
  prev ← memcpy (prev_rep k) rep 8;
  Ret (set_keys (kb_ring k) (kb_head k) (kb_tail k) prev k).

(** [rep]: what the report buffer on the stack holds before the transfer. *)
Definition kb_poll (rep : list Z) (k : kb) : outcome kb :=
  if kb_addr k =? 0 then Ret k
  else
    let pid := if kb_toggle k =? 0 then PID_DATA0 else PID_DATA1 in
    '(n, rep, u) ← usb_in 1 (kb_addr k) (kb_ep k) HCCHAR_INTR (kb_mps k) pid rep 8 (kb_usb k);
    let k := set_usb u k in
    if n =? 8 then hid_decode rep (set_target (kb_addr k) (kb_ep k) (kb_mps k) (Z.lxor (kb_toggle k) 1) k) else Ret k.

(** ** Enumeration *)

Definition GET_DEVICE : list Z := [0x80; 0x06; 0x00; 0x01; 0x00; 0x00; 18; 0x00].
Definition SET_ADDRESS : list Z := [0x00; 0x05; 0x01; 0x00; 0x00; 0x00; 0x00; 0x00].
Definition GET_CONFIG : list Z := [0x80; 0x06; 0x00; 0x02; 0x00; 0x00; 0xFF; 0x00].
Definition SET_CONFIG : list Z := [0x00; 0x09; 0x01; 0x00; 0x00; 0x00; 0x00; 0x00].
Definition SET_PROTOCOL : list Z := [0x21; 0x0B; 0x00; 0x00; 0x00; 0x00; 0x00; 0x00].

(** [n] attempts left; [r] is the last answer. *)
Fixpoint get_device (n : nat) (r : Z) (buf : list Z) (u : usb) : outcome (Z * list Z * usb) :=
  match n with
  | O => Ret (r, buf, u)
  | S n =>
    '(r, buf, u) ← ctrl_in 0 GET_DEVICE buf 18 u;
    if 8 <=? r then Ret (r, buf, u) else get_device n r buf (on_udev (delay_us 10000) u)
  end.

(** The endpoint number and packet size of the first interrupt IN endpoint
    among the descriptors of [buf] from byte [i] on, [n] bytes in all. *)
Fixpoint walk_descriptors (fuel : nat) (n i : Z) (buf : list Z) : outcome (option (Z * Z)) :=
  if i + 2 <=? n then
    match fuel with
    | O => Hang
    | S fuel =>
      dlen ← aget buf i;
      dtype ← aget buf (i + 1);
      if dlen <? 2 then Ret None
      else if (dtype =? 0x05) && (7 <=? dlen) then
        ep_addr ← aget buf (i + 2);
        ep_attr ← aget buf (i + 3);
        lo ← aget buf (i + 4);
        hi ← aget buf (i + 5);
        let ep_pkt := Z.lor lo (Z.shiftl hi 8) in
        if has ep_addr 0x80 && (Z.land ep_attr 3 =? 3) then Ret (Some (Z.land ep_addr 0x0F, if 8 <? ep_pkt then 8 else ep_pkt))
        else walk_descriptors fuel n (i + dlen) buf
      else walk_descriptors fuel n (i + dlen) buf
    end
  else Ret None.

(** Up to the configuration descriptor: [None] when the device does not answer. *)
Definition read_config (junk dummy : list Z) (k : kb) : outcome (option (Z * list Z) * kb) :=
  '(n, buf, u) ← get_device 8 (-1) junk (kb_usb k);
  let k := set_usb u k in
  if n <? 8 then u ← usb_puts (line_of "[kb] GET_DESCRIPTOR(Device) failed") u; Ret (None, set_usb u k)
  else
    '(_, u) ← ctrl_out 0 SET_ADDRESS dummy u;
    let u := on_udev (delay_us 5000) u in
    let k := set_target 1 (kb_ep k) (kb_mps k) (kb_toggle k) (set_usb u k) in
    '(n, buf, u) ← ctrl_in 1 GET_CONFIG buf 255 u;
    if n <? 9 then u ← usb_puts (line_of "[kb] GET_DESCRIPTOR(Config) failed") u; Ret (None, set_usb u k)
    else Ret (Some (n, buf), set_usb u k).

(** With [n] bytes of configuration descriptor in [buf]. *)
Definition use_config (n : Z) (buf dummy : list Z) (k : kb) : outcome (Z * kb) :=
  ep ← walk_descriptors 255 n 0 buf;
  match ep with
  | None => u ← usb_puts (line_of "[kb] no HID interrupt endpoint found") (kb_usb k); Ret (-1, set_usb u k)
  | Some (ep, mps) =>
    let k := set_target (kb_addr k) ep mps (kb_toggle k) k in
    '(_, u) ← ctrl_out 1 SET_CONFIG dummy (kb_usb k);
    let u := on_udev (delay_us 5000) u in
    '(_, u) ← ctrl_out 1 SET_PROTOCOL dummy u;
    u ← usb_puts (line_of "[kb] HID keyboard ready (boot protocol)") u;
    Ret (0, set_usb u k)
  end.
Definition enumerate_keyboard (junk dummy : list Z) (k : kb) : outcome (Z * kb) :=
  '(c, k) ← read_config junk dummy k;
  match c with None => Ret (-1, k) | Some (n, buf) => use_config n buf dummy k end.

(** ** Initialisation *)

Definition USB_POWER : list Z := [32; 0; 0x00028001; 8; 0; 3; 3; 0].
Definition usb_power_on (n : nat) (gpu : list Z -> list Z) (addr : Z) (u : usb) : outcome (option (Z * usb)) :=
  r ← mbox_call n gpu MBOX_CH_PROP addr USB_POWER (u_dev u);
  match r with
  | None => Ret None
  | Some (ok, _, d) =>
    let u := set_udev d u in
    if negb ok then u ← usb_puts (line_of "[kb] USB power mailbox failed") u; Ret (Some (-1, u)) else Ret (Some (0, u))
  end.

(** [n] rounds of waiting while [test] of [reg] does not hold. *)
Definition wait_for (n : Z) (reg : Z) (test : Z -> bool) (us : Z) (d : mmio) : bool * mmio :=
  let '(r, d) := poll (Z.to_nat n) reg (fun v => if test v then Some tt else None) us d in
  (match r with Some _ => true | None => false end, d).

Definition dwc2_init (u : usb) : outcome (Z * usb) :=
  let '(_, d) := wait_for 200000 GRSTCTL (fun v => has v (Z.shiftl 1 31)) 1 (u_dev u) in
  let d := wr GRSTCTL 1 d in
  let '(_, d) := wait_for 200000 GRSTCTL (fun v => negb (has v 1)) 1 d in
  let '(v, u) := read_udev GRSTCTL (set_udev d u) in
  if has v 1 then u ← usb_puts (line_of "[kb] DWC2 soft reset timeout") u; Ret (-1, u)
  else
    let d := delay_us 3000 (u_dev u) in
    let d := rmw GAHBCFG (fun v => clear v 1) d in
    let d := wr GINTSTS 0xFFFFFFFF (wr GINTMSK 0 d) in
    let d := rmw GUSBCFG (fun v => Z.lor (clear v (Z.lor (Z.shiftl 1 28) (Z.shiftl 1 29))) (Z.shiftl 1 29)) d in
    let d := delay_us 25000 d in
    let d := wr GNPTXFSIZ (Z.lor (Z.shiftl 0x0100 16) 0x0100) (wr GRXFSIZ 0x0100 d) in
    let d := rmw HCFG (fun v => Z.lor (clear v 3) 0) d in
    let d := rmw GAHBCFG (fun v => Z.lor v 1) d in
    Ret (0, set_udev d u).

(** HPRT = (HPRT & ~W1C) | bits *)
Definition port_write (bits : Z) : mmio -> mmio := rmw HPRT (fun v => Z.lor (clear v HPRT_W1C_MASK) bits).
(** Power, connection, reset: [false] when nothing is connected. *)
Definition port_reset (d : mmio) : bool * mmio :=
  let d := delay_us 50000 (port_write HPRT_PWR d) in
  let '(connected, d) := wait_for 2000 HPRT (fun v => has v HPRT_CONNSTS) 1000 d in
  if negb connected then (false, d)
  else
    let d := delay_us 200 (port_write HPRT_CONNDET d) in
    let d := delay_us 50000 (port_write HPRT_RST d) in
    let d := rmw HPRT (fun v => clear v (Z.lor HPRT_W1C_MASK HPRT_RST)) d in
    let d := delay_us 100000 d in
    let '(_, d) := wait_for 200 HPRT (fun v => has v HPRT_ENA) 1000 d in
    (true, d).
Definition port_init (u : usb) : outcome (Z * usb) :=
  let '(connected, d) := port_reset (u_dev u) in
  let u := set_udev d u in
  if negb connected then u ← usb_puts (line_of "[kb] no USB device on root port") u; Ret (-1, u)
  else
    let '(v, u) := read_udev HPRT u in
    if negb (has v HPRT_ENA) then
      u ← usb_puts (lit "[kb] root port failed to enable: HPRT=") u;
      u ← usb_puts (line_of "") (show_reg HPRT u);
      Ret (-1, u)
    else
      let u := on_udev (port_write HPRT_ENCHNG) u in
      let '(v, u) := read_udev HPRT u in
      let spd := Z.land (Z.shiftr v 17) 3 in
      let u := set_low_speed (spd =? 2) u in
      let u := on_udev (rmw HCFG (fun v => Z.lor (clear v 3) (if kb_low_speed u then 2 else 0))) u in
      u ← usb_puts (lit "[kb] root port speed: ") u;
      u ← usb_puts (port_speed_name spd) u;
      u ← usb_puts (line_of "") u;
      Ret (0, u).

(** The state kb_init starts from. *)
Definition kb_reset (k : kb) : outcome kb :=
  prev ← memset (prev_rep k) 0 8;
  Ret (mk_kb (set_low_speed false (kb_usb k)) 0 0 8 0 (kb_ring k) 0 0 prev).
(** Power, core and port: [None] while the mailbox has not answered. *)
Definition kb_bring_up (n : nat) (gpu : list Z -> list Z) (addr : Z) (k : kb) : outcome (option (Z * kb)) :=
  k ← kb_reset k;
  r ← usb_power_on n gpu addr (kb_usb k);
  match r with
  | None => Ret None
  | Some (_, u) =>
    '(r, u) ← dwc2_init (on_udev (delay_us 10000) u);
    if r <? 0 then Ret (Some (-1, set_usb u k))
    else '(r, u) ← port_init u; Ret (Some (if r <? 0 then -1 else 0, set_usb u k))
  end.
Definition kb_init (n : nat) (gpu : list Z -> list Z) (addr : Z) (junk dummy : list Z) (k : kb) : outcome (option (Z * kb)) :=
  r ← kb_bring_up n gpu addr k;
  match r with
  | None => Ret None
  | Some (r, k) => if r <? 0 then Ret (Some (-1, k)) else '(r, k) ← enumerate_keyboard junk dummy k; Ret (Some (if r <? 0 then -1 else 0, k))
  end.

(** ** FIFOs stay inside their buffers *)

Definition byte_ok (b : Z) : Prop := 0 <= b < 256.

(** [buf'] is [buf] with other bytes below [len]. *)
Record refilled (len : Z) (buf buf' : list Z) : Prop := {
  rf_len : length buf' = length buf;
  rf_rest : drop (Z.to_nat len) buf' = drop (Z.to_nat len) buf;
  rf_bytes : Forall byte_ok buf -> Forall byte_ok buf'
}.
Lemma refilled_refl len buf : refilled len buf buf.
Proof. done. Qed.
Lemma refilled_trans len b1 b2 b3 : refilled len b1 b2 -> refilled len b2 b3 -> refilled len b1 b3.
Proof. intros [L1 R1 F1] [L2 R2 F2]. split; [congruence|congruence|tauto]. Qed.
Lemma refilled_le len len' b1 b2 : refilled len b1 b2 -> len <= len' -> refilled len' b1 b2.
Proof.
  intros [L R F] Hle. split; [done| |done]. replace (Z.to_nat len') with (Z.to_nat len + (Z.to_nat len' - Z.to_nat len))%nat by lia.
  by rewrite <- !drop_drop, R.
Qed.
Lemma refilled_set len buf i v : 0 <= i < len -> i < zlen buf -> refilled len buf (<[Z.to_nat i := u8 v]> buf).
Proof.
  intros Hi Hl. split; [apply length_insert|by rewrite drop_insert_lt by lia|]. intros Hb. apply Forall_insert; [done|apply u8_range].
Qed.

Lemma words_bound len : 0 <= len -> 0 <= words len /\ 4 * words len <= len + 3 < 4 * words len + 4.
Proof. intros Hl. unfold words. rewrite Z.shiftr_div_pow2 by lia. change (2 ^ 2) with 4.
  pose proof (Z.div_mod (len + 3) 4 ltac:(done)). pose proof (Z.mod_pos_bound (len + 3) 4 ltac:(done)). lia. Qed.

Lemma tx_word_ok n data len i b w : 0 <= i -> 0 <= b -> len <= zlen data -> exists w', tx_word n data len i b w = Ret w'.
Proof.
  intros Hi. revert b w. induction n as [|n IH]; intros b w Hb Hl; [by eexists|]. cbn [tx_word].
  destruct (Z.ltb_spec (i + b) len); [|by eexists]. destruct (aget_ok data (i + b)) as [c ->]; [lia|]. rewrite bind_Ret. apply IH; [lia|done].
Qed.
Lemma fifo_tx_ok ch data len d : 0 <= len <= zlen data -> exists d', fifo_tx ch data len d = Ret d' /\ within d d' 200000.
Proof.
  intros Hl. unfold fifo_tx. destruct (poll _ GNPTXSTS _ 1 d) as [r d1] eqn:E.
  assert (within d d1 200000) as H1.
  { pose proof (within_poll d d 0 (Z.to_nat 200000) GNPTXSTS (fun v => if words len <=? Z.land (Z.shiftr v 16) 0xFFFF then Some tt else None) 1 (within_refl d 0 ltac:(lia))) as Hp.
    rewrite E in Hp. eapply within_le; [exact Hp|]. rewrite Z2Nat.id; lia. }
  apply (for_range_ind (fun _ d' => within d d' 200000)); [apply words_bound; lia|done|]. intros i d' Hi Hd.
  destruct (tx_word_ok 4 data len (i * 4) 0 0) as [w ->]; [lia|lia|lia|]. rewrite bind_Ret. eexists. split; [done|]. by apply within_wr.
Qed.

Lemma rx_word_ok n buf off len i b w : 0 <= i -> 0 <= b -> 0 <= off -> off + len <= zlen buf ->
  exists buf', rx_word n buf off len i b w = Ret buf' /\ refilled (off + len) buf buf'.
Proof.
  intros Hi. revert buf b. induction n as [|n IH]; intros buf b Hb Ho Hl; [by eexists|]. cbn [rx_word].
  destruct (Z.ltb_spec (i + b) len); [|by eexists]. rewrite aset_ok, bind_Ret by lia.
  destruct (IH (<[Z.to_nat (off + (i + b)) := u8 (Z.shiftr w (b * 8))]> buf) (b + 1)) as (buf' & E & R); [lia|lia|by rewrite length_insert|].
  exists buf'. split; [exact E|]. eapply refilled_trans; [|exact R]. apply refilled_set; lia.
Qed.
Lemma fifo_rx_ok buf off len d : 0 <= off -> 0 <= len -> off + len <= zlen buf ->
  exists buf' d', fifo_rx buf off len d = Ret (buf', d') /\ refilled (off + len) buf buf' /\ within d d' (words len).
Proof.
  intros Ho Hl Hb. unfold fifo_rx. pose proof (words_bound len Hl).
  destruct (for_range_ind (fun i s => refilled (off + len) buf s.1 /\ within d s.2 i) 0 (words len)
    (fun i '(buf, d) => let '(w, d) := rd (DFIFO 0) d in buf ← rx_word 4 buf off len (i * 4) 0 w; Ret (buf, d)) (buf, d)) as ([buf' d'] & E & R & W); [lia| | |].
  - split; [done|apply within_refl; lia].
  - intros i [b1 d1] Hi [R W]. cbn [fst snd] in *. destruct (rd (DFIFO 0) d1) as [w d2] eqn:E.
    destruct (rx_word_ok 4 b1 off len (i * 4) 0 w) as (b2 & -> & R2); [lia|lia|done|by rewrite (rf_len _ _ _ R)|].
    eexists. split; [done|]. split; [by eapply refilled_trans|]. pose proof (within_rd d d1 i (DFIFO 0) W) as W2. by rewrite E in W2.
  - by exists buf', d'.
Qed.
Lemma fifo_drain_ok len d : 0 <= len -> within d (fifo_drain len d) (words len).
Proof.
  intros Hl. pose proof (words_bound len Hl) as [Hw _]. unfold fifo_drain. rewrite <- (Z2Nat.id (words len)) at 2 by done.
  generalize (Z.to_nat (words len)) as n. intros n. revert d. induction n as [|n IH]; intros d; [by apply within_refl|].
  cbn [drain_words]. eapply within_trans; [apply (within_rd d d 0), within_refl; lia|apply IH|lia].
Qed.
Lemma ch_wait_ok ch d : within d (ch_wait ch d).2 500000.
Proof.
  unfold ch_wait. pose proof (within_poll d d 0 (Z.to_nat 500000) (HCINT ch) (fun v => if v =? 0 then None else Some v) 1 (within_refl d 0 ltac:(lia))) as Hp.
  destruct (poll _ _ _ _ _) as [r d1]. eapply within_le; [exact Hp|]. rewrite Z2Nat.id; lia.
Qed.

(** ** Transfers end and stay inside their buffers *)

Definition moved (u u' : usb) (n : Z) : Prop := within (u_dev u) (u_dev u') n /\ kb_low_speed u' = kb_low_speed u.
Lemma moved_trans u1 u2 u3 n1 n2 n : moved u1 u2 n1 -> moved u2 u3 n2 -> n1 + n2 <= n -> moved u1 u3 n.
Proof. intros [W1 L1] [W2 L2] Hn. split; [by eapply within_trans|congruence]. Qed.
Lemma moved_refl u n : 0 <= n -> moved u u n.
Proof. intros Hn. split; [by apply within_refl|done]. Qed.
Lemma moved_le u u' n n' : moved u u' n -> n <= n' -> moved u u' n'.
Proof. intros [W L] Hn. split; [by eapply within_le|done]. Qed.
Lemma read_udev_moved reg u : moved u (read_udev reg u).2 1.
Proof. split; [|done]. apply (within_rd _ _ 0), within_refl. lia. Qed.

Lemma packets_ok len mps : 1 <= mps -> exists p, packets len mps = Ret p.
Proof. intros Hm. unfold packets. destruct (len =? 0); [by eexists|]. rewrite (proj2 (Z.eqb_neq mps 0)) by lia. by eexists. Qed.

Lemma usb_out_ok ch addr ep ty mps pid data len u : 1 <= mps -> 0 <= len <= zlen data ->
  exists r u', usb_out ch addr ep ty mps pid data len u = Ret (r, u') /\ (r = 0 \/ r = -1) /\ moved u u' 700000.
Proof.
  intros Hm Hl. unfold usb_out. destruct (packets_ok len mps Hm) as [p ->]. rewrite bind_Ret. cbv zeta.
  set (u1 := on_udev _ (set_out_intr 0 _)).
  assert (moved u u1 0) as M1 by (split; [by repeat apply within_wr; apply within_refl|done]).
  assert (exists d, (if 0 <? len then fifo_tx ch data len (u_dev u1) else Ret (u_dev u1)) = Ret d /\ within (u_dev u1) d 200000) as (d & -> & W).
  { destruct (0 <? len); [by apply fifo_tx_ok|]. eexists. split; [done|]. apply within_refl. lia. }
  rewrite bind_Ret. match goal with |- context [ch_wait ch ?x] => pose proof (ch_wait_ok ch x) as W2; destruct (ch_wait ch x) as [intr d2] end.
  eexists _, _. split; [done|]. split; [by destruct (has _ _); [left|right]|].
  eapply moved_trans; [exact M1|split; [|done]|]; [|instantiate (1 := 700000); lia].
  apply within_wr. eapply within_trans; [|exact W2|]; [by apply within_wr|lia].
Qed.

Definition round_ok (len received : Z) (o : round) : Prop :=
  match o with
  | Again r => received <= r <= len
  | Return r => r = -2 \/ r = -1 \/ r = received
  | Leave r => r = received
  end.

Lemma grx_cnt_bound grx : 0 <= Z.land (Z.shiftr grx 4) 0x7FF < 2048.
Proof. change 0x7FF with (Z.ones 11). rewrite Z.land_ones by done. apply Z.mod_pos_bound. done. Qed.

Lemma take_packet_ok cnt received len buf u : 0 <= cnt < 2048 -> 0 <= received <= len -> len <= zlen buf ->
  exists r' buf' u', take_packet cnt received len buf u = Ret (r', buf', u') /\ received <= r' <= len /\ refilled len buf buf' /\ moved u u' 513.
Proof.
  intros Hc Hr Hl. unfold take_packet. cbv zeta. pose proof (words_bound cnt ltac:(lia)). destruct (Z.leb_spec cnt (len - received)).
  - destruct (fifo_rx_ok buf received cnt (u_dev u)) as (b1 & d1 & -> & R & W); [lia|lia|lia|]. rewrite !bind_Ret.
    eexists _, _, _. split; [done|]. split; [lia|]. split; [eapply refilled_le; [exact R|lia]|]. split; [eapply within_le; [exact W|lia]|done].
  - destruct (fifo_rx_ok buf received (len - received) (u_dev u)) as (b1 & d1 & -> & R & W); [lia|lia|lia|]. rewrite !bind_Ret.
    pose proof (words_bound (len - received) ltac:(lia)). pose proof (words_bound (cnt - (len - received)) ltac:(lia)).
    eexists _, _, _. split; [done|]. split; [lia|]. split; [eapply refilled_le; [exact R|lia]|]. split; [|done].
    eapply within_trans; [exact W|apply fifo_drain_ok; lia|lia].
Qed.

Lemma drain_moved u cnt : 0 <= cnt < 2048 -> moved u (if 0 <? cnt then on_udev (fifo_drain cnt) u else u) 512.
Proof.
  intros Hc. pose proof (words_bound cnt ltac:(lia)). destruct (0 <? cnt); [|by apply moved_refl].
  split; [|done]. eapply within_le; [apply fifo_drain_ok; lia|lia].
Qed.

Lemma in_round_ok ch len received buf u : 0 <= received <= len -> len <= zlen buf ->
  exists o buf' u', in_round ch len received buf u = Ret (o, buf', u') /\ round_ok len received o /\ refilled len buf buf' /\ moved u u' 515.
Proof.
  intros Hr Hl. unfold in_round. pose proof (read_udev_moved GINTSTS u) as M1. destruct (read_udev GINTSTS u) as [v u1]. cbn [snd] in M1. destruct (has v _).
  - pose proof (read_udev_moved GRXSTSP u1) as M2. destruct (read_udev GRXSTSP u1) as [grx u2]. cbn [snd] in M2. cbv zeta.
    set (u3 := set_last_in _ _ _ _ u2). set (cnt := Z.land (Z.shiftr grx 4) 0x7FF). pose proof (grx_cnt_bound grx) as Hc. fold cnt in Hc.
    assert (moved u u3 2) as M3 by (eapply moved_trans; [exact M1|exact M2|lia]).
    pose proof (moved_trans _ _ _ _ _ 515 M3 (drain_moved u3 cnt Hc) ltac:(lia)) as Md. assert (received <= received <= len) as Hsame by lia.
    destruct (negb _); [by eexists _, _, _|]. destruct ((_ =? 2) && _).
    + destruct (take_packet_ok cnt received len buf u3 Hc Hr Hl) as (r' & b' & u4 & -> & Hr' & R & M4). rewrite bind_Ret.
      eexists _, _, _. split; [done|]. split; [done|]. split; [exact R|]. eapply moved_trans; [exact M3|exact M4|lia].
    + destruct (_ =? 3); [|by eexists _, _, _]. eexists _, _, _. split; [done|]. split; [done|]. split; [done|]. eapply moved_le; [exact M3|lia].
  - pose proof (read_udev_moved (HCINT ch) u1) as M2. destruct (read_udev (HCINT ch) u1) as [ci u2]. cbn [snd] in M2. cbv zeta.
    assert (moved u u2 515) as M3 by (eapply moved_trans; [exact M1|exact M2|lia]).
    destruct (ci =? 0); eexists _, _, _; (split; [done|]); (split; [|split; [done|exact M3]]); [simpl; lia|].
    cbn [round_ok]. repeat case_match; auto.
Qed.

Lemma in_loop_ok n ch len received buf u : 0 <= received <= len -> len <= zlen buf ->
  exists o r' buf' u', in_loop n ch len received buf u = Ret (o, r', buf', u') /\ received <= r' <= len
    /\ (forall r, o = Some r -> r = -2 \/ r = -1 \/ r = r') /\ refilled len buf buf' /\ moved u u' (515 * Z.of_nat n).
Proof.
  revert received buf u. induction n as [|n IH]; intros received buf u Hr Hl; cbn [in_loop].
  - eexists _, _, _, _. split; [done|]. split; [lia|]. split; [done|]. split; [done|by apply moved_refl].
  - destruct (in_round_ok ch len received buf u Hr Hl) as (o & b1 & u1 & -> & Ho & R1 & M1). rewrite bind_Ret.
    assert (moved u u1 (515 * Z.of_nat (S n))) as M1' by (eapply moved_le; [exact M1|lia]). destruct o as [r|r|r]; cbn [round_ok] in Ho.
    + destruct (IH r b1 u1) as (o & r' & b2 & u2 & E & Hr' & Ho' & R2 & M2); [lia|by rewrite (rf_len _ _ _ R1)|].
      exists o, r', b2, u2. split; [exact E|]. split; [lia|]. split; [exact Ho'|]. split; [by eapply refilled_trans|]. eapply moved_trans; [exact M1|exact M2|lia].
    + eexists _, _, _, _. split; [done|]. split; [lia|]. split; [by intros ? [= <-]|]. by split.
    + subst r. eexists _, _, _, _. split; [done|]. split; [lia|]. split; [done|]. by split.
Qed.

(** A transfer in: -2, -1, or the bytes received, at the front of the buffer. *)
Definition USB_IN_READS : Z := 515 * 500000 + 500001.
Lemma usb_in_ok ch addr ep ty mps pid buf len u : 1 <= mps -> 0 <= len <= zlen buf ->
  exists r buf' u', usb_in ch addr ep ty mps pid buf len u = Ret (r, buf', u')
    /\ (r = -2 \/ r = -1 \/ 0 <= r <= len) /\ refilled len buf buf' /\ moved u u' USB_IN_READS.
Proof.
  intros Hm Hl. unfold usb_in, USB_IN_READS. cbv zeta. set (u1 := set_last_in 0 0 0 0 _).
  assert (moved u u1 0) as M1 by (split; [by repeat apply within_wr; apply within_refl|done]).
  destruct (packets_ok len mps Hm) as [p ->]. rewrite bind_Ret. set (hc := channel_char _ _ _ _ _ _).
  assert (exists h u2, (if ty =? HCCHAR_INTR then let '(v, u) := read_udev HFNUM u1 in (if has v 1 then Z.lor hc HCCHAR_ODDFRM else hc, u) else (hc, u1)) = (h, u2)
    /\ moved u1 u2 1) as (h & u2 & -> & M2).
  { destruct (ty =? HCCHAR_INTR); [|eexists _, _; split; [done|by apply moved_refl]].
    pose proof (read_udev_moved HFNUM u1) as M. destruct (read_udev HFNUM u1) as [v u2]. by eexists _, _. }
  set (u3 := on_udev _ u2). assert (moved u2 u3 0) as M3 by (split; [by repeat apply within_wr; apply within_refl|done]).
  destruct (in_loop_ok (Z.to_nat 500000) ch len 0 buf u3) as (o & r & b' & u4 & -> & Hr & Ho & R & M4); [lia|lia|]. rewrite bind_Ret.
  rewrite Z2Nat.id in M4 by lia. assert (moved u u4 (515 * 500000 + 1)) as M5.
  { eapply moved_trans; [exact M1| |instantiate (1 := 515 * 500000 + 1); lia]. eapply moved_trans; [exact M2| |instantiate (1 := 515 * 500000); lia].
    eapply moved_trans; [exact M3|exact M4|lia]. }
  destruct o as [r0|].
  - eexists _, _, _. split; [done|]. split; [destruct (Ho r0 eq_refl) as [|[|]]; [by left|by right; left|right; right; lia]|]. split; [exact R|].
    eapply moved_le; [exact M5|lia].
  - pose proof (ch_wait_ok ch (u_dev u4)) as W. destruct (ch_wait ch (u_dev u4)) as [intr d]. eexists _, _, _. split; [done|].
    split; [destruct (has _ _); [right; right; lia|by right; left]|]. split; [exact R|].
    destruct M5 as [W5 L5]. split; [|done]. apply within_wr. eapply within_trans; [exact W5|exact W|lia].
Qed.

(** *** Messages *)

Lemma usb_puts_ok t u : terminated t -> exists u', usb_puts t u = Ret u' /\ moved u u' 0.
Proof. intros Ht. unfold usb_puts. destruct (puts_ok t (u_con u) Ht) as [c ->]. eexists. split; [done|]. split; [by apply within_refl|done]. Qed.
Lemma show_reg_moved reg u : moved u (show_reg reg u) 1.
Proof. unfold show_reg. pose proof (read_udev_moved reg u) as M. by destruct (read_udev reg u) as [v u1]. Qed.

(** One more message. *)
Lemma after_puts t u u0 n (k : usb -> outcome usb) m : moved u0 u n -> terminated t ->
  (forall u1, moved u0 u1 n -> exists u', k u1 = Ret u' /\ moved u0 u' m) -> exists u', usb_puts t u ≫= k = Ret u' /\ moved u0 u' m.
Proof. intros M Ht Hk. destruct (usb_puts_ok t u Ht) as (u1 & -> & M1). rewrite bind_Ret. apply Hk. eapply moved_trans; [exact M|exact M1|lia]. Qed.

Lemma usb_dump_status_ok tag u : exists u', usb_dump_status tag u = Ret u' /\ moved u u' 3.
Proof.
  unfold usb_dump_status. assert (moved u u 0) as M by by apply moved_refl.
  assert (forall reg u1 n, moved u u1 n -> moved u (show_reg reg u1) (n + 1)) as Hreg by (intros reg u1 n Hn; eapply moved_trans; [exact Hn|apply show_reg_moved|lia]).
  do 8 (eapply after_puts; [exact M|apply lit_terminated|]; clear M; intros ? M). cbv zeta.
  eapply after_puts; [apply Hreg, M|apply lit_terminated|]. clear M. intros v1 M.
  eapply after_puts; [apply Hreg, M|apply lit_terminated|]. clear M. intros v2 M.
  destruct (usb_puts_ok (line_of "") (show_reg (HCTSIZ 0) v2)) as (v3 & -> & M3); [apply line_terminated|]. exists v3. split; [done|].
  eapply moved_trans; [apply Hreg, M|exact M3|lia].
Qed.

(** *** Control transfers *)

Definition CTRL_READS : Z := 2 * 700000 + USB_IN_READS + 3.

Lemma ctrl_in_ok addr setup buf len u : length setup = 8%nat -> 0 <= len <= zlen buf ->
  exists n buf' u', ctrl_in addr setup buf len u = Ret (n, buf', u') /\ (n = -1 \/ 0 <= n <= len)
    /\ refilled len buf buf' /\ moved u u' CTRL_READS.
Proof.
  intros Hs Hl. unfold ctrl_in, CTRL_READS. cbv zeta. set (mps := if addr =? 0 then 8 else 64). assert (1 <= mps) as Hm by (unfold mps; destruct (addr =? 0); lia).
  destruct (usb_out_ok 0 addr 0 HCCHAR_CTL mps PID_SETUP setup 8 u Hm) as (r & u1 & -> & Hr & M1); [lia|]. rewrite bind_Ret.
  destruct (Z.ltb_spec r 0).
  { destruct (usb_dump_status_ok "ctrl_in setup failed" u1) as (u2 & -> & M2). rewrite bind_Ret. eexists _, _, _. split; [done|].
    split; [by left|]. split; [done|]. eapply moved_trans; [exact M1|exact M2|unfold USB_IN_READS; lia]. }
  assert (exists n buf' u2, (if 0 <? len then usb_in 0 addr 0 HCCHAR_CTL mps PID_DATA1 buf len u1 else Ret (0, buf, u1)) = Ret (n, buf', u2)
    /\ (n = -2 \/ n = -1 \/ 0 <= n <= len) /\ refilled len buf buf' /\ moved u1 u2 USB_IN_READS) as (n & buf' & u2 & -> & Hn & R & M2).
  { destruct (0 <? len); [by apply usb_in_ok|]. eexists _, _, _. split; [done|]. split; [lia|]. split; [done|by apply moved_refl]. }
  rewrite bind_Ret. destruct (Z.ltb_spec n 0).
  { destruct (usb_dump_status_ok "ctrl_in data failed" u2) as (u3 & -> & M3). rewrite bind_Ret. eexists _, _, _. split; [done|].
    split; [by left|]. split; [exact R|]. eapply moved_trans; [exact M1|eapply moved_trans; [exact M2|exact M3|reflexivity]|unfold USB_IN_READS; lia]. }
  destruct (usb_out_ok 0 addr 0 HCCHAR_CTL mps PID_DATA1 [] 0 u2 Hm) as (r2 & u3 & -> & _ & M3); [simpl; lia|]. rewrite bind_Ret.
  assert (exists u4, (if r2 <? 0 then usb_dump_status "ctrl_in status failed" u3 else Ret u3) = Ret u4 /\ moved u3 u4 3) as (u4 & -> & M4).
  { destruct (r2 <? 0); [apply usb_dump_status_ok|]. eexists. split; [done|by apply moved_refl]. }
  rewrite bind_Ret. eexists _, _, _. split; [done|]. split; [lia|]. split; [exact R|].
  eapply moved_trans; [exact M1|eapply moved_trans; [exact M2|eapply moved_trans; [exact M3|exact M4|reflexivity]|reflexivity]|unfold USB_IN_READS; lia].
Qed.

Lemma ctrl_out_ok addr setup dummy u : length setup = 8%nat ->
  exists r u', ctrl_out addr setup dummy u = Ret (r, u') /\ moved u u' CTRL_READS.
Proof.
  intros Hs. unfold ctrl_out, CTRL_READS. cbv zeta. set (mps := if addr =? 0 then 8 else 64). assert (1 <= mps) as Hm by (unfold mps; destruct (addr =? 0); lia).
  destruct (usb_out_ok 0 addr 0 HCCHAR_CTL mps PID_SETUP setup 8 u Hm) as (r & u1 & -> & Hr & M1); [lia|]. rewrite bind_Ret.
  destruct (Z.ltb_spec r 0).
  { destruct (usb_dump_status_ok "ctrl_out setup failed" u1) as (u2 & -> & M2). rewrite bind_Ret. eexists _, _. split; [done|].
    eapply moved_trans; [exact M1|exact M2|unfold USB_IN_READS; lia]. }
  destruct (usb_in_ok 0 addr 0 HCCHAR_CTL mps PID_DATA1 dummy 0 u1 Hm) as (n & b & u2 & -> & _ & _ & M2); [lia|]. rewrite bind_Ret.
  assert (exists u3, (if n <? 0 then usb_dump_status "ctrl_out status failed" u2 else Ret u2) = Ret u3 /\ moved u2 u3 3) as (u3 & -> & M3).
  { destruct (n <? 0); [apply usb_dump_status_ok|]. eexists. split; [done|by apply moved_refl]. }
  rewrite bind_Ret. eexists _, _. split; [done|]. eapply moved_trans; [exact M1|eapply moved_trans; [exact M2|exact M3|reflexivity]|unfold USB_IN_READS; lia].
Qed.

(** ** The queue of keys *)

(** The characters waiting, oldest first; the last report is kept whole. *)
Definition holds (k : kb) (l : list Z) : Prop :=
  ring_ok KB_BUF (kb_ring k) (kb_tail k) (kb_head k) (length l) /\ (length l < 32)%nat
  /\ l = ring_read KB_BUF (kb_ring k) (kb_tail k) (length l) /\ length (prev_rep k) = 8%nat.
(** One more key, unless 31 are waiting. *)
Definition enqueue (l : list Z) (c : Z) : list Z := if decide (length l < 31)%nat then l ++ [c] else l.

Lemma rem_mod a b : 0 <= a -> 0 < b -> Z.rem a b = a mod b.
Proof. intros Ha Hb. apply Z.rem_mod_nonneg; lia. Qed.

Lemma holds_range k l : holds k l -> 0 <= kb_head k < 32 /\ 0 <= kb_tail k < 32 /\ zlen (kb_ring k) = 32.
Proof.
  intros ((_ & Hl & Ht & Eh & _) & _). split; [|by split]. rewrite Eh. apply Z.mod_pos_bound. done.
Qed.

Lemma kb_push_ok c k l : holds k l ->
  exists ring head, kb_push c k = Ret (set_keys ring head (kb_tail k) (prev_rep k) k)
    /\ holds (set_keys ring head (kb_tail k) (prev_rep k) k) (enqueue l c).
Proof.
  intros Hh. destruct (holds_range k l Hh) as (Hhd & Htl & Hlen). pose proof Hh as (Hr & Hl & El & Hp). unfold kb_push. cbv zeta. rewrite rem_mod by (unfold KB_BUF; lia).
  destruct (ring_full KB_BUF _ _ _ _ Hr ltac:(unfold KB_BUF; lia)) as [F1 F2]. change (KB_BUF - 1) with 31 in *.
  unfold enqueue. destruct (Z.eqb_spec ((kb_head k + 1) mod KB_BUF) (kb_tail k)) as [E|E]; cbn [negb].
  - exists (kb_ring k), (kb_head k). rewrite decide_False by (specialize (F1 E); lia). split; [by destruct k|done].
  - assert (length l < 31)%nat as Hlt. { destruct (decide (length l < 31)%nat); [done|]. exfalso. apply E, F2. lia. }
    rewrite aset_ok, bind_Ret by lia. eexists _, _. split; [done|]. rewrite decide_True by done.
    destruct (ring_push KB_BUF _ _ _ _ c Hr) as [Hr' Er]; [unfold KB_BUF; lia|]. unfold holds. cbn [kb_ring kb_head kb_tail prev_rep set_keys].
    rewrite length_app. simpl. rewrite Nat.add_1_r. split; [exact Hr'|]. split; [lia|]. split; [|done]. by rewrite Er, <- El.
Qed.

Lemma kb_getc_ok k l : holds k l ->
  match l with
  | [] => kb_ready k = false /\ kb_getc k = Ret (0, k)
  | c :: l' => kb_ready k = true /\ exists k', kb_getc k = Ret (c, k') /\ holds k' l'
  end.
Proof.
  intros Hh. destruct (holds_range k l Hh) as (Hhd & Htl & Hlen). pose proof Hh as (Hr & Hl & El & Hp). unfold kb_ready, kb_getc.
  pose proof (ring_empty KB_BUF _ _ _ _ Hr ltac:(unfold KB_BUF; lia)) as He. destruct l as [|c l'].
  - assert (kb_head k = kb_tail k) as -> by by apply He. by rewrite Z.eqb_refl.
  - assert (kb_head k <> kb_tail k) as Hne by (intros E; by apply He in E). rewrite (proj2 (Z.eqb_neq _ _) Hne). split; [done|].
    destruct (ring_pop KB_BUF _ _ _ (length l') Hr) as (x & Ex & Hr' & Er). change (length (c :: l')) with (S (length l')) in El. rewrite Er in El. injection El as -> El.
    assert (aget (kb_ring k) (kb_tail k) = Ret x) as -> by (apply aget_Ret; split; [lia|done]). rewrite bind_Ret. eexists. split; [done|].
    unfold holds. cbn [kb_ring kb_head kb_tail prev_rep set_keys]. rewrite rem_mod by (unfold KB_BUF; lia). simpl in Hl. split; [exact Hr'|]. split; [lia|]. by split.
Qed.

(** What a report types: the keys that were not down in the last one. *)
Definition key_char (shift : bool) (prev : list Z) (code : Z) : option Z :=
  if (code =? 0) || bool_decide (code ∈ drop 2 prev) || (0x40 <=? code) then None
  else let c := (if shift then hid_hi else hid_lo) !!! Z.to_nat code in if c =? 0 then None else Some c.
Definition typed (prev rep : list Z) : list Z := omap (key_char (has (rep !!! 0%nat) 0x22) prev) (drop 2 rep).

Lemma held_spec prev code : length prev = 8%nat ->
  exists r, find_range 2 8 (fun j => c ← aget prev j; Ret (c =? code)) = Ret r /\ (is_Some r <-> code ∈ drop 2 prev).
Proof.
  intros Hl. destruct (find_range_Some (fun j => prev !!! Z.to_nat j =? code) (fun j => c ← aget prev j; Ret (c =? code)) 2 8) as [(i & -> & Hi & E & _)|[-> Hn]].
  - intros j Hj. destruct (aget_ok prev j) as [c Ec]; [lia|]. rewrite Ec, bind_Ret. apply aget_Ret in Ec as [_ Ec]. by rewrite (list_lookup_total_correct _ _ _ Ec).
  - exists (Some i). split; [done|]. split; [|by eexists]. intros _. apply Z.eqb_eq in E.
    destruct (lookup_lt_is_Some_2 prev (Z.to_nat i)) as [c Ec]; [lia|]. rewrite (list_lookup_total_correct _ _ _ Ec) in E. subst c.
    apply list_elem_of_lookup. exists (Z.to_nat i - 2)%nat. rewrite lookup_drop. rewrite <- Ec. f_equal. lia.
  - exists None. split; [done|]. split; [by intros [? ?]|]. intros Hin. exfalso. apply list_elem_of_lookup in Hin as [j Hj].
    rewrite lookup_drop in Hj. pose proof (lookup_lt_Some _ _ _ Hj) as Hlt. specialize (Hn (Z.of_nat (2 + j)) ltac:(lia)). cbv beta in Hn.
    rewrite Nat2Z.id, (list_lookup_total_correct _ _ _ Hj) in Hn. by rewrite Z.eqb_refl in Hn.
Qed.

Lemma hid_tables : length hid_lo = 64%nat /\ length hid_hi = 64%nat.
Proof. done. Qed.

(** Only the ring and its head change. *)
Definition typing (k k' : kb) : Prop := exists ring head, k' = set_keys ring head (kb_tail k) (prev_rep k) k.
Lemma typing_refl k : typing k k.
Proof. exists (kb_ring k), (kb_head k). by destruct k. Qed.
Lemma typing_trans k1 k2 k3 : typing k1 k2 -> typing k2 k3 -> typing k1 k3.
Proof. intros (r1 & h1 & ->) (r2 & h2 & ->). by exists r2, h2. Qed.

Lemma hid_key_ok shift rep i code k l : holds k l -> rep !! Z.to_nat i = Some code -> 0 <= i -> 0 <= code ->
  exists k', hid_key shift rep i k = Ret k' /\ holds k' (foldl enqueue l (option_list (key_char shift (prev_rep k) code))) /\ typing k k'.
Proof.
  intros Hh Hc Hi Hb. unfold hid_key. assert (aget rep i = Ret code) as -> by by apply aget_Ret. rewrite bind_Ret. unfold key_char.
  destruct (Z.eqb_spec code 0) as [->|]; cbn [orb]; [exists k; split; [done|]; split; [done|apply typing_refl]|].
  destruct (held_spec (prev_rep k) code) as (r & -> & Hr); [apply Hh|]. rewrite bind_Ret.
  destruct r as [j|]; [rewrite bool_decide_true by (by apply Hr; eexists); exists k; split; [done|]; split; [done|apply typing_refl]|].
  rewrite bool_decide_false by (intros H%Hr; by destruct H). cbn [orb].
  destruct (Z.ltb_spec code 0x40), (Z.leb_spec 0x40 code); try lia; [|exists k; split; [done|]; split; [done|apply typing_refl]].
  destruct (aget_ok (if shift then hid_hi else hid_lo) code) as [c Ec]; [destruct shift; cbn; lia|]. rewrite Ec, bind_Ret.
  apply aget_Ret in Ec as [_ Ec]. rewrite (list_lookup_total_correct _ _ _ Ec). cbv zeta.
  destruct (c =? 0); [exists k; split; [done|]; split; [done|apply typing_refl]|].
  destruct (kb_push_ok c k l Hh) as (ring & head & -> & Hh'). eexists. split; [done|]. split; [exact Hh'|]. by exists ring, head.
Qed.

(** A report: the new keys go into the queue, the report is kept. *)
Lemma hid_decode_ok rep k l : holds k l -> length rep = 8%nat -> Forall byte_ok rep ->
  exists k', hid_decode rep k = Ret k' /\ holds k' (foldl enqueue l (typed (prev_rep k) rep)) /\ prev_rep k' = rep
    /\ kb_usb k' = kb_usb k /\ kb_addr k' = kb_addr k /\ kb_ep k' = kb_ep k /\ kb_mps k' = kb_mps k /\ kb_toggle k' = kb_toggle k.
Proof.
  intros Hh Hl Hb. unfold hid_decode, typed. destruct rep as [|m rep]; [done|]. assert (aget (m :: rep) 0 = Ret m) as -> by by apply aget_Ret.
  rewrite bind_Ret. cbv zeta. change ((m :: rep) !!! 0%nat) with m. set (shift := has m 0x22). set (codes := drop 2 (m :: rep)).
  destruct (for_range_ind (fun i k' => holds k' (foldl enqueue l (omap (key_char shift (prev_rep k)) (take (Z.to_nat i - 2) codes))) /\ typing k k')
    2 8 (hid_key shift (m :: rep)) k) as (k1 & E & Hk1 & Ht); [lia| | |].
  - split; [exact Hh|apply typing_refl].
  - intros i k1 Hi [Hk1 Ht]. destruct (lookup_lt_is_Some_2 (m :: rep) (Z.to_nat i)) as [code Ec]; [lia|].
    destruct (hid_key_ok shift (m :: rep) i code k1 _ Hk1 Ec) as (k2 & -> & Hk2 & Ht2); [lia|apply (Forall_lookup_1 _ _ _ _ Hb Ec)|].
    exists k2. split; [done|]. split; [|by eapply typing_trans]. assert (prev_rep k1 = prev_rep k) as Ep by (by destruct Ht as (? & ? & ->)). rewrite Ep in Hk2.
    assert (Z.to_nat (i + 1) - 2 = S (Z.to_nat i - 2))%nat as -> by lia. rewrite (take_S_r _ _ code), omap_app, foldl_app.
    + by replace (omap (key_char shift (prev_rep k)) [code]) with (option_list (key_char shift (prev_rep k) code)) by (simpl; by destruct (key_char _ _ _)).
    + unfold codes. rewrite lookup_drop. rewrite <- Ec. f_equal. lia.
  - rewrite E, bind_Ret.
    destruct Ht as (ring & head & ->). pose proof Hh as (_ & _ & _ & Hp). cbn [prev_rep set_keys]. rewrite memcpy_spec by lia. rewrite bind_Ret.
    eexists. split; [done|]. destruct Hk1 as (H1 & H2 & H3 & _). rewrite take_ge in H1, H2, H3 by (unfold codes; rewrite length_drop; simpl in *; lia).
    rewrite take_ge, (drop_ge (prev_rep k)), app_nil_r by lia. split; [|done]. split; [exact H1|]. split; [exact H2|]. split; [exact H3|]. exact Hl.
Qed.


(** ** The descriptor walk *)

(** The interrupt IN endpoint of the descriptor at [i], when it is one. *)
Lemma walk_ok fuel n i buf : 0 <= i -> n <= 252 -> length buf = 256%nat -> Forall byte_ok buf -> n - i <= 2 * Z.of_nat fuel ->
  exists r, walk_descriptors fuel n i buf = Ret r /\ forall ep mps, r = Some (ep, mps) -> 0 <= ep < 16 /\ 0 <= mps <= 8.
Proof.
  intros Hi Hn Hl Hb. revert i Hi. induction fuel as [|fuel IH]; intros i Hi Hf; cbn [walk_descriptors]; (destruct (Z.leb_spec (i + 2) n); [|by eexists]); [lia|].
  assert (forall j, 0 <= j < 256 -> exists b, aget buf j = Ret b /\ byte_ok b) as Hget.
  { intros j Hj. destruct (aget_ok buf j) as [b E]; [lia|]. exists b. split; [done|]. apply aget_Ret in E as [_ E]. exact (Forall_lookup_1 _ _ _ _ Hb E). }
  destruct (Hget i) as (dlen & -> & Hd); [lia|]. rewrite bind_Ret. destruct (Hget (i + 1)) as (dtype & -> & _); [lia|]. rewrite bind_Ret.
  destruct (Z.ltb_spec dlen 2); [by eexists|].
  assert (exists r, walk_descriptors fuel n (i + dlen) buf = Ret r /\ forall ep mps, r = Some (ep, mps) -> 0 <= ep < 16 /\ 0 <= mps <= 8) as Hrec by (apply IH; lia).
  destruct ((dtype =? 5) && _); [|exact Hrec].
  destruct (Hget (i + 2)) as (ea & -> & Hea); [lia|]. rewrite bind_Ret. destruct (Hget (i + 3)) as (at_ & -> & _); [lia|]. rewrite bind_Ret.
  destruct (Hget (i + 4)) as (lo & -> & Hlo); [lia|]. rewrite bind_Ret. destruct (Hget (i + 5)) as (hi & -> & Hhi); [lia|]. rewrite bind_Ret. cbv zeta.
  destruct (_ && _); [|exact Hrec]. eexists. split; [done|]. intros ep mps [= <- <-]. unfold byte_ok in *. split.
  - change 0x0F with (Z.ones 4). rewrite Z.land_ones by done. by apply Z.mod_pos_bound.
  - assert (0 <= Z.lor lo (Z.shiftl hi 8)) by (apply Z.lor_nonneg; split; [lia|apply Z.shiftl_nonneg; lia]).
    destruct (Z.ltb_spec 8 (Z.lor lo (Z.shiftl hi 8))); lia.
Qed.

(** A reply of 255 bytes whose last two announce an endpoint descriptor: the
    walk reads behind the buffer. *)
Lemma config_walk_overrun :
  walk_descriptors 255 255 0 (253 :: replicate 252 0 ++ [7; 5; 0]) = Undef.
Proof. vm_compute. reflexivity. Qed.
(** A packet size of zero, which the walk accepts, divides by zero in kb_poll. *)
Lemma zero_packet_undef k rep : kb_addr k <> 0 -> kb_mps k = 0 -> kb_poll rep k = Undef.
Proof. intros Ha Hm. unfold kb_poll. apply Z.eqb_neq in Ha as ->. by rewrite Hm. Qed.

(** ** Initialisation *)

Lemma get_device_ok n r0 buf u : (r0 = -1 \/ 0 <= r0 <= 18) -> 18 <= zlen buf ->
  exists r buf' u', get_device n r0 buf u = Ret (r, buf', u') /\ refilled 18 buf buf' /\ moved u u' (CTRL_READS * Z.of_nat n).
Proof.
  revert r0 buf u. induction n as [|n IH]; intros r0 buf u Hr0 Hl; cbn [get_device].
  - eexists _, _, _. split; [done|]. split; [done|apply moved_refl; lia].
  - destruct (ctrl_in_ok 0 GET_DEVICE buf 18 u) as (r & b1 & u1 & -> & Hr & R1 & M1); [done|lia|]. rewrite bind_Ret.
    assert (0 <= CTRL_READS) by (unfold CTRL_READS, USB_IN_READS; lia).
    destruct (8 <=? r); [eexists _, _, _; split; [done|]; split; [done|]; eapply moved_le; [exact M1|lia]|].
    destruct (IH r b1 (on_udev (delay_us 10000) u1)) as (r' & b2 & u2 & E & R2 & M2); [done|by rewrite (rf_len _ _ _ R1)|].
    exists r', b2, u2. split; [exact E|]. split; [by eapply refilled_trans|]. eapply moved_trans; [exact M1|exact M2|lia].
Qed.

(** The queue and the last report stay. *)
Definition same_keys (k k' : kb) : Prop :=
  kb_ring k' = kb_ring k /\ kb_head k' = kb_head k /\ kb_tail k' = kb_tail k /\ prev_rep k' = prev_rep k.
Definition CONFIG_READS : Z := CTRL_READS * 10.

Lemma read_config_ok junk dummy k : length junk = 256%nat -> Forall byte_ok junk ->
  exists c k', read_config junk dummy k = Ret (c, k') /\ moved (kb_usb k) (kb_usb k') CONFIG_READS /\ same_keys k k'
    /\ forall n buf, c = Some (n, buf) -> 9 <= n <= 255 /\ length buf = 256%nat /\ Forall byte_ok buf /\ kb_addr k' = 1.
Proof.
  intros Hl Hb. unfold read_config, CONFIG_READS. assert (0 <= CTRL_READS) by (unfold CTRL_READS, USB_IN_READS; lia).
  destruct (get_device_ok 8 (-1) junk (kb_usb k)) as (r & b1 & u1 & -> & R1 & M1); [by left|lia|]. rewrite bind_Ret. cbv zeta.
  destruct (r <? 8).
  { destruct (usb_puts_ok (line_of "[kb] GET_DESCRIPTOR(Device) failed") u1) as (u2 & E & M2); [apply line_terminated|]. rewrite E, bind_Ret.
    eexists _, _. split; [done|]. split; [eapply moved_trans; [exact M1|exact M2|lia]|]. split; [repeat split; reflexivity|intros ? ? [=]]. }
  destruct (ctrl_out_ok 0 SET_ADDRESS dummy u1) as (r2 & u2 & -> & M2); [done|]. rewrite bind_Ret.
  destruct (ctrl_in_ok 1 GET_CONFIG b1 255 (on_udev (delay_us 5000) u2)) as (n & b2 & u3 & -> & Hn & R3 & M3); [done|rewrite (rf_len _ _ _ R1); lia|]. rewrite bind_Ret.
  assert (moved (kb_usb k) u3 (CTRL_READS * 10)) as M by (eapply moved_trans; [exact M1|eapply moved_trans; [exact M2|exact M3|reflexivity]|lia]).
  destruct (Z.ltb_spec n 9).
  - destruct (usb_puts_ok (line_of "[kb] GET_DESCRIPTOR(Config) failed") u3) as (u4 & E & M4); [apply line_terminated|]. rewrite E, bind_Ret.
    eexists _, _. split; [done|]. split; [eapply moved_trans; [exact M|exact M4|lia]|]. split; [repeat split; reflexivity|intros ? ? [=]].
  - eexists _, _. split; [done|]. split; [exact M|]. split; [repeat split; reflexivity|]. intros n' b' [= <- <-]. split; [lia|].
    split; [by rewrite (rf_len _ _ _ R3), (rf_len _ _ _ R1)|]. split; [by apply (rf_bytes _ _ _ R3), (rf_bytes _ _ _ R1)|done].
Qed.

Lemma use_config_ok n buf dummy k : n <= 252 -> length buf = 256%nat -> Forall byte_ok buf ->
  exists r k', use_config n buf dummy k = Ret (r, k') /\ moved (kb_usb k) (kb_usb k') (CTRL_READS * 2) /\ same_keys k k'
    /\ kb_addr k' = kb_addr k /\ (r = -1 \/ r = 0 /\ 0 <= kb_ep k' < 16 /\ 0 <= kb_mps k' <= 8).
Proof.
  intros Hn Hl Hb. unfold use_config. assert (0 <= CTRL_READS) by (unfold CTRL_READS, USB_IN_READS; lia).
  destruct (walk_ok 255 n 0 buf) as (r & -> & Hr); [lia|done|done|done|lia|]. rewrite bind_Ret. destruct r as [[ep mps]|].
  - cbv zeta. cbn [kb_usb set_target].
    destruct (ctrl_out_ok 1 SET_CONFIG dummy (kb_usb k)) as (r1 & u1 & -> & M1); [done|]. rewrite bind_Ret.
    destruct (ctrl_out_ok 1 SET_PROTOCOL dummy (on_udev (delay_us 5000) u1)) as (r2 & u2 & -> & M2); [done|]. rewrite bind_Ret.
    destruct (usb_puts_ok (line_of "[kb] HID keyboard ready (boot protocol)") u2) as (u3 & E & M3); [apply line_terminated|]. rewrite E, bind_Ret.
    eexists _, _. split; [done|]. split; [eapply moved_trans; [exact M1|eapply moved_trans; [exact M2|exact M3|reflexivity]|lia]|].
    split; [repeat split; reflexivity|]. split; [reflexivity|]. right. split; [done|]. apply (Hr _ _ eq_refl).
  - destruct (usb_puts_ok (line_of "[kb] no HID interrupt endpoint found") (kb_usb k)) as (u1 & E & M1); [apply line_terminated|]. rewrite E, bind_Ret.
    eexists _, _. split; [done|]. split; [eapply moved_le; [exact M1|lia]|]. split; [repeat split; reflexivity|]. split; [reflexivity|by left].
Qed.

(** *** The mailbox *)

Lemma mbox_wait_within n flag d d' : mbox_wait n flag d = Some d' -> within d d' (Z.of_nat n).
Proof.
  revert d. induction n as [|n IH]; intros d; [done|]. cbn [mbox_wait]. pose proof (within_rd d d 0 MBOX_STATUS (within_refl d 0 ltac:(lia))) as W.
  destruct (rd MBOX_STATUS d) as [v d1]. cbn [snd] in W. destruct (_ =? 0).
  - intros [= <-]. eapply within_le; [exact W|lia].
  - intros E. eapply within_trans; [exact W|apply IH, E|lia].
Qed.
Lemma mbox_reply_within n ch d d' : mbox_reply n ch d = Some d' -> within d d' (Z.of_nat n * (Z.of_nat n + 1)).
Proof.
  revert d. induction n as [|n IH]; intros d; [done|]. cbn [mbox_reply]. destruct (mbox_wait (S n) MBOX_EMPTY d) as [d1|] eqn:E1; [|done].
  pose proof (within_rd _ _ _ MBOX_READ (mbox_wait_within _ _ _ _ E1)) as W. destruct (rd MBOX_READ d1) as [v d2]. cbn [snd] in W. destruct (_ =? ch).
  - intros [= <-]. eapply within_le; [exact W|lia].
  - intros E. eapply within_trans; [exact W|apply IH, E|nia].
Qed.
Definition MAIL_READS (n : nat) : Z := Z.of_nat n + Z.of_nat n * (Z.of_nat n + 1).
Lemma mbox_call_ok n gpu ch addr buf d : (2 <= length (gpu buf))%nat ->
  mbox_call n gpu ch addr buf d = Ret None
  \/ exists ok d', mbox_call n gpu ch addr buf d = Ret (Some (ok, gpu buf, d')) /\ within d d' (MAIL_READS n).
Proof.
  intros Hl. unfold mbox_call. cbv zeta. destruct (mbox_wait n MBOX_FULL d) as [d1|] eqn:E1; [|by left].
  destruct (mbox_reply n _ _) as [d2|] eqn:E2; [|by left]. right. destruct (aget_ok (gpu buf) 1) as [c ->]; [lia|]. rewrite bind_Ret.
  eexists _, _. split; [done|]. eapply within_trans; [by eapply within_wr, mbox_wait_within|by eapply mbox_reply_within|unfold MAIL_READS; lia].
Qed.

Lemma wait_for_within n reg test us d : 0 <= n -> within d (wait_for n reg test us d).2 n.
Proof.
  intros Hn. unfold wait_for. pose proof (within_poll d d 0 (Z.to_nat n) reg (fun v => if test v then Some tt else None) us (within_refl d 0 ltac:(lia))) as W.
  destruct (poll _ _ _ _ _) as [r d1]. eapply within_le; [exact W|]. rewrite Z2Nat.id; lia.
Qed.

Lemma dwc2_init_ok u : exists r u', dwc2_init u = Ret (r, u') /\ (r = 0 \/ r = -1) /\ moved u u' 400010.
Proof.
  unfold dwc2_init. pose proof (wait_for_within 200000 GRSTCTL (fun v => has v (Z.shiftl 1 31)) 1 (u_dev u) ltac:(lia)) as W1.
  destruct (wait_for 200000 GRSTCTL _ 1 (u_dev u)) as [b1 d1]. cbn [snd] in W1. cbv zeta.
  pose proof (wait_for_within 200000 GRSTCTL (fun v => negb (has v 1)) 1 (wr GRSTCTL 1 d1) ltac:(lia)) as W2.
  destruct (wait_for 200000 GRSTCTL _ 1 _) as [b2 d2]. cbn [snd] in W2.
  assert (moved u (set_udev d2 u) 400000) as M by (split; [eapply within_trans; [apply within_wr, W1|exact W2|lia]|done]).
  pose proof (read_udev_moved GRSTCTL (set_udev d2 u)) as M3. destruct (read_udev GRSTCTL (set_udev d2 u)) as [v u3]. cbn [snd] in M3.
  assert (moved u u3 400001) as M4 by (eapply moved_trans; [exact M|exact M3|lia]). destruct (has v 1).
  - destruct (usb_puts_ok (line_of "[kb] DWC2 soft reset timeout") u3) as (u4 & -> & M5); [apply line_terminated|]. rewrite bind_Ret.
    eexists _, _. split; [done|]. split; [by right|]. eapply moved_trans; [exact M4|exact M5|lia].
  - eexists _, _. split; [done|]. split; [by left|]. destruct M4 as [W4 L4]. split; [|exact L4].
    cbn [u_dev set_udev]. eapply within_le; [|instantiate (1 := 400001 + 1 + 1 + 1 + 1); lia]. auto 20 with mmio.
Qed.

Lemma port_reset_within d : within d (port_reset d).2 2210.
Proof.
  unfold port_reset, port_write. set (d1 := delay_us 50000 _). assert (within d d1 1) as W1 by (apply (within_rmw d d 0), within_refl; lia).
  pose proof (wait_for_within 2000 HPRT (fun v => has v HPRT_CONNSTS) 1000 d1 ltac:(lia)) as W2. destruct (wait_for 2000 HPRT _ _ d1) as [c d2]. cbn [snd] in W2.
  assert (within d d2 2001) as W3 by (eapply within_trans; [exact W1|exact W2|lia]).
  destruct (negb c); [eapply within_le; [exact W3|lia]|]. cbv zeta. set (d3 := delay_us 100000 _).
  assert (within d d3 (2001 + 1 + 1 + 1)) as W4 by (unfold d3; auto 20 with mmio).
  pose proof (wait_for_within 200 HPRT (fun v => has v HPRT_ENA) 1000 d3 ltac:(lia)) as W5. destruct (wait_for 200 HPRT _ _ d3) as [e d5]. cbn [snd] in *.
  eapply within_trans; [exact W4|exact W5|lia].
Qed.

Lemma port_init_ok u : exists r u', port_init u = Ret (r, u') /\ (r = 0 \/ r = -1) /\ within (u_dev u) (u_dev u') 2220.
Proof.
  unfold port_init. pose proof (port_reset_within (u_dev u)) as W1. destruct (port_reset (u_dev u)) as [c d1]. cbn [snd] in W1. cbv zeta.
  destruct (negb c).
  { destruct (usb_puts_ok (line_of "[kb] no USB device on root port") (set_udev d1 u)) as (u2 & -> & [M2 _]); [apply line_terminated|]. rewrite bind_Ret.
    eexists _, _. split; [done|]. split; [by right|]. eapply within_trans; [exact W1|exact M2|lia]. }
  destruct (read_udev_moved HPRT (set_udev d1 u)) as [W2 _]. destruct (read_udev HPRT (set_udev d1 u)) as [v u2]. cbn [snd] in W2.
  assert (within (u_dev u) (u_dev u2) 2211) as W3 by (eapply within_trans; [exact W1|exact W2|lia]). destruct (negb (has v HPRT_ENA)).
  - destruct (usb_puts_ok (lit "[kb] root port failed to enable: HPRT=") u2) as (u3 & -> & [M3 _]); [apply lit_terminated|]. rewrite bind_Ret.
    destruct (show_reg_moved HPRT u3) as [M4 _].
    destruct (usb_puts_ok (line_of "") (show_reg HPRT u3)) as (u4 & -> & [M5 _]); [apply line_terminated|]. rewrite bind_Ret.
    eexists _, _. split; [done|]. split; [by right|]. eapply within_trans; [exact W3|eapply within_trans; [exact M3|eapply within_trans; [exact M4|exact M5|reflexivity]|reflexivity]|lia].
  - set (u3 := on_udev (port_write HPRT_ENCHNG) u2). destruct (read_udev_moved HPRT u3) as [W4 _]. destruct (read_udev HPRT u3) as [v2 u4]. cbn [snd] in W4.
    match goal with |- context [usb_puts (lit "[kb] root port speed: ") ?x] => set (u5 := x) end.
    assert (within (u_dev u) (u_dev u5) (2211 + 1 + 1 + 1)) as W5.
    { assert (within (u_dev u) (u_dev u3) (2211 + 1)) as W3' by (apply within_rmw, W3).
      assert (within (u_dev u) (u_dev u4) (2211 + 1 + 1)) as W4' by (eapply within_trans; [exact W3'|exact W4|lia]). apply within_rmw, W4'. }
    destruct (usb_puts_ok (lit "[kb] root port speed: ") u5) as (u6 & -> & [M6 _]); [apply lit_terminated|]. rewrite bind_Ret.
    destruct (usb_puts_ok (port_speed_name (Z.land (Z.shiftr v2 17) 3)) u6) as (u7 & -> & [M7 _]); [apply lit_terminated|]. rewrite bind_Ret.
    destruct (usb_puts_ok (line_of "") u7) as (u8 & -> & [M8 _]); [apply line_terminated|]. rewrite bind_Ret.
    eexists _, _. split; [done|]. split; [by left|]. eapply within_trans; [exact W5|eapply within_trans; [exact M6|eapply within_trans; [exact M7|exact M8|reflexivity]|reflexivity]|lia].
Qed.

Definition BRING_UP_READS (n : nat) : Z := MAIL_READS n + 402230.
Lemma kb_bring_up_ok n gpu addr k : length (prev_rep k) = 8%nat -> length (kb_ring k) = 32%nat -> (2 <= length (gpu USB_POWER))%nat ->
  kb_bring_up n gpu addr k = Ret None
  \/ exists r k', kb_bring_up n gpu addr k = Ret (Some (r, k')) /\ (r = 0 \/ r = -1)
     /\ within (u_dev (kb_usb k)) (u_dev (kb_usb k')) (BRING_UP_READS n) /\ holds k' [] /\ kb_mps k' = 8 /\ kb_addr k' = 0.
Proof.
  intros Hp Hring Hg. unfold kb_bring_up, kb_reset. rewrite memset_spec by lia. rewrite !bind_Ret. set (k1 := mk_kb _ _ _ _ _ _ _ _ _).
  assert (holds k1 []) as Hk1.
  { split; [apply ring_init; [done|]; change (zlen (kb_ring k) = KB_BUF); by rewrite Hring|]. split; [simpl; lia|]. split; [done|]. cbn [prev_rep k1].
    rewrite length_app, length_replicate, length_drop. lia. }
  unfold usb_power_on. destruct (mbox_call_ok n gpu MBOX_CH_PROP addr USB_POWER (u_dev (kb_usb k1)) Hg) as [->|(ok & d & -> & W)]; rewrite !bind_Ret; [by left|].
  right. cbv zeta. set (u1 := set_udev d (kb_usb k1)).
  assert (exists r0 u2, (if negb ok then u ← usb_puts (line_of "[kb] USB power mailbox failed") u1; Ret (Some (-1, u)) else Ret (Some (0, u1))) = Ret (Some (r0, u2))
    /\ moved u1 u2 0) as (r0 & u2 & -> & M2).
  { destruct (negb ok); [|eexists _, _; split; [done|by apply moved_refl]].
    destruct (usb_puts_ok (line_of "[kb] USB power mailbox failed") u1) as (u2 & -> & M); [apply line_terminated|]. by eexists _, _. }
  rewrite bind_Ret. destruct (dwc2_init_ok (on_udev (delay_us 10000) u2)) as (r & u3 & -> & Hr & M3). rewrite bind_Ret.
  assert (within (u_dev (kb_usb k)) (u_dev u3) (MAIL_READS n + 400010)) as W3.
  { eapply within_trans; [exact W|eapply within_trans; [exact (proj1 M2)|exact (proj1 M3)|reflexivity]|lia]. }
  destruct (Z.ltb_spec r 0).
  - eexists _, _. split; [done|]. split; [by right|]. split; [eapply within_le; [exact W3|unfold BRING_UP_READS; lia]|]. split; [exact Hk1|done].
  - destruct (port_init_ok u3) as (r' & u4 & -> & Hr' & W4). rewrite bind_Ret. eexists _, _. split; [done|].
    split; [destruct (r' <? 0); [by right|by left]|]. split; [eapply within_trans; [exact W3|exact W4|unfold BRING_UP_READS; lia]|]. split; [exact Hk1|done].
Qed.

Lemma same_keys_holds k k' l : same_keys k k' -> holds k l -> holds k' l.
Proof. intros (E1 & E2 & E3 & E4) H. unfold holds. rewrite E1, E2, E3, E4. exact H. Qed.


(** ** A keyboard *)

(** A device that answers the reads with [answers], then with zero. *)
Definition answering (answers : list Z) : mmio := mk_mmio (fun n => nth n answers 0) 0 [].
Definition usb_on (d : mmio) : usb := mk_usb d uart_zero false 0 0 0 0 0.
(** Key [b] waiting, key [a] down in the report that comes in. *)
Definition kb_example : kb :=
  mk_kb (usb_on (answering [0; 16; 1 + 8 * 16 + 2 * 131072; 0x00040002; 0; 0; 1])) 1 1 8 0 (98 :: replicate 31 0) 1 0 (replicate 8 0).
(** The report (shift and a) types A. *)
Lemma kb_types_A :
  (k ← kb_poll (replicate 8 0) kb_example; '(b, k) ← kb_getc k; '(a, k) ← kb_getc k; Ret (b, a, kb_toggle k, prev_rep k))
  = Ret (98, 65, 1, [2; 0; 4; 0; 0; 0; 0; 0]).
Proof. vm_compute. reflexivity. Qed.

Definition kb_zero : kb := mk_kb (usb_on (answering [0; 0; 8])) 0 0 8 0 (replicate 32 0) 0 0 (replicate 8 0).
