(* ===== verification/Irq.v ===== *)
(** irq.c, timer.c, gpio.c and panic.c: the interrupt controller, the counters,
    the pins and the last words of the kernel.

    A [board] is the machine (Cpu.v) with its device registers (Mmio.v) and the
    registers of the EL2 timer; the UART is the machine's console.  [platform] is
    platform.h.  Loops that wait for the counter or for an interrupt take a
    number of rounds and yield [None] while they are still waiting. *)
From S2P Require Import Prelude Spinlock Allocator Heap CString Blocks PageTable Ring Uart Task Vfs User Cpu Mmio.

Record platform := mk_platform { p_gicd : Z; p_gicc : Z; p_mmio_timer : bool }.
Definition rpi4 : platform := mk_platform 0xFF841000 0xFF842000 true.
Definition virt : platform := mk_platform 0x08000000 0x08010000 false.

(** ** timer.c *)

Definition TIMER_CLO : Z := 0xFE003004.
Definition TIMER_CHI : Z := 0xFE003008.

(** The system timer: the high word is read again in case it moved. *)
Definition timer_get_ticks (d : mmio) : Z * mmio :=
  let '(hi, d) := rd TIMER_CHI d in
  let '(lo, d) := rd TIMER_CLO d in
  let '(again, d) := rd TIMER_CHI d in
  if negb (again =? hi) then
    let '(hi, d) := rd TIMER_CHI d in
    let '(lo, d) := rd TIMER_CLO d in
    (Z.lor (Z.shiftl hi 32) lo, d)
  else (Z.lor (Z.shiftl hi 32) lo, d).

(** [n] rounds of while(timer_get_ticks() - start < us). *)
Fixpoint delay_loop (n : nat) (start us : Z) (d : mmio) : option mmio :=
  match n with
  | O => None
  | S n => let '(t, d) := timer_get_ticks d in if u64 (t - start) <? us then delay_loop n start us d else Some d
  end.
Definition delay_ticks (n : nat) (us : Z) (d : mmio) : option mmio :=
  let '(start, d) := timer_get_ticks d in delay_loop n start us d.
Definition delay_ms (n : nat) (ms : Z) (d : mmio) : option mmio := delay_ticks n (u64 (ms * 1000)) d.

(** ** gpio.c *)

Definition GPIO_BASE : Z := 0xFE200000.
Definition GPSET0 : Z := GPIO_BASE + 0x1C.
Definition GPSET1 : Z := GPIO_BASE + 0x20.
Definition GPCLR0 : Z := GPIO_BASE + 0x28.
Definition GPCLR1 : Z := GPIO_BASE + 0x2C.
Definition GPLEV0 : Z := GPIO_BASE + 0x34.
Definition GPLEV1 : Z := GPIO_BASE + 0x38.

Definition gpfsel_reg (pin : Z) : Z := GPIO_BASE + 0x00 + Z.quot pin 10 * 4.

Definition gpio_set_function (pin func : Z) (d : mmio) : mmio :=
  if (pin <? 0) || (57 <? pin) then d
  else
    let reg := gpfsel_reg pin in
    let shift := Z.rem pin 10 * 3 in
    let '(val, d) := rd reg d in
    let val := Z.land val (u32 (Z.lnot (Z.shiftl 7 shift))) in
    let val := Z.lor val (u32 (Z.shiftl (Z.land func 7) shift)) in
    wr reg val d.

Definition gpio_write (pin value : Z) (d : mmio) : mmio :=
  if (pin <? 0) || (57 <? pin) then d
  else if pin <? 32 then
    if negb (value =? 0) then wr GPSET0 (Z.shiftl 1 pin) d else wr GPCLR0 (Z.shiftl 1 pin) d
  else
    if negb (value =? 0) then wr GPSET1 (Z.shiftl 1 (pin - 32)) d else wr GPCLR1 (Z.shiftl 1 (pin - 32)) d.

Definition gpio_read (pin : Z) (d : mmio) : Z * mmio :=
  if (pin <? 0) || (57 <? pin) then (0, d)
  else if pin <? 32 then let '(v, d) := rd GPLEV0 d in (Z.land (Z.shiftr v pin) 1, d)
  else let '(v, d) := rd GPLEV1 d in (Z.land (Z.shiftr v (pin - 32)) 1, d).

(** ** The board *)

Record board (H : Type) := mk_board {
  bm : machine H; bd : mmio;
  timer_interval_ticks : Z; timer_interval_ms : Z;
  cnthp_tval : Z; cnthp_ctl : Z
}.
Arguments mk_board {H} bm bd timer_interval_ticks timer_interval_ms cnthp_tval cnthp_ctl.
Arguments bm {H} b.
Arguments bd {H} b.
Arguments timer_interval_ticks {H} b.
Arguments timer_interval_ms {H} b.
Arguments cnthp_tval {H} b.
Arguments cnthp_ctl {H} b.

Definition GIC_PPI_HP_TIMER : Z := 26.
Definition IRQ_UART : Z := 57.
Definition GICD_CTLR (p : platform) : Z := p_gicd p + 0x000.
Definition GICD_IGROUPR (p : platform) (n : Z) : Z := p_gicd p + 0x080 + n * 4.
Definition GICD_ISENABLER (p : platform) (n : Z) : Z := p_gicd p + 0x100 + n * 4.
Definition GICD_ISPENDR (p : platform) (n : Z) : Z := p_gicd p + 0x200 + n * 4.
Definition GICD_IPRIORITYR (p : platform) (n : Z) : Z := p_gicd p + 0x400 + n * 4.
Definition GICC_CTLR (p : platform) : Z := p_gicc p + 0x000.
Definition GICC_PMR (p : platform) : Z := p_gicc p + 0x004.
Definition GICC_IAR (p : platform) : Z := p_gicc p + 0x00C.
Definition GICC_EOIR (p : platform) : Z := p_gicc p + 0x010.
Definition GICC_AIAR (p : platform) : Z := p_gicc p + 0x020.
Definition GICC_AEOIR (p : platform) : Z := p_gicc p + 0x024.
Definition IRQ_PENDING_2 : Z := 0xFE00B208.
Definition IRQ_ENABLE_1 : Z := 0xFE00B210.
Definition IRQ_ENABLE_2 : Z := 0xFE00B214.
Definition IRQ_DISABLE_1 : Z := 0xFE00B21C.
Definition IRQ_DISABLE_2 : Z := 0xFE00B220.

Section Board.
Context {H : Type} `{Allocator H} `{CodeAddrs} (p : platform).
Implicit Types (b : board H) (m : machine H).

Definition with_machine m b : board H :=
  mk_board m (bd b) (timer_interval_ticks b) (timer_interval_ms b) (cnthp_tval b) (cnthp_ctl b).
Definition with_dev (d : mmio) b : board H :=
  mk_board (bm b) d (timer_interval_ticks b) (timer_interval_ms b) (cnthp_tval b) (cnthp_ctl b).
Definition with_timer (ticks ms tval ctl : Z) b : board H := mk_board (bm b) (bd b) ticks ms tval ctl.
Definition on_dev (f : mmio -> mmio) b : board H := with_dev (f (bd b)) b.
Definition read_dev (reg : Z) b : Z * board H := let '(v, d) := rd reg (bd b) in (v, with_dev d b).

(** [freq] is CNTFRQ_EL0. *)
Definition timer_init (freq interval_ms : Z) b : board H :=
  let ticks := u64 (freq * u32 interval_ms) / 1000 in
  with_timer ticks (u32 interval_ms) ticks 1 b.
Definition timer_irq_handler b : board H :=
  let m := bm b in
  let m := mk_mach (mu m) (mv m) (u64 (irq_count m + 1)) (umem m) (daif m) in
  with_timer (timer_interval_ticks b) (timer_interval_ms b) (timer_interval_ticks b) (cnthp_ctl b) (with_machine m b).
Definition timer_get_irq_count b : Z := irq_count (bm b).
(** Where timer_sleep_ms waits for [irq_count] to get to. *)
Definition timer_sleep_target (ms : Z) b : outcome Z :=
  if timer_interval_ms b =? 0 then Undef
  else
    let ticks_needed := ms / timer_interval_ms b in
    Ret (u64 (irq_count (bm b) + (if ticks_needed =? 0 then 1 else ticks_needed))).
(** Does the loop go on? *)
Definition timer_sleep_round (target : Z) b : bool := irq_count (bm b) <? target.

(** *** irq.c *)

(** Where a handler is when it stops running: back, with its result, or
    switched away in [sched_tick], with [iar] still to be written. *)
Inductive irq_exit := Done (handled : Z) | Away (iar : Z) (aliased : bool).

Definition end_of_irq (aliased : bool) (iar : Z) b : board H :=
  on_dev (wr (if aliased then GICC_AEOIR p else GICC_EOIR p) iar) b.

Definition irq_dispatch_iar (now iar : Z) (aliased : bool) b : outcome (irq_exit * board H) :=
  let irq_id := Z.land iar 0x3FF in
  if irq_id =? GIC_PPI_HP_TIMER then
    let b := timer_irq_handler b in
    let cur := current_task (kern (mu (bm b))) in
    s ← sched_tick now (kern (mu (bm b)));
    let b := with_machine (with_kern (bm b) s) b in
    if current_task s =? cur then Ret (Done 1, end_of_irq aliased iar b) else Ret (Away iar aliased, b)
  else
    let b := if irq_id <? 1020 then end_of_irq aliased iar b else b in
    if p_mmio_timer p then
      let '(pending2, b) := read_dev IRQ_PENDING_2 b in
      if negb (Z.land pending2 (Z.shiftl 1 (IRQ_UART - 32)) =? 0) then
        w ← uart_irq_handler (con (mu (bm b)));
        Ret (Done 1, with_machine (with_con (bm b) w) b)
      else Ret (Done 0, b)
    else Ret (Done 0, b).

(** The acknowledged interrupt: from the other group when the first says 1022. *)
Definition acknowledge b : Z * bool * board H :=
  let '(iar, b) := read_dev (GICC_IAR p) b in
  if Z.land iar 0x3FF =? 1022 then let '(iar, b) := read_dev (GICC_AIAR p) b in (iar, true, b) else (iar, false, b).
Definition irq_handler (now : Z) b : outcome (irq_exit * board H) :=
  let '(iar, aliased, b) := acknowledge b in irq_dispatch_iar now iar aliased b.

Definition irq_poll (now : Z) b : outcome (irq_exit * board H) :=
  let '(iar, b) := read_dev (GICC_IAR p) b in
  if Z.land iar 0x3FF =? 1023 then Ret (Done 0, b)
  else
    let '(iar, aliased, b) := if Z.land iar 0x3FF =? 1022 then let '(iar, b) := read_dev (GICC_AIAR p) b in (iar, true, b) else (iar, false, b) in
    if Z.land iar 0x3FF =? 1023 then Ret (Done 0, b)
    else if 1020 <=? Z.land iar 0x3FF then Ret (Done 0, b)
    else irq_dispatch_iar now iar aliased b.

Definition irq_init (d : mmio) : mmio :=
  let d := if p_mmio_timer p then wr IRQ_DISABLE_2 0xFFFFFFFF (wr IRQ_DISABLE_1 0xFFFFFFFF d) else d in
  let d := wr (GICD_CTLR p) 0 d in
  let d := rmw (GICD_IGROUPR p 0) (fun v => Z.land v (u32 (Z.lnot (Z.shiftl 1 GIC_PPI_HP_TIMER)))) d in
  let '(prio, d) := rd (GICD_IPRIORITYR p 6) d in
  let prio := Z.land prio (u32 (Z.lnot (Z.shiftl 0xFF 16))) in
  let prio := Z.lor prio (Z.shiftl 0x80 16) in
  let d := wr (GICD_IPRIORITYR p 6) prio d in
  let d := wr (GICD_ISENABLER p 0) (Z.shiftl 1 GIC_PPI_HP_TIMER) d in
  let d := wr (GICD_CTLR p) 3 d in
  let d := wr (GICC_CTLR p) 3 d in
  wr (GICC_PMR p) 0xFF d.

Definition irq_enable (irq : Z) (d : mmio) : mmio :=
  if p_mmio_timer p then
    if irq <? 32 then wr IRQ_ENABLE_1 (u32 (Z.shiftl 1 irq)) d else wr IRQ_ENABLE_2 (u32 (Z.shiftl 1 (irq - 32))) d
  else d.
Definition irq_disable (irq : Z) (d : mmio) : mmio :=
  if p_mmio_timer p then
    if irq <? 32 then wr IRQ_DISABLE_1 (u32 (Z.shiftl 1 irq)) d else wr IRQ_DISABLE_2 (u32 (Z.shiftl 1 (irq - 32))) d
  else d.

(** "  name = value" *)
Definition dump_value (name : string) (v : Z) b : outcome (board H) :=
  m ← puts (lit name) (bm b);
  let m := with_con m (uart_puthex v (con (mu m))) in
  Ret (with_machine m b).
Definition dump_reg (name : string) (reg : Z) b : outcome (board H) :=
  m ← puts (lit name) (bm b);
  let '(v, b) := read_dev reg (with_machine m b) in
  let m := with_con (bm b) (uart_puthex v (con (mu (bm b)))) in
  m ← puts (line_of "") m;
  Ret (with_machine m b).
Definition dump_text (s : list Z) b : outcome (board H) := m ← puts s (bm b); Ret (with_machine m b).
(** [ctl] and [flags] are CNTHP_CTL_EL2 and DAIF as read. *)
Definition irq_dump_gic (ctl flags : Z) b : outcome (board H) :=
  b ← dump_text (line_of "GIC state:") b;
  b ← dump_reg "  GICD_CTLR     = " (GICD_CTLR p) b;
  b ← dump_reg "  GICC_CTLR     = " (GICC_CTLR p) b;
  b ← dump_reg "  GICC_PMR      = " (GICC_PMR p) b;
  b ← dump_reg "  IGROUPR(0)    = " (GICD_IGROUPR p 0) b;
  b ← dump_reg "  ISENABLER(0)  = " (GICD_ISENABLER p 0) b;
  b ← dump_reg "  ISPENDR(0)    = " (GICD_ISPENDR p 0) b;
  b ← dump_reg "  IPRIORITYR(6) = " (GICD_IPRIORITYR p 6) b;
  b ← dump_value "  CNTHP_CTL_EL2 = " ctl b;
  b ← dump_value " (EN=" (Z.land ctl 1) b;
  b ← dump_value " IMASK=" (Z.land (Z.shiftr ctl 1) 1) b;
  b ← dump_value " ISTATUS=" (Z.land (Z.shiftr ctl 2) 1) b;
  b ← dump_text (line_of ")") b;
  b ← dump_value "  DAIF          = " flags b;
  b ← dump_value " (I=" (Z.land (Z.shiftr flags 7) 1) b;
  dump_text (line_of ")") b.

(** *** panic.c: what is on the console when the machine stops for good. *)

Definition panic_task (currentel : Z) m : outcome (machine H) :=
  t ← aget (tasks (kern (mu m))) (current_task (kern (mu m)));
  m ← say (line_of "task: %d (%s)") [AWord (current_task (kern (mu m))); AStr (Some (t_name t))] m;
  m ← say (line_of "EL: %d") [AWord (cpu_get_el currentel)] m;
  m ← say (line_of "==============================") [] m;
  say (line_of "SYSTEM HALTED") [] m.
Definition panic_head (msg : list Z) m : outcome (machine H) :=
  let m := cpu_disable_irqs m in
  m ← say (10 :: line_of "==============================") [] m;
  m ← say (line_of "*** KERNEL PANIC ***") [] m;
  say (line_of "%s") [AStr (Some msg)] m.
Definition panic (currentel : Z) (msg : list Z) m : outcome (machine H) := m ← panic_head msg m; panic_task currentel m.
Definition panic_at (currentel : Z) (msg file : list Z) (line : Z) m : outcome (machine H) :=
  m ← panic_head msg m;
  m ← say (line_of "at %s:%d") [AStr (Some file); AWord line] m;
  panic_task currentel m.
End Board.

(** ** The counter *)

(** What the next five reads see of a counter that takes the values [c 0] to
    [c 4] at those moments. *)
Definition counts (d : mmio) (c : nat -> Z) : Prop :=
  let v k := inp d (nread d + k)%nat in
  v 0%nat = c 0%nat / 2 ^ 32 /\ v 1%nat = c 1%nat mod 2 ^ 32 /\ v 2%nat = c 2%nat / 2 ^ 32
  /\ v 3%nat = c 3%nat / 2 ^ 32 /\ v 4%nat = c 4%nat mod 2 ^ 32.

Lemma join_words x : 0 <= x < 2 ^ 64 -> Z.lor (Z.shiftl (u32 (x / 2 ^ 32)) 32) (u32 (x mod 2 ^ 32)) = x.
Proof.
  intros Hx. change (2 ^ 64) with (4294967296 * 4294967296) in Hx. change (2 ^ 32) with 4294967296.
  pose proof (Z.mod_pos_bound x 4294967296 ltac:(done)). pose proof (Z.div_mod x 4294967296 ltac:(done)).
  rewrite !u32_small by nia. rewrite Z.shiftl_mul_pow2 by done. rewrite (lor_low _ _ 32) by (done || apply Z_mod_mult || done).
  change (2 ^ 32) with 4294967296. lia.
Qed.

(** C20. timer_get_ticks reads the 64-bit counter in one piece: on a counter that
    does not go back and moves by less than 2^32 between its five reads, the
    result is a value the counter had during the call, although no single read
    delivers it; and it takes at most five reads. *)
Theorem timer_get_ticks_exact d c
    (Hc : counts d c) (Hpos : 0 <= c 0%nat) (Hmono : forall k, (k < 4)%nat -> c k <= c (S k))
    (Hfast : c 4%nat - c 0%nat < 2 ^ 32) (Hmax : c 4%nat < 2 ^ 64) :
  ((timer_get_ticks d).1 = c 1%nat \/ (timer_get_ticks d).1 = c 4%nat)
  /\ within d (timer_get_ticks d).2 5.
Proof.
  destruct Hc as (E0 & E1 & E2 & E3 & E4). pose proof (Hmono 0%nat ltac:(lia)). pose proof (Hmono 1%nat ltac:(lia)).
  pose proof (Hmono 2%nat ltac:(lia)). pose proof (Hmono 3%nat ltac:(lia)). rewrite Nat.add_0_r in E0.
  unfold timer_get_ticks. cbn [rd inp nread]. rewrite E0. replace (S (nread d)) with (nread d + 1)%nat by lia. rewrite E1.
  replace (S (nread d + 1)) with (nread d + 2)%nat by lia. rewrite E2.
  assert (forall x, 0 <= x < 2 ^ 64 -> u32 (x / 2 ^ 32) = x / 2 ^ 32) as Hhi.
  { intros x Hx. change (2 ^ 64) with (4294967296 * 4294967296) in Hx. change (2 ^ 32) with 4294967296. apply u32_small.
    split; [apply Z.div_pos; lia|apply Z.div_lt_upper_bound; lia]. }
  rewrite !Hhi by lia. change (2 ^ 64) with (4294967296 * 4294967296) in *. change (2 ^ 32) with 4294967296 in *.
  pose proof (Z.div_le_mono (c 0%nat) (c 1%nat) 4294967296 ltac:(lia) ltac:(lia)). pose proof (Z.div_le_mono (c 1%nat) (c 2%nat) 4294967296 ltac:(lia) ltac:(lia)).
  pose proof (Z.div_le_mono (c 2%nat) (c 3%nat) 4294967296 ltac:(lia) ltac:(lia)). pose proof (Z.div_le_mono (c 3%nat) (c 4%nat) 4294967296 ltac:(lia) ltac:(lia)).
  destruct (Z.eqb_spec (c 2%nat / 4294967296) (c 0%nat / 4294967296)) as [E|E]; cbn [negb].
  - cbn [fst snd]. split; [left|].
    + assert (c 0%nat / 4294967296 = c 1%nat / 4294967296) as -> by lia. rewrite <- (join_words (c 1%nat)) at 3 by (change (2 ^ 64) with (4294967296 * 4294967296); lia).
      change (2 ^ 32) with 4294967296. rewrite (Hhi (c 1%nat)) by lia. done.
    + split; [done|simpl; lia].
  - cbn [fst snd]. replace (S (nread d + 2)) with (nread d + 3)%nat by lia. rewrite E3. replace (S (nread d + 3)) with (nread d + 4)%nat by lia. rewrite E4. split; [right|].
    + assert (c 3%nat / 4294967296 = c 4%nat / 4294967296) as ->.
      { assert (c 4%nat / 4294967296 <= c 0%nat / 4294967296 + 1); [|lia].
        replace (c 0%nat / 4294967296 + 1) with ((c 0%nat + 1 * 4294967296) / 4294967296) by (by rewrite Z.div_add).
        apply Z.div_le_mono; lia. }
      rewrite <- (join_words (c 4%nat)) at 3 by (change (2 ^ 64) with (4294967296 * 4294967296); lia). done.
    + split; [done|simpl; lia].
Qed.

(** A delay that ends has seen at least [us] ticks go by. *)
Lemma delay_loop_waits n start us d d' : delay_loop n start us d = Some d' ->
  exists d1 t, timer_get_ticks d1 = (t, d') /\ us <= u64 (t - start).
Proof.
  revert d. induction n as [|n IH]; intros d; [done|]. cbn [delay_loop]. destruct (timer_get_ticks d) as [t d1] eqn:E.
  destruct (Z.ltb_spec (u64 (t - start)) us); [apply IH|]. intros [= <-]. by exists d, t.
Qed.

(** ** Pins *)

(** gpio_set_function writes one register: the three bits of the pin become
    the function, every other bit is written back as it was read; a pin that
    does not exist touches nothing. *)
Theorem gpio_set_function_bits pin func d :
  (0 <= pin <= 57 ->
     let reg := GPIO_BASE + 4 * (pin / 10) in
     exists v w, log (gpio_set_function pin func d) = log d ++ [Rd reg v; Wr reg w]
       /\ forall i, 0 <= i < 32 -> Z.testbit w i = if decide (3 * (pin mod 10) <= i < 3 * (pin mod 10) + 3) then Z.testbit func (i - 3 * (pin mod 10)) else Z.testbit v i)
  /\ (~ 0 <= pin <= 57 -> gpio_set_function pin func d = d).
Proof.
  unfold gpio_set_function. split.
  - intros Hp. destruct (Z.ltb_spec pin 0), (Z.ltb_spec 57 pin); try lia. cbn [orb]. cbv zeta.
    rewrite Z.rem_mod_nonneg by lia. assert (gpfsel_reg pin = GPIO_BASE + 4 * (pin / 10)) as ->. { unfold gpfsel_reg. rewrite Z.quot_div_nonneg by lia. lia. }
    pose proof (Z.mod_pos_bound pin 10 ltac:(done)). set (k := pin mod 10) in *. cbn [rd]. set (v := u32 _). eexists v, _. split; [cbn [log wr put_log]; by rewrite <- app_assoc|].
    intros i Hi. unfold wrap. rewrite Z.mod_pow2_bits_low, Z.lor_spec, Z.land_spec by lia.
    rewrite (Z.mod_pow2_bits_low (Z.lnot _)) by lia. rewrite (Z.mod_pow2_bits_low (Z.shiftl _ _)) by lia. rewrite Z.lnot_spec, !Z.shiftl_spec by lia.
    change 7 with (Z.ones 3). rewrite (Z.mul_comm k 3). rewrite Z.land_spec. destruct (decide (3 * k <= i < 3 * k + 3)).
    + rewrite Z.ones_spec_low by lia. simpl. rewrite andb_false_r, andb_true_r. done.
    + destruct (Z_lt_ge_dec i (3 * k)); [rewrite !(Z.testbit_neg_r _ (i - 3 * k)) by lia|rewrite Z.ones_spec_high by lia]; simpl; rewrite ?andb_false_r, andb_true_r, orb_false_r; done.
  - intros Hp. destruct (Z.ltb_spec pin 0), (Z.ltb_spec 57 pin); try done. lia.
Qed.

(** ** Interrupts *)

Section BoardSafe.
Context {H : Type} `{AllocatorLaws H} `{CodeAddrs} (p : platform).
Implicit Types (b : board H) (m : machine H).

(** What a dispatched interrupt makes of the board. *)
Definition ticked (now iar : Z) (aliased : bool) b (e : irq_exit) b' : Prop :=
  irq_count (bm b') = u64 (irq_count (bm b) + 1) /\ cnthp_tval b' = timer_interval_ticks b
  /\ sched_tick now (kern (mu (bm b))) = Ret (kern (mu (bm b'))) /\ mv (bm b') = mv (bm b) /\ con (mu (bm b')) = con (mu (bm b))
  /\ (current_task (kern (mu (bm b'))) = current_task (kern (mu (bm b))) ->
        e = Done 1 /\ log (bd b') = log (bd b) ++ [Wr (if aliased then GICC_AEOIR p else GICC_EOIR p) (u32 iar)])
  /\ (current_task (kern (mu (bm b'))) <> current_task (kern (mu (bm b))) -> e = Away iar aliased /\ bd b' = bd b).
(** Any other interrupt: ended when it is a real one, and what the serial line
    received goes into its queue. *)
Definition served (iar : Z) (aliased : bool) (l : list Z) b (e : irq_exit) b' : Prop :=
  kern (mu (bm b')) = kern (mu (bm b)) /\ mv (bm b') = mv (bm b) /\ irq_count (bm b') = irq_count (bm b) /\ cnthp_tval b' = cnthp_tval b
  /\ tx (con (mu (bm b'))) = tx (con (mu (bm b)))
  /\ (exists es, log (bd b') = log (bd b) ++ (if Z.land iar 0x3FF <? 1020 then [Wr (if aliased then GICC_AEOIR p else GICC_EOIR p) (u32 iar)] else []) ++ es
        /\ forall r, writes_of r es = [])
  /\ ((e = Done 1 /\ p_mmio_timer p = true /\ fifo (con (mu (bm b'))) = []
         /\ rx_queue (con (mu (bm b'))) (take 63 (l ++ ((fun c => Z.land c 255) <$> fifo (con (mu (bm b)))))))
      \/ e = Done 0 /\ con (mu (bm b')) = con (mu (bm b))).

Definition tick_machine m : machine H := mk_mach (mu m) (mv m) (u64 (irq_count m + 1)) (umem m) (daif m).
Lemma tick_machine_ok m : machine_ok m -> machine_ok (tick_machine m).
Proof. done. Qed.

Lemma with_con_ok m w : machine_ok m -> machine_ok (with_con m w).
Proof. intros Hm. eapply talks_ok; [by exists w|done]. Qed.

Lemma irq_dispatch_ok now iar aliased b l : machine_ok (bm b) -> rx_queue (con (mu (bm b))) l ->
  exists e b', irq_dispatch_iar p now iar aliased b = Ret (e, b') /\ machine_ok (bm b')
    /\ inp (bd b') = inp (bd b) /\ (nread (bd b') <= nread (bd b) + 1)%nat
    /\ if Z.land iar 0x3FF =? GIC_PPI_HP_TIMER then ticked now iar aliased b e b' else served iar aliased l b e b'.
Proof.
  intros Hm Hq. unfold irq_dispatch_iar. cbv zeta. destruct (Z.land iar 0x3FF =? GIC_PPI_HP_TIMER).
  - cbn [timer_irq_handler with_timer with_machine bm mu kern].
    pose proof Hm as [[Hk _] _]. destruct (kernel_schedule now (kern (mu (bm b))) _ Hk) as (s & E & Hk').
    change (sched_tick now (kern (mu (bm b)))) with (yield now (kern (mu (bm b)))). rewrite E, bind_Ret.
    assert (machine_ok (with_kern (tick_machine (bm b)) s)) as Hm' by (apply machine_kern; [exact Hm|exact Hk']).
    destruct (Z.eqb_spec (current_task s) (current_task (kern (mu (bm b))))).
    + eexists _, _. split; [done|]. split; [exact Hm'|]. split; [done|]. split; [simpl; lia|].
      split; [done|]. split; [done|]. split; [exact E|]. split; [done|]. split; [done|]. split; [done|]. intros Hn. by destruct Hn.
    + eexists _, _. split; [done|]. split; [exact Hm'|]. split; [done|]. split; [simpl; lia|].
      split; [done|]. split; [done|]. split; [exact E|]. split; [done|]. split; [done|]. split; [intros He; by destruct n|done].
  - set (b1 := if Z.land iar 0x3FF <? 1020 then end_of_irq p aliased iar b else b).
    assert (bm b1 = bm b /\ cnthp_tval b1 = cnthp_tval b /\ inp (bd b1) = inp (bd b) /\ nread (bd b1) = nread (bd b)
      /\ log (bd b1) = log (bd b) ++ (if Z.land iar 0x3FF <? 1020 then [Wr (if aliased then GICC_AEOIR p else GICC_EOIR p) (u32 iar)] else [])) as (E1 & E2 & E3 & E4 & E5).
    { unfold b1. destruct (_ <? 1020); [done|]. by rewrite app_nil_r. }
    destruct (p_mmio_timer p) eqn:Ep.
    2:{ exists (Done 0), b1. rewrite E1, E3, E4. split; [done|]. split; [done|]. split; [done|]. split; [lia|]. unfold served. rewrite E1, E2.
        split; [done|]. split; [done|]. split; [done|]. split; [done|]. split; [done|]. split; [|by right]. exists []. split; [by rewrite E5, app_nil_r|done]. }
    unfold read_dev. destruct (rd IRQ_PENDING_2 (bd b1)) as [v d2] eqn:Er. apply rd_ran in Er as [(El & Ei & En) _].
    assert (exists es, log d2 = log (bd b) ++ (if Z.land iar 0x3FF <? 1020 then [Wr (if aliased then GICC_AEOIR p else GICC_EOIR p) (u32 iar)] else []) ++ es
      /\ forall r, writes_of r es = []) as Hlog by (exists [Rd IRQ_PENDING_2 v]; rewrite El, E5, <- app_assoc; done).
    cbn [with_dev bm bd]. destruct (negb _).
    + rewrite E1. destruct (uart_rx_refines_queue _ _ Hq) as [(w & Ew & Hf & Hw) _].
      pose proof Ew as Etx. unfold uart_irq_handler in Etx. apply bind_Ret_inv in Etx as ([buf head] & _ & Etx). apply Ret_inj in Etx.
      rewrite Ew, bind_Ret. eexists _, _. split; [done|]. split; [by apply with_con_ok|].
      cbn [with_machine bd bm with_dev]. split; [by rewrite Ei|]. split; [lia|].
      split; [done|]. split; [done|]. split; [done|]. split; [exact E2|]. split; [by rewrite <- Etx|]. split; [exact Hlog|]. by left.
    + eexists _, _. split; [done|]. cbn [with_dev bm bd]. rewrite E1. split; [done|]. split; [by rewrite Ei|]. split; [lia|].
      unfold served. cbn [with_dev bm bd cnthp_tval]. rewrite E1. split; [done|]. split; [done|]. split; [done|]. split; [exact E2|]. split; [done|]. split; [exact Hlog|]. by right.
Qed.

(** Acknowledging reads one register or two, and writes none. *)
Lemma acknowledge_ok b : let '(iar, aliased, b1) := acknowledge p b in
  bm b1 = bm b /\ cnthp_tval b1 = cnthp_tval b /\ timer_interval_ticks b1 = timer_interval_ticks b
  /\ inp (bd b1) = inp (bd b) /\ (nread (bd b1) <= nread (bd b) + 2)%nat
  /\ exists es, log (bd b1) = log (bd b) ++ es /\ forall r, writes_of r es = [].
Proof.
  unfold acknowledge, read_dev. destruct (rd (GICC_IAR p) (bd b)) as [v d1] eqn:E1. apply rd_ran in E1 as [(L1 & I1 & N1) _].
  destruct (_ =? 1022).
  - cbn [with_dev bd]. destruct (rd (GICC_AIAR p) d1) as [v2 d2] eqn:E2. apply rd_ran in E2 as [(L2 & I2 & N2) _].
    cbn [with_dev bd bm]. split; [done|]. split; [done|]. split; [done|]. split; [congruence|]. split; [lia|].
    eexists. split; [by rewrite L2, L1, <- app_assoc|done].
  - cbn [with_dev bd bm]. split; [done|]. split; [done|]. split; [done|]. split; [congruence|]. split; [lia|]. by eexists.
Qed.


(** Polling for an interrupt does nothing when there is none. *)
Lemma irq_poll_ok now b l (Hm : machine_ok (bm b)) (Hq : rx_queue (con (mu (bm b))) l) :
  exists e b', irq_poll p now b = Ret (e, b') /\ machine_ok (bm b') /\ within (bd b) (bd b') 3.
Proof.
  unfold irq_poll, read_dev. destruct (rd (GICC_IAR p) (bd b)) as [v d1] eqn:E1. apply rd_ran in E1 as [(L1 & I1 & N1) _].
  destruct (_ =? 1023); [eexists _, _; split; [done|]; split; [done|]; cbn [with_dev bd]; split; [done|lia]|].
  cbn [with_dev bd]. destruct (rd (GICC_AIAR p) d1) as [v2 d2] eqn:E2. apply rd_ran in E2 as [(L2 & I2 & N2) _].
  assert (forall iar aliased b1, bm b1 = bm b -> inp (bd b1) = inp (bd b) -> (nread (bd b1) <= nread (bd b) + 2)%nat ->
    exists e b', (if Z.land iar 0x3FF =? 1023 then Ret (Done 0, b1) else if 1020 <=? Z.land iar 0x3FF then Ret (Done 0, b1) else irq_dispatch_iar p now iar aliased b1) = Ret (e, b')
      /\ machine_ok (bm b') /\ within (bd b) (bd b') 3) as Hrest.
  { intros iar aliased b1 Em Ei En. rewrite <- Em in Hm, Hq.
    destruct (_ =? 1023); [eexists _, _; split; [done|]; split; [done|]; split; [done|lia]|].
    destruct (1020 <=? _); [eexists _, _; split; [done|]; split; [done|]; split; [done|lia]|].
    destruct (irq_dispatch_ok now iar aliased b1 l Hm Hq) as (e & b' & E & Hm' & Ei' & En' & _). exists e, b'. split; [exact E|]. split; [exact Hm'|].
    split; [congruence|lia]. }
  destruct (_ =? 1022); apply Hrest; cbn [with_dev bd bm]; (done || congruence || lia).
Qed.

(** *** The other routines *)

Lemma panic_ok currentel msg m : machine_ok m -> terminated msg ->
  exists m', panic currentel msg m = Ret m' /\ talks (cpu_disable_irqs m) m'.
Proof.
  intros Hm Hmsg. unfold panic, panic_head, panic_task.
  assert (machine_ok (cpu_disable_irqs m)) as Hd by by destruct Hm.
  destruct (say_ok (10 :: line_of "==============================") [] (cpu_disable_irqs m)) as (m1 & -> & T1); [done|]. rewrite bind_Ret.
  destruct (say_ok (line_of "*** KERNEL PANIC ***") [] m1) as (m2 & -> & T2); [done|]. rewrite bind_Ret.
  destruct (say_ok (line_of "%s") [AStr (Some msg)] m2) as (m3 & -> & T3); [by split|]. rewrite bind_Ret.
  pose proof (talks_trans _ _ _ (talks_trans _ _ _ T1 T2) T3) as T.
  destruct (current_task_ok m3) as (t & -> & _ & Hn); [by eapply talks_ok|]. rewrite bind_Ret.
  destruct (say_ok (line_of "task: %d (%s)") [AWord (current_task (kern (mu m3))); AStr (Some (t_name t))] m3) as (m4 & -> & T4); [exact (conj Hn I)|]. rewrite bind_Ret.
  destruct (say_ok (line_of "EL: %d") [AWord (cpu_get_el currentel)] m4) as (m5 & -> & T5); [done|]. rewrite bind_Ret.
  destruct (say_ok (line_of "==============================") [] m5) as (m6 & -> & T6); [done|]. rewrite bind_Ret.
  destruct (say_ok (line_of "SYSTEM HALTED") [] m6) as (m7 & -> & T7); [done|]. exists m7. split; [done|].
  eapply talks_trans; [exact T|]. eapply talks_trans; [exact T4|]. eapply talks_trans; [exact T5|]. by eapply talks_trans.
Qed.
End BoardSafe.

(** ** Examples *)

(** The counter goes past 2^32 between the first two reads. *)
Definition rolling : mmio := mk_mmio (fun k => nth k [0; 0; 1; 1; 1] 0) 0 [].
Lemma timer_get_ticks_exact_witness : (timer_get_ticks rolling).1 = 4294967297.
Proof.
  destruct (timer_get_ticks_exact rolling (fun k => nth k [4294967295; 4294967296; 4294967296; 4294967297; 4294967297] 0)) as [[E|E] _].
  - repeat split; vm_compute; reflexivity.
  - vm_compute. discriminate.
  - intros k Hk. repeat (destruct k as [|k]; [vm_compute; discriminate|]). lia.
  - vm_compute. reflexivity.
  - vm_compute. reflexivity.
  - discriminate E.
  - exact E.
Defined.

(** Pin 21 as an output. *)
Lemma gpio_set_function_bits_witness :
  exists v w, log (gpio_set_function 21 1 (mk_mmio (fun _ => 0xFFFFFFFF) 0 [])) = [Rd 0xFE200008 v; Wr 0xFE200008 w] /\ Z.testbit w 3 = true /\ Z.testbit w 4 = false.
Proof.
  destruct (gpio_set_function_bits 21 1 (mk_mmio (fun _ => 0xFFFFFFFF) 0 [])) as [Hin _].
  destruct (Hin ltac:(lia)) as (v & w & E & Hb). exists v, w. split; [exact E|]. split.
  - rewrite (Hb 3); [reflexivity|lia].
  - rewrite (Hb 4); [reflexivity|lia].
Defined.

Definition ticking : board heap := mk_board (with_con user_machine uart_zero) (mk_mmio (fun _ => 26) 0 []) 54000 10 0 1.
Lemma ticking_queue : rx_queue (con (mu (bm ticking))) [].
Proof. split; [by apply ring_init|]. split; [simpl; lia|done]. Qed.
