(* ===== verification/Fat32.v ===== *)
(** fat32.c: reading a FAT32 volume.

    [sd] is the card: the 512 bytes of a sector, or [None] when sd_read of sd.c
    reports an error.  [fat32] is the static [fs].  A loop over a cluster chain
    takes fuel, one unit per cluster: the code has no bound of its own and does
    not come back from a chain that is a cycle.  The callback of fat32_readdir
    is the list of its calls. *)
From S2P Require Import Prelude CString.

(** [b[off] | b[off+1] << 8], and four bytes; the values are unsigned. *)
Definition rd16 (b : list Z) (off : Z) : outcome Z :=
  b0 ← aget b off;
  b1 ← aget b (off + 1);
  Ret (u16 (Z.lor b0 (Z.shiftl b1 8))).
Definition rd32 (b : list Z) (off : Z) : outcome Z :=
  b0 ← aget b off;
  b1 ← aget b (off + 1);
  b2 ← aget b (off + 2);
  b3 ← aget b (off + 3);
  Ret (u32 (Z.lor (Z.lor (Z.lor b0 (Z.shiftl b1 8)) (Z.shiftl b2 16)) (Z.shiftl b3 24))).

Record fat32 := mk_fat32 {
  mounted : Z;
  part_lba : Z;
  bytes_per_sector : Z;
  sectors_per_cluster : Z;
  fat_lba : Z;
  data_lba : Z;
  root_cluster : Z
}.

Definition cluster_lba (fs : fat32) (c : Z) : Z := u32 (data_lba fs + (c - 2) * sectors_per_cluster fs).

(** ** 8.3 names *)

Definition to_upper (c : Z) : Z := if (97 <=? c) && (c <=? 122) then c - 32 else c.

(** The largest [j] of the [n] indices from [lo] on with [b[j] != ' ']. *)
Fixpoint last_nonspace (b : list Z) (lo : Z) (n : nat) : outcome (option Z) :=
  match n with
  | O => Ret None
  | S n =>
    c ← aget b (lo + Z.of_nat n);
    if negb (c =? 32) then Ret (Some (lo + Z.of_nat n)) else last_nonspace b lo n
  end.

(** [for(j = lo; j < hi; j++) out[i++] = b[j]] *)
Definition copy_chars (b : list Z) (lo hi : Z) (out : list Z) (i : Z) : outcome (list Z * Z) :=
  for_range lo hi (fun j '(out, i) => c ← aget b j; out ← aset out i c; Ret (out, i + 1)) (out, i).

Definition entry_to_str (name11 out : list Z) : outcome (list Z) :=
  r ← last_nonspace name11 0 8;
  let nlen := match r with Some j => j + 1 | None => 0 end in
  '(out, i) ← copy_chars name11 0 nlen out 0;
  r ← last_nonspace name11 8 3;
  let elen := match r with Some j => j - 7 | None => 0 end in
  '(out, i) ← (if 0 <? elen then out ← aset out i 46; copy_chars name11 8 (8 + elen) out (i + 1) else Ret (out, i));
  aset out i 0.

(** The upper-cased characters of [p] up to its end (or a '.', with [dot]), at
    most [n] of them, then blanks up to [n]; and the rest of [p]. *)
Fixpoint fill_part (p : list Z) (dot : bool) (n : nat) : outcome (list Z * list Z) :=
  match p with
  | [] => Undef
  | c :: p' =>
    match n with
    | O => Ret ([], p)
    | S n' =>
      if negb (c =? 0) && negb (dot && (c =? 46)) then
        '(a, q) ← fill_part p' dot n'; Ret (to_upper c :: a, q)
      else Ret (replicate n 32, p)
    end
  end.

Definition part_eq (a name11 : list Z) (off : Z) : outcome bool :=
  r ← find_range 0 (zlen a) (fun i => x ← aget a i; y ← aget name11 (off + i); Ret (negb (to_upper x =? to_upper y)));
  Ret (bool_decide (r = None)).

Definition name_match (comp name11 : list Z) : outcome bool :=
  '(n8, p) ← fill_part comp true 8;
  c ← aget p 0;
  p ← (if c =? 46 then ptr_add p 1 else Ret p);
  '(e3, _) ← fill_part p false 3;
  b ← part_eq n8 name11 0;
  if negb b then Ret false else part_eq e3 name11 8.

(** ** Directories *)

Definition ATTR_DIR : Z := 16.
Definition ATTR_LFN : Z := 15.

Record dirent_t := mk_dirent { d_cluster : Z; d_size : Z; d_is_dir : bool }.

(** What looking at an entry says. *)
Inductive slot :=
| SEnd                  (* ent[0] == 0: no more entries *)
| SSkip                 (* deleted, long name, . and .. *)
| SLive.
Definition classify (ent : list Z) : outcome slot :=
  c ← aget ent 0;
  if c =? 0 then Ret SEnd
  else if c =? 229 then Ret SSkip
  else
    a ← aget ent 11;
    if a =? ATTR_LFN then Ret SSkip
    else if c =? 46 then Ret SSkip
    else Ret SLive.

Definition entry_of (ent : list Z) : outcome dirent_t :=
  hi ← rd16 ent 20;
  lo ← rd16 ent 26;
  sz ← rd32 ent 28;
  a ← aget ent 11;
  Ret (mk_dirent (u32 (Z.lor (Z.shiftl hi 16) lo)) sz (negb (Z.land a ATTR_DIR =? 0))).

(** How a scan ends: it goes on, it is over, or it found something. *)
Inductive scan (A : Type) :=
| SMore
| SStop
| SFound (a : A).
Arguments SMore {A}.
Arguments SStop {A}.
Arguments SFound {A} a.

(** The entries [e .. e + n - 1] of the sector [buf], for dir_find. *)
Fixpoint find_entries (n : nat) (e : Z) (buf name : list Z) : outcome (scan dirent_t) :=
  match n with
  | O => Ret SMore
  | S n =>
    ent ← ptr_add buf (e * 32);
    k ← classify ent;
    match k with
    | SEnd => Ret SStop
    | SSkip => find_entries n (e + 1) buf name
    | SLive =>
      b ← name_match name ent;
      if (b : bool) then d ← entry_of ent; Ret (SFound d) else find_entries n (e + 1) buf name
    end
  end.

(** The same for fat32_readdir: the calls made, and whether the end was met. *)
Fixpoint list_entries (n : nat) (e : Z) (buf : list Z) : outcome (bool * list (list Z * bool * Z)) :=
  match n with
  | O => Ret (false, [])
  | S n =>
    ent ← ptr_add buf (e * 32);
    k ← classify ent;
    match k with
    | SEnd => Ret (true, [])
    | SSkip => list_entries n (e + 1) buf
    | SLive =>
      name ← entry_to_str ent (replicate 13 0);
      a ← aget ent 11;
      sz ← rd32 ent 28;
      '(stop, calls) ← list_entries n (e + 1) buf;
      Ret (stop, (cstr name, negb (Z.land a ATTR_DIR =? 0), sz) :: calls)
    end
  end.

Section Fat32.
Variable sd : Z -> option (list Z).
Implicit Types (fs : fat32) (buf path name : list Z).

Definition next_cluster fs (c : Z) : outcome Z :=
  let fat_offset := u32 (c * 4) in
  if bytes_per_sector fs =? 0 then Undef
  else
    match sd (u32 (fat_lba fs + fat_offset / bytes_per_sector fs)) with
    | None => Ret 0
    | Some buf =>
      v ← rd32 buf (fat_offset mod bytes_per_sector fs);
      let v := Z.land v 268435455 in
      Ret (if 268435448 <=? v then 0 else v)
    end.

(** The sectors [s .. s + n - 1] of a cluster. *)
Fixpoint find_sectors (n : nat) (lba s : Z) name : outcome (scan dirent_t) :=
  match n with
  | O => Ret SMore
  | S n =>
    match sd (u32 (lba + s)) with
    | None => Ret SStop
    | Some buf =>
      r ← find_entries 16 0 buf name;
      match r with SMore => find_sectors n lba (s + 1) name | _ => Ret r end
    end
  end.

Fixpoint find_chain (fuel : nat) fs (c : Z) name : outcome (option dirent_t) :=
  if c =? 0 then Ret None
  else
    match fuel with
    | O => Hang
    | S fuel =>
      r ← find_sectors (Z.to_nat (sectors_per_cluster fs)) (cluster_lba fs c) 0 name;
      match r with
      | SFound d => Ret (Some d)
      | SStop => Ret None
      | SMore => c ← next_cluster fs c; find_chain fuel fs c name
      end
    end.
Definition dir_find (fuel : nat) fs (dir_cluster : Z) name : outcome (option dirent_t) := find_chain fuel fs dir_cluster name.

(** The next component, of at most 12 characters. *)
Fixpoint take_comp12 (p : list Z) (n : nat) : outcome (list Z * list Z) :=
  match p with
  | [] => Undef
  | c :: p' =>
    match n with
    | O => Ret ([], p)
    | S n => if negb (c =? 0) && negb (c =? 47) then '(w, q) ← take_comp12 p' n; Ret (c :: w, q) else Ret ([], p)
    end
  end.

(** Every round consumes a character of the path. *)
Fixpoint resolve_path (rounds fuel : nat) fs (p : list Z) (res : dirent_t) : outcome (option dirent_t) :=
  match rounds with
  | O => Hang
  | S rounds =>
    c ← aget p 0;
    if c =? 0 then Ret (Some res)
    else
      '(comp, p) ← take_comp12 p 12;
      c ← aget p 0;
      p ← (if c =? 47 then ptr_add p 1 else Ret p);
      match comp with
      | [] => resolve_path rounds fuel fs p res
      | _ =>
        if negb (d_is_dir res) then Ret None
        else
          child ← dir_find fuel fs (d_cluster res) (comp ++ [0]);
          match child with
          | None => Ret None
          | Some child => resolve_path rounds fuel fs p child
          end
      end
  end.
Definition path_resolve (fuel : nat) fs path : outcome (option dirent_t) :=
  c ← aget path 0;
  p ← (if c =? 47 then ptr_add path 1 else Ret path);
  resolve_path (S (length p)) fuel fs p (mk_dirent (root_cluster fs) 0 true).

Definition fat32_mounted fs : Z := mounted fs.

(** The boot sector's LBA, from the partition table when there is one. *)
Definition find_partition buf : outcome Z :=
  s0 ← aget buf 510;
  s1 ← aget buf 511;
  if (s0 =? 85) && (s1 =? 170) then
    r ← find_range 0 4 (fun i => t ← aget buf (446 + i * 16 + 4); Ret ((t =? 11) || (t =? 12)));
    match r with Some i => rd32 buf (446 + i * 16 + 8) | None => Ret 0 end
  else Ret 0.

(** [ready] is sd_ready(). *)
Definition fat32_mount (ready : bool) fs : outcome (Z * fat32) :=
  let fs := mk_fat32 0 (part_lba fs) (bytes_per_sector fs) (sectors_per_cluster fs) (fat_lba fs) (data_lba fs) (root_cluster fs) in
  if negb ready then Ret (-1, fs)
  else
    match sd 0 with
    | None => Ret (-1, fs)
    | Some buf =>
      part ← find_partition buf;
      match (if part =? 0 then Some buf else sd part) with
      | None => Ret (-1, fs)
      | Some buf =>
        s0 ← aget buf 510;
        s1 ← aget buf 511;
        if negb (s0 =? 85) || negb (s1 =? 170) then Ret (-1, fs)
        else
          t0 ← aget buf 82; t1 ← aget buf 83; t2 ← aget buf 84; t3 ← aget buf 85; t4 ← aget buf 86;
          if negb (bool_decide ([t0; t1; t2; t3; t4] = [70; 65; 84; 51; 50])) then Ret (-1, fs)
          else
            bps ← rd16 buf 11;
            spc ← aget buf 13;
            reserved ← rd16 buf 14;
            num_fats ← aget buf 16;
            fat_size ← rd32 buf 36;
            root ← rd32 buf 44;
            let fat := u32 (part + reserved) in
            Ret (0, mk_fat32 1 part bps spc fat (u32 (fat + num_fats * fat_size)) root)
      end
    end.

(** ** Listing and loading *)

Fixpoint list_sectors (n : nat) (lba s : Z) : outcome (option bool * list (list Z * bool * Z)) :=
  match n with
  | O => Ret (Some false, [])
  | S n =>
    match sd (u32 (lba + s)) with
    | None => Ret (None, [])
    | Some buf =>
      '(stop, calls) ← list_entries 16 0 buf;
      if (stop : bool) then Ret (Some true, calls)
      else '(r, more) ← list_sectors n lba (s + 1); Ret (r, calls ++ more)
    end
  end.

Fixpoint list_chain (fuel : nat) fs (c : Z) : outcome (Z * list (list Z * bool * Z)) :=
  if c =? 0 then Ret (0, [])
  else
    match fuel with
    | O => Hang
    | S fuel =>
      '(r, calls) ← list_sectors (Z.to_nat (sectors_per_cluster fs)) (cluster_lba fs c) 0;
      match r with
      | None => Ret (-1, calls)
      | Some true => Ret (0, calls)
      | Some false => c ← next_cluster fs c; '(r, more) ← list_chain fuel fs c; Ret (r, calls ++ more)
      end
    end.

Definition fat32_readdir (fuel : nat) fs path : outcome (Z * list (list Z * bool * Z)) :=
  if mounted fs =? 0 then Ret (-1, [])
  else
    dir ← path_resolve fuel fs path;
    match dir with
    | None => Ret (-1, [])
    | Some dir => if negb (d_is_dir dir) then Ret (-1, []) else list_chain fuel fs (d_cluster dir)
    end.

(** The sectors of a cluster, while more is wanted; [false] on a read error. *)
Fixpoint load_sectors (n : nat) (lba s : Z) buf (done to_read : Z) : outcome (bool * list Z * Z) :=
  match n with
  | O => Ret (true, buf, done)
  | S n =>
    if done <? to_read then
      match sd (u32 (lba + s)) with
      | None => Ret (false, buf, done)
      | Some sec =>
        let copy := if to_read <? u32 (done + 512) then u32 (to_read - done) else 512 in
        buf ← at_off buf done (fun d => memcpy d sec copy);
        load_sectors n lba (s + 1) buf (u32 (done + copy)) to_read
      end
    else Ret (true, buf, done)
  end.

Fixpoint load_chain (fuel : nat) fs (c : Z) buf (done to_read : Z) : outcome (Z * list Z) :=
  if negb (c =? 0) && (done <? to_read) then
    match fuel with
    | O => Hang
    | S fuel =>
      '(ok, buf, done) ← load_sectors (Z.to_nat (sectors_per_cluster fs)) (cluster_lba fs c) 0 buf done to_read;
      if negb ok then Ret (-1, buf)
      else c ← next_cluster fs c; load_chain fuel fs c buf done to_read
    end
  else Ret (s32 done, buf).

Definition fat32_load (fuel : nat) fs path buf (maxlen : Z) : outcome (Z * list Z) :=
  if mounted fs =? 0 then Ret (-1, buf)
  else
    f ← path_resolve fuel fs path;
    match f with
    | None => Ret (-1, buf)
    | Some f =>
      if d_is_dir f then Ret (-1, buf)
      else load_chain fuel fs (d_cluster f) buf 0 (if d_size f <? maxlen then d_size f else maxlen)
    end.
End Fat32.

(** ** Names *)

Lemma last_nonspace_spec b lo n : 0 <= lo -> lo + Z.of_nat n <= zlen b ->
  exists k : nat, (k <= n)%nat /\ last_nonspace b lo n = Ret (if bool_decide (k = 0%nat) then None else Some (lo + Z.of_nat k - 1))
    /\ forall j, (k <= j < n)%nat -> b !! (Z.to_nat lo + j)%nat = Some 32.
Proof.
  intros Hlo. induction n as [|n IH]; intros Hb; cbn [last_nonspace]; [exists 0%nat; split; [lia|]; split; [done|]; intros; lia|].
  destruct (aget_ok b (lo + Z.of_nat n)) as [c Ec]; [lia|]. rewrite Ec, bind_Ret. apply aget_Ret in Ec as [_ Ec].
  destruct (Z.eqb_spec c 32) as [->|_]; cbn [negb].
  - destruct IH as (k & Hk & -> & Hs); [lia|]. exists k. split; [lia|]. split; [done|]. intros j Hj.
    destruct (decide (j = n)) as [->|]; [|apply Hs; lia]. rewrite <- Ec. f_equal. lia.
  - exists (S n). split; [lia|]. split; [rewrite bool_decide_false by done; do 2 f_equal; lia|]. intros j Hj. lia.
Qed.

Lemma copy_chars_spec b lo hi pre rest : 0 <= lo <= hi -> hi <= zlen b -> hi - lo <= zlen rest ->
  copy_chars b lo hi (pre ++ rest) (zlen pre)
  = Ret (pre ++ take (Z.to_nat (hi - lo)) (drop (Z.to_nat lo) b) ++ drop (Z.to_nat (hi - lo)) rest, zlen pre + (hi - lo)).
Proof.
  intros Hlo Hhi Hr. unfold copy_chars.
  destruct (for_range_ind (fun j '(out, i) => out = pre ++ take (Z.to_nat (j - lo)) (drop (Z.to_nat lo) b) ++ drop (Z.to_nat (j - lo)) rest
      /\ i = zlen pre + (j - lo)) lo hi
    (fun j '(out, i) => c ← aget b j; out ← aset out i c; Ret (out, i + 1)) (pre ++ rest, zlen pre)) as ([o i] & -> & -> & ->); [lia| | |done].
  - rewrite Z.sub_diag. split; [done|lia].
  - intros j [o i] Hj [-> ->]. destruct (aget_ok b j) as [c Ec]; [lia|]. rewrite Ec, bind_Ret. apply aget_Ret in Ec as [_ Ec].
    destruct (drop (Z.to_nat (j - lo)) rest) as [|x r] eqn:Er.
    { apply (f_equal length) in Er. rewrite length_drop in Er. simpl in Er. lia. }
    set (t := take (Z.to_nat (j - lo)) (drop (Z.to_nat lo) b)).
    assert (zlen (pre ++ t) = zlen pre + (j - lo)) as Hz by (rewrite length_app; unfold t; rewrite length_take, length_drop; lia).
    rewrite app_assoc, <- Hz, aset_app, bind_Ret by done. eexists. split; [done|]. split; [|lia].
    replace (Z.to_nat (j + 1 - lo)) with (S (Z.to_nat (j - lo))) by lia.
    rewrite (take_S_r _ _ c), <- !app_assoc by (rewrite lookup_drop; rewrite <- Ec; f_equal; lia). fold t. do 3 f_equal.
    rewrite <- Nat.add_1_r, <- drop_drop, Er. done.
Qed.

(** [l] without its trailing blanks is [take k l]. *)
Definition blank_from (k : nat) (l : list Z) : Prop := (k <= length l)%nat /\ forall j x, (k <= j)%nat -> l !! j = Some x -> x = 32.

Lemma blank_from_eq k l : blank_from k l -> l = take k l ++ replicate (length l - k) 32.
Proof.
  intros [Hk Hb]. rewrite <- (take_drop k l) at 1. f_equal. apply list_eq. intros j. rewrite lookup_drop.
  destruct (decide (j < length l - k)%nat) as [Hj|Hj].
  - rewrite lookup_replicate_2 by done. destruct (lookup_lt_is_Some_2 l (k + j)) as [x Hx]; [lia|]. rewrite Hx. f_equal. eapply Hb; [|done]. lia.
  - rewrite (lookup_ge_None_2 (replicate _ _)) by (rewrite length_replicate; lia). apply lookup_ge_None_2. lia.
Qed.

Definition base_of (ent : list Z) : list Z := take 8 ent.
Definition ext_of (ent : list Z) : list Z := take 3 (drop 8 ent).

(** The printable name: base and extension without their trailing blanks. *)
Lemma entry_to_str_spec ent out : (11 <= length ent)%nat -> length out = 13%nat ->
  exists k e r, entry_to_str ent out = Ret (take k (base_of ent) ++ (if bool_decide (e = 0%nat) then [] else 46 :: take e (ext_of ent)) ++ 0 :: r)
    /\ blank_from k (base_of ent) /\ blank_from e (ext_of ent)
    /\ length (take k (base_of ent) ++ (if bool_decide (e = 0%nat) then [] else 46 :: take e (ext_of ent)) ++ 0 :: r) = 13%nat.
Proof.
  intros He Ho. unfold entry_to_str.
  assert (length (base_of ent) = 8%nat /\ length (ext_of ent) = 3%nat) as [Hb8 Hx3] by (unfold base_of, ext_of; rewrite !length_take, length_drop; lia).
  destruct (last_nonspace_spec ent 0 8) as (k & Hk & -> & Hbk); [lia|lia|]. rewrite bind_Ret. cbv zeta.
  replace (match (if bool_decide (k = 0%nat) then None else Some (0 + Z.of_nat k - 1)) with Some j => j + 1 | None => 0 end) with (Z.of_nat k)
    by (case_bool_decide; lia).
  pose proof (copy_chars_spec ent 0 (Z.of_nat k) [] out) as Hc. cbn [app length] in Hc. change (Z.of_nat 0) with 0 in Hc. rewrite Hc by lia. clear Hc.
  rewrite bind_Ret. cbv iota beta. rewrite Z.sub_0_r, Nat2Z.id, Z.add_0_l. change (drop (Z.to_nat 0) ent) with ent.
  destruct (last_nonspace_spec ent 8 3) as (e & Hle & -> & Hbe); [lia|lia|]. rewrite bind_Ret. cbv zeta.
  replace (match (if bool_decide (e = 0%nat) then None else Some (8 + Z.of_nat e - 1)) with Some j => j - 7 | None => 0 end) with (Z.of_nat e)
    by (case_bool_decide; lia).
  assert (take k ent = take k (base_of ent)) as Hbase by (unfold base_of; rewrite take_take; f_equal; lia). rewrite Hbase.
  assert (zlen (take k (base_of ent)) = Z.of_nat k) as Hkl by (rewrite length_take; lia).
  assert (blank_from k (base_of ent)) as Bk.
  { split; [lia|]. intros j x Hj Hx. pose proof (lookup_lt_Some _ _ _ Hx). unfold base_of in Hx.
    rewrite lookup_take_lt in Hx by lia. specialize (Hbk j ltac:(lia)). change (Z.to_nat 0 + j)%nat with j in Hbk. congruence. }
  assert (blank_from e (ext_of ent)) as Be.
  { split; [lia|]. intros j x Hj Hx. pose proof (lookup_lt_Some _ _ _ Hx). unfold ext_of in Hx.
    rewrite lookup_take_lt, lookup_drop in Hx by lia. specialize (Hbe j ltac:(lia)). change (Z.to_nat 8) with 8%nat in Hbe. congruence. }
  destruct (drop k out) as [|y r] eqn:Er.
  { apply (f_equal length) in Er. rewrite length_drop in Er. simpl in Er. lia. }
  assert (length r = (12 - k)%nat) as Hrl. { apply (f_equal length) in Er. rewrite length_drop in Er. simpl in Er. lia. }
  exists k, e. destruct (Z.ltb_spec 0 (Z.of_nat e)) as [Hpos|Hpos].
  - rewrite bool_decide_false by lia. rewrite <- Hkl, aset_app, bind_Ret by done.
    replace (zlen (take k (base_of ent)) + 1) with (zlen (take k (base_of ent) ++ [46])) by (rewrite length_app; simpl; lia).
    rewrite copy_chars_spec, bind_Ret by lia. cbv iota beta. replace (8 + Z.of_nat e - 8) with (Z.of_nat e) by lia. rewrite Nat2Z.id.
    change (Z.to_nat 8) with 8%nat. assert (take e (drop 8 ent) = take e (ext_of ent)) as Hext by (unfold ext_of; rewrite take_take; f_equal; lia). rewrite Hext.
    destruct (drop e r) as [|z t] eqn:Et.
    { apply (f_equal length) in Et. rewrite length_drop in Et. simpl in Et. lia. }
    exists t. rewrite (app_assoc (take k (base_of ent) ++ [46])), aset_app by (rewrite !length_app, !length_take; simpl; lia).
    apply (f_equal length) in Et. rewrite length_drop in Et. simpl in Et.
    split; [f_equal; rewrite <- !app_assoc; done|]. split; [done|]. split; [done|].
    rewrite !length_app. cbn [length]. rewrite !length_take. lia.
  - rewrite bool_decide_true by lia. rewrite bind_Ret. cbv iota beta. exists r. rewrite <- Hkl at 1. rewrite aset_app by done. cbn [app].
    split; [by rewrite <- app_assoc|]. split; [done|]. split; [done|]. rewrite length_app, length_take. cbn [length]. lia.
Qed.

Lemma to_upper_idem c : to_upper (to_upper c) = to_upper c.
Proof.
  unfold to_upper. destruct (Z.leb_spec 97 c), (Z.leb_spec c 122); cbn [andb];
    repeat match goal with |- context [?a <=? ?b] => destruct (Z.leb_spec a b) end; cbn [andb]; try done; lia.
Qed.

(** A part that ends before [n] characters, or has exactly [n]. *)
Lemma fill_part_spec w c t dot n : Forall (fun x => x <> 0 /\ (dot = true -> x <> 46)) w -> (length w <= n)%nat ->
  (c = 0 \/ (dot = true /\ c = 46)) ->
  fill_part (w ++ c :: t) dot n = Ret ((to_upper <$> w) ++ replicate (n - length w) 32, c :: t).
Proof.
  intros Hw. revert n. induction Hw as [|x w [Hx Hd] _ IH]; intros n Hn Hc; cbn [app fill_part].
  - destruct n as [|n]; [done|]. destruct Hc as [->|[-> ->]]; done.
  - destruct n as [|n]; [simpl in Hn; lia|]. destruct (Z.eqb_spec x 0); [done|]. cbn [negb andb].
    assert (dot && (x =? 46) = false) as -> by (destruct dot; [|done]; destruct (Z.eqb_spec x 46); [by destruct Hd|done]). cbn [negb].
    rewrite IH by (simpl in Hn; lia || done). done.
Qed.

Lemma part_eq_true a name11 off : 0 <= off -> off + zlen a <= zlen name11 ->
  (forall i x, a !! i = Some x -> exists y, name11 !! (Z.to_nat off + i)%nat = Some y /\ to_upper x = to_upper y) ->
  part_eq a name11 off = Ret true.
Proof.
  intros Ho Hl He. unfold part_eq.
  set (p := fun i => x ← aget a i; y ← aget name11 (off + i); Ret (negb (to_upper x =? to_upper y))).
  destruct (find_range_Some (fun _ => false) p 0 (zlen a)) as [(i & _ & _ & ? & _)|[E _]]; [|done|by rewrite E].
  intros i Hi. unfold p. destruct (aget_ok a i Hi) as [x Ex]. rewrite Ex, bind_Ret. apply aget_Ret in Ex as [_ Ex].
  destruct (He _ _ Ex) as (y & Ey & ->). assert (aget name11 (off + i) = Ret y) as ->.
  { apply aget_Ret. split; [lia|]. rewrite <- Ey. f_equal. lia. }
  rewrite bind_Ret. by rewrite Z.eqb_refl.
Qed.

Lemma part_eq_upper l k name11 off : 0 <= off -> off + zlen l <= zlen name11 -> blank_from k l ->
  l = take (length l) (drop (Z.to_nat off) name11) ->
  part_eq ((to_upper <$> take k l) ++ replicate (length l - k) 32) name11 off = Ret true.
Proof.
  intros Ho Hl Hb El. assert ((to_upper <$> take k l) ++ replicate (length l - k) 32 = to_upper <$> l) as ->.
  { rewrite (blank_from_eq k l Hb) at 3. rewrite fmap_app. f_equal. by rewrite fmap_replicate. }
  apply part_eq_true; [done|by rewrite length_fmap|]. intros i x Hx. rewrite list_lookup_fmap in Hx.
  destruct (l !! i) as [y|] eqn:Ey; [|done]. injection Hx as <-. exists y. split; [|apply to_upper_idem].
  pose proof (lookup_lt_Some _ _ _ Ey). rewrite El, lookup_take_lt, lookup_drop in Ey by done. exact Ey.
Qed.

(** The name fat32_readdir reports for a directory entry is a path component
    that finds that entry again: for every entry whose base has no dot and whose
    name has no NUL, name_match accepts what entry_to_str writes, which fits its
    13 bytes. *)
Theorem entry_name_roundtrip (ent : list Z) :
  (11 <= length ent)%nat -> Forall (fun c => c <> 0 /\ c <> 46) (base_of ent) -> Forall (fun c => c <> 0) (ext_of ent) ->
  exists s, entry_to_str ent (replicate 13 0) = Ret s /\ length s = 13%nat /\ name_match s ent = Ret true.
Proof.
  intros He Hb Hx. destruct (entry_to_str_spec ent (replicate 13 0) He) as (k & e & r & -> & Bk & Be & Hlen); [done|].
  assert (length (base_of ent) = 8%nat /\ length (ext_of ent) = 3%nat) as [Hb8 Hx3] by (unfold base_of, ext_of; rewrite !length_take, length_drop; lia).
  eexists. split; [done|]. split; [exact Hlen|]. clear Hlen. unfold name_match.
  assert (exists c t, (if bool_decide (e = 0%nat) then [] else 46 :: take e (ext_of ent)) ++ 0 :: r = c :: t /\ (c = 0 \/ (true = true /\ c = 46))
    /\ (p ← (if c =? 46 then ptr_add (c :: t) 1 else Ret (c :: t)); fill_part p false 3)
       = Ret ((to_upper <$> take e (ext_of ent)) ++ replicate (3 - e) 32, 0 :: r)) as (c & t & -> & Hc & Hfill).
  { assert (fill_part (take e (ext_of ent) ++ 0 :: r) false 3 = Ret ((to_upper <$> take e (ext_of ent)) ++ replicate (3 - e) 32, 0 :: r)) as Hf.
    { destruct Be as [Hle _]. rewrite fill_part_spec; [by rewrite length_take, Nat.min_l by lia| |rewrite length_take; lia|by left].
      apply Forall_take. eapply Forall_impl; [exact Hx|]. by intros x ?. }
    case_bool_decide as E0.
    - subst e. exists 0, r. split; [done|]. split; [by left|]. exact Hf.
    - exists 46, (take e (ext_of ent) ++ 0 :: r). split; [done|]. split; [by right|]. cbn [Z.eqb Pos.eqb].
      assert (ptr_add (46 :: take e (ext_of ent) ++ 0 :: r) 1 = Ret (take e (ext_of ent) ++ 0 :: r)) as ->; [|exact Hf].
      unfold ptr_add. rewrite bool_decide_true by (cbn [length]; lia). done. }
  rewrite fill_part_spec, bind_Ret; [|apply Forall_take; eapply Forall_impl; [exact Hb|]; intros x [? ?]; by split|rewrite length_take; lia|done].
  cbv iota beta. assert (aget (c :: t) 0 = Ret c) as -> by done. rewrite bind_Ret.
  destruct (if c =? 46 then ptr_add (c :: t) 1 else Ret (c :: t)) as [p| | |]; try done. rewrite bind_Ret in Hfill. rewrite bind_Ret, Hfill, bind_Ret. cbv iota beta.
  pose proof (part_eq_upper (base_of ent) k ent 0) as P1. rewrite Hb8 in P1. destruct Bk as [Hk8 ?]. rewrite length_take, Nat.min_l by lia.
  rewrite P1, bind_Ret; [|lia|lia|done|done]. cbn [negb].
  pose proof (part_eq_upper (ext_of ent) e ent 8) as P2. rewrite Hx3 in P2. apply P2; [lia|lia|done|done].
Qed.

(** ** Directories as lists of entries *)

(** The 16 entries of a sector, each with what follows it. *)
Definition ents (sec : list Z) : list (list Z) := (fun e => drop (32 * e) sec) <$> seq 0 16.

(** The entries the code reports: live ones, up to the first free one. *)
Fixpoint live (es : list (list Z)) : list (list Z) :=
  match es with
  | [] => []
  | e :: es =>
    match classify e with
    | Ret SEnd => []
    | Ret SLive => e :: live es
    | _ => live es
    end
  end.
#[global] Instance slot_eq_dec : EqDecision slot.
Proof. solve_decision. Defined.
Definition ended (es : list (list Z)) : bool := existsb (fun e => bool_decide (classify e = Ret SEnd)) es.

Definition matching (name : list Z) (e : list Z) : Prop := name_match name e = Ret true.
#[global] Instance matching_dec name e : Decision (matching name e).
Proof. unfold matching. apply _. Defined.
Definition dirent_of (e : list Z) : dirent_t := match entry_of e with Ret d => d | _ => mk_dirent 0 0 false end.
(** The arguments of the callback. *)
Definition described (e : list Z) : list Z * bool * Z :=
  match entry_to_str e (replicate 13 0) with Ret s => (cstr s, d_is_dir (dirent_of e), d_size (dirent_of e)) | _ => ([], false, 0) end.

(** The first match of a scan, and whether it goes on. *)
Definition found (es : list (list Z)) (name : list Z) : scan dirent_t :=
  match list_find (matching name) (live es) with
  | Some (_, e) => SFound (dirent_of e)
  | None => if ended es then SStop else SMore
  end.

Lemma live_app a b : live (a ++ b) = live a ++ (if ended a then [] else live b).
Proof.
  induction a as [|e a IH]; [done|]. cbn [app live ended existsb]. rewrite IH. unfold ended.
  destruct (classify e) as [[]| | |]; cbn; done.
Qed.

Lemma ended_app a b : ended (a ++ b) = ended a || ended b.
Proof. apply existsb_app. Qed.

Lemma classify_ok e : (32 <= length e)%nat -> exists k, classify e = Ret k.
Proof.
  intros He. unfold classify. destruct (aget_ok e 0) as [c ->]; [lia|]. rewrite bind_Ret.
  destruct (aget_ok e 11) as [a ->]; [lia|]. rewrite bind_Ret. repeat case_match; eauto.
Qed.

Lemma rd16_ok b off : 0 <= off -> off + 2 <= zlen b -> exists v, rd16 b off = Ret v.
Proof.
  intros Ho Hb. unfold rd16. destruct (aget_ok b off) as [x ->]; [lia|]. destruct (aget_ok b (off + 1)) as [y ->]; [lia|]. eauto.
Qed.
Lemma rd32_ok b off : 0 <= off -> off + 4 <= zlen b -> exists v, rd32 b off = Ret v.
Proof.
  intros Ho Hb. unfold rd32. destruct (aget_ok b off) as [x ->]; [lia|]. destruct (aget_ok b (off + 1)) as [y ->]; [lia|].
  destruct (aget_ok b (off + 2)) as [z ->]; [lia|]. destruct (aget_ok b (off + 3)) as [w ->]; [lia|]. eauto.
Qed.

Lemma entry_of_ok e : (32 <= length e)%nat -> entry_of e = Ret (dirent_of e)
  /\ exists a sz, aget e 11 = Ret a /\ rd32 e 28 = Ret sz /\ d_is_dir (dirent_of e) = negb (Z.land a ATTR_DIR =? 0) /\ d_size (dirent_of e) = sz.
Proof.
  intros He. assert (exists a sz d, aget e 11 = Ret a /\ rd32 e 28 = Ret sz /\ entry_of e = Ret d /\ d_is_dir d = negb (Z.land a ATTR_DIR =? 0) /\ d_size d = sz)
    as (a & sz & d & Ea & Es & Ed & H1 & H2).
  { unfold entry_of. destruct (rd16_ok e 20) as [hi ->]; [lia|lia|]. destruct (rd16_ok e 26) as [lo ->]; [lia|lia|].
    destruct (rd32_ok e 28) as [sz ->]; [lia|lia|]. destruct (aget_ok e 11) as [a ->]; [lia|]. eexists a, sz, _. done. }
  unfold dirent_of. rewrite Ed. split; [done|]. by exists a, sz.
Qed.

Lemma fill_part_ok p dot n : terminated p -> exists a q, fill_part p dot n = Ret (a, q) /\ length a = n /\ terminated q.
Proof.
  intros Hp. revert p Hp n. refine (terminated_ind _ _ _); [intros s|intros c s Hc Ht IH]; intros n; cbn [fill_part].
  - destruct n as [|n]; [exists [], (0 :: s)|exists (replicate (S n) 32), (0 :: s)]; (split; [done|]; split; [by rewrite ?length_replicate|by left]).
  - destruct n as [|n]; [exists [], (c :: s); split; [done|]; split; [done|by right]|].
    destruct (_ && _).
    + destruct (IH n) as (a & q & -> & Hl & Hq). exists (to_upper c :: a), q. split; [done|]. simpl. by rewrite Hl.
    + exists (replicate (S n) 32), (c :: s). split; [done|]. split; [by rewrite length_replicate|by right].
Qed.

Lemma part_eq_ok a b off : 0 <= off -> off + zlen a <= zlen b -> exists r, part_eq a b off = Ret r.
Proof.
  intros Ho Hl. unfold part_eq.
  destruct (find_range_Some (fun i => match a !! Z.to_nat i, b !! Z.to_nat (off + i) with Some x, Some y => negb (to_upper x =? to_upper y) | _, _ => false end)
    (fun i => x ← aget a i; y ← aget b (off + i); Ret (negb (to_upper x =? to_upper y))) 0 (zlen a)) as [(i & -> & _)|[-> _]]; [|eauto..].
  intros i Hi. destruct (aget_ok a i Hi) as [x Ex]. destruct (aget_ok b (off + i)) as [y Ey]; [lia|]. rewrite Ex, bind_Ret, Ey, bind_Ret.
  apply aget_Ret in Ex as [_ ->], Ey as [_ ->]. done.
Qed.

Lemma name_match_ok name e : terminated name -> (32 <= length e)%nat -> exists b, name_match name e = Ret b.
Proof.
  intros Hn He. unfold name_match. destruct (fill_part_ok name true 8 Hn) as (n8 & q & -> & Hl8 & Hq). rewrite bind_Ret. cbv iota beta.
  destruct q as [|c q]; [by apply elem_of_nil in Hq|]. assert (aget (c :: q) 0 = Ret c) as -> by done. rewrite bind_Ret.
  assert (exists p, (if c =? 46 then ptr_add (c :: q) 1 else Ret (c :: q)) = Ret p /\ terminated p) as (p & -> & Hp).
  { destruct (Z.eqb_spec c 46) as [->|_]; [|by eexists]. exists q. split.
    - unfold ptr_add. rewrite bool_decide_true by (simpl; lia). done.
    - by apply elem_of_cons in Hq as [?|]. }
  rewrite bind_Ret. destruct (fill_part_ok p false 3 Hp) as (e3 & r & -> & Hl3 & _). rewrite bind_Ret. cbv iota beta.
  destruct (part_eq_ok n8 e 0) as [[] ->]; [lia|lia| |]; rewrite bind_Ret; cbn [negb]; [|eauto]. apply part_eq_ok; lia.
Qed.

Lemma sector_entry sec (e : nat) : length sec = 512%nat -> (e < 16)%nat ->
  ptr_add sec (Z.of_nat e * 32) = Ret (drop (32 * e) sec) /\ (32 <= length (drop (32 * e) sec))%nat.
Proof.
  intros Hs He. unfold ptr_add. rewrite bool_decide_true by lia. split; [|rewrite length_drop; lia]. do 2 f_equal. lia.
Qed.

Lemma find_entries_spec n e sec name : length sec = 512%nat -> terminated name -> (e + n <= 16)%nat ->
  find_entries n (Z.of_nat e) sec name = Ret (found ((fun e => drop (32 * e) sec) <$> seq e n) name).
Proof.
  intros Hs Ht. revert e. induction n as [|n IH]; intros e He; [done|]. cbn [find_entries seq fmap list_fmap].
  destruct (sector_entry sec e Hs) as [-> Hl]; [lia|]. rewrite bind_Ret. set (x := drop (32 * e) sec) in *.
  destruct (classify_ok x Hl) as [k Ek]. rewrite Ek, bind_Ret. unfold found. cbn [live ended existsb]. rewrite Ek.
  replace (Z.of_nat e + 1) with (Z.of_nat (S e)) by lia. destruct k.
  - done.
  - rewrite IH by lia. done.
  - destruct (name_match_ok name x Ht Hl) as [b Eb]. rewrite Eb, bind_Ret. cbn [list_find]. destruct b.
    + rewrite decide_True by exact Eb. by rewrite (proj1 (entry_of_ok x Hl)).
    + rewrite decide_False by (unfold matching; congruence). rewrite IH by lia. unfold found.
      destruct (list_find _ _) as [[]|]; done.
Qed.

Lemma list_entries_spec n e sec : length sec = 512%nat -> (e + n <= 16)%nat ->
  list_entries n (Z.of_nat e) sec
  = Ret (ended ((fun e => drop (32 * e) sec) <$> seq e n), described <$> live ((fun e => drop (32 * e) sec) <$> seq e n)).
Proof.
  intros Hs. revert e. induction n as [|n IH]; intros e He; [done|]. cbn [list_entries seq fmap list_fmap].
  destruct (sector_entry sec e Hs) as [-> Hl]; [lia|]. rewrite bind_Ret. set (x := drop (32 * e) sec) in *.
  destruct (classify_ok x Hl) as [k Ek]. rewrite Ek, bind_Ret. cbn [live ended existsb]. rewrite Ek.
  replace (Z.of_nat e + 1) with (Z.of_nat (S e)) by lia. destruct k.
  - done.
  - rewrite IH by lia. done.
  - destruct (entry_to_str_spec x (replicate 13 0)) as (k & e3 & r & Es & _); [lia|done|]. rewrite Es, bind_Ret.
    destruct (entry_of_ok x Hl) as (_ & a & sz & Ea & Esz & H1 & H2). rewrite Ea, bind_Ret, Esz, bind_Ret, IH by lia.
    rewrite bind_Ret. cbv iota beta. cbn [fmap list_fmap]. unfold described at 2. rewrite Es, H1, H2. done.
Qed.

Section FatSpec.
Variable sd : Z -> option (list Z).
(** The card gives whole sectors. *)
Hypothesis sd_sector : forall lba sec, sd lba = Some sec -> length sec = 512%nat.
Implicit Types (fs : fat32) (cs : list Z).

(** The clusters that follow [c]. *)
Inductive chain fs : Z -> list Z -> Prop :=
| chain_nil : chain fs 0 []
| chain_cons c c' cs : c <> 0 -> next_cluster sd fs c = Ret c' -> chain fs c' cs -> chain fs c (c :: cs).

(** The addresses of the sectors of a cluster, and their bytes. *)
Definition cluster_sectors fs (c : Z) : list Z :=
  (fun s : nat => u32 (cluster_lba fs c + Z.of_nat s)) <$> seq 0 (Z.to_nat (sectors_per_cluster fs)).
Definition sector (lba : Z) : list Z := default [] (sd lba).
Definition readable fs cs : Prop := Forall (fun c => Forall (fun lba => is_Some (sd lba)) (cluster_sectors fs c)) cs.
Definition dir_entries fs cs : list (list Z) := cs ≫= (fun c => cluster_sectors fs c ≫= (fun lba => ents (sector lba))).

Lemma sector_ok lba : is_Some (sd lba) -> sd lba = Some (sector lba) /\ length (sector lba) = 512%nat.
Proof. intros [x Hx]. unfold sector. rewrite Hx. split; [done|]. by eapply sd_sector. Qed.

Lemma found_app a b name : found (a ++ b) name = match found a name with SMore => found b name | r => r end.
Proof.
  unfold found. rewrite live_app, ended_app. destruct (list_find (matching name) (live a)) as [[i e]|] eqn:Ea.
  - by rewrite (list_find_app_l _ _ _ _ _ Ea).
  - rewrite (list_find_app_r _ _ _ Ea). destruct (ended a); cbn [orb list_find]; [done|].
    by destruct (list_find (matching name) (live b)) as [[i e]|].
Qed.

Lemma find_sectors_spec n lba s name : terminated name ->
  Forall (fun l => is_Some (sd l)) ((fun s : nat => u32 (lba + Z.of_nat s)) <$> seq s n) ->
  find_sectors sd n lba (Z.of_nat s) name
  = Ret (found (((fun s : nat => u32 (lba + Z.of_nat s)) <$> seq s n) ≫= (fun l => ents (sector l))) name).
Proof.
  intros Ht. revert s. induction n as [|n IH]; intros s Hr; [done|]. cbn [find_sectors seq fmap list_fmap mbind list_bind] in *.
  apply Forall_cons in Hr as [H1 H2]. destruct (sector_ok _ H1) as [E Hl]. rewrite E.
  rewrite (find_entries_spec 16 0) by (done || lia). rewrite bind_Ret, found_app. fold (ents (sector (u32 (lba + Z.of_nat s)))).
  destruct (found (ents _) name); [|done|done]. replace (Z.of_nat s + 1) with (Z.of_nat (S s)) by lia. by apply IH.
Qed.

Lemma find_chain_spec fuel fs c cs name : chain fs c cs -> readable fs cs -> terminated name -> (length cs <= fuel)%nat ->
  find_chain sd fuel fs c name = Ret (match found (dir_entries fs cs) name with SFound d => Some d | _ => None end).
Proof.
  intros Hc Hr Ht. revert fuel Hr. induction Hc as [|c c' cs H0 Hn _ IH]; intros fuel Hr Hf.
  - by destruct fuel.
  - destruct fuel as [|fuel]; [simpl in Hf; lia|]. cbn [find_chain]. destruct (Z.eqb_spec c 0); [done|].
    apply Forall_cons in Hr as [H1 H2]. pose proof (find_sectors_spec (Z.to_nat (sectors_per_cluster fs)) (cluster_lba fs c) 0 name Ht H1) as Hs.
    change (Z.of_nat 0) with 0 in Hs. rewrite Hs, bind_Ret. unfold dir_entries. cbn [mbind list_bind]. rewrite found_app.
    fold (cluster_sectors fs c). destruct (found (cluster_sectors fs c ≫= _) name); [|done|done]. rewrite Hn, bind_Ret. apply IH; [done|simpl in Hf; lia].
Qed.

Lemma list_sectors_spec n lba s :
  Forall (fun l => is_Some (sd l)) ((fun s : nat => u32 (lba + Z.of_nat s)) <$> seq s n) ->
  let es := ((fun s : nat => u32 (lba + Z.of_nat s)) <$> seq s n) ≫= (fun l => ents (sector l)) in
  list_sectors sd n lba (Z.of_nat s) = Ret (Some (ended es), described <$> live es).
Proof.
  revert s. induction n as [|n IH]; intros s Hr; [done|]. cbv zeta in *. cbn [list_sectors seq fmap list_fmap mbind list_bind] in *.
  apply Forall_cons in Hr as [H1 H2]. destruct (sector_ok _ H1) as [E Hl]. rewrite E.
  rewrite (list_entries_spec 16 0) by (done || lia). rewrite bind_Ret. cbv iota beta. fold (ents (sector (u32 (lba + Z.of_nat s)))).
  rewrite ended_app, live_app. destruct (ended (ents _)); cbn [orb]; [by rewrite app_nil_r|].
  replace (Z.of_nat s + 1) with (Z.of_nat (S s)) by lia. rewrite IH, bind_Ret by done. cbv iota beta. by rewrite fmap_app.
Qed.

Lemma list_chain_spec fuel fs c cs : chain fs c cs -> readable fs cs -> (length cs <= fuel)%nat ->
  list_chain sd fuel fs c = Ret (0, described <$> live (dir_entries fs cs)).
Proof.
  intros Hc Hr. revert fuel Hr. induction Hc as [|c c' cs H0 Hn _ IH]; intros fuel Hr Hf.
  - by destruct fuel.
  - destruct fuel as [|fuel]; [simpl in Hf; lia|]. cbn [list_chain]. destruct (Z.eqb_spec c 0); [done|].
    apply Forall_cons in Hr as [H1 H2]. pose proof (list_sectors_spec (Z.to_nat (sectors_per_cluster fs)) (cluster_lba fs c) 0 H1) as Hs.
    change (Z.of_nat 0) with 0 in Hs. cbv zeta in Hs. rewrite Hs, bind_Ret. cbv iota beta. unfold dir_entries. cbn [mbind list_bind].
    rewrite live_app. fold (cluster_sectors fs c). destruct (ended (cluster_sectors fs c ≫= _)); [by rewrite app_nil_r|].
    rewrite Hn, bind_Ret, IH, bind_Ret by (done || (simpl in Hf; lia)). cbv iota beta. by rewrite fmap_app.
Qed.


(** *** Loading *)

(** The bytes of a file. *)
Definition chain_bytes fs cs : list Z := cs ≫= (fun c => cluster_sectors fs c ≫= sector).

(** [done] bytes of [data] are in [buf]. *)
Definition loaded (data buf0 : list Z) (n : Z) : list Z := take (Z.to_nat n) data ++ drop (Z.to_nat n) buf0.

Lemma load_one data sec buf0 k m : zlen data = k -> 0 <= m <= zlen sec -> k + m <= zlen buf0 ->
  at_off (loaded data buf0 k) k (fun d => memcpy d sec m) = Ret (loaded (data ++ sec) buf0 (k + m)).
Proof.
  intros Hk Hm Hb. unfold loaded at 1. rewrite take_ge by lia.
  rewrite (at_off_spec _ _ _ (take (Z.to_nat m) sec ++ drop (Z.to_nat (k + m)) buf0)).
  - rewrite take_app_length' by lia. f_equal. unfold loaded. rewrite app_assoc. f_equal.
    rewrite take_app_ge by lia. do 2 f_equal. lia.
  - rewrite length_app, length_drop. lia.
  - rewrite drop_app_length' by lia. rewrite memcpy_spec by (rewrite ?length_drop; lia). rewrite drop_drop. do 3 f_equal. lia.
Qed.

Lemma load_sectors_spec n lba s data buf0 to_read :
  Forall (fun l => is_Some (sd l)) ((fun s : nat => u32 (lba + Z.of_nat s)) <$> seq s n) ->
  0 <= to_read <= zlen buf0 -> to_read < 2147483648 ->
  let data' := data ++ (((fun s : nat => u32 (lba + Z.of_nat s)) <$> seq s n) ≫= sector) in
  load_sectors sd n lba (Z.of_nat s) (loaded data buf0 (Z.min to_read (zlen data))) (Z.min to_read (zlen data)) to_read
  = Ret (true, loaded data' buf0 (Z.min to_read (zlen data')), Z.min to_read (zlen data')).
Proof.
  revert s data. induction n as [|n IH]; intros s data Hr Ht Hi; cbv zeta; [by cbn; rewrite app_nil_r|].
  cbn [load_sectors seq fmap list_fmap mbind list_bind] in *. apply Forall_cons in Hr as [H1 H2]. destruct (sector_ok _ H1) as [E Hl]. rewrite E.
  set (sec := sector (u32 (lba + Z.of_nat s))) in *. destruct (Z.ltb_spec (Z.min to_read (zlen data)) to_read) as [Hlt|Hge].
  - assert (Z.min to_read (zlen data) = zlen data) as Hm by lia. rewrite Hm. rewrite (u32_small (zlen data + 512)) by lia.
    set (m := Z.min (to_read - zlen data) 512).
    replace (if to_read <? zlen data + 512 then u32 (to_read - zlen data) else 512) with m
      by (destruct (Z.ltb_spec to_read (zlen data + 512)); [rewrite u32_small by lia|]; lia).
    rewrite (load_one data sec buf0 (zlen data) m), bind_Ret by lia. rewrite (u32_small (zlen data + m)) by lia.
    assert (zlen data + m = Z.min to_read (zlen (data ++ sec))) as -> by (rewrite length_app; lia).
    replace (Z.of_nat s + 1) with (Z.of_nat (S s)) by lia. pose proof (IH (S s) (data ++ sec) H2 Ht Hi) as Hn. cbv zeta in Hn.
    rewrite Hn. by rewrite <- app_assoc.
  - assert (Z.min to_read (zlen data) = to_read) as -> by lia.
    match goal with |- context [data ++ ?t] => assert (Z.min to_read (zlen (data ++ t)) = to_read) as -> by (rewrite length_app; lia) end.
    do 3 f_equal. unfold loaded. f_equal. rewrite take_app_le by lia. done.
Qed.

Lemma load_chain_spec fuel fs c cs data buf0 to_read : chain fs c cs -> readable fs cs -> (length cs <= fuel)%nat ->
  0 <= to_read <= zlen buf0 -> to_read < 2147483648 ->
  load_chain sd fuel fs c (loaded data buf0 (Z.min to_read (zlen data))) (Z.min to_read (zlen data)) to_read
  = Ret (Z.min to_read (zlen (data ++ chain_bytes fs cs)), loaded (data ++ chain_bytes fs cs) buf0 (Z.min to_read (zlen (data ++ chain_bytes fs cs)))).
Proof.
  intros Hc Hr Hf Ht Hi. revert fuel data Hr Hf. induction Hc as [|c c' cs H0 Hn _ IH]; intros fuel data Hr Hf.
  - unfold chain_bytes. cbn [mbind list_bind]. rewrite app_nil_r. destruct fuel; cbn [load_chain Z.eqb negb andb]; rewrite s32_small by lia; done.
  - unfold chain_bytes. cbn [mbind list_bind]. fold (chain_bytes fs cs). destruct fuel as [|fuel]; [simpl in Hf; lia|]. cbn [load_chain].
    destruct (Z.eqb_spec c 0); [done|]. cbn [negb andb]. apply Forall_cons in Hr as [H1 H2].
    destruct (Z.ltb_spec (Z.min to_read (zlen data)) to_read) as [Hlt|Hge].
    + pose proof (load_sectors_spec (Z.to_nat (sectors_per_cluster fs)) (cluster_lba fs c) 0 data buf0 to_read H1 Ht Hi) as Hs.
      cbv zeta in Hs. change (Z.of_nat 0) with 0 in Hs. rewrite Hs, bind_Ret. cbv iota beta. cbn [negb]. rewrite Hn, bind_Ret.
      fold (cluster_sectors fs c). rewrite (IH fuel (data ++ (cluster_sectors fs c ≫= sector))) by (done || (simpl in Hf; lia)). by rewrite <- app_assoc.
    + rewrite s32_small by lia. assert (Z.min to_read (zlen data) = to_read) as -> by lia.
      match goal with |- context [data ++ ?t] => assert (Z.min to_read (zlen (data ++ t)) = to_read) as -> by (rewrite length_app; lia) end.
      do 2 f_equal. unfold loaded. f_equal. rewrite take_app_le by lia. done.
Qed.

End FatSpec.

(** *** An example volume: a root directory with one file *)

Definition pad (n : nat) (l : list Z) : list Z := resize n 0 l.
Definition fat_sector : list Z := pad 512 ([248; 255; 255; 15; 255; 255; 255; 15; 255; 255; 255; 15] ++ [248; 255; 255; 15]).
Definition dir_sector : list Z :=
  pad 512 (pad 32 (bytes "DISK    " ++ bytes "   " ++ [15]) ++ bytes "A       " ++ bytes "TXT" ++ [32] ++ replicate 8 0 ++ [0; 0] ++ replicate 4 0 ++ [3; 0] ++ [5; 0; 0; 0]).
Definition file_sector : list Z := pad 512 (bytes "hello").
Definition card (lba : Z) : option (list Z) :=
  if lba =? 1 then Some fat_sector else if lba =? 2 then Some dir_sector else if lba =? 3 then Some file_sector else None.
Definition volume : fat32 := mk_fat32 1 0 512 1 1 2 2.

Lemma card_sector lba sec : card lba = Some sec -> length sec = 512%nat.
Proof. unfold card. repeat case_match; [intros [= <-]; vm_compute; reflexivity..|done]. Qed.

Lemma volume_chain c : c = 2 \/ c = 3 -> chain card volume c [c].
Proof.
  intros Hc. apply (chain_cons _ _ _ 0); [lia| |constructor]. by destruct Hc as [-> | ->]; vm_compute.
Qed.
Lemma volume_readable c : c = 2 \/ c = 3 -> readable card volume [c].
Proof. intros [-> | ->]; (constructor; [constructor; [eexists; vm_compute; reflexivity|constructor]|constructor]). Qed.



Definition txt_entry : list Z := bytes "README  " ++ bytes "MD ".
Lemma entry_name_roundtrip_witness : exists s, entry_to_str txt_entry (replicate 13 0) = Ret s /\ name_match s txt_entry = Ret true.
Proof.
  destruct (entry_name_roundtrip txt_entry) as (s & E & _ & M).
  - simpl. lia.
  - unfold base_of. simpl. repeat constructor; lia.
  - unfold ext_of. simpl. repeat constructor; lia.
  - exists s. split; [exact E|exact M].
Defined.

(** A FAT entry that points back makes the chain a cycle: searching a directory
    of that chain without a free slot never ends, whatever the fuel. *)
Definition loop_fat : list Z := pad 512 ([248; 255; 255; 15; 255; 255; 255; 15; 2; 0; 0; 0]).
Definition loop_card (lba : Z) : option (list Z) :=
  if lba =? 1 then Some loop_fat else if lba =? 2 then Some (replicate 512 229) else None.

Lemma cyclic_chain_hangs fuel : dir_find loop_card fuel volume 2 (lit "x") = Hang.
Proof.
  unfold dir_find. induction fuel as [|fuel IH]; [reflexivity|]. cbn [find_chain].
  assert (find_sectors loop_card (Z.to_nat (sectors_per_cluster volume)) (cluster_lba volume 2) 0 (lit "x") = Ret SMore) as -> by (vm_compute; reflexivity).
  assert (next_cluster loop_card volume 2 = Ret 2) as E by (vm_compute; reflexivity). cbn [Z.eqb]. rewrite bind_Ret, E, bind_Ret. exact IH.
Qed.
