(* ===== verification/Shell.v ===== *)
(** kernel.c: the shell's paths, history, completion and line input (lines
    44-54, 84-153, 599-670 and 1942-2174).

    [input] is what polling the keyboard and the serial line will give: a
    character, or -1 when a poll finds nothing; once it is used up the shell is
    still waiting.  A local buffer starts with the contents given for it, all
    zeros, and what matters of it is written before it is read. *)
From S2P Require Import Prelude Spinlock Allocator Heap CString Blocks Vfs Ring Uart.

(** ** Small string routines *)

Fixpoint to_blank (s : list Z) : outcome (list Z) :=
  match s with
  | [] => Undef
  | c :: s' => if negb (c =? 0) && negb (c =? 32) then to_blank s' else Ret s
  end.
Fixpoint skip_blanks (s : list Z) : outcome (list Z) :=
  match s with
  | [] => Undef
  | c :: s' => if c =? 32 then skip_blanks s' else Ret s
  end.
Definition next_arg (s : list Z) : outcome (list Z) := s ← to_blank s; skip_blanks s.

Definition str_copy_limit (dst src : list Z) (cap : Z) : outcome (list Z) := copy_name dst src cap.

(** [buf + d] from [buf + s], the two pointers being into one buffer. *)
Definition mem_move (buf : list Z) (d s n : Z) : outcome (list Z) :=
  if (n <=? 0) || (d =? s) then Ret buf
  else if d <? s then for_range 0 n (fun i buf => c ← aget buf (s + i); aset buf (d + i) c) buf
  else for_range 0 n (fun k buf => let i := n - 1 - k in c ← aget buf (s + i); aset buf (d + i) c) buf.

(** [while(src[j] && i < n - 1) dst[i++] = src[j++]] *)
Fixpoint copy_run (src dst : list Z) (i n : Z) : outcome (list Z * Z) :=
  match src with
  | [] => Undef
  | c :: src =>
    if negb (c =? 0) && (i <? n - 1) then dst ← aset dst i c; copy_run src dst (i + 1) n
    else Ret (dst, i)
  end.

(** ** Paths *)

Definition build_path (cwd out : list Z) (outlen : Z) (name : list Z) : outcome (list Z) :=
  c ← aget name 0;
  '(out, i) ←
    (if c =? 47 then copy_run name out 0 outlen
     else
       '(out, i) ← copy_run cwd out 0 outlen;
       sep ← (if 0 <? i then last ← aget out (i - 1); Ret (negb (last =? 47) && (i <? outlen - 1)) else Ret false);
       '(out, i) ← (if (sep : bool) then out ← aset out i 47; Ret (out, i + 1) else Ret (out, i));
       copy_run name out i outlen);
  aset out i 0.

(** [while(path[src] == '/') src++] *)
Fixpoint skip_slashes (p : list Z) : outcome (list Z) :=
  match p with
  | [] => Undef
  | c :: p' => if c =? 47 then skip_slashes p' else Ret p
  end.
(** The component at [p] and what follows it. *)
Fixpoint take_name (p : list Z) : outcome (list Z * list Z) :=
  match p with
  | [] => Undef
  | c :: p' =>
    if negb (c =? 0) && negb (c =? 47) then '(w, q) ← take_name p'; Ret (c :: w, q) else Ret ([], p)
  end.

(** [while(dst > 1 && out[dst - 1] != '/') dst--], with [n] = dst. *)
Fixpoint drop_name (n : nat) (out : list Z) : outcome Z :=
  match n with
  | O => Ret 0
  | S n' =>
    if 1 <? Z.of_nat n then
      c ← aget out (Z.of_nat n - 1);
      if negb (c =? 47) then drop_name n' out else Ret (Z.of_nat n)
    else Ret (Z.of_nat n)
  end.

(** [for(i = 0; i < len && dst < limit; i++) out[dst++] = w[i]] *)
Fixpoint put_name (w out : list Z) (dst limit : Z) : outcome (list Z * Z) :=
  match w with
  | [] => Ret (out, dst)
  | c :: w => if dst <? limit then out ← aset out dst c; put_name w out (dst + 1) limit else Ret (out, dst)
  end.

(** Every round consumes a component. *)
Fixpoint normalize_loop (fuel : nat) (p out : list Z) (dst : Z) : outcome (list Z * Z) :=
  match fuel with
  | O => Hang
  | S fuel =>
    c ← aget p 0;
    if c =? 0 then Ret (out, dst)
    else
      p ← skip_slashes p;
      c ← aget p 0;
      if c =? 0 then Ret (out, dst)
      else
        '(w, p) ← take_name p;
        if bool_decide (w = [46]) then normalize_loop fuel p out dst
        else if bool_decide (w = [46; 46]) then
          if 1 <? dst then
            dst ← drop_name (Z.to_nat (dst - 1)) out;
            out ← aset out dst 0;
            normalize_loop fuel p out dst
          else normalize_loop fuel p out dst
        else
          '(out, dst) ← (if (1 <? dst) && (dst <? 127) then out ← aset out dst 47; Ret (out, dst + 1) else Ret (out, dst));
          '(out, dst) ← put_name w out dst 127;
          out ← aset out dst 0;
          normalize_loop fuel p out dst
  end.

Definition normalize_path (path : list Z) : outcome (list Z) :=
  out ← aset (replicate 128 0) 0 47;
  out ← aset out 1 0;
  '(out, dst) ← normalize_loop (S (length path)) path out 1;
  out ← (if dst =? 0 then out ← aset out 0 47; aset out 1 0 else Ret out);
  '(path, dst) ← copy_run out path 0 128;
  aset path dst 0.

(** ** History *)

Definition SHELL_HISTORY_MAX : Z := 16.
Definition SHELL_LINE_MAX : Z := 256.

Record history := mk_history { shell_history : list (list Z); shell_history_count : Z }.

(** [str_copy_limit(shell_history[i], line, SHELL_LINE_MAX)] *)
Definition set_line (l : list (list Z)) (i : Z) (line : list Z) : outcome (list (list Z)) :=
  old ← aget l i;
  new ← str_copy_limit old line SHELL_LINE_MAX;
  aset l i new.

Definition shell_store_history (line : list Z) (h : history) : outcome history :=
  c ← aget line 0;
  if c =? 0 then Ret h
  else
    same ← (if 0 <? shell_history_count h then
              last ← aget (shell_history h) (Z.rem (shell_history_count h - 1) SHELL_HISTORY_MAX);
              r ← str_eq last line; Ret (negb (r =? 0))
            else Ret false);
    if (same : bool) then Ret h
    else if shell_history_count h <? SHELL_HISTORY_MAX then
      l ← set_line (shell_history h) (shell_history_count h) line;
      Ret (mk_history l (shell_history_count h + 1))
    else
      l ← for_range 1 SHELL_HISTORY_MAX (fun i l => next ← aget l i; set_line l (i - 1) next) (shell_history h);
      l ← set_line l (SHELL_HISTORY_MAX - 1) line;
      Ret (mk_history l (shell_history_count h)).

(** ** The line on the screen *)

(** One [\b \b] per character. *)
Fixpoint erase (n : nat) (u : uart) : uart :=
  match n with
  | O => u
  | S n => erase n (uart_putc 8 (uart_putc 32 (uart_putc 8 u)))
  end.

Fixpoint type_run (src dst : list Z) (i maxLen : Z) (u : uart) : outcome (list Z * Z * uart) :=
  match src with
  | [] => Undef
  | c :: src =>
    if negb (c =? 0) && (i <? maxLen - 1) then
      dst ← aset dst i c; type_run src dst (i + 1) maxLen (uart_putc c u)
    else Ret (dst, i, u)
  end.

(** [src] may be [dst] itself, whose characters are then written in place. *)
Definition shell_replace_line (dst : list Z) (maxLen : Z) (src : list Z) (len : Z) (u : uart) : outcome (list Z * Z * uart) :=
  '(dst, i, u) ← type_run src dst 0 maxLen (erase (Z.to_nat len) u);
  dst ← aset dst i 0;
  Ret (dst, i, u).

(** ** Completion *)

Definition shell_prefix_match (text prefix : list Z) : outcome bool :=
  n ← k_strlen prefix; r ← k_strncmp text prefix n; Ret (r =? 0).

(** [str_eq(cmd, kw) || ..] *)
Fixpoint any_eq (cmd : list Z) (kws : list string) : outcome bool :=
  match kws with
  | [] => Ret false
  | kw :: kws => r ← str_eq cmd (lit kw); if negb (r =? 0) then Ret true else any_eq cmd kws
  end.
Definition shell_is_path_command (cmd : list Z) : outcome bool :=
  any_eq cmd ["cd"; "ls"; "cat"; "tcc"; "toycc"; "vi"; "rm"; "exec"; "mkdir"; "mkfile"]%string.

Definition commands : list string :=
  ["help"; "info"; "why"; "clear"; "echo"; "led"; "blink"; "readpin";
   "uptime"; "el"; "panic"; "crashtest"; "ticks"; "irqtest"; "timerdbg";
   "peek"; "poke"; "dump"; "heapinfo"; "malloc"; "free"; "tasks";
   "spawn"; "kill"; "sleep"; "yield"; "uspawn"; "fbtest"; "fbmirror";
   "home"; "home stop"; "locktest"; "semtest"; "mqtest"; "mutextest";
   "pwd"; "cd"; "ls"; "mkdir"; "mkfile"; "write"; "cat"; "tcc";
   "toycc"; "vi"; "rm"; "exec"; "kbinit"; "sdinit"; "sdls"; "sdcat";
   "sdexec"; "mount"; "test_uart"; "test_gpio"; "test_timer";
   "test_alloc"; "test_all"]%string.

(** The last match and how many there are. *)
Fixpoint match_commands (cs : list string) (buffer : list Z) (acc : option string * Z) : outcome (option string * Z) :=
  match cs with
  | [] => Ret acc
  | c :: cs =>
    m ← shell_prefix_match (lit c) buffer;
    match_commands cs buffer (if (m : bool) then (Some c, acc.2 + 1) else acc)
  end.

Definition shell_complete_command (buffer : list Z) (cap len : Z) (u : uart) : outcome (bool * list Z * Z * uart) :=
  let no := Ret (false, buffer, len, u) in
  if (len <=? 0) || (cap <=? len) then no
  else
    '(m, count) ← match_commands commands buffer (None, 0);
    match m with
    | None => no
    | Some m =>
      if negb (count =? 1) then no
      else
        match_len ← k_strlen (lit m);
        if cap <=? match_len + 1 then no
        else
          skip ← (if (match_len =? len) && (0 <? len) then c ← aget buffer (len - 1); Ret (c =? 32) else Ret false);
          if (skip : bool) then no
          else
            '(buffer, i) ← put_name (bytes m) buffer 0 match_len;
            buffer ← aset buffer i 32;
            buffer ← aset buffer (i + 1) 0;
            '(buffer, len, u) ← shell_replace_line buffer cap buffer len u;
            Ret (true, buffer, len, u)
    end.

(** [while(token_start > 0 && buffer[token_start - 1] != ' ') token_start--] *)
Fixpoint token_start (n : nat) (buffer : list Z) : outcome Z :=
  match n with
  | O => Ret 0
  | S n' => c ← aget buffer (Z.of_nat n'); if negb (c =? 32) then token_start n' buffer else Ret (Z.of_nat n)
  end.

(** [for(i = lo; i < hi; i++) a[i - lo] = b[i]] *)
Definition copy_slice (b : list Z) (lo hi : Z) (a : list Z) : outcome (list Z) :=
  for_range lo hi (fun i a => c ← aget b i; aset a (i - lo) c) a.

(** [for(i = lo; i < hi && out < limit; i++) r[out++] = b[i]] *)
Definition append_slice (b : list Z) (lo hi : Z) (r : list Z) (out limit : Z) : outcome (list Z * Z) :=
  for_range lo (Z.min hi (lo + Z.max 0 (limit - out))) (fun i '(r, out) => c ← aget b i; r ← aset r out c; Ret (r, out + 1)) (r, out).

(** At most [n] characters of [buffer] from [i] on, up to a blank. *)
Fixpoint take_word (buffer : list Z) (n : nat) (i : Z) (cmd : list Z) : outcome (list Z * Z) :=
  match n with
  | O => Ret (cmd, i)
  | S n =>
    c ← aget buffer i;
    if c =? 32 then Ret (cmd, i) else cmd ← aset cmd i c; take_word buffer n (i + 1) cmd
  end.

(** The command word in front of the token. *)
Definition is_command_for_paths (buffer : list Z) (start : Z) : outcome bool :=
  if start =? 0 then c ← aget buffer 0; Ret ((c =? 46) || (c =? 47))
  else
    '(cmd, n) ← take_word buffer (Z.to_nat (Z.min (start - 1) 31)) 0 (replicate 32 0);
    cmd ← aset cmd n 0;
    shell_is_path_command cmd.

(** The directory the token names, as a normalised path. *)
Definition completion_base (cwd token : list Z) (slash : Z) : outcome (list Z) :=
  let fresh := replicate 128 0 in
  if 0 <=? slash then
    dir_part ← copy_slice token 0 slash fresh;
    dir_part ← aset dir_part slash 0;
    c ← aget token 0;
    if (c =? 47) && (slash =? 0) then base ← aset fresh 0 47; aset base 1 0
    else base ← build_path cwd fresh 128 dir_part; normalize_path base
  else base ← build_path cwd fresh 128 (lit "."); normalize_path base.

Section Complete.
Context {H : Type} `{Allocator H}.
Implicit Types (v : vfs H).

(** The children of [dir] that [prefix] fits: the last one's inode and name,
    and their number. *)
Definition match_children v (dir : Z) (prefix : list Z) : outcome (Z * list Z * Z) :=
  for_range 0 VFS_MAX_INODES (fun i '(inode, name, count) =>
    used ← vfs_inode_used i v;
    parent ← vfs_inode_parent i v;
    if negb used || negb (parent =? dir) then Ret (inode, name, count)
    else
      nm ← vfs_inode_name i v;
      m ← shell_prefix_match nm prefix;
      if negb m then Ret (inode, name, count)
      else name ← str_copy_limit name nm 32; Ret (i, name, count + 1)) (-1, replicate 32 0, 0).

Definition shell_complete_path v (cwd buffer : list Z) (cap len : Z) (u : uart) : outcome (bool * list Z * Z * uart) :=
  let no := Ret (false, buffer, len, u) in
  start ← token_start (Z.to_nat len) buffer;
  go ← is_command_for_paths buffer start;
  if negb go then no
  else
    let token_len := len - start in
    if (token_len <? 0) || (128 <=? token_len) then no
    else
      token ← copy_slice buffer start len (replicate 128 0);
      token ← aset token token_len 0;
      slash ← last_slash token token_len;
      base ← completion_base cwd token slash;
      dir ← vfs_resolve base v;
      ty ← (if dir <? 0 then Ret (-1) else vfs_inode_type dir v);
      if (dir <? 0) || negb (ty =? VFS_DIR) then no
      else
        prefix ← (if 0 <=? slash then ptr_add token (slash + 1) else Ret token);
        '(inode, name, count) ← match_children v dir prefix;
        if negb (count =? 1) || (inode <? 0) then no
        else
          '(r, out) ← append_slice buffer 0 start (replicate 128 0) 0 127;
          '(r, out) ← (if 0 <=? slash then append_slice token 0 (slash + 1) r out 127 else Ret (r, out));
          '(r, out) ← copy_run name r out 127;
          ty ← vfs_inode_type inode v;
          r ← aset r out (if ty =? VFS_DIR then 47 else 32);
          r ← aset r (out + 1) 0;
          if cap <=? out + 1 then no
          else
            '(buffer, len, u) ← shell_replace_line buffer cap r len u;
            Ret (true, buffer, len, u).

Definition shell_autocomplete v (cwd buffer : list Z) (cap len : Z) (u : uart) : outcome (list Z * Z * uart) :=
  '(done, buffer, len, u) ← shell_complete_path v cwd buffer cap len u;
  if (done : bool) then Ret (buffer, len, u)
  else '(_, buffer, len, u) ← shell_complete_command buffer cap len u; Ret (buffer, len, u).
End Complete.

(** ** Keys *)

Record keys := mk_keys { unget : Z; input : list Z }.

(** [shell_try_getc]: -1 when nothing is there; [None] past the end of the input. *)
Definition shell_try_getc (k : keys) : option (Z * keys) :=
  if 0 <=? unget k then Some (unget k, mk_keys (-1) (input k))
  else match input k with [] => None | c :: i => Some (c, mk_keys (-1) i) end.
Definition shell_ungetc (c : Z) (k : keys) : keys := mk_keys (u8 c) (input k).

(** [shell_getc]: polls until something is there. *)
Fixpoint wait_key (i : list Z) : option (Z * keys) :=
  match i with
  | [] => None
  | c :: i => if 0 <=? c then Some (c, mk_keys (-1) i) else wait_key i
  end.
Definition shell_getc (k : keys) : option (Z * keys) :=
  if 0 <=? unget k then Some (unget k, mk_keys (-1) (input k)) else wait_key (input k).

Definition VI_KEY_UP : Z := 1001.
Definition VI_KEY_DOWN : Z := 1002.
Definition VI_KEY_LEFT : Z := 1003.
Definition VI_KEY_RIGHT : Z := 1004.

Definition vi_read_key (k : keys) : option (Z * keys) :=
  '(c, k) ← shell_getc k;
  if negb (c =? 27) then Some (c, k)
  else
    '(c1, k) ← shell_try_getc k;
    if c1 <? 0 then Some (27, k)
    else if negb (c1 =? 91) then Some (27, shell_ungetc c1 k)
    else
      '(c2, k) ← shell_getc k;
      Some ((if c2 =? 65 then VI_KEY_UP else if c2 =? 66 then VI_KEY_DOWN
             else if c2 =? 67 then VI_KEY_RIGHT else if c2 =? 68 then VI_KEY_LEFT else 27), k).

(** ** Reading a command line *)

Section Line.
Context {H : Type} `{Allocator H}.
Implicit Types (v : vfs H).

(** One round of [query_terminal] up to the end of the line; each key read uses
    up an element of the input or the character put back. *)
Fixpoint line_loop (fuel : nat) v (cwd buffer : list Z) (maxLen i hidx : Z) (h : history) (k : keys) (u : uart)
  : outcome (option (list Z * Z * keys * uart)) :=
  match fuel with
  | O => Hang
  | S fuel =>
    if i <? maxLen - 1 then
      match vi_read_key k with
      | None => Ret None
      | Some (c, k) =>
        if (c =? 13) || (c =? 10) then Ret (Some (buffer, i, k, u))
        else if c =? VI_KEY_UP then
          if (0 <? shell_history_count h) && (0 <? hidx) then
            line ← aget (shell_history h) (hidx - 1);
            '(buffer, i, u) ← shell_replace_line buffer maxLen line i u;
            line_loop fuel v cwd buffer maxLen i (hidx - 1) h k u
          else line_loop fuel v cwd buffer maxLen i hidx h k u
        else if c =? VI_KEY_DOWN then
          if hidx <? shell_history_count h - 1 then
            line ← aget (shell_history h) (hidx + 1);
            '(buffer, i, u) ← shell_replace_line buffer maxLen line i u;
            line_loop fuel v cwd buffer maxLen i (hidx + 1) h k u
          else if hidx =? shell_history_count h - 1 then
            '(buffer, i, u) ← shell_replace_line buffer maxLen (lit "") i u;
            line_loop fuel v cwd buffer maxLen i (shell_history_count h) h k u
          else line_loop fuel v cwd buffer maxLen i hidx h k u
        else if (c =? 8) || (c =? 127) then
          if 0 <? i then line_loop fuel v cwd buffer maxLen (i - 1) hidx h k (erase 1 u)
          else line_loop fuel v cwd buffer maxLen i hidx h k u
        else if c =? 9 then
          buffer ← aset buffer i 0;
          '(buffer, i, u) ← shell_autocomplete v cwd buffer maxLen i u;
          line_loop fuel v cwd buffer maxLen i (shell_history_count h) h k u
        else if (c <? 32) || (126 <? c) then line_loop fuel v cwd buffer maxLen i hidx h k u
        else
          buffer ← aset buffer i c;
          line_loop fuel v cwd buffer maxLen (i + 1) hidx h k (uart_putc c u)
      end
    else Ret (Some (buffer, i, k, u))
  end.

(** One round of [query_terminal]: the prompt, the line and the history; what
    check_keywords then does with the line is not part of it. *)
Definition query_round v (cwd buffer : list Z) (maxLen : Z) (h : history) (k : keys) (u : uart)
  : outcome (option (list Z * history * keys * uart)) :=
  u ← uart_puts (lit ">") u;
  r ← line_loop (S (S (2 * length (input k)))) v cwd buffer maxLen 0 (shell_history_count h) h k u;
  match r with
  | None => Ret None
  | Some (buffer, i, k, u) =>
    buffer ← aset buffer i 0;
    u ← uart_puts (lit (String (Ascii.ascii_of_nat 10) "")) u;
    h ← shell_store_history buffer h;
    Ret (Some (buffer, h, k, u))
  end.
End Line.

(** ** The path buffers *)

Lemma copy_run_ok s out i n : terminated s -> 0 <= i <= n - 1 -> n <= zlen out ->
  exists out' i', copy_run s out i n = Ret (out', i') /\ length out' = length out /\ i <= i' <= n - 1.
Proof.
  intros Hs. revert s Hs out i. refine (terminated_ind _ _ _); [intros s|intros c s Hc _ IH]; intros out i Hi Hn; cbn [copy_run].
  - exists out, i. split; [done|]. split; [done|lia].
  - destruct (Z.eqb_spec c 0); [done|]. destruct (Z.ltb_spec i (n - 1)); cbn [negb andb].
    + rewrite aset_ok, bind_Ret by lia. destruct (IH (<[Z.to_nat i := c]> out) (i + 1)) as (out' & i' & -> & Hl & Hi'); [lia|rewrite length_insert; lia|].
      exists out', i'. rewrite length_insert in Hl. split; [done|]. split; [done|lia].
    + exists out, i. split; [done|]. split; [done|lia].
Qed.

(** Ending a buffer. *)
Lemma terminate_ok out i : 0 <= i < zlen out -> exists out', aset out i 0 = Ret out' /\ length out' = length out /\ terminated out'.
Proof.
  intros Hi. rewrite aset_ok by done. eexists. split; [done|]. split; [by rewrite length_insert|].
  apply list_elem_of_lookup. exists (Z.to_nat i). apply list_lookup_insert_eq. lia.
Qed.

Lemma build_path_ok cwd out n name : terminated cwd -> terminated name -> 0 < n <= zlen out ->
  exists out', build_path cwd out n name = Ret out' /\ length out' = length out /\ terminated out'.
Proof.
  intros Hc Hn Ho. unfold build_path. destruct (aget_ok name 0) as [c ->]; [destruct name; [by apply elem_of_nil in Hn|simpl; lia]|]. rewrite bind_Ret.
  assert (exists out' i', (if c =? 47 then copy_run name out 0 n
     else '(out, i) ← copy_run cwd out 0 n;
          sep ← (if 0 <? i then last ← aget out (i - 1); Ret (negb (last =? 47) && (i <? n - 1)) else Ret false);
          '(out, i) ← (if (sep : bool) then out ← aset out i 47; Ret (out, i + 1) else Ret (out, i));
          copy_run name out i n) = Ret (out', i') /\ length out' = length out /\ 0 <= i' <= n - 1) as (out' & i' & -> & Hl & Hi).
  { destruct (c =? 47); [apply copy_run_ok; [done|lia|lia]|].
    destruct (copy_run_ok cwd out 0 n Hc) as (o1 & i1 & -> & Hl1 & Hi1); [lia|lia|]. rewrite bind_Ret. cbv iota beta.
    assert (exists sep : bool, (if 0 <? i1 then last ← aget o1 (i1 - 1); Ret (negb (last =? 47) && (i1 <? n - 1)) else Ret false) = Ret sep /\ (sep = true -> i1 < n - 1)) as (sep & -> & Hsep).
    { destruct (Z.ltb_spec 0 i1); [|by exists false]. destruct (aget_ok o1 (i1 - 1)) as [x ->]; [lia|]. rewrite bind_Ret. eexists. split; [done|]. intros [_ ?%Z.ltb_lt]%andb_true_iff. lia. }
    rewrite bind_Ret. destruct sep.
    - rewrite aset_ok, bind_Ret by lia. rewrite bind_Ret. cbv iota beta.
      destruct (copy_run_ok name (<[Z.to_nat i1 := 47]> o1) (i1 + 1) n Hn) as (o2 & i2 & -> & Hl2 & Hi2); [specialize (Hsep eq_refl); lia|rewrite length_insert; lia|].
      exists o2, i2. rewrite length_insert in Hl2. split; [done|]. split; [congruence|lia].
    - rewrite bind_Ret. cbv iota beta. destruct (copy_run_ok name o1 i1 n Hn) as (o2 & i2 & -> & Hl2 & Hi2); [lia|lia|]. exists o2, i2. split; [done|]. split; [congruence|lia]. }
  rewrite bind_Ret. cbv iota beta. destruct (terminate_ok out' i') as (o & -> & Hlo & Ht); [lia|]. exists o. split; [done|]. split; [congruence|done].
Qed.

Lemma copy_run_text s pre rest n : terminated s -> zlen pre <= n - 1 -> n <= zlen pre + zlen rest ->
  let w := take (Z.to_nat (n - 1 - zlen pre)) (cstr s) in
  copy_run s (pre ++ rest) (zlen pre) n = Ret (pre ++ w ++ drop (length w) rest, zlen pre + zlen w).
Proof.
  intros Hs. revert s Hs pre rest. refine (terminated_ind _ _ _); [intros s|intros c s Hc _ IH]; intros pre rest Hp Hn; cbn [copy_run cstr].
  - cbn. rewrite take_nil. cbn. by rewrite Z.add_0_r.
  - destruct (Z.eqb_spec c 0); [done|]. destruct (Z.ltb_spec (zlen pre) (n - 1)); cbn [negb andb].
    + destruct rest as [|x rest]; [simpl in Hn; lia|]. rewrite aset_app, bind_Ret by done. cbn [length] in Hn.
      assert (zlen (pre ++ [c]) = zlen pre + 1) as Hz by (rewrite length_app; simpl; lia). specialize (IH (pre ++ [c]) rest). rewrite Hz in IH.
      cbv zeta in IH |- *. rewrite IH by lia. replace (Z.to_nat (n - 1 - zlen pre)) with (S (Z.to_nat (n - 1 - (zlen pre + 1)))) by lia.
      cbn [take length drop]. rewrite <- app_assoc. cbn [app]. do 2 f_equal. lia.
    + replace (Z.to_nat (n - 1 - zlen pre)) with O by lia. cbn. by rewrite Z.add_0_r.
Qed.

(** The separator behind the working directory. *)
Definition sep_of (w : list Z) : list Z := if bool_decide (w = [] \/ last w = Some 47) then [] else [47].

(** The path a name means: from the working directory unless it starts with a
    slash, and as much of it as fits. *)
Definition path_text (wd name : list Z) : list Z :=
  if bool_decide (head name = Some 47) then name
  else wd ++ sep_of wd ++ name.

Lemma path_text_nonzero wd name : Forall (fun c => c <> 0) wd -> Forall (fun c => c <> 0) name -> Forall (fun c => c <> 0) (path_text wd name).
Proof.
  intros Hw Hn. unfold path_text. case_bool_decide; [done|]. apply Forall_app. split; [done|]. apply Forall_app. split; [|done].
  unfold sep_of. case_bool_decide; [constructor|]. by constructor.
Qed.

Lemma terminate_text w q out : Forall (fun c => c <> 0) w -> aset (w ++ q) (zlen w) 0 = Ret out -> cstr out = w.
Proof.
  intros Hw Ea. destruct q as [|x q].
  - rewrite app_nil_r in Ea. rewrite aset_out in Ea by lia. done.
  - rewrite aset_app in Ea by done. injection Ea as <-. rewrite <- app_assoc. by apply cstr_app.
Qed.

Lemma put_sep w q n : zlen w <= n - 1 -> n <= zlen w + zlen q ->
  exists s sep q', (if 0 <? zlen w then last ← aget (w ++ q) (zlen w - 1); Ret (negb (last =? 47) && (zlen w <? n - 1)) else Ret false) = Ret s
    /\ (if (s : bool) then out0 ← aset (w ++ q) (zlen w) 47; Ret (out0, zlen w + 1) else Ret (w ++ q, zlen w)) = Ret ((w ++ sep) ++ q', zlen (w ++ sep))
    /\ zlen (w ++ sep) + zlen q' = zlen w + zlen q /\ sep = if zlen w <? n - 1 then sep_of w else [].
Proof.
  intros Hw Hq. assert (exists s, (if 0 <? zlen w then last ← aget (w ++ q) (zlen w - 1); Ret (negb (last =? 47) && (zlen w <? n - 1)) else Ret false) = Ret s
    /\ s = negb (bool_decide (w = [] \/ last w = Some 47)) && (zlen w <? n - 1)) as (s & Es & Hs).
  { destruct (Z.ltb_spec 0 (zlen w)) as [Hlt|Hge].
    - assert (w <> []) as Hne by by intros ->. destruct (exists_last Hne) as (w0 & x & Ew). rewrite Ew, <- app_assoc.
      replace (zlen (w0 ++ [x]) - 1) with (zlen w0) by (rewrite length_app; simpl; lia). cbn [app]. rewrite aget_app, bind_Ret by done.
      eexists. split; [done|]. f_equal. f_equal. rewrite last_snoc. destruct (Z.eqb_spec x 47) as [->|Hx].
      + rewrite bool_decide_true; [done|by right].
      + rewrite bool_decide_false; [done|]. intros [Hnil|[=]]; [by destruct w0|done].
    - exists false. split; [done|]. rewrite bool_decide_true; [done|]. left. apply nil_length_inv. lia. }
  exists s. unfold sep_of. destruct (Z.ltb_spec (zlen w) (n - 1)) as [Hlt|Hge].
  - rewrite andb_true_r in Hs. destruct (bool_decide _); subst s; cbn [negb] in *.
    + exists [], q. rewrite app_nil_r. done.
    + destruct q as [|x q]; [simpl in Hq; lia|]. exists [47], q. rewrite aset_app, bind_Ret by done. rewrite !length_app. cbn [length].
      split; [done|]. split; [do 2 f_equal; lia|]. split; [lia|done].
  - rewrite andb_false_r in Hs. subst s. exists [], q. rewrite app_nil_r. done.
Qed.

Lemma cut_path_text (a b : list Z) (N : nat) :
  let w := take N a in
  let sep := if zlen w <? Z.of_nat N then sep_of w else [] in
  w ++ sep ++ take (N - length (w ++ sep)) b = take N (a ++ sep_of a ++ b).
Proof.
  cbv zeta. destruct (decide (length a < N)%nat) as [Hlt|Hge].
  - rewrite (take_ge a) by lia. destruct (Z.ltb_spec (zlen a) (Z.of_nat N)); [|lia].
    rewrite (firstn_app N a), (take_ge a) by lia. f_equal. assert (length (sep_of a) <= 1)%nat as Hs by (unfold sep_of; case_bool_decide; simpl; lia).
    rewrite firstn_app, (take_ge (sep_of a)) by lia. rewrite length_app. do 2 f_equal. lia.
  - assert (length (take N a) = N) as Hl by (rewrite length_take; lia). rewrite Hl.
    destruct (Z.ltb_spec (Z.of_nat N) (Z.of_nat N)); [lia|]. cbn [app]. rewrite app_nil_r, Hl, Nat.sub_diag. cbn [take]. by rewrite take_app_le, app_nil_r by lia.
Qed.

Lemma build_path_text wd out n name : terminated wd -> terminated name -> 0 < n <= zlen out ->
  exists out', build_path wd out n name = Ret out' /\ length out' = length out /\ terminated out'
    /\ cstr out' = take (Z.to_nat (n - 1)) (path_text (cstr wd) (cstr name)).
Proof.
  intros Hc Hn Ho. destruct (build_path_ok wd out n name Hc Hn Ho) as (out' & E & Hl & Ht). exists out'. split; [done|]. split; [done|]. split; [done|].
  destruct name as [|c0 name]; [by apply elem_of_nil in Hn|]. unfold build_path in E. change (aget (c0 :: name) 0) with (Ret c0) in E. rewrite bind_Ret in E.
  assert (bool_decide (head (cstr (c0 :: name)) = Some 47) = (c0 =? 47)) as Hh.
  { cbn [cstr]. destruct (Z.eqb_spec c0 0) as [->|]; [done|]. cbn [head]. destruct (Z.eqb_spec c0 47) as [->|]; [by rewrite bool_decide_true|]. rewrite bool_decide_false; [done|]. by intros [=]. }
  unfold path_text. rewrite Hh. destruct (c0 =? 47) eqn:E0.
  - rewrite (copy_run_text _ [] out) in E by (done || simpl; lia). cbn [app length] in E. rewrite Z.sub_0_r, bind_Ret in E. cbv beta iota in E.
    refine (terminate_text _ _ _ _ E). apply Forall_take, cstr_nonzero.
  - rewrite (copy_run_text wd [] out) in E by (done || simpl; lia). cbn [app length] in E. rewrite Z.sub_0_r, bind_Ret in E. cbv beta iota in E.
    set (w1 := take (Z.to_nat (n - 1)) (cstr wd)) in E. change (Z.of_nat 0 + zlen w1) with (zlen w1) in E.
    assert (zlen w1 <= n - 1) as Hl1 by (unfold w1; rewrite length_take; lia).
    destruct (put_sep w1 (drop (length w1) out) n) as (s & sep & q & Es & Ea & Hlq & Hsep); [done|rewrite length_drop; lia|].
    rewrite length_drop in Hlq. rewrite Es, bind_Ret, Ea, bind_Ret in E. cbv beta iota in E.
    assert (zlen (w1 ++ sep) <= n - 1) as Hl3.
    { clear Hh. rewrite length_app, Hsep. unfold sep_of. destruct (Z.ltb_spec (zlen w1) (n - 1)); [case_bool_decide|]; cbn [length]; lia. }
    rewrite copy_run_text in E by (done || lia). rewrite bind_Ret in E. cbv beta iota in E.
    set (w2 := take _ (cstr (c0 :: name))) in E. rewrite app_assoc in E. replace (zlen (w1 ++ sep) + zlen w2) with (zlen ((w1 ++ sep) ++ w2)) in E by (rewrite (length_app _ w2); lia).
    assert (Forall (fun c => c <> 0) ((w1 ++ sep) ++ w2)) as Hnz.
    { apply Forall_app. split; [|apply Forall_take, cstr_nonzero]. apply Forall_app. split; [apply Forall_take, cstr_nonzero|].
      rewrite Hsep. clear. unfold sep_of. destruct (zlen w1 <? n - 1); [case_bool_decide|]; by repeat constructor. }
    rewrite (terminate_text _ _ _ Hnz E).
    rewrite <- app_assoc. rewrite <- cut_path_text. rewrite Z2Nat.id by lia. fold w1. rewrite <- Hsep. do 3 f_equal. lia.
Qed.

(** ** Normalised paths *)

(** What the components of a path mean. *)
Fixpoint norm (st cs : list (list Z)) : list (list Z) :=
  match cs with
  | [] => st
  | c :: cs =>
    if bool_decide (c = [46]) then norm st cs
    else if bool_decide (c = [46; 46]) then norm (take (length st - 1) st) cs
    else norm (st ++ [c]) cs
  end.

(** One round on the component [w]. *)
Definition norm_step (w out : list Z) (dst : Z) : outcome (list Z * Z) :=
  if bool_decide (w = [46]) then Ret (out, dst)
  else if bool_decide (w = [46; 46]) then
    if 1 <? dst then dst ← drop_name (Z.to_nat (dst - 1)) out; out ← aset out dst 0; Ret (out, dst)
    else Ret (out, dst)
  else
    '(out, dst) ← (if (1 <? dst) && (dst <? 127) then out ← aset out dst 47; Ret (out, dst + 1) else Ret (out, dst));
    '(out, dst) ← put_name w out dst 127;
    out ← aset out dst 0;
    Ret (out, dst).

Definition name_ok (w : list Z) : Prop := noslash w /\ w <> [] /\ Forall (fun c => c <> 0) w.

(** The rest of a path after a component starts with a slash or is empty. *)
Definition at_slash (p : list Z) : Prop := exists c q, p = c :: q /\ (c = 47 \/ c = 0).

Lemma skip_slashes_ok p : terminated p -> exists q, skip_slashes p = Ret q /\ terminated q /\ comps (cstr q) = comps (cstr p)
  /\ (exists c r, q = c :: r /\ c <> 47) /\ (length q <= length p)%nat
  /\ zlen (cstr q) <= zlen (cstr p) /\ (at_slash p -> cstr q = [] \/ zlen (cstr q) < zlen (cstr p)).
Proof.
  intros Hp. revert p Hp. refine (terminated_ind _ _ _); [intros s|intros c s Hc Ht IH]; cbn [skip_slashes].
  - exists (0 :: s). split; [done|]. split; [by left|]. split; [done|]. split; [by exists 0, s|]. split; [done|]. split; [done|]. intros _. by left.
  - destruct (Z.eqb_spec c 47) as [->|Hn].
    + destruct IH as (q & -> & Hq & Ec & Hh & Hl & Hz & _). exists q. split; [done|]. split; [done|]. cbn [cstr Z.eqb Pos.eqb].
      split; [rewrite Ec; symmetry; by apply (comps_app []); apply not_elem_of_nil|]. split; [done|]. cbn [length]. split; [lia|]. split; [lia|]. intros _. right. lia.
    + exists (c :: s). split; [done|]. split; [by right|]. split; [done|]. split; [by exists c, s|]. split; [done|]. split; [lia|].
      intros (c' & q & [= <- <-] & [->| ->]); [done|by left].
Qed.

Lemma take_name_ok p : terminated p -> exists w q, take_name p = Ret (w, q) /\ noslash w /\ Forall (fun c => c <> 0) w /\ terminated q /\ at_slash q
  /\ cstr p = w ++ cstr q /\ length p = (length w + length q)%nat /\ ((exists c r, p = c :: r /\ c <> 0 /\ c <> 47) -> w <> []).
Proof.
  intros Hp. revert p Hp. refine (terminated_ind _ _ _); [intros s|intros c s Hc Ht IH]; cbn [take_name].
  - exists [], (0 :: s). split; [done|]. split; [by apply not_elem_of_nil|]. split; [done|]. split; [by left|]. split; [by exists 0, s; split; [|right]|].
    split; [done|]. split; [done|]. intros (c & r & [= <- <-] & ? & ?). done.
  - destruct (Z.eqb_spec c 0); [done|]. destruct (Z.eqb_spec c 47) as [->|Hn]; cbn [negb andb].
    + exists [], (47 :: s). split; [done|]. split; [by apply not_elem_of_nil|]. split; [done|]. split; [by right|]. split; [by exists 47, s; split; [|left]|].
      split; [done|]. split; [done|]. intros (c & r & [= <- <-] & ? & ?). done.
    + destruct IH as (w & q & -> & Hw & Hnz & Hq & Hs & Ec & El & _). rewrite bind_Ret. exists (c :: w), q. split; [done|].
      split; [by apply not_elem_of_cons|]. split; [by constructor|]. split; [done|]. split; [done|]. cbn [cstr length]. destruct (Z.eqb_spec c 0); [done|].
      split; [by rewrite Ec|]. split; [lia|done].
Qed.

(** One round: the end of the path, or a component, one round on it and the rest. *)
Lemma normalize_round p : terminated p ->
  match comps (cstr p) with
  | [] => forall fuel out dst, normalize_loop (S fuel) p out dst = Ret (out, dst)
  | w :: cs => name_ok w /\ exists p', comps (cstr p') = cs /\ terminated p' /\ at_slash p' /\ (length p' < length p)%nat
      /\ zlen (cstr p') + zlen w <= zlen (cstr p) /\ (at_slash p -> zlen (cstr p') + zlen w < zlen (cstr p))
      /\ forall fuel out dst, normalize_loop (S fuel) p out dst = ('(out, dst) ← norm_step w out dst; normalize_loop fuel p' out dst)
  end.
Proof.
  intros Hp. destruct (skip_slashes_ok p Hp) as (q & Eq & Hq & Ec & (c & r & Er & Hc) & Hl & Hz & Hs). rewrite <- Ec.
  destruct p as [|c0 p0]; [by apply elem_of_nil in Hp|].
  assert (forall fuel out dst, normalize_loop (S fuel) (c0 :: p0) out dst =
    if c0 =? 0 then Ret (out, dst) else if c =? 0 then Ret (out, dst) else
    '(w, p) ← take_name q; '(out, dst) ← norm_step w out dst; normalize_loop fuel p out dst) as Hloop.
  { intros fuel out dst. cbn [normalize_loop]. assert (aget (c0 :: p0) 0 = Ret c0) as -> by done. rewrite bind_Ret.
    destruct (c0 =? 0); [done|]. rewrite Eq, bind_Ret. rewrite Er at 1. assert (aget (c :: r) 0 = Ret c) as -> by done. rewrite bind_Ret.
    destruct (c =? 0); [done|]. destruct (take_name q) as [[w p]| | |]; [|done..]. rewrite !bind_Ret. cbv iota beta. unfold norm_step.
    case_bool_decide; [done|]. case_bool_decide.
    - destruct (1 <? dst); [|done]. destruct (drop_name _ _); [|done..]. rewrite !bind_Ret. by destruct (aset _ _ _).
    - destruct (if (1 <? dst) && (dst <? 127) then _ else _) as [[o d]| | |]; [|done..]. rewrite !bind_Ret. cbv iota beta.
      destruct (put_name w o d 127) as [[o' d']| | |]; [|done..]. rewrite !bind_Ret. cbv iota beta. by destruct (aset _ _ _). }
  destruct (Z.eqb_spec c 0) as [->|Hc0].
  - assert (comps (cstr q) = []) as -> by (by rewrite Er). intros fuel out dst. rewrite Hloop. by destruct (c0 =? 0).
  - destruct (take_name_ok q Hq) as (w & p' & Et & Hw & Hnz & Hp' & Hsl & Ecw & Elw & Hne). specialize (Hne (ex_intro _ c (ex_intro _ r (conj Er (conj Hc0 Hc))))).
    assert (comps (cstr q) = w :: comps (cstr p')) as ->.
    { rewrite Ecw. destruct Hsl as (d & p2 & -> & [->| ->]); cbn [cstr Z.eqb Pos.eqb].
      - rewrite comps_app by done. by rewrite decide_False by done.
      - rewrite app_nil_r. by rewrite comps_word. }
    split; [done|]. exists p'. assert (zlen (cstr q) = zlen w + zlen (cstr p')) as Hzq by (rewrite Ecw, length_app; lia).
    assert (0 < length w)%nat by (destruct w; [done|simpl; lia]).
    split; [done|]. split; [done|]. split; [done|]. split; [lia|]. split; [lia|]. split.
    + intros Ha. destruct (Hs Ha) as [E0|]; [rewrite E0 in Hzq; simpl in Hzq; lia|lia].
    + intros fuel out dst. rewrite Hloop, Et. rewrite bind_Ret. cbv iota beta. destruct (Z.eqb_spec c0 0) as [->|]; [|done].
      cbn [cstr Z.eqb] in Hz. simpl in Hz. lia.
Qed.

(** [out] holds the text [o], which ends at [dst]. *)
Definition holds (out : list Z) (dst : Z) (o : list Z) : Prop :=
  length out = 128%nat /\ dst = zlen o /\ zlen o <= 127 /\ (exists t, o = 47 :: t) /\ Forall (fun c => c <> 0) o /\ exists r, out = o ++ 0 :: r.

Lemma put_name_spec w pre rest limit : zlen pre <= limit -> limit <= zlen pre + zlen rest ->
  exists k, (k <= length w)%nat /\ zlen pre + Z.of_nat k <= limit /\ (zlen pre + zlen w <= limit -> k = length w)
    /\ put_name w (pre ++ rest) (zlen pre) limit = Ret (pre ++ take k w ++ drop k rest, zlen pre + Z.of_nat k).
Proof.
  revert pre rest. induction w as [|c w IH]; intros pre rest Hp Hr; cbn [put_name].
  - exists 0%nat. split; [done|]. split; [lia|]. split; [done|]. by rewrite Z.add_0_r.
  - destruct (Z.ltb_spec (zlen pre) limit) as [Hlt|Hge].
    + destruct rest as [|x rest]; [simpl in Hr; lia|]. rewrite aset_app, bind_Ret by done.
      assert (zlen (pre ++ [c]) = zlen pre + 1) as Hz by (rewrite length_app; simpl; lia). rewrite <- Hz. cbn [length] in Hr.
      destruct (IH (pre ++ [c]) rest) as (k & Hk & Hb & Hf & ->); [lia|lia|]. exists (S k). cbn [length]. split; [lia|]. split; [lia|]. split; [intros; rewrite Hf; lia|].
      cbn [take drop]. rewrite <- app_assoc. do 2 f_equal. lia.
    + exists 0%nat. split; [lia|]. split; [lia|]. split; [simpl; lia|]. by rewrite Z.add_0_r.
Qed.

Lemma holds_put out dst o w : holds out dst o -> name_ok w ->
  exists out' k, (k <= length w)%nat /\ (zlen o + zlen w <= 127 -> k = length w)
    /\ ('(out, dst) ← put_name w out dst 127; out ← aset out dst 0; Ret (out, dst)) = Ret (out', zlen o + Z.of_nat k)
    /\ holds out' (zlen o + Z.of_nat k) (o ++ take k w).
Proof.
  intros (Hl & -> & Hb & (t & Et) & Hnz & r & ->) (_ & _ & Hwz).
  rewrite length_app in Hl. cbn [length] in Hl.
  destruct (put_name_spec w o (0 :: r) 127) as (k & Hk & Hb' & Hf & ->); [lia|cbn [length]; lia|]. rewrite bind_Ret. cbv iota beta.
  destruct (drop k (0 :: r)) as [|x q] eqn:Eq.
  { apply (f_equal length) in Eq. rewrite length_drop in Eq. cbn [length] in Eq. lia. }
  apply (f_equal length) in Eq. rewrite length_drop in Eq. cbn [length] in Eq.
  rewrite app_assoc, aset_app, bind_Ret by (rewrite length_app, length_take; lia).
  eexists _, k. split; [done|]. split; [done|]. split; [done|]. unfold holds. rewrite !length_app, length_take. cbn [length].
  split; [lia|]. split; [lia|]. split; [lia|]. split; [exists (t ++ take k w); by rewrite Et|]. split; [apply Forall_app; split; [done|by apply Forall_take]|].
  exists q. by rewrite <- (app_assoc _ [0]).
Qed.

Lemma holds_slash out dst o : holds out dst o -> zlen o < 127 ->
  exists out', aset out dst 47 = Ret out' /\ (exists r, length out' = 128%nat /\ out' = (o ++ [47]) ++ r /\ (1 <= length r)%nat).
Proof.
  intros (Hl & -> & Hb & _ & _ & r & ->) Hlt. rewrite aset_app by done. rewrite length_app in Hl. cbn [length] in Hl.
  eexists. split; [done|]. exists r. split; [rewrite !length_app; simpl; lia|]. split; [done|lia].
Qed.

(** A name is appended, after a slash unless only the root is there. *)
Lemma step_push out dst o w : holds out dst o -> name_ok w -> w <> [46] -> w <> [46; 46] ->
  exists out' dst' o', norm_step w out dst = Ret (out', dst') /\ holds out' dst' o'
    /\ ((if decide (zlen o = 1) then zlen o else zlen o + 1) + zlen w <= 127 -> o' = (if decide (zlen o = 1) then o ++ w else o ++ 47 :: w)).
Proof.
  intros Ho Hw H1 H2. unfold norm_step. rewrite !bool_decide_false by done. pose proof Ho as (Hl & Hd & Hb & (t & Et) & Hnz & r & Er).
  destruct (Z.ltb_spec 1 dst) as [Hgt|Hle]; [destruct (Z.ltb_spec dst 127) as [Hlt|Hge]|]; cbn [andb].
  - destruct (holds_slash out dst o Ho) as (out1 & E & r1 & Hl1 & -> & Hr1); [lia|]. rewrite E, bind_Ret. cbv iota beta.
    destruct (put_name_spec w (o ++ [47]) r1 127) as (k & Hk & Hb' & Hf & Ep); rewrite ?length_app; cbn [length]; [lia|rewrite length_app in Hl1; rewrite length_app in Hl1; simpl in Hl1; lia|].
    replace (dst + 1) with (zlen (o ++ [47])) by (rewrite length_app; simpl; lia). rewrite bind_Ret. cbv iota beta. rewrite Ep, bind_Ret. cbv iota beta.
    assert (length (o ++ [47]) = (length o + 1)%nat) as Hlo by (rewrite length_app; done).
    rewrite length_app, Hlo in Hl1. rewrite ?length_app in Hb', Hf. cbn [length] in Hb', Hf.
    destruct (drop k r1) as [|x q] eqn:Eq.
    { apply (f_equal length) in Eq. rewrite length_drop in Eq. cbn [length] in Eq. lia. }
    apply (f_equal length) in Eq. rewrite length_drop in Eq. cbn [length] in Eq.
    rewrite app_assoc, aset_app, bind_Ret by (rewrite !length_app, length_take; simpl; lia). destruct Hw as (_ & _ & Hwz).
    eexists _, _, ((o ++ [47]) ++ take k w). split; [done|]. split.
    + unfold holds. rewrite !length_app, length_take. cbn [length]. split; [lia|]. split; [lia|]. split; [lia|].
      split; [exists ((t ++ [47]) ++ take k w); by rewrite Et|]. split; [|exists q; by rewrite <- (app_assoc _ [0])].
      apply Forall_app. split; [apply Forall_app; split; [done|by constructor]|by apply Forall_take].
    + rewrite decide_False by lia. intros Hroom. rewrite (decide_False) by lia. rewrite Hf, firstn_all by lia. by rewrite <- app_assoc.
  - rewrite bind_Ret. cbv iota beta. destruct (holds_put out dst o w Ho Hw) as (out' & k & Hk & Hf & E & Ho'). rewrite E.
    eexists _, _, _. split; [done|]. split; [exact Ho'|]. rewrite decide_False by lia. lia.
  - rewrite bind_Ret. cbv iota beta. destruct (holds_put out dst o w Ho Hw) as (out' & k & Hk & Hf & E & Ho'). rewrite E.
    eexists _, _, _. split; [done|]. split; [exact Ho'|]. assert (zlen o = 1) as Ho1 by (rewrite Et in *; cbn [length] in *; lia).
    rewrite !decide_True by done. intros Hroom. by rewrite Hf, firstn_all by lia.
Qed.

Lemma drop_name_spec b w rest : noslash w -> ((exists b', b = b' ++ [47]) \/ length b = 1%nat) -> (1 <= length b)%nat ->
  drop_name (length b + length w) (b ++ w ++ rest) = Ret (zlen b).
Proof.
  intros Hw Hb H1. revert rest. induction w as [|x w IH] using rev_ind; intros rest.
  - rewrite Nat.add_0_r. destruct (length b) as [|n] eqn:El; [lia|]. cbn [drop_name]. destruct (Z.ltb_spec 1 (Z.of_nat (S n))); [|done].
    destruct Hb as [(b' & ->)|?]; [|lia]. rewrite length_app in El. cbn [length] in El. rewrite <- app_assoc. cbn [app].
    rewrite aget_app, bind_Ret by lia. done.
  - rewrite length_app. cbn [length]. replace (length b + (length w + 1))%nat with (S (length b + length w)) by lia. cbn [drop_name].
    destruct (Z.ltb_spec 1 (Z.of_nat (S (length b + length w)))); [|lia]. rewrite <- app_assoc. cbn [app]. rewrite app_assoc.
    rewrite aget_app, bind_Ret by (rewrite length_app; lia). unfold noslash in Hw. apply not_elem_of_app in Hw as [Hw Hx].
    destruct (Z.eqb_spec x 47) as [->|]; [exfalso; apply Hx; by left|]. cbn [negb]. rewrite <- app_assoc. by apply IH.
Qed.

(** The last character goes, and the name in front of it. *)
Lemma step_cut out dst b u x : holds out dst (b ++ u ++ [x]) -> noslash u -> ((exists b', b = b' ++ [47]) \/ length b = 1%nat) -> (1 <= length b)%nat ->
  exists out', norm_step [46; 46] out dst = Ret (out', zlen b) /\ holds out' (zlen b) b.
Proof.
  intros (Hl & -> & Hz & (t & Et) & Hnz & r & ->) Hu Hb H1. unfold norm_step. rewrite bool_decide_false, bool_decide_true by done.
  destruct (Z.ltb_spec 1 (zlen (b ++ u ++ [x]))) as [_|Hle]; [|rewrite !length_app in Hle; simpl in Hle; lia].
  replace (Z.to_nat (zlen (b ++ u ++ [x]) - 1)) with (length b + length u)%nat by (rewrite !length_app; simpl; lia).
  rewrite <- !app_assoc in Hl |- *. rewrite drop_name_spec, bind_Ret by done.
  destruct (u ++ [x] ++ 0 :: r) as [|y q] eqn:Eq; [by destruct u|]. rewrite aset_app, bind_Ret by done. rewrite length_app in Hl. cbn [length] in Hl.
  eexists. split; [done|]. rewrite length_app in Hz. apply Forall_app in Hnz as [Hnz _].
  split; [rewrite !length_app; simpl; lia|]. split; [done|]. split; [lia|]. split; [destruct b as [|c b]; [simpl in H1; lia|]; injection Et as -> _; by exists b|].
  split; [done|]. exists q. by rewrite <- app_assoc.
Qed.

(** Whatever the component, the text stays inside the buffer. *)
Lemma step_total out dst o w : holds out dst o -> name_ok w ->
  exists out' dst' o', norm_step w out dst = Ret (out', dst') /\ holds out' dst' o'.
Proof.
  intros Ho Hw. destruct (decide (w = [46])) as [->|H1].
  { exists out, dst, o. unfold norm_step. by rewrite bool_decide_true. }
  destruct (decide (w = [46; 46])) as [->|H2].
  2:{ destruct (step_push out dst o w Ho Hw H1 H2) as (out' & dst' & o' & E & Ho' & _). by exists out', dst', o'. }
  destruct (decide (zlen o = 1)) as [E1|E1].
  { exists out, dst, o. unfold norm_step. rewrite bool_decide_false, bool_decide_true by done. pose proof Ho as (_ & -> & _).
    by destruct (Z.ltb_spec 1 (zlen o)); [lia|]. }
  pose proof Ho as (_ & _ & _ & (t & Et) & _). destruct (decide (t = [])) as [->|Hne]; [by rewrite Et in E1|].
  destruct (exists_last Hne) as (a & x & ->). subst o.
  assert (exists b u, 47 :: a = b ++ u /\ noslash u /\ (exists b', b = b' ++ [47])) as (b & u & Eb & Hu & b' & ->).
  { clear. induction a as [|y a IH] using rev_ind; [exists [47], []; split; [done|]; split; [apply not_elem_of_nil|by exists []]|].
    destruct IH as (b & u & E & Hu & b' & Eb). destruct (decide (y = 47)) as [->|Hy].
    - exists (47 :: a ++ [47]), []. rewrite app_nil_r. split; [done|]. split; [apply not_elem_of_nil|]. by exists (47 :: a).
    - exists b, (u ++ [y]). split; [by rewrite app_comm_cons, E, <- app_assoc|]. split; [|by exists b'].
      unfold noslash in *. intros [?|Hin]%elem_of_app; [done|]. apply list_elem_of_singleton in Hin. done. }
  rewrite app_comm_cons, Eb, <- app_assoc in Ho. destruct (step_cut out dst (b' ++ [47]) u x Ho Hu) as (out' & E & Ho'); [left; by exists b'|rewrite length_app; simpl; lia|].
  by eexists _, _, _.
Qed.

(** *** The whole path *)

Definition dirs (st : list (list Z)) : list Z := 47 :: concat ((fun w => w ++ [47]) <$> st).

(** No component was dropped yet; only ["."] and [".."] followed; the rest. *)
Definition fresh_path (st : list (list Z)) (o : list Z) : Prop :=
  Forall name_ok st /\ ((st = [] /\ o = [47]) \/ exists st' w, st = st' ++ [w] /\ o = dirs st' ++ w).
Definition cut_path (st : list (list Z)) (o : list Z) : Prop := fresh_path st o \/ Forall name_ok st /\ o = dirs st.
Definition spelt_path (st : list (list Z)) (o : list Z) : Prop := comps o = st /\ exists t, o = 47 :: t.

(** What a component may add to the text. *)
Definition grown (o w : list Z) : Z := (if decide (zlen o = 1) then zlen o else zlen o + 1) + zlen w.
Definition step_keeps (ok : list Z -> Prop) (I : list (list Z) -> list Z -> Prop) : Prop :=
  forall st out dst o w, I st o -> ok w -> name_ok w -> holds out dst o -> grown o w <= 127 ->
  exists out' dst' o', norm_step w out dst = Ret (out', dst') /\ holds out' dst' o' /\ I (norm st [w]) o' /\ zlen o' <= grown o w.

Lemma dirs_snoc st w : dirs (st ++ [w]) = dirs st ++ w ++ [47].
Proof. unfold dirs. rewrite fmap_app, concat_app. simpl. by rewrite app_nil_r. Qed.

Lemma dirs_end st : (exists b, dirs st = b ++ [47]) \/ length (dirs st) = 1%nat.
Proof. induction st as [|w st _] using rev_ind; [by right|left]. rewrite dirs_snoc, app_assoc. by eexists. Qed.

Lemma comps_dirs st : Forall name_ok st -> comps (dirs st) = st.
Proof.
  intros Hst. unfold dirs. change (comps ([] ++ 47 :: concat ((fun w => w ++ [47]) <$> st)) = st). rewrite comps_app by apply not_elem_of_nil. cbn [app]. simpl.
  induction Hst as [|w st (Hw & Hne & _) Hst IH]; [done|]. cbn [fmap list_fmap concat]. rewrite <- app_assoc. cbn [app]. rewrite comps_app by done.
  rewrite decide_False by done. by rewrite IH.
Qed.

Lemma norm_app st xs ys : norm st (xs ++ ys) = norm (norm st xs) ys.
Proof. revert st. induction xs as [|x xs IH]; intros st; [done|]. cbn [app norm]. repeat case_bool_decide; apply IH. Qed.

Lemma norm_dot out dst o : holds out dst o -> norm_step [46] out dst = Ret (out, dst) /\ zlen o <= grown o [46].
Proof. intros _. unfold norm_step, grown. rewrite bool_decide_true by done. split; [done|]. destruct (decide _); simpl; lia. Qed.

Lemma grown_push o w : zlen (if decide (zlen o = 1) then o ++ w else o ++ 47 :: w) = grown o w.
Proof. unfold grown. destruct (decide _); rewrite length_app; cbn [length]; lia. Qed.

Lemma norm_push st w : w <> [46] -> w <> [46; 46] -> norm st [w] = st ++ [w].
Proof. intros H1 H2. cbn [norm]. by rewrite !bool_decide_false. Qed.
Lemma norm_pop st : norm st [[46; 46]] = take (length st - 1) st.
Proof. done. Qed.

Lemma push_fresh : step_keeps (fun w => w <> [46; 46]) fresh_path.
Proof.
  intros st out dst o w HI Hok Hw Ho Hg. destruct (decide (w = [46])) as [->|H1].
  { destruct (norm_dot out dst o Ho). by exists out, dst, o. }
  destruct (step_push out dst o w Ho Hw H1 Hok) as (out' & dst' & o' & E & Ho' & Eo'). specialize (Eo' Hg). subst o'.
  eexists _, _, _. split; [exact E|]. split; [exact Ho'|]. rewrite grown_push. split; [|done]. rewrite norm_push by done.
  destruct HI as [Hst HI]. split; [apply Forall_app; split; [done|by apply Forall_singleton]|]. right. exists st, w. split; [done|].
  destruct HI as [[-> ->]|(st' & v & -> & ->)]; [done|]. apply Forall_app in Hst as [_ Hv%Forall_inv].
  rewrite decide_False.
  2:{ destruct Hv as (_ & Hne & _). rewrite length_app. unfold dirs. cbn [length]. destruct v; [done|simpl; lia]. }
  rewrite dirs_snoc, <- !app_assoc. done.
Qed.

Lemma pop_cut : step_keeps (fun w => w = [46] \/ w = [46; 46]) cut_path.
Proof.
  intros st out dst o w HI [->| ->] Hw Ho Hg.
  { destruct (norm_dot out dst o Ho). by exists out, dst, o. }
  assert ((st = [] /\ o = [47]) \/ exists st' v u x, st = st' ++ [v] /\ Forall name_ok st' /\ o = dirs st' ++ u ++ [x] /\ noslash u) as Hc.
  { destruct HI as [[Hst [?|(st' & v & -> & ->)]]|[Hst ->]]; [by left|right|].
    - apply Forall_app in Hst as [Hst' (Hns & Hne & _)%Forall_inv]. destruct (exists_last Hne) as (u & x & ->).
      exists st', (u ++ [x]), u, x. split; [done|]. split; [done|]. split; [done|]. by apply not_elem_of_app in Hns as [? _].
    - destruct (decide (st = [])) as [->|Hne]; [by left|]. destruct (exists_last Hne) as (st' & v & ->). right.
      apply Forall_app in Hst as [Hst' (Hns & _)%Forall_inv]. exists st', v, v, 47. by rewrite dirs_snoc. }
  destruct Hc as [[-> ->]|(st' & v & u & x & -> & Hst' & -> & Hu)].
  - pose proof Ho as (_ & -> & _). exists out, (zlen [47]), [47]. split; [done|]. split; [done|]. split; [left; split; [constructor|by left]|]. vm_compute. discriminate.
  - destruct (step_cut out dst (dirs st') u x Ho Hu (dirs_end st')) as (out' & E & Ho'); [unfold dirs; simpl; lia|].
    eexists _, _, _. split; [exact E|]. split; [exact Ho'|]. rewrite norm_pop, length_app. cbn [length]. split.
    + right. replace (length st' + 1 - 1)%nat with (length st') by lia. by rewrite take_app_length.
    + unfold grown. destruct (decide _); rewrite length_app; lia.
Qed.

Lemma push_spelt : step_keeps (fun w => w <> [46; 46]) spelt_path.
Proof.
  intros st out dst o w HI Hok Hw Ho Hg. destruct (decide (w = [46])) as [->|H1].
  { destruct (norm_dot out dst o Ho). by exists out, dst, o. }
  destruct (step_push out dst o w Ho Hw H1 Hok) as (out' & dst' & o' & E & Ho' & Eo'). specialize (Eo' Hg). subst o'.
  eexists _, _, _. split; [exact E|]. split; [exact Ho'|]. rewrite grown_push. split; [|done]. rewrite norm_push by done.
  destruct HI as [<- (t & ->)]. destruct Hw as (Hns & Hne & _). split; [|destruct (decide _); by eexists].
  destruct (decide _) as [E1|].
  - destruct t; [|simpl in E1; lia]. cbn [app]. change (comps ([] ++ 47 :: w) = comps [47] ++ [w]). rewrite comps_app by apply not_elem_of_nil. by rewrite comps_word.
  - by apply comps_snoc.
Qed.

(** There is room for the rest of the path behind the text. *)
Definition room (o p : list Z) : Prop := zlen o + zlen (cstr p) <= 127 /\ (zlen o = 1 \/ at_slash p).

(** A run of components of one kind. *)
Lemma loop_phase ok I cs1 cs2 : step_keeps ok I -> Forall ok cs1 ->
  forall p out dst o st fuel, comps (cstr p) = cs1 ++ cs2 -> terminated p -> I st o -> holds out dst o -> room o p -> (length p < fuel)%nat ->
  exists p' out' dst' o' fuel', normalize_loop fuel p out dst = normalize_loop fuel' p' out' dst' /\ comps (cstr p') = cs2 /\ terminated p'
    /\ I (norm st cs1) o' /\ holds out' dst' o' /\ room o' p' /\ (length p' < fuel')%nat.
Proof.
  intros Hstep Hok. induction Hok as [|w cs1 Hw Hok IH]; intros p out dst o st fuel Ec Hp HI Ho Hr Hf.
  - exists p, out, dst, o, fuel. done.
  - destruct fuel as [|fuel]; [lia|]. pose proof (normalize_round p Hp) as Hn. rewrite Ec in Hn. cbn [app] in Hn.
    destruct Hn as (Hwn & p1 & Ec1 & Hp1 & Hs1 & Hl1 & Hz1 & Hz1' & Hn). destruct Hr as [Hr1 Hr2].
    assert (grown o w + zlen (cstr p1) <= 127) as Hg.
    { unfold grown. destruct (decide _) as [|Hne]; [lia|]. destruct Hr2 as [?|Hs]; [done|]. specialize (Hz1' Hs). lia. }
    destruct (Hstep st out dst o w HI Hw Hwn Ho) as (out' & dst' & o' & E & Ho' & HI' & Hlo'); [lia|].
    destruct (IH p1 out' dst' o' (norm st [w]) fuel) as (p' & out2 & dst2 & o2 & fuel' & E2 & Hrest); [done|done|done|done|split; [lia|by right]|lia|].
    exists p', out2, dst2, o2, fuel'. split; [by rewrite Hn, E|]. change (w :: cs1) with ([w] ++ cs1). by rewrite norm_app.
Qed.

Lemma loop_total fuel p out dst o : terminated p -> holds out dst o -> (length p < fuel)%nat ->
  exists out' dst' o', normalize_loop fuel p out dst = Ret (out', dst') /\ holds out' dst' o'.
Proof.
  revert p out dst o. induction fuel as [|fuel IH]; intros p out dst o Hp Ho Hf; [lia|]. pose proof (normalize_round p Hp) as Hn.
  destruct (comps (cstr p)) as [|w cs]; [by exists out, dst, o|]. destruct Hn as (Hw & p' & _ & Hp' & _ & Hl & _ & _ & ->).
  destruct (step_total out dst o w Ho Hw) as (out' & dst' & o' & -> & Ho'). rewrite bind_Ret. cbv iota beta. apply (IH p' out' dst' o'); [done|done|lia].
Qed.

Lemma copy_run_spec o r pre rest n : Forall (fun c => c <> 0) o -> zlen pre + zlen o <= n - 1 -> (length o <= length rest)%nat ->
  copy_run (o ++ 0 :: r) (pre ++ rest) (zlen pre) n = Ret (pre ++ o ++ drop (length o) rest, zlen pre + zlen o).
Proof.
  intros Hnz. revert pre rest. induction Hnz as [|c o Hc Hnz IH]; intros pre rest Hn Hl; cbn [copy_run app length]; [by rewrite Z.add_0_r|].
  destruct (Z.eqb_spec c 0); [done|]. cbn [length] in Hn, Hl. destruct (Z.ltb_spec (zlen pre) (n - 1)); [|lia]. cbn [negb andb].
  destruct rest as [|x rest]; [simpl in Hl; lia|]. rewrite aset_app, bind_Ret by done. cbn [length] in Hl.
  assert (zlen (pre ++ [c]) = zlen pre + 1) as Hz by (rewrite length_app; simpl; lia). rewrite <- Hz, IH by lia.
  cbn [drop]. rewrite <- app_assoc, Hz. do 2 f_equal. lia.
Qed.

(** normalize_path is its loop, the text copied back. *)
Lemma normalize_path_out path : terminated path -> (128 <= length path)%nat ->
  exists out0, holds out0 1 [47] /\ forall out dst o, normalize_loop (S (length path)) path out0 1 = Ret (out, dst) -> holds out dst o ->
    exists rest, normalize_path path = Ret (o ++ 0 :: rest) /\ length (o ++ 0 :: rest) = length path.
Proof.
  intros Hp Hl. exists ([47; 0] ++ replicate 126 0). split.
  { split; [done|]. split; [done|]. split; [done|]. split; [by exists []|]. split; [by repeat constructor|]. by exists (replicate 126 0). }
  intros out dst o E (Hlo & -> & Hb & (t & Et) & Hnz & r & Er). unfold normalize_path.
  rewrite (aset_app [] 0 (replicate 127 0)), bind_Ret by done. change (([] ++ [47]) ++ replicate 127 0) with ([47] ++ 0 :: replicate 126 0).
  rewrite aset_app, bind_Ret by done. change (([47] ++ [0]) ++ replicate 126 0) with ([47; 0] ++ replicate 126 0). rewrite E, bind_Ret. cbv iota beta.
  destruct (Z.eqb_spec (zlen o) 0) as [E0|_]; [rewrite Et in E0; simpl in E0; lia|]. rewrite bind_Ret, Er.
  destruct (drop (length o) path) as [|x q] eqn:Ed.
  { apply (f_equal length) in Ed. rewrite length_drop in Ed. cbn [length] in Ed. lia. }
  pose proof (copy_run_spec o r [] path 128 Hnz) as Ec. cbn [app length] in Ec. change (Z.of_nat 0) with 0 in Ec. rewrite Ec by lia. rewrite bind_Ret. cbv iota beta.
  rewrite Ed, aset_app by lia. exists q. split; [by rewrite <- app_assoc|]. apply (f_equal length) in Ed. rewrite length_drop in Ed. cbn [length] in Ed.
  rewrite length_app. cbn [length]. lia.
Qed.

(** It always comes to an absolute path in the same array. *)
Lemma normalize_path_total path : terminated path -> (128 <= length path)%nat ->
  exists out0 out dst o rest, holds out0 1 [47] /\ normalize_loop (S (length path)) path out0 1 = Ret (out, dst) /\ holds out dst o
    /\ normalize_path path = Ret (o ++ 0 :: rest) /\ length (o ++ 0 :: rest) = length path /\ (exists t, o = 47 :: t) /\ Forall (fun c => c <> 0) o.
Proof.
  intros Hp Hl. destruct (normalize_path_out path Hp Hl) as (out0 & Ho0 & Hout).
  destruct (loop_total (S (length path)) path out0 1 [47] Hp Ho0) as (out & dst & o & E & Ho); [lia|].
  destruct (Hout out dst o E Ho) as (rest & En & Hlen). exists out0, out, dst, o, rest. pose proof Ho as (_ & _ & _ & Ht & Hnz & _). done.
Qed.

(** C36. [normalize_path] never leaves its 128-byte buffer: any terminated path in
    an array of at least 128 bytes becomes an absolute one in the same array.
    For a path of at most 126 characters whose [".."] components all stand
    together (around a run of ["."] and [".."], only names and ["."]), the
    components of the result are those of the path with each ["."] removed and
    each [".."] cancelling the name before it. *)
Theorem normalize_path_correct path : terminated path -> (128 <= length path)%nat ->
  exists path', normalize_path path = Ret path' /\ length path' = length path /\ terminated path' /\ (exists t, path' = 47 :: t)
    /\ forall xs ys zs, zlen (cstr path) <= 126 -> comps (cstr path) = xs ++ ys ++ zs ->
         Forall (fun w => w <> [46; 46]) xs -> Forall (fun w => w = [46] \/ w = [46; 46]) ys -> Forall (fun w => w <> [46; 46]) zs ->
         comps (cstr path') = norm [] (comps (cstr path)).
Proof.
  intros Hp Hl. destruct (normalize_path_total path Hp Hl) as (out0 & out & dst & o & rest & Ho0 & E & Ho & En & Hlen & (t & Et) & Hnz).
  exists (o ++ 0 :: rest). split; [done|]. split; [done|]. split; [apply terminated_app|].
  split; [exists (t ++ 0 :: rest); by rewrite Et|].
  intros xs ys zs Hz Ec Hxs Hys Hzs. rewrite cstr_app by done.
  assert (room [47] path) as Hr by (split; [cbn [length]; lia|by left]).
  destruct (loop_phase _ _ xs (ys ++ zs) push_fresh Hxs path out0 1 [47] [] (S (length path))) as (p1 & out1 & dst1 & o1 & f1 & E1 & Ec1 & Hp1 & HI1 & Ho1 & Hr1 & Hf1);
    [done|done|by split; [constructor|left]|done|done|lia|].
  destruct (loop_phase _ _ ys zs pop_cut Hys p1 out1 dst1 o1 (norm [] xs) f1) as (p2 & out2 & dst2 & o2 & f2 & E2 & Ec2 & Hp2 & HI2 & Ho2 & Hr2 & Hf2);
    [done|done|by left|done|done|done|].
  assert (spelt_path (norm (norm [] xs) ys) o2) as HI2'.
  { split; [|by destruct Ho2 as (_ & _ & _ & ? & _)]. destruct HI2 as [[Hst [[-> ->]|(st' & w & Es & ->)]]|[Hst ->]].
    - apply (comps_app [] []). apply not_elem_of_nil.
    - rewrite Es in *. apply Forall_app in Hst as [Hst' Hw%Forall_inv]. rewrite <- (comps_trail (dirs st' ++ w)), <- app_assoc, <- dirs_snoc.
      apply comps_dirs. apply Forall_app. split; [done|by apply Forall_singleton].
    - by apply comps_dirs. }
  destruct (loop_phase _ _ zs [] push_spelt Hzs p2 out2 dst2 o2 (norm (norm [] xs) ys) f2) as (p3 & out3 & dst3 & o3 & f3 & E3 & Ec3 & Hp3 & HI3 & Ho3 & Hr3 & Hf3);
    [by rewrite app_nil_r|done|exact HI2'|done|done|done|].
  rewrite E1, E2, E3 in E. destruct f3 as [|f3]; [lia|]. pose proof (normalize_round p3 Hp3) as Hn. rewrite Ec3 in Hn. rewrite Hn in E.
  injection E as <- <-. rewrite Ec, !norm_app. destruct HI3 as [<- _]. f_equal.
  destruct Ho as (_ & Hd & _ & _ & _ & r & Er), Ho3 as (_ & Hd3 & _ & _ & _ & r3 & Er3). rewrite Er in Er3. apply app_inj_1 in Er3 as [-> _]; [done|lia].
Qed.

Definition padded (s : string) : list Z := bytes s ++ replicate (128 - length (bytes s)) 0.

Lemma normalize_path_correct_witness : exists path', normalize_path (padded "/a/./b//../../c/.") = Ret path' /\ comps (cstr path') = [[99]].
Proof.
  destruct (normalize_path_correct (padded "/a/./b//../../c/.")) as (path' & E & _ & _ & _ & Hc); [unfold terminated; set_solver|vm_compute; lia|].
  exists path'. split; [done|]. rewrite (Hc [[97]; [46]; [98]] [[46; 46]; [46; 46]] [[99]; [46]]).
  - reflexivity.
  - by vm_compute.
  - reflexivity.
  - by repeat constructor.
  - by repeat (constructor; [by right|]).
  - by repeat constructor.
Defined.

(** A name pushed after a [".."] is set off by two slashes, and the next [".."]s
    remove the slashes instead of a name. *)
Lemma dotdot_after_dotdot : exists p, normalize_path (padded "/a/b/../c/../..") = Ret p /\ cstr p = bytes "/a/".
Proof. eexists. split; vm_compute; reflexivity. Qed.

Definition far_line : list Z := bytes "ls" ++ replicate 126 32 ++ bytes "d" ++ replicate 127 0.
Definition docs_disk : vfs heap := vfs_after [OpMkdir (lit "/docs")].
Definition quiet : uart := mk_uart [] 0 [] [] empty [] 0 0.

Lemma completes_a_path : exists b u, shell_complete_path docs_disk (lit "/") (bytes "ls d" ++ replicate 252 0) 256 4 quiet = Ret (true, b, 8, u) /\ cstr b = bytes "ls docs/".
Proof. eexists _, _. split; vm_compute; reflexivity. Qed.

(** 127 or more characters in front of the token fill the replacement buffer;
    the slash and the terminator behind them do not fit. *)
Lemma long_line_completion_overrun : shell_complete_path docs_disk (lit "/") far_line 256 129 quiet = Undef.
Proof. vm_compute. reflexivity. Qed.
