(* ===== verification/Vi.v ===== *)
(** kernel.c: the vi editor (lines 56-82 and 155-540).

    The editor block is allocated in the kernel heap and only this code has its
    address, so its fields are threaded as a record while the block is live.
    [buf] has its 16385 bytes; the integer fields stay within a few ten thousand,
    where 32-bit arithmetic is exact.  A key that is not there yet ends a run
    with [None]: the editor is waiting.  Local buffers start all zeros and are
    written before they are read.  An [int] given to kprintf for [%d] reaches it
    as a 64-bit word, the way a W register is passed. *)
From S2P Require Import Prelude Spinlock Allocator Heap CString Blocks Vfs Ring Uart Shell.

Definition VI_MAX_TEXT : Z := VFS_MAX_FSIZE.
Definition VI_SCREEN_ROWS : Z := 20.
Definition VI_SCREEN_COLS : Z := 78.
Definition SIZEOF_VI_EDITOR : Z := 18276.

Record vi_editor_t := mk_ed {
  e_path : list Z;
  e_buf : list Z;
  screen_cache : list (list Z);
  status_cache : list Z;
  e_len : Z;
  cursor : Z;
  rowoff : Z;
  coloff : Z;
  dirty : bool;
  mode_insert : bool;
  e_quit : bool;
  cache_valid : bool
}.

Definition set_text (b : list Z) (l c : Z) (d : bool) ed : vi_editor_t :=
  mk_ed (e_path ed) b (screen_cache ed) (status_cache ed) l c (rowoff ed) (coloff ed) d (mode_insert ed) (e_quit ed) (cache_valid ed).
Definition set_cursor (c : Z) ed : vi_editor_t := set_text (e_buf ed) (e_len ed) c (dirty ed) ed.
Definition set_offs (r c : Z) ed : vi_editor_t :=
  mk_ed (e_path ed) (e_buf ed) (screen_cache ed) (status_cache ed) (e_len ed) (cursor ed) r c (dirty ed) (mode_insert ed) (e_quit ed) (cache_valid ed).
Definition set_screen (sc : list (list Z)) (st : list Z) (valid : bool) ed : vi_editor_t :=
  mk_ed (e_path ed) (e_buf ed) sc st (e_len ed) (cursor ed) (rowoff ed) (coloff ed) (dirty ed) (mode_insert ed) (e_quit ed) valid.
Definition set_mode (i q : bool) ed : vi_editor_t :=
  mk_ed (e_path ed) (e_buf ed) (screen_cache ed) (status_cache ed) (e_len ed) (cursor ed) (rowoff ed) (coloff ed) (dirty ed) i q (cache_valid ed).

(** [memset(ed, 0, sizeof(vi_editor_t))] *)
Definition ed_zero : vi_editor_t :=
  mk_ed (replicate 128 0) (replicate (Z.to_nat (VI_MAX_TEXT + 1)) 0) (replicate 20 (replicate 80 0)) (replicate 128 0) 0 0 0 0 false false false false.

(** ** The text *)

(** [while(idx > 0 && buf[idx - 1] != '\n') idx--] with [n] = idx. *)
Fixpoint line_back (n : nat) (buf : list Z) : outcome Z :=
  match n with
  | O => Ret 0
  | S n' => c ← aget buf (Z.of_nat n'); if negb (c =? 10) then line_back n' buf else Ret (Z.of_nat n)
  end.
(** [while(idx < len && buf[idx] != '\n') idx++] with [n] = len - idx. *)
Fixpoint line_fwd (n : nat) (buf : list Z) (idx : Z) : outcome Z :=
  match n with
  | O => Ret idx
  | S n => c ← aget buf idx; if negb (c =? 10) then line_fwd n buf (idx + 1) else Ret idx
  end.

Definition clamp (idx len : Z) : Z :=
  let idx := if idx <? 0 then 0 else idx in
  if len <? idx then len else idx.
Definition vi_line_start ed (idx : Z) : outcome Z := line_back (Z.to_nat (clamp idx (e_len ed))) (e_buf ed).
Definition vi_line_end ed (idx : Z) : outcome Z :=
  let idx := clamp idx (e_len ed) in line_fwd (Z.to_nat (e_len ed - idx)) (e_buf ed) idx.

Definition vi_cursor_col ed : outcome Z := start ← vi_line_start ed (cursor ed); Ret (cursor ed - start).
Definition vi_cursor_row ed : outcome Z :=
  for_range 0 (Z.min (cursor ed) (e_len ed)) (fun i row => c ← aget (e_buf ed) i; Ret (if c =? 10 then row + 1 else row)) 0.

(** [while(row < target && pos < len) if(buf[pos++] == '\n') row++] with [n] =
    len - pos; the row is of no use afterwards. *)
Fixpoint skip_rows (n : nat) (buf : list Z) (row target pos : Z) : outcome Z :=
  match n with
  | O => Ret pos
  | S n =>
    if row <? target then c ← aget buf pos; skip_rows n buf (if c =? 10 then row + 1 else row) target (pos + 1)
    else Ret pos
  end.

Definition vi_set_cursor_row_col ed (target_row target_col : Z) : outcome vi_editor_t :=
  let target_row := if target_row <? 0 then 0 else target_row in
  let target_col := if target_col <? 0 then 0 else target_col in
  pos ← skip_rows (Z.to_nat (e_len ed)) (e_buf ed) 0 target_row 0;
  line_end ← vi_line_end ed pos;
  let line_len := line_end - pos in
  let target_col := if line_len <? target_col then line_len else target_col in
  Ret (set_cursor (pos + target_col) ed).

Definition vi_insert_char ed (c : Z) : outcome vi_editor_t :=
  if VI_MAX_TEXT <=? e_len ed then Ret ed
  else
    b ← mem_move (e_buf ed) (cursor ed + 1) (cursor ed) (e_len ed - cursor ed);
    b ← aset b (cursor ed) c;
    b ← aset b (e_len ed + 1) 0;
    Ret (set_text b (e_len ed + 1) (cursor ed + 1) true ed).

Definition vi_delete_at ed (idx : Z) : outcome vi_editor_t :=
  if (idx <? 0) || (e_len ed <=? idx) then Ret ed
  else
    b ← mem_move (e_buf ed) idx (idx + 1) (e_len ed - idx - 1);
    b ← aset b (e_len ed - 1) 0;
    Ret (set_text b (e_len ed - 1) (cursor ed) true ed).

Definition vi_backspace ed : outcome vi_editor_t :=
  if cursor ed <=? 0 then Ret ed
  else ed ← vi_delete_at ed (cursor ed - 1); Ret (set_cursor (cursor ed - 1) ed).

Definition vi_delete_line ed : outcome vi_editor_t :=
  start ← vi_line_start ed (cursor ed);
  stop ← vi_line_end ed (cursor ed);
  stop ← (if stop <? e_len ed then c ← aget (e_buf ed) stop; Ret (if c =? 10 then stop + 1 else stop) else Ret stop);
  if (start =? 0) && (e_len ed <=? stop) then
    b ← aset (e_buf ed) 0 0; Ret (set_text b 0 0 true ed)
  else
    b ← mem_move (e_buf ed) start stop (e_len ed - stop);
    let len := e_len ed - (stop - start) in
    let start := if len <? start then len else start in
    b ← aset b len 0;
    Ret (set_text b len start true ed).

Definition vi_move_left ed : vi_editor_t := if 0 <? cursor ed then set_cursor (cursor ed - 1) ed else ed.
Definition vi_move_right ed : vi_editor_t := if cursor ed <? e_len ed then set_cursor (cursor ed + 1) ed else ed.
Definition vi_move_down ed : outcome vi_editor_t :=
  row ← vi_cursor_row ed; col ← vi_cursor_col ed; vi_set_cursor_row_col ed (row + 1) col.
Definition vi_move_up ed : outcome vi_editor_t :=
  row ← vi_cursor_row ed; col ← vi_cursor_col ed;
  if 0 <? row then vi_set_cursor_row_col ed (row - 1) col else Ret ed.

(** ** The screen *)

(** A string with escapes: each piece follows an ESC. *)
Definition esc (ps : list string) : list Z := (ps ≫= (fun s => 27 :: bytes s)) ++ [0].

Definition vi_scroll ed : outcome vi_editor_t :=
  row ← vi_cursor_row ed;
  col ← vi_cursor_col ed;
  let r := if row <? rowoff ed then row else rowoff ed in
  let r := if r + VI_SCREEN_ROWS <=? row then row - VI_SCREEN_ROWS + 1 else r in
  let c := if col <? coloff ed then col else coloff ed in
  let c := if c + VI_SCREEN_COLS <=? col then col - VI_SCREEN_COLS + 1 else c in
  Ret (set_offs (if r <? 0 then 0 else r) (if c <? 0 then 0 else c) ed).

Fixpoint str_eq_limit (a b : list Z) : outcome bool :=
  match a, b with
  | x :: a, y :: b =>
    if negb (x =? 0) || negb (y =? 0) then if negb (x =? y) then Ret false else str_eq_limit a b
    else Ret true
  | _, _ => Undef
  end.

Definition mode_text ed : list Z := lit (if mode_insert ed then "INSERT" else "NORMAL").
Definition dirty_text ed : list Z := lit (if dirty ed then " [+]" else "").
Definition text_of (msg : option (list Z)) : list Z := match msg with Some m => m | None => lit "" end.

Fixpoint copy_parts (parts : list (list Z)) (out : list Z) (i cap : Z) : outcome (list Z * Z) :=
  match parts with
  | [] => Ret (out, i)
  | s :: parts => '(out, i) ← copy_run s out i cap; copy_parts parts out i cap
  end.
Definition vi_build_status ed (msg : option (list Z)) (out : list Z) (cap : Z) : outcome (list Z) :=
  '(out, i) ← copy_parts [mode_text ed; lit "  "; e_path ed; dirty_text ed; lit "  "; text_of msg] out 0 cap;
  aset out i 0.

(** [n] = len - idx; the characters shown stand at [line_col] in their line. *)
Fixpoint screen_chars (n : nat) (buf : list Z) (idx line_col col coloff : Z) (out : list Z) : outcome (list Z * Z * Z) :=
  match n with
  | O => Ret (out, idx, col)
  | S n =>
    c ← aget buf idx;
    if c =? 10 then Ret (out, idx, col)
    else
      '(out, col) ←
        (if (coloff <=? line_col) && (col <? VI_SCREEN_COLS) then
           out ← aset out col (if (c <? 32) || (126 <? c) then 63 else c); Ret (out, col + 1)
         else Ret (out, col));
      screen_chars n buf (idx + 1) (line_col + 1) col coloff out
  end.

Definition vi_build_screen_line ed (idx : Z) (out : list Z) : outcome (list Z * Z) :=
  if e_len ed <=? idx then
    out ← aset out 0 126; out ← aset out 1 0; Ret (out, idx)
  else
    '(out, idx, col) ← screen_chars (Z.to_nat (e_len ed - idx)) (e_buf ed) idx 0 0 (coloff ed) out;
    out ← aset out col 0;
    idx ← (if idx <? e_len ed then c ← aget (e_buf ed) idx; Ret (if c =? 10 then idx + 1 else idx) else Ret idx);
    Ret (out, idx).

Definition vi_draw_status ed (msg : option (list Z)) (u : uart) : outcome uart :=
  u ← uart_puts (esc ["[22;1H"; "[7m"]%string) u;
  u ← kprintf (lit "%s  %s%s  %s") [AStr (Some (mode_text ed)); AStr (Some (e_path ed)); AStr (Some (dirty_text ed)); AStr (Some (text_of msg))] u;
  uart_puts (esc ["[K"; "[m"]%string) u.

(** One row of the screen, drawn when it differs from what is there. *)
Definition render_row (screen_row : Z) (st : Z * list Z * list (list Z) * uart) ed : outcome (Z * list Z * list (list Z) * uart) :=
  let '(idx, line, cache, u) := st in
  '(line, idx) ← vi_build_screen_line ed idx line;
  old ← aget cache screen_row;
  same ← (if cache_valid ed then str_eq_limit old line else Ret false);
  if (same : bool) then Ret (idx, line, cache, u)
  else
    u ← kprintf (esc ["[%d;1H"]%string) [AWord (screen_row + 1)] u;
    u ← uart_puts (esc ["[K"]%string) u;
    u ← uart_puts line u;
    u ← uart_puts (esc ["[K"]%string) u;
    new ← str_copy_limit old line (VI_SCREEN_COLS + 2);
    cache ← aset cache screen_row new;
    Ret (idx, line, cache, u).

Definition vi_render ed (msg : option (list Z)) (u : uart) : outcome (vi_editor_t * uart) :=
  ed ← vi_scroll ed;
  u ← uart_puts (esc ["[?25l"]%string) u;
  idx ← skip_rows (Z.to_nat (e_len ed)) (e_buf ed) 0 (rowoff ed) 0;
  '(idx, line, cache, u) ← for_range 0 VI_SCREEN_ROWS (fun screen_row st => render_row screen_row st ed)
                             (idx, replicate 80 0, screen_cache ed, u);
  status ← vi_build_status ed msg (replicate 128 0) 128;
  same ← (if cache_valid ed then str_eq_limit (status_cache ed) status else Ret false);
  '(scache, u) ← (if (same : bool) then Ret (status_cache ed, u)
                  else u ← vi_draw_status ed msg u; s ← str_copy_limit (status_cache ed) status 128; Ret (s, u));
  let ed := set_screen cache scache true ed in
  row ← vi_cursor_row ed;
  col ← vi_cursor_col ed;
  let cursor_row := row - rowoff ed + 1 in
  let cursor_col := col - coloff ed + 1 in
  let cursor_row := if cursor_row <? 1 then 1 else cursor_row in
  let cursor_row := if VI_SCREEN_ROWS <? cursor_row then VI_SCREEN_ROWS else cursor_row in
  let cursor_col := if cursor_col <? 1 then 1 else cursor_col in
  let cursor_col := if VI_SCREEN_COLS <? cursor_col then VI_SCREEN_COLS else cursor_col in
  u ← kprintf (esc ["[%d;%dH"]%string) [AWord cursor_row; AWord cursor_col] u;
  u ← uart_puts (esc ["[?25h"]%string) u;
  Ret (ed, u).

(** ** The session *)

Section Session.
Context {H : Type} `{Allocator H}.
Implicit Types (v : vfs H).

(** [junk] is what the memory of a new file happens to hold. *)
Definition vi_save (junk : list Z) ed v : outcome (Z * vi_editor_t * vfs H) :=
  '(fd, v) ← vfs_open junk (e_path ed) (Z.lor (Z.lor O_WRONLY O_CREAT) O_TRUNC) v;
  if fd <? 0 then Ret (-1, ed, v)
  else
    '(wrote, v) ← vfs_write fd (e_buf ed) (e_len ed) v;
    v ← vfs_close fd v;
    if negb (wrote =? e_len ed) then Ret (-1, ed, v)
    else Ret (0, set_text (e_buf ed) (e_len ed) (cursor ed) false ed, v).

(** What the editor works on, and vi_open_command's three flags. *)
Record session := mk_session {
  s_ed : vi_editor_t;
  s_vfs : vfs H;
  s_keys : keys;
  s_uart : uart;
  pending_d : bool;
  pending_z : bool;
  quit_confirm : bool
}.
Implicit Types s : session.
Definition with_ed ed s : session := mk_session ed (s_vfs s) (s_keys s) (s_uart s) (pending_d s) (pending_z s) (quit_confirm s).
Definition with_keys k s : session := mk_session (s_ed s) (s_vfs s) k (s_uart s) (pending_d s) (pending_z s) (quit_confirm s).
Definition with_uart u s : session := mk_session (s_ed s) (s_vfs s) (s_keys s) u (pending_d s) (pending_z s) (quit_confirm s).
Definition with_flags d z q s : session := mk_session (s_ed s) (s_vfs s) (s_keys s) (s_uart s) d z q.

Definition render (msg : option (list Z)) s : outcome session :=
  '(ed, u) ← vi_render (s_ed s) msg (s_uart s);
  Ret (with_uart u (with_ed ed s)).
Definition quit s : session := with_ed (set_mode (mode_insert (s_ed s)) true (s_ed s)) s.
Definition save (junk : list Z) s : outcome (Z * session) :=
  '(r, ed, v) ← vi_save junk (s_ed s) (s_vfs s);
  Ret (r, mk_session ed v (s_keys s) (s_uart s) (pending_d s) (pending_z s) (quit_confirm s)).

(** The line after [:].  [inl cmd]: it is complete; [inr tt]: Esc left it. *)
Fixpoint prompt_loop (fuel : nat) (cmd : list Z) (i : Z) (k : keys) (u : uart)
  : outcome (option ((list Z + unit) * keys * uart)) :=
  match fuel with
  | O => Hang
  | S fuel =>
    if i <? 15 then
      match vi_read_key k with
      | None => Ret None
      | Some (c, k) =>
        if (c =? 13) || (c =? 10) then cmd ← aset cmd i 0; Ret (Some (inl cmd, k, u))
        else if c =? 27 then Ret (Some (inr (), k, u))
        else if ((c =? 8) || (c =? 127)) && (0 <? i) then
          u ← uart_puts [8; 32; 8; 0] u; prompt_loop fuel cmd (i - 1) k u
        else if (c <? 32) || (126 <? c) then prompt_loop fuel cmd i k u
        else cmd ← aset cmd i c; prompt_loop fuel cmd (i + 1) k (uart_putc c u)
      end
    else cmd ← aset cmd i 0; Ret (Some (inl cmd, k, u))
  end.

(** Enough rounds for the keys that are there. *)
Definition key_fuel (k : keys) : nat := S (S (2 * length (input k))).

Definition run_command (junk cmd : list Z) s : outcome session :=
  q ← str_eq cmd (lit "q");
  if negb (q =? 0) then
    if dirty (s_ed s) then render (Some (lit "No write since last change (:q! to quit)")) s
    else Ret (quit s)
  else
    q ← str_eq cmd (lit "q!");
    if negb (q =? 0) then Ret (quit s)
    else
      w ← str_eq cmd (lit "w");
      if negb (w =? 0) then
        '(r, s) ← save junk s;
        render (Some (lit (if r <? 0 then "write failed" else "written"))) s
      else
        wq ← any_eq cmd ["wq"; "x"]%string;
        if (wq : bool) then
          '(r, s) ← save junk s;
          if r <? 0 then render (Some (lit "write failed")) s else Ret (quit s)
        else render (Some (lit "unknown command")) s.

Definition vi_command_prompt (junk : list Z) s : outcome (option session) :=
  u ← vi_draw_status (s_ed s) (Some (lit ":")) (s_uart s);
  u ← kprintf (esc ["[22;3H"]%string) [] u;
  r ← prompt_loop (key_fuel (s_keys s)) (replicate 16 0) 0 (s_keys s) u;
  match r with
  | None => Ret None
  | Some (inr _, k, u) => Ret (Some (with_uart u (with_keys k s)))
  | Some (inl cmd, k, u) => s ← run_command junk cmd (with_uart u (with_keys k s)); Ret (Some s)
  end.

(** A key in insert mode, and in normal mode when none of the two-key commands
    applies; both before the screen is drawn. *)
Definition insert_key (c : Z) ed : outcome vi_editor_t :=
  ed ← (if c =? VI_KEY_LEFT then Ret (vi_move_left ed)
        else if c =? VI_KEY_RIGHT then Ret (vi_move_right ed)
        else if c =? VI_KEY_UP then vi_move_up ed
        else if c =? VI_KEY_DOWN then vi_move_down ed
        else Ret ed);
  if (c =? 13) || (c =? 10) then vi_insert_char ed 10
  else if (c =? 8) || (c =? 127) then vi_backspace ed
  else if (32 <=? c) && (c <=? 126) then vi_insert_char ed c
  else Ret ed.

Definition normal_key (c : Z) ed : outcome vi_editor_t :=
  let insert ed := set_mode true (e_quit ed) ed in
  if (c =? 104) || (c =? VI_KEY_LEFT) then Ret (vi_move_left ed)
  else if (c =? 108) || (c =? VI_KEY_RIGHT) then Ret (vi_move_right ed)
  else if (c =? 106) || (c =? VI_KEY_DOWN) then vi_move_down ed
  else if (c =? 107) || (c =? VI_KEY_UP) then vi_move_up ed
  else if c =? 48 then p ← vi_line_start ed (cursor ed); Ret (set_cursor p ed)
  else if c =? 36 then p ← vi_line_end ed (cursor ed); Ret (set_cursor p ed)
  else if c =? 105 then Ret (insert ed)
  else if c =? 97 then Ret (insert (vi_move_right ed))
  else if c =? 111 then
    p ← vi_line_end ed (cursor ed);
    ed ← vi_insert_char (set_cursor p ed) 10;
    Ret (insert ed)
  else if c =? 120 then
    ed ← vi_delete_at ed (cursor ed);
    Ret (if e_len ed <? cursor ed then set_cursor (e_len ed) ed else ed)
  else Ret ed.

(** One round of the loop on the key [c]; the loop ends when [quit] is set. *)
Definition vi_round (junk : list Z) (c : Z) s : outcome (option session) :=
  let some (m : outcome session) : outcome (option session) := s ← m; Ret (Some s) in
  let ed := s_ed s in
  if mode_insert ed then
    if (c =? 3) || (c =? 17) then Ret (Some (quit s))
    else if c =? 27 then some (render None (with_ed (set_mode false (e_quit ed) ed) s))
    else ed ← insert_key c ed; some (render None (with_ed ed s))
  else if (c =? 3) || (c =? 17) then
    if dirty ed && negb (quit_confirm s) then
      some (render (Some (lit "Ctrl-C again to quit without saving")) (with_flags false false true s))
    else Ret (Some (quit s))
  else if (c =? 100) && pending_d s then
    ed ← vi_delete_line ed;
    some (render (Some (lit "line deleted")) (with_flags false false false (with_ed ed s)))
  else
    let pz := (c =? 90) && pending_z s in
    let s := with_flags (c =? 100) pz false s in
    if c =? 81 then Ret (Some (quit s))
    else if (c =? 90) && pz then
      '(r, s) ← save junk s;
      if r <? 0 then some (render (Some (lit "write failed")) (with_flags (pending_d s) false false s))
      else Ret (Some (quit s))
    else if c =? 90 then some (render (Some (lit "press Z again to save and quit")) (with_flags (pending_d s) true false s))
    else if c =? 58 then
      r ← vi_command_prompt junk (with_flags false false false s);
      match r with
      | None => Ret None
      | Some s => if e_quit (s_ed s) then Ret (Some s) else some (render None s)
      end
    else ed ← normal_key c ed; some (render None (with_ed ed s)).

Fixpoint vi_loop (junk : list Z) (fuel : nat) s : outcome (option session) :=
  match fuel with
  | O => Hang
  | S fuel =>
    if e_quit (s_ed s) then Ret (Some s)
    else
      match vi_read_key (s_keys s) with
      | None => Ret None
      | Some (c, k) =>
        r ← vi_round junk c (with_keys k s);
        match r with None => Ret None | Some s => vi_loop junk fuel s end
      end
  end.

(** The file's text, when there is one. *)
Definition load_file (path : list Z) ed v : outcome (vi_editor_t * vfs H) :=
  '(fd, v) ← vfs_open [] path O_RDONLY v;
  if 0 <=? fd then
    '(n, b, v) ← vfs_read fd (e_buf ed) VI_MAX_TEXT v;
    v ← vfs_close fd v;
    if 0 <? n then b ← aset b n 0; Ret (set_text b n (cursor ed) (dirty ed) ed, v)
    else Ret (set_text b (e_len ed) (cursor ed) (dirty ed) ed, v)
  else Ret (ed, v).

Definition vi_open_command (junk cwd arg : list Z) v (k : keys) (u : uart) : outcome (option (vfs H * keys * uart)) :=
  c ← aget arg 0;
  if c =? 0 then u ← uart_puts (line_of "usage: vi <file>") u; Ret (Some (v, k, u))
  else
    path ← build_path cwd (replicate 128 0) 128 arg;
    '(p, b) ← blk_alloc [] SIZEOF_VI_EDITOR (vblocks v);
    let v := set_vblocks v b in
    if p =? 0 then u ← uart_puts (line_of "vi: out of memory") u; Ret (Some (v, k, u))
    else
      epath ← str_copy_limit (e_path ed_zero) path 128;
      let ed := mk_ed epath (e_buf ed_zero) (screen_cache ed_zero) (status_cache ed_zero) 0 0 0 0 false false false false in
      let saved_hook := uart_get_output_hook u in
      let u := uart_set_output_hook 0 u in
      '(ed, v) ← load_file path ed v;
      u ← uart_puts (esc ["[2J"; "[H"]%string) u;
      '(ed, u) ← vi_render ed (Some (lit "i=insert  Esc=normal  :w  :q  :wq")) u;
      r ← vi_loop junk (key_fuel k) (mk_session ed v k u false false false);
      match r with
      | None => Ret None
      | Some s =>
        b ← blk_free p (vblocks (s_vfs s));
        let u := uart_set_output_hook saved_hook (s_uart s) in
        u ← uart_puts (esc ["[2J"; "[H"]%string) u;
        u ← uart_puts (line_of "left vi") u;
        Ret (Some (set_vblocks (s_vfs s) b, s_keys s, u))
      end.
End Session.

(** ** What the editing operations do

    The text as a zipper: what stands before the cursor and what follows it. *)

Fixpoint before_nl (a : list Z) : list Z :=
  match a with [] => [] | c :: a => if c =? 10 then [] else c :: before_nl a end.
Definition after_nl (a : list Z) : list Z := drop (length (before_nl a)) a.
(** The lines before the last one, newline included, and the last one. *)
Definition head_of (b : list Z) : list Z := reverse (after_nl (reverse b)).
Definition tail_of (b : list Z) : list Z := reverse (before_nl (reverse b)).

Inductive vi_edit := Insert (c : Z) | Delete | Backspace | DeleteLine | GoLeft | GoRight | LineStart | LineEnd | GoDown | GoUp.

Definition apply_edit (e : vi_edit) (z : list Z * list Z) : list Z * list Z :=
  let '(b, a) := z in
  match e with
  | Insert c => if zlen (b ++ a) <? VI_MAX_TEXT then (b ++ [c], a) else z
  | Delete => (b, tail a)
  | Backspace => (take (length b - 1) b, a)
  | DeleteLine => (head_of b, tail (after_nl a))
  | GoLeft => (take (length b - 1) b, drop (length b - 1) b ++ a)
  | GoRight => (b ++ take 1 a, drop 1 a)
  | LineStart => (head_of b, tail_of b ++ a)
  | LineEnd => (b ++ before_nl a, after_nl a)
  | GoDown =>
    match after_nl a with
    | [] => (b ++ a, [])
    | c :: r => let k := (length (tail_of b) `min` length (before_nl r))%nat in (b ++ before_nl a ++ c :: take k r, drop k r)
    end
  | GoUp =>
    let b0 := take (length (head_of b) - 1) (head_of b) in
    let k := (length (tail_of b) `min` length (tail_of b0))%nat in
    if decide (head_of b = []) then z
    else (head_of b0 ++ take k (tail_of b0), drop k (tail_of b0) ++ 10 :: tail_of b ++ a)
  end.

(** [ed] holds the text [b ++ a] with the cursor between the two. *)
Definition shows ed (b a : list Z) : Prop :=
  zlen (e_buf ed) = 16385 /\ zlen (b ++ a) <= VI_MAX_TEXT /\ e_len ed = zlen (b ++ a) /\ cursor ed = zlen b
  /\ exists rest, e_buf ed = b ++ a ++ rest.

Lemma mem_move_spec buf d s n : 0 <= d -> 0 <= s -> d + n <= zlen buf -> s + n <= zlen buf -> 0 <= n ->
  mem_move buf d s n = Ret (take (Z.to_nat d) buf ++ take (Z.to_nat n) (drop (Z.to_nat s) buf) ++ drop (Z.to_nat (d + n)) buf).
Proof.
  intros Hd Hs Hdn Hsn Hn.
  assert (forall b', length b' = length buf ->
    (forall j, b' !! j = if decide (d <= Z.of_nat j < d + n) then buf !! Z.to_nat (Z.of_nat j - d + s) else buf !! j) ->
    b' = take (Z.to_nat d) buf ++ take (Z.to_nat n) (drop (Z.to_nat s) buf) ++ drop (Z.to_nat (d + n)) buf) as Hfin.
  { intros b' Hl Hb. apply list_eq. intros j. rewrite Hb. clear Hb.
    destruct (decide _) as [Hin|Hout].
    - rewrite lookup_app_r by (rewrite length_take; lia). rewrite length_take, lookup_app_l by (rewrite length_take, length_drop; lia).
      rewrite lookup_take_lt, lookup_drop by lia. f_equal. lia.
    - destruct (decide (Z.of_nat j < d)).
      + rewrite lookup_app_l by (rewrite length_take; lia). by rewrite lookup_take_lt by lia.
      + rewrite lookup_app_r by (rewrite length_take; lia). rewrite lookup_app_r by (rewrite !length_take, length_drop; lia).
        rewrite lookup_drop. f_equal. rewrite !length_take, length_drop. lia. }
  unfold mem_move. destruct (Z.leb_spec n 0) as [Hn0|Hn0].
  { cbn [orb]. f_equal. apply Hfin; [done|]. intros j. by rewrite decide_False by lia. }
  destruct (Z.eqb_spec d s) as [->|Hne]; cbn [orb].
  { f_equal. apply Hfin; [done|]. intros j. destruct (decide _); [f_equal; lia|done]. }
  assert (forall b i x, length b = length buf -> 0 <= s + i < zlen buf -> 0 <= d + i < zlen buf -> b !! Z.to_nat (s + i) = buf !! Z.to_nat (s + i) -> buf !! Z.to_nat (s + i) = Some x ->
    (c ← aget b (s + i); aset b (d + i) c) = Ret (<[Z.to_nat (d + i) := x]> b)) as Hstep.
  { intros b i x Hl H1 H2 Hr Hx. assert (aget b (s + i) = Ret x) as -> by (apply aget_Ret; split; [lia|by rewrite Hr]). rewrite bind_Ret. apply aset_ok. lia. }
  destruct (Z.ltb_spec d s) as [Hlt|Hge].
  - destruct (for_range_ind (fun i b => length b = length buf /\ forall j, b !! j = if decide (d <= Z.of_nat j < d + i) then buf !! Z.to_nat (Z.of_nat j - d + s) else buf !! j)
      0 n (fun i buf => c ← aget buf (s + i); aset buf (d + i) c) buf) as (b' & E & Hl & Hb); [lia| | |].
    + split; [done|]. intros j. by rewrite decide_False by lia.
    + intros i b Hi [Hl Hb]. destruct (lookup_lt_is_Some_2 buf (Z.to_nat (s + i))) as [x Hx]; [lia|].
      eexists. split; [apply (Hstep b i x); [done|lia|lia|rewrite Hb; by rewrite decide_False by lia|done]|]. split; [by rewrite length_insert|].
      intros j. destruct (decide (j = Z.to_nat (d + i))) as [->|Hj].
      * rewrite list_lookup_insert_eq by lia. rewrite decide_True by lia. rewrite <- Hx. f_equal. lia.
      * rewrite list_lookup_insert_ne by lia. rewrite Hb. destruct (decide _) as [?|Hno]; [by rewrite decide_True by lia|by rewrite decide_False by lia].
    + rewrite E. f_equal. by apply Hfin.
  - destruct (for_range_ind (fun k b => length b = length buf /\ forall j, b !! j = if decide (d + n - k <= Z.of_nat j < d + n) then buf !! Z.to_nat (Z.of_nat j - d + s) else buf !! j)
      0 n (fun k buf => let i := n - 1 - k in c ← aget buf (s + i); aset buf (d + i) c) buf) as (b' & E & Hl & Hb); [lia| | |].
    + split; [done|]. intros j. by rewrite decide_False by lia.
    + intros k b Hk [Hl Hb]. cbv zeta. destruct (lookup_lt_is_Some_2 buf (Z.to_nat (s + (n - 1 - k)))) as [x Hx]; [lia|].
      eexists. split; [apply (Hstep b (n - 1 - k) x); [done|lia|lia|rewrite Hb; by rewrite decide_False by lia|done]|]. split; [by rewrite length_insert|].
      intros j. destruct (decide (j = Z.to_nat (d + (n - 1 - k)))) as [->|Hj].
      * rewrite list_lookup_insert_eq by lia. rewrite decide_True by lia. rewrite <- Hx. f_equal. lia.
      * rewrite list_lookup_insert_ne by lia. rewrite Hb. destruct (decide _) as [?|Hno]; [by rewrite decide_True by lia|by rewrite decide_False by lia].
    + cbv zeta in E |- *. rewrite E. f_equal. apply Hfin; [done|]. intros j. rewrite Hb. by replace (d + n - n) with d by lia.
Qed.

(** *** Lines *)

Definition no_nl (l : list Z) : Prop := Forall (fun c => c <> 10) l.
Definition nls (l : list Z) : Z := zlen (filter (fun c => c = 10) l).

Lemma nls_app l m : nls (l ++ m) = nls l + nls m.
Proof. unfold nls. rewrite filter_app, length_app. lia. Qed.
Lemma nls_nonneg l : 0 <= nls l.
Proof. unfold nls. lia. Qed.
Lemma nls_no_nl l : no_nl l -> nls l = 0.
Proof. unfold nls. induction 1 as [|c l Hc _ IH]; [done|]. by rewrite filter_cons_False. Qed.
Lemma nls_one : nls [10] = 1.
Proof. done. Qed.

Lemma before_nl_no_nl a : no_nl (before_nl a).
Proof. unfold no_nl. induction a as [|c a IH]; simpl; [done|]. destruct (Z.eqb_spec c 10); [done|by constructor]. Qed.

Lemma line_split a : a = before_nl a ++ after_nl a /\ (after_nl a = [] \/ exists r, after_nl a = 10 :: r).
Proof.
  unfold after_nl. induction a as [|c a IH]; simpl; [by split; [|left]|]. destruct (Z.eqb_spec c 10) as [->|]; simpl.
  - split; [done|]. right. by exists a.
  - destruct IH as [E Ho]. split; [|done]. by rewrite E at 1.
Qed.

Lemma before_nl_app l r : no_nl l -> (r = [] \/ exists r', r = 10 :: r') -> before_nl (l ++ r) = l /\ after_nl (l ++ r) = r.
Proof.
  intros Hl Hr. assert (before_nl (l ++ r) = l) as E.
  { induction Hl as [|c l Hc _ IH]; simpl; [by destruct Hr as [->|(r' & ->)]|]. destruct (Z.eqb_spec c 10); [done|]. by rewrite IH. }
  split; [done|]. unfold after_nl. rewrite E. by rewrite drop_app_length.
Qed.

Lemma head_tail b : b = head_of b ++ tail_of b /\ no_nl (tail_of b) /\ (head_of b = [] \/ exists h, head_of b = h ++ [10]).
Proof.
  unfold head_of, tail_of. destruct (line_split (reverse b)) as [E Ho]. split.
  - rewrite <- reverse_app, <- E. by rewrite reverse_involutive.
  - split; [apply Forall_reverse, before_nl_no_nl|]. destruct Ho as [->|(r & ->)]; [by left|right]. exists (reverse r). by rewrite reverse_cons.
Qed.

Lemma head_tail_app h t : no_nl t -> (h = [] \/ exists h', h = h' ++ [10]) -> head_of (h ++ t) = h /\ tail_of (h ++ t) = t.
Proof.
  intros Ht Hh. unfold head_of, tail_of. rewrite reverse_app.
  destruct (before_nl_app (reverse t) (reverse h)) as [-> ->]; [by apply Forall_reverse| |by rewrite !reverse_involutive].
  destruct Hh as [->|(h' & ->)]; [by left|right]. exists (reverse h'). by rewrite reverse_snoc.
Qed.

Lemma line_back_spec b rest : line_back (length b) (b ++ rest) = Ret (zlen (head_of b)).
Proof.
  revert rest. induction b as [|x b IH] using rev_ind; intros rest; [done|]. rewrite length_app. cbn [length].
  replace (length b + 1)%nat with (S (length b)) by lia. cbn [line_back]. rewrite <- app_assoc. cbn [app]. rewrite aget_app, bind_Ret by done.
  destruct (Z.eqb_spec x 10) as [->|Hx]; cbn [negb].
  - destruct (head_tail_app (b ++ [10]) []) as [E _]; [constructor|by right; exists b|]. rewrite app_nil_r in E. rewrite E, length_app. simpl. f_equal. lia.
  - rewrite IH. destruct (head_tail b) as (Eb & Hn & Hh).
    destruct (head_tail_app (head_of b) (tail_of b ++ [x])) as [E _]; [apply Forall_app; split; [done|by constructor]|done|].
    rewrite app_assoc, <- Eb in E. by rewrite E.
Qed.

Lemma line_fwd_spec pre a rest : line_fwd (length a) (pre ++ a ++ rest) (zlen pre) = Ret (zlen pre + zlen (before_nl a)).
Proof.
  revert pre. induction a as [|c a IH]; intros pre; cbn [line_fwd length app before_nl]; [by rewrite Z.add_0_r|].
  rewrite aget_app, bind_Ret by done. destruct (Z.eqb_spec c 10); cbn [negb length]; [by rewrite Z.add_0_r|].
  replace (zlen pre + 1) with (zlen (pre ++ [c])) by (rewrite length_app; simpl; lia).
  rewrite (app_assoc pre [c] (a ++ rest)) || change (pre ++ c :: a ++ rest) with (pre ++ [c] ++ a ++ rest).
  rewrite (app_assoc pre [c]), IH, length_app. cbn [length]. f_equal. lia.
Qed.

Lemma skip_rows_stop n buf row target pos : target <= row -> skip_rows n buf row target pos = Ret pos.
Proof. intros Hr. destruct n as [|n]; [done|]. cbn [skip_rows]. by destruct (Z.ltb_spec row target); [lia|]. Qed.

Lemma skip_rows_spec pre t rest row target : row < target ->
  (nls t < target - row -> skip_rows (length t) (pre ++ t ++ rest) row target (zlen pre) = Ret (zlen pre + zlen t))
  /\ forall x y, t = x ++ 10 :: y -> nls x + 1 = target - row -> skip_rows (length t) (pre ++ t ++ rest) row target (zlen pre) = Ret (zlen pre + zlen x + 1).
Proof.
  revert pre row. induction t as [|c t IH]; intros pre row Hrt.
  - split; [intros _; cbn [skip_rows length]; f_equal; simpl; lia|]. by intros [|? ?] y Ht.
  - cbn [skip_rows length app]. destruct (Z.ltb_spec row target); [|lia]. rewrite aget_app, bind_Ret by done.
    assert (zlen (pre ++ [c]) = zlen pre + 1) as Hz by (rewrite length_app; simpl; lia).
    assert (pre ++ c :: t ++ rest = (pre ++ [c]) ++ t ++ rest) as -> by by rewrite <- app_assoc. rewrite <- Hz.
    set (row' := if c =? 10 then row + 1 else row). change (c :: t) with ([c] ++ t). rewrite nls_app.
    assert (row + nls [c] = row') as Hrow.
    { unfold row'. destruct (Z.eqb_spec c 10) as [->|Hc]; [done|]. rewrite nls_no_nl; [lia|by repeat constructor]. }
    destruct (Z.lt_ge_cases row' target) as [Hlt|Hge].
    + destruct (IH (pre ++ [c]) row' Hlt) as [IH1 IH2]. split.
      * intros Hn. rewrite IH1 by lia. f_equal. lia.
      * intros [|d x] y Ht Hn; [injection Ht as -> Ht|injection Ht as <- Ht].
        { change (nls []) with 0 in Hn. change (nls [10]) with 1 in Hrow. lia. }
        rewrite (IH2 x y) by (try done; change (c :: x) with ([c] ++ x) in Hn; rewrite nls_app in Hn; lia). f_equal. cbn [length]. lia.
    + rewrite skip_rows_stop by done. pose proof (nls_nonneg t). split; [lia|]. intros [|d x] y Ht Hn; [injection Ht as -> Ht|injection Ht as <- Ht].
      * f_equal. simpl. lia.
      * exfalso. change (c :: x) with ([c] ++ x) in Hn. rewrite nls_app in Hn. pose proof (nls_nonneg x). lia.
Qed.

(** *** The cursor *)

Lemma shows_at ed b a b' a' : shows ed b a -> b ++ a = b' ++ a' -> shows (set_cursor (zlen b') ed) b' a'.
Proof.
  intros (Hl & Hm & He & Hc & rest & Hb) Heq. unfold shows. rewrite <- Heq. cbn [e_buf e_len cursor set_cursor set_text]. do 4 (split; [done|]).
  exists rest. by rewrite Hb, !app_assoc, Heq.
Qed.

Lemma line_end_at ed b a pre t : shows ed b a -> b ++ a = pre ++ t -> vi_line_end ed (zlen pre) = Ret (zlen pre + zlen (before_nl t)).
Proof.
  intros (Hl & Hm & He & Hc & rest & Hb) Heq. unfold vi_line_end, clamp. cbv zeta. rewrite He, Heq, length_app.
  destruct (Z.ltb_spec (zlen pre) 0); [lia|]. destruct (Z.ltb_spec (Z.of_nat (length pre + length t)) (zlen pre)); [lia|].
  replace (Z.to_nat (Z.of_nat (length pre + length t) - zlen pre)) with (length t) by lia. rewrite Hb, app_assoc, Heq, <- app_assoc. apply line_fwd_spec.
Qed.

Lemma line_end_cursor ed b a : shows ed b a -> vi_line_end ed (cursor ed) = Ret (zlen b + zlen (before_nl a)).
Proof. intros Hs. pose proof Hs as (_ & _ & _ & -> & _). by apply (line_end_at ed b a). Qed.

Lemma line_start_cursor ed b a : shows ed b a -> vi_line_start ed (cursor ed) = Ret (zlen (head_of b)).
Proof.
  intros (Hl & Hm & He & Hc & rest & Hb). unfold vi_line_start, clamp. cbv zeta. rewrite He, Hc, length_app.
  destruct (Z.ltb_spec (zlen b) 0); [lia|]. destruct (Z.ltb_spec (Z.of_nat (length b + length a)) (zlen b)); [lia|].
  rewrite Hb, Nat2Z.id. apply line_back_spec.
Qed.

Lemma tail_length b : zlen b = zlen (head_of b) + zlen (tail_of b).
Proof. destruct (head_tail b) as [E _]. rewrite E at 1. rewrite length_app. lia. Qed.

Lemma cursor_col ed b a : shows ed b a -> vi_cursor_col ed = Ret (zlen (tail_of b)).
Proof.
  intros Hs. unfold vi_cursor_col. rewrite (line_start_cursor ed b a Hs), bind_Ret. destruct Hs as (_ & _ & _ & -> & _). f_equal. pose proof (tail_length b). lia.
Qed.

Lemma cursor_row ed b a : shows ed b a -> vi_cursor_row ed = Ret (nls b).
Proof.
  intros (Hl & Hm & He & Hc & rest & Hb). unfold vi_cursor_row. rewrite He, Hc, length_app. replace (Z.min (zlen b) (Z.of_nat (length b + length a))) with (zlen b) by lia.
  destruct (for_range_ind (fun i row => row = nls (take (Z.to_nat i) b)) 0 (zlen b) (fun i row => c ← aget (e_buf ed) i; Ret (if c =? 10 then row + 1 else row)) 0) as (r & -> & ->); [lia|done| |].
  - intros i r Hi ->. destruct (lookup_lt_is_Some_2 b (Z.to_nat i)) as [x Hx]; [lia|].
    assert (aget (e_buf ed) i = Ret x) as ->. { apply aget_Ret. split; [lia|]. rewrite Hb, lookup_app_l by lia. done. }
    rewrite bind_Ret. eexists. split; [done|]. replace (Z.to_nat (i + 1)) with (S (Z.to_nat i)) by lia. rewrite (take_S_r _ _ x), nls_app by done.
    destruct (Z.eqb_spec x 10) as [->|Hx']; [done|]. rewrite (nls_no_nl [x]); [lia|by repeat constructor].
  - by rewrite Nat2Z.id, firstn_all.
Qed.

(** Going to the row that starts after [h]. *)
Lemma set_cursor_row ed b a h t row col : shows ed b a -> b ++ a = h ++ t -> 0 <= col ->
  skip_rows (Z.to_nat (e_len ed)) (e_buf ed) 0 (if row <? 0 then 0 else row) 0 = Ret (zlen h) ->
  let k := (Z.to_nat col `min` length (before_nl t))%nat in
  vi_set_cursor_row_col ed row col = Ret (set_cursor (zlen (h ++ take k t)) ed) /\ shows (set_cursor (zlen (h ++ take k t)) ed) (h ++ take k t) (drop k t).
Proof.
  intros Hs Heq Hc Hsk. cbv zeta. set (k := (Z.to_nat col `min` length (before_nl t))%nat).
  assert (k <= length t)%nat as Hk. { destruct (line_split t) as [E _]. apply (f_equal length) in E. rewrite length_app in E. lia. }
  split; [|apply (shows_at ed b a); [done|by rewrite <- app_assoc, take_drop]].
  unfold vi_set_cursor_row_col. rewrite Hsk, bind_Ret, (line_end_at ed b a h t Hs Heq), bind_Ret. cbv zeta. f_equal. f_equal.
  rewrite length_app, length_take. replace (zlen h + zlen (before_nl t) - zlen h) with (zlen (before_nl t)) by lia.
  destruct (Z.ltb_spec col 0); [lia|]. destruct (Z.ltb_spec (zlen (before_nl t)) col); lia.
Qed.

Lemma skip_text ed b a : shows ed b a -> exists rest, e_buf ed = [] ++ (b ++ a) ++ rest /\ Z.to_nat (e_len ed) = length (b ++ a).
Proof. intros (_ & _ & -> & _ & rest & ->). exists rest. rewrite <- app_assoc. split; [done|lia]. Qed.

Lemma nls_tail b : nls b = nls (head_of b).
Proof. destruct (head_tail b) as (E & Hn & _). rewrite E at 1. rewrite nls_app, (nls_no_nl _ Hn). lia. Qed.

Lemma move_down_ok ed b a : shows ed b a -> exists ed', vi_move_down ed = Ret ed' /\ (e_buf ed' = e_buf ed /\ e_len ed' = e_len ed) /\ dirty ed' = dirty ed /\ shows ed' (apply_edit GoDown (b, a)).1 (apply_edit GoDown (b, a)).2.
Proof.
  intros Hs. unfold vi_move_down. rewrite (cursor_row ed b a Hs), bind_Ret, (cursor_col ed b a Hs), bind_Ret.
  destruct (skip_text ed b a Hs) as (rest & Eb & El). destruct (line_split a) as [Ea Ho]. pose proof (nls_nonneg b) as Hn.
  destruct (skip_rows_spec [] (b ++ a) rest 0 (nls b + 1)) as [Hend Hhit]; [lia|]. change (Z.of_nat (length (@nil Z))) with 0 in Hend, Hhit. cbn [apply_edit].
  destruct Ho as [E0|(r & Er)].
  - rewrite E0, app_nil_r in Ea. assert (no_nl a) as Hna by (rewrite Ea; apply before_nl_no_nl).
    destruct (set_cursor_row ed b a (b ++ a) [] (nls b + 1) (zlen (tail_of b)) Hs) as [-> Hs']; [by rewrite app_nil_r|lia| |].
    { destruct (Z.ltb_spec (nls b + 1) 0); [lia|]. rewrite El, Eb. rewrite Hend; [done|]. rewrite nls_app, (nls_no_nl a) by done. lia. }
    rewrite take_nil, drop_nil, app_nil_r in *. eexists. rewrite E0. done.
  - assert (b ++ a = (b ++ before_nl a) ++ 10 :: r) as Et by (rewrite Ea at 1; by rewrite Er, <- app_assoc).
    destruct (set_cursor_row ed b a ((b ++ before_nl a) ++ [10]) r (nls b + 1) (zlen (tail_of b)) Hs) as [-> Hs']; [by rewrite <- app_assoc|lia| |].
    { destruct (Z.ltb_spec (nls b + 1) 0); [lia|]. rewrite El, Eb. rewrite (Hhit _ _ Et); [f_equal; rewrite (length_app _ [10]); simpl; lia|]. rewrite nls_app, (nls_no_nl _ (before_nl_no_nl a)). lia. }
    rewrite Er. rewrite Nat2Z.id in *. eexists. split; [done|]. split; [done|]. split; [done|]. cbn [fst snd]. rewrite <- !app_assoc in Hs'. cbn [app] in Hs'. by rewrite <- !app_assoc.
Qed.

Lemma move_up_ok ed b a : shows ed b a -> exists ed', vi_move_up ed = Ret ed' /\ (e_buf ed' = e_buf ed /\ e_len ed' = e_len ed) /\ dirty ed' = dirty ed /\ shows ed' (apply_edit GoUp (b, a)).1 (apply_edit GoUp (b, a)).2.
Proof.
  intros Hs. unfold vi_move_up. rewrite (cursor_row ed b a Hs), bind_Ret, (cursor_col ed b a Hs), bind_Ret.
  destruct (skip_text ed b a Hs) as (rest & Eb & El). destruct (head_tail b) as (Ebt & Hnt & Hh). cbn [apply_edit].
  destruct Hh as [E0|(h & Eh)].
  { rewrite E0, decide_True by done. destruct (Z.ltb_spec 0 (nls b)) as [Hlt|_]; [|by exists ed]. rewrite nls_tail, E0 in Hlt. change (nls []) with 0 in Hlt. lia. }
  cbv zeta. rewrite Eh, decide_False by (by destruct h). rewrite length_app. cbn [length]. replace (length h + 1 - 1)%nat with (length h) by lia. rewrite take_app_length.
  set (k := (length (tail_of b) `min` length (tail_of h))%nat). cbn [fst snd].
  assert (nls b = nls h + 1) as Hrow by (rewrite nls_tail, Eh, nls_app; done). pose proof (nls_nonneg h) as Hn.
  destruct (Z.ltb_spec 0 (nls b)) as [_|?]; [|lia]. destruct (head_tail h) as (Eht & Hnh & Hhh).
  assert (b ++ a = head_of h ++ tail_of h ++ 10 :: tail_of b ++ a) as Et.
  { rewrite Ebt at 1. rewrite Eh. rewrite Eht at 1. by rewrite <- !app_assoc. }
  destruct (before_nl_app (tail_of h) (10 :: tail_of b ++ a)) as [Ebn _]; [done|right; by eexists|].
  destruct (set_cursor_row ed b a (head_of h) (tail_of h ++ 10 :: tail_of b ++ a) (nls b - 1) (zlen (tail_of b)) Hs Et) as [-> Hs']; [lia| |].
  { destruct (Z.ltb_spec (nls b - 1) 0); [lia|]. rewrite El, Eb. destruct Hhh as [E0|(x & Ex)].
    - rewrite skip_rows_stop; [by rewrite E0|]. rewrite Hrow, nls_tail, E0. change (nls []) with 0. lia.
    - assert (nls x + 1 = nls h) as Hx by (rewrite (nls_tail h), Ex, nls_app; done). pose proof (nls_nonneg x).
      destruct (skip_rows_spec [] (b ++ a) rest 0 (nls b - 1)) as [_ Hhit]; [lia|]. change (Z.of_nat (length (@nil Z))) with 0 in Hhit.
      rewrite (Hhit x (tail_of h ++ 10 :: tail_of b ++ a)); [f_equal; rewrite Ex, length_app; simpl; lia|by rewrite Et, Ex, <- app_assoc|lia]. }
  rewrite Nat2Z.id, Ebn in *. fold k in Hs' |- *. assert (k <= length (tail_of h))%nat by (unfold k; lia). rewrite take_app_le, drop_app_le in Hs' by lia. rewrite take_app_le by lia.
  eexists. split; [done|]. done.
Qed.

(** *** The text *)

Lemma shows_text ed ed' b a b' a' : shows ed b a -> shows ed' b' a' -> e_buf ed = e_buf ed' -> e_len ed = e_len ed' -> b ++ a = b' ++ a'.
Proof.
  intros (_ & _ & El & _ & r & Eb) (_ & _ & El' & _ & r' & Eb') HB HL. rewrite Eb, Eb', !app_assoc in HB. apply app_inj_1 in HB as [? _]; [done|]. lia.
Qed.

Lemma insert_ok ed b a c : shows ed b a -> exists ed', vi_insert_char ed c = Ret ed'
  /\ shows ed' (apply_edit (Insert c) (b, a)).1 (apply_edit (Insert c) (b, a)).2 /\ (ed' = ed /\ VI_MAX_TEXT <= zlen (b ++ a) \/ dirty ed' = true).
Proof.
  intros Hs. pose proof Hs as (Hl & Hm & He & Hc & rest & Hb). unfold vi_insert_char. rewrite He. cbn [apply_edit].
  destruct (Z.leb_spec VI_MAX_TEXT (zlen (b ++ a))) as [Hge|Hlt]; [destruct (Z.ltb_spec (zlen (b ++ a)) VI_MAX_TEXT); [lia|]|destruct (Z.ltb_spec (zlen (b ++ a)) VI_MAX_TEXT); [|lia]].
  { exists ed. split; [done|]. split; [done|]. by left. }
  unfold VI_MAX_TEXT, VFS_MAX_FSIZE in *. rewrite length_app in Hm, Hlt, He |- *. rewrite Hc, mem_move_spec by (rewrite ?Hl; lia). rewrite bind_Ret.
  replace (Z.to_nat (zlen b + 1)) with (length b + 1)%nat by lia. replace (Z.to_nat (Z.of_nat (length b + length a) - zlen b)) with (length a) by lia.
  replace (Z.to_nat (zlen b + 1 + _)) with (length b + (length a + 1))%nat by lia. rewrite Nat2Z.id.
  assert (e_buf ed = b ++ (a ++ rest)) as Hb' by done. rewrite Hb', firstn_app_2, drop_app_length, take_app_length. clear Hb'.
  rewrite <- !drop_drop, !drop_app_length.
  assert (zlen rest = 16385 - zlen b - zlen a) as Hlr by (rewrite Hb, !length_app in Hl; lia).
  destruct rest as [|x [|y r]]; cbn [length] in Hlr; [lia|lia|].
  assert (exists z, take 1 (a ++ x :: y :: r) = [z]) as [z ->] by (destruct a; by eexists). rewrite <- app_assoc. cbn [app].
  rewrite aset_app, bind_Ret by done. cbn [drop]. rewrite app_assoc, aset_app, bind_Ret by (rewrite !length_app; simpl; lia).
  eexists. split; [done|]. split; [|by right]. unfold shows. cbn [e_buf e_len cursor set_text fst snd].
  assert (zlen ((b ++ [c]) ++ a) = Z.of_nat (length b + length a) + 1) as Hz by (rewrite !length_app; simpl; lia). rewrite Hz.
  split; [rewrite !length_app; simpl; lia|]. split; [unfold VI_MAX_TEXT, VFS_MAX_FSIZE; lia|]. split; [done|]. split; [rewrite length_app; simpl; lia|].
  exists (0 :: r). by rewrite <- !app_assoc.
Qed.

(** The text [m] is cut out and what follows moves up. *)
Lemma cut_spec buf h m q rest n : buf = h ++ m ++ q ++ rest -> rest <> [] -> n = zlen h + zlen q ->
  exists buf', (b ← mem_move buf (zlen h) (zlen h + zlen m) (zlen q); aset b n 0) = Ret buf' /\ zlen buf' = zlen buf /\ exists rest', buf' = h ++ q ++ rest'.
Proof.
  intros -> Hr ->. assert (1 <= zlen rest) as Hr1 by (destruct rest; [done|simpl; lia]).
  rewrite mem_move_spec by (rewrite ?length_app; lia). rewrite bind_Ret. rewrite <- !Nat2Z.inj_add, !Nat2Z.id, <- !drop_drop, take_app_length, !drop_app_length, take_app_length.
  destruct (drop (length q) (m ++ q ++ rest)) as [|y r] eqn:Ed; apply (f_equal length) in Ed; rewrite length_drop, !length_app in Ed; cbn [length] in Ed; [lia|].
  rewrite app_assoc, aset_app by (rewrite length_app; lia). eexists. split; [done|]. split; [rewrite !length_app; cbn [length]; lia|]. exists (0 :: r). by rewrite <- !app_assoc.
Qed.

Lemma text_room ed b a rest : shows ed b a -> e_buf ed = (b ++ a) ++ rest -> rest <> [].
Proof. intros (Hl & Hm & _) Hb ->. rewrite Hb, app_nil_r in Hl. unfold VI_MAX_TEXT, VFS_MAX_FSIZE in Hm. lia. Qed.

Lemma delete_at_spec ed b a p x q : shows ed b a -> b ++ a = p ++ x :: q ->
  exists buf, vi_delete_at ed (zlen p) = Ret (set_text buf (e_len ed - 1) (cursor ed) true ed) /\ zlen buf = 16385 /\ exists rest, buf = p ++ q ++ rest.
Proof.
  intros Hs Heq. pose proof Hs as (Hl & Hm & He & Hc & rest & Hb). unfold vi_delete_at. rewrite He, Heq, length_app. cbn [length].
  destruct (Z.ltb_spec (zlen p) 0); [lia|]. destruct (Z.leb_spec (Z.of_nat (length p + S (length q))) (zlen p)); [lia|]. cbn [orb].
  rewrite app_assoc in Hb. pose proof (text_room ed b a rest Hs Hb) as Hr. rewrite Heq, <- app_assoc in Hb. cbn [app] in Hb.
  destruct (cut_spec (e_buf ed) p [x] q rest (zlen p + zlen q) Hb Hr eq_refl) as (buf & E & Hlb & rest' & Eb).
  exists buf. rewrite <- Hl. split; [|split; [done|by exists rest']]. replace (Z.of_nat (length p + S (length q)) - zlen p - 1) with (zlen q) by lia.
  replace (Z.of_nat (length p + S (length q)) - 1) with (zlen p + zlen q) by lia. change (zlen [x]) with 1 in E.
  rewrite <- bind_assoc, E. done.
Qed.

Lemma delete_ok ed b a : shows ed b a -> exists ed', vi_delete_at ed (cursor ed) = Ret ed' /\ shows ed' (apply_edit Delete (b, a)).1 (apply_edit Delete (b, a)).2
  /\ (ed' = ed /\ a = [] \/ dirty ed' = true).
Proof.
  intros Hs. pose proof Hs as (Hl & Hm & He & Hc & _). destruct a as [|x a].
  { exists ed. unfold vi_delete_at. rewrite He, Hc, app_nil_r. destruct (Z.leb_spec (zlen b) (zlen b)); [|lia]. rewrite orb_true_r. split; [done|]. split; [done|by left]. }
  rewrite Hc. destruct (delete_at_spec ed b (x :: a) b x a Hs eq_refl) as (buf & -> & Hlb & rest & ->). eexists. split; [done|]. split; [|by right].
  rewrite length_app in Hm, He. cbn [length] in Hm, He. unfold shows. cbn [e_buf e_len cursor set_text apply_edit fst snd tail].
  split; [exact Hlb|]. rewrite length_app. split; [lia|]. split; [lia|]. split; [done|]. by exists rest.
Qed.

Lemma backspace_ok ed b a : shows ed b a -> exists ed', vi_backspace ed = Ret ed' /\ shows ed' (apply_edit Backspace (b, a)).1 (apply_edit Backspace (b, a)).2
  /\ (ed' = ed /\ b = [] \/ dirty ed' = true).
Proof.
  intros Hs. pose proof Hs as (Hl & Hm & He & Hc & _). unfold vi_backspace. rewrite Hc. destruct b as [|x b _] using rev_ind.
  { exists ed. split; [done|]. split; [done|by left]. }
  cbn [apply_edit fst snd]. rewrite length_app. cbn [length]. destruct (Z.leb_spec (Z.of_nat (length b + 1)) 0); [lia|]. replace (Z.of_nat (length b + 1) - 1) with (zlen b) by lia.
  destruct (delete_at_spec ed (b ++ [x]) a b x a Hs) as (buf & -> & Hlb & rest & ->); [by rewrite <- app_assoc|]. rewrite bind_Ret. eexists. split; [done|]. split; [|by right].
  rewrite length_app in Hm, He. rewrite length_app in Hm, He, Hc. cbn [length] in Hm, He, Hc. replace (length b + 1 - 1)%nat with (length b) by lia. rewrite take_app_length.
  unfold shows. cbn [e_buf e_len cursor set_cursor set_text fst snd].
  split; [exact Hlb|]. rewrite length_app. split; [lia|]. split; [lia|]. split; [lia|]. by exists rest.
Qed.

Lemma delete_line_ok ed b a : shows ed b a -> exists ed', vi_delete_line ed = Ret ed' /\ shows ed' (apply_edit DeleteLine (b, a)).1 (apply_edit DeleteLine (b, a)).2 /\ dirty ed' = true.
Proof.
  intros Hs. pose proof Hs as (Hl & Hm & He & Hc & rest & Hb). cbn [apply_edit fst snd]. unfold vi_delete_line.
  rewrite (line_start_cursor ed b a Hs), bind_Ret, (line_end_cursor ed b a Hs), bind_Ret.
  destruct (line_split a) as [Ea Ho]. destruct (head_tail b) as (Ebt & _).
  set (q := tail (after_nl a)). assert (exists m, b ++ a = head_of b ++ m ++ q /\ (if zlen b + zlen (before_nl a) <? e_len ed then c ← aget (e_buf ed) (zlen b + zlen (before_nl a)); Ret (if c =? 10 then zlen b + zlen (before_nl a) + 1 else zlen b + zlen (before_nl a))
    else Ret (zlen b + zlen (before_nl a))) = Ret (zlen (head_of b) + zlen m)) as (m & Em & ->).
  { pose proof (tail_length b) as Htl. destruct Ho as [E0|(r & Er)].
    - exists (tail_of b ++ a). unfold q. rewrite E0 in *. rewrite app_nil_r in Ea. cbn [tail]. rewrite app_nil_r. split; [rewrite Ebt at 1; by rewrite <- app_assoc|].
      rewrite <- Ea, He, !length_app. destruct (Z.ltb_spec (zlen b + zlen a) (Z.of_nat (length b + length a))); [lia|]. f_equal. lia.
    - exists (tail_of b ++ before_nl a ++ [10]). unfold q. rewrite Er in *. cbn [tail]. split; [rewrite Ebt at 1; rewrite Ea at 1; by rewrite <- !app_assoc|].
      assert (e_len ed = zlen b + zlen (before_nl a) + 1 + zlen r) as El. { rewrite He. apply (f_equal length) in Ea. rewrite length_app in Ea. simpl in Ea. rewrite length_app. lia. }
      destruct (Z.ltb_spec (zlen b + zlen (before_nl a)) (e_len ed)); [|lia].
      assert (e_buf ed = (b ++ before_nl a) ++ 10 :: r ++ rest) as Eb. { rewrite Hb. rewrite Ea at 1. by rewrite <- !app_assoc. }
      rewrite Eb, aget_app, bind_Ret by (rewrite length_app; lia). cbn [Z.eqb Pos.eqb]. f_equal. rewrite !length_app. simpl. lia. }
  rewrite bind_Ret. cbv zeta.
  rewrite app_assoc in Hb. pose proof (text_room ed b a rest Hs Hb) as Hr. rewrite Em, <- !app_assoc in Hb.
  assert (e_len ed = zlen (head_of b) + zlen m + zlen q) as El by (rewrite He, Em, !length_app; lia). rewrite Em in Hm.
  destruct ((zlen (head_of b) =? 0) && (e_len ed <=? zlen (head_of b) + zlen m)) eqn:Ec.
  - apply andb_true_iff in Ec as [E0%Z.eqb_eq E1%Z.leb_le]. assert (head_of b = []) as -> by (destruct (head_of b); [done|simpl in E0; lia]). assert (q = []) as -> by (destruct q; [done|simpl in *; lia]).
    destruct (e_buf ed) as [|x buf] eqn:Ebuf; [simpl in Hl; lia|]. rewrite (aset_app [] x buf), bind_Ret by done. eexists. split; [done|]. split; [|done].
    split; [simpl in *; lia|]. split; [done|]. split; [done|]. split; [done|]. by exists (0 :: buf).
  - destruct (cut_spec (e_buf ed) (head_of b) m q rest (zlen (head_of b) + zlen q) Hb Hr eq_refl) as (buf & E & Hlb & rest' & Eb).
    replace (e_len ed - (zlen (head_of b) + zlen m)) with (zlen q) by lia. replace (e_len ed - (zlen (head_of b) + zlen m - zlen (head_of b))) with (zlen (head_of b) + zlen q) by lia.
    rewrite <- bind_assoc, E, bind_Ret. eexists. split; [done|]. split; [|done].
    destruct (Z.ltb_spec (zlen (head_of b) + zlen q) (zlen (head_of b))); [lia|].
    rewrite !length_app in Hm. unfold shows. cbn [e_buf e_len cursor set_text]. rewrite length_app. split; [lia|]. split; [lia|]. split; [lia|]. split; [done|]. by exists rest'.
Qed.

(** *** Every operation *)

Definition run_edit (e : vi_edit) ed : outcome vi_editor_t :=
  match e with
  | Insert c => vi_insert_char ed c
  | Delete => vi_delete_at ed (cursor ed)
  | Backspace => vi_backspace ed
  | DeleteLine => vi_delete_line ed
  | GoLeft => Ret (vi_move_left ed)
  | GoRight => Ret (vi_move_right ed)
  | LineStart => p ← vi_line_start ed (cursor ed); Ret (set_cursor p ed)
  | LineEnd => p ← vi_line_end ed (cursor ed); Ret (set_cursor p ed)
  | GoDown => vi_move_down ed
  | GoUp => vi_move_up ed
  end.

(** The text is saved as it is unless the editor says that it changed. *)
Lemma run_edit_ok e ed z : shows ed z.1 z.2 -> exists ed', run_edit e ed = Ret ed' /\ shows ed' (apply_edit e z).1 (apply_edit e z).2
  /\ ((apply_edit e z).1 ++ (apply_edit e z).2 = z.1 ++ z.2 /\ dirty ed' = dirty ed \/ dirty ed' = true).
Proof.
  destruct z as [b a]. cbn [fst snd]. intros Hs. pose proof Hs as (Hl & Hm & He & Hc & _). destruct e; cbn [run_edit].
  - destruct (insert_ok ed b a c Hs) as (ed' & E & Hs' & Hd). exists ed'. split; [done|]. split; [done|]. destruct Hd as [[-> Hge]|?]; [left|by right].
    cbn [apply_edit]. destruct (Z.ltb_spec (zlen (b ++ a)) VI_MAX_TEXT); [lia|done].
  - destruct (delete_ok ed b a Hs) as (ed' & E & Hs' & Hd). exists ed'. split; [done|]. split; [done|]. destruct Hd as [[-> ->]|?]; [by left|by right].
  - destruct (backspace_ok ed b a Hs) as (ed' & E & Hs' & Hd). exists ed'. split; [done|]. split; [done|]. destruct Hd as [[-> ->]|?]; [by left|by right].
  - destruct (delete_line_ok ed b a Hs) as (ed' & E & Hs' & Hd). exists ed'. split; [done|]. split; [done|]. by right.
  - eexists. split; [done|]. cbn [apply_edit fst snd]. rewrite app_assoc, take_drop. split; [|left; split; [done|]; unfold vi_move_left; by destruct (0 <? cursor ed)].
    unfold vi_move_left. rewrite Hc. destruct b as [|x b _] using rev_ind; [done|]. rewrite length_app. cbn [length]. destruct (Z.ltb_spec 0 (Z.of_nat (length b + 1))); [|lia].
    replace (length b + 1 - 1)%nat with (length b) by lia. replace (Z.of_nat (length b + 1) - 1) with (zlen b) by lia. rewrite take_app_length, drop_app_length. apply (shows_at ed (b ++ [x]) a); [done|by rewrite <- app_assoc].
  - eexists. split; [done|]. cbn [apply_edit fst snd]. rewrite <- app_assoc, take_drop. split; [|left; split; [done|]; unfold vi_move_right; by destruct (cursor ed <? e_len ed)].
    unfold vi_move_right. rewrite Hc, He, length_app. destruct a as [|x a].
    + cbn [length take drop]. rewrite app_nil_r. by destruct (Z.ltb_spec (zlen b) (Z.of_nat (length b + 0))); [lia|].
    + cbn [length]. destruct (Z.ltb_spec (zlen b) (Z.of_nat (length b + S (length a)))); [|lia]. cbn [take drop]. rewrite take_0.
      replace (zlen b + 1) with (zlen (b ++ [x])) by (rewrite length_app; simpl; lia). apply (shows_at ed b (x :: a)); [done|by rewrite <- app_assoc].
  - rewrite (line_start_cursor ed b a Hs), bind_Ret. eexists. split; [done|]. destruct (head_tail b) as (E & _). cbn [apply_edit fst snd]. rewrite app_assoc, <- E. split; [|by left].
    apply (shows_at ed b a); [done|]. by rewrite app_assoc, <- E.
  - rewrite (line_end_cursor ed b a Hs), bind_Ret. eexists. split; [done|]. destruct (line_split a) as (E & _). cbn [apply_edit fst snd]. rewrite <- app_assoc, <- E. split; [|by left].
    replace (zlen b + zlen (before_nl a)) with (zlen (b ++ before_nl a)) by (rewrite length_app; lia). apply (shows_at ed b a); [done|]. by rewrite <- app_assoc, <- E.
  - destruct (move_down_ok ed b a Hs) as (ed' & E & (Hb & Hln) & Hd & Hs'). exists ed'. split; [done|]. split; [done|]. left. split; [|done]. by apply (shows_text ed' ed).
  - destruct (move_up_ok ed b a Hs) as (ed' & E & (Hb & Hln) & Hd & Hs'). exists ed'. split; [done|]. split; [done|]. left. split; [|done]. by apply (shows_text ed' ed).
Qed.

(** Only the text, its length, the cursor and the dirty mark differ. *)
Definition text_only ed ed' : Prop := exists b l c d, ed' = set_text b l c d ed.

Lemma text_only_refl ed : text_only ed ed.
Proof. exists (e_buf ed), (e_len ed), (cursor ed), (dirty ed). by destruct ed. Qed.
Lemma text_only_trans ed1 ed2 ed3 : text_only ed1 ed2 -> text_only ed2 ed3 -> text_only ed1 ed3.
Proof. intros (b & l & c & d & ->) (b' & l' & c' & d' & ->). by exists b', l', c', d'. Qed.
Lemma text_only_set ed b l c d : text_only ed (set_text b l c d ed).
Proof. by exists b, l, c, d. Qed.
#[local] Hint Resolve text_only_refl text_only_set : vi.

Lemma run_edit_text e ed ed' : run_edit e ed = Ret ed' -> text_only ed ed'.
Proof.
  assert (forall ed ed' r c, vi_set_cursor_row_col ed r c = Ret ed' -> text_only ed ed') as Hrow.
  { intros ed0 ed1 r c E. unfold vi_set_cursor_row_col in E. cbv zeta in E. outcome_inv. apply text_only_set. }
  assert (forall ed ed' i, vi_delete_at ed i = Ret ed' -> text_only ed ed') as Hdel.
  { intros ed0 ed1 i E. unfold vi_delete_at in E. destruct (_ || _); outcome_inv; auto with vi. }
  destruct e; cbn [run_edit]; intros E.
  - unfold vi_insert_char in E. destruct (VI_MAX_TEXT <=? e_len ed); outcome_inv; auto with vi.
  - by apply (Hdel _ _ (cursor ed)).
  - unfold vi_backspace in E. destruct (cursor ed <=? 0); outcome_inv; [auto with vi|]. apply Hdel in E0. apply (text_only_trans _ _ _ E0), text_only_set.
  - unfold vi_delete_line in E. apply bind_Ret_inv in E as (st & _ & E). apply bind_Ret_inv in E as (en & _ & E). apply bind_Ret_inv in E as (sp & _ & E).
    destruct (_ && _); outcome_inv; auto with vi.
  - outcome_inv. unfold vi_move_left. destruct (0 <? cursor ed); [apply text_only_set|auto with vi].
  - outcome_inv. unfold vi_move_right. destruct (cursor ed <? e_len ed); [apply text_only_set|auto with vi].
  - outcome_inv. apply text_only_set.
  - outcome_inv. apply text_only_set.
  - unfold vi_move_down in E. outcome_inv. by apply (Hrow _ _ (a + 1) a0).
  - unfold vi_move_up in E. apply bind_Ret_inv in E as (r & _ & E). apply bind_Ret_inv in E as (c & _ & E). destruct (0 <? r); [by apply (Hrow _ _ (r - 1) c)|]. outcome_inv. auto with vi.
Qed.

(** What a key does to the text, in insert and in normal mode. *)
Definition insert_edits (c : Z) : list vi_edit :=
  if c =? VI_KEY_LEFT then [GoLeft] else if c =? VI_KEY_RIGHT then [GoRight] else if c =? VI_KEY_UP then [GoUp] else if c =? VI_KEY_DOWN then [GoDown]
  else if (c =? 13) || (c =? 10) then [Insert 10] else if (c =? 8) || (c =? 127) then [Backspace] else if (32 <=? c) && (c <=? 126) then [Insert c] else [].
Definition normal_edits (c : Z) : list vi_edit :=
  if (c =? 104) || (c =? VI_KEY_LEFT) then [GoLeft] else if (c =? 108) || (c =? VI_KEY_RIGHT) then [GoRight]
  else if (c =? 106) || (c =? VI_KEY_DOWN) then [GoDown] else if (c =? 107) || (c =? VI_KEY_UP) then [GoUp]
  else if c =? 48 then [LineStart] else if c =? 36 then [LineEnd] else if c =? 97 then [GoRight] else if c =? 111 then [LineEnd; Insert 10]
  else if c =? 120 then [Delete] else [].
Definition starts_insert (c : Z) : bool := (c =? 105) || (c =? 97) || (c =? 111).

Definition apply_edits (es : list vi_edit) (z : list Z * list Z) : list Z * list Z := foldl (fun z e => apply_edit e z) z es.

(** [ed'] is [ed] after [es] on the text [z]. *)
Definition edited (es : list vi_edit) ed (z : list Z * list Z) ed' : Prop :=
  shows ed' (apply_edits es z).1 (apply_edits es z).2
  /\ ((apply_edits es z).1 ++ (apply_edits es z).2 = z.1 ++ z.2 /\ dirty ed' = dirty ed \/ dirty ed' = true).

Lemma edited_nil ed z : shows ed z.1 z.2 -> edited [] ed z ed.
Proof. intros Hs. split; [done|by left]. Qed.

Lemma edited_one e ed z : shows ed z.1 z.2 -> exists ed', run_edit e ed = Ret ed' /\ edited [e] ed z ed' /\ text_only ed ed'.
Proof. intros Hs. destruct (run_edit_ok e ed z Hs) as (ed' & E & Hs' & Hd). exists ed'. split; [done|]. split; [by split|]. by apply (run_edit_text e). Qed.

Lemma edited_mode es ed z ed' i q : edited es ed z ed' -> edited es ed z (set_mode i q ed').
Proof. by intros [Hs Hd]. Qed.

Lemma insert_key_ok c ed z : shows ed z.1 z.2 -> exists ed', insert_key c ed = Ret ed' /\ edited (insert_edits c) ed z ed' /\ text_only ed ed'.
Proof.
  intros Hs. unfold insert_key, insert_edits, VI_KEY_LEFT, VI_KEY_RIGHT, VI_KEY_UP, VI_KEY_DOWN.
  destruct (Z.eqb_spec c 1003) as [->|]; [|destruct (Z.eqb_spec c 1004) as [->|]; [|destruct (Z.eqb_spec c 1001) as [->|]; [|destruct (Z.eqb_spec c 1002) as [->|]]]].
  - apply (edited_one GoLeft ed z Hs).
  - apply (edited_one GoRight ed z Hs).
  - destruct (edited_one GoUp ed z Hs) as (ed' & E & He). exists ed'. cbn [run_edit] in E. by rewrite E.
  - destruct (edited_one GoDown ed z Hs) as (ed' & E & He). exists ed'. cbn [run_edit] in E. by rewrite E.
  - rewrite bind_Ret. destruct (_ || _); [apply (edited_one (Insert 10) ed z Hs)|]. destruct (_ || _); [apply (edited_one Backspace ed z Hs)|].
    destruct (_ && _); [apply (edited_one (Insert c) ed z Hs)|]. exists ed. split; [done|]. split; [by apply edited_nil|apply text_only_refl].
Qed.

Lemma normal_key_ok c ed z : shows ed z.1 z.2 -> exists ed', normal_key c ed = Ret ed' /\ edited (normal_edits c) ed z ed'
  /\ (starts_insert c = false /\ text_only ed ed' \/ starts_insert c = true /\ exists ed1, text_only ed ed1 /\ ed' = set_mode true (e_quit ed1) ed1).
Proof.
  intros Hs. unfold normal_key, normal_edits, starts_insert. cbv zeta.
  assert (forall e, exists ed', run_edit e ed = Ret ed' /\ edited [e] ed z ed' /\ (false = false /\ text_only ed ed' \/ false = true /\ exists ed1, text_only ed ed1 /\ ed' = set_mode true (e_quit ed1) ed1)) as Hone.
  { intros e. destruct (edited_one e ed z Hs) as (ed' & E & He & Ht). exists ed'. split; [done|]. split; [done|]. by left. }
  unfold VI_KEY_LEFT, VI_KEY_RIGHT, VI_KEY_UP, VI_KEY_DOWN.
  destruct (Z.eqb_spec c 105) as [->|N1]; [|destruct (Z.eqb_spec c 97) as [->|N2]; [|destruct (Z.eqb_spec c 111) as [->|N3]]].
  - eexists. split; [done|]. split; [apply edited_mode, edited_nil, Hs|]. right. split; [done|]. exists ed. split; [apply text_only_refl|done].
  - destruct (edited_one GoRight ed z Hs) as (ed' & [= <-] & He & Ht). eexists. split; [done|]. split; [apply edited_mode, He|]. right. split; [done|]. by eexists.
  - cbn [Z.eqb Pos.eqb orb]. destruct (edited_one LineEnd ed z Hs) as (ed1 & E1 & [Hs1 Hd1] & Ht1). cbn [run_edit] in E1. rewrite <- bind_assoc in E1 || idtac.
    apply bind_Ret_inv in E1 as (p & -> & [= <-]). rewrite bind_Ret.
    destruct (edited_one (Insert 10) (set_cursor p ed) (apply_edits [LineEnd] z) Hs1) as (ed2 & E2 & [Hs2 Hd2] & Ht2). cbn [run_edit] in E2. rewrite E2, bind_Ret.
    eexists. split; [done|]. split; [apply edited_mode; split; [exact Hs2|]|].
    + destruct Hd2 as [[Et Ed]|?]; [|by right]. destruct Hd1 as [[Et1 Ed1]|?]; [left|right; congruence]. split; [|congruence]. change (apply_edits [LineEnd; Insert 10] z) with (apply_edits [Insert 10] (apply_edits [LineEnd] z)). congruence.
    + right. split; [done|]. exists ed2. split; [by apply (text_only_trans _ _ _ Ht1)|done].
  - cbn [orb]. destruct (_ || _); [apply (Hone GoLeft)|]. destruct (_ || _); [apply (Hone GoRight)|]. destruct (_ || _); [apply (Hone GoDown)|]. destruct (_ || _); [apply (Hone GoUp)|].
    destruct (c =? 48); [apply (Hone LineStart)|]. destruct (c =? 36); [apply (Hone LineEnd)|].
    destruct (c =? 120).
    + destruct (Hone Delete) as (ed' & E & He & Ht). cbn [run_edit] in E. rewrite E, bind_Ret. exists ed'. split; [|done].
      destruct He as [(_ & _ & El & Ec & _) _]. rewrite El, Ec, length_app. by destruct (Z.ltb_spec (Z.of_nat (length (apply_edits [Delete] z).1 + length (apply_edits [Delete] z).2)) (zlen (apply_edits [Delete] z).1)); [lia|].
    + exists ed. split; [done|]. split; [by apply edited_nil|]. left. split; [done|]. apply text_only_refl.
Qed.

(** C37. Whatever the key, the editor's byte-moving operations do to the buffer
    what the key means on the text around the cursor: inserting, deleting, going
    left and right, up and down a line keeping the column, to the ends of a line,
    opening and deleting lines.  A text that differs from the saved one is marked. *)
Theorem vi_keys_edit (ed : vi_editor_t) (z : list Z * list Z) (c : Z) : shows ed z.1 z.2 ->
  (exists ed', insert_key c ed = Ret ed' /\ edited (insert_edits c) ed z ed' /\ mode_insert ed' = mode_insert ed)
  /\ (exists ed', normal_key c ed = Ret ed' /\ edited (normal_edits c) ed z ed' /\ mode_insert ed' = mode_insert ed || starts_insert c)
  /\ exists ed', vi_delete_line ed = Ret ed' /\ edited [DeleteLine] ed z ed' /\ mode_insert ed' = mode_insert ed.
Proof.
  intros Hs. split; [|split].
  - destruct (insert_key_ok c ed z Hs) as (ed' & E & He & (b & l & d & x & ->)). by eexists.
  - destruct (normal_key_ok c ed z Hs) as (ed' & E & He & [[-> (b & l & d & x & ->)]|[-> (ed1 & _ & ->)]]); (eexists; split; [done|]; split; [done|]); [by rewrite orb_false_r|by rewrite orb_true_r].
  - destruct (edited_one DeleteLine ed z Hs) as (ed' & E & He & (b & l & d & x & ->)). by eexists.
Qed.

(** ** The screen is safe to draw *)

Lemma str_eq_limit_ok a b : terminated a -> terminated b -> exists r, str_eq_limit a b = Ret r.
Proof.
  intros Ha. revert a Ha b. refine (terminated_ind _ _ _); [intros a|intros c a Hc Ha IH]; (intros [|y b] Hb; [by apply elem_of_nil in Hb|]); cbn [str_eq_limit].
  - destruct (Z.eqb_spec y 0) as [->|]; cbn [Z.eqb negb orb]; [by eexists|]. destruct y; [done|by eexists|by eexists].
  - destruct (Z.eqb_spec c 0); [done|]. cbn [negb orb]. destruct (Z.eqb_spec c y) as [->|]; cbn [negb]; [|by eexists]. apply IH. by apply elem_of_cons in Hb as [?|].
Qed.

(** The fields the screen is drawn from. *)
Record screen_ok ed : Prop := {
  so_path : length (e_path ed) = 128%nat /\ terminated (e_path ed);
  so_rows : length (screen_cache ed) = 20%nat /\ Forall (fun l => length l = 80%nat /\ terminated l) (screen_cache ed);
  so_status : length (status_cache ed) = 128%nat /\ terminated (status_cache ed)
}.

Lemma esc_terminated s : terminated (esc s).
Proof. apply terminated_app. Qed.
#[local] Hint Resolve esc_terminated : vi.

Lemma scroll_ok ed b a : shows ed b a -> exists r c, vi_scroll ed = Ret (set_offs r c ed).
Proof. intros Hs. unfold vi_scroll. rewrite (cursor_row ed b a Hs), bind_Ret, (cursor_col ed b a Hs), bind_Ret. by eexists _, _. Qed.

Lemma copy_parts_ok parts out i n : Forall terminated parts -> 0 <= i <= n - 1 -> n <= zlen out ->
  exists out' i', copy_parts parts out i n = Ret (out', i') /\ length out' = length out /\ 0 <= i' <= n - 1.
Proof.
  intros Hp. revert out i. induction Hp as [|s parts Hs _ IH]; intros out i Hi Hn; cbn [copy_parts]; [by exists out, i|].
  destruct (copy_run_ok s out i n Hs Hi Hn) as (o1 & i1 & -> & Hl1 & Hi1). rewrite bind_Ret. cbv iota beta.
  destruct (IH o1 i1) as (o2 & i2 & -> & Hl2 & Hi2); [lia|lia|]. exists o2, i2. split; [done|]. split; [congruence|lia].
Qed.

Definition msg_ok (msg : option (list Z)) : Prop := match msg with Some m => terminated m | None => True end.

Lemma text_of_ok msg : msg_ok msg -> terminated (text_of msg).
Proof. destruct msg; [done|]. intros _. apply lit_terminated. Qed.

Lemma build_status_ok ed msg out : screen_ok ed -> msg_ok msg -> length out = 128%nat ->
  exists out', vi_build_status ed msg out 128 = Ret out' /\ length out' = 128%nat /\ terminated out'.
Proof.
  intros Hs Hm Ho. unfold vi_build_status.
  destruct (copy_parts_ok [mode_text ed; lit "  "; e_path ed; dirty_text ed; lit "  "; text_of msg] out 0 128) as (o1 & i1 & -> & Hl1 & Hi1); [|lia|lia|].
  { repeat (constructor; [first [apply lit_terminated|apply Hs|by apply text_of_ok]|]). constructor. }
  rewrite bind_Ret. cbv iota beta. destruct (terminate_ok o1 i1) as (o & -> & Hlo & Ht); [lia|]. exists o. split; [done|]. split; [congruence|done].
Qed.

Lemma screen_chars_ok t pre rest lc col off out : zlen out = 80 -> 0 <= col <= 78 ->
  exists out' idx' col', screen_chars (length t) (pre ++ t ++ rest) (zlen pre) lc col off out = Ret (out', idx', col') /\ zlen out' = 80 /\ 0 <= col' <= 78
    /\ zlen pre <= idx' <= zlen pre + zlen t.
Proof.
  revert pre lc col out. induction t as [|c t IH]; intros pre lc col out Ho Hcol; cbn [screen_chars length app].
  { exists out, (zlen pre), col. split; [done|]. split; [done|]. split; [done|lia]. }
  rewrite aget_app, bind_Ret by done. destruct (Z.eqb_spec c 10).
  { exists out, (zlen pre), col. split; [done|]. split; [done|]. split; [done|lia]. }
  assert (exists out1 col1, (if (off <=? lc) && (col <? VI_SCREEN_COLS) then out ← aset out col (if (c <? 32) || (126 <? c) then 63 else c); Ret (out, col + 1) else Ret (out, col)) = Ret (out1, col1)
    /\ zlen out1 = 80 /\ 0 <= col1 <= 78) as (o1 & c1 & -> & Ho1 & Hc1).
  { destruct (off <=? lc); cbn [andb]; [|by exists out, col]. unfold VI_SCREEN_COLS. destruct (Z.ltb_spec col 78); [|by exists out, col].
    rewrite aset_ok, bind_Ret by lia. eexists _, _. split; [done|]. rewrite length_insert. split; [done|lia]. }
  rewrite bind_Ret. cbv iota beta. assert (pre ++ c :: t ++ rest = (pre ++ [c]) ++ t ++ rest) as -> by by rewrite <- app_assoc.
  assert (zlen (pre ++ [c]) = zlen pre + 1) as Hz by (rewrite length_app; simpl; lia). rewrite <- Hz.
  destruct (IH (pre ++ [c]) (lc + 1) c1 o1 Ho1 Hc1) as (o2 & i2 & c2 & -> & H2 & H3 & H4). exists o2, i2, c2. split; [done|]. split; [done|]. split; [done|]. rewrite Hz in H4. lia.
Qed.

Lemma screen_line_ok ed b a out idx : shows ed b a -> 0 <= idx -> zlen out = 80 ->
  exists out' idx', vi_build_screen_line ed idx out = Ret (out', idx') /\ zlen out' = 80 /\ terminated out' /\ 0 <= idx'.
Proof.
  intros Hs Hi Ho. unfold vi_build_screen_line. destruct (skip_text ed b a Hs) as (rest & Eb & El). pose proof Hs as (_ & _ & He & _).
  destruct (Z.leb_spec (e_len ed) idx) as [Hge|Hlt].
  - rewrite aset_ok, bind_Ret by lia. destruct (terminate_ok (<[Z.to_nat 0 := 126]> out) 1) as (o & -> & Hl & Ht); [rewrite length_insert; lia|].
    rewrite bind_Ret. exists o, idx. rewrite length_insert in Hl. split; [done|]. split; [lia|]. done.
  - assert (b ++ a = take (Z.to_nat idx) (b ++ a) ++ drop (Z.to_nat idx) (b ++ a)) as Ed by by rewrite take_drop.
    destruct (screen_chars_ok (drop (Z.to_nat idx) (b ++ a)) (take (Z.to_nat idx) (b ++ a)) rest 0 0 (coloff ed) out Ho) as (o1 & i1 & c1 & E & Ho1 & Hc1 & Hi1); [lia|].
    rewrite length_take, length_drop in E, Hi1. rewrite (Nat.min_l (Z.to_nat idx)) in E, Hi1 by lia. rewrite Z2Nat.id in E, Hi1 by lia.
    rewrite app_assoc, <- Ed in E. rewrite Eb. cbn [app]. replace (Z.to_nat (e_len ed - idx)) with (length (b ++ a) - Z.to_nat idx)%nat by lia. rewrite E, bind_Ret. cbv iota beta.
    destruct (terminate_ok o1 c1) as (o2 & -> & Hl2 & Ht2); [lia|]. rewrite bind_Ret.
    destruct (Z.ltb_spec i1 (e_len ed)); [|rewrite bind_Ret; exists o2, i1; split; [done|]; split; [lia|]; split; [done|lia]].
    destruct (aget_ok ((b ++ a) ++ rest) i1) as [x ->]; [rewrite length_app; lia|]. rewrite !bind_Ret. eexists _, _. split; [done|]. split; [lia|]. split; [done|]. destruct (x =? 10); lia.
Qed.

Lemma kprintf_ok ps fmt args u : Forall piece_ok ps -> fmt = (ps ≫= piece_fmt) ++ [0] -> args = ps ≫= piece_arg -> exists u', kprintf fmt args u = Ret u'.
Proof. intros Hp -> ->. pose proof (kprintf_run ps [] [] u Hp) as E. rewrite app_nil_r in E. rewrite E. by eexists. Qed.

Lemma same_or_false (b : bool) (m : outcome bool) : (exists r, m = Ret r) -> exists r : bool, (if b then m else Ret false) = Ret r.
Proof. destruct b; [done|]. intros _. by eexists. Qed.

Lemma render_row_ok ed b a i idx line cache u : shows ed b a -> 0 <= i < 20 -> 0 <= idx -> zlen line = 80 ->
  length cache = 20%nat -> Forall (fun l => length l = 80%nat /\ terminated l) cache ->
  exists idx' line' cache' u', render_row i (idx, line, cache, u) ed = Ret (idx', line', cache', u') /\ 0 <= idx' /\ zlen line' = 80
    /\ length cache' = 20%nat /\ Forall (fun l => length l = 80%nat /\ terminated l) cache'.
Proof.
  intros Hs Hi Hx Hl Hc Hf. unfold render_row. destruct (screen_line_ok ed b a line idx Hs Hx Hl) as (l1 & i1 & -> & Hl1 & Ht1 & Hi1). rewrite bind_Ret. cbv iota beta.
  destruct (aget_ok cache i) as [old Eo]; [lia|]. rewrite Eo, bind_Ret. apply aget_Ret in Eo as [_ Eo]. pose proof (Forall_lookup_1 _ _ _ _ Hf Eo) as [Hlo Hto].
  destruct (same_or_false (cache_valid ed) _ (str_eq_limit_ok old l1 Hto Ht1)) as [r ->]. rewrite bind_Ret. destruct r; [by exists i1, l1, cache, u|].
  destruct (kprintf_ok [PChar 27; PChar 91; PDec (i + 1); PChar 59; PChar 49; PChar 72] (esc ["[%d;1H"]%string) [AWord (i + 1)] u) as [u1 ->]; [|done|done|].
  { repeat (constructor; [first [done|simpl; lia]|]). constructor. }
  rewrite bind_Ret. destruct (puts_ok (esc ["[K"]%string) u1) as [u2 ->]; [apply esc_terminated|]. rewrite bind_Ret. destruct (puts_ok l1 u2 Ht1) as [u3 ->]. rewrite bind_Ret.
  destruct (puts_ok (esc ["[K"]%string) u3) as [u4 ->]; [apply esc_terminated|]. rewrite bind_Ret.
  destruct (copy_name_spec old l1 80 Ht1) as (new & En & Hln & Htn & _); [lia|]. unfold str_copy_limit, VI_SCREEN_COLS. change (78 + 2) with 80. rewrite En, bind_Ret.
  rewrite aset_ok, bind_Ret by lia. eexists _, _, _, _. split; [done|]. split; [done|]. split; [done|]. rewrite length_insert. split; [done|].
  apply Forall_insert; [done|]. split; [congruence|done].
Qed.

Lemma draw_status_ok ed msg u : screen_ok ed -> msg_ok msg -> exists u', vi_draw_status ed msg u = Ret u'.
Proof.
  intros Hs Hm. unfold vi_draw_status. destruct (puts_ok (esc ["[22;1H"; "[7m"]%string) u) as [u1 ->]; [apply esc_terminated|]. rewrite bind_Ret.
  destruct (kprintf_ok [PStr (Some (mode_text ed)); PChar 32; PChar 32; PStr (Some (e_path ed)); PStr (Some (dirty_text ed)); PChar 32; PChar 32; PStr (Some (text_of msg))]
    (lit "%s  %s%s  %s") [AStr (Some (mode_text ed)); AStr (Some (e_path ed)); AStr (Some (dirty_text ed)); AStr (Some (text_of msg))] u1) as [u2 ->]; [|done|done|].
  { repeat (constructor; [first [apply lit_terminated|apply Hs|by apply text_of_ok|done]|]). constructor. }
  rewrite bind_Ret. apply puts_ok, esc_terminated.
Qed.

Lemma skip_rows_some n buf row target pos : 0 <= pos -> pos + Z.of_nat n <= zlen buf ->
  exists p, skip_rows n buf row target pos = Ret p /\ 0 <= p.
Proof.
  revert row pos. induction n as [|n IH]; intros row pos Hp Hn; cbn [skip_rows]; [by exists pos|]. destruct (row <? target); [|by exists pos].
  destruct (aget_ok buf pos) as [c ->]; [lia|]. rewrite bind_Ret. apply IH; lia.
Qed.

(** What a drawing leaves alone. *)
Definition same_text ed ed' : Prop :=
  e_path ed' = e_path ed /\ e_buf ed' = e_buf ed /\ e_len ed' = e_len ed /\ cursor ed' = cursor ed /\ dirty ed' = dirty ed /\ mode_insert ed' = mode_insert ed /\ e_quit ed' = e_quit ed.

Lemma same_shows ed ed' b a : same_text ed ed' -> shows ed b a -> shows ed' b a.
Proof. intros (_ & Hb & Hl & Hc & _) Hs. unfold shows. by rewrite Hb, Hl, Hc. Qed.

Lemma render_ok ed b a msg u : shows ed b a -> screen_ok ed -> msg_ok msg ->
  exists ed' u', vi_render ed msg u = Ret (ed', u') /\ same_text ed ed' /\ screen_ok ed'.
Proof.
  intros Hs Hok Hm. unfold vi_render. destruct (scroll_ok ed b a Hs) as (r & c & ->). rewrite bind_Ret. set (ed1 := set_offs r c ed).
  assert (same_text ed ed1) as Hst by done. assert (shows ed1 b a) as Hs1 by by apply (same_shows ed). assert (screen_ok ed1) as Hok1 by (destruct Hok; by constructor).
  destruct (puts_ok (esc ["[?25l"]%string) u) as [u1 ->]; [apply esc_terminated|]. rewrite bind_Ret.
  pose proof Hs1 as (Hl1 & Hm1 & He1 & _). destruct (skip_rows_some (Z.to_nat (e_len ed1)) (e_buf ed1) 0 (rowoff ed1) 0) as (idx & -> & Hidx); [lia|unfold VI_MAX_TEXT, VFS_MAX_FSIZE in Hm1; lia|].
  rewrite bind_Ret. destruct (for_range_ind (fun _ '(idx, line, cache, u) => 0 <= idx /\ zlen line = 80 /\ length cache = 20%nat /\ Forall (fun l => length l = 80%nat /\ terminated l) cache)
    0 20 (fun i st => render_row i st ed1) (idx, replicate 80 0, screen_cache ed1, u1)) as (((( i2 & l2) & c2) & u2) & E & H2); [lia| | |].
  { destruct (so_rows ed1 Hok1). done. }
  { intros i [[[i0 l0] c0] u0] Hi (A & B & C & D). destruct (render_row_ok ed1 b a i i0 l0 c0 u0 Hs1 Hi A B C D) as (i' & l' & c' & u' & E & H'). by exists (i', l', c', u'). }
  unfold VI_SCREEN_ROWS. rewrite E, bind_Ret. cbv iota beta. destruct H2 as (_ & _ & Hc2 & Hf2).
  destruct (build_status_ok ed1 msg (replicate 128 0) Hok1 Hm) as (st & -> & Hlst & Htst); [done|]. rewrite bind_Ret. destruct (so_status ed1 Hok1) as [Hls Hts].
  destruct (same_or_false (cache_valid ed1) _ (str_eq_limit_ok (status_cache ed1) st Hts Htst)) as [same ->]. rewrite bind_Ret.
  assert (exists sc u3, (if same then Ret (status_cache ed1, u2) else u ← vi_draw_status ed1 msg u2; s ← str_copy_limit (status_cache ed1) st 128; Ret (s, u)) = Ret (sc, u3)
    /\ length sc = 128%nat /\ terminated sc) as (sc & u3 & -> & Hsc).
  { destruct same; [by exists (status_cache ed1), u2|]. destruct (draw_status_ok ed1 msg u2 Hok1 Hm) as [u3 ->]. rewrite bind_Ret.
    destruct (copy_name_spec (status_cache ed1) st 128 Htst) as (s & E3 & Hl3 & Ht3 & _); [lia|]. unfold str_copy_limit. rewrite E3, bind_Ret. exists s, u3. split; [done|]. split; [congruence|done]. }
  rewrite bind_Ret. cbv iota beta zeta. set (ed2 := set_screen c2 sc true ed1). assert (shows ed2 b a) as Hs2 by by apply (same_shows ed1).
  rewrite (cursor_row ed2 b a Hs2), bind_Ret, (cursor_col ed2 b a Hs2), bind_Ret.
  set (cr := nls b - rowoff ed2 + 1). set (cc := zlen (tail_of b) - coloff ed2 + 1).
  assert (forall x m, 1 <= m <= 100 -> - 2 ^ 63 <= (if m <? (if x <? 1 then 1 else x) then m else if x <? 1 then 1 else x) < 2 ^ 63) as Hcl.
  { intros x m Hmm. destruct (Z.ltb_spec x 1); [destruct (Z.ltb_spec m 1); lia|]. destruct (Z.ltb_spec m x); lia. }
  match goal with |- context [kprintf _ [AWord ?x; AWord ?y] u3] => destruct (kprintf_ok [PChar 27; PChar 91; PDec x; PChar 59; PDec y; PChar 72] (esc ["[%d;%dH"]%string) [AWord x; AWord y] u3) as [u4 ->]; [|done|done|] end.
  { repeat (constructor; [first [done|apply Hcl; unfold VI_SCREEN_COLS; lia]|]). constructor. }
  rewrite bind_Ret. destruct (puts_ok (esc ["[?25h"]%string) u4) as [u5 ->]; [apply esc_terminated|]. rewrite bind_Ret. eexists _, _. split; [done|]. split; [done|].
  destruct Hok1 as [Hp1 _ _]. by constructor.
Qed.

(** ** The session is safe *)

(** What the keys that are there can still feed; the fuel is above it. *)
Definition key_measure (k : keys) : nat := (2 * length (input k) + (if (0 <=? unget k)%Z then 1 else 0))%nat.

Lemma key_fuel_enough k : (key_measure k < key_fuel k)%nat.
Proof. unfold key_measure, key_fuel. destruct (0 <=? unget k); lia. Qed.

Lemma wait_key_less i c k : wait_key i = Some (c, k) -> unget k = -1 /\ (length (input k) < length i)%nat.
Proof.
  induction i as [|x i IH]; [done|]. cbn [wait_key]. destruct (0 <=? x); [intros [= <- <-]; cbn; lia|]. intros Hk. destruct (IH Hk). cbn [length]. lia.
Qed.

Lemma getc_less k c k' : shell_getc k = Some (c, k') -> unget k' = -1 /\ (key_measure k' < key_measure k)%nat.
Proof.
  unfold shell_getc, key_measure. destruct (Z.leb_spec 0 (unget k)) as [Hu|Hu].
  - intros [= <- <-]. cbn. lia.
  - intros Hk. apply wait_key_less in Hk as [-> Hl]. cbn. lia.
Qed.

Lemma read_key_less k c k' : vi_read_key k = Some (c, k') -> (key_measure k' < key_measure k)%nat.
Proof.
  unfold vi_read_key. destruct (shell_getc k) as [[c0 k0]|] eqn:E0; [|done]. apply getc_less in E0 as [Hu0 H0]. cbn [mbind option_bind].
  destruct (negb (c0 =? 27)); [intros [= <- <-]; done|]. unfold shell_try_getc. rewrite Hu0. cbn [Z.leb Z.compare Pos.compare].
  destruct (input k0) as [|c1 i1] eqn:Ei; [done|]. cbn [mbind option_bind].
  assert (key_measure (mk_keys (-1) i1) + 2 <= key_measure k0)%nat as H1 by (unfold key_measure; rewrite Ei; cbn [unget input length Z.leb Z.compare]; lia).
  destruct (c1 <? 0); [intros [= <- <-]; lia|]. destruct (negb (c1 =? 91)).
  - intros [= <- <-]. unfold shell_ungetc. unfold key_measure in *. cbn [unget input] in *. destruct (0 <=? u8 c1); cbn [Z.leb Z.compare] in H1; lia.
  - destruct (shell_getc (mk_keys (-1) i1)) as [[c2 k2]|] eqn:E2; [|done]. apply getc_less in E2 as [_ H2]. cbn [mbind option_bind]. intros [= <- <-]. lia.
Qed.

Lemma prompt_loop_ok fuel cmd i k u : (key_measure k < fuel)%nat -> 0 <= i <= 15 -> length cmd = 16%nat ->
  exists r, prompt_loop fuel cmd i k u = Ret r
    /\ match r with None => True | Some (c, k', _) => (key_measure k' <= key_measure k)%nat /\ match c with inl cmd => terminated cmd | inr _ => True end end.
Proof.
  revert cmd i k u. induction fuel as [|fuel IH]; intros cmd i k u Hf Hi Hl; [lia|]. cbn [prompt_loop].
  destruct (Z.ltb_spec i 15) as [Hlt|Hge].
  - destruct (vi_read_key k) as [[c k1]|] eqn:Ek; [|by exists None]. apply read_key_less in Ek.
    assert (forall cmd i u, 0 <= i <= 15 -> length cmd = 16%nat -> exists r, prompt_loop fuel cmd i k1 u = Ret r
      /\ match r with None => True | Some (c, k', _) => (key_measure k' <= key_measure k)%nat /\ match c with inl cmd => terminated cmd | inr _ => True end end) as Hnext.
    { intros cmd0 i0 u0 Hi0 Hl0. destruct (IH cmd0 i0 k1 u0) as (r & E & Hr); [lia|done|done|]. exists r. split; [done|]. destruct r as [[[x k2] u2]|]; [|done]. destruct Hr as [Hr1 Hr2]. split; [lia|done]. }
    destruct ((c =? 13) || (c =? 10)). { destruct (terminate_ok cmd i) as (o & -> & _ & Ht); [lia|]. rewrite bind_Ret. eexists. split; [done|]. split; [lia|done]. }
    destruct (c =? 27). { eexists. split; [done|]. split; [lia|done]. }
    destruct (((c =? 8) || (c =? 127)) && (0 <? i)) eqn:Eb. { apply andb_true_iff in Eb as [_ Eb%Z.ltb_lt]. destruct (puts_ok [8; 32; 8; 0] u) as [u' ->]; [by apply (terminated_app [8; 32; 8])|]. rewrite bind_Ret. apply Hnext; [lia|done]. }
    destruct ((c <? 32) || (126 <? c)); [by apply Hnext|]. rewrite aset_ok, bind_Ret by lia. apply Hnext; [lia|by rewrite length_insert].
  - destruct (terminate_ok cmd i) as (o & -> & _ & Ht); [lia|]. rewrite bind_Ret. eexists. split; [done|]. split; [lia|done].
Qed.

Section Safety.
Context {H : Type} `{AllocatorLaws H}.
Implicit Types (v : vfs H) (s : @session H).

Definition sess_ok (rest : list (Z * Z)) s : Prop :=
  (exists b a, shows (s_ed s) b a) /\ screen_ok (s_ed s) /\ vfs_inv (s_vfs s) rest.

(** [m] goes on with a safe session that has used up no key. *)
Definition goes_on rest s (m : outcome (@session H)) : Prop := exists s', m = Ret s' /\ sess_ok rest s' /\ s_keys s' = s_keys s.

Lemma text_only_screen ed ed' : text_only ed ed' -> screen_ok ed -> screen_ok ed'.
Proof. intros (b & l & c & d & ->) []. by constructor. Qed.

Lemma set_mode_shows i q ed b a : shows ed b a -> shows (set_mode i q ed) b a.
Proof. done. Qed.
Lemma set_mode_screen i q ed : screen_ok ed -> screen_ok (set_mode i q ed).
Proof. intros []. by constructor. Qed.

Lemma render_sess rest s msg : sess_ok rest s -> msg_ok msg -> goes_on rest s (render msg s).
Proof.
  intros ((b & a & Hs) & Hok & Hv) Hm. unfold render. destruct (render_ok (s_ed s) b a msg (s_uart s) Hs Hok Hm) as (ed & u & -> & Ht & Hok').
  rewrite bind_Ret. eexists. split; [done|]. split; [|done]. split; [exists b, a; by apply (same_shows (s_ed s))|]. by split.
Qed.

Lemma quit_sess rest s : sess_ok rest s -> sess_ok rest (quit s).
Proof. intros ((b & a & Hs) & Hok & Hv). split; [by exists b, a|]. split; [by apply set_mode_screen|done]. Qed.

Lemma vi_save_ok junk ed v rest b a : shows ed b a -> screen_ok ed -> vfs_inv v rest ->
  exists r ed' v', vi_save junk ed v = Ret (r, ed', v') /\ text_only ed ed' /\ shows ed' b a /\ vfs_inv v' rest.
Proof.
  intros Hs Hok Hv. unfold vi_save. pose proof Hs as (Hl & Hm & He & _). destruct (so_path ed Hok) as [Hlp Htp].
  destruct (vfs_open_inv v rest junk (e_path ed) (Z.lor (Z.lor O_WRONLY O_CREAT) O_TRUNC) Hv) as (fd & v1 & -> & Hv1).
  { split; [done|]. pose proof (cstr_length_lt _ Htp). lia. }
  rewrite bind_Ret. cbv iota beta. destruct (fd <? 0). { exists (-1), ed, v1. split; [done|]. split; [apply text_only_refl|]. by split. }
  unfold VI_MAX_TEXT, VFS_MAX_FSIZE in Hm.
  destruct (vfs_write_spec v1 rest fd (e_buf ed) (e_len ed) Hv1) as (w & v2 & -> & Hv2 & _); [lia|lia|]. rewrite bind_Ret. cbv iota beta.
  destruct (vfs_close_spec v2 rest fd Hv2) as (v3 & -> & Hv3 & _). rewrite bind_Ret. destruct (negb (w =? e_len ed)).
  - exists (-1), ed, v3. split; [done|]. split; [apply text_only_refl|]. by split.
  - exists 0. eexists _, v3. split; [done|]. split; [apply text_only_set|]. by split.
Qed.

Lemma save_sess junk rest s : sess_ok rest s -> exists r s', save junk s = Ret (r, s') /\ sess_ok rest s' /\ s_keys s' = s_keys s.
Proof.
  intros ((b & a & Hs) & Hok & Hv). unfold save. destruct (vi_save_ok junk (s_ed s) (s_vfs s) rest b a Hs Hok Hv) as (r & ed & v & -> & Ht & Hs' & Hv').
  rewrite bind_Ret. eexists _, _. split; [done|]. split; [|done]. split; [by exists b, a|]. split; [by apply (text_only_screen (s_ed s))|done].
Qed.

Lemma str_eq_cases cmd t : terminated cmd -> str_eq cmd (lit t) = Ret 0 \/ str_eq cmd (lit t) = Ret 1.
Proof. intros Hc. rewrite str_eq_spec by auto using lit_terminated. case_bool_decide; [by right|by left]. Qed.

Lemma run_command_sess junk rest cmd s : sess_ok rest s -> terminated cmd -> goes_on rest s (run_command junk cmd s).
Proof.
  intros Hs Hc. unfold run_command. cbn [any_eq]. destruct (save_sess junk rest s Hs) as (r & s1 & E & Hs1 & Hk1).
  assert (forall m s, sess_ok rest s -> goes_on rest s (render (Some (lit m)) s)) as Hr by (intros; apply render_sess; [done|apply lit_terminated]).
  assert (forall s, sess_ok rest s -> goes_on rest s (Ret (quit s))) as Hq by (intros s0 Hs0; exists (quit s0); split; [done|]; split; [by apply quit_sess|done]).
  destruct (str_eq_cases cmd "q" Hc) as [->| ->]; rewrite bind_Ret; cbn [Z.eqb negb]; [|destruct (dirty (s_ed s)); auto].
  destruct (str_eq_cases cmd "q!" Hc) as [->| ->]; rewrite bind_Ret; cbn [Z.eqb negb]; [|auto].
  destruct (str_eq_cases cmd "w" Hc) as [->| ->]; rewrite bind_Ret; cbn [Z.eqb negb].
  2:{ rewrite E, bind_Ret. cbv iota beta. unfold goes_on. rewrite <- Hk1. by apply Hr. }
  assert (exists w : bool, (r ← str_eq cmd (lit "wq"); if negb (r =? 0) then Ret true else r ← str_eq cmd (lit "x"); if negb (r =? 0) then Ret true else Ret false) = Ret w) as [w ->].
  { destruct (str_eq_cases cmd "wq" Hc) as [->| ->]; [|by eexists]. destruct (str_eq_cases cmd "x" Hc) as [->| ->]; by eexists. }
  rewrite bind_Ret. destruct w; [|by apply Hr]. rewrite E, bind_Ret. cbv iota beta. unfold goes_on. rewrite <- Hk1.
  destruct (r <? 0); [by apply Hr|by apply Hq].
Qed.

(** A round's end: waiting, or a safe session with no more keys than before. *)
Definition round_ok rest (k : keys) (m : outcome (option (@session H))) : Prop :=
  exists r, m = Ret r /\ match r with None => True | Some s => sess_ok rest s /\ (key_measure (s_keys s) <= key_measure k)%nat end.

Lemma goes_round rest s (m : outcome (@session H)) : goes_on rest s m -> round_ok rest (s_keys s) (s ← m; Ret (Some s)).
Proof. intros (s' & -> & Hs' & Hk). rewrite bind_Ret. eexists. split; [done|]. split; [done|]. by rewrite Hk. Qed.

Lemma quit_round rest s : sess_ok rest s -> round_ok rest (s_keys s) (Ret (Some (quit s))).
Proof. intros Hs. eexists. split; [done|]. split; [by apply quit_sess|done]. Qed.

Lemma command_prompt_sess junk rest s : sess_ok rest s -> round_ok rest (s_keys s) (vi_command_prompt junk s).
Proof.
  intros Hs. pose proof Hs as (_ & Hok & _). unfold vi_command_prompt.
  destruct (draw_status_ok (s_ed s) (Some (lit ":")) (s_uart s) Hok) as [u1 ->]; [apply lit_terminated|]. rewrite bind_Ret.
  destruct (kprintf_ok [PChar 27; PChar 91; PChar 50; PChar 50; PChar 59; PChar 51; PChar 72] (esc ["[22;3H"]%string) [] u1) as [u2 ->]; [repeat (constructor; [done|]); constructor|done|done|].
  rewrite bind_Ret. destruct (prompt_loop_ok (key_fuel (s_keys s)) (replicate 16 0) 0 (s_keys s) u2) as (r & -> & Hr); [apply key_fuel_enough|lia|done|].
  rewrite bind_Ret. destruct r as [[[[cmd|[]] k] u]|]; [| |by exists None].
  - destruct Hr as [Hk Hc]. destruct (run_command_sess junk rest cmd (with_uart u (with_keys k s)) Hs Hc) as (s' & -> & Hs' & Hk'). rewrite bind_Ret.
    eexists. split; [done|]. split; [done|]. by rewrite Hk'.
  - eexists. split; [done|]. split; [done|]. by destruct Hr.
Qed.

Lemma with_ed_sess rest ed s z es ed' : sess_ok rest s -> ed = s_ed s -> edited es ed z ed' -> screen_ok ed' -> sess_ok rest (with_ed ed' s).
Proof. intros (_ & _ & Hv) -> [Hs _] Hok. split; [by eexists _, _|]. by split. Qed.

Lemma flags_sess rest s d z q : sess_ok rest s -> sess_ok rest (with_flags d z q s).
Proof. done. Qed.

Lemma vi_round_ok junk rest c s : sess_ok rest s -> round_ok rest (s_keys s) (vi_round junk c s).
Proof.
  intros Hs. pose proof Hs as ((b & a & Hsh) & Hok & Hv). unfold vi_round. cbv zeta.
  assert (forall s' m, sess_ok rest s' -> s_keys s' = s_keys s -> msg_ok m -> round_ok rest (s_keys s) (s'' ← render m s'; Ret (Some s''))) as Hr.
  { intros s' m Hs' <- Hm. by apply goes_round, render_sess. }
  destruct (mode_insert (s_ed s)).
  - destruct ((c =? 3) || (c =? 17)); [by apply quit_round|]. destruct (c =? 27).
    { apply Hr; [|done|done]. split; [by exists b, a|]. split; [by apply set_mode_screen|done]. }
    destruct (insert_key_ok c (s_ed s) (b, a) Hsh) as (ed & -> & He & Ht). rewrite bind_Ret. apply Hr; [|done|done].
    apply (with_ed_sess rest (s_ed s) s (b, a) (insert_edits c)); [done|done|done|]. by apply (text_only_screen (s_ed s)).
  - destruct ((c =? 3) || (c =? 17)).
    { destruct (dirty (s_ed s) && negb (quit_confirm s)); [apply Hr; [done|done|apply lit_terminated]|by apply quit_round]. }
    destruct ((c =? 100) && pending_d s).
    { destruct (edited_one DeleteLine (s_ed s) (b, a) Hsh) as (ed & E & He & Ht). cbn [run_edit] in E. rewrite E, bind_Ret.
      apply Hr; [|done|apply lit_terminated]. apply flags_sess, (with_ed_sess rest (s_ed s) s (b, a) [DeleteLine]); [done|done|done|]. by apply (text_only_screen (s_ed s)). }
    set (s1 := with_flags (c =? 100) ((c =? 90) && pending_z s) false s).
    destruct (c =? 81); [by apply (quit_round rest s1)|]. destruct ((c =? 90) && ((c =? 90) && pending_z s)).
    { destruct (save_sess junk rest s1 Hs) as (r & s2 & -> & Hs2 & Hk2). rewrite bind_Ret. cbv iota beta. destruct (r <? 0).
      - apply Hr; [done|done|apply lit_terminated].
      - change (s_keys s) with (s_keys s1). rewrite <- Hk2. by apply quit_round. }
    destruct (c =? 90); [apply Hr; [done|done|apply lit_terminated]|]. destruct (c =? 58).
    { destruct (command_prompt_sess junk rest (with_flags false false false s1) Hs) as (r & -> & Hr2). rewrite bind_Ret. destruct r as [s2|]; [|by exists None].
      destruct Hr2 as [Hs2 Hk2]. destruct (e_quit (s_ed s2)); [eexists; split; [done|]; by split|].
      destruct (render_sess rest s2 None Hs2 I) as (s3 & -> & Hs3 & Hk3). rewrite bind_Ret. eexists. split; [done|]. split; [done|]. rewrite Hk3. exact Hk2. }
    destruct (normal_key_ok c (s_ed s) (b, a) Hsh) as (ed & -> & He & Ht). rewrite bind_Ret. apply Hr; [|done|done].
    apply (with_ed_sess rest (s_ed s) s1 (b, a) (normal_edits c)); [done|done|done|].
    destruct Ht as [[_ Ht]|(_ & ed1 & Ht & ->)]; [by apply (text_only_screen (s_ed s))|]. by apply set_mode_screen, (text_only_screen (s_ed s)).
Qed.

(** The loop ends with the editor asked to quit, or waits for a key. *)
Lemma vi_loop_ok junk rest fuel s : sess_ok rest s -> (key_measure (s_keys s) < fuel)%nat ->
  exists r, vi_loop junk fuel s = Ret r /\ match r with None => True | Some s' => sess_ok rest s' /\ e_quit (s_ed s') = true end.
Proof.
  revert s. induction fuel as [|fuel IH]; intros s Hs Hf; [lia|]. cbn [vi_loop]. destruct (e_quit (s_ed s)) eqn:Eq; [by eexists|].
  destruct (vi_read_key (s_keys s)) as [[c k]|] eqn:Ek; [|by exists None]. apply read_key_less in Ek.
  destruct (vi_round_ok junk rest c (with_keys k s) Hs) as (r & -> & Hr). rewrite bind_Ret. destruct r as [s'|]; [|by exists None].
  destruct Hr as [Hs' Hk]. cbn [s_keys with_keys] in Hk. apply IH; [done|lia].
Qed.

Lemma load_file_ok path ed v rest : screen_ok ed -> shows ed [] [] -> path_ok path -> vfs_inv v rest ->
  exists ed' v', load_file path ed v = Ret (ed', v') /\ (exists b a, shows ed' b a) /\ text_only ed ed' /\ vfs_inv v' rest.
Proof.
  intros Hok Hs Hp Hv. unfold load_file. destruct (vfs_open_inv v rest [] path O_RDONLY Hv Hp) as (fd & v1 & -> & Hv1). rewrite bind_Ret. cbv iota beta.
  destruct (0 <=? fd). 2:{ exists ed, v1. split; [done|]. split; [by exists [], []|]. split; [apply text_only_refl|done]. }
  pose proof Hs as (Hl & _ & He & Hc & _). unfold VI_MAX_TEXT, VFS_MAX_FSIZE.
  destruct (vfs_read_spec v1 rest fd (e_buf ed) 16384 Hv1) as (n & buf & v2 & -> & Hv2 & _ & _ & Hno & Hop); [lia|lia|]. rewrite bind_Ret. cbv iota beta.
  destruct (vfs_close_spec v2 rest fd Hv2) as (v3 & -> & Hv3 & _). rewrite bind_Ret.
  assert (zlen buf = 16385 /\ n <= 16384) as [Hlb Hn].
  { destruct (open_desc_spec v1 rest fd Hv1) as [[_ Hcl]|(f & x & _ & Hf & _ & _ & _ & _ & Hpos & _)].
    - destruct (Hno Hcl) as [-> ->]. lia.
    - destruct (Hop f x Hf) as (c & _ & Hr & Hb & _). subst buf. rewrite length_app, length_take, !length_drop. lia. }
  destruct (Z.ltb_spec 0 n).
  - rewrite aset_ok, bind_Ret by lia. eexists _, v3. split; [done|]. split; [|split; [apply text_only_set|done]].
    exists [], (take (Z.to_nat n) buf). unfold shows. cbn [e_buf e_len cursor set_text app]. rewrite length_insert, length_take.
    split; [done|]. split; [unfold VI_MAX_TEXT, VFS_MAX_FSIZE; lia|]. split; [lia|]. split; [done|].
    exists (0 :: drop (S (Z.to_nat n)) buf). apply insert_take_drop. lia.
  - eexists _, v3. split; [done|]. split; [|split; [apply text_only_set|done]]. exists [], []. split; [done|]. split; [done|]. split; [done|]. split; [done|]. by exists buf.
Qed.

Lemma ed_zero_ok epath : length epath = 128%nat -> terminated epath ->
  let ed := mk_ed epath (e_buf ed_zero) (screen_cache ed_zero) (status_cache ed_zero) 0 0 0 0 false false false false in screen_ok ed /\ shows ed [] [].
Proof.
  intros Hl Ht. cbv zeta. split.
  - split; [done| |].
    + split; [done|]. apply Forall_replicate. split; [done|]. by left.
    + split; [done|]. by left.
  - split; [unfold ed_zero; cbn [e_buf]; rewrite length_replicate; done|]. split; [done|]. split; [done|]. split; [done|]. by eexists.
Qed.

Lemma puts_hook (t0 : list Z) u : terminated t0 -> exists u', uart_puts t0 u = Ret u' /\ hook u' = hook u.
Proof.
  intros Hs. rewrite uart_puts_spec by done. eexists. split; [done|]. generalize (crlf (cstr t0)). intros t. revert u. induction t as [|c t IH]; intros u; [done|]. simpl. by rewrite IH.
Qed.

End Safety.

(** *** Examples *)

Definition text_ed : vi_editor_t := mk_ed (replicate 128 0) (bytes "ab" ++ 10 :: replicate 16382 0) [] [] 3 3 0 0 false false false false.

Lemma vi_keys_edit_witness : exists ed', insert_key 120 text_ed = Ret ed' /\ shows ed' (bytes "ab" ++ [10; 120]) [] /\ dirty ed' = true.
Proof.
  destruct (proj1 (vi_keys_edit text_ed (bytes "ab" ++ [10], []) 120 ltac:(split; [done|split; [done|split; [done|split; [done|by eexists]]]]))) as (ed' & E & [Hs Hd] & _).
  exists ed'. split; [exact E|]. split; [exact Hs|]. destruct Hd as [[Ht _]|?]; [discriminate Ht|done].
Defined.

Definition typed : keys := mk_keys (-1) (bytes "ihi" ++ [27; -1] ++ bytes ":wq" ++ [13]).


(** Typing "hi" and saving makes a file with these two bytes. *)
Lemma vi_writes_a_file : match vi_open_command [] (lit "/") (lit "a") (vfs_after []) typed quiet with
  | Ret (Some (v, _, _)) => file_bytes v 1 = Some (bytes "hi")
  | _ => False
  end.
Proof. vm_compute. reflexivity. Qed.
