(* ===== verification/Elf.v ===== *)
(** elf.c: the ELF64 loader.

    [mem] is the memory the segments go to, by address and byte: the user window
    between the kernel and its heap.  [virt] is PLATFORM_VIRT.  The image is a
    list of bytes; [le] reads a field of a packed structure.  Creating the task
    is [spawn] (user_task_create of user.c, or task_create_named without an
    MMU), which the loader uses through its return value only. *)
From S2P Require Import Prelude Spinlock Allocator Heap CString Blocks Vfs Uart Shell Vi.

Definition ELF_MAGIC : Z := 0x464C457F.
Definition ELFCLASS64 : Z := 2.
Definition ELFDATA2LSB : Z := 1.
Definition ET_EXEC : Z := 2.
Definition EM_AARCH64 : Z := 0xB7.
Definition PT_LOAD : Z := 1.
Definition USER_LOAD_BASE (virt : bool) : Z := if virt then 0x40200000 else 0x02000000.
Definition USER_LOAD_LIMIT (virt : bool) : Z := if virt then 0x41000000 else 0x04000000.
Definition SIZEOF_EHDR : Z := 64.
Definition SIZEOF_PHDR : Z := 56.

(** The [n]-byte little-endian number at [p + off]. *)
Fixpoint le (n : nat) (p : list Z) (off : Z) : outcome Z :=
  match n with
  | O => Ret 0
  | S n => b ← aget p off; r ← le n p (off + 1); Ret (b + 256 * r)
  end.

(** The fields the loader reads, at their offsets. *)
Definition e_magic (h : list Z) := le 4 h 0.
Definition e_class (h : list Z) := le 1 h 4.
Definition e_data (h : list Z) := le 1 h 5.
Definition e_type (h : list Z) := le 2 h 16.
Definition e_machine (h : list Z) := le 2 h 18.
Definition e_entry (h : list Z) := le 8 h 24.
Definition e_phoff (h : list Z) := le 8 h 32.
Definition e_phentsize (h : list Z) := le 2 h 54.
Definition e_phnum (h : list Z) := le 2 h 56.

Record elf64_phdr_t := mk_phdr { p_type : Z; p_offset : Z; p_vaddr : Z; p_filesz : Z; p_memsz : Z }.
Definition read_phdr (buf : list Z) (phoff : Z) : outcome elf64_phdr_t :=
  ty ← le 4 buf phoff;
  off ← le 8 buf (phoff + 8);
  va ← le 8 buf (phoff + 16);
  fsz ← le 8 buf (phoff + 32);
  msz ← le 8 buf (phoff + 40);
  Ret (mk_phdr ty off va fsz msz).

Definition range_fits (start len limit : Z) : bool := (start <=? limit) && (len <=? limit - start).
Definition user_load_range_ok (virt : bool) (start len : Z) : bool :=
  (USER_LOAD_BASE virt <=? start) && range_fits start len (USER_LOAD_LIMIT virt).

(** memcpy and memset to the window. *)
Fixpoint store_bytes (l : list Z) (a : Z) (mem : gmap Z Z) : gmap Z Z :=
  match l with [] => mem | b :: l => store_bytes l (a + 1) (<[a := b]> mem) end.
Definition copy_to (a : Z) (src : list Z) (n : Z) (mem : gmap Z Z) : outcome (gmap Z Z) :=
  if bool_decide (0 <= n <= zlen src) then Ret (store_bytes (take (Z.to_nat n) src) a mem) else Undef.
Definition clear_to (a n : Z) (mem : gmap Z Z) : gmap Z Z := store_bytes (replicate (Z.to_nat n) 0) a mem.

(** A message, and [return -1]. *)
Definition elf_fail {A} (msg : string) (a : A) (u : uart) : outcome (A * uart) := u ← uart_puts (line_of msg) u; Ret (a, u).

(** One program header: [None] when the loader gives up. *)
Definition load_segment (virt : bool) (buf : list Z) (size entry : Z) (ph : elf64_phdr_t) (st : bool * bool) (mem : gmap Z Z) (u : uart)
  : outcome (option (bool * bool) * gmap Z Z * uart) :=
  let '(saw_load, entry_in_load) := st in
  if negb (p_type ph =? PT_LOAD) then Ret (Some st, mem, u)
  else if p_memsz ph =? 0 then Ret (Some st, mem, u)
  else if p_memsz ph <? p_filesz ph then elf_fail "[elf] PT_LOAD filesz exceeds memsz" (None, mem) u
  else if negb (user_load_range_ok virt (p_vaddr ph) (p_memsz ph)) then elf_fail "[elf] PT_LOAD lies outside user window" (None, mem) u
  else
    let entry_in_load := (p_vaddr ph <=? entry) && (u64 (entry - p_vaddr ph) <? p_memsz ph) || entry_in_load in
    if size <=? p_offset ph then elf_fail "[elf] segment lies beyond end of file" (None, mem) u
    else
      let copy := if size <? u64 (p_offset ph + p_filesz ph) then u64 (size - p_offset ph) else p_filesz ph in
      mem ← (if 0 <? copy then src ← ptr_add buf (p_offset ph); copy_to (p_vaddr ph) src copy mem else Ret mem);
      if negb (copy =? p_filesz ph) then elf_fail "[elf] truncated PT_LOAD segment" (None, mem) u
      else
        let mem := if p_filesz ph <? p_memsz ph then clear_to (u64 (p_vaddr ph + p_filesz ph)) (u64 (p_memsz ph - p_filesz ph)) mem else mem in
        Ret (Some (true, entry_in_load), mem, u).

(** [for(i = 0; i < e_phnum; i++)], [n] rounds left. *)
Fixpoint load_segments (virt : bool) (buf : list Z) (size entry phoff phentsize : Z) (n : nat) (i : Z) (st : bool * bool) (mem : gmap Z Z) (u : uart)
  : outcome (option (bool * bool) * gmap Z Z * uart) :=
  match n with
  | O => Ret (Some st, mem, u)
  | S n =>
    ph ← read_phdr buf (u64 (phoff + i * phentsize));
    '(r, mem, u) ← load_segment virt buf size entry ph st mem u;
    match r with
    | None => Ret (None, mem, u)
    | Some st => load_segments virt buf size entry phoff phentsize n (i + 1) st mem u
    end
  end.

Section Loader.
Context {X : Type} (spawn : Z -> list Z -> X -> outcome (Z * X)).

(** The checks after the segments, and the task. *)
Definition start_task (virt : bool) (entry : Z) (name : list Z) (st : bool * bool) (mem : gmap Z Z) (u : uart) (x : X)
  : outcome (Z * gmap Z Z * uart * X) :=
  if entry =? 0 then '(_, u) ← elf_fail "[elf] zero entry point" () u; Ret (-1, mem, u, x)
  else if negb st.1 || negb (user_load_range_ok virt entry 1) || negb st.2 then
    '(_, u) ← elf_fail "[elf] entry lies outside loadable user image" () u; Ret (-1, mem, u, x)
  else
    '(tid, x) ← spawn entry name x;
    if tid <? 0 then '(_, u) ← elf_fail "[elf] failed to create task" () u; Ret (-1, mem, u, x)
    else Ret (tid, mem, u, x).

Definition elf_load_buf (virt : bool) (buf : list Z) (size : Z) (name : list Z) (mem : gmap Z Z) (u : uart) (x : X)
  : outcome (Z * gmap Z Z * uart * X) :=
  let gives_up msg u := '(_, u) ← elf_fail msg () u; Ret (-1, mem, u, x) in
  if size <? SIZEOF_EHDR then gives_up "[elf] file too small"%string u
  else
    magic ← e_magic buf; class ← e_class buf; data ← e_data buf; type ← e_type buf; machine ← e_machine buf;
    if negb (magic =? ELF_MAGIC) || negb (class =? ELFCLASS64) || negb (data =? ELFDATA2LSB) || negb (type =? ET_EXEC) || negb (machine =? EM_AARCH64) then
      gives_up "[elf] bad header (not AArch64 ELF64 executable)"%string u
    else
      phnum ← e_phnum buf; phentsize ← e_phentsize buf;
      if (phnum =? 0) || (phentsize <? SIZEOF_PHDR) then gives_up "[elf] no program headers"%string u
      else
        phoff ← e_phoff buf; entry ← e_entry buf;
        if (size <? phoff) || (u64 (size - phoff) / phentsize <? phnum) then gives_up "[elf] program header table extends past end of file"%string u
        else
          '(r, mem, u) ← load_segments virt buf size entry phoff phentsize (Z.to_nat phnum) 0 (false, false) mem u;
          match r with
          | None => Ret (-1, mem, u, x)
          | Some st => start_task virt entry name st mem u x
          end.

Definition elf_exec_buf := elf_load_buf.
End Loader.

(** The file system with its heap, and what else the new task touches. *)
Section Exec.
Context {H Y : Type} `{Allocator H} (spawn : Z -> list Z -> vfs H * Y -> outcome (Z * (vfs H * Y))).

Definition elf_exec (virt : bool) (junk path name : list Z) (mem : gmap Z Z) (u : uart) (v : vfs H) (y : Y)
  : outcome (Z * gmap Z Z * uart * (vfs H * Y)) :=
  '(fd, v) ← vfs_open [] path O_RDONLY v;
  if fd <? 0 then
    u ← uart_puts (lit "[elf] not found: ") u; u ← uart_puts path u; u ← uart_puts (line_of "") u;
    Ret (-1, mem, u, (v, y))
  else
    '(filesz, v) ← vfs_seek fd 0 SEEK_END v;
    '(_, v) ← vfs_seek fd 0 SEEK_SET v;
    if (filesz <=? 0) || (VFS_MAX_FSIZE <? filesz) then
      '(_, u) ← elf_fail "[elf] file too large or empty" () u;
      v ← vfs_close fd v; Ret (-1, mem, u, (v, y))
    else
      '(p, b) ← blk_alloc junk filesz (vblocks v);
      let v := set_vblocks v b in
      if p =? 0 then
        '(_, u) ← elf_fail "[elf] out of memory" () u;
        v ← vfs_close fd v; Ret (-1, mem, u, (v, y))
      else
        buf ← blk_get p (vblocks v);
        '(_, buf, v) ← vfs_read fd buf filesz v;
        b ← blk_upd p (fun _ => Ret buf) (vblocks v);
        v ← vfs_close fd (set_vblocks v b);
        '(tid, mem, u, x) ← elf_load_buf spawn virt buf (u32 filesz) name mem u (v, y);
        let '(v, y) := x in
        b ← blk_free p (vblocks v);
        Ret (tid, mem, u, (set_vblocks v b, y)).
End Exec.

(** ** What is loaded *)

Definition is_byte (b : Z) : Prop := 0 <= b < 256.

Definition loadable (ph : elf64_phdr_t) : bool := (p_type ph =? PT_LOAD) && negb (p_memsz ph =? 0).
(** [ph] says what is at [a]: a byte of the file, or zero behind them. *)
Definition covers (ph : elf64_phdr_t) (a : Z) : bool := loadable ph && (p_vaddr ph <=? a) && (a <? p_vaddr ph + p_memsz ph).
Definition image_byte (buf : list Z) (ph : elf64_phdr_t) (a : Z) : option Z :=
  if a - p_vaddr ph <? p_filesz ph then buf !! Z.to_nat (p_offset ph + (a - p_vaddr ph)) else Some 0.
(** The last header that covers an address decides. *)
Definition image (buf : list Z) (phs : list elf64_phdr_t) (old : option Z) (a : Z) : option Z :=
  foldl (fun r ph => if covers ph a then image_byte buf ph a else r) old phs.

(** What a segment that is loaded satisfies. *)
Definition segment_fits (virt : bool) (size : Z) (ph : elf64_phdr_t) : Prop :=
  loadable ph = true ->
  USER_LOAD_BASE virt <= p_vaddr ph /\ p_vaddr ph + p_memsz ph <= USER_LOAD_LIMIT virt
  /\ p_filesz ph <= p_memsz ph /\ p_offset ph + p_filesz ph <= size.

Lemma le_ok n p off : Forall is_byte p -> 0 <= off -> off + Z.of_nat n <= zlen p -> exists v, le n p off = Ret v /\ 0 <= v < 256 ^ Z.of_nat n.
Proof.
  intros Hp. revert off. induction n as [|n IH]; intros off Ho Hn; [by exists 0|]. cbn [le].
  destruct (aget_ok p off) as [b Eb]; [lia|]. rewrite Eb, bind_Ret. apply aget_Ret in Eb as [_ Eb]. pose proof (Forall_lookup_1 _ _ _ _ Hp Eb) as Hb. unfold is_byte in Hb.
  destruct (IH (off + 1)) as (r & -> & Hr); [lia|lia|]. rewrite bind_Ret. eexists. split; [done|]. rewrite Nat2Z.inj_succ, Z.pow_succ_r by lia. lia.
Qed.

Lemma store_bytes_lookup l a mem x : store_bytes l a mem !! x = if bool_decide (a <= x < a + zlen l) then l !! Z.to_nat (x - a) else mem !! x.
Proof.
  revert a mem. induction l as [|b l IH]; intros a mem; cbn [store_bytes length].
  - by rewrite bool_decide_false by lia.
  - rewrite IH. case_bool_decide as H1; case_bool_decide as H2; try lia.
    + replace (Z.to_nat (x - a)) with (S (Z.to_nat (x - (a + 1)))) by lia. done.
    + assert (x = a) as -> by lia. rewrite lookup_insert_eq, Z.sub_diag. done.
    + by rewrite lookup_insert_ne by lia.
Qed.

Definition in_window (virt : bool) (a : Z) : Prop := USER_LOAD_BASE virt <= a < USER_LOAD_LIMIT virt.

Lemma range_ok_window virt start len : 0 <= len -> user_load_range_ok virt start len = true ->
  USER_LOAD_BASE virt <= start /\ start + len <= USER_LOAD_LIMIT virt.
Proof.
  intros Hl. unfold user_load_range_ok, range_fits. intros [H1%Z.leb_le [H2%Z.leb_le H3%Z.leb_le]%andb_true_iff]%andb_true_iff. lia.
Qed.

Lemma window_small virt : 0 < USER_LOAD_BASE virt /\ USER_LOAD_LIMIT virt < 2 ^ 31.
Proof. by destruct virt. Qed.

Lemma elf_fail_ok {A} msg (a : A) u : exists u', elf_fail msg a u = Ret (a, u').
Proof. unfold elf_fail. destruct (puts_ok (line_of msg) u) as [u' ->]; [apply line_terminated|]. rewrite bind_Ret. by eexists. Qed.

Definition phdr_ok (ph : elf64_phdr_t) : Prop :=
  0 <= p_offset ph <= ULONG_MAX /\ 0 <= p_vaddr ph <= ULONG_MAX /\ 0 <= p_filesz ph <= ULONG_MAX /\ 0 <= p_memsz ph <= ULONG_MAX.

Lemma load_segment_ok virt buf size entry ph st mem u :
  size <= zlen buf -> 0 <= size < 2 ^ 32 -> 0 <= entry <= ULONG_MAX -> phdr_ok ph ->
  exists r mem' u', load_segment virt buf size entry ph st mem u = Ret (r, mem', u')
    /\ (forall a, ~ in_window virt a -> mem' !! a = mem !! a)
    /\ match r with
       | None => True
       | Some st' => segment_fits virt size ph /\ st' = (loadable ph || st.1, covers ph entry || st.2)
           /\ forall a, mem' !! a = if covers ph a then image_byte buf ph a else mem !! a
       end.
Proof.
  intros Hsz Hs32 He (Ho & Hv & Hf & Hm). unfold load_segment. destruct st as [saw inl].
  destruct (Z.eqb_spec (p_type ph) PT_LOAD) as [Ety|Ety]; cbn [negb]; [destruct (Z.eqb_spec (p_memsz ph) 0) as [Em|Em]|].
  1,3: (exists (Some (saw, inl)), mem, u; assert (loadable ph = false) as El by (unfold loadable; rewrite ?Ety, ?Em; rewrite ?andb_false_r; first [done|by rewrite (proj2 (Z.eqb_neq _ _) Ety)]);
    unfold segment_fits, covers; rewrite El; done).
  assert (loadable ph = true) as El by (unfold loadable; by rewrite Ety, (proj2 (Z.eqb_neq _ _) Em)).
  assert (forall msg, exists u', elf_fail msg (None : option (bool * bool), mem) u = Ret (None, mem, u')) as Hfail by (intros; apply elf_fail_ok).
  destruct (Z.ltb_spec (p_memsz ph) (p_filesz ph)); [destruct (Hfail "[elf] PT_LOAD filesz exceeds memsz"%string) as [u' ->]; by exists None, mem, u'|].
  destruct (user_load_range_ok virt (p_vaddr ph) (p_memsz ph)) eqn:Er; cbn [negb].
  2:{ destruct (Hfail "[elf] PT_LOAD lies outside user window"%string) as [u' ->]; by exists None, mem, u'. }
  cbv zeta. destruct (range_ok_window virt _ _ (proj1 Hm) Er) as [Hw1 Hw2]. destruct (window_small virt) as [Hw3 Hw4]. change (2 ^ 31) with 2147483648 in *. change (2 ^ 32) with 4294967296 in *.
  destruct (Z.leb_spec size (p_offset ph)).
  { destruct (Hfail "[elf] segment lies beyond end of file"%string) as [u' ->]; by exists None, mem, u'. }
  rewrite (u64_small (p_offset ph + p_filesz ph)) by lia. rewrite (u64_small (size - p_offset ph)) by lia.
  set (copy := if size <? p_offset ph + p_filesz ph then size - p_offset ph else p_filesz ph).
  assert (0 <= copy <= p_filesz ph /\ p_offset ph + copy <= size /\ (copy = p_filesz ph -> p_offset ph + p_filesz ph <= size)) as (Hc1 & Hc2 & Hc3) by (unfold copy; destruct (Z.ltb_spec size (p_offset ph + p_filesz ph)); lia).
  assert (exists mem1, (if 0 <? copy then src ← ptr_add buf (p_offset ph); copy_to (p_vaddr ph) src copy mem else Ret mem) = Ret mem1
    /\ forall a, mem1 !! a = if bool_decide (p_vaddr ph <= a < p_vaddr ph + copy) then buf !! Z.to_nat (p_offset ph + (a - p_vaddr ph)) else mem !! a) as (mem1 & -> & Hm1).
  { destruct (Z.ltb_spec 0 copy).
    - unfold ptr_add. rewrite bool_decide_true, bind_Ret by lia. unfold copy_to. rewrite length_drop, bool_decide_true by lia. eexists. split; [done|].
      intros a. rewrite store_bytes_lookup, length_take, length_drop. replace (Z.of_nat (Z.to_nat copy `min` (length buf - Z.to_nat (p_offset ph)))) with copy by lia.
      case_bool_decide; [|done]. rewrite lookup_take_lt, lookup_drop by lia. f_equal. lia.
    - exists mem. split; [done|]. intros a. by rewrite bool_decide_false by lia. }
  rewrite bind_Ret. destruct (Z.eqb_spec copy (p_filesz ph)) as [Ec|Ec]; cbn [negb].
  2:{ destruct (elf_fail_ok "[elf] truncated PT_LOAD segment" (None : option (bool * bool), mem1) u) as [u' ->]. exists None, mem1, u'. split; [done|]. split; [|done].
      intros a Ha. rewrite Hm1, bool_decide_false; [done|]. unfold in_window in Ha. lia. }
  eexists _, _, u. split; [done|].
  assert (forall a, (if p_filesz ph <? p_memsz ph then clear_to (u64 (p_vaddr ph + p_filesz ph)) (u64 (p_memsz ph - p_filesz ph)) mem1 else mem1) !! a
    = if covers ph a then image_byte buf ph a else mem !! a) as Hfin.
  { intros a. unfold covers, image_byte. rewrite El. cbn [andb].
    rewrite !u64_small by lia. assert (forall a, clear_to (p_vaddr ph + p_filesz ph) (p_memsz ph - p_filesz ph) mem1 !! a = if bool_decide (p_vaddr ph + p_filesz ph <= a < p_vaddr ph + p_memsz ph) then Some 0 else mem1 !! a) as Hcl.
    { intros a'. unfold clear_to. rewrite store_bytes_lookup, length_replicate. replace (p_vaddr ph + p_filesz ph + Z.of_nat (Z.to_nat (p_memsz ph - p_filesz ph))) with (p_vaddr ph + p_memsz ph) by lia.
      case_bool_decide; [|done]. apply lookup_replicate_2. lia. }
    destruct (Z.ltb_spec (p_filesz ph) (p_memsz ph)); [rewrite Hcl; case_bool_decide|]; rewrite ?Hm1, ?Ec; repeat case_bool_decide;
      destruct (Z.leb_spec (p_vaddr ph) a), (Z.ltb_spec a (p_vaddr ph + p_memsz ph)), (Z.ltb_spec (a - p_vaddr ph) (p_filesz ph)); cbn [andb]; try lia; done. }
  split; [|split; [|split; [|exact Hfin]]].
  - intros a Ha. rewrite Hfin. unfold covers, in_window in *. rewrite El. destruct (Z.leb_spec (p_vaddr ph) a), (Z.ltb_spec a (p_vaddr ph + p_memsz ph)); cbn [andb]; try done. lia.
  - intros _. split; [done|]. split; [done|]. split; [done|]. by apply Hc3.
  - rewrite El. cbn [orb fst snd]. f_equal. f_equal. unfold covers. rewrite El. cbn [andb]. destruct (Z.leb_spec (p_vaddr ph) entry); cbn [andb]; [|done].
    rewrite u64_small by lia. destruct (Z.ltb_spec (entry - p_vaddr ph) (p_memsz ph)), (Z.ltb_spec entry (p_vaddr ph + p_memsz ph)); try done; lia.
Qed.

(** The program headers as the loader reads them. *)
Fixpoint read_phdrs (buf : list Z) (phoff phentsize : Z) (n : nat) (i : Z) : outcome (list elf64_phdr_t) :=
  match n with
  | O => Ret []
  | S n => ph ← read_phdr buf (u64 (phoff + i * phentsize)); phs ← read_phdrs buf phoff phentsize n (i + 1); Ret (ph :: phs)
  end.

Lemma read_phdr_ok buf off : Forall is_byte buf -> 0 <= off -> off + SIZEOF_PHDR <= zlen buf -> exists ph, read_phdr buf off = Ret ph /\ phdr_ok ph.
Proof.
  unfold SIZEOF_PHDR. intros Hb Ho Hl. unfold read_phdr.
  destruct (le_ok 4 buf off Hb) as (ty & -> & _); [lia|lia|]. rewrite bind_Ret. destruct (le_ok 8 buf (off + 8) Hb) as (o & -> & Ho'); [lia|lia|]. rewrite bind_Ret.
  destruct (le_ok 8 buf (off + 16) Hb) as (va & -> & Hva); [lia|lia|]. rewrite bind_Ret. destruct (le_ok 8 buf (off + 32) Hb) as (fz & -> & Hfz); [lia|lia|]. rewrite bind_Ret.
  destruct (le_ok 8 buf (off + 40) Hb) as (mz & -> & Hmz); [lia|lia|]. rewrite bind_Ret. change (256 ^ Z.of_nat 8) with (ULONG_MAX + 1) in *.
  eexists. split; [done|]. unfold phdr_ok. cbn [p_offset p_vaddr p_filesz p_memsz]. lia.
Qed.

Lemma load_segments_ok virt buf size entry phoff phentsize n i st mem u :
  Forall is_byte buf -> size <= zlen buf -> 0 <= size < 2 ^ 32 -> 0 <= entry <= ULONG_MAX -> 0 <= phoff -> 0 <= i -> SIZEOF_PHDR <= phentsize ->
  phoff + (i + Z.of_nat n) * phentsize <= size ->
  exists r mem' u', load_segments virt buf size entry phoff phentsize n i st mem u = Ret (r, mem', u')
    /\ (forall a, ~ in_window virt a -> mem' !! a = mem !! a)
    /\ match r with
       | None => True
       | Some st' => exists phs, read_phdrs buf phoff phentsize n i = Ret phs /\ Forall (segment_fits virt size) phs
           /\ st' = (existsb loadable phs || st.1, existsb (fun ph => covers ph entry) phs || st.2)
           /\ forall a, mem' !! a = image buf phs (mem !! a) a
       end.
Proof.
  intros Hb Hsz Hs32 He Hph Hi Hent. unfold SIZEOF_PHDR in Hent. change (2 ^ 32) with 4294967296 in *. revert i Hi st mem u. induction n as [|n IH]; intros i Hi st mem u Hn; cbn [load_segments read_phdrs].
  - exists (Some st), mem, u. split; [done|]. split; [done|]. exists []. split; [done|]. split; [done|]. split; [by destruct st|done].
  - rewrite u64_small by nia. destruct (read_phdr_ok buf (phoff + i * phentsize) Hb) as (ph & -> & Hok); [nia|unfold SIZEOF_PHDR; nia|]. rewrite !bind_Ret.
    destruct (load_segment_ok virt buf size entry ph st mem u Hsz) as (r & mem1 & u1 & -> & Hout & Hr); [done|done|done|]. rewrite bind_Ret. cbv iota beta.
    destruct r as [st1|]; [|by exists None, mem1, u1]. destruct Hr as (Hfit & -> & Hm1).
    destruct (IH (i + 1) ltac:(lia) (loadable ph || st.1, covers ph entry || st.2) mem1 u1) as (r & mem2 & u2 & -> & Hout2 & Hr2); [lia|].
    exists r, mem2, u2. split; [done|]. split; [intros a Ha; by rewrite Hout2, Hout|]. destruct r as [st2|]; [|done].
    destruct Hr2 as (phs & -> & Hfits & -> & Hm2). exists (ph :: phs). rewrite bind_Ret. split; [done|]. split; [by constructor|]. cbn [existsb fst snd]. split.
    + f_equal; [by destruct (loadable ph), (existsb loadable phs)|]. by destruct (covers ph entry), (existsb (fun ph => covers ph entry) phs).
    + intros a. rewrite Hm2, Hm1. done.
Qed.

(** The fields of an accepted header. *)
Definition elf_header (buf : list Z) (size : Z) (entry : Z) (phs : list elf64_phdr_t) : Prop :=
  SIZEOF_EHDR <= size /\ e_magic buf = Ret ELF_MAGIC /\ e_class buf = Ret ELFCLASS64 /\ e_data buf = Ret ELFDATA2LSB /\ e_type buf = Ret ET_EXEC /\ e_machine buf = Ret EM_AARCH64
  /\ e_entry buf = Ret entry
  /\ exists phoff phentsize phnum, e_phoff buf = Ret phoff /\ e_phentsize buf = Ret phentsize /\ e_phnum buf = Ret phnum /\ 0 < phnum /\ SIZEOF_PHDR <= phentsize
     /\ phoff + phnum * phentsize <= size /\ read_phdrs buf phoff phentsize (Z.to_nat phnum) 0 = Ret phs.

Lemma start_task_ok {X} (spawn : Z -> list Z -> X -> outcome (Z * X)) virt entry name st mem u x :
  (forall e, exists tid x', spawn e name x = Ret (tid, x')) ->
  exists r u' x', start_task spawn virt entry name st mem u x = Ret (r, mem, u', x')
    /\ (0 <= r -> st.2 = true /\ in_window virt entry /\ spawn entry name x = Ret (r, x')) /\ (r < 0 -> r = -1)
    /\ (x' = x \/ exists e tid, spawn e name x = Ret (tid, x')).
Proof.
  intros Hsp. unfold start_task.
  assert (forall msg, exists u', ('(_, u) ← elf_fail msg () u; Ret (-1, mem, u, x)) = Ret (-1, mem, u', x)) as Hfail.
  { intros msg. destruct (elf_fail_ok msg () u) as [u' ->]. by exists u'. }
  destruct (entry =? 0). { destruct (Hfail "[elf] zero entry point"%string) as [u' ->]. exists (-1), u', x. split; [done|]. split; [lia|]. split; [done|by left]. }
  destruct st as [saw inl]. destruct saw, (user_load_range_ok virt entry 1) eqn:Er, inl; cbn [fst snd negb orb].
  2-8: (destruct (Hfail "[elf] entry lies outside loadable user image"%string) as [u' ->]; exists (-1), u', x; split; [done|]; split; [lia|]; split; [lia|by left]).
  apply range_ok_window in Er; [|lia]. destruct (Hsp entry) as (tid & x' & Esp). rewrite Esp, bind_Ret. cbv iota beta.
  destruct (Z.ltb_spec tid 0).
  - destruct (elf_fail_ok "[elf] failed to create task" () u) as [u' ->]. rewrite bind_Ret. exists (-1), u', x'. split; [done|]. split; [lia|]. split; [done|]. right. by exists entry, tid.
  - exists tid, u, x'. split; [done|]. split; [|split; [lia|right; by exists entry, tid]]. intros _. split; [done|]. split; [unfold in_window; lia|done].
Qed.

(** What elf_load_buf does, and that it calls [spawn] at most once. *)
Lemma elf_load_run {X : Type} (spawn : Z -> list Z -> X -> outcome (Z * X)) (virt : bool) (buf : list Z) (size : Z) (name : list Z)
  (mem : gmap Z Z) (u : uart) (x : X) :
  Forall is_byte buf -> size <= zlen buf -> 0 <= size < 2 ^ 32 -> (forall e, exists tid x', spawn e name x = Ret (tid, x')) ->
  exists r mem' u' x', elf_load_buf spawn virt buf size name mem u x = Ret (r, mem', u', x')
    /\ (forall a, ~ in_window virt a -> mem' !! a = mem !! a)
    /\ (r < 0 -> r = -1)
    /\ (x' = x \/ exists e tid, spawn e name x = Ret (tid, x'))
    /\ (0 <= r -> exists entry phs, elf_header buf size entry phs /\ Forall (segment_fits virt size) phs
          /\ in_window virt entry /\ (exists ph, ph ∈ phs /\ covers ph entry = true)
          /\ spawn entry name x = Ret (r, x')
          /\ forall a, mem' !! a = image buf phs (mem !! a) a).
Proof.
  intros Hb Hsz Hs32 Hsp. unfold elf_load_buf. cbv zeta.
  assert (forall msg, exists r mem' u' x', ('(_, u) ← elf_fail msg () u; Ret (-1, mem, u, x)) = Ret (r, mem', u', x')
    /\ (forall a, ~ in_window virt a -> mem' !! a = mem !! a) /\ (r < 0 -> r = -1) /\ (x' = x \/ exists e tid, spawn e name x = Ret (tid, x')) /\ (0 <= r -> False)) as Hfail.
  { intros msg. destruct (elf_fail_ok msg () u) as [u' ->]. rewrite bind_Ret. exists (-1), mem, u', x. split; [done|]. split; [done|]. split; [lia|]. split; [by left|lia]. }
  assert (forall (r : Z) (mem' : gmap Z Z) (Q P R : Prop), P /\ (forall a, ~ in_window virt a -> mem' !! a = mem !! a) /\ (r < 0 -> r = -1) /\ R /\ (0 <= r -> False) ->
    P /\ (forall a, ~ in_window virt a -> mem' !! a = mem !! a) /\ (r < 0 -> r = -1) /\ R /\ (0 <= r -> Q)) as Hweak.
  { intros r m Q P R (HP & Ho & Hn & HR & Hf). split; [done|]. split; [done|]. split; [done|]. split; [done|]. by intros ?%Hf. }
  unfold SIZEOF_EHDR. destruct (Z.ltb_spec size 64) as [_|H64].
  { destruct (Hfail "[elf] file too small"%string) as (r & m & u' & x' & Hr). exists r, m, u', x'. by apply Hweak. }
  unfold e_magic, e_class, e_data, e_type, e_machine, e_phnum, e_phentsize, e_phoff, e_entry.
  destruct (le_ok 4 buf 0 Hb) as (magic & Emg & _); [lia|lia|]. destruct (le_ok 1 buf 4 Hb) as (class & Ecl & _); [lia|lia|]. destruct (le_ok 1 buf 5 Hb) as (data & Eda & _); [lia|lia|].
  destruct (le_ok 2 buf 16 Hb) as (type & Ety & _); [lia|lia|]. destruct (le_ok 2 buf 18 Hb) as (mach & Ema & _); [lia|lia|]. destruct (le_ok 2 buf 56 Hb) as (phnum & Epn & Hpn); [lia|lia|].
  destruct (le_ok 2 buf 54 Hb) as (phentsize & Eps & Hps); [lia|lia|]. destruct (le_ok 8 buf 32 Hb) as (phoff & Epo & Hpo); [lia|lia|]. destruct (le_ok 8 buf 24 Hb) as (entry & Een & Hen); [lia|lia|].
  rewrite Emg, bind_Ret, Ecl, bind_Ret, Eda, bind_Ret, Ety, bind_Ret, Ema, bind_Ret. change (256 ^ Z.of_nat 8) with (ULONG_MAX + 1) in *.
  destruct (negb (magic =? ELF_MAGIC) || negb (class =? ELFCLASS64) || negb (data =? ELFDATA2LSB) || negb (type =? ET_EXEC) || negb (mach =? EM_AARCH64)) eqn:Ehd.
  { destruct (Hfail "[elf] bad header (not AArch64 ELF64 executable)"%string) as (r & m & u' & x' & Hr). exists r, m, u', x'. by apply Hweak. }
  apply orb_false_iff in Ehd as [[[[E1 E2]%orb_false_iff E3]%orb_false_iff E4]%orb_false_iff E5]. apply negb_false_iff, Z.eqb_eq in E1, E2, E3, E4, E5.
  rewrite Epn, bind_Ret, Eps, bind_Ret. unfold SIZEOF_PHDR. destruct ((phnum =? 0) || (phentsize <? 56)) eqn:Epp.
  { destruct (Hfail "[elf] no program headers"%string) as (r & m & u' & x' & Hr). exists r, m, u', x'. by apply Hweak. }
  apply orb_false_iff in Epp as [Ep1%Z.eqb_neq Ep2%Z.ltb_ge]. rewrite Epo, bind_Ret, Een, bind_Ret. change (2 ^ 32) with 4294967296 in *.
  destruct ((size <? phoff) || (u64 (size - phoff) / phentsize <? phnum)) eqn:Et.
  { destruct (Hfail "[elf] program header table extends past end of file"%string) as (r & m & u' & x' & Hr). exists r, m, u', x'. by apply Hweak. }
  apply orb_false_iff in Et as [Et1%Z.ltb_ge Et2%Z.ltb_ge]. rewrite u64_small in Et2 by lia.
  assert (phoff + phnum * phentsize <= size) as Htab by (pose proof (Z.mul_div_le (size - phoff) phentsize ltac:(lia)); nia).
  destruct (load_segments_ok virt buf size entry phoff phentsize (Z.to_nat phnum) 0 (false, false) mem u) as (r & mem1 & u1 & -> & Hout & Hr);
    [done|done|done|lia|lia|lia|unfold SIZEOF_PHDR; lia|rewrite Z.add_0_l, Z2Nat.id; lia|].
  rewrite bind_Ret. cbv iota beta. destruct r as [st|].
  2:{ exists (-1), mem1, u1, x. split; [done|]. split; [done|]. split; [lia|]. split; [by left|lia]. }
  destruct Hr as (phs & Eph & Hfits & -> & Him). destruct (start_task_ok spawn virt entry name (existsb loadable phs || false, existsb (fun ph => covers ph entry) phs || false) mem1 u1 x Hsp) as (r & u2 & x2 & Est & Hr & Hneg & Hx).
  exists r, mem1, u2, x2. split; [exact Est|]. split; [done|]. split; [done|]. split; [done|]. intros H0. destruct (Hr H0) as (Hin & Hw & Hspn). exists entry, phs. subst.
  split; [|split; [done|split; [done|split; [|done]]]].
  - split; [done|]. do 6 (split; [done|]). exists phoff, phentsize, phnum. do 3 (split; [done|]). split; [lia|]. done.
  - cbn [snd] in Hin. rewrite orb_false_r in Hin. apply existsb_exists in Hin as (ph & Hp & Hc). exists ph. split; [by apply list_elem_of_In|done].
Qed.

(** C28. [elf_load_buf] never reads outside the file nor writes outside the user
    window, whatever bytes the file has and even when it gives up half way.  It
    returns a task only for a little-endian AArch64 executable whose loadable
    segments lie in the file and in the window and whose entry lies in one of
    them; the window then holds the image: at every address the last segment
    that covers it, file bytes first and zeros behind them. *)
Theorem elf_load_correct {X : Type} (spawn : Z -> list Z -> X -> outcome (Z * X)) (virt : bool) (buf : list Z) (size : Z) (name : list Z)
  (mem : gmap Z Z) (u : uart) (x : X) :
  Forall is_byte buf -> size <= zlen buf -> 0 <= size < 2 ^ 32 -> (forall e n x, exists tid x', spawn e n x = Ret (tid, x')) ->
  exists r mem' u' x', elf_load_buf spawn virt buf size name mem u x = Ret (r, mem', u', x')
    /\ (forall a, ~ in_window virt a -> mem' !! a = mem !! a)
    /\ (r < 0 -> r = -1)
    /\ (0 <= r -> exists entry phs, elf_header buf size entry phs /\ Forall (segment_fits virt size) phs
          /\ in_window virt entry /\ (exists ph, ph ∈ phs /\ covers ph entry = true)
          /\ spawn entry name x = Ret (r, x')
          /\ forall a, mem' !! a = image buf phs (mem !! a) a).
Proof.
  intros Hb Hsz Hs32 Hsp. destruct (elf_load_run spawn virt buf size name mem u x Hb Hsz Hs32) as (r & mem' & u' & x' & E & Hout & Hneg & _ & Hok); [by intros; apply Hsp|].
  by exists r, mem', u', x'.
Qed.

(** *** Examples *)

(** One segment of four bytes, eight in memory, at the start of the window. *)
Definition tiny_elf : list Z :=
  [127; 69; 76; 70; 2; 1; 1; 0] ++ replicate 8 0 ++ [2; 0; 183; 0; 1; 0; 0; 0] ++ [0; 0; 0; 2; 0; 0; 0; 0] ++ [64; 0; 0; 0; 0; 0; 0; 0] ++ replicate 12 0
  ++ [64; 0; 56; 0; 1; 0] ++ replicate 6 0
  ++ [1; 0; 0; 0; 5; 0; 0; 0] ++ [120; 0; 0; 0; 0; 0; 0; 0] ++ [0; 0; 0; 2; 0; 0; 0; 0] ++ [0; 0; 0; 2; 0; 0; 0; 0]
  ++ [4; 0; 0; 0; 0; 0; 0; 0] ++ [8; 0; 0; 0; 0; 0; 0; 0] ++ [0; 16; 0; 0; 0; 0; 0; 0] ++ [31; 32; 3; 213].
Definition task_seven (entry : Z) (name : list Z) (x : unit) : outcome (Z * unit) := Ret (7, x).

Lemma elf_load_correct_witness : exists r mem' u' x', elf_load_buf task_seven false tiny_elf 124 (lit "t") ∅ quiet () = Ret (r, mem', u', x') /\ mem' !! 33554431 = None.
Proof.
  destruct (elf_load_correct task_seven false tiny_elf 124 (lit "t") ∅ quiet ()) as (r & mem' & u' & x' & E & Hout & _);
    [unfold is_byte; repeat (constructor; [lia|]); constructor|done|lia|by eexists _, _|].
  exists r, mem', u', x'. split; [exact E|]. rewrite Hout; [done|]. unfold in_window. simpl. lia.
Defined.

Lemma tiny_elf_loads : exists mem' u', elf_load_buf task_seven false tiny_elf 124 (lit "t") ∅ quiet () = Ret (7, mem', u', ())
  /\ (fun a => mem' !! (33554432 + a)) <$> [0; 3; 4; 7; 8] = [Some 31; Some 213; Some 0; Some 0; None].
Proof. eexists _, _. split; vm_compute; reflexivity. Qed.
