(* ===== verification/Commands.v ===== *)
(** kernel.c: the shell's text and file commands (lines 542-600, 677-776 and
    1269-1420).

    [shell] is the machine of Cpu.v with the shell's working directory.  The
    commands print on the console and work on the file system; the contents of
    fresh file blocks ([junk]) are an argument.  A local buffer starts with
    zeros, and what matters of it is written before it is read. *)
From S2P Require Import Prelude Spinlock Allocator Heap CString Blocks Uart PageTable Task Vfs Shell User Cpu.

(** platform.h: what the board has. *)
Record features := mk_features {
  has_gpio : bool; has_framebuffer : bool; has_usb_keyboard : bool; has_sd : bool;
  init_mmu : bool; init_irqs : bool
}.
Definition rpi4_features : features := mk_features true true true true true true.
Definition virt_features : features := mk_features false false false false false true.

(** What [help] prints, call by call. *)
Definition help_text (p : features) : list (list Z) :=
  [line_of "Commands:";
    10 :: line_of "[system]";
    line_of "  help                show this message";
    line_of "  info                version and build info";
    line_of "  why                 why I built this";
    line_of "  clear               clear screen";
    line_of "  echo <text>         print text";
    line_of "  el                  show exception level";
    line_of "  uptime              time since boot";
    line_of "  panic               trigger kernel panic";
    line_of "  crashtest <type>    null/assert/brk/undef/align"] ++
  (if has_gpio p then [
    10 :: line_of "[gpio]";
    line_of "  led <pin> <on/off>  set GPIO pin output";
    line_of "  blink <pin>         blink GPIO pin 5 times";
    line_of "  readpin <pin>       read GPIO pin state"] else []) ++
  [10 :: line_of "[timer/irq]";
    line_of "  ticks               show timer IRQ count";
    line_of "  irqtest             count IRQs over 3s";
    line_of "  timerdbg            dump GIC/timer state";
    10 :: line_of "[memory]";
    line_of "  peek <addr>         read 32-bit value at hex address";
    line_of "  poke <addr> <val>   write 32-bit hex value to address";
    line_of "  dump <addr> [n]     dump n words (default 8)";
    line_of "  heapinfo            show allocator state";
    line_of "  malloc <size>       test allocate bytes";
    line_of "  free <addr>         free allocated memory";
    10 :: line_of "[tasks]";
    line_of "  tasks               list running tasks";
    line_of "  spawn               spawn a background counter task";
    line_of "  kill <id>           kill a task by ID";
    line_of "  sleep <ms>          sleep current task for ms";
    line_of "  yield               yield to next task";
    line_of "  uspawn              spawn a user-mode demo task (EL1)";
    10 :: line_of "[ipc/sync]";
    line_of "  locktest            test spinlock primitives";
    line_of "  semtest             producer/consumer semaphore demo";
    line_of "  mqtest              message queue ping-pong demo";
    line_of "  mutextest           mutex shared counter demo";
    10 :: line_of "[filesystem]";
    line_of "  ls [path]           list directory contents";
    line_of "  mkdir <name>        create directory";
    line_of "  mkfile <name>       create empty file";
    line_of "  write <name> <data> write data to file";
    line_of "  cat <name>          read file contents";
    line_of "  rm <name>           remove file or empty directory";
    line_of "  cd <path>           change working directory";
    line_of "  pwd                 print working directory";
    line_of "  tcc <src> -o <out>  compile Tiny C program in HudOS";
    line_of "  toycc <src> -o <out> alias for the in-kernel Tiny C compiler";
    line_of "  vi <file>           open vi-like editor";
    line_of "  exec <path>         load ELF binary from VFS and run it"] ++
  (if has_usb_keyboard p then [
    10 :: line_of "[keyboard]";
    line_of "  kbinit              init USB HID keyboard (DWC2 OTG)"] else []) ++
  (if has_sd p then [
    10 :: line_of "[sd card / fat32]";
    line_of "  sdinit              initialize SD card";
    line_of "  sdls [path]         list directory on SD card (FAT32)";
    line_of "  sdcat <path>        print file from SD card";
    line_of "  sdexec <path>       load and run ELF from SD card";
    line_of "  mount               copy /bin/* from SD into VFS /bin"] else []) ++
  (if has_framebuffer p then [
    10 :: line_of "[framebuffer]";
    line_of "  fbtest              draw test pattern on framebuffer";
    line_of "  fbmirror            toggle horizontal mirror (QEMU fix)";
    line_of "  home                launch live desktop (auto-updates)";
    line_of "  home stop           close the desktop"] else []) ++
  [10 :: line_of "[self-tests]";
    line_of "  test_uart           test UART and string library"] ++
  (if has_gpio p then [
    line_of "  test_gpio           test GPIO driver"] else []) ++
  [line_of "  test_timer          test timer driver"].

(** [while(src[i] && src[i] != ' ' && i < n - 1)]: the first word of [src] is
    copied; also what follows it. *)
Fixpoint copy_word (src dst : list Z) (i n : Z) : outcome (list Z * list Z * Z) :=
  match src with
  | [] => Undef
  | c :: src' =>
    if negb (c =? 0) && negb (c =? 32) && (i <? n - 1) then dst ← aset dst i c; copy_word src' dst (i + 1) n
    else Ret (src, dst, i)
  end.

(** The source text of the demo program; a backquote stands for a quote. *)
Definition demo_line (s : string) : list Z := map (fun c => if c =? 96 then 34 else c) (bytes s) ++ [10].
Definition demo_src : list Z :=
  concat (map demo_line [
    "long u_puts(char *s);";
    "long u_putc(char c);";
    "long u_sleep(long ms);";
    "";
    "int main(void){";
    "    int i;";
    "    int total;";
    "    total = 0;";
    "";
    "    u_puts(`Tiny C quick demo\n`);";
    "";
    "    for(i = 0; i < 4; i = i + 1){";
    "        total = total + i;";
    "        u_putc('0' + i);";
    "    }";
    "";
    "    u_puts(`\nsum=`);";
    "    u_putc('0' + total);";
    "    u_puts(`\n`);";
    "";
    "    u_sleep(100);";
    "    return 0;";
    "}"]%string) ++ [0].

Record shell (H : Type) := mk_shell { sm : machine H; cwd : list Z }.
Arguments mk_shell {H} sm cwd.
Arguments sm {H} s.
Arguments cwd {H} s.

Section Commands.
Context {H : Type} `{Allocator H}.
Implicit Types (x : shell H) (v : vfs H).

Definition with_sm x (m : machine H) : shell H := mk_shell m (cwd x).
Definition files x : vfs H := mounted (sm x).
Definition with_files x v : shell H := with_sm x (unmount (sm x) v).

(** uart_puts, once and several times in a row; kprintf. *)
Definition print (s : list Z) x : outcome (shell H) := m ← puts s (sm x); Ret (with_sm x m).
Fixpoint prints (ss : list (list Z)) x : outcome (shell H) :=
  match ss with
  | [] => Ret x
  | s :: ss => x ← print s x; prints ss x
  end.
Definition printf (fmt : list Z) (args : list varg) x : outcome (shell H) := m ← say fmt args (sm x); Ret (with_sm x m).

Definition newline : list Z := line_of "".
(** itoa into a local buffer of [n] bytes, for printing. *)
Definition itoa_buf (n v : Z) : outcome (list Z) := '(_, buf) ← itoa v (replicate (Z.to_nat n) 0) n; Ret buf.
(** build_path into a local buffer of 128 bytes. *)
Definition path_of x (name : list Z) : outcome (list Z) := build_path (cwd x) (replicate 128 0) 128 name.

Definition unsupported_command (name : list Z) x : outcome (shell H) := prints [name; line_of " is not available on this platform"] x.

(** ** Text *)

Definition help_command (p : features) x : outcome (shell H) := prints (help_text p) x.

(** [date] and [time] are those of the build. *)
Definition info_command (board date time : list Z) x : outcome (shell H) :=
  x ← printf (line_of "%s v%s") [AStr (Some (lit "HudOS")); AStr (Some (lit "0.1.0"))] x;
  x ← printf (line_of "Arch:   %s running at %s") [AStr (Some (lit "AArch64")); AStr (Some (lit "EL2"))] x;
  x ← printf (line_of "Board:  %s") [AStr (Some board)] x;
  x ← printf (line_of "Author: %s") [AStr (Some (lit "Hudson Strauss"))] x;
  printf (line_of "Built:  %s %s") [AStr (Some date); AStr (Some time)] x.

Definition why_command x : outcome (shell H) :=
  print (line_of "I wanted to get better at actually coding, I know most theory but have bad impl. skills") x.
Definition clear_command x : outcome (shell H) := print ([27] ++ bytes "[2J" ++ [27] ++ lit "[H") x.
Definition echo_command (arg : list Z) x : outcome (shell H) := prints [arg; newline] x.

(** ** Files *)

(** Open for writing from the start, write, close: what vfs_write returned, or
    [None] if the file could not be opened. *)
Definition put_file (junk path data : list Z) (len : Z) v : outcome (option Z * vfs H) :=
  '(fd, v) ← vfs_open junk path (Z.lor (Z.lor O_WRONLY O_CREAT) O_TRUNC) v;
  if fd <? 0 then Ret (None, v)
  else
    '(wrote, v) ← vfs_write fd data len v;
    v ← vfs_close fd v;
    Ret (Some wrote, v).

(** The embedded program: its name, its bytes and their number. *)
Definition install_embedded_user_app (junk name data : list Z) (size : Z) x : outcome (shell H) :=
  c ← aget name 0;
  if (size =? 0) || (c =? 0) then Ret x
  else
    '(path, i) ← copy_run name (bytes "/bin/" ++ replicate 59 0) 5 64;
    path ← aset path i 0;
    '(r, v) ← put_file junk path data (s32 size) (files x);
    let x := with_files x v in
    if bool_decide (r = None) then printf (line_of "failed to install embedded app: %s") [AStr (Some name)] x
    else printf (line_of "embedded app installed: %s") [AStr (Some path)] x.

Definition install_code_demo (junk : list Z) x : outcome (shell H) :=
  len ← k_strlen demo_src;
  '(r, v) ← put_file junk (lit "/Code/quick_demo.c") demo_src len (files x);
  let x := with_files x v in
  if bool_decide (r = None) then printf (line_of "failed to install code demo") [] x else Ret x.

Definition pwd_command x : outcome (shell H) := prints [cwd x; newline] x.

(** [vfs_inode_type(inode) != VFS_DIR], for an inode vfs_resolve may have found. *)
Definition not_a_dir (inode : Z) x : outcome bool :=
  if inode <? 0 then Ret true else t ← vfs_inode_type inode (files x); Ret (negb (t =? VFS_DIR)).

Definition cd_command (arg : list Z) x : outcome (shell H) :=
  path ← path_of x arg;
  path ← normalize_path path;
  inode ← vfs_resolve path (files x);
  bad ← not_a_dir inode x;
  if (bad : bool) then prints [lit "no such directory: "; arg; newline] x
  else
    '(c, i) ← copy_run path (cwd x) 0 128;
    c ← aset c i 0;
    Ret (mk_shell (sm x) c).

(** One entry of a directory listing. *)
Definition list_entry (i : Z) x : outcome (shell H) :=
  t ← vfs_inode_type i (files x);
  x ← print (lit (if t =? VFS_DIR then "  d  " else "  f  ")) x;
  name ← vfs_inode_name i (files x);
  x ← print name x;
  x ← (if t =? VFS_FILE then
         size ← vfs_inode_size i (files x);
         buf ← itoa_buf 20 size;
         prints [lit "  "; buf; lit "B"] x
       else Ret x);
  print newline x.

Definition ls_command (arg : list Z) x : outcome (shell H) :=
  c ← aget arg 0;
  path ← (if negb (c =? 0) then path_of x arg
          else '(path, i) ← copy_run (cwd x) (replicate 128 0) 0 128; aset path i 0);
  dir ← vfs_resolve path (files x);
  bad ← not_a_dir dir x;
  if (bad : bool) then prints [lit "no such directory: "; path; newline] x
  else
    '(found, x) ← for_range 0 VFS_MAX_INODES (fun i '(found, x) =>
      used ← vfs_inode_used i (files x);
      skip ← (if negb used then Ret true else parent ← vfs_inode_parent i (files x); Ret (negb (parent =? dir)));
      if (skip : bool) then Ret (found, x)
      else x ← list_entry i x; Ret (found + 1, x)) (0, x);
    if found =? 0 then print (line_of "(empty)") x else Ret x.

Definition mkdir_command (arg : list Z) x : outcome (shell H) :=
  path ← path_of x arg;
  '(r, v) ← vfs_mkdir path (files x);
  let x := with_files x v in
  if r <? 0 then prints [lit "mkdir failed: "; arg; newline] x
  else prints [lit "created dir '"; arg; line_of "'"] x.

Definition mkfile_command (junk arg : list Z) x : outcome (shell H) :=
  path ← path_of x arg;
  '(fd, v) ← vfs_open junk path (Z.lor O_WRONLY O_CREAT) (files x);
  if fd <? 0 then print (line_of "failed to create file") (with_files x v)
  else
    v ← vfs_close fd v;
    prints [lit "created '"; arg; line_of "'"] (with_files x v).

Definition write_command (junk arg : list Z) x : outcome (shell H) :=
  data ← next_arg arg;
  '(_, name, i) ← copy_word arg (replicate 32 0) 0 32;
  name ← aset name i 0;
  path ← path_of x name;
  len ← k_strlen data;
  '(r, v) ← put_file junk path data len (files x);
  let x := with_files x v in
  if bool_decide (r = None) then print (line_of "failed to open/create file") x
  else
    buf ← itoa_buf 12 len;
    prints [lit "wrote "; buf; lit " bytes to '"; name; line_of "'"] x.

(** The rounds of cat's loop: a file holds 16 KB, and 127 bytes go out in each. *)
Definition cat_rounds : nat := 131.
Fixpoint cat_loop (n : nat) (fd last : Z) x : outcome (Z * shell H) :=
  match n with
  | O => Hang
  | S n =>
    '(len, buf, v) ← vfs_read fd (replicate 128 0) 127 (files x);
    let x := with_files x v in
    if len <=? 0 then Ret (last, x)
    else
      buf ← aset buf len 0;
      x ← print buf x;
      last ← aget buf (len - 1);
      cat_loop n fd last x
  end.

Definition cat_command (arg : list Z) x : outcome (shell H) :=
  path ← path_of x arg;
  '(fd, v) ← vfs_open [] path O_RDONLY (files x);
  let x := with_files x v in
  if fd <? 0 then prints [lit "file not found: "; arg; newline] x
  else
    '(last, x) ← cat_loop cat_rounds fd 10 x;
    v ← vfs_close fd (files x);
    let x := with_files x v in
    if negb (last =? 10) then print newline x else Ret x.

Definition rm_command (arg : list Z) x : outcome (shell H) :=
  path ← path_of x arg;
  '(r, v) ← vfs_unlink path (files x);
  let x := with_files x v in
  if r <? 0 then prints [lit "rm failed (not found or dir not empty): "; arg; newline] x
  else prints [lit "removed '"; arg; line_of "'"] x.
End Commands.

(** ** What the commands do *)

(** Characters the shell's line may hold in a file name. *)
Definition word (w : list Z) : Prop := w <> [] /\ Forall (fun c => c <> 0 /\ c <> 32) w.

Lemma copy_word_spec w c rest q n : Forall (fun c => c <> 0 /\ c <> 32) w -> c = 0 \/ c = 32 ->
  zlen w <= n - 1 -> n <= zlen q -> 
  copy_word (w ++ c :: rest) q 0 n = Ret (c :: rest, w ++ drop (length w) q, zlen w).
Proof.
  intros Hw Hc Hn Hq. assert (forall pre q, zlen pre + zlen w <= n - 1 -> n <= zlen pre + zlen q ->
    copy_word (w ++ c :: rest) (pre ++ q) (zlen pre) n = Ret (c :: rest, pre ++ w ++ drop (length w) q, zlen pre + zlen w)) as Hk.
  { clear q Hn Hq. induction Hw as [|d w [Hd0 Hd32] Hw IH]; intros pre q Hn Hq; cbn [copy_word app].
    - destruct Hc as [-> | ->]; cbn; by rewrite Z.add_0_r.
    - destruct (Z.eqb_spec d 0), (Z.eqb_spec d 32); try done. cbn [length] in Hn. destruct (Z.ltb_spec (zlen pre) (n - 1)); [|lia]. cbn [negb andb].
      destruct q as [|y q]; [cbn [length] in Hq; lia|]. rewrite aset_app, bind_Ret by done. cbn [length] in Hq.
      assert (zlen (pre ++ [d]) = zlen pre + 1) as Hz by (rewrite length_app; simpl; lia).
      specialize (IH (pre ++ [d]) q). rewrite Hz in IH. rewrite IH by lia. cbn [length drop]. rewrite <- app_assoc. cbn [app]. do 2 f_equal. lia. }
  apply (Hk [] q); simpl; lia.
Qed.

Lemma copy_word_ok src dst n : terminated src -> 0 < n <= zlen dst ->
  exists rest dst' i, copy_word src dst 0 n = Ret (rest, dst', i) /\ length dst' = length dst /\ 0 <= i <= n - 1 /\ terminated rest.
Proof.
  intros Hs Hn. assert (forall i dst, 0 <= i <= n - 1 -> n <= zlen dst ->
    exists rest dst' i', copy_word src dst i n = Ret (rest, dst', i') /\ length dst' = length dst /\ 0 <= i' <= n - 1 /\ terminated rest) as Hk.
  { clear dst Hn. revert src Hs. refine (terminated_ind _ _ _); [intros s|intros c s Hc Hs IH]; intros i dst Hi Hn; cbn [copy_word].
    - exists (0 :: s), dst, i. split; [done|]. split; [done|]. split; [done|]. by left.
    - destruct (negb (c =? 0) && negb (c =? 32) && (i <? n - 1)) eqn:E.
      + apply andb_prop in E as [_ ?%Z.ltb_lt]. rewrite aset_ok, bind_Ret by lia.
        destruct (IH (i + 1) (<[Z.to_nat i := c]> dst)) as (rest & d' & i' & -> & Hl & Hr); [lia|rewrite length_insert; lia|].
        rewrite length_insert in Hl. by exists rest, d', i'.
      + exists (c :: s), dst, i. split; [done|]. split; [done|]. split; [done|]. by right. }
  apply Hk; lia.
Qed.

Lemma next_arg_spec w rest : Forall (fun c => c <> 0 /\ c <> 32) w -> head rest <> Some 32 -> rest <> [] ->
  next_arg (w ++ 32 :: rest) = Ret rest.
Proof.
  intros Hw Hh Hne. unfold next_arg. assert (to_blank (w ++ 32 :: rest) = Ret (32 :: rest)) as ->.
  { induction Hw as [|c w [H0 H32] Hw IH]; [done|]. cbn [app to_blank]. destruct (Z.eqb_spec c 0), (Z.eqb_spec c 32); done. }
  rewrite bind_Ret. cbn [skip_blanks]. change (32 =? 32) with true. cbv iota. destruct rest as [|c rest]; [done|]. cbn [skip_blanks].
  destruct (Z.eqb_spec c 32) as [->|]; [by destruct Hh|done].
Qed.

Lemma next_arg_ok s : terminated s -> exists r, next_arg s = Ret r /\ terminated r /\ (length (cstr r) <= length (cstr s))%nat.
Proof.
  intros Hs. unfold next_arg. assert (exists r, to_blank s = Ret r /\ terminated r /\ (length (cstr r) <= length (cstr s))%nat) as (r & -> & Hr & Hl).
  { revert s Hs. refine (terminated_ind _ _ _); [intros s|intros c s Hc Hs (r & E & Hr & Hl)]; cbn [to_blank].
    - exists (0 :: s). split; [done|]. split; [by left|lia].
    - destruct (negb (c =? 0) && negb (c =? 32)).
      + exists r. split; [done|]. split; [done|]. cbn [cstr]. destruct (Z.eqb_spec c 0); [by destruct Hc|]. cbn [length]. lia.
      + exists (c :: s). split; [done|]. split; [by right|lia]. }
  rewrite bind_Ret. assert (exists r', skip_blanks r = Ret r' /\ terminated r' /\ (length (cstr r') <= length (cstr r))%nat) as (r' & -> & Hr' & Hl').
  { clear Hl. revert r Hr. refine (terminated_ind _ _ _); [intros q|intros c q Hc Hq (r & E & Hr & Hl)]; cbn [skip_blanks].
    - exists (0 :: q). split; [done|]. split; [by left|lia].
    - destruct (Z.eqb_spec c 32) as [->|].
      + exists r. split; [done|]. split; [done|]. change (cstr (32 :: q)) with (32 :: cstr q). cbn [length]. lia.
      + exists (c :: q). split; [done|]. split; [by right|lia]. }
  exists r'. split; [done|]. split; [done|]. lia.
Qed.

Section CommandFacts.
Context {H : Type} `{AllocatorLaws H}.
Implicit Types (x : shell H) (v : vfs H).

(** What is on the screen, and [x] once [t] has been put there. *)
Definition shown x : list Z := tx (con (mu (sm x))).
Definition spoken (t : list Z) x : shell H := mk_shell (with_con (sm x) (emit t (con (mu (sm x))))) (cwd x).
Definition shell_ok x : Prop := machine_ok (sm x) /\ terminated (cwd x) /\ length (cwd x) = 128%nat.
(** The heap blocks that are no file's. *)
Definition kernel_blocks x : list (Z * Z) := live_ptrs (sys_owned (kern (mu (sm x))) []).

Lemma shown_spoken t x : shown (spoken t x) = shown x ++ t.
Proof. unfold shown, spoken. cbn. by rewrite emit_tx. Qed.
Lemma files_spoken t x : files (spoken t x) = files x.
Proof. done. Qed.
Lemma spoken_app t s x : spoken s (spoken t x) = spoken (t ++ s) x.
Proof. unfold spoken, with_con. cbn. by rewrite emit_app. Qed.
Lemma spoken_nil x : spoken [] x = x.
Proof. by destruct x as [[[]] ?]. Qed.
Lemma spoken_ok t x : shell_ok x -> shell_ok (spoken t x).
Proof. intros [Hm Hc]. split; [|done]. eapply talks_ok; [by eexists|exact Hm]. Qed.

Lemma files_with v x : files (with_files x v) = v.
Proof. by destruct v as [? ? []]. Qed.
Lemma with_files_ok v x : shell_ok x -> vfs_inv v (kernel_blocks x) -> shell_ok (with_files x v).
Proof. intros [Hm Hc] Hv. split; [|done]. by apply machine_files. Qed.
Lemma with_files_blocks v x : kernel_blocks (with_files x v) = kernel_blocks x.
Proof. done. Qed.
Lemma shell_files x : shell_ok x -> vfs_inv (files x) (kernel_blocks x).
Proof. by intros [[_ Hv] _]. Qed.
Lemma with_files_twice v v' x : with_files (with_files x v) v' = with_files x v'.
Proof. done. Qed.
Lemma spoken_with t v x : spoken t (with_files x v) = with_files (spoken t x) v.
Proof. done. Qed.
Lemma shown_with v x : shown (with_files x v) = shown x.
Proof. done. Qed.

Lemma print_spec s x : terminated s -> print s x = Ret (spoken (crlf (cstr s)) x).
Proof. intros Hs. unfold print, puts. by rewrite uart_puts_spec, !bind_Ret by done. Qed.
Lemma prints_spec ss x : Forall terminated ss -> prints ss x = Ret (spoken (concat (map (fun s => crlf (cstr s)) ss)) x).
Proof.
  intros Hs. revert x. induction Hs as [|s ss Hs Hss IH]; intros x; cbn [prints map concat]; [by rewrite spoken_nil|].
  by rewrite print_spec, bind_Ret, IH, spoken_app by done.
Qed.

Lemma prints_ok ss x : Forall terminated ss -> shell_ok x -> exists x', prints ss x = Ret x' /\ shell_ok x' /\ files x' = files x.
Proof. intros Hs Hx. rewrite prints_spec by done. eexists. split; [done|]. split; [by apply spoken_ok|done]. Qed.
Lemma print_ok s x : terminated s -> shell_ok x -> exists x', print s x = Ret x' /\ shell_ok x' /\ files x' = files x.
Proof. intros Hs Hx. rewrite print_spec by done. eexists. split; [done|]. split; [by apply spoken_ok|done]. Qed.
Lemma printf_ok fmt args x : fits fmt args -> shell_ok x -> exists x', printf fmt args x = Ret x' /\ shell_ok x' /\ files x' = files x.
Proof.
  intros Hf Hx. unfold printf, say. destruct (kprintf_fits fmt args (con (mu (sm x))) Hf) as [u ->]. rewrite !bind_Ret.
  eexists. split; [done|]. split; [|done]. destruct Hx as [Hm Hc]. split; [|done]. eapply talks_ok; [by eexists|exact Hm].
Qed.

Lemma newline_terminated : terminated newline.
Proof. apply line_terminated. Qed.
Lemma itoa_buf_ok n (z : Z) : 0 < n -> INT_MIN < z <= INT_MAX -> exists buf, itoa_buf n z = Ret buf /\ terminated buf /\ cstr buf = rev (itoa_text z n).
Proof.
  intros Hn Hz. unfold itoa_buf. rewrite itoa_spec by (rewrite ?length_replicate; lia). rewrite bind_Ret. eexists. split; [done|].
  split; [apply terminated_app|]. apply cstr_app, dec_text_nonzero.
Qed.

Lemma path_of_ok x name : shell_ok x -> terminated name ->
  exists path, path_of x name = Ret path /\ path_ok path /\ length path = 128%nat /\ terminated path
    /\ cstr path = take 127 (path_text (cstr (cwd x)) (cstr name)).
Proof.
  intros (_ & Hc & _) Hn. unfold path_of. destruct (build_path_text (cwd x) (replicate 128 0) 128 name Hc Hn) as (path & -> & Hl & Ht & Et); [by rewrite length_replicate|].
  rewrite length_replicate in Hl. exists path. split; [done|]. split; [|done]. split; [done|]. pose proof (cstr_length_lt _ Ht). lia.
Qed.
End CommandFacts.

(** ** Storing a file *)
Section Store.
Context {H : Type} `{AllocatorLaws H}.
Implicit Types (v : vfs H).

Lemma put_file_inv v rest junk path data len : vfs_inv v rest -> path_ok path -> 0 <= len <= zlen data -> len <= INT_MAX ->
  exists r v', put_file junk path data len v = Ret (r, v') /\ vfs_inv v' rest.
Proof.
  intros Hv Hp Hl Hm. unfold put_file. destruct (vfs_open_inv v rest junk path (Z.lor (Z.lor O_WRONLY O_CREAT) O_TRUNC) Hv Hp) as (fd & v1 & -> & Hv1).
  rewrite bind_Ret. cbv beta iota. destruct (fd <? 0); [by exists None, v1|].
  destruct (vfs_write_spec v1 rest fd data len Hv1 Hl Hm) as (r & v2 & -> & Hv2 & _). rewrite bind_Ret. cbv beta iota.
  destruct (vfs_close_spec v2 rest fd Hv2) as (v3 & -> & Hv3 & _). rewrite bind_Ret. by exists (Some r), v3.
Qed.

(** Closing an open descriptor frees it. *)
Lemma close_frees v rest fd f x : vfs_inv v rest -> opened v fd f x ->
  exists v', vfs_close fd v = Ret v' /\ vfs_inv v' rest /\ inodes v' = inodes v /\ vblocks v' = vblocks v
    /\ ~ Forall (fun f => f_inode f <> -1) (fds v').
Proof.
  intros Hv (Hfd & Ef & _). unfold vfs_close, VFS_MAX_FDS. destruct (Z.leb_spec 0 fd), (Z.ltb_spec fd 16); try lia. cbn [andb].
  destruct (upd_fd_inv v rest fd f (set_finode (-1)) Hv ltac:(lia) Ef) as (v' & E & Ev & Hv'); [intros _; by left|].
  exists v'. split; [exact E|]. split; [exact Hv'|]. rewrite Ev. split; [done|]. split; [done|]. cbn. intros Hall.
  assert (<[Z.to_nat fd := set_finode (-1) f]> (fds v) !! Z.to_nat fd = Some (set_finode (-1) f)) as El by (apply list_lookup_insert_eq; by eapply lookup_lt_Some).
  by apply (Forall_lookup_1 _ _ _ _ Hall El).
Qed.

Lemma file_bytes_at v k c : 0 <= k < 64 -> file_bytes v k = Some c -> file_at (inodes v) k.
Proof.
  intros Hk Hc. split; [done|]. unfold file_bytes in Hc. destruct (inodes v !! Z.to_nat k) as [y|]; [|done]. exists y. split; [done|].
  cbn [mbind option_bind] in Hc. case_bool_decide; [done|discriminate].
Qed.

(** A file stored at a path has the data; it is the only file that changed. *)
Lemma put_file_stores v rest junk path u w data len : vfs_inv v rest -> unique_names (inodes v) -> short_split path u w -> 0 <= len <= zlen data -> len <= INT_MAX ->
  exists r v', put_file junk path data len v = Ret (r, v') /\ vfs_inv v' rest /\ unique_names (inodes v')
    /\ (forall n, r = Some n -> n = Z.min len 16384 /\ exists k, reach (inodes v') 0 (comps (cstr path)) k /\ file_at (inodes v') k
          /\ file_bytes v' k = Some (take (Z.to_nat (Z.min len 16384)) data)
          /\ (forall j, 0 <= j -> j <> k -> file_bytes v' j = file_bytes v j)
          /\ ~ Forall (fun f => f_inode f <> -1) (fds v')).
Proof.
  intros Hv Hun Hsh Hl Hm. unfold put_file. set (flags := Z.lor (Z.lor O_WRONLY O_CREAT) O_TRUNC).
  destruct (vfs_open_effect v rest junk path u w flags Hv Hun Hsh) as (fd & v1 & -> & Hv1 & Hun1 & Hr). rewrite bind_Ret. cbv beta iota.
  destruct (Z.ltb_spec fd 0) as [Hneg|Hfd]; [by exists None, v1|].
  assert (exists k, reach (inodes v1) 0 (comps (cstr path)) k /\ opens v fd v1 k flags /\ file_bytes v1 k = Some []
    /\ forall j, 0 <= j -> j <> k -> file_bytes v1 j = file_bytes v j) as (k & Hk & Hop & Hb1 & Ho1).
  { destruct Hr as [(k & Hk & [(_ & -> & _)|(_ & Hop & Hb & Ho & Hcs)])|[_ [(_ & -> & _)|[_ [(-> & _)|(k & Hki & Hop & Hb & Ho & Hk & _)]]]]]; try lia.
    - exists k. split; [by apply Hcs|]. by split.
    - exists k. split; [|by split]. assert (w <> []) as Hw.
      { apply reach_snoc in Hk as (j & _ & Hc). by apply (t_links _ (vi_tree _ _ Hv1)) in Hc as (_ & ? & _). }
      rewrite <- (short_split_pieces _ _ _ Hsh). by destruct (short_pieces _ _ _ Hsh Hw) as (-> & _). }
  destruct Hop as [(-> & _)|(_ & x & Hop)]; [lia|]. change (has_flag flags O_APPEND) with false in Hop. cbv iota in Hop.
  destruct (vfs_write_spec v1 rest fd data len Hv1 Hl Hm) as (r & v2 & -> & Hv2 & _ & Hch & Hw). rewrite bind_Ret. cbv beta iota.
  destruct (Hw _ _ Hop) as (c & c' & Hc & Hc' & Ho2 & Hcl & Hcase). cbn [f_inode] in *. rewrite Hb1 in Hc. injection Hc as <-.
  unfold write_pos in Hcase. cbn [f_flags f_pos] in Hcase. change (has_flag flags O_APPEND) with false in Hcase. cbv iota in Hcase.
  destruct Hcase as [[? _]|(_ & Er & Ec & Hop2)]; [lia|]. specialize (Ec ltac:(done)). 
  destruct (close_frees v2 rest fd _ _ Hv2 Hop2) as (v3 & -> & Hv3 & Ei & Eb & Hfree). rewrite bind_Ret.
  exists (Some r), v3. split; [done|]. split; [done|]. split; [rewrite Ei; intros q cc i j ?%Hch ?%Hch; by eapply Hun1|]. intros n [= <-]. split; [lia|]. exists k.
  rewrite Ei. split; [by apply (reach_iff (inodes v1))|]. split; [apply (file_bytes_at v2 k c'); [by destruct Hop as (_ & _ & ? & _)|done]|].
  split; [|split; [|exact Hfree]].
  - rewrite (file_bytes_ext v2 v3), Hc', Ec, Er by done. unfold splice. cbn. rewrite take_nil, drop_nil, app_nil_r. do 3 f_equal; lia.
  - intros j Hj Hne. by rewrite (file_bytes_ext v2 v3), Ho2, Ho1 by done.
Qed.
End Store.

(** ** Showing a file *)
Section Show.
Context {H : Type} `{AllocatorLaws H}.
Implicit Types (x : shell H) (v : vfs H).

Lemma crlf_app a b : crlf (a ++ b) = crlf a ++ crlf b.
Proof. apply bind_app. Qed.

Lemma opened_small v rest fd f y c : vfs_inv v rest -> opened v fd f y -> file_bytes v (f_inode f) = Some c -> zlen c <= 16384 /\ 0 <= f_pos f.
Proof.
  intros Hv Hop Hc. destruct (open_desc_spec v rest fd Hv) as [[_ Hno]|(g & z & _ & Hg & _ & Hty & Hd & Hn & Hp & _)]; [by destruct (Hno f y)|].
  assert (g = f /\ z = y) as [-> ->].
  { destruct Hop as (_ & Ef & _ & Ey & _), Hg as (_ & Eg & _ & Ez & _). rewrite Ef in Eg. injection Eg as <-. rewrite Ey in Ez. by injection Ez as <-. }
  destruct (opened_bytes _ _ _ _ _ Hv Hop Hty Hd) as (bs & _ & Hbl & Hb). rewrite Hb in Hc. injection Hc as <-.
  pose proof (no_size _ Hn). rewrite length_take. lia.
Qed.

(** One round: what is read, ended, printed. *)
Lemma cat_buffer w : zlen w <= 127 -> (0 < length w)%nat ->
  exists buf (x : Z), aset (w ++ drop (length w) (replicate 128 0)) (zlen w) 0 = Ret buf /\ terminated buf
    /\ (Forall (fun c => c <> 0) w -> cstr buf = w) /\ aget buf (zlen w - 1) = Ret x /\ last w = Some x.
Proof.
  intros Hw Hp. assert (w <> []) as Hne by (intros ->; simpl in Hp; lia). destruct (exists_last Hne) as (w0 & x & ->).
  destruct (drop (length (w0 ++ [x])) (replicate 128 0)) as [|d q] eqn:Ed.
  { apply (f_equal length) in Ed. rewrite length_drop, length_replicate in Ed. simpl in Ed. lia. }
  rewrite aset_app by done. eexists _, x. split; [reflexivity|]. rewrite <- app_assoc. split; [apply terminated_app|].
  split; [intros Hz; by apply cstr_app|]. split; [|apply last_snoc]. rewrite <- app_assoc. cbn [app].
  replace (zlen (w0 ++ [x]) - 1) with (zlen w0) by (rewrite length_app; simpl; lia). by apply aget_app.
Qed.

Lemma cat_loop_spec n fd l x f y c : shell_ok x -> opened (files x) fd f y -> file_bytes (files x) (f_inode f) = Some c ->
  zlen c - f_pos f <= 127 * (Z.of_nat n - 1) -> (0 < n)%nat ->
  exists l' x' f', cat_loop n fd l x = Ret (l', x') /\ shell_ok x' /\ cwd x' = cwd x /\ inodes (files x') = inodes (files x) /\ vblocks (files x') = vblocks (files x)
    /\ opened (files x') fd f' y
    /\ let rest := drop (Z.to_nat (f_pos f)) c in
       (Forall (fun c => c <> 0) rest -> shown x' = shown x ++ crlf rest /\ l' = default l (last rest)).
Proof.
  revert l x f. induction n as [|n IH]; intros l x f Hx Hop Hc Hn Hn0; [lia|]. cbn [cat_loop].
  pose proof (shell_files x Hx) as Hv. destruct (opened_small _ _ _ _ _ _ Hv Hop Hc) as [Hcl Hp].
  destruct (vfs_read_spec (files x) _ fd (replicate 128 0) 127 Hv) as (r & buf & v & -> & Hv1 & Ei & Eb & _ & Hrd); [done|by rewrite length_replicate|].
  destruct (Hrd f y Hop) as (c' & Hc' & Er & Ebuf & Hop'). rewrite Hc in Hc'. injection Hc' as <-. rewrite bind_Ret. cbv beta iota zeta.
  pose proof (with_files_ok v x Hx Hv1) as Hx1.
  destruct (Z.leb_spec r 0) as [Hr|Hr].
  - exists l, (with_files x v), (set_pos (f_pos f + r) f). rewrite files_with. split; [done|]. split; [done|]. split; [done|]. split; [done|]. split; [done|]. split; [done|].
    intros _. rewrite drop_ge by lia. cbn. by rewrite shown_with, app_nil_r.
  - set (w := take (Z.to_nat r) (drop (Z.to_nat (f_pos f)) c)) in *.
    assert (zlen w = r) as Hwl by (unfold w; rewrite length_take, length_drop; lia). replace (Z.to_nat r) with (length w) in Ebuf by lia.
    destruct (cat_buffer w) as (buf' & z & Ea & Ht & Hz & Eg & El); [lia|lia|]. rewrite Hwl, <- Ebuf in Ea. rewrite Ea, bind_Ret, print_spec, bind_Ret by done.
    rewrite Hwl in Eg. rewrite Eg, bind_Ret.
    destruct (IH z (spoken (crlf (cstr buf')) (with_files x v)) (set_pos (f_pos f + r) f)) as (l' & x' & f' & -> & Hx' & Ew & Ei' & Eb' & Hop2 & Hsh).
    + by apply spoken_ok.
    + by rewrite files_spoken, files_with.
    + rewrite files_spoken, files_with. cbn [f_inode set_pos]. by rewrite (file_bytes_ext (files x)).
    + cbn [f_pos set_pos]. lia.
    + lia.
    + rewrite files_spoken, files_with in Ei', Eb'. exists l', x', f'. split; [done|]. split; [done|]. split; [by rewrite Ew|]. split; [congruence|]. split; [congruence|]. split; [done|].
      cbn [f_pos set_pos] in Hsh. cbv zeta in Hsh |- *. assert (drop (Z.to_nat (f_pos f)) c = w ++ drop (Z.to_nat (f_pos f + r)) c) as Ed.
      { unfold w. replace (Z.to_nat (f_pos f + r)) with (Z.to_nat (f_pos f) + Z.to_nat r)%nat by lia. by rewrite <- drop_drop, take_drop. }
      rewrite Ed. intros [Hz1 Hz2]%Forall_app. destruct (Hsh Hz2) as [-> ->].
      rewrite shown_spoken, shown_with, (Hz Hz1), crlf_app, <- app_assoc. split; [done|].
      rewrite last_app, El. by destruct (last (drop _ c)).
Qed.
End Show.

(** ** Every file command is safe *)

(** Every text is a C string. *)
Ltac texts :=
  repeat lazymatch goal with
  | |- Forall terminated [] => exact (List.Forall_nil _)
  | |- Forall terminated (_ :: _) => apply List.Forall_cons
  | |- terminated _ => first [apply lit_terminated | apply line_terminated | apply newline_terminated | assumption]
  end.

Section Safe.
Context {H : Type} `{AllocatorLaws H}.
Implicit Types (x : shell H) (v : vfs H).

(** The command returns and leaves the shell sound. *)
Definition safe (r : outcome (shell H)) : Prop := exists x', r = Ret x' /\ shell_ok x'.

Lemma safe_Ret x : shell_ok x -> safe (Ret x).
Proof. by exists x. Qed.
Lemma prints_safe ss x : Forall terminated ss -> shell_ok x -> safe (prints ss x).
Proof. intros Hs Hx. destruct (prints_ok ss x Hs Hx) as (x' & E & Hx' & _). by exists x'. Qed.
Lemma print_safe s x : terminated s -> shell_ok x -> safe (print s x).
Proof. intros Hs Hx. destruct (print_ok s x Hs Hx) as (x' & E & Hx' & _). by exists x'. Qed.
Lemma printf_safe fmt args x : fits fmt args -> shell_ok x -> safe (printf fmt args x).
Proof. intros Hf Hx. destruct (printf_ok fmt args x Hf Hx) as (x' & E & Hx' & _). by exists x'. Qed.

Lemma resolve_ok v rest path : vfs_inv v rest -> path_ok path -> exists r, vfs_resolve path v = Ret r /\ (r = -1 \/ 0 <= r < 64).
Proof.
  intros Hv Hp. pose proof (vi_tree _ _ Hv) as Ht. destruct (decide (cstr path = [])) as [E|Hne].
  - exists (-1). split; [|by left]. unfold vfs_resolve. destruct Hp as [Htm _].
    destruct path as [|c path]; [by apply elem_of_nil in Htm|]. cbn [cstr] in E.
    assert (aget (c :: path) 0 = Ret c) as -> by done. rewrite bind_Ret. by destruct (Z.eqb_spec c 0).
  - destruct (vfs_resolve_spec v path (tree_names_ok _ Ht) Hp Hne) as (r & E & [[_ Hw]|[-> _]]).
    + exists r. split; [done|right]. by destruct (reach_used _ _ _ Ht Hw).
    + exists (-1). split; [done|by left].
Qed.

(** What the accessors of an inode answer. *)
Lemma inode_queries v rest i : vfs_inv v rest -> 0 <= i < 64 ->
  exists y, node_ok y /\ vfs_inode_used i v = Ret (negb (i_used y =? 0))
    /\ (forall g, inode_field g i v = Ret (if i_used y =? 0 then -1 else g y))
    /\ exists nm, vfs_inode_name i v = Ret nm /\ terminated nm.
Proof.
  intros Hv Hi. pose proof (vi_tree _ _ Hv) as Ht. destruct (tree_lookup _ i Ht Hi) as (y & Ey & Eg). exists y.
  pose proof (tree_node _ _ _ Ht Ey) as Hn. split; [done|].
  assert (vfs_inode_used i v = Ret (negb (i_used y =? 0))) as Eu.
  { unfold vfs_inode_used, VFS_MAX_INODES. destruct (Z.leb_spec 0 i), (Z.ltb_spec i 64); try lia. by rewrite Eg, bind_Ret. }
  split; [done|]. split.
  - intros g. unfold inode_field. rewrite Eu, bind_Ret, Eg, bind_Ret. by destruct (i_used y =? 0).
  - unfold vfs_inode_name. rewrite Eu, bind_Ret, Eg, bind_Ret. destruct (Z.eqb_spec (i_used y) 0) as [|Hu]; cbn [negb].
    + exists (lit ""). split; [done|apply lit_terminated].
    + exists (i_name y). split; [done|]. by apply no_term.
Qed.

Lemma not_a_dir_ok x r : shell_ok x -> r = -1 \/ 0 <= r < 64 -> exists b, not_a_dir r x = Ret b.
Proof.
  intros Hx Hr. unfold not_a_dir. destruct (Z.ltb_spec r 0); [by eexists|].
  destruct (inode_queries (files x) _ r (shell_files x Hx)) as (y & _ & _ & Ef & _); [lia|]. unfold vfs_inode_type. rewrite Ef, bind_Ret. by eexists.
Qed.

Lemma list_entry_safe i x : shell_ok x -> 0 <= i < 64 -> safe (list_entry i x).
Proof.
  intros Hx Hi. unfold list_entry, vfs_inode_type, vfs_inode_size. destruct (inode_queries (files x) _ i (shell_files x Hx) Hi) as (y & Hn & _ & Ef & nm & En & Hnm).
  rewrite Ef, bind_Ret. rewrite print_spec, bind_Ret by apply lit_terminated. rewrite files_spoken, En, bind_Ret, print_spec, bind_Ret, !files_spoken by done.
  set (x1 := spoken _ (spoken _ x)). assert (shell_ok x1) as Hx1 by by do 2 apply spoken_ok.
  assert (exists x2, (if (if i_used y =? 0 then -1 else i_type y) =? VFS_FILE then size ← inode_field i_size i (files x); buf ← itoa_buf 20 size; prints [lit "  "; buf; lit "B"] x1 else Ret x1) = Ret x2 /\ shell_ok x2) as (x2 & -> & Hx2).
  { destruct ((if i_used y =? 0 then -1 else i_type y) =? VFS_FILE); [|by exists x1]. rewrite Ef, bind_Ret. pose proof (no_size _ Hn) as Hs.
    destruct (itoa_buf_ok 20 (if i_used y =? 0 then -1 else i_size y)) as (buf & -> & Hb & _); [done|destruct (_ =? 0); lia|]. rewrite bind_Ret.
    apply prints_safe; [|done]. texts. }
  rewrite bind_Ret. apply print_safe; [apply newline_terminated|done].
Qed.

Lemma ls_safe arg x : shell_ok x -> terminated arg -> safe (ls_command arg x).
Proof.
  intros Hx Ha. unfold ls_command. destruct (aget_ok arg 0) as [c ->]; [destruct arg; [by apply elem_of_nil in Ha|simpl; lia]|]. rewrite bind_Ret.
  assert (exists path, (if negb (c =? 0) then path_of x arg else '(path, i) ← copy_run (cwd x) (replicate 128 0) 0 128; aset path i 0) = Ret path /\ path_ok path) as (path & -> & Hp).
  { destruct (negb _).
    - destruct (path_of_ok x arg Hx Ha) as (path & -> & Hp & _). by exists path.
    - destruct Hx as (_ & Hc & _). destruct (copy_run_ok (cwd x) (replicate 128 0) 0 128 Hc) as (o & i & -> & Hl & Hi); [lia|by rewrite length_replicate|].
      rewrite bind_Ret. cbv beta iota. rewrite length_replicate in Hl. destruct (terminate_ok o i) as (o' & -> & Hl' & Ht); [lia|].
      exists o'. split; [done|]. split; [done|]. pose proof (cstr_length_lt _ Ht). lia. }
  rewrite bind_Ret. destruct (resolve_ok _ _ path (shell_files x Hx) Hp) as (dir & -> & Hdir). rewrite bind_Ret.
  destruct (not_a_dir_ok x dir Hx Hdir) as [bad ->]. rewrite bind_Ret. destruct bad.
  { apply prints_safe; [|done]. pose proof (proj1 Hp); texts. }
  pose (I := fun (_ : Z) (s : Z * shell H) => shell_ok s.2).
  match goal with |- safe ('(found, x) ← for_range 0 _ ?body (0, x); _) => destruct (for_range_ind I 0 VFS_MAX_INODES body (0, x)) as ([found x'] & -> & Hx') end; [done|done| |].
  { intros i [found y] Hi Hy. unfold I in *. cbn [snd] in *. destruct (inode_queries (files y) _ i (shell_files y Hy) Hi) as (z & _ & Eu & Ef & _).
    unfold vfs_inode_parent. rewrite Eu, bind_Ret, Ef, bind_Ret. assert (exists b : bool, (if negb (negb (i_used z =? 0)) then Ret true else Ret (negb ((if i_used z =? 0 then -1 else i_parent z) =? dir))) = Ret b) as [b ->] by (destruct (negb _); by eexists).
    rewrite bind_Ret. destruct b; [by exists (found, y)|]. destruct (list_entry_safe i y Hy Hi) as (y' & -> & Hy'). rewrite bind_Ret. by exists (found + 1, y'). }
  rewrite bind_Ret. cbv beta iota. destruct (found =? 0); [apply print_safe; [apply line_terminated|done]|by apply safe_Ret].
Qed.

Lemma cd_safe arg x : shell_ok x -> terminated arg -> safe (cd_command arg x).
Proof.
  intros Hx Ha. unfold cd_command. destruct (path_of_ok x arg Hx Ha) as (path & -> & _ & Hl & Ht & _). rewrite bind_Ret.
  destruct (normalize_path_total path Ht) as (? & ? & ? & o & rest & _ & _ & _ & -> & Hl' & _); [lia|]. rewrite bind_Ret.
  pose proof (terminated_app o rest) as Ht'. rewrite Hl in Hl'.
  assert (path_ok (o ++ 0 :: rest)) as Hp by (split; [done|]; pose proof (cstr_length_lt _ Ht'); lia).
  destruct (resolve_ok _ _ _ (shell_files x Hx) Hp) as (r & -> & Hr). rewrite bind_Ret. destruct (not_a_dir_ok x r Hx Hr) as [bad ->]. rewrite bind_Ret. destruct bad.
  { apply prints_safe; [|done]. texts. }
  destruct Hx as (Hm & Hc & Hcl). destruct (copy_run_ok (o ++ 0 :: rest) (cwd x) 0 128 Ht') as (c & i & -> & Hcl' & Hi); [lia|by rewrite Hcl|]. rewrite bind_Ret. cbv beta iota.
  destruct (terminate_ok c i) as (c' & -> & Hl2 & Ht2); [lia|]. rewrite bind_Ret. eexists. split; [done|]. split; [done|]. split; [done|]. cbn [cwd]. lia.
Qed.

Lemma mkdir_safe arg x : shell_ok x -> terminated arg -> safe (mkdir_command arg x).
Proof.
  intros Hx Ha. unfold mkdir_command. destruct (path_of_ok x arg Hx Ha) as (path & -> & Hp & _). rewrite bind_Ret.
  destruct (slash_last (cstr path)) as (u & w & Hs). destruct (vfs_mkdir_spec _ _ path u w (shell_files x Hx) Hp Hs) as (r & v & -> & Hv & _). rewrite bind_Ret. cbv beta iota zeta.
  pose proof (with_files_ok v x Hx Hv). destruct (r <? 0); apply prints_safe; try done; texts.
Qed.

Lemma mkfile_safe junk arg x : shell_ok x -> terminated arg -> safe (mkfile_command junk arg x).
Proof.
  intros Hx Ha. unfold mkfile_command. destruct (path_of_ok x arg Hx Ha) as (path & -> & Hp & _). rewrite bind_Ret.
  destruct (vfs_open_inv _ _ junk path (Z.lor O_WRONLY O_CREAT) (shell_files x Hx) Hp) as (fd & v & -> & Hv). rewrite bind_Ret. cbv beta iota.
  destruct (fd <? 0). { apply print_safe; [apply line_terminated|by apply with_files_ok]. }
  destruct (vfs_close_spec v _ fd Hv) as (v' & -> & Hv' & _). rewrite bind_Ret.
  apply prints_safe; [texts|by apply with_files_ok].
Qed.

Lemma rm_safe arg x : shell_ok x -> terminated arg -> safe (rm_command arg x).
Proof.
  intros Hx Ha. unfold rm_command. destruct (path_of_ok x arg Hx Ha) as (path & -> & Hp & _). rewrite bind_Ret.
  destruct (vfs_unlink_spec _ _ path (shell_files x Hx) Hp) as (r & v & -> & Hv & _). rewrite bind_Ret. cbv beta iota zeta.
  pose proof (with_files_ok v x Hx Hv). destruct (r <? 0); apply prints_safe; try done; texts.
Qed.

Lemma write_safe junk arg x : shell_ok x -> path_ok arg -> safe (write_command junk arg x).
Proof.
  intros Hx [Ha Hal]. unfold write_command. destruct (next_arg_ok arg Ha) as (data & -> & Hd & Hdl). rewrite bind_Ret.
  destruct (copy_word_ok arg (replicate 32 0) 32 Ha) as (q & name & i & -> & Hl & Hi & _); [by rewrite length_replicate|]. rewrite bind_Ret. cbv beta iota.
  rewrite length_replicate in Hl. destruct (terminate_ok name i) as (name' & -> & Hl' & Hn); [lia|]. rewrite bind_Ret.
  destruct (path_of_ok x name' Hx Hn) as (path & -> & Hp & _). rewrite bind_Ret, k_strlen_spec, bind_Ret by (done || lia).
  pose proof (cstr_length_lt _ Hd).
  destruct (put_file_inv _ _ junk path data (zlen (cstr data)) (shell_files x Hx) Hp) as (r & v & -> & Hv); [lia|lia|]. rewrite bind_Ret. cbv beta iota zeta.
  pose proof (with_files_ok v x Hx Hv). case_bool_decide; [apply print_safe; [texts|done]|].
  destruct (itoa_buf_ok 12 (zlen (cstr data))) as (buf & -> & Hb & _); [done|lia|]. rewrite bind_Ret. apply prints_safe; [texts|done].
Qed.

Lemma cat_safe arg x : shell_ok x -> terminated arg -> safe (cat_command arg x).
Proof.
  intros Hx Ha. unfold cat_command. destruct (path_of_ok x arg Hx Ha) as (path & -> & Hp & _). rewrite bind_Ret.
  destruct (vfs_open_inv _ _ [] path O_RDONLY (shell_files x Hx) Hp) as (fd & v & -> & Hv). rewrite bind_Ret. cbv beta iota zeta.
  pose proof (with_files_ok v x Hx Hv) as Hx1. destruct (Z.ltb_spec fd 0) as [_|Hfd]; [apply prints_safe; [texts|done]|].
  assert (exists l x', cat_loop cat_rounds fd 10 (with_files x v) = Ret (l, x') /\ shell_ok x') as (l & x' & -> & Hx').
  { destruct (open_desc_spec v _ fd Hv) as [[E Hno]|(f & y & _ & Hop & _ & Hty & Hd & _)].
    - unfold cat_rounds. cbn [cat_loop]. rewrite files_with. unfold vfs_read. rewrite E, !bind_Ret. cbv beta iota zeta. by eexists _, _.
    - destruct (opened_bytes _ _ _ _ _ Hv Hop Hty Hd) as (bs & _ & Hbl & Hc).
      destruct (opened_small _ _ _ _ _ _ Hv Hop Hc) as [Hcl Hpos].
      destruct (cat_loop_spec cat_rounds fd 10 (with_files x v) f y (take (Z.to_nat (i_size y)) bs) Hx1) as (l & x' & f' & E & Hx' & _); [by rewrite files_with|rewrite files_with; exact Hc|unfold cat_rounds; lia|unfold cat_rounds; lia|].
      by exists l, x'. }
  rewrite bind_Ret. cbv beta iota. destruct (vfs_close_spec (files x') _ fd (shell_files x' Hx')) as (v' & -> & Hv' & _). rewrite bind_Ret.
  pose proof (with_files_ok v' x' Hx' Hv'). destruct (negb _); [apply print_safe; [texts|done]|by apply safe_Ret].
Qed.

Lemma help_safe p x : shell_ok x -> safe (help_command p x).
Proof.
  intros Hx. apply prints_safe; [|done]. unfold help_text.
  repeat (apply Forall_app; split); try (destruct (_ p)); repeat first [apply List.Forall_nil | apply List.Forall_cons; [apply line_terminated || apply line_terminated_nl|]].
Qed.

Lemma info_safe board date time x : shell_ok x -> terminated board -> terminated date -> terminated time -> safe (info_command board date time x).
Proof.
  intros Hx Hb Hd Ht. unfold info_command.
  destruct (printf_ok (line_of "%s v%s") [AStr (Some (lit "HudOS")); AStr (Some (lit "0.1.0"))] x) as (x1 & -> & Hx1 & _); [exact (conj (lit_terminated _) (conj (lit_terminated _) I))|done|]. rewrite bind_Ret.
  destruct (printf_ok (line_of "Arch:   %s running at %s") [AStr (Some (lit "AArch64")); AStr (Some (lit "EL2"))] x1) as (x2 & -> & Hx2 & _); [exact (conj (lit_terminated _) (conj (lit_terminated _) I))|done|]. rewrite bind_Ret.
  destruct (printf_ok (line_of "Board:  %s") [AStr (Some board)] x2) as (x3 & -> & Hx3 & _); [done|done|]. rewrite bind_Ret.
  destruct (printf_ok (line_of "Author: %s") [AStr (Some (lit "Hudson Strauss"))] x3) as (x4 & -> & Hx4 & _); [exact (conj (lit_terminated _) I)|done|]. rewrite bind_Ret.
  by apply printf_safe.
Qed.

Lemma install_app_safe junk name data size x : shell_ok x -> terminated name -> 0 <= size <= zlen data -> size <= INT_MAX ->
  safe (install_embedded_user_app junk name data size x).
Proof.
  intros Hx Hn Hs Hm. unfold install_embedded_user_app. destruct (aget_ok name 0) as [c ->]; [destruct name; [by apply elem_of_nil in Hn|simpl; lia]|]. rewrite bind_Ret.
  destruct ((size =? 0) || (c =? 0)); [by apply safe_Ret|].
  destruct (copy_run_ok name (bytes "/bin/" ++ replicate 59 0) 5 64 Hn) as (path & i & -> & Hl & Hi); [lia|by vm_compute|]. rewrite bind_Ret. cbv beta iota.
  change (length (bytes "/bin/" ++ replicate 59 0)) with 64%nat in Hl. destruct (terminate_ok path i) as (path' & -> & Hl' & Ht); [lia|]. rewrite bind_Ret.
  assert (path_ok path') as Hp by (split; [done|]; pose proof (cstr_length_lt _ Ht); lia). rewrite s32_small by lia.
  destruct (put_file_inv _ _ junk path' data size (shell_files x Hx) Hp Hs Hm) as (r & v & -> & Hv). rewrite bind_Ret. cbv beta iota zeta.
  pose proof (with_files_ok v x Hx Hv). case_bool_decide; by apply printf_safe.
Qed.

Lemma install_demo_safe junk x : shell_ok x -> safe (install_code_demo junk x).
Proof.
  intros Hx. unfold install_code_demo. assert (terminated demo_src) as Ht by apply terminated_app.
  rewrite k_strlen_spec, bind_Ret by (done || (vm_compute; discriminate)).
  assert (path_ok (lit "/Code/quick_demo.c")) as Hp by (split; [apply lit_terminated|by vm_compute]). pose proof (cstr_length_lt _ Ht).
  destruct (put_file_inv _ _ junk (lit "/Code/quick_demo.c") demo_src (zlen (cstr demo_src)) (shell_files x Hx) Hp) as (r & v & -> & Hv); [lia|by vm_compute|]. rewrite bind_Ret. cbv beta iota zeta.
  pose proof (with_files_ok v x Hx Hv). case_bool_decide; [by apply printf_safe|by apply safe_Ret].
Qed.
End Safe.

(** ** What is written is shown *)
Section RoundTrip.
Context {H : Type} `{AllocatorLaws H}.
Implicit Types (x : shell H) (v : vfs H).

(** A name of at most 31 characters names a short path in the working directory. *)
Definition names x (name u w : list Z) : Prop :=
  word name /\ zlen name <= 31 /\ split_of (path_text (cstr (cwd x)) name) u w /\ zlen u <= 31 /\ zlen w <= 31.

Lemma word_nonzero w : word w -> Forall (fun c => c <> 0) w.
Proof. intros [_ Hw]. eapply Forall_impl; [exact Hw|]. by intros c [? _]. Qed.

Lemma names_path x name u w buf : shell_ok x -> names x name u w -> terminated buf -> cstr buf = name ->
  exists path, path_of x buf = Ret path /\ short_split path u w /\ cstr path = path_text (cstr (cwd x)) name.
Proof.
  intros Hx (Hw & _ & Hs & Hu & Hl) Hb Eb. destruct (path_of_ok x buf Hx Hb) as (path & -> & Hp & _ & _ & Et). rewrite Eb in Et.
  assert (zlen (path_text (cstr (cwd x)) name) <= 63) as Hpl.
  { destruct Hs as (_ & [[E _]|E]); rewrite E, ?length_app; cbn [length]; lia. }
  rewrite take_ge in Et by lia. exists path. split; [done|]. split; [|done]. split; [done|]. rewrite Et. split; [|by split].
  unfold path_text. destruct Hw as [Hne _]. case_bool_decide; [done|]. intros [_ [_ ?]%app_eq_nil]%app_eq_nil. done.
Qed.

Lemma cat_shows x fd v k c : shell_ok x -> vfs_inv v (kernel_blocks x) -> opens (files x) fd v k O_RDONLY -> ~ Forall (fun f => f_inode f <> -1) (fds (files x)) ->
  file_bytes v k = Some c -> Forall (fun c => c <> 0) c ->
  exists x', ('(l, x) ← cat_loop cat_rounds fd 10 (with_files x v); v ← vfs_close fd (files x); let x := with_files x v in
              if negb (l =? 10) then print newline x else Ret x) = Ret x'
    /\ shell_ok x' /\ cwd x' = cwd x /\ shown x' = shown x ++ crlf c ++ (if default 10 (last c) =? 10 then [] else [13; 10])
    /\ forall j, file_bytes (files x') j = file_bytes v j.
Proof.
  intros Hx Hv Hop Hfree Hc Hnz. destruct Hop as [(_ & _ & Hall)|(_ & y & Hop)]; [done|]. change (has_flag O_RDONLY O_APPEND) with false in Hop. cbv iota in Hop.
  pose proof (with_files_ok v x Hx Hv) as Hx1. destruct (opened_small _ _ _ _ _ c Hv Hop Hc) as [Hcl _].
  destruct (cat_loop_spec cat_rounds fd 10 (with_files x v) (mk_fd k 0 O_RDONLY) y c Hx1) as (l & x1 & f' & -> & Hx' & Ew & Ei & Eb & _ & Hsh).
  { by rewrite files_with. }
  { by rewrite files_with. }
  { cbn [f_pos]. unfold cat_rounds. lia. }
  { unfold cat_rounds. lia. }
  cbn [f_pos] in Hsh. cbv zeta in Hsh. change (drop (Z.to_nat 0) c) with c in Hsh. destruct (Hsh Hnz) as [Es ->]. rewrite files_with in Ei, Eb. rewrite bind_Ret. cbv beta iota.
  destruct (vfs_close_spec (files x1) _ fd (shell_files x1 Hx')) as (v' & -> & Hv' & Ei' & Eb'). rewrite bind_Ret. cbv zeta.
  assert (forall j, file_bytes v' j = file_bytes v j) as Hf by (intros j; apply file_bytes_ext; congruence).
  pose proof (with_files_ok v' x1 Hx' Hv') as Hx2. destruct (default 10 (last c) =? 10); cbn [negb].
  - eexists. split; [done|]. split; [done|]. split; [done|]. rewrite shown_with, Es, app_nil_r. split; [done|]. intros j. by rewrite files_with.
  - rewrite print_spec by apply newline_terminated. eexists. split; [done|]. split; [by apply spoken_ok|]. split; [done|]. rewrite shown_spoken, shown_with, Es, <- app_assoc. split; [done|].
    intros j. by rewrite files_spoken, files_with.
Qed.

(** The whole of a printed line. *)
Lemma shown_prints ss x : Forall terminated ss -> exists x', prints ss x = Ret x' /\ shown x' = shown x ++ crlf (concat (map cstr ss)) /\ x' = spoken (crlf (concat (map cstr ss))) x.
Proof.
  intros Hs. rewrite prints_spec by done. assert (concat (map (fun s => crlf (cstr s)) ss) = crlf (concat (map cstr ss))) as ->.
  { clear Hs. induction ss as [|s ss IH]; [done|]. cbn [map concat]. by rewrite crlf_app, IH. }
  eexists. split; [done|]. split; [apply shown_spoken|done].
Qed.

Lemma write_stores junk x name data u w : shell_ok x -> unique_names (inodes (files x)) -> names x name u w ->
  Forall (fun c => c <> 0) data -> head data <> Some 32 -> zlen data <= 16384 ->
  exists x1, write_command junk (name ++ 32 :: data ++ [0]) x = Ret x1 /\ shell_ok x1 /\ cwd x1 = cwd x /\ unique_names (inodes (files x1))
    /\ (shown x1 = shown x ++ crlf (bytes "failed to open/create file" ++ [10])
        \/ shown x1 = shown x ++ crlf (bytes "wrote " ++ rev (itoa_text (zlen data) 12) ++ bytes " bytes to '" ++ name ++ bytes "'" ++ [10])
           /\ exists k, reach (inodes (files x1)) 0 (comps (path_text (cstr (cwd x)) name)) k /\ file_at (inodes (files x1)) k
                /\ file_bytes (files x1) k = Some data /\ (forall j, 0 <= j -> j <> k -> file_bytes (files x1) j = file_bytes (files x) j)
                /\ ~ Forall (fun f => f_inode f <> -1) (fds (files x1))).
Proof.
  intros Hx Hun Hnm Hnz Hh Hdl. pose proof Hnm as (Hw & Hnl & _). unfold write_command.
  rewrite next_arg_spec, bind_Ret; [|apply Hw|by destruct data|by destruct data].
  rewrite (copy_word_spec name 32), bind_Ret; [|apply Hw|by right|lia|by rewrite length_replicate]. cbv beta iota.
  set (q := drop (length name) (replicate 32 0)). assert (exists d q', q = d :: q') as (d & q' & Eq).
  { destruct q as [|d q'] eqn:E; [|by eexists _, _]. apply (f_equal length) in E. unfold q in E. rewrite length_drop, length_replicate in E. simpl in E. lia. }
  rewrite Eq, aset_app, bind_Ret, <- app_assoc by done. cbn [app].
  assert (cstr (name ++ 0 :: q') = name) as En by by apply cstr_app, word_nonzero. pose proof (terminated_app name q') as Hnt.
  destruct (names_path x name u w _ Hx Hnm Hnt En) as (path & -> & Hsh & Ep). rewrite bind_Ret.
  assert (cstr (data ++ [0]) = data) as Ed by by apply cstr_app. pose proof (terminated_app data []) as Hdt.
  rewrite k_strlen_spec, bind_Ret by (rewrite ?Ed; done || lia). rewrite Ed.
  destruct (put_file_stores (files x) _ junk path u w (data ++ [0]) (zlen data) (shell_files x Hx) Hun Hsh) as (r & v & -> & Hv & Hun' & Hok); [rewrite length_app; simpl; lia|lia|].
  rewrite bind_Ret. cbv beta iota zeta. pose proof (with_files_ok v x Hx Hv) as Hx1. destruct r as [n|]; [rewrite bool_decide_false by done|rewrite bool_decide_true by done].
  - destruct (Hok n eq_refl) as (_ & k & Hk & Hfk & Hb & Ho & Hfree). destruct (itoa_buf_ok 12 (zlen data)) as (buf & -> & Hbt & Eb); [done|lia|]. rewrite bind_Ret.
    destruct (shown_prints [lit "wrote "; buf; lit " bytes to '"; name ++ 0 :: q'; line_of "'"] (with_files x v)) as (x' & -> & Es & ->); [texts|].
    eexists. split; [done|]. split; [by apply spoken_ok|]. split; [done|]. rewrite files_spoken, files_with. split; [done|]. right. split.
    + rewrite Es, shown_with. cbn [map concat]. rewrite En, Eb. change (cstr (lit "wrote ")) with (bytes "wrote "). change (cstr (lit " bytes to '")) with (bytes " bytes to '").
      change (cstr (line_of "'")) with (bytes "'" ++ [10]). by rewrite app_nil_r.
    + exists k. rewrite <- Ep. rewrite take_app_le, take_ge in Hb by lia. done.
  - rewrite print_spec by apply line_terminated. eexists. split; [done|]. split; [by apply spoken_ok|]. split; [done|]. rewrite files_spoken, files_with, shown_spoken. split; [done|]. by left.
Qed.

(** C40. What is written is shown.  [write NAME DATA], for a name of at most 31
    characters that makes a short path in the working directory, either says
    that the file could not be opened, or says how many bytes it wrote; then
    [cat NAME] prints exactly the data, and a line end if the data has none, and
    no other file has changed.  The shell stays sound throughout. *)
Theorem write_then_cat (junk : list Z) x (name data u w : list Z) :
  shell_ok x -> unique_names (inodes (files x)) -> names x name u w ->
  Forall (fun c => c <> 0) data -> head data <> Some 32 -> zlen data <= 16384 ->
  exists x1, write_command junk (name ++ 32 :: data ++ [0]) x = Ret x1 /\ shell_ok x1
    /\ (shown x1 = shown x ++ crlf (bytes "failed to open/create file" ++ [10])
        \/ shown x1 = shown x ++ crlf (bytes "wrote " ++ rev (itoa_text (zlen data) 12) ++ bytes " bytes to '" ++ name ++ bytes "'" ++ [10])
           /\ exists x2, cat_command (name ++ [0]) x1 = Ret x2 /\ shell_ok x2
                /\ shown x2 = shown x1 ++ crlf data ++ (if default 10 (last data) =? 10 then [] else [13; 10])
                /\ exists k, file_bytes (files x2) k = Some data
                     /\ forall j, 0 <= j -> j <> k -> file_bytes (files x2) j = file_bytes (files x) j).
Proof.
  intros Hx Hun Hnm Hnz Hh Hdl. destruct (write_stores junk x name data u w Hx Hun Hnm Hnz Hh Hdl) as (x1 & -> & Hx1 & Ew & Hun1 & [Hf|[Hs (k & Hk & Hfk & Hb & Ho & Hfree)]]);
    (exists x1; split; [done|]; split; [done|]); [by left|right; split; [done|]].
  assert (names x1 name u w) as Hnm1 by (unfold names; rewrite Ew; exact Hnm). pose proof (word_nonzero _ (proj1 Hnm)) as Hwz.
  assert (cstr (name ++ [0]) = name) as En by by apply cstr_app. pose proof (terminated_app name []) as Hnt.
  unfold cat_command. destruct (names_path x1 name u w _ Hx1 Hnm1 Hnt En) as (path & -> & Hsh & Ep). rewrite bind_Ret.
  destruct (vfs_open_effect (files x1) _ [] path u w O_RDONLY (shell_files x1 Hx1) Hun1 Hsh) as (fd & v & -> & Hv & _ & Hr). rewrite bind_Ret. cbv beta iota zeta.
  rewrite Ep, Ew in Hr. destruct Hr as [(k' & Hk' & Hcase)|[Hno _]]; [|by destruct (Hno k)].
  assert (k' = k) as -> by by eapply reach_fun. destruct Hcase as [((_ & y & Ey & _ & Hty) & _)|(_ & Hop & Hbv & Hob & _)].
  { destruct Hfk as (_ & z & Ez & _ & Htz). rewrite Ey in Ez. injection Ez as <-. rewrite Hty in Htz. discriminate. }
  change (has_flag O_RDONLY O_TRUNC) with false in Hbv. cbv iota in Hbv. rewrite Hb in Hbv.
  destruct (cat_shows x1 fd v k data Hx1 Hv Hop Hfree Hbv Hnz) as (x2 & E & Hx2 & _ & Hs2 & Hf2).
  assert ((fd <? 0) = false) as ->. { destruct Hop as [(_ & _ & Hall)|(_ & y & (? & _))]; [done|]. by apply Z.ltb_ge; lia. }
  exists x2. split; [exact E|]. split; [done|]. split; [done|]. exists k. rewrite Hf2. split; [done|]. intros j Hj Hne. by rewrite Hf2, Hob, Ho.
Qed.
End RoundTrip.

(** *** Examples *)

Definition start_shell : shell heap := mk_shell user_machine (47 :: replicate 127 0).
Lemma start_shell_ok : shell_ok start_shell.
Proof. split; [apply user_machine_ok|]. split; [right; by left|done]. Qed.
Lemma start_shell_unique : unique_names (inodes (files start_shell)).
Proof. assert (inodes (files start_shell) = inodes (vfs_after [])) as -> by (vm_compute; reflexivity). apply vfs_empty_unique. Qed.

Lemma write_then_cat_witness : exists x1 x2, write_command [] (lit "note one two") start_shell = Ret x1 /\ cat_command (lit "note") x1 = Ret x2
  /\ shown x2 = shown x1 ++ bytes "one two" ++ [13; 10].
Proof.
  destruct (write_then_cat [] start_shell (bytes "note") (bytes "one two") [] (bytes "note")) as (x1 & E1 & _ & Hr).
  - apply start_shell_ok.
  - apply start_shell_unique.
  - split; [split; [discriminate|repeat (constructor; [split; discriminate|]); constructor]|]. split; [vm_compute; discriminate|].
    split; [split; [unfold noslash; intros Hin%list_elem_of_In; vm_compute in Hin; intuition discriminate|by right]|]. split; vm_compute; discriminate.
  - repeat (constructor; [discriminate|]). constructor.
  - discriminate.
  - vm_compute. discriminate.
  - change (bytes "note" ++ 32 :: bytes "one two" ++ [0]) with (lit "note one two") in E1. exists x1. destruct Hr as [Hf|(_ & x2 & E2 & _ & Hs & _)].
    + exfalso. assert (match write_command [] (lit "note one two") start_shell with Ret y => zlen (shown y) = 25 | _ => False end) as Hy by (vm_compute; reflexivity).
      rewrite E1, Hf in Hy. vm_compute in Hy. discriminate Hy.
    + exists x2. split; [exact E1|]. split; [exact E2|]. exact Hs.
Defined.
