(* ===== verification/Programs.v ===== *)
(** Compiling and starting programs: tinycc_compile, tinycc_is_program and
    tinycc_exec of tinycc.c (lines 1063-1120 and 1262-1309), and the shell
    commands of kernel.c that use them (lines 1422-1539).

    [junk] arguments are what fresh memory holds.  EL1 memory, where ELF
    programs are loaded, is [umem] of the machine. *)
From S2P Require Import Prelude Spinlock Allocator Heap CString Blocks Uart PageTable Task Vfs Shell User Cpu TinyVm TinyLex TinyCc Elf Commands.

Section Files.
Context {H : Type} `{Allocator H}.
Implicit Types (v : vfs H).

(** kfree(p), when p is not null. *)
Definition free_if (p : Z) (b : bheap H) : outcome (bheap H) := if p =? 0 then Ret b else blk_free p b.

(** The second half of tinycc_compile: [prog] holds [len] bytes of program. *)
Definition store_program (junk out_path : list Z) (prog len : Z) v : outcome (Z * vfs H) :=
  data ← blk_get prog (vblocks v);
  '(r, v) ← put_file junk out_path data len v;
  b ← blk_free prog (vblocks v);
  Ret (match r with Some n => if n =? len then 0 else -1 | None => -1 end, set_vblocks v b).

(** tinycc_compile from the read on: [src] and [prog] are its two buffers. *)
Definition compile_file (junk out_path : list Z) (in_fd src prog : Z) v : outcome (Z * vfs H) :=
  buf ← blk_get src (vblocks v);
  '(src_len, buf, v) ← vfs_read in_fd buf VFS_MAX_FSIZE v;
  b ← blk_upd src (fun _ => Ret buf) (vblocks v);
  v ← vfs_close in_fd (set_vblocks v b);
  if src_len <=? 0 then
    b ← blk_free src (vblocks v);
    b ← blk_free prog b;
    Ret (-1, set_vblocks v b)
  else
    b ← blk_upd src (fun d => aset d src_len 0) (vblocks v);
    text ← blk_get src b;
    out ← blk_get prog b;
    '(res, h) ← compile_buffer text src_len out VFS_MAX_FSIZE (bh_heap b);
    let b := mk_bheap h (blocks b) in
    match res with
    | None =>
      b ← blk_free src b;
      b ← blk_free prog b;
      Ret (-1, set_vblocks v b)
    | Some (out, len) =>
      b ← blk_upd prog (fun _ => Ret out) b;
      b ← blk_free src b;
      store_program junk out_path prog len (set_vblocks v b)
    end.

Definition tinycc_compile (junk src_path out_path : list Z) v : outcome (Z * vfs H) :=
  '(in_fd, v) ← vfs_open [] src_path O_RDONLY v;
  if in_fd <? 0 then Ret (-1, v)
  else
    '(src, b) ← blk_alloc junk (VFS_MAX_FSIZE + 1) (vblocks v);
    '(prog, b) ← blk_alloc junk VFS_MAX_FSIZE b;
    if (src =? 0) || (prog =? 0) then
      b ← free_if src b;
      b ← free_if prog b;
      v ← vfs_close in_fd (set_vblocks v b);
      Ret (-1, v)
    else compile_file junk out_path in_fd src prog (set_vblocks v b).

Definition tinycc_is_program (path : list Z) v : outcome (bool * vfs H) :=
  '(fd, v) ← vfs_open [] path O_RDONLY v;
  if fd <? 0 then Ret (false, v)
  else
    '(n, hdr, v) ← vfs_read fd (replicate 4 0) 4 v;
    v ← vfs_close fd v;
    Ret ((n =? 4) && bool_decide (hdr = TCC_MAGIC), v).
End Files.

Section Programs.
Context {H : Type} `{Allocator H} `{CodeAddrs}.
Implicit Types (x : shell H) (v : vfs H).

Definition kernel_of x : sys H := kern (mu (sm x)).
Definition with_kernel x (s : sys H) : shell H := with_sm x (with_kern (sm x) s).

(** The program of a task. *)
Definition set_prog (tid p size : Z) (s : sys H) : outcome (sys H) :=
  l ← aset (tinycc_tasks s) tid (mk_slot p size); Ret (set_slots s l).

(** [entry] is the address of tinycc_task_entry. *)
Definition tinycc_exec (entry : Z) (junk path name : list Z) x : outcome (Z * shell H) :=
  '(fd, v) ← vfs_open [] path O_RDONLY (files x);
  if fd <? 0 then Ret (-1, with_files x v)
  else
    '(size, v) ← vfs_seek fd 0 SEEK_END v;
    '(_, v) ← vfs_seek fd 0 SEEK_SET v;
    if (size <? 8) || (VFS_MAX_FSIZE <? size) then v ← vfs_close fd v; Ret (-1, with_files x v)
    else
      '(p, b) ← blk_alloc junk size (vblocks v);
      let v := set_vblocks v b in
      if p =? 0 then v ← vfs_close fd v; Ret (-1, with_files x v)
      else
        buf ← blk_get p (vblocks v);
        '(n, buf, v) ← vfs_read fd buf size v;
        b ← blk_upd p (fun _ => Ret buf) (vblocks v);
        v ← vfs_close fd (set_vblocks v b);
        if negb (n =? size) then b ← blk_free p (vblocks v); Ret (-1, with_files x (set_vblocks v b))
        else if negb (bool_decide (take 4 buf = TCC_MAGIC)) then b ← blk_free p (vblocks v); Ret (-1, with_files x (set_vblocks v b))
        else
          let x := with_files x v in
          '(tid, s) ← task_create_named entry (Some name) (kernel_of x);
          let x := with_kernel x s in
          if tid <? 0 then b ← blk_free p (vblocks (files x)); Ret (-1, with_files x (set_vblocks (files x) b))
          else s ← set_prog tid p size (kernel_of x); Ret (tid, with_kernel x s).

(** *** The shell commands *)

Definition tcc_compile_command (junk arg label : list Z) x : outcome (shell H) :=
  let usage x := prints [lit "usage: "; label; line_of " <src> -o <out>"] x in
  arg ← skip_blanks arg;
  '(arg, src_name, i) ← copy_word arg (replicate 64 0) 0 64;
  src_name ← aset src_name i 0;
  arg ← skip_blanks arg;
  c ← aget src_name 0;
  dash ← (if c =? 0 then Ret 0 else str_starts_with arg (lit "-o "));
  if (c =? 0) || (dash =? 0) then usage x
  else
    arg ← ptr_add arg 3;
    arg ← skip_blanks arg;
    '(_, out_name, i) ← copy_word arg (replicate 64 0) 0 64;
    out_name ← aset out_name i 0;
    c ← aget out_name 0;
    if c =? 0 then usage x
    else
      src_path ← path_of x src_name;
      out_path ← path_of x out_name;
      '(r, v) ← tinycc_compile junk src_path out_path (files x);
      let x := with_files x v in
      if r <? 0 then
        prints [label; line_of " failed";
                demo_line "supported subset: int vars, assignments/+=/++/--, if/else, do/while/for, break/continue, ! && ||, +-*/% comparisons, u_puts(`...`), u_putc(expr), u_sleep(expr), return expr;" ++ [0]] x
      else prints [label; lit " compiled '"; src_name; lit "' -> '"; out_name; line_of "'"] x.

Definition tcc_command (junk arg : list Z) x : outcome (shell H) := tcc_compile_command junk arg (lit "tcc") x.
Definition toycc_command (junk arg : list Z) x : outcome (shell H) := tcc_compile_command junk arg (lit "toycc") x.

(** The name behind the last slash. *)
Fixpoint base_name (p name : list Z) : outcome (list Z) :=
  match p with
  | [] => Undef
  | c :: p' => if c =? 0 then Ret name else base_name p' (if c =? 47 then p' else name)
  end.

(** How the loader starts a task: [wrapper] is the address of user_task_wrapper. *)
Definition spawn_task (mmu : bool) (wrapper now entry : Z) (name : list Z) (y : vfs H * shell H) : outcome (Z * (vfs H * shell H)) :=
  let x := with_files y.2 y.1 in
  if negb mmu then '(tid, s) ← task_create_named entry (Some name) (kernel_of x); let x := with_kernel x s in Ret (tid, (files x, x))
  else
    '(tid, u) ← user_task_create mmu wrapper entry (Some name) now (mu (sm x));
    let x := with_sm x (mk_mach u (mv (sm x)) (irq_count (sm x)) (umem (sm x)) (daif (sm x))) in
    Ret (tid, (files x, x)).

(** elf_exec on the machine: the image goes to EL1 memory. *)
Definition run_elf (virt mmu : bool) (wrapper now : Z) (junk path name : list Z) x : outcome (Z * shell H) :=
  '(tid, mem, w, y) ← elf_exec (spawn_task mmu wrapper now) virt junk path name (umem (sm x)) (con (mu (sm x))) (files x) x;
  let '(v, x) := y in
  Ret (tid, with_files (with_sm x (with_umem (with_con (sm x) w) mem)) v).
(** *** exec *)

(** exec_command on a board that runs interrupts (both do: the yield that
    starts the task at once is for boards without).  [entry] and [wrapper] are
    the addresses of tinycc_task_entry and user_task_wrapper. *)
Definition report_exec (tid : Z) x : outcome (shell H) :=
  if tid <? 0 then print (line_of "exec failed") x
  else buf ← itoa_buf 12 tid; prints [lit "exec: task "; buf; line_of " started"] x.

Definition exec_command (virt mmu : bool) (entry wrapper now : Z) (junk arg : list Z) x : outcome (shell H) :=
  path ← path_of x arg;
  name ← base_name arg arg;
  '(tcc, v) ← tinycc_is_program path (files x);
  let x := with_files x v in
  '(tid, x) ← (if (tcc : bool) then tinycc_exec entry junk path name x else run_elf virt mmu wrapper now junk path name x);
  report_exec tid x.

Definition exec_shortcut_command (virt mmu : bool) (entry wrapper now : Z) (junk arg : list Z) x : outcome (shell H) :=
  c ← aget arg 0;
  if c =? 0 then print (line_of "usage: ./<program>") x
  else
    '(_, prog, i) ← copy_word arg (replicate 64 0) 0 64;
    prog ← aset prog i 0;
    t ← str_eq prog (lit "tcc");
    if negb (t =? 0) then
      x ← print (line_of "tcc is a shell compile command, not an executable in the VFS.") x;
      print (line_of "use: tcc <src> -o <out>") x
    else exec_command virt mmu entry wrapper now junk prog x.
End Programs.

(** ** Compiling *)
Section Compiling.
Context {H : Type} `{AllocatorLaws H}.
Implicit Types (v : vfs H).

Lemma keeps_bowns (s : bheap H) l h : bowns s l -> al_wf h -> keeps_live (bh_heap s) h -> bowns (mk_bheap h (blocks s)) l.
Proof.
  intros [(_ & Hn & Hl) Hb] Hw Hk. split; [|done]. split; [done|]. split; [done|]. eapply Forall_impl; [exact Hl|]. intros p [n Hp]. exists n. by apply Hk.
Qed.

Lemma set_vblocks_twice v b b' : set_vblocks (set_vblocks v b) b' = set_vblocks v b'.
Proof. done. Qed.

(** What a file at a path holds. *)
Definition file_holds v (path c : list Z) : Prop :=
  exists k, reach (inodes v) 0 (comps (cstr path)) k /\ file_at (inodes v) k /\ file_bytes v k = Some c.

Lemma store_program_ok v rest junk out_path prog len : vfs_inv v ((prog, 16384) :: rest) -> path_ok out_path -> 0 <= len <= 16384 ->
  exists data r v', blk_get prog (vblocks v) = Ret data /\ store_program junk out_path prog len v = Ret (r, v') /\ vfs_inv v' rest /\ (r = 0 \/ r = -1)
    /\ forall u w, unique_names (inodes v) -> short_split out_path u w -> unique_names (inodes v')
         /\ (r = 0 -> file_holds v' out_path (take (Z.to_nat len) data) /\ ~ Forall (fun f => f_inode f <> -1) (fds v')).
Proof.
  intros Hv Hp Hl. destruct (client_get v prog 16384 rest Hv) as (data & E & Hdl); [done|]. exists data. unfold store_program. rewrite E, bind_Ret.
  destruct (put_file_inv v _ junk out_path data len Hv Hp) as (r & v1 & E1 & Hv1); [lia|lia|]. rewrite E1, bind_Ret. cbv beta iota.
  destruct (client_free v1 prog 16384 rest Hv1) as (b & -> & Hv2 & Hf & _). rewrite bind_Ret. eexists _, _. split; [done|]. split; [reflexivity|]. split; [done|].
  split; [destruct r as [n|]; [destruct (n =? len)|]; auto|]. intros u w Hun Hsh.
  destruct (put_file_stores v _ junk out_path u w data len Hv Hun Hsh) as (r' & v1' & E1' & _ & Hun1 & Hok); [lia|lia|]. rewrite E1 in E1'. injection E1' as <- <-.
  split; [done|]. destruct r as [n|]; [|done]. intros _. destruct (Hok n eq_refl) as (_ & k & Hk & Hfk & Hb & _ & Hfr). split; [|done].
  exists k. split; [done|]. split; [done|]. by rewrite Hf, Hb, Z.min_l by lia.
Qed.

(** The program a compiler run leaves in the buffer. *)
Definition is_program (c : list Z) : Prop := take 4 c = TCC_MAGIC /\ 8 <= zlen c <= 16384.

(** The source the compiler is given and the program it makes of it. *)
Definition compiles (c prog : list Z) : Prop :=
  exists tail o o' n st, compile_source (c ++ 0 :: tail) (zlen c) o 16384 = Ret (st, Some (o', n)) /\ prog = take (Z.to_nat n) o'.

Lemma compile_buffer_source src n o cap (h : H) res h' : compile_buffer src n o cap h = Ret (Some res, h') -> exists st, compile_source src n o cap = Ret (st, Some res).
Proof.
  unfold compile_buffer. destruct (cap <? 8); [by intros [=]|]. intros E.
  apply bind_Ret_inv in E as ([ctx h1] & _ & E). cbv beta iota in E. destruct (ctx =? 0); [by injection E|].
  apply bind_Ret_inv in E as ([lp h2] & _ & E). cbv beta iota in E. destruct (lp =? 0); [by apply bind_Ret_inv in E as (? & _ & [=])|].
  apply bind_Ret_inv in E as ([st r] & -> & E). cbv beta iota in E. exists st. destruct st; [| |by injection E].
  all: apply bind_Ret_inv in E as (? & _ & E); apply bind_Ret_inv in E as (? & _ & [= -> _]); done.
Qed.

Lemma compile_file_ok v rest junk out_path fd src prog : vfs_inv v ((src, 16385) :: (prog, 16384) :: rest) -> path_ok out_path ->
  exists r v', compile_file junk out_path fd src prog v = Ret (r, v') /\ vfs_inv v' rest /\ (r = 0 \/ r = -1)
    /\ forall f x c u w, opened v fd f x -> f_pos f = 0 -> file_bytes v (f_inode f) = Some c -> unique_names (inodes v) -> short_split out_path u w ->
         unique_names (inodes v') /\
         (r = 0 -> exists p, compiles c p /\ is_program p /\ file_holds v' out_path p /\ ~ Forall (fun f => f_inode f <> -1) (fds v')).
Proof.
  intros Hv Hpo. unfold compile_file. destruct (client_get v src 16385 _ Hv) as (buf & E & Hbl); [done|]. rewrite E, bind_Ret.
  destruct (vfs_read_spec v _ fd buf VFS_MAX_FSIZE Hv) as (n & buf' & v1 & -> & Hv1 & Ei1 & Eb1 & Hno & Hrd); [done|unfold VFS_MAX_FSIZE; lia|]. rewrite bind_Ret. cbv beta iota.
  assert (zlen buf' = 16385 /\ n <= 16384 /\ (0 < n -> exists a q, buf' = a ++ q /\ zlen a = n
    /\ forall f x c, opened v fd f x -> f_pos f = 0 -> file_bytes v (f_inode f) = Some c -> a = c)) as (Hbl' & Hn & Hsrc).
  { destruct (open_desc_spec v _ fd Hv) as [[_ Hnone]|(f & x & _ & Hop & _ & Hty & Hd & Hnx & Hp & _)].
    - destruct (Hno Hnone) as [-> ->]. split; [done|]. split; lia.
    - destruct (Hrd f x Hop) as (c & Hc & Er & -> & _). destruct (opened_small _ _ _ _ _ _ Hv Hop Hc) as [Hcl Hp0]. unfold VFS_MAX_FSIZE in Er.
      assert (zlen (take (Z.to_nat n) (drop (Z.to_nat (f_pos f)) c)) = n) as Hal by (rewrite length_take, length_drop; lia).
      split; [rewrite length_app, length_drop; lia|]. split; [lia|]. intros Hn. eexists _, _. split; [reflexivity|]. split; [done|].
      intros g y c' (_ & Eg & _) Hg Hc'. destruct Hop as (_ & Ef & _). rewrite Ef in Eg. injection Eg as <-. rewrite Hc in Hc'. injection Hc' as <-.
      rewrite Hg. cbn. apply take_ge. lia. }
  destruct (client_upd v1 src 16385 ((prog, 16384) :: rest) (fun _ => Ret buf') Hv1) as (_ & bs & b1 & _ & _ & [= <-] & -> & Eg1 & Hv2 & _); [done|by intros; exists buf'|]. rewrite bind_Ret.
  destruct (vfs_close_spec _ _ fd Hv2) as (v3 & -> & Hv3 & Ei3 & Eb3). rewrite bind_Ret.
  assert (unique_names (inodes v) -> unique_names (inodes v3)) as Hun3 by (rewrite Ei3; cbn; by rewrite Ei1).
  destruct (Z.leb_spec n 0) as [Hn0|Hn0].
  { destruct (client_free v3 src 16385 _ Hv3) as (b & -> & Hv4 & _). rewrite bind_Ret. destruct (client_free (set_vblocks v3 b) prog 16384 rest Hv4) as (b' & E5 & Hv5 & _). cbn [vblocks set_vblocks] in E5. rewrite E5, bind_Ret.
    eexists _, _. split; [done|]. split; [exact Hv5|]. split; [by right|]. intros f x c u w _ _ _ Hun _. split; [by apply Hun3|done]. }
  destruct (Hsrc Hn0) as (a & q & -> & Hal & Hac). destruct q as [|z q]; [rewrite app_nil_r in Hbl'; lia|].
  destruct (client_upd v3 src 16385 ((prog, 16384) :: rest) (fun d => aset d n 0) Hv3) as (bs & bs' & b2 & Eg3 & _ & Ea & -> & Eg2 & Hv4 & _); [done| |].
  { intros bs Hl. rewrite aset_ok by lia. eexists. split; [done|]. by rewrite length_insert. }
  assert (bs' = a ++ 0 :: q) as ->.
  { rewrite Eb3 in Eg3. cbn [vblocks set_vblocks] in Eg3. rewrite Eg1 in Eg3. injection Eg3 as <-. rewrite <- Hal, aset_app in Ea by done. injection Ea as <-. by rewrite <- app_assoc. }
  rewrite bind_Ret, Eg2, bind_Ret.
  assert (vfs_inv (set_vblocks v3 b2) ((prog, 16384) :: (src, 16385) :: rest)) as Hv4' by (eapply vfs_inv_perm; [|exact Hv4]; constructor).
  destruct (client_get _ prog 16384 _ Hv4') as (o & Eo & Hol); [done|]. cbn [vblocks set_vblocks] in Eo. rewrite Eo, bind_Ret.
  pose proof (vi_blocks _ _ Hv4) as Hbo. cbn [vblocks set_vblocks inodes] in Hbo.
  destruct (compile_buffer_run (a ++ 0 :: q) n o VFS_MAX_FSIZE (bh_heap b2)) as (res & h & Ec & Hw & Hkl & Hres); [apply Hbo|apply terminated_app|unfold VFS_MAX_FSIZE; lia|lia|].
  rewrite Ec, bind_Ret. cbv beta iota zeta. pose proof (keeps_bowns b2 _ h Hbo Hw Hkl) as Hbo'.
  assert (vfs_inv (set_vblocks v3 (mk_bheap h (blocks b2))) ((src, 16385) :: (prog, 16384) :: rest)) as Hv5 by (by apply (set_vblocks_inv v3 ((src, 16385) :: (prog, 16384) :: rest))).
  destruct res as [[o' len]|].
  2:{ destruct (client_free _ src 16385 _ Hv5) as (b & E5 & Hv6 & _). cbn [vblocks set_vblocks] in E5. rewrite E5, bind_Ret.
      destruct (client_free _ prog 16384 rest Hv6) as (b' & E6 & Hv7 & _). cbn [vblocks set_vblocks] in E6. rewrite E6, bind_Ret. eexists _, _. split; [done|]. split; [exact Hv7|]. split; [by right|].
      intros f x c u w _ _ _ Hun _. split; [by apply Hun3|done]. }
  destruct Hres as (Hol' & Hlen & Hmag & _). unfold VFS_MAX_FSIZE in Hlen.
  assert (vfs_inv (set_vblocks v3 (mk_bheap h (blocks b2))) ((prog, 16384) :: (src, 16385) :: rest)) as Hv5' by (eapply vfs_inv_perm; [|exact Hv5]; constructor).
  destruct (client_upd _ prog 16384 _ (fun _ => Ret o') Hv5') as (_ & bo & b6 & _ & _ & [= <-] & E6 & Eg6 & Hv6 & _); [done|intros; exists o'; split; [done|lia]|]. cbn [vblocks set_vblocks] in E6. rewrite E6, bind_Ret.
  assert (vfs_inv (set_vblocks v3 b6) ((src, 16385) :: (prog, 16384) :: rest)) as Hv6' by (eapply vfs_inv_perm; [|exact Hv6]; constructor).
  destruct (client_free _ src 16385 _ Hv6') as (b7 & E7 & Hv7 & Hv7'). cbn [vblocks set_vblocks] in E7.
  destruct Hv7' as [_ Hk7]. rewrite E7, bind_Ret.
  destruct (store_program_ok (set_vblocks v3 b7) rest junk out_path prog len Hv7 Hpo) as (data & r & v' & Ed & -> & Hv' & Hr & Hfun); [lia|].
  cbn [vblocks set_vblocks] in Ed, Hk7. rewrite Hk7, Eg6 in Ed by (by apply not_eq_sym, (client_distinct _ _ _ _ _ _ Hv6')). injection Ed as <-.
  exists r, v'. split; [done|]. split; [done|]. split; [done|]. intros f x c u w Hop Hp0 Hc Hun Hsh.
  destruct (Hfun u w (Hun3 Hun) Hsh) as [Hun' Hok0]. split; [done|]. intros Hr0. destruct (Hok0 Hr0) as [Hh Hfr]. exists (take (Z.to_nat len) o').
  pose proof (Hac f x c Hop Hp0 Hc) as Eac. subst c. destruct (compile_buffer_source _ _ _ _ _ _ _ Ec) as [st Est]. split.
  - exists q, o, o', len, st. rewrite <- Hal in Est. by split.
  - split; [|by split]. split; [rewrite take_take, Nat.min_l by lia; done|]. rewrite length_take. lia.
Qed.

Lemma free_if_ok v p n rest : (p = 0 /\ vfs_inv v rest \/ p <> 0 /\ vfs_inv v ((p, n) :: rest)) ->
  exists b, free_if p (vblocks v) = Ret b /\ vfs_inv (set_vblocks v b) rest.
Proof.
  unfold free_if. intros [[-> Hv]|[Hp Hv]].
  - exists (vblocks v). split; [done|]. by destruct v.
  - destruct (Z.eqb_spec p 0); [done|]. destruct (client_free v p n rest Hv) as (b & E & Hv' & _). by exists b.
Qed.

Lemma tinycc_compile_ok v rest junk src_path out_path : vfs_inv v rest -> path_ok src_path -> path_ok out_path ->
  exists r v', tinycc_compile junk src_path out_path v = Ret (r, v') /\ vfs_inv v' rest /\ (r = 0 \/ r = -1)
    /\ forall us ws u w, unique_names (inodes v) -> short_split src_path us ws -> short_split out_path u w ->
         r = 0 -> unique_names (inodes v') /\ exists c p, file_holds v src_path c /\ compiles c p /\ is_program p
                    /\ file_holds v' out_path p /\ ~ Forall (fun f => f_inode f <> -1) (fds v').
Proof.
  intros Hv Hps Hpo. unfold tinycc_compile. destruct (vfs_open_inv v rest [] src_path O_RDONLY Hv Hps) as (fd & v1 & E1 & Hv1). rewrite E1, bind_Ret. cbv beta iota.
  destruct (Z.ltb_spec fd 0) as [|Hfd]; [exists (-1), v1; split; [done|]; split; [done|]; split; [by right|done]|].
  destruct (client_alloc v1 rest junk (VFS_MAX_FSIZE + 1) Hv1) as (src & b1 & -> & Hf1 & Hsrc); [done|]. rewrite bind_Ret. cbv beta iota.
  assert (exists rest1, vfs_inv (set_vblocks v1 b1) rest1 /\ (src = 0 /\ rest1 = rest \/ src <> 0 /\ rest1 = (src, 16385) :: rest)) as (rest1 & Hv2 & Hr1).
  { destruct Hsrc as [[-> Hv2]|[Hs Hv2]]; eexists; (split; [exact Hv2|]); [by left|by right]. }
  destruct (client_alloc (set_vblocks v1 b1) rest1 junk VFS_MAX_FSIZE Hv2) as (prog & b2 & E2 & Hf2 & Hprog); [done|]. cbn [vblocks set_vblocks] in E2. rewrite E2, bind_Ret. cbv beta iota.
  change (set_vblocks (set_vblocks v1 b1) b2) with (set_vblocks v1 b2) in *.
  destruct ((src =? 0) || (prog =? 0)) eqn:E0.
  - assert (exists b, free_if src b2 = Ret b /\ (prog = 0 /\ vfs_inv (set_vblocks v1 b) rest \/ prog <> 0 /\ vfs_inv (set_vblocks v1 b) ((prog, VFS_MAX_FSIZE) :: rest))) as (b3 & -> & Hv3).
    { destruct Hr1 as [[-> ->]|[Hs ->]].
      - exists b2. split; [done|exact Hprog].
      - destruct Hprog as [[-> Hv3]|[Hp Hv3]].
        + destruct (free_if_ok (set_vblocks v1 b2) src 16385 rest) as (b & E & Hv4); [by right|]. exists b. split; [exact E|]. by left.
        + apply orb_true_iff in E0 as [?%Z.eqb_eq|?%Z.eqb_eq]; done. }
    rewrite bind_Ret. destruct (free_if_ok (set_vblocks v1 b3) prog VFS_MAX_FSIZE rest Hv3) as (b4 & E4 & Hv4). cbn [vblocks set_vblocks] in E4. rewrite E4, bind_Ret.
    destruct (vfs_close_spec _ rest fd Hv4) as (v5 & E5 & Hv5 & _). change (set_vblocks (set_vblocks v1 b3) b4) with (set_vblocks v1 b4) in E5. rewrite E5, bind_Ret.
    exists (-1), v5. split; [done|]. split; [done|]. split; [by right|done].
  - apply orb_false_iff in E0 as [Hs0%Z.eqb_neq Hp0%Z.eqb_neq]. destruct Hr1 as [[? _]|[_ ->]]; [done|]. destruct Hprog as [[? _]|[_ Hv3]]; [done|].
    destruct (compile_file_ok (set_vblocks v1 b2) rest junk out_path fd src prog) as (r & v' & -> & Hv' & Hr & Hfun); [eapply vfs_inv_perm; [|exact Hv3]; constructor|done|].
    exists r, v'. split; [done|]. split; [done|]. split; [done|]. intros us ws u w Hun Hss Hso Hr0.
    destruct (vfs_open_effect v rest [] src_path us ws O_RDONLY Hv Hun Hss) as (fd' & v1' & E1' & _ & Hun1 & Hopen). rewrite E1 in E1'. injection E1' as <- <-.
    destruct Hopen as [(k & Hk & [(_ & -> & _)|(Hfk & Hop & Hb & _)])|[_ [(_ & -> & _)|[Hc _]]]]; [lia| |lia|done].
    destruct Hop as [(-> & _)|(_ & x & Hop)]; [lia|]. change (has_flag O_RDONLY O_APPEND) with false in Hop. change (has_flag O_RDONLY O_TRUNC) with false in Hb. cbv iota in Hop, Hb.
    assert (exists c, file_bytes v k = Some c) as [c Hc].
    { destruct (open_desc_spec v1 rest fd Hv1) as [[_ Hno]|(g & y & _ & Hg & _ & Hty & Hd & _)]; [by destruct (Hno _ _ Hop)|].
      destruct (opened_bytes v1 rest fd g y Hv1 Hg Hty Hd) as (bs & _ & _ & Hbs). destruct Hop as (_ & Ef & _), Hg as (_ & Eg & _). rewrite Ef in Eg. injection Eg as <-. cbn [f_inode] in Hbs. rewrite Hb in Hbs. by eexists. }
    destruct (Hfun (mk_fd k 0 O_RDONLY) x c u w) as [Hun' Hok]; [exact Hop|done|cbn [f_inode]; by rewrite Hf2, Hf1, Hb|exact Hun1|exact Hso|].
    split; [done|]. destruct (Hok Hr0) as (p & Hcp & Hp & Hh & Hfr). exists c, p. split; [exists k; by split|]. done.
Qed.

(** A compiled file is recognised. *)
Lemma is_program_recognised v rest path u w p : vfs_inv v rest -> unique_names (inodes v) -> short_split path u w -> file_holds v path p -> is_program p ->
  ~ Forall (fun f => f_inode f <> -1) (fds v) -> exists v', tinycc_is_program path v = Ret (true, v') /\ vfs_inv v' rest.
Proof.
  intros Hv Hun Hsh (k & Hk & Hfk & Hc) (Hmag & Hpl) Hfree. unfold tinycc_is_program.
  destruct (vfs_open_effect v rest [] path u w O_RDONLY Hv Hun Hsh) as (fd & v1 & -> & Hv1 & _ & Hopen). rewrite bind_Ret. cbv beta iota.
  destruct Hopen as [(k' & Hk' & Hcase)|[Hno _]]; [|by destruct (Hno k)]. assert (k' = k) as -> by by eapply reach_fun.
  destruct Hcase as [((_ & y & Ey & _ & Hty) & _)|(_ & Hop & Hb & _)].
  { destruct Hfk as (_ & z & Ez & _ & Htz). rewrite Ey in Ez. injection Ez as <-. rewrite Hty in Htz. discriminate. }
  destruct Hop as [(_ & _ & Hall)|(_ & x & Hop)]; [done|]. change (has_flag O_RDONLY O_APPEND) with false in Hop. change (has_flag O_RDONLY O_TRUNC) with false in Hb. cbv iota in Hop, Hb.
  assert ((fd <? 0) = false) as -> by (apply Z.ltb_ge; destruct Hop as (? & _); lia).
  destruct (vfs_read_spec v1 rest fd (replicate 4 0) 4 Hv1) as (n & hdr & v2 & -> & Hv2 & _ & _ & _ & Hrd); [done|done|]. rewrite bind_Ret. cbv beta iota.
  destruct (Hrd _ _ Hop) as (c & Hc' & En & Eh & _). cbn [f_inode f_pos] in *. rewrite Hb, Hc in Hc'. injection Hc' as <-.
  assert (n = 4) as -> by lia. change (drop (Z.to_nat 0) p) with p in Eh. change (Z.to_nat 4) with 4%nat in Eh. rewrite Hmag in Eh. change (drop 4 (replicate 4 0)) with (@nil Z) in Eh. rewrite app_nil_r in Eh. subst hdr.
  destruct (vfs_close_spec v2 rest fd Hv2) as (v3 & -> & Hv3 & _). rewrite bind_Ret. exists v3. by split.
Qed.
End Compiling.

(** ** Starting *)
Section Starting.
Context {H : Type} `{AllocatorLaws H} `{CodeAddrs}.
Implicit Types (x : shell H) (v : vfs H) (held : list (Z * Z)).

Lemma vfs_inv_drop v e rest : vfs_inv v (e :: rest) -> vfs_inv v rest.
Proof.
  intros [? ? ? Hb]. split; [done|done|done|]. rewrite <- Permutation_middle in Hb. destruct Hb as [Ho Hl]. split.
  - apply (owns_app_l _ _ [e.1]). eapply owns_perm; [|exact Ho]. cbn [fmap list_fmap]. solve_Permutation.
  - by apply Forall_cons in Hl as [_ ?].
Qed.

(** The machine is sound, and the blocks [held] belong to the command that runs. *)
Definition holding x held : Prop :=
  kernel_ok (kernel_of x) (held.*1 ++ file_ptrs (sm x)) /\ length (user_ctxs (mu (sm x))) = 16%nat
  /\ vfs_inv (files x) (held ++ kernel_blocks x) /\ terminated (cwd x) /\ length (cwd x) = 128%nat.

Lemma holding_nil x : holding x [] <-> shell_ok x.
Proof. unfold holding, shell_ok, machine_ok, user_ok. cbn [fmap list_fmap app]. tauto. Qed.

Lemma holding_files x held held' v : holding x held -> vfs_inv v (held' ++ kernel_blocks x) -> holding (with_files x v) held'.
Proof.
  intros (Hk & Hl & _ & Hc) Hv. split; [|split; [done|split; [by rewrite files_with|done]]].
  eapply kernel_ok_heap; [exact Hk|]. destruct (vi_blocks _ _ Hv) as [Ho _]. eapply owns_perm; [|exact Ho].
  unfold kernel_blocks. rewrite !fmap_app, live_ptrs_fst. rewrite (sys_owned_rest (kern (mu (sm x)))). unfold file_ptrs. cbn [mv sm with_files with_sm unmount inodes]. solve_Permutation.
Qed.

Lemma kernel_blocks_inv x held (s : sys H) : vfs_inv (files x) (held ++ kernel_blocks x) -> kernel_ok s (held.*1 ++ file_ptrs (sm x)) ->
  vfs_inv (files (with_kernel x s)) (held ++ kernel_blocks (with_kernel x s)).
Proof.
  intros [Ht Hn Hf Hb] Hk. split; [done|done|done|]. destruct Hb as [_ Hbl]. rewrite app_assoc in Hbl. apply Forall_app in Hbl as [Hbl _]. split.
  - destruct Hk as [(_ & Hr & _) _]. eapply owns_perm; [|apply (ri_owns _ _ Hr)]. unfold kernel_blocks. rewrite !fmap_app, live_ptrs_fst, sys_owned_rest.
    unfold kernel_of, with_kernel, file_ptrs. cbn [kern mu with_kern set_kern sm with_sm files mounted inodes mv]. solve_Permutation.
  - rewrite app_assoc. apply Forall_app. split; [exact Hbl|]. apply Forall_map, Forall_forall. intros p _ Hp. simpl in Hp. lia.
Qed.

Lemma holding_kernel x held s : holding x held -> kernel_ok s (held.*1 ++ file_ptrs (sm x)) -> holding (with_kernel x s) held.
Proof. intros (Hk & Hl & Hv & Hc) Hs. split; [exact Hs|]. split; [done|]. split; [by apply kernel_blocks_inv|done]. Qed.

(** The block becomes the program of task [tid]. *)
Lemma holding_program x p n held tid size : holding x ((p, n) :: held) -> 0 <= tid < 16 ->
  exists s, set_prog tid p size (kernel_of x) = Ret s /\ holding (with_kernel x s) held.
Proof.
  intros Hh Ht. pose proof Hh as (Hk & Hl & Hv & Hc). pose proof Hk as [(Hi & Hr & Hcu) Hs]. pose proof (ri_slots _ _ Hr) as Hsl.
  unfold set_prog. rewrite aset_ok, bind_Ret by lia. eexists. split; [done|].
  assert (kernel_ok (set_slots (kernel_of x) (<[Z.to_nat tid := mk_slot p size]> (tinycc_tasks (kernel_of x)))) (held.*1 ++ file_ptrs (sm x))) as Hk'.
  { split; [split; [by destruct Hi|split; [|exact Hcu]]|by destruct Hs]. destruct Hr as [Ho _ Hp Hid Hlen]. split; [|cbn; by rewrite length_insert|done|done|done].
    destruct (lookup_lt_is_Some_2 (tinycc_tasks (kernel_of x)) (Z.to_nat tid)) as [c Hc']; [lia|].
    set (slots := <[Z.to_nat tid := mk_slot p size]> (tinycc_tasks (kernel_of x))).
    assert (p <> 0) as Hp0 by (eapply (bowns_nonnull (vblocks (files x))); [apply Hv|apply elem_of_app; right; by left]).
    assert (exists l, nonnull (map prog slots) ≡ₚ p :: l /\ nonnull (map prog (tinycc_tasks (kernel_of x))) ≡ₚ nonnull [prog c] ++ l) as (l & E1 & E2).
    { exists (nonnull (map prog (take (Z.to_nat tid) (tinycc_tasks (kernel_of x))) ++ map prog (drop (S (Z.to_nat tid)) (tinycc_tasks (kernel_of x))))). split.
      - unfold slots. rewrite insert_take_drop by lia. rewrite map_app. cbn [map prog]. unfold nonnull. rewrite !filter_app, filter_cons_True by done. solve_Permutation.
      - rewrite <- (take_drop_middle _ _ _ Hc') at 1. rewrite map_app. cbn [map]. unfold nonnull. change (prog c :: ?l) with ([prog c] ++ l). rewrite !filter_app. solve_Permutation. }
    apply (owns_app_l _ _ (nonnull [prog c])). eapply owns_perm; [|exact Ho]. unfold sys_owned. cbn [tasks vm tinycc_tasks set_slots]. fold slots. rewrite E1, E2. cbn [fmap list_fmap fst app]. solve_Permutation. }
  split; [exact Hk'|]. split; [done|]. split; [|done]. apply kernel_blocks_inv; [|exact Hk'].
  by apply (vfs_inv_drop _ (p, n)).
Qed.

Lemma seek_end v rest fd f y : vfs_inv v rest -> opened v fd f y ->
  exists v', vfs_seek fd 0 SEEK_END v = Ret (i_size y, v') /\ vfs_inv v' rest /\ inodes v' = inodes v /\ vblocks v' = vblocks v /\ opened v' fd (set_pos (i_size y) f) y.
Proof.
  intros Hv Hop. destruct (open_desc_spec v rest fd Hv) as [[_ Hno]|(g & z & E & Hg & Ez & Hty & Hd & Hn & Hp & _)]; [by destruct (Hno f y)|].
  assert (g = f /\ z = y) as [-> ->].
  { destruct Hop as (_ & Ef & _ & Ey & _), Hg as (_ & Eg & _ & Ez' & _). rewrite Ef in Eg. injection Eg as <-. rewrite Ey in Ez'. by injection Ez' as <-. }
  pose proof (no_size _ Hn). unfold vfs_seek. rewrite E, bind_Ret, Ez, bind_Ret. change (SEEK_END =? SEEK_SET) with false. change (SEEK_END =? SEEK_CUR) with false. change (SEEK_END =? SEEK_END) with true.
  cbv iota zeta. rewrite Z.add_0_r, s32_small by lia. destruct (Z.ltb_spec (i_size y) 0), (Z.ltb_spec (i_size y) (i_size y)); try lia. cbn [orb].
  pose proof Hop as (Hfd & Ef & Hfi & Ey & Hu).
  destruct (upd_fd_inv v rest fd f (set_pos (i_size y)) Hv ltac:(lia) Ef) as (v' & -> & -> & Hv').
  { intros [?|[? _]]; [by left|right]. split; [done|]. unfold VFS_MAX_FSIZE. simpl. lia. }
  rewrite bind_Ret. eexists. split; [done|]. split; [done|]. split; [done|]. split; [done|].
  unfold opened. cbn [fds set_fds inodes f_inode set_pos]. split; [done|]. split; [|done]. apply list_lookup_insert_eq. rewrite (vi_nfds _ _ Hv). lia.
Qed.

(** The program of task [tid] and its bytes. *)
Definition runs x (tid : Z) (prog : list Z) : Prop :=
  exists p, tinycc_tasks (kernel_of x) !! Z.to_nat tid = Some (mk_slot p (zlen prog)) /\ blocks (vblocks (files x)) !! p = Some prog.

(** What tinycc_exec has done when it returns [r]. *)
Definition started path x (r : Z) x' : Prop :=
  shell_ok x' /\ cwd x' = cwd x /\ con (mu (sm x')) = con (mu (sm x))
  /\ (r = -1 \/ 1 <= r < 16 /\ (exists t, task_at (kernel_of x') r = Some t /\ t_state t = TASK_READY)
       /\ forall u w, unique_names (inodes (files x)) -> short_split path u w -> exists c, file_holds (files x) path c /\ take 4 c = TCC_MAGIC /\ runs x' r c).

Lemma fail_started path x v : shell_ok x -> vfs_inv v (kernel_blocks x) -> exists r x', Ret (-1, with_files x v) = Ret (r, x') /\ started path x r x'.
Proof. intros Hx Hv. exists (-1), (with_files x v). split; [done|]. split; [by apply with_files_ok|]. split; [done|]. split; [done|by left]. Qed.

(** A program file is opened for reading at its start. *)
Lemma open_whole v rest path fd v1 u w : vfs_inv v rest -> unique_names (inodes v) -> short_split path u w -> vfs_open [] path O_RDONLY v = Ret (fd, v1) -> 0 <= fd ->
  exists k y c, opened v1 fd (mk_fd k 0 O_RDONLY) y /\ file_bytes v1 k = Some c /\ zlen c = i_size y /\ file_holds v path c.
Proof.
  intros Hv Hun Hsh E Hfd. destruct (vfs_open_effect v rest [] path u w O_RDONLY Hv Hun Hsh) as (fd' & v1' & E' & Hv1 & _ & Hopen). rewrite E in E'. injection E' as <- <-.
  destruct Hopen as [(k & Hk & [(_ & -> & _)|(Hfk & Hop & Hb & _)])|[_ [(_ & -> & _)|[Hc _]]]]; [lia| |lia|done].
  destruct Hop as [(-> & _)|(_ & y & Hop)]; [lia|]. change (has_flag O_RDONLY O_APPEND) with false in Hop. change (has_flag O_RDONLY O_TRUNC) with false in Hb. cbv iota in Hop, Hb.
  destruct (open_desc_spec v1 rest fd Hv1) as [[_ Hno]|(g & z & _ & Hg & _ & Hty & Hd & Hn & _)]; [by destruct (Hno _ _ Hop)|].
  destruct (opened_bytes v1 rest fd g z Hv1 Hg Hty Hd) as (bs & _ & Hbl & Hbs).
  destruct Hop as (Hop1 & Ef & Hop2 & Ey & Hop3), Hg as (_ & Eg & _ & Ez & _). rewrite Ef in Eg. injection Eg as <-. cbn [f_inode] in *. rewrite Ey in Ez. injection Ez as <-.
  exists k, y. eexists. split; [by split|]. split; [exact Hbs|]. pose proof (no_size _ Hn). split; [rewrite length_take; lia|].
  exists k. split; [done|]. split; [done|]. by rewrite <- Hb.
Qed.

(** Measuring and rewinding it. *)
Lemma seek_whole v1 rest fd k y size v2 r v3 : vfs_inv v1 rest -> opened v1 fd (mk_fd k 0 O_RDONLY) y -> 
  vfs_seek fd 0 SEEK_END v1 = Ret (size, v2) -> vfs_seek fd 0 SEEK_SET v2 = Ret (r, v3) -> size = i_size y /\ opened v3 fd (mk_fd k 0 O_RDONLY) y.
Proof.
  intros Hv Hop E1 E2. destruct (seek_end v1 rest fd _ y Hv Hop) as (v2' & E1' & Hv2 & _ & _ & Hop2). rewrite E1 in E1'. injection E1' as -> <-. split; [done|].
  destruct (vfs_seek_spec v2 rest fd 0 SEEK_SET Hv2) as (r' & v3' & E2' & _ & _ & _ & Hs); [lia|]. rewrite E2 in E2'. injection E2' as <- <-.
  specialize (Hs _ _ Hop2 eq_refl). destruct (open_desc_spec v1 rest fd Hv) as [[_ Hno]|(g & z & _ & Hg & _ & _ & _ & Hn & _)]; [by destruct (Hno _ _ Hop)|].
  destruct Hop as (_ & Ef & _ & Ey & _), Hg as (_ & Eg & _ & Ez & _). rewrite Ef in Eg. injection Eg as <-. cbn [f_inode] in *. rewrite Ey in Ez. injection Ez as <-.
  pose proof (no_size _ Hn). rewrite bool_decide_true in Hs by lia. by destruct Hs as [_ ?].
Qed.

Lemma tinycc_exec_ok entry junk path name x : shell_ok x -> path_ok path -> Task.name_ok (Some name) ->
  exists r x', tinycc_exec entry junk path name x = Ret (r, x') /\ started path x r x'.
Proof.
  intros Hx Hp Hn. pose proof (shell_files x Hx) as Hv. unfold tinycc_exec.
  destruct (vfs_open_inv (files x) _ [] path O_RDONLY Hv Hp) as (fd & v1 & E1 & Hv1). rewrite E1, bind_Ret. cbv beta iota.
  destruct (Z.ltb_spec fd 0) as [|Hfd]; [by apply fail_started|].
  destruct (vfs_seek_spec v1 _ fd 0 SEEK_END Hv1) as (size & v2 & E2 & Hv2 & Ei2 & Eb2 & _); [lia|]. rewrite E2, bind_Ret. cbv beta iota.
  destruct (vfs_seek_spec v2 _ fd 0 SEEK_SET Hv2) as (r3 & v3 & E3 & Hv3 & Ei3 & Eb3 & _); [lia|]. rewrite E3, bind_Ret. cbv beta iota.
  destruct ((size <? 8) || (VFS_MAX_FSIZE <? size)) eqn:Esz.
  { destruct (vfs_close_spec v3 _ fd Hv3) as (v4 & -> & Hv4 & _). rewrite bind_Ret. by apply fail_started. }
  apply orb_false_iff in Esz as [Hs8%Z.ltb_ge Hs16%Z.ltb_ge]. unfold VFS_MAX_FSIZE in Hs16.
  destruct (client_alloc v3 _ junk size Hv3) as (p & b & -> & Hfb & Hpb); [lia|]. rewrite bind_Ret. cbv beta iota zeta.
  destruct Hpb as [[-> Hv4]|[Hp0 Hv4]].
  { destruct (vfs_close_spec _ _ fd Hv4) as (v5 & E5 & Hv5 & _). cbn [Z.eqb]. rewrite E5, bind_Ret. by apply fail_started. }
  destruct (Z.eqb_spec p 0); [done|]. destruct (client_get _ p size _ Hv4) as (buf & Eb & Hbl); [lia|]. rewrite Eb, bind_Ret.
  destruct (vfs_read_spec (set_vblocks v3 b) _ fd buf size Hv4) as (n4 & buf' & v4 & -> & Hv5 & Ei5 & Eb5 & Hno & Hrd); [lia|lia|]. rewrite bind_Ret. cbv beta iota.
  assert (zlen buf' = size) as Hbl'.
  { destruct (open_desc_spec (set_vblocks v3 b) _ fd Hv4) as [[_ Hnone]|(f & y & _ & Hop & _)]; [by destruct (Hno Hnone) as [_ ->]|].
    destruct (Hrd f y Hop) as (c & Hc & Er & -> & _). destruct (opened_small _ _ _ _ _ _ Hv4 Hop Hc) as [_ Hpos].
    rewrite length_app, length_take, !length_drop. lia. }
  assert (forall u w, unique_names (inodes (files x)) -> short_split path u w -> exists c, file_holds (files x) path c /\ buf' = c) as Hfun.
  { intros u w Hun Hsh. destruct (open_whole (files x) _ path fd v1 u w Hv Hun Hsh E1 Hfd) as (k & y & c & Hop & Hc & Hcl & Hh). exists c. split; [done|].
    destruct (seek_whole v1 _ fd k y size v2 r3 v3 Hv1 Hop E2 E3) as [-> Hop3]. destruct (Hrd (mk_fd k 0 O_RDONLY) y Hop3) as (c' & Hc' & Er & -> & _). cbn [f_inode f_pos] in *.
    rewrite Hfb in Hc'. rewrite (file_bytes_ext v1) in Hc' by congruence. rewrite Hc in Hc'. injection Hc' as <-. assert (n4 = i_size y) as -> by lia.
    change (drop (Z.to_nat 0) c) with c. rewrite take_ge, drop_ge, app_nil_r by lia. done. }
  clear Hno Hrd. destruct (client_upd v4 p size _ (fun _ => Ret buf') Hv5) as (_ & bs & b5 & _ & _ & [= <-] & -> & Eg5 & Hv6 & _); [lia|by intros; exists buf'|]. rewrite bind_Ret.
  destruct (vfs_close_spec _ _ fd Hv6) as (v6 & -> & Hv7 & _ & Eb7). rewrite bind_Ret. cbn [vblocks set_vblocks] in Eb7.
  assert (forall P : outcome (Z * shell H) -> Prop, (forall b', vfs_inv (set_vblocks v6 b') (kernel_blocks x) -> P (Ret (-1, with_files x (set_vblocks v6 b')))) -> P (b ← blk_free p (vblocks v6); Ret (-1, with_files x (set_vblocks v6 b)))) as Hgive.
  { intros P HP. destruct (client_free v6 p size _ Hv7) as (b' & -> & Hv8 & _). rewrite bind_Ret. by apply HP. }
  destruct (negb (n4 =? size)); [apply (Hgive (fun o => exists r x', o = Ret (r, x') /\ started path x r x')); intros; by apply fail_started|].
  case_bool_decide as Hmag; cbn [negb]; [|apply (Hgive (fun o => exists r x', o = Ret (r, x') /\ started path x r x')); intros; by apply fail_started]. clear Hgive.
  assert (holding (with_files x v6) [(p, size)]) as Hh6 by (apply (holding_files x []); [by apply holding_nil|exact Hv7]).
  destruct (kernel_create entry (Some name) (kernel_of (with_files x v6)) _ (proj1 Hh6) Hn) as (tid & s & -> & Hk & Hid). rewrite bind_Ret. cbv beta iota.
  pose proof (holding_kernel _ _ s Hh6 Hk) as Hh7. set (x7 := with_kernel (with_files x v6) s) in *.
  assert (vblocks (files x7) = mk_bheap (vheap (vm s)) (blocks (vblocks v6))) as Eb8 by done.
  destruct Hid as [->|(Hidr & Hn16 & _ & (t & Ht & _ & Hst) & _)].
  - cbn [Z.ltb Z.compare]. destruct (client_free (files x7) p size _ (proj1 (proj2 (proj2 Hh7)))) as (b' & -> & Hv8 & _). rewrite bind_Ret.
    exists (-1). eexists. split; [reflexivity|]. split; [|split; [done|split; [done|by left]]]. apply holding_nil. by apply (holding_files x7 [(p, size)]).
  - destruct (Z.ltb_spec tid 0); [lia|]. destruct (holding_program x7 p size [] tid size Hh7) as (s' & Es & Hh8); [lia|]. rewrite Es, bind_Ret.
    exists tid. eexists. split; [reflexivity|]. split; [by apply holding_nil|]. split; [done|]. split; [done|]. right. split; [lia|].
    unfold set_prog in Es. apply bind_Ret_inv in Es as (l & El & [= <-]). split; [by exists t|].
    intros u w Hun Hsh. destruct (Hfun u w Hun Hsh) as (c & Hc & <-). exists buf'. split; [done|]. split; [done|]. exists p. split.
    + change (tinycc_tasks (kernel_of x7)) with (tinycc_tasks s) in El. pose proof (ri_slots _ _ (proj1 (proj2 (proj1 Hk)))) as Hsl.
      rewrite aset_ok in El by lia. injection El as <-. rewrite Hbl'. apply list_lookup_insert_eq. lia.
    + change (blocks (vblocks v6) !! p = Some buf'). rewrite Eb7. unfold blk_get in Eg5. destruct (blocks b5 !! p); [by injection Eg5 as ->|done].
Qed.
End Starting.
